(* ===== verification/_CoqProject ===== *)
-Q . S2P
Prelude.v
Ids.v
Wire.v
StrictInput.v
StrictInputCodec.v
Text.v
Compatibility.v
Descriptor.v
Invite.v
Protocol.v
LegacyCodec.v
RateLimit.v
RelayBuffer.v
Slots.v
PauseState.v
SnapshotTransfer.v
LinkState.v
RoomTransactions.v
AdaptiveDelay.v
Room.v
StartSync.v
Connection.v
PauseOps.v
InputRelay.v
HostFrame.v
StateHash.v
SnapshotOps.v
LinkOps.v
System.v
SlotInvariant.v
FrameInvariant.v
ReleaseLog.v
Scenario.v
Guarantees.v
RoomEvents.v
StoredRoom.v
Registry.v
RegistryRelay.v
RegistryRefinement.v
RegistryGuarantees.v
Lobby.v
LobbyEvents.v
LobbyRegistry.v
LobbyInvariant.v
LobbyCalls.v
LobbyGuarantees.v
Metrics.v
FileRelay.v
Messages.v
Socket.v
ControlSocket.v
InputLimiter.v
InputSocket.v
SocketConfinement.v
SocketPanics.v
SocketGuarantees.v
LobbySocket.v
LobbySocketGuarantees.v
Parse.v
Auth.v
Rollout.v
Http.v
Config.v
TelemetryRows.v
Telemetry.v
AnalyticsRows.v
AnalyticsReport.v
AnalyticsTool.v
Routes.v
RouteGuarantees.v
RelayTime.v
Brokers.v
Background.v
Process.v
RegistryTrait.v
Json.v
JsonPayloads.v
JsonViews.v
JsonMessages.v
JsonGuarantees.v
