(* ===== verification/Prelude.v ===== *)
(** * The ShadowBoy netplay relay

  The program is a relay server that brings emulator clients into lock-step sessions. A
  client creates a room and shares an invite code; a second client joins; both report what
  they run, exchange a start state, agree on a start time and then send controller input,
  which the server orders into numbered frames and releases. Everything that decides whether
  the two emulators stay in step lives in one object, [NetplayRoom] ([src/src/rooms/room.rs]
  and its operation files), and in the binary messages of the input lane
  ([src/src/protocol/]). The room registry ([src/src/rooms/room_registry*.rs]) keeps the rooms
  by invite code; each of its operations looks a room up, calls one of its methods under a
  lock, and broadcasts and logs the outcome. Above rooms stand lobbies ([src/src/lobbies/]),
  in which up to four players stay together across several games: they select a game, say
  when they are ready, launch it into a room and return.

  Clients reach the two registries through HTTP routes ([src/src/http/]), which ask a license
  authority about the caller ([src/src/auth/]), and through WebSockets ([src/src/transport/]): a
  control socket and an input socket per player of a room, a socket per player of a lobby and a
  directory of public lobbies. Three timers expire rooms and lobbies and drive the frame clock.
  Rooms and lobbies report to a queue that a task drains into PostgreSQL
  ([src/src/observability/]), and an operator's tool reads the rows back
  ([src/src/analytics/]). The process is configured from its environment ([src/src/config.rs]).
  The development models all of these down to the libraries they call: axum, tokio, the parser of
  JSON text, the HTTP client, the url library and the database client are parameters.

  ** How Rust is modelled

  - An unsigned integer is an [N]. Where the code writes [saturating_add] the model has
    [saturating_add] at that width ([u64_add] and the like); where it writes
    [wrapping_add], wrap-around at that width; [checked_add] returns an option. A plain
    [+] that a caller's value could overflow is recorded as a finding.
  - [Instant] and [Duration] are nanosecond counts ([from_secs] and [from_millis] in this
    file). The clock, fresh UUIDs and token hashes are arguments.
  - [Result] is [result]; [&mut self] methods that return a [Result] are computations in
    the state-and-error monad [M] of this file, in which a failure keeps the state changes
    made before it, as an early return does in Rust. [wp] is its weakest precondition
    and [wp_go] the tactic that walks through a method.
  - [HashMap] and [HashSet] are stdpp's [gmap] and [gset]; the [Vec] of slots is a list in
    slot order; [iter_mut().find] is [update_first], a [for] over [iter_mut()] with a
    filter is [update_all].
  - A struct field assignment is [r <| field := v |>], from the [Setter] class below.
  - Strings are their UTF-8 bytes.
  - An asynchronous task is a computation over a [World] ([Socket]): the shared state, what the
    task has sent, and an [Env] that says what other tasks do to the shared state before each of
    its accesses. A theorem for every [Env] is a theorem for every interleaving. HTTP handlers
    are computations over the [App] of [Routes] in the same way.
  - [f64] is binary64 with rounding to nearest even, from [SpecFloat].

  ** Files

  - [Prelude]: results, the monad, record update, saturating integers, list lemmas,
    tactics and hint databases. [Ids]: [limits.rs], [rooms/ids.rs], [rooms/errors.rs].
  - [Wire], [StrictInput], [StrictInputCodec]: [protocol/strict_input/]. [Wire] holds byte
    reads that may panic, [StrictInput] the encoders and decoders of the five binary
    messages, [StrictInputCodec] the class [WireCodec] of their laws and its five instances.
  - [Text], [Compatibility], [Descriptor], [Protocol]: [descriptor_validation.rs],
    [compatibility.rs], [compatibility_v5.rs], [session_descriptor.rs],
    [netplay_protocol.rs] and the payload types of [protocol/] with their validation.
  - [Invite]: [rooms/invite_code.rs].
  - [Slots], [PauseState], [SnapshotTransfer], [LinkState], [RoomTransactions],
    [AdaptiveDelay]: the parts a room owns, one per Rust file: [player_slot.rs],
    [session_pause_state.rs], [snapshot_transfer.rs], [link_cable_room_state.rs],
    [state_recovery_transaction.rs] with [rom_relay.rs] and [room_voice.rs], and
    [adaptive_input_delay_policy.rs].
  - [Room]: [room.rs] and [room_adaptive_input_delay_ops.rs]. [StartSync]:
    [room_start_sync.rs]. [Connection]: [room_connection_ops.rs],
    [room_input_connection_ops.rs], [room_runner_handoff_ops.rs]. [PauseOps] and
    [InputRelay]: [room_controller_netplay_ops.rs], [room_v5_pause_ops.rs],
    [room_strict_input_ops.rs]. [HostFrame]: [room_host_frame_ops.rs],
    [room_frame_clock_ops.rs]. [StateHash]: [room_state_hash_ops.rs],
    [room_v5_recovery_ops.rs]. [SnapshotOps]: [room_snapshot_ops.rs]. [LinkOps]:
    [room_link_cable_ops.rs], [room_rom_relay_ops.rs], [room_voice_ops.rs].
  - [System]: the 42 mutating methods as [Action]s, [step], and [execution], the rooms
    reachable from room creation with the log of released frames.
  - [SlotInvariant], [FrameInvariant], [ReleaseLog]: the three invariants and their
    preservation by every step.
  - [Scenario]: a complete concrete session, from creation to released frames.
  - [Guarantees]: the theorems about executions, and concrete executions ([Traces]) in which the
    code departs from its contract.
  - [LegacyCodec]: the SBI1, SBI2 and SBF1 encodings ([protocol/input_batch.rs],
    [fast_input.rs], [server_frame.rs]). [RelayBuffer]: [input_frame_relay_buffer.rs] and
    [fast_input_relay_buffer.rs]. [RateLimit]: [rate_limit/].
  - [RoomEvents], [StoredRoom]: [room_view.rs], [room_event.rs], [room_debug_event.rs],
    [room_connection_diagnostics.rs], [stored_room.rs]. [resume_token.rs] is in [SnapshotTransfer].
    [Registry], [RegistryRelay]: the [room_registry_*_ops.rs] files. A registry operation
    works on a [Cell], the stored room and the registry's feed.
  - [RegistryRefinement]: the registry calls as data, [serve], [reachable], and the relation
    [evolves] between a stored room and its successor. [RegistryGuarantees]: the theorems
    about registries.
  - [Lobby]: [lobbies/lobby.rs] with the values it keeps. [LobbyEvents]: views, events and
    transfer checks ([lobby_view.rs], [lobby_event.rs], [lobby_rom_relay.rs],
    [lobby_start_state_relay.rs]). [LobbyRegistry]: [stored_lobby.rs],
    [in_memory_lobby_registry.rs], [lobby_registry_voice_ops.rs].
  - [LobbyInvariant]: the well-formedness of a lobby and its preservation by every method.
    [LobbyCalls]: the step relation of one lobby, the registry's calls and the refinement
    between the two. [LobbyGuarantees]: the theorems about lobbies.
  - [Metrics]: [observability/metrics.rs]. [FileRelay]: [file_relay/types.rs], [broker.rs] and the
    policy of [http/services.rs]. [Messages]: [client_message.rs], [server_message.rs] and the
    messages that room events become.
  - [Socket]: the monad of socket tasks. [ControlSocket]: [websocket_session.rs],
    [websocket_message_handler.rs] and the handlers they call, one definition per client message.
    [InputSocket] with [InputLimiter]: [websocket_input_session.rs], [websocket_input_v5.rs],
    [input_message_rate_limiter.rs]. [LobbySocket]: [lobby_messages.rs],
    [websocket_lobby_session.rs], the relay handlers of lobbies and the public directory.
  - [SocketConfinement]: which calls a socket makes. [SocketPanics]: that none makes its task
    panic. [SocketGuarantees], [LobbySocketGuarantees]: the theorems about sockets.
  - [Parse]: [str::parse] and splitting. [Auth]: [auth/]. [Rollout]: [protocol_rollout.rs]. [Http]:
    headers, identities, the operator token and the response of every error. [Config]:
    [config.rs] and [postgres_dsn.rs].
  - [Routes]: [http/routes.rs], [http/lobby_routes.rs] and what [main.rs] builds; [serve] is the
    router. [RouteGuarantees]: the theorems about routes.
  - [TelemetryRows], [Telemetry]: the records, the statements and the rows, and the queue with
    its writer. [AnalyticsRows], [AnalyticsReport], [AnalyticsTool]: the queries and row decoders,
    the reports, and the commands of the operator's tool.
  - [RelayTime]: the expiry times in the answers of the file relay ([file_relay/types.rs]).
  - [Brokers]: the HTTP clients of the voice and file-relay services; the trait [VoiceBroker] is a
    class, and what lobbies rely on is the class [VoiceBrokerLaws].
  - [Background]: the three timer tasks. [Process]: all tasks together.
  - [RegistryTrait]: the trait of [room_registry_trait.rs] as a signature of methods, a class with
    its laws, the in-memory implementation of [room_registry_trait_impl.rs] method by method, and
    programs that know only the trait.
  - [Json]: what serde's derived code does, as combinators: an object with its fields, renamed,
    optional, defaulted or left out; integers at their width; enumerations by name; variants by
    tag. [JsonPayloads], [JsonViews]: the JSON of every type of [protocol/],
    [lobbies/], [rooms/] and of the brokers that is read or written, after its serde attributes.
    [JsonMessages]: the messages of the control and lobby sockets, one definition per variant
    ([client_message.rs], [server_message.rs], [lobby_messages.rs]). [JsonViews] ends with the
    bodies of HTTP replies and errors. [JsonGuarantees]: the theorems about documents.

  ** What the theorems show

  - Whole executions: frames are released exactly once and in order within a session
    epoch ([frames_released_exactly_once]); slots keep their owner and their sockets and
    tokens stay consistent ([slot_ownership]); cursors, release clock, scheduled start and
    epochs agree ([frame_bookkeeping]); input-socket grants are exact and single-use; a
    reconnect rotates the resume token.
  - The v5 input lane: every batch sequence is relayed exactly once and in order, with
    progress for a contiguous sender; a host open releases exactly the due frame and a
    retry is a duplicate; the five codecs round-trip, are canonical, never panic and
    accept disjoint sets of byte strings.
  - Start, pause and repair: a scheduled start carries the current epochs and leaves every
    player its uncertainty budget; a strict pause resumes only when covered; a repair
    starts only on a real disagreement, is bounded in attempts, and its pin is idempotent.
  - Data transfer: an accepted snapshot is byte for byte the one announced; retransmitted
    chunks change nothing.
  - Values: compatibility agreement covers every gameplay field; descriptors, invite codes,
    negotiation, link-cable sequences and delay decisions meet their contracts.
  - Rooms in the registry: the registry refines the rooms, so that the room theorems hold of
    every stored room and what is broadcast is what the room released
    ([registry_refines_rooms]); calls on one room leave the others alone; a sweep removes
    exactly the expired rooms; event logs are suffixes of what happened; the [expect]s of the
    registry never panic.
  - Lobbies: every reachable lobby is well formed ([lobbies_well_formed]); the lobby registry
    refines the lobbies; a launch needs the host and everyone ready; a closed lobby is final;
    a player who lost the socket reclaims the seat; the epoch tells states apart; a refused
    call leaves no trace; expiry and the public listing are exact.
  - Older encodings and limits: SBI1, SBI2 and SBF1 round-trip, the SBI2 decoder terminates
    and forwards bytes unchanged; draining a relay buffer is a grouping by sender; the
    limiter admits exactly what a sliding window over the whole history admits.
  - Sockets: whatever a client sends, its socket acts only on its own room and as its own
    connection ([sessions_act_only_as_themselves], and the same for lobbies); no message makes
    a socket task panic; a strict batch reaches the peer's socket with its bytes unchanged and
    not the sender's; transfer tokens go to the one player they are for; a removed player's
    session ends; the wake-up of a held first frame ends.
  - Routes: a room is created only for a caller whom the authority vouches for, with a session
    that the server completed; a control socket opens only with the room's protocol version and a
    capability; a refused request leaves both registries as they were; operator routes need
    the operator's token and answer with a bounded number of entries. What the authority's answer
    must say for a client to be let in is [access_is_earned].
  - Configuration: a configuration that is read is sound ([startup_config_is_sound]).
  - Telemetry and analytics: every record is written, waiting or counted as dropped; rows fit the
    tables; what is written is read back; reports agree with their specification; quoted text
    stays inside its literal.
  - Expiry times: an array of the older file relay is printed as an RFC 3339 timestamp that reads
    back as the same time ([legacy_expiry_reads_back]), and only times are accepted.
  - The whole process: every task, interleaved with any others that use the registries only
    through their operations, does so too; hence the theorems about reachable rooms and lobbies
    hold in every state of the process ([process_cooperates]). Abandoned rooms are collected
    by the timer ([waiting_rooms_are_collected]); a lobby's voice room costs at most two
    requests, under the server's own token ([lobby_voice_requests]).
  - Clients of the registry: a program over the [RoomRegistry] trait never meets a panic, keeps
    every room accountable to its own actions and leaves rooms it does not name alone
    ([trait_clients_are_confined]).
  - JSON documents: the messages that documents are read as are exactly those whose numbers fit,
    and what a client writes is read back ([client_messages_roundtrip]); a payload passes from
    the sender's document to the peer's unchanged ([payloads_pass_unchanged]); what is decoded is
    well formed for the room ([decoded_numbers_fit]); different server messages have
    different documents ([server_messages_are_distinct]).
  - Divergences: executions that end in a replayed frame, an abandoned repair and a stalled
    session, a running room replaced by a new one, a room expired by its age, a game that is
    not validated and a launch that cannot be marked as playing again.

  ** Fuel and bounds

  - [chunks_exact] splits by the length of its input, which every step shortens. The
    Euclidean loop of [greatest_common_divisor] has fuel 130: two rounds halve a 64-bit operand,
    and [greatest_common_divisor_correct] shows the result is the greatest common divisor.
    [decimal] prints with fuel 20, the digits of a 64-bit number.
  - [frames_released_exactly_once] is about executions whose steps are [orderly]: frame
    numbers in a message fit 64 bits, the session epoch and the release cursor have not
    reached the 64-bit maximum, and no connection drops while an armed runner handoff
    coexists with released frames (the excluded case is a theorem of [Traces]).
  - The decoding loop of SBI2 has the payload's length as fuel; every round consumes at least
    one byte, and [fast_input_terminates] shows that it never runs out.
  - A registry operation is one atomic step because it holds the write lock for all of its
    effects; where an operation awaits a broker between two locks, the two halves are two
    calls and anything may happen in between.
  - The wake-up loop of a held first frame has fuel; [first_frame_wakeup_ends] shows that two
    rounds are enough. [str_replace] has the length of the text as fuel, and every round consumes
    a byte of it. The timers never end: the argument [rounds] says how many rounds are followed,
    and theorems hold for every number of them. A socket session is followed along a list of
    wake-ups of its [select], of any length.
  - SHA-256 is a function argument; no theorem assumes anything about it. Answers of the
    voice broker and identifiers that the server draws are arguments too.

  ** Not modelled

  The text of JSON documents (a document is a value of [Auth], and the parser and the printer of
  serde_json are parameters, as is the text of a UUID); HTTP and WebSocket transport, TLS and
  certificates; the body limit; [tracing] output and the printing of the operator's tool; the HTTP
  client of that tool; [ensure_telemetry_schema], which only runs the statements of
  [TelemetryRows]; listening, signals and TCP options. These parts keep no state of the relay, or
  are calls of libraries. *)

From stdpp Require Export prelude gmap strings list fin_maps.

(** ** Rust's [Result] and [Option] combinators *)

Inductive result (E A : Type) : Type :=
| Ok (a : A)
| Err (e : E).
Arguments Ok {E A} a.
Arguments Err {E A} e.

#[export] Instance result_eq_dec {A E} `{EqDecision A, EqDecision E} : EqDecision (result E A).
Proof. solve_decision. Defined.

(** [Option::ok_or]. *)
Definition ok_or {A E} (o : option A) (e : E) : result E A :=
  match o with Some a => Ok a | None => Err e end.

(** [Result::is_ok]. *)
Definition is_ok {A E} (r : result E A) : bool :=
  match r with Ok _ => true | Err _ => false end.

(** [Result::map_err]. *)
Definition map_err {A E F} (r : result E A) (f : E → F) : result F A :=
  match r with Ok a => Ok a | Err e => Err (f e) end.

(** [Option::is_some_and]. *)
Definition is_some_and {A} (o : option A) (p : A → bool) : bool :=
  match o with Some a => p a | None => false end.

(** [Option::is_none_or]. *)
Definition is_none_or {A} (o : option A) (p : A → bool) : bool :=
  match o with Some a => p a | None => true end.

(** [Option::is_some] and [Option::is_none]. *)
Definition is_some {A} (o : option A) : bool := is_some_and o (λ _, true).
Definition is_none {A} (o : option A) : bool := negb (is_some o).

(** [Option::unwrap_or]. *)
Definition unwrap_or {A} (o : option A) (d : A) : A := default d o.

(** [Option::or_else]-style choice, used for [get_or_insert]. *)
Definition get_or_insert {A} (o : option A) (d : A) : option A :=
  match o with Some a => Some a | None => Some d end.

#[export] Instance result_ret {E} : MRet (result E) := λ A a, Ok a.
#[export] Instance result_bind {E} : MBind (result E) := λ A B k m,
  match m with Ok a => k a | Err e => Err e end.

Lemma bind_Ok {E A B} (m : result E A) (k : A → result E B) b :
  m ≫= k = Ok b ↔ ∃ a, m = Ok a ∧ k a = Ok b.
Proof. destruct m; cbn; naive_solver. Qed.

(** The boolean equality test of a type with decidable equality ([==]). *)
Declare Scope rust_scope.
Delimit Scope rust_scope with rust.
Notation "x ==? y" := (bool_decide (x = y)) (at level 70, no associativity) : rust_scope.
Notation "x !=? y" := (negb (bool_decide (x = y))) (at level 70, no associativity) : rust_scope.
Open Scope rust_scope.

Lemma bool_decide_neq_false {A} `{EqDecision A} (x y : A) : (x !=? y) = false ↔ x = y.
Proof. rewrite negb_false_iff. apply bool_decide_eq_true. Qed.

(** ** Methods on [&mut self] returning a [Result]

  [M S E A] is the type of a Rust method [fn(&mut S, ..) -> Result<A, E>]: the
  state after the call is returned on the error path too, because an early
  [return Err(..)] keeps the mutations made before it. *)

Definition M (S E A : Type) : Type := S → result E A * S.

#[export] Instance M_ret {S E} : MRet (M S E) := λ A a s, (Ok a, s).
#[export] Instance M_bind {S E} : MBind (M S E) := λ A B k m s,
  match m s with
  | (Ok a, s') => k a s'
  | (Err e, s') => (Err e, s')
  end.

Definition get {S E} : M S E S := λ s, (Ok s, s).
Definition gets {S E A} (f : S → A) : M S E A := λ s, (Ok (f s), s).
Definition modify {S E} (f : S → S) : M S E unit := λ s, (Ok tt, f s).
Definition throw {S E A} (e : E) : M S E A := λ s, (Err e, s).
(** [if !b { return Err(e) }]. *)
Definition ensure {S E} (b : bool) (e : E) : M S E unit := λ s,
  (if b then Ok tt else Err e, s).
(** [expr?] for a pure [Result]. *)
Definition lift_result {S E A} (r : result E A) : M S E A := λ s, (r, s).
(** A method that returns a value and cannot fail. *)
Definition lift_total {S E A} (f : S → A * S) : M S E A := λ s,
  let '(a, s') := f s in (Ok a, s').

(** [match call() { Ok(..) => .., Err(..) => .. }]: the outcome of a call as a value. *)
Definition attempt {S E A} (m : M S E A) : M S E (result E A) := λ s,
  let '(a, s') := m s in (Ok a, s').

(** How the first call of a body runs. *)
Lemma run_get {S E A} (k : S → M S E A) s : (get ≫= k) s = k s s.
Proof. done. Qed.
Lemma run_lift {S E A B} (r : result E A) (k : A → M S E B) s :
  (lift_result r ≫= k) s = match r with Ok a => k a s | Err e => (Err e, s) end.
Proof. by destruct r. Qed.

(** ** Weakest preconditions for such methods *)

Definition wp {S E A} (m : M S E A) (Q : A → S → Prop) (R : E → S → Prop) (s : S) : Prop :=
  match m s with
  | (Ok a, s') => Q a s'
  | (Err e, s') => R e s'
  end.

Section wp_rules.
Context {S E : Type}.
Implicit Types (s : S) (e : E).

Lemma wp_bind {A B} (m : M S E A) (k : A → M S E B) Q R s :
  wp (m ≫= k) Q R s ↔ wp m (λ a, wp (k a) Q R) R s.
Proof. unfold wp, mbind, M_bind. by destruct (m s) as [[a|e] s']. Qed.

Lemma wp_ret {A} (a : A) Q (R : E → S → Prop) s : wp (mret a) Q R s ↔ Q a s.
Proof. done. Qed.

Lemma wp_get Q (R : E → S → Prop) s : wp get Q R s ↔ Q s s.
Proof. done. Qed.

Lemma wp_gets {A} (f : S → A) Q (R : E → S → Prop) s : wp (gets f) Q R s ↔ Q (f s) s.
Proof. done. Qed.

Lemma wp_modify (f : S → S) Q (R : E → S → Prop) s : wp (modify f) Q R s ↔ Q tt (f s).
Proof. done. Qed.

Lemma wp_throw {A} e (Q : A → S → Prop) R s : wp (throw e) Q R s ↔ R e s.
Proof. done. Qed.

Lemma wp_ensure b e Q R s :
  wp (ensure b e) Q R s ↔ (b = true → Q tt s) ∧ (b = false → R e s).
Proof. unfold wp, ensure. destruct b; simpl; split; [by split|intros [? _]; auto|by split|intros [_ ?]; auto]. Qed.

Lemma wp_lift_result {A} (r : result E A) (Q : A → S → Prop) R s :
  wp (lift_result r) Q R s ↔ (∀ a, r = Ok a → Q a s) ∧ (∀ e, r = Err e → R e s).
Proof. unfold wp, lift_result. destruct r; naive_solver. Qed.

Lemma wp_lift_ok_or {A} (o : option A) e (Q : A → S → Prop) R s :
  wp (lift_result (ok_or o e)) Q R s ↔ match o with Some a => Q a s | None => R e s end.
Proof. by destruct o. Qed.

Lemma wp_lift_total {A} (f : S → A * S) Q (R : E → S → Prop) s :
  wp (lift_total f) Q R s ↔ Q (f s).1 (f s).2.
Proof. unfold wp, lift_total. by destruct (f s). Qed.

Lemma wp_attempt {A} (m : M S E A) Q (R : E → S → Prop) s :
  wp (attempt m) Q R s ↔ wp m (λ a, Q (Ok a)) (λ e, Q (Err e)) s.
Proof. unfold wp, attempt. by destruct (m s) as [[] ?]. Qed.

Lemma wp_mono {A} (m : M S E A) (Q Q' : A → S → Prop) (R R' : E → S → Prop) s :
  wp m Q R s → (∀ a s', Q a s' → Q' a s') → (∀ e s', R e s' → R' e s') → wp m Q' R' s.
Proof. unfold wp. destruct (m s) as [[a|e] s']; naive_solver. Qed.

Lemma wp_ok {A} (m : M S E A) Q R s a s' :
  wp m Q R s → m s = (Ok a, s') → Q a s'.
Proof. unfold wp. intros H Hm. by rewrite Hm in H. Qed.

End wp_rules.

(** Symbolic execution of a method body: one rule per primitive, a case split
    per branch of the source. *)
Ltac wp_step :=
  lazymatch goal with
  | |- wp (mbind _ _) _ _ _ => apply wp_bind
  | |- wp (mret _) _ _ _ => apply wp_ret
  | |- wp get _ _ _ => apply wp_get
  | |- wp (gets _) _ _ _ => apply wp_gets
  | |- wp (modify _) _ _ _ => apply wp_modify
  | |- wp (throw _) _ _ _ => apply wp_throw
  | |- wp (ensure _ _) _ _ _ => apply wp_ensure; split; intros ?
  | |- wp (lift_result (ok_or ?o _)) _ _ _ => apply wp_lift_ok_or; destruct o eqn:?
  | |- wp (lift_result _) _ _ _ => apply wp_lift_result; split; intros ? ?
  | |- wp (lift_total _) _ _ _ => apply wp_lift_total
  | |- wp (attempt _) _ _ _ => apply wp_attempt
  | |- wp (match ?x with _ => _ end) _ _ _ => destruct x eqn:?
  end.
Ltac wp_go := repeat (wp_step; cbv beta).

(** Turns the boolean guards that [wp_go] leaves as hypotheses into propositions. *)
Ltac guards := repeat match goal with
  | H : negb _ = true |- _ => apply negb_true_iff in H
  | H : negb _ = false |- _ => apply negb_false_iff in H
  | H : bool_decide _ = true |- _ => apply bool_decide_eq_true_1 in H
  | H : bool_decide _ = false |- _ => apply bool_decide_eq_false_1 in H
  | H : N.eqb _ _ = true |- _ => apply N.eqb_eq in H
  | H : N.eqb _ _ = false |- _ => apply N.eqb_neq in H
  | H : _ && _ = true |- _ => apply andb_true_iff in H as [??]
  | H : _ || _ = false |- _ => apply orb_false_iff in H as [??]
  end.

(** ** Preservation by a method *)

(** [keeps I m]: [m] preserves the invariant [I], on the error path too. *)
Definition keeps {S E A} (I : S → Prop) (m : M S E A) : Prop := ∀ s, I s → I (m s).2.

(** The preservation lemmas of the methods, one per method and invariant. Opaque constants
    keep the search first order: a goal about a method finds that method's lemma. *)
Create HintDb relay discriminated.
#[export] Hint Constants Opaque : relay.

Section keeps_rules.
Context {S E : Type} (I : S → Prop).

Lemma keeps_wp {A} (m : M S E A) :
  (∀ s, I s → wp m (λ _, I) (λ _, I) s) → keeps I m.
Proof. intros H s Hs. specialize (H s Hs). unfold wp in H. by destruct (m s) as [[] ?]. Qed.

Lemma wp_keeps {A} (m : M S E A) s : keeps I m → I s → wp m (λ _, I) (λ _, I) s.
Proof. intros H Hs. specialize (H s Hs). unfold wp. by destruct (m s) as [[] ?]. Qed.

Lemma keeps_elim {A} (m : M S E A) s : keeps I m → I s → I (m s).2.
Proof. intros H. apply H. Qed.

Lemma keeps_bind {A B} (m : M S E A) (k : A → M S E B) :
  keeps I m → (∀ a, keeps I (k a)) → keeps I (m ≫= k).
Proof.
  intros Hm Hk s Hs. specialize (Hm s Hs). unfold mbind, M_bind.
  destruct (m s) as [[a|e] s']; [by apply Hk|done].
Qed.

(** A method that leaves the state alone. *)
Lemma keeps_pure {A} (m : M S E A) : (∀ s, (m s).2 = s) → keeps I m.
Proof. intros H s Hs. by rewrite H. Qed.

Lemma keeps_modify (f : S → S) : (∀ s, I s → I (f s)) → keeps I (modify (E := E) f).
Proof. done. Qed.

Lemma keeps_attempt {A} (m : M S E A) : keeps I m → keeps I (attempt m).
Proof. intros Hm s Hs. specialize (Hm s Hs). unfold attempt. by destruct (m s). Qed.
End keeps_rules.

(** Takes a method body apart: what is left are its calls. *)
Ltac keeps_step :=
  lazymatch goal with
  | |- keeps _ (mbind _ _) => apply keeps_bind; [|intros ?]
  | |- keeps _ (attempt _) => apply keeps_attempt
  | |- keeps _ (modify _) => apply keeps_modify; intros ? ?
  | |- keeps _ (match ?x with _ => _ end) => destruct x
  | |- keeps _ _ => first [solve [auto with relay nocore] | apply keeps_pure; intros ?; reflexivity]
  end.
Ltac keeps_go := repeat (keeps_step; cbv beta zeta).

(** The state after a method whose outcome is only reported. *)
Lemma snd_let_pair {A B C} (p : A * B) (f : A → C) : (let '(a, b) := p in (f a, b)).2 = p.2.
Proof. by destruct p. Qed.

(** Discharges a step by the preservation lemma of its method. *)
Ltac keep_step H :=
  rewrite ?snd_let_pair;
  first [ apply keeps_elim; [solve [auto with relay nocore]|exact H]
        | solve [auto with relay nocore] ].

(** ** Functional record update

  [r <| p := v |>] is the Rust assignment [r.p = v]; [r <| p ::= f |>] applies
  [f] to the field. A record type declares its [Eta] expansion once, and each
  field's [Setter] is derived from it. *)

Class Eta (R : Type) := eta : R → R.
Class Setter {R T : Type} (p : R → T) := upd : (T → T) → R → R.
Arguments upd {R T} p {_} _ _.
#[global] Typeclasses Opaque Setter.

Ltac derive_setter :=
  lazymatch goal with
  | |- @Setter ?R ?T ?p =>
      let g := fresh "g" in let r := fresh "r" in
      intros g r;
      let e := eval cbv beta delta [eta] in (eta r) in
      let e := eval hnf in e in
      lazymatch (eval pattern (p r) in e) with
      | ?F _ => let t := eval cbv beta in (F (g (p r))) in exact t
      end
  end.

Notation "r <| p := v |>" := (upd p (λ _, v) r)
  (at level 1, left associativity, format "r  <|  p  :=  v  |>") : rust_scope.
Notation "r <| p ::= f |>" := (upd p f r)
  (at level 1, left associativity, format "r  <|  p  ::=  f  |>") : rust_scope.

(** ** Machine integers

  A [w]-bit unsigned integer is an [N]; the source's saturating and checked
  operations write out what happens at the bound. *)

Definition u8_max : N := 255.
Definition u16_max : N := 65535.
Definition u32_max : N := 4294967295.
Definition u64_max : N := 18446744073709551615.
Definition i64_max : Z := 9223372036854775807.
Definition u128_max : N := 340282366920938463463374607431768211455.

Definition saturating_add (max a b : N) : N := N.min (a + b) max.
Definition saturating_mul (max a b : N) : N := N.min (a * b) max.
Definition saturating_sub (a b : N) : N := a - b.
Definition checked_add (max a b : N) : option N :=
  if (a + b <=? max)%N then Some (a + b)%N else None.
Definition checked_mul (max a b : N) : option N :=
  if (a * b <=? max)%N then Some (a * b)%N else None.
Definition checked_sub (a b : N) : option N :=
  if (b <=? a)%N then Some (a - b)%N else None.

Definition u64_add : N → N → N := saturating_add u64_max.
(** [u64::div_ceil] and [u128::div_ceil]. *)
Definition div_ceil (a b : N) : N := ((a + b - 1) / b)%N.
(** [Ord::clamp]. *)
Definition clamp (x lo hi : N) : N := N.min (N.max x lo) hi.

(** [Instant]s and [Duration]s are nanosecond counts; [Instant] subtraction
    saturates at zero ([duration_since] and [saturating_duration_since]). *)
Abbreviation Instant := N (only parsing).
Abbreviation Duration := N (only parsing).
Definition from_secs (n : N) : Duration := (n * 1000000000)%N.
Definition from_millis (n : N) : Duration := (n * 1000000)%N.
Definition as_millis (d : Duration) : N := (d / 1000000)%N.
Definition duration_since (now earlier : Instant) : Duration := (now - earlier)%N.

Lemma saturating_add_bound max a b : (saturating_add max a b ≤ max)%N.
Proof. unfold saturating_add. lia. Qed.

Lemma checked_add_Some max a b c : checked_add max a b = Some c ↔ (c = a + b ∧ a + b ≤ max)%N.
Proof.
  unfold checked_add. destruct (N.leb_spec (a + b) max); naive_solver lia.
Qed.

Lemma checked_add_None max a b : checked_add max a b = None ↔ (max < a + b)%N.
Proof. unfold checked_add. destruct (N.leb_spec (a + b) max); naive_solver lia. Qed.

Lemma clamp_bounds x lo hi : (lo ≤ hi → lo ≤ clamp x lo hi ≤ hi)%N.
Proof. unfold clamp. lia. Qed.

Lemma div_ceil_spec a b : (0 < b → a ≤ div_ceil a b * b ∧ div_ceil a b * b < a + b)%N.
Proof.
  intros Hb. unfold div_ceil.
  pose proof (N.div_mod (a + b - 1) b ltac:(lia)) as Hd.
  pose proof (N.mod_lt (a + b - 1) b ltac:(lia)) as Hm.
  rewrite (N.mul_comm _ b). revert Hd Hm.
  generalize (b * ((a + b - 1) / b))%N, ((a + b - 1) mod b)%N. lia.
Qed.

(** ** Loops over a [Vec] *)

Section list_ops.
Context {A : Type}.
Implicit Types (p : A → bool) (f : A → A) (l : list A).

(** [iter_mut().find(p)] followed by a mutation of the element found. *)
Fixpoint update_first p f l : list A :=
  match l with
  | [] => []
  | x :: l' => if p x then f x :: l' else x :: update_first p f l'
  end.

(** [iter_mut().filter(p).for_each(f)]. *)
Definition update_all p f l : list A := (λ x, if p x then f x else x) <$> l.

(** A key that the mutation keeps is kept pointwise. *)
Lemma update_first_fmap {B} (g : A → B) p f l :
  (∀ x, p x = true → g (f x) = g x) → g <$> update_first p f l = g <$> l.
Proof.
  intros Hg. induction l as [|x l IH]; [done|]. simpl.
  destruct (p x) eqn:E; csimpl; [by rewrite Hg|by rewrite IH].
Qed.

Lemma update_first_Forall (P : A → Prop) p f l :
  (∀ x, p x = true → P x → P (f x)) → Forall P l → Forall P (update_first p f l).
Proof.
  intros Hf. induction 1 as [|x l Hx Hl IH]; simpl; [done|].
  destruct (p x) eqn:E; constructor; auto.
Qed.

Lemma find_some_iff p l x :
  List.find p l = Some x → x ∈ l ∧ p x = true.
Proof. intros H%List.find_some. by rewrite list_elem_of_In. Qed.
End list_ops.

(** [iter().max()] of a list of integers. *)
Definition max_list_opt (l : list N) : option N :=
  match l with [] => None | x :: l' => Some (fold_left N.max l' x) end.
Definition min_list_opt (l : list N) : option N :=
  match l with [] => None | x :: l' => Some (fold_left N.min l' x) end.

(** ** Removing a list of keys from a map *)

Lemma foldr_delete_lookup {V} (m : gmap (list N) V) keys k v :
  (foldr delete m keys !! k = Some v) ↔ (k ∉ keys) ∧ m !! k = Some v.
Proof.
  induction keys as [|k' keys IH]; cbn [foldr]; [set_solver|].
  rewrite lookup_delete_Some, IH, not_elem_of_cons. naive_solver.
Qed.

Lemma size_foldr_delete {V} (m : gmap (list N) V) keys :
  NoDup keys → (∀ k, k ∈ keys → is_Some (m !! k)) → (length keys + size (foldr delete m keys) = size m)%nat.
Proof.
  induction 1 as [|k keys Hk Hnd IH]; intros Hin; [done|]. cbn [foldr length].
  assert (∃ v, (foldr delete m keys : gmap (list N) V) !! k = Some v) as [v Hv].
  { destruct (Hin k) as [v Hv]; [set_solver|]. exists v. by apply foldr_delete_lookup. }
  rewrite (map_size_delete_Some k (foldr delete m keys : gmap (list N) V)) by (by eexists).
  rewrite <-IH by set_solver. assert (size (foldr delete m keys) ≠ 0%nat); [|lia].
  intros H0%map_size_empty_iff. by rewrite H0, lookup_empty in Hv.
Qed.
