(* ===== verification/Ids.v ===== *)
(** * Identifiers and limits shared by every component

  Models [src/src/limits.rs], [src/src/rooms/ids.rs] and [src/src/rooms/errors.rs]. UUID-backed identifiers
  ([RoomId], [ConnectionId]) are opaque: the relay only compares them, so they
  are numbers with decidable equality, and the identifiers that
  [Uuid::new_v4] would draw are arguments of the operations that use them. *)

From S2P Require Import Prelude.
Open Scope N_scope.

(** ** limits.rs *)

Definition MVP_ROOM_CAPACITY : N := 2.
Definition MAX_FUTURE_FRAME_DISTANCE : N := 240.
Definition MAX_INPUT_BATCH_FRAMES : nat := 4.
Definition MAX_INPUT_BATCH_BYTES : N := 8 * 1024.
Definition V5_RETROPAD_INPUT_BYTES : nat := 10.
Definition V5_MAX_FUTURE_FRAME_DISTANCE : N := 96.
Definition MAX_SNAPSHOT_CHUNK_BYTES : N := 256 * 1024.
Definition MAX_SNAPSHOT_BYTES : N := 100 * 1024 * 1024.
Definition MAX_LINK_CABLE_PACKET_BYTES : N := 4 * 1024.
Definition ROOM_JOIN_TIMEOUT : Duration := from_secs (10 * 60).
Definition SCHEDULED_START_MINIMUM_DELAY : Duration := from_secs 3.

(** ** ids.rs *)

(** [struct RoomId(Uuid)] and [struct ConnectionId(Uuid)]. *)
Record RoomId := mkRoomId { room_id_uuid : N }.
Record ConnectionId := mkConnectionId { connection_uuid : N }.

#[export] Instance RoomId_eq_dec : EqDecision RoomId.
Proof. solve_decision. Defined.
#[export] Instance ConnectionId_eq_dec : EqDecision ConnectionId.
Proof. solve_decision. Defined.

(** [struct PlayerIndex(u8)]. *)
Record PlayerIndex := mkPlayerIndex { zero_based : N }.

#[export] Instance PlayerIndex_eq_dec : EqDecision PlayerIndex.
Proof. solve_decision. Defined.
#[export] Instance PlayerIndex_countable : Countable PlayerIndex.
Proof.
  apply (inj_countable' zero_based mkPlayerIndex). by intros [].
Defined.

Definition PlayerIndex_ONE : PlayerIndex := mkPlayerIndex 0.
Definition PlayerIndex_TWO : PlayerIndex := mkPlayerIndex 1.

(** [PlayerIndex::new]: an index that fits the room capacity. *)
Definition PlayerIndex_new (value max_players : N) : option PlayerIndex :=
  if value <? max_players then Some (mkPlayerIndex value) else None.

(** [PlayerIndex::display_number], a [u8] addition. *)
Definition display_number (p : PlayerIndex) : N := (zero_based p + 1) mod 256.

Lemma PlayerIndex_new_Some v m p :
  PlayerIndex_new v m = Some p ↔ p = mkPlayerIndex v ∧ v < m.
Proof. unfold PlayerIndex_new. destruct (N.ltb_spec v m); naive_solver lia. Qed.

(** ** errors.rs *)

Inductive RoomError :=
| NotFound
| RoomFull
| RoomClosed
| InvalidInviteCode
| UnknownConnection
| SlotSpoofing (p : PlayerIndex)
| HostSubjectMismatch
| OutOfOrderFrame
| FutureFrameTooLarge
| NotPlaying
| RoomNotReady
| HostOnly
| SnapshotInvalid
| SnapshotFileRelayUnavailable
| LinkPacketInvalid
| OutOfOrderLinkPacket
| InvalidPayload
| CompatibilityMismatch
| StaleRoomEpoch
| StaleSessionEpoch
| ResumeTokenInvalid
| RecoveryExpired
| VoiceUnavailable.

#[export] Instance RoomError_eq_dec : EqDecision RoomError.
Proof. solve_decision. Defined.
