(* ===== verification/Wire.v ===== *)
(** * Byte-level building blocks of the binary input lane

  Models [src/src/protocol/strict_input/codec_common.rs]: network-order integers,
  checked and unchecked reads of a byte slice, the common message header. A
  read that indexes a slice can panic in Rust, so decoders return a [fault]
  whose [Panic] case stands for such a panic; the theorems show that no input
  reaches it. *)

From Stdlib Require Import Strings.Byte.
From S2P Require Import Prelude Ids.
Open Scope N_scope.

Abbreviation bytes := (list byte).

#[export] Instance byte_eq_dec : EqDecision byte := Byte.byte_eq_dec.

(** [v as u8]. *)
Definition byte_of_N (v : N) : byte := default x00 (Byte.of_N (v mod 256)).

(** [uN::to_be_bytes] at a width of [w] bytes. *)
Fixpoint to_be_bytes (w : nat) (v : N) : bytes :=
  match w with
  | O => []
  | S w' => byte_of_N (v / 256 ^ N.of_nat w') :: to_be_bytes w' v
  end.

#[global] Arguments to_be_bytes : simpl never.

(** [uN::from_be_bytes]. *)
Definition from_be_bytes (l : bytes) : N :=
  foldl (λ acc b, acc * 256 + Byte.to_N b) 0 l.

(** [b"..."] literals. *)
Definition magic_bytes (s : string) : bytes := String.list_byte_of_string s.

(** ** Decoder faults *)

Inductive fault (E : Type) : Type :=
| Panic
| Error (e : E).
Arguments Panic {E}.
Arguments Error {E} e.

#[export] Instance fault_eq_dec {E} `{EqDecision E} : EqDecision (fault E).
Proof. solve_decision. Defined.

(** [payload[i]]. *)
Definition index {E} (payload : bytes) (i : nat) : result (fault E) byte :=
  ok_or (payload !! i) Panic.

(** [payload.get(offset..offset + n)]. *)
Definition get_range (payload : bytes) (offset n : nat) : option bytes :=
  if (offset + n <=? length payload)%nat then Some (take n (drop offset payload)) else None.

(** [payload[offset..offset + n]]. *)
Definition slice {E} (payload : bytes) (offset n : nat) : result (fault E) bytes :=
  ok_or (get_range payload offset n) Panic.

(** ** Integer codec lemmas *)

Lemma byte_to_N_of_N v : Byte.to_N (byte_of_N v) = v mod 256.
Proof.
  unfold byte_of_N. pose proof (N.mod_lt v 256 ltac:(done)) as Hlt.
  destruct (Byte.of_N (v mod 256)) as [b|] eqn:E; simpl.
  - by apply Byte.to_of_N.
  - apply Byte.of_N_None_iff in E. lia.
Qed.

Lemma byte_of_to_N b : byte_of_N (Byte.to_N b) = b.
Proof.
  unfold byte_of_N. pose proof (Byte.to_N_bounded b).
  rewrite N.mod_small by lia. by rewrite Byte.of_to_N.
Qed.

Lemma byte_of_N_mod v : byte_of_N (v mod 256) = byte_of_N v.
Proof. unfold byte_of_N. by rewrite N.Div0.mod_mod. Qed.

Lemma to_be_bytes_S w v :
  to_be_bytes (S w) v = byte_of_N (v / 256 ^ N.of_nat w) :: to_be_bytes w v.
Proof. done. Qed.

Lemma length_to_be_bytes w v : length (to_be_bytes w v) = w.
Proof. induction w as [|w IH]; [done|]. rewrite to_be_bytes_S. simpl. by rewrite IH. Qed.

Lemma from_be_bytes_acc acc l :
  foldl (λ acc b, acc * 256 + Byte.to_N b) acc l
  = acc * 256 ^ N.of_nat (length l) + from_be_bytes l.
Proof.
  unfold from_be_bytes. revert acc. induction l as [|b l IH]; intros acc; simpl; [lia|].
  rewrite IH, (IH (0 * 256 + Byte.to_N b)), Nat2N.inj_succ, N.pow_succ_r'. lia.
Qed.

Lemma from_be_bytes_cons b l :
  from_be_bytes (b :: l) = Byte.to_N b * 256 ^ N.of_nat (length l) + from_be_bytes l.
Proof. unfold from_be_bytes at 1. simpl. rewrite from_be_bytes_acc. lia. Qed.

Lemma from_be_bytes_bound l : from_be_bytes l < 256 ^ N.of_nat (length l).
Proof.
  induction l as [|b l IH]; [done|]. rewrite from_be_bytes_cons. simpl.
  rewrite Nat2N.inj_succ, N.pow_succ_r'. pose proof (Byte.to_N_bounded b). nia.
Qed.

(** Encoding then decoding an integer reduces it modulo its width. *)
Lemma from_to_be_bytes w v : from_be_bytes (to_be_bytes w v) = v mod 256 ^ N.of_nat w.
Proof.
  induction w as [|w IH]; [simpl; by rewrite N.mod_1_r|].
  rewrite to_be_bytes_S, from_be_bytes_cons, length_to_be_bytes, IH, byte_to_N_of_N.
  rewrite Nat2N.inj_succ, N.pow_succ_r', N.mul_comm, (N.mul_comm 256).
  rewrite N.Div0.mod_mul_r. lia.
Qed.

Lemma to_be_bytes_mod w v : to_be_bytes w (v mod 256 ^ N.of_nat w) = to_be_bytes w v.
Proof.
  enough (∀ k, (w ≤ k)%nat → to_be_bytes w (v mod 256 ^ N.of_nat k) = to_be_bytes w v) as H.
  { by apply H. }
  induction w as [|w IH]; intros k Hk; [done|]. rewrite !to_be_bytes_S. f_equal; [|apply IH; lia].
  rewrite <-(byte_of_N_mod (v / _)), <-byte_of_N_mod. f_equal.
  replace (N.of_nat k) with (N.of_nat w + N.of_nat (k - w)) by lia.
  rewrite N.pow_add_r, N.Div0.mod_mul_r, (N.mul_comm (256 ^ N.of_nat w)).
  rewrite N.div_add, N.div_small, N.add_0_l
    by (apply N.pow_nonzero; lia) || (apply N.mod_lt, N.pow_nonzero; lia).
  replace (N.of_nat (k - w)) with (1 + N.of_nat (k - w - 1)) by lia.
  rewrite N.pow_add_r, N.pow_1_r, N.Div0.mod_mul_r, (N.mul_comm 256).
  by rewrite N.Div0.mod_add, N.Div0.mod_mod.
Qed.

(** Decoding then re-encoding gives the bytes back. *)
Lemma to_from_be_bytes l : to_be_bytes (length l) (from_be_bytes l) = l.
Proof.
  induction l as [|b l IH]; [done|]. simpl length. rewrite to_be_bytes_S.
  pose proof (from_be_bytes_bound l) as Hb.
  rewrite from_be_bytes_cons. f_equal.
  - rewrite N.div_add_l, N.div_small, N.add_0_r by (lia || apply N.pow_nonzero; lia).
    apply byte_of_to_N.
  - rewrite <-(to_be_bytes_mod _ (_ + _)), N.add_comm, N.Div0.mod_add, N.mod_small by done.
    apply IH.
Qed.

(** ** Slice lemmas *)

Lemma get_range_app_r l1 l2 n :
  length l2 = n → get_range (l1 ++ l2) (length l1) n = Some l2.
Proof.
  intros <-. unfold get_range. rewrite length_app, Nat.leb_refl.
  by rewrite drop_app_length, take_ge.
Qed.

Lemma get_range_Some p o n l :
  get_range p o n = Some l → length l = n ∧ l = take n (drop o p) ∧ (o + n ≤ length p)%nat.
Proof.
  unfold get_range. destruct (Nat.leb_spec (o + n) (length p)); [|done].
  intros [= <-]. rewrite length_take, length_drop. split_and!; [lia|done|lia].
Qed.

Lemma get_range_cons b p o n : get_range (b :: p) (S o) n = get_range p o n.
Proof. done. Qed.

Lemma get_range_skip l p o n :
  (length l ≤ o)%nat → get_range (l ++ p) o n = get_range p (o - length l) n.
Proof.
  intros Ho. unfold get_range. rewrite length_app, drop_app_ge by done.
  by replace (o + n <=? length l + length p)%nat with (o - length l + n <=? length p)%nat
    by (destruct (Nat.leb_spec (o - length l + n) (length p)),
               (Nat.leb_spec (o + n) (length l + length p)); lia).
Qed.

Lemma get_range_here l p n : length l = n → get_range (l ++ p) 0 n = Some l.
Proof.
  intros <-. unfold get_range. rewrite drop_0, take_app_length, length_app.
  by destruct (Nat.leb_spec (0 + length l) (length l + length p)); [|lia].
Qed.

Lemma get_range_lt p o n :
  (o + n ≤ length p)%nat → get_range p o n = Some (take n (drop o p)).
Proof. intros. unfold get_range. by destruct (Nat.leb_spec (o + n) (length p)); [|lia]. Qed.
