(* ===== verification/StrictInput.v ===== *)
(** * Protocol v5 input-lane messages

  Models [src/src/protocol/strict_input/]: the error type, the common header, and
  the encoders and decoders of the five binary messages of the protocol v5 input
  lane (input batch, cursor ack, cursor nack, host frame open, server frame
  release). Their laws are in [StrictInputCodec]. *)

From Stdlib Require Import Strings.Byte.
From S2P Require Import Prelude Ids Wire.
Open Scope N_scope.

(** ** error.rs *)

Inductive StrictInputCodecError :=
| Malformed | Unsupported | Empty | TooManyFrames | InvalidPlayerIndex
| InvalidPayloadSize | InvalidNackReason | InvalidCursors.

#[export] Instance StrictInputCodecError_eq_dec : EqDecision StrictInputCodecError.
Proof. solve_decision. Defined.

(** Decoder results; [fail e] is [return Err(e)]. *)
Abbreviation decoded := (result (fault StrictInputCodecError)).
Definition fail_with {A} (e : StrictInputCodecError) : decoded A := Err (Error e).
(** [expr?] on a [Result] with the codec's error type. *)
Definition try_ {A} (r : result StrictInputCodecError A) : decoded A := map_err r Error.

(** ** codec_common.rs *)

Definition COMMON_EPOCH_HEADER_BYTES : nat := 4 + 1 + 8 + 8.

Definition write_header (magic : bytes) (message_type : N) (room_epoch session_epoch : N) : bytes :=
  magic ++ [byte_of_N message_type] ++ to_be_bytes 8 room_epoch ++ to_be_bytes 8 session_epoch.

Definition validate_message_header (payload : bytes) (minimum_bytes : nat) (magic : bytes)
    (message_type : N) : decoded unit :=
  if (length payload <? minimum_bytes)%nat then fail_with Malformed
  else
    head ← slice payload 0 4;
    if head !=? magic then fail_with Unsupported
    else
      ty ← index payload 4;
      if Byte.to_N ty !=? message_type then fail_with Unsupported else mret tt.

Definition validate_exact_message_header (payload : bytes) (expected_bytes : nat) (magic : bytes)
    (message_type : N) : decoded unit :=
  if negb (length payload =? expected_bytes)%nat then fail_with Malformed
  else validate_message_header payload expected_bytes magic message_type.

Definition read_player_index (payload : bytes) (offset : nat) : decoded PlayerIndex :=
  b ← try_ (ok_or (payload !! offset) Malformed);
  try_ (ok_or (PlayerIndex_new (Byte.to_N b) MVP_ROOM_CAPACITY) InvalidPlayerIndex).

Definition read_u64 (payload : bytes) (offset : nat) : decoded N :=
  l ← try_ (ok_or (get_range payload offset 8) Malformed);
  if (length l =? 8)%nat then mret (from_be_bytes l) else Err Panic.

Definition read_u16 (payload : bytes) (offset : nat) : decoded N :=
  l ← try_ (ok_or (get_range payload offset 2) Malformed);
  if (length l =? 2)%nat then mret (from_be_bytes l) else Err Panic.

(** ** input_batch.rs *)

Module InputBatch.

Definition MAGIC : bytes := magic_bytes "SBI3".
Definition MESSAGE_TYPE : N := 3.
Definition HEADER_BYTES : nat := COMMON_EPOCH_HEADER_BYTES + 1 + 1 + 2 + 8.

End InputBatch.

(** [type RetropadInputPayload = [u8; 10]]: a list of ten bytes
    ([StrictInputBatch_wf] carries the length). *)
Abbreviation RetropadInputPayload := bytes (only parsing).

Record StrictInputBatch := mkStrictInputBatch {
  batch_room_epoch : N;
  batch_session_epoch : N;
  batch_player_index : PlayerIndex;
  batch_start_frame : N;
  batch_payloads : list RetropadInputPayload }.

#[export] Instance StrictInputBatch_eq_dec : EqDecision StrictInputBatch.
Proof. solve_decision. Defined.

(** [StrictInputBatch::end_frame]. *)
Definition end_frame (b : StrictInputBatch) : N :=
  u64_add (batch_start_frame b) (saturating_sub (N.of_nat (length (batch_payloads b))) 1).

Definition validate_payload_count (frame_count : nat) : result StrictInputCodecError unit :=
  if (frame_count =? 0)%nat then Err Empty
  else if (MAX_INPUT_BATCH_FRAMES <? frame_count)%nat then Err TooManyFrames
  else Ok tt.

Definition encode_strict_input_batch (b : StrictInputBatch) : result StrictInputCodecError bytes :=
  _ ← validate_payload_count (length (batch_payloads b));
  let payload_bytes := (length (batch_payloads b) * V5_RETROPAD_INPUT_BYTES)%nat in
  let total_bytes := (InputBatch.HEADER_BYTES + payload_bytes)%nat in
  if MAX_INPUT_BATCH_BYTES <? N.of_nat total_bytes then Err Malformed
  else Ok (write_header InputBatch.MAGIC InputBatch.MESSAGE_TYPE
             (batch_room_epoch b) (batch_session_epoch b)
           ++ [byte_of_N (zero_based (batch_player_index b))]
           ++ [byte_of_N (N.of_nat (length (batch_payloads b)))]
           ++ to_be_bytes 2 (N.of_nat V5_RETROPAD_INPUT_BYTES)
           ++ to_be_bytes 8 (batch_start_frame b)
           ++ concat (batch_payloads b)).

(** [slice::chunks_exact(n)]; [fuel] bounds the number of chunks. *)
Fixpoint chunks_exact_fuel (fuel n : nat) (l : bytes) : list bytes :=
  match fuel with
  | O => []
  | S fuel' => if (length l <? n)%nat then [] else take n l :: chunks_exact_fuel fuel' n (drop n l)
  end.
Definition chunks_exact (n : nat) (l : bytes) : list bytes := chunks_exact_fuel (length l) n l.

Definition decode_strict_input_batch (payload : bytes) : decoded StrictInputBatch :=
  _ ← validate_message_header payload InputBatch.HEADER_BYTES InputBatch.MAGIC
        InputBatch.MESSAGE_TYPE;
  if MAX_INPUT_BATCH_BYTES <? N.of_nat (length payload) then fail_with Malformed
  else
    count ← index payload 22;
    let frame_count := N.to_nat (Byte.to_N count) in
    _ ← try_ (validate_payload_count frame_count);
    size ← read_u16 payload 23;
    if size !=? N.of_nat V5_RETROPAD_INPUT_BYTES then fail_with InvalidPayloadSize
    else
      let expected_bytes := (InputBatch.HEADER_BYTES + frame_count * V5_RETROPAD_INPUT_BYTES)%nat in
      if negb (length payload =? expected_bytes)%nat then fail_with Malformed
      else
        body ← slice payload InputBatch.HEADER_BYTES (length payload - InputBatch.HEADER_BYTES);
        let payloads := chunks_exact V5_RETROPAD_INPUT_BYTES body in
        room_epoch ← read_u64 payload 5;
        session_epoch ← read_u64 payload 13;
        player_index ← read_player_index payload 21;
        start_frame ← read_u64 payload 25;
        mret (mkStrictInputBatch room_epoch session_epoch player_index start_frame payloads).

(** ** input_cursor.rs *)

Definition ACK_MAGIC : bytes := magic_bytes "SBA1".
Definition ACK_TYPE : N := 4.
Definition NACK_MAGIC : bytes := magic_bytes "SBN1".
Definition NACK_TYPE : N := 5.
Definition ACK_BYTES : nat := COMMON_EPOCH_HEADER_BYTES + 1 + 8.
Definition NACK_BYTES : nat := COMMON_EPOCH_HEADER_BYTES + 1 + 8 + 8 + 1.

Record InputCursorAck := mkInputCursorAck {
  ack_room_epoch : N;
  ack_session_epoch : N;
  ack_player_index : PlayerIndex;
  ack_next_expected_frame : N }.

Inductive InputCursorNackReason := InputGap | NackFutureFrameTooLarge | SessionState.

(** [reason as u8]. *)
Definition nack_reason_code (r : InputCursorNackReason) : N :=
  match r with InputGap => 1 | NackFutureFrameTooLarge => 2 | SessionState => 3 end.

(** [TryFrom<u8> for InputCursorNackReason]. *)
Definition nack_reason_try_from (value : N) : result StrictInputCodecError InputCursorNackReason :=
  match value with
  | 1 => Ok InputGap
  | 2 => Ok NackFutureFrameTooLarge
  | 3 => Ok SessionState
  | _ => Err InvalidNackReason
  end.

Record InputCursorNack := mkInputCursorNack {
  nack_room_epoch : N;
  nack_session_epoch : N;
  nack_player_index : PlayerIndex;
  nack_expected_frame : N;
  nack_received_frame : N;
  nack_reason : InputCursorNackReason }.

Inductive InputCursorResponse :=
| Ack (a : InputCursorAck)
| Nack (n : InputCursorNack).

#[export] Instance InputCursorAck_eq_dec : EqDecision InputCursorAck.
Proof. solve_decision. Defined.
#[export] Instance InputCursorNackReason_eq_dec : EqDecision InputCursorNackReason.
Proof. solve_decision. Defined.
#[export] Instance InputCursorNack_eq_dec : EqDecision InputCursorNack.
Proof. solve_decision. Defined.
#[export] Instance InputCursorResponse_eq_dec : EqDecision InputCursorResponse.
Proof. solve_decision. Defined.

Definition encode_input_cursor_ack (a : InputCursorAck) : bytes :=
  write_header ACK_MAGIC ACK_TYPE (ack_room_epoch a) (ack_session_epoch a)
  ++ [byte_of_N (zero_based (ack_player_index a))]
  ++ to_be_bytes 8 (ack_next_expected_frame a).

Definition decode_input_cursor_ack (payload : bytes) : decoded InputCursorAck :=
  _ ← validate_exact_message_header payload ACK_BYTES ACK_MAGIC ACK_TYPE;
  room_epoch ← read_u64 payload 5;
  session_epoch ← read_u64 payload 13;
  player_index ← read_player_index payload 21;
  next_expected_frame ← read_u64 payload 22;
  mret (mkInputCursorAck room_epoch session_epoch player_index next_expected_frame).

Definition encode_input_cursor_nack (n : InputCursorNack) : bytes :=
  write_header NACK_MAGIC NACK_TYPE (nack_room_epoch n) (nack_session_epoch n)
  ++ [byte_of_N (zero_based (nack_player_index n))]
  ++ to_be_bytes 8 (nack_expected_frame n)
  ++ to_be_bytes 8 (nack_received_frame n)
  ++ [byte_of_N (nack_reason_code (nack_reason n))].

Definition decode_input_cursor_nack (payload : bytes) : decoded InputCursorNack :=
  _ ← validate_exact_message_header payload NACK_BYTES NACK_MAGIC NACK_TYPE;
  room_epoch ← read_u64 payload 5;
  session_epoch ← read_u64 payload 13;
  player_index ← read_player_index payload 21;
  expected_frame ← read_u64 payload 22;
  received_frame ← read_u64 payload 30;
  code ← index payload 38;
  reason ← try_ (nack_reason_try_from (Byte.to_N code));
  mret (mkInputCursorNack room_epoch session_epoch player_index expected_frame
          received_frame reason).

(** ** frame_clock.rs *)

Definition HOST_OPEN_MAGIC : bytes := magic_bytes "SBO1".
Definition HOST_OPEN_TYPE : N := 6.
Definition RELEASE_MAGIC : bytes := magic_bytes "SBF2".
Definition RELEASE_TYPE : N := 7.
Definition HOST_OPEN_BYTES : nat := COMMON_EPOCH_HEADER_BYTES + 8.
Definition RELEASE_HEADER_BYTES : nat := COMMON_EPOCH_HEADER_BYTES + 8 + 8 + 1.
Definition RELEASE_CURSOR_BYTES : nat := 1 + 8.

Record HostFrameOpen := mkHostFrameOpen {
  open_room_epoch : N;
  open_session_epoch : N;
  open_frame : N }.

Record AcceptedInputCursor := mkAcceptedInputCursor {
  cursor_player_index : PlayerIndex;
  cursor_next_expected_frame : N }.

Record ServerFrameReleaseV5 := mkServerFrameReleaseV5 {
  release_room_epoch : N;
  release_session_epoch : N;
  release_released_frame : N;
  release_next_host_frame : N;
  release_accepted_inputs : list AcceptedInputCursor }.

#[export] Instance HostFrameOpen_eq_dec : EqDecision HostFrameOpen.
Proof. solve_decision. Defined.
#[export] Instance AcceptedInputCursor_eq_dec : EqDecision AcceptedInputCursor.
Proof. solve_decision. Defined.
#[export] Instance ServerFrameReleaseV5_eq_dec : EqDecision ServerFrameReleaseV5.
Proof. solve_decision. Defined.

Definition encode_host_frame_open (o : HostFrameOpen) : bytes :=
  write_header HOST_OPEN_MAGIC HOST_OPEN_TYPE (open_room_epoch o) (open_session_epoch o)
  ++ to_be_bytes 8 (open_frame o).

Definition decode_host_frame_open (payload : bytes) : decoded HostFrameOpen :=
  _ ← validate_exact_message_header payload HOST_OPEN_BYTES HOST_OPEN_MAGIC HOST_OPEN_TYPE;
  room_epoch ← read_u64 payload 5;
  session_epoch ← read_u64 payload 13;
  frame ← read_u64 payload 21;
  mret (mkHostFrameOpen room_epoch session_epoch frame).

Definition release_message_bytes (cursor_count : nat) : result StrictInputCodecError nat :=
  if (u8_max <? N.of_nat cursor_count) then Err Malformed
  else
    let total := (RELEASE_HEADER_BYTES + cursor_count * RELEASE_CURSOR_BYTES)%nat in
    if N.of_nat total <=? MAX_INPUT_BATCH_BYTES then Ok total else Err Malformed.

(** [cursors.windows(2).any(|pair| pair[0] >= pair[1])]. *)
Fixpoint cursors_out_of_order (cursors : list AcceptedInputCursor) : bool :=
  match cursors with
  | c1 :: (c2 :: _) as rest =>
      (zero_based (cursor_player_index c2) <=? zero_based (cursor_player_index c1))
      || cursors_out_of_order rest
  | _ => false
  end.

Definition validate_release_cursors (cursors : list AcceptedInputCursor)
    : result StrictInputCodecError unit :=
  if cursors_out_of_order cursors then Err InvalidCursors else Ok tt.

Definition encode_cursor (c : AcceptedInputCursor) : bytes :=
  [byte_of_N (zero_based (cursor_player_index c))] ++ to_be_bytes 8 (cursor_next_expected_frame c).

Definition encode_server_frame_release_v5 (r : ServerFrameReleaseV5)
    : result StrictInputCodecError bytes :=
  _ ← validate_release_cursors (release_accepted_inputs r);
  _ ← release_message_bytes (length (release_accepted_inputs r));
  Ok (write_header RELEASE_MAGIC RELEASE_TYPE (release_room_epoch r) (release_session_epoch r)
      ++ to_be_bytes 8 (release_released_frame r)
      ++ to_be_bytes 8 (release_next_host_frame r)
      ++ [byte_of_N (N.of_nat (length (release_accepted_inputs r)))]
      ++ concat (encode_cursor <$> release_accepted_inputs r)).

(** The decoding loop [for _ in 0..cursor_count]. *)
Fixpoint decode_cursors (payload : bytes) (count offset : nat) : decoded (list AcceptedInputCursor) :=
  match count with
  | O => mret []
  | S count' =>
      player_index ← read_player_index payload offset;
      next_expected_frame ← read_u64 payload (offset + 1);
      rest ← decode_cursors payload count' (offset + RELEASE_CURSOR_BYTES)%nat;
      mret (mkAcceptedInputCursor player_index next_expected_frame :: rest)
  end.

Definition decode_server_frame_release_v5 (payload : bytes) : decoded ServerFrameReleaseV5 :=
  _ ← validate_message_header payload RELEASE_HEADER_BYTES RELEASE_MAGIC RELEASE_TYPE;
  count ← index payload 37;
  let cursor_count := N.to_nat (Byte.to_N count) in
  total ← try_ (release_message_bytes cursor_count);
  if negb (length payload =? total)%nat then fail_with Malformed
  else
    accepted_inputs ← decode_cursors payload cursor_count RELEASE_HEADER_BYTES;
    _ ← try_ (validate_release_cursors accepted_inputs);
    room_epoch ← read_u64 payload 5;
    session_epoch ← read_u64 payload 13;
    released_frame ← read_u64 payload 21;
    next_host_frame ← read_u64 payload 29;
    mret (mkServerFrameReleaseV5 room_epoch session_epoch released_frame next_host_frame
            accepted_inputs).
