(* ===== verification/StrictInputCodec.v ===== *)
(** * Laws of the protocol v5 input-lane codecs

  [WireCodec] is the interface of a message type: its encoder, its decoder and the
  well-formed values; [LawfulCodec] states round trip, canonicity and panic freedom. The five messages of [src/src/protocol/strict_input/] are
  instances, and the claims about the lane are proved from the laws. *)

From Stdlib Require Import Strings.Byte.
From S2P Require Import Prelude Ids Wire StrictInput.
Open Scope N_scope.

Definition is_u64 (v : N) : Prop := v ≤ u64_max.
Definition in_capacity (p : PlayerIndex) : Prop := zero_based p < MVP_ROOM_CAPACITY.

(** ** Reading a field back out of an encoded message *)

Lemma from_to_be_u64 v : is_u64 v → from_be_bytes (to_be_bytes 8 v) = v.
Proof.
  unfold is_u64, u64_max. intros. rewrite from_to_be_bytes. apply N.mod_small. simpl. lia.
Qed.

Lemma read_u64_cons b p o : read_u64 (b :: p) (S o) = read_u64 p o.
Proof. unfold read_u64. by rewrite get_range_cons. Qed.

Lemma read_u64_skip v p o :
  (8 ≤ o)%nat → read_u64 (to_be_bytes 8 v ++ p) o = read_u64 p (o - 8).
Proof.
  intros. unfold read_u64. rewrite get_range_skip by (rewrite length_to_be_bytes; lia).
  by rewrite length_to_be_bytes.
Qed.

Lemma read_u64_here v p : is_u64 v → read_u64 (to_be_bytes 8 v ++ p) 0 = Ok v.
Proof.
  intros Hv. unfold read_u64. rewrite get_range_here by apply length_to_be_bytes.
  cbn [ok_or try_ map_err mbind result_bind mret result_ret].
  by rewrite length_to_be_bytes, from_to_be_u64.
Qed.

Lemma read_u64_last v : is_u64 v → read_u64 (to_be_bytes 8 v) 0 = Ok v.
Proof. rewrite <-(app_nil_r (to_be_bytes 8 v)). apply read_u64_here. Qed.

Lemma read_u16_cons b p o : read_u16 (b :: p) (S o) = read_u16 p o.
Proof. unfold read_u16. by rewrite get_range_cons. Qed.

Lemma read_u16_skip v p o :
  (8 ≤ o)%nat → read_u16 (to_be_bytes 8 v ++ p) o = read_u16 p (o - 8).
Proof.
  intros. unfold read_u16. rewrite get_range_skip by (rewrite length_to_be_bytes; lia).
  by rewrite length_to_be_bytes.
Qed.

Lemma read_u16_ten p : read_u16 (x00 :: x0a :: p) 0 = Ok (N.of_nat V5_RETROPAD_INPUT_BYTES).
Proof. done. Qed.

Lemma lookup_be_skip v p o :
  (8 ≤ o)%nat → (to_be_bytes 8 v ++ p) !! o = p !! (o - 8)%nat.
Proof.
  intros. rewrite lookup_app_r by (rewrite length_to_be_bytes; lia).
  by rewrite length_to_be_bytes.
Qed.

Lemma read_player_index_cons b p o : read_player_index (b :: p) (S o) = read_player_index p o.
Proof. done. Qed.

Lemma read_player_index_skip v p o :
  (8 ≤ o)%nat → read_player_index (to_be_bytes 8 v ++ p) o = read_player_index p (o - 8).
Proof. intros. unfold read_player_index. by rewrite lookup_be_skip. Qed.

Lemma read_player_index_here pi p :
  in_capacity pi → read_player_index (byte_of_N (zero_based pi) :: p) 0 = Ok pi.
Proof.
  destruct pi as [pi]. unfold in_capacity, MVP_ROOM_CAPACITY. simpl. intros Hpi.
  unfold read_player_index. simpl. rewrite byte_to_N_of_N, N.mod_small by lia.
  unfold PlayerIndex_new, MVP_ROOM_CAPACITY. by destruct (N.ltb_spec pi 2); [|lia].
Qed.

Lemma index_cons b p o : index (E := StrictInputCodecError) (b :: p) (S o) = index p o.
Proof. done. Qed.

Lemma index_here b p : index (E := StrictInputCodecError) (b :: p) 0 = Ok b.
Proof. done. Qed.

Lemma index_skip v p o :
  (8 ≤ o)%nat →
  index (E := StrictInputCodecError) (to_be_bytes 8 v ++ p) o = index p (o - 8).
Proof. intros. unfold index. by rewrite lookup_be_skip. Qed.

Lemma header_cons magic ty re se p :
  length magic = 4%nat →
  write_header magic ty re se ++ p
  = magic ++ byte_of_N ty :: (to_be_bytes 8 re ++ to_be_bytes 8 se ++ p).
Proof. intros. unfold write_header. by rewrite <-!app_assoc. Qed.

Lemma validate_header_ok magic ty p n :
  length magic = 4%nat → ty < 256 → (5 ≤ n)%nat → (n ≤ 5 + length p)%nat →
  validate_message_header (magic ++ byte_of_N ty :: p) n magic ty = Ok tt.
Proof.
  intros Hm Hty Hn Hlen. unfold validate_message_header.
  rewrite length_app, length_cons, Hm.
  destruct (Nat.ltb_spec (4 + S (length p)) n); [lia|].
  unfold slice, index. rewrite get_range_here by done.
  rewrite lookup_app_r by lia. rewrite Hm.
  cbn [ok_or mbind result_bind Nat.sub lookup list_lookup].
  by rewrite byte_to_N_of_N, N.mod_small, !bool_decide_true.
Qed.

(** Computes the lengths and layout constants of a message. *)
Ltac wire_lengths :=
  cbv [ACK_BYTES NACK_BYTES HOST_OPEN_BYTES RELEASE_HEADER_BYTES RELEASE_CURSOR_BYTES
       InputBatch.HEADER_BYTES COMMON_EPOCH_HEADER_BYTES V5_RETROPAD_INPUT_BYTES];
  rewrite ?length_app, ?length_cons, ?length_to_be_bytes;
  repeat (rewrite length_app || rewrite length_cons || rewrite length_to_be_bytes);
  cbn [length Nat.add Nat.mul Nat.eqb negb].

(** Reads every field of an encoded message back, from the left. *)
Ltac wire_read := repeat first
  [ rewrite read_u64_cons
  | rewrite read_u64_skip by lia; cbn [Nat.sub]
  | rewrite read_u64_here by assumption
  | rewrite read_u64_last by assumption
  | rewrite read_player_index_cons
  | rewrite read_player_index_skip by lia; cbn [Nat.sub]
  | rewrite read_player_index_here by assumption
  | rewrite read_u16_cons
  | rewrite read_u16_skip by lia; cbn [Nat.sub]
  | rewrite read_u16_ten
  | rewrite index_cons
  | rewrite index_skip by lia; cbn [Nat.sub]
  | rewrite index_here
  | progress cbn [mbind result_bind mret result_ret] ].

(** Spells out a message's magic bytes. *)
Ltac wire_magic M :=
  let m := eval vm_compute in M in change M with m; cbn [app length Nat.add Nat.eqb negb].

(** ** The codec interface and its laws *)

Class WireCodec (A : Type) := {
  wire_encode : A → result StrictInputCodecError bytes;
  wire_decode : bytes → decoded A;
  wire_wf : A → Prop }.

Class LawfulCodec (A : Type) `{WireCodec A} := {
  wire_roundtrip (a : A) : wire_wf a → ∃ p, wire_encode a = Ok p ∧ wire_decode p = Ok a;
  wire_canonical p (a : A) : wire_decode p = Ok a → wire_wf a ∧ wire_encode a = Ok p;
  wire_no_panic p : wire_decode (A := A) p ≠ Err Panic }.

(** *** Facts about the readers *)

Lemma read_u64_inv p o v :
  read_u64 p o = Ok v →
  is_u64 v ∧ to_be_bytes 8 v = take 8 (drop o p) ∧ (o + 8 ≤ length p)%nat.
Proof.
  unfold read_u64. destruct (get_range p o 8) as [l|] eqn:El; [|done].
  apply get_range_Some in El as (Hlen & -> & Ho). cbn. rewrite Hlen. cbn. intros [= <-].
  split_and!; [|rewrite <-Hlen at 1; apply to_from_be_bytes|done].
  pose proof (from_be_bytes_bound (take 8 (drop o p))) as Hb. rewrite Hlen in Hb.
  unfold is_u64, u64_max. simpl in Hb. lia.
Qed.

Lemma read_u64_no_panic p o : read_u64 p o ≠ Err Panic.
Proof.
  unfold read_u64. destruct (get_range p o 8) as [l|] eqn:El; [|done].
  apply get_range_Some in El as (Hlen & _ & _). cbn. by rewrite Hlen.
Qed.

Lemma read_u16_inv p o v :
  read_u16 p o = Ok v → drop o p = to_be_bytes 2 v ++ drop (o + 2) p.
Proof.
  unfold read_u16. destruct (get_range p o 2) as [l|] eqn:El; [|done].
  apply get_range_Some in El as (Hlen & -> & Ho). cbn. rewrite Hlen. cbn. intros [= <-].
  rewrite <-Hlen at 1. rewrite to_from_be_bytes, <-drop_drop. by rewrite take_drop.
Qed.

Lemma slice_tail_inv (p l : bytes) o :
  (o ≤ length p)%nat →
  slice (E := StrictInputCodecError) p o (length p - o) = Ok l → l = drop o p.
Proof.
  intros Ho. unfold slice. rewrite get_range_lt by lia. cbn. intros [= <-].
  apply take_ge. rewrite length_drop. lia.
Qed.

Lemma read_u16_no_panic p o : read_u16 p o ≠ Err Panic.
Proof.
  unfold read_u16. destruct (get_range p o 2) as [l|] eqn:El; [|done].
  apply get_range_Some in El as (Hlen & _ & _). cbn. by rewrite Hlen.
Qed.

Lemma read_player_index_inv p o pi :
  read_player_index p o = Ok pi →
  in_capacity pi ∧ p !! o = Some (byte_of_N (zero_based pi)).
Proof.
  unfold read_player_index. destruct (p !! o) as [b|] eqn:Eb; [|done]. cbn.
  destruct (PlayerIndex_new _ _) eqn:E; [|done]. cbn. intros [= <-].
  apply PlayerIndex_new_Some in E as [-> Hlt]. split; [done|]. cbn. by rewrite byte_of_to_N.
Qed.

Lemma read_player_index_no_panic p o : read_player_index p o ≠ Err Panic.
Proof.
  unfold read_player_index. destruct (p !! o); [|done]. cbn. by destruct (PlayerIndex_new _ _).
Qed.

Lemma try_no_panic {A} (r : result StrictInputCodecError A) : try_ r ≠ Err Panic.
Proof. by destruct r. Qed.

Lemma bind_no_panic {A B} (m : decoded A) (k : A → decoded B) :
  m ≠ Err Panic → (∀ a, m = Ok a → k a ≠ Err Panic) → m ≫= k ≠ Err Panic.
Proof. destruct m as [a|[|e]]; cbn; naive_solver. Qed.

Lemma index_no_panic p o :
  (o < length p)%nat → index (E := StrictInputCodecError) p o ≠ Err Panic.
Proof. intros Ho. unfold index. by destruct (lookup_lt_is_Some_2 p o Ho) as [b ->]. Qed.

Lemma validate_header_inv p n magic ty :
  (5 ≤ n)%nat → validate_message_header p n magic ty = Ok tt →
  (n ≤ length p)%nat ∧ take 4 p = magic ∧ p !! 4%nat = Some (byte_of_N ty).
Proof.
  unfold validate_message_header, slice, index. intros Hn.
  destruct (Nat.ltb_spec (length p) n); [done|]. intros Hv. split; [done|].
  revert Hv. rewrite get_range_lt, drop_0 by lia. cbn [ok_or mbind result_bind].
  case_bool_decide as Hm; cbn; [|done].
  destruct (p !! 4%nat) as [b|] eqn:Eb; cbn; [|done].
  case_bool_decide as Ht; cbn; [|done]. intros _. by rewrite <-Ht, byte_of_to_N.
Qed.

Lemma validate_header_no_panic p n magic ty :
  (5 ≤ n)%nat → validate_message_header p n magic ty ≠ Err Panic.
Proof.
  intros Hn. unfold validate_message_header, slice, index.
  destruct (Nat.ltb_spec (length p) n); [done|].
  rewrite get_range_lt by lia. cbn [ok_or mbind result_bind].
  case_match; [done|]. destruct (lookup_lt_is_Some_2 p 4) as [b ->]; [lia|].
  cbn. by case_match.
Qed.

Lemma validate_exact_inv p n magic ty :
  (5 ≤ n)%nat → validate_exact_message_header p n magic ty = Ok tt →
  length p = n ∧ take 4 p = magic ∧ p !! 4%nat = Some (byte_of_N ty).
Proof.
  intros Hn. unfold validate_exact_message_header. destruct (Nat.eqb_spec (length p) n); [|done].
  cbn. by intros [_ ?]%(validate_header_inv _ _ _ _ Hn).
Qed.

Lemma validate_exact_no_panic p n magic ty :
  (5 ≤ n)%nat → validate_exact_message_header p n magic ty ≠ Err Panic.
Proof.
  intros. unfold validate_exact_message_header. case_match; [done|].
  by apply validate_header_no_panic.
Qed.

(** Cuts a payload at the field boundaries of a message. *)
Lemma cut_header p n magic ty re se :
  length magic = 4%nat →
  take 4 p = magic → p !! 4%nat = Some (byte_of_N ty) →
  to_be_bytes 8 re = take 8 (drop 5 p) → to_be_bytes 8 se = take 8 (drop 13 p) →
  n = 21%nat → p = write_header magic ty re se ++ drop n p.
Proof.
  intros Hm Hmag Hty Hre Hse ->. rewrite header_cons, Hre, Hse by done.
  rewrite <-(take_drop 4 p) at 1. rewrite Hmag. f_equal.
  rewrite (drop_S _ _ _ Hty). f_equal.
  rewrite <-(take_drop 8 (drop 5 p)) at 1. f_equal. rewrite drop_drop.
  rewrite <-(take_drop 8 (drop _ p)) at 1. by rewrite drop_drop.
Qed.

Lemma cut_u64 p o v :
  to_be_bytes 8 v = take 8 (drop o p) → drop o p = to_be_bytes 8 v ++ drop (o + 8) p.
Proof. intros ->. rewrite <-(take_drop 8 (drop o p)) at 1. by rewrite drop_drop. Qed.

Lemma try_Ok {A} (r : result StrictInputCodecError A) a : try_ r = Ok a ↔ r = Ok a.
Proof. destruct r; cbn; naive_solver. Qed.

Lemma cut_byte (p : bytes) o b : p !! o = Some b → drop o p = b :: drop (S o) p.
Proof. apply drop_S. Qed.

Lemma index_inv (p : bytes) o b :
  index (E := StrictInputCodecError) p o = Ok b → p !! o = Some b.
Proof. unfold index. destruct (p !! o); naive_solver. Qed.

(** Inverts every successful read of a decoder run. *)
Ltac decode_inv := repeat match goal with
  | H : _ ≫= _ = Ok _ |- _ => apply bind_Ok in H as (? & ? & H)
  | H : try_ _ = Ok _ |- _ => apply try_Ok in H
  | H : mret _ = Ok _ |- _ => injection H as H
  | H : read_u64 _ _ = Ok _ |- _ => apply read_u64_inv in H as (? & ? & ?)
  | H : read_player_index _ _ = Ok _ |- _ => apply read_player_index_inv in H as (? & ?)
  | H : index _ _ = Ok _ |- _ => apply index_inv in H
  | x : unit |- _ => destruct x
  | H : validate_exact_message_header _ _ _ _ = Ok _ |- _ =>
      apply validate_exact_inv in H as (? & ? & ?); [|cbv; lia]
  | H : validate_message_header _ _ _ _ = Ok _ |- _ =>
      apply validate_header_inv in H as (? & ? & ?); [|cbv; lia]
  end.

(** A decoder that only reads after its header check never panics. *)
Ltac no_panic := repeat first
  [ apply validate_exact_no_panic; cbv; lia
  | apply validate_header_no_panic; cbv; lia
  | apply read_u64_no_panic | apply read_u16_no_panic | apply read_player_index_no_panic
  | apply try_no_panic | apply bind_no_panic; [|intros ? ?] | done ].

(** Cuts a decoded payload into the fields its reads found. *)
Ltac cut_fields magic ty :=
  etrans; [eapply (cut_header _ 21 magic ty); first [eassumption | done]|]; cbn [app]; f_equal;
  repeat (first [erewrite cut_byte by eassumption | erewrite cut_u64 by eassumption];
          cbn [app Nat.add]; try f_equal);
  try (rewrite drop_ge by (cbv [ACK_BYTES NACK_BYTES HOST_OPEN_BYTES
         COMMON_EPOCH_HEADER_BYTES] in *; lia));
  rewrite ?app_nil_r.

(** *** Cursor acknowledgement *)

Definition ack_wf (a : InputCursorAck) : Prop :=
  is_u64 (ack_room_epoch a) ∧ is_u64 (ack_session_epoch a) ∧
  in_capacity (ack_player_index a) ∧ is_u64 (ack_next_expected_frame a).

Lemma ack_roundtrip a : ack_wf a → decode_input_cursor_ack (encode_input_cursor_ack a) = Ok a.
Proof.
  destruct a as [re se pi nf]. intros (Hre & Hse & Hpi & Hnf).
  unfold decode_input_cursor_ack, encode_input_cursor_ack, validate_exact_message_header.
  cbn [ack_room_epoch ack_session_epoch ack_player_index ack_next_expected_frame] in *.
  rewrite header_cons, validate_header_ok by (done || wire_lengths; lia).
  wire_lengths. wire_magic ACK_MAGIC. wire_read. done.
Qed.

Lemma ack_canonical p a :
  decode_input_cursor_ack p = Ok a → ack_wf a ∧ encode_input_cursor_ack a = p.
Proof.
  unfold decode_input_cursor_ack. intros H. decode_inv. subst a. split; [done|].
  unfold encode_input_cursor_ack. cbn. symmetry.
  cut_fields ACK_MAGIC ACK_TYPE. done.
Qed.

Lemma ack_no_panic p : decode_input_cursor_ack p ≠ Err Panic.
Proof. unfold decode_input_cursor_ack. no_panic. Qed.

(** *** Cursor rejection *)

Definition nack_wf (n : InputCursorNack) : Prop :=
  is_u64 (nack_room_epoch n) ∧ is_u64 (nack_session_epoch n) ∧
  in_capacity (nack_player_index n) ∧ is_u64 (nack_expected_frame n) ∧
  is_u64 (nack_received_frame n).

Lemma nack_reason_code_inv b r :
  nack_reason_try_from (Byte.to_N b) = Ok r → byte_of_N (nack_reason_code r) = b.
Proof. destruct b; cbn; intros [= <-]; done. Qed.

Lemma nack_roundtrip n : nack_wf n → decode_input_cursor_nack (encode_input_cursor_nack n) = Ok n.
Proof.
  destruct n as [re se pi ef rf r]. intros (Hre & Hse & Hpi & Hef & Hrf).
  unfold decode_input_cursor_nack, encode_input_cursor_nack, validate_exact_message_header.
  cbn [nack_room_epoch nack_session_epoch nack_player_index nack_expected_frame
       nack_received_frame nack_reason] in *.
  rewrite header_cons, validate_header_ok by (done || wire_lengths; lia).
  wire_lengths. wire_magic NACK_MAGIC. wire_read. by destruct r.
Qed.

Lemma nack_canonical p n :
  decode_input_cursor_nack p = Ok n → nack_wf n ∧ encode_input_cursor_nack n = p.
Proof.
  unfold decode_input_cursor_nack. intros H. decode_inv. subst n. split; [done|].
  unfold encode_input_cursor_nack. cbn [nack_room_epoch nack_session_epoch nack_player_index
    nack_expected_frame nack_received_frame nack_reason]. symmetry.
  cut_fields NACK_MAGIC NACK_TYPE; first [done | by erewrite nack_reason_code_inv].
Qed.

Lemma nack_no_panic p : decode_input_cursor_nack p ≠ Err Panic.
Proof.
  unfold decode_input_cursor_nack. no_panic. apply index_no_panic. decode_inv.
  by replace (length p) with NACK_BYTES by done; cbv; lia.
Qed.

(** *** Host frame open *)

Definition open_wf (o : HostFrameOpen) : Prop :=
  is_u64 (open_room_epoch o) ∧ is_u64 (open_session_epoch o) ∧ is_u64 (open_frame o).

Lemma open_roundtrip o : open_wf o → decode_host_frame_open (encode_host_frame_open o) = Ok o.
Proof.
  destruct o as [re se f]. intros (Hre & Hse & Hf).
  unfold decode_host_frame_open, encode_host_frame_open, validate_exact_message_header.
  cbn [open_room_epoch open_session_epoch open_frame] in *.
  rewrite header_cons, validate_header_ok by (done || wire_lengths; lia).
  wire_lengths. wire_magic HOST_OPEN_MAGIC. wire_read. done.
Qed.

Lemma open_canonical p o :
  decode_host_frame_open p = Ok o → open_wf o ∧ encode_host_frame_open o = p.
Proof.
  unfold decode_host_frame_open. intros H. decode_inv. subst o. split; [done|].
  unfold encode_host_frame_open. cbn [open_room_epoch open_session_epoch open_frame].
  symmetry. cut_fields HOST_OPEN_MAGIC HOST_OPEN_TYPE. done.
Qed.

Lemma open_no_panic p : decode_host_frame_open p ≠ Err Panic.
Proof. unfold decode_host_frame_open. no_panic. Qed.

(** *** Input batch *)

(** [chunks_exact] inverts concatenation of equally long chunks, both ways. *)
Lemma chunks_exact_concat n (ls : list bytes) fuel :
  (0 < n)%nat → Forall (λ l, length l = n) ls → (length ls ≤ fuel)%nat →
  chunks_exact_fuel fuel n (concat ls) = ls.
Proof.
  intros Hn Hls. revert fuel. induction Hls as [|l ls Hl Hls IH]; intros fuel Hf.
  { destruct fuel; [done|]. destruct n; [lia|done]. }
  destruct fuel as [|fuel]; [simpl in Hf; lia|]. cbn [concat chunks_exact_fuel].
  rewrite length_app. destruct (Nat.ltb_spec (length l + length (concat ls)) n); [lia|].
  rewrite <-Hl, take_app_length, drop_app_length, Hl. f_equal. apply IH. simpl in Hf. lia.
Qed.

Lemma concat_chunks_exact n k (l : bytes) fuel :
  (0 < n)%nat → length l = (k * n)%nat → (k ≤ fuel)%nat →
  concat (chunks_exact_fuel fuel n l) = l ∧
  Forall (λ c, length c = n) (chunks_exact_fuel fuel n l) ∧
  length (chunks_exact_fuel fuel n l) = k.
Proof.
  intros Hn. revert l fuel. induction k as [|k IH]; intros l fuel Hl Hf.
  { destruct l; [|done]. destruct fuel as [|fuel]; [by split_and!|].
    destruct n; [lia|by split_and!]. }
  destruct fuel as [|fuel]; [lia|]. cbn [chunks_exact_fuel].
  destruct (Nat.ltb_spec (length l) n); [lia|].
  destruct (IH (drop n l) fuel) as (Hc & Ha & Hlen); [rewrite length_drop; lia|lia|].
  cbn [concat length]. rewrite Hc, Hlen, take_drop. split_and!; [done| |done].
  constructor; [rewrite length_take; lia|done].
Qed.

Lemma length_concat_chunks n (ls : list bytes) :
  Forall (λ l, length l = n) ls → length (concat ls) = (length ls * n)%nat.
Proof. induction 1 as [|l ls Hl _ IH]; [done|]. cbn [concat]. rewrite length_app, IH, Hl. done. Qed.

Definition StrictInputBatch_wf (b : StrictInputBatch) : Prop :=
  is_u64 (batch_room_epoch b) ∧ is_u64 (batch_session_epoch b) ∧
  in_capacity (batch_player_index b) ∧ is_u64 (batch_start_frame b) ∧
  (1 ≤ length (batch_payloads b) ≤ MAX_INPUT_BATCH_FRAMES)%nat ∧
  Forall (λ p, length p = V5_RETROPAD_INPUT_BYTES) (batch_payloads b).

Lemma validate_payload_count_ok n :
  validate_payload_count n = Ok tt ↔ (1 ≤ n ≤ MAX_INPUT_BATCH_FRAMES)%nat.
Proof.
  unfold validate_payload_count. destruct (Nat.eqb_spec n 0), (Nat.ltb_spec MAX_INPUT_BATCH_FRAMES n);
    naive_solver lia.
Qed.

(** The bytes of an input batch before its payloads. *)
Definition batch_head (b : StrictInputBatch) : bytes :=
  InputBatch.MAGIC ++ byte_of_N InputBatch.MESSAGE_TYPE ::
    to_be_bytes 8 (batch_room_epoch b) ++ to_be_bytes 8 (batch_session_epoch b) ++
    byte_of_N (zero_based (batch_player_index b)) ::
    byte_of_N (N.of_nat (length (batch_payloads b))) ::
    x00 :: x0a :: to_be_bytes 8 (batch_start_frame b).

Lemma length_batch_head b : length (batch_head b) = InputBatch.HEADER_BYTES.
Proof. unfold batch_head. wire_lengths. done. Qed.

Lemma encode_batch_eq b :
  StrictInputBatch_wf b →
  encode_strict_input_batch b = Ok (batch_head b ++ concat (batch_payloads b)).
Proof.
  intros (_ & _ & _ & _ & Hn & Hp). unfold encode_strict_input_batch.
  rewrite (proj2 (validate_payload_count_ok _)) by done. cbn [mbind result_bind].
  destruct (N.ltb_spec MAX_INPUT_BATCH_BYTES (N.of_nat (InputBatch.HEADER_BYTES +
    length (batch_payloads b) * V5_RETROPAD_INPUT_BYTES))) as [Hlt|_].
  { exfalso. revert Hlt Hn. cbv [MAX_INPUT_BATCH_BYTES InputBatch.HEADER_BYTES
      COMMON_EPOCH_HEADER_BYTES MAX_INPUT_BATCH_FRAMES V5_RETROPAD_INPUT_BYTES]. lia. }
  done.
Qed.

Lemma slice_tail (a b : bytes) o n :
  length a = o → length b = n → slice (E := StrictInputCodecError) (a ++ b) o n = Ok b.
Proof. intros <- Hb. unfold slice. by rewrite get_range_app_r. Qed.

Lemma batch_roundtrip b :
  StrictInputBatch_wf b →
  ∃ p, encode_strict_input_batch b = Ok p ∧ decode_strict_input_batch p = Ok b.
Proof.
  intros Hwf. eexists. split; [by apply encode_batch_eq|].
  destruct b as [re se pi st ps]. destruct Hwf as (Hre & Hse & Hpi & Hst & Hn & Hp).
  cbn [batch_room_epoch batch_session_epoch batch_player_index batch_start_frame
       batch_payloads] in *.
  pose proof (length_concat_chunks _ _ Hp) as Hlc.
  pose proof (length_batch_head (mkStrictInputBatch re se pi st ps)) as Hlh.
  unfold decode_strict_input_batch. rewrite !length_app, Hlh, Hlc.
  rewrite slice_tail by (done || rewrite Hlc; lia).
  unfold batch_head.
  cbn [batch_room_epoch batch_session_epoch batch_player_index batch_start_frame
       batch_payloads].
  rewrite <-!app_assoc. cbn [app].
  rewrite validate_header_ok by (done || wire_lengths; rewrite ?Hlc; lia).
  rewrite <-!app_assoc. cbn [app]. wire_magic InputBatch.MAGIC. wire_read.
  rewrite byte_to_N_of_N, N.mod_small, Nat2N.id
    by (unfold MAX_INPUT_BATCH_FRAMES in Hn; lia).
  rewrite (proj2 (validate_payload_count_ok _)) by done. wire_read.
  rewrite Nat.eqb_refl. rewrite bool_decide_true by done. cbn [negb]. wire_read.
  unfold chunks_exact. rewrite chunks_exact_concat
    by (done || rewrite ?Hlc; unfold V5_RETROPAD_INPUT_BYTES; lia).
  destruct (N.ltb_spec MAX_INPUT_BATCH_BYTES (N.of_nat (InputBatch.HEADER_BYTES +
    length ps * V5_RETROPAD_INPUT_BYTES))) as [Hlt|_]; [|done].
  exfalso. revert Hlt Hn. cbv [MAX_INPUT_BATCH_BYTES InputBatch.HEADER_BYTES
      COMMON_EPOCH_HEADER_BYTES MAX_INPUT_BATCH_FRAMES V5_RETROPAD_INPUT_BYTES]. lia.
Qed.

Lemma batch_canonical p b :
  decode_strict_input_batch p = Ok b →
  StrictInputBatch_wf b ∧ encode_strict_input_batch b = Ok p.
Proof.
  unfold decode_strict_input_batch. intros H. apply bind_Ok in H as ([] & Hh & H).
  apply validate_header_inv in Hh as (Hlen & Hmag & Hty); [|cbv; lia].
  case_match; [done|]. decode_inv.
  case_bool_decide as Hsz; cbn [negb] in *; [|done].
  case_match eqn:Hl; [done|]. decode_inv. subst x1.
  apply negb_false_iff, Nat.eqb_eq in Hl. apply slice_tail_inv in H4 as ->; [|done].
  apply validate_payload_count_ok in H2.
  destruct (concat_chunks_exact V5_RETROPAD_INPUT_BYTES (N.to_nat (Byte.to_N x))
    (drop InputBatch.HEADER_BYTES p) (length (drop InputBatch.HEADER_BYTES p)))
    as (Hc & Hf & Hn); [cbv; lia|rewrite length_drop; lia| |].
  { rewrite length_drop. unfold V5_RETROPAD_INPUT_BYTES in Hl. lia. }
  assert (StrictInputBatch_wf b) as Hwf.
  { subst b. unfold StrictInputBatch_wf, chunks_exact. cbn [batch_room_epoch batch_session_epoch
      batch_player_index batch_start_frame batch_payloads]. by rewrite Hn. }
  split; [done|]. rewrite encode_batch_eq by done. f_equal. symmetry. subst b.
  unfold batch_head, chunks_exact. cbn [batch_room_epoch batch_session_epoch
    batch_player_index batch_start_frame batch_payloads]. rewrite Hc, Hn, N2Nat.id, byte_of_to_N.
  etrans; [eapply (cut_header _ 21 InputBatch.MAGIC InputBatch.MESSAGE_TYPE); eassumption || done|].
  unfold write_header. rewrite <-!app_assoc. cbn [app]. rewrite <-!app_assoc. cbn [app].
  do 2 f_equal. do 2 f_equal.
  erewrite cut_byte by eassumption. f_equal. erewrite cut_byte by eassumption. f_equal.
  erewrite read_u16_inv by eassumption. cbn [Nat.add]. by erewrite (cut_u64 p 25) by eassumption.
Qed.

Lemma batch_no_panic p : decode_strict_input_batch p ≠ Err Panic.
Proof.
  unfold decode_strict_input_batch. no_panic. decode_inv. case_match; [done|].
  no_panic. { apply index_no_panic. revert H. cbv. lia. }
  case_match; [done|]. case_match; [done|]. no_panic.
  unfold slice. by rewrite get_range_lt by lia.
Qed.

(** *** Server frame release *)

Definition cursor_wf (c : AcceptedInputCursor) : Prop :=
  in_capacity (cursor_player_index c) ∧ is_u64 (cursor_next_expected_frame c).

Definition release_wf (r : ServerFrameReleaseV5) : Prop :=
  is_u64 (release_room_epoch r) ∧ is_u64 (release_session_epoch r) ∧
  is_u64 (release_released_frame r) ∧ is_u64 (release_next_host_frame r) ∧
  cursors_out_of_order (release_accepted_inputs r) = false ∧
  Forall cursor_wf (release_accepted_inputs r).

(** Strictly ordered cursors of a two-player room: at most one per player. *)
Lemma ordered_cursors_bound cs :
  cursors_out_of_order cs = false → Forall cursor_wf cs → (length cs ≤ 2)%nat.
Proof.
  unfold cursor_wf, in_capacity, MVP_ROOM_CAPACITY.
  destruct cs as [|c1 [|c2 [|c3 cs]]]; cbn [length]; try lia.
  cbn [cursors_out_of_order]. intros Ho Hwf. exfalso.
  apply orb_false_iff in Ho as [H1%N.leb_gt Ho]. apply orb_false_iff in Ho as [H2%N.leb_gt _].
  apply Forall_cons in Hwf as [_ Hwf]. apply Forall_cons in Hwf as [[H3 _] Hwf].
  apply Forall_cons in Hwf as [[H4 _] _]. lia.
Qed.

Lemma release_message_bytes_ok n m :
  release_message_bytes n = Ok m ↔ (n ≤ 255)%nat ∧ m = (38 + n * 9)%nat.
Proof.
  unfold release_message_bytes, RELEASE_HEADER_BYTES, RELEASE_CURSOR_BYTES,
    COMMON_EPOCH_HEADER_BYTES, MAX_INPUT_BATCH_BYTES, u8_max.
  destruct (N.ltb_spec 255 (N.of_nat n)); [naive_solver lia|].
  case_match eqn:E; [apply N.leb_le in E|apply N.leb_gt in E]; naive_solver lia.
Qed.

Lemma read_u64_app l p o : read_u64 (l ++ p) (length l + o) = read_u64 p o.
Proof.
  unfold read_u64. rewrite get_range_skip by lia. by replace (length l + o - length l)%nat with o by lia.
Qed.

Lemma read_player_index_app l p o :
  read_player_index (l ++ p) (length l + o) = read_player_index p o.
Proof.
  unfold read_player_index. rewrite lookup_app_r by lia.
  by replace (length l + o - length l)%nat with o by lia.
Qed.

Lemma length_encode_cursor c : length (encode_cursor c) = RELEASE_CURSOR_BYTES.
Proof. done. Qed.

Lemma decode_cursors_roundtrip pre cs :
  Forall cursor_wf cs →
  decode_cursors (pre ++ concat (encode_cursor <$> cs)) (length cs) (length pre) = Ok cs.
Proof.
  intros Hcs. revert pre. induction Hcs as [|[pi nf] cs [Hpi Hnf] Hcs IH]; intros pre; [done|].
  cbn [length decode_cursors fmap list_fmap concat].
  specialize (IH (pre ++ encode_cursor (mkAcceptedInputCursor pi nf))).
  rewrite length_app, <-app_assoc, length_encode_cursor in IH. rewrite IH. clear IH.
  remember (concat (encode_cursor <$> cs)) as tail.
  unfold encode_cursor. cbn [cursor_player_index cursor_next_expected_frame app] in *.
  rewrite <-(Nat.add_0_r (length pre)) at 1. rewrite read_player_index_app, read_u64_app.
  wire_read. done.
Qed.

Lemma decode_cursors_canonical p n o cs :
  decode_cursors p n o = Ok cs →
  length cs = n ∧ Forall cursor_wf cs ∧
  drop o p = concat (encode_cursor <$> cs) ++ drop (o + n * RELEASE_CURSOR_BYTES) p.
Proof.
  revert o cs. induction n as [|n IH]; intros o cs; cbn [decode_cursors].
  { intros [= <-]. split_and!; [done..|]. cbn. by rewrite Nat.add_0_r. }
  intros H. decode_inv. subst cs.
  match goal with H : decode_cursors _ _ _ = Ok _ |- _ => apply IH in H as (<- & Hwf & Hd) end.
  split_and!; [done|by constructor|]. cbn [fmap list_fmap concat].
  unfold encode_cursor at 1. cbn [cursor_player_index cursor_next_expected_frame app].
  erewrite cut_byte by eassumption. f_equal. rewrite <-Nat.add_1_r.
  erewrite (cut_u64 p (o + 1)) by eassumption. rewrite <-app_assoc. f_equal.
  replace (o + 1 + 8)%nat with (o + RELEASE_CURSOR_BYTES)%nat by (cbv [RELEASE_CURSOR_BYTES]; lia).
  rewrite Hd. f_equal. f_equal. lia.
Qed.

Lemma decode_cursors_no_panic p n o : decode_cursors p n o ≠ Err Panic.
Proof. revert o. induction n as [|n IH]; intros o; cbn [decode_cursors]; no_panic. Qed.

(** The bytes of a release before its cursors. *)
Definition release_head (r : ServerFrameReleaseV5) : bytes :=
  RELEASE_MAGIC ++ byte_of_N RELEASE_TYPE ::
    to_be_bytes 8 (release_room_epoch r) ++ to_be_bytes 8 (release_session_epoch r) ++
    to_be_bytes 8 (release_released_frame r) ++ to_be_bytes 8 (release_next_host_frame r) ++
    [byte_of_N (N.of_nat (length (release_accepted_inputs r)))].

Lemma length_release_head r : length (release_head r) = RELEASE_HEADER_BYTES.
Proof. done. Qed.

Lemma length_encoded_cursors cs :
  length (concat (encode_cursor <$> cs)) = (length cs * RELEASE_CURSOR_BYTES)%nat.
Proof.
  erewrite length_concat_chunks; [|apply Forall_fmap, Forall_true; intros c; apply length_encode_cursor].
  by rewrite length_fmap.
Qed.

Lemma encode_release_eq r :
  release_wf r →
  encode_server_frame_release_v5 r
  = Ok (release_head r ++ concat (encode_cursor <$> release_accepted_inputs r)).
Proof.
  intros (_ & _ & _ & _ & Ho & Hc). pose proof (ordered_cursors_bound _ Ho Hc).
  unfold encode_server_frame_release_v5, validate_release_cursors. rewrite Ho.
  cbn [mbind result_bind].
  rewrite (proj2 (release_message_bytes_ok _ _)) by (split; [lia|done]). done.
Qed.

Lemma release_roundtrip r :
  release_wf r →
  ∃ p, encode_server_frame_release_v5 r = Ok p ∧ decode_server_frame_release_v5 p = Ok r.
Proof.
  intros Hwf. eexists. split; [by apply encode_release_eq|].
  destruct r as [re se rf nf cs]. destruct Hwf as (Hre & Hse & Hrf & Hnf & Ho & Hc).
  cbn [release_room_epoch release_session_epoch release_released_frame
       release_next_host_frame release_accepted_inputs] in *.
  pose proof (ordered_cursors_bound _ Ho Hc) as Hn.
  pose proof (decode_cursors_roundtrip (release_head (mkServerFrameReleaseV5 re se rf nf cs)) cs Hc)
    as Hdec. rewrite length_release_head in Hdec.
  unfold decode_server_frame_release_v5.
  rewrite length_app, length_release_head, length_encoded_cursors.
  remember (concat (encode_cursor <$> cs)) as tail.
  assert (index (E := StrictInputCodecError)
    (release_head (mkServerFrameReleaseV5 re se rf nf cs) ++ tail) 37
    = Ok (byte_of_N (N.of_nat (length cs)))) as Hcount by done.
  rewrite Hcount. cbn [mbind result_bind].
  rewrite byte_to_N_of_N, N.mod_small, Nat2N.id by lia. rewrite Hdec.
  rewrite (proj2 (release_message_bytes_ok _ _)) by (split; [lia|done]).
  cbn [mbind result_bind try_ map_err]. replace (RELEASE_HEADER_BYTES + length cs * RELEASE_CURSOR_BYTES =? 38 + length cs * 9)%nat
    with true by (symmetry; by apply Nat.eqb_eq). cbn [negb].
  unfold validate_release_cursors. rewrite Ho. cbn [mbind result_bind try_ map_err].
  unfold release_head. cbn [release_room_epoch release_session_epoch release_released_frame
    release_next_host_frame release_accepted_inputs].
  rewrite <-!app_assoc. cbn [app]. rewrite validate_header_ok by (done || wire_lengths; lia).
  rewrite <-!app_assoc. wire_magic RELEASE_MAGIC. wire_read. done.
Qed.

Lemma release_canonical p r :
  decode_server_frame_release_v5 p = Ok r →
  release_wf r ∧ encode_server_frame_release_v5 r = Ok p.
Proof.
  unfold decode_server_frame_release_v5. intros H. decode_inv.
  case_match eqn:Hl; [done|]. decode_inv.
  apply negb_false_iff, Nat.eqb_eq in Hl.
  match goal with H : decode_cursors _ _ _ = Ok _ |- _ =>
    apply decode_cursors_canonical in H as (Hn & Hwf & Hd) end.
  match goal with H : release_message_bytes _ = Ok _ |- _ =>
    apply release_message_bytes_ok in H as [_ ->] end.
  match goal with H : validate_release_cursors ?c = Ok _ |- _ =>
    unfold validate_release_cursors in H; destruct (cursors_out_of_order c) eqn:Ho; [done|] end.
  assert (release_wf r) as Hr by by subst r.
  split; [done|]. rewrite encode_release_eq by done. f_equal. symmetry. subst r.
  unfold release_head. cbn [release_room_epoch release_session_epoch release_released_frame
    release_next_host_frame release_accepted_inputs]. rewrite Hn, N2Nat.id, byte_of_to_N.
  etrans; [eapply (cut_header _ 21 RELEASE_MAGIC RELEASE_TYPE); eassumption || done|].
  unfold write_header. rewrite <-!app_assoc. cbn [app]. rewrite <-!app_assoc. cbn [app].
  do 5 f_equal. do 2 f_equal.
  erewrite (cut_u64 p 21) by eassumption. f_equal. erewrite (cut_u64 p _) by eassumption. f_equal.
  cbn [Nat.add]. erewrite cut_byte by eassumption. f_equal.
  change 38%nat with RELEASE_HEADER_BYTES.
  rewrite Hd, (drop_ge p), app_nil_r; [done|]. rewrite Hl. cbv [RELEASE_HEADER_BYTES
    RELEASE_CURSOR_BYTES COMMON_EPOCH_HEADER_BYTES]. lia.
Qed.

Lemma release_no_panic p : decode_server_frame_release_v5 p ≠ Err Panic.
Proof.
  unfold decode_server_frame_release_v5. no_panic. { apply index_no_panic. decode_inv. revert H. cbv. lia. }
  case_match; [done|]. no_panic. apply decode_cursors_no_panic.
Qed.

(** *** The five messages implement the codec interface *)

#[export] Instance ack_codec : WireCodec InputCursorAck := {|
  wire_encode a := Ok (encode_input_cursor_ack a);
  wire_decode := decode_input_cursor_ack; wire_wf := ack_wf |}.
#[export] Instance nack_codec : WireCodec InputCursorNack := {|
  wire_encode n := Ok (encode_input_cursor_nack n);
  wire_decode := decode_input_cursor_nack; wire_wf := nack_wf |}.
#[export] Instance open_codec : WireCodec HostFrameOpen := {|
  wire_encode o := Ok (encode_host_frame_open o);
  wire_decode := decode_host_frame_open; wire_wf := open_wf |}.
#[export] Instance batch_codec : WireCodec StrictInputBatch := {|
  wire_encode := encode_strict_input_batch;
  wire_decode := decode_strict_input_batch; wire_wf := StrictInputBatch_wf |}.
#[export] Instance release_codec : WireCodec ServerFrameReleaseV5 := {|
  wire_encode := encode_server_frame_release_v5;
  wire_decode := decode_server_frame_release_v5; wire_wf := release_wf |}.

#[export] Instance ack_lawful : LawfulCodec InputCursorAck.
Proof.
  split; [|by intros p a [? <-]%ack_canonical|apply ack_no_panic].
  intros a ?. eexists. split; [done|]. by apply ack_roundtrip.
Qed.
#[export] Instance nack_lawful : LawfulCodec InputCursorNack.
Proof.
  split; [|by intros p n [? <-]%nack_canonical|apply nack_no_panic].
  intros n ?. eexists. split; [done|]. by apply nack_roundtrip.
Qed.
#[export] Instance open_lawful : LawfulCodec HostFrameOpen.
Proof.
  split; [|by intros p o [? <-]%open_canonical|apply open_no_panic].
  intros o ?. eexists. split; [done|]. by apply open_roundtrip.
Qed.
#[export] Instance batch_lawful : LawfulCodec StrictInputBatch.
Proof. split; [apply batch_roundtrip|apply batch_canonical|apply batch_no_panic]. Qed.
#[export] Instance release_lawful : LawfulCodec ServerFrameReleaseV5.
Proof. split; [apply release_roundtrip|apply release_canonical|apply release_no_panic]. Qed.

(** The magic bytes and the type byte of any payload a decoder accepts. *)
Ltac decoded_magic H :=
  let a := fresh in
  match type of H with ?d = Ok _ =>
    match d with
    | decode_strict_input_batch _ => unfold decode_strict_input_batch in H
    | decode_server_frame_release_v5 _ => unfold decode_server_frame_release_v5 in H
    | decode_input_cursor_ack _ => unfold decode_input_cursor_ack in H
    | decode_input_cursor_nack _ => unfold decode_input_cursor_nack in H
    | decode_host_frame_open _ => unfold decode_host_frame_open in H
    end
  end; apply bind_Ok in H as ([] & H & _);
  first [apply validate_exact_inv in H as (_ & H & _) | apply validate_header_inv in H as (_ & H & _)];
  [|cbv; lia].

(** Which of the five v5 input-lane decoders accept a payload. *)
Definition v5_message_kinds (p : bytes) : list bool :=
  [is_ok (decode_strict_input_batch p); is_ok (decode_input_cursor_ack p);
   is_ok (decode_input_cursor_nack p); is_ok (decode_host_frame_open p);
   is_ok (decode_server_frame_release_v5 p)].

Lemma is_ok_true {E A} (r : result E A) : is_ok r = true → ∃ a, r = Ok a.
Proof. destruct r; naive_solver. Qed.

Lemma batch_magic p : is_ok (decode_strict_input_batch p) = true → take 4 p = InputBatch.MAGIC.
Proof. intros [a H]%is_ok_true. by decoded_magic H. Qed.
Lemma ack_magic p : is_ok (decode_input_cursor_ack p) = true → take 4 p = ACK_MAGIC.
Proof. intros [a H]%is_ok_true. by decoded_magic H. Qed.
Lemma nack_magic p : is_ok (decode_input_cursor_nack p) = true → take 4 p = NACK_MAGIC.
Proof. intros [a H]%is_ok_true. by decoded_magic H. Qed.
Lemma open_magic p : is_ok (decode_host_frame_open p) = true → take 4 p = HOST_OPEN_MAGIC.
Proof. intros [a H]%is_ok_true. by decoded_magic H. Qed.
Lemma release_magic p :
  is_ok (decode_server_frame_release_v5 p) = true → take 4 p = RELEASE_MAGIC.
Proof. intros [a H]%is_ok_true. by decoded_magic H. Qed.

(** ** Properties *)

Module Codec.

(** C8: every well-formed v5 input-lane message (input batch, cursor ack, cursor
    nack, host frame open, server frame release) is encoded without error, and decoding the bytes
    gives the message back. *)
Theorem v5_wire_roundtrip :
  (∀ b, StrictInputBatch_wf b →
     ∃ p, encode_strict_input_batch b = Ok p ∧ decode_strict_input_batch p = Ok b) ∧
  (∀ a, ack_wf a → decode_input_cursor_ack (encode_input_cursor_ack a) = Ok a) ∧
  (∀ n, nack_wf n → decode_input_cursor_nack (encode_input_cursor_nack n) = Ok n) ∧
  (∀ o, open_wf o → decode_host_frame_open (encode_host_frame_open o) = Ok o) ∧
  (∀ r, release_wf r →
     ∃ p, encode_server_frame_release_v5 r = Ok p ∧ decode_server_frame_release_v5 p = Ok r).
Proof.
  split_and!; [apply batch_roundtrip|apply ack_roundtrip|apply nack_roundtrip|
    apply open_roundtrip|apply release_roundtrip].
Qed.

(** C9: the decoders accept canonical encodings only. Whatever bytes a decoder
    accepts, the message is well formed (fields in their widths, a player index inside
    the two-player room, 1 to 4 payloads of ten bytes, strictly ordered cursors) and its
    encoding is those very bytes; so no two byte strings decode to the same message. *)
Theorem v5_wire_canonical p :
  (∀ b, decode_strict_input_batch p = Ok b →
     StrictInputBatch_wf b ∧ encode_strict_input_batch b = Ok p) ∧
  (∀ a, decode_input_cursor_ack p = Ok a → ack_wf a ∧ encode_input_cursor_ack a = p) ∧
  (∀ n, decode_input_cursor_nack p = Ok n → nack_wf n ∧ encode_input_cursor_nack n = p) ∧
  (∀ o, decode_host_frame_open p = Ok o → open_wf o ∧ encode_host_frame_open o = p) ∧
  (∀ r, decode_server_frame_release_v5 p = Ok r →
     release_wf r ∧ encode_server_frame_release_v5 r = Ok p).
Proof.
  split_and!; intros ?; [apply batch_canonical|apply ack_canonical|apply nack_canonical|
    apply open_canonical|apply release_canonical].
Qed.

(** No byte string a peer can send makes a v5 decoder panic: every slice index
    and every [try_into] of the decoders is in range once the header check has passed. *)
Theorem v5_wire_total p :
  decode_strict_input_batch p ≠ Err Panic ∧ decode_input_cursor_ack p ≠ Err Panic ∧
  decode_input_cursor_nack p ≠ Err Panic ∧ decode_host_frame_open p ≠ Err Panic ∧
  decode_server_frame_release_v5 p ≠ Err Panic.
Proof.
  split_and!; [apply batch_no_panic|apply ack_no_panic|apply nack_no_panic|
    apply open_no_panic|apply release_no_panic].
Qed.

(** A payload is a message of at most one kind, so the order in which a
    receiver tries the decoders does not matter. *)
Theorem v5_wire_disjoint p i j :
  v5_message_kinds p !! i = Some true → v5_message_kinds p !! j = Some true → i = j.
Proof.
  unfold v5_message_kinds. intros Hi Hj.
  destruct i as [|[|[|[|[|i]]]]]; try done; injection Hi as Hi;
  destruct j as [|[|[|[|[|j]]]]]; try done; injection Hj as Hj; exfalso;
  repeat match goal with
  | H : is_ok (decode_strict_input_batch _) = true |- _ => apply batch_magic in H
  | H : is_ok (decode_input_cursor_ack _) = true |- _ => apply ack_magic in H
  | H : is_ok (decode_input_cursor_nack _) = true |- _ => apply nack_magic in H
  | H : is_ok (decode_host_frame_open _) = true |- _ => apply open_magic in H
  | H : is_ok (decode_server_frame_release_v5 _) = true |- _ => apply release_magic in H
  end; rewrite Hi in Hj; discriminate.
Qed.

Lemma v5_wire_disjoint_witness :
  let p := encode_input_cursor_ack (mkInputCursorAck 3 1 PlayerIndex_TWO 77) in
  v5_message_kinds p !! 1%nat = Some true ∧ (1%nat = 1%nat).
Proof.
  split; [vm_compute; reflexivity|].
  apply (v5_wire_disjoint (encode_input_cursor_ack (mkInputCursorAck 3 1 PlayerIndex_TWO 77)) 1 1);
    vm_compute; reflexivity.
Defined.

End Codec.
