(* ===== verification/Text.v ===== *)
(** * Text handling and descriptor validation

  The string operations the relay uses, on Rust strings as their UTF-8 bytes
  ([String.string]), and [src/src/protocol/descriptor_validation.rs]. *)

From Stdlib Require Import Ascii.
From S2P Require Import Prelude.
Open Scope N_scope.

(** ** Bytes of a string *)

Definition string_bytes (s : string) : list N := N_of_ascii <$> String.list_ascii_of_string s.
Definition string_of_bytes (l : list N) : string :=
  String.string_of_list_ascii (ascii_of_N <$> l).
(** [str::len], a byte count. *)
Definition str_len (s : string) : nat := String.length s.

(** [u8::is_ascii_hexdigit], [u8::is_ascii_alphanumeric], [u8::is_ascii_alphabetic]. *)
Definition in_range (lo hi b : N) : bool := (lo <=? b) && (b <=? hi).
Definition is_ascii_digit : N → bool := in_range 48 57.
Definition is_ascii_upper : N → bool := in_range 65 90.
Definition is_ascii_lower : N → bool := in_range 97 122.
Definition is_ascii_hexdigit (b : N) : bool :=
  is_ascii_digit b || in_range 65 70 b || in_range 97 102 b.
Definition is_ascii_alphabetic (b : N) : bool := is_ascii_upper b || is_ascii_lower b.
Definition is_ascii_alphanumeric (b : N) : bool := is_ascii_digit b || is_ascii_alphabetic b.
(** [char::is_ascii_whitespace]. *)
Definition is_ascii_whitespace (b : N) : bool :=
  (b =? 32) || (b =? 9) || (b =? 10) || (b =? 12) || (b =? 13).

Definition byte_to_lower (b : N) : N := if is_ascii_upper b then b + 32 else b.
Definition byte_to_upper (b : N) : N := if is_ascii_lower b then b - 32 else b.

(** [str::to_ascii_lowercase] and [str::eq_ignore_ascii_case]. *)
Definition to_ascii_lowercase (s : string) : string :=
  string_of_bytes (byte_to_lower <$> string_bytes s).
Definition eq_ignore_ascii_case (a b : string) : bool :=
  to_ascii_lowercase a ==? to_ascii_lowercase b.

(** ** Characters

  [chars] decodes the UTF-8 bytes of a string; a Rust [str] is valid UTF-8, so
  the fallback for a stray byte is never reached on one. *)
Fixpoint chars_of_bytes (fuel : nat) (l : list N) : list N :=
  match fuel, l with
  | O, _ | _, [] => []
  | S fuel', b :: l' =>
      if b <? 192 then b :: chars_of_bytes fuel' l'
      else if b <? 224 then
        match l' with
        | b1 :: r => (b mod 32) * 64 + b1 mod 64 :: chars_of_bytes fuel' r
        | _ => [b]
        end
      else if b <? 240 then
        match l' with
        | b1 :: b2 :: r =>
            (b mod 16) * 4096 + (b1 mod 64) * 64 + b2 mod 64 :: chars_of_bytes fuel' r
        | _ => [b]
        end
      else
        match l' with
        | b1 :: b2 :: b3 :: r =>
            (b mod 8) * 262144 + (b1 mod 64) * 4096 + (b2 mod 64) * 64 + b3 mod 64
            :: chars_of_bytes fuel' r
        | _ => [b]
        end
  end.
Definition chars (s : string) : list N := chars_of_bytes (str_len s) (string_bytes s).

(** [char::is_control]: the Unicode category Cc. *)
Definition is_control (c : N) : bool := (c <=? 31) || in_range 127 159 c.
(** [char::is_whitespace]: the Unicode property White_Space. *)
Definition is_whitespace (c : N) : bool :=
  in_range 9 13 c || (c =? 32) || (c =? 133) || (c =? 160) || (c =? 5760)
  || in_range 8192 8202 c || (c =? 8232) || (c =? 8233) || (c =? 8239) || (c =? 8287)
  || (c =? 12288).

Fixpoint trim_start (l : list N) : list N :=
  match l with
  | [] => []
  | c :: l' => if is_whitespace c then trim_start l' else l
  end.
(** [str::trim], on the characters of the string. *)
Definition trim (l : list N) : list N := rev (trim_start (rev (trim_start l))).

(** [char::encode_utf8]. *)
Definition encode_utf8 (c : N) : list N :=
  if c <? 128 then [c]
  else if c <? 2048 then [192 + c / 64; 128 + c mod 64]
  else if c <? 65536 then [224 + c / 4096; 128 + (c / 64) mod 64; 128 + c mod 64]
  else [240 + c / 262144; 128 + (c / 4096) mod 64; 128 + (c / 64) mod 64; 128 + c mod 64].

(** [str::trim], as the string it returns. *)
Definition trim_str (s : string) : string :=
  string_of_bytes (concat (encode_utf8 <$> trim (chars s))).

(** [slice::join(" ")]. *)
Fixpoint join_spaces (words : list (list N)) : list N :=
  match words with
  | [] => []
  | [w] => w
  | w :: words => w ++ [32] ++ join_spaces words
  end.

(** [str::strip_prefix]. *)
Definition strip_prefix (pre s : string) : option string :=
  if String.prefix pre s
  then Some (String.substring (String.length pre) (String.length s - String.length pre) s)
  else None.

(** ** descriptor_validation.rs *)

(** [SessionDescriptorError { field }]. *)
Record SessionDescriptorError := mkSessionDescriptorError { error_field : string }.

#[export] Instance SessionDescriptorError_eq_dec : EqDecision SessionDescriptorError.
Proof. solve_decision. Defined.

Abbreviation validated := (result SessionDescriptorError unit).
Definition invalid (field : string) : validated := Err (mkSessionDescriptorError field).

Definition ID_MAX_LEN : nat := 96.
Definition TITLE_MAX_LEN : nat := 160.
Definition SHORT_TEXT_MAX_LEN : nat := 96.
Definition SHA256_HEX_LEN : nat := 64.

Definition validate_text (field value : string) (max_len : nat) : validated :=
  let cs := chars value in
  if (trim cs ==? []) || (max_len <? str_len value)%nat || (cs !=? trim cs)
     || existsb is_control cs
  then invalid field else Ok tt.

Definition looks_like_windows_drive_path (value : string) : bool :=
  match string_bytes value with
  | b0 :: b1 :: _ => is_ascii_alphabetic b0 && (b1 =? 58)
  | _ => false
  end.

(** [value.contains("..")]. *)
Fixpoint contains_dot_dot (l : list N) : bool :=
  match l with
  | b0 :: ((b1 :: _) as l') => ((b0 =? 46) && (b1 =? 46)) || contains_dot_dot l'
  | _ => false
  end.

Definition validate_id (field value : string) : validated :=
  _ ← validate_text field value ID_MAX_LEN;
  let bs := string_bytes value in
  if existsb (N.eqb 47) bs || existsb (N.eqb 92) bs || contains_dot_dot bs
     || looks_like_windows_drive_path value
  then invalid field else Ok tt.

Definition validate_optional_id (field : string) (value : option string) : validated :=
  match value with Some value => validate_id field value | None => Ok tt end.

Definition validate_title (value : string) : validated := validate_text "title" value TITLE_MAX_LEN.

Definition validate_optional_short_text (field : string) (value : option string) : validated :=
  match value with Some value => validate_text field value SHORT_TEXT_MAX_LEN | None => Ok tt end.

Definition validate_sha256 (field value : string) : validated :=
  if (str_len value =? SHA256_HEX_LEN)%nat && forallb is_ascii_hexdigit (chars value)
  then Ok tt else invalid field.

Definition validate_optional_sha256 (field : string) (value : option string) : validated :=
  match value with Some value => validate_sha256 field value | None => Ok tt end.
