(* ===== verification/Compatibility.v ===== *)
(** * Compatibility fingerprints

  Models [src/src/protocol/compatibility.rs] and
  [src/src/protocol/compatibility_v5.rs]: the fingerprint each client reports
  before gameplay, the protocol v5 deterministic profile, their validation and
  the comparison that finds the first mismatch. *)

From S2P Require Import Prelude Ids Text.
Open Scope N_scope.

Definition V5_INPUT_CODEC_ID : string := "shadowboy-retropad-v1-le".
Definition V5_INPUT_PREDICTOR_ID : string := "shadowboy-retropad-predictor-v1".

Inductive StateDigestMode := Authoritative | Diagnostic | DigestDisabled.

#[export] Instance StateDigestMode_eq_dec : EqDecision StateDigestMode.
Proof. solve_decision. Defined.

Record DeterminismProfileV5 := mkDeterminismProfileV5 {
  netplay_core_compatibility_id : string;
  local_artifact_id : string;
  platform_class : string;
  core_options_digest : string;
  controller_profile_ids : list string;
  input_codec_id : string;
  input_payload_size : N;
  predictor_id : string;
  nominal_frame_rate_numerator : N;
  nominal_frame_rate_denominator : N;
  rom_size_bytes : N;
  content_transformation_digest : option string;
  startup_state_policy_id : string;
  replay_output_suppressed : bool;
  digest_mode : StateDigestMode;
  digest_algorithm_id : option string }.

#[export] Instance DeterminismProfileV5_eq_dec : EqDecision DeterminismProfileV5.
Proof. solve_decision. Defined.

(** [enum CompatibilityMismatch] of the protocol. *)
Inductive Mismatch :=
| MProtocolVersion | MSystem | MCore | MStateFormat | MContent | MSettings | MCheats
| MSystemData | MSaveDataMode | MDeterminismProfileMissing | MNetplayCoreCompatibility
| MPlatformClass | MCoreOptions | MControllerProfile | MInputContract | MNominalFrameRate
| MRomSize | MContentTransformation | MStartupStatePolicy | MReplayOutputSuppression
| MDigestContract.

#[export] Instance Mismatch_eq_dec : EqDecision Mismatch.
Proof. solve_decision. Defined.

(** ** compatibility_v5.rs *)

Definition digest_matches (a b : string) : bool := eq_ignore_ascii_case a b.

Definition optional_digest_matches (a b : option string) : bool :=
  match a, b with
  | Some a, Some b => digest_matches a b
  | None, None => true
  | _, _ => false
  end.

(** The Euclid loop; [fuel] bounds the iterations. [b] halves at least every
    two of them, so 130 iterations finish on 64-bit operands
    ([greatest_common_divisor_correct]). *)
Fixpoint gcd_loop (fuel : nat) (a b : N) : N :=
  match fuel with
  | O => a
  | S fuel' => if b =? 0 then a else gcd_loop fuel' b (a mod b)
  end.
Definition greatest_common_divisor (a b : N) : N := gcd_loop 130 a b.

Definition digest_contract_is_valid (p : DeterminismProfileV5) : bool :=
  match digest_mode p with
  | DigestDisabled => is_none (digest_algorithm_id p)
  | Authoritative | Diagnostic =>
      is_some_and (digest_algorithm_id p)
        (λ algorithm, is_ok (validate_id "determinismV5.digestAlgorithmId" algorithm))
  end.

Definition profile_is_valid (p : DeterminismProfileV5) : bool :=
  is_ok (validate_id "determinismV5.netplayCoreCompatibilityId" (netplay_core_compatibility_id p))
  && is_ok (validate_id "determinismV5.localArtifactId" (local_artifact_id p))
  && is_ok (validate_id "determinismV5.platformClass" (platform_class p))
  && is_ok (validate_sha256 "determinismV5.coreOptionsDigest" (core_options_digest p))
  && (controller_profile_ids p !=? [])
  && (length (controller_profile_ids p) <=? 8)%nat
  && forallb (λ profile, is_ok (validate_id "determinismV5.controllerProfileIds" profile))
       (controller_profile_ids p)
  && (input_codec_id p ==? V5_INPUT_CODEC_ID)
  && (input_payload_size p =? N.of_nat V5_RETROPAD_INPUT_BYTES)
  && (predictor_id p ==? V5_INPUT_PREDICTOR_ID)
  && (0 <? nominal_frame_rate_numerator p)
  && (0 <? nominal_frame_rate_denominator p)
  && (greatest_common_divisor (nominal_frame_rate_numerator p)
        (nominal_frame_rate_denominator p) =? 1)
  && (0 <? rom_size_bytes p)
  && is_ok (validate_optional_sha256 "determinismV5.contentTransformationDigest"
              (content_transformation_digest p))
  && is_ok (validate_id "determinismV5.startupStatePolicyId" (startup_state_policy_id p))
  && replay_output_suppressed p
  && digest_contract_is_valid p.

(** The mismatch tests of a [first_mismatch] body, in order: the first test that
    holds decides. *)
Fixpoint first_of (tests : list (bool * Mismatch)) : option Mismatch :=
  match tests with
  | [] => None
  | (true, m) :: _ => Some m
  | (false, _) :: rest => first_of rest
  end.

(** [DeterminismProfileV5::first_mismatch]. *)
Definition profile_mismatch_tests (a b : DeterminismProfileV5) : list (bool * Mismatch) :=
  [ (netplay_core_compatibility_id a !=? netplay_core_compatibility_id b, MNetplayCoreCompatibility);
    (platform_class a !=? platform_class b, MPlatformClass);
    (negb (digest_matches (core_options_digest a) (core_options_digest b)), MCoreOptions);
    (controller_profile_ids a !=? controller_profile_ids b, MControllerProfile);
    ((input_codec_id a !=? input_codec_id b)
     || (input_payload_size a !=? input_payload_size b)
     || (predictor_id a !=? predictor_id b), MInputContract);
    ((nominal_frame_rate_numerator a !=? nominal_frame_rate_numerator b)
     || (nominal_frame_rate_denominator a !=? nominal_frame_rate_denominator b), MNominalFrameRate);
    (rom_size_bytes a !=? rom_size_bytes b, MRomSize);
    (negb (optional_digest_matches (content_transformation_digest a)
             (content_transformation_digest b)), MContentTransformation);
    (startup_state_policy_id a !=? startup_state_policy_id b, MStartupStatePolicy);
    (negb (Bool.eqb (replay_output_suppressed a) (replay_output_suppressed b)),
     MReplayOutputSuppression);
    ((digest_mode a !=? digest_mode b) || (digest_algorithm_id a !=? digest_algorithm_id b),
     MDigestContract) ].
Definition profile_first_mismatch (a b : DeterminismProfileV5) : option Mismatch :=
  first_of (profile_mismatch_tests a b).

(** ** compatibility.rs *)

Record CompatibilityFingerprint := mkCompatibilityFingerprint {
  fp_desktop_version : string;
  fp_protocol_version : N;
  fp_system_id : string;
  fp_core_id : string;
  fp_core_build : string;
  fp_state_format : option string;
  fp_content_hash : string;
  fp_settings_hash : string;
  fp_cheats_hash : string;
  fp_system_data_hash : option string;
  fp_save_data_mode : string;
  fp_determinism_v5 : option DeterminismProfileV5 }.

#[export] Instance CompatibilityFingerprint_eq_dec : EqDecision CompatibilityFingerprint.
Proof. solve_decision. Defined.

#[export] Instance eta_CompatibilityFingerprint : Eta CompatibilityFingerprint := λ f,
  mkCompatibilityFingerprint (fp_desktop_version f) (fp_protocol_version f) (fp_system_id f)
    (fp_core_id f) (fp_core_build f) (fp_state_format f) (fp_content_hash f)
    (fp_settings_hash f) (fp_cheats_hash f) (fp_system_data_hash f) (fp_save_data_mode f)
    (fp_determinism_v5 f).
#[export] Instance set_fp_content_hash : Setter fp_content_hash.
Proof. derive_setter. Defined.

Definition normalized_state_format (f : CompatibilityFingerprint) : string :=
  unwrap_or (fp_state_format f) (fp_core_build f).

Definition fingerprint_mismatch_tests (a b : CompatibilityFingerprint) : list (bool * Mismatch) :=
  [ (fp_protocol_version a !=? fp_protocol_version b, MProtocolVersion);
    (fp_system_id a !=? fp_system_id b, MSystem);
    (fp_core_id a !=? fp_core_id b, MCore);
    (normalized_state_format a !=? normalized_state_format b, MStateFormat);
    (fp_content_hash a !=? fp_content_hash b, MContent);
    (fp_settings_hash a !=? fp_settings_hash b, MSettings);
    (fp_cheats_hash a !=? fp_cheats_hash b, MCheats);
    (fp_system_data_hash a !=? fp_system_data_hash b, MSystemData);
    (fp_save_data_mode a !=? fp_save_data_mode b, MSaveDataMode) ].

(** [CompatibilityFingerprint::first_mismatch]. *)
Definition first_mismatch (a b : CompatibilityFingerprint) : option Mismatch :=
  match first_of (fingerprint_mismatch_tests a b) with
  | Some m => Some m
  | None =>
      if 5 <=? fp_protocol_version a then
        match fp_determinism_v5 a, fp_determinism_v5 b with
        | Some pa, Some pb => profile_first_mismatch pa pb
        | _, _ => Some MDeterminismProfileMissing
        end
      else None
  end.

(** [CompatibilityFingerprint::valid_determinism_v5]. *)
Definition valid_determinism_v5 (f : CompatibilityFingerprint) : option DeterminismProfileV5 :=
  let hashes_are_valid :=
    is_ok (validate_sha256 "contentHash" (fp_content_hash f))
    && is_ok (validate_sha256 "settingsHash" (fp_settings_hash f))
    && is_ok (validate_sha256 "cheatsHash" (fp_cheats_hash f))
    && is_ok (validate_optional_sha256 "systemDataHash" (fp_system_data_hash f)) in
  match fp_determinism_v5 f with
  | Some profile => if hashes_are_valid && profile_is_valid profile then Some profile else None
  | None => None
  end.

(** ** Lemmas *)

Lemma first_of_None tests : first_of tests = None ↔ Forall (λ t, t.1 = false) tests.
Proof.
  induction tests as [|[[] m] tests IH]; simpl.
  - by split.
  - split; [done|]. intros H%Forall_cons. by destruct H.
  - rewrite IH, Forall_cons. naive_solver.
Qed.

Lemma gcd_loop_S n a b :
  gcd_loop (S n) a b = if b =? 0 then a else gcd_loop n b (a mod b).
Proof. done. Qed.

Lemma gcd_step a b : N.gcd a b = N.gcd b (a mod b).
Proof. by rewrite (N.gcd_comm b), N.Lcm0.gcd_mod, N.gcd_comm. Qed.

(** The Euclid loop halves [b] every two iterations and computes the gcd. *)
Lemma gcd_loop_correct fuel a b : b < 2 ^ N.of_nat fuel → gcd_loop (2 * fuel + 1) a b = N.gcd a b.
Proof.
  revert a b. induction fuel as [|fuel IH]; intros a b Hb.
  - assert (b = 0) as -> by (simpl in Hb; lia). simpl. by rewrite N.gcd_0_r.
  - replace (2 * S fuel + 1)%nat with (S (S (2 * fuel + 1))) by lia. cbn [gcd_loop].
    destruct (N.eqb_spec b 0) as [->|Hb0]; [by rewrite N.gcd_0_r|].
    rewrite (gcd_step a b).
    destruct (N.eqb_spec (a mod b) 0) as [->|Hm0]; [by rewrite N.gcd_0_r|].
    rewrite IH.
    + by rewrite <-gcd_step.
    + rewrite Nat2N.inj_succ, N.pow_succ_r' in Hb.
      pose proof (N.mod_lt a b Hb0). pose proof (N.mod_lt b (a mod b) Hm0).
      pose proof (N.div_mod b (a mod b) Hm0) as Hd.
      assert (1 ≤ b / (a mod b)) by (apply N.div_le_lower_bound; lia). nia.
Qed.

(** Two profiles, or fingerprints, agree when every test passes; agreement is
    symmetric, so the order in which a pair is compared does not matter. *)
Lemma profile_first_mismatch_sym a b :
  profile_first_mismatch a b = None → profile_first_mismatch b a = None.
Proof.
  unfold profile_first_mismatch. rewrite !first_of_None. unfold profile_mismatch_tests.
  rewrite !Forall_cons. cbn [fst]. unfold digest_matches, eq_ignore_ascii_case.
  rewrite !orb_false_iff, !bool_decide_neq_false.
  assert (∀ x y, optional_digest_matches x y = optional_digest_matches y x) as Ho.
  { intros [x|] [y|]; cbn; try done. unfold digest_matches, eq_ignore_ascii_case.
    apply bool_decide_ext. naive_solver. }
  rewrite (Ho (content_transformation_digest b)).
  intros. destruct_and!. split_and!; try congruence; try done.
  by destruct (replay_output_suppressed a), (replay_output_suppressed b).
Qed.

Lemma gcd_within_fuel a b : b ≤ u64_max → greatest_common_divisor a b = N.gcd a b.
Proof.
  intros Hb. unfold greatest_common_divisor.
  replace 130%nat with (S (2 * 64 + 1))%nat by done. rewrite gcd_loop_S.
  destruct (N.eqb_spec b 0) as [->|Hb0]; [by rewrite N.gcd_0_r|].
  rewrite gcd_loop_correct; [by rewrite <-gcd_step|].
  pose proof (N.mod_lt a b Hb0). unfold u64_max in Hb. simpl. lia.
Qed.

(** ** Properties *)

Module Agreement.

(** The deterministic-profile check computes the greatest common divisor of the
    nominal frame rate's terms: the Euclid loop terminates within its bound on every
    pair of 64-bit values and returns their gcd; so the frame rate of every profile that
    passes validation is in lowest terms. *)
Theorem greatest_common_divisor_correct a b :
  b ≤ u64_max →
  greatest_common_divisor a b = N.gcd a b ∧
  ∀ p, profile_is_valid p = true → nominal_frame_rate_numerator p = a →
    nominal_frame_rate_denominator p = b → N.gcd a b = 1.
Proof.
  intros Hb. pose proof (gcd_within_fuel a b Hb) as Hg. split; [done|].
  intros p Hp <- <-. rewrite <-Hg. unfold profile_is_valid in Hp. rewrite !andb_true_iff in Hp.
  apply N.eqb_eq. tauto.
Qed.

Lemma greatest_common_divisor_correct_witness :
  60000 ≤ u64_max ∧ greatest_common_divisor 60000 1001 = N.gcd 60000 1001.
Proof. split; [done|]. apply (greatest_common_divisor_correct 60000 1001). done. Defined.

(** Two fingerprints agree ([first_mismatch] finds nothing) only if they agree on
    everything gameplay depends on: protocol version, system, core, save-state format,
    content, settings, cheats, system data and save-data mode, and from protocol v5 on both
    carry a deterministic profile with the same core cohort, platform class, input
    contract, frame rate, ROM size, startup policy and digest contract. Fields the
    comparison ignores (client version, local artifact id, and the core build when a state
    format is given) stay free. *)
Theorem agreement_covers_gameplay a b :
  first_mismatch a b = None →
  fp_protocol_version a = fp_protocol_version b ∧ fp_system_id a = fp_system_id b ∧
  fp_core_id a = fp_core_id b ∧ normalized_state_format a = normalized_state_format b ∧
  fp_content_hash a = fp_content_hash b ∧ fp_settings_hash a = fp_settings_hash b ∧
  fp_cheats_hash a = fp_cheats_hash b ∧ fp_system_data_hash a = fp_system_data_hash b ∧
  fp_save_data_mode a = fp_save_data_mode b ∧
  (5 ≤ fp_protocol_version a →
   ∃ pa pb, fp_determinism_v5 a = Some pa ∧ fp_determinism_v5 b = Some pb ∧
     netplay_core_compatibility_id pa = netplay_core_compatibility_id pb ∧
     platform_class pa = platform_class pb ∧
     to_ascii_lowercase (core_options_digest pa) = to_ascii_lowercase (core_options_digest pb) ∧
     controller_profile_ids pa = controller_profile_ids pb ∧
     input_codec_id pa = input_codec_id pb ∧ input_payload_size pa = input_payload_size pb ∧
     predictor_id pa = predictor_id pb ∧
     nominal_frame_rate_numerator pa = nominal_frame_rate_numerator pb ∧
     nominal_frame_rate_denominator pa = nominal_frame_rate_denominator pb ∧
     rom_size_bytes pa = rom_size_bytes pb ∧
     startup_state_policy_id pa = startup_state_policy_id pb ∧
     replay_output_suppressed pa = replay_output_suppressed pb ∧
     digest_mode pa = digest_mode pb ∧ digest_algorithm_id pa = digest_algorithm_id pb).
Proof.
  unfold first_mismatch. destruct (first_of (fingerprint_mismatch_tests a b)) eqn:Ha; [done|].
  rewrite first_of_None in Ha. unfold fingerprint_mismatch_tests in Ha.
  rewrite !Forall_cons in Ha. cbn [fst] in Ha. rewrite !bool_decide_neq_false in Ha.
  destruct Ha as (?&?&?&?&?&?&?&?&?&_). intros Hp. split_and!; try done. intros Hv5.
  destruct (N.leb_spec 5 (fp_protocol_version a)); [|lia].
  destruct (fp_determinism_v5 a) as [pa|], (fp_determinism_v5 b) as [pb|]; try done.
  exists pa, pb. revert Hp. unfold profile_first_mismatch. rewrite first_of_None.
  unfold profile_mismatch_tests. rewrite !Forall_cons. cbn [fst].
  rewrite !orb_false_iff, !bool_decide_neq_false, !negb_false_iff.
  unfold digest_matches, eq_ignore_ascii_case. rewrite bool_decide_eq_true, eqb_true_iff.
  naive_solver.
Qed.

Definition sample_fingerprint (version : N) (desktop : string) : CompatibilityFingerprint :=
  mkCompatibilityFingerprint desktop version "snes" "snes9x" "build" (Some "snes9x:v1")
    "aa" "bb" "cc" None "netplay" None.

Lemma agreement_covers_gameplay_witness :
  fp_content_hash (sample_fingerprint 4 "1.0") = fp_content_hash (sample_fingerprint 4 "2.0").
Proof.
  apply (agreement_covers_gameplay (sample_fingerprint 4 "1.0") (sample_fingerprint 4 "2.0")).
  vm_compute. reflexivity.
Defined.

End Agreement.
