(* ===== verification/Descriptor.v ===== *)
(** * Session descriptors

  Models [src/src/protocol/session_descriptor.rs], [link_cable_descriptor.rs],
  [rom_relay.rs], [voice_descriptor.rs], [session_mode.rs], [client_kind.rs] and
  [netplay_protocol.rs]: what a host declares when it creates a room, its
  validation, and the negotiation of the protocol version. *)

From S2P Require Import Prelude Ids Text.
Open Scope N_scope.

(** ** netplay_protocol.rs *)

Definition NETPLAY_PROTOCOL_VERSION : N := 5.
Definition MIN_SUPPORTED_NETPLAY_PROTOCOL_VERSION : N := 4.
Definition LEGACY_NETPLAY_PROTOCOL_VERSION : N := 4.

(** [ProtocolVersionError { version }]. *)
Record ProtocolVersionError := mkProtocolVersionError { error_version : N }.

Definition validate_client_protocol_version (version : N) : result ProtocolVersionError unit :=
  if (MIN_SUPPORTED_NETPLAY_PROTOCOL_VERSION <=? version) && (version <=? NETPLAY_PROTOCOL_VERSION)
  then Ok tt else Err (mkProtocolVersionError version).

Definition negotiate_client_protocol_version (minimum maximum : N) : result ProtocolVersionError N :=
  if maximum <? minimum then Err (mkProtocolVersionError maximum)
  else
    let common_minimum := N.max minimum MIN_SUPPORTED_NETPLAY_PROTOCOL_VERSION in
    let common_maximum := N.min maximum NETPLAY_PROTOCOL_VERSION in
    if common_maximum <? common_minimum then Err (mkProtocolVersionError maximum)
    else Ok common_maximum.

Definition validate_room_protocol_version (version room_protocol_version : N)
    : result ProtocolVersionError unit :=
  _ ← validate_client_protocol_version version;
  if version =? room_protocol_version then Ok tt else Err (mkProtocolVersionError version).

(** ** Enumerations *)

Inductive NetplayClientKind := DesktopClient | AndroidClient | IosClient.
Inductive NetplaySessionMode := ControllerNetplay | LinkCable.
Inductive NetplayRoomMode := DirectInvite.
Inductive RomRelayIntent := ExactMatchOnly | MissingPeerOnly.
Inductive NetplayVoiceMode := VoiceActivation | PushToTalk | MutedOnJoin.
Inductive LinkCableTransport := Relay_.
Inductive RomRelayCapabilityReason :=
| CapDisabled | CapBrokerUnavailable | CapUnsupportedRoom | CapMissingIdentity | CapTooLarge
| CapUnsupportedSystem.

#[export] Instance NetplayClientKind_eq_dec : EqDecision NetplayClientKind.
Proof. solve_decision. Defined.
#[export] Instance NetplaySessionMode_eq_dec : EqDecision NetplaySessionMode.
Proof. solve_decision. Defined.
#[export] Instance RomRelayIntent_eq_dec : EqDecision RomRelayIntent.
Proof. solve_decision. Defined.
#[export] Instance NetplayVoiceMode_eq_dec : EqDecision NetplayVoiceMode.
Proof. solve_decision. Defined.

(** ** rom_relay.rs *)

Record RomIdentity := mkRomIdentity {
  rom_system : string;
  rom_core_id : string;
  rom_content_hash : string;
  rom_size_bytes_ : N;
  rom_file_name : option string;
  rom_extension : option string;
  rom_display_name : string }.

#[export] Instance RomIdentity_eq_dec : EqDecision RomIdentity.
Proof. solve_decision. Defined.

Record RomRelayCapability := mkRomRelayCapability {
  cap_supported : bool;
  cap_available : bool;
  cap_temporary_access_only : bool;
  cap_max_bytes : N;
  cap_allowed_systems : list string;
  cap_reason : option RomRelayCapabilityReason }.

Definition is_sha256_hex (value : string) : bool :=
  (str_len value =? 64)%nat && forallb is_ascii_hexdigit (string_bytes value).

Definition is_content_hash (value : string) : bool :=
  is_sha256_hex (trim_str value)
  || is_some_and (strip_prefix "sha256:" (trim_str value)) is_sha256_hex.

Definition normalize_content_hash (value : string) : string :=
  to_ascii_lowercase (unwrap_or (strip_prefix "sha256:" (trim_str value)) (trim_str value)).

(** [RomIdentity::normalized_hash]. *)
Definition normalized_hash (r : RomIdentity) : string := normalize_content_hash (rom_content_hash r).

(** ** voice_descriptor.rs, link_cable_descriptor.rs *)

Record NetplayVoiceDescriptor := mkNetplayVoiceDescriptor {
  voice_enabled : bool;
  voice_mode : NetplayVoiceMode }.

Record LinkCableDescriptor := mkLinkCableDescriptor {
  link_system_family : string;
  link_protocol : string;
  link_runtime_profile : string;
  link_max_players : N;
  link_transport : LinkCableTransport }.

Definition link_validate (l : LinkCableDescriptor) : validated :=
  _ ← validate_id "link.systemFamily" (link_system_family l);
  _ ← validate_id "link.linkProtocol" (link_protocol l);
  _ ← validate_id "link.runtimeProfile" (link_runtime_profile l);
  if link_max_players l !=? 2 then invalid "link.maxPlayers" else Ok tt.

(** ** session_descriptor.rs *)

Definition DEFAULT_CONTROLLER_INPUT_DELAY_FRAMES : N := 3.
Definition MIN_CONTROLLER_INPUT_DELAY_FRAMES : N := 1.
Definition MAX_CONTROLLER_INPUT_DELAY_FRAMES : N := 8.

Record NetplayGameDescriptor := mkNetplayGameDescriptor {
  game_system_id : string;
  game_title : string;
  game_rom_sha256 : string;
  game_content_key : string;
  game_region : option string;
  game_revision : option string;
  game_disc_id : option string }.

Record NetplayCoreDescriptor := mkNetplayCoreDescriptor {
  core_core_id : string;
  core_core_name : option string;
  core_core_version : option string;
  core_core_options_sha256 : option string;
  core_state_format : option string }.

Record ControllerNetplayDescriptor := mkControllerNetplayDescriptor {
  input_delay_frames : N }.

Record NetplaySessionDescriptor := mkNetplaySessionDescriptor {
  host_client_kind : option NetplayClientKind;
  host_app_version : option string;
  room_mode : NetplayRoomMode;
  mode : NetplaySessionMode;
  game : NetplayGameDescriptor;
  core : NetplayCoreDescriptor;
  controller : ControllerNetplayDescriptor;
  link : option LinkCableDescriptor;
  voice_descriptor : option NetplayVoiceDescriptor;
  rom_identity : option RomIdentity;
  rom_relay_intent : RomRelayIntent;
  rom_relay : option RomRelayCapability }.

#[export] Instance eta_ControllerNetplayDescriptor : Eta ControllerNetplayDescriptor := λ c,
  mkControllerNetplayDescriptor (input_delay_frames c).
#[export] Instance set_input_delay_frames : Setter input_delay_frames.
Proof. derive_setter. Defined.
#[export] Instance eta_NetplaySessionDescriptor : Eta NetplaySessionDescriptor := λ s,
  mkNetplaySessionDescriptor (host_client_kind s) (host_app_version s) (room_mode s) (mode s)
    (game s) (core s) (controller s) (link s) (voice_descriptor s) (rom_identity s)
    (rom_relay_intent s) (rom_relay s).
#[export] Instance set_controller : Setter controller.
Proof. derive_setter. Defined.
#[export] Instance set_rom_relay : Setter rom_relay.
Proof. derive_setter. Defined.

Definition game_validate (g : NetplayGameDescriptor) : validated :=
  _ ← validate_id "systemId" (game_system_id g);
  _ ← validate_title (game_title g);
  _ ← validate_sha256 "romSha256" (game_rom_sha256 g);
  _ ← validate_id "contentKey" (game_content_key g);
  _ ← validate_optional_id "region" (game_region g);
  _ ← validate_optional_id "revision" (game_revision g);
  validate_optional_id "discId" (game_disc_id g).

Definition core_validate (c : NetplayCoreDescriptor) : validated :=
  _ ← validate_id "coreId" (core_core_id c);
  _ ← validate_optional_short_text "coreName" (core_core_name c);
  _ ← validate_optional_short_text "coreVersion" (core_core_version c);
  _ ← validate_optional_sha256 "coreOptionsSha256" (core_core_options_sha256 c);
  validate_optional_id "stateFormat" (core_state_format c).

Definition controller_validate (c : ControllerNetplayDescriptor) : validated :=
  if (MIN_CONTROLLER_INPUT_DELAY_FRAMES <=? input_delay_frames c)
     && (input_delay_frames c <=? MAX_CONTROLLER_INPUT_DELAY_FRAMES)
  then Ok tt else invalid "controller.inputDelayFrames".

Definition is_supported_link_family (system_family : string) : bool := system_family ==? "gba".

Definition link_family_matches_game_system (system_family system_id : string) : bool :=
  (system_family ==? "gba") && (system_id ==? "gba").

Definition validate_link_game_system (s : NetplaySessionDescriptor) (l : LinkCableDescriptor)
    : validated :=
  if negb (is_supported_link_family (link_system_family l)) then invalid "link.systemFamily"
  else if negb (link_family_matches_game_system (link_system_family l) (game_system_id (game s)))
  then invalid "game.systemId" else Ok tt.

Definition validate_mode (s : NetplaySessionDescriptor) : validated :=
  match mode s, link s with
  | ControllerNetplay, None => Ok tt
  | ControllerNetplay, Some _ => invalid "link"
  | LinkCable, Some l => _ ← link_validate l; validate_link_game_system s l
  | LinkCable, None => invalid "link"
  end.

Definition validate_rom_identity (s : NetplaySessionDescriptor) : validated :=
  match rom_identity s with
  | None => Ok tt
  | Some identity =>
      _ ← validate_id "romIdentity.system" (rom_system identity);
      _ ← validate_id "romIdentity.coreId" (rom_core_id identity);
      _ ← validate_title (rom_display_name identity);
      _ ← validate_optional_short_text "romIdentity.fileName" (rom_file_name identity);
      _ ← validate_optional_id "romIdentity.extension" (rom_extension identity);
      if rom_size_bytes_ identity =? 0 then invalid "romIdentity.sizeBytes"
      else if negb (is_content_hash (rom_content_hash identity))
      then invalid "romIdentity.contentHash"
      else if rom_system identity !=? game_system_id (game s) then invalid "romIdentity.system"
      else if rom_core_id identity !=? core_core_id (core s) then invalid "romIdentity.coreId"
      else if normalize_content_hash (rom_content_hash identity)
              !=? to_ascii_lowercase (game_rom_sha256 (game s))
      then invalid "romIdentity.contentHash" else Ok tt
  end.

(** [NetplaySessionDescriptor::validate]. *)
Definition session_validate (s : NetplaySessionDescriptor) : validated :=
  _ ← validate_optional_short_text "hostAppVersion" (host_app_version s);
  _ ← game_validate (game s);
  _ ← core_validate (core s);
  _ ← controller_validate (controller s);
  _ ← validate_rom_identity s;
  validate_mode s.

(** ** Properties *)

Module Validation.

Lemma bind_tt_Ok {E B} (m : result E unit) (k : result E B) b :
  (_ ← m; k) = Ok b ↔ m = Ok tt ∧ k = Ok b.
Proof. destruct m as [[]|]; cbn; naive_solver. Qed.

(** A session descriptor that passes validation has an input delay of 1 to 8
    frames, carries a link descriptor exactly in link-cable mode, and then for two GBA players
    running a GBA game, and a ROM identity, when present, names a non-empty file of the very
    system, core and content hash the game and core descriptors declare. *)
Theorem session_validate_sound s :
  session_validate s = Ok tt →
  1 ≤ input_delay_frames (controller s) ≤ 8 ∧
  (mode s = ControllerNetplay ↔ link s = None) ∧
  (∀ l, link s = Some l →
     link_system_family l = "gba" ∧ link_max_players l = 2 ∧ game_system_id (game s) = "gba") ∧
  (∀ r, rom_identity s = Some r →
     0 < rom_size_bytes_ r ∧ rom_system r = game_system_id (game s) ∧
     rom_core_id r = core_core_id (core s) ∧
     normalized_hash r = to_ascii_lowercase (game_rom_sha256 (game s))).
Proof.
  unfold session_validate. rewrite !bind_tt_Ok. intros (_ & _ & _ & Hc & Hr & Hm).
  split; [|split; [|split]].
  - revert Hc. unfold controller_validate, MIN_CONTROLLER_INPUT_DELAY_FRAMES,
      MAX_CONTROLLER_INPUT_DELAY_FRAMES. case_match eqn:E; [|done].
    apply andb_true_iff in E as [?%N.leb_le ?%N.leb_le]. done.
  - revert Hm. unfold validate_mode. destruct (mode s), (link s); done.
  - revert Hm. unfold validate_mode. destruct (mode s), (link s) as [l|]; try done.
    rewrite bind_tt_Ok. intros [Hl Hg] ? [= <-]. revert Hl Hg.
    unfold link_validate, validate_link_game_system, is_supported_link_family,
      link_family_matches_game_system. rewrite !bind_tt_Ok. intros (_ & _ & _ & Hp).
    repeat case_bool_decide; done.
  - revert Hr. unfold validate_rom_identity. destruct (rom_identity s) as [r|]; [|done].
    rewrite !bind_tt_Ok. intros (_ & _ & _ & _ & _ & Hr) ? [= <-]. revert Hr.
    destruct (N.eqb_spec (rom_size_bytes_ r) 0); [done|]. case_match; [done|].
    repeat (case_match; [done|]). intros _. rewrite !bool_decide_neq_false in *.
    split_and!; [lia|done..].
Qed.

Definition sample_descriptor : NetplaySessionDescriptor :=
  mkNetplaySessionDescriptor None None DirectInvite LinkCable
    (mkNetplayGameDescriptor "gba" "Game"
       "aaaaaaaaaaaaaaaaaaaaaaaaaaaaaaaaaaaaaaaaaaaaaaaaaaaaaaaaaaaaaaaa" "key" None None None)
    (mkNetplayCoreDescriptor "mgba" None None None None)
    (mkControllerNetplayDescriptor 3)
    (Some (mkLinkCableDescriptor "gba" "gba-link-cable-v1" "mgba-link-runtime-v1" 2 Relay_))
    None None ExactMatchOnly None.

Lemma session_validate_sound_witness :
  session_validate sample_descriptor = Ok tt ∧
  1 ≤ input_delay_frames (controller sample_descriptor) ≤ 8.
Proof.
  split; [vm_compute; reflexivity|].
  apply (session_validate_sound sample_descriptor). vm_compute. reflexivity.
Defined.

Lemma client_version_ok w :
  is_ok (validate_client_protocol_version w) = (4 <=? w) && (w <=? 5).
Proof. unfold validate_client_protocol_version. by destruct (_ && _). Qed.

(** Protocol negotiation selects the highest version both the client's range and
    the relay support, and fails exactly when there is none. *)
Theorem negotiation_selects_highest minimum maximum :
  match negotiate_client_protocol_version minimum maximum with
  | Ok v => minimum ≤ v ≤ maximum ∧ is_ok (validate_client_protocol_version v) = true ∧
            ∀ w, minimum ≤ w ≤ maximum → is_ok (validate_client_protocol_version w) = true → w ≤ v
  | Err e => error_version e = maximum ∧
            ∀ w, minimum ≤ w ≤ maximum → is_ok (validate_client_protocol_version w) = false
  end.
Proof.
  unfold negotiate_client_protocol_version, MIN_SUPPORTED_NETPLAY_PROTOCOL_VERSION,
    NETPLAY_PROTOCOL_VERSION.
  destruct (N.ltb_spec maximum minimum); [split; [done|lia]|].
  destruct (N.ltb_spec (N.min maximum 5) (N.max minimum 4)).
  - split; [done|]. intros w Hw. rewrite client_version_ok. apply andb_false_iff.
    destruct (N.leb_spec 4 w), (N.leb_spec w 5); auto; lia.
  - rewrite client_version_ok. split_and!; [lia|lia|apply andb_true_iff; split; apply N.leb_le; lia|].
    intros w Hw. rewrite client_version_ok. intros [?%N.leb_le ?%N.leb_le]%andb_true_iff. lia.
Qed.

End Validation.
