(* ===== verification/Invite.v ===== *)
(** * Invite codes

  Models [src/src/rooms/invite_code.rs]: normalisation of a pasted code, the
  user-facing form, and generation from UUID bytes (an argument here). *)

From Stdlib Require Import Ascii.
From S2P Require Import Prelude Ids Text.
Open Scope N_scope.

Definition INVITE_CODE_LEN : nat := 6.
Definition INVITE_ALPHABET : list N := string_bytes "23456789ABCDEFGHJKLMNPQRSTUVWXYZ".

(** [struct InviteCode(String)], as its bytes: a code is ASCII. *)
Record InviteCode := mkInviteCode { normalized : list N }.

#[export] Instance InviteCode_eq_dec : EqDecision InviteCode.
Proof. solve_decision. Defined.
#[export] Instance InviteCode_countable : Countable InviteCode.
Proof. apply (inj_countable' normalized mkInviteCode). by intros []. Defined.

(** [INVITE_ALPHABET.contains(&byte)]. *)
Definition in_alphabet (b : N) : bool := existsb (N.eqb b) INVITE_ALPHABET.

(** The filter and the upper-casing act on ASCII characters only, so they act on
    the bytes of the string. *)
Definition InviteCode_parse (value : list N) : result RoomError InviteCode :=
  let normalized :=
    byte_to_upper <$> List.filter (λ c, negb (is_ascii_whitespace c) && negb (c =? 45)) value in
  if negb (length normalized =? INVITE_CODE_LEN)%nat || negb (forallb in_alphabet normalized)
  then Err InvalidInviteCode else Ok (mkInviteCode normalized).

(** [InviteCode::display]; slicing panics in Rust on a code shorter than four
    bytes, which [InviteCode_wf] excludes. *)
Definition display (c : InviteCode) : list N := take 4 (normalized c) ++ [45] ++ drop 4 (normalized c).

(** [UuidInviteCodeGenerator::generate] on the sixteen bytes of a UUID. *)
Definition InviteCode_generate (uuid_bytes : list N) : InviteCode :=
  mkInviteCode
    ((λ byte, nth (N.to_nat (byte mod N.of_nat (length INVITE_ALPHABET))) INVITE_ALPHABET 0)
     <$> take INVITE_CODE_LEN uuid_bytes).

Definition InviteCode_wf (c : InviteCode) : Prop :=
  length (normalized c) = INVITE_CODE_LEN ∧ Forall (λ b, b ∈ INVITE_ALPHABET) (normalized c).

Lemma in_alphabet_spec b : in_alphabet b = true ↔ b ∈ INVITE_ALPHABET.
Proof.
  unfold in_alphabet. rewrite existsb_exists, list_elem_of_In. split.
  - by intros (x & Hx & ->%N.eqb_eq).
  - intros H. exists b. by rewrite N.eqb_refl.
Qed.

(** Characters of the alphabet are upper-case letters and digits, which parsing keeps. *)
Lemma alphabet_kept b :
  b ∈ INVITE_ALPHABET →
  negb (is_ascii_whitespace b) && negb (b =? 45) = true ∧ byte_to_upper b = b.
Proof.
  intros H.
  assert (forallb (λ b, negb (is_ascii_whitespace b) && negb (b =? 45)
                        && (byte_to_upper b =? b)) INVITE_ALPHABET = true) as Hall by done.
  rewrite forallb_forall in Hall. apply list_elem_of_In, Hall in H.
  apply andb_true_iff in H as [H1 H2%N.eqb_eq]. done.
Qed.

Lemma alphabet_filter l :
  Forall (λ b, b ∈ INVITE_ALPHABET) l →
  byte_to_upper <$> List.filter (λ c, negb (is_ascii_whitespace c) && negb (c =? 45)) l = l.
Proof.
  induction 1 as [|b l Hb Hl IH]; [done|]. apply alphabet_kept in Hb as [H1 H2].
  cbn [List.filter]. rewrite H1. csimpl. by rewrite H2, IH.
Qed.

Lemma parse_iff value c :
  InviteCode_parse value = Ok c ↔
  InviteCode_wf c ∧
  normalized c = byte_to_upper <$>
    List.filter (λ c, negb (is_ascii_whitespace c) && negb (c =? 45)) value.
Proof.
  unfold InviteCode_parse, InviteCode_wf.
  set (n := byte_to_upper <$> _). clearbody n.
  assert (forallb in_alphabet n = true ↔ Forall (λ b, b ∈ INVITE_ALPHABET) n) as Hf.
  { rewrite forallb_forall, Forall_forall. setoid_rewrite in_alphabet_spec.
    by setoid_rewrite list_elem_of_In. }
  destruct (Nat.eqb_spec (length n) INVITE_CODE_LEN) as [Hl|Hl];
    destruct (forallb in_alphabet n) eqn:E; cbn [negb orb]; destruct c as [c]; cbn [normalized].
  - split; [intros [= <-]; naive_solver|]. by intros [_ ->].
  - split; [done|]. intros [[_ H] ->]. by apply Hf in H.
  - split; [done|]. by intros [[H _] ->].
  - split; [done|]. by intros [[H _] ->].
Qed.

Lemma alphabet_index b :
  nth (N.to_nat (b mod N.of_nat (length INVITE_ALPHABET))) INVITE_ALPHABET 0 ∈ INVITE_ALPHABET.
Proof.
  assert (length INVITE_ALPHABET = 32%nat) as Hl by done. revert Hl.
  generalize INVITE_ALPHABET. intros l Hl. apply list_elem_of_In, List.nth_In. rewrite Hl.
  pose proof (N.mod_lt b (N.of_nat 32) ltac:(done)). lia.
Qed.

Module Codes.

(** An invite code survives being shown and typed. A well-formed code (six characters
    of the invite alphabet) is parsed from exactly the inputs that give it once whitespace and
    hyphens are dropped and letters upper-cased; in particular the form shown to players (with
    a hyphen) and the stored form both parse back to the same code. *)
Theorem invite_roundtrip c :
  InviteCode_wf c →
  (∀ value, InviteCode_parse value = Ok c ↔
     normalized c = byte_to_upper <$>
       List.filter (λ b, negb (is_ascii_whitespace b) && negb (b =? 45)) value) ∧
  InviteCode_parse (display c) = Ok c ∧ InviteCode_parse (normalized c) = Ok c.
Proof.
  intros Hwf. destruct Hwf as [Hl Ha].
  split; [intros value; rewrite parse_iff; unfold InviteCode_wf; tauto|].
  split; apply parse_iff; (split; [done|]); symmetry.
  - unfold display. rewrite !List.filter_app, !fmap_app.
    assert (Forall (λ b, b ∈ INVITE_ALPHABET) (take 4 (normalized c)) ∧
            Forall (λ b, b ∈ INVITE_ALPHABET) (drop 4 (normalized c))) as [H1 H2]
      by (split; [by apply Forall_take|by apply Forall_drop]).
    rewrite (alphabet_filter (take 4 _)), (alphabet_filter (drop 4 _)) by done.
    exact (take_drop 4 (normalized c)).
  - by apply alphabet_filter.
Qed.

Lemma invite_roundtrip_witness :
  InviteCode_parse (string_bytes "AB23-CD") = Ok (mkInviteCode (string_bytes "AB23CD")).
Proof.
  apply (invite_roundtrip (mkInviteCode (string_bytes "AB23CD"))).
  split; [reflexivity|]. apply Forall_forall. intros x Hx. apply in_alphabet_spec.
  revert x Hx. apply Forall_forall. repeat constructor.
Defined.

(** Whatever UUID bytes the generator draws, the code it makes is well formed:
    six characters of the alphabet, so players can read it back and join with it. *)
Theorem invite_generator_wf uuid_bytes :
  length uuid_bytes = 16%nat → InviteCode_wf (InviteCode_generate uuid_bytes).
Proof.
  intros Hlen. split; cbn [InviteCode_generate normalized].
  - rewrite length_fmap, length_take, Hlen. done.
  - apply Forall_fmap, Forall_forall. intros b _. apply alphabet_index.
Qed.

Lemma invite_generator_wf_witness :
  InviteCode_wf (InviteCode_generate (repeat 255 16)).
Proof. apply (invite_generator_wf (repeat 255 16)). reflexivity. Defined.

End Codes.
