(* ===== verification/Protocol.v ===== *)
(** * Control-lane protocol values

  Models the data types of [src/src/protocol/] that room operations consume and
  produce, with the validation methods they carry: snapshots, state hashes,
  recovery, coordinated pause, clock sync, scheduled start, network reports,
  link-cable packets, file-relay and ROM-relay grants; and the verified identity
  of [src/src/auth/verified_license.rs]. *)

From Stdlib Require Import Strings.Byte.
From S2P Require Import Prelude Ids Text Wire Descriptor.
Open Scope N_scope.

(** ** snapshot.rs *)

Record SnapshotLimits := mkSnapshotLimits {
  max_chunk_bytes : N;
  max_total_bytes : N }.
Definition SnapshotLimits_default : SnapshotLimits :=
  mkSnapshotLimits MAX_SNAPSHOT_CHUNK_BYTES MAX_SNAPSHOT_BYTES.

Record SnapshotManifest := mkSnapshotManifest {
  manifest_snapshot_id : string;
  manifest_repair_frame : N;
  manifest_total_bytes : N;
  manifest_sha256 : string }.

#[export] Instance SnapshotManifest_eq_dec : EqDecision SnapshotManifest.
Proof. solve_decision. Defined.

Record SnapshotChunk := mkSnapshotChunk {
  chunk_snapshot_id : string;
  chunk_repair_frame : N;
  chunk_index : N;
  chunk_bytes : bytes }.

Inductive SnapshotError :=
| ChunkTooLarge | TotalTooLarge | SizeMismatch | ChecksumMismatch | InvalidChecksum
| InvalidSnapshotId.

Definition is_snapshot_id (value : string) : bool :=
  (value !=? ""%string) && (str_len value <=? 64)%nat
  && forallb (λ b, is_ascii_alphanumeric b || (b =? 45) || (b =? 95)) (string_bytes value).

Definition manifest_validate (m : SnapshotManifest) (limits : SnapshotLimits)
    : result SnapshotError unit :=
  if negb (is_snapshot_id (manifest_snapshot_id m)) then Err InvalidSnapshotId
  else if max_total_bytes limits <? manifest_total_bytes m then Err TotalTooLarge
  else if negb (is_sha256_hex (manifest_sha256 m)) then Err InvalidChecksum
  else Ok tt.

Definition chunk_validate (c : SnapshotChunk) (limits : SnapshotLimits) : result SnapshotError unit :=
  if negb (is_snapshot_id (chunk_snapshot_id c)) then Err InvalidSnapshotId
  else if max_chunk_bytes limits <? N.of_nat (length (chunk_bytes c)) then Err ChunkTooLarge
  else Ok tt.

(** ** state_hash.rs *)

Definition AUTHORITATIVE_STATE_HASH_INTERVAL_FRAMES : N := 600.

Record StateHashReport := mkStateHashReport {
  report_frame : N;
  report_sha256 : string }.

Definition report_validate (r : StateHashReport) : validated :=
  validate_sha256 "sha256" (report_sha256 r).

Record PlayerStateHashView := mkPlayerStateHashView {
  hash_player_index : PlayerIndex;
  hash_sha256 : string }.

Record NearbyStateHashMatchView := mkNearbyStateHashMatchView {
  source_player_index : PlayerIndex;
  source_frame : N;
  matched_player_index : PlayerIndex;
  matched_frame : N;
  frame_offset : Z }.

Record StateHashMismatchView := mkStateHashMismatchView {
  mismatch_frame : N;
  mismatch_repair_frame : N;
  mismatch_hashes : list PlayerStateHashView;
  mismatch_nearby_matches : list NearbyStateHashMatchView }.

#[export] Instance PlayerStateHashView_eq_dec : EqDecision PlayerStateHashView.
Proof. solve_decision. Defined.
#[export] Instance NearbyStateHashMatchView_eq_dec : EqDecision NearbyStateHashMatchView.
Proof. solve_decision. Defined.
#[export] Instance StateHashMismatchView_eq_dec : EqDecision StateHashMismatchView.
Proof. solve_decision. Defined.

(** ** state_recovery.rs *)

Inductive StateRecoveryPhase := Preparing | Committed.

Record StateRecoveryView := mkStateRecoveryView {
  recovery_view_id : N;
  recovery_view_phase : StateRecoveryPhase;
  recovery_view_repair_frame : N;
  recovery_view_mismatch : StateHashMismatchView;
  recovery_view_pinned_snapshot : option SnapshotManifest }.

Record StateRecoveryPin := mkStateRecoveryPin {
  pin_recovery_id : N;
  pin_manifest : SnapshotManifest }.

(** ** session_pause.rs *)

Inductive SessionPauseReason := Menu | Backgrounded | System | ConnectionLost.
Inductive SessionPauseState := PauseStatePausing | PauseStatePaused.

#[export] Instance SessionPauseReason_eq_dec : EqDecision SessionPauseReason.
Proof. solve_decision. Defined.
#[export] Instance SessionPauseState_eq_dec : EqDecision SessionPauseState.
Proof. solve_decision. Defined.

Record SessionPauseHolder := mkSessionPauseHolder {
  holder_player_index : PlayerIndex;
  holder_reason : SessionPauseReason }.

Record SessionPauseView := mkSessionPauseView {
  pause_view_sequence : N;
  pause_view_state : SessionPauseState;
  pause_view_reason : SessionPauseReason;
  pause_view_requested_by : PlayerIndex;
  pause_view_pause_at_frame : N;
  pause_view_paused_at_frame : option N;
  pause_view_acknowledged : list PlayerIndex;
  pause_view_holders : list SessionPauseHolder }.

(** ** clock_sync.rs, scheduled_start.rs *)

Record ClockSyncSampleRequest := mkClockSyncSampleRequest {
  request_id : string;
  requested_sample_count : N;
  request_server_send_time_ms : N }.

Record ClockSyncSample := mkClockSyncSample {
  sample_request_id : string;
  sample_index : N;
  sample_server_send_time_ms : N;
  client_receive_time_ms : N;
  client_send_time_ms : N }.

Record ScheduledSessionStart := mkScheduledSessionStart {
  start_room_epoch : N;
  start_session_epoch : N;
  start_start_frame : N;
  start_server_time_ms : N;
  created_at_server_time_ms : N;
  minimum_start_delay_ms : N;
  clock_uncertainty_budget_ms : N }.

#[export] Instance ScheduledSessionStart_eq_dec : EqDecision ScheduledSessionStart.
Proof. solve_decision. Defined.

(** ** client_network_quality.rs *)

Record ClientNetworkQualityReport := mkClientNetworkQualityReport {
  round_trip_ms : option N;
  jitter_ms : option N;
  prediction_frames : option N;
  stall_count : option N;
  catch_up_frames : option N;
  late_input_frames : option N;
  audio_underruns : option N;
  input_resend_frames : option N;
  input_nacks : option N;
  replayed_frames : option N;
  suppressed_audio_frames : option N;
  suppressed_video_frames : option N;
  audio_queue_depth_frames : option N;
  audio_catch_up_events : option N;
  audio_trimmed_frames : option N;
  audio_rebuffer_events : option N;
  audio_max_consecutive_missing_frames : option N;
  audio_queue_min_frames : option N;
  audio_queue_max_frames : option N;
  clock_uncertainty_ms : option N }.

Definition ClientNetworkQualityReport_default : ClientNetworkQualityReport :=
  mkClientNetworkQualityReport None None None None None None None None None None None None
    None None None None None None None None.

(** ** client_runtime_state.rs *)

Inductive ClientRuntimeState :=
| Client_Connected | Client_CheckingCompatibility | Client_Syncing | Client_Ready
| Client_DeterministicReady | Client_Playing | Client_Pausing | Client_Paused
| Client_Reconnecting | Client_Disconnected.

(** ** input_delay_change.rs, input_frame.rs, server_frame.rs *)

Inductive InputDelayChangeReason := InitialLatency | NetworkPressure | StableConnection.

Record InputDelayChange := mkInputDelayChange {
  effective_frame : N;
  change_input_delay_frames : N;
  previous_input_delay_frames : N;
  change_reason : InputDelayChangeReason }.

Record InputFrame := mkInputFrame {
  frame_player_index : PlayerIndex;
  frame_frame : N;
  frame_payload : bytes }.

Record InputFrameLimits := mkInputFrameLimits { max_future_frame_distance : N }.
Definition InputFrameLimits_default : InputFrameLimits :=
  mkInputFrameLimits MAX_FUTURE_FRAME_DISTANCE.

Record ServerFrame := mkServerFrame {
  server_room_epoch : N;
  server_session_epoch : N;
  server_frame : N;
  server_canonical_frame : N }.

(** ** link_cable_packet.rs, link_cable_compatibility.rs *)

Record LinkCablePacket := mkLinkCablePacket {
  packet_player_index : PlayerIndex;
  packet_sequence : N;
  packet_emulated_time : N;
  packet_payload : bytes }.

Record LinkCablePacketLimits := mkLinkCablePacketLimits { max_payload_bytes : N }.
Definition LinkCablePacketLimits_default : LinkCablePacketLimits :=
  mkLinkCablePacketLimits MAX_LINK_CABLE_PACKET_BYTES.

Inductive LinkCablePacketError := EmptyPayload | PayloadTooLarge.

Definition packet_validate (p : LinkCablePacket) (limits : LinkCablePacketLimits)
    : result LinkCablePacketError unit :=
  match packet_payload p with
  | [] => Err EmptyPayload
  | _ => if max_payload_bytes limits <? N.of_nat (length (packet_payload p))
         then Err PayloadTooLarge else Ok tt
  end.

Record LinkCableCompatibility := mkLinkCableCompatibility {
  lc_protocol_version : N;
  lc_system_family : string;
  lc_link_protocol : string;
  lc_runtime_profile : string;
  lc_system_data_hash : option string }.

Definition matches_descriptor (c : LinkCableCompatibility) (l : LinkCableDescriptor) : bool :=
  (lc_system_family c ==? link_system_family l)
  && (lc_link_protocol c ==? link_protocol l)
  && (lc_runtime_profile c ==? link_runtime_profile l).

Definition matches_peer (a b : LinkCableCompatibility) : bool :=
  (lc_protocol_version a ==? lc_protocol_version b)
  && (lc_system_family a ==? lc_system_family b)
  && (lc_link_protocol a ==? lc_link_protocol b)
  && (lc_runtime_profile a ==? lc_runtime_profile b)
  && (lc_system_data_hash a ==? lc_system_data_hash b).

(** ** snapshot_file_relay.rs *)

Inductive SnapshotFileRelayGrantRole := SnapshotUpload | SnapshotDownload.

Record SnapshotFileRelayGrant := mkSnapshotFileRelayGrant {
  grant_transfer_id : string;
  grant_relay_url : string;
  grant_token : string;
  grant_role : SnapshotFileRelayGrantRole;
  grant_chunk_size_bytes : N;
  grant_chunk_count : N;
  grant_expires_at : string;
  grant_manifest : SnapshotManifest }.

Record SnapshotFileRelayGrantPair := mkSnapshotFileRelayGrantPair {
  pair_upload : SnapshotFileRelayGrant;
  pair_download : SnapshotFileRelayGrant }.

(** ** rom_relay.rs *)

Inductive RomRelayGrantRole := Upload | Download.

#[export] Instance RomRelayGrantRole_eq_dec : EqDecision RomRelayGrantRole.
Proof. solve_decision. Defined.

Record RomRelayGrant := mkRomRelayGrant {
  rgrant_transfer_id : string;
  rgrant_relay_url : string;
  rgrant_token : string;
  rgrant_role : RomRelayGrantRole;
  rgrant_rom : RomIdentity;
  rgrant_sender_player_index : N;
  rgrant_receiver_player_index : N;
  rgrant_chunk_size_bytes : N;
  rgrant_chunk_count : N;
  rgrant_expires_at : string }.

Record RomRelayProgress := mkRomRelayProgress {
  progress_transfer_id : string;
  progress_role : RomRelayGrantRole;
  progress_bytes_complete : N;
  progress_size_bytes : N }.

Record RomRelayCompletion := mkRomRelayCompletion {
  completion_transfer_id : string;
  completion_role : RomRelayGrantRole;
  completion_content_hash : string }.

Inductive RomRelayFailReason :=
| FailBrokerUnavailable | FailHashMismatch | FailTransferFailed | FailStaleEpoch
| FailInvalidPayload.

Record RomRelayFailure := mkRomRelayFailure {
  failure_transfer_id : option string;
  failure_reason : RomRelayFailReason }.

Record RomRelayCancelled := mkRomRelayCancelled { cancelled_transfer_id : option string }.

Inductive RomRelayBlockReason :=
| BlockDisabled | BlockBrokerUnavailable | BlockWrongPlayer | BlockClientUnsupported
| BlockUnsupportedSystem | BlockTooLarge | BlockMissingIdentity | BlockTransferActive.

(** ** auth/verified_license.rs, auth/client_kind.rs *)

Inductive ClientKind := Desktop | Android | Ios.

Record VerifiedLicense := mkVerifiedLicense {
  client_kind : ClientKind;
  installation_id : string;
  subject_id : string;
  tier : string;
  features : list string;
  has_premium : bool;
  trial_active : bool }.

(** [ClientKind::identity_namespace], which is [as_str]. *)
Definition identity_namespace (k : ClientKind) : string :=
  match k with Desktop => "desktop" | Android => "android" | Ios => "ios" end.

(** [VerifiedLicense::identity_key]. *)
Definition identity_key (l : VerifiedLicense) : string :=
  (identity_namespace (client_kind l) +:+ ":" +:+ subject_id l)%string.

(** ** client_transport_capabilities.rs *)

Record ClientTransportCapabilities := mkClientTransportCapabilities {
  cap_state_file_relay : bool;
  cap_rom_file_relay : bool;
  cap_scheduled_start : bool;
  cap_clock_sync : bool;
  cap_fast_input_relay : bool }.
Definition ClientTransportCapabilities_default : ClientTransportCapabilities :=
  mkClientTransportCapabilities false false false false false.

(** ** recovery_config.rs *)

Record RoomRecoveryConfig := mkRoomRecoveryConfig {
  runner_handoff_grace : Duration;
  reconnect_grace : Duration;
  heartbeat_stale : Duration;
  heartbeat_disconnect : Duration;
  room_idle : Duration }.
Definition RoomRecoveryConfig_default : RoomRecoveryConfig :=
  mkRoomRecoveryConfig (from_secs 60) (from_secs 90) (from_secs 15) (from_secs 30) (from_secs 300).
