(* ===== verification/LegacyCodec.v ===== *)
(** * Binary input encodings of the earlier protocols

  Models [src/src/protocol/input_batch.rs] (SBI1 input batches),
  [src/src/protocol/fast_input.rs] (SBI2, self-contained records that are forwarded
  without re-encoding) and the codec of [src/src/protocol/server_frame.rs] (SBF1 frame
  releases). The SBI2 decoder is a [while] loop over the payload; its model runs on fuel
  and [fast_input_terminates] shows the fuel is never used up. *)

From Stdlib Require Import Strings.Byte.
From S2P Require Import Prelude Ids Wire StrictInput StrictInputCodec Protocol.
Open Scope N_scope.

(** ** Reads shared by the three codecs *)

(** [payload.get(offset..offset + w).ok_or(e)?] followed by [uN::from_be_bytes] of the
    slice as a [w]-byte array. *)
Definition read_be {E} (w : nat) (e : E) (payload : bytes) (offset : nat) : result (fault E) N :=
  l ← map_err (ok_or (get_range payload offset w) e) Error;
  if (length l =? w)%nat then mret (from_be_bytes l) else Err Panic.

(** A player index byte inside the room capacity. *)
Definition player_of_byte {E} (e : E) (b : byte) : result (fault E) PlayerIndex :=
  map_err (ok_or (PlayerIndex_new (Byte.to_N b) MVP_ROOM_CAPACITY) e) Error.

Section readers.
Context {E : Type} (e : E).
Implicit Types (p l : bytes) (o w : nat).

Lemma read_be_inv w p o v :
  read_be w e p o = Ok v →
  v < 256 ^ N.of_nat w ∧ drop o p = to_be_bytes w v ++ drop (o + w) p ∧ (o + w ≤ length p)%nat.
Proof.
  unfold read_be. destruct (get_range p o w) as [l|] eqn:El; [|done].
  apply get_range_Some in El as (Hlen & Hl & Ho). cbn. rewrite Hlen, Nat.eqb_refl. intros [= <-].
  pose proof (from_be_bytes_bound l) as Hb. rewrite Hlen in Hb. split_and!; [done| |done].
  rewrite <-Hlen at 1. rewrite to_from_be_bytes, Hl, <-drop_drop. by rewrite take_drop.
Qed.

Lemma read_be_ok w p o v rest :
  drop o p = to_be_bytes w v ++ rest → v < 256 ^ N.of_nat w → (o ≤ length p)%nat →
  read_be w e p o = Ok v.
Proof.
  intros Hd Hv Ho. pose proof (f_equal length Hd) as Hl.
  rewrite length_app, length_to_be_bytes, length_drop in Hl.
  unfold read_be. rewrite get_range_lt, Hd, take_app_length' by (rewrite ?length_to_be_bytes; lia).
  cbn. by rewrite length_to_be_bytes, Nat.eqb_refl, from_to_be_bytes, N.mod_small.
Qed.

Lemma read_be_no_panic w p o : read_be w e p o ≠ Err Panic.
Proof.
  unfold read_be. destruct (get_range p o w) as [l|] eqn:El; [|done].
  apply get_range_Some in El as (Hlen & _ & _). cbn. by rewrite Hlen, Nat.eqb_refl.
Qed.

Lemma player_of_byte_inv b pi :
  player_of_byte e b = Ok pi → in_capacity pi ∧ b = byte_of_N (zero_based pi).
Proof.
  unfold player_of_byte. destruct (PlayerIndex_new _ _) eqn:Ep; [|done]. cbn. intros [= <-].
  apply PlayerIndex_new_Some in Ep as [-> Hlt]. split; [done|]. cbn. by rewrite byte_of_to_N.
Qed.

Lemma player_of_byte_ok pi :
  in_capacity pi → player_of_byte e (byte_of_N (zero_based pi)) = Ok pi.
Proof.
  destruct pi as [pi]. unfold in_capacity, MVP_ROOM_CAPACITY, player_of_byte. cbn. intros Hpi.
  rewrite byte_to_N_of_N, N.mod_small by lia.
  unfold PlayerIndex_new, MVP_ROOM_CAPACITY. by destruct (N.ltb_spec pi 2); [|lia].
Qed.

Lemma player_of_byte_no_panic b : player_of_byte e b ≠ Err Panic.
Proof. unfold player_of_byte. by destruct (PlayerIndex_new _ _). Qed.

Lemma any_bind_no_panic {A B} (m : result (fault E) A) (k : A → result (fault E) B) :
  m ≠ Err Panic → (∀ a, m = Ok a → k a ≠ Err Panic) → m ≫= k ≠ Err Panic.
Proof. destruct m as [a|[|e']]; cbn; naive_solver. Qed.

Lemma slice_inv p o n l :
  slice (E := E) p o n = Ok l → length l = n ∧ drop o p = l ++ drop (o + n) p ∧ (o + n ≤ length p)%nat.
Proof.
  unfold slice. destruct (get_range p o n) as [l'|] eqn:El; [|done]. cbn. intros [= <-].
  apply get_range_Some in El as (Hlen & -> & Ho). split_and!; [done| |done].
  rewrite <-drop_drop. by rewrite take_drop.
Qed.

Lemma slice_ok p o l rest :
  drop o p = l ++ rest → (o ≤ length p)%nat → slice (E := E) p o (length l) = Ok l.
Proof.
  intros Hd Ho. pose proof (f_equal length Hd) as Hl. rewrite length_app, length_drop in Hl.
  unfold slice. by rewrite get_range_lt, Hd, take_app_length by lia.
Qed.

Lemma slice_no_panic p o n : (o + n ≤ length p)%nat → slice (E := E) p o n ≠ Err Panic.
Proof. intros. unfold slice. by rewrite get_range_lt. Qed.

Lemma index_any_inv p o b : index (E := E) p o = Ok b → p !! o = Some b.
Proof. unfold index. destruct (p !! o); naive_solver. Qed.

Lemma index_any_no_panic p o : (o < length p)%nat → index (E := E) p o ≠ Err Panic.
Proof. intros Ho. unfold index. by destruct (lookup_lt_is_Some_2 p o Ho) as [b ->]. Qed.
End readers.

(** A suffix one field further. *)
Lemma drop_field o' (p : bytes) o l rest :
  drop o p = l ++ rest → o' = (o + length l)%nat → drop o' p = rest.
Proof. intros H ->. by rewrite <-drop_drop, H, drop_app_length. Qed.

Lemma drop_be o' (p : bytes) o w v rest :
  drop o p = to_be_bytes w v ++ rest → o' = (o + w)%nat → drop o' p = rest.
Proof. intros H ->. eapply drop_field; [exact H|]. by rewrite length_to_be_bytes. Qed.

Lemma lookup_of_drop (p : bytes) o b rest : drop o p = b :: rest → p !! o = Some b.
Proof. intros H. pose proof (lookup_drop p o 0) as Hl. rewrite H, Nat.add_0_r in Hl. by rewrite <-Hl. Qed.

(** ** fast_input.rs *)

Module FastInput.

Definition FAST_INPUT_MAGIC : bytes := magic_bytes "SBI2".
Definition FAST_INPUT_TYPE : N := 2.
Definition FAST_INPUT_RECORD_HEADER_BYTES : nat := 4 + 1 + 8 + 8 + 1 + 8 + 2.

Inductive FastInputCodecError := Malformed | Unsupported | TooManyFrames | InvalidPlayerIndex | Empty.

End FastInput.

Record FastInputFrame := mkFastInputFrame {
  fast_room_epoch : N;
  fast_session_epoch : N;
  fast_player_index : PlayerIndex;
  fast_frame : N;
  fast_payload : bytes;
  fast_encoded : bytes }.

Record FastInputBatch := mkFastInputBatch { fast_frames : list FastInputFrame }.

Abbreviation fast_result := (result (fault FastInput.FastInputCodecError)).

(** One iteration of the decoder's loop: the record at [offset] and the offset after it. *)
Definition decode_fast_record (payload : bytes) (offset seen : nat)
    : fast_result (FastInputFrame * nat) :=
  if (length payload - offset <? FastInput.FAST_INPUT_RECORD_HEADER_BYTES)%nat
  then Err (Error FastInput.Malformed)
  else if get_range payload offset 4 !=? Some FastInput.FAST_INPUT_MAGIC
  then Err (Error FastInput.Unsupported)
  else
    ty ← index payload (offset + 4);
    if Byte.to_N ty !=? FastInput.FAST_INPUT_TYPE then Err (Error FastInput.Unsupported)
    else if (MAX_INPUT_BATCH_FRAMES <=? seen)%nat then Err (Error FastInput.TooManyFrames)
    else
      room_epoch ← read_be 8 FastInput.Malformed payload (offset + 5);
      session_epoch ← read_be 8 FastInput.Malformed payload (offset + 13);
      b ← index payload (offset + 21);
      player_index ← player_of_byte FastInput.InvalidPlayerIndex b;
      frame ← read_be 8 FastInput.Malformed payload (offset + 22);
      payload_len ← read_be 2 FastInput.Malformed payload (offset + 30);
      let payload_len := N.to_nat payload_len in
      let start := (offset + FastInput.FAST_INPUT_RECORD_HEADER_BYTES)%nat in
      if (length payload - start <? payload_len)%nat then Err (Error FastInput.Malformed)
      else
        body ← slice payload start payload_len;
        encoded ← slice payload offset (start + payload_len - offset);
        mret (mkFastInputFrame room_epoch session_epoch player_index frame body encoded,
              (start + payload_len)%nat).

(** [while offset < payload.len()]; [None] when the fuel is used up. *)
Fixpoint decode_fast_loop (fuel : nat) (payload : bytes) (offset : nat)
    (frames : list FastInputFrame) : option (fast_result (list FastInputFrame)) :=
  if (offset <? length payload)%nat then
    match fuel with
    | O => None
    | S fuel' =>
        match decode_fast_record payload offset (length frames) with
        | Ok (f, offset') => decode_fast_loop fuel' payload offset' (frames ++ [f])
        | Err e => Some (Err e)
        end
    end
  else Some (Ok frames).

Definition decode_fast_input_batch (payload : bytes) : option (fast_result FastInputBatch) :=
  if MAX_INPUT_BATCH_BYTES <? N.of_nat (length payload) then Some (Err (Error FastInput.Malformed))
  else
    frames ← decode_fast_loop (length payload) payload 0 [];
    Some (frames ← frames;
          if (length frames =? 0)%nat then Err (Error FastInput.Empty)
          else mret (mkFastInputBatch frames)).

(** The bytes of a record. *)
Definition fast_record (room_epoch session_epoch : N) (player_index : PlayerIndex) (frame : N)
    (input_payload : bytes) : bytes :=
  FastInput.FAST_INPUT_MAGIC ++ [byte_of_N FastInput.FAST_INPUT_TYPE]
  ++ to_be_bytes 8 room_epoch ++ to_be_bytes 8 session_epoch
  ++ [byte_of_N (zero_based player_index)] ++ to_be_bytes 8 frame
  ++ to_be_bytes 2 (N.of_nat (length input_payload)) ++ input_payload.

#[global] Arguments fast_record : simpl never.

Definition encode_fast_input_frame (room_epoch session_epoch : N) (player_index : PlayerIndex)
    (frame : N) (input_payload : bytes) : result FastInput.FastInputCodecError bytes :=
  if u16_max <? N.of_nat (length input_payload) then Err FastInput.Malformed
  else
    let payload := fast_record room_epoch session_epoch player_index frame input_payload in
    if MAX_INPUT_BATCH_BYTES <? N.of_nat (length payload) then Err FastInput.Malformed
    else Ok payload.

(** *** One record *)

Definition fast_frame_wf (f : FastInputFrame) : Prop :=
  is_u64 (fast_room_epoch f) ∧ is_u64 (fast_session_epoch f) ∧ in_capacity (fast_player_index f) ∧
  is_u64 (fast_frame f) ∧ N.of_nat (length (fast_payload f)) ≤ u16_max ∧
  fast_encoded f = fast_record (fast_room_epoch f) (fast_session_epoch f) (fast_player_index f)
                     (fast_frame f) (fast_payload f).

Lemma length_fast_record re se pi fr l : length (fast_record re se pi fr l) = (32 + length l)%nat.
Proof. unfold fast_record. by rewrite !length_app, !length_to_be_bytes. Qed.

Lemma u64_width v : v < 256 ^ N.of_nat 8 ↔ is_u64 v.
Proof. unfold is_u64, u64_max. change (256 ^ N.of_nat 8) with 18446744073709551616. lia. Qed.

Lemma u16_width v : v < 256 ^ N.of_nat 2 ↔ v ≤ u16_max.
Proof. unfold u16_max. change (256 ^ N.of_nat 2) with 65536. lia. Qed.

(** A field at the front of a suffix. *)
Lemma cut_be {E} (e : E) w p o v :
  read_be w e p o = Ok v → drop o p = to_be_bytes w v ++ drop (o + w) p.
Proof. by intros (_ & ? & _)%read_be_inv. Qed.

(** What a decoded record is: the bytes between its offset and the next are its encoding. *)
Lemma decode_fast_record_inv p o n f o' :
  (o ≤ length p)%nat → decode_fast_record p o n = Ok (f, o') →
  fast_frame_wf f ∧ drop o p = fast_encoded f ++ drop o' p ∧
  o' = (o + length (fast_encoded f))%nat ∧ (o' ≤ length p)%nat ∧ (n < MAX_INPUT_BATCH_FRAMES)%nat.
Proof.
  intros Ho. unfold decode_fast_record, FastInput.FAST_INPUT_RECORD_HEADER_BYTES.
  cbn [Nat.add]. destruct (Nat.ltb_spec (length p - o) 32); [done|].
  case_bool_decide as Hm; [|done]. cbn [negb]. intros Hd.
  apply bind_Ok in Hd as (ty & Hty%index_any_inv & Hd). case_bool_decide as Ht; [|done]. cbn [negb] in Hd.
  destruct (Nat.leb_spec MAX_INPUT_BATCH_FRAMES n); [done|].
  apply bind_Ok in Hd as (re & Hre & Hd). apply bind_Ok in Hd as (se & Hse & Hd).
  apply bind_Ok in Hd as (b & Hb%index_any_inv & Hd).
  apply bind_Ok in Hd as (pi & [Hpi ->]%player_of_byte_inv & Hd).
  apply bind_Ok in Hd as (fr & Hfr & Hd). apply bind_Ok in Hd as (len & Hlen & Hd).
  destruct (Nat.ltb_spec (length p - (o + 32)) (N.to_nat len)) as [|Hfit]; [done|].
  apply bind_Ok in Hd as (body & (Hbl & Hbody & Hbo)%slice_inv & Hd).
  apply bind_Ok in Hd as (enc & (Hel & Henc & _)%slice_inv & Hd). injection Hd as <- <-.
  apply get_range_Some in Hm as (_ & Hm & _).
  pose proof (cut_be _ _ _ _ _ Hre) as Cre. pose proof (cut_be _ _ _ _ _ Hse) as Cse.
  pose proof (cut_be _ _ _ _ _ Hfr) as Cfr. pose proof (cut_be _ _ _ _ _ Hlen) as Clen.
  apply read_be_inv in Hre as (Hre & _ & _), Hse as (Hse & _ & _), Hfr as (Hfr & _ & _),
    Hlen as (Hlen & _ & _).
  rewrite u64_width in Hre, Hse, Hfr. rewrite u16_width in Hlen.
  rewrite <-!Nat.add_assoc in Cre, Cse, Cfr, Clen. cbn [Nat.add] in Cre, Cse, Cfr, Clen.
  assert (drop o p = fast_record re se pi fr body ++ drop (o + 32 + N.to_nat len) p) as Hrec.
  { unfold fast_record. rewrite <-(take_drop 4 (drop o p)), <-Hm, drop_drop, <-!app_assoc. f_equal.
    rewrite (cut_byte p (o + 4) ty), <-Ht, byte_of_to_N by done. cbn [app]. f_equal.
    rewrite <-Nat.add_succ_r, Cre, Cse, (cut_byte p (o + 21) _ Hb), <-Nat.add_succ_r, Cfr, Clen.
    by rewrite Hbl, N2Nat.id, Hbody. }
  assert (enc = fast_record re se pi fr body) as ->.
  { replace (o + (o + 32 + N.to_nat len - o))%nat with (o + 32 + N.to_nat len)%nat in Henc by lia.
    rewrite Henc in Hrec. by apply app_inj_2 in Hrec as [? _]. }
  unfold fast_frame_wf. cbn. rewrite length_fast_record, Hbl, N2Nat.id. split_and!; try done; lia.
Qed.

(** A record at [o] decodes to itself. *)
Lemma decode_fast_record_ok p o n f rest :
  fast_frame_wf f → (n < MAX_INPUT_BATCH_FRAMES)%nat → (o ≤ length p)%nat →
  drop o p = fast_encoded f ++ rest →
  decode_fast_record p o n = Ok (f, (o + length (fast_encoded f))%nat).
Proof.
  destruct f as [re se pi fr body enc]. intros (Hre & Hse & Hpi & Hfr & Hb & Henc) Hn Ho Hd.
  cbn in *. subst enc. rewrite length_fast_record.
  pose proof (f_equal length Hd) as Hl. rewrite length_app, length_drop, length_fast_record in Hl.
  unfold decode_fast_record, FastInput.FAST_INPUT_RECORD_HEADER_BYTES. cbn [Nat.add].
  destruct (Nat.ltb_spec (length p - o) 32); [lia|].
  pose proof Hd as D0. unfold fast_record in D0. rewrite <-!app_assoc in D0.
  pose proof (drop_field (o + 4) _ _ _ _ D0 eq_refl) as D4.
  pose proof (drop_field (o + 5) _ _ _ _ D4 ltac:(cbn; lia)) as D5.
  pose proof (drop_be (o + 13) _ _ _ _ _ D5 ltac:(lia)) as D13.
  pose proof (drop_be (o + 21) _ _ _ _ _ D13 ltac:(lia)) as D21.
  pose proof (drop_field (o + 22) _ _ _ _ D21 ltac:(cbn; lia)) as D22.
  pose proof (drop_be (o + 30) _ _ _ _ _ D22 ltac:(lia)) as D30.
  pose proof (drop_be (o + 32) _ _ _ _ _ D30 ltac:(lia)) as D32.
  rewrite get_range_lt by lia. rewrite D0, take_app_length' by done.
  rewrite bool_decide_true by done. cbn [negb].
  unfold index. rewrite (lookup_of_drop _ _ _ _ D4). cbn [ok_or mbind result_bind].
  rewrite byte_to_N_of_N, bool_decide_true by done. cbn [negb].
  destruct (Nat.leb_spec MAX_INPUT_BATCH_FRAMES n); [lia|].
  rewrite (read_be_ok _ _ _ _ _ _ D5) by (by apply u64_width || lia). cbn [mbind result_bind].
  rewrite (read_be_ok _ _ _ _ _ _ D13) by (by apply u64_width || lia). cbn [mbind result_bind].
  rewrite (lookup_of_drop _ _ _ _ D21). cbn [ok_or mbind result_bind].
  rewrite player_of_byte_ok by done. cbn [mbind result_bind].
  rewrite (read_be_ok _ _ _ _ _ _ D22) by (by apply u64_width || lia). cbn [mbind result_bind].
  rewrite (read_be_ok _ _ _ _ _ _ D30) by (by apply u16_width || lia). cbn [mbind result_bind].
  rewrite Nat2N.id. destruct (Nat.ltb_spec (length p - (o + 32)) (length body)); [lia|].
  rewrite (slice_ok _ _ _ _ D32 ltac:(lia)). cbn [mbind result_bind].
  replace (o + 32 + length body - o)%nat with (length (fast_record re se pi fr body))
    by (rewrite length_fast_record; lia).
  rewrite (slice_ok _ _ _ _ Hd ltac:(lia)). cbn. do 2 f_equal. lia.
Qed.

Lemma decode_fast_record_no_panic p o n : decode_fast_record p o n ≠ Err Panic.
Proof.
  unfold decode_fast_record, FastInput.FAST_INPUT_RECORD_HEADER_BYTES. cbn [Nat.add].
  destruct (Nat.ltb_spec (length p - o) 32); [done|]. case_bool_decide; [cbn [negb]|done].
  apply any_bind_no_panic; [apply index_any_no_panic; lia|intros ty _]. case_bool_decide; [cbn [negb]|done].
  destruct (_ <=? _)%nat; [done|].
  do 2 (apply any_bind_no_panic; [apply read_be_no_panic|intros ? _]).
  apply any_bind_no_panic; [apply index_any_no_panic; lia|intros ? _].
  apply any_bind_no_panic; [apply player_of_byte_no_panic|intros ? _].
  do 2 (apply any_bind_no_panic; [apply read_be_no_panic|intros ? _]). cbv zeta.
  destruct (Nat.ltb_spec (length p - (o + 32)) (N.to_nat a4)); [done|].
  do 2 (apply any_bind_no_panic; [apply slice_no_panic; lia|intros ? _]). done.
Qed.

(** *** The loop *)

Lemma fast_encoded_long f : fast_frame_wf f → (32 ≤ length (fast_encoded f))%nat.
Proof. intros (_ & _ & _ & _ & _ & ->). rewrite length_fast_record. lia. Qed.

Lemma decode_fast_loop_terminates fuel p o frames :
  (length p - o ≤ fuel)%nat →
  ∃ r, decode_fast_loop fuel p o frames = Some r ∧ r ≠ Err Panic.
Proof.
  revert o frames. induction fuel as [|fuel IH]; intros o frames Hf; cbn [decode_fast_loop];
    destruct (Nat.ltb_spec o (length p)); try (by eexists); [lia|].
  pose proof (decode_fast_record_no_panic p o (length frames)).
  destruct (decode_fast_record p o (length frames)) as [[f o']|e] eqn:E; [|eexists; split; [done|congruence]].
  apply decode_fast_record_inv in E as (Hwf & _ & -> & _); [|lia].
  apply fast_encoded_long in Hwf. apply IH. lia.
Qed.

Lemma decode_fast_loop_inv fuel p o frames out :
  (o ≤ length p)%nat → (length frames ≤ MAX_INPUT_BATCH_FRAMES)%nat →
  decode_fast_loop fuel p o frames = Some (Ok out) →
  ∃ new, out = frames ++ new ∧ Forall fast_frame_wf new ∧
    drop o p = concat (fast_encoded <$> new) ∧ (length out ≤ MAX_INPUT_BATCH_FRAMES)%nat.
Proof.
  revert o frames. induction fuel as [|fuel IH]; intros o frames Ho Hl; cbn [decode_fast_loop];
    destruct (Nat.ltb_spec o (length p)); try done.
  1, 3: intros [= <-]; exists []; rewrite app_nil_r; split_and!; [done..|by apply drop_ge|done].
  destruct (decode_fast_record p o (length frames)) as [[f o']|e] eqn:E; [|done].
  apply decode_fast_record_inv in E as (Hwf & Hd & -> & Ho' & Hn); [|lia]. intros Hr.
  apply IH in Hr as (new & -> & Hnew & Hd' & Hl'); [|done|rewrite length_app; cbn; lia].
  exists (f :: new). rewrite <-app_assoc in *. split_and!; [done|by constructor| |done].
  rewrite Hd, Hd'. done.
Qed.

Lemma decode_fast_loop_ok fuel p o frames new :
  (o ≤ length p)%nat → (length p - o ≤ fuel)%nat → Forall fast_frame_wf new →
  (length frames + length new ≤ MAX_INPUT_BATCH_FRAMES)%nat →
  drop o p = concat (fast_encoded <$> new) →
  decode_fast_loop fuel p o frames = Some (Ok (frames ++ new)).
Proof.
  intros Ho Hf Hnew. revert fuel o frames Ho Hf. induction Hnew as [|f new Hwf Hnew IH];
    intros fuel o frames Ho Hf Hl Hd; pose proof (f_equal length Hd) as Hlen; rewrite length_drop in Hlen.
  - rewrite app_nil_r. cbn in Hlen. destruct fuel; cbn [decode_fast_loop]; by destruct (Nat.ltb_spec o (length p)); [lia|].
  - cbn [fmap list_fmap concat] in Hd, Hlen. rewrite length_app in Hlen.
    pose proof (fast_encoded_long f Hwf). cbn [length] in Hl.
    destruct fuel as [|fuel]; [lia|]. cbn [decode_fast_loop].
    destruct (Nat.ltb_spec o (length p)); [|lia].
    rewrite (decode_fast_record_ok p o (length frames) f _ Hwf ltac:(lia) Ho Hd).
    rewrite (IH fuel); [by rewrite <-app_assoc|lia|lia|rewrite length_app; cbn; lia|].
    by eapply drop_field.
Qed.

(** *** Messages *)

Definition fast_batch_wf (b : FastInputBatch) : Prop :=
  Forall fast_frame_wf (fast_frames b) ∧
  (1 ≤ length (fast_frames b) ≤ MAX_INPUT_BATCH_FRAMES)%nat ∧
  N.of_nat (length (concat (fast_encoded <$> fast_frames b))) ≤ MAX_INPUT_BATCH_BYTES.

Lemma decode_fast_iff p b :
  decode_fast_input_batch p = Some (Ok b) ↔
  fast_batch_wf b ∧ p = concat (fast_encoded <$> fast_frames b).
Proof.
  unfold decode_fast_input_batch. split.
  - destruct (N.ltb_spec MAX_INPUT_BATCH_BYTES (N.of_nat (length p))) as [|Hp]; [done|].
    destruct (decode_fast_loop _ _ _ _) as [[out|e]|] eqn:E; try done. cbn.
    destruct (Nat.eqb_spec (length out) 0); [done|]. intros [= <-]. cbn.
    apply decode_fast_loop_inv in E as (new & -> & Hnew & Hd & Hl); [|lia|cbn; lia].
    rewrite drop_0 in Hd. subst p. cbn in *. split; [|done]. split_and!; [done|cbn; lia|done|done].
  - intros [(Hwf & Hl & Hb) ->]. destruct b as [frames]. cbn in *.
    destruct (N.ltb_spec MAX_INPUT_BATCH_BYTES (N.of_nat (length (concat (fast_encoded <$> frames))))); [lia|].
    rewrite (decode_fast_loop_ok _ _ _ _ frames); [|lia|lia|done|cbn; lia|by rewrite drop_0]. cbn.
    by destruct (Nat.eqb_spec (length frames) 0); [lia|].
Qed.

Lemma decode_fast_total p :
  ∃ r, decode_fast_input_batch p = Some r ∧ r ≠ Err Panic.
Proof.
  unfold decode_fast_input_batch. destruct (_ <? _); [by eexists|].
  destruct (decode_fast_loop_terminates (length p) p 0 []) as (r & -> & Hr); [lia|].
  destruct r as [frames|e]; cbn.
  - eexists. split; [done|]. by destruct (_ =? _)%nat.
  - eexists. split; [done|congruence].
Qed.

(** ** input_batch.rs *)

Module InputFrames.

Definition INPUT_BATCH_MAGIC : bytes := magic_bytes "SBI1".
Definition INPUT_BATCH_TYPE : N := 1.
Definition INPUT_BATCH_HEADER_BYTES : nat := 4 + 1 + 8 + 8 + 1 + 1.
Definition INPUT_FRAME_HEADER_BYTES : nat := 8 + 2.

Inductive InputFrameBatchCodecError :=
| Malformed | Unsupported | TooManyFrames | InvalidPlayerIndex | Empty.

End InputFrames.

Record InputFrameBatch := mkInputFrameBatch {
  ib_room_epoch : N;
  ib_session_epoch : N;
  ib_player_index : PlayerIndex;
  ib_frames : list InputFrame }.

Abbreviation input_result := (result (fault InputFrames.InputFrameBatchCodecError)).

(** [for _ in 0..frame_count], with the final offset. *)
Fixpoint decode_input_frames (count : nat) (payload : bytes) (player_index : PlayerIndex)
    (offset : nat) (frames : list InputFrame) : input_result (list InputFrame * nat) :=
  match count with
  | O => mret (frames, offset)
  | S count' =>
      if (length payload - offset <? InputFrames.INPUT_FRAME_HEADER_BYTES)%nat
      then Err (Error InputFrames.Malformed)
      else
        frame ← read_be 8 InputFrames.Malformed payload offset;
        payload_len ← read_be 2 InputFrames.Malformed payload (offset + 8);
        let payload_len := N.to_nat payload_len in
        let start := (offset + 10)%nat in
        if (length payload - start <? payload_len)%nat then Err (Error InputFrames.Malformed)
        else
          body ← slice payload start payload_len;
          decode_input_frames count' payload player_index (start + payload_len)
            (frames ++ [mkInputFrame player_index frame body])
  end.

Definition decode_input_frame_batch (payload : bytes) : input_result InputFrameBatch :=
  if (MAX_INPUT_BATCH_BYTES <? N.of_nat (length payload))
     || (length payload <? InputFrames.INPUT_BATCH_HEADER_BYTES)%nat
  then Err (Error InputFrames.Malformed)
  else
    head ← slice payload 0 4;
    if head !=? InputFrames.INPUT_BATCH_MAGIC then Err (Error InputFrames.Unsupported)
    else
      ty ← index payload 4;
      if Byte.to_N ty !=? InputFrames.INPUT_BATCH_TYPE then Err (Error InputFrames.Unsupported)
      else
        room_epoch ← read_be 8 InputFrames.Malformed payload 5;
        session_epoch ← read_be 8 InputFrames.Malformed payload 13;
        b ← index payload 21;
        player_index ← player_of_byte InputFrames.InvalidPlayerIndex b;
        count ← index payload 22;
        let frame_count := N.to_nat (Byte.to_N count) in
        if (frame_count =? 0)%nat then Err (Error InputFrames.Empty)
        else if (MAX_INPUT_BATCH_FRAMES <? frame_count)%nat then Err (Error InputFrames.TooManyFrames)
        else
          r ← decode_input_frames frame_count payload player_index
                InputFrames.INPUT_BATCH_HEADER_BYTES [];
          let '(frames, offset) := r in
          if negb (offset =? length payload)%nat then Err (Error InputFrames.Malformed)
          else mret (mkInputFrameBatch room_epoch session_epoch player_index frames).

(** The bytes of one frame of a batch. *)
Definition input_frame_bytes (f : InputFrame) : bytes :=
  to_be_bytes 8 (frame_frame f) ++ to_be_bytes 2 (N.of_nat (length (frame_payload f)))
  ++ frame_payload f.

(** The encoder's loop over the frames. *)
Fixpoint encode_input_frames (player_index : PlayerIndex) (frames : list InputFrame)
    : result InputFrames.InputFrameBatchCodecError bytes :=
  match frames with
  | [] => Ok []
  | f :: frames =>
      if (frame_player_index f !=? player_index) || (u16_max <? N.of_nat (length (frame_payload f)))
      then Err InputFrames.Malformed
      else
        rest ← encode_input_frames player_index frames;
        Ok (input_frame_bytes f ++ rest)
  end.

Definition encode_input_frame_batch (b : InputFrameBatch)
    : result InputFrames.InputFrameBatchCodecError bytes :=
  if (length (ib_frames b) =? 0)%nat then Err InputFrames.Empty
  else if (MAX_INPUT_BATCH_FRAMES <? length (ib_frames b))%nat then Err InputFrames.TooManyFrames
  else
    frames ← encode_input_frames (ib_player_index b) (ib_frames b);
    let payload :=
      InputFrames.INPUT_BATCH_MAGIC ++ [byte_of_N InputFrames.INPUT_BATCH_TYPE]
      ++ to_be_bytes 8 (ib_room_epoch b) ++ to_be_bytes 8 (ib_session_epoch b)
      ++ [byte_of_N (zero_based (ib_player_index b))]
      ++ [byte_of_N (N.of_nat (length (ib_frames b)))] ++ frames in
    if MAX_INPUT_BATCH_BYTES <? N.of_nat (length payload) then Err InputFrames.Malformed
    else Ok payload.

(** *** Frames of a batch *)

Definition input_frame_wf (pi : PlayerIndex) (f : InputFrame) : Prop :=
  frame_player_index f = pi ∧ is_u64 (frame_frame f) ∧ N.of_nat (length (frame_payload f)) ≤ u16_max.

Lemma length_input_frame_bytes f : length (input_frame_bytes f) = (10 + length (frame_payload f))%nat.
Proof. unfold input_frame_bytes. by rewrite !length_app, !length_to_be_bytes. Qed.

Lemma encode_input_frames_ok pi frames :
  Forall (input_frame_wf pi) frames →
  encode_input_frames pi frames = Ok (concat (input_frame_bytes <$> frames)).
Proof.
  induction 1 as [|f frames (Hp & _ & Hl) _ IH]; [done|]. cbn [encode_input_frames].
  rewrite (bool_decide_true _ Hp). cbn [negb orb].
  destruct (N.ltb_spec u16_max (N.of_nat (length (frame_payload f)))); [lia|]. by rewrite IH.
Qed.

Lemma decode_input_frames_inv count p pi o frames out o' :
  (o ≤ length p)%nat → decode_input_frames count p pi o frames = Ok (out, o') →
  ∃ new, out = frames ++ new ∧ length new = count ∧ Forall (input_frame_wf pi) new ∧
    drop o p = concat (input_frame_bytes <$> new) ++ drop o' p ∧ (o' ≤ length p)%nat.
Proof.
  revert o frames. induction count as [|count IH]; intros o frames Ho; cbn [decode_input_frames].
  { intros [= <- <-]. exists []. by rewrite app_nil_r. }
  unfold InputFrames.INPUT_FRAME_HEADER_BYTES. cbn [Nat.add].
  destruct (Nat.ltb_spec (length p - o) 10); [done|]. intros Hd.
  apply bind_Ok in Hd as (fr & Hfr & Hd). apply bind_Ok in Hd as (len & Hlen & Hd). cbv zeta in Hd.
  destruct (Nat.ltb_spec (length p - (o + 10)) (N.to_nat len)); [done|].
  apply bind_Ok in Hd as (body & (Hbl & Hbody & Hbo)%slice_inv & Hd).
  apply IH in Hd as (new & -> & <- & Hnew & Hd & Ho'); [|lia].
  apply read_be_inv in Hfr as (Hfr & Cfr & _), Hlen as (Hlen & Clen & _).
  rewrite u64_width in Hfr. rewrite u16_width in Hlen.
  exists (mkInputFrame pi fr body :: new). rewrite <-app_assoc. split_and!; [done..| | |done].
  - constructor; [|done]. split_and!; [done..|]. cbn. by rewrite Hbl, N2Nat.id.
  - cbn [fmap list_fmap concat]. unfold input_frame_bytes at 1. cbn [frame_frame frame_payload].
    rewrite <-!app_assoc, <-Hd, Hbl, N2Nat.id, <-Hbody.
    rewrite <-Nat.add_assoc in Clen. by rewrite Cfr, Clen.
Qed.

Lemma decode_input_frames_ok p pi o frames new rest :
  Forall (input_frame_wf pi) new → (o ≤ length p)%nat →
  drop o p = concat (input_frame_bytes <$> new) ++ rest →
  decode_input_frames (length new) p pi o frames
  = Ok (frames ++ new, (o + length (concat (input_frame_bytes <$> new)))%nat).
Proof.
  intros Hnew. revert o frames. induction Hnew as [|f new (Hp & Hf & Hb) Hnew IH]; intros o frames Ho Hd.
  { cbn. by rewrite app_nil_r, Nat.add_0_r. }
  destruct f as [pi' fr body]. cbn in Hp, Hf, Hb. subst pi'.
  cbn [fmap list_fmap concat] in Hd |- *. rewrite <-app_assoc in Hd.
  pose proof (f_equal length Hd) as Hl. rewrite length_app, length_drop, length_input_frame_bytes in Hl.
  cbn [frame_payload] in Hl. pose proof (drop_field _ _ _ _ _ Hd eq_refl) as D'.
  rewrite length_app, length_input_frame_bytes in *. cbn [frame_payload] in D' |- *.
  unfold input_frame_bytes at 1 in Hd. cbn [frame_frame frame_payload] in Hd. rewrite <-!app_assoc in Hd.
  pose proof (drop_be (o + 8) _ _ _ _ _ Hd eq_refl) as D8.
  pose proof (drop_be (o + 10) _ _ _ _ _ D8 ltac:(lia)) as D10.
  cbn [decode_input_frames length]. unfold InputFrames.INPUT_FRAME_HEADER_BYTES. cbn [Nat.add].
  destruct (Nat.ltb_spec (length p - o) 10); [lia|].
  rewrite (read_be_ok _ _ _ _ _ _ Hd) by (by apply u64_width || lia). cbn [mbind result_bind].
  rewrite (read_be_ok _ _ _ _ _ _ D8) by (by apply u16_width || lia). cbn [mbind result_bind].
  rewrite Nat2N.id. destruct (Nat.ltb_spec (length p - (o + 10)) (length body)); [lia|].
  rewrite (slice_ok _ _ _ _ D10 ltac:(lia)). cbn [mbind result_bind].
  rewrite IH; [rewrite <-app_assoc; do 2 f_equal; lia|lia|].
  rewrite <-D'. f_equal. lia.
Qed.

Lemma decode_input_frames_no_panic count p pi o frames :
  decode_input_frames count p pi o frames ≠ Err Panic.
Proof.
  revert o frames. induction count as [|count IH]; intros o frames; [done|]. cbn [decode_input_frames].
  unfold InputFrames.INPUT_FRAME_HEADER_BYTES. cbn [Nat.add].
  destruct (Nat.ltb_spec (length p - o) 10); [done|].
  apply any_bind_no_panic; [apply read_be_no_panic|intros fr _].
  apply any_bind_no_panic; [apply read_be_no_panic|intros len _]. cbv zeta.
  destruct (Nat.ltb_spec (length p - (o + 10)) (N.to_nat len)); [done|].
  apply any_bind_no_panic; [apply slice_no_panic; lia|intros body _]. apply IH.
Qed.

(** *** Whole batches *)

Definition input_batch_bytes (b : InputFrameBatch) : bytes :=
  InputFrames.INPUT_BATCH_MAGIC ++ [byte_of_N InputFrames.INPUT_BATCH_TYPE]
  ++ to_be_bytes 8 (ib_room_epoch b) ++ to_be_bytes 8 (ib_session_epoch b)
  ++ [byte_of_N (zero_based (ib_player_index b))]
  ++ [byte_of_N (N.of_nat (length (ib_frames b)))] ++ concat (input_frame_bytes <$> ib_frames b).
#[global] Arguments input_batch_bytes : simpl never.

Definition input_batch_wf (b : InputFrameBatch) : Prop :=
  is_u64 (ib_room_epoch b) ∧ is_u64 (ib_session_epoch b) ∧ in_capacity (ib_player_index b) ∧
  Forall (input_frame_wf (ib_player_index b)) (ib_frames b) ∧
  (1 ≤ length (ib_frames b) ≤ MAX_INPUT_BATCH_FRAMES)%nat ∧
  N.of_nat (length (input_batch_bytes b)) ≤ MAX_INPUT_BATCH_BYTES.

Lemma encode_input_batch_ok b :
  input_batch_wf b → encode_input_frame_batch b = Ok (input_batch_bytes b).
Proof.
  intros (_ & _ & _ & Hf & Hn & Hb). unfold encode_input_frame_batch.
  destruct (Nat.eqb_spec (length (ib_frames b)) 0); [lia|].
  destruct (Nat.ltb_spec MAX_INPUT_BATCH_FRAMES (length (ib_frames b))); [lia|].
  rewrite encode_input_frames_ok by done. cbn [mbind result_bind]. cbv zeta.
  change (InputFrames.INPUT_BATCH_MAGIC ++ _) with (input_batch_bytes b).
  by destruct (N.ltb_spec MAX_INPUT_BATCH_BYTES (N.of_nat (length (input_batch_bytes b)))); [lia|].
Qed.

Lemma decode_input_batch_inv p b :
  decode_input_frame_batch p = Ok b → input_batch_wf b ∧ p = input_batch_bytes b.
Proof.
  unfold decode_input_frame_batch, InputFrames.INPUT_BATCH_HEADER_BYTES. cbn [Nat.add].
  destruct (N.ltb_spec MAX_INPUT_BATCH_BYTES (N.of_nat (length p))) as [|Hmax]; [done|].
  destruct (Nat.ltb_spec (length p) 23) as [|H23]; [done|]. cbn [orb]. intros Hd.
  apply bind_Ok in Hd as (head & (_ & Hh & _)%slice_inv & Hd). rewrite drop_0 in Hh. cbn [Nat.add] in Hh.
  case_bool_decide as Hm; [|done]. cbn [negb] in Hd. subst head.
  apply bind_Ok in Hd as (ty & Hty%index_any_inv & Hd). case_bool_decide as Ht; [|done]. cbn [negb] in Hd.
  apply bind_Ok in Hd as (re & (Hre & Cre & _)%read_be_inv & Hd).
  apply bind_Ok in Hd as (se & (Hse & Cse & _)%read_be_inv & Hd).
  apply bind_Ok in Hd as (pb & Hpb%index_any_inv & Hd).
  apply bind_Ok in Hd as (pi & [Hpi ->]%player_of_byte_inv & Hd).
  apply bind_Ok in Hd as (count & Hc%index_any_inv & Hd). cbv zeta in Hd.
  destruct (Nat.eqb_spec (N.to_nat (Byte.to_N count)) 0); [done|].
  destruct (Nat.ltb_spec MAX_INPUT_BATCH_FRAMES (N.to_nat (Byte.to_N count))); [done|].
  apply bind_Ok in Hd as ([frames o] & Hfr & Hd).
  destruct (Nat.eqb_spec o (length p)) as [->|]; [|done]. cbn [negb] in Hd. injection Hd as <-.
  apply decode_input_frames_inv in Hfr as (new & -> & Hlen & Hnew & Hd & _); [|lia].
  rewrite drop_all, app_nil_r in Hd. cbn [app Nat.add] in *. rewrite u64_width in Hre, Hse.
  assert (p = input_batch_bytes (mkInputFrameBatch re se pi new)) as Hp.
  { unfold input_batch_bytes. cbn [ib_room_epoch ib_session_epoch ib_player_index ib_frames].
    rewrite Hh at 1. f_equal. rewrite (cut_byte p 4 ty), <-Ht, byte_of_to_N, Cre, Cse by done.
    rewrite (cut_byte p 21 _ Hpb), (cut_byte p 22 _ Hc), Hd, Hlen, N2Nat.id, byte_of_to_N. done. }
  split; [|done]. unfold input_batch_wf. rewrite <-Hp. cbn. split_and!; try done; lia.
Qed.

Lemma decode_input_batch_ok b :
  input_batch_wf b → decode_input_frame_batch (input_batch_bytes b) = Ok b.
Proof.
  destruct b as [re se pi frames]. intros (Hre & Hse & Hpi & Hf & Hn & Hb). cbn in Hre, Hse, Hpi, Hf, Hn.
  set (p := input_batch_bytes _) in *.
  assert (drop 0 p = p) as D0 by apply drop_0. unfold p at 2, input_batch_bytes in D0.
  cbn [ib_room_epoch ib_session_epoch ib_player_index ib_frames] in D0.
  pose proof (drop_field 4 _ _ _ _ D0 eq_refl) as D4. pose proof (drop_field 5 _ _ _ _ D4 eq_refl) as D5.
  pose proof (drop_be 13 _ _ _ _ _ D5 eq_refl) as D13. pose proof (drop_be 21 _ _ _ _ _ D13 eq_refl) as D21.
  pose proof (drop_field 22 _ _ _ _ D21 eq_refl) as D22. pose proof (drop_field 23 _ _ _ _ D22 eq_refl) as D23.
  assert (length p = (23 + length (concat (input_frame_bytes <$> frames)))%nat) as Hl.
  { unfold p, input_batch_bytes. cbn [ib_room_epoch ib_session_epoch ib_player_index ib_frames].
    by rewrite !length_app, !length_to_be_bytes. }
  clearbody p. unfold decode_input_frame_batch, InputFrames.INPUT_BATCH_HEADER_BYTES. cbn [Nat.add].
  destruct (N.ltb_spec MAX_INPUT_BATCH_BYTES (N.of_nat (length p))); [lia|].
  destruct (Nat.ltb_spec (length p) 23); [lia|]. cbn [orb].
  rewrite (slice_ok p 0 InputFrames.INPUT_BATCH_MAGIC _ D0) by lia. cbn [mbind result_bind].
  rewrite bool_decide_true by done. cbn [negb]. unfold index.
  rewrite (lookup_of_drop _ _ _ _ D4). cbn [ok_or mbind result_bind].
  rewrite byte_to_N_of_N, bool_decide_true by done. cbn [negb].
  rewrite (read_be_ok _ _ _ _ _ _ D5) by (by apply u64_width || lia). cbn [mbind result_bind].
  rewrite (read_be_ok _ _ _ _ _ _ D13) by (by apply u64_width || lia). cbn [mbind result_bind].
  rewrite (lookup_of_drop _ _ _ _ D21). cbn [ok_or mbind result_bind].
  rewrite player_of_byte_ok by done. cbn [mbind result_bind].
  rewrite (lookup_of_drop _ _ _ _ D22). cbn [ok_or mbind result_bind]. cbv zeta.
  rewrite byte_to_N_of_N, N.mod_small, Nat2N.id by (unfold MAX_INPUT_BATCH_FRAMES in Hn; lia).
  destruct (Nat.eqb_spec (length frames) 0); [lia|].
  destruct (Nat.ltb_spec MAX_INPUT_BATCH_FRAMES (length frames)); [lia|].
  rewrite (decode_input_frames_ok p pi 23 [] frames []); [|done|lia|by rewrite app_nil_r].
  cbn [mbind result_bind]. rewrite <-Hl, Nat.eqb_refl. done.
Qed.

Lemma decode_input_batch_no_panic p : decode_input_frame_batch p ≠ Err Panic.
Proof.
  unfold decode_input_frame_batch, InputFrames.INPUT_BATCH_HEADER_BYTES. cbn [Nat.add].
  destruct (_ <? _); [done|]. destruct (Nat.ltb_spec (length p) 23); [done|]. cbn [orb].
  apply any_bind_no_panic; [apply slice_no_panic; lia|intros head _]. case_bool_decide; [cbn [negb]|done].
  apply any_bind_no_panic; [apply index_any_no_panic; lia|intros ty _]. case_bool_decide; [cbn [negb]|done].
  do 2 (apply any_bind_no_panic; [apply read_be_no_panic|intros ? _]).
  apply any_bind_no_panic; [apply index_any_no_panic; lia|intros pb _].
  apply any_bind_no_panic; [apply player_of_byte_no_panic|intros pi _].
  apply any_bind_no_panic; [apply index_any_no_panic; lia|intros count _]. cbv zeta.
  do 2 (case_match; [done|]).
  apply any_bind_no_panic; [apply decode_input_frames_no_panic|intros [frames o] _]. by case_match.
Qed.

(** ** server_frame.rs *)

Module ServerFrames.

Definition SERVER_FRAME_MAGIC : bytes := magic_bytes "SBF1".
Definition SERVER_FRAME_TYPE : N := 2.
Definition SERVER_FRAME_BYTES : nat := 4 + 1 + 8 + 8 + 8 + 8.

Inductive ServerFrameCodecError := Malformed | Unsupported.

End ServerFrames.

Definition decode_server_frame (payload : bytes)
    : result (fault ServerFrames.ServerFrameCodecError) ServerFrame :=
  if negb (length payload =? ServerFrames.SERVER_FRAME_BYTES)%nat
     || (MAX_INPUT_BATCH_BYTES <? N.of_nat (length payload))
  then Err (Error ServerFrames.Malformed)
  else
    head ← slice payload 0 4;
    if head !=? ServerFrames.SERVER_FRAME_MAGIC then Err (Error ServerFrames.Unsupported)
    else
      ty ← index payload 4;
      if Byte.to_N ty !=? ServerFrames.SERVER_FRAME_TYPE then Err (Error ServerFrames.Unsupported)
      else
        room_epoch ← read_be 8 ServerFrames.Malformed payload 5;
        session_epoch ← read_be 8 ServerFrames.Malformed payload 13;
        frame ← read_be 8 ServerFrames.Malformed payload 21;
        canonical_frame ← read_be 8 ServerFrames.Malformed payload 29;
        mret (mkServerFrame room_epoch session_epoch frame canonical_frame).

Definition encode_server_frame (f : ServerFrame) : bytes :=
  ServerFrames.SERVER_FRAME_MAGIC ++ [byte_of_N ServerFrames.SERVER_FRAME_TYPE]
  ++ to_be_bytes 8 (server_room_epoch f) ++ to_be_bytes 8 (server_session_epoch f)
  ++ to_be_bytes 8 (server_frame f) ++ to_be_bytes 8 (server_canonical_frame f).
#[global] Arguments encode_server_frame : simpl never.

Definition server_frame_wf (f : ServerFrame) : Prop :=
  is_u64 (server_room_epoch f) ∧ is_u64 (server_session_epoch f) ∧ is_u64 (server_frame f) ∧
  is_u64 (server_canonical_frame f).

Lemma decode_server_frame_inv p f :
  decode_server_frame p = Ok f → server_frame_wf f ∧ p = encode_server_frame f.
Proof.
  unfold decode_server_frame, ServerFrames.SERVER_FRAME_BYTES. cbn [Nat.add].
  destruct (Nat.eqb_spec (length p) 37) as [Hl|]; [|done]. cbn [negb orb]. case_match; [done|]. intros Hd.
  apply bind_Ok in Hd as (head & (_ & Hh & _)%slice_inv & Hd). rewrite drop_0 in Hh. cbn [Nat.add] in Hh.
  case_bool_decide as Hm; [|done]. cbn [negb] in Hd. subst head.
  apply bind_Ok in Hd as (ty & Hty%index_any_inv & Hd). case_bool_decide as Ht; [|done]. cbn [negb] in Hd.
  apply bind_Ok in Hd as (re & (Hre & Cre & _)%read_be_inv & Hd).
  apply bind_Ok in Hd as (se & (Hse & Cse & _)%read_be_inv & Hd).
  apply bind_Ok in Hd as (fr & (Hfr & Cfr & _)%read_be_inv & Hd).
  apply bind_Ok in Hd as (cf & (Hcf & Ccf & _)%read_be_inv & Hd). injection Hd as <-.
  rewrite u64_width in *. cbn [Nat.add] in *. split; [done|].
  unfold encode_server_frame. cbn [server_room_epoch server_session_epoch server_frame server_canonical_frame].
  rewrite Hh at 1. f_equal. rewrite (cut_byte p 4 ty), <-Ht, byte_of_to_N, Cre, Cse, Cfr, Ccf by done.
  by rewrite drop_ge, app_nil_r by lia.
Qed.

Lemma decode_server_frame_ok f :
  server_frame_wf f → decode_server_frame (encode_server_frame f) = Ok f.
Proof.
  destruct f as [re se fr cf]. intros (Hre & Hse & Hfr & Hcf). cbn in Hre, Hse, Hfr, Hcf.
  set (p := encode_server_frame _).
  assert (drop 0 p = p) as D0 by apply drop_0. unfold p at 2, encode_server_frame in D0.
  cbn [server_room_epoch server_session_epoch server_frame server_canonical_frame] in D0.
  pose proof (drop_field 4 _ _ _ _ D0 eq_refl) as D4. pose proof (drop_field 5 _ _ _ _ D4 eq_refl) as D5.
  pose proof (drop_be 13 _ _ _ _ _ D5 eq_refl) as D13. pose proof (drop_be 21 _ _ _ _ _ D13 eq_refl) as D21.
  pose proof (drop_be 29 _ _ _ _ _ D21 eq_refl) as D29. rewrite <-(app_nil_r (to_be_bytes 8 cf)) in D29.
  assert (length p = 37%nat) as Hl
    by (unfold p, encode_server_frame; rewrite !length_app, !length_to_be_bytes; done).
  clearbody p. unfold decode_server_frame, ServerFrames.SERVER_FRAME_BYTES. rewrite Hl. cbn [Nat.add Nat.eqb negb orb].
  replace (MAX_INPUT_BATCH_BYTES <? N.of_nat 37) with false by done.
  rewrite (slice_ok p 0 ServerFrames.SERVER_FRAME_MAGIC _ D0) by lia. cbn [mbind result_bind].
  rewrite bool_decide_true by done. cbn [negb]. unfold index.
  rewrite (lookup_of_drop _ _ _ _ D4). cbn [ok_or mbind result_bind].
  rewrite byte_to_N_of_N, bool_decide_true by done. cbn [negb].
  rewrite (read_be_ok _ _ _ _ _ _ D5) by (by apply u64_width || lia). cbn [mbind result_bind].
  rewrite (read_be_ok _ _ _ _ _ _ D13) by (by apply u64_width || lia). cbn [mbind result_bind].
  rewrite (read_be_ok _ _ _ _ _ _ D21) by (by apply u64_width || lia). cbn [mbind result_bind].
  by rewrite (read_be_ok _ _ _ _ _ _ D29) by (by apply u64_width || lia).
Qed.

Module Legacy.

(** Fast input is forwarded byte for byte. A payload decodes to a batch of SBI2 records
    exactly when it is the concatenation of one to four encoded records, at most 8192 bytes
    long; each decoded record then keeps, for forwarding, the very bytes its fields encode to. *)
Theorem fast_input_zero_copy p b :
  (decode_fast_input_batch p = Some (Ok b) ↔
     fast_batch_wf b ∧ p = concat (fast_encoded <$> fast_frames b)) ∧
  (decode_fast_input_batch p = Some (Ok b) →
     Forall (λ f, encode_fast_input_frame (fast_room_epoch f) (fast_session_epoch f)
       (fast_player_index f) (fast_frame f) (fast_payload f) = Ok (fast_encoded f)) (fast_frames b)).
Proof.
  split; [apply decode_fast_iff|]. intros [(Hwf & Hn & Hb) ->]%decode_fast_iff.
  rewrite Forall_forall in *. intros f Hf. destruct (Hwf f Hf) as (_ & _ & _ & _ & Hl & He).
  unfold encode_fast_input_frame. destruct (N.ltb_spec u16_max (N.of_nat (length (fast_payload f)))); [lia|].
  cbv zeta. rewrite <-He. apply list_elem_of_split in Hf as (l1 & l2 & Hs).
  rewrite Hs, fmap_app, fmap_cons, concat_app in Hb. cbn [concat] in Hb. rewrite !length_app in Hb.
  destruct (N.ltb_spec MAX_INPUT_BATCH_BYTES (N.of_nat (length (fast_encoded f)))); [lia|done].
Qed.

(** The SBI2 decoder terminates. On every payload the decoder's loop ends after at most as
    many rounds as the payload has bytes, with a batch or an error of the codec, never with a
    panic. *)
Theorem fast_input_terminates p :
  ∃ r, decode_fast_input_batch p = Some r ∧ r ≠ Err Panic.
Proof. apply decode_fast_total. Qed.

(** The SBI1 and SBF1 encodings are faithful. Every well-formed input batch and frame
    release encodes, and decodes back to itself; whatever bytes a decoder accepts are the
    encoding of the well-formed value it returns; and no bytes make a decoder panic. *)
Theorem legacy_wire_roundtrip p :
  (∀ b, input_batch_wf b → ∃ q, encode_input_frame_batch b = Ok q ∧ decode_input_frame_batch q = Ok b) ∧
  (∀ b, decode_input_frame_batch p = Ok b → input_batch_wf b ∧ encode_input_frame_batch b = Ok p) ∧
  decode_input_frame_batch p ≠ Err Panic ∧
  (∀ f, server_frame_wf f → decode_server_frame (encode_server_frame f) = Ok f) ∧
  (∀ f, decode_server_frame p = Ok f → server_frame_wf f ∧ encode_server_frame f = p).
Proof.
  split_and!.
  - intros b Hb. eexists. split; [by apply encode_input_batch_ok|by apply decode_input_batch_ok].
  - intros b [Hb ->]%decode_input_batch_inv. split; [done|by apply encode_input_batch_ok].
  - apply decode_input_batch_no_panic.
  - apply decode_server_frame_ok.
  - by intros f [Hf ->]%decode_server_frame_inv.
Qed.

End Legacy.
