(* ===== verification/RateLimit.v ===== *)
(** * Request rate limiting

  Models [src/src/rate_limit/policy.rs] and [src/src/rate_limit/window_limiter.rs]: one
  queue of request times per action and key, pruned on every check. The mutex makes a
  check atomic, so the limiter is a state passed from check to check. The comparison
  [entry <= now - window] is written [entry + window <= now]. *)

From Stdlib Require Import Sorting.Sorted.
From S2P Require Import Prelude.
Open Scope N_scope.

(** ** policy.rs *)

Inductive RateLimitAction := CreateRoom | WebSocketJoin | RoomStatus.

#[export] Instance RateLimitAction_eq_dec : EqDecision RateLimitAction.
Proof. solve_decision. Defined.
#[export] Instance RateLimitAction_countable : Countable RateLimitAction.
Proof.
  refine (inj_countable' (λ a, match a with CreateRoom => 0 | WebSocketJoin => 1 | RoomStatus => 2 end)
    (λ n, match n with 0 => CreateRoom | 1 => WebSocketJoin | _ => RoomStatus end) _).
  by intros [].
Defined.

Record RateLimitPolicy := mkRateLimitPolicy {
  create_room_per_minute : N;
  websocket_join_per_minute : N;
  room_status_per_minute : N }.

Definition RateLimitPolicy_default : RateLimitPolicy := mkRateLimitPolicy 12 30 120.

Definition limit_for (policy : RateLimitPolicy) (action : RateLimitAction) : N :=
  match action with
  | CreateRoom => create_room_per_minute policy
  | WebSocketJoin => websocket_join_per_minute policy
  | RoomStatus => room_status_per_minute policy
  end.

(** ** window_limiter.rs *)

Definition RATE_LIMIT_WINDOW : Duration := from_secs 60.

Record RateLimitBucket := mkRateLimitBucket { bucket_action : RateLimitAction; bucket_key : string }.

#[export] Instance RateLimitBucket_eq_dec : EqDecision RateLimitBucket.
Proof. solve_decision. Defined.
#[export] Instance RateLimitBucket_countable : Countable RateLimitBucket.
Proof.
  apply (inj_countable' (λ b, (bucket_action b, bucket_key b)) (λ '(a, k), mkRateLimitBucket a k)).
  by intros [].
Defined.

Record RateLimitExceeded := mkRateLimitExceeded {
  exceeded_action : RateLimitAction;
  retry_after : Duration }.

Record InMemoryRateLimiter := mkInMemoryRateLimiter {
  limiter_policy : RateLimitPolicy;
  buckets : gmap RateLimitBucket (list Instant) }.

Definition InMemoryRateLimiter_new (policy : RateLimitPolicy) : InMemoryRateLimiter :=
  mkInMemoryRateLimiter policy ∅.

(** [while entries.front() <= cutoff { entries.pop_front() }]. *)
Fixpoint prune (now : Instant) (entries : list Instant) : list Instant :=
  match entries with
  | e :: entries' => if e + RATE_LIMIT_WINDOW <=? now then prune now entries' else entries
  | [] => []
  end.

Definition check_at (action : RateLimitAction) (key : string) (now : Instant)
    (s : InMemoryRateLimiter) : result RateLimitExceeded unit * InMemoryRateLimiter :=
  let limit := limit_for (limiter_policy s) action in
  if limit =? 0 then (Err (mkRateLimitExceeded action RATE_LIMIT_WINDOW), s)
  else
    let entries := prune now (default [] (buckets s !! mkRateLimitBucket action key)) in
    let store l := mkInMemoryRateLimiter (limiter_policy s) (<[mkRateLimitBucket action key := l]> (buckets s)) in
    if limit <=? N.of_nat (length entries) then
      let after := match head entries with
                   | Some oldest => saturating_sub RATE_LIMIT_WINDOW (duration_since now oldest)
                   | None => RATE_LIMIT_WINDOW
                   end in
      (Err (mkRateLimitExceeded action after), store entries)
    else (Ok tt, store (entries ++ [now])).

(** ** The specification: a sliding window over the whole history

  [history] holds every admitted request, oldest first. A request is admitted when fewer
  than the limit were admitted for its action and key in the 60 seconds before it. *)

Record Request := mkRequest { req_action : RateLimitAction; req_key : string; req_time : Instant }.

#[export] Instance Request_eq_dec : EqDecision Request.
Proof. solve_decision. Defined.

Definition req_bucket (q : Request) : RateLimitBucket := mkRateLimitBucket (req_action q) (req_key q).

(** The admitted requests of a bucket less than a window before [now]. *)
Definition in_window (b : RateLimitBucket) (now : Instant) (history : list Request) : list Request :=
  List.filter (λ q, (req_bucket q ==? b) && (now <? req_time q + RATE_LIMIT_WINDOW)) history.

Definition admits (policy : RateLimitPolicy) (history : list Request) (q : Request) : bool :=
  N.of_nat (length (in_window (req_bucket q) (req_time q) history))
  <? limit_for policy (req_action q).

Fixpoint spec_run (policy : RateLimitPolicy) (history : list Request) (qs : list Request) : list bool :=
  match qs with
  | [] => []
  | q :: qs =>
      let ok := admits policy history q in
      ok :: spec_run policy (if ok then history ++ [q] else history) qs
  end.

Fixpoint limiter_run (qs : list Request) (s : InMemoryRateLimiter)
    : list (result RateLimitExceeded unit) * InMemoryRateLimiter :=
  match qs with
  | [] => ([], s)
  | q :: qs =>
      let '(r, s) := check_at (req_action q) (req_key q) (req_time q) s in
      let '(rs, s) := limiter_run qs s in (r :: rs, s)
  end.

(** ** Refinement *)

Definition bucket_times (b : RateLimitBucket) (history : list Request) : list Instant :=
  req_time <$> List.filter (λ q, req_bucket q ==? b) history.

(** The queue of a bucket holds the recent end of its history: what was dropped was already
    outside the window at the last check. *)
Definition queue_of (now : Instant) (times queue : list Instant) : Prop :=
  ∃ dropped, times = dropped ++ queue ∧ Forall (λ t, t + RATE_LIMIT_WINDOW ≤ now) dropped.

Record refines (now : Instant) (history : list Request) (s : InMemoryRateLimiter) : Prop := {
  ref_sorted : StronglySorted N.le (req_time <$> history);
  ref_past : Forall (λ q, req_time q ≤ now) history;
  ref_queue b : queue_of now (bucket_times b history) (default [] (buckets s !! b)) }.

Lemma sorted_bucket b history :
  StronglySorted N.le (req_time <$> history) → StronglySorted N.le (bucket_times b history).
Proof.
  unfold bucket_times. induction history as [|q h IH]; [done|]. cbn. inversion 1 as [|? ? Hs Hf]; subst.
  destruct (bool_decide _); cbn; [|by apply IH]. constructor; [by apply IH|].
  rewrite Forall_forall in Hf |- *. intros t Ht. apply Hf.
  apply list_elem_of_fmap in Ht as (x & -> & Hx). apply list_elem_of_fmap. exists x. split; [done|].
  apply list_elem_of_In in Hx. apply List.filter_In in Hx as [? _]. by apply list_elem_of_In.
Qed.

(** On a sorted queue, pruning the front filters the queue. *)
Lemma prune_filter now l :
  StronglySorted N.le l →
  prune now l = List.filter (λ t, now <? t + RATE_LIMIT_WINDOW) l.
Proof.
  induction l as [|t l IH]; [done|]. inversion 1 as [|? ? Hs Hf]; subst. cbn.
  destruct (N.leb_spec (t + RATE_LIMIT_WINDOW) now), (N.ltb_spec now (t + RATE_LIMIT_WINDOW)); try lia.
  - by apply IH.
  - f_equal. symmetry. apply forallb_filter_id, forallb_forall. intros x Hx. apply N.ltb_lt.
    rewrite Forall_forall in Hf. specialize (Hf x ltac:(by apply list_elem_of_In)). lia.
Qed.

Lemma filter_dropped now l :
  Forall (λ t, t + RATE_LIMIT_WINDOW ≤ now) l →
  List.filter (λ t, now <? t + RATE_LIMIT_WINDOW) l = [].
Proof.
  induction 1 as [|t l Ht _ IH]; [done|]. cbn. by destruct (N.ltb_spec now (t + RATE_LIMIT_WINDOW)); [lia|].
Qed.

Lemma StronglySorted_suffix {A} (R : A → A → Prop) l1 l2 :
  StronglySorted R (l1 ++ l2) → StronglySorted R l2.
Proof. induction l1; [done|]. inversion 1. auto. Qed.

(** The window of the history is the pruned queue. *)
Lemma window_queue now b history s :
  refines now history s → ∀ now', now ≤ now' →
  req_time <$> in_window b now' history = prune now' (default [] (buckets s !! b)) ∧
  queue_of now' (bucket_times b history) (prune now' (default [] (buckets s !! b))).
Proof.
  intros [Hs _ Hq] now' Hn. destruct (Hq b) as (dropped & Hd & Hf).
  pose proof (sorted_bucket b history Hs) as Hsb. rewrite Hd in Hsb.
  assert (Forall (λ t, t + RATE_LIMIT_WINDOW ≤ now') dropped) as Hf'.
  { eapply Forall_impl; [exact Hf|]. cbn. intros. lia. }
  assert (req_time <$> in_window b now' history
          = List.filter (λ t, now' <? t + RATE_LIMIT_WINDOW) (bucket_times b history)) as ->.
  { unfold in_window, bucket_times. clear. induction history as [|q h IH]; [done|]. cbn.
    destruct (bool_decide _); cbn; [|done]. destruct (_ <? _); cbn; by rewrite IH. }
  pose proof (StronglySorted_suffix _ _ _ Hsb) as Hsq.
  rewrite Hd, List.filter_app, (filter_dropped _ _ Hf'), <-prune_filter by done. split; [done|].
  clear -Hf'. generalize (default [] (buckets s !! b)). intros q.
  assert (∃ d, q = d ++ prune now' q ∧ Forall (λ t, t + RATE_LIMIT_WINDOW ≤ now') d) as (d & Hd & Hfd).
  { induction q as [|t q (d & IH & Hd)]; cbn; [by exists []|].
    destruct (N.leb_spec (t + RATE_LIMIT_WINDOW) now'); [|by exists []].
    exists (t :: d). cbn. rewrite <-IH. split; [done|by constructor]. }
  exists (dropped ++ d). rewrite <-app_assoc, <-Hd. split; [done|by apply Forall_app_2].
Qed.

Lemma refines_later now now' history s : now ≤ now' → refines now history s → refines now' history s.
Proof.
  intros Hn [Hs Hp Hq]. split; [done| |].
  - eapply Forall_impl; [exact Hp|]. cbn. lia.
  - intros b. destruct (Hq b) as (d & Hd & Hf). exists d. split; [done|].
    eapply Forall_impl; [exact Hf|]. cbn. lia.
Qed.

Lemma StronglySorted_snoc {A} (R : A → A → Prop) l x :
  StronglySorted R l → Forall (λ y, R y x) l → StronglySorted R (l ++ [x]).
Proof.
  induction 1 as [|y l Hs IH Hf]; cbn; [by repeat constructor|]. intros [Hy Hl]%Forall_cons.
  constructor; [by apply IH|]. by apply Forall_app_2, Forall_singleton.
Qed.

Lemma bucket_times_snoc b history q :
  bucket_times b (history ++ [q])
  = bucket_times b history ++ (if req_bucket q ==? b then [req_time q] else []).
Proof.
  unfold bucket_times. rewrite List.filter_app, fmap_app. f_equal. cbn. by destruct (bool_decide _).
Qed.

(** Writing the pruned queue, with or without the new request, keeps the refinement. *)
Lemma refines_store now history s q l ok policy :
  refines now history s → now ≤ req_time q →
  l = prune (req_time q) (default [] (buckets s !! req_bucket q)) ++ (if ok : bool then [req_time q] else []) →
  refines (req_time q) (if ok then history ++ [q] else history)
    (mkInMemoryRateLimiter policy (<[req_bucket q := l]> (buckets s))).
Proof.
  intros Hr Hn ->. pose proof Hr as [Hs Hp Hq].
  assert (Forall (λ x, req_time x ≤ req_time q) history) as Hp'.
  { eapply Forall_impl; [exact Hp|]. cbn. lia. }
  split.
  - destruct ok; [|done]. rewrite fmap_app. apply StronglySorted_snoc; [done|]. by apply Forall_fmap.
  - destruct ok; [|done]. by apply Forall_app_2, Forall_singleton.
  - intros b. cbn. destruct (decide (b = req_bucket q)) as [->|Hb].
    + rewrite lookup_insert_eq. cbn. destruct (window_queue _ (req_bucket q) _ _ Hr _ Hn) as [_ (d & Hd & Hf)].
      exists d. split; [|done]. destruct ok; [|by rewrite app_nil_r].
      by rewrite bucket_times_snoc, bool_decide_true, Hd, app_assoc by done.
    + rewrite lookup_insert_ne by done. destruct (refines_later _ _ _ _ Hn Hr) as [_ _ Hq'].
      destruct ok; [|done]. by rewrite bucket_times_snoc, bool_decide_false, app_nil_r by done.
Qed.

Lemma check_refines now history s q r s' :
  refines now history s → now ≤ req_time q →
  check_at (req_action q) (req_key q) (req_time q) s = (r, s') →
  let ok := admits (limiter_policy s) history q in
  is_ok r = ok ∧ limiter_policy s' = limiter_policy s ∧
  refines (req_time q) (if ok then history ++ [q] else history) s'.
Proof.
  intros Hr Hn. unfold check_at, admits. change (mkRateLimitBucket (req_action q) (req_key q)) with (req_bucket q).
  destruct (window_queue _ (req_bucket q) _ _ Hr _ Hn) as [Hw _].
  apply (f_equal length) in Hw. rewrite length_fmap in Hw. rewrite Hw. clear Hw.
  set (limit := limit_for _ _). set (l := prune _ _).
  destruct (N.eqb_spec limit 0) as [Hz|Hz].
  { intros [= <- <-]. destruct (N.ltb_spec (N.of_nat (length l)) limit); [lia|].
    split_and!; [done..|by eapply refines_later]. }
  destruct (N.leb_spec limit (N.of_nat (length l))), (N.ltb_spec (N.of_nat (length l)) limit); try lia;
    intros [= <- <-]; (split_and!; [done..|]).
  - eapply (refines_store _ _ _ _ _ false); [done..|]. by rewrite app_nil_r.
  - by eapply (refines_store _ _ _ _ _ true).
Qed.

Lemma limiter_run_refines qs now history s :
  refines now history s → StronglySorted N.le (now :: (req_time <$> qs)) →
  is_ok <$> (limiter_run qs s).1 = spec_run (limiter_policy s) history qs.
Proof.
  revert now history s. induction qs as [|q qs IH]; intros now history s Hr Hs; [done|].
  cbn in Hs. inversion Hs as [|? ? Hs' Hf]; subst. apply Forall_cons in Hf as [Hn _].
  cbn. destruct (check_at _ _ _ s) as [r s1] eqn:E.
  apply (check_refines now history s q) in E as (Hok & Hp & Hr'); [|done..].
  specialize (IH _ _ _ Hr' Hs'). rewrite Hp in IH. destruct (limiter_run qs s1). cbn in *. by rewrite Hok, IH.
Qed.

Lemma refines_new policy now : refines now [] (InMemoryRateLimiter_new policy).
Proof. split; [constructor|done|]. intros b. exists []. cbn. by rewrite lookup_empty. Qed.

(** ** The bound *)

(** The requests of a history. *)
Fixpoint spec_history (policy : RateLimitPolicy) (history qs : list Request) : list Request :=
  match qs with
  | [] => history
  | q :: qs => spec_history policy (if admits policy history q then history ++ [q] else history) qs
  end.

(** At most the limit in any window that ends at [t]. *)
Definition within_limit (policy : RateLimitPolicy) (history : list Request) : Prop :=
  ∀ b t, N.of_nat (length (List.filter (λ q, req_time q <=? t) (in_window b t history)))
         ≤ limit_for policy (bucket_action b).

Lemma filter_length_mono {A} (p q : A → bool) l :
  (∀ x, p x = true → q x = true) → (length (List.filter p l) ≤ length (List.filter q l))%nat.
Proof.
  intros H. induction l as [|x l IH]; [done|]. cbn. specialize (H x).
  destruct (p x) eqn:E; [rewrite H by done; cbn; lia|]. destruct (q x); cbn; lia.
Qed.

Lemma filter_filter_and {A} (p q : A → bool) l :
  List.filter p (List.filter q l) = List.filter (λ x, q x && p x) l.
Proof. induction l as [|x l IH]; [done|]. cbn. destruct (q x); cbn; [|done]. by rewrite IH. Qed.

Lemma admit_within policy history q :
  within_limit policy history → Forall (λ x, req_time x ≤ req_time q) history →
  admits policy history q = true → within_limit policy (history ++ [q]).
Proof.
  intros Hb Hp Ha b t. specialize (Hb b t). revert Hb. unfold in_window.
  rewrite !filter_filter_and, List.filter_app, length_app. cbn [List.filter].
  intros Hb. destruct ((req_bucket q ==? b) && (t <? req_time q + RATE_LIMIT_WINDOW) && (req_time q <=? t)) eqn:E;
    cbn [length]; [|lia].
  rewrite !andb_true_iff, bool_decide_eq_true, N.ltb_lt, N.leb_le in E.
  destruct E as [[<- Hw] Ht]. unfold admits in Ha. apply N.ltb_lt in Ha.
  match goal with |- N.of_nat (?n + 1) ≤ _ =>
    enough (n ≤ length (in_window (req_bucket q) (req_time q) history))%nat by (cbn; lia) end.
  apply filter_length_mono. intros x. rewrite !andb_true_iff, !N.ltb_lt, N.leb_le. intros [[-> ?] ?].
  split; [done|]. lia.
Qed.

Lemma spec_history_within policy history qs :
  within_limit policy history → StronglySorted N.le (req_time <$> qs) →
  (∀ q, q ∈ qs → Forall (λ x, req_time x ≤ req_time q) history) →
  within_limit policy (spec_history policy history qs).
Proof.
  revert history. induction qs as [|q qs IH]; intros history Hb Hs Hp; [done|]. cbn in *.
  inversion Hs as [|? ? Hs' Hf]; subst. rewrite Forall_fmap, Forall_forall in Hf. apply IH; [|done|].
  - destruct (admits policy history q) eqn:E; [|done]. apply admit_within; [done| |done].
    apply Hp, list_elem_of_here.
  - intros q' Hq'. assert (Forall (λ x, req_time x ≤ req_time q') history) as H
      by (apply Hp; by apply list_elem_of_further).
    destruct (admits policy history q); [|done]. apply Forall_app_2; [done|]. apply Forall_singleton.
    by apply Hf.
Qed.

(** The requests a list of outcomes admits. *)
Definition admitted (qs : list Request) (oks : list bool) : list Request :=
  fst <$> List.filter snd (zip qs oks).

Lemma spec_history_admitted policy history qs :
  spec_history policy history qs = history ++ admitted qs (spec_run policy history qs).
Proof.
  revert history. induction qs as [|q qs IH]; intros history; cbn; [by rewrite app_nil_r|].
  rewrite IH. unfold admitted. cbn. destruct (admits policy history q); cbn; [by rewrite <-app_assoc|done].
Qed.

(** The state after a run refines the admitted history. *)
Lemma limiter_run_state qs now history s :
  refines now history s → StronglySorted N.le (now :: (req_time <$> qs)) →
  limiter_policy (limiter_run qs s).2 = limiter_policy s ∧
  ∀ now', Forall (λ q, req_time q ≤ now') qs → now ≤ now' →
    refines now' (spec_history (limiter_policy s) history qs) (limiter_run qs s).2.
Proof.
  revert now history s. induction qs as [|q qs IH]; intros now history s Hr Hs.
  { split; [done|]. intros now' _ Hn. by eapply refines_later. }
  cbn in Hs. inversion Hs as [|? ? Hs' Hf]; subst. apply Forall_cons in Hf as [Hn _].
  cbn. destruct (check_at _ _ _ s) as [r s1] eqn:E.
  apply (check_refines now history s q) in E as (Hok & Hp & Hr'); [|done..].
  destruct (IH _ _ _ Hr' Hs') as [Hpol Href]. rewrite Hp in *. destruct (limiter_run qs s1). cbn in *.
  split; [done|]. intros now' [Hq Hqs]%Forall_cons _. by apply Href.
Qed.

(** A queue never exceeds its limit. *)
Lemma queue_within policy now history s (b : RateLimitBucket) :
  refines now history s → within_limit policy history →
  N.of_nat (length (prune now (default [] (buckets s !! b)))) ≤ limit_for policy (bucket_action b).
Proof.
  intros Hr Hw. destruct (window_queue _ b _ _ Hr now ltac:(lia)) as [Hq _].
  rewrite <-Hq, length_fmap. specialize (Hw b now). rewrite forallb_filter_id in Hw; [done|].
  apply forallb_forall. intros x Hx. apply List.filter_In in Hx as [Hx _]. apply N.leb_le.
  destruct Hr as [_ Hp _]. rewrite Forall_forall in Hp. by apply Hp, list_elem_of_In.
Qed.

Lemma prune_short now l : (length (prune now l) ≤ length l)%nat.
Proof. induction l as [|t l IH]; [done|]. cbn. destruct (_ <=? _); cbn; lia. Qed.

Lemma prune_idem now l : prune now (prune now l) = prune now l.
Proof.
  induction l as [|t l IH]; [done|]. cbn. destruct (t + RATE_LIMIT_WINDOW <=? now) eqn:E; [done|].
  cbn. by rewrite E.
Qed.

(** The retry hint is exact: a rejected caller is admitted from the hinted time on, and not
    before, as long as the bucket is left alone. *)
Lemma retry_exact policy now history s q e s' :
  refines now history s → within_limit policy history → limiter_policy s = policy →
  now ≤ req_time q → limit_for policy (req_action q) ≠ 0 →
  check_at (req_action q) (req_key q) (req_time q) s = (Err e, s') →
  ∀ t, req_time q ≤ t →
    is_ok (check_at (req_action q) (req_key q) t s').1 = (req_time q + retry_after e <=? t).
Proof.
  intros Hr Hw Hpol Hn Hl. unfold check_at at 1. change (mkRateLimitBucket (req_action q) (req_key q)) with (req_bucket q).
  pose proof (queue_within policy (req_time q) history s (req_bucket q) (refines_later _ _ _ _ Hn Hr) Hw) as Hlen.
  cbn in Hlen. rewrite Hpol. set (limit := limit_for policy (req_action q)) in *.
  destruct (N.eqb_spec limit 0); [lia|].
  set (l := prune (req_time q) (default [] (buckets s !! req_bucket q))) in *.
  assert (prune (req_time q) l = l) as Hid by apply prune_idem.
  assert (Forall (λ t, t ≤ req_time q) l) as Hpast.
  { destruct (window_queue _ (req_bucket q) _ _ Hr _ Hn) as [Hq _]. fold l in Hq. rewrite <-Hq.
    apply Forall_fmap, Forall_forall. intros x Hx. apply list_elem_of_In, List.filter_In in Hx as [Hx _].
    destruct Hr as [_ Hp _]. rewrite Forall_forall in Hp. apply list_elem_of_In, Hp in Hx. cbn. lia. }
  clearbody l. destruct (N.leb_spec limit (N.of_nat (length l))); [|done].
  destruct l as [|oldest l]; [cbn in *; lia|]. apply Forall_cons in Hpast as [Ho _].
  cbn in Hid. destruct (N.leb_spec (oldest + RATE_LIMIT_WINDOW) (req_time q)) as [|Hlt].
  { pose proof (prune_short (req_time q) l) as Hs. rewrite Hid in Hs. cbn in Hs. lia. }
  intros [= <- <-] t Ht. cbn [retry_after]. unfold check_at. cbn [limiter_policy buckets].
  change (mkRateLimitBucket (req_action q) (req_key q)) with (req_bucket q). fold limit. destruct (N.eqb_spec limit 0); [done|].
  rewrite lookup_insert_eq. cbn [default from_option id prune head].
  pose proof (prune_short t l). unfold saturating_sub, duration_since.
  destruct (N.leb_spec (oldest + RATE_LIMIT_WINDOW) t),
    (N.leb_spec (req_time q + (RATE_LIMIT_WINDOW - (req_time q - oldest))) t); try lia; cbn [length] in *.
  - by destruct (N.leb_spec limit (N.of_nat (length (prune t l)))); [lia|].
  - by destruct (N.leb_spec limit (N.of_nat (S (length l)))); [|lia].
Qed.

Module Limiter.

(** C34: the limiter is a sliding window. For any sequence of checks with a clock that does not
    run backwards, the pruned per-bucket queues admit and reject exactly as the specification
    that keeps the whole history and counts, for each request, the admitted requests of its
    action and key in the 60 seconds before it. *)
Theorem limiter_refines_window policy qs :
  StronglySorted N.le (req_time <$> qs) →
  is_ok <$> (limiter_run qs (InMemoryRateLimiter_new policy)).1 = spec_run policy [] qs.
Proof.
  intros Hs. eapply (limiter_run_refines qs 0 []); [apply refines_new|]. constructor; [done|].
  apply Forall_forall. intros. lia.
Qed.

Definition sample_policy : RateLimitPolicy := mkRateLimitPolicy 2 1 1.
Definition sample_requests : list Request :=
  (λ t, mkRequest CreateRoom "install-1" (from_secs t)) <$> [0; 1; 2; 60; 61; 62].

Lemma sample_sorted : StronglySorted N.le (req_time <$> sample_requests).
Proof. repeat constructor; vm_compute; discriminate. Qed.

Lemma limiter_refines_window_witness :
  is_ok <$> (limiter_run sample_requests (InMemoryRateLimiter_new sample_policy)).1
  = [true; true; false; true; true; false].
Proof.
  rewrite (limiter_refines_window sample_policy sample_requests sample_sorted). vm_compute. reflexivity.
Defined.

(** No caller exceeds its ceiling, and the retry hint is exact. Whatever requests arrive,
    with a clock that does not run backwards, in no 60-second window are more requests of an
    action admitted for a key than the policy allows; and a request that is then rejected, under
    a non-zero ceiling, is told to retry after a delay such that a retry with no other request
    in between is admitted from that time on and rejected before it. *)
Theorem limiter_holds_ceiling policy qs :
  StronglySorted N.le (req_time <$> qs) →
  let '(rs, s) := limiter_run qs (InMemoryRateLimiter_new policy) in
  within_limit policy (admitted qs (is_ok <$> rs)) ∧
  ∀ q e s', Forall (λ x, req_time x ≤ req_time q) qs → limit_for policy (req_action q) ≠ 0 →
    check_at (req_action q) (req_key q) (req_time q) s = (Err e, s') →
    ∀ t, req_time q ≤ t →
      is_ok (check_at (req_action q) (req_key q) t s').1 = (req_time q + retry_after e <=? t).
Proof.
  intros Hs. assert (StronglySorted N.le (0 :: (req_time <$> qs))) as Hs0.
  { constructor; [done|]. apply Forall_forall. intros. lia. }
  pose proof (limiter_run_refines qs 0 [] _ (refines_new policy 0) Hs0) as Hr.
  destruct (limiter_run_state qs 0 [] _ (refines_new policy 0) Hs0) as [Hpol Href].
  assert (within_limit policy (spec_history policy [] qs)) as Hw.
  { apply spec_history_within; [intros b t; cbn; lia|done|]. by intros. }
  destruct (limiter_run qs _) as [rs s]. cbn [fst snd limiter_policy InMemoryRateLimiter_new] in *. split.
  - rewrite Hr. by rewrite spec_history_admitted in Hw.
  - intros q e s' Hq Hl Hc. eapply (retry_exact policy); [by apply Href; [exact Hq|lia]|done|done|lia|done|done].
Qed.

Lemma limiter_holds_ceiling_witness :
  within_limit sample_policy
    (admitted sample_requests
       (is_ok <$> (limiter_run sample_requests (InMemoryRateLimiter_new sample_policy)).1)).
Proof.
  pose proof (limiter_holds_ceiling sample_policy sample_requests sample_sorted) as H.
  destruct (limiter_run sample_requests (InMemoryRateLimiter_new sample_policy)). exact (proj1 H).
Defined.

End Limiter.
