(* ===== verification/RelayBuffer.v ===== *)
(** * Release buffers of the legacy input relay

  Models [src/src/rooms/input_frame_relay_buffer.rs] and
  [src/src/rooms/fast_input_relay_buffer.rs]: accepted input that is ahead of the server
  clock waits, keyed by frame, until that frame is released. The [BTreeMap]s are finite
  maps: only single keys are read and removed, so their order is never observed. *)

From Stdlib Require Import Strings.Byte.
From S2P Require Import Prelude Ids Wire Protocol LegacyCodec.
Open Scope N_scope.

(** ** input_frame_relay_buffer.rs *)

Record BufferedInputFrameBatch := mkBufferedInputFrameBatch {
  ready_source : ConnectionId;
  ready_batch : InputFrameBatch }.

Record BufferedInputFrame := mkBufferedInputFrame {
  buffered_room_epoch : N;
  buffered_session_epoch : N;
  buffered_source : ConnectionId;
  buffered_input : InputFrame }.

Record InputFrameRelayBuffer := mkInputFrameRelayBuffer {
  frames_by_number : gmap N (list BufferedInputFrame) }.

Definition InputFrameRelayBuffer_default : InputFrameRelayBuffer := mkInputFrameRelayBuffer ∅.

(** [InputFrameRelayBuffer::push]. *)
Definition push_input (source : ConnectionId) (room_epoch session_epoch : N) (input : InputFrame)
    (b : InputFrameRelayBuffer) : InputFrameRelayBuffer :=
  let waiting := default [] (frames_by_number b !! frame_frame input) in
  mkInputFrameRelayBuffer
    (<[frame_frame input := waiting ++ [mkBufferedInputFrame room_epoch session_epoch source input]]>
       (frames_by_number b)).

(** [iter_mut().find(..)] on the batches so far; [None] when there is no such batch. *)
Fixpoint extend_batch (source : ConnectionId) (input : InputFrame)
    (batches : list BufferedInputFrameBatch) : option (list BufferedInputFrameBatch) :=
  match batches with
  | [] => None
  | b :: batches =>
      if (ready_source b ==? source) && (ib_player_index (ready_batch b) ==? frame_player_index input)
      then Some (mkBufferedInputFrameBatch (ready_source b)
                   (mkInputFrameBatch (ib_room_epoch (ready_batch b)) (ib_session_epoch (ready_batch b))
                      (ib_player_index (ready_batch b)) (ib_frames (ready_batch b) ++ [input]))
                 :: batches)
      else (b ::.) <$> extend_batch source input batches
  end.

Definition push_to_batch (batches : list BufferedInputFrameBatch) (source : ConnectionId)
    (room_epoch session_epoch : N) (input : InputFrame) : list BufferedInputFrameBatch :=
  match extend_batch source input batches with
  | Some batches => batches
  | None => batches ++ [mkBufferedInputFrameBatch source
              (mkInputFrameBatch room_epoch session_epoch (frame_player_index input) [input])]
  end.

(** [InputFrameRelayBuffer::drain_frame]. *)
Definition drain_frame (frame room_epoch session_epoch : N) (b : InputFrameRelayBuffer)
    : list BufferedInputFrameBatch * InputFrameRelayBuffer :=
  let waiting := default [] (frames_by_number b !! frame) in
  (foldl (λ batches buffered,
            if (buffered_room_epoch buffered !=? room_epoch)
               || (buffered_session_epoch buffered !=? session_epoch)
            then batches
            else push_to_batch batches (buffered_source buffered) room_epoch session_epoch
                   (buffered_input buffered)) [] waiting,
   mkInputFrameRelayBuffer (delete frame (frames_by_number b))).

(** ** fast_input_relay_buffer.rs *)

Record BufferedFastInputFrame := mkBufferedFastInputFrame {
  fast_source : ConnectionId;
  fast_buffered : FastInputFrame }.

Record FastInputRelayBuffer := mkFastInputRelayBuffer {
  fast_by_number : gmap N (list BufferedFastInputFrame) }.

Definition FastInputRelayBuffer_default : FastInputRelayBuffer := mkFastInputRelayBuffer ∅.

(** [FastInputRelayBuffer::push]. *)
Definition push_fast (source : ConnectionId) (frame : FastInputFrame) (b : FastInputRelayBuffer)
    : FastInputRelayBuffer :=
  let waiting := default [] (fast_by_number b !! fast_frame frame) in
  mkFastInputRelayBuffer
    (<[fast_frame frame := waiting ++ [mkBufferedFastInputFrame source frame]]> (fast_by_number b)).

(** [FastInputRelayBuffer::drain_frame]. *)
Definition drain_fast_frame (frame room_epoch session_epoch : N) (b : FastInputRelayBuffer)
    : list BufferedFastInputFrame * FastInputRelayBuffer :=
  let waiting := default [] (fast_by_number b !! frame) in
  (List.filter (λ buffered, (fast_room_epoch (fast_buffered buffered) =? room_epoch)
                            && (fast_session_epoch (fast_buffered buffered) =? session_epoch)) waiting,
   mkFastInputRelayBuffer (delete frame (fast_by_number b))).

(** ** Draining groups by sender *)

Definition batch_key (b : BufferedInputFrameBatch) : ConnectionId * PlayerIndex :=
  (ready_source b, ib_player_index (ready_batch b)).
Definition input_key (b : BufferedInputFrame) : ConnectionId * PlayerIndex :=
  (buffered_source b, frame_player_index (buffered_input b)).

(** The waiting inputs of the current epochs. *)
Definition current_inputs (room_epoch session_epoch : N) (waiting : list BufferedInputFrame)
    : list BufferedInputFrame :=
  List.filter (λ b, (buffered_room_epoch b ==? room_epoch)
                    && (buffered_session_epoch b ==? session_epoch)) waiting.

(** The inputs of one sender, in order. *)
Definition inputs_of (k : ConnectionId * PlayerIndex) (l : list BufferedInputFrame) : list InputFrame :=
  buffered_input <$> List.filter (λ b, input_key b ==? k) l.

(** [batches] groups [l] by sender: one batch per sender that has input, holding exactly the
    sender's inputs in order, stamped with the epochs. *)
Record groups (room_epoch session_epoch : N) (l : list BufferedInputFrame)
    (batches : list BufferedInputFrameBatch) : Prop := {
  groups_keys : NoDup (batch_key <$> batches);
  groups_frames : Forall (λ b, ib_frames (ready_batch b) = inputs_of (batch_key b) l ∧
    ib_room_epoch (ready_batch b) = room_epoch ∧ ib_session_epoch (ready_batch b) = session_epoch) batches;
  groups_all k : k ∈ batch_key <$> batches ↔ k ∈ input_key <$> l }.

Lemma extend_batch_None source input batches :
  extend_batch source input batches = None ↔
  (source, frame_player_index input) ∉ batch_key <$> batches.
Proof.
  induction batches as [|b batches IH]; cbn; [set_solver|].
  rewrite not_elem_of_cons, <-IH. unfold batch_key at 1.
  destruct (bool_decide_reflect (ready_source b = source)) as [Hs|Hs],
    (bool_decide_reflect (ib_player_index (ready_batch b) = frame_player_index input)) as [Hp|Hp]; cbn;
    destruct (extend_batch source input batches); cbn; (split; [intros H|intros [H1 H2]]);
    try done; try split; try done; congruence.
Qed.

Lemma extend_batch_Some source input batches batches' :
  extend_batch source input batches = Some batches' →
  ∃ l1 b l2, batches = l1 ++ b :: l2 ∧ batch_key b = (source, frame_player_index input) ∧
    batches' = l1 ++ mkBufferedInputFrameBatch (ready_source b)
      (mkInputFrameBatch (ib_room_epoch (ready_batch b)) (ib_session_epoch (ready_batch b))
         (ib_player_index (ready_batch b)) (ib_frames (ready_batch b) ++ [input])) :: l2.
Proof.
  revert batches'. induction batches as [|b batches IH]; intros batches'; cbn; [done|].
  destruct (bool_decide_reflect (ready_source b = source)) as [Hs|Hs],
    (bool_decide_reflect (ib_player_index (ready_batch b) = frame_player_index input)) as [Hp|Hp]; cbn.
  1: { intros [= <-]. exists [], b, batches. split_and!; [done| |done]. unfold batch_key. by rewrite Hs, Hp. }
  all: destruct (extend_batch source input batches) as [l|]; [|done]; cbn; intros [= <-];
    destruct (IH _ eq_refl) as (l1 & b' & l2 & -> & Hk & ->); by exists (b :: l1), b', l2.
Qed.

Lemma inputs_of_snoc k l x :
  inputs_of k (l ++ [x]) = inputs_of k l ++ (if input_key x ==? k then [buffered_input x] else []).
Proof.
  unfold inputs_of. rewrite List.filter_app, fmap_app. f_equal. cbn. by destruct (bool_decide _).
Qed.

(** The keys around a batch differ from its own. *)
Lemma keys_around l1 (b : BufferedInputFrameBatch) l2 b' :
  NoDup (batch_key <$> l1 ++ b :: l2) → b' ∈ l1 ++ l2 → batch_key b' ≠ batch_key b.
Proof.
  rewrite fmap_app, fmap_cons. intros Hn Hb' He.
  apply (NoDup_Permutation_proper _ (batch_key b :: (batch_key <$> l1 ++ l2))) in Hn;
    [|by rewrite fmap_app, Permutation_middle].
  apply NoDup_cons in Hn as [Hn _]. apply Hn. rewrite <-He. by apply list_elem_of_fmap_2.
Qed.

(** A batch of another sender is unaffected by one more input. *)
Lemma other_batch re se l x b :
  batch_key b ≠ input_key x →
  ib_frames (ready_batch b) = inputs_of (batch_key b) l ∧ ib_room_epoch (ready_batch b) = re ∧
    ib_session_epoch (ready_batch b) = se →
  ib_frames (ready_batch b) = inputs_of (batch_key b) (l ++ [x]) ∧ ib_room_epoch (ready_batch b) = re ∧
    ib_session_epoch (ready_batch b) = se.
Proof. intros Hne (Hf & ? & ?). by rewrite inputs_of_snoc, bool_decide_false, app_nil_r. Qed.

Lemma groups_push re se l batches x :
  groups re se l batches →
  groups re se (l ++ [x]) (push_to_batch batches (buffered_source x) re se (buffered_input x)).
Proof.
  intros [Hk Hf Ha]. unfold push_to_batch. destruct (extend_batch _ _ _) as [batches'|] eqn:E.
  - apply extend_batch_Some in E as (l1 & b & l2 & -> & Hb & ->).
    change (_, _) with (input_key x) in Hb. pose proof (λ b', keys_around l1 b l2 b' Hk) as Hne.
    rewrite Hb in Hne. rewrite Forall_app, Forall_cons, !Forall_forall in Hf. destruct Hf as (Hf1 & (Hbf & Hbr & Hbs) & Hf2).
    rewrite fmap_app, fmap_cons in Hk, Ha. split; rewrite ?fmap_app, ?fmap_cons; [exact Hk| |].
    + rewrite Forall_app, Forall_cons, !Forall_forall. split_and!.
      * intros b' Hb'. apply other_batch; [apply Hne; set_solver|by apply Hf1].
      * cbn. change (batch_key (mkBufferedInputFrameBatch _ _)) with (batch_key b).
        by rewrite inputs_of_snoc, Hb, bool_decide_true, Hbf, Hb.
      * done.
      * done.
      * intros b' Hb'. apply other_batch; [apply Hne; set_solver|by apply Hf2].
    + intros k. change (batch_key (mkBufferedInputFrameBatch _ _)) with (batch_key b). rewrite Ha.
      cbn. rewrite elem_of_app, list_elem_of_singleton. split; [by left|]. intros [?| ->]; [done|].
      rewrite <-Hb, <-Ha. set_solver.
  - apply extend_batch_None in E. change (_, _) with (input_key x) in E.
    split; rewrite ?fmap_app; cbn.
    + apply NoDup_app. split_and!; [done| |apply NoDup_singleton]. intros k Hin Hx.
      apply list_elem_of_singleton in Hx. subst k. by apply E.
    + apply Forall_app_2; [|apply Forall_singleton].
      * rewrite Forall_forall in Hf |- *. intros b Hb. apply other_batch; [|by apply Hf].
        intros He. apply E. rewrite <-He. by apply list_elem_of_fmap_2.
      * cbn. split_and!; [|done..]. change (batch_key _) with (input_key x).
        rewrite inputs_of_snoc, bool_decide_true by done. unfold inputs_of.
        replace (List.filter _ l) with (@nil BufferedInputFrame); [done|]. symmetry.
        rewrite Ha in E. clear -E. induction l as [|y l IH]; [done|]. cbn in *.
        apply not_elem_of_cons in E as [Hne E]. rewrite bool_decide_false by done. by apply IH.
    + intros k. change (batch_key _) with (input_key x). by rewrite !elem_of_app, Ha.
Qed.

Lemma groups_foldl re se l l0 batches :
  groups re se l0 batches →
  groups re se (l0 ++ current_inputs re se l)
    (foldl (λ batches buffered,
       if (buffered_room_epoch buffered !=? re) || (buffered_session_epoch buffered !=? se) then batches
       else push_to_batch batches (buffered_source buffered) re se (buffered_input buffered)) batches l).
Proof.
  revert l0 batches. induction l as [|x l IH]; intros l0 batches Hg; cbn; [by rewrite app_nil_r|].
  destruct (bool_decide (buffered_room_epoch x = re)), (bool_decide (buffered_session_epoch x = se)); cbn;
    try by apply IH.
  rewrite cons_middle, app_assoc. by apply IH, groups_push.
Qed.

Lemma drain_groups f re se b :
  groups re se (current_inputs re se (default [] (frames_by_number b !! f))) (drain_frame f re se b).1.
Proof.
  unfold drain_frame. cbn [fst]. apply (groups_foldl re se _ [] []). split; [constructor|done|done].
Qed.

Module Buffers.

(** Draining a frame regroups its inputs by sender. The batches built one input at a time
    are the reference grouping of the inputs of that frame buffered under the current epochs:
    one batch per connection and player, with exactly that sender's inputs in the order they
    arrived, stamped with the epochs. The frame leaves the buffer and no other frame does. *)
Theorem drained_batches_regroup f re se b :
  let '(batches, b') := drain_frame f re se b in
  groups re se (current_inputs re se (default [] (frames_by_number b !! f))) batches
  ∧ frames_by_number b' !! f = None ∧ ∀ f', f' ≠ f → frames_by_number b' !! f' = frames_by_number b !! f'.
Proof.
  pose proof (drain_groups f re se b) as Hg. unfold drain_frame in *. cbn in *. split_and!; [exact Hg| |].
  - apply lookup_delete_eq.
  - intros f' Hf'. by apply lookup_delete_ne.
Qed.
End Buffers.
