(* ===== verification/Slots.v ===== *)
(** * Player slots

  Models [src/src/rooms/player_slot.rs] and
  [src/src/rooms/player_runtime_state_mapping.rs]. *)

From S2P Require Import Prelude Ids Protocol.
Open Scope N_scope.

Inductive PlayerRole := Host | Guest.

Inductive PlayerStatus :=
| Player_Empty | Player_Connected | Player_CheckingCompatibility | Player_CompatibilityFailed
| Player_SyncingState | Player_Ready | Player_Playing | Player_Paused | Player_Reconnecting
| Player_RecoveryExpired | Player_Disconnected.

Inductive PlayerRuntimeState :=
| Runtime_Empty | Runtime_Connected | Runtime_CheckingCompatibility | Runtime_Syncing
| Runtime_Ready | Runtime_DeterministicReady | Runtime_Playing | Runtime_Pausing
| Runtime_Paused | Runtime_Reconnecting | Runtime_Stale | Runtime_Disconnected
| Runtime_RecoveryExpired.

#[export] Instance PlayerRole_eq_dec : EqDecision PlayerRole.
Proof. solve_decision. Defined.
#[export] Instance PlayerStatus_eq_dec : EqDecision PlayerStatus.
Proof. solve_decision. Defined.
#[export] Instance PlayerRuntimeState_eq_dec : EqDecision PlayerRuntimeState.
Proof. solve_decision. Defined.

(** [type ResumeTokenHash = String]; the relay compares hashes only. *)
Abbreviation ResumeTokenHash := string (only parsing).

Record PlayerSlot := mkPlayerSlot {
  slot_player_index : PlayerIndex;
  slot_role : PlayerRole;
  slot_subject_key : option string;
  slot_connection_id : option ConnectionId;
  slot_input_connection_id : option ConnectionId;
  slot_display_name : option string;
  slot_status : PlayerStatus;
  slot_runtime_state : PlayerRuntimeState;
  slot_resume_token_hash : option ResumeTokenHash;
  slot_input_socket_token_hash : option ResumeTokenHash;
  slot_input_socket_control_connection_id : option ConnectionId;
  slot_last_seen_at : option Instant;
  slot_latest_local_frame : option N;
  slot_latest_local_frame_reported_at : option Instant;
  slot_latest_network_report : option ClientNetworkQualityReport;
  slot_supports_state_file_relay : bool;
  slot_supports_rom_file_relay : bool;
  slot_supports_scheduled_start : bool;
  slot_supports_clock_sync : bool;
  slot_supports_fast_input_relay : bool;
  slot_latest_network_reported_at : option Instant;
  slot_reconnect_deadline : option Instant;
  slot_reconnect_room_epoch : option N;
  slot_runner_handoff_deadline : option Instant }.

#[export] Instance eta_PlayerSlot : Eta PlayerSlot := λ s,
  mkPlayerSlot (slot_player_index s) (slot_role s) (slot_subject_key s) (slot_connection_id s)
    (slot_input_connection_id s) (slot_display_name s) (slot_status s) (slot_runtime_state s)
    (slot_resume_token_hash s) (slot_input_socket_token_hash s)
    (slot_input_socket_control_connection_id s) (slot_last_seen_at s) (slot_latest_local_frame
    s) (slot_latest_local_frame_reported_at s) (slot_latest_network_report s)
    (slot_supports_state_file_relay s) (slot_supports_rom_file_relay s)
    (slot_supports_scheduled_start s) (slot_supports_clock_sync s)
    (slot_supports_fast_input_relay s) (slot_latest_network_reported_at s)
    (slot_reconnect_deadline s) (slot_reconnect_room_epoch s) (slot_runner_handoff_deadline s).
#[export] Instance set_slot_player_index : Setter slot_player_index.
Proof. derive_setter. Defined.
#[export] Instance set_slot_role : Setter slot_role.
Proof. derive_setter. Defined.
#[export] Instance set_slot_subject_key : Setter slot_subject_key.
Proof. derive_setter. Defined.
#[export] Instance set_slot_connection_id : Setter slot_connection_id.
Proof. derive_setter. Defined.
#[export] Instance set_slot_input_connection_id : Setter slot_input_connection_id.
Proof. derive_setter. Defined.
#[export] Instance set_slot_display_name : Setter slot_display_name.
Proof. derive_setter. Defined.
#[export] Instance set_slot_status : Setter slot_status.
Proof. derive_setter. Defined.
#[export] Instance set_slot_runtime_state : Setter slot_runtime_state.
Proof. derive_setter. Defined.
#[export] Instance set_slot_resume_token_hash : Setter slot_resume_token_hash.
Proof. derive_setter. Defined.
#[export] Instance set_slot_input_socket_token_hash : Setter slot_input_socket_token_hash.
Proof. derive_setter. Defined.
#[export] Instance set_slot_input_socket_control_connection_id : Setter slot_input_socket_control_connection_id.
Proof. derive_setter. Defined.
#[export] Instance set_slot_last_seen_at : Setter slot_last_seen_at.
Proof. derive_setter. Defined.
#[export] Instance set_slot_latest_local_frame : Setter slot_latest_local_frame.
Proof. derive_setter. Defined.
#[export] Instance set_slot_latest_local_frame_reported_at : Setter slot_latest_local_frame_reported_at.
Proof. derive_setter. Defined.
#[export] Instance set_slot_latest_network_report : Setter slot_latest_network_report.
Proof. derive_setter. Defined.
#[export] Instance set_slot_supports_state_file_relay : Setter slot_supports_state_file_relay.
Proof. derive_setter. Defined.
#[export] Instance set_slot_supports_rom_file_relay : Setter slot_supports_rom_file_relay.
Proof. derive_setter. Defined.
#[export] Instance set_slot_supports_scheduled_start : Setter slot_supports_scheduled_start.
Proof. derive_setter. Defined.
#[export] Instance set_slot_supports_clock_sync : Setter slot_supports_clock_sync.
Proof. derive_setter. Defined.
#[export] Instance set_slot_supports_fast_input_relay : Setter slot_supports_fast_input_relay.
Proof. derive_setter. Defined.
#[export] Instance set_slot_latest_network_reported_at : Setter slot_latest_network_reported_at.
Proof. derive_setter. Defined.
#[export] Instance set_slot_reconnect_deadline : Setter slot_reconnect_deadline.
Proof. derive_setter. Defined.
#[export] Instance set_slot_reconnect_room_epoch : Setter slot_reconnect_room_epoch.
Proof. derive_setter. Defined.
#[export] Instance set_slot_runner_handoff_deadline : Setter slot_runner_handoff_deadline.
Proof. derive_setter. Defined.

(** [PlayerSlot::empty]. *)
Definition PlayerSlot_empty (player_index : PlayerIndex) : PlayerSlot :=
  mkPlayerSlot player_index Guest None None None None Player_Empty Runtime_Empty
    None None None None None None None false false false false false None None None None.

(** [PlayerSlot::host]. *)
Definition PlayerSlot_host (license : VerifiedLicense) (connection_id : ConnectionId)
    (resume_token_hash input_socket_token_hash : ResumeTokenHash) (now : Instant) : PlayerSlot :=
  mkPlayerSlot PlayerIndex_ONE Host (Some (identity_key license)) (Some connection_id) None None
    Player_Connected Runtime_Connected (Some resume_token_hash) (Some input_socket_token_hash)
    (Some connection_id) (Some now) None None None false false false false false None None None
    None.

(** The capability fields, assigned together by every attachment. *)
Definition with_capabilities (c : ClientTransportCapabilities) (slot : PlayerSlot) : PlayerSlot :=
  slot <| slot_supports_state_file_relay := cap_state_file_relay c |>
    <| slot_supports_rom_file_relay := cap_rom_file_relay c |>
    <| slot_supports_scheduled_start := cap_scheduled_start c |>
    <| slot_supports_clock_sync := cap_clock_sync c |>
    <| slot_supports_fast_input_relay := cap_fast_input_relay c |>.

(** The frame and network samples, cleared together. *)
Definition clear_samples (slot : PlayerSlot) : PlayerSlot :=
  slot <| slot_latest_local_frame := None |> <| slot_latest_local_frame_reported_at := None |>
    <| slot_latest_network_report := None |> <| slot_latest_network_reported_at := None |>.

(** The recovery bookkeeping, cleared together. *)
Definition clear_recovery (slot : PlayerSlot) : PlayerSlot :=
  slot <| slot_reconnect_deadline := None |> <| slot_reconnect_room_epoch := None |>
    <| slot_runner_handoff_deadline := None |>.

(** The sockets and the pending input token, cleared together. *)
Definition clear_input_socket (slot : PlayerSlot) : PlayerSlot :=
  slot <| slot_input_connection_id := None |> <| slot_input_socket_token_hash := None |>
    <| slot_input_socket_control_connection_id := None |>.

(** [PlayerSlot::occupy_guest]. *)
Definition occupy_guest (license : VerifiedLicense) (connection_id : ConnectionId)
    (resume_token_hash input_socket_token_hash : ResumeTokenHash) (now : Instant)
    (capabilities : ClientTransportCapabilities) (slot : PlayerSlot) : PlayerSlot :=
  clear_recovery (with_capabilities capabilities (clear_samples
    (slot <| slot_role := Guest |>
      <| slot_subject_key := Some (identity_key license) |>
      <| slot_connection_id := Some connection_id |>
      <| slot_input_connection_id := None |>
      <| slot_status := Player_Connected |>
      <| slot_runtime_state := Runtime_Connected |>
      <| slot_resume_token_hash := Some resume_token_hash |>
      <| slot_input_socket_token_hash := Some input_socket_token_hash |>
      <| slot_input_socket_control_connection_id := Some connection_id |>
      <| slot_last_seen_at := Some now |>))).

(** [PlayerSlot::is_empty]. *)
Definition slot_is_empty (slot : PlayerSlot) : bool := slot_status slot ==? Player_Empty.

(** [slot.connection_id.is_some()]. *)
Definition is_connected (slot : PlayerSlot) : bool := is_some (slot_connection_id slot).

(** [From<ClientRuntimeState> for PlayerRuntimeState]. *)
Definition runtime_state_of_client (s : ClientRuntimeState) : PlayerRuntimeState :=
  match s with
  | Client_Connected => Runtime_Connected
  | Client_CheckingCompatibility => Runtime_CheckingCompatibility
  | Client_Syncing => Runtime_Syncing
  | Client_Ready => Runtime_Ready
  | Client_DeterministicReady => Runtime_DeterministicReady
  | Client_Playing => Runtime_Playing
  | Client_Pausing => Runtime_Pausing
  | Client_Paused => Runtime_Paused
  | Client_Reconnecting => Runtime_Reconnecting
  | Client_Disconnected => Runtime_Disconnected
  end.
