(* ===== verification/PauseState.v ===== *)
(** * Coordinated pause lifecycle

  Models [src/src/rooms/session_pause_state.rs]: the tracker of one pause, with
  its holders, acknowledgements and idempotency keys. *)

From stdpp Require Import sorting.
From S2P Require Import Prelude Ids Protocol.
Open Scope N_scope.

Record SessionPauseStateTracker := mkSessionPauseStateTracker {
  acknowledged_players : gset PlayerIndex;
  holders : gmap PlayerIndex SessionPauseReason;
  pause_at_frame : N;
  pause_request_ids : gset string;
  paused_at_frame : option N;
  pause_reason : SessionPauseReason;
  resume_request_ids : gset string;
  requested_by_player_index : PlayerIndex;
  pause_sequence : N }.

#[export] Instance eta_SessionPauseStateTracker : Eta SessionPauseStateTracker := λ t,
  mkSessionPauseStateTracker (acknowledged_players t) (holders t) (pause_at_frame t) (pause_request_ids t)
    (paused_at_frame t) (pause_reason t) (resume_request_ids t) (requested_by_player_index t)
    (pause_sequence t).
#[export] Instance set_acknowledged_players : Setter acknowledged_players.
Proof. derive_setter. Defined.
#[export] Instance set_holders : Setter holders.
Proof. derive_setter. Defined.
#[export] Instance set_pause_at_frame : Setter pause_at_frame.
Proof. derive_setter. Defined.
#[export] Instance set_pause_request_ids : Setter pause_request_ids.
Proof. derive_setter. Defined.
#[export] Instance set_paused_at_frame : Setter paused_at_frame.
Proof. derive_setter. Defined.
#[export] Instance set_pause_reason : Setter pause_reason.
Proof. derive_setter. Defined.
#[export] Instance set_resume_request_ids : Setter resume_request_ids.
Proof. derive_setter. Defined.
#[export] Instance set_requested_by_player_index : Setter requested_by_player_index.
Proof. derive_setter. Defined.
#[export] Instance set_pause_sequence : Setter pause_sequence.
Proof. derive_setter. Defined.

(** [HashSet::insert], which also says whether the value was new. *)
Definition hash_set_insert (x : string) (s : gset string) : bool * gset string :=
  (bool_decide (x ∉ s), {[x]} ∪ s).

(** [SessionPauseStateTracker::new]. *)
Definition tracker_new (sequence : N) (request_id : string) (reason : SessionPauseReason)
    (requested_by : PlayerIndex) (pause_at : N) : SessionPauseStateTracker :=
  mkSessionPauseStateTracker ∅ {[requested_by := reason]} pause_at
    (if request_id !=? ""%string then {[request_id]} else ∅)
    None reason ∅ requested_by sequence.

Definition hold (player_index : PlayerIndex) (request_id : string) (reason : SessionPauseReason)
    (t : SessionPauseStateTracker) : SessionPauseStateTracker :=
  let '(fresh, ids) :=
    if request_id !=? ""%string then hash_set_insert request_id (pause_request_ids t)
    else (true, pause_request_ids t) in
  let t := t <| pause_request_ids := ids |> in
  if fresh then t <| holders ::= <[player_index := reason]> |> else t.

Definition acknowledge (player_index : PlayerIndex) (frame : N) (t : SessionPauseStateTracker)
    : SessionPauseStateTracker :=
  t <| acknowledged_players ::= ({[player_index]} ∪.) |>
    <| paused_at_frame := Some (match paused_at_frame t with
                                | None => frame
                                | Some current => N.max current frame
                                end) |>.

Definition release (player_index : PlayerIndex) (request_id : string)
    (t : SessionPauseStateTracker) : SessionPauseStateTracker :=
  let '(fresh, ids) :=
    if request_id !=? ""%string then hash_set_insert request_id (resume_request_ids t)
    else (true, resume_request_ids t) in
  let t := t <| resume_request_ids := ids |> in
  if fresh then t <| holders ::= delete player_index |> else t.

Definition has_sequence (sequence : N) (t : SessionPauseStateTracker) : bool :=
  pause_sequence t =? sequence.

Definition resume_at_frame (t : SessionPauseStateTracker) : N :=
  u64_add (unwrap_or (paused_at_frame t) (pause_at_frame t)) 1.

Definition every_connected_player_acknowledged (connected : list PlayerIndex)
    (t : SessionPauseStateTracker) : bool :=
  (connected !=? [])
  && forallb (λ p, bool_decide (p ∈ acknowledged_players t)) connected.

Definition has_holders (t : SessionPauseStateTracker) : bool := holders t !=? ∅.

(** Sorting by player index. *)
Definition player_le (a b : PlayerIndex) : Prop := zero_based a ≤ zero_based b.
#[export] Instance player_le_dec a b : Decision (player_le a b).
Proof. unfold player_le. apply _. Defined.
Definition holder_le (a b : SessionPauseHolder) : Prop :=
  player_le (holder_player_index a) (holder_player_index b).
#[export] Instance holder_le_dec a b : Decision (holder_le a b).
Proof. unfold holder_le. apply _. Defined.

(** [SessionPauseStateTracker::view]. *)
Definition tracker_view (state : SessionPauseState) (t : SessionPauseStateTracker)
    : SessionPauseView :=
  mkSessionPauseView (pause_sequence t) state (pause_reason t) (requested_by_player_index t)
    (pause_at_frame t) (paused_at_frame t)
    (merge_sort player_le (elements (acknowledged_players t)))
    (merge_sort holder_le
       ((λ '(p, r), mkSessionPauseHolder p r) <$> map_to_list (holders t))).

(** The frame a pause resumes from is the successor of the latest acknowledged
    frame. *)
Lemma resume_at_frame_acknowledged p f t :
  resume_at_frame (acknowledge p f t)
  = u64_add (match paused_at_frame t with None => f | Some c => N.max c f end) 1.
Proof. done. Qed.

Module Requests.

(** Pause and resume requests are idempotent. Once a request id was used to hold a pause,
    any further hold under it, by whatever player and for whatever reason, changes nothing;
    and likewise for releases: a replayed resume can not release a hold taken since. *)
Theorem pause_requests_idempotent id t :
  id ≠ ""%string →
  (∀ p q reason reason', hold q id reason' (hold p id reason t) = hold p id reason t) ∧
  (∀ p q r reason held,
     release q id (hold r held reason (release p id t)) = hold r held reason (release p id t)).
Proof.
  intros Hid. assert ((id !=? ""%string) = true) as Hb by by rewrite negb_true_iff, bool_decide_eq_false.
  assert (∀ s : gset string, {[id]} ∪ ({[id]} ∪ s) = {[id]} ∪ s) as Hset by (intros; set_solver).
  assert (∀ s : gset string, ¬ (id ∉ {[id]} ∪ s)) as Hin0 by (intros; set_solver).
  split.
  - intros p q reason reason'. unfold hold. rewrite Hb. cbn [hash_set_insert].
    destruct (bool_decide (id ∉ pause_request_ids t)); cbn.
    all: rewrite bool_decide_eq_false_2 by apply Hin0; by rewrite Hset.
  - intros p q r reason held. set (t1 := release p id t).
    assert (id ∈ resume_request_ids t1) as Hin.
    { subst t1. unfold release. rewrite Hb. cbn [hash_set_insert].
      by destruct (bool_decide (id ∉ resume_request_ids t)); apply elem_of_union_l, elem_of_singleton. }
    set (t2 := hold r held reason t1). assert (resume_request_ids t2 = resume_request_ids t1) as Heq.
    { subst t2. unfold hold. destruct (held !=? ""%string); [|done]. cbn [hash_set_insert].
      by destruct (bool_decide (held ∉ pause_request_ids t1)). }
    unfold release. rewrite Hb. cbn [hash_set_insert]. rewrite Heq.
    rewrite bool_decide_eq_false_2 by (intros Hn; by apply Hn).
    rewrite (subseteq_union_1_L {[id]}) by by apply singleton_subseteq_l. rewrite <-Heq. by destruct t2.
Qed.

Lemma pause_requests_idempotent_witness :
  hold PlayerIndex_TWO "a" Menu (hold PlayerIndex_ONE "a" Menu
    (tracker_new 1 "x" Menu PlayerIndex_ONE 8))
  = hold PlayerIndex_ONE "a" Menu (tracker_new 1 "x" Menu PlayerIndex_ONE 8).
Proof. apply (pause_requests_idempotent "a"). discriminate. Defined.

End Requests.
