(* ===== verification/SnapshotTransfer.v ===== *)
(** * Snapshot transfer accounting

  Models [src/src/rooms/snapshot_transfer.rs] and the transfer state of
  [src/src/rooms/snapshot_file_relay.rs]. SHA-256 is the [sha2] crate's
  one-shot digest, an argument of the operations that use it; a running hasher
  is the bytes absorbed so far, and finalising it digests them. *)

From Stdlib Require Import Strings.Byte Ascii.
From S2P Require Import Prelude Ids Text Wire Descriptor Protocol Slots.
Open Scope N_scope.

Record SnapshotTransferState := mkSnapshotTransferState {
  transfer_repair_frame : option N;
  transfer_snapshot_id : option string;
  next_chunk_index : N;
  received_bytes : N;
  hasher : bytes;
  accepted_chunk_digests : list bytes }.

#[export] Instance eta_SnapshotTransferState : Eta SnapshotTransferState := λ t,
  mkSnapshotTransferState (transfer_repair_frame t) (transfer_snapshot_id t) (next_chunk_index t) (received_bytes t)
    (hasher t) (accepted_chunk_digests t).
#[export] Instance set_transfer_repair_frame : Setter transfer_repair_frame.
Proof. derive_setter. Defined.
#[export] Instance set_transfer_snapshot_id : Setter transfer_snapshot_id.
Proof. derive_setter. Defined.
#[export] Instance set_next_chunk_index : Setter next_chunk_index.
Proof. derive_setter. Defined.
#[export] Instance set_received_bytes : Setter received_bytes.
Proof. derive_setter. Defined.
#[export] Instance set_hasher : Setter hasher.
Proof. derive_setter. Defined.
#[export] Instance set_accepted_chunk_digests : Setter accepted_chunk_digests.
Proof. derive_setter. Defined.

(** [format!("{:x}", digest)]: two lower-case hexadecimal digits per byte. *)
Definition hex_digit (n : N) : N := if n <? 10 then 48 + n else 87 + n.
Definition hex_string (l : bytes) : string :=
  string_of_bytes (concat ((λ b, [hex_digit (Byte.to_N b / 16); hex_digit (Byte.to_N b mod 16)]) <$> l)).

Definition SnapshotTransferState_new : SnapshotTransferState :=
  mkSnapshotTransferState None None 0 0 [] [].

(** ** Resume tokens

  [src/src/rooms/resume_token.rs]: rooms and lobbies store and compare the same kind of digest of a
  token, never the token. *)

(** [hash_resume_token]: the lower-case hexadecimal SHA-256 of the token. *)
Definition string_to_bytes (s : string) : bytes := byte_of_N <$> string_bytes s.
Definition hash_resume_token (sha256 : bytes → bytes) (value : string) : ResumeTokenHash :=
  hex_string (sha256 (string_to_bytes value)).

Section transfer.
Context (sha256 : bytes → bytes).

(** [SnapshotTransferState::accept_chunk]. *)
Definition accept_chunk (chunk : SnapshotChunk) (limits : SnapshotLimits)
    : M SnapshotTransferState RoomError bool :=
  lift_result (map_err (chunk_validate chunk limits) (λ _, SnapshotInvalid)) ;;
  t ← get;
  (match transfer_snapshot_id t, transfer_repair_frame t with
   | Some snapshot_id, Some repair_frame =>
       ensure ((snapshot_id ==? chunk_snapshot_id chunk)
               && (repair_frame =? chunk_repair_frame chunk)) SnapshotInvalid
   | None, None =>
       modify (λ t, t <| transfer_snapshot_id := Some (chunk_snapshot_id chunk) |>
                      <| transfer_repair_frame := Some (chunk_repair_frame chunk) |>)
   | _, _ => throw SnapshotInvalid
   end) ;;
  if chunk_index chunk <? next_chunk_index t then
    ensure (is_some_and (accepted_chunk_digests t !! N.to_nat (chunk_index chunk))
              (λ accepted, accepted ==? sha256 (chunk_bytes chunk))) SnapshotInvalid ;;
    mret false
  else
    ensure (chunk_index chunk =? next_chunk_index t) SnapshotInvalid ;;
    next_total ← lift_result (ok_or (checked_add u64_max (received_bytes t)
                                (N.of_nat (length (chunk_bytes chunk)))) SnapshotInvalid);
    ensure (next_total <=? max_total_bytes limits) SnapshotInvalid ;;
    modify (λ t, t <| hasher ::= (.++ chunk_bytes chunk) |>
                   <| accepted_chunk_digests ::= (.++ [sha256 (chunk_bytes chunk)]) |>
                   <| received_bytes := next_total |>) ;;
    next_index ← lift_result (ok_or (checked_add u32_max (next_chunk_index t) 1) SnapshotInvalid);
    modify (λ t, t <| next_chunk_index := next_index |>) ;;
    mret true.

(** [SnapshotTransferState::is_duplicate_chunk]. *)
Definition is_duplicate_chunk (t : SnapshotTransferState) (chunk : SnapshotChunk) : bool :=
  if (transfer_snapshot_id t !=? Some (chunk_snapshot_id chunk))
     || (transfer_repair_frame t !=? Some (chunk_repair_frame chunk))
     || (next_chunk_index t <=? chunk_index chunk)
  then false
  else is_some_and (accepted_chunk_digests t !! N.to_nat (chunk_index chunk))
         (λ accepted, accepted ==? sha256 (chunk_bytes chunk)).

(** [SnapshotTransferState::complete]. *)
Definition complete (t : SnapshotTransferState) (manifest : SnapshotManifest)
    (limits : SnapshotLimits) : result RoomError unit :=
  _ ← map_err (manifest_validate manifest limits) (λ _, SnapshotInvalid);
  if (transfer_snapshot_id t !=? Some (manifest_snapshot_id manifest))
     || (transfer_repair_frame t !=? Some (manifest_repair_frame manifest))
  then Err SnapshotInvalid
  else if manifest_total_bytes manifest !=? received_bytes t then Err SnapshotInvalid
  else if hex_string (sha256 (hasher t)) !=? manifest_sha256 manifest then Err SnapshotInvalid
  else Ok tt.
End transfer.

(** ** snapshot_file_relay.rs *)

Record SnapshotFileRelayTransferIntent := mkSnapshotFileRelayTransferIntent {
  intent_room_id : RoomId;
  intent_sender_player_index : PlayerIndex;
  intent_receiver_player_index : PlayerIndex;
  intent_receiver_connection : ConnectionId }.

Record SnapshotFileRelayTransferState := mkSnapshotFileRelayTransferState {
  file_source_connection : ConnectionId;
  file_receiver_player_index : PlayerIndex;
  file_download_grant : SnapshotFileRelayGrant;
  file_manifest : SnapshotManifest }.

(** ** A transfer as an append-only log of chunks

  [represents id frame log t]: [t] is the accounting of a transfer that has
  accepted the chunk payloads [log], in order. *)

Section transfer_log.
Context (sha256 : bytes → bytes) (limits : SnapshotLimits).

Record represents (log : list SnapshotChunk) (t : SnapshotTransferState) : Prop := {
  rep_index : next_chunk_index t = N.of_nat (length log);
  rep_order : chunk_index <$> log = N.of_nat <$> seq 0 (length log);
  rep_bytes : received_bytes t = N.of_nat (length (concat (chunk_bytes <$> log)));
  rep_total : received_bytes t ≤ max_total_bytes limits;
  rep_hasher : hasher t = concat (chunk_bytes <$> log);
  rep_digests : accepted_chunk_digests t = (λ c, sha256 (chunk_bytes c)) <$> log;
  rep_pinned : transfer_snapshot_id t = None ↔ transfer_repair_frame t = None;
  rep_ids : Forall (λ c, transfer_snapshot_id t = Some (chunk_snapshot_id c) ∧
                         transfer_repair_frame t = Some (chunk_repair_frame c)) log }.

Lemma represents_new : represents [] SnapshotTransferState_new.
Proof. split; try done. cbn. lia. Qed.

(** What one call may do to the log. *)
Definition chunk_outcome (log : list SnapshotChunk) (t : SnapshotTransferState)
    (chunk : SnapshotChunk) (r : result RoomError bool) (t' : SnapshotTransferState) : Prop :=
  match r with
  | Ok true => represents (log ++ [chunk]) t' ∧ chunk_index chunk = N.of_nat (length log)
  | Ok false => t' = t ∧ represents log t ∧ is_duplicate_chunk sha256 t chunk = true
  | Err e => e = SnapshotInvalid ∧ represents log t'
  end.

(** Recording the chunk expected next extends the log. *)
Lemma represents_extend log t chunk total :
  represents log t → chunk_index chunk = next_chunk_index t →
  transfer_snapshot_id t = Some (chunk_snapshot_id chunk) →
  transfer_repair_frame t = Some (chunk_repair_frame chunk) →
  checked_add u64_max (received_bytes t) (N.of_nat (length (chunk_bytes chunk))) = Some total →
  total ≤ max_total_bytes limits →
  checked_add u32_max (next_chunk_index t) 1 = Some (next_chunk_index t + 1) →
  represents (log ++ [chunk])
    (t <| hasher ::= (.++ chunk_bytes chunk) |>
       <| accepted_chunk_digests ::= (.++ [sha256 (chunk_bytes chunk)]) |>
       <| received_bytes := total |> <| next_chunk_index := (next_chunk_index t + 1) |>).
Proof.
  intros [Hi Ho Hb Ht Hh Hd Hp Hf] Hci Hid Hfr [-> _]%checked_add_Some Hmax _.
  split; simpl; rewrite ?fmap_app, ?concat_app, ?length_app; simpl; rewrite ?app_nil_r.
  - rewrite Hi. simpl. lia.
  - by rewrite Nat.add_1_r, seq_S, fmap_app, Ho, Hci, Hi.
  - rewrite Hb. lia.
  - done.
  - by rewrite Hh.
  - by rewrite Hd.
  - done.
  - by apply Forall_app_2, Forall_singleton.
Qed.

Lemma represents_pin log t chunk :
  represents log t → transfer_snapshot_id t = None → transfer_repair_frame t = None →
  log = [] ∧
  represents log (t <| transfer_snapshot_id := Some (chunk_snapshot_id chunk) |>
                    <| transfer_repair_frame := Some (chunk_repair_frame chunk) |>).
Proof.
  intros [Hi Ho Hb Ht Hh Hd Hp Hf] Hid Hfr.
  destruct log as [|c log]; [|apply Forall_cons in Hf as [[? _] _]; congruence].
  split; [done|]. by split.
Qed.

(** The index test and what follows it, once the transfer is pinned to the chunk. *)
Lemma accept_pinned_chunk log t chunk :
  represents log t → N.of_nat (length log) < u32_max →
  transfer_snapshot_id t = Some (chunk_snapshot_id chunk) →
  transfer_repair_frame t = Some (chunk_repair_frame chunk) →
  wp (if chunk_index chunk <? next_chunk_index t then
        ensure (is_some_and (accepted_chunk_digests t !! N.to_nat (chunk_index chunk))
                  (λ accepted, accepted ==? sha256 (chunk_bytes chunk))) SnapshotInvalid ;;
        mret false
      else
        ensure (chunk_index chunk =? next_chunk_index t) SnapshotInvalid ;;
        next_total ← lift_result (ok_or (checked_add u64_max (received_bytes t)
                                    (N.of_nat (length (chunk_bytes chunk)))) SnapshotInvalid);
        ensure (next_total <=? max_total_bytes limits) SnapshotInvalid ;;
        modify (λ t, t <| hasher ::= (.++ chunk_bytes chunk) |>
                       <| accepted_chunk_digests ::= (.++ [sha256 (chunk_bytes chunk)]) |>
                       <| received_bytes := next_total |>) ;;
        next_index ← lift_result
          (ok_or (checked_add u32_max (next_chunk_index t) 1) SnapshotInvalid);
        modify (λ t, t <| next_chunk_index := next_index |>) ;;
        mret true)
     (λ b t', chunk_outcome log t chunk (Ok b) t')
     (λ e t', chunk_outcome log t chunk (Err e) t') t.
Proof.
  intros Hrep Hlt Hid Hfr. destruct (N.ltb_spec (chunk_index chunk) (next_chunk_index t)) as [Hi|Hi].
  - wp_go; [|by split]. split_and!; [done..|]. unfold is_duplicate_chunk.
    rewrite Hid, Hfr, !bool_decide_true by done. cbn [negb orb].
    by destruct (N.leb_spec (next_chunk_index t) (chunk_index chunk)); [lia|].
  - pose proof (rep_index _ _ Hrep) as Hidx.
    wp_go; try (by split).
    + split; [|by rewrite <-Hidx; apply N.eqb_eq].
      match goal with H : checked_add u32_max _ _ = Some ?n |- _ =>
        pose proof H as [-> _]%checked_add_Some; eapply represents_extend; try done end;
        [by apply N.eqb_eq|by apply N.leb_le].
    + exfalso. match goal with H : checked_add u32_max _ _ = None |- _ =>
        apply checked_add_None in H end. lia.
Qed.

Lemma accept_chunk_outcome log t chunk :
  represents log t → N.of_nat (length log) < u32_max →
  chunk_outcome log t chunk (accept_chunk sha256 chunk limits t).1
    (accept_chunk sha256 chunk limits t).2.
Proof.
  intros Hrep Hlt.
  assert (wp (accept_chunk sha256 chunk limits) (λ b t', chunk_outcome log t chunk (Ok b) t')
    (λ e t', chunk_outcome log t chunk (Err e) t') t) as H.
  - unfold accept_chunk. apply wp_bind, wp_lift_result. split.
    2: { intros e. destruct (chunk_validate chunk limits); [done|]. by intros [= <-]. }
    intros [] _. apply wp_bind, wp_get, wp_bind.
    destruct (transfer_snapshot_id t) as [id|] eqn:Hid, (transfer_repair_frame t) as [fr|] eqn:Hfr.
    + apply wp_ensure. split; [|by split].
      intros [->%bool_decide_eq_true ->%N.eqb_eq]%andb_true_iff. by apply accept_pinned_chunk.
    + by split.
    + by split.
    + destruct (represents_pin _ _ chunk Hrep Hid Hfr) as [-> Hrep']. apply wp_modify.
      eapply wp_mono; [by apply (accept_pinned_chunk [] _ chunk Hrep')| |done].
      intros [] t'; [done|]. intros (-> & _ & Hdup). exfalso. revert Hdup.
      unfold is_duplicate_chunk.
      by rewrite (proj2 (N.leb_le _ _)), !orb_true_r by (rewrite (rep_index _ _ Hrep'); simpl; lia).
  - unfold wp in H. by destruct (accept_chunk sha256 chunk limits t) as [[]?].
Qed.

(** Feeding a sequence of chunks, collecting the ones accepted as new. *)
Fixpoint feed (cs : list SnapshotChunk) (t : SnapshotTransferState)
    : list SnapshotChunk * SnapshotTransferState :=
  match cs with
  | [] => ([], t)
  | c :: cs =>
      let '(r, t') := accept_chunk sha256 c limits t in
      let '(log, t'') := feed cs t' in
      (match r with Ok true => c :: log | _ => log end, t'')
  end.

Lemma feed_represents cs log t :
  represents log t → N.of_nat (length log + length cs) ≤ u32_max →
  represents (log ++ (feed cs t).1) (feed cs t).2.
Proof.
  revert log t. induction cs as [|c cs IH]; intros log t Hrep Hlen; simpl.
  { by rewrite app_nil_r. }
  simpl in Hlen. pose proof (accept_chunk_outcome log t c Hrep ltac:(lia)) as Ho.
  destruct (accept_chunk sha256 c limits t) as [r t'] eqn:Er. simpl in Ho.
  destruct r as [[]|e].
  - destruct Ho as [Ho _]. specialize (IH _ _ Ho).
    destruct (feed cs t') as [log' t''] eqn:Ef. simpl in *.
    rewrite <-app_assoc in IH. apply IH. rewrite length_app. simpl. lia.
  - destruct Ho as (-> & _ & _). specialize (IH _ _ Hrep).
    destruct (feed cs t) as [log' t'']. apply IH. lia.
  - destruct Ho as (_ & Ho). specialize (IH _ _ Ho).
    destruct (feed cs t') as [log' t'']. apply IH. lia.
Qed.
End transfer_log.

Module Transfer.

(** C14: a completed chunk transfer is exact. Whatever sequence of chunks a host sends,
    in whatever order and with whatever retransmissions, if the relay then accepts the
    completion manifest, the chunks it accepted as new are consecutive from 0, all carry the
    manifest's snapshot id and repair frame, their concatenation has the manifest's total
    size, within the relay's limit, and its SHA-256 is the manifest's checksum. *)
Theorem completed_transfer_is_exact sha256 limits cs manifest :
  N.of_nat (length cs) ≤ u32_max →
  let '(log, t) := feed sha256 limits cs SnapshotTransferState_new in
  complete sha256 t manifest limits = Ok tt →
  manifest_total_bytes manifest = N.of_nat (length (concat (chunk_bytes <$> log))) ∧
  manifest_total_bytes manifest ≤ max_total_bytes limits ∧
  manifest_sha256 manifest = hex_string (sha256 (concat (chunk_bytes <$> log))) ∧
  chunk_index <$> log = N.of_nat <$> seq 0 (length log) ∧
  Forall (λ c, chunk_snapshot_id c = manifest_snapshot_id manifest ∧
               chunk_repair_frame c = manifest_repair_frame manifest) log.
Proof.
  intros Hlen.
  pose proof (feed_represents sha256 limits cs [] SnapshotTransferState_new
    (represents_new sha256 limits) Hlen) as Hrep.
  destruct (feed sha256 limits cs SnapshotTransferState_new) as [log t]. simpl in Hrep.
  destruct Hrep as [Hi Ho Hb Ht Hh Hd Hp Hf]. unfold complete.
  destruct (map_err _ _); [|done]. cbn [mbind result_bind].
  destruct ((_ !=? _) || _) eqn:E1; [done|]. apply orb_false_iff in E1 as [E1 E2].
  destruct (manifest_total_bytes manifest !=? _) eqn:E3; [done|].
  destruct (hex_string _ !=? _) eqn:E4; [done|]. intros _.
  rewrite !bool_decide_neq_false in *. rewrite E3, <-E4, Hh. split_and!; try done.
  eapply Forall_impl; [done|]. intros c [H1 H2]. split; congruence.
Qed.

(** A toy digest, to run the accounting on concrete chunks. *)
Definition first_byte_digest (l : bytes) : bytes := repeat (default x00 (head l)) 32.
Definition sample_chunks : list SnapshotChunk :=
  [mkSnapshotChunk "s-1" 7 0 [x01; x02]; mkSnapshotChunk "s-1" 7 0 [x01; x02];
   mkSnapshotChunk "s-1" 7 2 [x09]; mkSnapshotChunk "s-1" 7 1 [x03]].
Definition sample_manifest : SnapshotManifest :=
  mkSnapshotManifest "s-1" 7 3 "0101010101010101010101010101010101010101010101010101010101010101".

Definition sample_feed : list SnapshotChunk * SnapshotTransferState :=
  Eval vm_compute in feed first_byte_digest SnapshotLimits_default sample_chunks
                       SnapshotTransferState_new.
Lemma sample_feed_eq :
  feed first_byte_digest SnapshotLimits_default sample_chunks SnapshotTransferState_new
  = sample_feed.
Proof. vm_compute. reflexivity. Qed.

Lemma completed_transfer_is_exact_witness :
  manifest_sha256 sample_manifest = hex_string (first_byte_digest [x01; x02; x03]).
Proof.
  pose proof (completed_transfer_is_exact first_byte_digest SnapshotLimits_default sample_chunks
    sample_manifest ltac:(vm_compute; discriminate)) as H.
  rewrite sample_feed_eq in H. cbn [sample_feed] in H. apply H. vm_compute. reflexivity.
Defined.

(** Retransmission is idempotent. After any sequence of chunks, sending again a
    chunk that was already accepted (same id, frame, index and bytes) reports a duplicate and
    leaves the transfer unchanged, as does asking [is_duplicate_chunk] once it is complete. *)
Theorem retransmission_is_idempotent sha256 limits cs c :
  N.of_nat (length cs) < u32_max →
  let '(log, t) := feed sha256 limits cs SnapshotTransferState_new in
  log !! N.to_nat (chunk_index c) = Some c →
  chunk_validate c limits = Ok tt →
  accept_chunk sha256 c limits t = (Ok false, t) ∧ is_duplicate_chunk sha256 t c = true.
Proof.
  intros Hlen.
  pose proof (feed_represents sha256 limits cs [] SnapshotTransferState_new
    (represents_new sha256 limits) ltac:(simpl; lia)) as Hrep.
  destruct (feed sha256 limits cs SnapshotTransferState_new) as [log t]. simpl in Hrep.
  intros Hlog Hval. pose proof (lookup_lt_Some _ _ _ Hlog) as Hlt.
  destruct Hrep as [Hi Ho Hb Ht Hh Hd Hp Hf].
  pose proof (proj1 (Forall_lookup _ _) Hf _ _ Hlog) as [Hid Hfr].
  assert (is_some_and (accepted_chunk_digests t !! N.to_nat (chunk_index c))
    (λ accepted, accepted ==? sha256 (chunk_bytes c)) = true) as Hdig.
  { rewrite Hd, list_lookup_fmap, Hlog. cbn. by rewrite bool_decide_true. }
  unfold accept_chunk, is_duplicate_chunk. rewrite Hval, Hdig, Hid, Hfr.
  cbv [mbind M_bind lift_result map_err get ensure mret M_ret]. rewrite Hid, Hfr, Hdig.
  rewrite !bool_decide_true, N.eqb_refl by done. cbn [negb orb andb].
  destruct (N.ltb_spec (chunk_index c) (next_chunk_index t)); [|lia].
  by destruct (N.leb_spec (next_chunk_index t) (chunk_index c)); [lia|].
Qed.

Lemma retransmission_is_idempotent_witness :
  is_duplicate_chunk first_byte_digest sample_feed.2 (mkSnapshotChunk "s-1" 7 1 [x03]) = true.
Proof.
  pose proof (retransmission_is_idempotent first_byte_digest SnapshotLimits_default sample_chunks
    (mkSnapshotChunk "s-1" 7 1 [x03]) ltac:(vm_compute; reflexivity)) as H.
  rewrite sample_feed_eq in H. cbn [sample_feed] in H. apply H; vm_compute; reflexivity.
Defined.

End Transfer.
