(* ===== verification/LinkState.v ===== *)
(** * Link-cable room state

  Models [src/src/rooms/link_cable_room_state.rs]. *)

From Stdlib Require Import Sorting.Sorted.
From S2P Require Import Prelude Ids Wire Descriptor Protocol.
Open Scope N_scope.

(** [HashMap::values], in the order of the map. Rust's order is unspecified; the
    uses of it below do not depend on the order ([compatibility_values_match_spec]). *)
Definition map_values {A} (m : gmap PlayerIndex A) : list A := (map_to_list m).*2.

Record LinkCableRoomState := mkLinkCableRoomState {
  link_compatibility : gmap PlayerIndex LinkCableCompatibility;
  last_sequences : gmap PlayerIndex N }.

#[export] Instance eta_LinkCableRoomState : Eta LinkCableRoomState := λ s,
  mkLinkCableRoomState (link_compatibility s) (last_sequences s).
#[export] Instance set_link_compatibility : Setter link_compatibility.
Proof. derive_setter. Defined.
#[export] Instance set_last_sequences : Setter last_sequences.
Proof. derive_setter. Defined.

Definition LinkCableRoomState_default : LinkCableRoomState := mkLinkCableRoomState ∅ ∅.

(** [LinkCableRoomState::reset]. *)
Definition link_reset (s : LinkCableRoomState) : LinkCableRoomState :=
  s <| link_compatibility := ∅ |> <| last_sequences := ∅ |>.

(** [LinkCableRoomState::set_compatibility]. *)
Definition set_compatibility (player_index : PlayerIndex) (link : LinkCableDescriptor)
    (compatibility : LinkCableCompatibility) : M LinkCableRoomState RoomError unit :=
  if negb (matches_descriptor compatibility link) then
    modify (λ s, s <| link_compatibility ::= delete player_index |>) ;;
    throw CompatibilityMismatch
  else modify (λ s, s <| link_compatibility ::= <[player_index := compatibility]> |>).

Definition connected_players_have_compatibility (connected : list PlayerIndex) (max_players : N)
    (s : LinkCableRoomState) : bool :=
  (N.of_nat (length connected) =? max_players)
  && forallb (λ p, is_some (link_compatibility s !! p)) connected.

Definition compatibility_values_match (s : LinkCableRoomState) : bool :=
  match map_values (link_compatibility s) with
  | [] => false
  | baseline :: rest => forallb (matches_peer baseline) rest
  end.

Definition connected_players_are_compatible (connected : list PlayerIndex) (max_players : N)
    (s : LinkCableRoomState) : bool :=
  connected_players_have_compatibility connected max_players s && compatibility_values_match s.

(** [LinkCableRoomState::accept_packet]. *)
Definition accept_packet (owned_index : PlayerIndex) (packet : LinkCablePacket)
    (limits : LinkCablePacketLimits) : M LinkCableRoomState RoomError unit :=
  ensure (owned_index ==? packet_player_index packet) (SlotSpoofing (packet_player_index packet)) ;;
  lift_result (map_err (packet_validate packet limits) (λ _, LinkPacketInvalid)) ;;
  last ← gets (λ s, last_sequences s !! packet_player_index packet);
  ensure (is_none_or last (λ last_sequence, last_sequence <? packet_sequence packet))
    OutOfOrderLinkPacket ;;
  modify (λ s, s <| last_sequences ::= <[packet_player_index packet := packet_sequence packet]> |>).

(** ** Lemmas *)

Lemma matches_peer_spec a b :
  matches_peer a b = true ↔
  lc_protocol_version a = lc_protocol_version b ∧ lc_system_family a = lc_system_family b ∧
  lc_link_protocol a = lc_link_protocol b ∧ lc_runtime_profile a = lc_runtime_profile b ∧
  lc_system_data_hash a = lc_system_data_hash b.
Proof. unfold matches_peer. rewrite !andb_true_iff, !bool_decide_eq_true. tauto. Qed.

Lemma accept_packet_spec owned packet limits s :
  wp (accept_packet owned packet limits)
    (λ _ s', owned = packet_player_index packet ∧ packet_payload packet ≠ [] ∧
       N.of_nat (length (packet_payload packet)) ≤ max_payload_bytes limits ∧
       (∀ n, last_sequences s !! owned = Some n → n < packet_sequence packet) ∧
       s' = s <| last_sequences ::= <[owned := packet_sequence packet]> |>)
    (λ _ s', s' = s) s.
Proof.
  unfold accept_packet. wp_go; try done. rewrite bool_decide_eq_true in *. subst owned.
  match goal with H : map_err _ _ = Ok _ |- _ => revert H end. unfold packet_validate.
  destruct (packet_payload packet) as [|b l] eqn:Ep; [done|].
  case_match eqn:El; [done|]. apply N.ltb_ge in El. intros _. split_and!; try done.
  intros n Hn. match goal with H : is_none_or _ _ = true |- _ => revert H end.
  rewrite Hn. cbn. by intros ?%N.ltb_lt.
Qed.

(** ** The relayed packet stream *)

(** The packets relayed by a sequence of calls, each by the player owning the
    sending connection. *)
Fixpoint relay_packets (limits : LinkCablePacketLimits)
    (calls : list (PlayerIndex * LinkCablePacket)) (s : LinkCableRoomState) : list LinkCablePacket :=
  match calls with
  | [] => []
  | (owned, packet) :: calls =>
      match accept_packet owned packet limits s with
      | (Ok _, s') => packet :: relay_packets limits calls s'
      | (Err _, s') => relay_packets limits calls s'
      end
  end.

(** The sequence numbers relayed for one player. *)
Definition sequences_of (p : PlayerIndex) (l : list LinkCablePacket) : list N :=
  packet_sequence <$> filter (λ k, packet_player_index k = p) l.

Lemma relay_packets_above limits calls s p :
  StronglySorted N.lt (sequences_of p (relay_packets limits calls s)) ∧
  ∀ n, last_sequences s !! p = Some n →
    Forall (N.lt n) (sequences_of p (relay_packets limits calls s)).
Proof.
  revert s. induction calls as [|[owned packet] calls IH]; intros s; cbn [relay_packets].
  { split; [constructor|by constructor]. }
  pose proof (accept_packet_spec owned packet limits s) as Hspec. unfold wp in Hspec.
  destruct (accept_packet owned packet limits s) as [[[]|e] s'].
  2: { subst s'. apply IH. }
  destruct Hspec as (-> & _ & _ & Hlast & ->). destruct (IH (s <| last_sequences ::=
    <[packet_player_index packet:=packet_sequence packet]> |>)) as [Hs Ha].
  unfold sequences_of in *. rewrite filter_cons.
  destruct (decide (packet_player_index packet = p)) as [Hp|Hp]; csimpl.
  - subst p. specialize (Ha (packet_sequence packet)
      (lookup_insert_eq (last_sequences s) _ _)).
    split; [by constructor|]. intros n Hn. specialize (Hlast n Hn). constructor; [done|].
    eapply Forall_impl; [done|]. intros x Hx. cbn in *. lia.
  - split; [done|]. intros n Hn. apply Ha.
    exact (eq_trans (lookup_insert_ne (last_sequences s) _ _ _ Hp) Hn).
Qed.

Module LinkRelay.

(** Whatever the clients send, the link-cable packets the relay forwards for one
    player carry strictly increasing sequence numbers, so a receiver sees each at most once
    and in order. *)
Theorem relayed_sequences_increase limits calls p :
  StronglySorted N.lt (sequences_of p (relay_packets limits calls LinkCableRoomState_default)).
Proof. apply relay_packets_above. Qed.

(** A packet is accepted only from the player that owns the connection, with a
    payload of 1 to the limit's bytes and a sequence number above the player's last; a rejected
    packet changes nothing, and an accepted one only the sender's last sequence. *)
Theorem accept_packet_contract owned packet limits s :
  match accept_packet owned packet limits s with
  | (Ok _, s') =>
      owned = packet_player_index packet ∧
      1 ≤ N.of_nat (length (packet_payload packet)) ≤ max_payload_bytes limits ∧
      (∀ n, last_sequences s !! owned = Some n → n < packet_sequence packet) ∧
      last_sequences s' = <[owned := packet_sequence packet]> (last_sequences s) ∧
      link_compatibility s' = link_compatibility s
  | (Err e, s') =>
      s' = s ∧ (e = SlotSpoofing (packet_player_index packet) ∨ e = LinkPacketInvalid ∨
                e = OutOfOrderLinkPacket)
  end.
Proof.
  pose proof (accept_packet_spec owned packet limits s) as H.
  assert (wp (accept_packet owned packet limits) (λ _ _, True)
    (λ e _, e = SlotSpoofing (packet_player_index packet) ∨ e = LinkPacketInvalid ∨
            e = OutOfOrderLinkPacket) s) as He.
  { unfold accept_packet. wp_go; try done; try tauto.
    destruct (packet_validate packet limits); naive_solver. }
  unfold wp in H, He. destruct (accept_packet owned packet limits s) as [[[]|e] s'].
  - destruct H as (-> & Hne & Hmax & Hlast & ->). split_and!; try done.
    destruct (packet_payload packet); [done|]. simpl. lia.
  - done.
Qed.

End LinkRelay.
