(* ===== verification/RoomTransactions.v ===== *)
(** * Optional per-room state

  The room-owned records of transactions that exist only while they run:
  state recovery ([src/src/rooms/state_recovery_transaction.rs]), temporary ROM
  relay ([src/src/rooms/rom_relay.rs]) and voice chat
  ([src/src/rooms/room_voice.rs]). *)

From S2P Require Import Prelude Ids Descriptor Protocol.
Open Scope N_scope.

(** ** state_recovery_transaction.rs *)

Definition STATE_RECOVERY_PIN_TIMEOUT : Duration := from_secs 10.

Record StateRecoveryTransaction := mkStateRecoveryTransaction {
  tx_recovery_id : N;
  tx_mismatch : StateHashMismatchView;
  tx_pinned_snapshot : option SnapshotManifest;
  tx_preparing_room_epoch : N;
  tx_preparing_session_epoch : N;
  tx_started_at : Instant }.

#[export] Instance eta_StateRecoveryTransaction : Eta StateRecoveryTransaction := λ t,
  mkStateRecoveryTransaction (tx_recovery_id t) (tx_mismatch t) (tx_pinned_snapshot t) (tx_preparing_room_epoch t)
    (tx_preparing_session_epoch t) (tx_started_at t).
#[export] Instance set_tx_pinned_snapshot : Setter tx_pinned_snapshot.
Proof. derive_setter. Defined.

(** [StateRecoveryTransaction::preparing]. *)
Definition tx_preparing (recovery_id : N) (mismatch : StateHashMismatchView)
    (preparing_room_epoch preparing_session_epoch : N) (started_at : Instant)
    : StateRecoveryTransaction :=
  mkStateRecoveryTransaction recovery_id mismatch None preparing_room_epoch
    preparing_session_epoch started_at.

Definition tx_repair_frame (t : StateRecoveryTransaction) : N :=
  mismatch_repair_frame (tx_mismatch t).

Definition accepts_message_epoch (t : StateRecoveryTransaction) (room_epoch session_epoch : N)
    : bool :=
  (room_epoch =? tx_preparing_room_epoch t) && (session_epoch =? tx_preparing_session_epoch t).

Definition tx_commit (manifest : SnapshotManifest) (t : StateRecoveryTransaction)
    : StateRecoveryTransaction :=
  t <| tx_pinned_snapshot := Some manifest |>.

Definition expected_snapshot (t : StateRecoveryTransaction) : option SnapshotManifest :=
  tx_pinned_snapshot t.

Definition is_preparing (t : StateRecoveryTransaction) : bool := is_none (tx_pinned_snapshot t).

Definition tx_is_expired (t : StateRecoveryTransaction) (now : Instant) : bool :=
  is_preparing t && (STATE_RECOVERY_PIN_TIMEOUT <=? duration_since now (tx_started_at t)).

Definition tx_view (t : StateRecoveryTransaction) : StateRecoveryView :=
  mkStateRecoveryView (tx_recovery_id t) (if is_preparing t then Preparing else Committed)
    (tx_repair_frame t) (tx_mismatch t) (tx_pinned_snapshot t).

(** ** rom_relay.rs *)

Record RomRelayTransferIntent := mkRomRelayTransferIntent {
  rintent_room_id : RoomId;
  rintent_sender_player_index : PlayerIndex;
  rintent_sender_connection : ConnectionId;
  rintent_receiver_player_index : PlayerIndex;
  rintent_receiver_connection : ConnectionId;
  rintent_rom : RomIdentity;
  rintent_room_epoch : N;
  rintent_session_epoch : N }.

Record RomRelayGrantPair := mkRomRelayGrantPair {
  rpair_upload : RomRelayGrant;
  rpair_download : RomRelayGrant }.

Record RomRelayTransferState := mkRomRelayTransferState {
  rom_sender_connection : ConnectionId;
  rom_receiver_connection : ConnectionId;
  rom_sender_player_index : PlayerIndex;
  rom_receiver_player_index : PlayerIndex;
  rom_upload_grant : RomRelayGrant;
  rom_download_grant : RomRelayGrant;
  rom_rom : RomIdentity;
  rom_upload_complete : bool;
  rom_download_complete : bool }.

#[export] Instance eta_RomRelayTransferState : Eta RomRelayTransferState := λ t,
  mkRomRelayTransferState (rom_sender_connection t) (rom_receiver_connection t) (rom_sender_player_index t)
    (rom_receiver_player_index t) (rom_upload_grant t) (rom_download_grant t) (rom_rom t)
    (rom_upload_complete t) (rom_download_complete t).
#[export] Instance set_rom_upload_complete : Setter rom_upload_complete.
Proof. derive_setter. Defined.
#[export] Instance set_rom_download_complete : Setter rom_download_complete.
Proof. derive_setter. Defined.

(** [RomRelayTransferState::new]. *)
Definition RomRelayTransferState_new (sender_connection receiver_connection : ConnectionId)
    (sender_player_index receiver_player_index : PlayerIndex) (grants : RomRelayGrantPair)
    (rom : RomIdentity) : RomRelayTransferState :=
  mkRomRelayTransferState sender_connection receiver_connection sender_player_index
    receiver_player_index (rpair_upload grants) (rpair_download grants) rom false false.

(** [RomRelayTransferState::accept_completion]. *)
Definition accept_completion (source : ConnectionId) (completion : RomRelayCompletion)
    : M RomRelayTransferState RomRelayBlockReason ConnectionId :=
  t ← get;
  ensure (normalize_content_hash (completion_content_hash completion)
          ==? normalized_hash (rom_rom t)) BlockMissingIdentity ;;
  ensure (completion_transfer_id completion ==? rgrant_transfer_id (rom_upload_grant t))
    BlockMissingIdentity ;;
  match completion_role completion with
  | Upload =>
      if source ==? rom_sender_connection t then
        modify (λ t, t <| rom_upload_complete := true |>) ;;
        mret (rom_receiver_connection t)
      else throw BlockWrongPlayer
  | Download =>
      if source ==? rom_receiver_connection t then
        ensure (rom_upload_complete t) BlockTransferActive ;;
        modify (λ t, t <| rom_download_complete := true |>) ;;
        mret (rom_sender_connection t)
      else throw BlockWrongPlayer
  end.

(** ** room_voice.rs *)

Inductive RoomVoiceStatus := VoiceAvailable | VoiceUnavailable_.

Record RoomVoiceView := mkRoomVoiceView {
  vv_status : RoomVoiceStatus;
  vv_provider : option string;
  vv_voice_room_id : option string;
  vv_livekit_room_name : option string;
  vv_server_url : option string;
  vv_mode : NetplayVoiceMode;
  vv_max_participants : N;
  vv_status_detail : option string }.

Record PlayerVoiceJoinGrant := mkPlayerVoiceJoinGrant {
  vg_provider : string;
  vg_voice_room_id : string;
  vg_livekit_room_name : string;
  vg_server_url : string;
  vg_participant_identity : string;
  vg_token : string;
  vg_expires_at : string;
  vg_mode : NetplayVoiceMode }.

#[export] Instance eta_PlayerVoiceJoinGrant : Eta PlayerVoiceJoinGrant := λ g,
  mkPlayerVoiceJoinGrant (vg_provider g) (vg_voice_room_id g) (vg_livekit_room_name g) (vg_server_url g)
    (vg_participant_identity g) (vg_token g) (vg_expires_at g) (vg_mode g).
#[export] Instance set_vg_token : Setter vg_token.
Proof. derive_setter. Defined.
#[export] Instance set_vg_expires_at : Setter vg_expires_at.
Proof. derive_setter. Defined.

Record RoomVoiceState := mkRoomVoiceState {
  voice_view : RoomVoiceView;
  voice_grants : gmap PlayerIndex PlayerVoiceJoinGrant }.

#[export] Instance eta_RoomVoiceState : Eta RoomVoiceState := λ v,
  mkRoomVoiceState (voice_view v) (voice_grants v).
#[export] Instance set_voice_grants : Setter voice_grants.
Proof. derive_setter. Defined.

(** [RoomVoiceState::available] and [RoomVoiceState::unavailable]. *)
Definition voice_available (view : RoomVoiceView) (grants : gmap PlayerIndex PlayerVoiceJoinGrant)
    : RoomVoiceState := mkRoomVoiceState view grants.
Definition voice_unavailable (mode : NetplayVoiceMode) (detail : string) : RoomVoiceState :=
  mkRoomVoiceState
    (mkRoomVoiceView VoiceUnavailable_ None None None None mode 0 (Some detail)) ∅.

(** [RoomVoiceState::grant_for]. *)
Definition grant_for (v : RoomVoiceState) (p : PlayerIndex) : option PlayerVoiceJoinGrant :=
  voice_grants v !! p.

(** [RoomVoiceState::refresh_grant]. *)
Definition refresh_grant (player_index : PlayerIndex) (participant_identity token expires_at : string)
    (v : RoomVoiceState) : option PlayerVoiceJoinGrant * RoomVoiceState :=
  match voice_grants v !! player_index with
  | None => (None, v)
  | Some grant =>
      if vg_participant_identity grant !=? participant_identity then (None, v)
      else
        let grant := grant <| vg_token := token |> <| vg_expires_at := expires_at |> in
        (Some grant, v <| voice_grants ::= <[player_index := grant]> |>)
  end.
