(* ===== verification/AdaptiveDelay.v ===== *)
(** * Adaptive input-delay policy

  Models [src/src/rooms/adaptive_input_delay_policy.rs]: the startup delay chosen
  from the players' network samples. The policy object itself has no state
  ([struct AdaptiveInputDelayPolicy;]), so its methods are functions. *)

From S2P Require Import Prelude Ids Descriptor Protocol Slots.
Open Scope N_scope.

Definition MIN_AUTOMATIC_INPUT_DELAY_FRAMES : N := 2.
Definition LATENCY_SAFETY_FRAMES : N := 1.
Definition HIGH_PREDICTION_PRESSURE_FRAMES : N := 45.
Definition HEALTH_SAMPLE_FRESHNESS : Duration := from_secs 10.
Definition DEFAULT_NOMINAL_FRAME_RATE_NUMERATOR : N := 60.
Definition DEFAULT_NOMINAL_FRAME_RATE_DENOMINATOR : N := 1.

Record AdaptiveInputDelayDecision := mkAdaptiveInputDelayDecision {
  decision_input_delay_frames : N;
  decision_reason : InputDelayChangeReason }.

Record AdaptiveInputDelayTarget := mkAdaptiveInputDelayTarget {
  all_connected_players_have_fresh_network_samples : bool;
  target_input_delay_frames : N }.

Definition is_fresh (reported_at : option Instant) (now : Instant) : bool :=
  is_some_and reported_at (λ reported_at,
    duration_since now reported_at <=? HEALTH_SAMPLE_FRESHNESS).

(** [frames_for_ms_at_rate]: [u128] arithmetic, then a cast of a value at most 8. *)
Definition frames_for_ms_at_rate (milliseconds numerator denominator : N) : N :=
  let dividend := saturating_mul u128_max milliseconds numerator in
  let divisor := saturating_mul u128_max 1000 denominator in
  let frames := div_ceil dividend (N.max divisor 1) in
  N.min frames MAX_CONTROLLER_INPUT_DELAY_FRAMES.

Definition frames_for_ms (milliseconds : N) : N :=
  frames_for_ms_at_rate milliseconds DEFAULT_NOMINAL_FRAME_RATE_NUMERATOR
    DEFAULT_NOMINAL_FRAME_RATE_DENOMINATOR.

Definition delay_for_report (report : ClientNetworkQualityReport) : option N :=
  match round_trip_ms report with
  | None => None
  | Some round_trip_ms =>
      let one_way_ms := saturating_add u32_max round_trip_ms 1 / 2 in
      let jitter_ms := unwrap_or (jitter_ms report) 0 in
      let runtime_pressure :=
        if (0 <? unwrap_or (late_input_frames report) 0)
           || (30 <=? unwrap_or (prediction_frames report) 0) then 1 else 0 in
      let latency_frames := frames_for_ms (saturating_add u32_max one_way_ms jitter_ms) in
      let delay := saturating_add u8_max (saturating_add u8_max latency_frames LATENCY_SAFETY_FRAMES)
                     runtime_pressure in
      Some (clamp delay MIN_AUTOMATIC_INPUT_DELAY_FRAMES MAX_CONTROLLER_INPUT_DELAY_FRAMES)
  end.

(** One iteration of the loop of [target_delay] over the connected players. *)
Record TargetScan := mkTargetScan {
  saw_sample : bool;
  fresh_network_sample_count : nat;
  scan_target : N }.

(** [player.latest_network_report.filter(is_fresh)]. *)
Definition fresh_report (player : PlayerSlot) (now : Instant) : option ClientNetworkQualityReport :=
  if is_fresh (slot_latest_network_reported_at player) now
  then slot_latest_network_report player else None.

Definition scan_player (baseline_frame : N) (now : Instant) (acc : TargetScan) (player : PlayerSlot)
    : TargetScan :=
  let acc :=
    match fresh_report player now ≫= delay_for_report with
    | Some report_delay =>
        mkTargetScan true (S (fresh_network_sample_count acc)) (N.max (scan_target acc) report_delay)
    | None => acc
    end in
  match (if is_fresh (slot_latest_local_frame_reported_at player) now
         then slot_latest_local_frame player else None) with
  | Some local_frame =>
      if HIGH_PREDICTION_PRESSURE_FRAMES <=? saturating_sub local_frame baseline_frame then
        mkTargetScan true (fresh_network_sample_count acc)
          (N.max (scan_target acc)
             (saturating_add u8_max DEFAULT_CONTROLLER_INPUT_DELAY_FRAMES 1))
      else acc
  | None => acc
  end.

Definition target_delay (players : list PlayerSlot) (room_frame : N) (released_frame : option N)
    (now : Instant) : option AdaptiveInputDelayTarget :=
  let connected_players := List.filter is_connected players in
  match connected_players with
  | [] => None
  | _ =>
      let baseline_frame := unwrap_or released_frame room_frame in
      let scan := foldl (scan_player baseline_frame now)
                    (mkTargetScan false 0 MIN_AUTOMATIC_INPUT_DELAY_FRAMES) connected_players in
      if saw_sample scan then
        Some (mkAdaptiveInputDelayTarget
                (fresh_network_sample_count scan =? length connected_players)%nat
                (clamp (scan_target scan) MIN_AUTOMATIC_INPUT_DELAY_FRAMES
                   MAX_CONTROLLER_INPUT_DELAY_FRAMES))
      else None
  end.

(** [AdaptiveInputDelayPolicy::initial_decision]. *)
Definition initial_decision (current_delay : N) (players : list PlayerSlot) (room_frame : N)
    (released_frame : option N) (now : Instant) : option AdaptiveInputDelayDecision :=
  match target_delay players room_frame released_frame now with
  | None => None
  | Some target =>
      if target_input_delay_frames target =? current_delay then None
      else if (target_input_delay_frames target <? current_delay)
              && negb (all_connected_players_have_fresh_network_samples target) then None
      else Some (mkAdaptiveInputDelayDecision (target_input_delay_frames target) InitialLatency)
  end.

(** [collect::<Option<Vec<_>>>()]. *)
Fixpoint collect_options {A} (l : list (option A)) : option (list A) :=
  match l with
  | [] => Some []
  | Some a :: l' => match collect_options l' with Some r => Some (a :: r) | None => None end
  | None :: _ => None
  end.

(** A fresh report with both a round trip and a jitter sample. *)
Definition complete_report (now : Instant) (player : PlayerSlot) : option ClientNetworkQualityReport :=
  match fresh_report player now with
  | Some report => if is_some (round_trip_ms report) && is_some (jitter_ms report)
                   then Some report else None
  | None => None
  end.

Definition path_budget_ms (reports : list ClientNetworkQualityReport) : N :=
  foldl (λ budget report,
    let round_trip := unwrap_or (round_trip_ms report) 0 in
    let one_way_ms := u64_add round_trip 1 / 2 in
    u64_add (u64_add budget one_way_ms) (unwrap_or (jitter_ms report) 0)) 0 reports.

(** [nominal_frame_rate.filter(..).unwrap_or((60, 1))]. *)
Definition frame_rate_or_default (nominal_frame_rate : option (N * N)) : N * N :=
  match nominal_frame_rate with
  | Some (n, d) => if (0 <? n) && (0 <? d) then (n, d)
                   else (DEFAULT_NOMINAL_FRAME_RATE_NUMERATOR,
                         DEFAULT_NOMINAL_FRAME_RATE_DENOMINATOR)
  | None => (DEFAULT_NOMINAL_FRAME_RATE_NUMERATOR, DEFAULT_NOMINAL_FRAME_RATE_DENOMINATOR)
  end.

(** [AdaptiveInputDelayPolicy::initial_v5_decision]. *)
Definition initial_v5_decision (current_delay : N) (players : list PlayerSlot)
    (nominal_frame_rate : option (N * N)) (now : Instant) : option AdaptiveInputDelayDecision :=
  let connected_players := List.filter is_connected players in
  match connected_players with
  | [] => None
  | _ =>
      match collect_options (complete_report now <$> connected_players) with
      | None => None
      | Some reports =>
          let '(numerator, denominator) := frame_rate_or_default nominal_frame_rate in
          let target :=
            clamp (saturating_add u8_max
                     (frames_for_ms_at_rate (path_budget_ms reports) numerator denominator)
                     LATENCY_SAFETY_FRAMES)
              MIN_AUTOMATIC_INPUT_DELAY_FRAMES MAX_CONTROLLER_INPUT_DELAY_FRAMES in
          if target =? current_delay then None
          else Some (mkAdaptiveInputDelayDecision target InitialLatency)
      end
  end.

(** ** Lemmas *)

(** The frame count covers the milliseconds at the given rate, unless it hits the
    8-frame ceiling. *)
Lemma frames_for_ms_at_rate_covers ms n d :
  0 < d → ms * n ≤ u128_max → 1000 * d ≤ u128_max →
  let f := frames_for_ms_at_rate ms n d in
  f ≤ 8 ∧ (f < 8 → ms * n ≤ f * (1000 * d) ∧ f * (1000 * d) < ms * n + 1000 * d).
Proof.
  intros Hd H1 H2. unfold frames_for_ms_at_rate, saturating_mul, MAX_CONTROLLER_INPUT_DELAY_FRAMES.
  rewrite (N.min_l (ms * n)), (N.min_l (1000 * d)), (N.max_l (1000 * d)) by lia.
  pose proof (div_ceil_spec (ms * n) (1000 * d) ltac:(lia)) as [Hl Hu].
  revert Hl Hu. generalize (div_ceil (ms * n) (1000 * d)). intros f Hl Hu.
  split; [lia|]. intros Hf. rewrite (N.min_l f 8) by lia. done.
Qed.

Lemma clamp_delay_bounds x :
  2 ≤ clamp x MIN_AUTOMATIC_INPUT_DELAY_FRAMES MAX_CONTROLLER_INPUT_DELAY_FRAMES ≤ 8.
Proof. apply clamp_bounds. done. Qed.

Lemma target_delay_bounds players rf rel now t :
  target_delay players rf rel now = Some t → 2 ≤ target_input_delay_frames t ≤ 8.
Proof.
  unfold target_delay. destruct (List.filter is_connected players); [done|].
  case_match; [|done]. intros [= <-]. apply clamp_delay_bounds.
Qed.

Lemma collect_options_Some {A} (l : list (option A)) r :
  collect_options l = Some r → l = Some <$> r.
Proof.
  revert r. induction l as [|[a|] l IH]; intros r; cbn; [by intros [= <-]| |done].
  destruct (collect_options l) as [r'|]; [|done]. intros [= <-]. csimpl. f_equal. by apply IH.
Qed.

(** ** Properties *)

Module Delay.

(** Whenever the policy changes the startup input delay, for either protocol
    generation, the new delay is between 2 and 8 frames and differs from the current one. *)
Theorem decisions_in_bounds current players room_frame released rate now d :
  initial_decision current players room_frame released now = Some d ∨
  initial_v5_decision current players rate now = Some d →
  2 ≤ decision_input_delay_frames d ≤ 8 ∧ decision_input_delay_frames d ≠ current.
Proof.
  intros [H|H].
  - revert H. unfold initial_decision.
    destruct (target_delay players room_frame released now) as [t|] eqn:Et; [|done].
    apply target_delay_bounds in Et. case_match eqn:Ec; [done|]. apply N.eqb_neq in Ec.
    case_match; [done|]. intros [= <-]. done.
  - revert H. unfold initial_v5_decision. destruct (List.filter is_connected players); [done|].
    destruct (collect_options _); [|done]. destruct (frame_rate_or_default rate).
    case_match eqn:Ec; [done|].
    apply N.eqb_neq in Ec. intros [= <-]. split; [apply clamp_delay_bounds|exact Ec].
Qed.

(** The protocol v5 startup delay covers the measured paths. When the policy picks a
    delay below its 8-frame ceiling, every connected player has a fresh report with round trip
    and jitter, and all but one safety frame of the delay last at least as long as the sum of
    the one-way latencies and jitters of both paths, at the negotiated frame rate [n/d]. *)
Theorem v5_delay_covers_paths current players n d now decision :
  0 < n ≤ u64_max → 0 < d ≤ u64_max →
  initial_v5_decision current players (Some (n, d)) now = Some decision →
  ∃ reports,
    complete_report now <$> List.filter is_connected players = Some <$> reports ∧
    (path_budget_ms reports ≤ u64_max) ∧
    (decision_input_delay_frames decision < 8 →
     path_budget_ms reports * n ≤ (decision_input_delay_frames decision - 1) * (1000 * d)).
Proof.
  intros Hn Hd. unfold initial_v5_decision.
  destruct (List.filter is_connected players) as [|p ps] eqn:Ep; [done|].
  destruct (collect_options _) as [reports|] eqn:Ec; [|done].
  apply collect_options_Some in Ec.
  unfold frame_rate_or_default. destruct (N.ltb_spec 0 n), (N.ltb_spec 0 d); try lia. cbn [andb].
  case_match; [done|]. intros [= <-]. exists reports. split; [done|].
  assert (path_budget_ms reports ≤ u64_max) as Hb.
  { unfold path_budget_ms. destruct reports as [|r reports] using rev_ind; [done|].
    rewrite foldl_app. apply saturating_add_bound. }
  split; [done|]. cbn [decision_input_delay_frames].
  destruct (frames_for_ms_at_rate_covers (path_budget_ms reports) n d) as [Hf Hcov];
    [lia|unfold u128_max, u64_max in *; nia|unfold u128_max, u64_max in *; lia|].
  revert Hf Hcov. generalize (frames_for_ms_at_rate (path_budget_ms reports) n d).
  intros f Hf Hcov. unfold clamp, saturating_add, u8_max, LATENCY_SAFETY_FRAMES,
    MIN_AUTOMATIC_INPUT_DELAY_FRAMES, MAX_CONTROLLER_INPUT_DELAY_FRAMES.
  intros Hlt. destruct Hcov as [Hcov _]; [lia|]. etransitivity; [done|].
  apply N.mul_le_mono_r. lia.
Qed.

Definition sample_slot (i : N) (rtt jitter : N) : PlayerSlot :=
  (PlayerSlot_empty (mkPlayerIndex i))
    <| slot_connection_id := Some (mkConnectionId i) |>
    <| slot_latest_network_report :=
         Some (mkClientNetworkQualityReport (Some rtt) (Some jitter) None None None None None None
                 None None None None None None None None None None None None) |>
    <| slot_latest_network_reported_at := Some 0 |>.

Lemma decisions_in_bounds_witness :
  2 ≤ decision_input_delay_frames (mkAdaptiveInputDelayDecision 5 InitialLatency) ≤ 8.
Proof.
  apply (decisions_in_bounds 3 [sample_slot 0 40 5; sample_slot 1 60 4] 0 None (Some (60, 1)) 0
           (mkAdaptiveInputDelayDecision 5 InitialLatency)).
  right. vm_compute. reflexivity.
Defined.

Lemma v5_delay_covers_paths_witness :
  ∃ reports,
    complete_report 0 <$> List.filter is_connected [sample_slot 0 40 5; sample_slot 1 60 4]
    = Some <$> reports ∧ path_budget_ms reports ≤ u64_max ∧
    (5 < 8 → path_budget_ms reports * 60 ≤ (5 - 1) * (1000 * 1)).
Proof.
  apply (v5_delay_covers_paths 3 [sample_slot 0 40 5; sample_slot 1 60 4] 60 1 0
           (mkAdaptiveInputDelayDecision 5 InitialLatency));
    [split; vm_compute; (reflexivity || discriminate)..|vm_compute; reflexivity].
Defined.

End Delay.
