(* ===== verification/Room.v ===== *)
(** * The room

  Models [src/src/rooms/room.rs] and [room_adaptive_input_delay_ops.rs], with the
  queries and helpers the other operation files share: the state of one netplay
  room, its creation, slot queries, epoch and sync-state resets, compatibility
  and readiness. A method on [&mut self] that returns a [Result] is an
  [M NetplayRoom RoomError]; one that cannot fail is a function on rooms.

  [input_delay_policy] is a field-less struct and is not represented;
  [clock_sync_request] holds the request its one-field wrapper holds. *)

From S2P Require Import Prelude Ids Text Descriptor Compatibility Protocol Invite Slots.
From S2P Require Import PauseState SnapshotTransfer LinkState RoomTransactions AdaptiveDelay.
Open Scope N_scope.

Inductive RoomStatus :=
| WaitingForGuest | CheckingCompatibility | SyncingState | Ready | StartScheduled | Playing
| Paused | RepairingState | Recovering | Closed.

#[export] Instance RoomStatus_eq_dec : EqDecision RoomStatus.
Proof. solve_decision. Defined.

Record NetplayRoom := mkNetplayRoom {
  room_id : RoomId;
  invite_code : InviteCode;
  protocol_version : N;
  session : NetplaySessionDescriptor;
  max_players : N;
  players : list PlayerSlot;
  status : RoomStatus;
  room_epoch : N;
  session_epoch : N;
  compatibility : gmap PlayerIndex CompatibilityFingerprint;
  ready_players : gset PlayerIndex;
  deterministic_ready_players : gset PlayerIndex;
  clock_sync_request : option ClockSyncSampleRequest;
  clock_uncertainty_by_player : gmap PlayerIndex N;
  clock_sample_indices_by_player : gmap PlayerIndex (gset N);
  next_clock_sync_request_id : N;
  last_input_frames : gmap PlayerIndex N;
  next_input_frames : gmap PlayerIndex N;
  link_cable_state : LinkCableRoomState;
  host_snapshot_completed : bool;
  completed_snapshot_manifest : option SnapshotManifest;
  next_pause_sequence : N;
  pause_state : option SessionPauseStateTracker;
  snapshot_transfer : option SnapshotTransferState;
  snapshot_file_relay_transfer : option SnapshotFileRelayTransferState;
  rom_relay_transfer : option RomRelayTransferState;
  sync_start_frame : N;
  room_frame : N;
  released_frame : option N;
  next_release_frame : N;
  pending_input_delay_change : option InputDelayChange;
  state_hashes : gmap N (gmap PlayerIndex string);
  state_hash_true_mismatch_streak : N;
  next_authoritative_state_hash_frame : N;
  next_state_recovery_id : N;
  state_recovery : option StateRecoveryTransaction;
  state_recovery_started_at : list Instant;
  scheduled_start : option ScheduledSessionStart;
  pending_host_frame_open : option N;
  room_voice : option RoomVoiceState }.

#[export] Instance eta_NetplayRoom : Eta NetplayRoom := λ r,
  mkNetplayRoom (room_id r) (invite_code r) (protocol_version r) (session r) (max_players r) (players r)
    (status r) (room_epoch r) (session_epoch r) (compatibility r) (ready_players r)
    (deterministic_ready_players r) (clock_sync_request r) (clock_uncertainty_by_player r)
    (clock_sample_indices_by_player r) (next_clock_sync_request_id r) (last_input_frames r)
    (next_input_frames r) (link_cable_state r) (host_snapshot_completed r)
    (completed_snapshot_manifest r) (next_pause_sequence r) (pause_state r) (snapshot_transfer
    r) (snapshot_file_relay_transfer r) (rom_relay_transfer r) (sync_start_frame r) (room_frame
    r) (released_frame r) (next_release_frame r) (pending_input_delay_change r) (state_hashes r)
    (state_hash_true_mismatch_streak r) (next_authoritative_state_hash_frame r)
    (next_state_recovery_id r) (state_recovery r) (state_recovery_started_at r) (scheduled_start
    r) (pending_host_frame_open r) (room_voice r).
#[export] Instance set_session : Setter session.
Proof. derive_setter. Defined.
#[export] Instance set_players : Setter players.
Proof. derive_setter. Defined.
#[export] Instance set_status : Setter status.
Proof. derive_setter. Defined.
#[export] Instance set_room_epoch : Setter room_epoch.
Proof. derive_setter. Defined.
#[export] Instance set_session_epoch : Setter session_epoch.
Proof. derive_setter. Defined.
#[export] Instance set_compatibility : Setter compatibility.
Proof. derive_setter. Defined.
#[export] Instance set_ready_players : Setter ready_players.
Proof. derive_setter. Defined.
#[export] Instance set_deterministic_ready_players : Setter deterministic_ready_players.
Proof. derive_setter. Defined.
#[export] Instance set_clock_sync_request : Setter clock_sync_request.
Proof. derive_setter. Defined.
#[export] Instance set_clock_uncertainty_by_player : Setter clock_uncertainty_by_player.
Proof. derive_setter. Defined.
#[export] Instance set_clock_sample_indices_by_player : Setter clock_sample_indices_by_player.
Proof. derive_setter. Defined.
#[export] Instance set_next_clock_sync_request_id : Setter next_clock_sync_request_id.
Proof. derive_setter. Defined.
#[export] Instance set_last_input_frames : Setter last_input_frames.
Proof. derive_setter. Defined.
#[export] Instance set_next_input_frames : Setter next_input_frames.
Proof. derive_setter. Defined.
#[export] Instance set_link_cable_state : Setter link_cable_state.
Proof. derive_setter. Defined.
#[export] Instance set_host_snapshot_completed : Setter host_snapshot_completed.
Proof. derive_setter. Defined.
#[export] Instance set_completed_snapshot_manifest : Setter completed_snapshot_manifest.
Proof. derive_setter. Defined.
#[export] Instance set_next_pause_sequence : Setter next_pause_sequence.
Proof. derive_setter. Defined.
#[export] Instance set_pause_state : Setter pause_state.
Proof. derive_setter. Defined.
#[export] Instance set_snapshot_transfer : Setter snapshot_transfer.
Proof. derive_setter. Defined.
#[export] Instance set_snapshot_file_relay_transfer : Setter snapshot_file_relay_transfer.
Proof. derive_setter. Defined.
#[export] Instance set_rom_relay_transfer : Setter rom_relay_transfer.
Proof. derive_setter. Defined.
#[export] Instance set_sync_start_frame : Setter sync_start_frame.
Proof. derive_setter. Defined.
#[export] Instance set_room_frame : Setter room_frame.
Proof. derive_setter. Defined.
#[export] Instance set_released_frame : Setter released_frame.
Proof. derive_setter. Defined.
#[export] Instance set_next_release_frame : Setter next_release_frame.
Proof. derive_setter. Defined.
#[export] Instance set_pending_input_delay_change : Setter pending_input_delay_change.
Proof. derive_setter. Defined.
#[export] Instance set_state_hashes : Setter state_hashes.
Proof. derive_setter. Defined.
#[export] Instance set_state_hash_true_mismatch_streak : Setter state_hash_true_mismatch_streak.
Proof. derive_setter. Defined.
#[export] Instance set_next_authoritative_state_hash_frame : Setter next_authoritative_state_hash_frame.
Proof. derive_setter. Defined.
#[export] Instance set_next_state_recovery_id : Setter next_state_recovery_id.
Proof. derive_setter. Defined.
#[export] Instance set_state_recovery : Setter state_recovery.
Proof. derive_setter. Defined.
#[export] Instance set_state_recovery_started_at : Setter state_recovery_started_at.
Proof. derive_setter. Defined.
#[export] Instance set_scheduled_start : Setter scheduled_start.
Proof. derive_setter. Defined.
#[export] Instance set_pending_host_frame_open : Setter pending_host_frame_open.
Proof. derive_setter. Defined.
#[export] Instance set_room_voice : Setter room_voice.
Proof. derive_setter. Defined.

(** The type of room methods. *)
Abbreviation RoomM := (M NetplayRoom RoomError).

(** [NetplayRoom::new_with_protocol_and_resume]; the room id that [RoomId::new]
    draws is an argument. *)
Definition new_with_protocol_and_resume (id : RoomId) (host : VerifiedLicense)
    (host_connection : ConnectionId) (code : InviteCode) (session : NetplaySessionDescriptor)
    (protocol_version : N) (host_resume_token_hash host_input_socket_token_hash : ResumeTokenHash)
    (now : Instant) : NetplayRoom :=
  let host_slot := PlayerSlot_host host host_connection host_resume_token_hash
                     host_input_socket_token_hash now in
  let guests := (λ raw_index, PlayerSlot_empty (mkPlayerIndex (N.of_nat raw_index)))
                  <$> seq 1 (N.to_nat MVP_ROOM_CAPACITY - 1) in
  mkNetplayRoom id code protocol_version session MVP_ROOM_CAPACITY (host_slot :: guests)
    WaitingForGuest 1 1 ∅ ∅ ∅ None ∅ ∅ 1 ∅ ∅ LinkCableRoomState_default false None 1 None None None
    None 0 0 None 0 None ∅ 0 AUTHORITATIVE_STATE_HASH_INTERVAL_FRAMES 1 None [] None None None.

(** ** Queries *)

Definition uses_strict_controller_input (r : NetplayRoom) : bool :=
  (5 <=? protocol_version r) && (mode (session r) ==? ControllerNetplay).

(** [players.iter().find(|slot| slot.connection_id == Some(connection_id))]. *)
Definition has_connection (c : ConnectionId) (s : PlayerSlot) : bool :=
  slot_connection_id s ==? Some c.
Definition has_input_connection (c : ConnectionId) (s : PlayerSlot) : bool :=
  slot_input_connection_id s ==? Some c.
Definition has_index (p : PlayerIndex) (s : PlayerSlot) : bool := slot_player_index s ==? p.
Definition has_role (role : PlayerRole) (s : PlayerSlot) : bool := slot_role s ==? role.

Definition find_slot (f : PlayerSlot → bool) (r : NetplayRoom) : option PlayerSlot :=
  List.find f (players r).

Definition player_index_for_connection (c : ConnectionId) (r : NetplayRoom) : option PlayerIndex :=
  slot_player_index <$> find_slot (has_connection c) r.

Definition player_index_for_input_connection (c : ConnectionId) (r : NetplayRoom)
    : option PlayerIndex :=
  slot_player_index <$> find_slot (has_input_connection c) r.

Definition connected_player_indices (r : NetplayRoom) : list PlayerIndex :=
  slot_player_index <$> List.filter is_connected (players r).

(** [slot_for_player] of room_start_sync.rs. *)
Definition slot_for_player (p : PlayerIndex) (r : NetplayRoom) : option PlayerSlot :=
  find_slot (has_index p) r.

(** The shape of the [connected_players_*] queries: every slot is connected, and
    each connected player satisfies a test. *)
Definition all_connected (test : PlayerIndex → bool) (r : NetplayRoom) : bool :=
  (N.of_nat (length (connected_player_indices r)) =? max_players r)
  && forallb test (connected_player_indices r).

Definition connected_players_have_fingerprints (r : NetplayRoom) : bool :=
  all_connected (λ p, is_some (compatibility r !! p)) r.

Definition connected_players_have_input_sockets (r : NetplayRoom) : bool :=
  all_connected (λ p, is_some_and (find_slot (has_index p) r)
                        (λ s, is_some (slot_input_connection_id s))) r.

Definition connected_players_are_ready (r : NetplayRoom) : bool :=
  all_connected (λ p, bool_decide (p ∈ ready_players r)) r.

Definition connected_players_support_scheduled_start (r : NetplayRoom) : bool :=
  all_connected (λ p, is_some_and (slot_for_player p r)
                        (λ s, slot_supports_scheduled_start s && slot_supports_clock_sync s)) r.

(** [compatibility.values().find_map(valid_determinism_v5)]. *)
Fixpoint find_map {A B} (f : A → option B) (l : list A) : option B :=
  match l with
  | [] => None
  | a :: l' => match f a with Some b => Some b | None => find_map f l' end
  end.
Definition negotiated_profile (r : NetplayRoom) : option DeterminismProfileV5 :=
  find_map valid_determinism_v5 (map_values (compatibility r)).

Definition state_digest_mode (r : NetplayRoom) : StateDigestMode :=
  if negb (uses_strict_controller_input r) then Authoritative
  else
    let mode := match negotiated_profile r with
                | None => DigestDisabled
                | Some profile => digest_mode profile
                end in
    if (mode ==? Authoritative) && (game_system_id (game (session r)) !=? "snes"%string)
    then DigestDisabled else mode.

Definition fingerprint_state_format_matches_session (f : CompatibilityFingerprint) (r : NetplayRoom)
    : bool :=
  match core_state_format (core (session r)) with
  | Some state_format => fp_state_format f ==? Some state_format
  | None => true
  end.

Definition fingerprint_matches_session (f : CompatibilityFingerprint) (r : NetplayRoom) : bool :=
  let legacy_fields_match :=
    (fp_protocol_version f =? protocol_version r)
    && (fp_system_id f ==? game_system_id (game (session r)))
    && (fp_core_id f ==? core_core_id (core (session r)))
    && fingerprint_state_format_matches_session f r
    && eq_ignore_ascii_case (fp_content_hash f) (game_rom_sha256 (game (session r))) in
  if negb legacy_fields_match || negb (uses_strict_controller_input r) then legacy_fields_match
  else
    match valid_determinism_v5 f, rom_identity (session r) with
    | Some profile, Some identity =>
        (rom_size_bytes profile =? rom_size_bytes_ identity)
        && eq_ignore_ascii_case (fp_settings_hash f) (core_options_digest profile)
        && is_none_or (core_core_options_sha256 (core (session r)))
             (λ digest, eq_ignore_ascii_case digest (core_options_digest profile))
    | _, _ => false
    end.

(** ** Shared mutators *)

(** [players.iter_mut().find(p).map(f)] and [players.iter_mut().filter(p).for_each(f)]. *)
Definition update_slot (p : PlayerSlot → bool) (f : PlayerSlot → PlayerSlot) (r : NetplayRoom)
    : NetplayRoom := r <| players ::= update_first p f |>.
Definition update_slots (p : PlayerSlot → bool) (f : PlayerSlot → PlayerSlot) (r : NetplayRoom)
    : NetplayRoom := r <| players ::= update_all p f |>.

(** Every connected slot gets a status and a runtime state. *)
Definition set_connected_status (s : PlayerStatus) (rs : PlayerRuntimeState) : NetplayRoom → NetplayRoom :=
  update_slots is_connected (λ slot, slot <| slot_status := s |> <| slot_runtime_state := rs |>).

Definition runtime_state_of_status (s : PlayerStatus) : PlayerRuntimeState :=
  match s with
  | Player_Empty => Runtime_Empty
  | Player_Connected => Runtime_Connected
  | Player_CheckingCompatibility => Runtime_CheckingCompatibility
  | Player_CompatibilityFailed => Runtime_Connected
  | Player_SyncingState => Runtime_Syncing
  | Player_Ready => Runtime_Ready
  | Player_Playing => Runtime_Playing
  | Player_Paused => Runtime_Paused
  | Player_Reconnecting => Runtime_Reconnecting
  | Player_RecoveryExpired => Runtime_RecoveryExpired
  | Player_Disconnected => Runtime_Disconnected
  end.

Definition set_player_status (p : PlayerIndex) (s : PlayerStatus) : NetplayRoom → NetplayRoom :=
  update_slot (has_index p) (λ slot, slot <| slot_status := s |>
                                         <| slot_runtime_state := runtime_state_of_status s |>).

(** [next_authoritative_checkpoint_after] and [.._at_or_after] of
    room_state_hash_ops.rs. *)
Definition next_authoritative_checkpoint_after (frame : N) : N :=
  saturating_mul u64_max
    (u64_add (frame / AUTHORITATIVE_STATE_HASH_INTERVAL_FRAMES) 1)
    AUTHORITATIVE_STATE_HASH_INTERVAL_FRAMES.
Definition next_authoritative_checkpoint_at_or_after (frame : N) : N :=
  if frame =? 0 then AUTHORITATIVE_STATE_HASH_INTERVAL_FRAMES
  else saturating_mul u64_max (div_ceil frame AUTHORITATIVE_STATE_HASH_INTERVAL_FRAMES)
         AUTHORITATIVE_STATE_HASH_INTERVAL_FRAMES.

Definition reset_authoritative_state_hash_cursor (start_frame : N) (r : NetplayRoom) : NetplayRoom :=
  r <| next_authoritative_state_hash_frame := next_authoritative_checkpoint_after start_frame |>.
Definition reset_authoritative_state_hash_cursor_for_resume (resume_frame : N) (r : NetplayRoom)
    : NetplayRoom :=
  r <| next_authoritative_state_hash_frame :=
         next_authoritative_checkpoint_at_or_after resume_frame |>.

(** [reset_start_sync_state] of room_start_sync.rs. *)
Definition reset_start_sync_state (r : NetplayRoom) : NetplayRoom :=
  r <| clock_sync_request := None |> <| clock_uncertainty_by_player := ∅ |>
    <| clock_sample_indices_by_player := ∅ |> <| deterministic_ready_players := ∅ |>
    <| scheduled_start := None |>.

Definition reset_sync_state_to (start_frame : N) (r : NetplayRoom) : NetplayRoom :=
  let r := if uses_strict_controller_input r then r <| players ::= fmap clear_samples |> else r in
  let r :=
    r <| compatibility := ∅ |> <| ready_players := ∅ |> <| last_input_frames := ∅ |>
      <| next_input_frames := ∅ |> <| link_cable_state ::= link_reset |>
      <| host_snapshot_completed := false |> <| completed_snapshot_manifest := None |>
      <| pause_state := None |> <| snapshot_transfer := None |>
      <| snapshot_file_relay_transfer := None |> <| rom_relay_transfer := None |>
      <| sync_start_frame := start_frame |> <| room_frame := start_frame |>
      <| released_frame := None |> <| next_release_frame := start_frame |>
      <| pending_input_delay_change := None |> <| state_hashes := ∅ |>
      <| state_hash_true_mismatch_streak := 0 |> in
  let r := reset_authoritative_state_hash_cursor start_frame r in
  let r := r <| state_recovery := None |> <| pending_host_frame_open := None |> in
  reset_start_sync_state r.

Definition reset_sync_state : NetplayRoom → NetplayRoom := reset_sync_state_to 0.

Definition bump_room_epoch (r : NetplayRoom) : NetplayRoom := r <| room_epoch ::= λ e, u64_add e 1 |>.
Definition bump_session_epoch (r : NetplayRoom) : NetplayRoom :=
  r <| session_epoch ::= λ e, u64_add e 1 |>.

(** [finish_v5_state_recovery] of room_v5_recovery_ops.rs. *)
Definition finish_v5_state_recovery (r : NetplayRoom) : NetplayRoom := r <| state_recovery := None |>.

(** ** room_adaptive_input_delay_ops.rs *)

(** The two optional samples a health report carries. *)
Definition store_samples (local_frame : option N) (network : option ClientNetworkQualityReport)
    (now : Instant) (slot : PlayerSlot) : PlayerSlot :=
  let slot := match local_frame with
              | Some f => slot <| slot_latest_local_frame := Some f |>
                               <| slot_latest_local_frame_reported_at := Some now |>
              | None => slot
              end in
  match network with
  | Some n => slot <| slot_latest_network_report := Some n |>
                   <| slot_latest_network_reported_at := Some now |>
  | None => slot
  end.

Definition record_network_report (c : ConnectionId) (local_frame : option N)
    (network : option ClientNetworkQualityReport) (now : Instant) : NetplayRoom → NetplayRoom :=
  update_slot (has_connection c) (store_samples local_frame network now).

Definition set_input_delay (frames : N) (r : NetplayRoom) : NetplayRoom :=
  r <| session ::= λ s, s <| controller ::= λ c, c <| input_delay_frames := frames |> |> |>.

Definition apply_initial_adaptive_input_delay (now : Instant) (r : NetplayRoom) : NetplayRoom :=
  match initial_decision (input_delay_frames (controller (session r))) (players r) (room_frame r)
          (released_frame r) now with
  | None => r
  | Some decision => set_input_delay (decision_input_delay_frames decision) r
  end.

Definition apply_initial_v5_input_delay (now : Instant) (r : NetplayRoom) : NetplayRoom :=
  if negb (uses_strict_controller_input r) then r
  else
    let nominal_frame_rate :=
      (λ p, (nominal_frame_rate_numerator p, nominal_frame_rate_denominator p))
        <$> negotiated_profile r in
    match initial_v5_decision (input_delay_frames (controller (session r))) (players r)
            nominal_frame_rate now with
    | None => r
    | Some decision => set_input_delay (decision_input_delay_frames decision) r
    end.

(** [maybe_schedule_adaptive_input_delay]: disabled, always [None]. *)
Definition maybe_schedule_adaptive_input_delay (now : Instant) (r : NetplayRoom)
    : option InputDelayChange * NetplayRoom := (None, r).

Definition apply_pending_input_delay_if_due (r : NetplayRoom) : NetplayRoom :=
  match pending_input_delay_change r with
  | None => r
  | Some change =>
      if next_release_frame r <? effective_frame change then r
      else (set_input_delay (change_input_delay_frames change) r)
             <| pending_input_delay_change := None |>
  end.

(** ** Compatibility and readiness *)

(** [NetplayRoom::set_compatibility_for_connection]. *)
Definition set_compatibility_for_connection (c : ConnectionId) (fingerprint : CompatibilityFingerprint)
    : RoomM unit :=
  r ← get;
  ensure (mode (session r) ==? ControllerNetplay) CompatibilityMismatch ;;
  ensure (status r !=? Closed) RoomClosed ;;
  p ← lift_result (ok_or (player_index_for_connection c r) UnknownConnection);
  if negb (fingerprint_matches_session fingerprint r) then
    modify (λ r, set_player_status p Player_CompatibilityFailed
      (r <| compatibility ::= delete p |> <| ready_players ::= (.∖ {[p]}) |>
         <| snapshot_transfer := None |> <| snapshot_file_relay_transfer := None |>
         <| rom_relay_transfer := None |> <| status := CheckingCompatibility |>)) ;;
    throw CompatibilityMismatch
  else
    let fingerprint := fingerprint <| fp_content_hash ::= to_ascii_lowercase |> in
    modify (λ r, set_player_status p Player_CheckingCompatibility
      (r <| compatibility ::= <[p := fingerprint]> |> <| ready_players ::= (.∖ {[p]}) |>)) ;;
    r ← get;
    if negb (connected_players_have_fingerprints r) then mret tt
    else
      let mismatch :=
        match map_values (compatibility r) with
        | [] => false
        | baseline :: rest => existsb (λ f, is_some (first_mismatch baseline f)) rest
        end in
      if mismatch then
        modify (λ r, update_slots (λ s, negb (slot_is_empty s))
          (λ s, s <| slot_status := Player_CompatibilityFailed |>
                  <| slot_runtime_state := Runtime_Connected |>)
          (r <| status := CheckingCompatibility |>)) ;;
        throw CompatibilityMismatch
      else
        modify (λ r, set_connected_status Player_SyncingState Runtime_Syncing
          (r <| status := SyncingState |>)).

(** [NetplayRoom::mark_ready]. *)
Definition mark_ready (c : ConnectionId) (network : option ClientNetworkQualityReport) (now : Instant)
    : RoomM bool :=
  r ← get;
  ensure ((status r ==? SyncingState) || (status r ==? Ready)) RoomNotReady ;;
  ensure (negb ((mode (session r) ==? ControllerNetplay) && negb (host_snapshot_completed r)))
    RoomNotReady ;;
  ensure (negb ((mode (session r) ==? ControllerNetplay)
                && negb (connected_players_have_input_sockets r))) RoomNotReady ;;
  p ← lift_result (ok_or (player_index_for_connection c r) UnknownConnection);
  modify (record_network_report c None network now) ;;
  modify (λ r, set_player_status p Player_Ready (r <| ready_players ::= ({[p]} ∪.) |>)) ;;
  r ← get;
  if negb (connected_players_are_ready r) then
    modify (λ r, r <| status := Ready |>) ;; mret false
  else if connected_players_support_scheduled_start r then
    modify (λ r, r <| status := Ready |>) ;; mret false
  else
    modify (apply_initial_adaptive_input_delay now) ;;
    modify (λ r, r <| status := Playing |>) ;;
    modify finish_v5_state_recovery ;;
    modify (set_connected_status Player_Playing Runtime_Playing) ;;
    mret true.

(** ** A concrete room, for evaluating the operations *)

Module Sample.

Definition conn (n : N) : ConnectionId := mkConnectionId n.
Definition license (id : string) : VerifiedLicense :=
  mkVerifiedLicense Desktop id id "premium" [] true false.
Definition sha : string := "aaaaaaaaaaaaaaaaaaaaaaaaaaaaaaaaaaaaaaaaaaaaaaaaaaaaaaaaaaaaaaaa".
Definition controller_session : NetplaySessionDescriptor :=
  mkNetplaySessionDescriptor None None DirectInvite ControllerNetplay
    (mkNetplayGameDescriptor "snes" "Game" sha "key" None None None)
    (mkNetplayCoreDescriptor "snes9x" None None None None)
    (mkControllerNetplayDescriptor 3) None None
    (Some (mkRomIdentity "snes" "snes9x" sha 1024 None None "Game")) ExactMatchOnly None.
(** A room created by connection 1, at protocol [version]. *)
Definition room (version : N) : NetplayRoom :=
  new_with_protocol_and_resume (mkRoomId 7) (license "host") (conn 1)
    (mkInviteCode (string_bytes "AB23CD")) controller_session version "resume-host" "input-host" 0.
Definition profile : DeterminismProfileV5 :=
  mkDeterminismProfileV5 "core-v1" "artifact" "x86-64" sha ["retropad"] V5_INPUT_CODEC_ID 10
    V5_INPUT_PREDICTOR_ID 60 1 1024 None "fresh" true Authoritative (Some "sha256-v1").
Definition fingerprint (version : N) : CompatibilityFingerprint :=
  mkCompatibilityFingerprint "1.0" version "snes" "snes9x" "build" None sha sha sha None "netplay"
    (Some profile).
(** A connected slot with both sockets: control [n], input [n + 10]. *)
Definition slot (p : PlayerIndex) (role : PlayerRole) (n : N) : PlayerSlot :=
  (PlayerSlot_empty p) <| slot_role := role |> <| slot_subject_key := Some "subject"%string |>
    <| slot_connection_id := Some (conn n) |> <| slot_input_connection_id := Some (conn (n + 10)) |>
    <| slot_status := Player_Playing |> <| slot_runtime_state := Runtime_Playing |>
    <| slot_last_seen_at := Some 0 |>.
(** A room in which both players play. *)
Definition playing (version : N) : NetplayRoom :=
  (room version) <| players := [slot PlayerIndex_ONE Host 1; slot PlayerIndex_TWO Guest 2] |>
    <| status := Playing |>
    <| compatibility := {[PlayerIndex_ONE := fingerprint version;
                          PlayerIndex_TWO := fingerprint version]} |>.

End Sample.
