(* ===== verification/StartSync.v ===== *)
(** * Scheduled start

  Models [src/src/rooms/room_start_sync.rs]: clock samples, deterministic-ready
  reports and the scheduling of a synchronised start. *)

From S2P Require Import Prelude Ids Text Descriptor Protocol Slots LinkState Room.
Open Scope N_scope.

Definition CLOCK_SYNC_REQUESTED_SAMPLE_COUNT : N := 2.
Definition CLOCK_SYNC_SAFETY_MARGIN_MS : N := 100.

Inductive StartSyncOutcome :=
| Waiting
| Scheduled (start : ScheduledSessionStart).

(** Decimal rendering, for the request id. *)
Fixpoint decimal_digits (fuel : nat) (n : N) : list N :=
  match fuel with
  | O => []
  | S fuel' => (if n <? 10 then [] else decimal_digits fuel' (n / 10)) ++ [48 + n mod 10]
  end.
Definition decimal (n : N) : string := string_of_bytes (decimal_digits 20 n).

(** The uncertainty values of one report ([flat_map] over three optional fields). *)
Definition report_uncertainties (report : ClientNetworkQualityReport) : list N :=
  option_list (clock_uncertainty_ms report) ++ option_list (jitter_ms report)
  ++ option_list ((λ v, v / 2) <$> round_trip_ms report).

Definition scheduled_start_uncertainty_budget (r : NetplayRoom) : N :=
  let clock_budget :=
    unwrap_or (max_list_opt (map_values (clock_uncertainty_by_player r))) 0 in
  let network_budget :=
    unwrap_or (max_list_opt
      (concat ((λ s, concat (report_uncertainties <$> option_list (slot_latest_network_report s)))
               <$> players r))) 0 in
  N.max clock_budget network_budget.

(** The delay a schedule waits for, shared by both ways to schedule. *)
Definition minimum_delay_ms : N := as_millis SCHEDULED_START_MINIMUM_DELAY.
Definition selected_delay_ms (uncertainty_ms : N) : N :=
  N.max minimum_delay_ms (u64_add uncertainty_ms CLOCK_SYNC_SAFETY_MARGIN_MS).

Definition make_start (start_frame server_time_ms : N) (r : NetplayRoom) : ScheduledSessionStart :=
  let uncertainty_ms := scheduled_start_uncertainty_budget r in
  mkScheduledSessionStart (room_epoch r) (session_epoch r) start_frame
    (u64_add server_time_ms (selected_delay_ms uncertainty_ms)) server_time_ms minimum_delay_ms
    uncertainty_ms.

(** [NetplayRoom::schedule_v5_resume]. *)
Definition schedule_v5_resume (start_frame server_time_ms : N) (r : NetplayRoom)
    : ScheduledSessionStart * NetplayRoom :=
  let start := make_start start_frame server_time_ms r in
  (start, r <| scheduled_start := Some start |>).

Definition connected_players_are_ready_for_start_sync (r : NetplayRoom) : bool :=
  forallb (λ p, bool_decide (p ∈ ready_players r)) (connected_player_indices r).

Definition connected_players_have_clock_samples (r : NetplayRoom) : bool :=
  match clock_sync_request r with
  | None => false
  | Some request =>
      forallb (λ p, is_some_and (clock_sample_indices_by_player r !! p)
        (λ samples, requested_sample_count request <=? N.of_nat (size samples)))
        (connected_player_indices r)
  end.

(** [NetplayRoom::should_request_clock_sync_sample]. *)
Definition should_request_clock_sync_sample (r : NetplayRoom) : bool :=
  (status r ==? Ready) && connected_players_support_scheduled_start r
  && connected_players_are_ready_for_start_sync r
  && negb (connected_players_have_clock_samples r) && is_none (scheduled_start r).

(** [NetplayRoom::request_clock_sync_sample]. *)
Definition request_clock_sync_sample (server_time_ms : N) (r : NetplayRoom)
    : ClockSyncSampleRequest * NetplayRoom :=
  match clock_sync_request r with
  | Some active => (active, r)
  | None =>
      let request := mkClockSyncSampleRequest
        ("clock-" +:+ decimal (room_epoch r) +:+ "-" +:+ decimal (session_epoch r) +:+ "-"
         +:+ decimal (next_clock_sync_request_id r))%string
        CLOCK_SYNC_REQUESTED_SAMPLE_COUNT server_time_ms in
      (request, r <| next_clock_sync_request_id ::= λ n, u64_add n 1 |>
                  <| clock_sync_request := Some request |>)
  end.

Definition connected_players_ready_for_scheduling (r : NetplayRoom) : bool :=
  all_connected (λ p, bool_decide (p ∈ deterministic_ready_players r)) r
  && connected_players_have_clock_samples r.

(** [NetplayRoom::try_schedule_start]. *)
Definition try_schedule_start (now : Instant) (server_time_ms : N) (r : NetplayRoom)
    : StartSyncOutcome * NetplayRoom :=
  match scheduled_start r with
  | Some start => (Scheduled start, r)
  | None =>
      if negb (connected_players_ready_for_scheduling r) then (Waiting, r)
      else
        let r := apply_initial_v5_input_delay now r in
        let start := make_start (sync_start_frame r) server_time_ms r in
        (Scheduled start, r <| status := StartScheduled |> <| scheduled_start := Some start |>)
  end.

(** [NetplayRoom::accept_clock_sync_sample]. *)
Definition accept_clock_sync_sample (c : ConnectionId) (sample : ClockSyncSample) (now : Instant)
    (server_receive_time_ms : N) : RoomM StartSyncOutcome :=
  r ← get;
  ensure (connected_players_support_scheduled_start r) RoomNotReady ;;
  p ← lift_result (ok_or (player_index_for_connection c r) UnknownConnection);
  request ← lift_result (ok_or (clock_sync_request r) RoomNotReady);
  ensure (negb ((sample_request_id sample !=? request_id request)
                || (requested_sample_count request <=? sample_index sample)
                || (sample_server_send_time_ms sample !=? request_server_send_time_ms request)
                || (client_send_time_ms sample <? client_receive_time_ms sample)
                || (server_receive_time_ms <? sample_server_send_time_ms sample)))
    InvalidPayload ;;
  let server_elapsed := server_receive_time_ms - sample_server_send_time_ms sample in
  let client_elapsed := client_send_time_ms sample - client_receive_time_ms sample in
  let round_trip_ms := saturating_sub server_elapsed client_elapsed in
  let uncertainty_ms := round_trip_ms / 2 in
  modify (λ r, r <| clock_uncertainty_by_player ::= λ m,
    match m !! p with
    | Some current => if uncertainty_ms <? current then <[p := uncertainty_ms]> m else m
    | None => <[p := uncertainty_ms]> m
    end |>) ;;
  modify (λ r, r <| clock_sample_indices_by_player ::= λ m,
    <[p := {[sample_index sample]} ∪ default ∅ (m !! p)]> m |>) ;;
  lift_total (try_schedule_start now server_receive_time_ms).

(** [NetplayRoom::mark_deterministic_ready]; the report itself is unused. *)
Definition mark_deterministic_ready (c : ConnectionId) (network : option ClientNetworkQualityReport)
    (now : Instant) (server_time_ms : N) : RoomM StartSyncOutcome :=
  r ← get;
  ensure ((status r ==? Ready) || (status r ==? StartScheduled)) RoomNotReady ;;
  ensure (connected_players_support_scheduled_start r) RoomNotReady ;;
  p ← lift_result (ok_or (player_index_for_connection c r) UnknownConnection);
  modify (record_network_report c None network now) ;;
  modify (λ r, r <| deterministic_ready_players ::= ({[p]} ∪.) |>) ;;
  modify (update_slot (has_index p) (λ s, s <| slot_runtime_state := Runtime_DeterministicReady |>)) ;;
  lift_total (try_schedule_start now server_time_ms).

(** ** Properties *)

(** What a schedule made at [server_time_ms] promises. *)
Definition schedule_ok (server_time_ms : N) (r : NetplayRoom) (s : ScheduledSessionStart) : Prop :=
  start_room_epoch s = room_epoch r ∧ start_session_epoch s = session_epoch r ∧
  created_at_server_time_ms s = server_time_ms ∧
  (start_server_time_ms s < u64_max →
   server_time_ms + minimum_delay_ms ≤ start_server_time_ms s ∧
   server_time_ms + scheduled_start_uncertainty_budget r + CLOCK_SYNC_SAFETY_MARGIN_MS
     ≤ start_server_time_ms s).

Lemma make_start_ok start_frame t r :
  schedule_ok t r (make_start start_frame t r) ∧ start_start_frame (make_start start_frame t r) = start_frame.
Proof.
  split; [|done]. split_and!; try done. intros H. revert H. unfold make_start. cbn [start_server_time_ms].
  unfold selected_delay_ms, u64_add, saturating_add. generalize (scheduled_start_uncertainty_budget r).
  generalize minimum_delay_ms CLOCK_SYNC_SAFETY_MARGIN_MS. lia.
Qed.

Lemma max_list_opt_ge l x : x ∈ l → x ≤ unwrap_or (max_list_opt l) 0.
Proof.
  assert (∀ l a, a ≤ fold_left N.max l a ∧ ∀ y, y ∈ l → y ≤ fold_left N.max l a) as Hfold.
  { clear. induction l as [|b l IH]; intros a; simpl; [split; [lia|by intros y ?%elem_of_nil]|].
    destruct (IH (N.max a b)) as [H1 H2]. split; [lia|]. intros y [->|Hy]%elem_of_cons; [lia|auto]. }
  destruct l as [|a l]; [by intros ?%elem_of_nil|]. simpl. destruct (Hfold l a) as [H1 H2].
  intros [->|Hx]%elem_of_cons; auto.
Qed.

(** The budget covers every player's measured clock uncertainty. *)
Lemma uncertainty_budget_covers p u r :
  clock_uncertainty_by_player r !! p = Some u → u ≤ scheduled_start_uncertainty_budget r.
Proof.
  intros Hp. unfold scheduled_start_uncertainty_budget. etransitivity; [|apply N.le_max_l].
  apply max_list_opt_ge. unfold map_values. apply list_elem_of_fmap. exists (p, u).
  by rewrite elem_of_map_to_list.
Qed.

Module Start.

(** C32: a start is scheduled soundly. When the relay first schedules a start, every slot is
    connected, every player reported itself deterministic-ready and gave every requested clock
    sample; the start carries the current epochs and the session's start frame, and lies at
    least three seconds ahead, and at least the safety margin beyond every player's measured
    clock uncertainty (unless the clock is at the end of its 64-bit range). *)
Theorem scheduled_start_is_sound now t r s r' :
  scheduled_start r = None → try_schedule_start now t r = (Scheduled s, r') →
  N.of_nat (length (connected_player_indices r)) = max_players r ∧
  (∀ p, p ∈ connected_player_indices r → p ∈ deterministic_ready_players r ∧
     ∃ request samples, clock_sync_request r = Some request ∧
       clock_sample_indices_by_player r !! p = Some samples ∧
       requested_sample_count request ≤ N.of_nat (size samples)) ∧
  status r' = StartScheduled ∧ scheduled_start r' = Some s ∧
  start_room_epoch s = room_epoch r ∧ start_session_epoch s = session_epoch r ∧
  start_start_frame s = sync_start_frame r ∧
  (start_server_time_ms s < u64_max → t + 3000 ≤ start_server_time_ms s ∧
   ∀ p u, clock_uncertainty_by_player r !! p = Some u → t + u + 100 ≤ start_server_time_ms s).
Proof.
  intros Hn. unfold try_schedule_start. rewrite Hn.
  destruct (connected_players_ready_for_scheduling r) eqn:Hc; [|done]. cbn [negb].
  set (r1 := apply_initial_v5_input_delay now r). intros [= <- <-].
  assert (room_epoch r1 = room_epoch r ∧ session_epoch r1 = session_epoch r ∧
          sync_start_frame r1 = sync_start_frame r ∧ scheduled_start_uncertainty_budget r1
          = scheduled_start_uncertainty_budget r) as (E1 & E2 & E3 & E4).
  { subst r1. unfold apply_initial_v5_input_delay. by repeat case_match. }
  destruct (make_start_ok (sync_start_frame r1) t r1) as ((H1 & H2 & _ & H3) & H4).
  unfold connected_players_ready_for_scheduling, all_connected in Hc.
  rewrite !andb_true_iff in Hc. destruct Hc as [[Hlen%N.eqb_eq Hdet] Hclk].
  rewrite forallb_forall in Hdet. unfold connected_players_have_clock_samples in Hclk.
  split_and!; try done.
  - intros p Hp%list_elem_of_In. split; [by eapply bool_decide_eq_true, Hdet|].
    destruct (clock_sync_request r) as [request|]; [|done]. rewrite forallb_forall in Hclk.
    specialize (Hclk p Hp). destruct (clock_sample_indices_by_player r !! p) as [samples|]; [|done].
    exists request, samples. split_and!; try done. by apply N.leb_le.
  - intros Hlt. destruct (H3 Hlt) as [Hmin Hunc]. split; [exact Hmin|]. intros p u Hu.
    apply uncertainty_budget_covers in Hu. rewrite E4 in Hunc. unfold CLOCK_SYNC_SAFETY_MARGIN_MS in Hunc.
    etransitivity; [|exact Hunc]. lia.
Qed.

(** A room whose players completed the start handshake. *)
Definition sample_ready : NetplayRoom :=
  (Sample.playing 5) <| status := Ready |>
    <| clock_sync_request := Some (mkClockSyncSampleRequest "clock" 1 0) |>
    <| clock_sample_indices_by_player := {[PlayerIndex_ONE := {[0]}; PlayerIndex_TWO := {[0]}]} |>
    <| clock_uncertainty_by_player := {[PlayerIndex_ONE := 5000]} |>
    <| deterministic_ready_players := {[PlayerIndex_ONE; PlayerIndex_TWO]} |>.

Lemma scheduled_start_is_sound_witness : 10 + 5000 + 100 ≤ 5110.
Proof.
  pose proof (scheduled_start_is_sound 0 10 sample_ready
    (mkScheduledSessionStart 1 1 0 5110 10 3000 5000) (try_schedule_start 0 10 sample_ready).2) as H.
  destruct H as (_ & _ & _ & _ & _ & _ & _ & H); [vm_compute; reflexivity..|].
  destruct H as [_ H]; [vm_compute; reflexivity|]. apply (H PlayerIndex_ONE 5000). vm_compute. reflexivity.
Defined.

End Start.
