(* ===== verification/Connection.v ===== *)
(** * Connection lifecycle

  Models [src/src/rooms/room_connection_ops.rs],
  [src/src/rooms/room_input_connection_ops.rs] and
  [src/src/rooms/room_runner_handoff_ops.rs]: attaching, losing and reclaiming
  player slots on the control and the input socket, heartbeats, and the
  desktop-to-runner handoff. *)

From S2P Require Import Prelude Ids Descriptor Protocol Slots Room.
Open Scope N_scope.

(** ** room_connection_ops.rs *)

Definition restore_checking_compatibility_after_recovery (r : NetplayRoom) : NetplayRoom :=
  update_slots (λ s, negb (slot_is_empty s) && is_connected s)
    (λ s, let s := s <| slot_status := Player_Connected |>
                     <| slot_runtime_state := Runtime_Connected |> in
          if is_none (slot_runner_handoff_deadline s)
          then s <| slot_reconnect_room_epoch := None |> else s)
    ((reset_sync_state r) <| status := CheckingCompatibility |>).

Definition reset_sync_for_checking_compatibility (r : NetplayRoom) : NetplayRoom :=
  restore_checking_compatibility_after_recovery (bump_session_epoch (bump_room_epoch r)).

Definition mark_slot_reconnecting (p : PlayerIndex) (now : Instant) (grace : Duration) (epoch : N)
    : NetplayRoom → NetplayRoom :=
  update_slot (has_index p) (λ s,
    s <| slot_status := Player_Reconnecting |> <| slot_runtime_state := Runtime_Reconnecting |>
      <| slot_reconnect_deadline := Some (now + grace) |>
      <| slot_reconnect_room_epoch := Some epoch |> <| slot_runner_handoff_deadline := None |>).

Definition clear_disconnected_slot (p : PlayerIndex) (is_host : bool) (r : NetplayRoom)
    : NetplayRoom :=
  let r := update_slot (has_index p) (λ s,
    let s := clear_samples (clear_input_socket (clear_recovery s))
               <| slot_runtime_state := Runtime_Disconnected |> in
    if is_host then s <| slot_status := Player_Disconnected |>
    else s <| slot_subject_key := None |> <| slot_resume_token_hash := None |>
           <| slot_input_socket_token_hash := None |> <| slot_status := Player_Empty |>) r in
  let r := reset_sync_state r in
  if is_host then r <| status := Closed |> else r.

Definition enter_recovery_state (reconnect_room_epoch : N) (r : NetplayRoom) : NetplayRoom :=
  update_slots is_connected (λ s,
    s <| slot_status := Player_Connected |> <| slot_runtime_state := Runtime_Connected |>
      <| slot_reconnect_room_epoch ::= λ e, get_or_insert e reconnect_room_epoch |>)
    (bump_session_epoch (bump_room_epoch (reset_sync_state (r <| status := Recovering |>)))).

(** The per-player sync state dropped with a connection. *)
Definition forget_player (p : PlayerIndex) (r : NetplayRoom) : NetplayRoom :=
  r <| compatibility ::= delete p |> <| ready_players ::= (.∖ {[p]}) |>
    <| last_input_frames ::= delete p |> <| next_input_frames ::= delete p |>.

(** [NetplayRoom::join_guest_with_resume]. *)
Definition join_guest_with_resume (license : VerifiedLicense) (c : ConnectionId)
    (resume_token_hash input_socket_token_hash : ResumeTokenHash) (now : Instant)
    (capabilities : ClientTransportCapabilities) : RoomM PlayerIndex :=
  r ← get;
  ensure (status r !=? Closed) RoomClosed ;;
  slot ← lift_result (ok_or (find_slot slot_is_empty r) RoomFull);
  modify (update_slot slot_is_empty
    (occupy_guest license c resume_token_hash input_socket_token_hash now capabilities)) ;;
  modify reset_sync_for_checking_compatibility ;;
  mret (slot_player_index slot).

(** The slot assignments of [attach_host_with_resume]. *)
Definition attach_host_slot (c : ConnectionId)
    (resume_token_hash input_socket_token_hash : ResumeTokenHash) (now : Instant)
    (capabilities : ClientTransportCapabilities) (s : PlayerSlot) : PlayerSlot :=
  clear_samples (clear_recovery (with_capabilities capabilities
    (s <| slot_connection_id := Some c |> <| slot_input_connection_id := None |>
       <| slot_status := Player_Connected |> <| slot_runtime_state := Runtime_Connected |>
       <| slot_resume_token_hash := Some resume_token_hash |>
       <| slot_input_socket_token_hash := Some input_socket_token_hash |>
       <| slot_input_socket_control_connection_id := Some c |>)))
    <| slot_last_seen_at := Some now |>.

(** [NetplayRoom::attach_host_with_resume]. *)
Definition attach_host_with_resume (license : VerifiedLicense) (c : ConnectionId)
    (resume_token_hash input_socket_token_hash : ResumeTokenHash) (now : Instant)
    (capabilities : ClientTransportCapabilities) : RoomM PlayerIndex :=
  r ← get;
  ensure (status r !=? Closed) RoomClosed ;;
  slot ← lift_result (ok_or (find_slot (has_role Host) r) UnknownConnection);
  ensure (is_some_and (slot_subject_key slot) (λ k, k ==? identity_key license))
    HostSubjectMismatch ;;
  modify (update_slot (has_role Host)
    (attach_host_slot c resume_token_hash input_socket_token_hash now capabilities)) ;;
  modify (λ r, r <| ready_players ::= (.∖ {[slot_player_index slot]}) |>) ;;
  mret (slot_player_index slot).

(** [NetplayRoom::player_exited]. *)
Definition player_exited (c : ConnectionId) (now : Instant) : RoomM PlayerIndex :=
  r ← get;
  p ← lift_result (ok_or (player_index_for_connection c r) UnknownConnection);
  modify (λ r, update_slots (λ s, negb (slot_is_empty s)) (λ s,
    clear_recovery (clear_samples (clear_input_socket (s <| slot_connection_id := None |>)
        <| slot_last_seen_at := Some now |>))
      <| slot_status := Player_Disconnected |> <| slot_runtime_state := Runtime_Disconnected |>)
    (reset_sync_state (r <| status := Closed |>))) ;;
  mret p.

(** ** room_runner_handoff_ops.rs *)

(** [NetplayRoom::arm_runner_handoff]. *)
Definition arm_runner_handoff (c : ConnectionId) (now : Instant) (grace : Duration) : RoomM unit :=
  r ← get;
  ensure (negb (bool_decide (status r ∈ [Closed; StartScheduled; Playing; Paused; Recovering])))
    RoomNotReady ;;
  lift_result (ok_or (find_slot (has_connection c) r) UnknownConnection) ;;
  modify (update_slot (has_connection c) (λ s,
    s <| slot_runner_handoff_deadline := Some (now + grace) |>
      <| slot_reconnect_room_epoch := Some (room_epoch r) |>)).

(** [NetplayRoom::cancel_runner_handoff]. *)
Definition cancel_runner_handoff (c : ConnectionId) : RoomM unit :=
  r ← get;
  lift_result (ok_or (find_slot (has_connection c) r) UnknownConnection) ;;
  modify (update_slot (has_connection c) (λ s,
    s <| slot_runner_handoff_deadline := None |> <| slot_reconnect_room_epoch := None |>)).

(** [NetplayRoom::preserve_runner_handoff_disconnect]. *)
Definition preserve_runner_handoff_disconnect (c : ConnectionId) (now : Instant) : RoomM bool :=
  r ← get;
  slot ← lift_result (ok_or (find_slot (has_connection c) r) UnknownConnection);
  match slot_runner_handoff_deadline slot with
  | None => mret false
  | Some deadline =>
      if deadline <=? now then
        modify (update_slot (has_connection c) (λ s, s <| slot_runner_handoff_deadline := None |>)) ;;
        mret false
      else
        modify (update_slot (has_connection c) (λ s,
          clear_samples (clear_input_socket (s <| slot_connection_id := None |>))
            <| slot_last_seen_at := Some now |> <| slot_status := Player_Reconnecting |>
            <| slot_runtime_state := Runtime_Reconnecting |> <| slot_reconnect_deadline := None |>
            <| slot_reconnect_room_epoch := Some (room_epoch r) |>)) ;;
        modify (forget_player (slot_player_index slot)) ;;
        modify reset_sync_state ;;
        mret true
  end.

(** The loop of [expire_runner_handoffs] over the expired slots. *)
Fixpoint expire_handoffs_loop (expired : list (PlayerIndex * PlayerRole * bool))
    (guest_cleared : bool) (r : NetplayRoom) : option bool * NetplayRoom :=
  match expired with
  | [] => if guest_cleared then (Some false, r <| status := WaitingForGuest |>) else (None, r)
  | (p, role, disconnected) :: expired =>
      if negb disconnected then
        expire_handoffs_loop expired guest_cleared
          (update_slot (has_index p) (λ s, s <| slot_runner_handoff_deadline := None |>) r)
      else
        let is_host := role ==? Host in
        let r := clear_disconnected_slot p is_host r in
        if is_host then (Some true, r) else expire_handoffs_loop expired true r
  end.

(** [NetplayRoom::expire_runner_handoffs]. *)
Definition expire_runner_handoffs (now : Instant) (r : NetplayRoom) : option bool * NetplayRoom :=
  let expired :=
    (λ s, (slot_player_index s, slot_role s, negb (is_connected s)))
      <$> List.filter (λ s, is_some_and (slot_runner_handoff_deadline s) (λ d, d <=? now))
            (players r) in
  expire_handoffs_loop expired false r.

(** ** room_connection_ops.rs, continued *)

(** [NetplayRoom::disconnect_with_recovery]. *)
Definition disconnect_with_recovery (c : ConnectionId) (now : Instant) (grace : Duration)
    : RoomM bool :=
  preserved ← preserve_runner_handoff_disconnect c now;
  if preserved : bool then mret false
  else
    r ← get;
    slot ← lift_result (ok_or (find_slot (has_connection c) r) UnknownConnection);
    let p := slot_player_index slot in
    let is_host := slot_role slot ==? Host in
    let already_recovering := status r ==? Recovering in
    let recoverable :=
      bool_decide (status r ∈ [StartScheduled; Playing; Paused; RepairingState; Recovering]) in
    let epoch := unwrap_or (slot_reconnect_room_epoch slot)
                   (if already_recovering then saturating_sub (room_epoch r) 1 else room_epoch r) in
    modify (update_slot (has_connection c) (λ s,
      clear_input_socket (s <| slot_connection_id := None |>) <| slot_last_seen_at := Some now |>)) ;;
    modify (forget_player p) ;;
    if recoverable then
      modify (mark_slot_reconnecting p now grace epoch) ;;
      (if negb already_recovering then modify (enter_recovery_state epoch) else mret tt) ;;
      mret false
    else
      modify (clear_disconnected_slot p is_host) ;;
      if is_host then mret true
      else modify (λ r, r <| status := WaitingForGuest |>) ;; mret false.

(** [PlayerReconnectRequest]. *)
Record PlayerReconnectRequest := mkPlayerReconnectRequest {
  req_player_index : PlayerIndex;
  req_resume_token_hash : string;
  req_next_resume_token_hash : ResumeTokenHash;
  req_input_socket_token_hash : ResumeTokenHash;
  req_room_epoch : N;
  req_connection_id : ConnectionId;
  req_now : Instant;
  req_capabilities : ClientTransportCapabilities }.

(** The slot assignments of a successful [reconnect_player]. *)
Definition reconnect_slot (q : PlayerReconnectRequest) (s : PlayerSlot) : PlayerSlot :=
  clear_recovery (clear_samples (with_capabilities (req_capabilities q)
    (s <| slot_connection_id := Some (req_connection_id q) |>
       <| slot_input_connection_id := None |> <| slot_status := Player_Connected |>
       <| slot_runtime_state := Runtime_Reconnecting |>
       <| slot_resume_token_hash := Some (req_next_resume_token_hash q) |>
       <| slot_input_socket_token_hash := Some (req_input_socket_token_hash q) |>
       <| slot_input_socket_control_connection_id := Some (req_connection_id q) |>)
      <| slot_last_seen_at := Some (req_now q) |>)).

(** [NetplayRoom::reconnect_player]. *)
Definition reconnect_player (q : PlayerReconnectRequest) : RoomM unit :=
  r ← get;
  ensure (status r !=? Closed) RoomClosed ;;
  slot ← lift_result (ok_or (find_slot (has_index (req_player_index q)) r) UnknownConnection);
  ensure (slot_resume_token_hash slot ==? Some (req_resume_token_hash q)) ResumeTokenInvalid ;;
  let runner_handoff := is_some (slot_runner_handoff_deadline slot) in
  ensure (negb (negb runner_handoff
                && (is_connected slot || is_none (slot_reconnect_deadline slot))))
    ResumeTokenInvalid ;;
  let accepted_epoch := unwrap_or (slot_reconnect_room_epoch slot) (room_epoch r) in
  ensure (negb ((req_room_epoch q !=? accepted_epoch) && (req_room_epoch q !=? room_epoch r)))
    StaleRoomEpoch ;;
  let reconnect_expired := is_some_and (slot_reconnect_deadline slot) (λ d, d <=? req_now q) in
  let handoff_expired := is_some_and (slot_runner_handoff_deadline slot) (λ d, d <=? req_now q) in
  if reconnect_expired || handoff_expired then
    modify (update_slot (has_index (req_player_index q)) (λ s,
      s <| slot_status := Player_RecoveryExpired |>
        <| slot_runtime_state := Runtime_RecoveryExpired |>)) ;;
    throw RecoveryExpired
  else
    modify (update_slot (has_index (req_player_index q)) (reconnect_slot q)) ;;
    if negb runner_handoff then modify restore_checking_compatibility_after_recovery else mret tt.

(** [NetplayRoom::record_heartbeat]. *)
Definition record_heartbeat (c : ConnectionId) (now : Instant) (local_frame : option N)
    (network : option ClientNetworkQualityReport) (runtime_state : ClientRuntimeState)
    : RoomM unit :=
  r ← get;
  p ← lift_result (ok_or (player_index_for_connection c r) UnknownConnection);
  modify (update_slot (has_index p) (λ s,
    store_samples local_frame network now (s <| slot_last_seen_at := Some now |>)
      <| slot_runtime_state := runtime_state_of_client runtime_state |>)).

(** The statuses in which heartbeat loss is acted upon. *)
Definition heartbeat_monitored (r : NetplayRoom) : bool :=
  bool_decide (status r ∈ [StartScheduled; Playing; Paused; RepairingState]).

(** [NetplayRoom::recover_stale_connections]. *)
Definition recover_stale_connections (now : Instant) (heartbeat_disconnect grace : Duration)
    (r : NetplayRoom) : bool * NetplayRoom :=
  if negb (heartbeat_monitored r) then (false, r)
  else
    let stale_players :=
      slot_player_index <$> List.filter (λ s, is_connected s
        && is_some_and (slot_last_seen_at s) (λ t, heartbeat_disconnect <=? duration_since now t))
        (players r) in
    match stale_players with
    | [] => (false, r)
    | _ =>
        let r := foldl (λ r p,
          update_slot (has_index p) (λ s,
            clear_input_socket (s <| slot_connection_id := None |>)
              <| slot_last_seen_at := Some now |> <| slot_status := Player_Reconnecting |>
              <| slot_runtime_state := Runtime_Reconnecting |>
              <| slot_reconnect_deadline := Some (now + grace) |>
              <| slot_reconnect_room_epoch := Some (room_epoch r) |>
              <| slot_runner_handoff_deadline := None |>)
            (forget_player p r)) r stale_players in
        (true, enter_recovery_state (room_epoch r) r)
    end.

(** Whether a heartbeat age marks a slot stale. *)
Definition becomes_stale (now : Instant) (stale disconnect : Duration) (s : PlayerSlot) : bool :=
  is_connected s && is_some_and (slot_last_seen_at s) (λ t,
    (stale <=? duration_since now t) && (duration_since now t <? disconnect)
    && (slot_runtime_state s !=? Runtime_Stale)).

(** [NetplayRoom::mark_stale_connections]. *)
Definition mark_stale_connections (now : Instant) (stale disconnect : Duration) (r : NetplayRoom)
    : bool * NetplayRoom :=
  if negb (heartbeat_monitored r) then (false, r)
  else (existsb (becomes_stale now stale disconnect) (players r),
        update_slots (becomes_stale now stale disconnect)
          (λ s, s <| slot_runtime_state := Runtime_Stale |>) r).

(** [NetplayRoom::is_recovery_expired]. *)
Definition is_recovery_expired (now : Instant) (r : NetplayRoom) : bool :=
  (status r ==? Recovering)
  && existsb (λ s, is_some_and (slot_reconnect_deadline s) (λ d, d <=? now)) (players r).

(** [NetplayRoom::is_idle_disconnected]. *)
Definition is_idle_disconnected (now : Instant) (idle_timeout : Duration) (r : NetplayRoom) : bool :=
  let occupied := List.filter (λ s, negb (slot_is_empty s)) (players r) in
  negb (match occupied with [] => true | _ => false end)
  && forallb (λ s, is_none_or (slot_last_seen_at s) (λ t, idle_timeout <=? duration_since now t))
       occupied
  && forallb (λ s, is_none (slot_connection_id s)) (players r).

(** ** room_input_connection_ops.rs *)

(** [NetplayRoom::attach_input_socket]. *)
Definition attach_input_socket (p : PlayerIndex) (room_epoch_ session_epoch_ : N)
    (input_socket_token_hash : string) (input_connection : ConnectionId) (now : Instant)
    : RoomM unit :=
  r ← get;
  ensure (status r !=? Closed) RoomClosed ;;
  ensure (room_epoch r =? room_epoch_) StaleRoomEpoch ;;
  ensure (session_epoch r =? session_epoch_) StaleSessionEpoch ;;
  slot ← lift_result (ok_or (find_slot (has_index p) r) UnknownConnection);
  ensure (slot_input_socket_token_hash slot ==? Some input_socket_token_hash) ResumeTokenInvalid ;;
  control ← lift_result (ok_or (slot_connection_id slot) ResumeTokenInvalid);
  ensure (negb ((slot_input_socket_control_connection_id slot !=? Some control)
                || is_some (slot_input_connection_id slot))) ResumeTokenInvalid ;;
  modify (update_slot (has_index p) (λ s,
    s <| slot_input_socket_token_hash := None |>
      <| slot_input_socket_control_connection_id := None |>
      <| slot_input_connection_id := Some input_connection |> <| slot_last_seen_at := Some now |>)).

(** [NetplayRoom::disconnect_input_socket]. *)
Definition disconnect_input_socket (input_connection : ConnectionId) (now : Instant)
    (grace : Duration) : RoomM bool :=
  r ← get;
  let recoverable := bool_decide (status r ∈ [StartScheduled; Playing; Paused; Recovering]) in
  slot ← lift_result (ok_or (find_slot (has_input_connection input_connection) r) UnknownConnection);
  modify (update_slot (has_input_connection input_connection) (λ s,
    clear_input_socket s <| slot_last_seen_at := Some now |>)) ;;
  modify (λ r, r <| last_input_frames ::= delete (slot_player_index slot) |>
                 <| next_input_frames ::= delete (slot_player_index slot) |>) ;;
  if recoverable then
    control ← lift_result (ok_or (slot_connection_id slot) UnknownConnection);
    disconnect_with_recovery control now grace ;;
    mret true
  else mret false.
