(* ===== verification/PauseOps.v ===== *)
(** * Coordinated pause and resume

  Models the pause half of [src/src/rooms/room_controller_netplay_ops.rs] and
  [src/src/rooms/room_v5_pause_ops.rs]. *)

From S2P Require Import Prelude Ids Descriptor Protocol Slots PauseState Room StartSync.
Open Scope N_scope.

Definition SESSION_PAUSE_LEAD_FRAMES : N := 8.

Inductive SessionResumeOutcome :=
| StillPaused (view : SessionPauseView)
| Resumed (frame : N)
| ResumedV5 (start : ScheduledSessionStart).

Inductive SessionPauseReachedOutcome :=
| ReachedPausing (view : SessionPauseView)
| ReachedPaused (view : SessionPauseView)
| ReachedResumed (sequence : N) (frame : N)
| ReachedResumedV5 (sequence : N) (start : ScheduledSessionStart).

Definition current_pause_state (r : NetplayRoom) : SessionPauseState :=
  if status r ==? Paused then PauseStatePaused else PauseStatePausing.

(** [begin_v5_pause_resume] of room_v5_pause_ops.rs. *)
Definition begin_v5_pause_resume (resume_frame server_time_ms : N) (r : NetplayRoom)
    : ScheduledSessionStart * NetplayRoom :=
  let r := bump_session_epoch r in
  let r :=
    r <| last_input_frames := ∅ |> <| next_input_frames := ∅ |> <| pause_state := None |>
      <| snapshot_transfer := None |> <| snapshot_file_relay_transfer := None |>
      <| sync_start_frame := resume_frame |> <| room_frame := resume_frame |>
      <| released_frame := None |> <| next_release_frame := resume_frame |>
      <| pending_input_delay_change := None |> <| state_hashes := ∅ |>
      <| state_hash_true_mismatch_streak := 0 |> in
  let r := reset_authoritative_state_hash_cursor_for_resume resume_frame r in
  let r := r <| pending_host_frame_open := None |> <| scheduled_start := None |>
             <| status := StartScheduled |> in
  let r := set_connected_status Player_Ready Runtime_DeterministicReady r in
  schedule_v5_resume resume_frame server_time_ms r.

(** [NetplayRoom::request_session_pause_with_id]. *)
Definition request_session_pause_with_id (c : ConnectionId) (request_id : string)
    (reason : SessionPauseReason) (local_frame : N) : RoomM SessionPauseView :=
  r ← get;
  ensure ((status r ==? Playing) || (status r ==? Paused)) NotPlaying ;;
  p ← lift_result (ok_or (player_index_for_connection c r) UnknownConnection);
  match pause_state r with
  | Some pause =>
      let pause := hold p request_id reason pause in
      modify (λ r, r <| pause_state := Some pause |>) ;;
      mret (tracker_view (current_pause_state r) pause)
  | None =>
      let sequence := next_pause_sequence r in
      let pause_at := u64_add (N.max (room_frame r) local_frame) SESSION_PAUSE_LEAD_FRAMES in
      let pause := tracker_new sequence request_id reason p pause_at in
      modify (λ r, r <| next_pause_sequence ::= λ n, u64_add n 1 |>
                     <| pause_state := Some pause |>) ;;
      mret (tracker_view PauseStatePausing pause)
  end.

(** The non-strict end of a pause: back to [Playing]. *)
Definition resume_playing (r : NetplayRoom) : NetplayRoom :=
  set_connected_status Player_Playing Runtime_Playing
    (r <| pause_state := None |> <| status := Playing |>).

(** The strict-room guard: the pause frame was released and every connected
    player's input covers it. *)
Definition strict_pause_covered (pause_at : N) (r : NetplayRoom) : bool :=
  negb (is_none_or (released_frame r) (λ released, released <? pause_at)
        || existsb (λ p, unwrap_or (next_input_frames r !! p) (sync_start_frame r) <=? pause_at)
             (connected_player_indices r)).

(** [NetplayRoom::mark_session_pause_reached_internal]. *)
Definition mark_session_pause_reached_internal (c : ConnectionId) (sequence frame : N)
    (server_time_ms : option N) : RoomM SessionPauseReachedOutcome :=
  r ← get;
  let strict_resume := uses_strict_controller_input r in
  p ← lift_result (ok_or (player_index_for_connection c r) UnknownConnection);
  let connected_players := connected_player_indices r in
  pause ← lift_result (ok_or (pause_state r) RoomNotReady);
  let frame_is_invalid :=
    if strict_resume then frame !=? pause_at_frame pause else frame <? pause_at_frame pause in
  ensure (negb (negb (has_sequence sequence pause) || frame_is_invalid)) RoomNotReady ;;
  ensure (negb (strict_resume && negb (strict_pause_covered (pause_at_frame pause) r)))
    RoomNotReady ;;
  let pause := acknowledge p frame pause in
  modify (λ r, r <| pause_state := Some pause |>) ;;
  if every_connected_player_acknowledged connected_players pause then
    if negb (has_holders pause) then
      if strict_resume then
        server_time_ms ← lift_result (ok_or server_time_ms RoomNotReady);
        start ← lift_total (begin_v5_pause_resume (resume_at_frame pause) server_time_ms);
        mret (ReachedResumedV5 sequence start)
      else
        modify resume_playing ;;
        mret (ReachedResumed sequence (resume_at_frame pause))
    else
      modify (λ r, set_connected_status Player_Paused Runtime_Paused (r <| status := Paused |>)) ;;
      mret (ReachedPaused (tracker_view PauseStatePaused pause))
  else mret (ReachedPausing (tracker_view PauseStatePausing pause)).

(** [NetplayRoom::request_session_resume_internal]; the reason is unused. *)
Definition request_session_resume_internal (c : ConnectionId) (request_id : string) (sequence : N)
    (server_time_ms : option N) : RoomM SessionResumeOutcome :=
  r ← get;
  let strict_resume := uses_strict_controller_input r in
  p ← lift_result (ok_or (player_index_for_connection c r) UnknownConnection);
  pause ← lift_result (ok_or (pause_state r) RoomNotReady);
  ensure (has_sequence sequence pause) RoomNotReady ;;
  let pause := release p request_id pause in
  modify (λ r, r <| pause_state := Some pause |>) ;;
  if has_holders pause then mret (StillPaused (tracker_view (current_pause_state r) pause))
  else if status r !=? Paused then
    mret (StillPaused (tracker_view (current_pause_state r) pause))
  else if strict_resume then
    server_time_ms ← lift_result (ok_or server_time_ms RoomNotReady);
    start ← lift_total (begin_v5_pause_resume (resume_at_frame pause) server_time_ms);
    mret (ResumedV5 start)
  else
    modify resume_playing ;;
    mret (Resumed (resume_at_frame pause)).

(** ** Properties *)

Lemma strict_pause_covered_spec f r :
  strict_pause_covered f r = true →
  (∃ released, released_frame r = Some released ∧ f ≤ released) ∧
  (∀ q, q ∈ connected_player_indices r → f < unwrap_or (next_input_frames r !! q) (sync_start_frame r)).
Proof.
  unfold strict_pause_covered. rewrite negb_true_iff, orb_false_iff. intros [Hr Hi]. split.
  - destruct (released_frame r) as [released|]; [|done]. exists released. split; [done|].
    by apply N.ltb_ge in Hr.
  - intros q Hq. apply N.lt_nge. intros Hle. apply not_true_iff_false in Hi. apply Hi.
    apply existsb_exists. exists q. split; [by apply list_elem_of_In|by apply N.leb_le].
Qed.

(** What the acknowledgement that ends a strict pause checked, and the resume it begins. *)
Lemma strict_pause_reached_wp c sq f t r start :
  uses_strict_controller_input r = true →
  wp (mark_session_pause_reached_internal c sq f t) (λ o r', o = ReachedResumedV5 sq start →
  ∃ p pause tm, player_index_for_connection c r = Some p ∧ pause_state r = Some pause ∧
    pause_sequence pause = sq ∧ f = pause_at_frame pause ∧ holders pause = ∅ ∧
    strict_pause_covered f r = true ∧
    every_connected_player_acknowledged (connected_player_indices r) (acknowledge p f pause) = true ∧
    (start, r') = begin_v5_pause_resume (resume_at_frame (acknowledge p f pause)) tm
                    (r <| pause_state := Some (acknowledge p f pause) |>)) (λ _ _, True) r.
Proof.
  intros Hs. unfold mark_session_pause_reached_internal. apply wp_bind, wp_get. cbv zeta. rewrite Hs.
  wp_go; try done. intros [= <-].
  repeat match goal with
  | E : negb _ = true |- _ => rewrite negb_true_iff in E
  | E : (_ || _) = false |- _ => apply orb_false_iff in E as [? ?]
  | E : negb _ = false |- _ => rewrite negb_false_iff in E
  | E : (true && _) = false |- _ => cbn in E
  end.
  match goal with E : has_sequence sq ?x = true, E2 : bool_decide (f = pause_at_frame ?x) = true |- _ =>
    exists p, x; apply N.eqb_eq in E; apply bool_decide_eq_true in E2 end.
  eexists. split_and!; try done; [|congruence].
  match goal with E : has_holders _ = false |- _ => unfold has_holders in E; rewrite bool_decide_neq_false in E; exact E end.
Qed.

Module Pause.

(** A protocol v5 pause ends soundly. When a pause acknowledgement ends the pause of a
    strict room, it named the exact pause frame, that frame was released, every connected
    player's input covers it, no player still holds the pause and every connected player
    acknowledged it; the room then starts a fresh session epoch, with empty input cursors, at
    the frame after the pause, scheduled at least three seconds ahead. *)
Theorem strict_pause_resumes_soundly c sq f t r start r' :
  uses_strict_controller_input r = true →
  mark_session_pause_reached_internal c sq f t r = (Ok (ReachedResumedV5 sq start), r') →
  ∃ p pause, player_index_for_connection c r = Some p ∧ pause_state r = Some pause ∧
    pause_sequence pause = sq ∧ f = pause_at_frame pause ∧ holders pause = ∅ ∧
    (∃ released, released_frame r = Some released ∧ f ≤ released) ∧
    (∀ q, q ∈ connected_player_indices r →
       (q = p ∨ q ∈ acknowledged_players pause) ∧
       f < unwrap_or (next_input_frames r !! q) (sync_start_frame r)) ∧
    let resume := u64_add (N.max (unwrap_or (paused_at_frame pause) f) f) 1 in
    start_start_frame start = resume ∧ sync_start_frame r' = resume ∧
    next_release_frame r' = resume ∧ released_frame r' = None ∧ next_input_frames r' = ∅ ∧
    status r' = StartScheduled ∧ pause_state r' = None ∧ scheduled_start r' = Some start ∧
    session_epoch r' = u64_add (session_epoch r) 1 ∧ start_session_epoch start = session_epoch r' ∧
    (start_server_time_ms start < u64_max →
     created_at_server_time_ms start + 3000 ≤ start_server_time_ms start).
Proof.
  intros Hs H.
  pose proof (strict_pause_reached_wp c sq f t r start Hs) as Hw.
  destruct (wp_ok _ _ _ _ _ _ Hw H eq_refl) as (p & pause & tm & H1 & H2 & H3 & H4 & H5 & H6 & H7 & H8).
  exists p, pause. destruct (strict_pause_covered_spec f r H6) as [Hrel Hcov].
  assert (u64_add (N.max (unwrap_or (paused_at_frame pause) f) f) 1
          = resume_at_frame (acknowledge p f pause)) as Hres.
  { rewrite resume_at_frame_acknowledged. destruct (paused_at_frame pause); simpl; f_equal; lia. }
  unfold begin_v5_pause_resume, schedule_v5_resume in H8. injection H8 as -> ->.
  split_and!; try done.
  - intros q Hq. split; [|by apply Hcov]. unfold every_connected_player_acknowledged in H7.
    apply andb_true_iff in H7 as [_ H7]. rewrite forallb_forall in H7.
    specialize (H7 q ltac:(by apply list_elem_of_In)). apply bool_decide_eq_true in H7. set_solver.
  - cbv zeta. rewrite Hres. split_and!; try done.
    match goal with |- context [make_start ?a ?b ?x] => destruct (make_start_ok a b x) as ((_ & _ & Hc & Hlt) & _) end.
    intros Hlt'. rewrite Hc. by apply Hlt.
Qed.

(** A paused room: the guest acknowledged frame 8 and nobody holds the pause any more. *)
Definition sample_paused : NetplayRoom :=
  (Sample.playing 5) <| status := Paused |> <| released_frame := Some 8 |> <| next_release_frame := 9 |>
    <| room_frame := 8 |>
    <| next_input_frames := {[PlayerIndex_ONE := 12; PlayerIndex_TWO := 9]} |>
    <| pause_state := Some ((tracker_new 1 "" Menu PlayerIndex_ONE 8) <| holders := ∅ |>
         <| acknowledged_players := {[PlayerIndex_TWO]} |> <| paused_at_frame := Some 8 |>) |>.

Lemma strict_pause_resumes_soundly_witness :
  let r' := (mark_session_pause_reached_internal (Sample.conn 1) 1 8 (Some 100) sample_paused).2 in
  scheduled_start r' = Some (mkScheduledSessionStart 1 2 9 3100 100 3000 0).
Proof.
  destruct (strict_pause_resumes_soundly (Sample.conn 1) 1 8 (Some 100) sample_paused
    (mkScheduledSessionStart 1 2 9 3100 100 3000 0)
    (mark_session_pause_reached_internal (Sample.conn 1) 1 8 (Some 100) sample_paused).2) as (p & pause & H);
    [vm_compute; reflexivity..|].
  destruct H as (_ & _ & _ & _ & _ & _ & _ & _ & _ & _ & _ & _ & _ & _ & H & _). exact H.
Defined.

End Pause.
