(* ===== verification/InputRelay.v ===== *)
(** * Controller input

  Models the input half of [src/src/rooms/room_controller_netplay_ops.rs] (the
  legacy, gap-tolerant cursors) and [src/src/rooms/room_strict_input_ops.rs] (the
  protocol v5 exact-next cursors), with [input_frame_acceptance.rs]. *)

From Stdlib Require Import Strings.Byte.
From S2P Require Import Prelude Ids Wire StrictInput Descriptor Protocol Slots PauseState Room.
Open Scope N_scope.

(** The [+] of [u64] in a release build: it wraps. *)
Definition wrapping_add (a b : N) : N := (a + b) mod (u64_max + 1).

Inductive InputFrameAcceptance := Relay | Ignore.

#[export] Instance InputFrameAcceptance_eq_dec : EqDecision InputFrameAcceptance.
Proof. solve_decision. Defined.

Record InputFrameCursor := mkInputFrameCursor {
  cursor_player : PlayerIndex;
  cursor_frame : N }.

Definition cursor_from_input (input : InputFrame) : InputFrameCursor :=
  mkInputFrameCursor (frame_player_index input) (frame_frame input).

(** The last frame accepted while a pause is pending. *)
Definition accept_through (pause : SessionPauseStateTracker) (r : NetplayRoom) : N :=
  u64_add (pause_at_frame pause) (input_delay_frames (controller (session r))).

Definition pause_frame_acceptance (frame : N) (r : NetplayRoom) : InputFrameAcceptance :=
  match pause_state r with
  | None => Relay
  | Some pause => if frame <=? accept_through pause r then Relay else Ignore
  end.

Definition input_frame_acceptance (frame : N) (r : NetplayRoom)
    : result RoomError InputFrameAcceptance :=
  match status r with
  | Playing | Paused => Ok (pause_frame_acceptance frame r)
  | _ => Err NotPlaying
  end.

(** [InputFrameCursorStage]: the cursors staged before they are applied. *)
Record InputFrameCursorStage := mkStage {
  stage_last : gmap PlayerIndex N;
  stage_next : gmap PlayerIndex N }.

Definition stage_accept (p : PlayerIndex) (frame : N) (st : InputFrameCursorStage)
    : InputFrameCursorStage :=
  mkStage (<[p := frame]> (stage_last st)) (<[p := u64_add frame 1]> (stage_next st)).

(** The loop of [accept_input_frame_cursors], over an immutable room. *)
Fixpoint accept_cursors_loop (r : NetplayRoom) (owned : PlayerIndex) (limits : InputFrameLimits)
    (inputs : list InputFrameCursor) (st : InputFrameCursorStage)
    : result RoomError (list InputFrameAcceptance * InputFrameCursorStage) :=
  match inputs with
  | [] => Ok ([], st)
  | input :: inputs =>
      if owned !=? cursor_player input then Err (SlotSpoofing (cursor_player input))
      else
        acceptance ← input_frame_acceptance (cursor_frame input) r;
        if acceptance ==? Ignore then
          '(acceptances, st) ← accept_cursors_loop r owned limits inputs st;
          Ok (Ignore :: acceptances, st)
        else if wrapping_add (room_frame r) (max_future_frame_distance limits) <? cursor_frame input
        then Err FutureFrameTooLarge
        else
          let next_frame := unwrap_or (stage_next st !! cursor_player input) (sync_start_frame r) in
          if cursor_frame input <? next_frame then
            '(acceptances, st) ← accept_cursors_loop r owned limits inputs st;
            Ok (Ignore :: acceptances, st)
          else
            '(acceptances, st) ← accept_cursors_loop r owned limits inputs
              (stage_accept (cursor_player input) (cursor_frame input) st);
            Ok (Relay :: acceptances, st)
  end.

(** [NetplayRoom::accept_input_frame_cursors]. *)
Definition accept_input_frame_cursors (c : ConnectionId) (inputs : list InputFrameCursor)
    (limits : InputFrameLimits) : RoomM (list InputFrameAcceptance) :=
  r ← get;
  ensure (mode (session r) ==? ControllerNetplay) NotPlaying ;;
  owned ← lift_result (ok_or (player_index_for_input_connection c r) UnknownConnection);
  '(acceptances, st) ← lift_result (accept_cursors_loop r owned limits inputs
    (mkStage (last_input_frames r) (next_input_frames r)));
  modify (λ r, r <| last_input_frames := stage_last st |> <| next_input_frames := stage_next st |>) ;;
  mret acceptances.

(** ** room_strict_input_ops.rs *)

Record StrictInputBatchOutcome := mkStrictInputBatchOutcome {
  outcome_response : InputCursorResponse;
  outcome_accepted_batch : option StrictInputBatch;
  outcome_duplicate_frame_count : nat }.

Definition validate_strict_input_sender (c : ConnectionId) (batch : StrictInputBatch)
    (r : NetplayRoom) : result RoomError unit :=
  if negb (uses_strict_controller_input r) then Err InvalidPayload
  else
    owned ← ok_or (player_index_for_input_connection c r) UnknownConnection;
    if owned !=? batch_player_index batch then Err (SlotSpoofing (batch_player_index batch))
    else Ok tt.

Definition strict_input_state_accepts (frame : N) (r : NetplayRoom) : bool :=
  if negb (bool_decide (status r ∈ [SyncingState; Ready; StartScheduled; Playing; Paused]))
  then false
  else is_none_or (pause_state r) (λ pause, frame <=? accept_through pause r).

Definition strict_input_nack (p : PlayerIndex) (expected received : N)
    (reason : InputCursorNackReason) (r : NetplayRoom) : StrictInputBatchOutcome :=
  mkStrictInputBatchOutcome
    (Nack (mkInputCursorNack (room_epoch r) (session_epoch r) p expected received reason)) None 0.

(** The next frame the relay expects from a player. *)
Definition expected_frame (p : PlayerIndex) (r : NetplayRoom) : N :=
  unwrap_or (next_input_frames r !! p) (sync_start_frame r).

(** [NetplayRoom::accept_strict_input_batch]. The payload offset is a difference
    of 64-bit values and fits [usize]; slicing past the payloads would panic, which
    [strict_batch_in_range] excludes. *)
Definition accept_strict_input_batch (c : ConnectionId) (batch : StrictInputBatch)
    : RoomM StrictInputBatchOutcome :=
  r ← get;
  lift_result (validate_strict_input_sender c batch r) ;;
  let p := batch_player_index batch in
  let frame_count := length (batch_payloads batch) in
  let expected := expected_frame p r in
  if (batch_room_epoch batch !=? room_epoch r) || (batch_session_epoch batch !=? session_epoch r)
  then mret (strict_input_nack p expected (batch_start_frame batch) SessionState r)
  else
    end_ ← lift_result (ok_or (checked_add u64_max (batch_start_frame batch)
             (N.of_nat (length (batch_payloads batch) - 1))) InvalidPayload);
    if negb (strict_input_state_accepts end_ r)
    then mret (strict_input_nack p expected end_ SessionState r)
    else if expected <? batch_start_frame batch
    then mret (strict_input_nack p expected (batch_start_frame batch) InputGap r)
    else
      let maximum_frame := u64_add (next_release_frame r) V5_MAX_FUTURE_FRAME_DISTANCE in
      if maximum_frame <? end_
      then mret (strict_input_nack p expected (u64_add maximum_frame 1) NackFutureFrameTooLarge r)
      else
        let first_new_frame := N.max expected (batch_start_frame batch) in
        accepted_batch ←
          (if first_new_frame <=? end_ then
             let payloads := drop (N.to_nat (first_new_frame - batch_start_frame batch))
                               (batch_payloads batch) in
             next_expected_frame ← lift_result (ok_or (checked_add u64_max end_ 1) InvalidPayload);
             modify (λ r, r <| last_input_frames ::= <[p := end_]> |>
                            <| next_input_frames ::= <[p := next_expected_frame]> |>) ;;
             mret (Some (mkStrictInputBatch (batch_room_epoch batch) (batch_session_epoch batch) p
                           first_new_frame payloads))
           else mret None);
        r' ← get;
        let next_expected_frame := unwrap_or (next_input_frames r' !! p) expected in
        let accepted_frame_count :=
          match accepted_batch with None => 0%nat | Some b => length (batch_payloads b) end in
        mret (mkStrictInputBatchOutcome
          (Ack (mkInputCursorAck (room_epoch r') (session_epoch r') p next_expected_frame))
          accepted_batch (frame_count - accepted_frame_count)).

(** ** The strict cursor: what one batch does *)

(** The change of cursors when frames up to [end_] are accepted for [p]. *)
Definition advance_cursor (p : PlayerIndex) (end_ : N) (r : NetplayRoom) : NetplayRoom :=
  r <| last_input_frames ::= <[p := end_]> |> <| next_input_frames ::= <[p := end_ + 1]> |>.

(** Frame [f]'s payload in a batch. *)
Definition batch_frame (b : StrictInputBatch) (f : N) : option RetropadInputPayload :=
  if f <? batch_start_frame b then None
  else batch_payloads b !! N.to_nat (f - batch_start_frame b).

(** What a successful call says and does: an ack that carries the player's next
    expected frame, or a nack that changes nothing. *)
Definition strict_outcome (batch : StrictInputBatch) (r : NetplayRoom)
    (o : StrictInputBatchOutcome) (r' : NetplayRoom) : Prop :=
  let p := batch_player_index batch in
  let expected := expected_frame p r in
  match outcome_accepted_batch o with
  | Some b =>
      let end_ := batch_start_frame batch + N.of_nat (length (batch_payloads batch)) - 1 in
      r' = advance_cursor p end_ r ∧ end_ < u64_max ∧
      batch_start_frame batch ≤ expected ≤ end_ ∧
      strict_input_state_accepts end_ r = true ∧
      end_ ≤ next_release_frame r + V5_MAX_FUTURE_FRAME_DISTANCE ∧
      batch_room_epoch batch = room_epoch r ∧ batch_session_epoch batch = session_epoch r ∧
      b = mkStrictInputBatch (room_epoch r) (session_epoch r) p expected
            (drop (N.to_nat (expected - batch_start_frame batch)) (batch_payloads batch)) ∧
      outcome_response o
      = Ack (mkInputCursorAck (room_epoch r) (session_epoch r) p (end_ + 1)) ∧
      (outcome_duplicate_frame_count o = N.to_nat (expected - batch_start_frame batch))%nat
  | None =>
      r' = r ∧
      (outcome_response o
       = Ack (mkInputCursorAck (room_epoch r) (session_epoch r) p expected) ∧
       outcome_duplicate_frame_count o = length (batch_payloads batch) ∧
       batch_start_frame batch + N.of_nat (length (batch_payloads batch)) ≤ expected ∨
       ∃ received reason,
         outcome_response o
         = Nack (mkInputCursorNack (room_epoch r) (session_epoch r) p expected received reason) ∧
         (reason = InputGap → expected < batch_start_frame batch))
  end.

Lemma accept_strict_input_batch_spec c batch r :
  batch_payloads batch ≠ [] →
  wp (accept_strict_input_batch c batch)
    (λ o r', validate_strict_input_sender c batch r = Ok tt ∧ strict_outcome batch r o r')
    (λ _ r', r' = r) r.
Proof.
  intros Hne. assert (1 ≤ length (batch_payloads batch))%nat as Hlen
    by (destruct (batch_payloads batch); [done|simpl; lia]).
  unfold accept_strict_input_batch, strict_outcome.
  apply wp_bind, wp_get, wp_bind, wp_lift_result. split; [|done]. intros [] Hv.
  case_match eqn:Hep.
  { apply wp_ret. split; [done|]. cbn. split; [done|]. right. by eexists _, _. }
  apply orb_false_iff in Hep as [He1 He2]. rewrite bool_decide_neq_false in He1, He2.
  apply wp_bind, wp_lift_ok_or. destruct (checked_add _ _ _) as [end_|] eqn:Hend; [|done].
  apply checked_add_Some in Hend as [-> Hend].
  case_match eqn:Hst.
  { apply wp_ret. split; [done|]. split; [done|]. right. by eexists _, _. }
  destruct (N.ltb_spec (expected_frame (batch_player_index batch) r) (batch_start_frame batch)).
  { apply wp_ret. split; [done|]. split; [done|]. right. by eexists _, _. }
  case_match eqn:Hmax.
  { apply wp_ret. split; [done|]. split; [done|]. right. by eexists _, _. }
  apply N.ltb_ge in Hmax. rewrite N.max_l by lia.
  apply wp_bind. case_match eqn:Hnew.
  - apply N.leb_le in Hnew.
    apply wp_bind, wp_lift_ok_or. destruct (checked_add u64_max _ 1) as [nx|] eqn:Hnx; [|done].
    apply checked_add_Some in Hnx as [-> Hnx].
    apply wp_bind, wp_modify, wp_ret, wp_bind, wp_get, wp_ret. split; [done|].
    cbn [outcome_accepted_batch outcome_response outcome_duplicate_frame_count batch_payloads].
    replace (batch_start_frame batch + N.of_nat (length (batch_payloads batch) - 1))
      with (batch_start_frame batch + N.of_nat (length (batch_payloads batch)) - 1) in * by lia.
    rewrite He1, He2, length_drop. apply negb_false_iff in Hst.
    assert (∀ m : gmap PlayerIndex N, ∀ p v d, unwrap_or (<[p := v]> m !! p) d = v) as Hl.
    { intros. by rewrite lookup_insert_eq. }
    split_and!; try done; try lia.
    + unfold u64_add in Hmax. pose proof (saturating_add_bound u64_max (next_release_frame r)
        V5_MAX_FUTURE_FRAME_DISTANCE). unfold saturating_add in Hmax. lia.
    + simpl. by rewrite Hl.
  - apply N.leb_gt in Hnew. apply wp_ret, wp_bind, wp_get, wp_ret. split; [done|].
    cbn [outcome_accepted_batch outcome_response outcome_duplicate_frame_count].
    split; [done|]. left. split_and!; [|lia|lia]. unfold expected_frame.
    by destruct (next_input_frames r !! batch_player_index batch).
Qed.

(** ** The relayed log *)

(** The batches a sequence of calls makes the relay forward, and the room after. *)
Fixpoint strict_run (calls : list (ConnectionId * StrictInputBatch)) (r : NetplayRoom)
    : list StrictInputBatch * NetplayRoom :=
  match calls with
  | [] => ([], r)
  | (c, batch) :: calls =>
      let '(outcome, r) := accept_strict_input_batch c batch r in
      let '(log, r) := strict_run calls r in
      (match outcome with
       | Ok o => option_list (outcome_accepted_batch o) ++ log
       | Err _ => log
       end, r)
  end.

(** The payloads forwarded for one player, in order. *)
Definition payloads_of (p : PlayerIndex) (log : list StrictInputBatch) : list RetropadInputPayload :=
  concat (batch_payloads <$> filter (λ b, batch_player_index b = p) log).

(** The frames [s, s + 1, .., s + n - 1]. *)
Definition frames_from (s : N) (n : nat) : list N := (λ i, s + N.of_nat i) <$> seq 0 n.

(** A batch carries the inputs of a client's timeline. *)
Definition follows (timeline : N → RetropadInputPayload) (b : StrictInputBatch) : Prop :=
  ∀ i payload, batch_payloads b !! i = Some payload →
    payload = timeline (batch_start_frame b + N.of_nat i).

Lemma length_frames_from s n : length (frames_from s n) = n.
Proof. unfold frames_from. by rewrite length_fmap, length_seq. Qed.

Lemma frames_from_app s n m :
  frames_from s (n + m) = frames_from s n ++ frames_from (s + N.of_nat n) m.
Proof.
  unfold frames_from. rewrite seq_app, fmap_app. f_equal.
  apply list_eq. intros i. rewrite !list_lookup_fmap. cbn [Nat.add].
  destruct (decide (i < m)%nat).
  - rewrite !lookup_seq_lt by done. cbn. f_equal. lia.
  - rewrite !lookup_seq_ge by lia. done.
Qed.

Lemma follows_drop timeline b k :
  follows timeline b → (k ≤ length (batch_payloads b))%nat →
  drop k (batch_payloads b)
  = timeline <$> frames_from (batch_start_frame b + N.of_nat k) (length (batch_payloads b) - k).
Proof.
  intros Hf Hk. unfold frames_from. rewrite <-list_fmap_compose. apply list_eq. intros i.
  rewrite lookup_drop, list_lookup_fmap.
  destruct (decide (i < length (batch_payloads b) - k)%nat) as [Hi|Hi].
  - rewrite lookup_seq_lt by done. cbn.
    destruct (lookup_lt_is_Some_2 (batch_payloads b) (k + i)) as [payload Hp]; [lia|].
    rewrite Hp. f_equal. rewrite (Hf _ _ Hp). f_equal. lia.
  - rewrite lookup_seq_ge by lia. rewrite lookup_ge_None_2 by lia. done.
Qed.

Lemma expected_frame_advance p q e r :
  expected_frame p (advance_cursor q e r) = if decide (q = p) then e + 1 else expected_frame p r.
Proof.
  unfold expected_frame, advance_cursor. simpl. case_decide as Hq.
  - subst. by rewrite lookup_insert_eq.
  - by rewrite lookup_insert_ne.
Qed.

Lemma payloads_of_cons p b log :
  payloads_of p (b :: log)
  = (if decide (batch_player_index b = p) then batch_payloads b else []) ++ payloads_of p log.
Proof. unfold payloads_of. rewrite filter_cons. by case_decide. Qed.

Lemma strict_run_prefix p timeline calls r :
  Forall (λ '(_, b), batch_payloads b ≠ [] ∧ (batch_player_index b = p → follows timeline b)) calls →
  let '(log, r') := strict_run calls r in
  payloads_of p log = timeline <$> frames_from (expected_frame p r) (length (payloads_of p log)) ∧
  expected_frame p r' = expected_frame p r + N.of_nat (length (payloads_of p log)).
Proof.
  intros Hcalls. revert r. induction Hcalls as [|[c b] calls [Hne Hfol] Hcalls IH]; intros r.
  { cbn. split; [done|lia]. }
  cbn [strict_run]. pose proof (accept_strict_input_batch_spec c b r Hne) as Hspec.
  unfold wp in Hspec. destruct (accept_strict_input_batch c b r) as [[o|e] r1].
  2: { subst r1. specialize (IH r). by destruct (strict_run calls r). }
  destruct Hspec as [_ Ho]. unfold strict_outcome in Ho. specialize (IH r1).
  destruct (strict_run calls r1) as [log r2].
  destruct (outcome_accepted_batch o) as [b'|].
  2: { destruct Ho as [-> _]. done. }
  change (option_list (Some b') ++ log) with (b' :: log).
  destruct Ho as (-> & _ & Hr & _ & _ & _ & _ & -> & _).
  rewrite expected_frame_advance in IH. rewrite payloads_of_cons. cbn [batch_player_index batch_payloads].
  destruct (decide (batch_player_index b = p)) as [Hp|Hp]; [|done].
  destruct IH as [IH1 IH2]. subst p. specialize (Hfol eq_refl).
  assert (1 ≤ length (batch_payloads b))%nat by (destruct (batch_payloads b); [done|simpl; lia]).
  rewrite (follows_drop timeline b) by (done || lia).
  replace (batch_start_frame b + N.of_nat (N.to_nat (expected_frame (batch_player_index b) r -
    batch_start_frame b))) with (expected_frame (batch_player_index b) r) by lia.
  rewrite !length_app, !length_fmap, !length_frames_from, frames_from_app, fmap_app. split.
  - f_equal. rewrite IH1 at 1. f_equal. f_equal. lia.
  - rewrite IH2. lia.
Qed.

Module StrictLog.

(** C2: the protocol v5 input lane is an exactly-once, in-order log. Take any sequence of
    non-empty batches from any connections, with losses, retransmissions, overlaps, reordering
    and stale epochs, such that each batch of player [p] carries inputs of one timeline of that
    player. The inputs the relay forwards for [p] are then the timeline's, frame by frame, from
    the frame it expected first, with no gap and no repetition, and its cursor has advanced by
    exactly their number. *)
Theorem strict_input_is_exactly_once p timeline calls r :
  Forall (λ '(_, b), batch_payloads b ≠ [] ∧ (batch_player_index b = p → follows timeline b)) calls →
  let '(log, r') := strict_run calls r in
  payloads_of p log = timeline <$> frames_from (expected_frame p r) (length (payloads_of p log)) ∧
  expected_frame p r' = expected_frame p r + N.of_nat (length (payloads_of p log)).
Proof. apply strict_run_prefix. Qed.

Definition sample_calls : list (ConnectionId * StrictInputBatch) :=
  [(Sample.conn 12, mkStrictInputBatch 1 1 PlayerIndex_TWO 0 [repeat x00 10; repeat x01 10]);
   (Sample.conn 12, mkStrictInputBatch 1 1 PlayerIndex_TWO 5 [repeat x05 10]);
   (Sample.conn 12, mkStrictInputBatch 1 1 PlayerIndex_TWO 1 [repeat x01 10; repeat x02 10])].
Definition sample_timeline (f : N) : RetropadInputPayload := repeat (byte_of_N f) 10.

Lemma strict_input_is_exactly_once_witness :
  payloads_of PlayerIndex_TWO (strict_run sample_calls (Sample.playing 5)).1
  = sample_timeline <$> frames_from 0 3.
Proof.
  pose proof (strict_input_is_exactly_once PlayerIndex_TWO sample_timeline sample_calls
    (Sample.playing 5)) as H.
  destruct (strict_run sample_calls (Sample.playing 5)) as [log r'] eqn:E.
  assert (length (payloads_of PlayerIndex_TWO log) = 3%nat) as Hl.
  { replace log with (strict_run sample_calls (Sample.playing 5)).1 by (by rewrite E).
    vm_compute. reflexivity. }
  rewrite Hl in H. apply H. clear.
  assert (∀ b, batch_payloads b = sample_timeline <$>
    frames_from (batch_start_frame b) (length (batch_payloads b)) → follows sample_timeline b) as Hf.
  { intros b Hb i payload Hi. rewrite Hb in Hi. unfold frames_from in Hi.
    rewrite !list_lookup_fmap in Hi. destruct (seq 0 _ !! i) as [j|] eqn:Ej; [|done].
    apply lookup_seq in Ej as [-> _]. by injection Hi as <-. }
  repeat constructor; try discriminate; intros _; apply Hf; reflexivity.
Defined.

(** C35: a batch makes progress whenever it can. In a room of the batch's epochs that
    accepts input up to the batch's last frame, a batch that starts at or before the expected
    frame and ends at or after it, within the release window, is accepted from its owner: the
    ack names the frame after its last one and the cursor moves there. *)
Theorem strict_batch_progress c batch r :
  validate_strict_input_sender c batch r = Ok tt →
  batch_room_epoch batch = room_epoch r → batch_session_epoch batch = session_epoch r →
  let p := batch_player_index batch in
  let end_ := batch_start_frame batch + N.of_nat (length (batch_payloads batch)) - 1 in
  batch_payloads batch ≠ [] →
  strict_input_state_accepts end_ r = true →
  batch_start_frame batch ≤ expected_frame p r ≤ end_ →
  end_ ≤ next_release_frame r + V5_MAX_FUTURE_FRAME_DISTANCE → end_ < u64_max →
  ∃ o r', accept_strict_input_batch c batch r = (Ok o, r') ∧
    outcome_response o = Ack (mkInputCursorAck (room_epoch r) (session_epoch r) p (end_ + 1)) ∧
    expected_frame p r' = end_ + 1.
Proof.
  intros Hv He1 He2 p end_ Hne Hst Hexp Hmax Hu.
  assert (1 ≤ length (batch_payloads batch))%nat
    by (destruct (batch_payloads batch); [done|simpl; lia]).
  assert (checked_add u64_max (batch_start_frame batch)
    (N.of_nat (length (batch_payloads batch) - 1)) = Some end_) as Hadd
    by (apply checked_add_Some; lia).
  assert (checked_add u64_max end_ 1 = Some (end_ + 1)) as Hadd'
    by (apply checked_add_Some; lia).
  unfold accept_strict_input_batch.
  cbv [mbind M_bind get lift_result mret M_ret modify]. rewrite Hv, He1, He2, !bool_decide_true by done.
  cbn [negb orb]. rewrite Hadd. cbn [ok_or]. fold p. rewrite Hst. cbn [negb].
  destruct (N.ltb_spec (expected_frame p r) (batch_start_frame batch)); [lia|].
  destruct (N.ltb_spec (u64_add (next_release_frame r) V5_MAX_FUTURE_FRAME_DISTANCE) end_) as [Hlt|_].
  { unfold u64_add, saturating_add in Hlt. lia. }
  rewrite N.max_l by lia. destruct (N.leb_spec (expected_frame p r) end_); [|lia].
  rewrite Hadd'. cbn [ok_or]. eexists _, (advance_cursor p end_ r). split; [reflexivity|].
  split; [|by rewrite expected_frame_advance, decide_True]. cbn [outcome_response].
  do 3 f_equal. simpl. by rewrite lookup_insert_eq.
Qed.

Lemma strict_batch_progress_witness :
  ∃ o r', accept_strict_input_batch (Sample.conn 12)
            (mkStrictInputBatch 1 1 PlayerIndex_TWO 0 [repeat x00 10; repeat x01 10])
            (Sample.playing 5) = (Ok o, r') ∧
    outcome_response o = Ack (mkInputCursorAck 1 1 PlayerIndex_TWO 2) ∧
    expected_frame PlayerIndex_TWO r' = 2.
Proof.
  apply (strict_batch_progress (Sample.conn 12)
    (mkStrictInputBatch 1 1 PlayerIndex_TWO 0 [repeat x00 10; repeat x01 10]) (Sample.playing 5));
    try (vm_compute; reflexivity); try discriminate.
  all: vm_compute; try split; discriminate.
Defined.

End StrictLog.

(** ** The legacy cursors *)

(** The frames a call relays. *)
Definition relayed_frames (inputs : list InputFrameCursor) (acceptances : list InputFrameAcceptance)
    : list N :=
  omap (λ '(i, a), if bool_decide (a = Relay) then Some (cursor_frame i) else None)
    (zip inputs acceptances).

(** [fs] increases strictly from [n], and [e] is the frame expected after it. *)
Fixpoint increasing_from (n : N) (fs : list N) (e : N) : Prop :=
  match fs with
  | [] => e = n
  | f :: fs => n ≤ f ∧ increasing_from (f + 1) fs e
  end.

Lemma accept_cursors_loop_increasing r owned limits inputs st acceptances st' :
  Forall (λ i, cursor_frame i < u64_max) inputs →
  accept_cursors_loop r owned limits inputs st = Ok (acceptances, st') →
  let expected st := unwrap_or (stage_next st !! owned) (sync_start_frame r) in
  length acceptances = length inputs ∧ Forall (λ i, cursor_player i = owned) inputs ∧
  increasing_from (expected st) (relayed_frames inputs acceptances) (expected st') ∧
  (∀ q, q ≠ owned → stage_next st' !! q = stage_next st !! q ∧ stage_last st' !! q = stage_last st !! q).
Proof.
  intros Hw. revert st acceptances st'. induction Hw as [|i inputs Hi Hw IH]; intros st acc st' H.
  { injection H as <- <-. by split_and!. }
  simpl in H. destruct (owned !=? cursor_player i) eqn:Hown; [done|]. rewrite bool_decide_neq_false in Hown.
  destruct (input_frame_acceptance (cursor_frame i) r) as [a|]; [|done]. cbn in H.
  assert (∀ acc1, accept_cursors_loop r owned limits inputs st = Ok (acc1, st') → acc = Ignore :: acc1 →
    let expected st := unwrap_or (stage_next st !! owned) (sync_start_frame r) in
    length acc = length (i :: inputs) ∧ Forall (λ i, cursor_player i = owned) (i :: inputs) ∧
    increasing_from (expected st) (relayed_frames (i :: inputs) acc) (expected st') ∧
    (∀ q, q ≠ owned → stage_next st' !! q = stage_next st !! q ∧ stage_last st' !! q = stage_last st !! q))
    as Hignore.
  { intros acc1 E ->. destruct (IH _ _ _ E) as (H1 & H2 & H3 & H4). split_and!; [by simpl; rewrite H1|by constructor|exact H3|exact H4]. }
  destruct (a ==? Ignore).
  { destruct (accept_cursors_loop r owned limits inputs st) as [[acc1 st1]|]; [|done].
    injection H as <- <-. by eapply Hignore. }
  destruct (_ <? cursor_frame i); [done|].
  destruct (N.ltb_spec (cursor_frame i) (unwrap_or (stage_next st !! cursor_player i) (sync_start_frame r)))
    as [Hlt|Hge].
  { destruct (accept_cursors_loop r owned limits inputs st) as [[acc1 st1]|]; [|done].
    injection H as <- <-. by eapply Hignore. }
  clear Hignore. destruct (accept_cursors_loop r owned limits inputs _) as [[acc1 st1]|] eqn:E; [|done].
  injection H as <- <-. destruct (IH _ _ _ E) as (H1 & H2 & H3 & H4). rewrite <-Hown in *.
  cbn [stage_accept stage_next stage_last] in H3, H4. rewrite lookup_insert_eq in H3. simpl in H3.
  split_and!; [by simpl; rewrite H1|by constructor| |].
  - split; [done|]. replace (cursor_frame i + 1) with (u64_add (cursor_frame i) 1)
      by (unfold u64_add, saturating_add; lia). exact H3.
  - intros q Hq. destruct (H4 q Hq) as [-> ->]. by rewrite !lookup_insert_ne.
Qed.

Module LegacyInput.

(** Legacy input is ordered and atomic. For protocols before v5, a call either fails and
    changes nothing, or answers every input; it only touches the cursor of the player that
    owns the input socket, relays only that player's inputs, each for a frame later than all
    relayed before, and leaves the cursor just after the last one. *)
Theorem legacy_input_is_ordered c inputs limits r :
  Forall (λ i, cursor_frame i < u64_max) inputs →
  match accept_input_frame_cursors c inputs limits r with
  | (Err _, r') => r' = r
  | (Ok acceptances, r') =>
      ∃ p, player_index_for_input_connection c r = Some p ∧
        length acceptances = length inputs ∧ Forall (λ i, cursor_player i = p) inputs ∧
        increasing_from (expected_frame p r) (relayed_frames inputs acceptances) (expected_frame p r') ∧
        (∀ q, q ≠ p → expected_frame q r' = expected_frame q r) ∧
        r' = r <| last_input_frames := last_input_frames r' |>
               <| next_input_frames := next_input_frames r' |>
  end.
Proof.
  intros Hw. unfold accept_input_frame_cursors.
  cbv [mbind M_bind get mret M_ret ensure modify lift_result].
  destruct (mode (session r) ==? ControllerNetplay); [|done].
  destruct (player_index_for_input_connection c r) as [p|]; [|done]. cbn [ok_or].
  destruct (accept_cursors_loop _ _ _ _ _) as [[acceptances st]|] eqn:E; [|done].
  apply accept_cursors_loop_increasing in E as (H1 & H2 & H3 & H4); [|done].
  exists p. split_and!; try done. intros q Hq. unfold expected_frame. cbn.
  by destruct (H4 q Hq) as [-> _].
Qed.

Lemma legacy_input_is_ordered_witness :
  let r := Sample.playing 4 in
  increasing_from 0 [3; 7] (expected_frame PlayerIndex_TWO
    (accept_input_frame_cursors (Sample.conn 12)
       [mkInputFrameCursor PlayerIndex_TWO 3; mkInputFrameCursor PlayerIndex_TWO 2;
        mkInputFrameCursor PlayerIndex_TWO 7] (mkInputFrameLimits 600) r).2).
Proof.
  pose proof (legacy_input_is_ordered (Sample.conn 12)
    [mkInputFrameCursor PlayerIndex_TWO 3; mkInputFrameCursor PlayerIndex_TWO 2;
     mkInputFrameCursor PlayerIndex_TWO 7] (mkInputFrameLimits 600) (Sample.playing 4)) as H.
  assert (accept_input_frame_cursors (Sample.conn 12)
    [mkInputFrameCursor PlayerIndex_TWO 3; mkInputFrameCursor PlayerIndex_TWO 2;
     mkInputFrameCursor PlayerIndex_TWO 7] (mkInputFrameLimits 600) (Sample.playing 4)
    = (Ok [Relay; Ignore; Relay], (accept_input_frame_cursors (Sample.conn 12)
    [mkInputFrameCursor PlayerIndex_TWO 3; mkInputFrameCursor PlayerIndex_TWO 2;
     mkInputFrameCursor PlayerIndex_TWO 7] (mkInputFrameLimits 600) (Sample.playing 4)).2)) as E
    by (vm_compute; reflexivity).
  cbv zeta. rewrite E in H. destruct H as (p & Hp & _ & _ & H & _).
  - repeat constructor.
  - injection Hp as <-. exact H.
Defined.

End LegacyInput.
