(* ===== verification/HostFrame.v ===== *)
(** * Frame release

  Models [src/src/rooms/room_host_frame_ops.rs] (protocol v5 host-driven frame
  opens) and [src/src/rooms/room_frame_clock_ops.rs] (the relay-driven clock of
  earlier protocols). *)

From Stdlib Require Import Strings.Byte.
From S2P Require Import Prelude Ids Wire StrictInput Descriptor Protocol Slots PauseState Room.
From S2P Require Import StartSync InputRelay.
Open Scope N_scope.

Inductive HostFrameOpenOutcome :=
| Released (release : ServerFrameReleaseV5)
| Duplicate (release : ServerFrameReleaseV5)
| IgnoredTransitionBoundary
| Pending (delay_ms : N).

Definition validate_host_frame_sender (c : ConnectionId) (r : NetplayRoom) : result RoomError unit :=
  if negb (uses_strict_controller_input r) then Err InvalidPayload
  else
    owned ← ok_or (player_index_for_input_connection c r) UnknownConnection;
    if existsb (λ s, has_index owned s && has_role Host s) (players r) then Ok tt else Err HostOnly.

Definition host_input_covers (frame : N) (r : NetplayRoom) : bool :=
  frame <? expected_frame PlayerIndex_ONE r.

Definition enter_v5_playing (r : NetplayRoom) : NetplayRoom :=
  set_connected_status Player_Playing Runtime_Playing
    (finish_v5_state_recovery (r <| status := Playing |>)).

(** [current_v5_release]: the latest cumulative release, when a frame was released. *)
Definition current_v5_release (r : NetplayRoom) : option ServerFrameReleaseV5 :=
  (λ released,
    mkServerFrameReleaseV5 (room_epoch r) (session_epoch r) released (next_release_frame r)
      ((λ s, mkAcceptedInputCursor (slot_player_index s) (expected_frame (slot_player_index s) r))
       <$> List.filter (λ s, negb (slot_is_empty s)) (players r))) <$> released_frame r.

(** [release_v5_host_frame]; the [expect] at its end cannot fail, because the
    released frame was just set. *)
Definition release_v5_host_frame (frame : N) (r : NetplayRoom) : NetplayRoom :=
  r <| pending_host_frame_open := None |> <| next_release_frame := u64_add frame 1 |>
    <| released_frame := Some frame |> <| room_frame ::= λ f, N.max f frame |>.

Definition released_message (frame : N) (r : NetplayRoom) : ServerFrameReleaseV5 :=
  default (mkServerFrameReleaseV5 (room_epoch r) (session_epoch r) frame (next_release_frame r) [])
    (current_v5_release r).

(** [NetplayRoom::accept_host_frame_open]. *)
Definition accept_host_frame_open (c : ConnectionId) (open : HostFrameOpen) (server_time_ms : N)
    : RoomM HostFrameOpenOutcome :=
  r ← get;
  lift_result (validate_host_frame_sender c r) ;;
  if (open_room_epoch open !=? room_epoch r) || (open_session_epoch open !=? session_epoch r) then
    mret (match current_v5_release r with
          | Some release => Duplicate release
          | None => IgnoredTransitionBoundary
          end)
  else if status r ==? RepairingState then mret IgnoredTransitionBoundary
  else if open_frame open <? next_release_frame r then
    release ← lift_result (ok_or (current_v5_release r) OutOfOrderFrame);
    mret (Duplicate release)
  else if is_some_and (pause_state r) (λ pause, pause_at_frame pause <? open_frame open) then
    mret IgnoredTransitionBoundary
  else if (status r ==? StartScheduled) && (next_release_frame r <? open_frame open) then
    mret IgnoredTransitionBoundary
  else if negb (bool_decide (status r ∈ [StartScheduled; Playing])) then
    mret IgnoredTransitionBoundary
  else if (next_release_frame r <? open_frame open) || negb (host_input_covers (open_frame open) r)
  then throw OutOfOrderFrame
  else if status r ==? StartScheduled then
    start ← lift_result (ok_or (scheduled_start r) RoomNotReady);
    ensure (open_frame open =? start_start_frame start) OutOfOrderFrame ;;
    if server_time_ms <? start_server_time_ms start then
      modify (λ r, r <| pending_host_frame_open := Some (open_frame open) |>) ;;
      mret (Pending (start_server_time_ms start - server_time_ms))
    else
      modify enter_v5_playing ;;
      modify (release_v5_host_frame (open_frame open)) ;;
      message ← gets (released_message (open_frame open));
      mret (Released message)
  else if status r !=? Playing then mret IgnoredTransitionBoundary
  else
    modify (release_v5_host_frame (open_frame open)) ;;
    message ← gets (released_message (open_frame open));
    mret (Released message).

(** [NetplayRoom::release_due_v5_host_frame]. *)
Definition release_due_v5_host_frame (server_time_ms : N) (r : NetplayRoom)
    : option ServerFrameReleaseV5 * NetplayRoom :=
  match pending_host_frame_open r, scheduled_start r with
  | Some frame, Some start =>
      if (status r !=? StartScheduled) || (server_time_ms <? start_server_time_ms start)
      then (None, r)
      else
        let r := release_v5_host_frame frame
                   (enter_v5_playing (r <| pending_host_frame_open := None |>)) in
        (Some (released_message frame r), r)
  | _, _ => (None, r)
  end.

(** What an accepted host open does: it releases the frame due next, or keeps it
    until the scheduled start, or changes nothing. *)
Definition host_open_outcome (c : ConnectionId) (open : HostFrameOpen) (server_time_ms : N)
    (r : NetplayRoom) (o : HostFrameOpenOutcome) (r' : NetplayRoom) : Prop :=
  let f := open_frame open in
  let current := open_room_epoch open = room_epoch r ∧ open_session_epoch open = session_epoch r in
  match o with
  | Released message =>
      validate_host_frame_sender c r = Ok tt ∧ uses_strict_controller_input r = true ∧
      f = next_release_frame r ∧ f < expected_frame PlayerIndex_ONE r ∧
      (status r = Playing ∧ r' = release_v5_host_frame f r ∨
       status r = StartScheduled ∧
       (∃ s, scheduled_start r = Some s ∧ f = start_start_frame s ∧
             start_server_time_ms s ≤ server_time_ms) ∧
       r' = release_v5_host_frame f (enter_v5_playing r)) ∧
      message = released_message f r' ∧ current
  | Pending delay =>
      validate_host_frame_sender c r = Ok tt ∧ uses_strict_controller_input r = true ∧
      f = next_release_frame r ∧ f < expected_frame PlayerIndex_ONE r ∧
      status r = StartScheduled ∧
      (∃ s, scheduled_start r = Some s ∧ f = start_start_frame s ∧
            server_time_ms + delay = start_server_time_ms s ∧ 0 < delay) ∧
      current ∧
      r' = r <| pending_host_frame_open := Some f |>
  | Duplicate release => r' = r
  | IgnoredTransitionBoundary => r' = r
  end.

Lemma validate_host_frame_sender_strict c r :
  validate_host_frame_sender c r = Ok tt → uses_strict_controller_input r = true.
Proof. unfold validate_host_frame_sender. by destruct (uses_strict_controller_input r). Qed.

(** An accepted sender holds the input socket of the host's slot. *)
Lemma validate_host_frame_sender_host c r :
  validate_host_frame_sender c r = Ok tt →
  ∃ p s, player_index_for_input_connection c r = Some p ∧ s ∈ players r ∧
         slot_player_index s = p ∧ slot_role s = Host.
Proof.
  unfold validate_host_frame_sender. destruct (negb _); [done|].
  destruct (player_index_for_input_connection c r) as [p|]; [|done]. cbn [ok_or mbind result_bind].
  destruct (existsb _ _) eqn:E; [|done]. intros _.
  apply existsb_exists in E as (s & Hin & [Hi Hr]%andb_true_iff). exists p, s.
  split_and!; [done|by apply list_elem_of_In|by apply bool_decide_eq_true in Hi|by apply bool_decide_eq_true in Hr].
Qed.

(** Starting to play keeps the owners of the sockets. *)
Lemma validate_host_frame_sender_playing c r f :
  validate_host_frame_sender c r = Ok tt →
  validate_host_frame_sender c (release_v5_host_frame f (enter_v5_playing r)) = Ok tt.
Proof.
  assert (∀ q, (∀ s st rs, q (s <| slot_status := st |> <| slot_runtime_state := rs |>) = q s) →
    (slot_player_index <$> List.find q (players (enter_v5_playing r))) =
    (slot_player_index <$> List.find q (players r))) as Hfind.
  { intros q Hq. cbn. induction (players r) as [|s l IH]; [done|]. cbn.
    destruct (is_connected s); rewrite ?Hq; destruct (q s); [done|exact IH|done|exact IH]. }
  assert (∀ q, (∀ s st rs, q (s <| slot_status := st |> <| slot_runtime_state := rs |>) = q s) →
    existsb q (players (enter_v5_playing r)) = existsb q (players r)) as Hex.
  { clear Hfind. intros q Hq. cbn. induction (players r) as [|s l IH]; [done|]. cbn.
    destruct (is_connected s); rewrite ?Hq; f_equal; exact IH. }
  unfold validate_host_frame_sender, player_index_for_input_connection, find_slot.
  cbn [players release_v5_host_frame]. intros H.
  change (uses_strict_controller_input (release_v5_host_frame f (enter_v5_playing r)))
    with (uses_strict_controller_input r).
  change (players (release_v5_host_frame f (enter_v5_playing r))) with (players (enter_v5_playing r)).
  rewrite Hfind by done. destruct (uses_strict_controller_input r); [|done]. cbn [negb] in *.
  destruct (slot_player_index <$> _) as [owned|]; [|done]. cbn in *. by rewrite Hex.
Qed.

Lemma host_open_spec c open t r :
  wp (accept_host_frame_open c open t) (host_open_outcome c open t r) (λ _ r', r' = r) r.
Proof.
  unfold accept_host_frame_open.
  apply wp_bind, wp_get, wp_bind, wp_lift_result. split; [|done]. intros [] Hv.
  pose proof (validate_host_frame_sender_strict c r Hv) as Hstrict.
  case_match eqn:Hep; [by apply wp_ret; case_match|].
  apply orb_false_iff in Hep as [He1 He2]. rewrite bool_decide_neq_false in He1, He2.
  case_match; [by apply wp_ret|]. case_match eqn:Hold; [by wp_go|]. apply N.ltb_ge in Hold.
  do 3 (case_match; [by apply wp_ret|]). case_match eqn:Hgap; [by apply wp_throw|].
  apply orb_false_iff in Hgap as [Hgap Hcov]. apply N.ltb_ge in Hgap.
  apply negb_false_iff, N.ltb_lt in Hcov.
  assert (open_frame open = next_release_frame r) as Hf by lia.
  case_match eqn:Hst.
  - apply bool_decide_eq_true in Hst.
    apply wp_bind, wp_lift_ok_or. destruct (scheduled_start r) as [s|] eqn:Hs; [|done].
    apply wp_bind, wp_ensure. split; [intros Hfs%N.eqb_eq|done].
    case_match eqn:Ht.
    + apply N.ltb_lt in Ht. wp_go. cbn [host_open_outcome]. split_and!; try done.
      exists s. split_and!; try done; lia.
    + apply N.ltb_ge in Ht. wp_go. cbn [host_open_outcome]. split_and!; try done. right. split_and!; [done| |done]. by exists s.
  - case_match eqn:Hpl; [by apply wp_ret|]. rewrite bool_decide_neq_false in Hpl.
    wp_go. cbn [host_open_outcome]. split_and!; try done. by left.
Qed.

(** ** room_frame_clock_ops.rs *)

Definition host_has_input_for_frame (frame : N) (r : NetplayRoom) : bool :=
  is_some_and (find_slot (has_role Host) r ≫= λ s, last_input_frames r !! slot_player_index s)
    (λ input_frame, frame <=? input_frame).

(** The promotion of a due scheduled start. *)
Definition promote_scheduled (server_time_ms : N) (r : NetplayRoom) : option NetplayRoom :=
  if status r ==? StartScheduled then
    match scheduled_start r with
    | None => None
    | Some start =>
        if server_time_ms <? start_server_time_ms start then None
        else Some (set_connected_status Player_Playing Runtime_Playing (r <| status := Playing |>))
    end
  else Some r.

(** [NetplayRoom::release_next_server_frame]. *)
Definition release_next_server_frame (server_time_ms : N) (r : NetplayRoom)
    : option ServerFrame * NetplayRoom :=
  if uses_strict_controller_input r then (None, r)
  else
    match promote_scheduled server_time_ms r with
    | None => (None, r)
    | Some r =>
        if status r !=? Playing then (None, r)
        else
          let r := apply_pending_input_delay_if_due r in
          let frame := next_release_frame r in
          if negb (host_has_input_for_frame frame r) then (None, r)
          else
            let r := r <| next_release_frame ::= λ n, u64_add n 1 |>
                       <| released_frame := Some frame |>
                       <| room_frame ::= λ f, N.max f frame |> in
            (Some (mkServerFrame (room_epoch r) (session_epoch r) frame (room_frame r)), r)
    end.

Record PlayerFrameCursorView := mkPlayerFrameCursorView {
  pcv_player_index : N;
  pcv_frame : option N }.

Record RoomFrameClockView := mkRoomFrameClockView {
  fcv_canonical_frame : N;
  fcv_released_frame : option N;
  fcv_next_release_frame : N;
  fcv_accepted_inputs : list PlayerFrameCursorView;
  fcv_pending_input_delay_change : option InputDelayChange }.

(** [NetplayRoom::frame_clock_view]. *)
Definition frame_clock_view (r : NetplayRoom) : RoomFrameClockView :=
  mkRoomFrameClockView (room_frame r) (released_frame r) (next_release_frame r)
    ((λ s, mkPlayerFrameCursorView (zero_based (slot_player_index s))
             (last_input_frames r !! slot_player_index s))
     <$> List.filter (λ s, negb (slot_is_empty s)) (players r))
    (pending_input_delay_change r).

(** ** Properties *)

Module HostOpen.

(** C7: what a released host open means. A host open that the relay answers with a release
    came from the host's input socket of a protocol v5 controller room, in the room's current
    epochs, for exactly the frame due next, which the host's accepted input already covers;
    the room was playing, or its scheduled start was due. The message carries that frame, its
    successor as the next host frame, and each seated player's expected frame. *)
Theorem host_open_releases_due_frame c open t r message r' :
  accept_host_frame_open c open t r = (Ok (Released message), r') →
  let f := open_frame open in
  uses_strict_controller_input r = true ∧
  (∃ p s, player_index_for_input_connection c r = Some p ∧ s ∈ players r ∧
          slot_player_index s = p ∧ slot_role s = Host) ∧
  open_room_epoch open = room_epoch r ∧ open_session_epoch open = session_epoch r ∧
  f = next_release_frame r ∧ f < expected_frame PlayerIndex_ONE r ∧
  (status r = Playing ∨
   status r = StartScheduled ∧ ∃ s, scheduled_start r = Some s ∧ f = start_start_frame s ∧
                                    start_server_time_ms s ≤ t) ∧
  status r' = Playing ∧ released_frame r' = Some f ∧ next_release_frame r' = u64_add f 1 ∧
  message = mkServerFrameReleaseV5 (room_epoch r) (session_epoch r) f (u64_add f 1)
    ((λ s, mkAcceptedInputCursor (slot_player_index s) (expected_frame (slot_player_index s) r))
       <$> List.filter (λ s, negb (slot_is_empty s)) (players r')).
Proof.
  intros H. pose proof (wp_ok _ _ _ _ _ _ (host_open_spec c open t r) H) as
    (Hv & Hu & Hf & Hc & Hst & -> & He1 & He2).
  apply validate_host_frame_sender_host in Hv.
  destruct Hst as [[Hs ->]|(Hs & Hex & ->)]; split_and!; try done; auto.
Qed.

(** A playing room in which the host's input for the first three frames is in. *)
Definition sample_room : NetplayRoom :=
  (accept_strict_input_batch (Sample.conn 11)
     (mkStrictInputBatch 1 1 PlayerIndex_ONE 0 (repeat (repeat x00 10) 3)) (Sample.playing 5)).2.
Definition sample_release : ServerFrameReleaseV5 :=
  mkServerFrameReleaseV5 1 1 0 1
    [mkAcceptedInputCursor PlayerIndex_ONE 3; mkAcceptedInputCursor PlayerIndex_TWO 0].

Lemma host_open_releases_due_frame_witness :
  ∃ r', status r' = Playing ∧ released_frame r' = Some 0.
Proof.
  exists (accept_host_frame_open (Sample.conn 11) (mkHostFrameOpen 1 1 0) 0 sample_room).2.
  pose proof (host_open_releases_due_frame (Sample.conn 11) (mkHostFrameOpen 1 1 0) 0 sample_room
    sample_release (accept_host_frame_open (Sample.conn 11) (mkHostFrameOpen 1 1 0) 0 sample_room).2)
    as H.
  destruct H as (_ & _ & _ & _ & _ & _ & _ & H1 & H2 & _); [vm_compute; reflexivity|]. exact (conj H1 H2).
Defined.

(** Retransmitting an open is harmless. Once an open was answered with a release, the
    same open, sent again at any time before other operations intervene, is answered with a
    duplicate of that release and changes nothing. *)
Theorem host_open_retry_is_duplicate c open t t' r message r' :
  open_frame open < u64_max →
  accept_host_frame_open c open t r = (Ok (Released message), r') →
  accept_host_frame_open c open t' r' = (Ok (Duplicate message), r').
Proof.
  intros Hlt H. pose proof (wp_ok _ _ _ _ _ _ (host_open_spec c open t r) H) as
    (Hv & Hstrict & Hf & Hc & Hst & Hm & He1 & He2).
  assert (validate_host_frame_sender c r' = Ok tt ∧ room_epoch r' = room_epoch r ∧
          session_epoch r' = session_epoch r ∧ status r' = Playing ∧
          released_frame r' = Some (open_frame open) ∧
          next_release_frame r' = u64_add (open_frame open) 1) as (Hv' & Hr & Hse & Hs & Hrel & Hnx).
  { destruct Hst as [[Hs ->]|(Hs & _ & ->)]; split_and!; try done.
    revert Hv. apply validate_host_frame_sender_playing. }
  unfold accept_host_frame_open. cbv [mbind M_bind get lift_result mret M_ret].
  rewrite Hv', He1, He2, Hr, Hse, !bool_decide_true by done. cbn [negb orb]. rewrite Hs.
  rewrite (bool_decide_eq_false_2 (Playing = RepairingState)) by done.
  destruct (N.ltb_spec (open_frame open) (next_release_frame r')) as [_|Hge].
  2: { rewrite Hnx in Hge. unfold u64_add, saturating_add in Hge. lia. }
  rewrite Hm. unfold released_message, current_v5_release. rewrite Hrel. reflexivity.
Qed.

Lemma host_open_retry_is_duplicate_witness :
  let r' := (accept_host_frame_open (Sample.conn 11) (mkHostFrameOpen 1 1 0) 0 sample_room).2 in
  accept_host_frame_open (Sample.conn 11) (mkHostFrameOpen 1 1 0) 5 r'
  = (Ok (Duplicate sample_release), r').
Proof.
  apply (host_open_retry_is_duplicate (Sample.conn 11) (mkHostFrameOpen 1 1 0) 0 5 sample_room
    sample_release); vm_compute; reflexivity.
Defined.

End HostOpen.
