(* ===== verification/StateHash.v ===== *)
(** * Desync detection and repair

  Models [src/src/rooms/room_state_hash_ops.rs] (comparison of the players' state
  hashes) and [src/src/rooms/room_v5_recovery_ops.rs] (the two-phase repair of
  protocol v5). *)

From stdpp Require Import sorting.
From S2P Require Import Prelude Ids Text Compatibility Descriptor Protocol Slots PauseState.
From S2P Require Import RoomTransactions Room.
Open Scope N_scope.

Definition STATE_HASH_RETAIN_FRAMES : N := 600.
Definition STATE_HASH_MIN_NEARBY_MATCH_WINDOW : N := 8.
Definition STATE_HASH_NEARBY_MATCH_SLACK_FRAMES : N := 4.
Definition STATE_HASH_MAX_NEARBY_MATCH_WINDOW : N := 120.
Definition STATE_HASH_FRAME_SAMPLE_FRESHNESS : Duration := from_secs 10.
Definition STATE_HASH_TRUE_MISMATCHES_BEFORE_RESYNC : N := 1.
Definition STATE_RECOVERY_ATTEMPT_WINDOW : Duration := from_secs 60.
Definition STATE_RECOVERY_MAX_ATTEMPTS : nat := 2.

Inductive StateHashEvaluation :=
| EvalDisabled
| EvalPending
| Matched (frame : N)
| FrameSkew (m : StateHashMismatchView)
| TrueMismatch (m : StateHashMismatchView)
| ResyncRequired (m : StateHashMismatchView)
| RecoveryPrepare (v : StateRecoveryView)
| RecoveryAttemptLimitExceeded (v : StateRecoveryView).

Inductive StateRecoveryStartOutcome :=
| StartPreparing (v : StateRecoveryView)
| AttemptLimitExceeded (v : StateRecoveryView).

(** ** room_v5_recovery_ops.rs *)

Definition close_state_recovery_room (r : NetplayRoom) : NetplayRoom :=
  update_slots (λ s, negb (slot_is_empty s))
    (λ s, s <| slot_status := Player_Disconnected |> <| slot_runtime_state := Runtime_Disconnected |>)
    (r <| status := Closed |> <| pending_host_frame_open := None |> <| scheduled_start := None |>).

(** [NetplayRoom::begin_v5_state_recovery]. *)
Definition begin_v5_state_recovery (mismatch : StateHashMismatchView) (now : Instant)
    : RoomM StateRecoveryStartOutcome :=
  r ← get;
  ensure (negb (negb (uses_strict_controller_input r) || is_some (state_recovery r))) RoomNotReady ;;
  let tx := tx_preparing (next_state_recovery_id r) mismatch (room_epoch r) (session_epoch r) now in
  modify (λ r, r <| state_recovery_started_at ::=
                      List.filter (λ t, duration_since now t <? STATE_RECOVERY_ATTEMPT_WINDOW) |>
                 <| next_state_recovery_id ::= λ n, u64_add n 1 |>
                 <| state_recovery := Some tx |>) ;;
  r ← get;
  if (STATE_RECOVERY_MAX_ATTEMPTS <=? length (state_recovery_started_at r))%nat then
    modify close_state_recovery_room ;;
    mret (AttemptLimitExceeded (tx_view tx))
  else
    modify (λ r, set_connected_status Player_Paused Runtime_Pausing
      ((reset_authoritative_state_hash_cursor (mismatch_repair_frame mismatch)
         (r <| state_recovery_started_at ::= (.++ [now]) |>))
         <| status := RepairingState |> <| pending_host_frame_open := None |>
         <| scheduled_start := None |>)) ;;
    mret (StartPreparing (tx_view tx)).

(** [NetplayRoom::accept_v5_state_recovery_pin_for_epoch]. *)
Definition accept_v5_state_recovery_pin_for_epoch (c : ConnectionId) (room_epoch_ session_epoch_ : N)
    (pin : StateRecoveryPin) (limits : SnapshotLimits) : RoomM StateRecoveryView :=
  r ← get;
  ensure (uses_strict_controller_input r) RoomNotReady ;;
  (match slot_role <$> find_slot (has_connection c) r with
   | Some Host => mret tt
   | Some Guest => throw HostOnly
   | None => throw UnknownConnection
   end) ;;
  lift_result (map_err (manifest_validate (pin_manifest pin) limits) (λ _, SnapshotInvalid)) ;;
  tx ← lift_result (ok_or (state_recovery r) RoomNotReady);
  (if negb (accepts_message_epoch tx room_epoch_ session_epoch_) then
     throw (if room_epoch_ !=? room_epoch r then StaleRoomEpoch else StaleSessionEpoch)
   else mret tt) ;;
  ensure (negb ((tx_recovery_id tx !=? pin_recovery_id pin)
                || (tx_repair_frame tx !=? manifest_repair_frame (pin_manifest pin))))
    SnapshotInvalid ;;
  if negb (is_preparing tx) then
    ensure (expected_snapshot tx ==? Some (pin_manifest pin)) SnapshotInvalid ;;
    mret (tx_view tx)
  else
    ensure (status r ==? RepairingState) RoomNotReady ;;
    let tx := tx_commit (pin_manifest pin) tx in
    modify (λ r, reset_sync_state_to (tx_repair_frame tx) (r <| state_recovery := None |>)) ;;
    modify (λ r, set_connected_status Player_Connected Runtime_Connected
      ((bump_session_epoch (r <| state_recovery := Some tx |>))
         <| status := CheckingCompatibility |>)) ;;
    mret (tx_view tx).

(** [NetplayRoom::validate_v5_recovery_snapshot]. *)
Definition validate_v5_recovery_snapshot (manifest : SnapshotManifest) (r : NetplayRoom)
    : result RoomError unit :=
  match state_recovery r ≫= expected_snapshot with
  | None => Ok tt
  | Some expected => if expected ==? manifest then Ok tt else Err SnapshotInvalid
  end.

(** [NetplayRoom::validate_v5_recovery_snapshot_chunk]. *)
Definition validate_v5_recovery_snapshot_chunk (chunk : SnapshotChunk) (r : NetplayRoom)
    : result RoomError unit :=
  match state_recovery r ≫= expected_snapshot with
  | None => Ok tt
  | Some expected =>
      if (manifest_snapshot_id expected ==? chunk_snapshot_id chunk)
         && (manifest_repair_frame expected =? chunk_repair_frame chunk)
      then Ok tt else Err SnapshotInvalid
  end.

Definition state_recovery_pin_expired (now : Instant) (r : NetplayRoom) : bool :=
  is_some_and (state_recovery r) (λ tx, tx_is_expired tx now).

(** [NetplayRoom::close_expired_state_recovery]. *)
Definition close_expired_state_recovery (now : Instant) (r : NetplayRoom) : bool * NetplayRoom :=
  if negb (state_recovery_pin_expired now r) then (false, r)
  else (true, close_state_recovery_room r).

(** ** room_state_hash_ops.rs *)

Definition frame_spread (frames : list N) : option N :=
  if (length frames <? 2)%nat then None
  else
    lo ← min_list_opt frames;
    hi ← max_list_opt frames;
    Some (saturating_sub hi lo).

Definition offset_frame (frame : N) (offset : Z) : option N :=
  if (offset <? 0)%Z then checked_sub frame (Z.to_N (Z.abs offset))
  else checked_add u64_max frame (Z.to_N offset).

(** [i64::try_from(window).unwrap_or(i64::MAX)]. *)
Definition window_i64 (window : N) : Z :=
  if (Z.of_N window <=? i64_max)%Z then Z.of_N window else i64_max.

(** The body of the innermost loop of [nearby_state_hash_matches]. *)
Definition nearby_match_at (r : NetplayRoom) (frame : N) (source target : PlayerStateHashView)
    (offset : Z) : option NearbyStateHashMatchView :=
  if (offset =? 0)%Z then None
  else
    matched_frame ← offset_frame frame offset;
    frame_hashes ← state_hashes r !! matched_frame;
    if is_some_and (frame_hashes !! hash_player_index target) (λ h, h ==? hash_sha256 source)
    then Some (mkNearbyStateHashMatchView (hash_player_index source) frame
                 (hash_player_index target) matched_frame offset)
    else None.

(** [NetplayRoom::nearby_state_hash_matches]. *)
Definition nearby_state_hash_matches (r : NetplayRoom) (frame : N) (hashes : list PlayerStateHashView)
    (window : N) : list NearbyStateHashMatchView :=
  let w := window_i64 window in
  concat ((λ source, concat ((λ target,
    if hash_player_index source ==? hash_player_index target then []
    else omap (nearby_match_at r frame source target) (seqZ (- w) (2 * w + 1))) <$> hashes))
    <$> hashes).

Definition fresh_local_frame_spread (now : Instant) (r : NetplayRoom) : option N :=
  let connected_slots := List.filter is_connected (players r) in
  let frames := omap (λ s,
    reported_at ← slot_latest_local_frame_reported_at s;
    if STATE_HASH_FRAME_SAMPLE_FRESHNESS <? duration_since now reported_at then None
    else slot_latest_local_frame s) connected_slots in
  if (length frames =? length connected_slots)%nat then frame_spread frames else None.

Definition accepted_input_frame_spread (r : NetplayRoom) : option N :=
  frame_spread (omap (λ p, last_input_frames r !! p) (connected_player_indices r)).

Definition dynamic_nearby_state_hash_window (now : Instant) (r : NetplayRoom) : N :=
  let observed_spread :=
    unwrap_or (max_list_opt (option_list (fresh_local_frame_spread now r)
                             ++ option_list (accepted_input_frame_spread r))) 0 in
  clamp (u64_add observed_spread STATE_HASH_NEARBY_MATCH_SLACK_FRAMES)
    STATE_HASH_MIN_NEARBY_MATCH_WINDOW STATE_HASH_MAX_NEARBY_MATCH_WINDOW.

(** [BTreeMap::split_off(&retain_from)]: keeps the frames from [retain_from] on. *)
Definition prune_state_hashes (frame : N) (r : NetplayRoom) : NetplayRoom :=
  let retain_from := saturating_sub frame STATE_HASH_RETAIN_FRAMES in
  r <| state_hashes ::= filter (λ kv, retain_from ≤ kv.1) |>.

Definition enter_state_hash_resync (repair_frame : N) (r : NetplayRoom) : NetplayRoom :=
  set_connected_status Player_Connected Runtime_Connected
    ((bump_session_epoch (reset_sync_state_to repair_frame r)) <| status := CheckingCompatibility |>).

(** [NetplayRoom::begin_authoritative_recovery]. *)
Definition begin_authoritative_recovery (mismatch : StateHashMismatchView) (now : Instant)
    : RoomM StateHashEvaluation :=
  r ← get;
  if uses_strict_controller_input r then
    outcome ← begin_v5_state_recovery mismatch now;
    mret (match outcome with
          | StartPreparing v => RecoveryPrepare v
          | AttemptLimitExceeded v => RecoveryAttemptLimitExceeded v
          end)
  else
    modify (enter_state_hash_resync (mismatch_repair_frame mismatch)) ;;
    mret (ResyncRequired mismatch).

Definition hash_le (a b : PlayerStateHashView) : Prop :=
  zero_based (hash_player_index a) ≤ zero_based (hash_player_index b).
#[export] Instance hash_le_dec a b : Decision (hash_le a b).
Proof. unfold hash_le. apply _. Defined.

(** The tail of [accept_state_hash], once the hashes of a frame differ. *)
Definition handle_mismatch (digest_mode : StateDigestMode) (mismatch : StateHashMismatchView)
    (now : Instant) : RoomM StateHashEvaluation :=
  modify (λ r, r <| state_hash_true_mismatch_streak ::= λ n, saturating_add u8_max n 1 |>) ;;
  r ← get;
  if (digest_mode ==? Authoritative)
     && (STATE_HASH_TRUE_MISMATCHES_BEFORE_RESYNC <=? state_hash_true_mismatch_streak r)
  then begin_authoritative_recovery mismatch now
  else
    mret (match mismatch_nearby_matches mismatch with
          | [] => TrueMismatch mismatch
          | _ => FrameSkew mismatch
          end).

(** The comparison of [accept_state_hash], once the report is stored: [hashes]
    are the connected players' hashes for the frame. *)
Definition evaluate_hashes (authoritative_v5 : bool) (digest_mode : StateDigestMode) (frame : N)
    (hashes : list PlayerStateHashView) (now : Instant) : RoomM StateHashEvaluation :=
  r ← get;
  let nearby_matches :=
    if authoritative_v5 then []
    else nearby_state_hash_matches r frame hashes (dynamic_nearby_state_hash_window now r) in
  modify (prune_state_hashes frame) ;;
  match hashes with
  | [] => mret EvalPending
  | first :: _ =>
      if forallb (λ h, hash_sha256 h ==? hash_sha256 first) hashes then
        modify (λ r, r <| state_hash_true_mismatch_streak := 0 |>) ;;
        (if authoritative_v5 then
           modify (λ r, r <| next_authoritative_state_hash_frame :=
                               u64_add frame AUTHORITATIVE_STATE_HASH_INTERVAL_FRAMES |>)
         else mret tt) ;;
        mret (Matched frame)
      else handle_mismatch digest_mode (mkStateHashMismatchView frame frame hashes nearby_matches) now
  end.

(** [NetplayRoom::accept_state_hash]. *)
Definition accept_state_hash (c : ConnectionId) (report : StateHashReport) (now : Instant)
    : RoomM StateHashEvaluation :=
  r ← get;
  ensure (bool_decide (status r ∈ [StartScheduled; Playing; Paused])) NotPlaying ;;
  let digest_mode := state_digest_mode r in
  if digest_mode ==? DigestDisabled then mret EvalDisabled
  else
    lift_result (map_err (report_validate report) (λ _, InvalidPayload)) ;;
    let authoritative_v5 := uses_strict_controller_input r && (digest_mode ==? Authoritative) in
    p ← lift_result (ok_or (player_index_for_connection c r) UnknownConnection);
    if status r ==? StartScheduled then mret EvalPending
    else if authoritative_v5
            && ((report_frame report =? 0)
                || negb (report_frame report mod AUTHORITATIVE_STATE_HASH_INTERVAL_FRAMES =? 0))
    then throw InvalidPayload
    else if authoritative_v5
            && (report_frame report <? next_authoritative_state_hash_frame r)
    then mret EvalPending
    else if authoritative_v5
            && negb (report_frame report =? next_authoritative_state_hash_frame r)
    then throw InvalidPayload
    else
      let normalized_hash := to_ascii_lowercase (report_sha256 report) in
      let frame_hashes :=
        <[p := normalized_hash]> (default ∅ (state_hashes r !! report_frame report)) in
      modify (λ r, r <| state_hashes ::= <[report_frame report := frame_hashes]> |>) ;;
      if negb (forallb (λ p, is_some (frame_hashes !! p)) (connected_player_indices r))
      then mret EvalPending
      else
        let hashes := merge_sort hash_le
          (omap (λ p, mkPlayerStateHashView p <$> frame_hashes !! p) (connected_player_indices r)) in
        evaluate_hashes authoritative_v5 digest_mode (report_frame report) hashes now.

(** ** Properties *)

(** Messages of [c] keep their sender's role when slots only change status. *)
Lemma find_connection_status c st rs r :
  slot_role <$> find_slot (has_connection c) (set_connected_status st rs r)
  = slot_role <$> find_slot (has_connection c) r.
Proof.
  unfold find_slot. cbn. induction (players r) as [|s l IH]; [done|]. cbn.
  destruct (is_connected s); unfold has_connection in *; cbn; destruct (_ ==? _); try done; exact IH.
Qed.

Lemma find_connection_reset c n r :
  slot_role <$> find_slot (has_connection c) (reset_sync_state_to n r)
  = slot_role <$> find_slot (has_connection c) r.
Proof.
  unfold reset_sync_state_to, find_slot. destruct (uses_strict_controller_input r); [|done]. cbn.
  induction (players r) as [|s l IH]; [done|]. cbn. unfold has_connection in *. cbn.
  destruct (_ ==? _); [done|exact IH].
Qed.

Lemma uses_strict_reset n r :
  uses_strict_controller_input (reset_sync_state_to n r) = uses_strict_controller_input r.
Proof. unfold reset_sync_state_to. destruct (uses_strict_controller_input r) eqn:E; exact E. Qed.

Lemma uses_strict_renewed tx st x rs r :
  uses_strict_controller_input (set_connected_status st rs
    ((bump_session_epoch (r <| state_recovery := tx |>)) <| status := x |>))
  = uses_strict_controller_input r.
Proof. done. Qed.

Lemma find_slot_renewed q tx x r :
  find_slot q ((bump_session_epoch (r <| state_recovery := tx |>)) <| status := x |>) = find_slot q r.
Proof. done. Qed.

(** The room a first pin leaves. *)
Definition committed_room (pin : StateRecoveryPin) (tx : StateRecoveryTransaction) (r : NetplayRoom)
    : NetplayRoom :=
  set_connected_status Player_Connected Runtime_Connected
    ((bump_session_epoch ((reset_sync_state_to (tx_repair_frame tx) (r <| state_recovery := None |>))
        <| state_recovery := Some (tx_commit (pin_manifest pin) tx) |>))
       <| status := CheckingCompatibility |>).

(** What an accepted pin means: it is for the open transaction's epochs, id and frame, from
    the host; either it commits a preparing transaction, or it repeats the pinned manifest. *)
Definition pin_outcome (c : ConnectionId) (re se : N) (pin : StateRecoveryPin) (limits : SnapshotLimits)
    (r : NetplayRoom) (v : StateRecoveryView) (r' : NetplayRoom) : Prop :=
  ∃ tx, state_recovery r = Some tx ∧
    uses_strict_controller_input r = true ∧ slot_role <$> find_slot (has_connection c) r = Some Host ∧
    is_ok (manifest_validate (pin_manifest pin) limits) = true ∧
    accepts_message_epoch tx re se = true ∧ tx_recovery_id tx = pin_recovery_id pin ∧
    tx_repair_frame tx = manifest_repair_frame (pin_manifest pin) ∧
    (is_preparing tx = true ∧ status r = RepairingState ∧
       v = tx_view (tx_commit (pin_manifest pin) tx) ∧ r' = committed_room pin tx r ∨
     is_preparing tx = false ∧ expected_snapshot tx = Some (pin_manifest pin) ∧ v = tx_view tx ∧ r' = r).

Lemma pin_spec c re se pin limits r :
  wp (accept_v5_state_recovery_pin_for_epoch c re se pin limits) (pin_outcome c re se pin limits r)
    (λ _ r', r' = r) r.
Proof.
  unfold accept_v5_state_recovery_pin_for_epoch. wp_go; try done.
  all: repeat match goal with
    | E : negb _ = true |- _ => rewrite negb_true_iff in E
    | E : negb _ = false |- _ => rewrite negb_false_iff in E
    | E : (_ || _) = false |- _ => apply orb_false_iff in E as [? ?]
    | E : map_err (manifest_validate _ _) _ = Ok _ |- _ =>
        destruct (manifest_validate (pin_manifest pin) limits) eqn:?; [clear E|discriminate E]
    | E : (_ ==? _) = true |- _ => apply bool_decide_eq_true in E
    end.
  all: eexists; split_and!; try done; eauto.
  all: try (match goal with E : manifest_validate _ _ = _ |- _ => by rewrite E end).
Qed.

(** What starting a repair from a hash report means. *)
Definition repair_started (report : StateHashReport) (r : NetplayRoom) (v : StateRecoveryView)
    (r' : NetplayRoom) : Prop :=
  uses_strict_controller_input r = true ∧ state_digest_mode r = Authoritative ∧
  state_recovery r = None ∧
  report_frame report = next_authoritative_state_hash_frame r ∧
  report_frame report mod AUTHORITATIVE_STATE_HASH_INTERVAL_FRAMES = 0 ∧
  recovery_view_repair_frame v = report_frame report ∧ recovery_view_phase v = Preparing ∧
  (∃ h1 h2, h1 ∈ mismatch_hashes (recovery_view_mismatch v) ∧
            h2 ∈ mismatch_hashes (recovery_view_mismatch v) ∧ hash_sha256 h1 ≠ hash_sha256 h2) ∧
  status r' = RepairingState.

Lemma begin_v5_state_recovery_prepare m now r :
  wp (begin_v5_state_recovery m now)
    (λ o r', ∀ v, o = StartPreparing v →
       uses_strict_controller_input r = true ∧ state_recovery r = None ∧
       v = tx_view (tx_preparing (next_state_recovery_id r) m (room_epoch r) (session_epoch r) now) ∧
       status r' = RepairingState) (λ _ _, True) r.
Proof.
  unfold begin_v5_state_recovery. wp_go; try done. intros v [= <-].
  match goal with E : negb (_ || _) = true |- _ => rewrite negb_true_iff, orb_false_iff in E; destruct E as [E1 E2] end.
  split_and!; try done; [by apply negb_false_iff|]. by destruct (state_recovery r).
Qed.

Lemma forallb_false_exists {A} (f : A → bool) l : forallb f l = false → ∃ x, x ∈ l ∧ f x = false.
Proof.
  induction l as [|x l IH]; [done|]. simpl. rewrite andb_false_iff. intros [Hx|Hl].
  - exists x. split; [apply list_elem_of_here|done].
  - destruct (IH Hl) as (y & Hy & Hf). exists y. split; [by apply list_elem_of_further|done].
Qed.

Lemma evaluate_hashes_prepare av dm frame hashes now r :
  wp (evaluate_hashes av dm frame hashes now)
    (λ o r', ∀ v, o = RecoveryPrepare v →
       uses_strict_controller_input r = true ∧ dm = Authoritative ∧ state_recovery r = None ∧
       recovery_view_repair_frame v = frame ∧ recovery_view_phase v = Preparing ∧
       (∃ h1 h2, h1 ∈ mismatch_hashes (recovery_view_mismatch v) ∧
          h2 ∈ mismatch_hashes (recovery_view_mismatch v) ∧ hash_sha256 h1 ≠ hash_sha256 h2) ∧
       status r' = RepairingState) (λ _ _, True) r.
Proof.
  unfold evaluate_hashes, handle_mismatch, begin_authoritative_recovery, prune_state_hashes.
  wp_go; try done; try (intros v Hv; discriminate Hv).
  2: { intros v Hv. by case_match. }
  eapply wp_mono; [apply begin_v5_state_recovery_prepare| |done]. cbv beta.
  intros o r' Ho. apply wp_ret. intros v Hv. destruct o; [|done]. injection Hv as <-.
  destruct (Ho _ eq_refl) as (Hs & Hn & -> & Hst).
  match goal with E : ((dm ==? Authoritative) && _) = true |- _ => apply andb_true_iff in E as [Hd%bool_decide_eq_true _] end.
  match goal with E : forallb _ _ = false |- _ => apply forallb_false_exists in E as (x & Hx & Hne) end.
  split_and!; try done. apply bool_decide_eq_false in Hne. eexists x, _.
  split_and!; [exact Hx|apply list_elem_of_here|exact Hne].
Qed.

Module Recovery.

(** Pinning a repair snapshot is idempotent. Once the host's pin was accepted, sending it
    again, with the same (old) epochs, is accepted with the same answer and changes nothing,
    while the room is still in that recovery; and any other manifest for that recovery is
    rejected without effect. *)
Theorem recovery_pin_is_idempotent c re se pin limits r v r' :
  accept_v5_state_recovery_pin_for_epoch c re se pin limits r = (Ok v, r') →
  accept_v5_state_recovery_pin_for_epoch c re se pin limits r' = (Ok v, r') ∧
  ∀ pin', pin_manifest pin' ≠ pin_manifest pin →
    ∃ e, accept_v5_state_recovery_pin_for_epoch c re se pin' limits r' = (Err e, r').
Proof.
  intros H.
  destruct (wp_ok _ _ _ _ _ _ (pin_spec c re se pin limits r) H)
    as (tx & Htx & Hs & Hrole & Hm & Hep & Hid & Hfr & Hcase).
  assert (∃ tx', state_recovery r' = Some tx' ∧ is_preparing tx' = false ∧
    expected_snapshot tx' = Some (pin_manifest pin) ∧ v = tx_view tx' ∧
    accepts_message_epoch tx' re se = true ∧ tx_recovery_id tx' = pin_recovery_id pin ∧
    tx_repair_frame tx' = manifest_repair_frame (pin_manifest pin) ∧
    uses_strict_controller_input r' = true ∧
    slot_role <$> find_slot (has_connection c) r' = Some Host)
    as (tx' & H1 & H2 & H3 & -> & H4 & H5 & H6 & H7 & H8).
  { destruct Hcase as [(_ & _ & -> & ->)|(Hp & Hx & -> & ->)]; [|by exists tx].
    exists (tx_commit (pin_manifest pin) tx). split_and!; try done.
    - unfold committed_room. by rewrite uses_strict_renewed, uses_strict_reset.
    - unfold committed_room. by rewrite find_connection_status, find_slot_renewed, find_connection_reset. }
  split.
  - unfold accept_v5_state_recovery_pin_for_epoch.
    cbv [mbind M_bind get lift_result mret M_ret ensure throw]. rewrite H7, H8.
    destruct (manifest_validate (pin_manifest pin) limits); [|done]. cbn [map_err]. rewrite H1.
    cbn [ok_or]. rewrite H4, H5, H6. cbn [negb]. by rewrite !bool_decide_true, H2 by done.
  - intros pin' Hne. pose proof (pin_spec c re se pin' limits r') as Hw. unfold wp in Hw.
    destruct (accept_v5_state_recovery_pin_for_epoch c re se pin' limits r') as [[v'|e] r2].
    + destruct Hw as (tx2 & Htx2 & _ & _ & _ & _ & _ & _ & Hcase2). rewrite H1 in Htx2.
      injection Htx2 as <-. destruct Hcase2 as [(Hp & _)|(_ & Hx & _)]; [congruence|].
      rewrite H3 in Hx. by injection Hx as Hx.
    + subst r2. by exists e.
Qed.

(** A repair in progress: frame 600 disagreed. *)
Definition sample_repairing : NetplayRoom :=
  (Sample.playing 5) <| status := RepairingState |> <| next_state_recovery_id := 2 |>
    <| state_recovery := Some (tx_preparing 1 (mkStateHashMismatchView 600 600 [] []) 1 1 0) |>.
Definition sample_pin : StateRecoveryPin :=
  mkStateRecoveryPin 1 (mkSnapshotManifest "repair" 600 4 Sample.sha).

Lemma recovery_pin_is_idempotent_witness :
  let r' := (accept_v5_state_recovery_pin_for_epoch (Sample.conn 1) 1 1 sample_pin
               SnapshotLimits_default sample_repairing).2 in
  (accept_v5_state_recovery_pin_for_epoch (Sample.conn 1) 1 1 sample_pin SnapshotLimits_default r').2 = r'.
Proof.
  set (v := mkStateRecoveryView 1 Committed 600 (mkStateHashMismatchView 600 600 [] [])
              (Some (pin_manifest sample_pin))).
  destruct (recovery_pin_is_idempotent (Sample.conn 1) 1 1 sample_pin SnapshotLimits_default
    sample_repairing v (accept_v5_state_recovery_pin_for_epoch (Sample.conn 1) 1 1 sample_pin
               SnapshotLimits_default sample_repairing).2) as [H _].
  - vm_compute. reflexivity.
  - cbv zeta. rewrite H. reflexivity.
Defined.

(** Repairs answer real disagreements. A hash report starts a v5 repair only in a strict
    room whose negotiated digest is authoritative and that is not already repairing, at the
    checkpoint due next (a multiple of 600 frames), when two connected players' hashes for that
    very frame differ; the repair targets that frame and the room freezes. *)
Theorem repair_needs_disagreement c report now r v r' :
  accept_state_hash c report now r = (Ok (RecoveryPrepare v), r') → repair_started report r v r'.
Proof.
  intros H. assert (wp (accept_state_hash c report now)
    (λ o r', ∀ v, o = RecoveryPrepare v → repair_started report r v r') (λ _ _, True) r) as Hw;
    [|by eapply (wp_ok _ _ _ _ _ _ Hw H)].
  clear. unfold accept_state_hash.
  do 10 (wp_step; cbv beta; try done).
  repeat lazymatch goal with
    | |- wp (evaluate_hashes _ _ _ _ _) _ _ _ => fail | |- wp _ _ _ _ => wp_step; cbv beta; try done end.
  eapply wp_mono; [apply evaluate_hashes_prepare| |done]. cbv beta. intros o r' Ho v Hv.
  destruct (Ho v Hv) as (Hs & Hd & Hn & Hrest). cbn in Hs, Hn. change (uses_strict_controller_input r = true) in Hs.
  rewrite Hs, Hd in *. rewrite (bool_decide_true (Authoritative = Authoritative)) in * by done.
  cbn [andb] in *. destruct Hrest as (? & ? & ? & ?).
  repeat match goal with E : (_ || _) = false |- _ => apply orb_false_iff in E as [? ?]
    | E : negb (_ =? _) = false |- _ => apply negb_false_iff, N.eqb_eq in E end.
  by split_and!.
Qed.

(** The host already reported frame 600. *)
Definition sample_disputed : NetplayRoom :=
  (Sample.playing 5) <| state_hashes := {[600 := {[PlayerIndex_ONE := Sample.sha]}]} |>.
Definition other_sha : string := "bbbbbbbbbbbbbbbbbbbbbbbbbbbbbbbbbbbbbbbbbbbbbbbbbbbbbbbbbbbbbbbb".

Lemma repair_needs_disagreement_witness :
  status (accept_state_hash (Sample.conn 2) (mkStateHashReport 600 other_sha) 0 sample_disputed).2
  = RepairingState.
Proof.
  set (m := mkStateHashMismatchView 600 600 [mkPlayerStateHashView PlayerIndex_ONE Sample.sha;
              mkPlayerStateHashView PlayerIndex_TWO other_sha] []).
  apply (repair_needs_disagreement (Sample.conn 2) (mkStateHashReport 600 other_sha) 0 sample_disputed
    (mkStateRecoveryView 1 Preparing 600 m None)). vm_compute. reflexivity.
Defined.



End Recovery.
