(* ===== verification/SnapshotOps.v ===== *)
(** * Snapshot synchronisation

  Models [src/src/rooms/room_snapshot_ops.rs]: the host's start-state snapshot,
  relayed in chunks or through the file relay. *)

From Stdlib Require Import Strings.Byte.
From S2P Require Import Prelude Ids Wire Descriptor Protocol Slots SnapshotTransfer.
From S2P Require Import RoomTransactions Room StateHash.
Open Scope N_scope.

Definition role_for_connection (c : ConnectionId) (r : NetplayRoom) : option PlayerRole :=
  slot_role <$> find_slot (has_connection c) r.

Definition validate_host_snapshot_identity (c : ConnectionId) (r : NetplayRoom)
    : result RoomError unit :=
  if mode (session r) !=? ControllerNetplay then Err RoomNotReady
  else match role_for_connection c r with
       | Some Host => Ok tt
       | Some Guest => Err HostOnly
       | None => Err UnknownConnection
       end.

Definition validate_host_snapshot_sender (c : ConnectionId) (r : NetplayRoom)
    : result RoomError unit :=
  _ ← validate_host_snapshot_identity c r;
  if (status r !=? SyncingState) && (status r !=? Ready) then Err RoomNotReady else Ok tt.

Definition validate_snapshot_repair_frame (repair_frame : N) (r : NetplayRoom)
    : result RoomError unit :=
  if repair_frame =? sync_start_frame r then Ok tt else Err SnapshotInvalid.

Definition connected_players_support_state_file_relay (r : NetplayRoom) : bool :=
  all_connected (λ p, is_some_and (find_slot (has_index p) r) slot_supports_state_file_relay) r.

Section snapshot_ops.
Context (sha256 : bytes → bytes).

(** A method of the optional chunk transfer, created on first use
    ([get_or_insert_with(SnapshotTransferState::new)]). *)
Definition on_transfer {A} (m : M SnapshotTransferState RoomError A) : RoomM A := λ r,
  let '(a, t) := m (default SnapshotTransferState_new (snapshot_transfer r)) in
  (a, r <| snapshot_transfer := Some t |>).

(** [NetplayRoom::accept_snapshot_chunk]. *)
Definition accept_snapshot_chunk (c : ConnectionId) (chunk : SnapshotChunk) (limits : SnapshotLimits)
    : RoomM bool :=
  r ← get;
  if host_snapshot_completed r then
    lift_result (validate_host_snapshot_identity c r) ;;
    lift_result (validate_snapshot_repair_frame (chunk_repair_frame chunk) r) ;;
    lift_result (validate_v5_recovery_snapshot_chunk chunk r) ;;
    ensure (is_some_and (snapshot_transfer r) (λ t, is_duplicate_chunk sha256 t chunk))
      SnapshotInvalid ;;
    mret false
  else
    lift_result (validate_host_snapshot_sender c r) ;;
    lift_result (validate_snapshot_repair_frame (chunk_repair_frame chunk) r) ;;
    lift_result (validate_v5_recovery_snapshot_chunk chunk r) ;;
    on_transfer (accept_chunk sha256 chunk limits).

(** [NetplayRoom::accept_snapshot_complete]. *)
Definition accept_snapshot_complete (c : ConnectionId) (manifest : SnapshotManifest)
    (limits : SnapshotLimits) : RoomM bool :=
  r ← get;
  if host_snapshot_completed r then
    lift_result (validate_host_snapshot_identity c r) ;;
    lift_result (validate_snapshot_repair_frame (manifest_repair_frame manifest) r) ;;
    lift_result (validate_v5_recovery_snapshot manifest r) ;;
    ensure (completed_snapshot_manifest r ==? Some manifest) SnapshotInvalid ;;
    mret false
  else
    lift_result (validate_host_snapshot_sender c r) ;;
    lift_result (validate_snapshot_repair_frame (manifest_repair_frame manifest) r) ;;
    lift_result (validate_v5_recovery_snapshot manifest r) ;;
    transfer ← lift_result (ok_or (snapshot_transfer r) SnapshotInvalid);
    lift_result (complete sha256 transfer manifest limits) ;;
    modify (λ r, r <| host_snapshot_completed := true |>
                   <| completed_snapshot_manifest := Some manifest |>) ;;
    mret true.
End snapshot_ops.

(** [NetplayRoom::prepare_snapshot_file_relay_transfer]. *)
Definition prepare_snapshot_file_relay_transfer (c : ConnectionId) (manifest : SnapshotManifest)
    (limits : SnapshotLimits) (r : NetplayRoom)
    : result RoomError SnapshotFileRelayTransferIntent :=
  _ ← validate_host_snapshot_sender c r;
  _ ← validate_snapshot_repair_frame (manifest_repair_frame manifest) r;
  _ ← validate_v5_recovery_snapshot manifest r;
  _ ← map_err (manifest_validate manifest limits) (λ _, SnapshotInvalid);
  if host_snapshot_completed r || is_some (snapshot_transfer r)
     || is_some (snapshot_file_relay_transfer r)
  then Err SnapshotInvalid
  else if negb (connected_players_support_state_file_relay r) then Err SnapshotFileRelayUnavailable
  else
    sender ← ok_or (player_index_for_connection c r) UnknownConnection;
    receiver ← ok_or (find_slot (λ s, is_connected s && negb (has_index sender s)) r) RoomNotReady;
    receiver_connection ← ok_or (slot_connection_id receiver) RoomNotReady;
    Ok (mkSnapshotFileRelayTransferIntent (room_id r) sender (slot_player_index receiver)
          receiver_connection).

(** [NetplayRoom::accept_snapshot_file_relay_grant]. *)
Definition accept_snapshot_file_relay_grant (c : ConnectionId) (manifest : SnapshotManifest)
    (pair : SnapshotFileRelayGrantPair) (limits : SnapshotLimits) : RoomM SnapshotFileRelayGrant :=
  r ← get;
  intent ← lift_result (prepare_snapshot_file_relay_transfer c manifest limits r);
  ensure (negb ((grant_manifest (pair_upload pair) !=? manifest)
                || (grant_manifest (pair_download pair) !=? manifest)
                || (grant_transfer_id (pair_upload pair) !=? grant_transfer_id (pair_download pair))))
    SnapshotInvalid ;;
  modify (λ r, r <| snapshot_file_relay_transfer :=
    Some (mkSnapshotFileRelayTransferState c (intent_receiver_player_index intent)
            (pair_download pair) manifest) |>) ;;
  mret (pair_upload pair).

(** [NetplayRoom::accept_snapshot_file_relay_upload_complete]. *)
Definition accept_snapshot_file_relay_upload_complete (c : ConnectionId) (transfer_id : string)
    (manifest : SnapshotManifest) (limits : SnapshotLimits)
    : RoomM (option (ConnectionId * SnapshotFileRelayGrant)) :=
  r ← get;
  if host_snapshot_completed r then
    transfer ← lift_result (ok_or (snapshot_file_relay_transfer r) SnapshotInvalid);
    ensure (negb ((file_source_connection transfer !=? c)
                  || (grant_transfer_id (file_download_grant transfer) !=? transfer_id)
                  || (file_manifest transfer !=? manifest)
                  || (completed_snapshot_manifest r !=? Some manifest))) SnapshotInvalid ;;
    mret None
  else
    lift_result (validate_host_snapshot_sender c r) ;;
    lift_result (validate_snapshot_repair_frame (manifest_repair_frame manifest) r) ;;
    lift_result (validate_v5_recovery_snapshot manifest r) ;;
    lift_result (map_err (manifest_validate manifest limits) (λ _, SnapshotInvalid)) ;;
    transfer ← lift_result (ok_or (snapshot_file_relay_transfer r) SnapshotInvalid);
    ensure (negb ((file_source_connection transfer !=? c)
                  || (grant_transfer_id (file_download_grant transfer) !=? transfer_id)
                  || (file_manifest transfer !=? manifest))) SnapshotInvalid ;;
    receiver_connection ← lift_result (ok_or
      (find_slot (has_index (file_receiver_player_index transfer)) r ≫= slot_connection_id)
      RoomNotReady);
    modify (λ r, r <| host_snapshot_completed := true |>
                   <| completed_snapshot_manifest := Some manifest |>) ;;
    mret (Some (receiver_connection, file_download_grant transfer)).

(** ** Properties *)

Module Exactness.

(** Only the right snapshot completes a sync. When the relay accepts a completion
    manifest as new, it came from the host of a controller room that is syncing, it names the
    session's start frame, during a repair it is the very manifest the host pinned, and the
    chunks the room holds hash to it; the room records that manifest and nothing else of the
    transfer. *)
Theorem snapshot_completion_is_exact sha256 c manifest limits r r' :
  accept_snapshot_complete sha256 c manifest limits r = (Ok true, r') →
  mode (session r) = ControllerNetplay ∧ role_for_connection c r = Some Host ∧
  (status r = SyncingState ∨ status r = Ready) ∧
  manifest_repair_frame manifest = sync_start_frame r ∧
  (∀ pinned, state_recovery r ≫= expected_snapshot = Some pinned → manifest = pinned) ∧
  (∃ transfer, snapshot_transfer r = Some transfer ∧ complete sha256 transfer manifest limits = Ok tt) ∧
  r' = r <| host_snapshot_completed := true |> <| completed_snapshot_manifest := Some manifest |>.
Proof.
  intros H. assert (wp (accept_snapshot_complete sha256 c manifest limits) (λ o r', o = true →
    validate_host_snapshot_sender c r = Ok tt ∧
    validate_snapshot_repair_frame (manifest_repair_frame manifest) r = Ok tt ∧
    validate_v5_recovery_snapshot manifest r = Ok tt ∧
    (∃ transfer, snapshot_transfer r = Some transfer ∧ complete sha256 transfer manifest limits = Ok tt) ∧
    r' = r <| host_snapshot_completed := true |> <| completed_snapshot_manifest := Some manifest |>)
    (λ _ _, True) r) as Hw.
  { unfold accept_snapshot_complete. wp_go; try done. intros _.
    repeat match goal with x : () |- _ => destruct x end. split_and!; eauto. }
  destruct (wp_ok _ _ _ _ _ _ Hw H eq_refl) as (Hv & Hf & Hp & Ht & Hr). clear Hw H.
  unfold validate_host_snapshot_sender, validate_host_snapshot_identity in Hv.
  unfold validate_snapshot_repair_frame in Hf. unfold validate_v5_recovery_snapshot in Hp.
  destruct (mode (session r) !=? ControllerNetplay) eqn:Hm; [done|]. rewrite bool_decide_neq_false in Hm.
  destruct (role_for_connection c r) as [[]|]; cbn in Hv; try done.
  split_and!; try done.
  - destruct (status r ==? SyncingState) eqn:E1; [left; by apply bool_decide_eq_true in E1|].
    destruct (status r ==? Ready) eqn:E2; [right; by apply bool_decide_eq_true in E2|done].
  - destruct (N.eqb_spec (manifest_repair_frame manifest) (sync_start_frame r)); done.
  - intros pinned Hpin. rewrite Hpin in Hp. case_bool_decide; done.
Qed.

Definition sample_manifest : SnapshotManifest :=
  mkSnapshotManifest "s-1" 0 1 "0101010101010101010101010101010101010101010101010101010101010101".
Definition sample_syncing : NetplayRoom :=
  (accept_snapshot_chunk Transfer.first_byte_digest (Sample.conn 1) (mkSnapshotChunk "s-1" 0 0 [x01])
     SnapshotLimits_default ((Sample.playing 5) <| status := SyncingState |>)).2.

Lemma snapshot_completion_is_exact_witness :
  manifest_repair_frame sample_manifest = sync_start_frame sample_syncing.
Proof.
  apply (snapshot_completion_is_exact Transfer.first_byte_digest (Sample.conn 1) sample_manifest
    SnapshotLimits_default sample_syncing (accept_snapshot_complete Transfer.first_byte_digest
      (Sample.conn 1) sample_manifest SnapshotLimits_default sample_syncing).2).
  vm_compute. reflexivity.
Defined.

End Exactness.
