(* ===== verification/LinkOps.v ===== *)
(** * Link-cable, ROM-relay and voice operations

  Models [src/src/rooms/room_link_cable_ops.rs],
  [src/src/rooms/room_rom_relay_ops.rs] and [src/src/rooms/room_voice_ops.rs]. *)

From S2P Require Import Prelude Ids Descriptor Protocol Slots LinkState RoomTransactions Room.
From S2P Require Import StartSync.
Open Scope N_scope.

(** ** room_link_cable_ops.rs *)

(** A method of [link_cable_state]. *)
Definition on_link_state {A} (m : M LinkCableRoomState RoomError A) : RoomM A := λ r,
  let '(a, s) := m (link_cable_state r) in (a, r <| link_cable_state := s |>).

Definition link_descriptor (r : NetplayRoom) : result RoomError LinkCableDescriptor :=
  if mode (session r) !=? LinkCable then Err CompatibilityMismatch
  else ok_or (link (session r)) CompatibilityMismatch.

(** The room changes common to both rejections of link compatibility. *)
Definition reject_link_compatibility (p : PlayerIndex) (r : NetplayRoom) : NetplayRoom :=
  set_player_status p Player_CompatibilityFailed
    (r <| ready_players ::= (.∖ {[p]}) |> <| status := CheckingCompatibility |>).

(** [NetplayRoom::set_link_cable_compatibility_for_connection]. *)
Definition set_link_cable_compatibility_for_connection (c : ConnectionId)
    (compat : LinkCableCompatibility) : RoomM unit :=
  r ← get;
  ensure (status r !=? Closed) RoomClosed ;;
  ensure (status r !=? Playing) RoomNotReady ;;
  p ← lift_result (ok_or (player_index_for_connection c r) UnknownConnection);
  link ← lift_result (link_descriptor r);
  if lc_protocol_version compat !=? protocol_version r then
    modify (reject_link_compatibility p) ;; throw CompatibilityMismatch
  else
    outcome ← attempt (on_link_state (LinkState.set_compatibility p link compat));
    match outcome with
    | Err e => modify (reject_link_compatibility p) ;; throw e
    | Ok _ =>
        modify (λ r, set_player_status p Player_CheckingCompatibility
                       (r <| ready_players ::= (.∖ {[p]}) |>)) ;;
        r ← get;
        let connected := connected_player_indices r in
        if negb (connected_players_have_compatibility connected (max_players r) (link_cable_state r))
        then mret tt
        else if negb (connected_players_are_compatible connected (max_players r)
                        (link_cable_state r))
        then
          modify (λ r, update_slots (λ s, negb (slot_is_empty s))
            (λ s, s <| slot_status := Player_CompatibilityFailed |>
                    <| slot_runtime_state := Runtime_Connected |>)
            (r <| status := CheckingCompatibility |>)) ;;
          throw CompatibilityMismatch
        else
          modify (λ r, set_connected_status Player_SyncingState Runtime_Syncing
            (r <| status := SyncingState |>))
    end.

(** [NetplayRoom::accept_link_cable_packet]. *)
Definition accept_link_cable_packet (c : ConnectionId) (packet : LinkCablePacket)
    (limits : LinkCablePacketLimits) : RoomM unit :=
  r ← get;
  ensure ((mode (session r) ==? LinkCable) && (status r ==? Playing)) NotPlaying ;;
  owned ← lift_result (ok_or (player_index_for_connection c r) UnknownConnection);
  on_link_state (accept_packet owned packet limits).

(** ** room_rom_relay_ops.rs *)

Definition capability_reason_to_block (reason : option RomRelayCapabilityReason)
    : RomRelayBlockReason :=
  match reason with
  | Some CapDisabled => BlockDisabled
  | Some CapBrokerUnavailable => BlockBrokerUnavailable
  | Some CapMissingIdentity => BlockMissingIdentity
  | Some CapTooLarge => BlockTooLarge
  | Some CapUnsupportedSystem => BlockUnsupportedSystem
  | Some CapUnsupportedRoom | None => BlockDisabled
  end.

(** [NetplayRoom::prepare_rom_relay_transfer]. *)
Definition prepare_rom_relay_transfer (c : ConnectionId) (r : NetplayRoom)
    : result RomRelayBlockReason RomRelayTransferIntent :=
  receiver_index ← ok_or (player_index_for_connection c r) BlockWrongPlayer;
  if receiver_index ==? PlayerIndex_ONE then Err BlockWrongPlayer
  else if is_some (rom_relay_transfer r) then Err BlockTransferActive
  else
    capability ← ok_or (rom_relay (session r)) BlockDisabled;
    if negb (cap_available capability) then Err (capability_reason_to_block (cap_reason capability))
    else
      rom ← ok_or (rom_identity (session r)) BlockMissingIdentity;
      sender ← ok_or (find_slot (has_role Host) r) BlockWrongPlayer;
      receiver ← ok_or (find_slot (has_index receiver_index) r) BlockWrongPlayer;
      if negb (slot_supports_rom_file_relay sender) || negb (slot_supports_rom_file_relay receiver)
      then Err BlockClientUnsupported
      else
        sender_connection ← ok_or (slot_connection_id sender) BlockWrongPlayer;
        receiver_connection ← ok_or (slot_connection_id receiver) BlockWrongPlayer;
        Ok (mkRomRelayTransferIntent (room_id r) (slot_player_index sender) sender_connection
              receiver_index receiver_connection rom (room_epoch r) (session_epoch r)).

(** [NetplayRoom::accept_rom_relay_grants]. *)
Definition accept_rom_relay_grants (c : ConnectionId) (grants : RomRelayGrantPair)
    : M NetplayRoom RomRelayBlockReason RomRelayGrant :=
  r ← get;
  intent ← lift_result (prepare_rom_relay_transfer c r);
  modify (λ r, r <| rom_relay_transfer := Some (RomRelayTransferState_new
    (rintent_sender_connection intent) (rintent_receiver_connection intent)
    (rintent_sender_player_index intent) (rintent_receiver_player_index intent) grants
    (rintent_rom intent)) |>) ;;
  mret (rpair_upload grants).

(** [NetplayRoom::accept_rom_relay_completion]. *)
Definition accept_rom_relay_completion (source : ConnectionId) (completion : RomRelayCompletion)
    : M NetplayRoom RomRelayBlockReason (option (ConnectionId * RomRelayGrant)) := λ r,
  match rom_relay_transfer r with
  | None => (Err BlockMissingIdentity, r)
  | Some transfer =>
      let '(outcome, transfer) := accept_completion source completion transfer in
      let r := r <| rom_relay_transfer := Some transfer |> in
      match outcome, completion_role completion with
      | Err e, _ => (Err e, r)
      | Ok peer, Upload => (Ok (Some (peer, rom_download_grant transfer)), r)
      | Ok _, Download => (Ok None, r <| rom_relay_transfer := None |>)
      end
  end.

(** [NetplayRoom::accept_rom_relay_progress]. *)
Definition accept_rom_relay_progress (source : ConnectionId) (progress : RomRelayProgress)
    (r : NetplayRoom) : result RomRelayBlockReason unit :=
  transfer ← ok_or (rom_relay_transfer r) BlockMissingIdentity;
  if progress_transfer_id progress !=? rgrant_transfer_id (rom_upload_grant transfer)
  then Err BlockMissingIdentity
  else match progress_role progress with
       | Upload => if source ==? rom_sender_connection transfer then Ok tt else Err BlockWrongPlayer
       | Download =>
           if source ==? rom_receiver_connection transfer then Ok tt else Err BlockWrongPlayer
       end.

Definition ensure_rom_relay_participant (source : ConnectionId) (transfer_id : option string)
    (r : NetplayRoom) : result RomRelayBlockReason unit :=
  transfer ← ok_or (rom_relay_transfer r) BlockMissingIdentity;
  if is_some_and transfer_id (λ id, id !=? rgrant_transfer_id (rom_upload_grant transfer))
  then Err BlockMissingIdentity
  else if (source ==? rom_sender_connection transfer) || (source ==? rom_receiver_connection transfer)
  then Ok tt else Err BlockWrongPlayer.

(** [NetplayRoom::accept_rom_relay_failure] and [accept_rom_relay_cancelled]. *)
Definition accept_rom_relay_failure (source : ConnectionId) (failure : RomRelayFailure)
    : M NetplayRoom RomRelayBlockReason unit :=
  r ← get;
  lift_result (ensure_rom_relay_participant source (failure_transfer_id failure) r) ;;
  modify (λ r, r <| rom_relay_transfer := None |>).
Definition accept_rom_relay_cancelled (source : ConnectionId) (cancelled : RomRelayCancelled)
    : M NetplayRoom RomRelayBlockReason unit :=
  r ← get;
  lift_result (ensure_rom_relay_participant source (cancelled_transfer_id cancelled) r) ;;
  modify (λ r, r <| rom_relay_transfer := None |>).

(** ** room_voice_ops.rs *)

Definition voice_requested (r : NetplayRoom) : bool :=
  is_some_and (voice_descriptor (session r)) voice_enabled.

Definition requested_voice_mode (r : NetplayRoom) : NetplayVoiceMode :=
  match voice_descriptor (session r) with Some v => voice_mode v | None => VoiceActivation end.

Definition set_voice_state (v : RoomVoiceState) (r : NetplayRoom) : NetplayRoom :=
  r <| room_voice := Some v |>.

Definition voice_grant_for (p : PlayerIndex) (r : NetplayRoom) : option PlayerVoiceJoinGrant :=
  room_voice r ≫= λ v, grant_for v p.

Record RoomVoiceTokenRefreshRequest := mkRoomVoiceTokenRefreshRequest {
  refresh_voice_room_id : string;
  refresh_player_index : PlayerIndex;
  refresh_participant_identity : string;
  refresh_display_name : string }.

Definition voice_token_refresh_request (c : ConnectionId) (r : NetplayRoom)
    : result RoomError RoomVoiceTokenRefreshRequest :=
  p ← ok_or (player_index_for_connection c r) UnknownConnection;
  grant ← ok_or (voice_grant_for p r) VoiceUnavailable;
  Ok (mkRoomVoiceTokenRefreshRequest (vg_voice_room_id grant) p (vg_participant_identity grant)
        ("Player " +:+ decimal (display_number p))%string).

(** [NetplayRoom::refresh_voice_grant]. *)
Definition refresh_voice_grant (c : ConnectionId) (participant_identity token expires_at : string)
    : RoomM PlayerVoiceJoinGrant := λ r,
  match player_index_for_connection c r with
  | None => (Err UnknownConnection, r)
  | Some p =>
      match room_voice r with
      | None => (Err VoiceUnavailable, r)
      | Some v =>
          let '(grant, v) := refresh_grant p participant_identity token expires_at v in
          (ok_or grant VoiceUnavailable, r <| room_voice := Some v |>)
      end
  end.

Definition voice_room_id_for_cleanup (r : NetplayRoom) : option string :=
  room_voice r ≫= λ v, vv_voice_room_id (voice_view v).

Definition take_voice_room_id_for_cleanup (r : NetplayRoom) : option string * NetplayRoom :=
  let id := voice_room_id_for_cleanup r in
  (id, if is_some id then r <| room_voice := None |> else r).
