(* ===== verification/System.v ===== *)
(** * The room as a state machine

  Every mutating method of [NetplayRoom] is an [Action]; [step] runs one and
  reports the frames it released. Theorems about whole executions are stated
  over [execution], the rooms reachable from [new_with_protocol_and_resume]
  together with the log of releases. *)

From S2P Require Import Prelude Ids Wire StrictInput Text Compatibility Descriptor Protocol Invite Slots.
From S2P Require Import PauseState SnapshotTransfer LinkState RoomTransactions AdaptiveDelay Room.
From S2P Require Import StartSync Connection PauseOps InputRelay HostFrame StateHash SnapshotOps LinkOps.
Open Scope N_scope.

Section machine.
Context (sha256 : bytes → bytes).

Inductive Action :=
| JoinGuest (license : VerifiedLicense) (c : ConnectionId) (resume input : ResumeTokenHash)
    (now : Instant) (capabilities : ClientTransportCapabilities)
| AttachHost (license : VerifiedLicense) (c : ConnectionId) (resume input : ResumeTokenHash)
    (now : Instant) (capabilities : ClientTransportCapabilities)
| PlayerExited (c : ConnectionId) (now : Instant)
| ArmHandoff (c : ConnectionId) (now : Instant) (grace : Duration)
| CancelHandoff (c : ConnectionId)
| ExpireHandoffs (now : Instant)
| Disconnect (c : ConnectionId) (now : Instant) (grace : Duration)
| Reconnect (q : PlayerReconnectRequest)
| Heartbeat (c : ConnectionId) (now : Instant) (local_frame : option N)
    (network : option ClientNetworkQualityReport) (state : ClientRuntimeState)
| RecoverStale (now : Instant) (disconnect grace : Duration)
| MarkStale (now : Instant) (stale disconnect : Duration)
| AttachInput (p : PlayerIndex) (room_epoch session_epoch : N) (token : string) (c : ConnectionId)
    (now : Instant)
| DisconnectInput (c : ConnectionId) (now : Instant) (grace : Duration)
| SetCompatibility (c : ConnectionId) (fingerprint : CompatibilityFingerprint)
| MarkReady (c : ConnectionId) (network : option ClientNetworkQualityReport) (now : Instant)
| RequestClockSample (server_time_ms : N)
| ClockSample (c : ConnectionId) (sample : ClockSyncSample) (now : Instant) (server_time_ms : N)
| DeterministicReady (c : ConnectionId) (network : option ClientNetworkQualityReport)
    (now : Instant) (server_time_ms : N)
| RequestPause (c : ConnectionId) (request_id : string) (reason : SessionPauseReason) (frame : N)
| PauseReached (c : ConnectionId) (sequence frame : N) (server_time_ms : option N)
| RequestResume (c : ConnectionId) (request_id : string) (sequence : N) (server_time_ms : option N)
| LegacyInputIn (c : ConnectionId) (inputs : list InputFrameCursor) (limits : InputFrameLimits)
| StrictInputIn (c : ConnectionId) (batch : StrictInputBatch)
| HostOpen (c : ConnectionId) (open : HostFrameOpen) (server_time_ms : N)
| DueHostFrame (server_time_ms : N)
| ServerTick (server_time_ms : N)
| StateHashIn (c : ConnectionId) (report : StateHashReport) (now : Instant)
| PinRecovery (c : ConnectionId) (room_epoch session_epoch : N) (pin : StateRecoveryPin)
    (limits : SnapshotLimits)
| ExpireRecovery (now : Instant)
| SnapshotChunkIn (c : ConnectionId) (chunk : SnapshotChunk) (limits : SnapshotLimits)
| SnapshotCompleteIn (c : ConnectionId) (manifest : SnapshotManifest) (limits : SnapshotLimits)
| FileRelayGrant (c : ConnectionId) (manifest : SnapshotManifest)
    (grants : SnapshotFileRelayGrantPair) (limits : SnapshotLimits)
| FileRelayUploaded (c : ConnectionId) (transfer_id : string) (manifest : SnapshotManifest)
    (limits : SnapshotLimits)
| LinkCompatibility (c : ConnectionId) (compatibility : LinkCableCompatibility)
| LinkPacket (c : ConnectionId) (packet : LinkCablePacket) (limits : LinkCablePacketLimits)
| RomGrants (c : ConnectionId) (grants : RomRelayGrantPair)
| RomCompletion (c : ConnectionId) (completion : RomRelayCompletion)
| RomFailure (c : ConnectionId) (failure : RomRelayFailure)
| RomCancelled (c : ConnectionId) (cancelled : RomRelayCancelled)
| SetVoice (voice : RoomVoiceState)
| RefreshVoice (c : ConnectionId) (identity token expires_at : string)
| TakeVoice.

(** A released frame, under the session epoch of its release. *)
Record ReleaseEvent := mkReleaseEvent {
  event_session_epoch : N;
  event_frame : N }.

Definition v5_event (release : ServerFrameReleaseV5) : ReleaseEvent :=
  mkReleaseEvent (release_session_epoch release) (release_released_frame release).

Definition host_open_events (o : result RoomError HostFrameOpenOutcome) : list ReleaseEvent :=
  match o with Ok (Released release) => [v5_event release] | _ => [] end.

Definition silent {A E} (m : M NetplayRoom E A) (r : NetplayRoom) : list ReleaseEvent * NetplayRoom :=
  ([], (m r).2).

Definition step (a : Action) (r : NetplayRoom) : list ReleaseEvent * NetplayRoom :=
  match a with
  | JoinGuest license c resume input now caps =>
      silent (join_guest_with_resume license c resume input now caps) r
  | AttachHost license c resume input now caps =>
      silent (attach_host_with_resume license c resume input now caps) r
  | PlayerExited c now => silent (player_exited c now) r
  | ArmHandoff c now grace => silent (arm_runner_handoff c now grace) r
  | CancelHandoff c => silent (cancel_runner_handoff c) r
  | ExpireHandoffs now => ([], (expire_runner_handoffs now r).2)
  | Disconnect c now grace => silent (disconnect_with_recovery c now grace) r
  | Reconnect q => silent (reconnect_player q) r
  | Heartbeat c now f n s => silent (record_heartbeat c now f n s) r
  | RecoverStale now d g => ([], (recover_stale_connections now d g r).2)
  | MarkStale now s d => ([], (mark_stale_connections now s d r).2)
  | AttachInput p re se token c now => silent (attach_input_socket p re se token c now) r
  | DisconnectInput c now grace => silent (disconnect_input_socket c now grace) r
  | SetCompatibility c f => silent (set_compatibility_for_connection c f) r
  | MarkReady c n now => silent (mark_ready c n now) r
  | RequestClockSample t => ([], (request_clock_sync_sample t r).2)
  | ClockSample c s now t => silent (accept_clock_sync_sample c s now t) r
  | DeterministicReady c n now t => silent (mark_deterministic_ready c n now t) r
  | RequestPause c id reason f => silent (request_session_pause_with_id c id reason f) r
  | PauseReached c sq f t => silent (mark_session_pause_reached_internal c sq f t) r
  | RequestResume c id sq t => silent (request_session_resume_internal c id sq t) r
  | LegacyInputIn c inputs limits => silent (accept_input_frame_cursors c inputs limits) r
  | StrictInputIn c batch => silent (accept_strict_input_batch c batch) r
  | HostOpen c open t =>
      let '(o, r) := accept_host_frame_open c open t r in (host_open_events o, r)
  | DueHostFrame t =>
      let '(o, r) := release_due_v5_host_frame t r in (v5_event <$> option_list o, r)
  | ServerTick t =>
      let '(o, r) := release_next_server_frame t r in
      ((λ f, mkReleaseEvent (server_session_epoch f) (server_frame f)) <$> option_list o, r)
  | StateHashIn c report now => silent (accept_state_hash c report now) r
  | PinRecovery c re se pin limits =>
      silent (accept_v5_state_recovery_pin_for_epoch c re se pin limits) r
  | ExpireRecovery now => ([], (close_expired_state_recovery now r).2)
  | SnapshotChunkIn c chunk limits => silent (accept_snapshot_chunk sha256 c chunk limits) r
  | SnapshotCompleteIn c m limits => silent (accept_snapshot_complete sha256 c m limits) r
  | FileRelayGrant c m gp limits => silent (accept_snapshot_file_relay_grant c m gp limits) r
  | FileRelayUploaded c id m limits =>
      silent (accept_snapshot_file_relay_upload_complete c id m limits) r
  | LinkCompatibility c l => silent (set_link_cable_compatibility_for_connection c l) r
  | LinkPacket c p limits => silent (accept_link_cable_packet c p limits) r
  | RomGrants c g => silent (accept_rom_relay_grants c g) r
  | RomCompletion c x => silent (accept_rom_relay_completion c x) r
  | RomFailure c x => silent (accept_rom_relay_failure c x) r
  | RomCancelled c x => silent (accept_rom_relay_cancelled c x) r
  | SetVoice v => ([], set_voice_state v r)
  | RefreshVoice c i t e => silent (refresh_voice_grant c i t e) r
  | TakeVoice => ([], (take_voice_room_id_for_cleanup r).2)
  end.

(** The executions of a room, with the log of its releases. [allowed] restricts the
    steps a theorem is about. *)
Inductive execution (allowed : Action → NetplayRoom → Prop)
    : list ReleaseEvent → NetplayRoom → Prop :=
| execution_new id host c code session version resume input now :
    execution allowed []
      (new_with_protocol_and_resume id host c code session version resume input now)
| execution_step a log r :
    execution allowed log r → allowed a r →
    execution allowed (log ++ (step a r).1) (step a r).2.

(** Rule induction over executions: a property of the log and the room that holds at
    first and that every allowed step keeps. *)
Lemma execution_invariant allowed (I : list ReleaseEvent → NetplayRoom → Prop) :
  (∀ id host c code session version resume input now,
     I [] (new_with_protocol_and_resume id host c code session version resume input now)) →
  (∀ a log r, allowed a r → I log r → I (log ++ (step a r).1) (step a r).2) →
  ∀ log r, execution allowed log r → I log r.
Proof. intros H0 Hs. induction 1; auto. Qed.

(** Fewer restrictions allow more executions. *)
Lemma execution_weaken (P Q : Action → NetplayRoom → Prop) log r :
  (∀ a r, P a r → Q a r) → execution P log r → execution Q log r.
Proof. intros H. induction 1; constructor; auto. Qed.

(** A finite run of the machine. *)
Fixpoint run (actions : list Action) (r : NetplayRoom) : list ReleaseEvent * NetplayRoom :=
  match actions with
  | [] => ([], r)
  | a :: actions =>
      let '(events, r) := step a r in
      let '(log, r) := run actions r in (events ++ log, r)
  end.
End machine.
