(* ===== verification/SlotInvariant.v ===== *)
(** * Slot ownership

  The invariant of the two player slots and its preservation by every step of
  the room: the host keeps slot one and the guest slot two, an input socket never
  outlives its control connection, and an unused input-socket token is bound to
  the control connection it was issued to. *)

From S2P Require Import Prelude Ids Wire StrictInput Text Compatibility Descriptor Protocol Invite Slots.
From S2P Require Import PauseState SnapshotTransfer LinkState RoomTransactions AdaptiveDelay Room.
From S2P Require Import StartSync Connection PauseOps InputRelay HostFrame StateHash SnapshotOps LinkOps.
From S2P Require Import System.
Open Scope N_scope.

(** The record updates are unfolded last when rooms are compared. *)
Strategy 1000 [upd].
Strategy 900 [update_slot update_slots].
Strategy 800 [set_connected_status set_player_status reset_sync_state_to].

Definition slot_key (s : PlayerSlot) : PlayerIndex * PlayerRole := (slot_player_index s, slot_role s).

(** The invariant of one slot. *)
Record slot_ok (s : PlayerSlot) : Prop := {
  ok_empty : slot_status s = Player_Empty →
    slot_role s = Guest ∧ slot_connection_id s = None ∧ slot_resume_token_hash s = None;
  ok_input : slot_connection_id s = None → slot_input_connection_id s = None;
  ok_token : slot_input_socket_token_hash s ≠ None →
    slot_input_socket_control_connection_id s = slot_connection_id s ∧ slot_connection_id s ≠ None ∧
    slot_input_connection_id s = None;
  ok_deadline : slot_reconnect_deadline s ≠ None → slot_connection_id s = None }.

Record slots_ok (r : NetplayRoom) : Prop := {
  ok_keys : slot_key <$> players r = [(PlayerIndex_ONE, Host); (PlayerIndex_TWO, Guest)];
  ok_slots : Forall slot_ok (players r);
  ok_capacity : max_players r = MVP_ROOM_CAPACITY }.

(** A mutation of slots that satisfy [p] is harmless. *)
Definition slot_safe (p : PlayerSlot → bool) (f : PlayerSlot → PlayerSlot) : Prop :=
  ∀ s, p s = true → slot_ok s → slot_key (f s) = slot_key s ∧ slot_ok (f s).

Lemma slots_ok_ext r r' :
  players r' = players r → max_players r' = max_players r → slots_ok r → slots_ok r'.
Proof. intros Hp Hm [? ? ?]. split; by rewrite ?Hp, ?Hm. Qed.

(** Updating any other field of the room. *)
Lemma slots_ok_upd {T} (q : NetplayRoom → T) `{!Setter q} (v : T → T) r :
  (∀ n g, players (upd q g n) = players n) → (∀ n g, max_players (upd q g n) = max_players n) →
  slots_ok r → slots_ok (upd q v r).
Proof. intros Hp Hm. by apply slots_ok_ext. Qed.

(** Keys and the slot invariant survive pointwise-harmless mutations; [P] is what
    else is known of the slots. *)
Lemma slots_ok_update_with (P : PlayerSlot → Prop) p f r :
  Forall P (players r) →
  (∀ s, p s = true → P s → slot_ok s → slot_key (f s) = slot_key s ∧ slot_ok (f s)) →
  slots_ok r → slots_ok (update_slot p f r).
Proof.
  intros HP Hf [Hk Hs Hm]. split; [| |done]; cbn.
  - rewrite <-Hk. clear Hk Hm. induction HP as [|s l Hsp _ IH]; [done|].
    apply Forall_cons in Hs as [Hs Hl]. simpl. destruct (p s) eqn:E; csimpl.
    + by destruct (Hf s E Hsp Hs) as [-> _].
    + by rewrite IH.
  - clear Hk Hm. induction HP as [|s l Hsp _ IH]; [done|].
    apply Forall_cons in Hs as [Hs Hl]. simpl. destruct (p s) eqn:E; constructor; auto.
    by apply Hf.
Qed.

Lemma slots_ok_update_slot p f r : slot_safe p f → slots_ok r → slots_ok (update_slot p f r).
Proof.
  intros Hf. apply (slots_ok_update_with (λ _, True)); [by apply Forall_true|]. intros s ? _. by apply Hf.
Qed.

Lemma slots_ok_update_slots p f r : slot_safe p f → slots_ok r → slots_ok (update_slots p f r).
Proof.
  intros Hf [Hk Hs Hm]. split; [| |done]; cbn; unfold update_all.
  - rewrite <-Hk, <-list_fmap_compose. apply list_fmap_ext. intros i s Hi. simpl.
    destruct (p s) eqn:E; [|done]. apply Hf; [done|]. by eapply Forall_lookup_1.
  - apply Forall_fmap. eapply Forall_impl; [exact Hs|]. intros s Hok. simpl.
    destruct (p s) eqn:E; [|done]. by apply Hf.
Qed.

(** The mutations of single slots. *)
Ltac split_goal_match :=
  repeat match goal with |- context [match ?x with _ => _ end] => destruct x end.
Ltac slot_go :=
  let s := fresh "s" in
  intros s _ []; split; [by split_goal_match|];
  split; cbn beta zeta; split_goal_match; simpl; try done; try tauto.

Lemma status_safe p st (g : PlayerSlot → PlayerRuntimeState) :
  st ≠ Player_Empty →
  slot_safe p (λ s, s <| slot_status := st |> <| slot_runtime_state := g s |>).
Proof. intros Hst. slot_go. Qed.

Lemma clear_samples_safe p : slot_safe p clear_samples.
Proof. slot_go. Qed.

Lemma store_samples_safe p f n now : slot_safe p (store_samples f n now).
Proof. unfold store_samples. slot_go. Qed.

Lemma slots_ok_set_connected_status st rs r :
  st ≠ Player_Empty → slots_ok r → slots_ok (set_connected_status st rs r).
Proof. intros ?. by apply slots_ok_update_slots, (status_safe _ _ (λ _, rs)). Qed.

Lemma slots_ok_set_player_status p st r :
  st ≠ Player_Empty → slots_ok r → slots_ok (set_player_status p st r).
Proof. intros ?. by apply slots_ok_update_slot, (status_safe _ _ (λ _, _)). Qed.

Lemma slots_ok_reset_sync_state_to n r : slots_ok r → slots_ok (reset_sync_state_to n r).
Proof.
  intros H. unfold reset_sync_state_to. destruct (uses_strict_controller_input r).
  - apply (slots_ok_ext (update_slots (λ _, true) clear_samples r)); [done..|].
    by apply slots_ok_update_slots, H; apply clear_samples_safe.
  - by apply (slots_ok_ext r).
Qed.

(** Peels the mutations off a room, down to a room known to be fine. *)
Ltac slots_known :=
  match goal with H : slots_ok ?r |- slots_ok ?r' => constr_eq r r'; exact H end.
Ltac slots_step :=
  first [slots_known|
  lazymatch goal with
  | |- slots_ok (set_connected_status _ _ _) => apply slots_ok_set_connected_status; [done|]
  | |- slots_ok (set_player_status _ _ _) => apply slots_ok_set_player_status; [done|]
  | |- slots_ok (reset_sync_state_to _ _) => apply slots_ok_reset_sync_state_to
  | |- slots_ok (reset_sync_state _) => apply slots_ok_reset_sync_state_to
  | |- slots_ok (update_slots _ _ _) => apply slots_ok_update_slots; [slot_go|]
  | |- slots_ok (update_slot _ _ _) => apply slots_ok_update_slot; [slot_go|]
  | |- slots_ok (upd players (fmap _) ?r) => apply (slots_ok_update_slots (λ _, true)); [slot_go|]
  | |- slots_ok (upd _ _ _) => apply slots_ok_upd; [intros; reflexivity..|]
  | |- slots_ok (match ?x with _ => _ end) => destruct x eqn:?
  | |- slots_ok (let _ := _ in _) => cbv zeta
  end].
Ltac slots_composite := fail.
Ltac slots_go := repeat first [slots_known | slots_composite | slots_step].

Lemma slots_ok_restore r :
  slots_ok r → slots_ok (restore_checking_compatibility_after_recovery r).
Proof. intros H. unfold restore_checking_compatibility_after_recovery. slots_go. Qed.

Lemma slots_ok_enter_recovery_state e r : slots_ok r → slots_ok (enter_recovery_state e r).
Proof.
  intros H. unfold enter_recovery_state, bump_session_epoch, bump_room_epoch. slots_go.
Qed.

(** Only a slot without a control connection waits for a reconnect. *)
Lemma slots_ok_mark_slot_reconnecting p now grace e r :
  Forall (λ s, slot_player_index s = p → slot_connection_id s = None) (players r) →
  slots_ok r → slots_ok (mark_slot_reconnecting p now grace e r).
Proof.
  intros HP H. unfold mark_slot_reconnecting. eapply slots_ok_update_with; [exact HP| |exact H].
  intros s Hs HPs []. unfold has_index in Hs. apply bool_decide_eq_true in Hs.
  split; [done|]. split; simpl; try done. by intros _; apply HPs.
Qed.

Lemma slots_ok_forget_player p r : slots_ok r → slots_ok (forget_player p r).
Proof. intros H. unfold forget_player. slots_go. Qed.

Ltac slots_composite ::=
  lazymatch goal with
  | |- slots_ok (restore_checking_compatibility_after_recovery _) => apply slots_ok_restore
  | |- slots_ok (enter_recovery_state _ _) => apply slots_ok_enter_recovery_state
  | |- slots_ok (forget_player _ _) => apply slots_ok_forget_player
  end.

(** A cleared slot has no control connection, and is the guest's unless it is
    cleared as the host's. *)
Lemma slots_ok_clear_disconnected_slot p is_host r :
  Forall (λ s, slot_player_index s = p →
            slot_connection_id s = None ∧ (slot_role s = Host → is_host = true)) (players r) →
  slots_ok r → slots_ok (clear_disconnected_slot p is_host r).
Proof.
  intros HP H. unfold clear_disconnected_slot.
  assert (∀ f, (∀ s, slot_connection_id s = None → (slot_role s = Host → is_host = true) → slot_ok s →
                  slot_key (f s) = slot_key s ∧ slot_ok (f s)) →
               slots_ok (update_slot (has_index p) f r)) as Hu.
  { intros f Hf. eapply slots_ok_update_with; [exact HP| |exact H].
    intros s Hs HPs Hok. unfold has_index in Hs. apply bool_decide_eq_true in Hs.
    destruct (HPs Hs). by apply Hf. }
  destruct is_host.
  - apply slots_ok_upd; [intros; reflexivity..|]. apply slots_ok_reset_sync_state_to, Hu.
    intros s Hc _ []. split; [done|]. split; simpl; try done; tauto.
  - apply slots_ok_reset_sync_state_to, Hu. intros s Hc Hr []. split; [done|].
    split; simpl; try done; try tauto. intros _. split; [|done].
    destruct (slot_role s); [naive_solver|done].
Qed.

Lemma slots_ok_connection_unique c s r :
  slots_ok r → find_slot (has_connection c) r = Some s → s ∈ players r ∧ slot_connection_id s = Some c.
Proof.
  intros _ [Hin Hc]%find_some_iff. split; [done|]. unfold has_connection in Hc.
  by apply bool_decide_eq_true in Hc.
Qed.

(** Slots are determined by their index. *)
Lemma slots_ok_index_unique r s s' :
  slots_ok r → s ∈ players r → s' ∈ players r → slot_player_index s = slot_player_index s' → s = s'.
Proof.
  intros [Hk _ _] Hs Hs' Heq. destruct (players r) as [|a [|b [|]]]; try discriminate.
  injection Hk as Ha _ Hb _. rewrite !elem_of_cons, elem_of_nil in Hs, Hs'.
  destruct Hs as [->|[->|[]]], Hs' as [->|[->|[]]]; try done; rewrite Ha, Hb in Heq; discriminate.
Qed.

(** The slot with the index of the one just mutated is the mutated one. *)
Lemma update_slot_found q f r s :
  slots_ok r → find_slot q r = Some s → (∀ x, slot_player_index (f x) = slot_player_index x) →
  Forall (λ x, slot_player_index x = slot_player_index s → x = f s) (players (update_slot q f r)).
Proof.
  intros [Hk _ _] Hs Hf. unfold find_slot in Hs. cbn.
  destruct (players r) as [|a [|b [|]]]; try discriminate. injection Hk as Ha _ Hb _. simpl in *.
  destruct (q a); [injection Hs as <-|destruct (q b); [injection Hs as <-|discriminate]];
    repeat constructor; try done; rewrite ?Hf, Ha, Hb; discriminate.
Qed.

(** What [expire_runner_handoffs] remembers of a slot. *)
Definition slot_link (s : PlayerSlot) : PlayerIndex * PlayerRole * option ConnectionId :=
  (slot_player_index s, slot_role s, slot_connection_id s).

Lemma reset_sync_state_to_link n r :
  slot_link <$> players (reset_sync_state_to n r) = slot_link <$> players r.
Proof.
  unfold reset_sync_state_to. destruct (uses_strict_controller_input r); [|done].
  trans (slot_link <$> (clear_samples <$> players r)); [done|]. rewrite <-list_fmap_compose. done.
Qed.

Lemma players_set_status v r : players (r <| status := v |>) = players r.
Proof. done. Qed.

Lemma clear_disconnected_slot_link p is_host r :
  slot_link <$> players (clear_disconnected_slot p is_host r) = slot_link <$> players r.
Proof.
  unfold clear_disconnected_slot, reset_sync_state.
  destruct is_host; rewrite ?players_set_status, reset_sync_state_to_link; by apply update_first_fmap.
Qed.

(** The remembered slots are still as remembered. *)
Definition remembered (e : PlayerIndex * PlayerRole * bool) (r : NetplayRoom) : Prop :=
  ∀ l, l ∈ slot_link <$> players r → l.1.1 = e.1.1 → l.1.2 = e.1.2 ∧ (e.2 = true → l.2 = None).

Lemma expire_handoffs_loop_slots expired cleared r :
  slots_ok r → Forall (λ e, remembered e r) expired →
  slots_ok (expire_handoffs_loop expired cleared r).2.
Proof.
  revert cleared r. induction expired as [|[[p role] disconnected] expired IH]; intros cleared r H Hrem.
  { simpl. destruct cleared; simpl; slots_go. }
  apply Forall_cons in Hrem as [He Hrem]. simpl. destruct disconnected; simpl.
  - assert (slots_ok (clear_disconnected_slot p (role ==? Host) r)) as Hok.
    { apply slots_ok_clear_disconnected_slot; [|done]. apply Forall_forall. intros s Hs Hp.
      destruct (He (slot_link s)) as [Hr Hc]; [by apply list_elem_of_fmap_2|done|]. simpl in *.
      split; [by apply Hc|]. intros Hh. by rewrite bool_decide_true by congruence. }
    case_match; [done|]. apply IH; [done|]. eapply Forall_impl; [exact Hrem|].
    intros e. unfold remembered. by rewrite clear_disconnected_slot_link.
  - apply IH; [slots_go|]. eapply Forall_impl; [exact Hrem|]. intros e. unfold remembered.
    cbn. by rewrite update_first_fmap.
Qed.

(** ** Every step preserves the invariant *)

Section preservation.
Implicit Types (r : NetplayRoom).

Ltac op H := apply keeps_wp; intros r H; wp_go; try exact H.

Lemma join_guest_slots license c resume input now caps :
  keeps slots_ok (join_guest_with_resume license c resume input now caps).
Proof.
  unfold join_guest_with_resume. op H.
  unfold reset_sync_for_checking_compatibility, bump_session_epoch, bump_room_epoch.
  apply slots_ok_restore. do 2 slots_step. apply slots_ok_update_slot; [|done].
  intros s Hs []. unfold slot_is_empty in Hs. apply bool_decide_eq_true in Hs.
  destruct (ok_empty0 Hs) as [Hr _]. split; [|by split].
  unfold slot_key. simpl. by rewrite Hr.
Qed.

Lemma attach_host_slots license c resume input now caps :
  keeps slots_ok (attach_host_with_resume license c resume input now caps).
Proof. unfold attach_host_with_resume. op H. unfold attach_host_slot. slots_go. Qed.

Lemma player_exited_slots c now : keeps slots_ok (player_exited c now).
Proof. unfold player_exited. op H. slots_go. Qed.

Lemma arm_handoff_slots c now grace : keeps slots_ok (arm_runner_handoff c now grace).
Proof. unfold arm_runner_handoff. op H. slots_go. Qed.

Lemma cancel_handoff_slots c : keeps slots_ok (cancel_runner_handoff c).
Proof. unfold cancel_runner_handoff. op H. slots_go. Qed.

Lemma preserve_handoff_slots c now : keeps slots_ok (preserve_runner_handoff_disconnect c now).
Proof.
  unfold preserve_runner_handoff_disconnect. op H; slots_go.
Qed.

Lemma disconnect_slots c now grace : keeps slots_ok (disconnect_with_recovery c now grace).
Proof.
  unfold disconnect_with_recovery. apply keeps_wp. intros r0 H0. apply wp_bind.
  eapply wp_mono; [apply wp_keeps, H0; apply preserve_handoff_slots| |done].
  intros preserved r H. destruct preserved; [by apply wp_ret|].
  apply wp_bind, wp_get, wp_bind, wp_lift_ok_or. destruct (find_slot _ _) as [s|] eqn:Hs; [|done].
  apply wp_bind, wp_modify, wp_bind, wp_modify.
  match goal with |- wp _ _ _ (forget_player _ ?x) => set (r1 := x) end.
  assert (slots_ok r1) as H1 by (subst r1; slots_go).
  assert (slots_ok (forget_player (slot_player_index s) r1)) as H2 by by apply slots_ok_forget_player.
  assert (Forall (λ x, slot_player_index x = slot_player_index s →
            slot_connection_id x = None ∧ (slot_role x = Host → (slot_role s ==? Host) = true))
            (players (forget_player (slot_player_index s) r1))) as Hx.
  { change (players (forget_player (slot_player_index s) r1)) with (players r1).
    eapply Forall_impl; [by apply update_slot_found|]. intros x Hx Hp. rewrite (Hx Hp).
    split; [done|]. simpl. intros ->. done. }
  assert (slots_ok (clear_disconnected_slot (slot_player_index s) (slot_role s ==? Host)
            (forget_player (slot_player_index s) r1))) as H3
    by by apply slots_ok_clear_disconnected_slot.
  assert (∀ e, slots_ok (mark_slot_reconnecting (slot_player_index s) now grace e
                 (forget_player (slot_player_index s) r1))) as H4.
  { intros e. apply slots_ok_mark_slot_reconnecting; [|done].
    eapply Forall_impl; [exact Hx|]. naive_solver. }
  clearbody r1. wp_go; slots_go; apply H4.
Qed.

Lemma reconnect_slots q : keeps slots_ok (reconnect_player q).
Proof. unfold reconnect_player, reconnect_slot. op H; slots_go. Qed.

Lemma heartbeat_slots c now f n st : keeps slots_ok (record_heartbeat c now f n st).
Proof. unfold record_heartbeat, store_samples. op H; slots_go. Qed.

Lemma attach_input_slots p re se token c now :
  keeps slots_ok (attach_input_socket p re se token c now).
Proof.
  unfold attach_input_socket. op H.
  apply (slots_ok_update_with (λ s, slot_player_index s = p → slot_connection_id s ≠ None));
    [|intros s Hs HP []|done].
  - apply Forall_forall. intros s Hs Hp.
    match goal with H : find_slot _ _ = Some ?s' |- _ =>
      pose proof H as Hf; apply find_some_iff in H as [Hin Hi] end.
    unfold has_index in Hi. apply bool_decide_eq_true in Hi.
    rewrite (slots_ok_index_unique _ _ _ H Hs Hin) by congruence. congruence.
  - unfold has_index in Hs. apply bool_decide_eq_true in Hs. specialize (HP Hs).
    split; [done|]. split; simpl; try done.
Qed.

Lemma disconnect_input_slots c now grace : keeps slots_ok (disconnect_input_socket c now grace).
Proof.
  apply keeps_wp. intros r H. unfold disconnect_input_socket.
  apply wp_bind, wp_get, wp_bind, wp_lift_ok_or. destruct (find_slot _ _) as [s|]; [|done].
  apply wp_bind, wp_modify, wp_bind, wp_modify.
  match goal with |- wp _ _ _ ?x => assert (slots_ok x) as H1 by slots_go; generalize dependent x end.
  intros r' H'. case_match; [|by apply wp_ret].
  apply wp_bind, wp_lift_ok_or. destruct (slot_connection_id s); [|done].
  apply wp_bind. eapply wp_mono; [apply wp_keeps, H'; apply disconnect_slots| |done].
  intros a r2 H2. by apply wp_ret.
Qed.

Lemma recover_stale_slots now d g r :
  slots_ok r → slots_ok (recover_stale_connections now d g r).2.
Proof.
  intros H. unfold recover_stale_connections. case_match; [done|].
  generalize (slot_player_index <$> List.filter (λ s, is_connected s
        && is_some_and (slot_last_seen_at s) (λ t, d <=? duration_since now t)) (players r)).
  intros l. destruct l as [|p l]; [done|]. cbn [snd]. generalize (p :: l). clear p l. intros l.
  apply slots_ok_enter_recovery_state. clear -H. revert r H.
  induction l as [|p l IH]; [done|]. intros r H. simpl. apply IH. slots_go.
Qed.

Lemma set_compatibility_slots c f : keeps slots_ok (set_compatibility_for_connection c f).
Proof. unfold set_compatibility_for_connection. op H; slots_go. Qed.

Lemma mark_ready_slots c n now : keeps slots_ok (mark_ready c n now).
Proof.
  unfold mark_ready, record_network_report, store_samples, apply_initial_adaptive_input_delay,
    set_input_delay, finish_v5_state_recovery. op H; slots_go.
Qed.

Lemma expire_handoffs_slots now r : slots_ok r → slots_ok (expire_runner_handoffs now r).2.
Proof.
  intros H. unfold expire_runner_handoffs. apply expire_handoffs_loop_slots; [done|].
  apply Forall_fmap, Forall_forall. intros s Hs l Hl Hp.
  apply list_elem_of_fmap in Hl as (s' & -> & Hs'). simpl in *.
  rewrite list_elem_of_In, List.filter_In, <-list_elem_of_In in Hs. destruct Hs as [Hs _].
  rewrite (slots_ok_index_unique r s' s) by done. split; [done|].
  unfold is_connected. by destruct (slot_connection_id s).
Qed.

Lemma mark_stale_slots now st d r : slots_ok r → slots_ok (mark_stale_connections now st d r).2.
Proof. intros H. unfold mark_stale_connections. case_match; [done|]. cbn [snd]. slots_go. Qed.

Lemma request_clock_slots t r : slots_ok r → slots_ok (request_clock_sync_sample t r).2.
Proof. intros H. unfold request_clock_sync_sample. case_match; [done|]. cbn [snd]. slots_go. Qed.

Lemma try_schedule_slots now t r : slots_ok r → slots_ok (try_schedule_start now t r).2.
Proof.
  intros H. unfold try_schedule_start. repeat case_match; [done..|]. cbn [snd].
  unfold apply_initial_v5_input_delay, set_input_delay. slots_go.
Qed.

Lemma clock_sample_slots c sample now t : keeps slots_ok (accept_clock_sync_sample c sample now t).
Proof. unfold accept_clock_sync_sample. op H. apply try_schedule_slots. slots_go. Qed.

Lemma deterministic_ready_slots c n now t : keeps slots_ok (mark_deterministic_ready c n now t).
Proof.
  unfold mark_deterministic_ready. op H. apply try_schedule_slots.
  unfold record_network_report, store_samples. slots_go.
Qed.

Lemma begin_v5_pause_resume_slots f t r : slots_ok r → slots_ok (begin_v5_pause_resume f t r).2.
Proof.
  intros H. unfold begin_v5_pause_resume, schedule_v5_resume, bump_session_epoch,
    reset_authoritative_state_hash_cursor_for_resume. cbn [snd]. slots_go.
Qed.

Lemma request_pause_slots c id reason f : keeps slots_ok (request_session_pause_with_id c id reason f).
Proof. unfold request_session_pause_with_id. op H; slots_go. Qed.

Lemma pause_reached_slots c sq f t : keeps slots_ok (mark_session_pause_reached_internal c sq f t).
Proof.
  unfold mark_session_pause_reached_internal, resume_playing.
  op H; try apply begin_v5_pause_resume_slots; slots_go.
Qed.

Lemma request_resume_slots c id sq t : keeps slots_ok (request_session_resume_internal c id sq t).
Proof.
  unfold request_session_resume_internal, resume_playing.
  op H; try apply begin_v5_pause_resume_slots; slots_go.
Qed.

Lemma legacy_input_slots c inputs limits : keeps slots_ok (accept_input_frame_cursors c inputs limits).
Proof. unfold accept_input_frame_cursors. op H; slots_go. Qed.

Lemma strict_input_slots c batch : keeps slots_ok (accept_strict_input_batch c batch).
Proof. unfold accept_strict_input_batch. op H; slots_go. Qed.

Lemma host_open_slots c open t : keeps slots_ok (accept_host_frame_open c open t).
Proof.
  unfold accept_host_frame_open, release_v5_host_frame, enter_v5_playing, finish_v5_state_recovery.
  op H; slots_go.
Qed.

Lemma due_host_frame_slots t r : slots_ok r → slots_ok (release_due_v5_host_frame t r).2.
Proof.
  intros H. unfold release_due_v5_host_frame. repeat case_match; try done. cbn [snd].
  unfold release_v5_host_frame, enter_v5_playing, finish_v5_state_recovery. slots_go.
Qed.

Lemma server_tick_slots t r : slots_ok r → slots_ok (release_next_server_frame t r).2.
Proof.
  intros H. unfold release_next_server_frame. case_match; [done|].
  destruct (promote_scheduled t r) as [r'|] eqn:Hp; [|done].
  assert (slots_ok r') as H'.
  { unfold promote_scheduled in Hp. repeat case_match; simplify_eq; slots_go. }
  clear Hp. case_match; [done|].
  assert (slots_ok (apply_pending_input_delay_if_due r')) as H2.
  { unfold apply_pending_input_delay_if_due, set_input_delay. slots_go. }
  case_match; [done|]. cbn [snd]. slots_go.
Qed.

Lemma begin_recovery_slots m now : keeps slots_ok (begin_v5_state_recovery m now).
Proof.
  unfold begin_v5_state_recovery, close_state_recovery_room, reset_authoritative_state_hash_cursor.
  op H; slots_go.
Qed.

Lemma state_hash_slots c report now : keeps slots_ok (accept_state_hash c report now).
Proof.
  assert (∀ m, keeps slots_ok (begin_authoritative_recovery m now)) as Hb.
  { intros m. unfold begin_authoritative_recovery, enter_state_hash_resync, bump_session_epoch.
    op H; [|slots_go]. eapply wp_mono; [apply wp_keeps, H; apply begin_recovery_slots| |done].
    intros a r' H'. by apply wp_ret. }
  unfold accept_state_hash, evaluate_hashes, handle_mismatch, prune_state_hashes. op H; slots_go.
  all: apply wp_keeps; [apply Hb|slots_go].
Qed.

Lemma pin_recovery_slots c re se pin limits :
  keeps slots_ok (accept_v5_state_recovery_pin_for_epoch c re se pin limits).
Proof. unfold accept_v5_state_recovery_pin_for_epoch, bump_session_epoch. op H; slots_go. Qed.

Lemma expire_recovery_slots now r : slots_ok r → slots_ok (close_expired_state_recovery now r).2.
Proof.
  intros H. unfold close_expired_state_recovery. case_match; [done|]. cbn [snd].
  unfold close_state_recovery_room. slots_go.
Qed.

Lemma snapshot_chunk_slots sha256 c chunk limits :
  keeps slots_ok (accept_snapshot_chunk sha256 c chunk limits).
Proof.
  unfold accept_snapshot_chunk. op H. all: unfold on_transfer.
  all: apply wp_keeps; [|exact H]; clear; intros r H.
  all: destruct (accept_chunk _ _ _ _) as [? t]; cbn [snd]; slots_go.
Qed.

Lemma snapshot_complete_slots sha256 c m limits :
  keeps slots_ok (accept_snapshot_complete sha256 c m limits).
Proof. unfold accept_snapshot_complete. op H; slots_go. Qed.

Lemma file_relay_grant_slots c m grants limits :
  keeps slots_ok (accept_snapshot_file_relay_grant c m grants limits).
Proof. unfold accept_snapshot_file_relay_grant. op H; slots_go. Qed.

Lemma file_relay_uploaded_slots c id m limits :
  keeps slots_ok (accept_snapshot_file_relay_upload_complete c id m limits).
Proof. unfold accept_snapshot_file_relay_upload_complete. op H; slots_go. Qed.

Lemma on_link_state_slots {A} (m : M LinkCableRoomState RoomError A) : keeps slots_ok (on_link_state m).
Proof. intros r H. unfold on_link_state. destruct (m _) as [a s]. cbn [snd]. slots_go. Qed.

Lemma link_compatibility_slots c l :
  keeps slots_ok (set_link_cable_compatibility_for_connection c l).
Proof.
  apply keeps_wp. intros r H. unfold set_link_cable_compatibility_for_connection.
  unfold reject_link_compatibility. wp_go; try exact H; slots_go.
  eapply wp_mono; [apply wp_keeps, H; apply on_link_state_slots|..]; cbv beta.
  - intros _ r' H'. wp_go; slots_go.
  - intros e r' H'. wp_go; slots_go.
Qed.

Lemma link_packet_slots c packet limits : keeps slots_ok (accept_link_cable_packet c packet limits).
Proof.
  unfold accept_link_cable_packet. op H. apply wp_keeps; [apply on_link_state_slots|done].
Qed.

Lemma rom_grants_slots c g : keeps slots_ok (accept_rom_relay_grants c g).
Proof. unfold accept_rom_relay_grants. op H; slots_go. Qed.

Lemma rom_completion_slots c x : keeps slots_ok (accept_rom_relay_completion c x).
Proof.
  intros r H. unfold accept_rom_relay_completion.
  destruct (rom_relay_transfer r); [|done]. destruct (accept_completion _ _ _) as [o tr].
  repeat case_match; simpl; slots_go.
Qed.

Lemma rom_failure_slots c x : keeps slots_ok (accept_rom_relay_failure c x).
Proof. unfold accept_rom_relay_failure. op H; slots_go. Qed.

Lemma rom_cancelled_slots c x : keeps slots_ok (accept_rom_relay_cancelled c x).
Proof. unfold accept_rom_relay_cancelled. op H; slots_go. Qed.

Lemma refresh_voice_slots c i t e : keeps slots_ok (refresh_voice_grant c i t e).
Proof.
  intros r H. unfold refresh_voice_grant. case_match; [|done]. case_match; [|done].
  destruct (refresh_grant _ _ _ _ _). simpl. slots_go.
Qed.
End preservation.

Lemma slots_ok_new id host c code session version resume input now :
  slots_ok (new_with_protocol_and_resume id host c code session version resume input now).
Proof. split; [done| |done]. repeat constructor; done. Qed.

Lemma set_voice_slots v r : slots_ok r → slots_ok (set_voice_state v r).
Proof. intros H. unfold set_voice_state. slots_go. Qed.

Lemma take_voice_slots r : slots_ok r → slots_ok (take_voice_room_id_for_cleanup r).2.
Proof. intros H. unfold take_voice_room_id_for_cleanup. cbn [snd]. slots_go. Qed.

#[export] Hint Resolve
  join_guest_slots attach_host_slots player_exited_slots arm_handoff_slots
  cancel_handoff_slots disconnect_slots reconnect_slots heartbeat_slots attach_input_slots
  disconnect_input_slots recover_stale_slots set_compatibility_slots mark_ready_slots
  expire_handoffs_slots mark_stale_slots request_clock_slots clock_sample_slots
  deterministic_ready_slots request_pause_slots pause_reached_slots request_resume_slots
  legacy_input_slots strict_input_slots host_open_slots due_host_frame_slots
  server_tick_slots state_hash_slots pin_recovery_slots expire_recovery_slots
  snapshot_chunk_slots snapshot_complete_slots file_relay_grant_slots
  file_relay_uploaded_slots link_compatibility_slots link_packet_slots rom_grants_slots
  rom_completion_slots rom_failure_slots rom_cancelled_slots refresh_voice_slots
  set_voice_slots take_voice_slots : relay.

(** Every step of the room preserves the slots. *)
Lemma step_slots sha256 a r : slots_ok r → slots_ok (step sha256 a r).2.
Proof. intros H. destruct a; cbn [step silent snd]; keep_step H. Qed.
