(* ===== verification/FrameInvariant.v ===== *)
(** * Frame and epoch bookkeeping

  The invariant of the room's counters and its preservation by every step: input
  cursors, the release cursor and a scheduled start belong to the current session
  epoch and agree with each other, and every counter stays in its 64 bits. *)

From S2P Require Import Prelude Ids Wire StrictInput Text Compatibility Descriptor Protocol Invite Slots.
From S2P Require Import PauseState SnapshotTransfer LinkState RoomTransactions AdaptiveDelay Room.
From S2P Require Import StartSync Connection PauseOps InputRelay HostFrame StateHash SnapshotOps LinkOps.
From S2P Require Import System.
Open Scope N_scope.

Strategy 1000 [upd].
Strategy 900 [update_slot update_slots].
Strategy 800 [set_connected_status set_player_status reset_sync_state_to].

(** The frame numbers a step carries fit 64 bits, as on the wire. *)
Definition action_wf (a : Action) : Prop :=
  match a with
  | StateHashIn _ report _ => report_frame report ≤ u64_max
  | LegacyInputIn _ inputs _ => Forall (λ i, cursor_frame i ≤ u64_max) inputs
  | _ => True
  end.

Record epochs_ok (r : NetplayRoom) : Prop := {
  ok_epoch_order : room_epoch r ≤ session_epoch r;
  ok_epoch_bound : session_epoch r ≤ u64_max }.

Record frames_ok (r : NetplayRoom) : Prop := {
  fr_epochs : epochs_ok r;
  fr_cursor p : next_input_frames r !! p = (λ f, u64_add f 1) <$> last_input_frames r !! p;
  fr_input p f : last_input_frames r !! p = Some f → sync_start_frame r ≤ f ≤ u64_max;
  fr_clock : sync_start_frame r ≤ room_frame r ≤ u64_max;
  fr_release : match released_frame r with
               | None => next_release_frame r = sync_start_frame r
               | Some f => next_release_frame r = u64_add f 1 ∧ sync_start_frame r ≤ f ≤ room_frame r
               end;
  fr_pending f : pending_host_frame_open r = Some f →
    f = next_release_frame r ∧ uses_strict_controller_input r = true ∧ is_Some (scheduled_start r);
  fr_start s : scheduled_start r = Some s →
    start_room_epoch s = room_epoch r ∧ start_session_epoch s = session_epoch r ∧
    start_start_frame s = sync_start_frame r;
  fr_repair tx : state_recovery r = Some tx → tx_repair_frame tx ≤ u64_max }.

(** What the invariant reads. *)
Definition frame_view (r : NetplayRoom) :=
  (uses_strict_controller_input r, (room_epoch r, session_epoch r),
   (sync_start_frame r, room_frame r, released_frame r, next_release_frame r),
   (last_input_frames r, next_input_frames r), (scheduled_start r, pending_host_frame_open r),
   state_recovery r).

Lemma frames_ok_ext r r' : frame_view r' = frame_view r → frames_ok r → frames_ok r'.
Proof.
  intros [= H1 H2 H3 H4 H5 H6 H7 H8 H9 H10 H11 H12] [[] ? ? ? ? ? ? ?]. split.
  all: rewrite ?H1, ?H2, ?H3, ?H4, ?H5, ?H6, ?H7, ?H8, ?H9, ?H10, ?H11, ?H12; try done.
  by split; rewrite ?H2, ?H3.
Qed.

Lemma frames_ok_upd {T} (q : NetplayRoom → T) `{!Setter q} (v : T → T) r :
  (∀ n g, frame_view (upd q g n) = frame_view n) → frames_ok r → frames_ok (upd q v r).
Proof. intros Hv. by apply frames_ok_ext. Qed.

Lemma frames_ok_set_input_delay n r : frames_ok r → frames_ok (set_input_delay n r).
Proof. by apply frames_ok_ext. Qed.

Lemma next_release_bound r : frames_ok r → sync_start_frame r ≤ next_release_frame r ≤ u64_max.
Proof.
  intros [_ _ _ Hc Hr _ _ _]. destruct (released_frame r); [|lia]. destruct Hr as [-> Hr].
  unfold u64_add, saturating_add. lia.
Qed.

Lemma frames_ok_reset n r : n ≤ u64_max → epochs_ok r → frames_ok (reset_sync_state_to n r).
Proof.
  intros Hn He. unfold reset_sync_state_to.
  set (r1 := if uses_strict_controller_input r then _ else r).
  assert (epochs_ok r1) as H1. { subst r1. destruct (uses_strict_controller_input r); [|done]. by destruct He; split. }
  clearbody r1. clear He. split; simpl; try done; try lia.
  by destruct H1; split.
Qed.

Lemma frames_ok_bump_both r :
  scheduled_start r = None → frames_ok r → frames_ok (bump_session_epoch (bump_room_epoch r)).
Proof.
  intros Hs [[] ? ? ? ? ? ? ?]. split; try done.
  - split; simpl; unfold u64_add, saturating_add; lia.
  - simpl. by rewrite Hs.
Qed.

Lemma frames_ok_bump_session r :
  scheduled_start r = None → frames_ok r → frames_ok (bump_session_epoch r).
Proof.
  intros Hs [[] ? ? ? ? ? ? ?]. split; try done.
  - split; simpl; unfold u64_add, saturating_add; lia.
  - simpl. by rewrite Hs.
Qed.

Lemma epochs_ok_bump r : epochs_ok r → epochs_ok (bump_session_epoch (bump_room_epoch r)).
Proof. intros []. split; simpl; unfold u64_add, saturating_add; lia. Qed.

(** Peels frame-neutral mutations off a room. *)
Ltac frames_known :=
  match goal with H : frames_ok ?r |- frames_ok ?r' => constr_eq r r'; exact H end.
Ltac frames_composite := fail.
Ltac frames_step :=
  lazymatch goal with
  | |- frames_ok (set_connected_status _ _ _) => apply frames_ok_upd; [intros; reflexivity|]
  | |- frames_ok (set_player_status _ _ _) => apply frames_ok_upd; [intros; reflexivity|]
  | |- frames_ok (update_slots _ _ _) => apply frames_ok_upd; [intros; reflexivity|]
  | |- frames_ok (update_slot _ _ _) => apply frames_ok_upd; [intros; reflexivity|]
  | |- frames_ok (set_input_delay _ _) => apply frames_ok_set_input_delay
  | |- frames_ok (upd _ _ _) => apply frames_ok_upd; [intros; reflexivity|]
  | |- frames_ok (match ?x with _ => _ end) => destruct x eqn:?
  | |- frames_ok (let _ := _ in _) => cbv zeta
  end.
Ltac frames_go := repeat first [frames_known | frames_composite | frames_step].

(** ** The shared transitions *)

Lemma epochs_ok_upd {T} (q : NetplayRoom → T) `{!Setter q} (v : T → T) r :
  (∀ n g, (room_epoch (upd q g n), session_epoch (upd q g n)) = (room_epoch n, session_epoch n)) →
  epochs_ok r → epochs_ok (upd q v r).
Proof. intros Hv []. specialize (Hv r v) as [= H1 H2]. by split; rewrite ?H1, ?H2. Qed.

Lemma scheduled_start_reset n r : scheduled_start (reset_sync_state_to n r) = None.
Proof. done. Qed.

Lemma frames_ok_restore r :
  epochs_ok r → frames_ok (restore_checking_compatibility_after_recovery r).
Proof.
  intros H. unfold restore_checking_compatibility_after_recovery. frames_go.
  by apply frames_ok_reset.
Qed.

Lemma frames_ok_enter_recovery e r : epochs_ok r → frames_ok (enter_recovery_state e r).
Proof.
  intros H. unfold enter_recovery_state. frames_go.
  apply frames_ok_bump_both; [apply scheduled_start_reset|]. apply frames_ok_reset; [done|].
  by apply epochs_ok_upd.
Qed.

(** Forgetting a player drops both of its cursors. *)
Lemma frames_ok_forget p r :
  frames_ok r → frames_ok (r <| last_input_frames ::= delete p |> <| next_input_frames ::= delete p |>).
Proof.
  intros [He Hc Hi ? ? ? ? ?]. split; try done; simpl.
  - by apply epochs_ok_upd, epochs_ok_upd, He.
  - intros q. destruct (decide (p = q)) as [->|]; [by rewrite !lookup_delete_eq|].
    by rewrite !lookup_delete_ne.
  - intros q f. rewrite lookup_delete_Some. intros [_ Hf]. eauto.
Qed.

Lemma frames_ok_forget_player p r : frames_ok r → frames_ok (forget_player p r).
Proof. intros H. unfold forget_player. apply frames_ok_forget. frames_go. Qed.

Lemma frames_ok_clear_disconnected_slot p is_host r :
  epochs_ok r → frames_ok (clear_disconnected_slot p is_host r).
Proof.
  intros H. unfold clear_disconnected_slot.
  destruct is_host; [frames_step|]; (apply frames_ok_reset; [done|]); by apply epochs_ok_upd.
Qed.

Lemma frames_ok_finish r : frames_ok r → frames_ok (finish_v5_state_recovery r).
Proof. intros [He ? ? ? ? ? ? ?]. split; try done. by apply epochs_ok_upd. Qed.

Lemma frames_ok_enter_playing r : frames_ok r → frames_ok (enter_v5_playing r).
Proof. intros H. unfold enter_v5_playing. frames_go. apply frames_ok_finish. frames_go. Qed.

(** Releasing the frame due next. *)
Lemma frames_ok_release frame r :
  frame = next_release_frame r → frames_ok r → frames_ok (release_v5_host_frame frame r).
Proof.
  intros -> H. pose proof (next_release_bound r H) as Hb. destruct H as [He Hc Hi Hk Hr ? ? ?].
  split; try done; simpl.
  - destruct He. by split.
  - lia.
  - split; [done|]. lia.
Qed.

(** A start scheduled at the sync frame of the current epochs. *)
Lemma frames_ok_schedule s r :
  scheduled_start r = None → start_room_epoch s = room_epoch r →
  start_session_epoch s = session_epoch r → start_start_frame s = sync_start_frame r →
  frames_ok r → frames_ok (r <| scheduled_start := Some s |>).
Proof.
  intros Hn H1 H2 H3 [He ? ? ? ? Hp ? ?]. split; try done; simpl.
  - by apply epochs_ok_upd.
  - intros f Hf. destruct (Hp f Hf) as (_ & _ & Hs). rewrite Hn in Hs. by destruct Hs.
  - by intros ? [= <-].
Qed.

Lemma frames_ok_try_schedule now t r : frames_ok r → frames_ok (try_schedule_start now t r).2.
Proof.
  intros H. unfold try_schedule_start. destruct (scheduled_start r) eqn:Hs; [done|].
  case_match; [done|]. cbn [snd].
  set (r1 := apply_initial_v5_input_delay now r).
  assert (frames_ok r1 ∧ scheduled_start r1 = None) as [H1 Hs1].
  { subst r1. unfold apply_initial_v5_input_delay. repeat case_match; (split; [frames_go|done]). }
  clearbody r1. apply frames_ok_schedule; [done..|]. frames_go.
Qed.

(** A strict resume opens a fresh session at its frame. *)
Lemma frames_ok_pause_resume f t r :
  f ≤ u64_max → frames_ok r → frames_ok (begin_v5_pause_resume f t r).2.
Proof.
  intros Hf [[] ? ? ? ? ? ? ?]. unfold begin_v5_pause_resume, schedule_v5_resume. cbn [snd].
  split; simpl; try done; try lia.
  - split; simpl; unfold u64_add, saturating_add; lia.
  - by intros ? [= <-].
Qed.

Lemma resume_at_frame_bound t : resume_at_frame t ≤ u64_max.
Proof. apply saturating_add_bound. Qed.

(** Cursors staged by the legacy input loop. *)
Definition stage_ok (start : N) (st : InputFrameCursorStage) : Prop :=
  (∀ p, stage_next st !! p = (λ f, u64_add f 1) <$> stage_last st !! p) ∧
  (∀ p f, stage_last st !! p = Some f → start ≤ f ≤ u64_max).

Lemma accept_cursors_loop_ok r owned limits inputs st acc st' :
  Forall (λ i, cursor_frame i ≤ u64_max) inputs → sync_start_frame r ≤ u64_max →
  accept_cursors_loop r owned limits inputs st = Ok (acc, st') →
  stage_ok (sync_start_frame r) st → stage_ok (sync_start_frame r) st'.
Proof.
  intros Hw Hs. revert st acc st'. induction Hw as [|i inputs Hi Hw IH]; intros st acc st' H Hok.
  { by injection H as <- <-. }
  simpl in H. case_match; [done|]. destruct (input_frame_acceptance _ _) as [a|]; [|done].
  cbn in H. case_match eqn:Ha.
  { destruct (accept_cursors_loop r owned limits inputs st) as [[acc1 st1]|] eqn:E; [|done].
    injection H as <- <-. by eapply IH. }
  case_match; [done|]. case_match eqn:Hlt.
  { destruct (accept_cursors_loop r owned limits inputs st) as [[acc1 st1]|] eqn:E; [|done].
    injection H as <- <-. by eapply IH. }
  destruct (accept_cursors_loop r owned limits inputs _) as [[acc1 st1]|] eqn:E; [|done].
  injection H as <- <-. eapply IH; [exact E|]. apply N.ltb_ge in Hlt. destruct Hok as [Hn Hl].
  split; simpl; intros p.
  - destruct (decide (cursor_player i = p)) as [->|]; [by rewrite !lookup_insert_eq|].
    by rewrite !lookup_insert_ne.
  - intros f. rewrite lookup_insert_Some. intros [[<- <-]|[_ Hf]]; [|eauto]. split; [|done].
    rewrite Hn in Hlt. destruct (stage_last st !! cursor_player i) as [g|] eqn:Hg; simpl in Hlt; [|done].
    specialize (Hl _ _ Hg). unfold u64_add, saturating_add in Hlt. lia.
Qed.

(** ** Every step preserves the invariant *)

Section preservation.
Implicit Types (r : NetplayRoom).

Ltac op H := apply keeps_wp; intros r H; wp_go; try exact H.
Ltac frames_composite ::=
  lazymatch goal with
  | |- frames_ok (restore_checking_compatibility_after_recovery _) => apply frames_ok_restore
  | |- frames_ok (enter_recovery_state _ _) => apply frames_ok_enter_recovery
  | |- frames_ok (forget_player _ _) => apply frames_ok_forget_player
  | |- frames_ok (clear_disconnected_slot _ _ _) => apply frames_ok_clear_disconnected_slot
  | |- frames_ok (reset_sync_state _) => apply frames_ok_reset; [done|]
  | |- frames_ok (reset_sync_state_to _ _) => apply frames_ok_reset; [try done|]
  | |- frames_ok (enter_v5_playing _) => apply frames_ok_enter_playing
  | |- frames_ok (finish_v5_state_recovery _) => apply frames_ok_finish
  | |- frames_ok (upd next_input_frames (delete ?p) (upd last_input_frames (delete ?p) ?r)) =>
      apply frames_ok_forget
  | |- epochs_ok (bump_session_epoch (bump_room_epoch _)) => apply epochs_ok_bump
  | |- epochs_ok (upd _ _ _) => apply epochs_ok_upd; [intros; reflexivity|]
  | |- epochs_ok (update_slot _ _ _) => apply epochs_ok_upd; [intros; reflexivity|]
  | |- epochs_ok (update_slots _ _ _) => apply epochs_ok_upd; [intros; reflexivity|]
  | |- epochs_ok (mark_slot_reconnecting _ _ _ _ _) => apply epochs_ok_upd; [intros; reflexivity|]
  | |- epochs_ok _ => apply fr_epochs
  end.

Lemma join_guest_frames license c resume input now caps :
  keeps frames_ok (join_guest_with_resume license c resume input now caps).
Proof.
  unfold join_guest_with_resume, reset_sync_for_checking_compatibility. op H; frames_go.
Qed.

Lemma attach_host_frames license c resume input now caps :
  keeps frames_ok (attach_host_with_resume license c resume input now caps).
Proof. unfold attach_host_with_resume. op H; frames_go. Qed.

Lemma player_exited_frames c now : keeps frames_ok (player_exited c now).
Proof. unfold player_exited. op H; frames_go. Qed.

Lemma arm_handoff_frames c now grace : keeps frames_ok (arm_runner_handoff c now grace).
Proof. unfold arm_runner_handoff. op H; frames_go. Qed.

Lemma cancel_handoff_frames c : keeps frames_ok (cancel_runner_handoff c).
Proof. unfold cancel_runner_handoff. op H; frames_go. Qed.

Lemma preserve_handoff_frames c now : keeps frames_ok (preserve_runner_handoff_disconnect c now).
Proof. unfold preserve_runner_handoff_disconnect. op H; frames_go. Qed.

Lemma expire_handoffs_loop_frames expired cleared r :
  frames_ok r → frames_ok (expire_handoffs_loop expired cleared r).2.
Proof.
  revert cleared r. induction expired as [|[[p role] d] expired IH]; intros cleared r H; simpl.
  { case_match; simpl; frames_go. }
  case_match; [apply IH; frames_go|]. case_match; [simpl|apply IH]; frames_go.
Qed.

Lemma disconnect_frames c now grace : keeps frames_ok (disconnect_with_recovery c now grace).
Proof.
  unfold disconnect_with_recovery. apply keeps_wp. intros r0 H0. apply wp_bind.
  eapply wp_mono; [apply wp_keeps, H0; apply preserve_handoff_frames| |done].
  intros preserved r H. unfold mark_slot_reconnecting. wp_go; frames_go.
Qed.

Lemma reconnect_frames q : keeps frames_ok (reconnect_player q).
Proof. unfold reconnect_player. op H; frames_go. Qed.

Lemma recover_stale_frames now d g r :
  frames_ok r → frames_ok (recover_stale_connections now d g r).2.
Proof.
  intros H. unfold recover_stale_connections. case_match; [done|].
  generalize (slot_player_index <$> List.filter (λ s, is_connected s
        && is_some_and (slot_last_seen_at s) (λ t, d <=? duration_since now t)) (players r)).
  intros l. destruct l as [|p l]; [done|]. cbn [snd]. generalize (p :: l). clear p l. intros l.
  apply frames_ok_enter_recovery, fr_epochs. clear -H. revert r H.
  induction l as [|p l IH]; [done|]. intros r H. simpl. apply IH. frames_go.
Qed.

Lemma disconnect_input_frames c now grace : keeps frames_ok (disconnect_input_socket c now grace).
Proof.
  apply keeps_wp. intros r H. unfold disconnect_input_socket.
  apply wp_bind, wp_get, wp_bind, wp_lift_ok_or. destruct (find_slot _ _) as [s|]; [|done].
  apply wp_bind, wp_modify, wp_bind, wp_modify.
  match goal with |- wp _ _ _ ?x => assert (frames_ok x) as H1 by frames_go; generalize dependent x end.
  intros r' H'. case_match; [|by apply wp_ret].
  apply wp_bind, wp_lift_ok_or. destruct (slot_connection_id s); [|done].
  apply wp_bind. eapply wp_mono; [apply wp_keeps, H'; apply disconnect_frames| |done].
  intros a r2 H2. by apply wp_ret.
Qed.

Lemma set_compatibility_frames c f : keeps frames_ok (set_compatibility_for_connection c f).
Proof. unfold set_compatibility_for_connection. op H; frames_go. Qed.

Lemma mark_ready_frames c n now : keeps frames_ok (mark_ready c n now).
Proof.
  unfold mark_ready, record_network_report, apply_initial_adaptive_input_delay. op H; frames_go.
Qed.

Lemma clock_sample_frames c sample now t :
  keeps frames_ok (accept_clock_sync_sample c sample now t).
Proof. unfold accept_clock_sync_sample. op H. apply frames_ok_try_schedule. frames_go. Qed.

Lemma deterministic_ready_frames c n now t : keeps frames_ok (mark_deterministic_ready c n now t).
Proof.
  unfold mark_deterministic_ready, record_network_report. op H. apply frames_ok_try_schedule. frames_go.
Qed.

Lemma request_pause_frames c id reason f :
  keeps frames_ok (request_session_pause_with_id c id reason f).
Proof. unfold request_session_pause_with_id. op H; frames_go. Qed.

Lemma pause_reached_frames c sq f t : keeps frames_ok (mark_session_pause_reached_internal c sq f t).
Proof.
  unfold mark_session_pause_reached_internal, resume_playing.
  op H; try (apply frames_ok_pause_resume; [apply resume_at_frame_bound|]); frames_go.
Qed.

Lemma request_resume_frames c id sq t : keeps frames_ok (request_session_resume_internal c id sq t).
Proof.
  unfold request_session_resume_internal, resume_playing.
  op H; try (apply frames_ok_pause_resume; [apply resume_at_frame_bound|]); frames_go.
Qed.

Lemma legacy_input_frames c inputs limits :
  Forall (λ i, cursor_frame i ≤ u64_max) inputs →
  keeps frames_ok (accept_input_frame_cursors c inputs limits).
Proof.
  intros Hw. unfold accept_input_frame_cursors. op H.
  match goal with E : accept_cursors_loop _ _ _ _ _ = Ok _ |- _ =>
    apply accept_cursors_loop_ok in E as [Hn Hl] end; [|done|destruct H; lia|by destruct H].
  destruct H as [He ? ? ? ? ? ? ?]. split; try done. destruct He. by split.
Qed.

Lemma strict_input_frames c batch : keeps frames_ok (accept_strict_input_batch c batch).
Proof.
  unfold accept_strict_input_batch. op H.
  repeat match goal with E : _ = Some _ |- _ => apply checked_add_Some in E as [-> ?] end.
  match goal with E : (_ <=? _) = true |- _ => apply N.leb_le in E; rename E into Hle end.
  destruct H as [He Hc Hi ? ? ? ? ?]. split; try done; simpl.
  - destruct He. by split.
  - intros p. destruct (decide (batch_player_index batch = p)) as [->|].
    + rewrite !lookup_insert_eq. simpl. f_equal. unfold u64_add, saturating_add. lia.
    + by rewrite !lookup_insert_ne.
  - intros p f. rewrite lookup_insert_Some. intros [[<- <-]|[_ Hf]]; [|eauto]. split; [|lia].
    etrans; [|exact Hle]. etrans; [|apply N.le_max_l]. unfold expected_frame.
    rewrite Hc. destruct (last_input_frames r !! _) as [g|] eqn:Hg; simpl; [|done].
    specialize (Hi _ _ Hg). unfold u64_add, saturating_add. lia.
Qed.

Lemma host_open_frames c open t : keeps frames_ok (accept_host_frame_open c open t).
Proof.
  apply keeps_wp. intros r H. eapply wp_mono; [apply host_open_spec| |by intros ? ? ->].
  intros o r' Ho. destruct o; [|by rewrite Ho..|].
  - destruct Ho as (_ & _ & Hf & _ & [[_ ->]|(_ & _ & ->)] & _); apply frames_ok_release; try done.
    by apply frames_ok_enter_playing.
  - destruct Ho as (_ & Hs & Hf & _ & _ & (s & Hs' & _) & _ & ->).
    destruct H as [He ? ? ? ? ? ? ?]. split; try done; simpl.
    + by apply epochs_ok_upd.
    + intros f [= <-]. by rewrite Hs'.
Qed.

Lemma due_host_frame_frames t r : frames_ok r → frames_ok (release_due_v5_host_frame t r).2.
Proof.
  intros H. unfold release_due_v5_host_frame.
  destruct (pending_host_frame_open r) as [f|] eqn:Hp; [|done].
  destruct (scheduled_start r) as [s|] eqn:Hs; [|done]. case_match; [done|]. cbn [snd].
  destruct (fr_pending r H f Hp) as (Hf & _). apply frames_ok_release; [done|].
  apply frames_ok_enter_playing. destruct H as [He ? ? ? ? ? ? ?]. split; try done. by apply epochs_ok_upd.
Qed.

(** What the relay-driven clock does: it releases the frame due next, covered by the
    host's input, or leaves every frame counter alone. *)
Definition advance_clock (r : NetplayRoom) : NetplayRoom :=
  r <| next_release_frame ::= λ n, u64_add n 1 |> <| released_frame := Some (next_release_frame r) |>
    <| room_frame ::= λ f, N.max f (next_release_frame r) |>.

(** The room before the release itself: a due start promoted, a due delay applied. *)
Definition tick_base (t : N) (r : NetplayRoom) : NetplayRoom :=
  match promote_scheduled t r with
  | None => r
  | Some r1 => if status r1 !=? Playing then r1 else apply_pending_input_delay_if_due r1
  end.

Lemma tick_base_frames t r : frame_view (tick_base t r) = frame_view r.
Proof.
  unfold tick_base, promote_scheduled, apply_pending_input_delay_if_due.
  repeat case_match; simplify_eq; done.
Qed.

Lemma tick_base_status t r :
  status (tick_base t r) = Playing → status r = Playing ∨ status r = StartScheduled.
Proof.
  unfold tick_base. destruct (promote_scheduled t r) as [r1|] eqn:Hp; [|by left].
  assert (status r1 = Playing → status r = Playing ∨ status r = StartScheduled) as Hst.
  { unfold promote_scheduled in Hp. case_match eqn:Hs; [|simplify_eq; by left].
    apply bool_decide_eq_true in Hs. by right. }
  case_match; [done|]. intros Hs. apply Hst. revert Hs.
  unfold apply_pending_input_delay_if_due. by repeat case_match.
Qed.

Lemma server_tick_spec t r :
  match release_next_server_frame t r with
  | (None, r') => r' = r ∨ r' = tick_base t r
  | (Some m, r') =>
      uses_strict_controller_input r = false ∧ (status r = Playing ∨ status r = StartScheduled) ∧
      status (tick_base t r) = Playing ∧
      host_has_input_for_frame (next_release_frame r) (tick_base t r) = true ∧
      server_session_epoch m = session_epoch r ∧ server_frame m = next_release_frame r ∧
      r' = advance_clock (tick_base t r)
  end.
Proof.
  pose proof (tick_base_frames t r) as Hv. pose proof (tick_base_status t r) as Hst. revert Hv Hst.
  unfold release_next_server_frame, tick_base.
  destruct (uses_strict_controller_input r) eqn:Hs; [by left|].
  destruct (promote_scheduled t r) as [r1|] eqn:Hp; [|by left].
  destruct (status r1 !=? Playing) eqn:Hpl; [by right|]. rewrite bool_decide_neq_false in Hpl.
  set (r2 := apply_pending_input_delay_if_due r1).
  assert (status r2 = Playing) as Hs2.
  { subst r2. unfold apply_pending_input_delay_if_due. by repeat case_match. }
  clearbody r2. intros Hv Hst. injection Hv as _ _ Hse _ _ _ Hnr _ _ _ _ _.
  rewrite Hnr. destruct (negb (host_has_input_for_frame (next_release_frame r) r2)) eqn:Hh; [by right|].
  apply negb_false_iff in Hh. cbn [server_session_epoch server_frame].
  split_and!; try done; [by apply Hst|]. unfold advance_clock. by rewrite Hnr.
Qed.

Lemma frames_ok_advance_clock r :
  uses_strict_controller_input r = false → frames_ok r → frames_ok (advance_clock r).
Proof.
  intros Hs H. pose proof (next_release_bound r H) as Hb. destruct H as [He Hc Hi Hk Hr Hp ? ?].
  split; try done; simpl.
  - destruct He. by split.
  - lia.
  - split; [done|]. lia.
  - intros f Hf. destruct (Hp f Hf) as (_ & Hs' & _). congruence.
Qed.

Lemma server_tick_frames t r : frames_ok r → frames_ok (release_next_server_frame t r).2.
Proof.
  intros H. pose proof (server_tick_spec t r) as Hspec. pose proof (tick_base_frames t r) as Hv.
  assert (frames_ok (tick_base t r)) as H1 by by eapply frames_ok_ext.
  destruct (release_next_server_frame t r) as [[m|] r']; cbn [snd].
  - destruct Hspec as (Hs & _ & _ & _ & _ & _ & ->). apply frames_ok_advance_clock; [|done].
    injection Hv as Hu. congruence.
  - by destruct Hspec as [-> | ->].
Qed.

(** Clearing a pending open and a scheduled start together. *)
Lemma frames_ok_unschedule r :
  frames_ok r → frames_ok (r <| pending_host_frame_open := None |> <| scheduled_start := None |>).
Proof. intros [He ? ? ? ? ? ? ?]. split; try done. destruct He. by split. Qed.

Lemma frames_ok_set_recovery tx r :
  tx_repair_frame tx ≤ u64_max → frames_ok r → frames_ok (r <| state_recovery := Some tx |>).
Proof.
  intros Ht [He ? ? ? ? ? ? ?]. split; try done; simpl; [by apply epochs_ok_upd|by intros ? [= <-]].
Qed.

Lemma frames_ok_close_recovery r : frames_ok r → frames_ok (close_state_recovery_room r).
Proof. intros H. unfold close_state_recovery_room. frames_step. apply frames_ok_unschedule. frames_go. Qed.

Lemma begin_recovery_frames m now :
  mismatch_repair_frame m ≤ u64_max → keeps frames_ok (begin_v5_state_recovery m now).
Proof.
  intros Hm. unfold begin_v5_state_recovery, reset_authoritative_state_hash_cursor. apply keeps_wp.
  intros r H. wp_go; try exact H.
  - apply frames_ok_close_recovery, frames_ok_set_recovery; [done|]. frames_go.
  - frames_step. apply frames_ok_unschedule. do 3 frames_step.
    apply frames_ok_set_recovery; [done|]. frames_go.
Qed.

Lemma state_hash_frames c report now :
  report_frame report ≤ u64_max → keeps frames_ok (accept_state_hash c report now).
Proof.
  intros Hrep.
  assert (∀ m, mismatch_repair_frame m ≤ u64_max →
            keeps frames_ok (begin_authoritative_recovery m now)) as Hb.
  { intros m Hm. unfold begin_authoritative_recovery, enter_state_hash_resync. op H.
    - eapply wp_mono; [apply wp_keeps, H; by apply begin_recovery_frames| |done].
      intros a r' H'. by apply wp_ret.
    - frames_step. frames_step. apply frames_ok_bump_session; [apply scheduled_start_reset|].
      by apply frames_ok_reset, H. }
  unfold accept_state_hash, evaluate_hashes, handle_mismatch, prune_state_hashes. op H; frames_go.
  all: apply wp_keeps; [by apply Hb|frames_go].
Qed.

Lemma pin_recovery_frames c re se pin limits :
  keeps frames_ok (accept_v5_state_recovery_pin_for_epoch c re se pin limits).
Proof.
  unfold accept_v5_state_recovery_pin_for_epoch. op H.
  match goal with E : state_recovery r = Some ?tx |- _ => pose proof (fr_repair r H tx E) as Htx end.
  frames_step. frames_step. apply frames_ok_bump_session; [done|].
  apply frames_ok_set_recovery; [done|]. apply frames_ok_reset; [done|]. apply epochs_ok_upd; [done|apply H].
Qed.

Lemma expire_recovery_frames now r : frames_ok r → frames_ok (close_expired_state_recovery now r).2.
Proof.
  intros H. unfold close_expired_state_recovery. case_match; [done|]. cbn [snd].
  by apply frames_ok_close_recovery.
Qed.

Lemma snapshot_chunk_frames sha256 c chunk limits :
  keeps frames_ok (accept_snapshot_chunk sha256 c chunk limits).
Proof.
  unfold accept_snapshot_chunk. op H. all: unfold on_transfer.
  all: apply wp_keeps; [|exact H]; clear; intros r H.
  all: destruct (accept_chunk _ _ _ _) as [? t]; cbn [snd]; frames_go.
Qed.

Lemma snapshot_complete_frames sha256 c m limits :
  keeps frames_ok (accept_snapshot_complete sha256 c m limits).
Proof. unfold accept_snapshot_complete. op H; frames_go. Qed.

Lemma file_relay_grant_frames c m grants limits :
  keeps frames_ok (accept_snapshot_file_relay_grant c m grants limits).
Proof. unfold accept_snapshot_file_relay_grant. op H; frames_go. Qed.

Lemma file_relay_uploaded_frames c id m limits :
  keeps frames_ok (accept_snapshot_file_relay_upload_complete c id m limits).
Proof. unfold accept_snapshot_file_relay_upload_complete. op H; frames_go. Qed.

Lemma on_link_state_frames {A} (m : M LinkCableRoomState RoomError A) :
  keeps frames_ok (on_link_state m).
Proof. intros r H. unfold on_link_state. destruct (m _) as [a s]. cbn [snd]. frames_go. Qed.

Lemma link_compatibility_frames c l :
  keeps frames_ok (set_link_cable_compatibility_for_connection c l).
Proof.
  apply keeps_wp. intros r H. unfold set_link_cable_compatibility_for_connection.
  unfold reject_link_compatibility. wp_go; try exact H; frames_go.
  eapply wp_mono; [apply wp_keeps, H; apply on_link_state_frames|..]; cbv beta.
  - intros _ r' H'. wp_go; frames_go.
  - intros e r' H'. wp_go; frames_go.
Qed.

Lemma heartbeat_frames c now f n st : keeps frames_ok (record_heartbeat c now f n st).
Proof. unfold record_heartbeat. op H; frames_go. Qed.

Lemma attach_input_frames p re se token c now :
  keeps frames_ok (attach_input_socket p re se token c now).
Proof. unfold attach_input_socket. op H; frames_go. Qed.

Lemma link_packet_frames c packet limits : keeps frames_ok (accept_link_cable_packet c packet limits).
Proof. unfold accept_link_cable_packet. op H. apply wp_keeps; [apply on_link_state_frames|done]. Qed.

Lemma rom_grants_frames c g : keeps frames_ok (accept_rom_relay_grants c g).
Proof. unfold accept_rom_relay_grants. op H; frames_go. Qed.

Lemma rom_completion_frames c x : keeps frames_ok (accept_rom_relay_completion c x).
Proof.
  intros r H. unfold accept_rom_relay_completion.
  destruct (rom_relay_transfer r); [|done]. destruct (accept_completion _ _ _) as [o tr].
  repeat case_match; simpl; frames_go.
Qed.

Lemma rom_failure_frames c x : keeps frames_ok (accept_rom_relay_failure c x).
Proof. unfold accept_rom_relay_failure. op H; frames_go. Qed.

Lemma rom_cancelled_frames c x : keeps frames_ok (accept_rom_relay_cancelled c x).
Proof. unfold accept_rom_relay_cancelled. op H; frames_go. Qed.

Lemma refresh_voice_frames c i t e : keeps frames_ok (refresh_voice_grant c i t e).
Proof.
  intros r H. unfold refresh_voice_grant. case_match; [|done]. case_match; [|done].
  destruct (refresh_grant _ _ _ _ _). simpl. frames_go.
Qed.
End preservation.

Lemma frames_ok_new id host c code session version resume input now :
  frames_ok (new_with_protocol_and_resume id host c code session version resume input now).
Proof. by repeat split. Qed.

Lemma set_voice_frames v r : frames_ok r → frames_ok (set_voice_state v r).
Proof. intros H. unfold set_voice_state. frames_go. Qed.

Lemma take_voice_frames r : frames_ok r → frames_ok (take_voice_room_id_for_cleanup r).2.
Proof. intros H. unfold take_voice_room_id_for_cleanup. cbn [snd]. frames_go. Qed.

Lemma mark_stale_frames now st d r : frames_ok r → frames_ok (mark_stale_connections now st d r).2.
Proof. intros H. unfold mark_stale_connections. case_match; [done|]. cbn [snd]. frames_go. Qed.

Lemma request_clock_frames t r : frames_ok r → frames_ok (request_clock_sync_sample t r).2.
Proof. intros H. unfold request_clock_sync_sample. case_match; [done|]. cbn [snd]. frames_go. Qed.

Lemma expire_handoffs_frames now r : frames_ok r → frames_ok (expire_runner_handoffs now r).2.
Proof. intros H. by apply expire_handoffs_loop_frames. Qed.

#[export] Hint Resolve
  join_guest_frames attach_host_frames player_exited_frames arm_handoff_frames
  cancel_handoff_frames disconnect_frames reconnect_frames recover_stale_frames
  disconnect_input_frames set_compatibility_frames mark_ready_frames clock_sample_frames
  deterministic_ready_frames request_pause_frames pause_reached_frames request_resume_frames
  legacy_input_frames strict_input_frames host_open_frames due_host_frame_frames
  server_tick_frames state_hash_frames pin_recovery_frames expire_recovery_frames
  snapshot_chunk_frames snapshot_complete_frames file_relay_grant_frames
  file_relay_uploaded_frames link_compatibility_frames heartbeat_frames attach_input_frames
  link_packet_frames rom_grants_frames rom_completion_frames rom_failure_frames
  rom_cancelled_frames refresh_voice_frames set_voice_frames take_voice_frames
  mark_stale_frames request_clock_frames expire_handoffs_frames : relay.

(** Every step of the room preserves the bookkeeping. *)
Lemma step_frames sha256 a r : action_wf a → frames_ok r → frames_ok (step sha256 a r).2.
Proof. intros Hw H. destruct a; cbn [step silent snd action_wf] in *; keep_step H. Qed.
