(* ===== verification/ReleaseLog.v ===== *)
(** * The release log

  Frames are released exactly once and in order within a session epoch, whatever
  operations a room goes through. A room is dormant when a slot is empty or it was
  shut down: it releases nothing until a new session starts. [lane_step] is the
  shape every step has on the release lane. *)

From S2P Require Import Prelude Ids Wire StrictInput Text Compatibility Descriptor Protocol Invite Slots.
From S2P Require Import PauseState SnapshotTransfer LinkState RoomTransactions AdaptiveDelay Room.
From S2P Require Import StartSync Connection PauseOps InputRelay HostFrame StateHash SnapshotOps LinkOps.
From S2P Require Import System SlotInvariant FrameInvariant.
Open Scope N_scope.

Strategy 1000 [upd].
Strategy 900 [update_slot update_slots].
Strategy 800 [set_connected_status set_player_status reset_sync_state_to].

(** ** Dormant rooms *)

(** What the release lane reads of a slot: whether it is empty, and whether it waits
    for a reconnect. *)
Definition slot_marks (s : PlayerSlot) : bool * bool :=
  (slot_is_empty s, is_some (slot_reconnect_deadline s)).
Definition marks (r : NetplayRoom) : list (bool * bool) := slot_marks <$> players r.

Definition has_empty (r : NetplayRoom) : bool := existsb fst (marks r).
Definition has_deadline (r : NetplayRoom) : bool := existsb snd (marks r).
Definition unattended (r : NetplayRoom) : bool := has_empty r || has_deadline r.

(** Closed for good: nothing is left that could move the room. *)
Definition shut (r : NetplayRoom) : Prop :=
  status r = Closed ∧ pause_state r = None ∧ deterministic_ready_players r = ∅.
Definition dormant (r : NetplayRoom) : Prop := has_empty r = true ∨ shut r.

(** The statuses a room with an unattended slot can have. *)
Definition idle (s : RoomStatus) : bool :=
  match s with WaitingForGuest | CheckingCompatibility | Recovering | Closed => true | _ => false end.

Record lane_ok (r : NetplayRoom) : Prop := {
  lane_unattended : unattended r = true → idle (status r) = true ∧ pause_state r = None;
  lane_deadline : has_deadline r = true → released_frame r = None;
  lane_recovering : status r = Recovering → released_frame r = None ∧ pause_state r = None }.

(** ** Steps on the release lane *)

Inductive lane_step (r : NetplayRoom) : list ReleaseEvent → NetplayRoom → Prop :=
| lane_quiet r' :
    session_epoch r' = session_epoch r → sync_start_frame r' = sync_start_frame r →
    next_release_frame r' = next_release_frame r → (dormant r → dormant r') → lane_step r [] r'
| lane_rest r' : session_epoch r' = session_epoch r → dormant r' → lane_step r [] r'
| lane_restart r' :
    session_epoch r' = session_epoch r → released_frame r = None → released_frame r' = None →
    (dormant r → dormant r') → lane_step r [] r'
| lane_session r' :
    session_epoch r < session_epoch r' → released_frame r' = None → lane_step r [] r'
| lane_release r' e :
    session_epoch r' = session_epoch r → sync_start_frame r' = sync_start_frame r → ¬ dormant r →
    e = mkReleaseEvent (session_epoch r) (next_release_frame r) →
    next_release_frame r' = u64_add (next_release_frame r) 1 → lane_step r [e] r'.

(** The frames released under a session epoch. *)
Definition frames_of (s : N) (log : list ReleaseEvent) : list N :=
  event_frame <$> List.filter (λ e, event_session_epoch e =? s) log.

Record log_ok (log : list ReleaseEvent) (r : NetplayRoom) : Prop := {
  log_past e : e ∈ log → event_session_epoch e ≤ session_epoch r;
  log_consecutive s : ∃ start, frames_of s log = frames_from start (length (frames_of s log));
  log_current : dormant r ∨ frames_of (session_epoch r) log
    = frames_from (sync_start_frame r) (N.to_nat (next_release_frame r - sync_start_frame r)) }.

Lemma frames_from_snoc f n : frames_from f (S n) = frames_from f n ++ [f + N.of_nat n].
Proof. unfold frames_from. by rewrite seq_S, fmap_app. Qed.

Lemma frames_of_app s l1 l2 : frames_of s (l1 ++ l2) = frames_of s l1 ++ frames_of s l2.
Proof. unfold frames_of. by rewrite List.filter_app, fmap_app. Qed.

Lemma frames_of_none s log :
  (∀ e, e ∈ log → event_session_epoch e ≠ s) → frames_of s log = [].
Proof.
  intros H. unfold frames_of. induction log as [|e log IH]; [done|]. cbn.
  destruct (N.eqb_spec (event_session_epoch e) s) as [He|].
  { exfalso. eapply H; [apply list_elem_of_here|done]. }
  apply IH. intros e' He'. apply H. by apply list_elem_of_further.
Qed.

Lemma released_none_next r :
  frames_ok r → released_frame r = None → next_release_frame r = sync_start_frame r.
Proof. intros H Hr. pose proof (fr_release r H) as H'. by rewrite Hr in H'. Qed.

(** A lane step keeps the log in order. *)
Lemma lane_step_log log r ev r' :
  frames_ok r → frames_ok r' → next_release_frame r < u64_max →
  lane_step r ev r' → log_ok log r → log_ok (log ++ ev) r'.
Proof.
  intros Hf Hf' Hn Hstep [Hp Hc Hcur].
  destruct Hstep as [r' Hs Hy Hx Hd|r' Hs Hd|r' Hs Hr Hr' Hd|r' Hs Hr'|r' e Hs Hy Hd -> Hx].
  - rewrite app_nil_r. split; [by rewrite Hs|done|]. rewrite Hs, Hy, Hx. tauto.
  - rewrite app_nil_r. split; [by rewrite Hs|done|by left].
  - rewrite app_nil_r. split; [by rewrite Hs|done|]. destruct Hcur as [|Hcur]; [by left; auto|right].
    rewrite Hs, Hcur, (released_none_next r), (released_none_next r') by done. by rewrite !N.sub_diag.
  - rewrite app_nil_r. split; [|done|].
    + intros e He. specialize (Hp e He). lia.
    + right. rewrite (released_none_next r'), N.sub_diag by done. apply frames_of_none.
      intros e He. specialize (Hp e He). lia.
  - destruct Hcur as [|Hcur]; [done|]. pose proof (next_release_bound r Hf) as Hb.
    assert (frames_of (session_epoch r) (log ++ [mkReleaseEvent (session_epoch r) (next_release_frame r)])
      = frames_from (sync_start_frame r) (S (N.to_nat (next_release_frame r - sync_start_frame r))))
      as Hnew.
    { rewrite frames_of_app, frames_from_snoc, <-Hcur. f_equal. unfold frames_of. simpl.
      rewrite N.eqb_refl. simpl. f_equal. lia. }
    split.
    + intros e [He|He%list_elem_of_singleton]%elem_of_app; [rewrite Hs; auto|]. subst e. simpl. lia.
    + intros s. destruct (decide (s = session_epoch r)) as [->|Hne].
      * exists (sync_start_frame r). by rewrite Hnew, length_frames_from.
      * rewrite frames_of_app. assert (frames_of s [mkReleaseEvent (session_epoch r) (next_release_frame r)] = []) as ->.
        { apply frames_of_none. intros e ->%list_elem_of_singleton. simpl. congruence. }
        rewrite app_nil_r. apply Hc.
    + right. rewrite Hs, Hy, Hx, Hnew. f_equal. unfold u64_add, saturating_add. lia.
Qed.

(** ** Quiet changes of the room *)

(** A change that leaves the frame counters alone, wakes no dormant room and keeps the
    lane invariant. *)
Definition quiet (r r' : NetplayRoom) : Prop :=
  lane_ok r → lane_ok r' ∧ (dormant r → dormant r') ∧
  session_epoch r' = session_epoch r ∧ sync_start_frame r' = sync_start_frame r ∧
  next_release_frame r' = next_release_frame r ∧ released_frame r' = released_frame r.

#[export] Instance quiet_preorder : PreOrder quiet.
Proof.
  split; [done|]. intros a b c Hab Hbc Ha. destruct (Hab Ha) as (Hb & ? & ? & ? & ? & ?).
  destruct (Hbc Hb) as (? & ? & ? & ? & ? & ?). split_and!; auto; congruence.
Qed.

(** The fields the lane depends on. *)
Definition lane_view (r : NetplayRoom) :=
  (session_epoch r, sync_start_frame r, next_release_frame r, released_frame r, status r,
   pause_state r, deterministic_ready_players r, marks r).

Lemma quiet_ext r r' : lane_view r' = lane_view r → quiet r r'.
Proof.
  intros [= H1 H2 H3 H4 H5 H6 H7 H8] [Hu Hd Hr].
  assert (has_empty r' = has_empty r ∧ has_deadline r' = has_deadline r) as [He Hde]
    by by unfold has_empty, has_deadline; rewrite H8.
  split_and!; try done.
  - split; unfold unattended in *; by rewrite ?He, ?Hde, ?H4, ?H5, ?H6.
  - unfold dormant, shut. by rewrite He, H5, H6, H7.
Qed.

Lemma quiet_upd {T} (q : NetplayRoom → T) `{!Setter q} (v : T → T) r0 r :
  (∀ n g, lane_view (upd q g n) = lane_view n) → quiet r0 r → quiet r0 (upd q v r).
Proof. intros Hv H. etransitivity; [exact H|]. by apply quiet_ext. Qed.

(** Slot mutations that keep the marks. *)
Lemma marks_update_slot p f r :
  (∀ s, s ∈ players r → p s = true → slot_marks (f s) = slot_marks s) → marks (update_slot p f r) = marks r.
Proof.
  intros Hf. unfold marks. cbn. induction (players r) as [|s l IH]; [done|]. simpl.
  destruct (p s) eqn:E; csimpl.
  - rewrite Hf; [done|apply list_elem_of_here|done].
  - f_equal. apply IH. intros s' Hs'. apply Hf. by apply list_elem_of_further.
Qed.

Lemma marks_update_slots p f r :
  (∀ s, s ∈ players r → p s = true → slot_marks (f s) = slot_marks s) → marks (update_slots p f r) = marks r.
Proof.
  intros Hf. unfold marks. cbn. unfold update_all. rewrite <-list_fmap_compose.
  apply list_fmap_ext. intros i s Hs%list_elem_of_lookup_2. simpl. destruct (p s) eqn:E; auto.
Qed.

Lemma quiet_marks r0 r players' :
  slot_marks <$> players' = marks r → quiet r0 r → quiet r0 (r <| players := players' |>).
Proof. intros Hm H. etransitivity; [exact H|]. apply quiet_ext. unfold lane_view. cbn. by rewrite <-Hm. Qed.

Lemma quiet_update_slot p f r0 r :
  (∀ s, s ∈ players r → p s = true → slot_marks (f s) = slot_marks s) →
  quiet r0 r → quiet r0 (update_slot p f r).
Proof. intros Hf. apply quiet_marks. by apply (marks_update_slot p f r). Qed.

Lemma quiet_update_slots p f r0 r :
  (∀ s, s ∈ players r → p s = true → slot_marks (f s) = slot_marks s) →
  quiet r0 r → quiet r0 (update_slots p f r).
Proof. intros Hf. apply quiet_marks. by apply (marks_update_slots p f r). Qed.

(** Slot mutations that may also end a wait for a reconnect. *)
Lemma quiet_update_slot_shrink p f r0 r :
  (∀ s, s ∈ players r → p s = true → slot_is_empty (f s) = slot_is_empty s ∧
     slot_reconnect_deadline (f s) = None) →
  quiet r0 r → quiet r0 (update_slot p f r).
Proof.
  intros Hf H. etransitivity; [exact H|]. clear H r0. set (r' := update_slot p f r).
  assert (has_empty r' = has_empty r ∧ (has_deadline r' = true → has_deadline r = true)) as [He Hd].
  { unfold has_empty, has_deadline, marks, r'. cbn. clear r'.
    induction (players r) as [|s l IH]; [done|]. destruct IH as [IH1 IH2].
    { intros s' Hs'. apply Hf. by apply list_elem_of_further. }
    cbn [update_first]. destruct (p s) eqn:E; rewrite !fmap_cons; cbn [existsb slot_marks fst snd].
    - destruct (Hf s) as [-> ->]; [apply list_elem_of_here|done|]. split; [done|]. simpl.
      intros ->. by rewrite orb_true_r.
    - rewrite IH1. split; [done|]. rewrite !orb_true_iff. tauto. }
  intros [Hu Hdl Hr]. split_and!; try done.
  - split; [|by intros ?%Hd; apply Hdl|done]. intros Hu'. apply Hu. unfold unattended in *.
    rewrite orb_true_iff in *. rewrite He in Hu'. tauto.
  - unfold dormant, shut. by rewrite He.
Qed.

(** A connected slot is not empty. *)
Lemma connected_not_empty r s :
  slots_ok r → s ∈ players r → slot_connection_id s ≠ None → slot_is_empty s = false.
Proof.
  intros [_ Hs _] Hin Hc. unfold slot_is_empty. apply bool_decide_eq_false. intros He.
  rewrite Forall_forall in Hs. by destruct (ok_empty s (Hs s Hin) He) as (_ & ? & _).
Qed.

(** Assigning a status other than [Empty] to occupied slots. *)
Lemma quiet_occupied_status st rs r0 r :
  st ≠ Player_Empty → quiet r0 r →
  quiet r0 (update_slots (λ s, negb (slot_is_empty s))
              (λ s, s <| slot_status := st |> <| slot_runtime_state := rs |>) r).
Proof.
  intros Hst. apply quiet_update_slots. intros s _ He%negb_true_iff. unfold slot_marks.
  rewrite He. f_equal. unfold slot_is_empty. cbn. by apply bool_decide_eq_false.
Qed.

(** Assigning a status other than [Empty] to connected slots. *)
Lemma quiet_set_connected_status st rs r0 r :
  st ≠ Player_Empty → slots_ok r → quiet r0 r → quiet r0 (set_connected_status st rs r).
Proof.
  intros Hst Hok. apply quiet_update_slots. intros s Hs Hc. unfold slot_marks.
  rewrite (connected_not_empty r s); [|done..|]; cbn.
  - f_equal. unfold slot_is_empty. cbn. by apply bool_decide_eq_false.
  - unfold is_connected in Hc. by destruct (slot_connection_id s).
Qed.

Lemma quiet_set_player_status c p st r0 r :
  st ≠ Player_Empty → slots_ok r → player_index_for_connection c r = Some p →
  quiet r0 r → quiet r0 (set_player_status p st r).
Proof.
  intros Hst Hok Hp. apply quiet_update_slot. intros s Hs Hc. unfold slot_marks.
  assert (slot_connection_id s ≠ None) as Hs'.
  { unfold player_index_for_connection in Hp. destruct (find_slot _ r) as [s'|] eqn:Hf; [|done].
    injection Hp as Hp. apply slots_ok_connection_unique in Hf as [Hin Hcs]; [|done].
    unfold has_index in Hc. apply bool_decide_eq_true in Hc.
    rewrite (slots_ok_index_unique r s s') by congruence. by rewrite Hcs. }
  rewrite (connected_not_empty r s) by done. cbn. f_equal. unfold slot_is_empty. cbn.
  by apply bool_decide_eq_false.
Qed.

(** A room in which both players are present and that can still move. *)
Definition active (r : NetplayRoom) : Prop := unattended r = false ∧ ¬ shut r.

Lemma active_not_dormant r : active r → ¬ dormant r.
Proof.
  intros (Hu & Hs) [He|?]; [|done]. unfold unattended in Hu. by rewrite He in Hu.
Qed.

Lemma lane_active r : lane_ok r → idle (status r) = false → active r ∧ status r ≠ Recovering.
Proof.
  intros [Hu _ _] Hi. split; [split|].
  - destruct (unattended r); [|done]. destruct (Hu eq_refl). congruence.
  - intros (E & _). by rewrite E in Hi.
  - intros E. by rewrite E in Hi.
Qed.

Lemma lane_pausing r : lane_ok r → pause_state r ≠ None → active r ∧ status r ≠ Recovering.
Proof.
  intros [Hu _ Hr] Hp. split; [split|].
  - destruct (unattended r); [|done]. by destruct (Hu eq_refl).
  - by intros (_ & ? & _).
  - intros E. by destruct (Hr E).
Qed.

(** All slots are connected: nobody is missing. *)
Lemma all_connected_attended test r :
  slots_ok r → all_connected test r = true → unattended r = false.
Proof.
  intros [Hk Hs Hm] Hall. unfold all_connected in Hall. apply andb_true_iff in Hall as [Hn _].
  rewrite Hm in Hn. unfold connected_player_indices, unattended, has_empty, has_deadline, marks in *.
  destruct (players r) as [|a [|b [|]]]; try discriminate.
  rewrite !Forall_cons in Hs. destruct Hs as ([Ea _ _ Da] & [Eb _ _ Db] & _).
  unfold is_connected in Hn. simpl in *.
  destruct (slot_connection_id a) eqn:Ca, (slot_connection_id b) eqn:Cb; simpl in Hn; try discriminate.
  unfold slot_is_empty. rewrite !bool_decide_eq_false_2 by naive_solver.
  destruct (slot_reconnect_deadline a), (slot_reconnect_deadline b); simpl; try done.
  all: try (by discriminate Da); try (by discriminate Db).
Qed.

Lemma quiet_status_active x r0 r :
  x ≠ Recovering → (lane_ok r → active r) → quiet r0 r → quiet r0 (r <| status := x |>).
Proof.
  intros Hx Ha H. etransitivity; [exact H|]. intros Hok. destruct (Ha Hok) as (Hu & Hs).
  split_and!; try done.
  - destruct Hok as [_ Hd _]. split; [|done|done]. intros Hu'. exfalso.
    assert (unattended r = true) by done. congruence.
  - intros Hdo. exfalso. eapply active_not_dormant; [|exact Hdo]. done.
Qed.

Lemma quiet_status_idle x r0 r :
  idle x = true → x ≠ Recovering → (status r = Closed → x = Closed) →
  quiet r0 r → quiet r0 (r <| status := x |>).
Proof.
  intros Hi Hx Hc H. etransitivity; [exact H|]. intros [Hu Hd Hr].
  split_and!; try done.
  - split; [|done|done]. intros Hu'. split; [done|]. by apply Hu.
  - intros [He|(E & ? & ?)]; [by left|right]. split_and!; try done. by apply Hc.
Qed.

Lemma quiet_pause v r0 r :
  (lane_ok r → active r ∧ status r ≠ Recovering) → quiet r0 r → quiet r0 (upd pause_state v r).
Proof.
  intros Ha H. etransitivity; [exact H|]. intros Hok. destruct (Ha Hok) as ((Hu & Hs) & Hr).
  split_and!; try done.
  - destruct Hok as [_ Hd _]. split; [|done|done]. intros Hu'. exfalso.
    assert (unattended r = true) by done. congruence.
  - intros Hdo. exfalso. eapply active_not_dormant; [|exact Hdo]. done.
Qed.

Lemma quiet_deterministic v r0 r :
  (lane_ok r → active r) → quiet r0 r → quiet r0 (upd deterministic_ready_players v r).
Proof.
  intros Ha H. etransitivity; [exact H|]. intros Hok. pose proof (Ha Hok) as Hac.
  destruct Hok as [? ? ?]. split_and!; try done.
  intros Hdo. by destruct (active_not_dormant r).
Qed.

Lemma quiet_set_input_delay n r0 r : quiet r0 r → quiet r0 (set_input_delay n r).
Proof. intros H. etransitivity; [exact H|]. by apply quiet_ext. Qed.

Lemma slots_ok_set_input_delay n r : slots_ok r → slots_ok (set_input_delay n r).
Proof. by apply slots_ok_ext. Qed.

(** ** Quiet operations *)

Ltac quiet_known := match goal with |- quiet ?r ?r' => constr_eq r r'; reflexivity end.
Ltac quiet_step :=
  lazymatch goal with
  | |- quiet _ (set_connected_status _ _ _) => apply quiet_set_connected_status; [done|slots_go|]
  | |- quiet _ (update_slots _ _ _) => apply quiet_update_slots; [intros; reflexivity|]
  | |- quiet _ (update_slot _ _ _) => apply quiet_update_slot; [intros; split_goal_match; reflexivity|]
  | |- quiet _ (set_input_delay _ _) => apply quiet_set_input_delay
  | |- slots_ok (set_input_delay _ _) => apply slots_ok_set_input_delay
  | |- quiet _ (upd _ _ _) => apply quiet_upd; [intros; reflexivity|]
  | |- quiet _ (match ?x with _ => _ end) => destruct x eqn:?
  end.
Ltac quiet_go := repeat first [quiet_known | quiet_step].

(** Boolean guards as propositions. *)
Ltac bools :=
  repeat match goal with
  | E : (_ !=? _) = true |- _ => rewrite negb_true_iff, bool_decide_eq_false in E
  | E : (_ ==? _) = true |- _ => apply bool_decide_eq_true in E
  | E : negb _ = false |- _ => apply negb_false_iff in E
  | E : negb _ = true |- _ => apply negb_true_iff in E
  end.

Section quiet_ops.
Implicit Types (r : NetplayRoom).

(** A method that is quiet on every path. *)
Definition quiet_op {E A} (m : M NetplayRoom E A) : Prop :=
  ∀ r, slots_ok r → wp m (λ _, quiet r) (λ _, quiet r) r.

Ltac op H := intros r H; wp_go; try quiet_known.

Lemma arm_handoff_quiet c now grace : quiet_op (arm_runner_handoff c now grace).
Proof. unfold arm_runner_handoff. op H; quiet_go. Qed.

Lemma cancel_handoff_quiet c : quiet_op (cancel_runner_handoff c).
Proof. unfold cancel_runner_handoff. op H; quiet_go. Qed.

Lemma heartbeat_quiet c now f n st : quiet_op (record_heartbeat c now f n st).
Proof. unfold record_heartbeat, store_samples. op H; quiet_go. Qed.

Lemma attach_input_quiet p re se token c now : quiet_op (attach_input_socket p re se token c now).
Proof. unfold attach_input_socket. op H; quiet_go. Qed.

Lemma attach_host_quiet license c resume input now caps :
  quiet_op (attach_host_with_resume license c resume input now caps).
Proof.
  unfold attach_host_with_resume. op H. quiet_step. apply quiet_update_slot_shrink; [|quiet_go].
  intros s Hs Hr. split; [|done]. unfold has_role in Hr. apply bool_decide_eq_true in Hr.
  destruct H as [_ Hall _]. rewrite Forall_forall in Hall. destruct (Hall s Hs) as [He _ _ _].
  unfold slot_is_empty. rewrite !bool_decide_eq_false_2; [done| |done].
  intros E. destruct (He E). congruence.
Qed.

Lemma legacy_input_quiet c inputs limits : quiet_op (accept_input_frame_cursors c inputs limits).
Proof. unfold accept_input_frame_cursors. op H; quiet_go. Qed.

Lemma strict_input_quiet c batch : quiet_op (accept_strict_input_batch c batch).
Proof. unfold accept_strict_input_batch. op H; quiet_go. Qed.

Lemma snapshot_complete_quiet sha256 c m limits :
  quiet_op (accept_snapshot_complete sha256 c m limits).
Proof. unfold accept_snapshot_complete. op H; quiet_go. Qed.

Lemma file_relay_grant_quiet c m grants limits :
  quiet_op (accept_snapshot_file_relay_grant c m grants limits).
Proof. unfold accept_snapshot_file_relay_grant. op H; quiet_go. Qed.

Lemma file_relay_uploaded_quiet c id m limits :
  quiet_op (accept_snapshot_file_relay_upload_complete c id m limits).
Proof. unfold accept_snapshot_file_relay_upload_complete. op H; quiet_go. Qed.

Lemma on_link_state_quiet {A} (m : M LinkCableRoomState RoomError A) : quiet_op (on_link_state m).
Proof.
  intros r H. unfold wp, on_link_state. destruct (m _) as [[] s]; quiet_go.
Qed.

Lemma snapshot_chunk_quiet sha256 c chunk limits :
  quiet_op (accept_snapshot_chunk sha256 c chunk limits).
Proof.
  unfold accept_snapshot_chunk. op H. all: unfold wp, on_transfer.
  all: destruct (accept_chunk _ _ _ _) as [[] t]; quiet_go.
Qed.

Lemma rom_grants_quiet c g : quiet_op (accept_rom_relay_grants c g).
Proof. unfold accept_rom_relay_grants. op H; quiet_go. Qed.

Lemma rom_completion_quiet c x : quiet_op (accept_rom_relay_completion c x).
Proof.
  intros r H. unfold wp, accept_rom_relay_completion. destruct (rom_relay_transfer r); [|quiet_go].
  destruct (accept_completion _ _ _) as [[] tr]; [destruct (completion_role x)|]; quiet_go.
Qed.

Lemma rom_failure_quiet c x : quiet_op (accept_rom_relay_failure c x).
Proof. unfold accept_rom_relay_failure. op H; quiet_go. Qed.

Lemma rom_cancelled_quiet c x : quiet_op (accept_rom_relay_cancelled c x).
Proof. unfold accept_rom_relay_cancelled. op H; quiet_go. Qed.

Lemma refresh_voice_quiet c i t e : quiet_op (refresh_voice_grant c i t e).
Proof.
  intros r H. unfold wp, refresh_voice_grant. destruct (player_index_for_connection c r); [|quiet_go].
  destruct (room_voice r); [|quiet_go]. destruct (refresh_grant _ _ _ _ _) as [[] ?]; cbn; quiet_go.
Qed.

Lemma link_packet_quiet c packet limits : quiet_op (accept_link_cable_packet c packet limits).
Proof. unfold accept_link_cable_packet. op H. by apply on_link_state_quiet. Qed.

(** One of two live statuses was checked for. *)
Ltac live_status :=
  match goal with E : ((_ ==? _) || (_ ==? _)) = true |- _ =>
    rewrite orb_true_iff, !bool_decide_eq_true in E; simpl; by destruct E as [-> | ->] end.

Lemma set_compatibility_quiet c f : quiet_op (set_compatibility_for_connection c f).
Proof.
  unfold set_compatibility_for_connection. op H; bools.
  - apply (quiet_set_player_status c); [done|slots_go|assumption|].
    apply quiet_status_idle; [done|done|done|]. quiet_go.
  - apply (quiet_set_player_status c); [done|slots_go|assumption|]. quiet_go.
  - apply quiet_occupied_status; [done|].
    apply quiet_status_idle; [done|done|done|].
    apply (quiet_set_player_status c); [done|slots_go|assumption|]. quiet_go.
  - apply quiet_set_connected_status; [done|slots_go|]. 
    apply quiet_status_active; [done| |].
    2: apply (quiet_set_player_status c); [done|slots_go|assumption|]; quiet_go.
    intros _. split; [|by intros (E & _)].
    eapply all_connected_attended; [|eassumption]. slots_go.
Qed.

(** The room's status was checked to be a live one before the changes. *)
Lemma active_by_status x r : idle x = false → status r = x → lane_ok r → active r.
Proof. intros Hx <- Hl. by apply lane_active. Qed.

(** Mutations of a slot that keep its owner keep the connections' players. *)
Lemma player_index_update_slot c q f r :
  (∀ s, slot_connection_id (f s) = slot_connection_id s ∧ slot_player_index (f s) = slot_player_index s) →
  player_index_for_connection c (update_slot q f r) = player_index_for_connection c r.
Proof.
  intros Hf. unfold player_index_for_connection, find_slot. cbn.
  induction (players r) as [|s l IH]; [done|]. simpl. destruct (q s); simpl; unfold has_connection in *.
  - destruct (Hf s) as [-> Hi]. destruct (_ ==? _); simpl; [by rewrite Hi|done].
  - destruct (_ ==? _); [done|]. exact IH.
Qed.

Lemma store_samples_owner f n now s :
  slot_connection_id (store_samples f n now s) = slot_connection_id s ∧
  slot_player_index (store_samples f n now s) = slot_player_index s.
Proof. unfold store_samples. by destruct f, n. Qed.

Lemma record_network_report_quiet c f n now r : quiet r (record_network_report c f n now r).
Proof.
  apply quiet_update_slot; [|done]. intros s _ _. unfold store_samples. by destruct f, n.
Qed.

Lemma record_network_report_slots c f n now r : slots_ok r → slots_ok (record_network_report c f n now r).
Proof. apply slots_ok_update_slot, store_samples_safe. Qed.

Lemma mark_ready_quiet c n now : quiet_op (mark_ready c n now).
Proof.
  intros r H. unfold mark_ready.
  do 10 (wp_step; cbv beta; try quiet_known). apply wp_bind, wp_modify, wp_bind, wp_modify.
  assert (idle (status r) = false) as Hidle by live_status.
  match goal with |- wp _ _ _ ?x => set (r1 := x) end.
  assert (quiet r r1 ∧ slots_ok r1 ∧ status r1 = status r) as (Hq & Hok & Hst).
  { split_and!; [|subst r1; slots_go; by apply record_network_report_slots|done].
    apply (quiet_set_player_status c); [done|slots_go; by apply record_network_report_slots| |].
    - etransitivity; [|eassumption]. by apply player_index_update_slot, store_samples_owner.
    - quiet_step. apply record_network_report_quiet. }
  clearbody r1. unfold apply_initial_adaptive_input_delay, finish_v5_state_recovery. wp_go.
  all: repeat match goal with
    | |- quiet _ (set_connected_status _ _ _) => apply quiet_set_connected_status; [done|slots_go|]
    | |- quiet _ (upd status _ _) =>
        apply quiet_status_active; [done|apply (active_by_status (status r)); [done|by repeat case_match]|]
    | _ => first [exact Hq | exact Hok | quiet_step]
    end.
Qed.

(** Scheduling needs every player's readiness, so it wakes no dormant room. *)
Lemma try_schedule_quiet now t r0 r :
  slots_ok r → quiet r0 r → quiet r0 (try_schedule_start now t r).2.
Proof.
  intros Hok Hq. unfold try_schedule_start. destruct (scheduled_start r); [done|].
  destruct (connected_players_ready_for_scheduling r) eqn:Hc; [|done]. cbn [negb snd].
  set (r1 := apply_initial_v5_input_delay now r).
  assert (quiet r0 r1 ∧ slots_ok r1 ∧ players r1 = players r ∧
          deterministic_ready_players r1 = deterministic_ready_players r ∧ max_players r1 = max_players r)
    as (Hq1 & Hok1 & Hp & Hd & Hm).
  { subst r1. unfold apply_initial_v5_input_delay. repeat case_match; split_and!; try done.
    - by apply quiet_set_input_delay.
    - by apply slots_ok_set_input_delay. }
  clearbody r1. quiet_step. apply quiet_status_active; [done| |done]. intros _.
  unfold connected_players_ready_for_scheduling in Hc. apply andb_true_iff in Hc as [Hall _].
  assert (all_connected (λ p, bool_decide (p ∈ deterministic_ready_players r)) r1 = true) as Hall1.
  { unfold all_connected, connected_player_indices in *. by rewrite Hp, Hm. }
  split; [by eapply all_connected_attended|]. intros (_ & _ & Hempty). rewrite <-Hd, Hempty in Hall1.
  unfold all_connected in Hall1. apply andb_true_iff in Hall1 as [Hn Hf].
  rewrite (ok_capacity r1 Hok1) in Hn. destruct (connected_player_indices r1); [discriminate|].
  simpl in Hf. by rewrite bool_decide_eq_false_2 in Hf by set_solver.
Qed.

Lemma clock_sample_quiet c sample now t : quiet_op (accept_clock_sync_sample c sample now t).
Proof. unfold accept_clock_sync_sample. op H. apply try_schedule_quiet; [slots_go|quiet_go]. Qed.

Lemma deterministic_ready_quiet c n now t : quiet_op (mark_deterministic_ready c n now t).
Proof.
  unfold mark_deterministic_ready. op H. apply try_schedule_quiet.
  { slots_go. by apply record_network_report_slots. }
  quiet_step. apply quiet_deterministic; [|apply record_network_report_quiet].
  apply (active_by_status (status r)); [live_status|done].
Qed.

Lemma request_pause_quiet c id reason f : quiet_op (request_session_pause_with_id c id reason f).
Proof.
  unfold request_session_pause_with_id. op H.
  all: apply quiet_pause; [intros Hl; apply lane_active; [done|live_status]|quiet_go].
Qed.
End quiet_ops.

(** ** Operations that end, restart or renew a session *)

(** The invariant and the shape of a step together. *)
Definition good (r : NetplayRoom) (ev : list ReleaseEvent) (r' : NetplayRoom) : Prop :=
  lane_ok r' ∧ lane_step r ev r'.

Lemma quiet_good r r' : lane_ok r → quiet r r' → good r [] r'.
Proof.
  intros Hl H. destruct (H Hl) as (? & ? & ? & ? & ? & ?). split; [done|]. by apply lane_quiet.
Qed.

Lemma good_after_quiet r r1 r' : lane_ok r → quiet r r1 → good r1 [] r' → good r [] r'.
Proof.
  intros Hl Hq [Hl' Hs]. destruct (Hq Hl) as (_ & Hd & H1 & H2 & H3 & H4). split; [done|].
  inversion Hs; subst.
  - apply lane_quiet; [congruence..|auto].
  - apply lane_rest; [congruence|done].
  - apply lane_restart; [congruence..|auto].
  - apply lane_session; [lia|done].
Qed.

Lemma lane_ok_stopped r :
  idle (status r) = true → pause_state r = None → released_frame r = None → lane_ok r.
Proof. by split. Qed.

Lemma marks_reset n r : marks (reset_sync_state_to n r) = marks r.
Proof.
  unfold marks, reset_sync_state_to. destruct (uses_strict_controller_input r); [|done].
  trans (slot_marks <$> (clear_samples <$> players r)); [done|]. by rewrite <-list_fmap_compose.
Qed.

Lemma status_reset n r : status (reset_sync_state_to n r) = status r.
Proof. unfold reset_sync_state_to. by destruct (uses_strict_controller_input r). Qed.
Lemma session_epoch_reset n r : session_epoch (reset_sync_state_to n r) = session_epoch r.
Proof. unfold reset_sync_state_to. by destruct (uses_strict_controller_input r). Qed.

(** A reset before any frame of the session was released. *)
Lemma good_restart n r r1 :
  lane_ok r → quiet r r1 → released_frame r = None → good r [] (reset_sync_state_to n r1).
Proof.
  intros Hl Hq Hr. destruct (Hq Hl) as ([Hu _ _] & Hd & Hs & _ & _ & _).
  assert (has_empty (reset_sync_state_to n r1) = has_empty r1 ∧
          unattended (reset_sync_state_to n r1) = unattended r1) as [He Hun]
    by by unfold unattended, has_empty, has_deadline; rewrite marks_reset.
  split.
  - split; [|done|done]. rewrite Hun, status_reset. intros ?. split; [by apply Hu|done].
  - apply lane_restart; [by rewrite session_epoch_reset|done|done|]. intros [Hx|(Hx & _)]%Hd.
    + left. by rewrite He.
    + right. split_and!; [by rewrite status_reset|done|done].
Qed.

(** A fresh session epoch. *)
Lemma good_session r r' :
  session_epoch r < u64_max → session_epoch r' = u64_add (session_epoch r) 1 →
  idle (status r') = true → pause_state r' = None → released_frame r' = None → good r [] r'.
Proof.
  intros Hb He Hi Hp Hr. split; [by apply lane_ok_stopped|]. apply lane_session; [|done].
  rewrite He. unfold u64_add, saturating_add. lia.
Qed.

(** The room comes to rest. *)
Lemma good_rest r r' :
  session_epoch r' = session_epoch r → idle (status r') = true → pause_state r' = None →
  released_frame r' = None → dormant r' → good r [] r'.
Proof. intros. split; [by apply lane_ok_stopped|by apply lane_rest]. Qed.

Lemma good_waiting r r' :
  session_epoch r' = session_epoch r → pause_state r' = None → released_frame r' = None →
  has_empty r' = true → good r [] (r' <| status := WaitingForGuest |>).
Proof. intros. apply good_rest; try done. by left. Qed.

Lemma restore_fields r :
  let r' := restore_checking_compatibility_after_recovery r in
  status r' = CheckingCompatibility ∧ pause_state r' = None ∧ released_frame r' = None ∧
  session_epoch r' = session_epoch r.
Proof.
  unfold restore_checking_compatibility_after_recovery, reset_sync_state, reset_sync_state_to.
  split_and!; try done. cbn. by destruct (uses_strict_controller_input r).
Qed.

Lemma enter_recovery_fields e r :
  let r' := enter_recovery_state e r in
  status r' = Recovering ∧ pause_state r' = None ∧ released_frame r' = None ∧
  session_epoch r' = u64_add (session_epoch r) 1.
Proof.
  unfold enter_recovery_state, reset_sync_state, reset_sync_state_to.
  split_and!; try done.
  - cbn. by destruct (uses_strict_controller_input _).
  - cbn. by destruct (uses_strict_controller_input _).
Qed.

Lemma clear_disconnected_slot_fields p is_host r :
  let r' := clear_disconnected_slot p is_host r in
  pause_state r' = None ∧ released_frame r' = None ∧ deterministic_ready_players r' = ∅ ∧
  session_epoch r' = session_epoch r ∧ (is_host = true → status r' = Closed).
Proof.
  unfold clear_disconnected_slot, reset_sync_state, reset_sync_state_to.
  split_and!; destruct is_host; try done; cbn; by destruct (uses_strict_controller_input _).
Qed.

(** Clearing a guest's slot empties it. *)
Lemma clear_disconnected_slot_empty p r :
  p ∈ slot_player_index <$> players r → has_empty (clear_disconnected_slot p false r) = true.
Proof.
  intros Hp. unfold clear_disconnected_slot, reset_sync_state, has_empty. rewrite marks_reset.
  unfold marks. cbn. induction (players r) as [|s l IH]; [by apply elem_of_nil in Hp|].
  cbn [update_first]. unfold has_index at 1. case_bool_decide as E; [done|].
  rewrite fmap_cons, elem_of_cons in Hp. destruct Hp as [->|Hp]; [done|].
  rewrite fmap_cons. cbn [existsb]. rewrite IH by done. apply orb_true_r.
Qed.

Lemma has_empty_update_slot p f r :
  (∀ s, s ∈ players r → p s = true → slot_is_empty (f s) = slot_is_empty s) →
  has_empty (update_slot p f r) = has_empty r.
Proof.
  intros Hf. unfold has_empty, marks. cbn. induction (players r) as [|s l IH]; [done|].
  cbn [update_first]. destruct (p s) eqn:E; rewrite !fmap_cons; cbn [existsb slot_marks fst].
  - rewrite Hf; [done|apply list_elem_of_here|done].
  - rewrite IH; [done|]. intros s' Hs'. apply Hf. by apply list_elem_of_further.
Qed.

Section session_ops.
Implicit Types (r : NetplayRoom).

(** A method whose every outcome is a good step without releases. *)
Definition good_op {E A} (m : M NetplayRoom E A) (pre : NetplayRoom → Prop) : Prop :=
  ∀ r, slots_ok r → lane_ok r → session_epoch r < u64_max → pre r →
  wp m (λ _, good r []) (λ _, good r []) r.

Ltac stay := apply quiet_good; [assumption|reflexivity].

Lemma join_guest_good license c resume input now caps :
  good_op (join_guest_with_resume license c resume input now caps) (λ _, True).
Proof.
  intros r Hs Hl Hb _. unfold join_guest_with_resume. wp_go; try stay.
  unfold reset_sync_for_checking_compatibility.
  match goal with |- good _ _ (restore_checking_compatibility_after_recovery ?x) =>
    destruct (restore_fields x) as (H1 & H2 & H3 & H4) end.
  apply good_session; [done|by rewrite H4|by rewrite H1|done|done].
Qed.

Lemma player_exited_good c now : good_op (player_exited c now) (λ _, True).
Proof.
  intros r Hs Hl Hb _. unfold player_exited. wp_go; try stay.
  unfold reset_sync_state, reset_sync_state_to.
  apply good_rest; [|by cbn; destruct (uses_strict_controller_input _)|done|done|].
  - cbn. by destruct (uses_strict_controller_input _).
  - right. split_and!; [|done|done]. cbn. by destruct (uses_strict_controller_input _).
Qed.

(** No connected player has an armed handoff, or no frame was released yet. *)
Definition handoff_safe (r : NetplayRoom) : Prop :=
  released_frame r = None ∨
  Forall (λ s, slot_connection_id s = None ∨ slot_runner_handoff_deadline s = None) (players r).

Lemma preserve_handoff_good c now r :
  slots_ok r → lane_ok r → handoff_safe r →
  wp (preserve_runner_handoff_disconnect c now)
    (λ b r', if b : bool then good r [] r' else quiet r r') (λ _, quiet r) r.
Proof.
  intros Hs Hl Hh. unfold preserve_runner_handoff_disconnect. wp_go; try done.
  - apply quiet_update_slot; [done|done].
  - match goal with E : find_slot _ r = Some ?s |- _ =>
      pose proof (slots_ok_connection_unique c s r Hs E) as [Hin Hc] end.
    destruct Hh as [Hr|Hh].
    + apply good_restart; [done| |done]. unfold forget_player.
      do 4 quiet_step. apply quiet_update_slot_shrink; [|done].
      intros s' Hs' Hc'. unfold has_connection in Hc'. apply bool_decide_eq_true in Hc'.
      rewrite (connected_not_empty r s') by (done || congruence). done.
    + rewrite Forall_forall in Hh. destruct (Hh _ Hin); congruence.
Qed.

Lemma players_forget p r : players (forget_player p r) = players r.
Proof. done. Qed.

(** The tail of a disconnect, from a room in which slot [s] was just vacated. *)
Lemma disconnect_tail_good c s now r (r1 := forget_player (slot_player_index s)
    (update_slot (has_connection c) (λ s, clear_input_socket (s <| slot_connection_id := None |>)
       <| slot_last_seen_at := Some now |>) r)) :
  slots_ok r → lane_ok r → session_epoch r < u64_max → find_slot (has_connection c) r = Some s →
  (∀ e grace, status r = Recovering → good r [] (mark_slot_reconnecting (slot_player_index s) now grace e r1)) ∧
  (∀ e e' grace, good r [] (enter_recovery_state e'
     (mark_slot_reconnecting (slot_player_index s) now grace e r1))) ∧
  good r [] (clear_disconnected_slot (slot_player_index s) true r1) ∧
  good r [] ((clear_disconnected_slot (slot_player_index s) false r1) <| status := WaitingForGuest |>).
Proof.
  intros Hs Hl Hb Hf. pose proof (slots_ok_connection_unique c s r Hs Hf) as [Hin Hc].
  split_and!.
  - intros e grace Hst. destruct (lane_recovering r Hl Hst) as [Hr Hp].
    split; [apply lane_ok_stopped; [by cbn; rewrite Hst|done|done]|]. apply lane_quiet; [done..|].
    assert (has_empty (mark_slot_reconnecting (slot_player_index s) now grace e r1) = has_empty r) as He.
    { trans (has_empty r1); [|by apply (has_empty_update_slot (has_connection c))].
      apply has_empty_update_slot. intros x Hx Hi. unfold has_index in Hi. apply bool_decide_eq_true in Hi.
      unfold r1 in Hx. rewrite players_forget in Hx.
      pose proof (λ f, update_slot_found (has_connection c) f r s Hs Hf) as Hu.
      setoid_rewrite Forall_forall in Hu. eapply Hu in Hx; [|done|exact Hi]. rewrite Hx. cbn.
      symmetry. apply (connected_not_empty r s); congruence. }
    unfold dormant. rewrite He. intros [|(E & _)]; [by left|congruence].
  - intros e e' grace. match goal with |- good _ _ (enter_recovery_state _ ?x) =>
      destruct (enter_recovery_fields e' x) as (H1 & H2 & H3 & H4) end.
    apply good_session; [done|by rewrite H4|by rewrite H1|done|done].
  - destruct (clear_disconnected_slot_fields (slot_player_index s) true r1) as (H1 & H2 & H3 & H4 & H5).
    apply good_rest; [by rewrite H4|by rewrite H5|done|done|]. right. split_and!; auto.
  - destruct (clear_disconnected_slot_fields (slot_player_index s) false r1) as (H1 & H2 & H3 & H4 & _).
    apply good_waiting; [by rewrite H4|by rewrite H1|by rewrite H2|].
    apply (clear_disconnected_slot_empty (slot_player_index s) r1).
    unfold r1. rewrite players_forget. cbn. rewrite update_first_fmap by done. by apply list_elem_of_fmap_2.
Qed.

Lemma disconnect_good c now grace : good_op (disconnect_with_recovery c now grace) handoff_safe.
Proof.
  intros r0 Hs0 Hl0 Hb0 Hh. unfold disconnect_with_recovery. apply wp_bind.
  assert (wp (preserve_runner_handoff_disconnect c now) (λ _, slots_ok) (λ _, slots_ok) r0) as Hsl
    by by apply wp_keeps; [apply preserve_handoff_slots|].
  pose proof (preserve_handoff_good c now r0 Hs0 Hl0 Hh) as Hp. unfold wp in Hsl, Hp |- * at 1.
  destruct (preserve_runner_handoff_disconnect c now r0) as [[[]|e] r]; cbn in Hsl, Hp |- *.
  - done.
  - destruct (Hp Hl0) as (Hl & Hd & He & _). assert (session_epoch r < u64_max) as Hb by lia.
    eapply wp_mono; [|intros ? ? H; apply (good_after_quiet r0 r); [done|done|exact H]..].
    apply wp_bind, wp_get, wp_bind, wp_lift_ok_or.
    destruct (find_slot _ _) as [s|] eqn:Hf; [|stay].
    destruct (disconnect_tail_good c s now r Hsl Hl Hb Hf) as (H1 & H2 & H3 & H4).
    apply wp_bind, wp_modify, wp_bind, wp_modify.
    destruct (slot_role s ==? Host), (status r ==? Recovering) eqn:Hrec; cbn [negb]; wp_go.
    all: lazymatch goal with
      | |- good _ _ (clear_disconnected_slot _ _ _) => exact H3
      | |- good _ _ (upd status _ _) => exact H4
      | |- good _ _ (enter_recovery_state _ _) => apply H2
      | |- good _ _ (mark_slot_reconnecting _ _ _ _ _) =>
          apply H1; by apply bool_decide_eq_true in Hrec
      end.
  - apply quiet_good; [done|]. exact Hp.
Qed.

(** A cleared guest slot stays empty while later slots are handled. *)
Definition cleared_ok (r0 r : NetplayRoom) : Prop :=
  session_epoch r = session_epoch r0 ∧ pause_state r = None ∧ released_frame r = None ∧
  has_empty r = true.

Lemma has_empty_clear_slot p r : has_empty r = true → has_empty (clear_disconnected_slot p false r) = true.
Proof.
  unfold clear_disconnected_slot, reset_sync_state, has_empty. rewrite marks_reset. unfold marks. cbn.
  induction (players r) as [|s l IH]; [done|]. cbn [update_first].
  unfold has_index at 1. case_bool_decide; [done|]. rewrite !fmap_cons. cbn [existsb].
  rewrite !orb_true_iff. intros [->|Hl]; [by left|right; auto].
Qed.

Lemma players_handoff_cleared p r :
  marks (update_slot (has_index p) (λ s, s <| slot_runner_handoff_deadline := None |>) r) = marks r ∧
  slot_player_index <$> players (update_slot (has_index p)
    (λ s, s <| slot_runner_handoff_deadline := None |>) r) = slot_player_index <$> players r.
Proof. split; [by apply marks_update_slot|]. cbn. by apply update_first_fmap. Qed.

Lemma expire_handoffs_cleared_good expired r0 r :
  cleared_ok r0 r → good r0 [] (expire_handoffs_loop expired true r).2.
Proof.
  revert r. induction expired as [|[[p role] d] expired IH]; intros r (He & Hp & Hr & Hm).
  { by apply good_waiting. }
  destruct d; cbn [expire_handoffs_loop negb]; cbv zeta.
  - destruct (clear_disconnected_slot_fields p (role ==? Host) r) as (H1 & H2 & H3 & H4 & H5).
    destruct (role ==? Host); cbn [snd].
    + apply good_rest; [by rewrite H4|by rewrite H5|done|done|]. right. split_and!; auto.
    + apply IH. split_and!; [by rewrite H4|done|done|]. by apply has_empty_clear_slot.
  - apply IH. split_and!; [done|done|done|]. unfold has_empty. by rewrite (proj1 (players_handoff_cleared p r)).
Qed.

Lemma expire_handoffs_loop_good expired r0 r :
  lane_ok r0 → quiet r0 r → Forall (λ e, e.1.1 ∈ slot_player_index <$> players r) expired →
  good r0 [] (expire_handoffs_loop expired false r).2.
Proof.
  intros Hl. revert r. induction expired as [|[[p role] d] expired IH]; intros r Hq Hin.
  { by apply quiet_good. }
  apply Forall_cons in Hin as [Hp Hin]. destruct (Hq Hl) as (_ & _ & He & _).
  destruct d; cbn [expire_handoffs_loop negb]; cbv zeta.
  - destruct (clear_disconnected_slot_fields p (role ==? Host) r) as (H1 & H2 & H3 & H4 & H5).
    destruct (role ==? Host); cbn [snd].
    + apply good_rest; [by rewrite H4|by rewrite H5|done|done|]. right. split_and!; auto.
    + apply expire_handoffs_cleared_good. split_and!; [by rewrite H4|done|done|].
      by apply clear_disconnected_slot_empty.
  - apply IH; [by apply quiet_update_slot|]. by rewrite (proj2 (players_handoff_cleared p r)).
Qed.

Lemma expire_handoffs_good now r : lane_ok r → good r [] (expire_runner_handoffs now r).2.
Proof.
  intros Hl. apply expire_handoffs_loop_good; [done|done|].
  apply Forall_fmap, Forall_forall. intros s Hs. cbn. apply list_elem_of_fmap_2.
  rewrite list_elem_of_In, List.filter_In, <-list_elem_of_In in Hs. by destruct Hs.
Qed.

(** A slot with a resume token is not empty. *)
Lemma token_not_empty r s :
  slots_ok r → s ∈ players r → slot_resume_token_hash s ≠ None → slot_is_empty s = false.
Proof.
  intros [_ Hs _] Hin Ht. unfold slot_is_empty. apply bool_decide_eq_false. intros He.
  rewrite Forall_forall in Hs. by destruct (ok_empty s (Hs s Hin) He) as (_ & _ & ?).
Qed.

Lemma has_deadline_intro r s :
  s ∈ players r → slot_reconnect_deadline s ≠ None → has_deadline r = true.
Proof.
  intros Hin Hd. unfold has_deadline, marks. apply existsb_exists. exists (slot_marks s).
  split; [apply list_elem_of_In, list_elem_of_fmap_2, Hin|]. cbn.
  by destruct (slot_reconnect_deadline s).
Qed.

Lemma has_empty_restore r :
  has_empty (restore_checking_compatibility_after_recovery r) = has_empty r.
Proof.
  unfold restore_checking_compatibility_after_recovery, has_empty. rewrite marks_update_slots.
  - cbn. by rewrite <-(marks_reset 0 r).
  - intros s _ [Hs%negb_true_iff _]%andb_true_iff. unfold slot_marks. rewrite Hs. by case_match.
Qed.

Lemma reconnect_good q : good_op (reconnect_player q) (λ _, True).
Proof.
  intros r Hs Hl Hb _. unfold reconnect_player.
  apply wp_bind, wp_get, wp_bind, wp_ensure. split; [intros Hcl|intros; stay].
  apply wp_bind, wp_lift_ok_or. destruct (find_slot _ r) as [s|] eqn:Hf; [|stay].
  apply find_some_iff in Hf as [Hin Hi]. unfold has_index in Hi. apply bool_decide_eq_true in Hi.
  apply wp_bind, wp_ensure. split; [intros Htok%bool_decide_eq_true|intros; stay].
  assert (∀ x, x ∈ players r → has_index (req_player_index q) x = true → slot_is_empty x = false) as Hne.
  { intros x Hx Hix. unfold has_index in Hix. apply bool_decide_eq_true in Hix.
    rewrite (slots_ok_index_unique r x s) by congruence. eapply token_not_empty; [done..|congruence]. }
  apply wp_bind, wp_ensure. split; [intros Hcond%negb_true_iff|intros; stay].
  apply wp_bind, wp_ensure. split; [intros _|intros; stay].
  destruct (is_some_and (slot_reconnect_deadline s) (λ d, d <=? req_now q) ||
            is_some_and (slot_runner_handoff_deadline s) (λ d, d <=? req_now q));
    [|destruct (slot_runner_handoff_deadline s) as [d|]].
  - wp_go. apply quiet_good; [done|]. apply quiet_update_slot; [|done]. intros x Hx Hix.
    unfold slot_marks. rewrite (Hne x) by done. done.
  - apply wp_bind, wp_modify, wp_ret. apply quiet_good; [done|]. apply quiet_update_slot_shrink; [|done]. intros x Hx Hix.
    rewrite (Hne x) by done. done.
  - cbn in Hcond. apply orb_false_iff in Hcond as [_ Hd]. apply wp_bind, wp_modify, wp_modify.
    assert (released_frame r = None) as Hr.
    { apply (lane_deadline r Hl). eapply has_deadline_intro; [exact Hin|]. by intros Hn; rewrite Hn in Hd. }
    match goal with |- good _ _ (restore_checking_compatibility_after_recovery ?x) =>
      destruct (restore_fields x) as (H1 & H2 & H3 & H4); pose proof (has_empty_restore x) as He end.
    split; [apply lane_ok_stopped; [by rewrite H1|done|done]|].
    apply lane_restart; [by rewrite H4|done|done|]. intros [Hem|(Hx & _)].
    + left. rewrite He, has_empty_update_slot; [done|]. intros x Hx Hix. by rewrite (Hne x) by done.
    + by rewrite Hx in Hcl.
Qed.

Lemma recover_stale_good now d g r :
  lane_ok r → session_epoch r < u64_max → good r [] (recover_stale_connections now d g r).2.
Proof.
  intros Hl Hb. unfold recover_stale_connections. case_match; [stay|].
  generalize (slot_player_index <$> List.filter (λ s, is_connected s
        && is_some_and (slot_last_seen_at s) (λ t, d <=? duration_since now t)) (players r)).
  intros l. destruct l as [|p l]; [stay|]. cbn [snd].
  match goal with |- good _ _ (enter_recovery_state (room_epoch ?x) _) => set (r1 := x) end.
  destruct (enter_recovery_fields (room_epoch r1) r1) as (H1 & H2 & H3 & H4).
  assert (session_epoch r1 = session_epoch r) as He.
  { subst r1. generalize (p :: l). intros l'. clear. revert r.
    induction l' as [|p' l' IH]; [done|]. intros r. simpl. by rewrite IH. }
  apply good_session; [done|by rewrite H4, He|by rewrite H1|done|done].
Qed.

Lemma disconnect_input_good c now grace : good_op (disconnect_input_socket c now grace) handoff_safe.
Proof.
  intros r Hs Hl Hb Hh. unfold disconnect_input_socket.
  apply wp_bind, wp_get, wp_bind, wp_lift_ok_or. destruct (find_slot _ _) as [s|]; [|stay].
  apply wp_bind, wp_modify, wp_bind, wp_modify.
  match goal with |- wp _ _ _ ?x => set (r1 := x) end.
  assert (quiet r r1 ∧ slots_ok r1 ∧ handoff_safe r1) as (Hq & Hs1 & Hh1).
  { split_and!; [subst r1; quiet_go|subst r1; slots_go|]. destruct Hh as [Hh|Hh]; [by left|right].
    subst r1. cbn. by apply update_first_Forall. }
  clearbody r1. destruct (Hq Hl) as (Hl1 & _ & He & _).
  destruct (bool_decide _); [|by apply wp_ret, quiet_good].
  apply wp_bind, wp_lift_ok_or. destruct (slot_connection_id s); [|by apply quiet_good].
  apply wp_bind. eapply wp_mono.
  - apply disconnect_good; [done|done| |done]. by rewrite He.
  - intros a r2 H2. apply wp_ret. by eapply good_after_quiet.
  - intros e r2 H2. by eapply good_after_quiet.
Qed.

(** A strict resume renews the session of a room nobody left. *)
Lemma pause_resume_good f t r r1 :
  lane_ok r → quiet r r1 → pause_state r1 ≠ None → slots_ok r1 → session_epoch r < u64_max →
  good r [] (begin_v5_pause_resume f t r1).2.
Proof.
  intros Hl Hq Hp Hs Hb. destruct (Hq Hl) as (Hl1 & _ & He & _).
  destruct (lane_pausing r1 Hl1 Hp) as [[Hu _] _].
  assert (marks (begin_v5_pause_resume f t r1).2 = marks r1) as Hm.
  { trans (marks (set_connected_status Player_Ready Runtime_DeterministicReady r1)); [done|].
    apply marks_update_slots. intros s Hin Hc. unfold slot_marks. rewrite (connected_not_empty r1 s); [done..|].
    unfold is_connected in Hc. by destruct (slot_connection_id s). }
  split.
  - split; unfold unattended, has_empty, has_deadline in *; rewrite ?Hm; try done.
    intros Hx. by rewrite Hu in Hx.
  - apply lane_session; [|done]. cbn. unfold u64_add, saturating_add. lia.
Qed.

Lemma quiet_resume_playing r0 r :
  slots_ok r → quiet r0 r → pause_state r ≠ None → quiet r0 (resume_playing r).
Proof.
  intros Hs Hq Hp. etransitivity; [exact Hq|]. intros Hl.
  destruct (lane_pausing r Hl Hp) as [Ha _]. pose proof (active_not_dormant r Ha) as Hd.
  destruct Ha as [Hu _].
  assert (marks (resume_playing r) = marks r) as Hm.
  { trans (marks (set_connected_status Player_Playing Runtime_Playing r)); [done|].
    apply marks_update_slots. intros s Hin Hc. unfold slot_marks.
    rewrite (connected_not_empty r s); [done..|]. unfold is_connected in Hc.
    by destruct (slot_connection_id s). }
  split_and!; try done. destruct Hl as [_ Hdl _].
  split; unfold unattended, has_empty, has_deadline in *; rewrite ?Hm; try done.
  intros Hx. by rewrite Hu in Hx.
Qed.

(** Runs the checks of a method up to its first mutation. *)
Ltac wp_guards :=
  repeat lazymatch goal with
  | |- wp (modify _ ≫= _) _ _ _ => fail
  | |- wp _ _ _ _ => wp_step; cbv beta; try stay
  end.

Lemma pause_reached_good c sq f t :
  good_op (mark_session_pause_reached_internal c sq f t) (λ _, True).
Proof.
  intros r Hs Hl Hb _. unfold mark_session_pause_reached_internal.
  wp_guards. apply wp_bind, wp_modify.
  match goal with |- wp _ _ _ ?x => set (r1 := x) end.
  assert (quiet r r1 ∧ pause_state r1 ≠ None ∧ slots_ok r1) as (Hq & Hp & Hs1).
  { split_and!; [|done|subst r1; slots_go]. apply quiet_pause; [|done].
    intros _. apply lane_pausing; [done|congruence]. }
  clearbody r1. assert (lane_ok r1 → active r1) as Ha by (intros; by apply lane_pausing).
  wp_go; try (by apply quiet_good).
  - by apply pause_resume_good.
  - by apply quiet_good, quiet_resume_playing.
  - apply quiet_good; [done|]. apply quiet_set_connected_status; [done|slots_go|].
    by apply quiet_status_active.
Qed.

Lemma request_resume_good c id sq t :
  good_op (request_session_resume_internal c id sq t) (λ _, True).
Proof.
  intros r Hs Hl Hb _. unfold request_session_resume_internal.
  wp_guards. apply wp_bind, wp_modify.
  match goal with |- wp _ _ _ ?x => set (r1 := x) end.
  assert (quiet r r1 ∧ pause_state r1 ≠ None ∧ slots_ok r1) as (Hq & Hp & Hs1).
  { split_and!; [|done|subst r1; slots_go]. apply quiet_pause; [|done].
    intros _. apply lane_pausing; [done|congruence]. }
  clearbody r1. wp_go; try (by apply quiet_good).
  - by apply pause_resume_good.
  - by apply quiet_good, quiet_resume_playing.
Qed.

Lemma quiet_close_recovery r0 r : quiet r0 r → quiet r0 (close_state_recovery_room r).
Proof.
  intros Hq. unfold close_state_recovery_room. apply quiet_occupied_status; [done|].
  do 2 quiet_step. by apply quiet_status_idle.
Qed.

Lemma begin_recovery_quiet m now r :
  slots_ok r → idle (status r) = false →
  wp (begin_v5_state_recovery m now) (λ _, quiet r) (λ _, quiet r) r.
Proof.
  intros Hs Hi. unfold begin_v5_state_recovery, reset_authoritative_state_hash_cursor. wp_go; try done.
  - apply quiet_close_recovery. quiet_go.
  - apply quiet_set_connected_status; [done|slots_go|]. do 2 quiet_step.
    apply quiet_status_active; [done|by apply (active_by_status (status r))|]. quiet_go.
Qed.

Lemma enter_resync_fields n r :
  let r' := enter_state_hash_resync n r in
  status r' = CheckingCompatibility ∧ pause_state r' = None ∧ released_frame r' = None ∧
  session_epoch r' = u64_add (session_epoch r) 1.
Proof.
  unfold enter_state_hash_resync, reset_sync_state_to. split_and!; try done.
  cbn. by destruct (uses_strict_controller_input r).
Qed.

Lemma begin_authoritative_good m now r0 r :
  slots_ok r → lane_ok r0 → quiet r0 r → idle (status r) = false → session_epoch r0 < u64_max →
  wp (begin_authoritative_recovery m now) (λ _, good r0 []) (λ _, good r0 []) r.
Proof.
  intros Hs Hl Hq Hi Hb. unfold begin_authoritative_recovery. apply wp_bind, wp_get.
  destruct (uses_strict_controller_input r).
  - apply wp_bind. eapply wp_mono; [by apply begin_recovery_quiet| |].
    + intros a r' Hq'. apply wp_ret, quiet_good; [done|]. by etransitivity.
    + intros e r' Hq'. apply quiet_good; [done|]. by etransitivity.
  - apply wp_bind, wp_modify, wp_ret. destruct (Hq Hl) as (_ & _ & He & _).
    destruct (enter_resync_fields (mismatch_repair_frame m) r) as (H1 & H2 & H3 & H4).
    apply good_session; [done|by rewrite H4, He|by rewrite H1|done|done].
Qed.

Lemma state_hash_good c report now : good_op (accept_state_hash c report now) (λ _, True).
Proof.
  intros r Hs Hl Hb _. unfold accept_state_hash. apply wp_bind, wp_get, wp_bind, wp_ensure.
  split; [intros Hst|intros; stay].
  assert (idle (status r) = false) as Hi.
  { apply bool_decide_eq_true in Hst. rewrite !elem_of_cons, elem_of_nil in Hst.
    by destruct Hst as [->|[->|[->|[]]]]. }
  wp_guards. apply wp_bind, wp_modify.
  match goal with |- wp _ _ _ ?x => set (r1 := x) end.
  assert (quiet r r1 ∧ slots_ok r1 ∧ status r1 = status r) as (Hq & Hs1 & Hst1).
  { split_and!; [subst r1; quiet_go|subst r1; slots_go|done]. }
  clearbody r1. unfold evaluate_hashes, handle_mismatch, prune_state_hashes. wp_go.
  all: try (apply begin_authoritative_good; [slots_go|done| |by cbn; rewrite Hst1|done]).
  all: try (apply quiet_good; [done|]).
  all: etransitivity; [exact Hq|]; quiet_go.
Qed.

Lemma good_renewed tx r0 r :
  session_epoch r0 < u64_max → session_epoch r = session_epoch r0 → pause_state r = None →
  released_frame r = None →
  good r0 [] (set_connected_status Player_Connected Runtime_Connected
    ((bump_session_epoch (r <| state_recovery := tx |>)) <| status := CheckingCompatibility |>)).
Proof. intros Hb He Hp Hr. apply good_session; try done. cbn. by rewrite He. Qed.

Lemma pin_recovery_good c re se pin limits :
  good_op (accept_v5_state_recovery_pin_for_epoch c re se pin limits) (λ _, True).
Proof.
  intros r Hs Hl Hb _. unfold accept_v5_state_recovery_pin_for_epoch. wp_guards. wp_go.
  apply good_renewed; [done|by rewrite session_epoch_reset|done|done].
Qed.

Lemma link_compatibility_quiet c l : quiet_op (set_link_cable_compatibility_for_connection c l).
Proof.
  intros r H. unfold set_link_cable_compatibility_for_connection, reject_link_compatibility.
  wp_go; try quiet_known; bools.
  - apply (quiet_set_player_status c); [done|slots_go|assumption|].
    apply quiet_status_idle; [done|done|done|]. quiet_go.
  - assert (wp (on_link_state (LinkState.set_compatibility p a l))
      (λ _ r', ∃ s, r' = r <| link_cable_state := s |>)
      (λ _ r', ∃ s, r' = r <| link_cable_state := s |>) r) as Hw.
    { unfold wp, on_link_state. destruct (LinkState.set_compatibility p a l _) as [[] s]; eauto. }
    eapply wp_mono; [exact Hw|..]; cbv beta.
    + intros _ r' [s ->]. wp_go; bools.
      * apply (quiet_set_player_status c); [done|slots_go|assumption|]. quiet_go.
      * apply quiet_occupied_status; [done|]. apply quiet_status_idle; [done|done|done|].
        apply (quiet_set_player_status c); [done|slots_go|assumption|]. quiet_go.
      * apply quiet_set_connected_status; [done|slots_go|]. apply quiet_status_active; [done| |].
        2: apply (quiet_set_player_status c); [done|slots_go|assumption|]; quiet_go.
        intros _. split; [|by intros (E & _)]. eapply (all_connected_attended (λ _, true)); [slots_go|].
        match goal with E : connected_players_have_compatibility _ _ _ = true |- _ =>
          unfold connected_players_have_compatibility in E; apply andb_true_iff in E as [E _] end.
        unfold all_connected. apply andb_true_iff. split; [assumption|]. by apply forallb_forall.
    + intros e r' [s ->]. wp_go.
      apply (quiet_set_player_status c); [done|slots_go|assumption|].
      apply quiet_status_idle; [done|done|done|]. quiet_go.
Qed.
End session_ops.

(** ** Releases *)

Lemma released_message_event f r :
  released_frame r = Some f → v5_event (released_message f r) = mkReleaseEvent (session_epoch r) f.
Proof. intros Hr. unfold released_message, current_v5_release. by rewrite Hr. Qed.

(** Releasing the frame due next, from a room equal to [r] up to quiet changes. *)
Lemma good_release r r1 :
  lane_ok r → quiet r r1 → active r → lane_ok r1 → unattended r1 = false →
  status r1 ≠ Recovering →
  good r [mkReleaseEvent (session_epoch r) (next_release_frame r)]
    (release_v5_host_frame (next_release_frame r) r1).
Proof.
  intros Hl Hq Ha [Hu1 Hd1 Hr1] Hu Hst. destruct (Hq Hl) as (_ & _ & He & Hy & Hx & _). split.
  - split.
    + intros Hc. assert (unattended r1 = true) by done. congruence.
    + intros Hc. assert (has_deadline r1 = true) as Hd by done. unfold unattended in Hu.
      rewrite Hd, orb_true_r in Hu. done.
    + done.
  - apply lane_release; [done|done|by apply active_not_dormant|done|done].
Qed.

Lemma enter_v5_playing_quiet r :
  slots_ok r → lane_ok r → status r = StartScheduled →
  quiet r (enter_v5_playing r) ∧ unattended (enter_v5_playing r) = false.
Proof.
  intros Hs Hl Hst. destruct (lane_active r Hl) as [Ha _]; [by rewrite Hst|].
  assert (quiet r (enter_v5_playing r)) as Hq.
  { unfold enter_v5_playing, finish_v5_state_recovery.
    apply quiet_set_connected_status; [done|slots_go|]. quiet_step. by apply quiet_status_active. }
  split; [done|]. destruct (Hq Hl) as (Hl' & _).
  apply (lane_active _ Hl'). done.
Qed.

Lemma host_open_good c open t r :
  slots_ok r → lane_ok r →
  good r (host_open_events (accept_host_frame_open c open t r).1) (accept_host_frame_open c open t r).2.
Proof.
  intros Hs Hl. pose proof (host_open_spec c open t r) as Hspec. unfold wp in Hspec.
  destruct (accept_host_frame_open c open t r) as [[o|e] r']; cbn [fst snd host_open_events].
  2: { subst r'. by apply quiet_good. }
  destruct o as [m|m| |delay]; cbn in Hspec |- *.
  - destruct Hspec as (_ & _ & Hf & _ & [[Hst ->]|(Hst & _ & ->)] & -> & _).
    + destruct (lane_active r Hl) as [Ha Hre]; [by rewrite Hst|]. rewrite Hf.
      rewrite released_message_event by done. apply (good_release r r); try done. by destruct Ha.
    + destruct (lane_active r Hl) as [Ha Hre]; [by rewrite Hst|]. rewrite Hf.
      rewrite released_message_event by done.
      destruct (enter_v5_playing_quiet r Hs Hl Hst) as [Hq Hu].
      change (session_epoch (release_v5_host_frame (next_release_frame r) (enter_v5_playing r)))
        with (session_epoch r).
      apply (good_release r); try done. by destruct (Hq Hl).
  - subst r'. by apply quiet_good.
  - subst r'. by apply quiet_good.
  - destruct Hspec as (_ & _ & _ & _ & _ & _ & _ & ->). apply quiet_good; [done|]. quiet_go.
Qed.

Lemma due_host_frame_good t r :
  slots_ok r → frames_ok r → lane_ok r →
  good r (v5_event <$> option_list (release_due_v5_host_frame t r).1) (release_due_v5_host_frame t r).2.
Proof.
  intros Hs Hf Hl. unfold release_due_v5_host_frame.
  destruct (pending_host_frame_open r) as [f|] eqn:Hp; [|by apply quiet_good].
  destruct (scheduled_start r) as [s|]; [|by apply quiet_good].
  destruct (_ || _) eqn:Hc; [by apply quiet_good|]. apply orb_false_iff in Hc as [Hst _].
  rewrite bool_decide_neq_false in Hst. destruct (fr_pending r Hf f Hp) as (-> & _).
  cbn [fst snd]. change (v5_event <$> option_list (Some ?x)) with [v5_event x].
  rewrite released_message_event by done.
  destruct (lane_active r Hl) as [Ha Hre]; [by rewrite Hst|].
  set (r1 := r <| pending_host_frame_open := None |>).
  assert (quiet r r1) as Hq1 by (subst r1; quiet_go). destruct (Hq1 Hl) as (Hl1 & _).
  assert (slots_ok r1) as Hs1 by (subst r1; slots_go).
  destruct (enter_v5_playing_quiet r1 Hs1 Hl1 Hst) as [Hq Hu].
  change (session_epoch (release_v5_host_frame (next_release_frame r) (enter_v5_playing r1)))
    with (session_epoch r).
  apply (good_release r); try done; [by etransitivity|]. by destruct (Hq Hl1).
Qed.

Lemma tick_base_quiet t r : slots_ok r → quiet r (tick_base t r).
Proof.
  intros Hs. unfold tick_base. destruct (promote_scheduled t r) as [r1|] eqn:Hp; [|done].
  assert (quiet r r1) as Hq.
  { unfold promote_scheduled in Hp. destruct (status r ==? StartScheduled) eqn:Hst; [|by simplify_eq].
    apply bool_decide_eq_true in Hst. repeat case_match; simplify_eq.
    apply quiet_set_connected_status; [done|slots_go|].
    apply quiet_status_active; [done| |done]. intros Hl. apply lane_active; [done|]. by rewrite Hst. }
  destruct (_ !=? _); [done|]. unfold apply_pending_input_delay_if_due.
  destruct (pending_input_delay_change r1); [|done]. destruct (_ <? _); [done|].
  quiet_step. by apply quiet_set_input_delay.
Qed.

Lemma server_tick_good t r :
  slots_ok r → lane_ok r →
  good r ((λ f, mkReleaseEvent (server_session_epoch f) (server_frame f))
            <$> option_list (release_next_server_frame t r).1)
    (release_next_server_frame t r).2.
Proof.
  intros Hs Hl. pose proof (server_tick_spec t r) as Hspec. pose proof (tick_base_quiet t r Hs) as Hq.
  pose proof (tick_base_frames t r) as Hv.
  destruct (release_next_server_frame t r) as [[m|] r']; cbn [fst snd].
  - destruct Hspec as (_ & Hst & Hpl & _ & He & Hf & ->).
    change (?g <$> option_list (Some ?x)) with [g x]. cbv beta. rewrite He, Hf.
    destruct (lane_active r Hl) as [Ha Hre]; [by destruct Hst as [-> | ->]|].
    destruct (Hq Hl) as (Hl1 & _ & Hse & Hsy & Hnx & Hrl).
    destruct (lane_active _ Hl1) as [[Hu1 _] Hre1]; [by rewrite Hpl|].
    revert Hse Hsy Hnx Hl1 Hu1 Hre1. generalize (tick_base t r). clear Hq Hv Hpl.
    intros r1 Hse Hsy Hnx Hl1 Hu1 Hre1. split.
    + split; [|intros Hd|done].
      * intros Hc. assert (unattended r1 = true) by done. congruence.
      * assert (has_deadline r1 = true) as Hd' by done. unfold unattended in Hu1.
        rewrite Hd', orb_true_r in Hu1. done.
    + apply lane_release; [done|done|by apply active_not_dormant|done|]. cbn. by rewrite Hnx.
  - destruct Hspec as [-> | ->]; [by apply quiet_good|by apply quiet_good].
Qed.

(** ** The invariant of executions *)

(** The steps the theorem is about: frame numbers fit their width, counters are not
    saturated, and nobody with an armed runner handoff disconnects once frames flow. *)
Definition orderly (a : Action) (r : NetplayRoom) : Prop :=
  action_wf a ∧ session_epoch r < u64_max ∧ next_release_frame r < u64_max ∧
  match a with Disconnect _ _ _ | DisconnectInput _ _ _ => handoff_safe r | _ => True end.

Lemma good_op_step {E A} (m : M NetplayRoom E A) pre r :
  good_op m pre → slots_ok r → lane_ok r → session_epoch r < u64_max → pre r → good r [] (m r).2.
Proof.
  intros Hm Hs Hl Hb Hp. specialize (Hm r Hs Hl Hb Hp). unfold wp in Hm.
  by destruct (m r) as [[] ?].
Qed.

Lemma quiet_op_step {E A} (m : M NetplayRoom E A) r :
  quiet_op m → slots_ok r → lane_ok r → good r [] (m r).2.
Proof.
  intros Hm Hs Hl. specialize (Hm r Hs). unfold wp in Hm.
  destruct (m r) as [[] ?]; by apply quiet_good.
Qed.

#[export] Hint Resolve
  arm_handoff_quiet cancel_handoff_quiet heartbeat_quiet attach_input_quiet attach_host_quiet
  legacy_input_quiet strict_input_quiet snapshot_complete_quiet file_relay_grant_quiet
  file_relay_uploaded_quiet snapshot_chunk_quiet rom_grants_quiet rom_completion_quiet
  rom_failure_quiet rom_cancelled_quiet refresh_voice_quiet link_packet_quiet
  set_compatibility_quiet mark_ready_quiet clock_sample_quiet deterministic_ready_quiet
  request_pause_quiet good_after_quiet link_compatibility_quiet join_guest_good
  player_exited_good disconnect_good reconnect_good disconnect_input_good pause_reached_good
  request_resume_good state_hash_good pin_recovery_good : relay.

(** Discharges a step whose method is silent by the method's lemma. *)
Ltac lane_method :=
  first [ apply quiet_op_step; [solve [auto with relay nocore]|assumption..]
        | eapply good_op_step; [solve [auto with relay nocore]|assumption..|first [assumption | exact I]] ].

Lemma step_good sha256 a r :
  slots_ok r → frames_ok r → lane_ok r → orderly a r →
  good r (step sha256 a r).1 (step sha256 a r).2.
Proof.
  intros Hs Hf Hl (_ & Hb & _ & Hh). destruct a; cbn [step silent fst snd]; try lane_method.
  - by apply expire_handoffs_good.
  - by apply recover_stale_good.
  - apply quiet_good; [done|]. unfold mark_stale_connections. destruct (negb _); [done|]. cbn [snd]. quiet_go.
  - apply quiet_good; [done|]. unfold request_clock_sync_sample. destruct (clock_sync_request r); [done|].
    cbn [snd]. quiet_go.
  - pose proof (host_open_good c open server_time_ms r Hs Hl).
    by destruct (accept_host_frame_open _ _ _ _).
  - pose proof (due_host_frame_good server_time_ms r Hs Hf Hl).
    by destruct (release_due_v5_host_frame _ _).
  - pose proof (server_tick_good server_time_ms r Hs Hl).
    by destruct (release_next_server_frame _ _).
  - apply quiet_good; [done|]. unfold close_expired_state_recovery. destruct (negb _); [done|].
    by apply quiet_close_recovery.
  - apply quiet_good; [done|]. unfold set_voice_state. quiet_go.
  - apply quiet_good; [done|]. unfold take_voice_room_id_for_cleanup. cbn [snd]. quiet_go.
Qed.

(** Every orderly execution keeps all the invariants. *)
Lemma orderly_execution sha256 log r :
  execution sha256 orderly log r → slots_ok r ∧ frames_ok r ∧ lane_ok r ∧ log_ok log r.
Proof.
  revert log r. apply execution_invariant.
  - intros. split_and!; [apply slots_ok_new|apply frames_ok_new|done|]. split; [by intros e ?%elem_of_nil| |by right].
    intros s. by exists 0.
  - intros a log r Ho (Hs & Hf & Hl & Hlog). pose proof (step_good sha256 a r Hs Hf Hl Ho) as [Hl' Hstep].
    assert (frames_ok (step sha256 a r).2) as Hf' by (apply step_frames; [apply Ho|done]).
    split_and!; [by apply step_slots|done|done|].
    eapply lane_step_log; [exact Hf|exact Hf'|apply Ho|exact Hstep|exact Hlog].
Qed.
