(* ===== verification/Scenario.v ===== *)
(** * A complete session

  A concrete execution of the state machine from the creation of a protocol v5 room to
  released frames, used to evaluate the model and to instantiate the theorems about
  executions. *)

From Stdlib Require Import Strings.Byte.
From S2P Require Import Prelude Ids Wire StrictInput Text Compatibility Descriptor Protocol Invite Slots.
From S2P Require Import PauseState SnapshotTransfer Room StartSync Connection PauseOps InputRelay HostFrame.
From S2P Require Import System SlotInvariant FrameInvariant ReleaseLog.
Open Scope N_scope.

Definition digest : bytes → bytes := Transfer.first_byte_digest.
Definition capabilities : ClientTransportCapabilities :=
  mkClientTransportCapabilities true true true true true.
Definition host : ConnectionId := Sample.conn 1.
Definition guest : ConnectionId := Sample.conn 2.
Definition host_input : ConnectionId := Sample.conn 11.
Definition guest_input : ConnectionId := Sample.conn 12.

Definition connect_actions : list Action :=
  [AttachHost (Sample.license "host") host "resume-host" "input-host" 0 capabilities;
   JoinGuest (Sample.license "guest") guest "resume-guest" "input-guest" 0 capabilities;
   AttachInput PlayerIndex_ONE 2 2 "input-host" host_input 0;
   AttachInput PlayerIndex_TWO 2 2 "input-guest" guest_input 0].

Definition sync_actions : list Action :=
  [SetCompatibility host (Sample.fingerprint 5);
   SetCompatibility guest (Sample.fingerprint 5);
   SnapshotChunkIn host (mkSnapshotChunk "s-1" 0 0 [x01]) SnapshotLimits_default;
   SnapshotCompleteIn host (mkSnapshotManifest "s-1" 0 1
     "0101010101010101010101010101010101010101010101010101010101010101") SnapshotLimits_default;
   MarkReady host None 0; MarkReady guest None 0].

Definition clock_sample (i : N) : ClockSyncSample := mkClockSyncSample "clock-2-2-1" i 1000 0 0.
Definition start_actions : list Action :=
  [RequestClockSample 1000;
   ClockSample host (clock_sample 0) 0 1010; ClockSample host (clock_sample 1) 0 1010;
   ClockSample guest (clock_sample 0) 0 1010; ClockSample guest (clock_sample 1) 0 1010;
   DeterministicReady host None 0 1020; DeterministicReady guest None 0 1020].

Definition play_actions : list Action :=
  [StrictInputIn host_input (mkStrictInputBatch 2 2 PlayerIndex_ONE 0 (repeat (repeat x00 10) 3));
   HostOpen host_input (mkHostFrameOpen 2 2 0) 1030;
   DueHostFrame 10000;
   HostOpen host_input (mkHostFrameOpen 2 2 1) 10016;
   HostOpen host_input (mkHostFrameOpen 2 2 1) 10017;
   HostOpen host_input (mkHostFrameOpen 2 2 2) 10033].

Definition session_actions : list Action :=
  connect_actions ++ sync_actions ++ start_actions ++ play_actions.

(** ** Running orderly executions *)

Definition action_wf_b (a : Action) : bool :=
  match a with
  | StateHashIn _ report _ => report_frame report <=? u64_max
  | LegacyInputIn _ inputs _ => forallb (λ i, cursor_frame i <=? u64_max) inputs
  | _ => true
  end.

Definition handoff_safe_b (r : NetplayRoom) : bool :=
  is_none (released_frame r)
  || forallb (λ s, is_none (slot_connection_id s) || is_none (slot_runner_handoff_deadline s)) (players r).

Definition orderly_b (a : Action) (r : NetplayRoom) : bool :=
  action_wf_b a && (session_epoch r <? u64_max) && (next_release_frame r <? u64_max)
  && match a with Disconnect _ _ _ | DisconnectInput _ _ _ => handoff_safe_b r | _ => true end.

Lemma is_none_true {A} (o : option A) : is_none o = true → o = None.
Proof. by destruct o. Qed.

Lemma orderly_b_sound a r : orderly_b a r = true → orderly a r.
Proof.
  unfold orderly_b. rewrite !andb_true_iff. intros (((Hw & Hs%N.ltb_lt) & Hn%N.ltb_lt) & Hh).
  split_and!; try done.
  - destruct a; cbn in *; try done; [|by apply N.leb_le].
    rewrite forallb_forall in Hw. apply Forall_forall. intros i Hi. apply N.leb_le, Hw. by apply list_elem_of_In.
  - assert (handoff_safe_b r = true → handoff_safe r) as Hsafe.
    { unfold handoff_safe_b. intros [H%is_none_true|H]%orb_true_iff; [by left|right].
      rewrite forallb_forall in H. apply Forall_forall. intros s Hs'%list_elem_of_In.
      destruct (proj1 (orb_true_iff _ _) (H s Hs')); [left|right]; by apply is_none_true. }
    destruct a; auto.
Qed.

Fixpoint orderly_run (sha256 : bytes → bytes) (actions : list Action) (r : NetplayRoom) : bool :=
  match actions with
  | [] => true
  | a :: actions => orderly_b a r && orderly_run sha256 actions (step sha256 a r).2
  end.

Lemma orderly_run_execution sha256 actions log r :
  execution sha256 orderly log r → orderly_run sha256 actions r = true →
  execution sha256 orderly (log ++ (run sha256 actions r).1) (run sha256 actions r).2.
Proof.
  revert log r. induction actions as [|a actions IH]; intros log r He Ho; simpl in *.
  { by rewrite app_nil_r. }
  apply andb_true_iff in Ho as [Ha Ho]. apply orderly_b_sound in Ha.
  specialize (IH _ _ (execution_step _ _ a log r He Ha) Ho).
  destruct (step sha256 a r) as [ev r1]. simpl in IH. destruct (run sha256 actions r1) as [log1 r2].
  cbn in *. by rewrite <-app_assoc in IH.
Qed.

Lemma orderly_run_from_start sha256 actions r :
  execution sha256 orderly [] r → orderly_run sha256 actions r = true →
  execution sha256 orderly (run sha256 actions r).1 (run sha256 actions r).2.
Proof. apply (orderly_run_execution sha256 actions []). Qed.

Lemma sample_room_execution version : execution digest orderly [] (Sample.room version).
Proof. unfold Sample.room. apply execution_new. Qed.

(** The session above is orderly. *)
Lemma session_execution :
  execution digest orderly (run digest session_actions (Sample.room 5)).1
    (run digest session_actions (Sample.room 5)).2.
Proof.
  apply orderly_run_from_start; [apply sample_room_execution|]. vm_compute. reflexivity.
Qed.
