(* ===== verification/Guarantees.v ===== *)
(** * What the room guarantees over whole executions

  The theorems about every execution of the room's state machine, with the invariants of
  the previous files behind them. *)

From Stdlib Require Import Strings.Byte.
From S2P Require Import Prelude Ids Wire StrictInput Text Compatibility Descriptor Protocol Invite Slots.
From S2P Require Import PauseState SnapshotTransfer LinkState RoomTransactions AdaptiveDelay Room.
From S2P Require Import StartSync Connection PauseOps InputRelay HostFrame StateHash SnapshotOps LinkOps.
From S2P Require Import System SlotInvariant FrameInvariant ReleaseLog Scenario.
Open Scope N_scope.

(** The slot of a player, and what an update of it leaves. *)
Lemma find_index_spec p r s :
  slots_ok r → s ∈ players r → slot_player_index s = p → find_slot (has_index p) r = Some s.
Proof.
  intros Hok Hin Hp. destruct (find_slot (has_index p) r) as [s'|] eqn:Hf.
  - apply find_some_iff in Hf as [Hin' Hi]. unfold has_index in Hi. apply bool_decide_eq_true in Hi.
    f_equal. by apply (slots_ok_index_unique r); [..|congruence].
  - eapply List.find_none in Hf; [|by apply list_elem_of_In]. unfold has_index in Hf.
    by rewrite bool_decide_true in Hf.
Qed.

Lemma find_index_update p f r s :
  (∀ x, slot_player_index (f x) = slot_player_index x) → find_slot (has_index p) r = Some s →
  find_slot (has_index p) (update_slot (has_index p) f r) = Some (f s).
Proof.
  intros Hf. unfold find_slot. cbn. induction (players r) as [|x l IH]; [done|].
  cbn [List.find update_first]. destruct (has_index p x) eqn:E; cbn [List.find].
  - intros [= ->]. unfold has_index in *. by rewrite Hf, E.
  - rewrite E. exact IH.
Qed.

(** The slot of [p] is bound to connection [c] under a resume token, without input socket. *)
Definition reattached (p : PlayerIndex) (c : ConnectionId) (token : string) (r : NetplayRoom) : Prop :=
  ∃ s, find_slot (has_index p) r = Some s ∧ slot_connection_id s = Some c ∧
       slot_input_connection_id s = None ∧ slot_resume_token_hash s = Some token.

Lemma reattached_slot q r s :
  find_slot (has_index (req_player_index q)) r = Some s →
  reattached (req_player_index q) (req_connection_id q) (req_next_resume_token_hash q)
    (update_slot (has_index (req_player_index q)) (reconnect_slot q) r).
Proof. intros Hf. eexists. split; [by apply find_index_update|done]. Qed.

Lemma find_index_map p g r r' :
  players r' = g <$> players r → (∀ x, slot_player_index (g x) = slot_player_index x) →
  find_slot (has_index p) r' = g <$> find_slot (has_index p) r.
Proof.
  intros Hp Hg. unfold find_slot. rewrite Hp. clear Hp. induction (players r) as [|x l IH]; [done|].
  cbn. unfold has_index in *. rewrite Hg. destruct (_ ==? _); [done|exact IH].
Qed.

Lemma reattached_map p c token g r r' :
  players r' = g <$> players r →
  (∀ x, slot_player_index (g x) = slot_player_index x ∧ slot_connection_id (g x) = slot_connection_id x ∧
        slot_input_connection_id (g x) = slot_input_connection_id x ∧
        slot_resume_token_hash (g x) = slot_resume_token_hash x) →
  reattached p c token r → reattached p c token r'.
Proof.
  intros Hp Hg (s & Hs & H1 & H2 & H3). exists (g s).
  rewrite (find_index_map p g r r' Hp) by apply Hg. rewrite Hs.
  destruct (Hg s) as (_ & -> & -> & ->). done.
Qed.

Lemma reattached_restore p c token r :
  reattached p c token r → reattached p c token (restore_checking_compatibility_after_recovery r).
Proof.
  intros H. unfold restore_checking_compatibility_after_recovery.
  eapply reattached_map; [reflexivity|intros x; cbv beta zeta|].
  { destruct (negb (slot_is_empty x) && is_connected x); [|done]. by destruct (is_none _). }
  unfold reset_sync_state, reset_sync_state_to. destruct (uses_strict_controller_input r).
  - eapply (reattached_map _ _ _ clear_samples r); [reflexivity|done|done].
  - done.
Qed.

(** What a successful reconnect checked, and the slot it leaves. *)
Lemma reconnect_player_wp q r :
  wp (reconnect_player q) (λ _ r',
  (∃ s, find_slot (has_index (req_player_index q)) r = Some s ∧
   slot_resume_token_hash s = Some (req_resume_token_hash q) ∧
   negb (is_some (slot_runner_handoff_deadline s))
     && (is_connected s || is_none (slot_reconnect_deadline s)) = false ∧
   (req_room_epoch q !=? unwrap_or (slot_reconnect_room_epoch s) (room_epoch r))
     && (req_room_epoch q !=? room_epoch r) = false ∧
   is_some_and (slot_reconnect_deadline s) (λ d, d <=? req_now q)
     || is_some_and (slot_runner_handoff_deadline s) (λ d, d <=? req_now q) = false) ∧
  status r' ≠ Closed ∧ reattached (req_player_index q) (req_connection_id q)
     (req_next_resume_token_hash q) r') (λ _ _, True) r.
Proof.
  unfold reconnect_player. wp_go; try done.
  all: repeat match goal with
    | E : negb (_ && _) = true |- _ => apply negb_true_iff in E
    | E : (_ !=? Closed) = true |- _ => rewrite negb_true_iff, bool_decide_eq_false in E
    | E : (_ ==? _) = true |- _ => apply bool_decide_eq_true in E
    end.
  all: split; [eexists; split_and!; try done; by rewrite Heqb0|].
  - split; [by destruct (restore_fields (update_slot (has_index (req_player_index q))
      (reconnect_slot q) r)) as (-> & _)|]. apply reattached_restore. by eapply reattached_slot.
  - split; [done|]. by eapply reattached_slot.
Qed.

Module Room.

(** C1: frames are released exactly once and in order. In any orderly execution of a room,
    through joins, disconnects, reconnects, pauses, repairs and resyncs, the frames released
    under one session epoch are consecutive: no frame is skipped, repeated or reordered; and
    while the room is not dormant, the frames of the current session are exactly those from
    its start frame up to its release cursor. *)
Theorem frames_released_exactly_once sha256 log r s :
  execution sha256 orderly log r →
  (∃ start, frames_of s log = frames_from start (length (frames_of s log))) ∧
  (dormant r ∨ frames_of (session_epoch r) log
     = frames_from (sync_start_frame r) (N.to_nat (next_release_frame r - sync_start_frame r))).
Proof.
  intros H. destruct (orderly_execution sha256 log r H) as (_ & _ & _ & [_ Hc Hcur]). by split.
Qed.

Lemma frames_released_exactly_once_witness :
  frames_of 2 (run digest session_actions (Sample.room 5)).1 = frames_from 0 3.
Proof.
  destruct (frames_released_exactly_once digest _ _ 2 session_execution) as [[start H] Hcur].
  destruct Hcur as [Hd|Hcur]; [exfalso|].
  - destruct Hd as [Hd|(Hd & _)]; revert Hd; vm_compute; discriminate.
  - revert Hcur. vm_compute. intros Hcur. exact Hcur.
Defined.

(** C5: slot ownership. In every reachable room the host owns slot one and the guest slot
    two; an empty slot is the guest's and has neither connection nor resume token; an input
    socket never outlives its control connection; an unused input-socket token belongs to the
    control connection the slot has now; and only a slot without a control connection can be
    waiting for a reconnect. *)
Theorem slot_ownership sha256 allowed log r :
  execution sha256 allowed log r → slots_ok r.
Proof.
  revert log r. apply (execution_invariant sha256 allowed (λ _, slots_ok)).
  - intros. apply slots_ok_new.
  - intros a log r _ H. by apply step_slots.
Qed.

Lemma slot_ownership_witness :
  slot_key <$> players (run digest session_actions (Sample.room 5)).2
  = [(PlayerIndex_ONE, Host); (PlayerIndex_TWO, Guest)].
Proof. apply (slot_ownership digest orderly _ _ session_execution). Defined.

(** C6: frame bookkeeping. In every reachable room each player's expected frame is the
    successor of its last accepted one, which lies in the session; the release cursor is the
    successor of the released frame, or the session's start frame before any release; a host
    open kept for a scheduled start is for the frame due next; a scheduled start carries the
    current epochs and start frame; and every counter stays within 64 bits. *)
Theorem frame_bookkeeping sha256 log r :
  execution sha256 (λ a _, action_wf a) log r → frames_ok r.
Proof.
  revert log r. apply (execution_invariant sha256 _ (λ _, frames_ok)).
  - intros. apply frames_ok_new.
  - intros a log r Hw H. by apply step_frames.
Qed.

Lemma frame_bookkeeping_witness : frames_ok (run digest session_actions (Sample.room 5)).2.
Proof.
  apply (frame_bookkeeping digest (run digest session_actions (Sample.room 5)).1).
  exact (execution_weaken digest orderly _ _ _ (λ a r H, proj1 H) session_execution).
Defined.

End Room.

Module Connections.

(** C33: input-socket grants are exact and single-use. In any reachable room, attaching an
    input socket for a player succeeds exactly when the room is open, both epochs are current
    and the token is the one the player's slot holds: the checks that the slot's control
    connection is the one the token was issued to, and that no input socket is attached, never
    fail on top of that. A token that was used is spent: no attachment for that player succeeds
    in the resulting room. *)
Theorem input_grant_is_exact sha256 allowed log r p re se token c now :
  execution sha256 allowed log r →
  ((attach_input_socket p re se token c now r).1 = Ok tt ↔
     status r ≠ Closed ∧ re = room_epoch r ∧ se = session_epoch r ∧
     ∃ s, s ∈ players r ∧ slot_player_index s = p ∧ slot_input_socket_token_hash s = Some token) ∧
  (∀ r', attach_input_socket p re se token c now r = (Ok tt, r') →
     ∀ re' se' token' c' now', (attach_input_socket p re' se' token' c' now' r').1 ≠ Ok tt).
Proof.
  intros Hex. assert (slots_ok r) as Hok.
  { revert log r Hex. apply (execution_invariant sha256 allowed (λ _, slots_ok)).
    - intros. apply slots_ok_new.
    - intros a log r _ H. by apply step_slots. }
  assert (wp (attach_input_socket p re se token c now) (λ _ r',
    (status r ≠ Closed ∧ re = room_epoch r ∧ se = session_epoch r ∧
     ∃ s, s ∈ players r ∧ slot_player_index s = p ∧ slot_input_socket_token_hash s = Some token) ∧
    ∃ s', find_slot (has_index p) r' = Some s' ∧ slot_input_socket_token_hash s' = None)
    (λ _ _, True) r) as Hw.
  { unfold attach_input_socket. wp_go; try done.
    repeat match goal with
    | E : (_ =? _) = true |- _ => apply N.eqb_eq in E
    | E : (_ !=? Closed) = true |- _ => rewrite negb_true_iff, bool_decide_eq_false in E
    | E : (_ ==? _) = true |- _ => apply bool_decide_eq_true in E
    end.
    match goal with E : find_slot _ r = Some ?s |- _ =>
      pose proof (find_some_iff _ _ _ E) as [Hin Hi]; unfold has_index in Hi; apply bool_decide_eq_true in Hi;
      split; [split_and!; try done; by exists s|]; eexists; split; [by apply find_index_update|done] end. }
  split; [split|].
  - intros H. destruct (attach_input_socket p re se token c now r) as [[[]|] r'] eqn:E; [|done].
    by destruct (wp_ok _ _ _ _ _ _ Hw E) as [? _].
  - intros (Hc & -> & -> & s & Hin & Hp & Ht).
    pose proof (find_index_spec p r s Hok Hin Hp) as Hf.
    pose proof (ok_slots r Hok) as Hall. rewrite Forall_forall in Hall.
    destruct (ok_token s (Hall s Hin)) as (H1 & H2 & H3); [congruence|].
    unfold attach_input_socket. cbv [mbind M_bind get mret M_ret ensure modify lift_result].
    rewrite (bool_decide_false _ Hc), !N.eqb_refl, Hf. cbn [negb ok_or]. rewrite Ht, bool_decide_true by done.
    destruct (slot_connection_id s) as [control|]; [|done]. cbn [ok_or].
    by rewrite H1, H3, bool_decide_true.
  - intros r' E re' se' token' c' now'. destruct (wp_ok _ _ _ _ _ _ Hw E) as (_ & s' & Hs' & Hn).
    unfold attach_input_socket. cbv [mbind M_bind get mret M_ret ensure modify lift_result].
    repeat case_match; simplify_eq/=; try done. rewrite Hs' in *. simplify_eq/=.
    rewrite Hn in *. done.
Qed.

Lemma input_grant_is_exact_witness :
  (attach_input_socket PlayerIndex_ONE 1 1 "input-host" host_input 0 (Sample.room 5)).1 = Ok tt.
Proof.
  apply (input_grant_is_exact digest orderly [] (Sample.room 5)); [apply sample_room_execution|].
  split_and!; [discriminate|reflexivity|reflexivity|].
  exists (PlayerSlot_host (Sample.license "host") host "resume-host" "input-host" 0).
  split_and!; [apply list_elem_of_here|reflexivity|reflexivity].
Defined.

(** Resume tokens rotate. A reconnect that succeeds presented the resume token of the
    slot it claims, at an epoch the slot accepts, before the slot's deadline: the slot was disconnected and waiting, or armed for a runner handoff. The slot is
    then bound to the new connection, without an input socket, under the next token only: a
    further claim of that slot with any other token, the old one included, is rejected. *)
Theorem reconnect_rotates_token r q r' :
  reconnect_player q r = (Ok tt, r') →
  (∃ s, s ∈ players r ∧ slot_player_index s = req_player_index q ∧
     slot_resume_token_hash s = Some (req_resume_token_hash q) ∧
     (req_room_epoch q = room_epoch r ∨ slot_reconnect_room_epoch s = Some (req_room_epoch q)) ∧
     ((∃ d, slot_runner_handoff_deadline s = Some d ∧ req_now q < d) ∨
      slot_connection_id s = None ∧ ∃ d, slot_reconnect_deadline s = Some d ∧ req_now q < d)) ∧
  (∃ s', find_slot (has_index (req_player_index q)) r' = Some s' ∧
     slot_connection_id s' = Some (req_connection_id q) ∧ slot_input_connection_id s' = None ∧
     slot_resume_token_hash s' = Some (req_next_resume_token_hash q)) ∧
  (∀ q', req_player_index q' = req_player_index q →
     req_resume_token_hash q' ≠ req_next_resume_token_hash q →
     (reconnect_player q' r').1 = Err ResumeTokenInvalid).
Proof.
  intros H.
  pose proof (reconnect_player_wp q r) as Hw.
  destruct (wp_ok _ _ _ _ _ _ Hw H) as ((s & Hf & Ht & Hc & He & Hd) & Hst & Hre). clear Hw H.
  apply find_some_iff in Hf as [Hin Hi]. unfold has_index in Hi. apply bool_decide_eq_true in Hi.
  split_and!.
  - exists s. split_and!; try done.
    + apply andb_false_iff in He as [He|He]; rewrite bool_decide_neq_false in He; [|by left].
      destruct (slot_reconnect_room_epoch s); cbn in He; [right; by rewrite He|by left].
    + apply orb_false_iff in Hd as [Hd1 Hd2]. destruct (slot_runner_handoff_deadline s) as [d|].
      * left. exists d. split; [done|]. by apply N.leb_gt.
      * right. cbn in Hc. apply orb_false_iff in Hc as [Hc1 Hc2]. unfold is_connected in Hc1.
        destruct (slot_connection_id s); [done|]. split; [done|].
        destruct (slot_reconnect_deadline s) as [d|]; [|done]. exists d. split; [done|]. by apply N.leb_gt.
  - destruct Hre as (s' & ? & ? & ? & ?). by exists s'.
  - intros q' Hp Hne. destruct Hre as (s' & Hs' & _ & _ & Htok). unfold reconnect_player.
    cbv [mbind M_bind get mret M_ret ensure lift_result]. rewrite Hp, Hs', (bool_decide_false _ Hst).
    cbn [negb ok_or]. rewrite Htok, bool_decide_false; [done|]. congruence.
Qed.

(** Player two lost its connection and waits until time 50. *)
Definition sample_dropped : NetplayRoom :=
  (run digest (connect_actions ++ sync_actions ++ start_actions ++ [Disconnect guest 20 30])
     (Sample.room 5)).2.
Definition sample_reclaim : PlayerReconnectRequest :=
  mkPlayerReconnectRequest PlayerIndex_TWO "resume-guest" "resume-2" "input-2" 2 (Sample.conn 22) 40
    capabilities.

Lemma reconnect_rotates_token_witness :
  (reconnect_player sample_reclaim (reconnect_player sample_reclaim sample_dropped).2).1
  = Err ResumeTokenInvalid.
Proof.
  destruct (reconnect_rotates_token sample_dropped sample_reclaim
    (reconnect_player sample_reclaim sample_dropped).2) as (_ & _ & H).
  - vm_compute. reflexivity.
  - apply H; [reflexivity|discriminate].
Defined.

End Connections.

(** ** Where the room departs from its contract

  Concrete executions, from room creation, in which the code does not do what its comments
  and its other checks say it should. *)

Definition prefix : list Action := connect_actions ++ sync_actions.

(** The guest arms a runner handoff while ready, the session starts, and then its control
    connection drops before the handoff deadline. *)
Definition handoff_actions : list Action :=
  prefix ++ [ArmHandoff guest 0 1000000] ++ start_actions ++ play_actions ++
  [Disconnect guest 50 30;
   StrictInputIn host_input (mkStrictInputBatch 2 2 PlayerIndex_ONE 0 (repeat (repeat x00 10) 3));
   HostOpen host_input (mkHostFrameOpen 2 2 0) 20000].

Definition hash (n : N) : string := if n =? 0 then Sample.sha else Recovery.other_sha.
(** Frame 600 disagrees, the room freezes for repair, and a player repeats one of the clock
    samples of the start handshake. *)
Definition repair_actions : list Action :=
  prefix ++ start_actions ++ play_actions ++
  [StateHashIn host (mkStateHashReport 600 (hash 0)) 20; StateHashIn guest (mkStateHashReport 600 (hash 1)) 20].
Definition escape_actions : list Action := repair_actions ++ [ClockSample host (clock_sample 0) 20 1010].

(** A player repeats its fingerprint while playing, and both repeat the start handshake. *)
Definition resend_actions : list Action :=
  prefix ++ start_actions ++ play_actions ++
  [SetCompatibility host (Sample.fingerprint 5); MarkReady host None 60; MarkReady guest None 60;
   DeterministicReady host None 60 20000; DeterministicReady guest None 60 20000;
   HostOpen host_input (mkHostFrameOpen 2 2 3) 20000].

Module Traces.

(** An armed handoff can replay frames. A player who armed a runner handoff before the
    session started and then loses its connection while the room plays has its loss treated as
    a handoff: the sync state is reset, but the room keeps playing under the same epochs, and
    the host can open frame 0 of the session a second time. This is the case the exactly-once
    theorem excludes. *)
Theorem handoff_disconnect_replays_frames :
  let '(log, r) := run digest handoff_actions (Sample.room 5) in
  frames_of 2 log = [0; 1; 2; 0] ∧ status r = Playing ∧ session_epoch r = 2.
Proof. vm_compute. split_and!; reflexivity. Qed.

(** A clock sample ends a repair early. While a room is frozen for repair, a repeated
    clock sample of the start handshake, which is accepted in any status, schedules a start at
    the old start frame: the room leaves [RepairingState] with the repair still preparing, the
    host's pin for it is then rejected, and the pin timeout closes the room. *)
Theorem clock_sample_abandons_repair :
  let before := (run digest repair_actions (Sample.room 5)).2 in
  let after := (run digest escape_actions (Sample.room 5)).2 in
  status before = RepairingState ∧ status after = StartScheduled ∧
  is_preparing <$> state_recovery after = Some true ∧
  (accept_v5_state_recovery_pin_for_epoch host 2 2 Recovery.sample_pin SnapshotLimits_default after).1
  = Err RoomNotReady ∧
  is_ok (accept_v5_state_recovery_pin_for_epoch host 2 2 Recovery.sample_pin
           SnapshotLimits_default before).1 = true ∧
  status (close_expired_state_recovery (20 + from_secs 10) after).2 = Closed.
Proof. vm_compute. split_and!; reflexivity. Qed.

(** Repeating a fingerprint stalls a running session. A fingerprint sent again while the
    room plays moves it back to [SyncingState], with the old start still scheduled; after both
    players repeat the start handshake the old start is reported again without the room
    leaving [Ready], and the host's open of the frame due next is ignored. *)
Theorem repeated_fingerprint_stalls_session :
  let r := (run digest resend_actions (Sample.room 5)).2 in
  status r = Ready ∧ is_some (scheduled_start r) = true ∧ ready_players r = {[PlayerIndex_ONE; PlayerIndex_TWO]} ∧
  accept_host_frame_open host_input (mkHostFrameOpen 2 2 3) 20000 r = (Ok IgnoredTransitionBoundary, r).
Proof. vm_compute. split_and!; reflexivity. Qed.

End Traces.
