(* ===== verification/RoomEvents.v ===== *)
(** * Room views, events and diagnostics

  Models [src/src/rooms/room_view.rs] with [NetplayRoom::view_for_event],
  [src/src/rooms/room_event.rs], the bounded log of
  [src/src/rooms/room_debug_event.rs] and the texts of
  [src/src/rooms/room_connection_diagnostics.rs]. Wall-clock time stamps are arguments. *)

From Stdlib Require Import Strings.Byte.
From S2P Require Import Prelude Ids Wire StrictInput Text Compatibility Descriptor Protocol Invite Slots.
From S2P Require Import LegacyCodec PauseState SnapshotTransfer LinkState RoomTransactions Room.
From S2P Require Import StartSync PauseOps HostFrame.
Open Scope N_scope.

(** ** room_view.rs *)

(** [NetplayProtocolView] of netplay_protocol.rs. *)
Record NetplayProtocolView := mkNetplayProtocolView {
  npv_protocol_version : N;
  npv_min_supported_protocol_version : N;
  npv_max_supported_protocol_version : N;
  npv_room_protocol_version : N }.

(** [NetplayProtocolView::for_room]. *)
Definition for_room (version : N) : NetplayProtocolView :=
  mkNetplayProtocolView version MIN_SUPPORTED_NETPLAY_PROTOCOL_VERSION NETPLAY_PROTOCOL_VERSION version.

Record PlayerSlotView := mkPlayerSlotView {
  psv_player_index : N;
  psv_display_number : N;
  psv_role : PlayerRole;
  psv_status : PlayerStatus;
  psv_runtime_state : PlayerRuntimeState;
  psv_occupied : bool;
  psv_control_connected : bool;
  psv_input_connected : bool;
  psv_supports_state_file_relay : bool;
  psv_supports_rom_file_relay : bool;
  psv_supports_scheduled_start : bool;
  psv_supports_clock_sync : bool;
  psv_supports_fast_input_relay : bool;
  psv_last_seen_age_ms : option N;
  psv_reconnect_grace_remaining_ms : option N }.

Record RoomView := mkRoomView {
  rv_room_id : RoomId;
  rv_event_seq : N;
  rv_room_epoch : N;
  rv_session_epoch : N;
  rv_invite_code : list N;
  rv_protocol : NetplayProtocolView;
  rv_session : NetplaySessionDescriptor;
  rv_voice : option RoomVoiceView;
  rv_rom_relay : option RomRelayCapability;
  rv_max_players : N;
  rv_pause : option SessionPauseView;
  rv_state_recovery : option StateRecoveryView;
  rv_frame_clock : RoomFrameClockView;
  rv_status : RoomStatus;
  rv_players : list PlayerSlotView }.

(** The closure over the slots in [view_for_event]. *)
Definition slot_view (now : Instant) (s : PlayerSlot) : PlayerSlotView :=
  mkPlayerSlotView (zero_based (slot_player_index s)) (display_number (slot_player_index s))
    (slot_role s) (slot_status s) (slot_runtime_state s) (negb (slot_is_empty s))
    (is_some (slot_connection_id s)) (is_some (slot_input_connection_id s))
    (slot_supports_state_file_relay s) (slot_supports_rom_file_relay s)
    (slot_supports_scheduled_start s) (slot_supports_clock_sync s) (slot_supports_fast_input_relay s)
    ((λ last_seen, as_millis (duration_since now last_seen)) <$> slot_last_seen_at s)
    ((λ deadline, as_millis (duration_since deadline now)) <$> slot_reconnect_deadline s).

Definition view_for_event (event_seq : N) (now : Instant) (r : NetplayRoom) : RoomView :=
  mkRoomView (room_id r) event_seq (room_epoch r) (session_epoch r) (display (invite_code r))
    (for_room (protocol_version r)) (session r) (voice_view <$> room_voice r) (rom_relay (session r))
    (max_players r) (tracker_view (current_pause_state r) <$> pause_state r)
    (tx_view <$> state_recovery r) (frame_clock_view r) (status r) (slot_view now <$> players r).

(** ** room_event.rs *)

Inductive RoomEvent :=
| RoomStateChanged (room : RoomView)
| SessionStarted (start_frame : N) (start : option ScheduledSessionStart) (room : RoomView)
| ClockSyncSampleRequested (request : ClockSyncSampleRequest) (room_epoch session_epoch : N)
| SessionPauseScheduled (pause : SessionPauseView) (room : RoomView)
| SessionPauseUpdated (pause : SessionPauseView) (room : RoomView)
| SessionResumeScheduled (sequence resume_at_frame : N) (start : option ScheduledSessionStart)
    (room : RoomView)
| EventInputFrame (source : ConnectionId) (input : InputFrame)
| EventLinkCablePacket (source : ConnectionId) (packet : LinkCablePacket)
| EventSnapshotChunk (source : ConnectionId) (room_epoch session_epoch : N) (chunk : SnapshotChunk)
| EventSnapshotComplete (source : ConnectionId) (room_epoch session_epoch : N)
    (manifest : SnapshotManifest)
| SnapshotFileRelayUploadGranted (source : ConnectionId) (room_epoch session_epoch : N)
    (grant : SnapshotFileRelayGrant)
| SnapshotFileRelayDownloadReady (receiver : ConnectionId) (room_epoch session_epoch : N)
    (grant : SnapshotFileRelayGrant)
| RomRelayUploadGranted (source : ConnectionId) (room_epoch session_epoch : N) (grant : RomRelayGrant)
| RomRelayDownloadGranted (receiver : ConnectionId) (room_epoch session_epoch : N)
    (grant : RomRelayGrant)
| EventRomRelayProgress (source : ConnectionId) (room_epoch session_epoch : N)
    (progress : RomRelayProgress)
| EventRomRelayCompleted (source : ConnectionId) (room_epoch session_epoch : N)
    (completion : RomRelayCompletion)
| EventRomRelayFailed (source : ConnectionId) (room_epoch session_epoch : N)
    (failure : RomRelayFailure)
| EventRomRelayCancelled (source : ConnectionId) (room_epoch session_epoch : N)
    (cancelled : RomRelayCancelled)
| EventPlayerExited (player_index : N) (reason : string) (room : RoomView)
| StateHashMismatch (mismatch : StateHashMismatchView) (room : RoomView)
| StateRecoveryPrepare (recovery : StateRecoveryView) (room : RoomView)
| StateRecoveryCommitted (recovery : StateRecoveryView) (room : RoomView)
| StateRecoveryFailed (recovery : StateRecoveryView) (reason : string) (room : RoomView)
| InputDelayChanged (change : InputDelayChange) (room : RoomView).

Inductive RoomInputEvent :=
| InputEventBatch (source : ConnectionId) (batch : InputFrameBatch)
| InputEventFast (source : ConnectionId) (frame : FastInputFrame)
| InputEventStrict (source : ConnectionId) (batch : StrictInputBatch)
| InputEventServerFrame (frame : ServerFrame)
| InputEventServerFrameV5 (release : ServerFrameReleaseV5).

(** ** room_debug_event.rs *)

Definition DEFAULT_ROOM_EVENT_CAPACITY : nat := 200.

Record RoomDebugEvent := mkRoomDebugEvent {
  debug_timestamp_ms : N;
  debug_room_id : RoomId;
  debug_invite_code : list N;
  debug_event_seq : N;
  debug_room_epoch : N;
  debug_session_epoch : N;
  debug_protocol_version : N;
  debug_kind : string;
  debug_detail : string }.

Record RoomDebugEventLog := mkRoomDebugEventLog {
  log_capacity : nat;
  log_events : list RoomDebugEvent }.

Definition RoomDebugEventLog_new (capacity : nat) : RoomDebugEventLog := mkRoomDebugEventLog capacity [].
Definition RoomDebugEventLog_default : RoomDebugEventLog :=
  RoomDebugEventLog_new DEFAULT_ROOM_EVENT_CAPACITY.

(** [RoomDebugEventLog::push]. *)
Definition log_push (event : RoomDebugEvent) (log : RoomDebugEventLog) : RoomDebugEventLog :=
  let events := if (log_capacity log <=? length (log_events log))%nat
                then tail (log_events log) else log_events log in
  mkRoomDebugEventLog (log_capacity log) (events ++ [event]).

(** [RoomDebugEventLog::tail]. *)
Definition log_tail (limit : nat) (log : RoomDebugEventLog) : list RoomDebugEvent :=
  drop (length (log_events log) - limit) (log_events log).

(** ** room_connection_diagnostics.rs *)

Definition role_label (r : PlayerRole) : string := match r with Host => "host" | Guest => "guest" end.

Definition room_status_label (s : RoomStatus) : string :=
  match s with
  | WaitingForGuest => "waitingForGuest"
  | CheckingCompatibility => "checkingCompatibility"
  | SyncingState => "syncingState"
  | Ready => "ready"
  | StartScheduled => "startScheduled"
  | Playing => "playing"
  | Paused => "paused"
  | RepairingState => "repairingState"
  | Recovering => "recovering"
  | Closed => "closed"
  end.

Definition player_status_label (s : PlayerStatus) : string :=
  match s with
  | Player_Empty => "empty"
  | Player_Connected => "connected"
  | Player_CheckingCompatibility => "checkingCompatibility"
  | Player_CompatibilityFailed => "compatibilityFailed"
  | Player_SyncingState => "syncingState"
  | Player_Ready => "ready"
  | Player_Playing => "playing"
  | Player_Paused => "paused"
  | Player_Reconnecting => "reconnecting"
  | Player_RecoveryExpired => "recoveryExpired"
  | Player_Disconnected => "disconnected"
  end.

Definition runtime_state_label (s : PlayerRuntimeState) : string :=
  match s with
  | Runtime_Empty => "empty"
  | Runtime_Connected => "connected"
  | Runtime_CheckingCompatibility => "checkingCompatibility"
  | Runtime_Syncing => "syncing"
  | Runtime_Ready => "ready"
  | Runtime_DeterministicReady => "deterministicReady"
  | Runtime_Playing => "playing"
  | Runtime_Pausing => "pausing"
  | Runtime_Paused => "paused"
  | Runtime_Reconnecting => "reconnecting"
  | Runtime_Stale => "stale"
  | Runtime_Disconnected => "disconnected"
  | Runtime_RecoveryExpired => "recoveryExpired"
  end.

(** [str::split_once(':')], the part before the separator. *)
Definition before_colon (s : string) : option string :=
  match String.index 0 ":" s with
  | Some i => Some (String.substring 0 i s)
  | None => None
  end.

Definition client_kind_label (subject_key : option string) : string :=
  match subject_key ≫= before_colon with
  | Some prefix => if prefix ==? "android"%string then "android"
                   else if prefix ==? "desktop"%string then "desktop" else "unknown"
  | None => "unknown"
  end.

(** [str::split_whitespace], on characters: maximal runs of other characters. *)
Fixpoint split_whitespace (word l : list N) : list (list N) :=
  match l with
  | [] => if (length word =? 0)%nat then [] else [word]
  | c :: l' =>
      if is_whitespace c then
        (if (length word =? 0)%nat then [] else [word]) ++ split_whitespace [] l'
      else split_whitespace (word ++ [c]) l'
  end.

(** The compacted characters of a reason, at most 160 of them. *)
Definition sanitize_reason (reason : string) : string :=
  let replaced := (λ c, if (c =? 10) || (c =? 13) || (c =? 9) then 32 else c) <$> chars reason in
  let compact := join_spaces (split_whitespace [] replaced) in
  if (length compact =? 0)%nat then "unspecified"
  else string_of_bytes (concat (encode_utf8 <$> take 160 compact)).

Definition describe_slot (socket : string) (s : PlayerSlot) (reason : string) (r : NetplayRoom)
    : string :=
  (socket ++ " socket closed for p" ++ decimal (display_number (slot_player_index s))
   ++ " role=" ++ role_label (slot_role s) ++ " client=" ++ client_kind_label (slot_subject_key s)
   ++ " roomStatus=" ++ room_status_label (status r)
   ++ " playerStatus=" ++ player_status_label (slot_status s)
   ++ " runtime=" ++ runtime_state_label (slot_runtime_state s)
   ++ " roomEpoch=" ++ decimal (room_epoch r) ++ " sessionEpoch=" ++ decimal (session_epoch r)
   ++ " reason=" ++ sanitize_reason reason)%string.

Definition describe_unknown_connection (socket reason : string) (r : NetplayRoom) : string :=
  (socket ++ " socket closed for unknown connection roomStatus=" ++ room_status_label (status r)
   ++ " roomEpoch=" ++ decimal (room_epoch r) ++ " sessionEpoch=" ++ decimal (session_epoch r)
   ++ " reason=" ++ sanitize_reason reason)%string.

Definition describe_control_connection (c : ConnectionId) (reason : string) (r : NetplayRoom) : string :=
  match find_slot (has_connection c) r with
  | Some s => describe_slot "control" s reason r
  | None => describe_unknown_connection "control" reason r
  end.

Definition describe_input_connection (c : ConnectionId) (reason : string) (r : NetplayRoom) : string :=
  match find_slot (has_input_connection c) r with
  | Some s => describe_slot "input" s reason r
  | None => describe_unknown_connection "input" reason r
  end.
