(* ===== verification/StoredRoom.v ===== *)
(** * Stored rooms

  Models [src/src/rooms/stored_room.rs] and [room_performance_sample.rs]: a room with its
  two event channels, the release buffers of the legacy input relay, its event sequence and
  its bounded debug log. A channel is the list of the events sent on it; what a slow
  subscriber loses is not represented. [wall_ms] is what [current_timestamp_ms()] returns
  during the operation. *)

From Stdlib Require Import Strings.Byte.
From S2P Require Import Prelude Ids Wire StrictInput Text Compatibility Descriptor Protocol Invite Slots.
From S2P Require Import LegacyCodec RelayBuffer PauseState SnapshotTransfer LinkState RoomTransactions Room.
From S2P Require Import StartSync Connection PauseOps HostFrame StateHash RoomEvents.
Open Scope N_scope.

Record StoredRoom := mkStoredRoom {
  stored_room : NetplayRoom;
  events : list RoomEvent;
  input_events : list RoomInputEvent;
  input_relay_buffer : InputFrameRelayBuffer;
  fast_input_relay_buffer : FastInputRelayBuffer;
  relay_room_epoch : N;
  relay_session_epoch : N;
  event_seq : N;
  debug_log : RoomDebugEventLog;
  created_at : Instant }.

#[export] Instance eta_StoredRoom : Eta StoredRoom := λ s,
  mkStoredRoom (stored_room s) (events s) (input_events s) (input_relay_buffer s)
    (fast_input_relay_buffer s) (relay_room_epoch s) (relay_session_epoch s) (event_seq s) (debug_log s)
    (created_at s).
#[export] Instance set_stored_room : Setter stored_room.
Proof. derive_setter. Defined.
#[export] Instance set_events : Setter events.
Proof. derive_setter. Defined.
#[export] Instance set_input_events : Setter input_events.
Proof. derive_setter. Defined.
#[export] Instance set_input_relay_buffer : Setter input_relay_buffer.
Proof. derive_setter. Defined.
#[export] Instance set_fast_input_relay_buffer : Setter fast_input_relay_buffer.
Proof. derive_setter. Defined.
#[export] Instance set_relay_room_epoch : Setter relay_room_epoch.
Proof. derive_setter. Defined.
#[export] Instance set_relay_session_epoch : Setter relay_session_epoch.
Proof. derive_setter. Defined.
#[export] Instance set_event_seq : Setter event_seq.
Proof. derive_setter. Defined.
#[export] Instance set_debug_log : Setter debug_log.
Proof. derive_setter. Defined.

(** [StoredRoom::new]. *)
Definition StoredRoom_new (r : NetplayRoom) (now : Instant) : StoredRoom :=
  mkStoredRoom r [] [] InputFrameRelayBuffer_default FastInputRelayBuffer_default (room_epoch r)
    (session_epoch r) 0 RoomDebugEventLog_default now.

(** ** Expiry and staleness *)

Definition is_expired_waiting (now : Instant) (timeout : Duration) (s : StoredRoom) : bool :=
  (status (stored_room s) ==? WaitingForGuest) && (timeout <=? duration_since now (created_at s)).

Definition is_expired_recovery (now : Instant) (s : StoredRoom) : bool :=
  is_recovery_expired now (stored_room s).

(** [StoredRoom::is_idle_disconnected]. *)
Definition stored_idle_disconnected (now : Instant) (timeout : Duration) (s : StoredRoom) : bool :=
  is_idle_disconnected now timeout (stored_room s).

(** [StoredRoom::recover_stale_connections] and [StoredRoom::mark_stale_connections]. *)
Definition stored_recover_stale (now : Instant) (heartbeat_disconnect reconnect_grace : Duration)
    (s : StoredRoom) : bool * StoredRoom :=
  let '(b, r) := recover_stale_connections now heartbeat_disconnect reconnect_grace (stored_room s) in
  (b, s <| stored_room := r |>).
Definition stored_mark_stale (now : Instant) (heartbeat_stale heartbeat_disconnect : Duration)
    (s : StoredRoom) : bool * StoredRoom :=
  let '(b, r) := mark_stale_connections now heartbeat_stale heartbeat_disconnect (stored_room s) in
  (b, s <| stored_room := r |>).

(** [StoredRoom::view] and [StoredRoom::debug_events]. *)
Definition stored_view (now : Instant) (s : StoredRoom) : RoomView :=
  view_for_event (event_seq s) now (stored_room s).
Definition stored_debug_events (limit : nat) (s : StoredRoom) : list RoomDebugEvent :=
  log_tail limit (debug_log s).

(** ** room_performance_sample.rs *)

Record RoomPerformanceSample := mkRoomPerformanceSample {
  sample_timestamp_ms : N;
  sample_room_id : RoomId;
  sample_invite_code : list N;
  sample_event_seq : N;
  sample_room_epoch : N;
  sample_session_epoch : N;
  sample_protocol_version : N;
  sample_player_index : N;
  sample_runtime_state : ClientRuntimeState;
  sample_local_frame : option N;
  sample_canonical_frame : N;
  sample_released_frame : option N;
  sample_next_release_frame : N;
  sample_accepted_input_frame : option N;
  sample_frame_delta : option Z;
  sample_network : option ClientNetworkQualityReport }.

(** [i64::try_from(frame - canonical)], clamped to the bound it passes. *)
Definition frame_delta (frame canonical : N) : Z :=
  Z.max (- i64_max - 1) (Z.min (Z.of_N frame - Z.of_N canonical) i64_max).

Section emit.
Context (wall_ms : N).

(** [StoredRoom::performance_sample]. *)
Definition performance_sample (c : ConnectionId) (local_frame : option N)
    (network : option ClientNetworkQualityReport) (runtime_state : ClientRuntimeState) (s : StoredRoom)
    : option RoomPerformanceSample :=
  let r := stored_room s in
  p ← player_index_for_connection c r;
  Some (mkRoomPerformanceSample wall_ms (room_id r) (display (invite_code r)) (event_seq s) (room_epoch r)
          (session_epoch r) (protocol_version r) (zero_based p) runtime_state local_frame (room_frame r)
          (released_frame r) (next_release_frame r) (last_input_frames r !! p)
          ((λ frame, frame_delta frame (room_frame r)) <$> local_frame) network).

(** ** Recording and sending *)

Definition record_event (now : Instant) (kind detail : string) (s : StoredRoom) : RoomView * StoredRoom :=
  let s := s <| event_seq ::= λ n, u64_add n 1 |> in
  let room := view_for_event (event_seq s) now (stored_room s) in
  (room, s <| debug_log ::= log_push
     (mkRoomDebugEvent wall_ms (rv_room_id room) (rv_invite_code room) (rv_event_seq room)
        (rv_room_epoch room) (rv_session_epoch room) (protocol_version (stored_room s)) kind detail) |>).

(** [self.events.send(event)] after [record_event]. *)
Definition emit (now : Instant) (kind detail : string) (event : RoomView → RoomEvent) (s : StoredRoom)
    : StoredRoom :=
  let '(room, s) := record_event now kind detail s in s <| events ::= (.++ [event room]) |>.

Definition emit_state (now : Instant) (kind detail : string) : StoredRoom → StoredRoom :=
  emit now kind detail RoomStateChanged.

Definition record_debug_event (now : Instant) (kind detail : string) (s : StoredRoom) : StoredRoom :=
  (record_event now kind detail s).2.

Definition emit_start (now : Instant) (start_frame : N) : StoredRoom → StoredRoom :=
  emit now "sessionStarted" "session started" (SessionStarted start_frame None).

Definition emit_scheduled_start (now : Instant) (start : ScheduledSessionStart) : StoredRoom → StoredRoom :=
  emit now "sessionStartScheduled" "session start scheduled"
    (SessionStarted (start_start_frame start) (Some start)).

Definition emit_clock_sync_sample_requested (now : Instant) (request : ClockSyncSampleRequest)
    : StoredRoom → StoredRoom :=
  emit now "clockSyncSampleRequested" "clock sample requested"
    (λ room, ClockSyncSampleRequested request (rv_room_epoch room) (rv_session_epoch room)).

Definition emit_session_pause_scheduled (now : Instant) (pause : SessionPauseView) : StoredRoom → StoredRoom :=
  emit now "pauseScheduled" "coordinated pause scheduled" (SessionPauseScheduled pause).

Definition emit_session_pause_updated (now : Instant) (pause : SessionPauseView) : StoredRoom → StoredRoom :=
  emit now "pauseUpdated" "coordinated pause updated" (SessionPauseUpdated pause).

Definition synchronize_input_runtime_epoch (s : StoredRoom) : StoredRoom :=
  if (relay_room_epoch s ==? room_epoch (stored_room s))
     && (relay_session_epoch s ==? session_epoch (stored_room s)) then s
  else
    s <| input_relay_buffer := InputFrameRelayBuffer_default |>
      <| fast_input_relay_buffer := FastInputRelayBuffer_default |>
      <| relay_room_epoch := room_epoch (stored_room s) |>
      <| relay_session_epoch := session_epoch (stored_room s) |>.

Definition emit_session_resume_scheduled (now : Instant) (sequence resume_at_frame : N)
    (start : option ScheduledSessionStart) (s : StoredRoom) : StoredRoom :=
  emit now "resumeScheduled" "coordinated resume scheduled"
    (SessionResumeScheduled sequence resume_at_frame start) (synchronize_input_runtime_epoch s).

Definition emit_player_exited (now : Instant) (player_index : N) (reason : string) : StoredRoom → StoredRoom :=
  emit now "playerExited" "player intentionally exited" (EventPlayerExited player_index reason).

Definition record_state_hash_match (now : Instant) (frame : N) : StoredRoom → StoredRoom :=
  record_debug_event now "stateHashMatched" ("state hash matched at frame " ++ decimal frame)%string.

(** [{}] of an [i64]. *)
Definition decimal_Z (z : Z) : string :=
  match z with
  | Zneg p => ("-" ++ decimal (Npos p))%string
  | _ => decimal (Z.to_N z)
  end.

Definition state_hash_mismatch_detail (prefix : string) (m : StateHashMismatchView) : string :=
  match mismatch_nearby_matches m with
  | [] => (prefix ++ " at frame " ++ decimal (mismatch_frame m)
           ++ "; repair frame " ++ decimal (mismatch_repair_frame m))%string
  | first :: _ =>
      (prefix ++ " at frame " ++ decimal (mismatch_frame m)
       ++ " with repair frame " ++ decimal (mismatch_repair_frame m)
       ++ " and " ++ decimal (N.of_nat (length (mismatch_nearby_matches m)))
       ++ " nearby-frame match(es); first offset " ++ decimal_Z (frame_offset first)
       ++ " p" ++ decimal (zero_based (source_player_index first))
       ++ " frame " ++ decimal (source_frame first)
       ++ " matched p" ++ decimal (zero_based (matched_player_index first))
       ++ " frame " ++ decimal (matched_frame first))%string
  end.

Definition record_state_hash_mismatch_diagnostic (now : Instant) (m : StateHashMismatchView)
    : StoredRoom → StoredRoom :=
  record_debug_event now "stateHashMismatchDiagnostic"
    (state_hash_mismatch_detail "state hash mismatch observed" m).

Definition record_state_hash_frame_skew_diagnostic (now : Instant) (m : StateHashMismatchView)
    : StoredRoom → StoredRoom :=
  record_debug_event now "stateHashFrameSkewDiagnostic"
    (state_hash_mismatch_detail "state hash nearby-frame match observed" m).

Definition emit_state_hash_mismatch (now : Instant) (m : StateHashMismatchView) : StoredRoom → StoredRoom :=
  emit now "stateHashResyncRequired"
    (state_hash_mismatch_detail "state hash resync required after mismatch" m) (StateHashMismatch m).

Definition emit_state_recovery_prepare (now : Instant) (recovery : StateRecoveryView)
    : StoredRoom → StoredRoom :=
  emit now "stateRecoveryPrepare"
    ("state recovery " ++ decimal (recovery_view_id recovery) ++ " preparing at frame "
     ++ decimal (recovery_view_repair_frame recovery))%string (StateRecoveryPrepare recovery).

Definition emit_state_recovery_committed (now : Instant) (recovery : StateRecoveryView) (s : StoredRoom)
    : StoredRoom :=
  emit now "stateRecoveryCommitted"
    ("state recovery " ++ decimal (recovery_view_id recovery) ++ " committed at frame "
     ++ decimal (recovery_view_repair_frame recovery))%string (StateRecoveryCommitted recovery)
    (synchronize_input_runtime_epoch s).

Definition emit_state_recovery_failed (now : Instant) (recovery : StateRecoveryView) (reason : string)
    : StoredRoom → StoredRoom :=
  emit now "stateRecoveryFailed"
    ("state recovery " ++ decimal (recovery_view_id recovery) ++ " failed: " ++ reason)%string
    (StateRecoveryFailed recovery reason).

Definition emit_input_delay_changed (now : Instant) (change : InputDelayChange) : StoredRoom → StoredRoom :=
  emit now "inputDelayChanged" "adaptive input delay scheduled" (InputDelayChanged change).

(** An event stamped with the epochs of the recorded view. *)
Definition emit_stamped (now : Instant) (kind detail : string) (event : N → N → RoomEvent)
    : StoredRoom → StoredRoom :=
  emit now kind detail (λ room, event (rv_room_epoch room) (rv_session_epoch room)).

Definition emit_snapshot_chunk (now : Instant) (source : ConnectionId) (chunk : SnapshotChunk)
    : StoredRoom → StoredRoom :=
  emit_stamped now "snapshotChunk" "snapshot chunk relayed" (λ re se, EventSnapshotChunk source re se chunk).

Definition emit_snapshot_complete (now : Instant) (source : ConnectionId) (manifest : SnapshotManifest)
    : StoredRoom → StoredRoom :=
  emit_stamped now "snapshotComplete" "snapshot manifest relayed"
    (λ re se, EventSnapshotComplete source re se manifest).

Definition emit_snapshot_file_relay_upload_granted (now : Instant) (source : ConnectionId)
    (grant : SnapshotFileRelayGrant) : StoredRoom → StoredRoom :=
  emit_stamped now "snapshotFileRelayUploadGranted" "snapshot file relay upload granted"
    (λ re se, SnapshotFileRelayUploadGranted source re se grant).

Definition emit_snapshot_file_relay_download_ready (now : Instant) (receiver : ConnectionId)
    (grant : SnapshotFileRelayGrant) : StoredRoom → StoredRoom :=
  emit_stamped now "snapshotFileRelayDownloadReady" "snapshot file relay download ready"
    (λ re se, SnapshotFileRelayDownloadReady receiver re se grant).

(** [None] is the panic of [expect] when the room has no transfer. *)
Definition emit_rom_relay_upload_granted (now : Instant) (grant : RomRelayGrant) (s : StoredRoom)
    : option StoredRoom :=
  transfer ← rom_relay_transfer (stored_room s);
  Some (emit_stamped now "romRelayUploadGranted" "ROM relay upload granted"
          (λ re se, RomRelayUploadGranted (rom_sender_connection transfer) re se grant) s).

Definition emit_rom_relay_download_granted (now : Instant) (grant : RomRelayGrant) (s : StoredRoom)
    : option StoredRoom :=
  transfer ← rom_relay_transfer (stored_room s);
  Some (emit_stamped now "romRelayDownloadGranted" "ROM relay download granted"
          (λ re se, RomRelayDownloadGranted (rom_receiver_connection transfer) re se grant) s).

Definition emit_rom_relay_progress (now : Instant) (source : ConnectionId) (progress : RomRelayProgress)
    : StoredRoom → StoredRoom :=
  emit_stamped now "romRelayProgress" "ROM relay progress" (λ re se, EventRomRelayProgress source re se progress).

Definition emit_rom_relay_completed (now : Instant) (source : ConnectionId) (completion : RomRelayCompletion)
    : StoredRoom → StoredRoom :=
  emit_stamped now "romRelayCompleted" "ROM relay completed"
    (λ re se, EventRomRelayCompleted source re se completion).

Definition emit_rom_relay_failed (now : Instant) (source : ConnectionId) (failure : RomRelayFailure)
    : StoredRoom → StoredRoom :=
  emit_stamped now "romRelayFailed" "ROM relay failed" (λ re se, EventRomRelayFailed source re se failure).

Definition emit_rom_relay_cancelled (now : Instant) (source : ConnectionId) (cancelled : RomRelayCancelled)
    : StoredRoom → StoredRoom :=
  emit_stamped now "romRelayCancelled" "ROM relay cancelled"
    (λ re se, EventRomRelayCancelled source re se cancelled).

Definition emit_link_cable_packet (now : Instant) (source : ConnectionId) (packet : LinkCablePacket)
    : StoredRoom → StoredRoom :=
  emit now "linkCablePacket" "link-cable packet relayed" (λ _, EventLinkCablePacket source packet).

(** [StoredRoom::expire_state_recovery]. *)
Definition expire_state_recovery (now : Instant) (s : StoredRoom) : bool * StoredRoom :=
  match tx_view <$> state_recovery (stored_room s) with
  | None => (false, s)
  | Some recovery =>
      let '(closed, r) := close_expired_state_recovery now (stored_room s) in
      let s := s <| stored_room := r |> in
      if negb closed then (false, s)
      else (true, emit_state_recovery_failed now recovery "snapshotPinTimedOut" s)
  end.
End emit.

(** ** The input lane *)

Definition send_input (event : RoomInputEvent) (s : StoredRoom) : StoredRoom :=
  s <| input_events ::= (.++ [event]) |>.

Definition emit_fast_input_frame (source : ConnectionId) (frame : FastInputFrame) : StoredRoom → StoredRoom :=
  send_input (InputEventFast source frame).

Definition emit_input_frame_batch (source : ConnectionId) (input : InputFrame) (s : StoredRoom) : StoredRoom :=
  send_input (InputEventBatch source
    (mkInputFrameBatch (room_epoch (stored_room s)) (session_epoch (stored_room s))
       (frame_player_index input) [input])) s.

Definition relay_accepted_input_frame (source : ConnectionId) (input : InputFrame) (s : StoredRoom)
    : StoredRoom :=
  let s := synchronize_input_runtime_epoch s in
  if is_some_and (released_frame (stored_room s)) (λ released, frame_frame input <=? released)
  then emit_input_frame_batch source input s
  else s <| input_relay_buffer ::= push_input source (room_epoch (stored_room s))
                                     (session_epoch (stored_room s)) input |>.

Definition relay_accepted_fast_input_frame (source : ConnectionId) (input : FastInputFrame) (s : StoredRoom)
    : StoredRoom :=
  let s := synchronize_input_runtime_epoch s in
  if is_some_and (released_frame (stored_room s)) (λ released, fast_frame input <=? released)
  then emit_fast_input_frame source input s
  else s <| fast_input_relay_buffer ::= push_fast source input |>.

Definition emit_next_server_frame (server_time_ms : N) (s : StoredRoom) : option ServerFrame * StoredRoom :=
  let s := synchronize_input_runtime_epoch s in
  let '(released, r) := release_next_server_frame server_time_ms (stored_room s) in
  let s := s <| stored_room := r |> in
  match released with
  | None => (None, s)
  | Some frame =>
      let '(ready, buffer) := drain_frame (server_frame frame) (server_room_epoch frame)
                                (server_session_epoch frame) (input_relay_buffer s) in
      let s := s <| input_relay_buffer := buffer |> in
      let s := foldl (λ s b, send_input (InputEventBatch (ready_source b) (ready_batch b)) s) s ready in
      let '(ready_fast, buffer) := drain_fast_frame (server_frame frame) (server_room_epoch frame)
                                     (server_session_epoch frame) (fast_input_relay_buffer s) in
      let s := s <| fast_input_relay_buffer := buffer |> in
      let s := foldl (λ s b, send_input (InputEventFast (fast_source b) (fast_buffered b)) s) s ready_fast in
      (Some frame, send_input (InputEventServerFrame frame) s)
  end.

Definition emit_strict_input_batch (source : ConnectionId) (batch : StrictInputBatch) (s : StoredRoom)
    : StoredRoom :=
  send_input (InputEventStrict source batch) (synchronize_input_runtime_epoch s).

Definition emit_v5_server_frame (release : ServerFrameReleaseV5) (s : StoredRoom) : StoredRoom :=
  send_input (InputEventServerFrameV5 release) (synchronize_input_runtime_epoch s).

Definition emit_due_v5_server_frame (server_time_ms : N) (s : StoredRoom) : bool * StoredRoom :=
  let s := synchronize_input_runtime_epoch s in
  let '(release, r) := release_due_v5_host_frame server_time_ms (stored_room s) in
  let s := s <| stored_room := r |> in
  match release with
  | None => (false, s)
  | Some release => (true, emit_v5_server_frame release s)
  end.
