(* ===== verification/Registry.v ===== *)
(** * The room registry: storage and lifecycle

  Models [src/src/rooms/room_registry.rs], [room_registry_lifecycle_ops.rs],
  [room_registry_query_ops.rs], [room_registry_voice_ops.rs], [room_join.rs]
  and [room_registry_snapshot.rs].

  Every mutating operation runs under the write lock of the invite-code map, so one
  operation is one atomic step. A body works on a [Cell]: the stored room it holds the lock
  for, and the registry's [Feed] (the recent-event log, what the event sink received, the
  voice rooms it asked the broker to close). The generated tokens and codes, the clock
  reading and the answer of the voice broker are arguments. *)

From Stdlib Require Import Strings.Byte.
From S2P Require Import Prelude Ids Wire StrictInput Text Compatibility Descriptor Protocol Invite Slots.
From S2P Require Import LegacyCodec RelayBuffer PauseState SnapshotTransfer LinkState RoomTransactions Room.
From S2P Require Import StartSync Connection PauseOps InputRelay HostFrame StateHash SnapshotOps LinkOps.
From S2P Require Import RoomEvents StoredRoom.
Open Scope N_scope.

(** ** State *)

Record Feed := mkFeed {
  recent_events : RoomDebugEventLog;
  sunk_events : list RoomDebugEvent;
  sunk_samples : list RoomPerformanceSample;
  closed_voice_rooms : list (string * string) }.

#[export] Instance eta_Feed : Eta Feed := λ f,
  mkFeed (recent_events f) (sunk_events f) (sunk_samples f) (closed_voice_rooms f).
#[export] Instance set_recent_events : Setter recent_events.
Proof. derive_setter. Defined.
#[export] Instance set_sunk_events : Setter sunk_events.
Proof. derive_setter. Defined.
#[export] Instance set_sunk_samples : Setter sunk_samples.
Proof. derive_setter. Defined.
#[export] Instance set_closed_voice_rooms : Setter closed_voice_rooms.
Proof. derive_setter. Defined.

(** [InMemoryRoomRegistry]: what changes, and what is fixed at its construction. *)
Record Registry := mkRegistry {
  invite_codes : gmap (list N) StoredRoom;
  feed : Feed }.

#[export] Instance eta_Registry : Eta Registry := λ g, mkRegistry (invite_codes g) (feed g).
#[export] Instance set_invite_codes : Setter invite_codes.
Proof. derive_setter. Defined.
#[export] Instance set_feed : Setter feed.
Proof. derive_setter. Defined.

Record RegistryDeps := mkRegistryDeps {
  digest_of : bytes → bytes;
  time_origin : Instant;
  recovery_config : RoomRecoveryConfig;
  broker_enabled : bool }.

(** [with_dependencies_event_sink_and_voice]. *)
Definition Registry_new : Registry := mkRegistry ∅ (mkFeed RoomDebugEventLog_default [] [] []).

(** A stored room under the write lock, with the registry's feed. *)
Record Cell := mkCell { cell_room : StoredRoom; cell_feed : Feed }.

#[export] Instance eta_Cell : Eta Cell := λ c, mkCell (cell_room c) (cell_feed c).
#[export] Instance set_cell_room : Setter cell_room.
Proof. derive_setter. Defined.
#[export] Instance set_cell_feed : Setter cell_feed.
Proof. derive_setter. Defined.

(** [rooms.get_mut(invite_code.normalized()).ok_or(missing)?], then the body. *)
Definition with_room {E A} (missing : E) (code : InviteCode) (body : M Cell E A) : M Registry E A := λ g,
  match invite_codes g !! normalized code with
  | None => (Err missing, g)
  | Some s =>
      let '(o, c) := body (mkCell s (feed g)) in
      (o, mkRegistry (<[normalized code := cell_room c]> (invite_codes g)) (cell_feed c))
  end.

(** [rooms.get(invite_code.normalized()).ok_or(missing)?] under the read lock. *)
Definition read_room {E A} (missing : E) (code : InviteCode) (f : StoredRoom → result E A) (g : Registry)
    : result E A :=
  s ← ok_or (invite_codes g !! normalized code) missing; f s.

(** [stored_room.room.method(..)?]. *)
Definition on_netplay_room {E A} (m : M NetplayRoom E A) : M Cell E A := λ c,
  let '(o, r) := m (stored_room (cell_room c)) in
  (o, c <| cell_room ::= λ s, s <| stored_room := r |> |>).

(** [stored_room.emit_*(..)]. *)
Definition on_stored_room {E} (f : StoredRoom → StoredRoom) : M Cell E unit :=
  modify (λ c, c <| cell_room ::= f |>).

(** [record_recent_events]: each event goes to the sink and to the log. *)
Definition record_recent_events (events : list RoomDebugEvent) (f : Feed) : Feed :=
  f <| sunk_events ::= (.++ events) |> <| recent_events ::= λ log, foldl (flip log_push) log events |>.

(** [self.record_recent_events(stored_room.debug_events(1))]. *)
Definition record_recent {E} : M Cell E unit :=
  modify (λ c, c <| cell_feed ::= record_recent_events (stored_debug_events 1 (cell_room c)) |>).

Definition record_performance_sample (sample : RoomPerformanceSample) (f : Feed) : Feed :=
  f <| sunk_samples ::= (.++ [sample]) |>.

Record RoomJoin := mkRoomJoin {
  join_player_index : PlayerIndex;
  join_resume_token : string;
  join_input_socket_token : string;
  join_voice : option PlayerVoiceJoinGrant;
  join_room : RoomView }.

Record RoomRegistrySnapshot := mkRoomRegistrySnapshot {
  active_room_count : nat;
  snapshot_rooms : list RoomView }.

(** ** Voice rooms, [room_registry_voice_ops.rs] and [voice/types.rs] *)

Record VoiceBrokerParticipant := mkVoiceBrokerParticipant {
  participant_player_index : N;
  participant_identity_ : string;
  participant_display_name : string }.

Record CreateVoiceRoomBrokerRequest := mkCreateVoiceRoomBrokerRequest {
  voice_netplay_room_id : string;
  voice_netplay_invite_code : list N;
  voice_room_epoch : N;
  voice_request_mode : NetplayVoiceMode;
  voice_request_max_participants : N;
  voice_request_participants : list VoiceBrokerParticipant }.

Record VoiceBrokerRoomView := mkVoiceBrokerRoomView {
  broker_voice_room_id : string;
  broker_livekit_room_name : string;
  broker_server_url : string;
  broker_netplay_room_id : string;
  broker_netplay_invite_code : string;
  broker_room_epoch : N;
  broker_mode : NetplayVoiceMode;
  broker_max_participants : N }.

Record VoiceBrokerGrant := mkVoiceBrokerGrant {
  broker_player_index : N;
  broker_participant_identity : string;
  broker_token : string;
  broker_expires_at : string }.

Record CreateVoiceRoomBrokerResponse := mkCreateVoiceRoomBrokerResponse {
  response_room : VoiceBrokerRoomView;
  response_grants : list VoiceBrokerGrant }.

(** [uuid_string] is the [Display] of the [uuid] crate. *)
Definition participant_identity (uuid_string : RoomId → string) (r : NetplayRoom) (p : PlayerIndex) : string :=
  ("room-" ++ uuid_string (room_id r) ++ "-p" ++ decimal (display_number p))%string.

Definition voice_participants (uuid_string : RoomId → string) (r : NetplayRoom) : list VoiceBrokerParticipant :=
  (λ p, mkVoiceBrokerParticipant (display_number p) (participant_identity uuid_string r p)
          ("Player " ++ decimal (display_number p))%string)
  <$> omap (λ index, PlayerIndex_new (N.of_nat index) (max_players r)) (seq 0 (N.to_nat (max_players r))).

Definition create_voice_request (uuid_string : RoomId → string) (r : NetplayRoom)
    : CreateVoiceRoomBrokerRequest :=
  mkCreateVoiceRoomBrokerRequest (uuid_string (room_id r)) (display (invite_code r)) (room_epoch r)
    (requested_voice_mode r) (max_players r) (voice_participants uuid_string r).

Definition player_grant (shared : RoomVoiceView) (max_players : N) (mode : NetplayVoiceMode)
    (grant : VoiceBrokerGrant) : option (PlayerIndex * PlayerVoiceJoinGrant) :=
  zero_based ← checked_sub (broker_player_index grant) 1;
  p ← PlayerIndex_new zero_based max_players;
  provider ← vv_provider shared;
  voice_room_id ← vv_voice_room_id shared;
  livekit_room_name ← vv_livekit_room_name shared;
  server_url ← vv_server_url shared;
  Some (p, mkPlayerVoiceJoinGrant provider voice_room_id livekit_room_name server_url
             (broker_participant_identity grant) (broker_token grant) (broker_expires_at grant) mode).

(** [collect::<HashMap<_, _>>]: a later grant of a player replaces an earlier one. *)
Definition voice_state_from_response (response : CreateVoiceRoomBrokerResponse) (max_players : N)
    : RoomVoiceState :=
  let room := response_room response in
  let mode := broker_mode room in
  let shared := mkRoomVoiceView VoiceAvailable (Some "livekit") (Some (broker_voice_room_id room))
                  (Some (broker_livekit_room_name room)) (Some (broker_server_url room)) mode
                  (broker_max_participants room) None in
  voice_available shared
    (foldl (λ m '(p, grant), <[p := grant]> m) ∅
       (omap (player_grant shared max_players mode) (response_grants response))).

(** [response] is what [create_room] of the broker returned, [None] for an error. *)
Definition create_voice_state_for_room (enabled : bool) (response : option CreateVoiceRoomBrokerResponse)
    (r : NetplayRoom) : option RoomVoiceState :=
  let unavailable := voice_unavailable (requested_voice_mode r)
                       "Voice chat is not available for this room." in
  if negb (voice_requested r) then None
  else if negb enabled then Some unavailable
  else match response with
       | Some response => Some (voice_state_from_response response (max_players r))
       | None => Some unavailable
       end.

Definition cleanup_voice_room (enabled : bool) (voice_room_id : option string) (reason : string) (f : Feed)
    : Feed :=
  match voice_room_id with
  | None => f
  | Some id => if negb enabled then f else f <| closed_voice_rooms ::= (.++ [(id, reason)]) |>
  end.

(** [normalize_exit_reason]. *)
Definition normalize_exit_reason (reason : string) : string :=
  let reason := trim (chars reason) in
  if reason ==? [] then "userQuit"%string else string_of_bytes (concat (encode_utf8 <$> take 80 reason)).

Section operations.
Context (deps : RegistryDeps) (wall_ms : N) (now : Instant).

Definition token_hash : string → ResumeTokenHash := hash_resume_token (digest_of deps).

(** [server_time_ms_at]. *)
Definition server_time_ms_at (now : Instant) : N :=
  let ms := as_millis (duration_since now (time_origin deps)) in
  if ms <=? u64_max then ms else u64_max.

(** ** Lifecycle *)

(** [create_room_impl]: [HashMap::insert] replaces what the map has for the code. *)
Definition create_room (id : RoomId) (code : InviteCode) (resume_token input_socket_token : string)
    (voice_response : option CreateVoiceRoomBrokerResponse) (host : VerifiedLicense)
    (host_connection : ConnectionId) (session : NetplaySessionDescriptor) (protocol_version : N)
    (g : Registry) : RoomView * Registry :=
  let room := new_with_protocol_and_resume id host host_connection code session protocol_version
                (token_hash resume_token) (token_hash input_socket_token) now in
  let room := match create_voice_state_for_room (broker_enabled deps) voice_response room with
              | Some voice => set_voice_state voice room
              | None => room
              end in
  (view_for_event 0 now room,
   g <| invite_codes ::= <[normalized code := StoredRoom_new room now]> |>).

(** The tail of the connection operations: emit the state, return its view. *)
Definition emit_view {E} (kind detail : string) : M Cell E RoomView :=
  on_stored_room (emit_state wall_ms now kind detail) ;;
  room ← gets (λ c, stored_view now (cell_room c));
  record_recent ;;
  mret room.

Definition join_of (p : PlayerIndex) (resume_token input_socket_token kind detail : string)
    : M Cell RoomError RoomJoin :=
  room ← emit_view kind detail;
  voice ← gets (λ c, voice_grant_for p (stored_room (cell_room c)));
  mret (mkRoomJoin p resume_token input_socket_token voice room).

Definition join_guest_body (resume_token input_socket_token : string) (guest : VerifiedLicense)
    (c : ConnectionId) : M Cell RoomError PlayerIndex :=
  p ← on_netplay_room (join_guest_with_resume guest c (token_hash resume_token)
        (token_hash input_socket_token) now ClientTransportCapabilities_default);
  on_stored_room (emit_state wall_ms now "guestJoined" "guest joined room") ;;
  record_recent ;;
  mret p.

Definition connect_host_body (resume_token input_socket_token : string) (host : VerifiedLicense)
    (c : ConnectionId) (capabilities : ClientTransportCapabilities) : M Cell RoomError RoomJoin :=
  p ← on_netplay_room (attach_host_with_resume host c (token_hash resume_token)
        (token_hash input_socket_token) now capabilities);
  join_of p resume_token input_socket_token "hostConnected" "host socket connected".

Definition connect_guest_body (resume_token input_socket_token : string) (guest : VerifiedLicense)
    (c : ConnectionId) (capabilities : ClientTransportCapabilities) : M Cell RoomError RoomJoin :=
  p ← on_netplay_room (join_guest_with_resume guest c (token_hash resume_token)
        (token_hash input_socket_token) now capabilities);
  join_of p resume_token input_socket_token "guestConnected" "guest socket connected".

Definition reconnect_player_body (next_resume_token input_socket_token : string) (p : PlayerIndex)
    (room_epoch : N) (resume_token : string) (c : ConnectionId)
    (capabilities : ClientTransportCapabilities) : M Cell RoomError RoomJoin :=
  on_netplay_room (reconnect_player (mkPlayerReconnectRequest p (token_hash resume_token)
    (token_hash next_resume_token) (token_hash input_socket_token) room_epoch c now capabilities)) ;;
  join_of p next_resume_token input_socket_token "playerReconnected" "player reconnected".

Definition arm_runner_handoff_body (c : ConnectionId) : M Cell RoomError unit :=
  on_netplay_room (arm_runner_handoff c now (runner_handoff_grace (recovery_config deps))) ;;
  on_stored_room (record_debug_event wall_ms now "runnerHandoffArmed"
                    "initial control slot armed for runner handoff") ;;
  record_recent.

Definition cancel_runner_handoff_body (c : ConnectionId) : M Cell RoomError unit :=
  on_netplay_room (cancel_runner_handoff c).

(** The body of [disconnect_impl] under the lock: whether the room closed, and its view. *)
Definition disconnect_body (c : ConnectionId) : M Cell RoomError (bool * RoomView) :=
  detail ← gets (λ cell, describe_control_connection c "room cleanup" (stored_room (cell_room cell)));
  closed ← on_netplay_room (disconnect_with_recovery c now (reconnect_grace (recovery_config deps)));
  room ← emit_view "socketDisconnected" detail;
  mret (closed, room).

(** [disconnect_impl]: a room the disconnection closed is removed from the map. *)
Definition disconnect (code : InviteCode) (c : ConnectionId) : M Registry RoomError RoomView := λ g,
  match with_room NotFound code (disconnect_body c) g with
  | (Err e, g) => (Err e, g)
  | (Ok (closed, room), g) =>
      let voice := if closed then invite_codes g !! normalized code
                     ≫= λ s, voice_room_id_for_cleanup (stored_room s) else None in
      let g := if closed then g <| invite_codes ::= delete (normalized code) |> else g in
      (Ok room, g <| feed ::= cleanup_voice_room (broker_enabled deps) voice "netplay-room-closed" |>)
  end.

Definition record_transport_close_body (c : ConnectionId) (socket_kind reason : string)
    : M Cell RoomError unit :=
  let input := bool_decide (socket_kind = "input"%string) in
  detail ← gets (λ cell,
    (if input then describe_input_connection else describe_control_connection) c reason
      (stored_room (cell_room cell)));
  on_stored_room (record_debug_event wall_ms now
    (if input then "inputSocketTransportClosed" else "socketTransportClosed") detail) ;;
  record_recent.

Definition player_exited_body (c : ConnectionId) (reason : string) : M Cell RoomError RoomView :=
  p ← on_netplay_room (player_exited c now);
  on_stored_room (emit_player_exited wall_ms now (zero_based p) (normalize_exit_reason reason)) ;;
  voice ← on_netplay_room (lift_total take_voice_room_id_for_cleanup);
  room ← gets (λ cell, stored_view now (cell_room cell));
  record_recent ;;
  modify (λ cell, cell <| cell_feed ::= cleanup_voice_room (broker_enabled deps) voice "player-exited" |>) ;;
  mret room.

Definition connect_input_socket_body (p : PlayerIndex) (room_epoch session_epoch : N)
    (input_socket_token : string) (c : ConnectionId) : M Cell RoomError RoomView :=
  on_netplay_room (attach_input_socket p room_epoch session_epoch (token_hash input_socket_token) c now) ;;
  emit_view "inputSocketConnected" "input socket connected".

Definition disconnect_input_socket_body (c : ConnectionId) : M Cell RoomError RoomView :=
  detail ← gets (λ cell, describe_input_connection c "room cleanup" (stored_room (cell_room cell)));
  on_netplay_room (disconnect_input_socket c now (reconnect_grace (recovery_config deps))) ;;
  emit_view "inputSocketDisconnected" detail.

(** ** [sweep_expired_rooms] *)

(** One iteration of the loop: the events for the feed, whether a handoff or a state
    recovery closed the room, and the room. *)
Definition sweep_room (s : StoredRoom) : list RoomDebugEvent * bool * StoredRoom :=
  let config := recovery_config deps in
  let '(expired, s) := expire_state_recovery wall_ms now s in
  if expired then (stored_debug_events 1 s, true, s)
  else
    let '(handoffs, r) := expire_runner_handoffs now (stored_room s) in
    let s := s <| stored_room := r |> in
    let '(log, s) :=
      match handoffs with
      | Some _ => let s := emit_state wall_ms now "runnerHandoffExpired" "runner handoff deadline expired" s in
                  (stored_debug_events 1 s, s)
      | None => ([], s)
      end in
    let '(stale, s) := stored_mark_stale now (heartbeat_stale config) (heartbeat_disconnect config) s in
    let '(log, s) :=
      if stale then let s := emit_state wall_ms now "heartbeatStale" "heartbeat stale" s in
                    (log ++ stored_debug_events 1 s, s)
      else (log, s) in
    let '(lost, s) := stored_recover_stale now (heartbeat_disconnect config) (reconnect_grace config) s in
    let '(log, s) :=
      if lost then let s := emit_state wall_ms now "heartbeatTimedOut" "heartbeat timeout" s in
                   (log ++ stored_debug_events 1 s, s)
      else (log, s) in
    (log, is_some_and handoffs id, s).

(** The expiry test over the rooms after the loop. *)
Definition is_expired (join_timeout : Duration) (s : StoredRoom) : bool :=
  is_expired_waiting now join_timeout s || is_expired_recovery now s
  || stored_idle_disconnected now (room_idle (recovery_config deps)) s.

(** The iteration order of the [HashMap] decides only the order of the feed and of the
    broker's clean-up calls; here it is that of [map_to_list]. *)
Definition sweep_expired_rooms (join_timeout : Duration) (g : Registry) : nat * Registry :=
  let swept := sweep_room <$> invite_codes g in
  let rooms := snd <$> swept in
  let events := concat ((λ '(_, (log, _, _)), log) <$> map_to_list swept) in
  let expired := fst <$> filter (λ '(_, s), is_expired join_timeout s = true) (map_to_list rooms) in
  let closed := fst <$> filter (λ '(_, (_, closed, _)), closed = true) (map_to_list swept) in
  let expired_keys := remove_dups (expired ++ closed) in
  let voice := (λ key, rooms !! key ≫= λ s, (take_voice_room_id_for_cleanup (stored_room s)).1)
                 <$> expired_keys in
  let rooms := foldr delete rooms expired_keys in
  let f := record_recent_events events (feed g) in
  let f := foldl (λ f id, cleanup_voice_room (broker_enabled deps) id "room-expired" f) f voice in
  (length expired_keys, mkRegistry rooms f).

(** [release_next_controller_frames]. *)
Definition release_next_controller_frames (g : Registry) : nat * Registry :=
  let stepped := emit_next_server_frame (server_time_ms_at now) <$> invite_codes g in
  (size (filter (λ '(_, (frame, _)), is_Some frame) stepped),
   g <| invite_codes := snd <$> stepped |>).

(** ** Queries *)

Definition room_view (code : InviteCode) : Registry → result RoomError RoomView :=
  read_room NotFound code (λ s, Ok (stored_view now s)).

Definition room_events (code : InviteCode) (limit : nat) : Registry → result RoomError (list RoomDebugEvent) :=
  read_room NotFound code (λ s, Ok (stored_debug_events limit s)).

Definition recent_events_tail (limit : nat) (g : Registry) : list RoomDebugEvent :=
  log_tail limit (recent_events (feed g)).

Definition snapshot (g : Registry) : RoomRegistrySnapshot :=
  let views := stored_view now <$> (map_to_list (invite_codes g)).*2 in
  mkRoomRegistrySnapshot (length views) views.

(** ** [refresh_voice_token_impl]: the request under the read lock, then, with the broker's
    grant, the update under the write lock. *)

Definition refresh_voice_token_request (code : InviteCode) (c : ConnectionId) (g : Registry)
    : result RoomError RoomVoiceTokenRefreshRequest :=
  if negb (broker_enabled deps) then Err VoiceUnavailable
  else read_room NotFound code (λ s, voice_token_refresh_request c (stored_room s)) g.

Definition refresh_voice_token_body (c : ConnectionId) (grant : VoiceBrokerGrant)
    : M Cell RoomError (PlayerVoiceJoinGrant * RoomView) :=
  voice ← on_netplay_room (refresh_voice_grant c (broker_participant_identity grant) (broker_token grant)
            (broker_expires_at grant));
  room ← gets (λ cell, stored_view now (cell_room cell));
  mret (voice, room).
End operations.
