(* ===== verification/RegistryRelay.v ===== *)
(** * The room registry: relay operations

  Models [src/src/rooms/room_registry_relay_ops.rs], [room_registry_sync_ops.rs],
  [room_registry_start_sync_ops.rs], [room_registry_v5_input_ops.rs] and
  [room_registry_rom_relay_ops.rs]: the bodies of the operations that a session runs after
  the sockets are attached. A body runs under [with_room] of Registry. An [expect] of the
  source is the fault [Panic]. *)

From Stdlib Require Import Strings.Byte.
From S2P Require Import Prelude Ids Wire StrictInput Text Compatibility Descriptor Protocol Invite Slots.
From S2P Require Import LegacyCodec RelayBuffer PauseState SnapshotTransfer LinkState RoomTransactions AdaptiveDelay Room.
From S2P Require Import StartSync Connection PauseOps InputRelay HostFrame StateHash SnapshotOps LinkOps.
From S2P Require Import RoomEvents StoredRoom Registry.
Open Scope N_scope.

(** [?] in an operation that may panic. *)
Definition failing {S E A} (m : M S E A) : M S (fault E) A := λ s,
  let '(o, s') := m s in (map_err o Error, s').
(** [Option::expect]. *)
Definition expect {S E A} (o : option A) : M S (fault E) A := lift_result (ok_or o Panic).

(** [stored_room.emit_*] that may panic. *)
Definition on_stored_room_expect {E} (f : StoredRoom → option StoredRoom) : M Cell (fault E) unit :=
  cell ← get;
  s ← expect (f (cell_room cell));
  on_stored_room (λ _, s).

(** [{:?}] of the derived [Debug]. *)
Definition room_status_debug (s : RoomStatus) : string :=
  match s with
  | WaitingForGuest => "WaitingForGuest"
  | CheckingCompatibility => "CheckingCompatibility"
  | SyncingState => "SyncingState"
  | Ready => "Ready"
  | StartScheduled => "StartScheduled"
  | Playing => "Playing"
  | Paused => "Paused"
  | RepairingState => "RepairingState"
  | Recovering => "Recovering"
  | Closed => "Closed"
  end.
Definition nack_reason_debug (r : InputCursorNackReason) : string :=
  match r with
  | InputGap => "InputGap"
  | NackFutureFrameTooLarge => "FutureFrameTooLarge"
  | SessionState => "SessionState"
  end.

Section relay.
Context (deps : RegistryDeps) (wall_ms : N) (now : Instant).

(** Emit, then hand the last debug event to the feed. *)
Definition emit_recorded {E} (f : StoredRoom → StoredRoom) : M Cell E unit :=
  on_stored_room f ;; record_recent.

(** Emit, then return the view of the room. *)
Definition emit_viewed {E} (f : StoredRoom → StoredRoom) : M Cell E RoomView :=
  on_stored_room f ;;
  room ← gets (λ cell, stored_view now (cell_room cell));
  record_recent ;;
  mret room.

(** ** Controller input *)

(** [NetplayRoom::accept_input_frame]. *)
Definition accept_input_frame (c : ConnectionId) (input : InputFrame) (limits : InputFrameLimits)
    : RoomM InputFrameAcceptance :=
  acceptances ← accept_input_frame_cursors c [cursor_from_input input] limits;
  match acceptances with
  | [acceptance] => mret acceptance
  | _ => throw InvalidPayload
  end.

Definition relay_input_frame (c : ConnectionId) (input : InputFrame) : M Cell RoomError unit :=
  acceptance ← on_netplay_room (accept_input_frame c input InputFrameLimits_default);
  if acceptance ==? Relay then on_stored_room (relay_accepted_input_frame c input) else mret tt.

(** The loop over the inputs zipped with their acceptances. *)
Definition relay_accepted {I} (relay : I → StoredRoom → StoredRoom) (inputs : list I)
    (acceptances : list InputFrameAcceptance) (s : StoredRoom) : StoredRoom :=
  foldl (λ s '(input, acceptance), if acceptance ==? Relay then relay input s else s) s
    (zip inputs acceptances).

Definition relay_input_frame_batch (c : ConnectionId) (batch : InputFrameBatch) : M Cell RoomError unit :=
  cell ← get;
  let r := stored_room (cell_room cell) in
  ensure (room_epoch r ==? ib_room_epoch batch) StaleRoomEpoch ;;
  ensure (session_epoch r ==? ib_session_epoch batch) StaleSessionEpoch ;;
  acceptances ← on_netplay_room (accept_input_frame_cursors c (cursor_from_input <$> ib_frames batch)
                                   InputFrameLimits_default);
  on_stored_room (relay_accepted (relay_accepted_input_frame c) (ib_frames batch) acceptances).

(** [connected_players_support_fast_input_relay] of room_controller_netplay_ops.rs. *)
Definition connected_players_support_fast_input_relay (r : NetplayRoom) : bool :=
  let connected := connected_player_indices r in
  (N.of_nat (length connected) =? max_players r)
  && forallb (λ p, existsb (λ s, has_index p s && slot_supports_fast_input_relay s) (players r)) connected.

(** The first stale record of the batch decides the error. *)
Fixpoint check_fast_epochs (frames : list FastInputFrame) (r : NetplayRoom) : result RoomError unit :=
  match frames with
  | [] => Ok tt
  | input :: frames =>
      if fast_room_epoch input !=? room_epoch r then Err StaleRoomEpoch
      else if fast_session_epoch input !=? session_epoch r then Err StaleSessionEpoch
      else check_fast_epochs frames r
  end.

Definition relay_fast_input_batch (c : ConnectionId) (batch : FastInputBatch) : M Cell RoomError unit :=
  cell ← get;
  let r := stored_room (cell_room cell) in
  ensure (connected_players_support_fast_input_relay r) RoomNotReady ;;
  lift_result (check_fast_epochs (fast_frames batch) r) ;;
  acceptances ← on_netplay_room (accept_input_frame_cursors c
    ((λ f, mkInputFrameCursor (fast_player_index f) (fast_frame f)) <$> fast_frames batch)
    InputFrameLimits_default);
  on_stored_room (relay_accepted (relay_accepted_fast_input_frame c) (fast_frames batch) acceptances).

Definition relay_link_cable_packet (c : ConnectionId) (packet : LinkCablePacket) : M Cell RoomError unit :=
  on_netplay_room (accept_link_cable_packet c packet LinkCablePacketLimits_default) ;;
  emit_recorded (emit_link_cable_packet wall_ms now c packet).

(** ** State hashes and repair *)

Definition record_state_hash (c : ConnectionId) (report : StateHashReport) : M Cell RoomError unit :=
  evaluation ← on_netplay_room (accept_state_hash c report now);
  match evaluation with
  | EvalDisabled | EvalPending => mret tt
  | Matched frame => emit_recorded (record_state_hash_match wall_ms now frame)
  | FrameSkew m => emit_recorded (record_state_hash_frame_skew_diagnostic wall_ms now m)
  | TrueMismatch m => emit_recorded (record_state_hash_mismatch_diagnostic wall_ms now m)
  | ResyncRequired m => emit_recorded (emit_state_hash_mismatch wall_ms now m)
  | RecoveryPrepare recovery => emit_recorded (emit_state_recovery_prepare wall_ms now recovery)
  | RecoveryAttemptLimitExceeded recovery =>
      emit_recorded (emit_state_recovery_failed wall_ms now recovery "recoveryAttemptLimitExceeded")
  end.

Definition pin_state_recovery (c : ConnectionId) (room_epoch session_epoch : N) (pin : StateRecoveryPin)
    : M Cell RoomError unit :=
  recovery ← on_netplay_room (accept_v5_state_recovery_pin_for_epoch c room_epoch session_epoch pin
               SnapshotLimits_default);
  emit_recorded (emit_state_recovery_committed wall_ms now recovery).

(** ** Heartbeats, pauses and resumes *)

Definition record_heartbeat_op (c : ConnectionId) (local_frame : option N)
    (network : option ClientNetworkQualityReport) (runtime_state : ClientRuntimeState)
    : M Cell RoomError RoomView :=
  on_netplay_room (record_heartbeat c now local_frame network runtime_state) ;;
  modify (λ cell,
    match performance_sample wall_ms c local_frame network runtime_state (cell_room cell) with
    | Some sample => cell <| cell_feed ::= record_performance_sample sample |>
    | None => cell
    end) ;;
  change ← on_netplay_room (lift_total (maybe_schedule_adaptive_input_delay now));
  match change with
  | Some change => emit_recorded (emit_input_delay_changed wall_ms now change)
  | None => mret tt
  end ;;
  gets (λ cell, stored_view now (cell_room cell)).

Definition request_session_pause (c : ConnectionId) (request_id : string) (reason : SessionPauseReason)
    (local_frame : N) : M Cell RoomError RoomView :=
  already_paused ← gets (λ cell, is_some (rv_pause (stored_view now (cell_room cell))));
  pause ← on_netplay_room (request_session_pause_with_id c request_id reason local_frame);
  emit_viewed (if (already_paused : bool) then emit_session_pause_updated wall_ms now pause
               else emit_session_pause_scheduled wall_ms now pause).

Definition mark_session_pause_reached (c : ConnectionId) (sequence paused_at_frame : N)
    : M Cell RoomError RoomView :=
  outcome ← on_netplay_room (mark_session_pause_reached_internal c sequence paused_at_frame
              (Some (server_time_ms_at deps now)));
  emit_viewed (match outcome with
               | ReachedPausing pause | ReachedPaused pause => emit_session_pause_updated wall_ms now pause
               | ReachedResumed sequence frame => emit_session_resume_scheduled wall_ms now sequence frame None
               | ReachedResumedV5 sequence start =>
                   emit_session_resume_scheduled wall_ms now sequence (start_start_frame start) (Some start)
               end).

Definition request_session_resume (c : ConnectionId) (request_id : string) (sequence : N)
    : M Cell RoomError RoomView :=
  outcome ← on_netplay_room (request_session_resume_internal c request_id sequence
              (Some (server_time_ms_at deps now)));
  emit_viewed (match outcome with
               | StillPaused pause => emit_session_pause_updated wall_ms now pause
               | Resumed frame => emit_session_resume_scheduled wall_ms now sequence frame None
               | ResumedV5 start =>
                   emit_session_resume_scheduled wall_ms now sequence (start_start_frame start) (Some start)
               end).

(** ** Compatibility, readiness and snapshots *)

(** A mismatch is announced before the error is returned. *)
Definition announce_compatibility (m : M NetplayRoom RoomError unit)
    (kind detail mismatch_kind mismatch_detail : string) : M Cell RoomError RoomView :=
  outcome ← attempt (on_netplay_room m);
  match outcome with
  | Ok _ => emit_view wall_ms now kind detail
  | Err CompatibilityMismatch =>
      emit_recorded (emit_state wall_ms now mismatch_kind mismatch_detail) ;;
      throw CompatibilityMismatch
  | Err error => throw error
  end.

Definition set_compatibility_op (c : ConnectionId) (fingerprint : CompatibilityFingerprint)
    : M Cell RoomError RoomView :=
  announce_compatibility (set_compatibility_for_connection c fingerprint)
    "compatibilitySet" "compatibility fingerprint set" "compatibilityMismatch" "compatibility mismatch".

Definition set_link_cable_compatibility_op (c : ConnectionId) (compatibility : LinkCableCompatibility)
    : M Cell RoomError RoomView :=
  announce_compatibility (set_link_cable_compatibility_for_connection c compatibility)
    "linkCompatibilitySet" "link compatibility set" "linkCompatibilityMismatch" "link compatibility mismatch".

Definition mark_ready_op (c : ConnectionId) (network : option ClientNetworkQualityReport)
    : M Cell RoomError RoomView :=
  started ← on_netplay_room (mark_ready c network now);
  cell ← get;
  let r := stored_room (cell_room cell) in
  if (started : bool) then emit_viewed (emit_start wall_ms now (sync_start_frame r))
  else if should_request_clock_sync_sample r then
    request ← on_netplay_room (lift_total (request_clock_sync_sample (server_time_ms_at deps now)));
    emit_viewed (emit_clock_sync_sample_requested wall_ms now request)
  else emit_viewed (emit_state wall_ms now "playerReady" "player marked ready").

Definition relay_snapshot_chunk (c : ConnectionId) (chunk : SnapshotChunk) : M Cell RoomError unit :=
  accepted ← on_netplay_room (accept_snapshot_chunk (digest_of deps) c chunk SnapshotLimits_default);
  if negb accepted then mret tt
  else emit_recorded (emit_snapshot_chunk wall_ms now c chunk).

Definition relay_snapshot_complete (c : ConnectionId) (manifest : SnapshotManifest) : M Cell RoomError unit :=
  accepted ← on_netplay_room (accept_snapshot_complete (digest_of deps) c manifest SnapshotLimits_default);
  if negb accepted then mret tt
  else emit_recorded (emit_snapshot_complete wall_ms now c manifest).

Definition prepare_snapshot_file_relay (code : InviteCode) (c : ConnectionId) (manifest : SnapshotManifest)
    : Registry → result RoomError SnapshotFileRelayTransferIntent :=
  read_room NotFound code (λ s,
    prepare_snapshot_file_relay_transfer c manifest SnapshotLimits_default (stored_room s)).

Definition grant_snapshot_file_relay_upload (c : ConnectionId) (manifest : SnapshotManifest)
    (grants : SnapshotFileRelayGrantPair) : M Cell RoomError unit :=
  upload ← on_netplay_room (accept_snapshot_file_relay_grant c manifest grants SnapshotLimits_default);
  emit_recorded (emit_snapshot_file_relay_upload_granted wall_ms now c upload).

Definition relay_snapshot_file_upload_complete (c : ConnectionId) (transfer_id : string)
    (manifest : SnapshotManifest) : M Cell RoomError unit :=
  download ← on_netplay_room (accept_snapshot_file_relay_upload_complete c transfer_id manifest
               SnapshotLimits_default);
  match download with
  | None => mret tt
  | Some (receiver, grant) =>
      emit_recorded (emit_snapshot_file_relay_download_ready wall_ms now receiver grant)
  end.

(** ** Scheduled start *)

Definition start_sync_emit (waiting_kind waiting_detail : string) (outcome : StartSyncOutcome)
    : M Cell RoomError RoomView :=
  emit_viewed (match outcome with
               | Waiting => emit_state wall_ms now waiting_kind waiting_detail
               | Scheduled start => emit_scheduled_start wall_ms now start
               end).

Definition record_clock_sync_sample (c : ConnectionId) (sample : ClockSyncSample)
    : M Cell RoomError RoomView :=
  outcome ← on_netplay_room (accept_clock_sync_sample c sample now (server_time_ms_at deps now));
  start_sync_emit "clockSyncSampleAccepted" "clock sample accepted" outcome.

Definition mark_deterministic_ready_op (c : ConnectionId) (network : option ClientNetworkQualityReport)
    : M Cell RoomError RoomView :=
  outcome ← on_netplay_room (mark_deterministic_ready c network now (server_time_ms_at deps now));
  start_sync_emit "playerDeterministicReady" "player deterministic ready" outcome.

(** ** Protocol v5 input *)

Record StrictInputRelayOutcome := mkStrictInputRelayOutcome {
  relay_response : InputCursorResponse;
  relay_send_response : bool;
  relay_accepted_frame_count : nat;
  relay_duplicate_frame_count : nat }.

(** The errors of a session in transition. *)
Definition is_transition_error (e : RoomError) : bool :=
  match e with NotPlaying | StaleRoomEpoch | StaleSessionEpoch => true | _ => false end.

(** The status test of a session in transition. *)
Definition transition_in_progress (r : NetplayRoom) : bool :=
  (status r !=? Playing)
  && (is_some (state_recovery r) || is_some (pause_state r)
      || (status r ==? StartScheduled) || (status r ==? RepairingState) || (status r ==? Recovering)).

Definition epochs_text (room_epoch session_epoch : N) : string :=
  (decimal room_epoch ++ "/" ++ decimal session_epoch)%string.
Definition range_text (first last : N) : string := (decimal first ++ "..=" ++ decimal last)%string.
Definition cursor_status_text (r : NetplayRoom) : string :=
  (", next release " ++ decimal (next_release_frame r) ++ ", status " ++ room_status_debug (status r))%string.

Definition strict_error_detail (batch : StrictInputBatch) (r : NetplayRoom) : string :=
  ("ignored v5 transition input: expected room/session " ++ epochs_text (room_epoch r) (session_epoch r)
   ++ ", received " ++ epochs_text (batch_room_epoch batch) (batch_session_epoch batch)
   ++ ", player " ++ decimal (zero_based (batch_player_index batch))
   ++ ", frames " ++ range_text (batch_start_frame batch) (end_frame batch) ++ cursor_status_text r)%string.

Definition strict_transition_detail (batch : StrictInputBatch) (nack : InputCursorNack) (r : NetplayRoom)
    : string :=
  ("ignored v5 transition input response: expected room/session "
   ++ epochs_text (nack_room_epoch nack) (nack_session_epoch nack)
   ++ ", received " ++ epochs_text (batch_room_epoch batch) (batch_session_epoch batch)
   ++ ", player " ++ decimal (zero_based (nack_player_index nack))
   ++ ", expected frame " ++ decimal (nack_expected_frame nack)
   ++ ", received frames " ++ range_text (batch_start_frame batch) (end_frame batch)
   ++ ", reason " ++ nack_reason_debug (nack_reason nack) ++ cursor_status_text r)%string.

Definition strict_nack_detail (batch : StrictInputBatch) (nack : InputCursorNack) (r : NetplayRoom) : string :=
  ("nacked v5 input cursor: room/session " ++ epochs_text (nack_room_epoch nack) (nack_session_epoch nack)
   ++ ", player " ++ decimal (zero_based (nack_player_index nack))
   ++ ", expected frame " ++ decimal (nack_expected_frame nack)
   ++ ", received frame " ++ decimal (nack_received_frame nack)
   ++ ", reason " ++ nack_reason_debug (nack_reason nack)
   ++ ", batch " ++ range_text (batch_start_frame batch) (end_frame batch) ++ cursor_status_text r)%string.

(** The end of [relay_strict_input_batch_impl]: publish what was accepted. *)
Definition publish_strict (c : ConnectionId) (outcome : StrictInputBatchOutcome)
    : M Cell RoomError StrictInputRelayOutcome :=
  match outcome_accepted_batch outcome with
  | Some batch => on_stored_room (emit_strict_input_batch c batch)
  | None => mret tt
  end ;;
  mret (mkStrictInputRelayOutcome (outcome_response outcome) true
          (from_option (λ batch, length (batch_payloads batch)) 0%nat (outcome_accepted_batch outcome))
          (outcome_duplicate_frame_count outcome)).

Definition relay_strict_input_batch (c : ConnectionId) (batch : StrictInputBatch)
    : M Cell RoomError StrictInputRelayOutcome :=
  result ← attempt (on_netplay_room (accept_strict_input_batch c batch));
  cell ← get;
  let r := stored_room (cell_room cell) in
  match result with
  | Err error =>
      if is_transition_error error then
        emit_recorded (record_debug_event wall_ms now "v5TransitionInputIgnored" (strict_error_detail batch r)) ;;
        mret (mkStrictInputRelayOutcome
                (Nack (mkInputCursorNack (room_epoch r) (session_epoch r) (batch_player_index batch)
                         (expected_frame (batch_player_index batch) r) (batch_start_frame batch) SessionState))
                false 0 0)
      else throw error
  | Ok outcome =>
      match outcome_response outcome with
      | Nack nack =>
          if transition_in_progress r then
            emit_recorded (record_debug_event wall_ms now "v5TransitionInputIgnored"
                             (strict_transition_detail batch nack r)) ;;
            mret (mkStrictInputRelayOutcome (outcome_response outcome) false 0
                    (outcome_duplicate_frame_count outcome))
          else
            emit_recorded (record_debug_event wall_ms now "v5InputCursorNacked"
                             (strict_nack_detail batch nack r)) ;;
            publish_strict c outcome
      | Ack _ => publish_strict c outcome
      end
  end.

Inductive HostFrameRelayOutcome :=
| RelayBroadcast
| RelayDuplicate (release : ServerFrameReleaseV5)
| RelayIgnoredTransitionBoundary
| RelayPending (delay_ms room_epoch session_epoch frame : N).

Definition open_error_detail (open : HostFrameOpen) (r : NetplayRoom) : string :=
  ("ignored v5 transition host open: expected room/session " ++ epochs_text (room_epoch r) (session_epoch r)
   ++ ", received " ++ epochs_text (open_room_epoch open) (open_session_epoch open)
   ++ ", expected frame " ++ decimal (next_release_frame r)
   ++ ", received frame " ++ decimal (open_frame open)
   ++ ", status " ++ room_status_debug (status r))%string.

Definition open_ignored_detail (open : HostFrameOpen) (r : NetplayRoom) : string :=
  ("ignored v5 transition host open: room/session " ++ epochs_text (room_epoch r) (session_epoch r)
   ++ ", expected frame " ++ decimal (next_release_frame r)
   ++ ", received frame " ++ decimal (open_frame open)
   ++ ", status " ++ room_status_debug (status r))%string.

(** What [relay_host_frame_open_impl] does with the outcome of the room. [now'] is the second
    reading of the clock, for the debug event. *)
Definition reply_host_frame_open (now' : Instant) (open : HostFrameOpen)
    (result : result RoomError HostFrameOpenOutcome) : M Cell (fault RoomError) HostFrameRelayOutcome :=
  cell ← get;
  let r := stored_room (cell_room cell) in
  match result with
  | Err error =>
      if is_transition_error error then
        emit_recorded (record_debug_event wall_ms now' "v5TransitionHostOpenIgnored"
                         (open_error_detail open r)) ;;
        mret RelayIgnoredTransitionBoundary
      else throw (Error error)
  | Ok (Released release) => on_stored_room (emit_v5_server_frame release) ;; mret RelayBroadcast
  | Ok (Duplicate release) => mret (RelayDuplicate release)
  | Ok IgnoredTransitionBoundary =>
      emit_recorded (record_debug_event wall_ms now' "v5TransitionHostOpenIgnored"
                       (open_ignored_detail open r)) ;;
      mret RelayIgnoredTransitionBoundary
  | Ok (Pending delay_ms) =>
      frame ← expect (pending_host_frame_open r);
      mret (RelayPending delay_ms (room_epoch r) (session_epoch r) frame)
  end.

Definition relay_host_frame_open (now' : Instant) (c : ConnectionId) (open : HostFrameOpen)
    : M Cell (fault RoomError) HostFrameRelayOutcome :=
  result ← failing (attempt (on_netplay_room (accept_host_frame_open c open (server_time_ms_at deps now))));
  reply_host_frame_open now' open result.

Inductive ScheduledHostFrameReleaseOutcome :=
| WakeReleased
| WakeSuperseded
| WakeRetryAfter (ms : N).

Definition release_scheduled_v5_host_frame (room_epoch_ session_epoch_ frame : N)
    : M Cell RoomError ScheduledHostFrameReleaseOutcome :=
  cell ← get;
  let r := stored_room (cell_room cell) in
  if (room_epoch r !=? room_epoch_) || (session_epoch r !=? session_epoch_)
     || (pending_host_frame_open r !=? Some frame)
  then mret WakeSuperseded
  else
    let server_time_ms := server_time_ms_at deps now in
    start ← lift_result (ok_or (scheduled_start r) RoomNotReady);
    if server_time_ms <? start_server_time_ms start
    then mret (WakeRetryAfter (start_server_time_ms start - server_time_ms))
    else
      released ← (λ cell, let '(b, s) := emit_due_v5_server_frame server_time_ms (cell_room cell) in
                          (Ok b, cell <| cell_room := s |>));
      if negb released then throw RoomNotReady else mret WakeReleased.

(** ** ROM relay *)

Definition prepare_rom_relay (code : InviteCode) (c : ConnectionId)
    : Registry → result RomRelayBlockReason RomRelayTransferIntent :=
  read_room BlockMissingIdentity code (λ s, prepare_rom_relay_transfer c (stored_room s)).

Definition grant_rom_relay_upload (c : ConnectionId) (grants : RomRelayGrantPair)
    : M Cell (fault RomRelayBlockReason) unit :=
  upload ← failing (on_netplay_room (accept_rom_relay_grants c grants));
  on_stored_room_expect (emit_rom_relay_upload_granted wall_ms now upload) ;;
  record_recent.

Definition relay_rom_relay_progress (c : ConnectionId) (progress : RomRelayProgress)
    : M Cell RomRelayBlockReason unit :=
  cell ← get;
  lift_result (accept_rom_relay_progress c progress (stored_room (cell_room cell))) ;;
  emit_recorded (emit_rom_relay_progress wall_ms now c progress).

(** Only the last event of the two goes to the feed. *)
Definition relay_rom_relay_completed (c : ConnectionId) (completion : RomRelayCompletion)
    : M Cell (fault RomRelayBlockReason) unit :=
  download ← failing (on_netplay_room (accept_rom_relay_completion c completion));
  on_stored_room (emit_rom_relay_completed wall_ms now c completion) ;;
  match download with
  | Some (_, grant) => on_stored_room_expect (emit_rom_relay_download_granted wall_ms now grant)
  | None => mret tt
  end ;;
  record_recent.

Definition relay_rom_relay_failed (c : ConnectionId) (failure : RomRelayFailure)
    : M Cell RomRelayBlockReason unit :=
  on_netplay_room (accept_rom_relay_failure c failure) ;;
  emit_recorded (emit_rom_relay_failed wall_ms now c failure).

Definition relay_rom_relay_cancelled (c : ConnectionId) (cancelled : RomRelayCancelled)
    : M Cell RomRelayBlockReason unit :=
  on_netplay_room (accept_rom_relay_cancelled c cancelled) ;;
  emit_recorded (emit_rom_relay_cancelled wall_ms now c cancelled).
End relay.
