(* ===== verification/RegistryRefinement.v ===== *)
(** * The registry refines the room state machine

  Every operation of the registry evolves a stored room only through the actions of System,
  broadcasts on the input lane exactly the frames those actions release, and keeps the
  room's bounded debug log. [Call] is the closed set of the registry's mutating operations
  and [serve] runs one. *)

From Stdlib Require Import Strings.Byte.
From S2P Require Import Prelude Ids Wire StrictInput Text Compatibility Descriptor Protocol Invite Slots.
From S2P Require Import LegacyCodec RelayBuffer PauseState SnapshotTransfer LinkState RoomTransactions AdaptiveDelay Room.
From S2P Require Import StartSync Connection PauseOps InputRelay HostFrame StateHash SnapshotOps LinkOps.
From S2P Require Import System FrameInvariant ReleaseLog Scenario RoomEvents StoredRoom Registry RegistryRelay.
Open Scope N_scope.

(** ** Calls *)

Inductive RoomCall :=
| CallJoinGuest (resume input : string) (guest : VerifiedLicense) (c : ConnectionId)
| CallConnectHost (resume input : string) (host : VerifiedLicense) (c : ConnectionId)
    (capabilities : ClientTransportCapabilities)
| CallConnectGuest (resume input : string) (guest : VerifiedLicense) (c : ConnectionId)
    (capabilities : ClientTransportCapabilities)
| CallReconnect (next_resume input : string) (p : PlayerIndex) (room_epoch : N) (resume : string)
    (c : ConnectionId) (capabilities : ClientTransportCapabilities)
| CallArmHandoff (c : ConnectionId)
| CallCancelHandoff (c : ConnectionId)
| CallTransportClose (c : ConnectionId) (socket_kind reason : string)
| CallPlayerExited (c : ConnectionId) (reason : string)
| CallConnectInput (p : PlayerIndex) (room_epoch session_epoch : N) (token : string) (c : ConnectionId)
| CallDisconnectInput (c : ConnectionId)
| CallRefreshVoice (c : ConnectionId) (grant : VoiceBrokerGrant)
| CallInputFrame (c : ConnectionId) (input : InputFrame)
| CallInputBatch (c : ConnectionId) (batch : InputFrameBatch)
| CallFastBatch (c : ConnectionId) (batch : FastInputBatch)
| CallLinkPacket (c : ConnectionId) (packet : LinkCablePacket)
| CallStateHash (c : ConnectionId) (report : StateHashReport)
| CallPinRecovery (c : ConnectionId) (room_epoch session_epoch : N) (pin : StateRecoveryPin)
| CallHeartbeat (c : ConnectionId) (local_frame : option N) (network : option ClientNetworkQualityReport)
    (state : ClientRuntimeState)
| CallPause (c : ConnectionId) (request_id : string) (reason : SessionPauseReason) (local_frame : N)
| CallPauseReached (c : ConnectionId) (sequence frame : N)
| CallResume (c : ConnectionId) (request_id : string) (sequence : N)
| CallCompatibility (c : ConnectionId) (fingerprint : CompatibilityFingerprint)
| CallLinkCompatibility (c : ConnectionId) (compatibility : LinkCableCompatibility)
| CallMarkReady (c : ConnectionId) (network : option ClientNetworkQualityReport)
| CallSnapshotChunk (c : ConnectionId) (chunk : SnapshotChunk)
| CallSnapshotComplete (c : ConnectionId) (manifest : SnapshotManifest)
| CallFileRelayGrant (c : ConnectionId) (manifest : SnapshotManifest) (grants : SnapshotFileRelayGrantPair)
| CallFileRelayUploaded (c : ConnectionId) (transfer_id : string) (manifest : SnapshotManifest)
| CallClockSample (c : ConnectionId) (sample : ClockSyncSample)
| CallDeterministicReady (c : ConnectionId) (network : option ClientNetworkQualityReport)
| CallStrictInput (c : ConnectionId) (batch : StrictInputBatch)
| CallHostOpen (now' : Instant) (c : ConnectionId) (open : HostFrameOpen)
| CallScheduledRelease (room_epoch session_epoch frame : N)
| CallRomGrants (c : ConnectionId) (grants : RomRelayGrantPair)
| CallRomProgress (c : ConnectionId) (progress : RomRelayProgress)
| CallRomCompleted (c : ConnectionId) (completion : RomRelayCompletion)
| CallRomFailed (c : ConnectionId) (failure : RomRelayFailure)
| CallRomCancelled (c : ConnectionId) (cancelled : RomRelayCancelled).

Inductive Call :=
| CallCreate (id : RoomId) (code : InviteCode) (resume input : string)
    (voice : option CreateVoiceRoomBrokerResponse) (host : VerifiedLicense) (c : ConnectionId)
    (session : NetplaySessionDescriptor) (version : N)
| CallRoom (code : InviteCode) (call : RoomCall)
| CallDisconnect (code : InviteCode) (c : ConnectionId)
| CallSweep (join_timeout : Duration)
| CallReleaseFrames.

Section calls.
Context (deps : RegistryDeps) (wall_ms : N) (now : Instant).

(** The registry and what it returns are kept apart: [effect] is the cell after the call. *)
Definition effect {E A} (m : M Cell E A) (c : Cell) : Cell := (m c).2.

Definition room_effect (call : RoomCall) : Cell → Cell :=
  match call with
  | CallJoinGuest resume input guest c => effect (join_guest_body deps wall_ms now resume input guest c)
  | CallConnectHost resume input host c caps =>
      effect (connect_host_body deps wall_ms now resume input host c caps)
  | CallConnectGuest resume input guest c caps =>
      effect (connect_guest_body deps wall_ms now resume input guest c caps)
  | CallReconnect next input p re resume c caps =>
      effect (reconnect_player_body deps wall_ms now next input p re resume c caps)
  | CallArmHandoff c => effect (arm_runner_handoff_body deps wall_ms now c)
  | CallCancelHandoff c => effect (cancel_runner_handoff_body c)
  | CallTransportClose c kind reason => effect (record_transport_close_body wall_ms now c kind reason)
  | CallPlayerExited c reason => effect (player_exited_body deps wall_ms now c reason)
  | CallConnectInput p re se token c => effect (connect_input_socket_body deps wall_ms now p re se token c)
  | CallDisconnectInput c => effect (disconnect_input_socket_body deps wall_ms now c)
  | CallRefreshVoice c grant => effect (refresh_voice_token_body now c grant)
  | CallInputFrame c input => effect (relay_input_frame c input)
  | CallInputBatch c batch => effect (relay_input_frame_batch c batch)
  | CallFastBatch c batch => effect (relay_fast_input_batch c batch)
  | CallLinkPacket c packet => effect (relay_link_cable_packet wall_ms now c packet)
  | CallStateHash c report => effect (record_state_hash wall_ms now c report)
  | CallPinRecovery c re se pin => effect (pin_state_recovery wall_ms now c re se pin)
  | CallHeartbeat c frame network state => effect (record_heartbeat_op wall_ms now c frame network state)
  | CallPause c id reason frame => effect (request_session_pause wall_ms now c id reason frame)
  | CallPauseReached c sequence frame => effect (mark_session_pause_reached deps wall_ms now c sequence frame)
  | CallResume c id sequence => effect (request_session_resume deps wall_ms now c id sequence)
  | CallCompatibility c fingerprint => effect (set_compatibility_op wall_ms now c fingerprint)
  | CallLinkCompatibility c l => effect (set_link_cable_compatibility_op wall_ms now c l)
  | CallMarkReady c network => effect (mark_ready_op deps wall_ms now c network)
  | CallSnapshotChunk c chunk => effect (relay_snapshot_chunk deps wall_ms now c chunk)
  | CallSnapshotComplete c m => effect (relay_snapshot_complete deps wall_ms now c m)
  | CallFileRelayGrant c m grants => effect (grant_snapshot_file_relay_upload wall_ms now c m grants)
  | CallFileRelayUploaded c id m => effect (relay_snapshot_file_upload_complete wall_ms now c id m)
  | CallClockSample c sample => effect (record_clock_sync_sample deps wall_ms now c sample)
  | CallDeterministicReady c network => effect (mark_deterministic_ready_op deps wall_ms now c network)
  | CallStrictInput c batch => effect (relay_strict_input_batch wall_ms now c batch)
  | CallHostOpen now' c open => effect (relay_host_frame_open deps wall_ms now now' c open)
  | CallScheduledRelease re se frame => effect (release_scheduled_v5_host_frame deps now re se frame)
  | CallRomGrants c grants => effect (grant_rom_relay_upload wall_ms now c grants)
  | CallRomProgress c progress => effect (relay_rom_relay_progress wall_ms now c progress)
  | CallRomCompleted c completion => effect (relay_rom_relay_completed wall_ms now c completion)
  | CallRomFailed c failure => effect (relay_rom_relay_failed wall_ms now c failure)
  | CallRomCancelled c cancelled => effect (relay_rom_relay_cancelled wall_ms now c cancelled)
  end.

Definition serve (call : Call) (g : Registry) : Registry :=
  match call with
  | CallCreate id code resume input voice host c session version =>
      (create_room deps now id code resume input voice host c session version g).2
  | CallRoom code call =>
      (with_room tt code (λ c, (Ok tt, room_effect call c)) g).2
  | CallDisconnect code c => (disconnect deps wall_ms now code c g).2
  | CallSweep join_timeout => (sweep_expired_rooms deps wall_ms now join_timeout g).2
  | CallReleaseFrames => (release_next_controller_frames deps now g).2
  end.
End calls.

(** The registries reachable from an empty one; each call has its own clock readings. *)
Inductive reachable (deps : RegistryDeps) : Registry → Prop :=
| reachable_new : reachable deps Registry_new
| reachable_serve wall_ms now call g :
    reachable deps g → reachable deps (serve deps wall_ms now call g).

(** [serve] is what the operation does to the registry, whatever it returns. *)
Lemma with_room_effect {E A} (missing : E) code (m : M Cell E A) g :
  (with_room missing code m g).2 = (with_room tt code (λ c, (Ok (E := unit) tt, effect m c)) g).2.
Proof. unfold with_room, effect. destruct (invite_codes g !! _); [|done]. by destruct (m _). Qed.

(** ** What a stored room broadcasts and logs *)

Definition release_of (e : RoomInputEvent) : option ReleaseEvent :=
  match e with
  | InputEventServerFrame f => Some (mkReleaseEvent (server_session_epoch f) (server_frame f))
  | InputEventServerFrameV5 release => Some (v5_event release)
  | _ => None
  end.

(** The frames a stored room has announced to its input sockets, in order. *)
Definition broadcasts (s : StoredRoom) : list ReleaseEvent := omap release_of (input_events s).

(** The debug log has the default capacity and holds the latest events, in sequence. *)
Definition event_log_ok (s : StoredRoom) : Prop :=
  log_capacity (debug_log s) = DEFAULT_ROOM_EVENT_CAPACITY ∧
  (length (log_events (debug_log s)) ≤ DEFAULT_ROOM_EVENT_CAPACITY)%nat ∧
  (event_seq s < u64_max →
   debug_event_seq <$> log_events (debug_log s)
   = frames_from (event_seq s + 1 - N.of_nat (length (log_events (debug_log s))))
       (length (log_events (debug_log s))) ∧
   N.of_nat (length (log_events (debug_log s))) = N.min (event_seq s) (N.of_nat DEFAULT_ROOM_EVENT_CAPACITY)).

Lemma frames_from_tail s n : tail (frames_from s n) = frames_from (s + 1) (pred n).
Proof.
  unfold frames_from. destruct n as [|n]; [done|]. cbn [seq fmap list_fmap tail pred].
  rewrite <-fmap_S_seq, <-list_fmap_compose. apply list_fmap_ext. intros i x _. unfold compose. lia.
Qed.

Lemma fmap_tail {A B} (f : A → B) l : f <$> tail l = tail (f <$> l).
Proof. by destruct l. Qed.

Lemma length_tail {A} (l : list A) : length (tail l) = pred (length l).
Proof. by destruct l. Qed.

(** One more event: the oldest makes room when the log is full. *)
Lemma event_log_push e s :
  event_log_ok s → debug_event_seq e = u64_add (event_seq s) 1 →
  event_log_ok (s <| event_seq := u64_add (event_seq s) 1 |> <| debug_log ::= log_push e |>).
Proof.
  intros (Hc & Hlen & Hseq) He. unfold event_log_ok. cbn [upd set_debug_log set_event_seq debug_log event_seq].
  unfold log_push. rewrite Hc. cbn [log_capacity log_events].
  set (l := log_events (debug_log s)) in *.
  assert (event_seq s < u64_max → N.of_nat (length l) = N.min (event_seq s) 200) as Hn by (intros H; apply Hseq in H as [_ ->]; done).
  change (N.of_nat DEFAULT_ROOM_EVENT_CAPACITY) with 200 in *. change DEFAULT_ROOM_EVENT_CAPACITY with 200%nat in *.
  unfold u64_add, saturating_add in *.
  destruct (Nat.leb_spec 200 (length l)) as [Hfull|Hroom]; split; [done| |done|]; split.
  - rewrite length_app, length_tail. simpl. lia.
  - intros Hlt. assert (event_seq s < u64_max) as Hlt' by lia. destruct (Hseq Hlt') as [Hs _].
    rewrite fmap_app, fmap_tail, Hs, frames_from_tail, length_app, length_tail. simpl. rewrite He.
    replace (Nat.pred (length l)) with 199%nat by lia. replace (length l) with 200%nat by lia.
    replace (N.min (event_seq s + 1) u64_max) with (event_seq s + 1) by lia. specialize (Hn Hlt').
    split; [|lia]. change (199 + 1)%nat with (S 199).
    rewrite (frames_from_snoc _ 199). f_equal; [f_equal; lia|f_equal; lia].
  - rewrite length_app. simpl. lia.
  - intros Hlt. assert (event_seq s < u64_max) as Hlt' by lia. destruct (Hseq Hlt') as [Hs _].
    rewrite fmap_app, Hs, length_app. simpl. rewrite He. specialize (Hn Hlt').
    replace (N.min (event_seq s + 1) u64_max) with (event_seq s + 1) by lia.
    split; [|lia]. rewrite Nat.add_1_r, (frames_from_snoc _ (length l)). f_equal; [f_equal; lia|f_equal; lia].
Qed.

(** ** Evolution of a stored room *)

Section evolution.
Context (sha256 : bytes → bytes).

Lemma run_app l1 l2 r :
  run sha256 (l1 ++ l2) r
  = ((run sha256 l1 r).1 ++ (run sha256 l2 (run sha256 l1 r).2).1, (run sha256 l2 (run sha256 l1 r).2).2).
Proof.
  revert r. induction l1 as [|a l1 IH]; intros r; cbn [app run]; [apply surjective_pairing|].
  destruct (step sha256 a r) as [events r1]. rewrite IH. destruct (run sha256 l1 r1) as [log r2]. cbn [fst snd].
  by rewrite app_assoc.
Qed.

(** [s'] comes from [s] by actions of its room, whose releases are what [s'] broadcast since. *)
Record evolves (s s' : StoredRoom) : Prop := {
  evolves_room : ∃ actions,
    (run sha256 actions (stored_room s)).2 = stored_room s' ∧
    broadcasts s' = broadcasts s ++ (run sha256 actions (stored_room s)).1;
  evolves_log : event_log_ok s → event_log_ok s' }.

#[export] Instance evolves_preorder : PreOrder evolves.
Proof.
  split.
  - intros s. split; [|done]. exists []. by rewrite app_nil_r.
  - intros s1 s2 s3 [(l1 & H1 & B1) L1] [(l2 & H2 & B2) L2]. split; [|auto].
    exists (l1 ++ l2). rewrite run_app, H1. cbn [fst snd]. split; [done|]. by rewrite B2, B1, app_assoc.
Qed.

(** One action that releases [log]. *)
Lemma evolves_step a s s' :
  stored_room s' = (step sha256 a (stored_room s)).2 →
  broadcasts s' = broadcasts s ++ (step sha256 a (stored_room s)).1 →
  (event_log_ok s → event_log_ok s') → evolves s s'.
Proof.
  intros Hr Hb Hl. split; [|done]. exists [a]. cbn [run].
  destruct (step sha256 a (stored_room s)) as [ev r]. cbn [fst snd] in *. by rewrite app_nil_r.
Qed.

(** No action and no release: only events are sent or recorded. *)
Definition announces (f : StoredRoom → StoredRoom) : Prop := ∀ s,
  stored_room (f s) = stored_room s ∧ broadcasts (f s) = broadcasts s ∧ (event_log_ok s → event_log_ok (f s)).

Lemma announces_evolves f s : announces f → evolves s (f s).
Proof. intros H. destruct (H s) as (Hr & Hb & Hl). split; [|done]. exists []. by rewrite app_nil_r, Hr. Qed.

Lemma announces_comp f g : announces f → announces g → announces (λ s, f (g s)).
Proof. intros Hf Hg s. destruct (Hf (g s)) as (-> & -> & ?), (Hg s) as (-> & -> & ?). auto. Qed.

Lemma announces_foldl {X} (f : StoredRoom → X → StoredRoom) l :
  (∀ x, announces (λ s, f s x)) → announces (λ s, foldl f s l).
Proof.
  intros Hf. induction l as [|x l IH]; intros s; [done|]. cbn [foldl].
  destruct (IH (f s x)) as (-> & -> & ?), (Hf x s) as (-> & -> & ?). auto.
Qed.

Lemma record_event_announces w now kind detail : announces (λ s, (record_event w now kind detail s).2).
Proof. intros s. split; [done|]. split; [done|]. intros H. by apply (event_log_push _ s). Qed.

Lemma emit_announces w now kind detail event : announces (emit w now kind detail event).
Proof.
  intros s. unfold emit. destruct (record_event_announces w now kind detail s) as (Hr & Hb & Hl).
  destruct (record_event w now kind detail s) as [room s1]. exact (conj Hr (conj Hb Hl)).
Qed.

Lemma synchronize_announces : announces synchronize_input_runtime_epoch.
Proof. intros s. unfold synchronize_input_runtime_epoch. by destruct (_ && _). Qed.

Lemma send_announces e : release_of e = None → announces (send_input e).
Proof.
  intros He s. split; [done|]. split; [|done]. unfold broadcasts. cbn. rewrite omap_app. cbn. rewrite He.
  by rewrite app_nil_r.
Qed.

(** ** Bodies under the lock *)

(** A method of the room that is one silent action of the state machine. *)
Definition is_action {E A} (m : M NetplayRoom E A) : Prop := ∃ a, ∀ r, step sha256 a r = ([], (m r).2).

Context (s0 : StoredRoom).

Definition tracks (c : Cell) : Prop := evolves s0 (cell_room c).

Lemma tracks_evolves s f c : tracks c → evolves (cell_room c) s → tracks (mkCell s f).
Proof. unfold tracks. intros. by etrans. Qed.

Lemma on_netplay_room_tracks {E A} (m : M NetplayRoom E A) : is_action m → keeps tracks (on_netplay_room m).
Proof.
  intros [a Ha] c Hc. unfold on_netplay_room. specialize (Ha (stored_room (cell_room c))).
  destruct (m _) as [o r]. apply (tracks_evolves _ _ c Hc), (evolves_step a); rewrite ?Ha; [done| |done].
  by rewrite app_nil_r.
Qed.

Lemma on_stored_room_tracks {E} f : announces f → keeps tracks (on_stored_room (E := E) f).
Proof. intros Hf c Hc. apply (tracks_evolves _ _ c Hc). by apply announces_evolves. Qed.

Lemma record_recent_tracks {E} : keeps tracks (record_recent (E := E)).
Proof. by intros c Hc. Qed.

Lemma on_stored_room_expect_tracks {E} f :
  (∀ s s', f s = Some s' → evolves s s') → keeps tracks (on_stored_room_expect (E := E) f).
Proof.
  intros Hf c Hc. unfold on_stored_room_expect, expect, lift_result, mbind, M_bind, get, on_stored_room, modify.
  destruct (f (cell_room c)) as [s'|] eqn:Es; [|done]. apply (tracks_evolves _ _ c Hc), Hf, Es.
Qed.

Lemma failing_tracks {E A} (m : M Cell E A) : keeps tracks m → keeps tracks (failing m).
Proof. intros Hm c Hc. specialize (Hm c Hc). unfold failing. by destruct (m c). Qed.

(** A method that returns a value and cannot fail. *)
Lemma lift_total_action {A E} (f : NetplayRoom → A * NetplayRoom) a :
  (∀ r, step sha256 a r = ([], (f r).2)) → is_action (E := E) (lift_total f).
Proof. intros Ha. exists a. intros r. rewrite Ha. unfold lift_total. by destruct (f r). Qed.

(** Reading a method's result afterwards. *)
Lemma bind_action {E A B} (m : M NetplayRoom E A) (k : A → M NetplayRoom E B) :
  is_action m → (∀ a r, (k a r).2 = r) → is_action (m ≫= k).
Proof.
  intros [a Ha] Hk. exists a. intros r. rewrite Ha. f_equal. unfold mbind, M_bind.
  destruct (m r) as [[x|e] r']; [by rewrite Hk|done].
Qed.
End evolution.

#[export] Hint Resolve on_netplay_room_tracks on_stored_room_tracks record_recent_tracks failing_tracks
  emit_announces synchronize_announces : relay.

(** The action of each method. *)
Ltac action :=
  lazymatch goal with
  | |- is_action _ (join_guest_with_resume ?l ?c ?r ?i ?n ?k) => exists (JoinGuest l c r i n k)
  | |- is_action _ (attach_host_with_resume ?l ?c ?r ?i ?n ?k) => exists (AttachHost l c r i n k)
  | |- is_action _ (player_exited ?c ?n) => exists (PlayerExited c n)
  | |- is_action _ (arm_runner_handoff ?c ?n ?g) => exists (ArmHandoff c n g)
  | |- is_action _ (cancel_runner_handoff ?c) => exists (CancelHandoff c)
  | |- is_action _ (disconnect_with_recovery ?c ?n ?g) => exists (Disconnect c n g)
  | |- is_action _ (reconnect_player ?q) => exists (Reconnect q)
  | |- is_action _ (record_heartbeat ?c ?n ?f ?w ?s) => exists (Heartbeat c n f w s)
  | |- is_action _ (attach_input_socket ?p ?r ?s ?t ?c ?n) => exists (AttachInput p r s t c n)
  | |- is_action _ (disconnect_input_socket ?c ?n ?g) => exists (DisconnectInput c n g)
  | |- is_action _ (set_compatibility_for_connection ?c ?f) => exists (SetCompatibility c f)
  | |- is_action _ (mark_ready ?c ?w ?n) => exists (MarkReady c w n)
  | |- is_action _ (accept_clock_sync_sample ?c ?s ?n ?t) => exists (ClockSample c s n t)
  | |- is_action _ (mark_deterministic_ready ?c ?w ?n ?t) => exists (DeterministicReady c w n t)
  | |- is_action _ (request_session_pause_with_id ?c ?i ?r ?f) => exists (RequestPause c i r f)
  | |- is_action _ (mark_session_pause_reached_internal ?c ?q ?f ?t) => exists (PauseReached c q f t)
  | |- is_action _ (request_session_resume_internal ?c ?i ?q ?t) => exists (RequestResume c i q t)
  | |- is_action _ (accept_input_frame_cursors ?c ?i ?l) => exists (LegacyInputIn c i l)
  | |- is_action _ (accept_strict_input_batch ?c ?b) => exists (StrictInputIn c b)
  | |- is_action _ (accept_state_hash ?c ?r ?n) => exists (StateHashIn c r n)
  | |- is_action _ (accept_v5_state_recovery_pin_for_epoch ?c ?r ?s ?p ?l) => exists (PinRecovery c r s p l)
  | |- is_action _ (accept_snapshot_chunk _ ?c ?k ?l) => exists (SnapshotChunkIn c k l)
  | |- is_action _ (accept_snapshot_complete _ ?c ?m ?l) => exists (SnapshotCompleteIn c m l)
  | |- is_action _ (accept_snapshot_file_relay_grant ?c ?m ?g ?l) => exists (FileRelayGrant c m g l)
  | |- is_action _ (accept_snapshot_file_relay_upload_complete ?c ?i ?m ?l) =>
      exists (FileRelayUploaded c i m l)
  | |- is_action _ (set_link_cable_compatibility_for_connection ?c ?l) => exists (LinkCompatibility c l)
  | |- is_action _ (accept_link_cable_packet ?c ?p ?l) => exists (LinkPacket c p l)
  | |- is_action _ (accept_rom_relay_grants ?c ?g) => exists (RomGrants c g)
  | |- is_action _ (accept_rom_relay_completion ?c ?x) => exists (RomCompletion c x)
  | |- is_action _ (accept_rom_relay_failure ?c ?x) => exists (RomFailure c x)
  | |- is_action _ (accept_rom_relay_cancelled ?c ?x) => exists (RomCancelled c x)
  | |- is_action _ (refresh_voice_grant ?c ?i ?t ?e) => exists (RefreshVoice c i t e)
  end; intros; reflexivity.
#[export] Hint Extern 1 (is_action _ _) => action : relay.

(** The events and records of a stored room. *)
Ltac announce :=
  lazymatch goal with |- announces (match ?x with _ => _ end) => destruct x | _ => idtac end;
  first [ apply emit_announces | apply record_event_announces
        | refine (announces_comp _ _ (emit_announces _ _ _ _ _) synchronize_announces) ].
#[export] Hint Extern 1 (announces _) => announce : relay.

Ltac unfold_body :=
  lazymatch goal with |- keeps _ ?m => let h := get_head m in unfold h end.

Section bodies.
Context (deps : RegistryDeps) (wall_ms : N) (now : Instant) (s0 : StoredRoom).
Local Abbreviation kept := (keeps (tracks (digest_of deps) s0)).

Lemma emit_view_tracks {E} kind detail : kept (emit_view (E := E) wall_ms now kind detail).
Proof. unfold emit_view. keeps_go. Qed.

Lemma emit_viewed_tracks {E} f : announces f → kept (emit_viewed (E := E) now f).
Proof. intros Hf. unfold emit_viewed. keeps_go. Qed.

Lemma emit_recorded_tracks {E} f : announces f → kept (emit_recorded (E := E) f).
Proof. intros Hf. unfold emit_recorded. keeps_go. Qed.
Hint Resolve emit_view_tracks emit_viewed_tracks emit_recorded_tracks : relay.

Lemma join_of_tracks p resume input kind detail : kept (join_of wall_ms now p resume input kind detail).
Proof. unfold join_of. keeps_go. Qed.
Hint Resolve join_of_tracks : relay.

(** ** The input lane *)

Lemma announces_synchronized (f : StoredRoom → StoredRoom) :
  announces f → announces (λ s, f (synchronize_input_runtime_epoch s)).
Proof. intros Hf. apply announces_comp; auto with relay. Qed.

Lemma relay_input_announces c input : announces (relay_accepted_input_frame c input).
Proof.
  apply (announces_synchronized (λ s,
    if is_some_and (released_frame (stored_room s)) (λ released, frame_frame input <=? released)
    then emit_input_frame_batch c input s
    else s <| input_relay_buffer ::= push_input c (room_epoch (stored_room s)) (session_epoch (stored_room s)) input |>)).
  intros s.
  destruct (is_some_and _ _); [by apply send_announces|done].
Qed.

Lemma relay_fast_announces c input : announces (relay_accepted_fast_input_frame c input).
Proof.
  apply (announces_synchronized (λ s,
    if is_some_and (released_frame (stored_room s)) (λ released, fast_frame input <=? released)
    then emit_fast_input_frame c input s else s <| fast_input_relay_buffer ::= push_fast c input |>)).
  intros s.
  destruct (is_some_and _ _); [by apply send_announces|done].
Qed.

Lemma relay_accepted_announces {I} (relay : I → StoredRoom → StoredRoom) inputs acceptances :
  (∀ i, announces (relay i)) → announces (relay_accepted relay inputs acceptances).
Proof.
  intros Hr. unfold relay_accepted. apply announces_foldl. intros [i a] s. destruct (a ==? Relay); [apply Hr|done].
Qed.

Lemma emit_strict_announces c batch : announces (emit_strict_input_batch c batch).
Proof. apply announces_synchronized. by apply send_announces. Qed.
Hint Resolve relay_input_announces relay_fast_announces relay_accepted_announces emit_strict_announces : relay.

Lemma accept_input_frame_action c input limits : is_action (digest_of deps) (accept_input_frame c input limits).
Proof.
  unfold accept_input_frame. apply bind_action; [auto with relay|]. intros [|? []] r; reflexivity.
Qed.

Lemma take_voice_action {E} : is_action (E := E) (digest_of deps) (lift_total take_voice_room_id_for_cleanup).
Proof. by apply (lift_total_action _ _ TakeVoice). Qed.

Lemma clock_request_action {E} t : is_action (E := E) (digest_of deps) (lift_total (request_clock_sync_sample t)).
Proof. by apply (lift_total_action _ _ (RequestClockSample t)). Qed.
Hint Resolve accept_input_frame_action take_voice_action clock_request_action : relay.

(** [maybe_schedule_adaptive_input_delay] leaves the room alone. *)
Lemma adaptive_delay_tracks {E} :
  kept (on_netplay_room (lift_total (E := E) (maybe_schedule_adaptive_input_delay now))).
Proof. intros c Hc. by destruct c as [[] ?]. Qed.
Hint Resolve adaptive_delay_tracks : relay.

Lemma publish_strict_tracks c outcome : kept (publish_strict c outcome).
Proof. unfold publish_strict. keeps_go. Qed.
Hint Resolve publish_strict_tracks : relay.

(** ** Releases *)

Lemma broadcast_evolves release s :
  stored_room (emit_v5_server_frame release s) = stored_room s ∧
  broadcasts (emit_v5_server_frame release s) = broadcasts s ++ [v5_event release] ∧
  (event_log_ok s → event_log_ok (emit_v5_server_frame release s)).
Proof.
  unfold emit_v5_server_frame. destruct (synchronize_announces s) as (Hr & Hb & Hl).
  split; [done|]. split; [|done]. unfold broadcasts in *. cbn. by rewrite omap_app, Hb.
Qed.

(** An announced method whose result decides what follows, started from the cell [c]. *)
Lemma after_release a c c1 :
  tracks (digest_of deps) s0 c →
  stored_room (cell_room c1) = (step (digest_of deps) a (stored_room (cell_room c))).2 →
  broadcasts (cell_room c1)
  = broadcasts (cell_room c) ++ (step (digest_of deps) a (stored_room (cell_room c))).1 →
  (event_log_ok (cell_room c) → event_log_ok (cell_room c1)) → tracks (digest_of deps) s0 c1.
Proof. intros Hc Hr Hb Hl. unfold tracks in *. etrans; [exact Hc|]. by eapply evolves_step. Qed.

(** Without a release the reply only records events. *)
Lemma reply_host_frame_open_tracks now' open o :
  host_open_events o = [] → kept (reply_host_frame_open wall_ms now' open o).
Proof.
  intros Ho. unfold reply_host_frame_open, expect. destruct o as [[]|]; [done|..]; keeps_go.
Qed.

Lemma relay_host_frame_open_tracks now' c open : kept (relay_host_frame_open deps wall_ms now now' c open).
Proof.
  intros cell Hc. set (t := server_time_ms_at deps now).
  assert (step (digest_of deps) (HostOpen c open t) (stored_room (cell_room cell))
          = (host_open_events (accept_host_frame_open c open t (stored_room (cell_room cell))).1,
             (accept_host_frame_open c open t (stored_room (cell_room cell))).2)) as Hstep.
  { cbn [step]. by destruct (accept_host_frame_open _ _ _ _). }
  unfold relay_host_frame_open, mbind, M_bind, failing, attempt, on_netplay_room. fold t.
  destruct (accept_host_frame_open c open t _) as [o r]. cbn [fst snd map_err] in *.
  set (c1 := cell <| cell_room ::= λ s, s <| stored_room := r |> |>).
  destruct (decide (host_open_events o = [])) as [Hq|Hq].
  - apply reply_host_frame_open_tracks; [done|].
    apply (after_release (HostOpen c open t) cell); rewrite ?Hstep; [done|done| |done].
    rewrite Hq. cbn [fst]. by rewrite app_nil_r.
  - destruct o as [[release| | |]|]; [|done..].
    destruct (broadcast_evolves release (cell_room c1)) as (Hr & Hb & Hl).
    apply (after_release (HostOpen c open t) cell); rewrite ?Hstep; [done|exact Hr|exact Hb|exact Hl].
Qed.

Lemma emit_due_evolves t s : evolves (digest_of deps) s (emit_due_v5_server_frame t s).2.
Proof.
  unfold emit_due_v5_server_frame. transitivity (synchronize_input_runtime_epoch s).
  { apply announces_evolves. auto with relay. }
  generalize (synchronize_input_runtime_epoch s) as s1. intros s1.
  assert (step (digest_of deps) (DueHostFrame t) (stored_room s1)
          = (v5_event <$> option_list (release_due_v5_host_frame t (stored_room s1)).1,
             (release_due_v5_host_frame t (stored_room s1)).2)) as Hstep.
  { cbn [step]. by destruct (release_due_v5_host_frame _ _). }
  destruct (release_due_v5_host_frame t (stored_room s1)) as [[release|] r]; cbn [fst snd] in *.
  - destruct (broadcast_evolves release (s1 <| stored_room := r |>)) as (Hr & Hb & Hl).
    apply (evolves_step _ (DueHostFrame t)); rewrite ?Hstep; [exact Hr|exact Hb|exact Hl].
  - apply (evolves_step _ (DueHostFrame t)); rewrite ?Hstep; [done|cbn; by rewrite app_nil_r|done].
Qed.

Lemma release_scheduled_tracks re se frame : kept (release_scheduled_v5_host_frame deps now re se frame).
Proof.
  unfold release_scheduled_v5_host_frame. keeps_go. intros cell Hc.
  pose proof (emit_due_evolves (server_time_ms_at deps now) (cell_room cell)) as H.
  destruct (emit_due_v5_server_frame _ _) as [b s]. by apply (tracks_evolves _ _ _ _ cell).
Qed.

Lemma rom_grant_evolves (event : RomRelayTransferState → N → N → RoomEvent) kind detail s s' :
  (transfer ← rom_relay_transfer (stored_room s); Some (emit_stamped wall_ms now kind detail (event transfer) s))
  = Some s' → evolves (digest_of deps) s s'.
Proof.
  destruct (rom_relay_transfer (stored_room s)) as [transfer|]; [|done]. intros [= <-].
  apply (announces_evolves _ (emit_stamped wall_ms now kind detail (event transfer))), emit_announces.
Qed.
Hint Resolve relay_host_frame_open_tracks release_scheduled_tracks : relay.

Lemma rom_upload_tracks {E} grant :
  kept (on_stored_room_expect (E := E) (emit_rom_relay_upload_granted wall_ms now grant)).
Proof. apply on_stored_room_expect_tracks. intros s s'. apply rom_grant_evolves. Qed.

Lemma rom_download_tracks {E} grant :
  kept (on_stored_room_expect (E := E) (emit_rom_relay_download_granted wall_ms now grant)).
Proof. apply on_stored_room_expect_tracks. intros s s'. apply rom_grant_evolves. Qed.
Hint Resolve rom_upload_tracks rom_download_tracks : relay.

(** Every call on one room. *)
Lemma room_effect_tracks call cell :
  tracks (digest_of deps) s0 cell → tracks (digest_of deps) s0 (room_effect deps wall_ms now call cell).
Proof.
  intros Hc. destruct call; cbn [room_effect]; unfold effect; (apply keeps_elim; [|exact Hc]).
  all: first [solve [auto with relay nocore] | unfold_body; keeps_go].
  - exact H.
  - destruct (performance_sample _ _ _ _ _ _); exact H.
  - unfold_body. keeps_go.
  - unfold_body. keeps_go.
  - unfold_body. keeps_go.
  - unfold_body. keeps_go.
Qed.

Lemma disconnect_body_tracks c : kept (disconnect_body deps wall_ms now c).
Proof. unfold disconnect_body. keeps_go. Qed.

(** ** The sweep and the frame clock *)

(** A total method of the room that is one silent action. *)
Lemma evolves_total {A} (f : NetplayRoom → A * NetplayRoom) a s :
  (∀ r, step (digest_of deps) a r = ([], (f r).2)) →
  evolves (digest_of deps) s (s <| stored_room := (f (stored_room s)).2 |>).
Proof. intros Ha. apply (evolves_step _ a); rewrite ?Ha; [done|cbn; by rewrite app_nil_r|done]. Qed.

Lemma expire_state_recovery_evolves s :
  evolves (digest_of deps) s (expire_state_recovery wall_ms now s).2.
Proof.
  unfold expire_state_recovery. destruct (tx_view <$> _) as [view|]; [|done].
  pose proof (evolves_total (close_expired_state_recovery now) (ExpireRecovery now) s (λ _, eq_refl)) as H.
  destruct (close_expired_state_recovery now (stored_room s)) as [closed r]. cbn [snd] in H.
  destruct closed; [|exact H]. etrans; [exact H|]. apply announces_evolves. auto with relay nocore.
Qed.

(** An event for the feed when a test held. *)
Lemma evolves_notify (b : bool) (log : list RoomDebugEvent) kind detail s :
  evolves (digest_of deps) s
    (if b then let s := emit_state wall_ms now kind detail s in (log ++ stored_debug_events 1 s, s)
     else (log, s)).2.
Proof. destruct b; [|done]. apply announces_evolves. auto with relay nocore. Qed.

Lemma sweep_room_evolves s : evolves (digest_of deps) s (sweep_room deps wall_ms now s).2.
Proof.
  unfold sweep_room. etrans; [apply expire_state_recovery_evolves|].
  destruct (expire_state_recovery wall_ms now s) as [[] s1]; [done|]. cbn [snd]. clear s.
  etrans; [exact (evolves_total (expire_runner_handoffs now) (ExpireHandoffs now) s1 (λ _, eq_refl))|].
  destruct (expire_runner_handoffs now (stored_room s1)) as [handoffs r]. cbn [snd].
  set (s2 := s1 <| stored_room := r |>).
  set (p3 := match handoffs with Some _ => _ | None => _ end).
  assert (evolves (digest_of deps) s2 p3.2) as H3.
  { subst p3. destruct handoffs; [|done]. apply announces_evolves. auto with relay nocore. }
  etrans; [exact H3|]. destruct p3 as [log3 s3]. cbn [snd]. clear s2 H3.
  unfold stored_mark_stale.
  pose proof (evolves_total (mark_stale_connections now (heartbeat_stale (recovery_config deps))
    (heartbeat_disconnect (recovery_config deps))) (MarkStale now _ _) s3 (λ _, eq_refl)) as H4.
  destruct (mark_stale_connections _ _ _ _) as [stale r4]. cbn [snd] in H4. etrans; [exact H4|]. clear H4.
  etrans; [apply (evolves_notify stale log3 "heartbeatStale" "heartbeat stale")|].
  destruct (if stale then _ else _) as [log5 s5]. cbn [snd]. clear s3 r4.
  unfold stored_recover_stale.
  pose proof (evolves_total (recover_stale_connections now (heartbeat_disconnect (recovery_config deps))
    (reconnect_grace (recovery_config deps))) (RecoverStale now _ _) s5 (λ _, eq_refl)) as H6.
  destruct (recover_stale_connections _ _ _ _) as [lost r6]. cbn [snd] in H6. etrans; [exact H6|]. clear H6.
  etrans; [apply (evolves_notify lost log5 "heartbeatTimedOut" "heartbeat timeout")|].
  by destruct (if lost then _ else _) as [log7 s7].
Qed.

(** Sending on the input lane what is not a release. *)
Lemma drained_announces {X} (event : X → RoomInputEvent) l :
  (∀ x, release_of (event x) = None) → announces (λ s, foldl (λ s x, send_input (event x) s) s l).
Proof. intros He. apply announces_foldl. intros x. by apply send_announces. Qed.
Lemma server_frame_broadcast frame s :
  broadcasts (send_input (InputEventServerFrame frame) s)
  = broadcasts s ++ [mkReleaseEvent (server_session_epoch frame) (server_frame frame)].
Proof. unfold broadcasts. cbn. by rewrite omap_app. Qed.

Lemma emit_next_evolves t s : evolves (digest_of deps) s (emit_next_server_frame t s).2.
Proof.
  unfold emit_next_server_frame. etrans; [apply announces_evolves, synchronize_announces|].
  generalize (synchronize_input_runtime_epoch s) as s1. intros s1.
  assert (step (digest_of deps) (ServerTick t) (stored_room s1)
          = ((λ f, mkReleaseEvent (server_session_epoch f) (server_frame f))
               <$> option_list (release_next_server_frame t (stored_room s1)).1,
             (release_next_server_frame t (stored_room s1)).2)) as Hstep.
  { cbn [step]. by destruct (release_next_server_frame _ _). }
  destruct (release_next_server_frame t (stored_room s1)) as [[frame|] r]; cbn [fst snd] in Hstep;
    [|apply (evolves_step _ (ServerTick t)); rewrite ?Hstep; [done|cbn; by rewrite app_nil_r|done]].
  set (s2 := s1 <| stored_room := r |>). destruct (drain_frame _ _ _ _) as [ready buffer]. cbv zeta.
  destruct (drained_announces (λ b, InputEventBatch (ready_source b) (ready_batch b)) ready (λ _, eq_refl)
              (s2 <| input_relay_buffer := buffer |>)) as (Hr & Hb & Hl).
  set (s3 := foldl _ (s2 <| input_relay_buffer := buffer |>) ready) in *.
  destruct (drain_fast_frame _ _ _ _) as [ready_fast buffer'].
  destruct (drained_announces (λ b, InputEventFast (fast_source b) (fast_buffered b)) ready_fast (λ _, eq_refl)
              (s3 <| fast_input_relay_buffer := buffer' |>)) as (Hr' & Hb' & Hl').
  set (s4 := foldl _ (s3 <| fast_input_relay_buffer := buffer' |>) ready_fast) in *. cbn [snd].
  apply (evolves_step _ (ServerTick t)); rewrite ?Hstep.
  - cbn [snd]. transitivity (stored_room s4); [done|]. rewrite Hr'. exact Hr.
  - rewrite server_frame_broadcast, Hb'. f_equal. exact Hb.
  - intros H. exact (Hl' (Hl H)).
Qed.
End bodies.

(** ** The registry *)

(** A freshly created room for the code [k]. *)
Definition fresh_room (k : list N) (r : NetplayRoom) : Prop :=
  ∃ id host c code session version resume input now,
    normalized code = k ∧ r = new_with_protocol_and_resume id host c code session version resume input now.

(** [s] is what a run of the state machine from a fresh room makes of it. *)
Definition refines_room (deps : RegistryDeps) (k : list N) (s : StoredRoom) : Prop :=
  ∃ r0, fresh_room k r0 ∧
  ∃ actions, run (digest_of deps) actions r0 = (broadcasts s, stored_room s).

Definition room_ok (deps : RegistryDeps) (k : list N) (s : StoredRoom) : Prop :=
  refines_room deps k s ∧ event_log_ok s.

Lemma room_ok_evolves deps k s s' : room_ok deps k s → evolves (digest_of deps) s s' → room_ok deps k s'.
Proof.
  intros [(r0 & Hf & l & Hl) Hok] [(l' & Hr & Hb) Hlog]. split; [|auto].
  exists r0. split; [done|]. exists (l ++ l'). rewrite run_app, Hl. cbn [fst snd]. by rewrite Hr, Hb.
Qed.

Lemma room_ok_new deps k r now :
  (∃ r0 actions, fresh_room k r0 ∧ run (digest_of deps) actions r0 = ([], r)) →
  room_ok deps k (StoredRoom_new r now).
Proof.
  intros (r0 & l & Hf & Hl). split; [exists r0; split; [done|by exists l]|].
  split; [done|]. split; [cbn; lia|]. by intros _.
Qed.

Definition rooms_ok (deps : RegistryDeps) (g : Registry) : Prop := map_Forall (room_ok deps) (invite_codes g).

Lemma with_room_ok {E A} deps (missing : E) code (m : M Cell E A) g :
  (∀ s0, keeps (tracks (digest_of deps) s0) m) → rooms_ok deps g → rooms_ok deps (with_room missing code m g).2.
Proof.
  intros Hm Hg. unfold with_room. destruct (invite_codes g !! normalized code) as [s|] eqn:Es; [|done].
  specialize (Hm s (mkCell s (feed g)) (reflexivity _)). destruct (m _) as [o c]. cbn.
  apply map_Forall_insert_2; [|done]. apply (room_ok_evolves _ _ s); [by apply Hg|exact Hm].
Qed.

Lemma create_room_ok deps now id code resume input voice host c session version g :
  rooms_ok deps g → rooms_ok deps (create_room deps now id code resume input voice host c session version g).2.
Proof.
  intros Hg. unfold create_room. cbn. apply map_Forall_insert_2; [|done]. apply room_ok_new.
  set (r0 := new_with_protocol_and_resume _ _ _ _ _ _ _ _ _). exists r0.
  destruct (create_voice_state_for_room _ _ _) as [v|]; [exists [SetVoice v]|exists []];
    (split; [by repeat eexists|done]).
Qed.

Lemma disconnect_ok deps wall_ms now code c g :
  rooms_ok deps g → rooms_ok deps (disconnect deps wall_ms now code c g).2.
Proof.
  intros Hg. unfold disconnect.
  pose proof (with_room_ok deps NotFound code (disconnect_body deps wall_ms now c) g
                (λ s0, disconnect_body_tracks deps wall_ms now s0 c) Hg) as H.
  destruct (with_room _ _ _ _) as [[[closed room]|e] g1]; [|exact H]. cbn [snd] in *.
  destruct closed; [|exact H]. by apply map_Forall_delete.
Qed.

(** Sweeping the rooms deletes some and evolves the others. *)
Lemma rooms_ok_fmap (deps : RegistryDeps) (f : StoredRoom → StoredRoom) (m m' : gmap (list N) StoredRoom) :
  (∀ s, evolves (digest_of deps) s (f s)) → map_Forall (room_ok deps) m →
  (∀ k s, m' !! k = Some s → (f <$> m) !! k = Some s) → map_Forall (room_ok deps) m'.
Proof.
  intros Hf Hm Hsub k s Hk. apply Hsub in Hk. rewrite lookup_fmap in Hk.
  destruct (m !! k) as [s1|] eqn:E; [|done]. cbn in Hk. injection Hk as <-.
  apply (room_ok_evolves _ _ s1); [by apply Hm|apply Hf].
Qed.

Lemma sweep_ok deps wall_ms now timeout g :
  rooms_ok deps g → rooms_ok deps (sweep_expired_rooms deps wall_ms now timeout g).2.
Proof.
  intros Hg. eapply (rooms_ok_fmap deps (λ s, (sweep_room deps wall_ms now s).2));
    [apply sweep_room_evolves|exact Hg|].
  intros k s [_ H]%foldr_delete_lookup. by rewrite <-map_fmap_compose in H.
Qed.

Lemma release_frames_ok deps now g :
  rooms_ok deps g → rooms_ok deps (release_next_controller_frames deps now g).2.
Proof.
  intros Hg. eapply (rooms_ok_fmap deps (λ s, (emit_next_server_frame (server_time_ms_at deps now) s).2));
    [apply emit_next_evolves|exact Hg|].
  intros k s H. cbn in H. by rewrite <-map_fmap_compose in H.
Qed.

Lemma serve_ok deps wall_ms now call g : rooms_ok deps g → rooms_ok deps (serve deps wall_ms now call g).
Proof.
  intros Hg. destruct call; cbn [serve];
    [by apply create_room_ok| |by apply disconnect_ok|by apply sweep_ok|by apply release_frames_ok].
  apply with_room_ok; [|done]. intros s0 cell. apply room_effect_tracks.
Qed.

Lemma reachable_ok deps g : reachable deps g → rooms_ok deps g.
Proof. induction 1; [by apply map_Forall_empty|by apply serve_ok]. Qed.
