(* ===== verification/RegistryGuarantees.v ===== *)
(** * Guarantees of the room registry

  The theorems about the registry: it refines the room state machine, keeps rooms apart,
  never panics on its [expect]s, sweeps exactly the expired rooms and keeps its event logs. *)

From Stdlib Require Import Strings.Byte.
From S2P Require Import Prelude Ids Wire StrictInput Text Compatibility Descriptor Protocol Invite Slots.
From S2P Require Import LegacyCodec RelayBuffer PauseState SnapshotTransfer LinkState RoomTransactions AdaptiveDelay Room.
From S2P Require Import StartSync Connection PauseOps InputRelay HostFrame StateHash SnapshotOps LinkOps.
From S2P Require Import System SlotInvariant FrameInvariant ReleaseLog Scenario RoomEvents StoredRoom Registry RegistryRelay RegistryRefinement.
Open Scope N_scope.

(** ** A registry to evaluate *)

Definition sample_deps : RegistryDeps := mkRegistryDeps digest 0 RoomRecoveryConfig_default false.
Definition sample_code : InviteCode := mkInviteCode (string_bytes "AB23CD").
Definition other_code : InviteCode := mkInviteCode (string_bytes "ZZ23CD").

(** Each call at its server time, in milliseconds. *)
Definition serve_all (calls : list (N * Call)) (g : Registry) : Registry :=
  foldl (λ g '(ms, call), serve sample_deps 0 (from_millis ms) call g) g calls.

Definition create_call (code : InviteCode) : Call :=
  CallCreate (mkRoomId 7) code "a" "b" None (Sample.license "host") host Sample.controller_session 5.

(** A protocol v5 session from its creation to three released frames, beside an idle room. *)
Definition session_calls : list (N * RoomCall) :=
  [(0, CallConnectHost "c" "d" (Sample.license "host") host capabilities);
   (0, CallConnectGuest "e" "f" (Sample.license "guest") guest capabilities);
   (0, CallConnectInput PlayerIndex_ONE 2 2 "d" host_input);
   (0, CallConnectInput PlayerIndex_TWO 2 2 "f" guest_input);
   (0, CallCompatibility host (Sample.fingerprint 5)); (0, CallCompatibility guest (Sample.fingerprint 5));
   (0, CallSnapshotChunk host (mkSnapshotChunk "s-1" 0 0 [x01]));
   (0, CallSnapshotComplete host (mkSnapshotManifest "s-1" 0 1
         "0101010101010101010101010101010101010101010101010101010101010101"));
   (1000, CallMarkReady host None); (1000, CallMarkReady guest None);
   (1010, CallClockSample host (clock_sample 0)); (1010, CallClockSample host (clock_sample 1));
   (1010, CallClockSample guest (clock_sample 0)); (1010, CallClockSample guest (clock_sample 1));
   (1020, CallDeterministicReady host None); (1020, CallDeterministicReady guest None);
   (1025, CallStrictInput host_input (mkStrictInputBatch 2 2 PlayerIndex_ONE 0 (repeat (repeat x00 10) 3)));
   (1030, CallHostOpen 0 host_input (mkHostFrameOpen 2 2 0));
   (10000, CallScheduledRelease 2 2 0);
   (10016, CallHostOpen 0 host_input (mkHostFrameOpen 2 2 1));
   (10017, CallHostOpen 0 host_input (mkHostFrameOpen 2 2 1));
   (10033, CallHostOpen 0 host_input (mkHostFrameOpen 2 2 2))].
Definition sample_calls : list (N * Call) :=
  [(0, create_call sample_code); (0, create_call other_code)]
  ++ ((λ '(ms, call), (ms, CallRoom sample_code call)) <$> session_calls).
Definition sample_registry : Registry := serve_all sample_calls Registry_new.

Lemma reachable_serve_all calls g :
  reachable sample_deps g → reachable sample_deps (serve_all calls g).
Proof. revert g. induction calls as [|[ms call] calls IH]; intros g Hg; [done|]. apply IH. by constructor. Qed.

Lemma sample_reachable : reachable sample_deps sample_registry.
Proof. apply reachable_serve_all. constructor. Qed.

Definition stored_at (code : InviteCode) (g : Registry) : StoredRoom :=
  default (StoredRoom_new (Sample.room 5) 0) (invite_codes g !! normalized code).

(** The invite code a call is about; the sweep and the frame clock are about all rooms. *)
Definition call_code (call : Call) : option (list N) :=
  match call with
  | CallCreate _ code _ _ _ _ _ _ _ | CallRoom code _ | CallDisconnect code _ => Some (normalized code)
  | CallSweep _ | CallReleaseFrames => None
  end.

Lemma with_room_lookup_ne {E A} (missing : E) code (m : M Cell E A) g k :
  k ≠ normalized code → invite_codes (with_room missing code m g).2 !! k = invite_codes g !! k.
Proof.
  intros Hk. unfold with_room. destruct (invite_codes g !! normalized code); [|done].
  destruct (m _) as [o c]. cbn. by rewrite lookup_insert_ne.
Qed.

Lemma run_slots sha256 actions r : slots_ok r → slots_ok (run sha256 actions r).2.
Proof.
  revert r. induction actions as [|a actions IH]; intros r Hr; [done|]. cbn [run].
  pose proof (step_slots sha256 a r Hr) as Ha. destruct (step sha256 a r) as [ev r1].
  specialize (IH r1 Ha). by destruct (run sha256 actions r1).
Qed.

(** An orderly run from a fresh room releases the frames of a session consecutively. *)
Lemma orderly_run_frames sha256 k r0 actions e :
  fresh_room k r0 → orderly_run sha256 actions r0 = true →
  let frames := frames_of e (run sha256 actions r0).1 in ∃ start, frames = frames_from start (length frames).
Proof.
  intros (id & h & c & code & se & v & re & inp & now & _ & ->) Ho.
  assert (execution sha256 orderly [] (new_with_protocol_and_resume id h c code se v re inp now)) as H0 by constructor.
  destruct (orderly_execution _ _ _ (orderly_run_from_start sha256 actions _ H0 Ho)) as (_ & _ & _ & [_ Hc _]).
  apply Hc.
Qed.

(** ** The sweep *)

Section sweep.
Context (deps : RegistryDeps) (wall_ms : N) (now : Instant) (timeout : Duration) (g : Registry).

Definition sweep_closes (s : StoredRoom) : bool :=
  let '(_, closed, s') := sweep_room deps wall_ms now s in closed || is_expired deps now timeout s'.

Definition swept_keys : list (list N) :=
  let swept := sweep_room deps wall_ms now <$> invite_codes g in
  remove_dups
    ((fst <$> filter (λ '(_, s), is_expired deps now timeout s = true) (map_to_list (snd <$> swept)))
     ++ (fst <$> filter (λ '(_, (_, closed, _)), closed = true) (map_to_list swept))).

Lemma elem_of_swept_keys k :
  k ∈ swept_keys ↔ ∃ s, invite_codes g !! k = Some s ∧ sweep_closes s = true.
Proof.
  unfold swept_keys, sweep_closes. cbv zeta.
  rewrite elem_of_remove_dups, elem_of_app, !list_elem_of_fmap. split.
  - intros [([k' s'] & -> & [He Hs]%list_elem_of_filter)|([k' [[log closed] s']] & -> & [He Hs]%list_elem_of_filter)];
      apply elem_of_map_to_list in Hs; rewrite !lookup_fmap in Hs; cbn in *;
      destruct (invite_codes g !! k') as [s|]; cbn in Hs; try done; injection Hs as Hs; exists s; (split; [done|]).
    + destruct (sweep_room deps wall_ms now s) as [[log closed] s1]. cbn in Hs. subst. by rewrite He, orb_true_r.
    + rewrite Hs. by rewrite He.
  - intros (s & Hs & Hc). destruct (sweep_room deps wall_ms now s) as [[log closed] s1] eqn:Hsw.
    apply orb_true_iff in Hc as [->|He].
    + right. exists (k, (log, true, s1)). split; [done|]. apply list_elem_of_filter. split; [done|].
      apply elem_of_map_to_list. by rewrite lookup_fmap, Hs, <-Hsw.
    + left. exists (k, s1). split; [done|]. apply list_elem_of_filter. split; [done|].
      apply elem_of_map_to_list. by rewrite !lookup_fmap, Hs; cbn; rewrite Hsw.
Qed.
End sweep.

(** ** Panics *)

(** [m] never runs into an [expect] on [None]. *)
Definition never_panics {E A} (m : M Cell (fault E) A) : Prop := ∀ cell, (m cell).1 ≠ Err Panic.

Lemma failing_bind_no_panic {E A B} (m : M Cell E A) (k : A → M Cell (fault E) B) cell :
  (∀ a cell', m cell = (Ok a, cell') → (k a cell').1 ≠ Err Panic) → ((failing m ≫= k) cell).1 ≠ Err Panic.
Proof.
  intros Hk. unfold mbind, M_bind, failing. destruct (m cell) as [[a|e] cell'] eqn:Hm; cbn; [|done].
  by apply Hk.
Qed.

(** A pending first frame is stored when the room says so. *)
Lemma pending_is_stored c open t r d r' :
  accept_host_frame_open c open t r = (Ok (Pending d), r') → pending_host_frame_open r' = Some (open_frame open).
Proof.
  intros H. refine (wp_ok _ (λ o r', o = Pending d → pending_host_frame_open r' = Some (open_frame open))
    (λ _ _, True) r _ r' _ H eq_refl).
  unfold accept_host_frame_open. wp_go; try done. by destruct (current_v5_release r).
Qed.

Lemma host_open_no_panic deps w now now' c open : never_panics (relay_host_frame_open deps w now now' c open).
Proof.
  intros cell. unfold relay_host_frame_open. apply failing_bind_no_panic. intros o cell' H.
  unfold attempt, on_netplay_room in H.
  destruct (accept_host_frame_open c open _ _) as [o' r] eqn:Hr. injection H as <- <-.
  destruct o' as [[]|error]; try done.
  - apply pending_is_stored in Hr.
    unfold reply_host_frame_open, mbind, M_bind, get, expect, lift_result.
    change (stored_room (cell_room (cell <| cell_room ::= λ s, s <| stored_room := r |> |>))) with r.
    by rewrite Hr.
  - unfold reply_host_frame_open, mbind, M_bind, get. by destruct (is_transition_error error).
Qed.

Lemma expect_emitted {E} f cell :
  (∃ s, f (cell_room cell) = Some s) → ((on_stored_room_expect (E := E) f ;; record_recent) cell).1 = Ok tt.
Proof. intros [s Hs]. unfold on_stored_room_expect, mbind, M_bind, get, expect. cbn. by rewrite Hs. Qed.

Lemma rom_grants_no_panic w now c grants : never_panics (grant_rom_relay_upload w now c grants).
Proof.
  intros cell. unfold grant_rom_relay_upload. apply failing_bind_no_panic. intros grant cell' H.
  rewrite expect_emitted; [done|]. unfold on_netplay_room in H.
  destruct (accept_rom_relay_grants c grants _) as [o r] eqn:Hr. injection H as -> <-.
  revert Hr. unfold accept_rom_relay_grants, mbind, M_bind, get, lift_result.
  destruct (prepare_rom_relay_transfer _ _); [|done]. intros [= _ <-]. by eexists.
Qed.

Lemma rom_completed_no_panic w now c completion : never_panics (relay_rom_relay_completed w now c completion).
Proof.
  intros cell. unfold relay_rom_relay_completed. apply failing_bind_no_panic. intros download cell' H.
  unfold on_netplay_room in H.
  destruct (accept_rom_relay_completion c completion _) as [o r] eqn:Hr. injection H as -> <-.
  destruct download as [[peer grant]|]; [|done].
  assert (is_Some (rom_relay_transfer r)) as [transfer Ht].
  { revert Hr. unfold accept_rom_relay_completion. destruct (rom_relay_transfer _); [|done].
    destruct (accept_completion _ _ _) as [[] t]; [|done]. destruct (completion_role completion); [|done].
    intros [= _ _ <-]. by eexists. }
  unfold mbind at 1, M_bind at 1. unfold on_stored_room at 1, modify at 1.
  rewrite expect_emitted; [done|]. unfold emit_rom_relay_download_granted. cbn. rewrite Ht. by eexists.
Qed.

(** An operation on one invite code leaves the other rooms alone. *)
Lemma serve_lookup_ne deps wall_ms now call g k k' :
  call_code call = Some k → k' ≠ k →
  invite_codes (serve deps wall_ms now call g) !! k' = invite_codes g !! k'.
Proof.
  intros Hc Hk. destruct call; cbn in Hc; simplify_eq; cbn [serve].
  - cbn. by rewrite lookup_insert_ne.
  - by apply with_room_lookup_ne.
  - unfold disconnect.
    pose proof (with_room_lookup_ne NotFound code (disconnect_body deps wall_ms now c) g k' Hk) as H.
    destruct (with_room _ _ _ _) as [[[closed room]|e] g1]; [|exact H]. rewrite <-H.
    destruct closed; [|done]. cbn. by rewrite lookup_delete_ne.
Qed.

(** The session above announces its three frames. *)
Example sample_broadcasts :
  broadcasts (stored_at sample_code sample_registry) = mkReleaseEvent 2 <$> [0; 1; 2].
Proof. vm_compute. reflexivity. Qed.

Module Registry_.

(** C3: the registry refines the room state machine. In every reachable registry, the room
    stored under an invite code is exactly what a run of the room's own actions makes of a
    room freshly created for that code, and the frames it has announced to its input sockets
    are exactly the frames that run released, in order: the registry neither touches a room
    behind its methods nor loses, invents, repeats or reorders a release. So its slots are
    well owned, and when the run is orderly, the frames announced under one session epoch are
    consecutive. *)
Theorem registry_refines_rooms deps g k s :
  reachable deps g → invite_codes g !! k = Some s →
  slots_ok (stored_room s) ∧
  ∃ r0 actions, fresh_room k r0 ∧ run (digest_of deps) actions r0 = (broadcasts s, stored_room s) ∧
    (orderly_run (digest_of deps) actions r0 = true → ∀ e,
       ∃ start, frames_of e (broadcasts s) = frames_from start (length (frames_of e (broadcasts s)))).
Proof.
  intros Hg Hs. destruct (proj1 (reachable_ok deps g Hg k s Hs)) as (r0 & Hf & actions & Hr). split.
  - replace (stored_room s) with (run (digest_of deps) actions r0).2 by (by rewrite Hr). apply run_slots.
    destruct Hf as (? & ? & ? & ? & ? & ? & ? & ? & ? & _ & ->). apply slots_ok_new.
  - exists r0, actions. split; [done|]. split; [done|]. intros Ho e.
    pose proof (orderly_run_frames (digest_of deps) k r0 actions e Hf Ho) as H. by rewrite Hr in H.
Qed.

Lemma registry_refines_rooms_witness : slots_ok (stored_room (stored_at sample_code sample_registry)).
Proof.
  apply (registry_refines_rooms sample_deps sample_registry (normalized sample_code)).
  - exact sample_reachable.
  - vm_compute. reflexivity.
Defined.

(** The debug log of every stored room. In every reachable registry a room's log holds at
    most 200 events; they are the latest ones, numbered consecutively up to the room's event
    sequence, and none is missing until 200 have been recorded. *)
Theorem event_log_is_suffix deps g k s :
  reachable deps g → invite_codes g !! k = Some s → event_seq s < u64_max →
  ∃ n, N.of_nat n = N.min (event_seq s) 200 ∧
       debug_event_seq <$> log_events (debug_log s) = frames_from (event_seq s + 1 - N.of_nat n) n.
Proof.
  intros Hg Hs Hlt. destruct (proj2 (reachable_ok deps g Hg k s Hs)) as (_ & _ & H).
  destruct (H Hlt) as [Hseq Hn]. by eexists.
Qed.

Lemma event_log_is_suffix_witness :
  let s := stored_at sample_code sample_registry in
  ∃ n, N.of_nat n = N.min (event_seq s) 200 ∧
       debug_event_seq <$> log_events (debug_log s) = frames_from (event_seq s + 1 - N.of_nat n) n.
Proof.
  apply (event_log_is_suffix sample_deps sample_registry (normalized sample_code)
           (stored_at sample_code sample_registry)).
  - exact sample_reachable.
  - vm_compute. reflexivity.
  - vm_compute. reflexivity.
Defined.

(** Rooms do not interfere. An operation on one invite code leaves what the registry holds
    under every other code exactly as it was, its queued inputs, broadcasts and logs included. *)
Theorem rooms_are_isolated deps wall_ms now call g k k' :
  call_code call = Some k → k' ≠ k →
  invite_codes (serve deps wall_ms now call g) !! k' = invite_codes g !! k'.
Proof. apply serve_lookup_ne. Qed.

Lemma rooms_are_isolated_witness :
  invite_codes (serve sample_deps 0 9 (CallDisconnect sample_code host) sample_registry)
    !! normalized other_code
  = invite_codes sample_registry !! normalized other_code.
Proof.
  apply (rooms_are_isolated sample_deps 0 9 (CallDisconnect sample_code host) sample_registry
           (normalized sample_code)); [reflexivity|]. vm_compute. discriminate.
Defined.

(** The sweep removes exactly the expired rooms. After a sweep a code is still served if
    and only if its room was there, neither a runner-handoff nor a state-recovery deadline
    closed it, and after the heartbeat checks it has not waited too long for its guest, its
    reconnect grace has not run out and it has not been idle too long; what is served is the
    room those checks produced; and the number reported is the number of rooms removed. *)
Theorem sweep_removes_expired deps wall_ms now timeout g :
  let '(n, g') := sweep_expired_rooms deps wall_ms now timeout g in
  (∀ k s', invite_codes g' !! k = Some s' ↔
     ∃ s log, invite_codes g !! k = Some s ∧ sweep_room deps wall_ms now s = (log, false, s') ∧
              is_expired deps now timeout s' = false) ∧
  (n + size (invite_codes g') = size (invite_codes g))%nat.
Proof.
  pose proof (elem_of_swept_keys deps wall_ms now timeout g) as Hkeys.
  unfold sweep_expired_rooms. fold (swept_keys deps wall_ms now timeout g). cbn [invite_codes]. split.
  - intros k s'. rewrite foldr_delete_lookup, Hkeys, !lookup_fmap. split.
    + intros [Hn Hs]. destruct (invite_codes g !! k) as [s|]; [|done]. cbn in Hs. injection Hs as <-.
      destruct (sweep_room deps wall_ms now s) as [[log closed] s1] eqn:Hsw. exists s, log. cbn.
      assert (closed || is_expired deps now timeout s1 = false) as [-> ->]%orb_false_iff; [|done].
      apply not_true_iff_false. intros H. apply Hn. exists s. split; [done|]. unfold sweep_closes. by rewrite Hsw.
    + intros (s & log & -> & Hsw & He). split; [|cbn; by rewrite Hsw].
      intros (s1 & [= <-] & Hc). unfold sweep_closes in Hc. by rewrite Hsw, He in Hc.
  - rewrite size_foldr_delete; [by rewrite !map_size_fmap|apply NoDup_remove_dups|].
    intros k (s & Hs & _)%Hkeys. by rewrite !lookup_fmap, Hs.
Qed.

(** The [expect]s of the registry cannot fail. Whatever the stored room, opening a host
    frame, granting a ROM relay and completing one never panic: a pending first frame is
    stored before it is reported, and a transfer that hands out a grant is still there. *)
Theorem registry_never_panics deps wall_ms now now' :
  (∀ c open, never_panics (relay_host_frame_open deps wall_ms now now' c open)) ∧
  (∀ c grants, never_panics (grant_rom_relay_upload wall_ms now c grants)) ∧
  (∀ c completion, never_panics (relay_rom_relay_completed wall_ms now c completion)).
Proof. split_and!; intros; auto using host_open_no_panic, rom_grants_no_panic, rom_completed_no_panic. Qed.

End Registry_.

(** ** Where the code differs from what it means to do *)

(** [create_room_impl] inserts without looking: a generated code that is in use replaces the
    running session under it, and its players are no longer known. *)
Lemma create_replaces_running_session :
  status (stored_room (stored_at sample_code sample_registry)) = Playing ∧
  let g := serve sample_deps 0 0 (create_call sample_code) sample_registry in
  status (stored_room (stored_at sample_code g)) = WaitingForGuest ∧
  player_index_for_connection guest (stored_room (stored_at sample_code g)) = None.
Proof. vm_compute. auto. Qed.

(** The join timeout runs from the creation of the room, not from when it started to wait: a
    guest that leaves before play after that long costs the host the room at the next sweep. *)
Lemma guest_leaving_late_expires_room :
  let calls := [(0, create_call sample_code);
                (0, CallRoom sample_code (CallConnectHost "c" "d" (Sample.license "host") host capabilities));
                (1000, CallRoom sample_code (CallConnectGuest "e" "f" (Sample.license "guest") guest capabilities));
                (601000, CallDisconnect sample_code guest)] in
  let g := serve_all calls Registry_new in
  status (stored_room (stored_at sample_code g)) = WaitingForGuest ∧
  (sweep_expired_rooms sample_deps 0 (from_millis 601001) (from_secs 600) g).1 = 1%nat.
Proof. vm_compute. auto. Qed.
