(* ===== verification/Lobby.v ===== *)
(** * Lobbies

  Models [src/src/lobbies/lobby.rs] with the values of [lobby_player.rs], [lobby_game.rs],
  [lobby_launch.rs], [lobby_return.rs], [lobby_capabilities.rs], [lobby_player_removal.rs],
  [lobby_view.rs], [errors.rs] and the voice methods of [lobby_voice_ops.rs]. A lobby is the
  state its players keep across several games: four slots, the selected game, who is ready
  for it and the launch in progress. Times are milliseconds; the proposal ids that
  [Uuid::new_v4] draws are arguments. *)

From stdpp Require Import sorting.
From S2P Require Import Prelude Ids Wire Text Descriptor Invite Protocol Slots SnapshotTransfer.
From S2P Require Import RoomTransactions StartSync LinkOps.
Open Scope N_scope.

(** ** errors.rs *)

Inductive LobbyError :=
| LobbyNotFound | LobbyFull | LobbyClosed | StaleLobbyEpoch | LobbyResumeTokenInvalid | PlayerSlotUnavailable
| LobbyUnknownConnection | LobbyHostOnly | PlayerRemovalHostOnly | LobbyPlayerNotFound
| CannotRemoveLobbyHost | LobbyPlayerRemovalUnavailable | StaleGameProposal | PlayersNotReady
| GameLaunchNotReady | LobbyRomRelayUnavailable | LobbyRomRelayUnsupported | LobbyRomRelayTooLarge
| StartupStateRelayUnavailable | StartupStateRelayUnsupported | StartupStateRelayTooLarge
| LobbyVoiceUnavailable | LobbyInvalidPayload.

(** ** lobby_capabilities.rs *)

Record LobbyClientCapabilities := mkLobbyClientCapabilities {
  client_supports_lobby : bool;
  client_supports_temporary_session_rom_relay : bool;
  client_supports_lobby_voice : bool;
  client_supports_multi_game_lobby : bool;
  client_supports_lobby_returned_event : bool;
  client_supports_lobby_gameplay_started : bool;
  client_supports_lobby_player_removed_event : bool }.

Definition LobbyClientCapabilities_default : LobbyClientCapabilities :=
  mkLobbyClientCapabilities false false false false false false false.
Definition desktop_default : LobbyClientCapabilities :=
  mkLobbyClientCapabilities true false true true false false false.

Record LobbyServerCapabilities := mkLobbyServerCapabilities {
  server_supports_lobby : bool;
  server_supports_temporary_session_rom_relay : bool;
  server_supports_lobby_voice : bool;
  server_supports_multi_game_lobby : bool;
  server_supports_lobby_returned_event : bool;
  server_supports_lobby_gameplay_started : bool;
  server_supports_lobby_player_removal : bool;
  server_max_players : N }.

(** [LobbyServerCapabilities::current]. *)
Definition current (max_players : N) (temporary_session_rom_relay lobby_voice : bool)
    : LobbyServerCapabilities :=
  mkLobbyServerCapabilities true temporary_session_rom_relay lobby_voice true true true true max_players.

(** ** lobby_game.rs *)

Record LobbyGameCandidate := mkLobbyGameCandidate {
  game_title : string;
  game_system_id : string;
  game_core_id : string;
  game_content_sha256 : option string;
  game_rom_size_bytes : option N;
  game_start_state_label : option string }.

Record LobbyGameSelectionView := mkLobbyGameSelectionView {
  selection_proposal_id : N;
  selected_by_player_index : N;
  selected_at_ms : N;
  selection_game : LobbyGameCandidate }.

Definition LobbyGameSelectionView_new (proposal_id : N) (game : LobbyGameCandidate)
    (selected_by : PlayerIndex) (selected_at_ms : N) : LobbyGameSelectionView :=
  mkLobbyGameSelectionView proposal_id (zero_based selected_by) selected_at_ms game.

(** ** lobby_launch.rs *)

Inductive LobbyGameReadinessStatus :=
| ReadinessUnknown | ReadinessReady | ReadinessNotReady | ReadinessMissingRom
| ReadinessMissingStartupState | ReadinessUnsupported.

#[export] Instance LobbyGameReadinessStatus_eq_dec : EqDecision LobbyGameReadinessStatus.
Proof. solve_decision. Defined.

Record LobbyGameReadinessView := mkLobbyGameReadinessView {
  readiness_player_index : N;
  readiness_proposal_id : N;
  readiness_status : LobbyGameReadinessStatus;
  readiness_detail : option string;
  readiness_updated_at_ms : N }.

(** [str::lines], on characters: the ['\r'] it strips before a newline is white space, which
    the [trim] that follows removes. *)
Fixpoint split_lines (line l : list N) : list (list N) :=
  match l with
  | [] => if (length line =? 0)%nat then [] else [line]
  | c :: l' => if c =? 10 then line :: split_lines [] l' else split_lines (line ++ [c]) l'
  end.

(** Trimmed non-empty lines joined by spaces, trimmed. *)
Definition compact_lines (text : list N) : list N :=
  trim (join_spaces (List.filter (λ line, negb (length line =? 0)%nat) (trim <$> split_lines [] text))).

Definition string_of_chars (cs : list N) : string := string_of_bytes (concat (encode_utf8 <$> cs)).

Definition sanitize_readiness_detail (detail : option string) : result LobbyError (option string) :=
  match detail with
  | None => Ok None
  | Some detail =>
      let sanitized := compact_lines (chars detail) in
      if (length sanitized =? 0)%nat then Ok None
      else if (160 <? length sanitized)%nat then Err LobbyInvalidPayload
      else Ok (Some (string_of_chars sanitized))
  end.

Definition LobbyGameReadinessView_new (p : PlayerIndex) (proposal_id : N) (status : LobbyGameReadinessStatus)
    (detail : option string) (updated_at_ms : N) : result LobbyError LobbyGameReadinessView :=
  detail ← sanitize_readiness_detail detail;
  Ok (mkLobbyGameReadinessView (zero_based p) proposal_id status detail updated_at_ms).

Inductive LobbyGameLaunchStatus := LaunchPreparing | LaunchReady | LaunchPlaying.

#[export] Instance LobbyGameLaunchStatus_eq_dec : EqDecision LobbyGameLaunchStatus.
Proof. solve_decision. Defined.

Record LobbyGameLaunchView := mkLobbyGameLaunchView {
  launch_proposal_id : N;
  launch_requested_by : N;
  launch_requested_at_ms : N;
  launch_status : LobbyGameLaunchStatus;
  launch_room_invite_code : option (list N);
  launch_room_published_at_ms : option N;
  launch_gameplay_started_at_ms : option N;
  launch_started_player_indexes : list N }.

#[export] Instance eta_LobbyGameLaunchView : Eta LobbyGameLaunchView := λ v,
  mkLobbyGameLaunchView (launch_proposal_id v) (launch_requested_by v) (launch_requested_at_ms v)
    (launch_status v) (launch_room_invite_code v) (launch_room_published_at_ms v)
    (launch_gameplay_started_at_ms v) (launch_started_player_indexes v).
#[export] Instance set_launch_status : Setter launch_status.
Proof. derive_setter. Defined.
#[export] Instance set_launch_room_invite_code : Setter launch_room_invite_code.
Proof. derive_setter. Defined.
#[export] Instance set_launch_room_published_at_ms : Setter launch_room_published_at_ms.
Proof. derive_setter. Defined.
#[export] Instance set_launch_gameplay_started_at_ms : Setter launch_gameplay_started_at_ms.
Proof. derive_setter. Defined.
#[export] Instance set_launch_started_player_indexes : Setter launch_started_player_indexes.
Proof. derive_setter. Defined.

Definition LobbyGameLaunchView_new (proposal_id : N) (requested_by : PlayerIndex) (requested_at_ms : N)
    : LobbyGameLaunchView :=
  mkLobbyGameLaunchView proposal_id (zero_based requested_by) requested_at_ms LaunchPreparing None None None [].

Definition publish_room (invite_code : list N) (published_at_ms : N) (v : LobbyGameLaunchView)
    : LobbyGameLaunchView :=
  v <| launch_status := LaunchReady |> <| launch_room_invite_code := Some invite_code |>
    <| launch_room_published_at_ms := Some published_at_ms |>.

(** [mark_player_started]. *)
Definition mark_player_started (p : PlayerIndex) (expected : list PlayerIndex) (started_at_ms : N)
    : M LobbyGameLaunchView LobbyError bool := λ v,
  match launch_status v with
  | LaunchPreparing => (Err GameLaunchNotReady, v)
  | LaunchReady =>
      if existsb (N.eqb (zero_based p)) (launch_started_player_indexes v) then (Ok false, v)
      else
        let v := v <| launch_started_player_indexes ::= λ l, merge_sort N.le (l ++ [zero_based p]) |> in
        let all := negb (length expected =? 0)%nat
                   && forallb (λ e, existsb (N.eqb (zero_based e)) (launch_started_player_indexes v)) expected in
        (Ok true, if all then v <| launch_status := LaunchPlaying |>
                                <| launch_gameplay_started_at_ms := Some started_at_ms |> else v)
  | LaunchPlaying => (Ok false, v)
  end.

(** ** lobby_return.rs *)

Inductive LobbyReturnReason :=
| PlayerRequestedReturn | RunnerClosed | RemoteDisconnected | RoomClosed | LaunchFailed
| NetplayError | EmulatorError | RunnerCrashed.

Record LobbyReturnRequest := mkLobbyReturnRequest {
  return_connection_id : ConnectionId;
  return_lobby_epoch : N;
  return_proposal_id : N;
  return_requested_by : option PlayerIndex;
  return_reason : option LobbyReturnReason;
  return_now_ms : N }.

Record LobbyReturnedView := mkLobbyReturnedView {
  returned_proposal_id : N;
  returned_requested_by : option N;
  returned_reason : option LobbyReturnReason;
  returned_at_ms : N }.

Definition LobbyReturnedView_new (proposal_id : N) (requested_by : option PlayerIndex)
    (reason : option LobbyReturnReason) (returned_at_ms : N) : LobbyReturnedView :=
  mkLobbyReturnedView proposal_id (zero_based <$> requested_by) reason returned_at_ms.

Record LobbyReturnOutcome := mkLobbyReturnOutcome {
  outcome_returned : LobbyReturnedView;
  outcome_state_changed : bool }.

Definition applied (returned : LobbyReturnedView) : LobbyReturnOutcome := mkLobbyReturnOutcome returned true.
Definition already_applied (returned : LobbyReturnedView) : LobbyReturnOutcome :=
  mkLobbyReturnOutcome returned false.

(** ** lobby_player.rs *)

Definition PLAYER_COLORS : list string := ["cyan"; "violet"; "amber"; "emerald"]%string.
Definition player_color (p : PlayerIndex) : string :=
  default "cyan"%string (PLAYER_COLORS !! N.to_nat (zero_based p)).

Inductive LobbyPlayerRole := LobbyHost | LobbyGuest.
#[export] Instance LobbyPlayerRole_eq_dec : EqDecision LobbyPlayerRole.
Proof. solve_decision. Defined.

Inductive LobbyPlayerStatus := SlotEmpty | SlotConnected | SlotReconnecting | SlotDisconnected.
#[export] Instance LobbyPlayerStatus_eq_dec : EqDecision LobbyPlayerStatus.
Proof. solve_decision. Defined.

Record LobbyPlayerSlot := mkLobbyPlayerSlot {
  slot_player_index : PlayerIndex;
  slot_role : LobbyPlayerRole;
  slot_color : string;
  slot_subject_key : option string;
  slot_client_kind : option ClientKind;
  slot_connection_id : option ConnectionId;
  slot_display_name : option string;
  slot_status : LobbyPlayerStatus;
  slot_capabilities : LobbyClientCapabilities;
  slot_resume_token_hash : option ResumeTokenHash;
  slot_last_seen_at_ms : option N }.

#[export] Instance eta_LobbyPlayerSlot : Eta LobbyPlayerSlot := λ s,
  mkLobbyPlayerSlot (slot_player_index s) (slot_role s) (slot_color s) (slot_subject_key s)
    (slot_client_kind s) (slot_connection_id s) (slot_display_name s) (slot_status s)
    (slot_capabilities s) (slot_resume_token_hash s) (slot_last_seen_at_ms s).
#[export] Instance set_ls_connection_id : Setter slot_connection_id.
Proof. derive_setter. Defined.
#[export] Instance set_ls_status : Setter slot_status.
Proof. derive_setter. Defined.
#[export] Instance set_ls_last_seen_at_ms : Setter slot_last_seen_at_ms.
Proof. derive_setter. Defined.

Definition LobbyPlayerSlot_empty (p : PlayerIndex) : LobbyPlayerSlot :=
  mkLobbyPlayerSlot p LobbyGuest (player_color p) None None None None SlotEmpty
    LobbyClientCapabilities_default None None.

Record LobbyPlayerOccupancy := mkLobbyPlayerOccupancy {
  occ_role : LobbyPlayerRole;
  occ_license : VerifiedLicense;
  occ_connection_id : ConnectionId;
  occ_display_name : option string;
  occ_capabilities : LobbyClientCapabilities;
  occ_resume_token_hash : ResumeTokenHash;
  occ_now_ms : N }.

(** [LobbyPlayerSlot::occupy]: a display name is only replaced by one. *)
Definition occupy (o : LobbyPlayerOccupancy) (s : LobbyPlayerSlot) : LobbyPlayerSlot :=
  mkLobbyPlayerSlot (slot_player_index s) (occ_role o) (slot_color s)
    (Some (identity_key (occ_license o))) (Some (client_kind (occ_license o)))
    (Some (occ_connection_id o))
    (match occ_display_name o with Some name => Some name | None => slot_display_name s end)
    SlotConnected (occ_capabilities o) (Some (occ_resume_token_hash o)) (Some (occ_now_ms o)).

Definition LobbyPlayerSlot_host (license : VerifiedLicense) (c : ConnectionId) (display_name : option string)
    (capabilities : LobbyClientCapabilities) (token : ResumeTokenHash) (now_ms : N) : LobbyPlayerSlot :=
  occupy (mkLobbyPlayerOccupancy LobbyHost license c display_name capabilities token now_ms)
    (LobbyPlayerSlot_empty PlayerIndex_ONE).

Definition slot_is_empty (s : LobbyPlayerSlot) : bool := slot_status s ==? SlotEmpty.
Definition belongs_to (license : VerifiedLicense) (s : LobbyPlayerSlot) : bool :=
  is_some_and (slot_subject_key s) (λ value, value ==? identity_key license).

Record LobbyPlayerSlotView := mkLobbyPlayerSlotView {
  sv_player_index : N;
  sv_display_number : N;
  sv_role : LobbyPlayerRole;
  sv_color : string;
  sv_status : LobbyPlayerStatus;
  sv_occupied : bool;
  sv_connected : bool;
  sv_client_kind : option ClientKind;
  sv_display_name : option string;
  sv_capabilities : LobbyClientCapabilities;
  sv_last_seen_at_ms : option N }.

(** [LobbyPlayerSlot::view]. *)
Definition player_slot_view (s : LobbyPlayerSlot) : LobbyPlayerSlotView :=
  mkLobbyPlayerSlotView (zero_based (slot_player_index s)) (display_number (slot_player_index s))
    (slot_role s) (slot_color s) (slot_status s) (is_some (slot_subject_key s))
    (is_some (slot_connection_id s)) (slot_client_kind s) (slot_display_name s) (slot_capabilities s)
    (slot_last_seen_at_ms s).

(** ** lobby.rs *)

Definition MAX_LOBBY_PLAYERS : N := 4.

Inductive LobbyStatus := LobbyOpen | GameSelected | InGame | LobbyStatusClosed.
#[export] Instance LobbyStatus_eq_dec : EqDecision LobbyStatus.
Proof. solve_decision. Defined.

Inductive LobbyVisibility := VisibilityPrivate | VisibilityPublic.
#[export] Instance LobbyVisibility_eq_dec : EqDecision LobbyVisibility.
Proof. solve_decision. Defined.

Record Lobby := mkLobby {
  lobby_id : RoomId;
  lobby_invite_code : InviteCode;
  lobby_event_seq : N;
  lobby_epoch : N;
  created_at_ms : N;
  updated_at_ms : N;
  last_meaningful_activity_at_ms : N;
  lobby_status : LobbyStatus;
  visibility : LobbyVisibility;
  lobby_players : list LobbyPlayerSlot;
  selected_game : option LobbyGameSelectionView;
  game_readiness : list LobbyGameReadinessView;
  pending_launch : option LobbyGameLaunchView;
  last_return : option LobbyReturnedView;
  lobby_voice : option RoomVoiceState }.

#[export] Instance eta_Lobby : Eta Lobby := λ l,
  mkLobby (lobby_id l) (lobby_invite_code l) (lobby_event_seq l) (lobby_epoch l) (created_at_ms l)
    (updated_at_ms l) (last_meaningful_activity_at_ms l) (lobby_status l) (visibility l) (lobby_players l)
    (selected_game l) (game_readiness l) (pending_launch l) (last_return l) (lobby_voice l).
#[export] Instance set_lobby_event_seq : Setter lobby_event_seq.
Proof. derive_setter. Defined.
#[export] Instance set_lobby_epoch : Setter lobby_epoch.
Proof. derive_setter. Defined.
#[export] Instance set_updated_at_ms : Setter updated_at_ms.
Proof. derive_setter. Defined.
#[export] Instance set_last_meaningful_activity_at_ms : Setter last_meaningful_activity_at_ms.
Proof. derive_setter. Defined.
#[export] Instance set_lobby_status : Setter lobby_status.
Proof. derive_setter. Defined.
#[export] Instance set_lobby_players : Setter lobby_players.
Proof. derive_setter. Defined.
#[export] Instance set_selected_game : Setter selected_game.
Proof. derive_setter. Defined.
#[export] Instance set_game_readiness : Setter game_readiness.
Proof. derive_setter. Defined.
#[export] Instance set_pending_launch : Setter pending_launch.
Proof. derive_setter. Defined.
#[export] Instance set_last_return : Setter last_return.
Proof. derive_setter. Defined.
#[export] Instance set_lobby_voice : Setter lobby_voice.
Proof. derive_setter. Defined.

Abbreviation LobbyM := (M Lobby LobbyError).

(** [+= 1] on a [u64]; the release build wraps. *)
Definition u64_incr (n : N) : N := (n + 1) mod (u64_max + 1).

Definition bump (now_ms : N) (l : Lobby) : Lobby :=
  l <| lobby_event_seq ::= u64_incr |> <| lobby_epoch ::= u64_incr |> <| updated_at_ms := now_ms |>.
Definition mark_meaningful_activity (now_ms : N) (l : Lobby) : Lobby :=
  l <| last_meaningful_activity_at_ms := now_ms |>.
Definition bump_with_activity (now_ms : N) (l : Lobby) : Lobby :=
  mark_meaningful_activity now_ms (bump now_ms l).

(** The status a lobby without a launch has. *)
Definition setup_status (l : Lobby) : LobbyStatus :=
  if is_some (selected_game l) then GameSelected else LobbyOpen.

(** [close]. *)
Definition close (now_ms : N) (l : Lobby) : Lobby :=
  bump now_ms (l <| lobby_status := LobbyStatusClosed |> <| pending_launch := None |>
    <| lobby_players ::= update_all (λ s, is_some (slot_subject_key s))
         (λ s, s <| slot_connection_id := None |> <| slot_status := SlotDisconnected |>
                 <| slot_last_seen_at_ms := Some now_ms |>) |>).

Definition slot_has_index (p : PlayerIndex) (s : LobbyPlayerSlot) : bool := slot_player_index s ==? p.
Definition slot_has_connection (c : ConnectionId) (s : LobbyPlayerSlot) : bool :=
  slot_connection_id s ==? Some c.

Definition slot (p : PlayerIndex) (l : Lobby) : option LobbyPlayerSlot :=
  List.find (slot_has_index p) (lobby_players l).

Definition player_index_for_connection (c : ConnectionId) (l : Lobby) : result LobbyError PlayerIndex :=
  ok_or (slot_player_index <$> List.find (slot_has_connection c) (lobby_players l)) LobbyUnknownConnection.

Definition require_selected_proposal (proposal_id : N) (l : Lobby) : result LobbyError unit :=
  if is_some_and (selected_game l) (λ game, selection_proposal_id game =? proposal_id)
  then Ok tt else Err StaleGameProposal.

Definition is_present (s : LobbyPlayerSlot) : bool := is_some (slot_subject_key s) && is_some (slot_connection_id s).

Definition connected_players_are_ready (proposal_id : N) (l : Lobby) : bool :=
  forallb (λ s, existsb (λ r, (readiness_player_index r =? zero_based (slot_player_index s))
                              && (readiness_proposal_id r =? proposal_id)
                              && (readiness_status r ==? ReadinessReady)) (game_readiness l))
    (List.filter is_present (lobby_players l)).

Definition gameplay_start_expected_player_indexes (l : Lobby) : option (list PlayerIndex) :=
  let connected := List.filter is_present (lobby_players l) in
  if existsb (λ s, negb (client_supports_lobby_gameplay_started (slot_capabilities s))) connected then None
  else Some (slot_player_index <$> connected).

Definition idempotent_return_outcome (proposal_id : N) (l : Lobby) : option LobbyReturnOutcome :=
  returned ← last_return l;
  if returned_proposal_id returned =? proposal_id then Some (already_applied returned) else None.

Definition is_blank (s : string) : bool := (length (trim (chars s)) =? 0)%nat.
Definition is_sha256_hex (hash : string) : bool :=
  (str_len hash =? 64)%nat && forallb is_ascii_hexdigit (chars hash).

Definition validate_game_candidate (game : LobbyGameCandidate) : result LobbyError unit :=
  if is_blank (game_title game) || is_blank (game_system_id game) || is_blank (game_core_id game)
  then Err LobbyInvalidPayload
  else if is_some_and (game_content_sha256 game) (λ hash, negb (is_sha256_hex hash))
  then Err LobbyInvalidPayload else Ok tt.

Record LobbyCreateRequest := mkLobbyCreateRequest {
  create_invite_code : InviteCode;
  create_host : VerifiedLicense;
  create_host_connection : ConnectionId;
  create_host_display_name : option string;
  create_host_capabilities : LobbyClientCapabilities;
  create_host_resume_token_hash : ResumeTokenHash;
  create_initial_game : option LobbyGameCandidate;
  create_visibility : LobbyVisibility;
  create_now_ms : N }.

(** [Lobby::new]; [id] and [proposal_id] are the drawn UUIDs. *)
Definition Lobby_new (id : RoomId) (proposal_id : N) (q : LobbyCreateRequest) : Lobby :=
  let players := LobbyPlayerSlot_empty
    <$> omap (λ index, PlayerIndex_new (N.of_nat index) MAX_LOBBY_PLAYERS) (seq 0 (N.to_nat MAX_LOBBY_PLAYERS)) in
  let players := <[0%nat := LobbyPlayerSlot_host (create_host q) (create_host_connection q)
    (create_host_display_name q) (create_host_capabilities q) (create_host_resume_token_hash q)
    (create_now_ms q)]> players in
  let selected := (λ game, LobbyGameSelectionView_new proposal_id game PlayerIndex_ONE (create_now_ms q))
                    <$> create_initial_game q in
  mkLobby id (create_invite_code q) 1 1 (create_now_ms q) (create_now_ms q) (create_now_ms q)
    (if is_some selected then GameSelected else LobbyOpen) (create_visibility q) players selected [] None None
    None.

Definition occupy_first (test : LobbyPlayerSlot → bool) (role : LobbyPlayerSlot → LobbyPlayerRole)
    (license : VerifiedLicense) (c : ConnectionId) (display_name : option string)
    (capabilities : LobbyClientCapabilities) (token : ResumeTokenHash) (now_ms : N) (l : Lobby) : Lobby :=
  bump_with_activity now_ms (l <| lobby_players ::= update_first test
    (λ s, occupy (mkLobbyPlayerOccupancy (role s) license c display_name capabilities token now_ms) s) |>).

Definition join_or_refresh_player (license : VerifiedLicense) (c : ConnectionId)
    (display_name : option string) (capabilities : LobbyClientCapabilities) (token : ResumeTokenHash)
    (now_ms : N) : LobbyM PlayerIndex :=
  l ← get;
  ensure (lobby_status l !=? LobbyStatusClosed) LobbyClosed ;;
  match List.find (belongs_to license) (lobby_players l) with
  | Some s =>
      modify (occupy_first (belongs_to license) slot_role license c display_name capabilities token now_ms) ;;
      mret (slot_player_index s)
  | None =>
      s ← lift_result (ok_or (List.find slot_is_empty (lobby_players l)) LobbyFull);
      modify (occupy_first slot_is_empty (λ _, LobbyGuest) license c display_name capabilities token now_ms) ;;
      mret (slot_player_index s)
  end.

Record LobbyReconnectRequest := mkLobbyReconnectRequest {
  reconnect_license : VerifiedLicense;
  reconnect_player_index : PlayerIndex;
  reconnect_lobby_epoch : N;
  reconnect_resume_token : string;
  reconnect_connection_id : ConnectionId;
  reconnect_display_name : option string;
  reconnect_capabilities : LobbyClientCapabilities;
  reconnect_now_ms : N }.

Definition reconnect_player (sha256 : bytes → bytes) (q : LobbyReconnectRequest) : LobbyM PlayerIndex :=
  l ← get;
  ensure (lobby_status l !=? LobbyStatusClosed) LobbyClosed ;;
  ensure (negb (lobby_epoch l <? reconnect_lobby_epoch q)) StaleLobbyEpoch ;;
  let token := hash_resume_token sha256 (reconnect_resume_token q) in
  s ← lift_result (ok_or (slot (reconnect_player_index q) l) PlayerSlotUnavailable);
  ensure (belongs_to (reconnect_license q) s) PlayerSlotUnavailable ;;
  ensure (slot_resume_token_hash s ==? Some token) LobbyResumeTokenInvalid ;;
  modify (occupy_first (slot_has_index (reconnect_player_index q)) slot_role (reconnect_license q)
            (reconnect_connection_id q) (reconnect_display_name q) (reconnect_capabilities q) token
            (reconnect_now_ms q)) ;;
  mret (reconnect_player_index q).

Definition disconnect (c : ConnectionId) (now_ms : N) (l : Lobby) : bool * Lobby :=
  match List.find (slot_has_connection c) (lobby_players l) with
  | None => (false, l)
  | Some _ =>
      (true, bump now_ms (l <| lobby_players ::= update_first (slot_has_connection c)
         (λ s, s <| slot_connection_id := None |> <| slot_status := SlotReconnecting |>
                 <| slot_last_seen_at_ms := Some now_ms |>) |>))
  end.

(** Empties a slot and forgets the readiness of its player. *)
Definition vacate (p : PlayerIndex) (l : Lobby) : Lobby :=
  l <| lobby_players ::= update_first (slot_has_index p) (λ _, LobbyPlayerSlot_empty p) |>
    <| game_readiness ::= List.filter (λ r, negb (readiness_player_index r =? zero_based p)) |>.

Definition leave (c : ConnectionId) (now_ms : N) : LobbyM unit :=
  l ← get;
  p ← lift_result (player_index_for_connection c l);
  s ← lift_result (ok_or (slot p l) LobbyUnknownConnection);
  if slot_role s ==? LobbyHost then modify (close now_ms)
  else
    modify (vacate p) ;;
    modify (λ l, l <| pending_launch := None |>) ;;
    modify (λ l, l <| lobby_status := setup_status l |>) ;;
    modify (bump_with_activity now_ms).

(** [lobby_voice_ops.rs] *)
Definition set_voice_state (v : RoomVoiceState) (l : Lobby) : Lobby := l <| lobby_voice := Some v |>.

Definition voice_grant_for (p : PlayerIndex) (l : Lobby) : option PlayerVoiceJoinGrant :=
  lobby_voice l ≫= λ v, grant_for v p.

Definition voice_token_refresh_request (c : ConnectionId) (l : Lobby)
    : result LobbyError RoomVoiceTokenRefreshRequest :=
  p ← player_index_for_connection c l;
  grant ← ok_or (voice_grant_for p l) LobbyVoiceUnavailable;
  Ok (mkRoomVoiceTokenRefreshRequest (vg_voice_room_id grant) p (vg_participant_identity grant)
        (default ("Player " +:+ decimal (display_number p))%string (slot p l ≫= slot_display_name))).

Definition refresh_voice_grant (c : ConnectionId) (participant_identity token expires_at : string)
    : LobbyM PlayerVoiceJoinGrant := λ l,
  match player_index_for_connection c l with
  | Err e => (Err e, l)
  | Ok p =>
      match lobby_voice l with
      | None => (Err LobbyVoiceUnavailable, l)
      | Some v =>
          let '(grant, v) := refresh_grant p participant_identity token expires_at v in
          (ok_or grant LobbyVoiceUnavailable, l <| lobby_voice := Some v |>)
      end
  end.

Definition take_voice_room_id_for_cleanup (l : Lobby) : option string * Lobby :=
  let id := lobby_voice l ≫= λ v, vv_voice_room_id (voice_view v) in
  (id, if is_some id then l <| lobby_voice := None |> else l).

Record LobbyPlayerRemoval := mkLobbyPlayerRemoval {
  removal_player_index : PlayerIndex;
  removal_connection_id : option ConnectionId;
  removal_voice_room_id : option string;
  removal_participant_identity : option string }.

Definition remove_player (requester : ConnectionId) (lobby_epoch_ : N) (target : PlayerIndex) (now_ms : N)
    : LobbyM LobbyPlayerRemoval :=
  l ← get;
  ensure (lobby_epoch l =? lobby_epoch_) StaleLobbyEpoch ;;
  p ← lift_result (player_index_for_connection requester l);
  s ← lift_result (ok_or (slot p l) LobbyUnknownConnection);
  ensure (slot_role s ==? LobbyHost) PlayerRemovalHostOnly ;;
  ensure (negb ((lobby_status l ==? LobbyStatusClosed) || (lobby_status l ==? InGame)
                || is_some (pending_launch l))) LobbyPlayerRemovalUnavailable ;;
  t ← lift_result (ok_or (slot target l) LobbyPlayerNotFound);
  ensure (slot_role t !=? LobbyHost) CannotRemoveLobbyHost ;;
  ensure (is_some (slot_subject_key t)) LobbyPlayerNotFound ;;
  let voice := voice_grant_for target l in
  modify (vacate target) ;;
  modify (λ l, l <| lobby_status := setup_status l |>) ;;
  modify (bump_with_activity now_ms) ;;
  mret (mkLobbyPlayerRemoval target (slot_connection_id t) (vg_voice_room_id <$> voice)
          (vg_participant_identity <$> voice)).

(** The guard of the operations that only the host may request. *)
Definition require_host (c : ConnectionId) (l : Lobby) : result LobbyError PlayerIndex :=
  p ← player_index_for_connection c l;
  s ← ok_or (slot p l) LobbyUnknownConnection;
  if slot_role s !=? LobbyHost then Err LobbyHostOnly else Ok p.

Definition select_game (proposal_id : N) (c : ConnectionId) (game : LobbyGameCandidate) (now_ms : N)
    : LobbyM LobbyGameSelectionView :=
  l ← get;
  p ← lift_result (require_host c l);
  lift_result (validate_game_candidate game) ;;
  let proposal := LobbyGameSelectionView_new proposal_id game p now_ms in
  modify (λ l, l <| selected_game := Some proposal |> <| game_readiness := [] |>
                 <| pending_launch := None |> <| last_return := None |> <| lobby_status := GameSelected |>) ;;
  modify (bump_with_activity now_ms) ;;
  mret proposal.

(** Replaces the first entry of the player, or appends one. *)
Definition put_readiness (r : LobbyGameReadinessView) (l : list LobbyGameReadinessView)
    : list LobbyGameReadinessView :=
  let same := λ candidate, readiness_player_index candidate =? readiness_player_index r in
  if existsb same l then update_first same (λ _, r) l else l ++ [r].

Definition set_game_readiness_op (c : ConnectionId) (proposal_id : N) (status : LobbyGameReadinessStatus)
    (detail : option string) (now_ms : N) : LobbyM LobbyGameReadinessView :=
  l ← get;
  p ← lift_result (player_index_for_connection c l);
  lift_result (require_selected_proposal proposal_id l) ;;
  readiness ← lift_result (LobbyGameReadinessView_new p proposal_id status detail now_ms);
  modify (λ l, l <| game_readiness ::= put_readiness readiness |> <| pending_launch := None |>
                 <| lobby_status := GameSelected |>) ;;
  modify (bump_with_activity now_ms) ;;
  mret readiness.

Definition request_game_launch (c : ConnectionId) (proposal_id : N) (now_ms : N) : LobbyM LobbyGameLaunchView :=
  l ← get;
  p ← lift_result (require_host c l);
  lift_result (require_selected_proposal proposal_id l) ;;
  ensure (connected_players_are_ready proposal_id l) PlayersNotReady ;;
  let launch := LobbyGameLaunchView_new proposal_id p now_ms in
  modify (λ l, l <| pending_launch := Some launch |> <| last_return := None |> <| lobby_status := InGame |>) ;;
  modify (bump_with_activity now_ms) ;;
  mret launch.

Definition publish_game_room (c : ConnectionId) (proposal_id : N) (room_invite_code : InviteCode) (now_ms : N)
    : LobbyM LobbyGameLaunchView :=
  l ← get;
  lift_result (require_host c l) ;;
  lift_result (require_selected_proposal proposal_id l) ;;
  launch ← lift_result (ok_or (pending_launch l) StaleGameProposal);
  ensure (launch_proposal_id launch =? proposal_id) StaleGameProposal ;;
  let launch := publish_room (display room_invite_code) now_ms launch in
  modify (λ l, l <| pending_launch := Some launch |> <| lobby_status := InGame |>) ;;
  modify (bump_with_activity now_ms) ;;
  mret launch.

Definition mark_gameplay_started (c : ConnectionId) (lobby_epoch_ proposal_id now_ms : N) : LobbyM bool :=
  l ← get;
  p ← lift_result (player_index_for_connection c l);
  s ← lift_result (ok_or (slot p l) LobbyUnknownConnection);
  if negb (client_supports_lobby_gameplay_started (slot_capabilities s)) then mret false
  else
    lift_result (require_selected_proposal proposal_id l) ;;
    if lobby_epoch_ !=? lobby_epoch l then
      ensure (is_some_and (pending_launch l) (λ launch,
                (launch_proposal_id launch =? proposal_id) && (launch_status launch ==? LaunchPlaying)))
        StaleLobbyEpoch ;;
      mret false
    else
      match gameplay_start_expected_player_indexes l with
      | None => mret false
      | Some expected =>
          launch ← lift_result (ok_or (pending_launch l) StaleGameProposal);
          ensure (launch_proposal_id launch =? proposal_id) StaleGameProposal ;;
          let '(outcome, launch) := mark_player_started p expected now_ms launch in
          modify (λ l, l <| pending_launch := Some launch |>) ;;
          changed ← lift_result outcome;
          if (changed : bool) then
            modify (λ l, bump_with_activity now_ms (l <| lobby_status := InGame |>)) ;; mret true
          else mret false
      end.

Definition return_to_lobby (q : LobbyReturnRequest) : LobbyM LobbyReturnOutcome :=
  l ← get;
  lift_result (player_index_for_connection (return_connection_id q) l) ;;
  lift_result (require_selected_proposal (return_proposal_id q) l) ;;
  if return_lobby_epoch q !=? lobby_epoch l then
    lift_result (ok_or (idempotent_return_outcome (return_proposal_id q) l) StaleLobbyEpoch)
  else if negb (is_some_and (pending_launch l) (λ launch, launch_proposal_id launch =? return_proposal_id q)) then
    lift_result (ok_or (idempotent_return_outcome (return_proposal_id q) l) StaleGameProposal)
  else
    let returned := LobbyReturnedView_new (return_proposal_id q) (return_requested_by q) (return_reason q)
                      (return_now_ms q) in
    modify (λ l, l <| game_readiness := [] |> <| pending_launch := None |> <| lobby_status := setup_status l |>
                   <| last_return := Some returned |>) ;;
    modify (bump_with_activity (return_now_ms q)) ;;
    mret (applied returned).

(** [record_activity]; the kind is not used. *)
Definition record_activity (c : ConnectionId) (now_ms : N) : LobbyM unit :=
  l ← get;
  lift_result (player_index_for_connection c l) ;;
  modify (mark_meaningful_activity now_ms).

Definition is_meaningfully_idle (now_ms : N) (idle_timeout : Duration) (l : Lobby) : bool :=
  (lobby_status l !=? LobbyStatusClosed)
  && (as_millis idle_timeout <=? saturating_sub now_ms (last_meaningful_activity_at_ms l)).

Definition close_due_to_idle (now_ms : N) (l : Lobby) : bool * Lobby :=
  if lobby_status l ==? LobbyStatusClosed then (false, l) else (true, close now_ms l).
