(* ===== verification/LobbyEvents.v ===== *)
(** * Lobby views, events and file transfers

  Models [src/src/lobbies/lobby_view.rs], [lobby_event.rs], [lobby_debug_event.rs],
  [lobby_chat.rs], [lobby_rom_relay.rs], [lobby_start_state_relay.rs] and
  [protocol/lobby_file_relay.rs]: what clients and operators see of a lobby, and the checks
  before a file transfer between two of its players. *)

From stdpp Require Import sorting.
From S2P Require Import Prelude Ids Wire Text Descriptor Invite Protocol Slots SnapshotTransfer.
From S2P Require Import RoomTransactions StartSync LinkOps Lobby.
Open Scope N_scope.

(** ** lobby_view.rs *)

Definition PUBLIC_LOBBY_PLAYER_CAPACITY : N := 2.

Record LobbyView := mkLobbyView {
  lv_lobby_id : RoomId;
  lv_event_seq : N;
  lv_lobby_epoch : N;
  lv_invite_code : list N;
  lv_created_at_ms : N;
  lv_updated_at_ms : N;
  lv_last_meaningful_activity_at_ms : N;
  lv_status : LobbyStatus;
  lv_visibility : LobbyVisibility;
  lv_capabilities : LobbyServerCapabilities;
  lv_players : list LobbyPlayerSlotView;
  lv_selected_game : option LobbyGameSelectionView;
  lv_game_readiness : list LobbyGameReadinessView;
  lv_pending_launch : option LobbyGameLaunchView;
  lv_voice : option RoomVoiceView }.

(** [Lobby::view]. *)
Definition lobby_view (capabilities : LobbyServerCapabilities) (l : Lobby) : LobbyView :=
  mkLobbyView (lobby_id l) (lobby_event_seq l) (lobby_epoch l) (display (lobby_invite_code l))
    (created_at_ms l) (updated_at_ms l) (last_meaningful_activity_at_ms l) (lobby_status l) (visibility l)
    capabilities (player_slot_view <$> lobby_players l) (selected_game l) (game_readiness l)
    (pending_launch l) (voice_view <$> lobby_voice l).

Inductive PublicLobbyStatus := PublicOpen | PublicGameSelected.

Record PublicLobbyGameSummary := mkPublicLobbyGameSummary {
  public_title : string;
  public_system_id : string;
  public_core_id : string;
  public_start_state_label : option string }.

Definition from_selection (selection : LobbyGameSelectionView) : PublicLobbyGameSummary :=
  let game := selection_game selection in
  mkPublicLobbyGameSummary (game_title game) (game_system_id game) (game_core_id game)
    (game_start_state_label game).

Record PublicLobbySummary := mkPublicLobbySummary {
  pub_lobby_id : RoomId;
  pub_invite_code : list N;
  pub_visibility : LobbyVisibility;
  pub_status : PublicLobbyStatus;
  pub_hosted_by : string;
  pub_player_count : N;
  pub_max_players : N;
  pub_open_slots : N;
  pub_created_at_ms : N;
  pub_updated_at_ms : N;
  pub_selected_game : option PublicLobbyGameSummary }.

Definition public_player_count (v : LobbyView) : N :=
  N.of_nat (length (take (N.to_nat PUBLIC_LOBBY_PLAYER_CAPACITY) (List.filter sv_occupied (lv_players v)))).

Definition host_is_connected (v : LobbyView) : bool :=
  existsb (λ p, (sv_player_index p =? 0) && sv_connected p && (sv_status p ==? SlotConnected)) (lv_players v).

Definition hosted_by (v : LobbyView) : string :=
  match List.find (λ p, sv_player_index p =? 0) (lv_players v) ≫= sv_display_name with
  | Some name => if is_blank name then "Player 1" else name
  | None => "Player 1"
  end.

Definition public_summary (v : LobbyView) : option PublicLobbySummary :=
  if lv_visibility v !=? VisibilityPublic then None
  else
    status ← match lv_status v with
             | LobbyOpen => Some PublicOpen
             | GameSelected => Some PublicGameSelected
             | InGame | LobbyStatusClosed => None
             end;
    let player_count := public_player_count v in
    if (PUBLIC_LOBBY_PLAYER_CAPACITY <=? player_count) || negb (host_is_connected v) then None
    else Some (mkPublicLobbySummary (lv_lobby_id v) (lv_invite_code v) (lv_visibility v) status (hosted_by v)
                 player_count PUBLIC_LOBBY_PLAYER_CAPACITY
                 (saturating_sub PUBLIC_LOBBY_PLAYER_CAPACITY player_count) (lv_created_at_ms v)
                 (lv_updated_at_ms v) (from_selection <$> lv_selected_game v)).

(** ** protocol/lobby_file_relay.rs *)

Inductive LobbyFileRelayGrantRole := LobbyUpload | LobbyDownload.
Inductive LobbyFileRelayMaterialKind := MaterialGame | MaterialStartupState.
Inductive LobbyStartupStateRestorePolicy := RestoreImmediate | RestoreAfterFrames (frames : N).

Record LobbyStartupStateTransferMetadata := mkLobbyStartupStateTransferMetadata {
  state_sha256 : string;
  state_size_bytes : N;
  state_label : option string;
  state_restore_policy : LobbyStartupStateRestorePolicy;
  state_format_ : option string }.

#[export] Instance eta_LobbyStartupStateTransferMetadata : Eta LobbyStartupStateTransferMetadata := λ m,
  mkLobbyStartupStateTransferMetadata (state_sha256 m) (state_size_bytes m) (state_label m)
    (state_restore_policy m) (state_format_ m).
#[export] Instance set_state_label : Setter state_label.
Proof. derive_setter. Defined.

Record LobbyFileRelayGrant := mkLobbyFileRelayGrant {
  lgrant_transfer_id : string;
  lgrant_relay_url : string;
  lgrant_token : string;
  lgrant_role : LobbyFileRelayGrantRole;
  lgrant_material_kind : LobbyFileRelayMaterialKind;
  lgrant_proposal_id : N;
  lgrant_sender_player_index : N;
  lgrant_receiver_player_index : N;
  lgrant_sha256 : string;
  lgrant_size_bytes : N;
  lgrant_chunk_size_bytes : N;
  lgrant_chunk_count : N;
  lgrant_expires_at : string;
  lgrant_startup_state : option LobbyStartupStateTransferMetadata }.

Record LobbyFileRelayGrantPair := mkLobbyFileRelayGrantPair {
  lpair_upload : LobbyFileRelayGrant;
  lpair_download : LobbyFileRelayGrant }.

(** ** lobby_rom_relay.rs *)

Record LobbyRomRelayTransferIntent := mkLobbyRomRelayTransferIntent {
  lintent_lobby_id : RoomId;
  lintent_proposal_id : N;
  lintent_game : LobbyGameCandidate;
  lintent_sha256 : string;
  lintent_size_bytes : N;
  lintent_sender_player_index : PlayerIndex;
  lintent_sender_connection_id : ConnectionId;
  lintent_receiver_player_index : PlayerIndex;
  lintent_receiver_connection_id : ConnectionId }.

(** The participants and the selected game of a transfer that the host requests. *)
Definition transfer_participants (c : ConnectionId) (proposal_id : N) (receiver : PlayerIndex)
    (unsupported : LobbyError) (l : Lobby)
    : result LobbyError (PlayerIndex * ConnectionId * LobbyGameSelectionView) :=
  sender_index ← player_index_for_connection c l;
  sender ← ok_or (slot sender_index l) LobbyUnknownConnection;
  if slot_role sender !=? LobbyHost then Err LobbyHostOnly
  else
    receiver ← ok_or (slot receiver l) PlayerSlotUnavailable;
    receiver_connection ← ok_or (slot_connection_id receiver) PlayerSlotUnavailable;
    if negb (client_supports_temporary_session_rom_relay (slot_capabilities sender))
       || negb (client_supports_temporary_session_rom_relay (slot_capabilities receiver))
    then Err unsupported
    else
      match selected_game l with
      | Some game => if selection_proposal_id game =? proposal_id
                     then Ok (sender_index, receiver_connection, game) else Err StaleGameProposal
      | None => Err StaleGameProposal
      end.

Definition prepare_rom_relay_transfer (c : ConnectionId) (proposal_id : N) (receiver : PlayerIndex)
    (max_bytes : N) (l : Lobby) : result LobbyError LobbyRomRelayTransferIntent :=
  '(sender_index, receiver_connection, game) ←
    transfer_participants c proposal_id receiver LobbyRomRelayUnsupported l;
  sha256 ← ok_or (game_content_sha256 (selection_game game)) LobbyInvalidPayload;
  size_bytes ← ok_or (game_rom_size_bytes (selection_game game)) LobbyInvalidPayload;
  if negb (is_sha256_hex sha256) then Err LobbyInvalidPayload
  else if max_bytes <? size_bytes then Err LobbyRomRelayTooLarge
  else Ok (mkLobbyRomRelayTransferIntent (lobby_id l) proposal_id (selection_game game) sha256 size_bytes
             sender_index c receiver receiver_connection).

(** Both transfer kinds are revalidated the same way before their grants are sent. *)
Definition transfer_current (proposal_id : N) (sender receiver : PlayerIndex)
    (sender_connection receiver_connection : ConnectionId) (l : Lobby) : result LobbyError unit :=
  _ ← require_selected_proposal proposal_id l;
  sender ← ok_or (slot sender l) LobbyUnknownConnection;
  receiver ← ok_or (slot receiver l) PlayerSlotUnavailable;
  if (slot_connection_id sender !=? Some sender_connection)
     || (slot_connection_id receiver !=? Some receiver_connection)
  then Err PlayerSlotUnavailable else Ok tt.

Definition require_rom_relay_transfer_current (i : LobbyRomRelayTransferIntent) : Lobby → result LobbyError unit :=
  transfer_current (lintent_proposal_id i) (lintent_sender_player_index i) (lintent_receiver_player_index i)
    (lintent_sender_connection_id i) (lintent_receiver_connection_id i).

(** ** lobby_start_state_relay.rs *)

Record LobbyStartupStateRelayTransferIntent := mkLobbyStartupStateRelayTransferIntent {
  sintent_lobby_id : RoomId;
  sintent_proposal_id : N;
  sintent_game : LobbyGameCandidate;
  sintent_state : LobbyStartupStateTransferMetadata;
  sintent_sender_player_index : PlayerIndex;
  sintent_sender_connection_id : ConnectionId;
  sintent_receiver_player_index : PlayerIndex;
  sintent_receiver_connection_id : ConnectionId }.

(** [as_deref().map(str::trim).filter(|label| !label.is_empty())], on characters. *)
Definition trimmed_label (label : option string) : option (list N) :=
  label ≫= λ label, if (length (trim (chars label)) =? 0)%nat then None else Some (trim (chars label)).

Definition valid_startup_state_metadata (state : LobbyStartupStateTransferMetadata) (selected_label : list N)
    : bool :=
  is_sha256_hex (state_sha256 state) && (0 <? state_size_bytes state)
  && is_none_or (trimmed_label (state_label state)) (λ label, label ==? selected_label)
  && is_none_or (state_format_ state) (λ value, negb (is_blank value)).

Definition prepare_startup_state_relay_transfer (c : ConnectionId) (proposal_id : N) (receiver : PlayerIndex)
    (state : LobbyStartupStateTransferMetadata) (max_bytes : N) (l : Lobby)
    : result LobbyError LobbyStartupStateRelayTransferIntent :=
  '(sender_index, receiver_connection, game) ←
    transfer_participants c proposal_id receiver StartupStateRelayUnsupported l;
  selected_label ← ok_or (trimmed_label (game_start_state_label (selection_game game))) LobbyInvalidPayload;
  if negb (valid_startup_state_metadata state selected_label) then Err LobbyInvalidPayload
  else if max_bytes <? state_size_bytes state then Err StartupStateRelayTooLarge
  else
    let state := if is_none (trimmed_label (state_label state))
                 then state <| state_label := Some (string_of_chars selected_label) |> else state in
    Ok (mkLobbyStartupStateRelayTransferIntent (lobby_id l) proposal_id (selection_game game) state sender_index
          c receiver receiver_connection).

Definition require_startup_state_relay_transfer_current (i : LobbyStartupStateRelayTransferIntent)
    : Lobby → result LobbyError unit :=
  transfer_current (sintent_proposal_id i) (sintent_sender_player_index i) (sintent_receiver_player_index i)
    (sintent_sender_connection_id i) (sintent_receiver_connection_id i).

(** ** lobby_chat.rs, lobby_event.rs and lobby_debug_event.rs *)

Record LobbyChatMessageView := mkLobbyChatMessageView {
  chat_message_id : N;
  chat_player_index : N;
  chat_sent_at_ms : N;
  chat_body : string }.

Inductive LobbyPlayerRemovalReason := RemovedByHost.

Inductive LobbyEvent :=
| LobbyStateChanged (lobby : LobbyView)
| LobbyReturned (lobby : LobbyView) (returned : LobbyReturnedView)
| ChatMessage (chat : LobbyChatMessageView)
| LobbyClosedEvent (lobby : LobbyView) (reason : string)
| PlayerRemoved (target : ConnectionId) (player_index : N) (reason : LobbyPlayerRemovalReason)
    (lobby : LobbyView)
| RomTransferUploadGranted (source : ConnectionId) (lobby_epoch : N) (grant : LobbyFileRelayGrant)
| RomTransferDownloadReady (receiver : ConnectionId) (lobby_epoch : N) (grant : LobbyFileRelayGrant)
| StartupStateTransferUploadGranted (source : ConnectionId) (lobby_epoch : N) (grant : LobbyFileRelayGrant)
| StartupStateTransferDownloadReady (receiver : ConnectionId) (lobby_epoch : N) (grant : LobbyFileRelayGrant).

Definition DEFAULT_LOBBY_EVENT_CAPACITY : nat := 200.

Record LobbyDebugEvent := mkLobbyDebugEvent {
  ldebug_timestamp_ms : N;
  ldebug_lobby_id : RoomId;
  ldebug_invite_code : list N;
  ldebug_event_seq : N;
  ldebug_lobby_epoch : N;
  ldebug_kind : string;
  ldebug_detail : string }.

Record LobbyDebugEventLog := mkLobbyDebugEventLog {
  lobby_log_capacity : nat;
  lobby_log_events : list LobbyDebugEvent }.

Definition LobbyDebugEventLog_default : LobbyDebugEventLog :=
  mkLobbyDebugEventLog DEFAULT_LOBBY_EVENT_CAPACITY [].

Definition lobby_log_push (event : LobbyDebugEvent) (log : LobbyDebugEventLog) : LobbyDebugEventLog :=
  let events := if (lobby_log_capacity log <=? length (lobby_log_events log))%nat
                then tail (lobby_log_events log) else lobby_log_events log in
  mkLobbyDebugEventLog (lobby_log_capacity log) (events ++ [event]).

Definition lobby_log_tail (limit : nat) (log : LobbyDebugEventLog) : list LobbyDebugEvent :=
  drop (length (lobby_log_events log) - limit) (lobby_log_events log).
