(* ===== verification/LobbyRegistry.v ===== *)
(** * The lobby registry

  Models [src/src/lobbies/stored_lobby.rs], [in_memory_lobby_registry.rs] and
  [lobby_registry_voice_ops.rs]. As for rooms, an operation runs under the write lock and is
  one atomic step; its body works on a [LobbyCell], the stored lobby together with the
  registry's feed. [now_ms] is the operation's reading of the wall clock, [wall_ms] the one
  that stamps its debug events. Drawn identifiers and tokens and the answers of the voice
  broker are arguments. *)

From stdpp Require Import sorting.
From S2P Require Import Prelude Ids Wire Text Descriptor Invite Protocol Slots SnapshotTransfer.
From S2P Require Import RoomTransactions StartSync LinkOps RoomEvents StoredRoom Registry Lobby LobbyEvents.
Open Scope N_scope.

(** ** stored_lobby.rs *)

Record StoredLobby := mkStoredLobby {
  stored_lobby : Lobby;
  lobby_debug_log : LobbyDebugEventLog;
  lobby_sent : list LobbyEvent;
  stored_capabilities : LobbyServerCapabilities }.

#[export] Instance eta_StoredLobby : Eta StoredLobby := λ s,
  mkStoredLobby (stored_lobby s) (lobby_debug_log s) (lobby_sent s) (stored_capabilities s).
#[export] Instance set_stored_lobby : Setter stored_lobby.
Proof. derive_setter. Defined.
#[export] Instance set_lobby_debug_log : Setter lobby_debug_log.
Proof. derive_setter. Defined.
#[export] Instance set_lobby_sent : Setter lobby_sent.
Proof. derive_setter. Defined.

Definition StoredLobby_new (l : Lobby) (capabilities : LobbyServerCapabilities) : StoredLobby :=
  mkStoredLobby l LobbyDebugEventLog_default [] capabilities.

Definition stored_lobby_view (s : StoredLobby) : LobbyView :=
  lobby_view (stored_capabilities s) (stored_lobby s).
Definition lobby_debug_events (limit : nat) (s : StoredLobby) : list LobbyDebugEvent :=
  lobby_log_tail limit (lobby_debug_log s).

(** [record_debug_event]. *)
Definition record_lobby_debug_event (wall_ms : N) (kind detail : string) (s : StoredLobby)
    : LobbyDebugEvent * StoredLobby :=
  let v := stored_lobby_view s in
  let event := mkLobbyDebugEvent wall_ms (lv_lobby_id v) (lv_invite_code v) (lv_event_seq v)
                 (lv_lobby_epoch v) kind detail in
  (event, s <| lobby_debug_log ::= lobby_log_push event |>).

Definition send_lobby (event : StoredLobby → LobbyEvent) (s : StoredLobby) : StoredLobby :=
  s <| lobby_sent ::= (.++ [event s]) |>.

Definition emit_state_changed : StoredLobby → StoredLobby := send_lobby (λ s, LobbyStateChanged (stored_lobby_view s)).
Definition emit_lobby_returned (returned : LobbyReturnedView) : StoredLobby → StoredLobby :=
  send_lobby (λ s, LobbyReturned (stored_lobby_view s) returned).
Definition emit_chat_message (chat : LobbyChatMessageView) : StoredLobby → StoredLobby :=
  send_lobby (λ _, ChatMessage chat).
Definition emit_lobby_closed (reason : string) : StoredLobby → StoredLobby :=
  send_lobby (λ s, LobbyClosedEvent (stored_lobby_view s) reason).
Definition emit_player_removed (target : ConnectionId) (player_index : N) (reason : LobbyPlayerRemovalReason)
    : StoredLobby → StoredLobby :=
  send_lobby (λ s, PlayerRemoved target player_index reason (stored_lobby_view s)).
Definition emit_rom_transfer_grants (source receiver : ConnectionId) (grants : LobbyFileRelayGrantPair)
    (s : StoredLobby) : StoredLobby :=
  let epoch := lobby_epoch (stored_lobby s) in
  send_lobby (λ _, RomTransferDownloadReady receiver epoch (lpair_download grants))
    (send_lobby (λ _, RomTransferUploadGranted source epoch (lpair_upload grants)) s).
Definition emit_startup_state_transfer_grants (source receiver : ConnectionId)
    (grants : LobbyFileRelayGrantPair) (s : StoredLobby) : StoredLobby :=
  let epoch := lobby_epoch (stored_lobby s) in
  send_lobby (λ _, StartupStateTransferDownloadReady receiver epoch (lpair_download grants))
    (send_lobby (λ _, StartupStateTransferUploadGranted source epoch (lpair_upload grants)) s).

(** ** State of the registry *)

Record LobbyFeed := mkLobbyFeed {
  lobby_recent_events : LobbyDebugEventLog;
  lobby_sunk_events : list LobbyDebugEvent;
  public_changes : N;
  closed_lobby_voice : list (string * string);
  removed_participants : list (string * string * string) }.

#[export] Instance eta_LobbyFeed : Eta LobbyFeed := λ f,
  mkLobbyFeed (lobby_recent_events f) (lobby_sunk_events f) (public_changes f) (closed_lobby_voice f)
    (removed_participants f).
#[export] Instance set_lobby_recent_events : Setter lobby_recent_events.
Proof. derive_setter. Defined.
#[export] Instance set_lobby_sunk_events : Setter lobby_sunk_events.
Proof. derive_setter. Defined.
#[export] Instance set_public_changes : Setter public_changes.
Proof. derive_setter. Defined.
#[export] Instance set_closed_lobby_voice : Setter closed_lobby_voice.
Proof. derive_setter. Defined.
#[export] Instance set_removed_participants : Setter removed_participants.
Proof. derive_setter. Defined.

(** [InMemoryLobbyRegistry]. *)
Record LobbyRegistry := mkLobbyRegistry {
  lobbies : gmap (list N) StoredLobby;
  lobby_feed : LobbyFeed }.

#[export] Instance eta_LobbyRegistry : Eta LobbyRegistry := λ g, mkLobbyRegistry (lobbies g) (lobby_feed g).
#[export] Instance set_lobbies : Setter lobbies.
Proof. derive_setter. Defined.
#[export] Instance set_lobby_feed : Setter lobby_feed.
Proof. derive_setter. Defined.

Record LobbyDeps := mkLobbyDeps {
  lobby_digest_of : bytes → bytes;
  lobby_capabilities : LobbyServerCapabilities;
  lobby_broker_enabled : bool;
  uuid_text : N → string }.

(** [InMemoryLobbyRegistry::new]. *)
Definition LobbyRegistry_new : LobbyRegistry :=
  mkLobbyRegistry ∅ (mkLobbyFeed LobbyDebugEventLog_default [] 0 [] []).

Record LobbyCell := mkLobbyCell { cell_lobby : StoredLobby; cell_lobby_feed : LobbyFeed }.

#[export] Instance eta_LobbyCell : Eta LobbyCell := λ c, mkLobbyCell (cell_lobby c) (cell_lobby_feed c).
#[export] Instance set_cell_lobby : Setter cell_lobby.
Proof. derive_setter. Defined.
#[export] Instance set_cell_lobby_feed : Setter cell_lobby_feed.
Proof. derive_setter. Defined.

Abbreviation LobbyCellM := (M LobbyCell LobbyError).

Definition with_lobby {A} (code : InviteCode) (body : LobbyCellM A) : M LobbyRegistry LobbyError A := λ g,
  match lobbies g !! normalized code with
  | None => (Err LobbyNotFound, g)
  | Some s =>
      let '(o, c) := body (mkLobbyCell s (lobby_feed g)) in
      (o, mkLobbyRegistry (<[normalized code := cell_lobby c]> (lobbies g)) (cell_lobby_feed c))
  end.

Definition read_lobby {A} (code : InviteCode) (f : StoredLobby → result LobbyError A) (g : LobbyRegistry)
    : result LobbyError A :=
  s ← ok_or (lobbies g !! normalized code) LobbyNotFound; f s.

Definition on_lobby {A} (m : LobbyM A) : LobbyCellM A := λ c,
  let '(o, l) := m (stored_lobby (cell_lobby c)) in
  (o, c <| cell_lobby ::= λ s, s <| stored_lobby := l |> |>).
Definition on_stored_lobby (f : StoredLobby → StoredLobby) : LobbyCellM unit :=
  modify (λ c, c <| cell_lobby ::= f |>).
Definition on_feed (f : LobbyFeed → LobbyFeed) : LobbyCellM unit := modify (λ c, c <| cell_lobby_feed ::= f |>).
Definition view_of : LobbyCellM LobbyView := gets (λ c, stored_lobby_view (cell_lobby c)).

Definition emit_public_lobbies_changed (f : LobbyFeed) : LobbyFeed := f <| public_changes ::= N.succ |>.

Definition record_recent_event (event : LobbyDebugEvent) (f : LobbyFeed) : LobbyFeed :=
  f <| lobby_sunk_events ::= (.++ [event]) |> <| lobby_recent_events ::= lobby_log_push event |>.

Definition cleanup_lobby_voice_room (enabled : bool) (voice_room_id : option string) (reason : string)
    (f : LobbyFeed) : LobbyFeed :=
  match voice_room_id with
  | Some id => if enabled then f <| closed_lobby_voice ::= (.++ [(id, reason)]) |> else f
  | None => f
  end.

Definition cleanup_lobby_voice_participant (enabled : bool) (participant : option (string * string))
    (reason : string) (f : LobbyFeed) : LobbyFeed :=
  match participant with
  | Some (room, identity) => if enabled then f <| removed_participants ::= (.++ [(room, identity, reason)]) |> else f
  | None => f
  end.

(** ** lobby_registry_voice_ops.rs *)

Definition LEGACY_LOBBY_VOICE_MAX_PARTICIPANTS : N := 2.

Definition lobby_participant_identity (uuid : N → string) (l : Lobby) (p : PlayerIndex) : string :=
  ("lobby-" ++ uuid (room_id_uuid (lobby_id l)) ++ "-p" ++ decimal (display_number p))%string.

Definition lobby_voice_participants (uuid : N → string) (l : Lobby) (max_participants : N)
    : list VoiceBrokerParticipant :=
  (λ p, mkVoiceBrokerParticipant (display_number p) (lobby_participant_identity uuid l p)
          ("Player " ++ decimal (display_number p))%string)
  <$> omap (λ index, PlayerIndex_new (N.of_nat index) MAX_LOBBY_PLAYERS)
        (seq 0 (N.to_nat (N.min max_participants MAX_LOBBY_PLAYERS))).

Definition create_lobby_voice_request (uuid : N → string) (mode : NetplayVoiceMode) (max_participants : N)
    (l : Lobby) : CreateVoiceRoomBrokerRequest :=
  mkCreateVoiceRoomBrokerRequest (uuid (room_id_uuid (lobby_id l))) (display (lobby_invite_code l))
    (lobby_epoch l) mode max_participants (lobby_voice_participants uuid l max_participants).

(** What [create_room] of the broker returns for a request. *)
Inductive BrokerAnswer := BrokerRoom (response : CreateVoiceRoomBrokerResponse) | BrokerStatus (status : N) | BrokerFailure.

(** [create_lobby_voice_room]: a broker that refuses four participants is asked for two. *)
Definition create_lobby_voice_room (broker : CreateVoiceRoomBrokerRequest → BrokerAnswer) (uuid : N → string)
    (mode : NetplayVoiceMode) (l : Lobby) : option CreateVoiceRoomBrokerResponse :=
  match broker (create_lobby_voice_request uuid mode MAX_LOBBY_PLAYERS l) with
  | BrokerRoom response => Some response
  | BrokerStatus status =>
      if (status =? 400) && (LEGACY_LOBBY_VOICE_MAX_PARTICIPANTS <? MAX_LOBBY_PLAYERS) then
        match broker (create_lobby_voice_request uuid mode LEGACY_LOBBY_VOICE_MAX_PARTICIPANTS l) with
        | BrokerRoom response => Some response
        | _ => None
        end
      else None
  | BrokerFailure => None
  end.

Definition lobby_voice_state_from_response (response : CreateVoiceRoomBrokerResponse) (mode : NetplayVoiceMode)
    : RoomVoiceState :=
  let room := response_room response in
  let shared := mkRoomVoiceView VoiceAvailable (Some "livekit"%string) (Some (broker_voice_room_id room))
                  (Some (broker_livekit_room_name room)) (Some (broker_server_url room)) mode
                  (broker_max_participants room) None in
  voice_available shared
    (foldl (λ m '(p, grant), <[p := grant]> m) ∅
       (omap (player_grant shared MAX_LOBBY_PLAYERS mode) (response_grants response))).

Definition create_voice_state_for_lobby (deps : LobbyDeps)
    (broker : CreateVoiceRoomBrokerRequest → BrokerAnswer) (voice : option NetplayVoiceDescriptor)
    (client_supports_voice : bool) (l : Lobby) : option RoomVoiceState :=
  descriptor ← voice;
  if negb (voice_enabled descriptor) || negb client_supports_voice
     || negb (server_supports_lobby_voice (lobby_capabilities deps)) then None
  else
    let mode := voice_mode descriptor in
    let unavailable := voice_unavailable mode "Voice chat is not available for this lobby." in
    if negb (lobby_broker_enabled deps) then Some unavailable
    else match create_lobby_voice_room broker (uuid_text deps) mode l with
         | Some response => Some (lobby_voice_state_from_response response mode)
         | None => Some unavailable
         end.

(** ** Operations *)

Record CreateLobbyParams := mkCreateLobbyParams {
  create_display_name : option string;
  create_capabilities : LobbyClientCapabilities;
  params_initial_game : option LobbyGameCandidate;
  create_voice : option NetplayVoiceDescriptor;
  params_visibility : LobbyVisibility }.

Record JoinLobbyParams := mkJoinLobbyParams {
  join_display_name : option string;
  join_capabilities : LobbyClientCapabilities }.

Record LobbyJoin := mkLobbyJoin {
  lobby_join_lobby : LobbyView;
  lobby_join_player_index : PlayerIndex;
  lobby_join_resume_token : string;
  lobby_join_voice : option PlayerVoiceJoinGrant }.

Record LobbyVoiceTokenRefresh := mkLobbyVoiceTokenRefresh {
  refreshed_event_seq : N;
  refreshed_lobby_epoch : N;
  refreshed_voice : PlayerVoiceJoinGrant }.

Inductive LobbyActivityKind := GameplayActive | RomRelayActivity | VoiceSpeaking.

(** [{:?}] of the derived [Debug]. *)
Definition lobby_status_debug (s : LobbyStatus) : string :=
  match s with LobbyOpen => "Open" | GameSelected => "GameSelected" | InGame => "InGame" | LobbyStatusClosed => "Closed" end.
Definition readiness_status_debug (s : LobbyGameReadinessStatus) : string :=
  match s with
  | ReadinessUnknown => "Unknown" | ReadinessReady => "Ready" | ReadinessNotReady => "NotReady"
  | ReadinessMissingRom => "MissingRom" | ReadinessMissingStartupState => "MissingStartupState"
  | ReadinessUnsupported => "Unsupported"
  end.
Definition activity_kind_debug (k : LobbyActivityKind) : string :=
  match k with GameplayActive => "GameplayActive" | RomRelayActivity => "RomRelay" | VoiceSpeaking => "VoiceSpeaking" end.

Definition lobby_voice_state (v : LobbyView) : string :=
  match vv_status <$> lv_voice v with
  | Some VoiceAvailable => "available"
  | Some VoiceUnavailable_ => "unavailable"
  | None => "off"
  end.

Definition lobby_created_detail (v : LobbyView) : string :=
  ("lobby created status=" ++ lobby_status_debug (lv_status v) ++ " voice=" ++ lobby_voice_state v
   ++ " selectedGame=" ++ (if is_some (lv_selected_game v) then "true" else "false"))%string.

Definition player_detail (prefix : string) (p : PlayerIndex) : string :=
  (prefix ++ " p" ++ decimal ((zero_based p + 1) mod 256))%string.

Definition transfer_detail (prefix : string) (sender receiver : PlayerIndex) (size_bytes : N) : string :=
  (prefix ++ " p" ++ decimal (display_number sender) ++ "->p" ++ decimal (display_number receiver)
   ++ " bytes=" ++ decimal size_bytes)%string.

(** [sanitize_chat_body]. *)
Definition sanitize_chat_body (body : string) : result LobbyError string :=
  let sanitized := compact_lines (chars body) in
  if (length sanitized =? 0)%nat || (500 <? length sanitized)%nat then Err LobbyInvalidPayload
  else Ok (string_of_chars sanitized).

Section lobby_operations.
Context (deps : LobbyDeps) (wall_ms now_ms : N).

Definition lobby_token_hash : string → ResumeTokenHash := hash_resume_token (lobby_digest_of deps).

(** [record_lobby_event]. *)
Definition record_lobby_event (kind detail : string) : LobbyCellM unit := λ c,
  let '(event, s) := record_lobby_debug_event wall_ms kind detail (cell_lobby c) in
  (Ok tt, mkLobbyCell s (record_recent_event event (cell_lobby_feed c))).

Definition notify_public : LobbyCellM unit := on_feed emit_public_lobbies_changed.

Definition create_lobby (id : RoomId) (code : InviteCode) (resume_token : string) (host_connection : ConnectionId)
    (proposal_id : N) (broker : CreateVoiceRoomBrokerRequest → BrokerAnswer) (host : VerifiedLicense)
    (params : CreateLobbyParams) (g : LobbyRegistry) : LobbyJoin * LobbyRegistry :=
  let lobby := Lobby_new id proposal_id
    (mkLobbyCreateRequest code host host_connection (create_display_name params) (create_capabilities params)
       (lobby_token_hash resume_token) (params_initial_game params) (params_visibility params) now_ms) in
  let lobby := match create_voice_state_for_lobby deps broker (create_voice params)
                       (client_supports_lobby_voice (create_capabilities params)) lobby with
               | Some voice => set_voice_state voice lobby
               | None => lobby
               end in
  let voice := voice_grant_for PlayerIndex_ONE lobby in
  let stored := StoredLobby_new lobby (lobby_capabilities deps) in
  let '(_, c) := record_lobby_event "lobbyCreated" (lobby_created_detail (stored_lobby_view stored))
                   (mkLobbyCell stored (lobby_feed g)) in
  (mkLobbyJoin (stored_lobby_view (cell_lobby c)) PlayerIndex_ONE resume_token voice,
   mkLobbyRegistry (<[normalized code := cell_lobby c]> (lobbies g))
     (emit_public_lobbies_changed (cell_lobby_feed c))).

(** The end of the operations that seat a player. *)
Definition seated (p : PlayerIndex) (resume_token kind detail : string) : LobbyCellM LobbyJoin :=
  on_stored_lobby emit_state_changed ;;
  record_lobby_event kind (player_detail detail p) ;;
  notify_public ;;
  v ← view_of;
  voice ← gets (λ c, voice_grant_for p (stored_lobby (cell_lobby c)));
  mret (mkLobbyJoin v p resume_token voice).

Definition join_lobby_body (c : ConnectionId) (resume_token : string) (player : VerifiedLicense)
    (params : JoinLobbyParams) : LobbyCellM LobbyJoin :=
  p ← on_lobby (join_or_refresh_player player c (join_display_name params) (join_capabilities params)
        (lobby_token_hash resume_token) now_ms);
  seated p resume_token "lobbyJoined" "player joined lobby".

Definition connect_lobby_body (c : ConnectionId) (resume_token : string) (player : VerifiedLicense)
    (params : JoinLobbyParams) : LobbyCellM LobbyJoin :=
  p ← on_lobby (join_or_refresh_player player c (join_display_name params) (join_capabilities params)
        (lobby_token_hash resume_token) now_ms);
  seated p resume_token "lobbySocketConnected" "lobby socket connected".

Definition reconnect_lobby_player_body (player : VerifiedLicense) (params : JoinLobbyParams) (p : PlayerIndex)
    (epoch : N) (resume_token : string) (c : ConnectionId) : LobbyCellM LobbyJoin :=
  p ← on_lobby (reconnect_player (lobby_digest_of deps) (mkLobbyReconnectRequest player p epoch resume_token c
        (join_display_name params) (join_capabilities params) now_ms));
  seated p resume_token "lobbyPlayerReconnected" "lobby player reconnected".

Definition disconnect_lobby_body (c : ConnectionId) : LobbyCellM LobbyView :=
  disconnected ← on_lobby (lift_total (disconnect c now_ms));
  (if (disconnected : bool) then
     on_stored_lobby emit_state_changed ;;
     record_lobby_event "lobbySocketDisconnected" "lobby socket disconnected" ;;
     notify_public
   else mret tt) ;;
  view_of.

(** Emit the state, record the event and return the view. *)
Definition publish_change (kind detail : string) (public : bool) : LobbyCellM LobbyView :=
  on_stored_lobby emit_state_changed ;;
  record_lobby_event kind detail ;;
  (if public then notify_public else mret tt) ;;
  view_of.

Definition leave_lobby_body (c : ConnectionId) : LobbyCellM LobbyView :=
  on_lobby (leave c now_ms) ;;
  closed ← (gets (λ cell, lobby_status (stored_lobby (cell_lobby cell)) ==? LobbyStatusClosed) : LobbyCellM bool);
  voice ← ((if (closed : bool) then on_lobby (lift_total take_voice_room_id_for_cleanup) else mret None)
           : LobbyCellM (option string));
  on_stored_lobby emit_state_changed ;;
  record_lobby_event "lobbyPlayerLeft" (if (closed : bool) then "host left; lobby closed" else "player left lobby") ;;
  on_feed (cleanup_lobby_voice_room (lobby_broker_enabled deps) voice "lobby-left") ;;
  notify_public ;;
  view_of.

Definition remove_lobby_player_body (requester : ConnectionId) (epoch : N) (target : PlayerIndex)
    : LobbyCellM LobbyView :=
  removal ← on_lobby (remove_player requester epoch target now_ms);
  match removal_connection_id removal with
  | Some c => on_stored_lobby (emit_player_removed c (zero_based (removal_player_index removal)) RemovedByHost)
  | None => mret tt
  end ;;
  v ← publish_change "lobbyPlayerRemoved"
        (player_detail "host removed player from lobby" (removal_player_index removal)) true;
  on_feed (cleanup_lobby_voice_participant (lobby_broker_enabled deps)
    (match removal_voice_room_id removal, removal_participant_identity removal with
     | Some room, Some identity => Some (room, identity)
     | _, _ => None
     end) "removedByHost") ;;
  mret v.

(** [remove_lobby_player]: the capability is checked before the lobby is looked up. *)
Definition remove_lobby_player (code : InviteCode) (requester : ConnectionId) (epoch : N) (target : PlayerIndex)
    : M LobbyRegistry LobbyError LobbyView := λ g,
  if negb (server_supports_lobby_player_removal (lobby_capabilities deps))
  then (Err LobbyPlayerRemovalUnavailable, g)
  else with_lobby code (remove_lobby_player_body requester epoch target) g.

Definition select_lobby_game_body (proposal_id : N) (c : ConnectionId) (game : LobbyGameCandidate)
    : LobbyCellM LobbyView :=
  on_lobby (select_game proposal_id c game now_ms) ;;
  publish_change "lobbyGameSelected" "host selected game" true.

Definition set_lobby_game_readiness_body (c : ConnectionId) (proposal_id : N)
    (status : LobbyGameReadinessStatus) (detail : option string) : LobbyCellM LobbyView :=
  on_lobby (set_game_readiness_op c proposal_id status detail now_ms) ;;
  publish_change "lobbyReadinessSet" ("player readiness set status=" ++ readiness_status_debug status)%string false.

Definition request_lobby_game_launch_body (c : ConnectionId) (proposal_id : N) : LobbyCellM LobbyView :=
  on_lobby (request_game_launch c proposal_id now_ms) ;;
  publish_change "lobbyLaunchRequested" "host requested game launch" true.

Definition prepare_lobby_rom_relay_transfer_body (c : ConnectionId) (proposal_id : N) (receiver : PlayerIndex)
    (max_bytes : N) : LobbyCellM LobbyRomRelayTransferIntent :=
  cell ← get;
  intent ← lift_result (prepare_rom_relay_transfer c proposal_id receiver max_bytes
                          (stored_lobby (cell_lobby cell)));
  on_lobby (record_activity c now_ms) ;;
  record_lobby_event "lobbyRomRelayRequested"
    (transfer_detail "temporary ROM relay requested" (lintent_sender_player_index intent)
       (lintent_receiver_player_index intent) (lintent_size_bytes intent)) ;;
  mret intent.

Definition grant_lobby_rom_relay_transfer_body (intent : LobbyRomRelayTransferIntent)
    (grants : LobbyFileRelayGrantPair) : LobbyCellM unit :=
  cell ← get;
  lift_result (require_rom_relay_transfer_current intent (stored_lobby (cell_lobby cell))) ;;
  on_stored_lobby (emit_rom_transfer_grants (lintent_sender_connection_id intent)
                     (lintent_receiver_connection_id intent) grants) ;;
  record_lobby_event "lobbyRomRelayGranted"
    (transfer_detail "temporary ROM relay grants issued" (lintent_sender_player_index intent)
       (lintent_receiver_player_index intent) (lintent_size_bytes intent)).

Definition prepare_lobby_startup_state_relay_transfer_body (c : ConnectionId) (proposal_id : N)
    (receiver : PlayerIndex) (state : LobbyStartupStateTransferMetadata) (max_bytes : N)
    : LobbyCellM LobbyStartupStateRelayTransferIntent :=
  cell ← get;
  intent ← lift_result (prepare_startup_state_relay_transfer c proposal_id receiver state max_bytes
                          (stored_lobby (cell_lobby cell)));
  on_lobby (record_activity c now_ms) ;;
  record_lobby_event "lobbyStartupStateRelayRequested"
    (transfer_detail "startup state relay requested" (sintent_sender_player_index intent)
       (sintent_receiver_player_index intent) (state_size_bytes (sintent_state intent))) ;;
  mret intent.

Definition grant_lobby_startup_state_relay_transfer_body (intent : LobbyStartupStateRelayTransferIntent)
    (grants : LobbyFileRelayGrantPair) : LobbyCellM unit :=
  cell ← get;
  lift_result (require_startup_state_relay_transfer_current intent (stored_lobby (cell_lobby cell))) ;;
  on_stored_lobby (emit_startup_state_transfer_grants (sintent_sender_connection_id intent)
                     (sintent_receiver_connection_id intent) grants) ;;
  record_lobby_event "lobbyStartupStateRelayGranted"
    (transfer_detail "startup state relay grants issued" (sintent_sender_player_index intent)
       (sintent_receiver_player_index intent) (state_size_bytes (sintent_state intent))).

Definition publish_lobby_game_room_body (c : ConnectionId) (proposal_id : N) (room_invite_code : InviteCode)
    : LobbyCellM LobbyView :=
  on_lobby (publish_game_room c proposal_id room_invite_code now_ms) ;;
  publish_change "lobbyGameRoomPublished" "gameplay room published to lobby" true.

Definition mark_lobby_gameplay_started_body (c : ConnectionId) (epoch proposal_id : N) : LobbyCellM LobbyView :=
  cell ← get;
  p ← lift_result (player_index_for_connection c (stored_lobby (cell_lobby cell)));
  changed ← on_lobby (mark_gameplay_started c epoch proposal_id now_ms);
  cell ← get;
  let playing := is_some_and (pending_launch (stored_lobby (cell_lobby cell)))
                   (λ launch, launch_status launch ==? LaunchPlaying) in
  (if (changed : bool) then
     on_stored_lobby emit_state_changed ;;
     record_lobby_event (if playing then "lobbyGameplayStarted" else "lobbyGameplayStartReported")
       ("gameplay start reported proposal=" ++ uuid_text deps proposal_id ++ " reportedBy=p"
        ++ decimal (display_number p))%string
   else mret tt) ;;
  view_of.

Definition return_lobby_from_game_body (c : ConnectionId) (epoch proposal_id : N)
    (requested_by : option PlayerIndex) (reason : option LobbyReturnReason) : LobbyCellM LobbyView :=
  outcome ← on_lobby (return_to_lobby (mkLobbyReturnRequest c epoch proposal_id requested_by reason now_ms));
  (if outcome_state_changed outcome then
     on_stored_lobby (emit_lobby_returned (outcome_returned outcome)) ;;
     on_stored_lobby emit_state_changed ;;
     record_lobby_event "lobbyReturned" "lobby returned from game" ;;
     notify_public
   else mret tt) ;;
  view_of.

(** [now_ms'] is the second reading of the clock. *)
Definition send_lobby_chat_body (message_id now_ms' : N) (c : ConnectionId) (body : string)
    : LobbyCellM LobbyChatMessageView :=
  cell ← get;
  p ← lift_result (player_index_for_connection c (stored_lobby (cell_lobby cell)));
  body ← lift_result (sanitize_chat_body body);
  let chat := mkLobbyChatMessageView message_id (zero_based p) now_ms body in
  on_lobby (modify (mark_meaningful_activity now_ms')) ;;
  on_stored_lobby (emit_chat_message chat) ;;
  record_lobby_event "lobbyChatMessage" (player_detail "lobby chat message sent" p) ;;
  mret chat.

(** [refresh_lobby_voice_token_impl]: the request, and the update with the broker's grant. *)
Definition refresh_lobby_voice_token_request (code : InviteCode) (c : ConnectionId) (g : LobbyRegistry)
    : result LobbyError RoomVoiceTokenRefreshRequest :=
  if negb (lobby_broker_enabled deps) then Err LobbyVoiceUnavailable
  else read_lobby code (λ s, voice_token_refresh_request c (stored_lobby s)) g.

Definition refresh_lobby_voice_token_body (c : ConnectionId) (grant : VoiceBrokerGrant)
    : LobbyCellM LobbyVoiceTokenRefresh :=
  voice ← on_lobby (refresh_voice_grant c (broker_participant_identity grant) (broker_token grant)
            (broker_expires_at grant));
  v ← view_of;
  mret (mkLobbyVoiceTokenRefresh (lv_event_seq v) (lv_lobby_epoch v) voice).

(** The record that [refresh_lobby_voice_token] makes afterwards, under its own lock. *)
Definition record_voice_refresh (code : InviteCode) (g : LobbyRegistry) : LobbyRegistry :=
  (with_lobby code (record_lobby_event "lobbyVoiceTokenRefreshed" "lobby voice token refreshed") g).2.

Definition record_lobby_activity_body (c : ConnectionId) (kind : LobbyActivityKind) : LobbyCellM unit :=
  on_lobby (record_activity c now_ms) ;;
  record_lobby_event "lobbyActivity" ("meaningful lobby activity kind=" ++ activity_kind_debug kind)%string.

Definition record_lobby_diagnostic_body (kind detail : string) : LobbyCellM unit :=
  record_lobby_event kind detail.

(** ** Idle expiry *)

(** One iteration of the loop: whether the lobby expired, the voice room to close and the
    debug event, and the lobby. *)
Definition expire_lobby (idle_timeout : Duration) (s : StoredLobby)
    : option (option string * LobbyDebugEvent) * StoredLobby :=
  if negb (is_meaningfully_idle now_ms idle_timeout (stored_lobby s)) then (None, s)
  else
    let idle_ms := saturating_sub now_ms (last_meaningful_activity_at_ms (stored_lobby s)) in
    let '(closed, l) := close_due_to_idle now_ms (stored_lobby s) in
    let s := s <| stored_lobby := l |> in
    if negb closed then (None, s)
    else
      let '(voice, l) := take_voice_room_id_for_cleanup (stored_lobby s) in
      let s := emit_lobby_closed "inactive" (s <| stored_lobby := l |>) in
      let '(event, s) := record_lobby_debug_event wall_ms "lobbyIdleExpired"
        ("lobby expired after " ++ decimal idle_ms ++ "ms without meaningful activity")%string s in
      (Some (voice, event), s).

(** [expire_idle_lobbies]; the [HashMap]'s order decides only the order of the feed. *)
Definition expire_idle_lobbies (idle_timeout : Duration) (g : LobbyRegistry) : nat * LobbyRegistry :=
  let swept := expire_lobby idle_timeout <$> lobbies g in
  let expired := omap (λ '(key, (outcome, _)), (key,.) <$> outcome) (map_to_list swept) in
  let f := foldl (λ f '(_, (_, event)), record_recent_event event f) (lobby_feed g) expired in
  let f := if (length expired =? 0)%nat then f else emit_public_lobbies_changed f in
  let f := foldl (λ f '(_, (voice, _)),
             cleanup_lobby_voice_room (lobby_broker_enabled deps) voice "lobby-idle-expired" f) f expired in
  (length expired, mkLobbyRegistry (foldr delete (snd <$> swept) expired.*1) f).

End lobby_operations.

(** ** Queries *)

Definition lobby_view_of (code : InviteCode) : LobbyRegistry → result LobbyError LobbyView :=
  read_lobby code (λ s, Ok (stored_lobby_view s)).
Definition lobby_events (code : InviteCode) (limit : nat)
    : LobbyRegistry → result LobbyError (list LobbyDebugEvent) :=
  read_lobby code (λ s, Ok (lobby_debug_events limit s)).
Definition lobby_recent_tail (limit : nat) (g : LobbyRegistry) : list LobbyDebugEvent :=
  lobby_log_tail limit (lobby_recent_events (lobby_feed g)).

Definition created_before (a b : LobbyView) : Prop := lv_created_at_ms a <= lv_created_at_ms b.
#[export] Instance created_before_dec a b : Decision (created_before a b).
Proof. unfold created_before. apply _. Defined.
Definition listed_after (a b : PublicLobbySummary) : Prop := pub_created_at_ms b <= pub_created_at_ms a.
#[export] Instance listed_after_dec a b : Decision (listed_after a b).
Proof. unfold listed_after. apply _. Defined.

(** [snapshot]: [sort_by] is a stable sort, oldest first. *)
Definition lobby_snapshot (g : LobbyRegistry) : list LobbyView :=
  merge_sort created_before (stored_lobby_view <$> (map_to_list (lobbies g)).*2).

(** [public_lobbies]: newest first. *)
Definition public_lobbies (g : LobbyRegistry) : list PublicLobbySummary :=
  merge_sort listed_after
    (omap (λ s, public_summary (stored_lobby_view s)) (map_to_list (lobbies g)).*2).
