(* ===== verification/LobbyInvariant.v ===== *)
(** * The well-formedness of a lobby

  What a lobby keeps across every call: four seats in order with the host in the first one, a
  seat empty exactly when nobody holds it, no player in two seats, a status that agrees with
  the selected game and the launch, readiness only of seated players and only for the game
  selected, and no socket in a closed lobby. Each method of [Lobby] is shown to preserve it,
  on its error paths too. *)

From stdpp Require Import sorting.
From S2P Require Import Prelude Ids Text Descriptor Invite Protocol Slots RoomTransactions Lobby LobbyEvents.
Open Scope N_scope.

(** ** The invariant *)

Record seat_ok (i : nat) (s : LobbyPlayerSlot) : Prop := {
  seat_index : slot_player_index s = mkPlayerIndex (N.of_nat i);
  seat_role : slot_role s = LobbyHost ↔ i = 0%nat;
  seat_empty : slot_status s = SlotEmpty ↔ slot_subject_key s = None;
  seat_vacant : slot_subject_key s = None → s = LobbyPlayerSlot_empty (mkPlayerIndex (N.of_nat i));
  seat_online : slot_status s = SlotConnected ↔ is_Some (slot_connection_id s);
  seat_token : is_Some (slot_subject_key s) → is_Some (slot_resume_token_hash s) }.

Definition occupied_seat (ps : list LobbyPlayerSlot) (i : nat) : Prop :=
  ∃ s, ps !! i = Some s ∧ is_Some (slot_subject_key s).

Record roster_ok (ps : list LobbyPlayerSlot) : Prop := {
  roster_length : length ps = N.to_nat MAX_LOBBY_PLAYERS;
  roster_seats : ∀ i s, ps !! i = Some s → seat_ok i s;
  roster_host : occupied_seat ps 0;
  roster_subjects : ∀ i j s t key, ps !! i = Some s → ps !! j = Some t →
    slot_subject_key s = Some key → slot_subject_key t = Some key → i = j }.

Record launch_ok (launch : LobbyGameLaunchView) : Prop := {
  launch_started_once : NoDup (launch_started_player_indexes launch);
  launch_started_seats : Forall (λ p, p < MAX_LOBBY_PLAYERS) (launch_started_player_indexes launch);
  launch_unpublished : launch_status launch = LaunchPreparing ↔ launch_room_invite_code launch = None;
  launch_not_started : launch_status launch = LaunchPreparing → launch_started_player_indexes launch = [] }.

(** The status says which of the optional fields are present. *)
Definition phase_ok (status : LobbyStatus) (ps : list LobbyPlayerSlot) (game : option LobbyGameSelectionView)
    (launch : option LobbyGameLaunchView) : Prop :=
  match status with
  | LobbyOpen => game = None ∧ launch = None
  | GameSelected => is_Some game ∧ launch = None
  | InGame => ∃ g v, game = Some g ∧ launch = Some v ∧ launch_proposal_id v = selection_proposal_id g ∧ launch_ok v
  | LobbyStatusClosed => launch = None ∧ Forall (λ s, slot_connection_id s = None) ps
  end.

Definition entry_ok (ps : list LobbyPlayerSlot) (game : option LobbyGameSelectionView)
    (r : LobbyGameReadinessView) : Prop :=
  (∃ g, game = Some g ∧ readiness_proposal_id r = selection_proposal_id g)
  ∧ occupied_seat ps (N.to_nat (readiness_player_index r)).

Record readiness_ok (ps : list LobbyPlayerSlot) (game : option LobbyGameSelectionView)
    (rs : list LobbyGameReadinessView) : Prop := {
  readiness_once : NoDup (readiness_player_index <$> rs);
  readiness_entries : Forall (entry_ok ps game) rs }.

Record lobby_ok (l : Lobby) : Prop := {
  lobby_roster : roster_ok (lobby_players l);
  lobby_phase : phase_ok (lobby_status l) (lobby_players l) (selected_game l) (pending_launch l);
  lobby_readiness : readiness_ok (lobby_players l) (selected_game l) (game_readiness l);
  lobby_clock : lobby_event_seq l = lobby_epoch l }.

(** ** Finding and updating a seat *)

Lemma update_first_insert {A} (p : A → bool) f l x :
  List.find p l = Some x → ∃ i, l !! i = Some x ∧ p x = true ∧ update_first p f l = <[i := f x]> l.
Proof.
  induction l as [|y l IH]; simpl; [done|]. destruct (p y) eqn:E.
  - intros [= ->]. by exists 0%nat.
  - intros (i & Hi & Hp & Hu)%IH. exists (S i). simpl. by rewrite Hu.
Qed.

Lemma update_first_none {A} (p : A → bool) f l : List.find p l = None → update_first p f l = l.
Proof. induction l as [|y l IH]; simpl; [done|]. destruct (p y); [done|]. intros H. by rewrite IH. Qed.

Lemma filter_elem_of {A} (p : A → bool) l x : x ∈ List.filter p l ↔ x ∈ l ∧ p x = true.
Proof. by rewrite !list_elem_of_In, List.filter_In. Qed.

Lemma NoDup_fmap_filter {A B} (f : A → B) (p : A → bool) l : NoDup (f <$> l) → NoDup (f <$> List.filter p l).
Proof.
  induction l as [|x l IH]; csimpl; [done|]. intros [Hx Hl]%NoDup_cons. destruct (p x); csimpl; [|by apply IH].
  apply NoDup_cons. split; [|by apply IH]. contradict Hx.
  apply list_elem_of_fmap in Hx as (y & -> & [Hy _]%filter_elem_of). by apply list_elem_of_fmap_2.
Qed.

Lemma roster_lookup_lt ps i s : roster_ok ps → ps !! i = Some s → (i < 4)%nat.
Proof. intros Hr Hi%lookup_lt_Some. by rewrite roster_length in Hi. Qed.

(** A seat is found by its index. *)
Lemma slot_spec p l s :
  roster_ok (lobby_players l) → slot p l = Some s ↔ lobby_players l !! N.to_nat (zero_based p) = Some s.
Proof.
  intros Hr. unfold slot. split.
  - intros (i & Hi & Hp & _)%(update_first_insert _ id). unfold slot_has_index in Hp.
    apply bool_decide_eq_true in Hp. pose proof (seat_index _ _ (roster_seats _ Hr _ _ Hi)) as Hs.
    rewrite <- Hp, Hs. simpl. by rewrite Nat2N.id.
  - intros Hi. destruct (List.find _ _) as [t|] eqn:Hf.
    + apply (update_first_insert _ id) in Hf as (j & Hj & Hp & _). unfold slot_has_index in Hp.
      apply bool_decide_eq_true in Hp. pose proof (seat_index _ _ (roster_seats _ Hr _ _ Hj)) as Hs.
      rewrite <- Hp, Hs in Hi. simpl in Hi. rewrite Nat2N.id in Hi. congruence.
    + apply (List.find_none _ _) with (x := s) in Hf; [|by eapply list_elem_of_In, list_elem_of_lookup_2].
      unfold slot_has_index in Hf. rewrite (seat_index _ _ (roster_seats _ Hr _ _ Hi)), N2Nat.id in Hf.
      apply bool_decide_eq_false in Hf. by destruct p.
Qed.

(** The seat of a connection. *)
Lemma connection_seat c l p :
  roster_ok (lobby_players l) → player_index_for_connection c l = Ok p →
  ∃ i s, p = mkPlayerIndex (N.of_nat i) ∧ lobby_players l !! i = Some s ∧ slot_connection_id s = Some c
       ∧ is_Some (slot_subject_key s) ∧ slot p l = Some s.
Proof.
  intros Hr. unfold player_index_for_connection.
  destruct (List.find _ _) as [s|] eqn:Hf; simpl; [intros [= <-]|done].
  apply (update_first_insert _ id) in Hf as (i & Hi & Hc & _).
  unfold slot_has_connection in Hc. apply bool_decide_eq_true in Hc.
  pose proof (roster_seats _ Hr _ _ Hi) as Hs. exists i, s.
  split_and!; [by rewrite (seat_index _ _ Hs)|done|done| |].
  - apply not_eq_None_Some. intros Hn. rewrite (seat_vacant _ _ Hs Hn) in Hc. done.
  - rewrite slot_spec, (seat_index _ _ Hs) by done. simpl. by rewrite Nat2N.id.
Qed.

Lemma roster_insert ps i s s' :
  roster_ok ps → ps !! i = Some s → seat_ok i s' → (i = 0%nat → is_Some (slot_subject_key s')) →
  (∀ key j t, slot_subject_key s' = Some key → ps !! j = Some t → slot_subject_key t = Some key → j = i) →
  roster_ok (<[i := s']> ps).
Proof.
  intros [Hlen Hseats (h & Hh & Hhs) Hsub] Hi Hs Hhost Huniq. split.
  - by rewrite length_insert.
  - intros j t. rewrite list_lookup_insert_Some. intros [(<- & <- & _)|[_ ?]]; eauto.
  - unfold occupied_seat. destruct (decide (i = 0%nat)) as [->|?].
    + exists s'. rewrite list_lookup_insert_eq by eauto using lookup_lt_Some. auto.
    + exists h. rewrite list_lookup_insert_ne by done. auto.
  - intros j k t u key. rewrite !list_lookup_insert_Some.
    intros [(<- & <- & _)|[? Ht]] [(<- & <- & _)|[? Hu]] Hkt Hku; eauto. symmetry; eauto.
Qed.

(** A player who keeps the seat. *)
Lemma roster_insert_same ps i s s' :
  roster_ok ps → ps !! i = Some s → seat_ok i s' → slot_subject_key s' = slot_subject_key s →
  roster_ok (<[i := s']> ps).
Proof.
  intros Hr Hi Hs Heq. eapply roster_insert; [done..| |].
  - intros ->. destruct (roster_host _ Hr) as (h & Hh & ?). rewrite Heq. by simplify_eq.
  - intros key j t Hk Hj Ht. rewrite Heq in Hk. by eapply (roster_subjects _ Hr).
Qed.

Lemma occupied_insert ps i s j :
  occupied_seat ps j → (i = j → is_Some (slot_subject_key s)) → occupied_seat (<[i := s]> ps) j.
Proof.
  intros (t & Ht & Hk) Hs. unfold occupied_seat. destruct (decide (i = j)) as [->|?].
  - exists s. rewrite list_lookup_insert_eq by eauto using lookup_lt_Some. auto.
  - exists t. rewrite list_lookup_insert_ne by done. auto.
Qed.

Lemma readiness_insert ps game rs i s :
  readiness_ok ps game rs → is_Some (slot_subject_key s) → readiness_ok (<[i := s]> ps) game rs.
Proof.
  intros [Hn Hf] Hs. split; [done|]. eapply Forall_impl; [exact Hf|].
  intros r [Hg Ho]. split; [done|]. by apply occupied_insert.
Qed.

Lemma phase_other_players status ps ps' game launch :
  status ≠ LobbyStatusClosed → phase_ok status ps game launch → phase_ok status ps' game launch.
Proof. by destruct status. Qed.

(** ** What the bookkeeping leaves alone *)

Lemma bump_ok now_ms l : lobby_ok l → lobby_ok (bump now_ms l).
Proof. intros [??? Hc]. split; [done..|]. simpl. by rewrite Hc. Qed.

Lemma activity_ok now_ms l : lobby_ok l → lobby_ok (mark_meaningful_activity now_ms l).
Proof. by intros []. Qed.

Lemma bump_with_activity_ok now_ms l : lobby_ok l → lobby_ok (bump_with_activity now_ms l).
Proof. intros. by apply activity_ok, bump_ok. Qed.

Lemma set_voice_ok v l : lobby_ok l → lobby_ok (l <| lobby_voice := v |>).
Proof. by intros []. Qed.

(** ** Seating a player *)

Lemma occupy_seat_ok i o s : seat_ok i s → occ_role o = slot_role s → seat_ok i (occupy o s).
Proof.
  intros [Hidx Hrole _ _ _ _] Ho. split; simpl; [done|by rewrite Ho| | | |]; try done; eauto.
Qed.

Lemma occupy_first_ok test role license c name caps token now_ms l s :
  lobby_ok l → lobby_status l ≠ LobbyStatusClosed → List.find test (lobby_players l) = Some s →
  role s = slot_role s →
  (∀ t, t ∈ lobby_players l → slot_subject_key t = Some (identity_key license) →
        slot_subject_key s = Some (identity_key license)) →
  lobby_ok (occupy_first test role license c name caps token now_ms l).
Proof.
  intros [Hr Hp Hrd Hc] Hopen Hf Hrole Huniq. apply bump_with_activity_ok.
  set (f := λ s, occupy _ s).
  destruct (update_first_insert test f _ _ Hf) as (i & Hi & _ & Hu).
  split; simpl; rewrite ?Hu; [| | |done].
  - eapply roster_insert; [done..| | |].
    + apply occupy_seat_ok; [by eapply roster_seats|done].
    + intros _. by eexists.
    + intros key j t [= <-] Hj Ht. eapply (roster_subjects _ Hr); [done..|].
      eapply Huniq; [|done]. by eapply list_elem_of_lookup_2.
  - by eapply phase_other_players.
  - apply readiness_insert; [done|]. by eexists.
Qed.

Lemma belongs_to_spec license s :
  belongs_to license s = true ↔ slot_subject_key s = Some (identity_key license).
Proof.
  unfold belongs_to. destruct (slot_subject_key s) as [k|]; simpl; [|done].
  rewrite bool_decide_eq_true. naive_solver.
Qed.

Lemma keeps_join license c name caps token now_ms :
  keeps lobby_ok (join_or_refresh_player license c name caps token now_ms).
Proof.
  apply keeps_wp. intros l Hl. unfold join_or_refresh_player. wp_go; try done; guards.
  - apply find_some_iff in Heqo as Hb. destruct Hb as [_ Hb%belongs_to_spec].
    by eapply occupy_first_ok.
  - eapply occupy_first_ok; [done..| |].
    + apply (update_first_insert _ id) in Heqo0 as (i & Hi & He & _).
      unfold slot_is_empty in He. guards.
      pose proof (roster_seats _ (lobby_roster _ Hl) _ _ Hi) as Hs.
      by rewrite (seat_vacant _ _ Hs (proj1 (seat_empty _ _ Hs) He)).
    + intros t Ht Hk%belongs_to_spec. apply list_elem_of_In in Ht.
      by rewrite (List.find_none _ _ Heqo _ Ht) in Hk.
Qed.

Lemma keeps_reconnect sha256 q : keeps lobby_ok (reconnect_player sha256 q).
Proof.
  apply keeps_wp. intros l Hl. unfold reconnect_player. wp_go; try done; guards.
  by eapply occupy_first_ok; [| |exact Heqo| |intros _ _ _; apply belongs_to_spec].
Qed.

(** ** Losing a socket *)

Lemma offline_seat_ok i s status now_ms :
  seat_ok i s → is_Some (slot_subject_key s) → status ≠ SlotEmpty → status ≠ SlotConnected →
  seat_ok i (s <| slot_connection_id := None |> <| slot_status := status |> <| slot_last_seen_at_ms := Some now_ms |>).
Proof.
  intros [?? _ _ _ ?] [k Hk] ??. split; simpl; try done; rewrite ?Hk; done.
Qed.

Lemma lobby_disconnect_ok c now_ms l : lobby_ok l → lobby_ok (disconnect c now_ms l).2.
Proof.
  intros Hl. unfold disconnect. destruct (List.find _ _) as [s|] eqn:Hf; [|done]. simpl.
  apply bump_ok. destruct Hl as [Hr Hp Hrd Hc].
  set (f := λ s, _ <| slot_last_seen_at_ms := _ |>).
  destruct (update_first_insert _ f _ _ Hf) as (i & Hi & He & Hu).
  unfold slot_has_connection in He. guards.
  pose proof (roster_seats _ Hr _ _ Hi) as Hs.
  assert (Hk : is_Some (slot_subject_key s)).
  { apply not_eq_None_Some. intros Hn. by rewrite (seat_vacant _ _ Hs Hn) in He. }
  split; simpl; rewrite ?Hu; [| | |done].
  - eapply roster_insert_same; [done..| |done]. by apply offline_seat_ok.
  - destruct (lobby_status l) eqn:Est; [done..|]. destruct Hp as [? Hall]. exfalso.
    rewrite (Forall_lookup_1 _ _ _ _ Hall Hi) in He. done.
  - by apply readiness_insert.
Qed.

Lemma close_ok now_ms l : lobby_ok l → lobby_ok (close now_ms l).
Proof.
  intros [Hr _ Hrd Hc]. apply bump_ok. unfold update_all.
  set (f := λ s, if is_some _ then _ else s).
  assert (Hkey : ∀ s, slot_subject_key (f s) = slot_subject_key s) by (intros s; unfold f; by destruct (is_some _)).
  assert (Hocc : ∀ i, occupied_seat (lobby_players l) i → occupied_seat (f <$> lobby_players l) i).
  { intros i (s & Hi & Hs). exists (f s). by rewrite list_lookup_fmap, Hi, Hkey. }
  assert (Hseat : ∀ i s, lobby_players l !! i = Some s → seat_ok i (f s) ∧ slot_connection_id (f s) = None).
  { intros i s Hi%(roster_seats _ Hr). unfold f. destruct (slot_subject_key s) eqn:E; simpl.
    - split; [|done]. apply offline_seat_ok; [done|by rewrite E|done..].
    - split; [done|]. by rewrite (seat_vacant _ _ Hi E). }
  split; simpl; [split| | |done].
  - rewrite length_fmap. by apply roster_length.
  - intros i s (t & -> & Ht)%list_lookup_fmap_Some. by apply Hseat.
  - by apply Hocc, roster_host.
  - intros i j s t key (s' & -> & Hs)%list_lookup_fmap_Some (t' & -> & Ht)%list_lookup_fmap_Some.
    rewrite !Hkey. by eapply roster_subjects.
  - split; [done|]. apply Forall_fmap, Forall_lookup. intros i s Hi. by eapply Hseat.
  - destruct Hrd as [Hn Hf]. split; [done|]. eapply Forall_impl; [exact Hf|].
    intros r [Hg Ho]. split; [done|]. by apply Hocc.
Qed.

Lemma close_due_to_idle_ok now_ms l : lobby_ok l → lobby_ok (close_due_to_idle now_ms l).2.
Proof. intros Hl. unfold close_due_to_idle. case_bool_decide; [done|]. by apply close_ok. Qed.

(** ** Leaving and removal *)

Lemma empty_seat_ok i : i ≠ 0%nat → seat_ok i (LobbyPlayerSlot_empty (mkPlayerIndex (N.of_nat i))).
Proof. intros Hi. split; simpl; try done; by split; [|intros []]. Qed.

Lemma setup_phase l ps : phase_ok (setup_status l) ps (selected_game l) None.
Proof. unfold setup_status. by destruct (selected_game l). Qed.

Lemma vacate_spec p l s :
  roster_ok (lobby_players l) → slot p l = Some s →
  lobby_players (vacate p l) = <[N.to_nat (zero_based p) := LobbyPlayerSlot_empty p]> (lobby_players l).
Proof.
  intros Hr Hs. destruct (update_first_insert _ (λ _, LobbyPlayerSlot_empty p) _ _ Hs) as (i & Hi & Hp & Hu).
  simpl. rewrite Hu. unfold slot_has_index in Hp. guards.
  rewrite (seat_index _ _ (roster_seats _ Hr _ _ Hi)) in Hp. subst p. simpl. by rewrite Nat2N.id.
Qed.

(** A seat other than the host's may be emptied in any phase but a launch. *)
Lemma vacate_ok p l s l' :
  lobby_ok l → slot p l = Some s → slot_role s ≠ LobbyHost →
  lobby_players l' = lobby_players (vacate p l) → game_readiness l' = game_readiness (vacate p l) →
  selected_game l' = selected_game l → pending_launch l' = None → lobby_status l' = setup_status l →
  lobby_event_seq l' = lobby_epoch l' → lobby_ok l'.
Proof.
  intros [Hr _ [Hn Hf] _] Hs Hrole Hps Hrd Hsel Hpend Hst Hclock.
  pose proof (proj1 (slot_spec _ _ _ Hr) Hs) as Hi.
  assert (N.to_nat (zero_based p) ≠ 0%nat) as Hnz.
  { intros E. apply Hrole, (seat_role _ _ (roster_seats _ Hr _ _ Hi)), E. }
  split; [|by rewrite Hst, Hsel, Hpend; apply setup_phase| |done].
  - rewrite Hps, (vacate_spec _ _ _ Hr Hs). eapply roster_insert; [done..| | |done].
    + destruct p as [n]. simpl in *. rewrite <- (N2Nat.id n) at 2. by apply empty_seat_ok.
    + done.
  - rewrite Hps, Hsel, Hrd, (vacate_spec _ _ _ Hr Hs). simpl.
    split; [by apply NoDup_fmap_filter|].
    apply Forall_forall. intros r [Hr' Hne]%filter_elem_of. guards.
    destruct (proj1 (Forall_forall _ _) Hf _ Hr') as [Hg Ho].
    split; [done|]. apply occupied_insert; [done|]. intros E. exfalso. apply Hne. lia.
Qed.

Lemma keeps_leave c now_ms : keeps lobby_ok (leave c now_ms).
Proof.
  apply keeps_wp. intros l Hl. unfold leave. wp_go; try done; guards.
  - by apply close_ok.
  - apply bump_with_activity_ok. apply (vacate_ok a l l0); try done. apply (lobby_clock _ Hl).
Qed.

Lemma keeps_remove_player c epoch p now_ms : keeps lobby_ok (remove_player c epoch p now_ms).
Proof.
  apply keeps_wp. intros l Hl. unfold remove_player. wp_go; try done; guards.
  apply bump_with_activity_ok. apply (vacate_ok p l l1); try done; [|apply (lobby_clock _ Hl)].
  simpl. by destruct (pending_launch l).
Qed.

(** ** Selecting and launching a game *)

Lemma keeps_select_game id c game now_ms : keeps lobby_ok (select_game id c game now_ms).
Proof.
  apply keeps_wp. intros l Hl. unfold select_game. wp_go; try done.
  apply bump_with_activity_ok. destruct Hl as [Hr _ _ Hc]. split; simpl; [done| | |done].
  - by split; [eexists|].
  - split; [apply NoDup_nil_2|constructor].
Qed.

Lemma require_selected_proposal_spec id l :
  require_selected_proposal id l = Ok tt →
  ∃ g, selected_game l = Some g ∧ selection_proposal_id g = id.
Proof.
  unfold require_selected_proposal. destruct (selected_game l) as [g|]; simpl; [|done].
  destruct (N.eqb_spec (selection_proposal_id g) id); naive_solver.
Qed.

Lemma readiness_new_spec p id status detail now_ms r :
  LobbyGameReadinessView_new p id status detail now_ms = Ok r →
  readiness_player_index r = zero_based p ∧ readiness_proposal_id r = id ∧ readiness_status r = status.
Proof.
  unfold LobbyGameReadinessView_new. unfold mbind, result_bind.
  destruct (sanitize_readiness_detail detail); by intros [= <-].
Qed.

Lemma put_readiness_elem r rs x : x ∈ put_readiness r rs → x = r ∨ x ∈ rs.
Proof.
  unfold put_readiness. destruct (existsb _ rs).
  - induction rs as [|y rs IH]; simpl; [by intros ?%not_elem_of_nil|].
    destruct (_ =? _); rewrite !elem_of_cons; naive_solver.
  - rewrite elem_of_app, list_elem_of_singleton. tauto.
Qed.

Lemma put_readiness_once r rs :
  NoDup (readiness_player_index <$> rs) → NoDup (readiness_player_index <$> put_readiness r rs).
Proof.
  intros Hn. unfold put_readiness. destruct (existsb _ rs) eqn:E.
  - rewrite update_first_fmap; [done|]. intros x Hx. by apply N.eqb_eq in Hx.
  - rewrite fmap_app. apply NoDup_app. split_and!; [done| |apply NoDup_singleton].
    intros i (x & -> & Hx)%list_elem_of_fmap. csimpl. rewrite list_elem_of_singleton. intros Heq.
    apply not_true_iff_false in E. apply E, existsb_exists. exists x.
    split; [by apply list_elem_of_In|]. by apply N.eqb_eq.
Qed.

Lemma keeps_set_game_readiness c id status detail now_ms :
  keeps lobby_ok (set_game_readiness_op c id status detail now_ms).
Proof.
  apply keeps_wp. intros l Hl. unfold set_game_readiness_op. wp_go; try done.
  destruct a0. apply require_selected_proposal_spec in H0 as (g & Hg & Hid).
  apply readiness_new_spec in H1 as (Hp & Hpr & _). apply bump_with_activity_ok.
  destruct Hl as [Hr _ [Hn Hf] Hc]. split; simpl; [done| | |done].
  - by split; [eexists|].
  - split; [by apply put_readiness_once|]. apply Forall_forall.
    intros r [->|Hin]%put_readiness_elem; [|by eapply (proj1 (Forall_forall _ _) Hf)].
    split; [exists g; split; congruence|].
    apply connection_seat in H as (i & s & -> & Hi & _ & Hk & _); [|done].
    exists s. rewrite Hp. simpl. by rewrite Nat2N.id.
Qed.

Lemma launch_new_ok id p now_ms : launch_ok (LobbyGameLaunchView_new id p now_ms).
Proof. split; simpl; [apply NoDup_nil_2|constructor|done|done]. Qed.

Lemma keeps_request_game_launch c id now_ms : keeps lobby_ok (request_game_launch c id now_ms).
Proof.
  apply keeps_wp. intros l Hl. unfold request_game_launch. wp_go; try done.
  destruct a0. apply require_selected_proposal_spec in H0 as (g & Hg & Hid). apply bump_with_activity_ok.
  destruct Hl as [Hr _ Hrd Hc]. split; simpl; [done| |done|done].
  eexists g, _. split_and!; [done|done|by rewrite Hid|apply launch_new_ok].
Qed.

(** A launch in progress is one for the selected game. *)
Lemma pending_ok l v :
  lobby_ok l → pending_launch l = Some v →
  lobby_status l = InGame ∧ launch_ok v ∧ ∃ g, selected_game l = Some g ∧ launch_proposal_id v = selection_proposal_id g.
Proof.
  intros [_ Hp _ _] Hv. unfold phase_ok in Hp. rewrite Hv in Hp.
  destruct (lobby_status l); try by destruct Hp.
  destruct Hp as (g & v' & Hg & [= <-] & Hid & Hok). by split_and!; [..|exists g].
Qed.

(** Replacing the launch by a later stage of it. *)
Lemma advance_launch_ok l v v' :
  lobby_ok l → pending_launch l = Some v → launch_proposal_id v' = launch_proposal_id v → launch_ok v' →
  lobby_ok (l <| pending_launch := Some v' |> <| lobby_status := InGame |>).
Proof.
  intros Hl Hv Hid Hok. destruct (pending_ok _ _ Hl Hv) as (_ & _ & g & Hg & Hgid).
  destruct Hl as [Hr _ Hrd Hc]. split; [done| |done|done].
  exists g, v'. split_and!; [done|done|by rewrite Hid|done].
Qed.

Lemma keeps_publish_game_room c id code now_ms : keeps lobby_ok (publish_game_room c id code now_ms).
Proof.
  apply keeps_wp. intros l Hl. unfold publish_game_room. wp_go; try done.
  apply bump_with_activity_ok. eapply advance_launch_ok; [done..|].
  destruct (pending_ok _ _ Hl Heqo) as (_ & [] & _). by split.
Qed.

Lemma mark_player_started_ok p expected now_ms v :
  launch_ok v → zero_based p < MAX_LOBBY_PLAYERS →
  let '(o, v') := mark_player_started p expected now_ms v in
  launch_ok v' ∧ launch_proposal_id v' = launch_proposal_id v ∧ (o ≠ Ok true → v' = v).
Proof.
  intros Hv Hp. unfold mark_player_started. destruct (launch_status v) eqn:Est; [done| |done].
  destruct (existsb _ _) eqn:Ein; [done|]. cbv zeta.
  set (v1 := v <| launch_started_player_indexes ::= _ |>).
  assert (Hv1 : launch_ok v1).
  { destruct Hv as [Hn Hb Hu _]. pose proof (merge_sort_Permutation N.le (launch_started_player_indexes v ++ [zero_based p])) as Hperm.
    split; simpl; [| |done|by rewrite Est].
    - rewrite Hperm. apply NoDup_app. split_and!; [done| |apply NoDup_singleton].
      intros x Hx ->%list_elem_of_singleton. apply not_true_iff_false in Ein. apply Ein, existsb_exists.
      exists (zero_based p). split; [by apply list_elem_of_In|apply N.eqb_refl].
    - rewrite Hperm. apply Forall_app. auto. }
  destruct (_ && _); [|done]. split_and!; [|done|done].
  destruct Hv1 as [? ? Hu ?]. split; simpl; try done. split; [done|]. intros Hnone.
  apply Hu in Hnone. simpl in Hnone. by rewrite Est in Hnone.
Qed.

Lemma set_status_same l status : lobby_status l = status → l <| lobby_status := status |> = l.
Proof. destruct l. simpl. by intros <-. Qed.

Lemma keeps_mark_gameplay_started c epoch id now_ms : keeps lobby_ok (mark_gameplay_started c epoch id now_ms).
Proof.
  apply keeps_wp. intros l Hl. unfold mark_gameplay_started. wp_go; try done.
  all: apply connection_seat in H as (i & t & -> & Hi & _); [|by apply lobby_roster].
  all: apply roster_lookup_lt in Hi; [|by apply lobby_roster].
  all: destruct (pending_ok _ _ Hl Heqo1) as (Hst & Hv & _).
  all: pose proof (mark_player_started_ok (mkPlayerIndex (N.of_nat i)) l1 now_ms l2 Hv) as Hm;
    rewrite Heqp in Hm; destruct Hm as (Hok & Hid & _); [simpl; unfold MAX_LOBBY_PLAYERS; lia|].
  all: pose proof (advance_launch_ok _ _ _ Hl Heqo1 Hid Hok) as Hadv.
  - by apply bump_with_activity_ok.
  - by rewrite set_status_same in Hadv.
  - by rewrite set_status_same in Hadv.
Qed.

Lemma keeps_return_to_lobby q : keeps lobby_ok (return_to_lobby q).
Proof.
  apply keeps_wp. intros l Hl. unfold return_to_lobby. wp_go; try done.
  apply bump_with_activity_ok. destruct Hl as [Hr _ _ Hc]. split; simpl; [done| | |done].
  - apply setup_phase.
  - split; [apply NoDup_nil_2|constructor].
Qed.

(** ** Activity and voice *)

Lemma keeps_record_activity c now_ms : keeps lobby_ok (record_activity c now_ms).
Proof. apply keeps_wp. intros l Hl. unfold record_activity. wp_go; try done. by apply activity_ok. Qed.

Lemma keeps_refresh_voice_grant c identity token expires : keeps lobby_ok (refresh_voice_grant c identity token expires).
Proof.
  intros l Hl. unfold refresh_voice_grant. destruct (player_index_for_connection c l); [|done].
  destruct (lobby_voice l); [|done]. destruct (refresh_grant _ _ _ _ _). by apply set_voice_ok.
Qed.

Lemma take_voice_ok l : lobby_ok l → lobby_ok (take_voice_room_id_for_cleanup l).2.
Proof. intros Hl. unfold take_voice_room_id_for_cleanup. simpl. destruct (is_some _); [by apply set_voice_ok|done]. Qed.

(** ** A new lobby *)

Lemma Lobby_new_ok id proposal q : lobby_ok (Lobby_new id proposal q).
Proof.
  split; simpl; [| | |done].
  - split; [done| |by eexists|].
    + intros [|[|[|[|i]]]] s; simpl; try done; intros [= <-]; [|by apply (empty_seat_ok (S _))..].
      split; simpl; try done; eauto.
    + intros [|[|[|[|i]]]] [|[|[|[|j]]]] s t key; simpl; try done; intros [= <-] [= <-]; done.
  - by destruct (create_initial_game q); [split; [eexists|]|].
  - split; [apply NoDup_nil_2|constructor].
Qed.

#[export] Hint Resolve keeps_join keeps_reconnect keeps_leave keeps_remove_player keeps_select_game
  keeps_set_game_readiness keeps_request_game_launch keeps_publish_game_room keeps_mark_gameplay_started
  keeps_return_to_lobby keeps_record_activity keeps_refresh_voice_grant lobby_disconnect_ok take_voice_ok
  close_due_to_idle_ok activity_ok : relay.
