(* ===== verification/LobbyCalls.v ===== *)
(** * Calls on lobbies

  [lobby_step] is the step relation of one lobby: a constructor per method of [Lobby] that
  changes it. [LobbyAction] lists the registry's operations on one stored lobby and [LobbyOp]
  adds creation and expiry; [lobby_serve] runs one of them, and [lobbies_reachable] holds of
  every registry that calls can produce. The registry refines the lobbies: whatever it does to
  a stored lobby is a sequence of that lobby's own steps. *)

From S2P Require Import Prelude Ids Wire Text Descriptor Invite Protocol Slots SnapshotTransfer.
From S2P Require Import RoomTransactions StartSync LinkOps RoomEvents StoredRoom Registry.
From S2P Require Import Lobby LobbyEvents LobbyInvariant LobbyRegistry.
Open Scope N_scope.

(** ** One lobby *)

Section one_lobby.
Context (sha256 : bytes → bytes).

Inductive lobby_step : relation Lobby :=
| step_join license c name caps token now_ms l :
    lobby_step l (join_or_refresh_player license c name caps token now_ms l).2
| step_reconnect q l : lobby_step l (reconnect_player sha256 q l).2
| step_disconnect c now_ms l : lobby_step l (disconnect c now_ms l).2
| step_leave c now_ms l : lobby_step l (leave c now_ms l).2
| step_remove c epoch p now_ms l : lobby_step l (remove_player c epoch p now_ms l).2
| step_select id c game now_ms l : lobby_step l (select_game id c game now_ms l).2
| step_readiness c id status detail now_ms l :
    lobby_step l (set_game_readiness_op c id status detail now_ms l).2
| step_launch c id now_ms l : lobby_step l (request_game_launch c id now_ms l).2
| step_publish c id code now_ms l : lobby_step l (publish_game_room c id code now_ms l).2
| step_started c epoch id now_ms l : lobby_step l (mark_gameplay_started c epoch id now_ms l).2
| step_return q l : lobby_step l (return_to_lobby q l).2
| step_activity c now_ms l : lobby_step l (record_activity c now_ms l).2
| step_chat c now_ms l p :
    player_index_for_connection c l = Ok p → lobby_step l (mark_meaningful_activity now_ms l)
| step_refresh_voice c identity token expires l :
    lobby_step l (refresh_voice_grant c identity token expires l).2
| step_take_voice l : lobby_step l (take_voice_room_id_for_cleanup l).2
| step_idle now_ms l : lobby_step l (close_due_to_idle now_ms l).2.

(** A lobby that was created and then called. *)
Definition created (l : Lobby) : Prop :=
  ∃ id proposal q, l = Lobby_new id proposal q ∨ ∃ voice, l = set_voice_state voice (Lobby_new id proposal q).
Definition lobby_history (l : Lobby) : Prop := ∃ l0, created l0 ∧ rtc lobby_step l0 l.

Lemma lobby_step_ok l l' : lobby_step l l' → lobby_ok l → lobby_ok l'.
Proof.
  destruct 1; intros Hl; first [by apply keeps_elim; [auto with relay nocore|] | auto with relay nocore].
Qed.

Lemma created_ok l : created l → lobby_ok l.
Proof. intros (id & proposal & q & [-> | [v ->]]); [|apply set_voice_ok]; apply Lobby_new_ok. Qed.

Lemma lobby_steps_ok l l' : rtc lobby_step l l' → lobby_ok l → lobby_ok l'.
Proof. induction 1; eauto using lobby_step_ok. Qed.

Lemma lobby_history_ok l : lobby_history l → lobby_ok l.
Proof. intros (l0 & ? & ?). eauto using lobby_steps_ok, created_ok. Qed.

(** ** A stored lobby

  [walks m]: whatever the body [m] does to the stored lobby is a sequence of steps. *)

Definition cell_of (c : LobbyCell) : Lobby := stored_lobby (cell_lobby c).
Definition walks {A} (m : LobbyCellM A) : Prop := ∀ c, rtc lobby_step (cell_of c) (cell_of (m c).2).

Lemma walks_bind {A B} (m : LobbyCellM A) (k : A → LobbyCellM B) :
  walks m → (∀ a, walks (k a)) → walks (m ≫= k).
Proof.
  intros Hm Hk c. unfold mbind, M_bind. specialize (Hm c). destruct (m c) as [[a|e] c']; [|done].
  etrans; [exact Hm|apply Hk].
Qed.

(** A call that leaves the lobby alone. *)
Lemma walks_idle {A} (m : LobbyCellM A) : (∀ c, cell_of (m c).2 = cell_of c) → walks m.
Proof. intros H c. by rewrite H. Qed.

Lemma on_lobby_cell {A} (m : LobbyM A) c : cell_of (on_lobby m c).2 = (m (cell_of c)).2.
Proof. unfold on_lobby. fold (cell_of c). by destruct (m (cell_of c)) as [? ?]. Qed.

Lemma walks_on_lobby {A} (m : LobbyM A) : (∀ l, lobby_step l (m l).2) → walks (on_lobby m).
Proof. intros Hm c. rewrite on_lobby_cell. by apply rtc_once. Qed.

Lemma walks_record wall_ms kind detail : walks (record_lobby_event wall_ms kind detail).
Proof. by apply walks_idle. Qed.

Lemma walks_emit (f : StoredLobby → StoredLobby) :
  (∀ s, stored_lobby (f s) = stored_lobby s) → walks (on_stored_lobby f).
Proof. intros Hf. apply walks_idle. intros c. apply Hf. Qed.

Lemma walks_total {A} (f : Lobby → A * Lobby) :
  (∀ l, lobby_step l (f l).2) → walks (on_lobby (lift_total f)).
Proof. intros Hf. apply walks_on_lobby. intros l. unfold lift_total. rewrite snd_let_pair. apply Hf. Qed.

(** The second half of a chat message and of a transfer: the guard was checked. *)
Lemma walks_chat now_ms c (m : LobbyCellM LobbyChatMessageView) cell p :
  player_index_for_connection c (cell_of cell) = Ok p → walks m →
  rtc lobby_step (cell_of cell) (cell_of ((on_lobby (modify (mark_meaningful_activity now_ms)) ;; m) cell).2).
Proof.
  intros Hp Hm. etrans; [apply rtc_once; exact (step_chat c now_ms _ p Hp)|].
  exact (Hm (cell <| cell_lobby ::= λ s, s <| stored_lobby := mark_meaningful_activity now_ms (cell_of cell) |> |>)).
Qed.
End one_lobby.

Ltac walk := repeat match goal with
  | |- walks _ (mbind _ _) => apply walks_bind; [|intros ?]
  | |- walks _ (record_lobby_event _ _ _) => apply walks_record
  | |- walks _ (on_stored_lobby _) => apply walks_emit; intros ?; reflexivity
  | |- walks _ (on_lobby (lift_total _)) => apply walks_total; intros ?; constructor
  | |- walks _ (on_lobby _) => apply walks_on_lobby; intros ?; constructor
  | |- walks _ (match ?x with _ => _ end) => destruct x
  | |- walks _ _ => apply walks_idle; intros ?; reflexivity
  end.

(** ** The registry *)

Inductive LobbyAction :=
| DoJoin (c : ConnectionId) (resume_token : string) (player : VerifiedLicense) (params : JoinLobbyParams)
| DoConnect (c : ConnectionId) (resume_token : string) (player : VerifiedLicense) (params : JoinLobbyParams)
| DoReconnect (player : VerifiedLicense) (params : JoinLobbyParams) (p : PlayerIndex) (epoch : N)
    (resume_token : string) (c : ConnectionId)
| DoDisconnect (c : ConnectionId)
| DoLeave (c : ConnectionId)
| DoRemove (requester : ConnectionId) (epoch : N) (target : PlayerIndex)
| DoSelect (proposal_id : N) (c : ConnectionId) (game : LobbyGameCandidate)
| DoReadiness (c : ConnectionId) (proposal_id : N) (status : LobbyGameReadinessStatus) (detail : option string)
| DoLaunch (c : ConnectionId) (proposal_id : N)
| DoPrepareRom (c : ConnectionId) (proposal_id : N) (receiver : PlayerIndex) (max_bytes : N)
| DoGrantRom (intent : LobbyRomRelayTransferIntent) (grants : LobbyFileRelayGrantPair)
| DoPrepareState (c : ConnectionId) (proposal_id : N) (receiver : PlayerIndex)
    (state : LobbyStartupStateTransferMetadata) (max_bytes : N)
| DoGrantState (intent : LobbyStartupStateRelayTransferIntent) (grants : LobbyFileRelayGrantPair)
| DoPublish (c : ConnectionId) (proposal_id : N) (room_invite_code : InviteCode)
| DoStarted (c : ConnectionId) (epoch proposal_id : N)
| DoReturn (c : ConnectionId) (epoch proposal_id : N) (requested_by : option PlayerIndex)
    (reason : option LobbyReturnReason)
| DoChat (message_id now_ms : N) (c : ConnectionId) (body : string)
| DoRefreshVoice (c : ConnectionId) (grant : VoiceBrokerGrant)
| DoRecordRefresh
| DoActivity (c : ConnectionId) (kind : LobbyActivityKind)
| DoDiagnostic (kind detail : string).

Inductive LobbyOp :=
| OpCreate (id : RoomId) (code : InviteCode) (resume_token : string) (host_connection : ConnectionId)
    (proposal_id : N) (broker : CreateVoiceRoomBrokerRequest → BrokerAnswer) (host : VerifiedLicense)
    (params : CreateLobbyParams)
| OpAct (code : InviteCode) (a : LobbyAction)
| OpExpire (idle_timeout : Duration).

Section serving.
Context (deps : LobbyDeps) (wall_ms now_ms : N).

(** An operation on one lobby, whatever it returns on success. *)
Definition settle {A} (code : InviteCode) (m : LobbyCellM A) : M LobbyRegistry LobbyError unit :=
  with_lobby code (m ;; mret tt).

Definition lobby_call (code : InviteCode) (a : LobbyAction) : M LobbyRegistry LobbyError unit :=
  match a with
  | DoJoin c token player params => settle code (join_lobby_body deps wall_ms now_ms c token player params)
  | DoConnect c token player params => settle code (connect_lobby_body deps wall_ms now_ms c token player params)
  | DoReconnect player params p epoch token c =>
      settle code (reconnect_lobby_player_body deps wall_ms now_ms player params p epoch token c)
  | DoDisconnect c => settle code (disconnect_lobby_body wall_ms now_ms c)
  | DoLeave c => settle code (leave_lobby_body deps wall_ms now_ms c)
  | DoRemove requester epoch target => remove_lobby_player deps wall_ms now_ms code requester epoch target ;; mret tt
  | DoSelect id c game => settle code (select_lobby_game_body wall_ms now_ms id c game)
  | DoReadiness c id status detail => settle code (set_lobby_game_readiness_body wall_ms now_ms c id status detail)
  | DoLaunch c id => settle code (request_lobby_game_launch_body wall_ms now_ms c id)
  | DoPrepareRom c id receiver max => settle code (prepare_lobby_rom_relay_transfer_body wall_ms now_ms c id receiver max)
  | DoGrantRom intent grants => settle code (grant_lobby_rom_relay_transfer_body wall_ms intent grants)
  | DoPrepareState c id receiver state max =>
      settle code (prepare_lobby_startup_state_relay_transfer_body wall_ms now_ms c id receiver state max)
  | DoGrantState intent grants => settle code (grant_lobby_startup_state_relay_transfer_body wall_ms intent grants)
  | DoPublish c id room => settle code (publish_lobby_game_room_body wall_ms now_ms c id room)
  | DoStarted c epoch id => settle code (mark_lobby_gameplay_started_body deps wall_ms now_ms c epoch id)
  | DoReturn c epoch id by_ reason => settle code (return_lobby_from_game_body wall_ms now_ms c epoch id by_ reason)
  | DoChat message_id now_ms' c body => settle code (send_lobby_chat_body wall_ms now_ms message_id now_ms' c body)
  | DoRefreshVoice c grant => settle code (refresh_lobby_voice_token_body c grant)
  | DoRecordRefresh => modify (record_voice_refresh wall_ms code)
  | DoActivity c kind => settle code (record_lobby_activity_body wall_ms now_ms c kind)
  | DoDiagnostic kind detail => settle code (record_lobby_diagnostic_body wall_ms kind detail)
  end.

Definition lobby_act (code : InviteCode) (a : LobbyAction) (g : LobbyRegistry) : LobbyRegistry :=
  (lobby_call code a g).2.

Definition lobby_serve (op : LobbyOp) (g : LobbyRegistry) : LobbyRegistry :=
  match op with
  | OpCreate id code token c proposal broker host params =>
      (create_lobby deps wall_ms now_ms id code token c proposal broker host params g).2
  | OpAct code a => lobby_act code a g
  | OpExpire idle_timeout => (expire_idle_lobbies deps wall_ms now_ms idle_timeout g).2
  end.
End serving.

Inductive lobbies_reachable (deps : LobbyDeps) : LobbyRegistry → Prop :=
| lobbies_start : lobbies_reachable deps LobbyRegistry_new
| lobbies_next wall_ms now_ms op g :
    lobbies_reachable deps g → lobbies_reachable deps (lobby_serve deps wall_ms now_ms op g).

(** ** The refinement *)

Ltac unfold_lobby_body :=
  unfold join_lobby_body, connect_lobby_body, reconnect_lobby_player_body, seated, disconnect_lobby_body,
    leave_lobby_body, remove_lobby_player_body, select_lobby_game_body, set_lobby_game_readiness_body,
    request_lobby_game_launch_body, prepare_lobby_rom_relay_transfer_body, grant_lobby_rom_relay_transfer_body,
    prepare_lobby_startup_state_relay_transfer_body, grant_lobby_startup_state_relay_transfer_body,
    publish_lobby_game_room_body, mark_lobby_gameplay_started_body, return_lobby_from_game_body,
    refresh_lobby_voice_token_body, record_lobby_activity_body, record_lobby_diagnostic_body, publish_change.

Section refinement.
Context (deps : LobbyDeps) (wall_ms now_ms : N).
Abbreviation step := (lobby_step (lobby_digest_of deps)).

(** The stored lobby [s] became [s'] by steps of its own. *)
Definition stepped (s s' : StoredLobby) : Prop := rtc step (stored_lobby s) (stored_lobby s').

#[local] Instance stepped_refl : Reflexive stepped.
Proof. intros s. apply rtc_refl. Qed.

Lemma with_lobby_stepped {A} code (m : LobbyCellM A) g k :
  walks (lobby_digest_of deps) m → option_Forall2 stepped (lobbies g !! k) (lobbies (with_lobby code m g).2 !! k).
Proof.
  intros Hm. unfold with_lobby.
  destruct (lobbies g !! normalized code) as [s|] eqn:E; [|reflexivity].
  pose proof (Hm (mkLobbyCell s (lobby_feed g))) as Hw. destruct (m _) as [o c] eqn:Ec. simpl in *.
  destruct (decide (normalized code = k)) as [<-|Hne].
  - rewrite lookup_insert_eq, E. by constructor.
  - rewrite lookup_insert_ne by done. reflexivity.
Qed.

Lemma settle_stepped {A} code (m : LobbyCellM A) g k :
  walks (lobby_digest_of deps) m → option_Forall2 stepped (lobbies g !! k) (lobbies (settle code m g).2 !! k).
Proof. intros Hm. apply with_lobby_stepped. apply walks_bind; [done|]. intros ?. by apply walks_idle. Qed.

Lemma chat_walks message_id now_ms' c body :
  walks (lobby_digest_of deps) (send_lobby_chat_body wall_ms now_ms message_id now_ms' c body).
Proof.
  intros cell. unfold send_lobby_chat_body. rewrite run_get, run_lift.
  destruct (player_index_for_connection c (stored_lobby (cell_lobby cell))) as [p|] eqn:Hp; [|done].
  rewrite run_lift. destruct (sanitize_chat_body body); [|done].
  eapply walks_chat; [exact Hp|walk].
Qed.

Lemma lobby_act_stepped code a g k :
  option_Forall2 stepped (lobbies g !! k) (lobbies (lobby_act deps wall_ms now_ms code a g) !! k).
Proof.
  unfold lobby_act. destruct a; cbn [lobby_call];
    try (apply settle_stepped; [apply chat_walks || unfold_lobby_body; walk]).
  - unfold remove_lobby_player, mbind, M_bind.
    destruct (server_supports_lobby_player_removal _); simpl; [|reflexivity].
    pose proof (with_lobby_stepped code (remove_lobby_player_body deps wall_ms now_ms requester epoch target) g k) as Hw.
    destruct (with_lobby _ _ g) as [[v|e] g']; apply Hw; unfold_lobby_body; walk.
  - apply with_lobby_stepped. walk.
Qed.

(** ** Expiry *)

Lemma expire_lobby_spec idle_timeout s :
  if is_meaningfully_idle now_ms idle_timeout (stored_lobby s)
  then is_Some (expire_lobby wall_ms now_ms idle_timeout s).1
  else expire_lobby wall_ms now_ms idle_timeout s = (None, s).
Proof.
  unfold expire_lobby. destruct (is_meaningfully_idle _ _ _) eqn:E; [|done]. simpl.
  unfold is_meaningfully_idle in E. guards. unfold close_due_to_idle.
  rewrite bool_decide_false by done. simpl. by eexists.
Qed.

(** The lobbies that expire are those idle for the timeout, and the others are untouched. *)
Lemma expire_lookup idle_timeout g k s' :
  lobbies (expire_idle_lobbies deps wall_ms now_ms idle_timeout g).2 !! k = Some s' ↔
  lobbies g !! k = Some s' ∧ is_meaningfully_idle now_ms idle_timeout (stored_lobby s') = false.
Proof.
  unfold expire_idle_lobbies. cbn [snd lobbies]. rewrite foldr_delete_lookup, !lookup_fmap.
  set (expired := (omap _ _).*1).
  assert (Hk : k ∈ expired ↔ ∃ s, lobbies g !! k = Some s ∧ is_meaningfully_idle now_ms idle_timeout (stored_lobby s) = true).
  { unfold expired. rewrite list_elem_of_fmap. split.
    - intros ([k1 o] & -> & ([k2 [o2 s2]] & Hin & Ho)%list_elem_of_omap).
      apply elem_of_map_to_list in Hin. rewrite lookup_fmap in Hin.
      destruct o2 as [o2|]; simplify_eq/=. destruct (lobbies g !! k1) as [s|] eqn:Es; simplify_eq/=.
      exists s. split; [done|]. pose proof (expire_lobby_spec idle_timeout s) as Hs.
      destruct (is_meaningfully_idle _ _ _); [done|]. by rewrite Hs in Hin.
    - intros (s & Hs & Hidle). pose proof (expire_lobby_spec idle_timeout s) as Hsp. rewrite Hidle in Hsp.
      destruct Hsp as [o Ho]. exists (k, o). split; [done|]. apply list_elem_of_omap.
      exists (k, expire_lobby wall_ms now_ms idle_timeout s). split.
      + apply elem_of_map_to_list. by rewrite lookup_fmap, Hs.
      + destruct (expire_lobby _ _ _ _). simpl in *. by subst. }
  destruct (lobbies g !! k) as [s|] eqn:Es; simpl; [|naive_solver].
  pose proof (expire_lobby_spec idle_timeout s) as Hs.
  destruct (is_meaningfully_idle now_ms idle_timeout (stored_lobby s)) eqn:Ei.
  - split; [intros [[] _]; apply Hk; eauto|]. intros [[= ->] ?]. congruence.
  - rewrite Hs. simpl. split; [naive_solver|]. intros [[= ->] _]. split; [|done].
    rewrite Hk. intros (t & [= ->] & ?). congruence.
Qed.

Lemma create_lookup id code token c proposal broker host params g k s' :
  lobbies (create_lobby deps wall_ms now_ms id code token c proposal broker host params g).2 !! k = Some s' →
  (k = normalized code ∧ created (stored_lobby s')) ∨ (k ≠ normalized code ∧ lobbies g !! k = Some s').
Proof.
  unfold create_lobby. cbn. destruct (decide (normalized code = k)) as [<-|Hne].
  - rewrite lookup_insert_eq. intros [= <-]. left. split; [done|].
    unfold created. cbn. destruct (create_voice_state_for_lobby _ _ _ _ _) as [v|].
    + eexists _, _, _. right. by exists v.
    + eexists _, _, _. by left.
  - rewrite lookup_insert_ne by done. right. by split.
Qed.

(** What one call does to the lobby under a key. *)
Lemma lobby_serve_stepped op g k s' :
  lobbies (lobby_serve deps wall_ms now_ms op g) !! k = Some s' →
  created (stored_lobby s') ∨ ∃ s, lobbies g !! k = Some s ∧ stepped s s'.
Proof.
  destruct op as [id code token c proposal broker host params|code a|timeout]; cbn [lobby_serve].
  - intros [[_ ?]|[_ ?]]%create_lookup; [by left|]. right. by exists s'.
  - intros H. pose proof (lobby_act_stepped code a g k) as Ha. rewrite H in Ha.
    inversion Ha; subst. right. eauto.
  - intros [H _]%expire_lookup. right. by exists s'.
Qed.
End refinement.

Lemma lobbies_histories deps g :
  lobbies_reachable deps g → map_Forall (λ _ s, lobby_history (lobby_digest_of deps) (stored_lobby s)) (lobbies g).
Proof.
  induction 1 as [|wall_ms now_ms op g _ IH]; intros k s Hk; [done|].
  apply lobby_serve_stepped in Hk as [Hc|(s0 & Hs & Hst)]; [by exists (stored_lobby s); split; [|apply rtc_refl]|].
  destruct (IH _ _ Hs) as (l0 & Hl0 & Hsteps). exists l0. split; [done|]. by etrans.
Qed.

Lemma lobbies_ok deps g k s : lobbies_reachable deps g → lobbies g !! k = Some s → lobby_ok (stored_lobby s).
Proof. intros Hg Hk. by eapply lobby_history_ok, (lobbies_histories _ _ Hg k s). Qed.
