(* ===== verification/LobbyGuarantees.v ===== *)
(** * What lobbies guarantee

  The registry refines the lobbies and keeps them well formed; a closed lobby is final; the
  epoch tells states apart; a launch needs the host and everyone ready; a player who lost the
  socket gets the seat back; expiry removes exactly the idle lobbies and the public listing
  shows exactly the open ones. *)

From stdpp Require Import sorting.
From S2P Require Import Prelude Ids Wire Text Descriptor Invite Protocol Slots SnapshotTransfer.
From S2P Require Import RoomTransactions StartSync LinkOps RoomEvents StoredRoom Registry.
From S2P Require Import Lobby LobbyEvents LobbyInvariant LobbyRegistry LobbyCalls.
Open Scope N_scope.

Lemma wp_after {S E A} (m : M S E A) (P : S → Prop) s : wp m (λ _, P) (λ _, P) s → P (m s).2.
Proof. unfold wp. by destruct (m s) as [[] ?]. Qed.

Ltac unfold_lobby_call :=
  unfold join_or_refresh_player, reconnect_player, leave, remove_player, select_game, set_game_readiness_op,
    request_game_launch, publish_game_room, mark_gameplay_started, return_to_lobby, record_activity.

(** ** Closed lobbies *)

Lemma closed_has_no_players c l :
  lobby_ok l → lobby_status l = LobbyStatusClosed → player_index_for_connection c l = Err LobbyUnknownConnection.
Proof.
  intros [Hr Hp _ _] Hst. rewrite Hst in Hp. destruct Hp as [_ Hall]. unfold player_index_for_connection.
  destruct (List.find _ _) as [s|] eqn:Hf; [|done]. apply find_some_iff in Hf as [Hin Hc].
  unfold slot_has_connection in Hc. guards. by rewrite (proj1 (Forall_forall _ _) Hall _ Hin) in Hc.
Qed.

Lemma closed_has_no_socket c l :
  lobby_ok l → lobby_status l = LobbyStatusClosed → List.find (slot_has_connection c) (lobby_players l) = None.
Proof.
  intros Hl Hst. pose proof (closed_has_no_players c l Hl Hst) as H. unfold player_index_for_connection in H.
  by destruct (List.find _ _).
Qed.

(** Only the voice state of a closed lobby can still change. *)
Definition voice_only (l l' : Lobby) : Prop := l' = l <| lobby_voice := lobby_voice l' |>.

Lemma voice_only_refl l : voice_only l l.
Proof. by destruct l. Qed.

Lemma require_host_closed c l :
  lobby_ok l → lobby_status l = LobbyStatusClosed → require_host c l = Err LobbyUnknownConnection.
Proof. intros Hl Hst. unfold require_host. by rewrite closed_has_no_players. Qed.

Lemma closed_step sha256 l l' :
  lobby_ok l → lobby_status l = LobbyStatusClosed → lobby_step sha256 l l' → voice_only l l'.
Proof.
  intros Hl Hst Hstep. pose proof (λ c, closed_has_no_players c l Hl Hst) as Hnone.
  pose proof (λ c, closed_has_no_socket c l Hl Hst) as Hsock.
  pose proof (λ c, require_host_closed c l Hl Hst) as Hhost. pose proof (voice_only_refl l).
  destruct Hstep; try (apply wp_after; unfold_lobby_call; wp_go; by (guards; congruence)).
  - unfold disconnect. by rewrite Hsock.
  - congruence.
  - unfold refresh_voice_grant. by rewrite Hnone.
  - unfold take_voice_room_id_for_cleanup. simpl. by destruct (is_some _).
  - unfold close_due_to_idle. by rewrite bool_decide_true.
Qed.

Lemma closed_steps sha256 l l' :
  lobby_ok l → lobby_status l = LobbyStatusClosed → rtc (lobby_step sha256) l l' → voice_only l l'.
Proof.
  intros Hl Hst Hsteps. induction Hsteps as [l|l1 l2 l3 Hstep Hsteps IH]; [apply voice_only_refl|].
  pose proof (closed_step _ _ _ Hl Hst Hstep) as H12. unfold voice_only in *.
  rewrite IH; [by rewrite H12|by eapply lobby_step_ok|by rewrite H12].
Qed.

(** ** The epoch *)

(** The activity clock and the voice grants are not part of what the epoch versions. *)
Definition same_lobby (l l' : Lobby) : Prop :=
  l' = l <| last_meaningful_activity_at_ms := last_meaningful_activity_at_ms l' |>
         <| lobby_voice := lobby_voice l' |>.

#[export] Instance same_lobby_preorder : PreOrder same_lobby.
Proof.
  split; [by intros []|]. unfold same_lobby. intros l1 l2 l3 H12 H23. rewrite H23, H12. done.
Qed.

(** The epoch moved [n] times, and not at all only if the lobby is the same. *)
Definition epoch_moved (n : nat) (l l' : Lobby) : Prop :=
  lobby_epoch l' = Nat.iter n u64_incr (lobby_epoch l) ∧ (n = 0%nat → same_lobby l l').

Lemma epoch_still l l' : same_lobby l l' → epoch_moved 0 l l'.
Proof. intros H. split; [by rewrite H|done]. Qed.

Lemma started_unchanged p expected now_ms v o v' :
  mark_player_started p expected now_ms v = (o, v') → o ≠ Ok true → v' = v.
Proof.
  unfold mark_player_started. destruct (launch_status v); try naive_solver.
  destruct (existsb _ _); [naive_solver|]. intros [= <- <-]. done.
Qed.

Lemma epoch_step sha256 l l' : lobby_step sha256 l l' → ∃ n, (n ≤ 1)%nat ∧ epoch_moved n l l'.
Proof.
  intros Hstep. assert (same_lobby l l' ∨ lobby_epoch l' = u64_incr (lobby_epoch l)) as [Hs|He].
  { assert (same_lobby l l) as Hrefl by done.
    destruct Hstep; try (apply wp_after; unfold_lobby_call; wp_go; by (first [left; exact Hrefl|right; reflexivity])).
    - unfold disconnect. destruct (List.find _ _); [by right|by left].
    - apply wp_after. unfold mark_gameplay_started. wp_go; try (by first [left; exact Hrefl|right; reflexivity]).
      all: left; rewrite (started_unchanged _ _ _ _ _ _ Heqp) by congruence; unfold same_lobby.
      all: destruct l; simpl in *; by subst.
    - left. apply wp_after. unfold record_activity. wp_go; try exact Hrefl. by destruct l.
    - left. by destruct l.
    - left. unfold refresh_voice_grant. destruct (player_index_for_connection c l); [|exact Hrefl].
      destruct (lobby_voice l); [|exact Hrefl]. by destruct (refresh_grant _ _ _ _ _), l.
    - left. unfold take_voice_room_id_for_cleanup. simpl. by destruct (is_some _), l.
    - unfold close_due_to_idle. case_bool_decide; [by left|by right]. }
  - exists 0%nat. split; [lia|by apply epoch_still].
  - by exists 1%nat.
Qed.

Lemma epoch_steps sha256 l l' : rtc (lobby_step sha256) l l' → ∃ n, epoch_moved n l l'.
Proof.
  induction 1 as [l|l1 l2 l3 (n & _ & Hn & Hs)%epoch_step _ (m & Hm & Ht)]; [by exists 0%nat; apply epoch_still|].
  exists (m + n)%nat. split; [by rewrite Hm, Hn, Nat.iter_add|].
  intros [-> ->]%Nat.eq_add_0. etrans; auto.
Qed.

(** ** Launching *)

(** [c] is the host's socket. *)
Definition is_host (c : ConnectionId) (l : Lobby) : Prop :=
  ∃ s, lobby_players l !! 0%nat = Some s ∧ slot_connection_id s = Some c.

Lemma connection_of_first c l s :
  roster_ok (lobby_players l) → lobby_players l !! 0%nat = Some s → slot_connection_id s = Some c →
  player_index_for_connection c l = Ok PlayerIndex_ONE ∧ slot PlayerIndex_ONE l = Some s.
Proof.
  intros Hr Hs Hc. split; [|by apply slot_spec].
  pose proof (seat_index _ _ (roster_seats _ Hr _ _ Hs)) as Hi.
  unfold player_index_for_connection. destruct (lobby_players l) as [|s0 ps]; [done|]. simplify_eq/=.
  unfold slot_has_connection. rewrite bool_decide_true by done. simpl. by rewrite Hi.
Qed.

Lemma require_host_spec c l :
  lobby_ok l → (∃ p, require_host c l = Ok p) ↔ is_host c l.
Proof.
  intros Hl. pose proof (lobby_roster _ Hl) as Hr. unfold require_host. split.
  - intros [p Hp]. destruct (player_index_for_connection c l) as [q|] eqn:Hc; [|done]. simpl in Hp.
    apply connection_seat in Hc as (i & s & -> & Hi & Hs & _ & Hslot); [|done]. rewrite Hslot in Hp. simpl in Hp.
    case_bool_decide as Hrole; [|done].
    apply (seat_role _ _ (roster_seats _ Hr _ _ Hi)) in Hrole. subst i. by exists s.
  - intros (s & Hs & Hc). destruct (connection_of_first c l s Hr Hs Hc) as [-> Hslot]. simpl. rewrite Hslot. simpl.
    rewrite bool_decide_true; [by eexists|]. by apply (seat_role _ _ (roster_seats _ Hr _ _ Hs)).
Qed.

(** Everyone whose socket is connected is ready for the selected game. *)
Definition everyone_ready (l : Lobby) : Prop :=
  ∀ i s, lobby_players l !! i = Some s → slot_status s = SlotConnected →
  ∃ r, r ∈ game_readiness l ∧ readiness_player_index r = N.of_nat i ∧ readiness_status r = ReadinessReady.

Lemma present_connected i s : seat_ok i s → is_present s = true ↔ slot_status s = SlotConnected.
Proof.
  intros Hs. unfold is_present. rewrite (seat_online _ _ Hs).
  destruct (slot_connection_id s) eqn:Ec, (slot_subject_key s) eqn:Ek; simpl; try naive_solver.
  by rewrite (seat_vacant _ _ Hs Ek) in Ec.
Qed.

Lemma ready_spec l g :
  lobby_ok l → selected_game l = Some g →
  connected_players_are_ready (selection_proposal_id g) l = true ↔ everyone_ready l.
Proof.
  intros Hl Hg. pose proof (roster_seats _ (lobby_roster _ Hl)) as Hseats.
  unfold connected_players_are_ready, everyone_ready. rewrite forallb_forall. split.
  - intros H i s Hi Hon. pose proof (Hseats _ _ Hi) as Hs.
    specialize (H s). rewrite <-list_elem_of_In, filter_elem_of, (present_connected _ _ Hs) in H.
    apply existsb_exists in H as (r & Hr%list_elem_of_In & H'); [|split; [by eapply list_elem_of_lookup_2|done]].
    apply andb_true_iff in H' as [[Hri _]%andb_true_iff Hready]. guards.
    exists r. split_and!; [done| |done]. by rewrite Hri, (seat_index _ _ Hs).
  - intros H s. rewrite <-list_elem_of_In, filter_elem_of. intros [(i & Hi)%list_elem_of_lookup Hp].
    pose proof (Hseats _ _ Hi) as Hs. apply (present_connected _ _ Hs) in Hp.
    destruct (H _ _ Hi Hp) as (r & Hr & Hri & Hready). apply existsb_exists. exists r.
    split; [by apply list_elem_of_In|]. rewrite (seat_index _ _ Hs), Hri, Hready. simpl. rewrite N.eqb_refl.
    destruct (proj1 (Forall_forall _ _) (readiness_entries _ _ _ (lobby_readiness _ Hl)) r Hr) as [(g' & Hg' & Hid) _].
    simplify_eq. by rewrite Hid, N.eqb_refl.
Qed.

Lemma launch_succeeds_iff c id now_ms l :
  lobby_ok l →
  (∃ v, (request_game_launch c id now_ms l).1 = Ok v) ↔
  is_host c l ∧ (∃ g, selected_game l = Some g ∧ selection_proposal_id g = id) ∧ everyone_ready l.
Proof.
  intros Hl. rewrite <-(require_host_spec c l Hl). unfold request_game_launch. rewrite run_get, run_lift.
  destruct (require_host c l) as [p|]; [|naive_solver]. rewrite run_lift. unfold require_selected_proposal.
  destruct (selected_game l) as [g|] eqn:Hg; simpl; [|naive_solver].
  destruct (N.eqb_spec (selection_proposal_id g) id) as [<-|Hne]; simpl; [|naive_solver].
  rewrite <-(ready_spec l g) by done. unfold mbind, M_bind, ensure.
  destruct (connected_players_are_ready _ l); simpl; naive_solver.
Qed.

(** ** Getting the seat back *)

Lemma set_players_ext f g l :
  f (lobby_players l) = g (lobby_players l) → l <| lobby_players ::= f |> = l <| lobby_players ::= g |>.
Proof. intros H. unfold upd, set_lobby_players. by rewrite H. Qed.

(** A seat found by a test is updated in place. *)
Lemma update_seat test f l p s :
  lobby_ok l → List.find test (lobby_players l) = Some s → slot p l = Some s →
  update_first test f (lobby_players l) = <[N.to_nat (zero_based p) := f s]> (lobby_players l).
Proof.
  intros Hl Hf Hs. destruct (update_first_insert test f _ _ Hf) as (i & Hi & _ & ->). f_equal.
  unfold slot in Hs. apply find_some_iff in Hs as [_ Hp]. unfold slot_has_index in Hp. guards.
  rewrite (seat_index _ _ (roster_seats _ (lobby_roster _ Hl) _ _ Hi)) in Hp. subst p. simpl. by rewrite Nat2N.id.
Qed.

Lemma disconnect_spec c now_ms l p s :
  lobby_ok l → player_index_for_connection c l = Ok p → slot p l = Some s →
  disconnect c now_ms l = (true, bump now_ms (l <| lobby_players ::= <[N.to_nat (zero_based p) :=
    s <| slot_connection_id := None |> <| slot_status := SlotReconnecting |>
      <| slot_last_seen_at_ms := Some now_ms |>]> |>)).
Proof.
  intros Hl Hp Hs. unfold disconnect, player_index_for_connection in *.
  destruct (List.find _ _) as [t|] eqn:Hf; simplify_eq/=. do 2 f_equal. apply set_players_ext.
  assert (slot (slot_player_index t) l = Some t) as Ht; [|simplify_eq; etrans; [by eapply update_seat|done]].
  apply (update_first_insert _ id) in Hf as (i & Hi & _). apply slot_spec; [by apply lobby_roster|].
  rewrite (seat_index _ _ (roster_seats _ (lobby_roster _ Hl) _ _ Hi)). simpl. by rewrite Nat2N.id.
Qed.

Definition reseated (q : LobbyReconnectRequest) (token : ResumeTokenHash) (s : LobbyPlayerSlot) : LobbyPlayerSlot :=
  occupy (mkLobbyPlayerOccupancy (slot_role s) (reconnect_license q) (reconnect_connection_id q)
    (reconnect_display_name q) (reconnect_capabilities q) token (reconnect_now_ms q)) s.

Lemma reconnect_spec sha256 q l s :
  lobby_ok l → lobby_status l ≠ LobbyStatusClosed → slot (reconnect_player_index q) l = Some s →
  slot_subject_key s = Some (identity_key (reconnect_license q)) → reconnect_lobby_epoch q <= lobby_epoch l →
  slot_resume_token_hash s = Some (hash_resume_token sha256 (reconnect_resume_token q)) →
  reconnect_player sha256 q l =
    (Ok (reconnect_player_index q), bump_with_activity (reconnect_now_ms q)
       (l <| lobby_players ::= <[N.to_nat (zero_based (reconnect_player_index q)) :=
               reseated q (hash_resume_token sha256 (reconnect_resume_token q)) s]> |>)).
Proof.
  intros Hl Hst Hs Hk He Ht. unfold reconnect_player. rewrite run_get. unfold ensure, mbind, M_bind.
  rewrite bool_decide_false by done. simpl. rewrite (proj2 (N.ltb_ge _ _)) by done. simpl. rewrite Hs. simpl.
  rewrite (proj2 (belongs_to_spec _ _) Hk). simpl. rewrite Ht, bool_decide_true by done. simpl. unfold mret, M_ret.
  do 2 f_equal. unfold occupy_first. f_equal. apply set_players_ext.
  by apply (update_seat _ (reseated q _)).
Qed.

(** ** The public listing *)

(** A public lobby between games whose host is connected and alone. *)
Definition waiting_in_public (l : Lobby) : Prop :=
  visibility l = VisibilityPublic
  ∧ (lobby_status l = LobbyOpen ∨ lobby_status l = GameSelected)
  ∧ (∃ s, lobby_players l !! 0%nat = Some s ∧ slot_status s = SlotConnected)
  ∧ (∀ i s, lobby_players l !! S i = Some s → slot_status s = SlotEmpty).

Lemma count_alone caps l :
  lobby_ok l → public_player_count (lobby_view caps l) < PUBLIC_LOBBY_PLAYER_CAPACITY ↔
  ∀ i s, lobby_players l !! S i = Some s → slot_status s = SlotEmpty.
Proof.
  intros Hl. pose proof (lobby_roster _ Hl) as Hr. destruct (roster_host _ Hr) as (h & Hh & [k Hk]).
  pose proof (roster_seats _ Hr) as Hseats. unfold public_player_count. cbn [lv_players lobby_view].
  destruct (lobby_players l) as [|h0 ps] eqn:Eps; [done|]. simplify_eq/=. rewrite Hk. simpl.
  trans (List.filter sv_occupied (player_slot_view <$> ps) = []).
  { destruct (List.filter sv_occupied (player_slot_view <$> ps)) as [|x [|y rest]]; simpl;
      unfold PUBLIC_LOBBY_PLAYER_CAPACITY; split; done. }
  split.
  - intros Hnil i s Hi. apply (seat_empty _ _ (Hseats (S i) s Hi)).
    destruct (slot_subject_key s) eqn:Es; [|done]. exfalso.
    apply (not_elem_of_nil (player_slot_view s)). rewrite <-Hnil. apply filter_elem_of.
    split; [by apply list_elem_of_fmap_2; eapply list_elem_of_lookup_2|]. simpl. by rewrite Es.
  - intros Hempty. apply elem_of_nil_inv. intros v [(s & -> & (i & Hi)%list_elem_of_lookup)%list_elem_of_fmap Hocc]%filter_elem_of.
    apply Hempty in Hi as He. apply (seat_empty _ _ (Hseats (S i) s Hi)) in He. simpl in Hocc. by rewrite He in Hocc.
Qed.

Lemma host_connected caps l :
  lobby_ok l → host_is_connected (lobby_view caps l) = true ↔
  ∃ s, lobby_players l !! 0%nat = Some s ∧ slot_status s = SlotConnected.
Proof.
  intros Hl. pose proof (roster_seats _ (lobby_roster _ Hl)) as Hseats.
  unfold host_is_connected. cbn [lv_players lobby_view]. rewrite existsb_exists. split.
  - intros (v & (s & -> & (i & Hi)%list_elem_of_lookup)%list_elem_of_In%list_elem_of_fmap & Hv). guards.
    simpl in *. pose proof (seat_index _ _ (Hseats _ _ Hi)) as Hidx. rewrite Hidx in *. simpl in *.
    assert (i = 0%nat) as -> by lia. by exists s.
  - intros (s & Hs & Hon). exists (player_slot_view s). pose proof (Hseats _ _ Hs) as Hok.
    split; [apply list_elem_of_In, list_elem_of_fmap_2; by eapply list_elem_of_lookup_2|].
    simpl. rewrite (seat_index _ _ Hok), Hon. simpl. apply (seat_online _ _ Hok) in Hon as [c Hc]. by rewrite Hc.
Qed.

Lemma listed_iff_waiting caps l :
  lobby_ok l → is_Some (public_summary (lobby_view caps l)) ↔ waiting_in_public l.
Proof.
  intros Hl. unfold waiting_in_public. rewrite <-(count_alone caps l), <-(host_connected caps l) by done.
  unfold public_summary. cbn [lv_visibility lv_status lobby_view].
  destruct (visibility l); simpl; [split; [by intros []|naive_solver]|].
  destruct (lobby_status l); simpl; try (split; [by intros []|naive_solver]).
  all: destruct (N.leb_spec PUBLIC_LOBBY_PLAYER_CAPACITY (public_player_count (lobby_view caps l))); simpl.
  1,3: split; [by intros []|]; intros (_ & _ & _ & Hc); lia.
  all: destruct (host_is_connected _); simpl; split; try (by intros []); try naive_solver.
Qed.

Lemma elem_of_public_lobbies g pub :
  pub ∈ public_lobbies g ↔ ∃ k s, lobbies g !! k = Some s ∧ public_summary (stored_lobby_view s) = Some pub.
Proof.
  unfold public_lobbies. rewrite merge_sort_Permutation, list_elem_of_omap. split.
  - intros (s & ([k s'] & -> & Hk%elem_of_map_to_list)%list_elem_of_fmap & Hp). eauto.
  - intros (k & s & Hk & Hp). exists s. split; [|done]. apply list_elem_of_fmap. exists (k, s).
    split; [done|]. by apply elem_of_map_to_list.
Qed.

(** ** Expiry *)

Lemma expire_count deps wall_ms now_ms idle_timeout g :
  let '(n, g') := expire_idle_lobbies deps wall_ms now_ms idle_timeout g in
  (n + size (lobbies g') = size (lobbies g))%nat.
Proof.
  unfold expire_idle_lobbies. cbv zeta.
  set (swept := expire_lobby wall_ms now_ms idle_timeout <$> lobbies g). set (expired := omap _ (map_to_list swept)).
  cbn [lobbies]. rewrite <-(length_fmap fst expired).
  assert (size (lobbies g) = size (snd <$> swept)) as -> by (unfold swept; by rewrite !map_size_fmap).
  apply size_foldr_delete.
  - assert (expired.*1 = fst <$> List.filter (λ e, is_some e.2.1) (map_to_list swept)) as ->.
    { unfold expired. induction (map_to_list swept) as [|[k [[o|] s]] l IH]; csimpl; [done|by rewrite IH|done]. }
    apply NoDup_fmap_filter, NoDup_fst_map_to_list.
  - intros k ([k' o] & -> & ([k2 [o2 s2]] & Hin & Ho)%list_elem_of_omap)%list_elem_of_fmap.
    apply elem_of_map_to_list in Hin. destruct o2; simplify_eq/=. rewrite lookup_fmap, Hin. by eexists.
Qed.

(** ** Refused calls

  [clean m]: when [m] fails, it has changed nothing. *)

Definition clean {S E A} (m : M S E A) : Prop := ∀ s e s', m s = (Err e, s') → s' = s.
Definition infallible {S E A} (m : M S E A) : Prop := ∀ s, ∃ a s', m s = (Ok a, s').

Section clean_rules.
Context {S E : Type}.

Lemma clean_bind {A B} (m : M S E A) (k : A → M S E B) :
  clean m → (∀ a, infallible (k a)) → clean (m ≫= k).
Proof.
  intros Hm Hk s e s'. unfold mbind, M_bind. destruct (m s) as [[a|e1] s1] eqn:E1.
  - destruct (Hk a s1) as (b & s2 & ->). done.
  - intros [= <- <-]. by eapply Hm.
Qed.

Lemma clean_read {A B} (m : M S E A) (k : A → M S E B) :
  (∀ s, (m s).2 = s) → (∀ a, clean (k a)) → clean (m ≫= k).
Proof.
  intros Hm Hk s e s'. unfold mbind, M_bind. specialize (Hm s). destruct (m s) as [[a|e1] s1]; simpl in *; subst.
  - apply Hk.
  - naive_solver.
Qed.

Lemma infallible_bind {A B} (m : M S E A) (k : A → M S E B) :
  infallible m → (∀ a, infallible (k a)) → infallible (m ≫= k).
Proof.
  intros Hm Hk s. unfold mbind, M_bind. destruct (Hm s) as (a & s1 & ->). apply Hk.
Qed.

Lemma clean_wp {A} (m : M S E A) : (∀ s, wp m (λ _ _, True) (λ _ s', s' = s) s) → clean m.
Proof. intros Hm s e s' Hs. specialize (Hm s). unfold wp in Hm. by rewrite Hs in Hm. Qed.

Lemma clean_throw {A} (m : M S E A) e : (∀ s, m s = (Err e, s)) → clean m.
Proof. intros Hm s e' s'. rewrite Hm. naive_solver. Qed.

Lemma infallible_clean {A} (m : M S E A) : infallible m → clean m.
Proof. intros Hm s e s' Hs. destruct (Hm s) as (a & s1 & ?). congruence. Qed.
End clean_rules.

Lemma clean_on_lobby {A} (m : LobbyM A) : clean m → clean (on_lobby m).
Proof.
  intros Hm c e c'. unfold on_lobby. destruct (m (stored_lobby (cell_lobby c))) as [o l] eqn:El.
  intros [= -> <-]. apply Hm in El. rewrite El. by destruct c as [[] ?].
Qed.

Lemma infallible_total {A} (f : Lobby → A * Lobby) : infallible (on_lobby (lift_total f)).
Proof.
  intros c. unfold on_lobby, lift_total. destruct (f (stored_lobby (cell_lobby c))) as [a l]. by eexists _, _.
Qed.

Lemma clean_mark_started c epoch id now_ms : clean (mark_gameplay_started c epoch id now_ms).
Proof.
  apply clean_wp. intros l. unfold mark_gameplay_started. wp_go; try done.
  rewrite (started_unchanged _ _ _ _ _ _ Heqp) by congruence. destruct l. simpl in *. by subst.
Qed.

Lemma clean_refresh_voice c identity token expires : clean (refresh_voice_grant c identity token expires).
Proof.
  intros l e l'. unfold refresh_voice_grant. destruct (player_index_for_connection c l); [|naive_solver].
  destruct (lobby_voice l) as [v|] eqn:Ev; [|naive_solver].
  assert (l <| lobby_voice := Some v |> = l) as Hsame by (destruct l; simpl in *; by subst).
  unfold refresh_grant. destruct (voice_grants v !! a) as [grant|]; cbn; [|rewrite Hsame; naive_solver].
  case_bool_decide; cbn; [naive_solver|]. rewrite Hsame. naive_solver.
Qed.

Lemma clean_leave c now_ms : clean (leave c now_ms).
Proof. apply clean_wp. intros l. unfold leave. wp_go; done. Qed.

(** Takes a registry body apart: what it reads, the one lobby call that can fail, and the rest. *)
Ltac infall := repeat match goal with
  | |- infallible (mbind _ _) => apply infallible_bind; [|intros ?]
  | |- infallible (on_lobby (lift_total _)) => apply infallible_total
  | |- infallible (match ?x with _ => _ end) => destruct x
  | |- infallible _ => intros ?; eexists _, _; reflexivity
  end.
Ltac clean_call :=
  first [ apply clean_mark_started | apply clean_refresh_voice
        | apply clean_wp; intros ?; unfold_lobby_call; wp_go; done ].
Ltac clean_go := repeat match goal with
  | |- clean (get ≫= _) => apply clean_read; [done|intros ?]
  | |- clean (lift_result _ ≫= _) => apply clean_read; [done|intros ?]
  | |- clean (mbind _ _) => apply clean_bind; [|intros ?; solve [infall]]
  | |- clean (on_lobby (lift_total _)) => apply infallible_clean, infallible_total
  | |- clean (on_lobby _) => apply clean_on_lobby; clean_call
  | |- clean _ => apply infallible_clean; solve [infall]
  end.

Lemma clean_with_lobby {A} code (m : LobbyCellM A) : clean m → clean (with_lobby code m).
Proof.
  intros Hm g e g'. unfold with_lobby. destruct (lobbies g !! normalized code) as [s|] eqn:Es; [|naive_solver].
  destruct (m (mkLobbyCell s (lobby_feed g))) as [o c] eqn:Ec. intros [= -> <-]. apply Hm in Ec. subst c. cbn.
  rewrite insert_id by done. by destruct g.
Qed.

Lemma clean_lobby_call deps wall_ms now_ms code a : clean (lobby_call deps wall_ms now_ms code a).
Proof.
  destruct a; cbn [lobby_call];
    try (apply clean_with_lobby; unfold send_lobby_chat_body; unfold_lobby_body; clean_go).
  - apply clean_bind; [|intros ?; infall]. unfold remove_lobby_player.
    destruct (server_supports_lobby_player_removal _); simpl.
    + apply clean_with_lobby. unfold_lobby_body. clean_go.
    + by eapply clean_throw.
  - apply infallible_clean. infall.
Qed.

(** ** Histories of a registry *)

Definition lobby_run (deps : LobbyDeps) (ops : list (N * N * LobbyOp)) (g : LobbyRegistry) : LobbyRegistry :=
  foldl (λ g '(wall_ms, now_ms, op), lobby_serve deps wall_ms now_ms op g) g ops.

Lemma lobby_run_reachable deps ops g : lobbies_reachable deps g → lobbies_reachable deps (lobby_run deps ops g).
Proof.
  revert g. induction ops as [|[[w n] op] ops IH]; intros g Hg; [done|]. apply IH. by constructor.
Qed.

(** [op] does not create a lobby under the key [k]. *)
Definition spares (k : list N) (op : LobbyOp) : bool :=
  match op with OpCreate _ code _ _ _ _ _ _ => normalized code !=? k | _ => true end.

(** One call on a registry, seen from one key. *)
Lemma lobby_serve_spares deps wall_ms now_ms op g k s :
  spares k op = true → lobbies g !! k = Some s →
  match lobbies (lobby_serve deps wall_ms now_ms op g) !! k with
  | Some s' => stepped deps s s'
  | None => ∃ timeout, op = OpExpire timeout ∧ is_meaningfully_idle now_ms timeout (stored_lobby s) = true
  end.
Proof.
  intros Hsp Hs. destruct op as [id code token c proposal broker host params|code a|timeout]; cbn [lobby_serve].
  - cbn in Hsp. guards. unfold create_lobby. cbn. rewrite lookup_insert_ne, Hs by done. by apply rtc_refl.
  - pose proof (lobby_act_stepped deps wall_ms now_ms code a g k) as H. rewrite Hs in H. by inversion H.
  - destruct (lobbies (expire_idle_lobbies deps wall_ms now_ms timeout g).2 !! k) as [s'|] eqn:E.
    + apply expire_lookup in E as [E _]. simplify_eq. by apply rtc_refl.
    + exists timeout. split; [done|]. destruct (is_meaningfully_idle _ _ _) eqn:Ei; [done|]. exfalso.
      by rewrite (proj2 (expire_lookup deps wall_ms now_ms timeout g k s)) in E.
Qed.

Lemma lobby_serve_absent deps wall_ms now_ms op g k :
  spares k op = true → lobbies g !! k = None → lobbies (lobby_serve deps wall_ms now_ms op g) !! k = None.
Proof.
  intros Hsp Hs. destruct (lobbies (lobby_serve _ _ _ _ _) !! k) as [s'|] eqn:Hs'; [|done]. exfalso.
  destruct op as [id code token c proposal broker host params|code a|timeout]; cbn in Hsp; cbn [lobby_serve] in Hs'.
  - apply create_lookup in Hs' as [[-> _]|[_ ?]]; [|congruence]. guards. done.
  - pose proof (lobby_act_stepped deps wall_ms now_ms code a g k) as H. rewrite Hs, Hs' in H. inversion H.
  - apply expire_lookup in Hs' as [? _]. congruence.
Qed.

Lemma lobby_run_absent deps ops g k :
  forallb (λ '(_, _, op), spares k op) ops = true → lobbies g !! k = None →
  lobbies (lobby_run deps ops g) !! k = None.
Proof.
  revert g. induction ops as [|[[w n] op] ops IH]; intros g Hops Hg; [done|]. cbn in Hops. guards.
  apply IH; [done|]. by apply lobby_serve_absent.
Qed.

(** Calls that do not create a lobby under its code let a lobby step or remove it. *)
Lemma lobby_run_stepped deps ops g k s s' :
  forallb (λ '(_, _, op), spares k op) ops = true → lobbies g !! k = Some s →
  lobbies (lobby_run deps ops g) !! k = Some s' → stepped deps s s'.
Proof.
  revert g s. induction ops as [|[[w n] op] ops IH]; intros g s Hops Hs Hs'.
  { cbn in Hs'. simplify_eq. apply rtc_refl. }
  cbn in Hops. guards. pose proof (lobby_serve_spares deps w n op g k s H Hs) as Hstep.
  cbn [lobby_run foldl] in Hs'. fold (lobby_run deps ops (lobby_serve deps w n op g)) in Hs'.
  destruct (lobbies (lobby_serve deps w n op g) !! k) as [s1|] eqn:Hs1.
  - unfold stepped. etrans; [exact Hstep|]. by eapply IH.
  - by rewrite lobby_run_absent in Hs'.
Qed.

(** ** A sample registry *)

Definition lobby_deps : LobbyDeps :=
  mkLobbyDeps (λ b, b) (current MAX_LOBBY_PLAYERS true false) false (λ _, "uuid"%string).
Definition lobby_code : InviteCode := mkInviteCode (string_bytes "AB23CD").
Definition host_socket : ConnectionId := mkConnectionId 11.
Definition guest_socket : ConnectionId := mkConnectionId 12.
Definition player (name : string) : VerifiedLicense := mkVerifiedLicense Desktop name name "premium" [] true false.
Definition tetris : LobbyGameCandidate := mkLobbyGameCandidate "Tetris" "gb" "gambatte" None None None.
Definition create_public : LobbyOp :=
  OpCreate (mkRoomId 1) lobby_code "host-token" (mkConnectionId 10) 40 (λ _, BrokerFailure) (player "host")
    (mkCreateLobbyParams None desktop_default None None VisibilityPublic).
Definition host_connects : LobbyOp :=
  OpAct lobby_code (DoConnect host_socket "token-a" (player "host") (mkJoinLobbyParams None desktop_default)).
Definition guest_connects : LobbyOp :=
  OpAct lobby_code (DoConnect guest_socket "token-b" (player "guest") (mkJoinLobbyParams None desktop_default)).
Definition at_ms (ms : N) (op : LobbyOp) : N * N * LobbyOp := (ms, ms, op).
Definition waiting_registry : LobbyRegistry :=
  lobby_run lobby_deps [at_ms 0 create_public; at_ms 1 host_connects] LobbyRegistry_new.
Definition ready_registry : LobbyRegistry :=
  lobby_run lobby_deps
    [at_ms 2 guest_connects; at_ms 3 (OpAct lobby_code (DoSelect 41 host_socket tetris));
     at_ms 4 (OpAct lobby_code (DoReadiness host_socket 41 ReadinessReady None));
     at_ms 5 (OpAct lobby_code (DoReadiness guest_socket 41 ReadinessReady None))] waiting_registry.
Definition closed_registry : LobbyRegistry :=
  lobby_run lobby_deps [at_ms 6 (OpAct lobby_code (DoLeave host_socket))] ready_registry.
Definition lobby_at (g : LobbyRegistry) : StoredLobby :=
  default (StoredLobby_new (Lobby_new (mkRoomId 0) 0 (mkLobbyCreateRequest lobby_code (player "") host_socket None
    desktop_default "" None VisibilityPrivate 0)) (lobby_capabilities lobby_deps)) (lobbies g !! normalized lobby_code).

Lemma waiting_reachable : lobbies_reachable lobby_deps waiting_registry.
Proof. apply lobby_run_reachable. constructor. Qed.
Lemma ready_reachable : lobbies_reachable lobby_deps ready_registry.
Proof. apply lobby_run_reachable, waiting_reachable. Qed.
Lemma closed_reachable : lobbies_reachable lobby_deps closed_registry.
Proof. apply lobby_run_reachable, ready_reachable. Qed.

Lemma ready_lookup : lobbies ready_registry !! normalized lobby_code = Some (lobby_at ready_registry).
Proof. vm_compute. reflexivity. Qed.
Lemma ready_history : lobby_history (lobby_digest_of lobby_deps) (stored_lobby (lobby_at ready_registry)).
Proof. exact (lobbies_histories _ _ ready_reachable _ _ ready_lookup). Qed.

Module Lobbies.

(** C13: The lobby registry refines the lobbies it stores. Seen from any invite code, a call
    leaves nothing where nothing was unless it created a lobby there; what it does to a stored
    lobby is a sequence of that lobby's own method calls; and a lobby disappears only when an
    expiry finds it idle. *)
Theorem registry_refines_lobbies deps wall_ms now_ms op g k :
  match lobbies g !! k, lobbies (lobby_serve deps wall_ms now_ms op g) !! k with
  | None, None => True
  | None, Some s' => spares k op = false ∧ created (stored_lobby s')
  | Some s, Some s' => stepped deps s s' ∨ spares k op = false ∧ created (stored_lobby s')
  | Some s, None => ∃ timeout, op = OpExpire timeout ∧ is_meaningfully_idle now_ms timeout (stored_lobby s) = true
  end.
Proof.
  destruct (spares k op) eqn:Hsp.
  - destruct (lobbies g !! k) as [s|] eqn:Hs.
    + pose proof (lobby_serve_spares deps wall_ms now_ms op g k s Hsp Hs) as H.
      destruct (lobbies (lobby_serve _ _ _ _ _) !! k); auto.
    + by rewrite lobby_serve_absent.
  - destruct op as [id code token c proposal broker host params| |]; [|done..]. cbn in Hsp. guards. subst k.
    assert (∃ s', lobbies (lobby_serve deps wall_ms now_ms (OpCreate id code token c proposal broker host params) g)
                    !! normalized code = Some s' ∧ created (stored_lobby s')) as (s' & -> & Hc).
    { destruct (lobbies _ !! normalized code) as [s'|] eqn:E.
      - exists s'. split; [done|]. cbn in E. by apply create_lookup in E as [[_ ?]|[? _]].
      - exfalso. unfold lobby_serve, create_lobby in E. cbn in E. by rewrite lookup_insert_eq in E. }
    destruct (lobbies g !! normalized code); auto.
Qed.

(** A refused call leaves no trace. When an operation on a lobby returns an error, whatever
    the operation and whatever the error, the registry is as it was: no lobby has changed,
    nothing was sent to its players and no event was recorded. *)
Theorem refused_call_leaves_no_trace deps wall_ms now_ms code a g e g' :
  lobby_call deps wall_ms now_ms code a g = (Err e, g') → g' = g.
Proof. apply clean_lobby_call. Qed.

Lemma refused_call_leaves_no_trace_witness :
  (lobby_call lobby_deps 9 9 lobby_code (DoLaunch guest_socket 41) ready_registry).2 = ready_registry.
Proof.
  apply (refused_call_leaves_no_trace lobby_deps 9 9 lobby_code (DoLaunch guest_socket 41) ready_registry LobbyHostOnly).
  vm_compute. reflexivity.
Defined.

(** C12: Every lobby of every registry that calls can produce is well formed: four seats in
    order with the host in the first, a seat empty exactly when nobody holds it, no player in
    two seats, a status that agrees with the game selected and the launch in progress,
    readiness only of seated players, once each and only for the selected game, and no socket
    in a closed lobby. *)
Theorem lobbies_well_formed deps g k s :
  lobbies_reachable deps g → lobbies g !! k = Some s → lobby_ok (stored_lobby s).
Proof. apply lobbies_ok. Qed.

Lemma lobbies_well_formed_witness : lobby_ok (stored_lobby (lobby_at ready_registry)).
Proof.
  apply (lobbies_well_formed lobby_deps ready_registry (normalized lobby_code)).
  - exact ready_reachable.
  - vm_compute. reflexivity.
Defined.

(** A closed lobby is final. However many calls follow, as long as its invite code is not
    drawn again the lobby stays in the registry, and nothing of it but its voice state ever
    changes. *)
Theorem closed_lobby_is_final deps g k s ops :
  lobbies_reachable deps g → lobbies g !! k = Some s → lobby_status (stored_lobby s) = LobbyStatusClosed →
  forallb (λ '(_, _, op), spares k op) ops = true →
  ∃ s', lobbies (lobby_run deps ops g) !! k = Some s' ∧ voice_only (stored_lobby s) (stored_lobby s').
Proof.
  intros Hg Hs Hst Hops. assert (lobby_ok (stored_lobby s)) as Hl by (by eapply lobbies_ok). clear Hg.
  revert g s Hs Hst Hl. induction ops as [|[[w n] op] ops IH]; intros g s Hs Hst Hl.
  { exists s. split; [done|apply voice_only_refl]. }
  cbn in Hops. guards. pose proof (lobby_serve_spares deps w n op g k s H Hs) as Hstep.
  destruct (lobbies (lobby_serve deps w n op g) !! k) as [s1|] eqn:Hs1.
  - pose proof (closed_steps _ _ _ Hl Hst Hstep) as Hv.
    destruct (IH H0 (lobby_serve deps w n op g) s1) as (s2 & Hs2 & Hv2); [done|by rewrite Hv|by eapply lobby_steps_ok|].
    exists s2. split; [done|]. unfold voice_only in *. by rewrite Hv2, Hv.
  - destruct Hstep as (timeout & _ & Hi). unfold is_meaningfully_idle in Hi. by rewrite Hst in Hi.
Qed.

Lemma closed_lobby_is_final_witness :
  ∃ s', lobbies (lobby_run lobby_deps [at_ms 1000000000 (OpExpire 0); at_ms 1000000001 guest_connects] closed_registry)
          !! normalized lobby_code = Some s'
        ∧ voice_only (stored_lobby (lobby_at closed_registry)) (stored_lobby s').
Proof.
  apply (closed_lobby_is_final lobby_deps closed_registry (normalized lobby_code)).
  - exact closed_reachable.
  - vm_compute. reflexivity.
  - vm_compute. reflexivity.
  - reflexivity.
Defined.

(** The epoch tells the states of a lobby apart. Over any calls, the epoch of a stored
    lobby is incremented some number of times, and if it was not, the two states differ at
    most in the activity clock and in the voice grants, which are outside the lobby's shared
    state. *)
Theorem epoch_tells_states_apart deps ops g k s s' :
  lobbies g !! k = Some s → lobbies (lobby_run deps ops g) !! k = Some s' →
  forallb (λ '(_, _, op), spares k op) ops = true →
  ∃ n, epoch_moved n (stored_lobby s) (stored_lobby s').
Proof. intros Hs Hs' Hops. by eapply epoch_steps, lobby_run_stepped. Qed.

Lemma epoch_tells_states_apart_witness :
  ∃ n, epoch_moved n (stored_lobby (lobby_at waiting_registry))
         (stored_lobby (lobby_at (lobby_run lobby_deps [at_ms 7 (OpAct lobby_code (DoActivity host_socket GameplayActive))]
                                    waiting_registry))).
Proof.
  eapply (epoch_tells_states_apart lobby_deps
    [at_ms 7 (OpAct lobby_code (DoActivity host_socket GameplayActive))] waiting_registry (normalized lobby_code)).
  - vm_compute. reflexivity.
  - vm_compute. reflexivity.
  - reflexivity.
Defined.

(** A launch starts exactly when the host asks for it, for the game now selected, while
    every player whose socket is connected has said that they are ready for that game. It puts
    the lobby in the game with that launch pending and leaves the seats alone; a launch that is
    refused changes nothing. *)
Theorem launch_requires_everyone_ready sha256 c id now_ms l :
  lobby_history sha256 l →
  ((∃ v, (request_game_launch c id now_ms l).1 = Ok v) ↔
   is_host c l ∧ (∃ g, selected_game l = Some g ∧ selection_proposal_id g = id) ∧ everyone_ready l)
  ∧ match request_game_launch c id now_ms l with
    | (Ok v, l') => lobby_status l' = InGame ∧ pending_launch l' = Some v ∧ launch_proposal_id v = id
                    ∧ lobby_players l' = lobby_players l
    | (Err _, l') => l' = l
    end.
Proof.
  intros Hl%lobby_history_ok. split; [by apply launch_succeeds_iff|].
  enough (wp (request_game_launch c id now_ms)
    (λ v l', lobby_status l' = InGame ∧ pending_launch l' = Some v ∧ launch_proposal_id v = id
             ∧ lobby_players l' = lobby_players l) (λ _ l', l' = l) l) as Hw.
  { unfold wp in Hw. by destruct (request_game_launch c id now_ms l) as [[v|e] l']. }
  unfold request_game_launch. wp_go; done.
Qed.

Lemma launch_requires_everyone_ready_witness :
  is_host host_socket (stored_lobby (lobby_at ready_registry)) ∧ everyone_ready (stored_lobby (lobby_at ready_registry)).
Proof.
  destruct (launch_requires_everyone_ready _ host_socket 41 6 _ ready_history) as [[H _] _].
  destruct H as (H & _ & H'); [eexists; vm_compute; reflexivity|]. exact (conj H H').
Defined.

(** A player who lost the socket gets the seat back with the resume token. In a lobby that
    is not closed, after the socket [c] of a seat disconnects, a reconnect by the same player
    with the token issued for the seat, at an epoch not ahead of the lobby's, succeeds: the
    seat is connected again under the new socket with its role and player, every other seat is
    as it was, and so are the status, the game, the readiness and the launch. *)
Theorem player_reclaims_seat sha256 l c now_ms s q :
  lobby_history sha256 l → lobby_status l ≠ LobbyStatusClosed →
  player_index_for_connection c l = Ok (reconnect_player_index q) → slot (reconnect_player_index q) l = Some s →
  slot_subject_key s = Some (identity_key (reconnect_license q)) →
  slot_resume_token_hash s = Some (hash_resume_token sha256 (reconnect_resume_token q)) →
  reconnect_lobby_epoch q <= lobby_epoch (disconnect c now_ms l).2 →
  ∃ l' s', reconnect_player sha256 q (disconnect c now_ms l).2 = (Ok (reconnect_player_index q), l')
    ∧ lobby_players l' = <[N.to_nat (zero_based (reconnect_player_index q)) := s']> (lobby_players l)
    ∧ slot_status s' = SlotConnected ∧ slot_connection_id s' = Some (reconnect_connection_id q)
    ∧ slot_role s' = slot_role s ∧ slot_subject_key s' = slot_subject_key s
    ∧ slot_resume_token_hash s' = slot_resume_token_hash s
    ∧ lobby_status l' = lobby_status l ∧ selected_game l' = selected_game l
    ∧ game_readiness l' = game_readiness l ∧ pending_launch l' = pending_launch l.
Proof.
  intros Hl%lobby_history_ok Hst Hc Hs Hk Ht He. pose proof (lobby_disconnect_ok c now_ms l Hl) as Hl1.
  rewrite (disconnect_spec c now_ms l _ s) in * by done. cbn [snd] in *.
  set (off := s <| slot_connection_id := None |> <| slot_status := SlotReconnecting |>
                <| slot_last_seen_at_ms := Some now_ms |>) in *.
  pose proof (proj1 (slot_spec _ _ _ (lobby_roster _ Hl)) Hs) as Hi.
  rewrite (reconnect_spec sha256 q _ off); [|done|done| |done|done|done].
  - eexists _, _. split; [done|]. cbn. rewrite list_insert_insert_eq. split_and!; done.
  - apply slot_spec; [by apply lobby_roster|]. cbn. apply list_lookup_insert_eq. by eapply lookup_lt_Some.
Qed.

Lemma player_reclaims_seat_witness :
  ∃ l', (reconnect_player (lobby_digest_of lobby_deps) (mkLobbyReconnectRequest (player "guest") PlayerIndex_TWO 3 "token-b"
           (mkConnectionId 13) None desktop_default 9)
           (disconnect guest_socket 8 (stored_lobby (lobby_at ready_registry))).2) = (Ok PlayerIndex_TWO, l').
Proof.
  destruct (player_reclaims_seat (lobby_digest_of lobby_deps) (stored_lobby (lobby_at ready_registry)) guest_socket 8
    (default (LobbyPlayerSlot_empty PlayerIndex_TWO) (slot PlayerIndex_TWO (stored_lobby (lobby_at ready_registry))))
    (mkLobbyReconnectRequest (player "guest") PlayerIndex_TWO 3 "token-b" (mkConnectionId 13) None desktop_default 9)
    ready_history) as (l' & _ & H & _).
  1-6: vm_compute; (reflexivity || discriminate).
  exists l'. exact H.
Defined.

(** The public listing shows exactly the lobbies one can join from it: a reachable
    registry lists the summary of a lobby when, and only when, the lobby is public, between
    games, and its host is connected and alone; the newest lobbies come first. *)
Theorem public_listing_exact deps g :
  lobbies_reachable deps g →
  (∀ k s, lobbies g !! k = Some s →
     (∃ pub, public_summary (stored_lobby_view s) = Some pub ∧ pub ∈ public_lobbies g) ↔
     waiting_in_public (stored_lobby s))
  ∧ (∀ pub, pub ∈ public_lobbies g →
       ∃ k s, lobbies g !! k = Some s ∧ public_summary (stored_lobby_view s) = Some pub)
  ∧ StronglySorted listed_after (public_lobbies g).
Proof.
  intros Hg. split_and!.
  - intros k s Hs. rewrite <-(listed_iff_waiting (stored_capabilities s)) by (by eapply lobbies_ok).
    split; [intros (pub & Hp & _); by exists pub|]. intros [pub Hp]. exists pub. split; [done|].
    apply elem_of_public_lobbies. eauto.
  - intros pub. by rewrite elem_of_public_lobbies.
  - apply StronglySorted_merge_sort; unfold listed_after; [intros ???; lia|intros ??; lia].
Qed.

Lemma public_listing_exact_witness :
  length (public_lobbies waiting_registry) = 1%nat ∧ waiting_in_public (stored_lobby (lobby_at waiting_registry)).
Proof.
  split; [reflexivity|].
  destruct (public_listing_exact lobby_deps waiting_registry waiting_reachable) as (H & _).
  apply (H (normalized lobby_code)); [vm_compute; reflexivity|].
  eexists. split; [vm_compute; reflexivity|]. vm_compute. left.
Defined.

(** Expiry removes exactly the lobbies that are not closed and have been without
    meaningful activity for the timeout; the others are untouched, and the count returned is
    the number removed. *)
Theorem expire_removes_idle deps wall_ms now_ms idle_timeout g :
  let '(n, g') := expire_idle_lobbies deps wall_ms now_ms idle_timeout g in
  (∀ k s, lobbies g' !! k = Some s ↔ lobbies g !! k = Some s ∧
     (lobby_status (stored_lobby s) = LobbyStatusClosed
      ∨ now_ms - last_meaningful_activity_at_ms (stored_lobby s) < as_millis idle_timeout))
  ∧ (n + size (lobbies g') = size (lobbies g))%nat.
Proof.
  pose proof (expire_count deps wall_ms now_ms idle_timeout g) as Hn.
  pose proof (expire_lookup deps wall_ms now_ms idle_timeout g) as Hk.
  destruct (expire_idle_lobbies _ _ _ _ _) as [n g']. split; [|done]. intros k s. rewrite Hk.
  unfold is_meaningfully_idle, saturating_sub. rewrite andb_false_iff, bool_decide_neq_false, N.leb_gt. done.
Qed.
End Lobbies.

(** ** What the model shows about the code *)

(** A game that [select_game] refuses is accepted as the initial game of a lobby. *)
Lemma initial_game_is_not_validated :
  let game := mkLobbyGameCandidate "" "" "" (Some "not a hash"%string) None None in
  validate_game_candidate game = Err LobbyInvalidPayload ∧
  selection_game <$> selected_game (Lobby_new (mkRoomId 1) 2
    (mkLobbyCreateRequest lobby_code (player "host") host_socket None desktop_default "t" (Some game)
       VisibilityPublic 0)) = Some game.
Proof. split; reflexivity. Qed.

(** Publishing the room of a launch again takes it back to [Ready], and the players who had
    reported gameplay cannot take it to [Playing] again. *)
Lemma republished_launch_stays_ready code published_at_ms started_at_ms p expected v :
  zero_based p ∈ launch_started_player_indexes v →
  let v' := publish_room code published_at_ms v in
  launch_status v' = LaunchReady ∧ mark_player_started p expected started_at_ms v' = (Ok false, v').
Proof.
  intros Hp. split; [done|]. unfold mark_player_started. cbn.
  replace (existsb _ _) with true; [done|]. symmetry. apply existsb_exists.
  exists (zero_based p). split; [by apply list_elem_of_In|apply N.eqb_refl].
Qed.
