(* ===== verification/Metrics.v ===== *)
(** * Process metrics

  Models [src/src/observability/metrics.rs]: one 64-bit atomic counter per kind of event.
  [AtomicU64::fetch_add] is atomic and wraps around. *)

From S2P Require Import Prelude.
Open Scope N_scope.

Record InMemoryMetrics := mkInMemoryMetrics {
  rooms_created_total : N;
  websocket_joins_total : N;
  player_reconnects_total : N;
  sessions_started_total : N;
  pause_requests_total : N;
  resume_requests_total : N;
  heartbeats_total : N;
  protocol_errors_total : N;
  v5_input_batches_total : N;
  v5_input_frames_total : N;
  v5_input_frames_accepted_total : N;
  v5_input_frames_duplicate_total : N;
  v5_input_nacks_total : N;
  v5_host_frame_opens_total : N;
  v5_host_frame_open_duplicates_total : N;
  v5_frame_releases_total : N;
  v5_scheduled_wake_retries_total : N;
  input_event_lagged_total : N;
  v5_input_rate_limited_total : N;
  rate_limited_total : N;
  auth_rejected_total : N;
  telemetry_dropped_total : N;
  telemetry_write_failed_total : N }.

#[export] Instance eta_InMemoryMetrics : Eta InMemoryMetrics := λ m,
  mkInMemoryMetrics
    (rooms_created_total m) (websocket_joins_total m) (player_reconnects_total m)
    (sessions_started_total m) (pause_requests_total m) (resume_requests_total m)
    (heartbeats_total m) (protocol_errors_total m) (v5_input_batches_total m)
    (v5_input_frames_total m) (v5_input_frames_accepted_total m)
    (v5_input_frames_duplicate_total m) (v5_input_nacks_total m) (v5_host_frame_opens_total m)
    (v5_host_frame_open_duplicates_total m) (v5_frame_releases_total m)
    (v5_scheduled_wake_retries_total m) (input_event_lagged_total m)
    (v5_input_rate_limited_total m) (rate_limited_total m) (auth_rejected_total m)
    (telemetry_dropped_total m) (telemetry_write_failed_total m).
#[export] Instance set_rooms_created_total : Setter rooms_created_total.
Proof. derive_setter. Defined.
#[export] Instance set_websocket_joins_total : Setter websocket_joins_total.
Proof. derive_setter. Defined.
#[export] Instance set_player_reconnects_total : Setter player_reconnects_total.
Proof. derive_setter. Defined.
#[export] Instance set_sessions_started_total : Setter sessions_started_total.
Proof. derive_setter. Defined.
#[export] Instance set_pause_requests_total : Setter pause_requests_total.
Proof. derive_setter. Defined.
#[export] Instance set_resume_requests_total : Setter resume_requests_total.
Proof. derive_setter. Defined.
#[export] Instance set_heartbeats_total : Setter heartbeats_total.
Proof. derive_setter. Defined.
#[export] Instance set_protocol_errors_total : Setter protocol_errors_total.
Proof. derive_setter. Defined.
#[export] Instance set_v5_input_batches_total : Setter v5_input_batches_total.
Proof. derive_setter. Defined.
#[export] Instance set_v5_input_frames_total : Setter v5_input_frames_total.
Proof. derive_setter. Defined.
#[export] Instance set_v5_input_frames_accepted_total : Setter v5_input_frames_accepted_total.
Proof. derive_setter. Defined.
#[export] Instance set_v5_input_frames_duplicate_total : Setter v5_input_frames_duplicate_total.
Proof. derive_setter. Defined.
#[export] Instance set_v5_input_nacks_total : Setter v5_input_nacks_total.
Proof. derive_setter. Defined.
#[export] Instance set_v5_host_frame_opens_total : Setter v5_host_frame_opens_total.
Proof. derive_setter. Defined.
#[export] Instance set_v5_host_frame_open_duplicates_total : Setter v5_host_frame_open_duplicates_total.
Proof. derive_setter. Defined.
#[export] Instance set_v5_frame_releases_total : Setter v5_frame_releases_total.
Proof. derive_setter. Defined.
#[export] Instance set_v5_scheduled_wake_retries_total : Setter v5_scheduled_wake_retries_total.
Proof. derive_setter. Defined.
#[export] Instance set_input_event_lagged_total : Setter input_event_lagged_total.
Proof. derive_setter. Defined.
#[export] Instance set_v5_input_rate_limited_total : Setter v5_input_rate_limited_total.
Proof. derive_setter. Defined.
#[export] Instance set_rate_limited_total : Setter rate_limited_total.
Proof. derive_setter. Defined.
#[export] Instance set_auth_rejected_total : Setter auth_rejected_total.
Proof. derive_setter. Defined.
#[export] Instance set_telemetry_dropped_total : Setter telemetry_dropped_total.
Proof. derive_setter. Defined.
#[export] Instance set_telemetry_write_failed_total : Setter telemetry_write_failed_total.
Proof. derive_setter. Defined.

Definition InMemoryMetrics_new : InMemoryMetrics :=
  mkInMemoryMetrics 0 0 0 0 0 0 0 0 0 0 0 0 0 0 0 0 0 0 0 0 0 0 0.

(** [AtomicU64::fetch_add]. *)
Definition fetch_add (n value : N) : N := (value + n) mod 2 ^ 64.

Definition record_room_created (m : InMemoryMetrics) : InMemoryMetrics := m <| rooms_created_total ::= fetch_add 1 |>.
Definition record_websocket_joined (m : InMemoryMetrics) : InMemoryMetrics := m <| websocket_joins_total ::= fetch_add 1 |>.
Definition record_player_reconnected (m : InMemoryMetrics) : InMemoryMetrics := m <| player_reconnects_total ::= fetch_add 1 |>.
Definition record_session_started (m : InMemoryMetrics) : InMemoryMetrics := m <| sessions_started_total ::= fetch_add 1 |>.
Definition record_pause_requested (m : InMemoryMetrics) : InMemoryMetrics := m <| pause_requests_total ::= fetch_add 1 |>.
Definition record_resume_requested (m : InMemoryMetrics) : InMemoryMetrics := m <| resume_requests_total ::= fetch_add 1 |>.
Definition record_heartbeat_metric (m : InMemoryMetrics) : InMemoryMetrics := m <| heartbeats_total ::= fetch_add 1 |>.
Definition record_protocol_error (m : InMemoryMetrics) : InMemoryMetrics := m <| protocol_errors_total ::= fetch_add 1 |>.

Definition record_v5_input_batch (frame_count accepted_frames duplicate_frames : N) (nacked : bool)
    (m : InMemoryMetrics) : InMemoryMetrics :=
  let m := m <| v5_input_batches_total ::= fetch_add 1 |>
             <| v5_input_frames_total ::= fetch_add frame_count |>
             <| v5_input_frames_accepted_total ::= fetch_add accepted_frames |>
             <| v5_input_frames_duplicate_total ::= fetch_add duplicate_frames |> in
  if nacked then m <| v5_input_nacks_total ::= fetch_add 1 |> else m.

Definition record_v5_host_frame_open (duplicate : bool) (m : InMemoryMetrics) : InMemoryMetrics :=
  let m := m <| v5_host_frame_opens_total ::= fetch_add 1 |> in
  if duplicate then m <| v5_host_frame_open_duplicates_total ::= fetch_add 1 |> else m.

Definition record_v5_frame_released (m : InMemoryMetrics) : InMemoryMetrics :=
  m <| v5_frame_releases_total ::= fetch_add 1 |>.
Definition record_v5_scheduled_wake_retry (m : InMemoryMetrics) : InMemoryMetrics :=
  m <| v5_scheduled_wake_retries_total ::= fetch_add 1 |>.
Definition record_input_event_lagged (m : InMemoryMetrics) : InMemoryMetrics :=
  m <| input_event_lagged_total ::= fetch_add 1 |>.
Definition record_v5_input_rate_limited (m : InMemoryMetrics) : InMemoryMetrics :=
  m <| v5_input_rate_limited_total ::= fetch_add 1 |>.
Definition record_rate_limited (m : InMemoryMetrics) : InMemoryMetrics :=
  m <| rate_limited_total ::= fetch_add 1 |>.
Definition record_auth_rejected (m : InMemoryMetrics) : InMemoryMetrics :=
  m <| auth_rejected_total ::= fetch_add 1 |>.
Definition record_telemetry_dropped (count : N) (m : InMemoryMetrics) : InMemoryMetrics :=
  m <| telemetry_dropped_total ::= fetch_add count |>.
Definition record_telemetry_write_failed (count : N) (m : InMemoryMetrics) : InMemoryMetrics :=
  m <| telemetry_write_failed_total ::= fetch_add count |>.

(** ** The snapshot for operators *)

(** The counters are loaded one by one; this is the snapshot when none changes in between. *)
Record MetricsSnapshot := mkMetricsSnapshot {
  snapshot_rooms_created_total : N;
  snapshot_websocket_joins_total : N;
  snapshot_player_reconnects_total : N;
  snapshot_sessions_started_total : N;
  snapshot_pause_requests_total : N;
  snapshot_resume_requests_total : N;
  snapshot_heartbeats_total : N;
  snapshot_protocol_errors_total : N;
  snapshot_v5_input_batches_total : N;
  snapshot_v5_input_frames_total : N;
  snapshot_v5_input_frames_accepted_total : N;
  snapshot_v5_input_frames_duplicate_total : N;
  snapshot_v5_input_nacks_total : N;
  snapshot_v5_host_frame_opens_total : N;
  snapshot_v5_host_frame_open_duplicates_total : N;
  snapshot_v5_frame_releases_total : N;
  snapshot_v5_scheduled_wake_retries_total : N;
  snapshot_input_event_lagged_total : N;
  snapshot_v5_input_rate_limited_total : N;
  snapshot_rate_limited_total : N;
  snapshot_auth_rejected_total : N;
  snapshot_telemetry_dropped_total : N;
  snapshot_telemetry_write_failed_total : N }.

Definition metrics_snapshot (m : InMemoryMetrics) : MetricsSnapshot :=
  mkMetricsSnapshot
    (rooms_created_total m) (websocket_joins_total m) (player_reconnects_total m) (sessions_started_total m)
    (pause_requests_total m) (resume_requests_total m) (heartbeats_total m) (protocol_errors_total m)
    (v5_input_batches_total m) (v5_input_frames_total m) (v5_input_frames_accepted_total m)
    (v5_input_frames_duplicate_total m) (v5_input_nacks_total m) (v5_host_frame_opens_total m)
    (v5_host_frame_open_duplicates_total m) (v5_frame_releases_total m) (v5_scheduled_wake_retries_total m)
    (input_event_lagged_total m) (v5_input_rate_limited_total m) (rate_limited_total m)
    (auth_rejected_total m) (telemetry_dropped_total m) (telemetry_write_failed_total m).
