(* ===== verification/FileRelay.v ===== *)
(** * The file relay: policy, transfer requests and grants

  Models [FileRelayPolicy] of [src/src/http/services.rs], the broker interface of
  [src/src/file_relay/broker.rs], the requests and responses of
  [src/src/file_relay/types.rs], and how the ROM and snapshot handlers of
  [src/src/transport/] fill in a request and turn the broker's answer into the two private
  grants. The broker is a record of its operations: the HTTP client behind it is not
  modelled, so that [create_transfer] is whatever the remote service answers to its [n]-th
  request. *)

From S2P Require Import Prelude Ids Text Descriptor Protocol Slots SnapshotTransfer RoomTransactions StartSync.
Open Scope N_scope.

(** ** file_relay/types.rs *)

Inductive FileRelayTransferKind := RomTransfer | SaveStateTransfer.

#[export] Instance FileRelayTransferKind_eq_dec : EqDecision FileRelayTransferKind.
Proof. solve_decision. Defined.

Record CreateFileRelayTransferRequest := mkCreateFileRelayTransferRequest {
  ft_room_id : string;
  ft_sender_player_id : string;
  ft_receiver_player_id : string;
  ft_kind : FileRelayTransferKind;
  ft_sha256 : string;
  ft_size_bytes : N;
  ft_expires_in_seconds : option N;
  ft_room_epoch : option N;
  ft_session_epoch : option N;
  ft_system : option string;
  ft_core_id : option string;
  ft_content_hash : option string;
  ft_file_name : option string;
  ft_extension : option string;
  ft_display_name : option string;
  ft_single_use : bool }.

Record CreateFileRelayTransferResponse := mkCreateFileRelayTransferResponse {
  fr_transfer_id : string;
  fr_chunk_size_bytes : N;
  fr_chunk_count : N;
  fr_upload_token : string;
  fr_download_token : string;
  fr_expires_at : string }.

(** ** file_relay/broker.rs *)

Inductive FileRelayBrokerError :=
| BrokerDisabled
| BrokerInvalidUrl
| BrokerRequestFailed
| BrokerRequestTimedOut
| BrokerUnexpectedStatus (code : N)
| BrokerInvalidResponse.

Record FileRelayBroker := mkFileRelayBroker {
  file_relay_enabled : bool;
  public_base_url : option string;
  create_transfer : nat → CreateFileRelayTransferRequest →
    result FileRelayBrokerError CreateFileRelayTransferResponse }.

Definition DisabledFileRelayBroker : FileRelayBroker :=
  mkFileRelayBroker false None (λ _ _, Err BrokerDisabled).

(** ** FileRelayPolicy of http/services.rs *)

#[export] Instance NetplayRoomMode_eq_dec : EqDecision NetplayRoomMode.
Proof. solve_decision. Defined.

Record FileRelayPolicy := mkFileRelayPolicy {
  temporary_roms_enabled : bool;
  direct_roms_enabled : bool;
  temporary_rom_max_bytes : N;
  direct_rom_allowed_systems : list string;
  save_states_enabled : bool }.

Definition can_relay_temporary_roms (p : FileRelayPolicy) (broker : FileRelayBroker) : bool :=
  temporary_roms_enabled p && file_relay_enabled broker.
Definition can_relay_save_states (p : FileRelayPolicy) (broker : FileRelayBroker) : bool :=
  save_states_enabled p && file_relay_enabled broker.
Definition can_relay_direct_roms (p : FileRelayPolicy) (broker : FileRelayBroker) : bool :=
  direct_roms_enabled p && file_relay_enabled broker.

(** The chain of conditions that sets [reason]. *)
Definition capability_reason (p : FileRelayPolicy) (broker : FileRelayBroker)
    (identity : option RomIdentity) : option RomRelayCapabilityReason :=
  if negb (direct_roms_enabled p) then Some CapDisabled
  else if negb (file_relay_enabled broker) then Some CapBrokerUnavailable
  else match identity with
       | None => Some CapMissingIdentity
       | Some identity =>
           if temporary_rom_max_bytes p <? rom_size_bytes_ identity then Some CapTooLarge
           else if negb (existsb (λ system, system ==? rom_system identity) (direct_rom_allowed_systems p))
           then Some CapUnsupportedSystem
           else None
       end.

Definition direct_rom_relay_capability (p : FileRelayPolicy) (broker : FileRelayBroker)
    (s : NetplaySessionDescriptor) : option RomRelayCapability :=
  if (room_mode s !=? DirectInvite) || (host_client_kind s !=? Some AndroidClient)
     || (rom_relay_intent s !=? MissingPeerOnly)
  then None
  else
    let reason := capability_reason p broker (rom_identity s) in
    Some (mkRomRelayCapability true (is_none reason) true (temporary_rom_max_bytes p)
            (direct_rom_allowed_systems p) reason).

(** ** websocket_rom_relay_handler.rs *)

Definition ROM_FILE_RELAY_TTL_SECONDS : N := 600.

Definition player_id (p : PlayerIndex) : string := ("player-" ++ decimal (display_number p))%string.

(** [uuid_string] is the [Display] of the [uuid] crate. *)
Definition create_rom_relay_request (uuid_string : RoomId → string) (intent : RomRelayTransferIntent)
    : CreateFileRelayTransferRequest :=
  let rom := rintent_rom intent in
  let content_hash := normalized_hash rom in
  mkCreateFileRelayTransferRequest (uuid_string (rintent_room_id intent))
    (player_id (rintent_sender_player_index intent)) (player_id (rintent_receiver_player_index intent))
    RomTransfer content_hash (rom_size_bytes_ rom) (Some ROM_FILE_RELAY_TTL_SECONDS)
    (Some (rintent_room_epoch intent)) (Some (rintent_session_epoch intent))
    (Some (rom_system rom)) (Some (rom_core_id rom)) (Some content_hash)
    (rom_file_name rom) (rom_extension rom) (Some (rom_display_name rom)) true.

Definition rom_relay_grants (response : CreateFileRelayTransferResponse) (relay_url : string)
    (intent : RomRelayTransferIntent) : RomRelayGrantPair :=
  let grant token role :=
    mkRomRelayGrant (fr_transfer_id response) relay_url token role (rintent_rom intent)
      (zero_based (rintent_sender_player_index intent)) (zero_based (rintent_receiver_player_index intent))
      (fr_chunk_size_bytes response) (fr_chunk_count response) (fr_expires_at response) in
  mkRomRelayGrantPair (grant (fr_upload_token response) Upload) (grant (fr_download_token response) Download).

(** ** websocket_snapshot_file_relay_handler.rs *)

Definition SNAPSHOT_FILE_RELAY_TTL_SECONDS : N := 180.

Definition create_snapshot_file_relay_request (uuid_string : RoomId → string)
    (intent : SnapshotFileRelayTransferIntent) (manifest : SnapshotManifest)
    : CreateFileRelayTransferRequest :=
  mkCreateFileRelayTransferRequest (uuid_string (intent_room_id intent))
    (player_id (intent_sender_player_index intent)) (player_id (intent_receiver_player_index intent))
    SaveStateTransfer (manifest_sha256 manifest) (manifest_total_bytes manifest)
    (Some SNAPSHOT_FILE_RELAY_TTL_SECONDS) None None None None None None None None true.

Definition snapshot_file_relay_grants (response : CreateFileRelayTransferResponse) (relay_url : string)
    (manifest : SnapshotManifest) : SnapshotFileRelayGrantPair :=
  let grant token role :=
    mkSnapshotFileRelayGrant (fr_transfer_id response) relay_url token role (fr_chunk_size_bytes response)
      (fr_chunk_count response) (fr_expires_at response) manifest in
  mkSnapshotFileRelayGrantPair (grant (fr_upload_token response) SnapshotUpload)
    (grant (fr_download_token response) SnapshotDownload).
