(* ===== verification/Messages.v ===== *)
(** * Messages of the control socket

  Models [src/src/protocol/client_message.rs], [src/src/protocol/server_message.rs], the
  clock ping and pong of [src/src/protocol/clock_sync.rs], the mapping of room errors in
  [src/src/transport/websocket_outbound.rs], and which message a room event becomes for
  one connection ([handle_room_event] of [src/src/transport/websocket_session.rs]). JSON is
  serde's: a message is the value that serde encodes. *)

From Stdlib Require Import Strings.Byte.
From S2P Require Import Prelude Ids Wire Text Compatibility Descriptor Protocol Invite Slots.
From S2P Require Import PauseState SnapshotTransfer LinkState RoomTransactions Room StartSync.
From S2P Require Import HostFrame RoomEvents.
Open Scope N_scope.

(** ** clock_sync.rs, scheduled_start.rs and rom_relay.rs *)

Record ClockSyncPing := mkClockSyncPing {
  ping_sample_id : string;
  ping_client_send_time_ms : N }.

Record ClockSyncPong := mkClockSyncPong {
  pong_sample_id : string;
  pong_client_send_time_ms : N;
  pong_server_receive_time_ms : N;
  pong_server_send_time_ms : N }.

Record ClockSyncEstimate := mkClockSyncEstimate {
  estimate_sample_id : string;
  estimate_round_trip_ms : N;
  estimate_server_time_offset_ms : Z;
  estimate_uncertainty_ms : N }.

Record DeterministicReadyReport := mkDeterministicReadyReport {
  ready_local_ready_time_ms : N;
  ready_warmup_frame_count : N;
  ready_loaded_state_frame : option N;
  ready_clock : option ClockSyncEstimate }.

Record RomRelayBlocked := mkRomRelayBlocked { blocked_reason : RomRelayBlockReason }.

(** ** client_message.rs *)

Module Client.
Inductive ClientMessage :=
| Ping
| ClockSyncPing (ping : Messages.ClockSyncPing)
| ClockSyncSample (room_epoch session_epoch : N) (sample : Protocol.ClockSyncSample)
| SetCompatibilityFingerprint (room_epoch session_epoch : N) (fingerprint : CompatibilityFingerprint)
| SetLinkCableCompatibility (room_epoch session_epoch : N) (compatibility : LinkCableCompatibility)
| Ready (room_epoch session_epoch : N) (network : option ClientNetworkQualityReport)
| DeterministicReady (room_epoch session_epoch : N) (report : DeterministicReadyReport)
    (network : option ClientNetworkQualityReport)
| SnapshotChunk (room_epoch session_epoch : N) (chunk : Protocol.SnapshotChunk)
| SnapshotComplete (room_epoch session_epoch : N) (manifest : SnapshotManifest)
| SnapshotFileRelayRequested (room_epoch session_epoch : N) (manifest : SnapshotManifest)
| SnapshotFileRelayUploadComplete (room_epoch session_epoch : N) (transfer_id : string)
    (manifest : SnapshotManifest)
| RomRelayRequest (room_epoch session_epoch : N)
| RomRelayProgress (room_epoch session_epoch : N) (progress : Protocol.RomRelayProgress)
| RomRelayCompleted (room_epoch session_epoch : N) (completion : RomRelayCompletion)
| RomRelayFailed (room_epoch session_epoch : N) (failure : RomRelayFailure)
| RomRelayCancelled (room_epoch session_epoch : N) (cancelled : Protocol.RomRelayCancelled)
| InputFrame (room_epoch session_epoch : N) (input : Protocol.InputFrame)
| LinkCablePacket (room_epoch session_epoch : N) (packet : Protocol.LinkCablePacket)
| Heartbeat (room_epoch session_epoch latest_event_seq : N) (local_frame : option N)
    (runtime_state : ClientRuntimeState) (network : option ClientNetworkQualityReport)
| RequestSessionPause (room_epoch session_epoch : N) (request_id : string)
    (reason : SessionPauseReason) (local_frame : N)
| SessionPauseReached (room_epoch session_epoch sequence paused_at_frame : N)
| RequestSessionResume (room_epoch session_epoch : N) (request_id : string) (sequence : N)
    (reason : SessionPauseReason)
| PlayerExited (room_epoch session_epoch : N) (reason : string)
| RefreshVoiceToken (room_epoch session_epoch : N)
| StateHash (room_epoch session_epoch : N) (report : StateHashReport)
| StateRecoveryPinned (room_epoch session_epoch : N) (pin : StateRecoveryPin).
End Client.

(** ** server_message.rs *)

Module Server.
Inductive ServerMessage :=
| RoomJoined (event_seq room_epoch session_epoch your_player_index : N)
    (resume_token input_socket_token : string) (voice : option PlayerVoiceJoinGrant) (room : RoomView)
| RoomStateChanged (event_seq room_epoch session_epoch : N) (room : RoomView)
| Pong
| ClockSyncSampleRequested (room_epoch session_epoch : N) (request : ClockSyncSampleRequest)
| ClockSyncPong (pong : Messages.ClockSyncPong)
| StartSession (event_seq room_epoch session_epoch start_frame : N)
    (scheduled_start : option ScheduledSessionStart) (room : RoomView)
| InputFrame (room_epoch session_epoch : N) (input : Protocol.InputFrame)
| LinkCablePacket (packet : Protocol.LinkCablePacket)
| SnapshotChunk (room_epoch session_epoch : N) (chunk : Protocol.SnapshotChunk)
| SnapshotComplete (room_epoch session_epoch : N) (manifest : SnapshotManifest)
| SnapshotFileRelayUploadGranted (room_epoch session_epoch : N) (grant : SnapshotFileRelayGrant)
| SnapshotFileRelayDownloadReady (room_epoch session_epoch : N) (grant : SnapshotFileRelayGrant)
| RomRelayGrantUpload (room_epoch session_epoch : N) (grant : RomRelayGrant)
| RomRelayGrantDownload (room_epoch session_epoch : N) (grant : RomRelayGrant)
| RomRelayProgress (room_epoch session_epoch : N) (progress : Protocol.RomRelayProgress)
| RomRelayCompleted (room_epoch session_epoch : N) (completion : RomRelayCompletion)
| RomRelayFailed (room_epoch session_epoch : N) (failure : RomRelayFailure)
| RomRelayBlocked (room_epoch session_epoch : N) (blocked : Messages.RomRelayBlocked)
| RomRelayCancelled (room_epoch session_epoch : N) (cancelled : Protocol.RomRelayCancelled)
| SessionPauseScheduled (event_seq room_epoch session_epoch : N) (pause : SessionPauseView)
    (room : RoomView)
| SessionPauseUpdated (event_seq room_epoch session_epoch : N) (pause : SessionPauseView)
    (room : RoomView)
| SessionResumeScheduled (event_seq room_epoch session_epoch sequence resume_at_frame : N)
    (scheduled_start : option ScheduledSessionStart) (room : RoomView)
| CompatibilityRequested (event_seq room_epoch session_epoch : N) (room : RoomView)
| RecoveryStarted (event_seq room_epoch session_epoch : N) (room : RoomView)
| PlayerReconnected (event_seq room_epoch session_epoch player_index : N) (room : RoomView)
| PlayerExited (event_seq room_epoch session_epoch player_index : N) (reason : string)
    (room : RoomView)
| VoiceTokenRefreshed (event_seq room_epoch session_epoch : N) (voice : PlayerVoiceJoinGrant)
| RecoveryResyncRequired (event_seq room_epoch session_epoch : N) (room : RoomView)
| StateHashMismatch (event_seq room_epoch session_epoch : N) (mismatch : StateHashMismatchView)
    (room : RoomView)
| StateRecoveryPrepare (event_seq room_epoch session_epoch : N) (recovery : StateRecoveryView)
    (room : RoomView)
| StateRecoveryCommitted (event_seq room_epoch session_epoch : N) (recovery : StateRecoveryView)
    (room : RoomView)
| StateRecoveryFailed (event_seq room_epoch session_epoch : N) (recovery : StateRecoveryView)
    (reason : string) (room : RoomView)
| InputDelayChanged (event_seq room_epoch session_epoch : N) (change : InputDelayChange)
    (room : RoomView)
| HeartbeatAck (event_seq room_epoch session_epoch : N)
| Error (code message : string).
End Server.

(** ** websocket_outbound.rs *)

Definition static_error (code message : string) : Server.ServerMessage := Server.Error code message.

Definition room_error_message (error : RoomError) : Server.ServerMessage :=
  match error with
  | NotFound => static_error "roomNotFound" "Room was not found."
  | RoomFull => static_error "roomFull" "Room is full."
  | RoomClosed => static_error "roomClosed" "Room is closed."
  | HostSubjectMismatch => static_error "hostMismatch" "This install is not the room host."
  | InvalidInviteCode => static_error "invalidInviteCode" "Invite code is invalid."
  | RoomNotReady => static_error "roomNotReady" "Room is not ready for this operation."
  | HostOnly => static_error "hostOnly" "Only the host can perform this operation."
  | SnapshotInvalid => static_error "snapshotInvalid" "Snapshot payload is invalid."
  | SnapshotFileRelayUnavailable =>
      static_error "snapshotFileRelayUnavailable" "Snapshot file relay is unavailable for this room."
  | LinkPacketInvalid => static_error "linkPacketInvalid" "Link-cable packet is invalid."
  | InvalidPayload => static_error "invalidPayload" "Payload is invalid."
  | OutOfOrderLinkPacket => static_error "outOfOrderLinkPacket" "Link-cable packet is out of order."
  | SlotSpoofing _ => static_error "slotSpoofing" "Input was sent for the wrong player slot."
  | OutOfOrderFrame => static_error "outOfOrderFrame" "Input frame is out of order."
  | FutureFrameTooLarge => static_error "futureFrameTooLarge" "Input frame is too far ahead."
  | NotPlaying => static_error "notPlaying" "Room is not playing."
  | UnknownConnection => static_error "unknownConnection" "Connection is not assigned to this room."
  | CompatibilityMismatch => static_error "compatibilityMismatch" "Netplay compatibility does not match."
  | StaleRoomEpoch => static_error "staleRoomEpoch" "Room state changed; refresh and retry."
  | StaleSessionEpoch => static_error "staleSessionEpoch" "Netplay session changed; refresh and retry."
  | ResumeTokenInvalid => static_error "resumeTokenInvalid" "Reconnect token is invalid."
  | RecoveryExpired => static_error "recoveryExpired" "Reconnect recovery window expired."
  | VoiceUnavailable => static_error "voiceUnavailable" "Voice chat is unavailable."
  end.

(** ** websocket_session.rs: events for one connection *)

Definition room_state_message (room : RoomView) : Server.ServerMessage :=
  match rv_status room with
  | CheckingCompatibility =>
      Server.CompatibilityRequested (rv_event_seq room) (rv_room_epoch room) (rv_session_epoch room) room
  | Recovering =>
      Server.RecoveryStarted (rv_event_seq room) (rv_room_epoch room) (rv_session_epoch room) room
  | _ => Server.RoomStateChanged (rv_event_seq room) (rv_room_epoch room) (rv_session_epoch room) room
  end.

(** The [match] of [handle_room_event] on a received event: [None] where it returns
    without sending. *)
Definition room_event_message (connection_id : ConnectionId) (event : RoomEvent)
    : option Server.ServerMessage :=
  let stamped {A} (m : N → N → N → A) (room : RoomView) : A :=
    m (rv_event_seq room) (rv_room_epoch room) (rv_session_epoch room) in
  let others (source : ConnectionId) m := if source ==? connection_id then None else Some m in
  let private (addressee : ConnectionId) m := if addressee !=? connection_id then None else Some m in
  match event with
  | RoomStateChanged room => Some (room_state_message room)
  | SessionStarted start_frame start room => Some (stamped Server.StartSession room start_frame start room)
  | ClockSyncSampleRequested request room_epoch session_epoch =>
      Some (Server.ClockSyncSampleRequested room_epoch session_epoch request)
  | SessionPauseScheduled pause room => Some (stamped Server.SessionPauseScheduled room pause room)
  | SessionPauseUpdated pause room => Some (stamped Server.SessionPauseUpdated room pause room)
  | SessionResumeScheduled sequence resume_at_frame start room =>
      Some (stamped Server.SessionResumeScheduled room sequence resume_at_frame start room)
  | EventPlayerExited player_index reason room =>
      Some (stamped Server.PlayerExited room player_index reason room)
  | StateHashMismatch mismatch room => Some (stamped Server.StateHashMismatch room mismatch room)
  | StateRecoveryPrepare recovery room => Some (stamped Server.StateRecoveryPrepare room recovery room)
  | StateRecoveryCommitted recovery room => Some (stamped Server.StateRecoveryCommitted room recovery room)
  | StateRecoveryFailed recovery reason room =>
      Some (stamped Server.StateRecoveryFailed room recovery reason room)
  | InputDelayChanged change room => Some (stamped Server.InputDelayChanged room change room)
  | EventInputFrame _ _ => None
  | EventLinkCablePacket source packet => others source (Server.LinkCablePacket packet)
  | EventSnapshotChunk source room_epoch session_epoch chunk =>
      others source (Server.SnapshotChunk room_epoch session_epoch chunk)
  | EventSnapshotComplete source room_epoch session_epoch manifest =>
      others source (Server.SnapshotComplete room_epoch session_epoch manifest)
  | SnapshotFileRelayUploadGranted source room_epoch session_epoch grant =>
      private source (Server.SnapshotFileRelayUploadGranted room_epoch session_epoch grant)
  | SnapshotFileRelayDownloadReady receiver room_epoch session_epoch grant =>
      private receiver (Server.SnapshotFileRelayDownloadReady room_epoch session_epoch grant)
  | RomRelayUploadGranted source room_epoch session_epoch grant =>
      private source (Server.RomRelayGrantUpload room_epoch session_epoch grant)
  | RomRelayDownloadGranted receiver room_epoch session_epoch grant =>
      private receiver (Server.RomRelayGrantDownload room_epoch session_epoch grant)
  | EventRomRelayProgress source room_epoch session_epoch progress =>
      others source (Server.RomRelayProgress room_epoch session_epoch progress)
  | EventRomRelayCompleted source room_epoch session_epoch completion =>
      others source (Server.RomRelayCompleted room_epoch session_epoch completion)
  | EventRomRelayFailed source room_epoch session_epoch failure =>
      others source (Server.RomRelayFailed room_epoch session_epoch failure)
  | EventRomRelayCancelled source room_epoch session_epoch cancelled =>
      others source (Server.RomRelayCancelled room_epoch session_epoch cancelled)
  end.
