(* ===== verification/Socket.v ===== *)
(** * Socket tasks

  The WebSocket handlers of [src/src/transport/] are asynchronous tasks: between two accesses
  to shared state, other tasks run. A handler is a computation over a [World]: the shared
  state [S] (a registry), the frames [F] written to the peer, and the counters of the
  metrics. An [Env] says what surrounds it:

  - [others n] is what the other tasks did to the shared state before the [n]-th access of
    this one. An access itself is atomic, because the registries hold their lock for it;
  - [wall_at], [now_at] and [now'_at] are the clock readings of the [n]-th access, and
    [token_at n], [token'_at n] and [uuid_at n] the tokens and the UUID drawn for it;
  - [delivers n] says whether the [n]-th write to the socket succeeds.

  A handler stops when a write fails ([axum::Error]) or when it panics. Models the send
  helpers of [src/src/transport/websocket_outbound.rs] and the sanitised close reasons of
  [src/src/transport/websocket_peer_close.rs]. *)

From Stdlib Require Import Strings.Byte.
From S2P Require Import Prelude Ids Wire StartSync RoomEvents Metrics.
Open Scope N_scope.

Record Env (S : Type) := mkEnv {
  others : nat → S → S;
  wall_at : nat → N;
  now_at : nat → Instant;
  now'_at : nat → Instant;
  token_at : nat → string;
  token'_at : nat → string;
  uuid_at : nat → N;
  delivers : nat → bool }.
Arguments others {S}. Arguments wall_at {S}. Arguments now_at {S}. Arguments now'_at {S}.
Arguments token_at {S}. Arguments token'_at {S}. Arguments uuid_at {S}.
Arguments delivers {S}.

Record World (S F : Type) := mkWorld {
  shared : S;
  tick : nat;
  writes : nat;
  sent : list F;
  metrics : InMemoryMetrics }.
Arguments mkWorld {S F}. Arguments shared {S F}. Arguments tick {S F}. Arguments writes {S F}.
Arguments sent {S F}. Arguments metrics {S F}.

Inductive Stop := SendFailed | TaskPanicked.

#[export] Instance Stop_eq_dec : EqDecision Stop.
Proof. solve_decision. Defined.

Definition SocketM (S F A : Type) : Type := M (World S F) Stop A.

(** ** Incoming WebSocket messages *)

Record CloseFrame := mkCloseFrame { close_code : N; close_reason : string }.

Inductive Incoming :=
| InText (payload : bytes)
| InBinary (payload : bytes)
| InPing
| InPong
| InClose (frame : option CloseFrame).

(** [receiver.next()]: [None] at the end of the stream, an error by its text. *)
Definition Received : Type := option (result string Incoming).

(** [RecvError] of a broadcast channel. *)
Inductive RecvError := Lagged (missed : N) | ChannelClosed.

(** ** websocket_peer_close.rs *)

(** The code repeats [sanitize_reason] of room_connection_diagnostics.rs. *)
Definition peer_close_detail (frame : option CloseFrame) : string :=
  match frame with
  | Some frame => ("peer close frame code=" ++ decimal (close_code frame) ++ " reason="
                   ++ sanitize_reason (close_reason frame))%string
  | None => "peer stream ended without close frame"
  end.

Definition peer_error_detail (error : string) : string :=
  ("socket receive error " ++ sanitize_reason error)%string.

Section tasks.
Context {S F : Type} (env : Env S).

(** One atomic access to the shared state; [n] is its number. *)
Definition access {A} (op : nat → S → A * S) : SocketM S F A := λ w,
  let n := tick w in
  let '(a, s) := op n (others env n (shared w)) in
  (Ok a, mkWorld s (Datatypes.S n) (writes w) (sent w) (metrics w)).

(** An access that only reads. *)
Definition consult {A} (f : nat → S → A) : SocketM S F A := access (λ n s, (f n s, s)).

(** [sender.send(message).await]. *)
Definition send (frame : F) : SocketM S F unit := λ w,
  if delivers env (writes w)
  then (Ok tt, mkWorld (shared w) (tick w) (Datatypes.S (writes w)) (sent w ++ [frame]) (metrics w))
  else (Err SendFailed, mkWorld (shared w) (tick w) (Datatypes.S (writes w)) (sent w) (metrics w)).

Definition count (f : InMemoryMetrics → InMemoryMetrics) : SocketM S F unit := λ w,
  (Ok tt, mkWorld (shared w) (tick w) (writes w) (sent w) (f (metrics w))).

(** [.await.is_ok()], and [let _ = ..await] where the result is dropped: a panic passes. *)
Definition succeeded (m : SocketM S F unit) : SocketM S F bool := λ w,
  match m w with
  | (Ok _, w) => (Ok true, w)
  | (Err SendFailed, w) => (Ok false, w)
  | (Err TaskPanicked, w) => (Err TaskPanicked, w)
  end.

(** ** Invariants of the shared state *)

Context (I : S → Prop) (Hothers : ∀ n s, I s → I (others env n s)).

Definition holds (w : World S F) : Prop := I (shared w).

Lemma access_holds {A} (op : nat → S → A * S) :
  (∀ n s, I s → I (op n s).2) → keeps holds (access op).
Proof.
  intros Hop w Hw. unfold access, holds. specialize (Hop (tick w) _ (Hothers (tick w) _ Hw)).
  by destruct (op _ _).
Qed.

Lemma consult_holds {A} (f : nat → S → A) : keeps holds (consult f).
Proof. apply access_holds. by intros n s. Qed.

Lemma send_holds frame : keeps holds (send frame).
Proof. intros w Hw. unfold send. by destruct (delivers env _). Qed.

Lemma count_holds f : keeps holds (count f).
Proof. by intros w. Qed.

Lemma succeeded_holds m : keeps holds m → keeps holds (succeeded m).
Proof. intros Hm w Hw. specialize (Hm w Hw). unfold succeeded. by destruct (m w) as [[[]|[]] w']. Qed.
End tasks.

(** ** Tasks that differ only in what they write *)

(** Two tasks that see and leave the same shared state, whatever they write to the peer. *)
Definition similar {S F} (w w' : World S F) : Prop := shared w = shared w' ∧ tick w = tick w'.

Definition in_step {S F A} (m m' : SocketM S F A) : Prop := ∀ w w',
  similar w w' → (m w).1 = (m' w').1 ∧ similar (m w).2 (m' w').2.

Section in_step.
Context {S F : Type} (env : Env S) (Hdelivers : ∀ n, delivers env n = true).

Lemma in_step_bind {A B} (m m' : SocketM S F A) (k k' : A → SocketM S F B) :
  in_step m m' → (∀ a, in_step (k a) (k' a)) → in_step (m ≫= k) (m' ≫= k').
Proof.
  intros Hm Hk w w' Hw. specialize (Hm w w' Hw). unfold mbind, M_bind.
  destruct (m w) as [[a|e] w1], (m' w') as [[a'|e'] w1']; destruct Hm as [Hm Hw1]; cbn in *; simplify_eq;
    [by apply Hk|done].
Qed.

Lemma in_step_ret {A} (a : A) : in_step (mret (M := SocketM S F) a) (mret a).
Proof. done. Qed.
Lemma in_step_throw {A} e : in_step (throw (S := World S F) (A := A) e) (throw e).
Proof. done. Qed.
Lemma in_step_tick : in_step (gets (E := Stop) (tick (S := S) (F := F))) (gets tick).
Proof. intros w w' [? Ht]. unfold gets. cbn. by rewrite Ht. Qed.
Lemma in_step_access {A} (op : nat → S → A * S) : in_step (F := F) (access env op) (access env op).
Proof. intros w w' [Hs Ht]. unfold access. rewrite Hs, Ht. by destruct (op _ _). Qed.
Lemma in_step_send (frame frame' : F) : in_step (send env frame) (send env frame').
Proof. intros w w' [Hs Ht]. unfold send. by rewrite !Hdelivers. Qed.
Lemma in_step_count f : in_step (count (S := S) (F := F) f) (count f).
Proof. intros w w' [Hs Ht]. done. Qed.
End in_step.

(** One rule of the combinators, with every write delivered. *)
Ltac in_step_rule := lazymatch goal with
  | |- in_step (mbind _ _) _ => apply in_step_bind; [|intros ?]
  | |- in_step (mret _) _ => apply in_step_ret
  | |- in_step (throw _) _ => apply in_step_throw
  | |- in_step (gets tick) _ => apply in_step_tick
  | |- in_step (access _ _) _ => apply in_step_access
  | |- in_step (send _ _) _ => by apply in_step_send
  | |- in_step (count _) _ => apply in_step_count
  | |- in_step (match ?x with _ => _ end) _ => destruct x
  end.

#[export] Hint Resolve consult_holds send_holds count_holds succeeded_holds : relay.
