(* ===== verification/ControlSocket.v ===== *)
(** * The control socket

  Models [src/src/transport/websocket_message_handler.rs], [websocket_session.rs],
  [websocket_rom_relay_handler.rs], [websocket_snapshot_file_relay_handler.rs],
  [websocket_voice_handler.rs], [websocket_join.rs] and the request path of
  [refresh_voice_token_impl] in [src/src/rooms/room_registry_voice_ops.rs]: what the relay
  does with each message of a client and with each event of its room, from the upgrade of
  the socket to the detachment of the connection. *)

From Stdlib Require Import Strings.Byte.
From S2P Require Import Prelude Ids Wire StrictInput Text Compatibility Descriptor Protocol Invite Slots.
From S2P Require Import PauseState SnapshotTransfer LinkState RoomTransactions Room StartSync LinkOps.
From S2P Require Import HostFrame RoomEvents StoredRoom Registry RegistryRelay.
From S2P Require Import Metrics FileRelay Messages Socket.
Open Scope N_scope.

Definition MAX_WEBSOCKET_MESSAGE_BYTES : N := 2 * 1024 * 1024.

(** [IssueVoiceTokenBrokerRequest] of voice/types.rs. *)
Record IssueVoiceTokenBrokerRequest := mkIssueVoiceTokenBrokerRequest {
  issue_player_index : N;
  issue_participant_identity : string;
  issue_display_name : option string }.

(** What [AppServices] holds besides the registry and the metrics: the policy and the brokers,
    the [Display] of a UUID, and serde's decoder of client messages. [issue_token n] is the
    voice broker's answer to its [n]-th request, [None] for an error. *)
Record Services := mkServices {
  service_deps : RegistryDeps;
  file_relay : FileRelayBroker;
  file_relay_policy : FileRelayPolicy;
  issue_token : nat → string → IssueVoiceTokenBrokerRequest → option VoiceBrokerGrant;
  uuid_string : RoomId → string;
  from_json : bytes → option Client.ClientMessage }.

Definition ControlM : Type → Type := SocketM Registry Server.ServerMessage.

(** ** websocket_join.rs *)

Inductive WebSocketJoinRole := JoinAsHost | JoinAsGuest.

Inductive WebSocketRoomJoinIntent :=
| InitialJoin (role : WebSocketJoinRole) (license : VerifiedLicense) (runner_handoff : bool)
| ResumeJoin (player_index : PlayerIndex) (room_epoch : N) (resume_token : string).

Record WebSocketJoinRequest := mkWebSocketJoinRequest {
  join_invite_code : InviteCode;
  join_intent : WebSocketRoomJoinIntent;
  join_supports_state_file_relay : bool;
  join_supports_rom_file_relay : bool;
  join_supports_scheduled_start : bool;
  join_supports_clock_sync : bool;
  join_supports_fast_input_relay : bool }.

Section registry_calls.
Context {F : Type} (services : Services) (env : Env Registry).

(** A method of the room registry, with the clock readings of the access. *)
Definition call_room {E A} (missing : E) (code : InviteCode) (body : N → Instant → M Cell E A)
    : SocketM Registry F (result E A) :=
  access env (λ n, with_room missing code (body (wall_at env n) (now_at env n))).

(** A method with an [expect]: its panic is the task's. *)
Definition call_room_expect {E A} (missing : E) (code : InviteCode)
    (body : nat → M Cell (fault E) A) : SocketM Registry F (result E A) :=
  o ← access env (λ n, with_room (Wire.Error missing) code (body n));
  match o with
  | Ok a => mret (Ok a)
  | Err (Wire.Error e) => mret (Err e)
  | Err Panic => throw TaskPanicked
  end.

(** [rooms.server_time_ms()]. *)
Definition server_time_ms : SocketM Registry F N :=
  consult env (λ n _, server_time_ms_at (service_deps services) (now_at env n)).

(** [rooms.disconnect(..)]. *)
Definition call_disconnect (code : InviteCode) (c : ConnectionId)
    : SocketM Registry F (result RoomError RoomView) :=
  access env (λ n, disconnect (service_deps services) (wall_at env n) (now_at env n) code c).

(** [let _ = rooms.record_transport_close(..)]. *)
Definition record_transport_close (socket_kind : string) (code : InviteCode) (c : ConnectionId)
    (reason : string) : SocketM Registry F unit :=
  _ ← call_room NotFound code (λ wall now, record_transport_close_body wall now c socket_kind reason);
  mret tt.
End registry_calls.

Section control.
Context (services : Services) (env : Env Registry).
Let deps := service_deps services.

(** ** websocket_outbound.rs *)

Definition send_server_message (message : Server.ServerMessage) : ControlM unit := send env message.
Definition send_static_error (code message : string) : ControlM unit :=
  send_server_message (static_error code message).
Definition send_room_error (error : RoomError) : ControlM unit :=
  send_server_message (room_error_message error).

(** Both results of [send_upgrade_error] are dropped. *)
Definition send_upgrade_error (error : RoomError) : ControlM unit :=
  _ ← succeeded (send_room_error error); mret tt.

(** ** websocket_message_handler.rs *)

Definition apply_room_result {A} (result : result RoomError A) : ControlM unit :=
  match result with
  | Ok _ => mret tt
  | Err error => send_room_error error
  end.

(** The tests of [validate_epochs] on the view of the room. *)
Definition epochs_match (room_epoch session_epoch : N) (room : RoomView) : result RoomError unit :=
  if rv_room_epoch room !=? room_epoch then Err StaleRoomEpoch
  else if rv_session_epoch room !=? session_epoch then Err StaleSessionEpoch
  else Ok tt.

Definition validate_epochs (code : InviteCode) (room_epoch session_epoch : N)
    : ControlM (result RoomError unit) :=
  room ← consult env (λ n, room_view (now_at env n) code);
  mret (room ≫= epochs_match room_epoch session_epoch).

(** ** websocket_rom_relay_handler.rs *)

Definition handle_rom_relay_request (code : InviteCode) (c : ConnectionId)
    : ControlM (result RomRelayBlockReason unit) :=
  if negb (direct_roms_enabled (file_relay_policy services)) then mret (Err BlockDisabled)
  else if negb (file_relay_enabled (file_relay services)) then mret (Err BlockBrokerUnavailable)
  else match public_base_url (file_relay services) with
       | None => mret (Err BlockBrokerUnavailable)
       | Some relay_url =>
           intent ← consult env (λ _, prepare_rom_relay code c);
           match intent with
           | Err reason => mret (Err reason)
           | Ok intent =>
               n ← gets tick;
               match create_transfer (file_relay services) n
                       (create_rom_relay_request (uuid_string services) intent) with
               | Err _ => mret (Err BlockBrokerUnavailable)
               | Ok response =>
                   call_room_expect env BlockMissingIdentity code
                     (λ n, grant_rom_relay_upload (wall_at env n) (now_at env n) c
                             (rom_relay_grants response relay_url intent))
               end
           end
       end.

(** ** websocket_snapshot_file_relay_handler.rs *)

Definition handle_snapshot_file_relay_request (code : InviteCode) (c : ConnectionId)
    (manifest : SnapshotManifest) : ControlM (result RoomError unit) :=
  if negb (can_relay_save_states (file_relay_policy services) (file_relay services))
  then mret (Err SnapshotFileRelayUnavailable)
  else match public_base_url (file_relay services) with
       | None => mret (Err SnapshotFileRelayUnavailable)
       | Some relay_url =>
           intent ← consult env (λ _, prepare_snapshot_file_relay code c manifest);
           match intent with
           | Err error => mret (Err error)
           | Ok intent =>
               n ← gets tick;
               match create_transfer (file_relay services) n
                       (create_snapshot_file_relay_request (uuid_string services) intent manifest) with
               | Err _ => mret (Err SnapshotFileRelayUnavailable)
               | Ok response =>
                   call_room env NotFound code (λ wall now,
                     grant_snapshot_file_relay_upload wall now c manifest
                       (snapshot_file_relay_grants response relay_url manifest))
               end
           end
       end.

(** ** Voice tokens *)

(** [refresh_voice_token_impl]: the request under the read lock, the broker, the grant under
    the write lock. *)
Definition refresh_voice_token (code : InviteCode) (c : ConnectionId)
    : ControlM (result RoomError (PlayerVoiceJoinGrant * RoomView)) :=
  request ← consult env (λ _, refresh_voice_token_request deps code c);
  match request with
  | Err error => mret (Err error)
  | Ok request =>
      n ← gets tick;
      match issue_token services n (refresh_voice_room_id request)
              (mkIssueVoiceTokenBrokerRequest (display_number (refresh_player_index request))
                 (refresh_participant_identity request) (Some (refresh_display_name request))) with
      | None => mret (Err VoiceUnavailable)
      | Some grant => call_room env NotFound code (λ _ now, refresh_voice_token_body now c grant)
      end
  end.

(** websocket_voice_handler.rs. *)
Definition handle_refresh_voice_token (code : InviteCode) (c : ConnectionId) : ControlM unit :=
  refresh ← refresh_voice_token code c;
  match refresh with
  | Err error => send_room_error error
  | Ok (voice, room) =>
      send_server_message (Server.VoiceTokenRefreshed (rv_event_seq room) (rv_room_epoch room)
                             (rv_session_epoch room) voice)
  end.

(** [apply_room_result(sender, validate_epochs(..).await).await?]. *)
Definition check_epochs (code : InviteCode) (room_epoch session_epoch : N) : ControlM unit :=
  result ← validate_epochs code room_epoch session_epoch; apply_room_result result.

(** [if let Err(reason) = .. { return send(RomRelayBlocked ..) } Ok(())]. *)
Definition blocked_unless_ok (room_epoch session_epoch : N) (result : result RomRelayBlockReason unit)
    : ControlM unit :=
  match result with
  | Ok _ => mret tt
  | Err reason => send_server_message (Server.RomRelayBlocked room_epoch session_epoch (mkRomRelayBlocked reason))
  end.

(** [apply_room_result(sender, services.rooms.method(..).await).await]. *)
Definition apply_call {A} (code : InviteCode) (body : N → Instant → M Cell RoomError A) : ControlM unit :=
  result ← call_room env NotFound code body; apply_room_result result.

(** The arms of [handle_client_message], one definition each. *)

Definition on_clock_sync_ping (ping : Messages.ClockSyncPing) : ControlM unit :=
  server_receive_time_ms ← server_time_ms services env;
  server_send_time_ms ← server_time_ms services env;
  send_server_message (Server.ClockSyncPong
    (mkClockSyncPong (ping_sample_id ping) (ping_client_send_time_ms ping)
       server_receive_time_ms server_send_time_ms)).

Definition on_set_compatibility_fingerprint (code : InviteCode) (c : ConnectionId) (re se : N)
    (fingerprint : CompatibilityFingerprint) : ControlM unit :=
  check_epochs code re se ;;
  apply_call code (λ wall now, set_compatibility_op wall now c fingerprint).

Definition on_set_link_cable_compatibility (code : InviteCode) (c : ConnectionId) (re se : N)
    (compatibility : LinkCableCompatibility) : ControlM unit :=
  check_epochs code re se ;;
  apply_call code (λ wall now, set_link_cable_compatibility_op wall now c compatibility).

Definition on_ready (code : InviteCode) (c : ConnectionId) (re se : N)
    (network : option ClientNetworkQualityReport) : ControlM unit :=
  check_epochs code re se ;;
  apply_call code (λ wall now, mark_ready_op deps wall now c network).

Definition on_clock_sync_sample (code : InviteCode) (c : ConnectionId) (re se : N)
    (sample : Protocol.ClockSyncSample) : ControlM unit :=
  check_epochs code re se ;;
  apply_call code (λ wall now, record_clock_sync_sample deps wall now c sample).

Definition on_deterministic_ready (code : InviteCode) (c : ConnectionId) (re se : N)
    (report : DeterministicReadyReport) (network : option ClientNetworkQualityReport) : ControlM unit :=
  check_epochs code re se ;;
  apply_call code (λ wall now, mark_deterministic_ready_op deps wall now c network).

Definition on_snapshot_chunk (code : InviteCode) (c : ConnectionId) (re se : N)
    (chunk : Protocol.SnapshotChunk) : ControlM unit :=
  check_epochs code re se ;;
  apply_call code (λ wall now, relay_snapshot_chunk deps wall now c chunk).

Definition on_snapshot_complete (code : InviteCode) (c : ConnectionId) (re se : N)
    (manifest : SnapshotManifest) : ControlM unit :=
  check_epochs code re se ;;
  apply_call code (λ wall now, relay_snapshot_complete deps wall now c manifest).

Definition on_snapshot_file_relay_requested (code : InviteCode) (c : ConnectionId) (re se : N)
    (manifest : SnapshotManifest) : ControlM unit :=
  check_epochs code re se ;;
  result ← handle_snapshot_file_relay_request code c manifest;
  apply_room_result result.

Definition on_snapshot_file_relay_upload_complete (code : InviteCode) (c : ConnectionId) (re se : N)
    (transfer_id : string) (manifest : SnapshotManifest) : ControlM unit :=
  check_epochs code re se ;;
  apply_call code (λ wall now, relay_snapshot_file_upload_complete wall now c transfer_id manifest).

Definition on_rom_relay_request (code : InviteCode) (c : ConnectionId) (re se : N) : ControlM unit :=
  check_epochs code re se ;;
  result ← handle_rom_relay_request code c;
  blocked_unless_ok re se result.

Definition on_rom_relay_progress (code : InviteCode) (c : ConnectionId) (re se : N)
    (progress : Protocol.RomRelayProgress) : ControlM unit :=
  check_epochs code re se ;;
  result ← call_room env BlockMissingIdentity code (λ wall now, relay_rom_relay_progress wall now c progress);
  blocked_unless_ok re se result.

Definition on_rom_relay_completed (code : InviteCode) (c : ConnectionId) (re se : N)
    (completion : RomRelayCompletion) : ControlM unit :=
  check_epochs code re se ;;
  result ← call_room_expect env BlockMissingIdentity code
             (λ n, relay_rom_relay_completed (wall_at env n) (now_at env n) c completion);
  blocked_unless_ok re se result.

Definition on_rom_relay_failed (code : InviteCode) (c : ConnectionId) (re se : N)
    (failure : RomRelayFailure) : ControlM unit :=
  check_epochs code re se ;;
  result ← call_room env BlockMissingIdentity code (λ wall now, relay_rom_relay_failed wall now c failure);
  blocked_unless_ok re se result.

Definition on_rom_relay_cancelled (code : InviteCode) (c : ConnectionId) (re se : N)
    (cancelled : Protocol.RomRelayCancelled) : ControlM unit :=
  check_epochs code re se ;;
  result ← call_room env BlockMissingIdentity code (λ wall now, relay_rom_relay_cancelled wall now c cancelled);
  blocked_unless_ok re se result.

Definition on_input_frame (code : InviteCode) (c : ConnectionId) (re se : N)
    (input : Protocol.InputFrame) : ControlM unit :=
  check_epochs code re se ;;
  apply_call code (λ _ _, relay_input_frame c input).

Definition on_link_cable_packet (code : InviteCode) (c : ConnectionId) (re se : N)
    (packet : Protocol.LinkCablePacket) : ControlM unit :=
  check_epochs code re se ;;
  apply_call code (λ wall now, relay_link_cable_packet wall now c packet).

Definition on_heartbeat (code : InviteCode) (c : ConnectionId) (re se : N) (local_frame : option N)
    (runtime_state : ClientRuntimeState) (network : option ClientNetworkQualityReport) : ControlM unit :=
  check_epochs code re se ;;
  result ← call_room env NotFound code
             (λ wall now, record_heartbeat_op wall now c local_frame network runtime_state);
  match result with
  | Err error => send_room_error error
  | Ok room =>
      count record_heartbeat_metric ;;
      send_server_message (Server.HeartbeatAck (rv_event_seq room) (rv_room_epoch room)
                             (rv_session_epoch room))
  end.

Definition on_request_session_pause (code : InviteCode) (c : ConnectionId) (re se : N)
    (request_id : string) (reason : SessionPauseReason) (local_frame : N) : ControlM unit :=
  count record_pause_requested ;;
  check_epochs code re se ;;
  apply_call code (λ wall now, request_session_pause wall now c request_id reason local_frame).

Definition on_session_pause_reached (code : InviteCode) (c : ConnectionId) (re se : N) (sequence : N)
    (paused_at_frame : N) : ControlM unit :=
  check_epochs code re se ;;
  apply_call code (λ wall now, mark_session_pause_reached deps wall now c sequence paused_at_frame).

Definition on_request_session_resume (code : InviteCode) (c : ConnectionId) (re se : N)
    (request_id : string) (sequence : N) : ControlM unit :=
  count record_resume_requested ;;
  check_epochs code re se ;;
  apply_call code (λ wall now, request_session_resume deps wall now c request_id sequence).

Definition on_player_exited (code : InviteCode) (c : ConnectionId) (re se : N)
    (reason : string) : ControlM unit :=
  check_epochs code re se ;;
  apply_call code (λ wall now, player_exited_body deps wall now c reason).

Definition on_refresh_voice_token (code : InviteCode) (c : ConnectionId) (re se : N) : ControlM unit :=
  check_epochs code re se ;;
  handle_refresh_voice_token code c.

Definition on_state_hash (code : InviteCode) (c : ConnectionId) (re se : N)
    (report : StateHashReport) : ControlM unit :=
  check_epochs code re se ;;
  apply_call code (λ wall now, record_state_hash wall now c report).

Definition on_state_recovery_pinned (code : InviteCode) (c : ConnectionId) (re se : N)
    (pin : StateRecoveryPin) : ControlM unit :=
  apply_call code (λ wall now, pin_state_recovery wall now c re se pin).

Definition handle_client_message (code : InviteCode) (c : ConnectionId) (message : Client.ClientMessage)
    : ControlM unit :=
  match message with
  | Client.Ping => send_server_message Server.Pong
  | Client.ClockSyncPing ping => on_clock_sync_ping ping
  | Client.SetCompatibilityFingerprint re se fingerprint =>
      on_set_compatibility_fingerprint code c re se fingerprint
  | Client.SetLinkCableCompatibility re se compatibility =>
      on_set_link_cable_compatibility code c re se compatibility
  | Client.Ready re se network => on_ready code c re se network
  | Client.ClockSyncSample re se sample => on_clock_sync_sample code c re se sample
  | Client.DeterministicReady re se report network => on_deterministic_ready code c re se report network
  | Client.SnapshotChunk re se chunk => on_snapshot_chunk code c re se chunk
  | Client.SnapshotComplete re se manifest => on_snapshot_complete code c re se manifest
  | Client.SnapshotFileRelayRequested re se manifest => on_snapshot_file_relay_requested code c re se manifest
  | Client.SnapshotFileRelayUploadComplete re se transfer_id manifest =>
      on_snapshot_file_relay_upload_complete code c re se transfer_id manifest
  | Client.RomRelayRequest re se => on_rom_relay_request code c re se
  | Client.RomRelayProgress re se progress => on_rom_relay_progress code c re se progress
  | Client.RomRelayCompleted re se completion => on_rom_relay_completed code c re se completion
  | Client.RomRelayFailed re se failure => on_rom_relay_failed code c re se failure
  | Client.RomRelayCancelled re se cancelled => on_rom_relay_cancelled code c re se cancelled
  | Client.InputFrame re se input => on_input_frame code c re se input
  | Client.LinkCablePacket re se packet => on_link_cable_packet code c re se packet
  | Client.Heartbeat re se _ local_frame runtime_state network =>
      on_heartbeat code c re se local_frame runtime_state network
  | Client.RequestSessionPause re se request_id reason local_frame =>
      on_request_session_pause code c re se request_id reason local_frame
  | Client.SessionPauseReached re se sequence paused_at_frame =>
      on_session_pause_reached code c re se sequence paused_at_frame
  | Client.RequestSessionResume re se request_id sequence _ =>
      on_request_session_resume code c re se request_id sequence
  | Client.PlayerExited re se reason => on_player_exited code c re se reason
  | Client.RefreshVoiceToken re se => on_refresh_voice_token code c re se
  | Client.StateHash re se report => on_state_hash code c re se report
  | Client.StateRecoveryPinned re se pin => on_state_recovery_pinned code c re se pin
  end.

Definition handle_client_text (code : InviteCode) (c : ConnectionId) (payload : bytes) : ControlM bool :=
  if MAX_WEBSOCKET_MESSAGE_BYTES <? N.of_nat (length payload) then
    count record_protocol_error ;;
    succeeded (send_static_error "messageTooLarge" "Message is too large.")
  else match from_json services payload with
       | Some message => succeeded (handle_client_message code c message)
       | None =>
           count record_protocol_error ;;
           succeeded (send_static_error "invalidMessage" "Message JSON is invalid.")
       end.

(** ** websocket_session.rs *)

Definition handle_incoming (code : InviteCode) (c : ConnectionId) (incoming : Received) : ControlM bool :=
  match incoming with
  | Some (Ok (InText payload)) => handle_client_text code c payload
  | Some (Ok (InClose frame)) =>
      record_transport_close env "control" code c (peer_close_detail frame) ;; mret false
  | None =>
      record_transport_close env "control" code c "peer stream ended without close frame" ;; mret false
  | Some (Ok InPing) | Some (Ok InPong) => mret true
  | Some (Ok (InBinary _)) =>
      succeeded (send_static_error "unsupportedMessage" "Binary messages are not supported.")
  | Some (Err error) =>
      record_transport_close env "control" code c (peer_error_detail error) ;; mret false
  end.

Definition handle_room_event (c : ConnectionId) (event : result RecvError RoomEvent) : ControlM bool :=
  match event with
  | Ok event =>
      match event with
      | SessionStarted _ _ _ => count record_session_started
      | _ => mret tt
      end ;;
      match room_event_message c event with
      | Some message => succeeded (send_server_message message)
      | None => mret true
      end
  | Err (Lagged _) =>
      succeeded (send_static_error "roomEventLagged" "Room updates were missed; refresh room state.")
  | Err ChannelClosed => mret false
  end.

(** Which branch of [select!] fired, with what it received. *)
Inductive Wakeup :=
| FromPeer (incoming : Received)
| FromRoom (event : result RecvError RoomEvent).

(** [session_loop] over the wake-ups so far: whether the loop has ended. *)
Fixpoint session_loop (code : InviteCode) (c : ConnectionId) (wakeups : list Wakeup) : ControlM bool :=
  match wakeups with
  | [] => mret false
  | wakeup :: wakeups =>
      go_on ← match wakeup with
              | FromPeer incoming => handle_incoming code c incoming
              | FromRoom event => handle_room_event c event
              end;
      if (go_on : bool) then session_loop code c wakeups else mret true
  end.

Definition join_capabilities (request : WebSocketJoinRequest) : ClientTransportCapabilities :=
  mkClientTransportCapabilities (join_supports_state_file_relay request)
    (join_supports_rom_file_relay request) (join_supports_scheduled_start request)
    (join_supports_clock_sync request) (join_supports_fast_input_relay request).

(** The [match request.intent] of [handle_websocket_session]. *)
Definition join_by_intent (c : ConnectionId) (request : WebSocketJoinRequest)
    : ControlM (result RoomError RoomJoin) :=
  let code := join_invite_code request in
  let capabilities := join_capabilities request in
  access env (λ n,
    let wall := wall_at env n in let now := now_at env n in
    let token := token_at env n in let token' := token'_at env n in
    with_room NotFound code
      match join_intent request with
      | ResumeJoin player_index room_epoch resume_token =>
          reconnect_player_body deps wall now token token' player_index room_epoch resume_token c capabilities
      | InitialJoin JoinAsHost license _ => connect_host_body deps wall now token token' license c capabilities
      | InitialJoin JoinAsGuest license _ => connect_guest_body deps wall now token token' license c capabilities
      end).

Definition joined_message (join : RoomJoin) : Server.ServerMessage :=
  let room := join_room join in
  Server.RoomJoined (rv_event_seq room) (rv_room_epoch room) (rv_session_epoch room)
    (zero_based (join_player_index join)) (join_resume_token join) (join_input_socket_token join)
    (join_voice join) room.

(** [reconnecting] and [runner_handoff]. *)
Definition is_reconnecting (intent : WebSocketRoomJoinIntent) : bool :=
  match intent with ResumeJoin _ _ _ => true | InitialJoin _ _ _ => false end.
Definition wants_handoff (intent : WebSocketRoomJoinIntent) : bool :=
  match intent with ResumeJoin _ _ _ => false | InitialJoin _ _ runner_handoff => runner_handoff end.

(** From the join to the end of the socket; [false] while the loop still runs. *)
Definition joined_session (c : ConnectionId) (request : WebSocketJoinRequest) (join : RoomJoin)
    (wakeups : list Wakeup) : ControlM bool :=
  let code := join_invite_code request in
  let runner_handoff := wants_handoff (join_intent request) in
  count record_websocket_joined ;;
  (if is_reconnecting (join_intent request) then count record_player_reconnected else mret tt) ;;
  armed ← (if runner_handoff
           then call_room env NotFound code (λ wall now, arm_runner_handoff_body deps wall now c)
           else mret (Ok tt));
  match armed with
  | Err error => _ ← call_disconnect services env code c; send_upgrade_error error ;; mret true
  | Ok _ =>
      greeted ← succeeded (send_server_message (joined_message join));
      if negb greeted then
        (if runner_handoff
         then _ ← call_room env NotFound code (λ _ _, cancel_runner_handoff_body c); mret tt
         else mret tt) ;;
        _ ← call_disconnect services env code c;
        mret true
      else
        ended ← session_loop code c wakeups;
        if (ended : bool) then _ ← call_disconnect services env code c; mret true else mret false
  end.

(** [subscribe] and [subscribe_input]: only a room that exists can be subscribed to. *)
Definition subscribe {F} (code : InviteCode) : SocketM Registry F (result RoomError unit) :=
  consult env (λ _, read_room NotFound code (λ _, Ok tt)).

Definition handle_websocket_session (c : ConnectionId) (request : WebSocketJoinRequest)
    (wakeups : list Wakeup) : ControlM bool :=
  events ← subscribe (join_invite_code request);
  match events with
  | Err error => send_upgrade_error error ;; mret true
  | Ok _ =>
      join ← join_by_intent c request;
      match join with
      | Err error => send_upgrade_error error ;; mret true
      | Ok join => joined_session c request join wakeups
      end
  end.
End control.

(** Opens the arms of [handle_client_message]. *)
Ltac unfold_arms :=
  unfold on_clock_sync_ping, on_set_compatibility_fingerprint, on_set_link_cable_compatibility, on_ready,
    on_clock_sync_sample, on_deterministic_ready, on_snapshot_chunk, on_snapshot_complete,
    on_snapshot_file_relay_requested, on_snapshot_file_relay_upload_complete, on_rom_relay_request,
    on_rom_relay_progress, on_rom_relay_completed, on_rom_relay_failed, on_rom_relay_cancelled,
    on_input_frame, on_link_cable_packet, on_heartbeat, on_request_session_pause,
    on_session_pause_reached, on_request_session_resume, on_player_exited, on_refresh_voice_token,
    on_state_hash, on_state_recovery_pinned.
