(* ===== verification/InputLimiter.v ===== *)
(** * The message rate of an input socket

  Models [src/src/transport/input_message_rate_limiter.rs], a token bucket that counts in
  [f64]. The arithmetic is IEEE 754 binary64 with rounding to nearest even, by the
  executable specification of the Standard Library. *)

From Stdlib Require Import ZArith Floats.SpecFloat.
From S2P Require Import Prelude.
Open Scope N_scope.

(** ** [f64] *)

Definition f64 : Type := spec_float.

Definition f64_add : f64 → f64 → f64 := SFadd 53 1024.
Definition f64_sub : f64 → f64 → f64 := SFsub 53 1024.
Definition f64_mul : f64 → f64 → f64 := SFmul 53 1024.
Definition f64_div : f64 → f64 → f64 := SFdiv 53 1024.

(** [n as f64]. *)
Definition f64_of_N (n : N) : f64 := binary_normalize 53 1024 (Z.of_N n) 0 false.

(** [a < b], false when an operand is not a number. *)
Definition f64_lt (a b : f64) : bool := SFltb a b.

(** [f64::min]: the other operand when one is not a number. *)
Definition f64_min (a b : f64) : f64 :=
  match SFcompare a b with
  | Some Gt => b
  | Some _ => a
  | None => match a with S754_nan => b | _ => a end
  end.

(** [Duration::as_secs_f64]. *)
Definition as_secs_f64 (d : Duration) : f64 :=
  f64_add (f64_of_N (d / 1000000000))
    (f64_div (f64_of_N (d mod 1000000000)) (f64_of_N 1000000000)).

(** ** The limiter *)

Definition TOKENS_PER_SECOND : f64 := f64_of_N 512.
Definition BURST_TOKENS : f64 := f64_of_N 1024.

Record InputMessageRateLimiter := mkInputMessageRateLimiter {
  tokens : f64;
  last_refill : Instant }.

Definition InputMessageRateLimiter_new (now : Instant) : InputMessageRateLimiter :=
  mkInputMessageRateLimiter BURST_TOKENS now.

Definition allow (now : Instant) (l : InputMessageRateLimiter) : bool * InputMessageRateLimiter :=
  let elapsed := duration_since now (last_refill l) in
  let tokens := f64_min (f64_add (tokens l) (f64_mul (as_secs_f64 elapsed) TOKENS_PER_SECOND))
                  BURST_TOKENS in
  if f64_lt tokens (f64_of_N 1) then (false, mkInputMessageRateLimiter tokens now)
  else (true, mkInputMessageRateLimiter (f64_sub tokens (f64_of_N 1)) now).

(** The messages of one socket, at the given times. *)
Fixpoint allow_all (times : list Instant) (l : InputMessageRateLimiter)
    : list bool * InputMessageRateLimiter :=
  match times with
  | [] => ([], l)
  | now :: times =>
      let '(b, l) := allow now l in
      let '(bs, l) := allow_all times l in (b :: bs, l)
  end.

(** ** What a full bucket admits at one instant *)

Lemma duration_since_self now : duration_since now now = 0.
Proof. unfold duration_since, saturating_sub. lia. Qed.

(** At the instant of the last refill the clock plays no part. *)
Definition allow_now (t : f64) : bool * f64 :=
  let t := f64_min (f64_add t (f64_mul (as_secs_f64 0) TOKENS_PER_SECOND)) BURST_TOKENS in
  if f64_lt t (f64_of_N 1) then (false, t) else (true, f64_sub t (f64_of_N 1)).

Lemma allow_same_instant now t :
  allow now (mkInputMessageRateLimiter t now)
  = ((allow_now t).1, mkInputMessageRateLimiter (allow_now t).2 now).
Proof.
  unfold allow. cbn [last_refill tokens]. rewrite duration_since_self. fold (allow_now t).
  unfold allow_now. by destruct (f64_lt _ _).
Qed.

Fixpoint allow_burst (n : nat) (t : f64) : list bool :=
  match n with
  | O => []
  | S n => (allow_now t).1 :: allow_burst n (allow_now t).2
  end.

Lemma allow_all_same_instant n now t :
  (allow_all (replicate n now) (mkInputMessageRateLimiter t now)).1 = allow_burst n t.
Proof.
  revert t. induction n as [|n IH]; intros t; [done|]. cbn [replicate allow_all allow_burst].
  rewrite allow_same_instant. specialize (IH (allow_now t).2).
  destruct (allow_all _ _) as [bs l]. simpl in *. by rewrite IH.
Qed.

Lemma allow_burst_app m n t :
  allow_burst (m + n) t = allow_burst m t ++ allow_burst n (Nat.iter m (λ t, (allow_now t).2) t).
Proof.
  revert t. induction m as [|m IH]; intros t; [done|].
  rewrite Nat.iter_succ_r. cbn [Nat.add allow_burst app]. by rewrite IH.
Qed.

Lemma refused_stays_refused n t : allow_now t = (false, t) → allow_burst n t = replicate n false.
Proof. intros H. induction n as [|n IH]; [done|]. cbn [allow_burst replicate]. rewrite H. simpl. by f_equal. Qed.

Lemma full_burst : allow_burst 1024 BURST_TOKENS = replicate 1024 true.
Proof. vm_compute. reflexivity. Qed.

Lemma spent_bucket :
  let t := Nat.iter 1024 (λ t, (allow_now t).2) BURST_TOKENS in allow_now t = (false, t).
Proof. vm_compute. reflexivity. Qed.

(** A protocol v5 input socket admits a burst of exactly 1,024 messages. Of any number of
    messages that arrive at the instant the socket opened, the first 1,024 pass and every
    later one is refused: the floating-point bucket starts full and loses one whole token per
    message, without rounding. *)
Theorem burst_is_exact n now :
  (allow_all (replicate (1024 + n) now) (InputMessageRateLimiter_new now)).1
  = replicate 1024 true ++ replicate n false.
Proof.
  unfold InputMessageRateLimiter_new. rewrite allow_all_same_instant, allow_burst_app, full_burst.
  by rewrite (refused_stays_refused _ _ spent_bucket).
Qed.
