(* ===== verification/InputSocket.v ===== *)
(** * The input socket

  Models [src/src/transport/websocket_input_session.rs] and [websocket_input_v5.rs]: what
  the relay does with each binary message of a player and with each event of the input
  lane, and the task that releases the first frame of a scheduled start. *)

From Stdlib Require Import Strings.Byte.
From S2P Require Import Prelude Ids Wire StrictInput Text Descriptor Protocol Invite Slots.
From S2P Require Import LegacyCodec Room StartSync HostFrame RoomEvents StoredRoom Registry RegistryRelay.
From S2P Require Import Metrics Messages Socket ControlSocket InputLimiter.
Open Scope N_scope.

(** What goes out on the input socket: an error as JSON text, or binary. *)
Inductive Frame :=
| TextFrame (message : Server.ServerMessage)
| BinaryFrame (payload : bytes).

Definition InputM : Type → Type := SocketM Registry Frame.

(** ** The texts of the errors *)

(** [Display] of [RoomError]. *)
Definition room_error_display (e : RoomError) : string :=
  match e with
  | NotFound => "room was not found"
  | RoomFull => "room is full"
  | RoomClosed => "room is closed"
  | InvalidInviteCode => "invite code is invalid"
  | UnknownConnection => "connection is not assigned to a player slot"
  | SlotSpoofing p =>
      ("connection cannot send input for player PlayerIndex(" ++ decimal (zero_based p) ++ ")")%string
  | HostSubjectMismatch => "connection cannot attach as this room host"
  | OutOfOrderFrame => "input frame is out of order"
  | FutureFrameTooLarge => "input frame is too far ahead"
  | NotPlaying => "room is not playing"
  | RoomNotReady => "room is not ready for this operation"
  | HostOnly => "only the host can perform this operation"
  | SnapshotInvalid => "snapshot payload is invalid"
  | SnapshotFileRelayUnavailable => "snapshot file relay is unavailable"
  | LinkPacketInvalid => "link-cable packet is invalid"
  | OutOfOrderLinkPacket => "link-cable packet is out of order"
  | InvalidPayload => "client payload is invalid"
  | CompatibilityMismatch => "netplay compatibility mismatch"
  | StaleRoomEpoch => "room epoch is stale"
  | StaleSessionEpoch => "session epoch is stale"
  | ResumeTokenInvalid => "resume token is invalid"
  | RecoveryExpired => "recovery window expired"
  | VoiceUnavailable => "voice chat is unavailable"
  end.

(** [Display] of [StrictInputCodecError]. *)
Definition strict_codec_error_display (e : StrictInputCodecError) : string :=
  match e with
  | StrictInput.Malformed => "strict input message is malformed"
  | StrictInput.Unsupported => "strict input message type is unsupported"
  | StrictInput.Empty => "strict input batch is empty"
  | StrictInput.TooManyFrames => "strict input batch contains too many frames"
  | StrictInput.InvalidPlayerIndex => "strict input player index is invalid"
  | InvalidPayloadSize => "strict input payload size is invalid"
  | InvalidNackReason => "strict input NACK reason is invalid"
  | InvalidCursors => "server frame release cursors are invalid"
  end.

(** [Display] of [FastInputCodecError]. *)
Definition fast_codec_error_display (e : FastInput.FastInputCodecError) : string :=
  match e with
  | FastInput.Malformed => "fast input is malformed"
  | FastInput.Unsupported => "fast input type is unsupported"
  | FastInput.TooManyFrames => "fast input contains too many records"
  | FastInput.InvalidPlayerIndex => "fast input player index is invalid"
  | FastInput.Empty => "fast input is empty"
  end.

(** [Display] of [InputFrameBatchCodecError]. *)
Definition input_codec_error_display (e : InputFrames.InputFrameBatchCodecError) : string :=
  match e with
  | InputFrames.Malformed => "input batch is malformed"
  | InputFrames.Unsupported => "input batch type is unsupported"
  | InputFrames.TooManyFrames => "input batch contains too many frames"
  | InputFrames.InvalidPlayerIndex => "input batch player index is invalid"
  | InputFrames.Empty => "input batch is empty"
  end.

Record WebSocketInputJoinRequest := mkWebSocketInputJoinRequest {
  input_invite_code : InviteCode;
  input_protocol_version : N;
  input_player_index : PlayerIndex;
  input_room_epoch : N;
  input_session_epoch : N;
  input_socket_token : string }.

Definition is_droppable_input_error (e : RoomError) : bool :=
  match e with NotPlaying | StaleRoomEpoch | StaleSessionEpoch => true | _ => false end.

(** [payload.starts_with(magic)]. *)
Definition starts_with (magic payload : bytes) : bool := take (length magic) payload ==? magic.

Section input.
Context (services : Services) (env : Env Registry) (code : InviteCode) (c : ConnectionId).
Let deps := service_deps services.

Definition send_text (message : Server.ServerMessage) : InputM unit := send env (TextFrame message).
Definition send_binary_message (payload : bytes) : InputM unit := send env (BinaryFrame payload).

(** [send(..).await.is_ok()]. *)
Definition sent_binary (payload : bytes) : InputM bool := succeeded (send_binary_message payload).

(** Record the close, answer with an error whose delivery is not checked, and stop. *)
Definition close_input_socket (reason : string) (message : Server.ServerMessage) : InputM bool :=
  record_transport_close env "input" code c reason ;;
  _ ← succeeded (send_text message);
  mret false.

(** ** websocket_input_v5.rs *)

Definition reject_v5_message (reason : string) : InputM unit :=
  count record_protocol_error ;;
  record_transport_close env "input" code c reason.

Definition handle_strict_input (payload : bytes) : InputM bool :=
  match decode_strict_input_batch payload with
  | Err Panic => throw TaskPanicked
  | Err (Wire.Error error) =>
      reject_v5_message ("relay rejected strict input: " ++ strict_codec_error_display error)%string ;;
      mret false
  | Ok batch =>
      let frame_count := N.of_nat (length (batch_payloads batch)) in
      result ← call_room env NotFound code (λ wall now, relay_strict_input_batch wall now c batch);
      match result with
      | Err error =>
          if is_droppable_input_error error then mret true
          else
            reject_v5_message ("relay rejected strict input: " ++ room_error_display error)%string ;;
            mret false
      | Ok outcome =>
          let nacked := relay_send_response outcome
                        && match relay_response outcome with Nack _ => true | Ack _ => false end in
          count (record_v5_input_batch frame_count (N.of_nat (relay_accepted_frame_count outcome))
                   (N.of_nat (relay_duplicate_frame_count outcome)) nacked) ;;
          if negb (relay_send_response outcome) then mret true
          else sent_binary (match relay_response outcome with
                            | Ack ack => encode_input_cursor_ack ack
                            | Nack nack => encode_input_cursor_nack nack
                            end)
      end
  end.

(** What [handle_host_open] does: go on, stop, or go on and spawn the wake-up task. *)
Record WakeupTask := mkWakeupTask {
  wake_delay_ms : N;
  wake_room_epoch : N;
  wake_session_epoch : N;
  wake_frame : N }.

Definition handle_host_open (payload : bytes) : InputM (bool * option WakeupTask) :=
  match decode_host_frame_open payload with
  | Err Panic => throw TaskPanicked
  | Err (Wire.Error error) =>
      reject_v5_message ("relay rejected host frame open: " ++ strict_codec_error_display error)%string ;;
      mret (false, None)
  | Ok open =>
      result ← call_room_expect env NotFound code
        (λ n, relay_host_frame_open deps (wall_at env n) (now_at env n) (now'_at env n) c open);
      match result with
      | Ok (RelayDuplicate release) =>
          count (record_v5_host_frame_open true) ;;
          match encode_server_frame_release_v5 release with
          | Ok encoded => ok ← sent_binary encoded; mret (ok, None)
          | Err _ => mret (false, None)
          end
      | Ok RelayBroadcast =>
          count (record_v5_host_frame_open false) ;; count record_v5_frame_released ;; mret (true, None)
      | Ok RelayIgnoredTransitionBoundary => mret (true, None)
      | Ok (RelayPending delay_ms room_epoch session_epoch frame) =>
          count (record_v5_host_frame_open false) ;;
          mret (true, Some (mkWakeupTask delay_ms room_epoch session_epoch frame))
      | Err error =>
          if is_droppable_input_error error then mret (true, None)
          else
            reject_v5_message ("relay rejected host frame open: " ++ room_error_display error)%string ;;
            mret (false, None)
      end
  end.

Definition handle_v5_binary_message (payload : bytes) : InputM (bool * option WakeupTask) :=
  if starts_with InputBatch.MAGIC payload then ok ← handle_strict_input payload; mret (ok, None)
  else if starts_with HOST_OPEN_MAGIC payload then handle_host_open payload
  else
    reject_v5_message "relay rejected unsupported v5 input-lane message" ;;
    mret (false, None).

(** The task that [schedule_first_frame_release] spawns: [Some remaining_ms] when the loop
    sleeps again, [None] when it ends. The sleep comes before each round. *)
Definition wakeup_round (task : WakeupTask) : InputM (option N) :=
  result ← call_room env NotFound code (λ _ now,
    release_scheduled_v5_host_frame deps now (wake_room_epoch task) (wake_session_epoch task)
      (wake_frame task));
  match result with
  | Ok (WakeRetryAfter next_remaining_ms) =>
      count record_v5_scheduled_wake_retry ;; mret (Some (N.max next_remaining_ms 1))
  | Ok WakeReleased => count record_v5_frame_released ;; mret None
  | Ok WakeSuperseded | Err _ => mret None
  end.

(** The loop, at most [fuel] rounds; the result lists the sleeps, and says whether the task
    ended. *)
Fixpoint wakeup_loop (fuel : nat) (task : WakeupTask) (remaining_ms : N) : InputM (list N * bool) :=
  match fuel with
  | O => mret ([], false)
  | S fuel =>
      next ← wakeup_round task;
      match next with
      | None => mret ([remaining_ms], true)
      | Some next_remaining_ms =>
          rest ← wakeup_loop fuel task next_remaining_ms;
          mret (remaining_ms :: rest.1, rest.2)
      end
  end.

Definition schedule_first_frame_release (fuel : nat) (task : WakeupTask) : InputM (list N * bool) :=
  wakeup_loop fuel task (N.max (wake_delay_ms task) 1).

(** ** websocket_input_session.rs *)

Definition relay_input_result (result : result RoomError unit) : InputM bool :=
  match result with
  | Ok _ => mret true
  | Err error =>
      if is_droppable_input_error error then mret true
      else close_input_socket ("relay rejected input batch: " ++ room_error_display error)%string
             (room_error_message error)
  end.

Definition handle_legacy_input (payload : bytes) : InputM bool :=
  match decode_input_frame_batch payload with
  | Err Panic => throw TaskPanicked
  | Err (Wire.Error error) =>
      count record_protocol_error ;;
      close_input_socket ("relay rejected input batch: " ++ input_codec_error_display error)%string
        (static_error "invalidInputBatch" "Input batch is invalid.")
  | Ok batch =>
      result ← call_room env NotFound code (λ _ _, relay_input_frame_batch c batch);
      relay_input_result result
  end.

(** The decoder never runs out of fuel ([fast_input_terminates]). *)
Definition handle_fast_input (payload : bytes) : InputM bool :=
  match decode_fast_input_batch payload with
  | None | Some (Err Panic) => throw TaskPanicked
  | Some (Err (Wire.Error error)) =>
      count record_protocol_error ;;
      close_input_socket ("relay rejected fast input: " ++ fast_codec_error_display error)%string
        (static_error "invalidFastInput" "Fast input is invalid.")
  | Some (Ok batch) =>
      result ← call_room env NotFound code (λ _ _, relay_fast_input_batch c batch);
      relay_input_result result
  end.

(** [allowed_at] is the reading of the clock for the rate limiter. *)
Definition handle_input_incoming (protocol_version : N) (allowed_at : Instant)
    (incoming : Received) (limiter : InputMessageRateLimiter)
    : InputM (bool * option WakeupTask * InputMessageRateLimiter) :=
  match incoming with
  | Some (Ok (InBinary payload)) =>
      if 5 <=? protocol_version then
        let '(allowed, limiter) := allow allowed_at limiter in
        if negb allowed then
          count record_v5_input_rate_limited ;;
          ok ← close_input_socket "relay rate-limited protocol v5 input socket"
                 (static_error "inputRateLimited" "Input socket message rate exceeded.");
          mret (ok, None, limiter)
        else
          reply ← handle_v5_binary_message payload;
          mret (reply, limiter)
      else
        ok ← (if starts_with FastInput.FAST_INPUT_MAGIC payload
              then handle_fast_input payload else handle_legacy_input payload);
        mret (ok, None, limiter)
  | Some (Ok (InClose frame)) =>
      record_transport_close env "input" code c (peer_close_detail frame) ;; mret (false, None, limiter)
  | None =>
      record_transport_close env "input" code c "peer stream ended without close frame" ;;
      mret (false, None, limiter)
  | Some (Ok InPing) | Some (Ok InPong) => mret (true, None, limiter)
  | Some (Ok (InText _)) =>
      ok ← close_input_socket "relay rejected text message on input socket"
             (static_error "unsupportedMessage" "Input socket only accepts binary input batches.");
      mret (ok, None, limiter)
  | Some (Err error) =>
      record_transport_close env "input" code c (peer_error_detail error) ;; mret (false, None, limiter)
  end.

(** [match encode(..) { Ok(payload) => send, Err(_) => return false }]. *)
Definition send_encoded {E} (encoded : result E bytes) : InputM bool :=
  match encoded with
  | Ok payload => sent_binary payload
  | Err _ => mret false
  end.

Definition handle_input_event (protocol_version : N) (event : result RecvError RoomInputEvent)
    : InputM bool :=
  match event with
  | Ok (InputEventBatch source batch) =>
      if (5 <=? protocol_version) || (source ==? c) then mret true
      else send_encoded (encode_input_frame_batch batch)
  | Ok (InputEventFast source frame) =>
      if (5 <=? protocol_version) || (source ==? c) then mret true
      else sent_binary (fast_encoded frame)
  | Ok (InputEventServerFrame frame) =>
      if 5 <=? protocol_version then mret true else sent_binary (encode_server_frame frame)
  | Ok (InputEventStrict source batch) =>
      if (protocol_version <? 5) || (source ==? c) then mret true
      else send_encoded (encode_strict_input_batch batch)
  | Ok (InputEventServerFrameV5 release) =>
      if protocol_version <? 5 then mret true
      else send_encoded (encode_server_frame_release_v5 release)
  | Err (Lagged _) => count record_input_event_lagged ;; mret false
  | Err ChannelClosed => mret false
  end.

Inductive InputWakeup :=
| InputFromPeer (allowed_at : Instant) (incoming : Received)
| InputFromRoom (event : result RecvError RoomInputEvent).

(** The loop over the wake-ups so far: whether it has ended, and the tasks it spawned. *)
Fixpoint input_session_loop (protocol_version : N) (wakeups : list InputWakeup)
    (limiter : InputMessageRateLimiter) : InputM (bool * list WakeupTask) :=
  match wakeups with
  | [] => mret (false, [])
  | InputFromPeer allowed_at incoming :: wakeups =>
      reply ← handle_input_incoming protocol_version allowed_at incoming limiter;
      let '(go_on, task, limiter) := reply in
      rest ← (if (go_on : bool) then input_session_loop protocol_version wakeups limiter
              else mret (true, []));
      mret (rest.1, option_list task ++ rest.2)
  | InputFromRoom event :: wakeups =>
      go_on ← handle_input_event protocol_version event;
      if (go_on : bool) then input_session_loop protocol_version wakeups limiter else mret (true, [])
  end.
End input.

(** [send_upgrade_error]: its results are dropped. *)
Definition send_upgrade_text (env : Env Registry) (error : RoomError) : InputM unit :=
  _ ← succeeded (send_text env (room_error_message error)); mret tt.

(** [let _ = rooms.disconnect_input_socket(..)]. *)
Definition detach_input (services : Services) (env : Env Registry) (code : InviteCode) (c : ConnectionId)
    : InputM unit :=
  _ ← call_room env NotFound code (λ wall now,
        disconnect_input_socket_body (service_deps services) wall now c);
  mret tt.

Definition handle_websocket_input_session (services : Services) (env : Env Registry) (c : ConnectionId)
    (request : WebSocketInputJoinRequest) (opened_at : Instant) (wakeups : list InputWakeup)
    : InputM (bool * list WakeupTask) :=
  let deps := service_deps services in
  let code := input_invite_code request in
  events ← subscribe env code;
  match events with
  | Err error => send_upgrade_text env error ;; mret (true, [])
  | Ok _ =>
      room ← call_room env NotFound code (λ wall now,
        connect_input_socket_body deps wall now (input_player_index request) (input_room_epoch request)
          (input_session_epoch request) (input_socket_token request) c);
      match room with
      | Err error => send_upgrade_text env error ;; mret (true, [])
      | Ok _ =>
          ended ← input_session_loop services env code c (input_protocol_version request) wakeups
                    (InputMessageRateLimiter_new opened_at);
          let '(finished, tasks) := (ended : bool * list WakeupTask) in
          (if finished then detach_input services env code c else mret tt) ;;
          mret (finished, tasks)
      end
  end.
