(* ===== verification/SocketConfinement.v ===== *)
(** * What a socket can do to the registry

  A socket task touches the room registry only by calls that name its own room and its own
  connection, whatever its peer sends. [socket_step] is one such call, or a step of the
  other tasks. The lemmas walk through the handlers of ControlSocket and InputSocket. *)

From Stdlib Require Import Strings.Byte.
From S2P Require Import Prelude Ids Wire StrictInput Text Compatibility Descriptor Protocol Invite Slots.
From S2P Require Import LegacyCodec PauseState SnapshotTransfer LinkState RoomTransactions Room StartSync.
From S2P Require Import HostFrame RoomEvents StoredRoom Registry RegistryRelay RegistryRefinement.
From S2P Require Import Metrics FileRelay Messages Socket ControlSocket InputLimiter InputSocket.
Open Scope N_scope.

(** The connection a call acts for; only the wake-up task acts for none. *)
Definition caller (call : RoomCall) : option ConnectionId :=
  match call with
  | CallJoinGuest _ _ _ c | CallConnectHost _ _ _ c _ | CallConnectGuest _ _ _ c _
  | CallReconnect _ _ _ _ _ c _ | CallArmHandoff c | CallCancelHandoff c | CallTransportClose c _ _
  | CallPlayerExited c _ | CallConnectInput _ _ _ _ c | CallDisconnectInput c | CallRefreshVoice c _
  | CallInputFrame c _ | CallInputBatch c _ | CallFastBatch c _ | CallLinkPacket c _ | CallStateHash c _
  | CallPinRecovery c _ _ _ | CallHeartbeat c _ _ _ | CallPause c _ _ _ | CallPauseReached c _ _
  | CallResume c _ _ | CallCompatibility c _ | CallLinkCompatibility c _ | CallMarkReady c _
  | CallSnapshotChunk c _ | CallSnapshotComplete c _ | CallFileRelayGrant c _ _
  | CallFileRelayUploaded c _ _ | CallClockSample c _ | CallDeterministicReady c _ | CallStrictInput c _
  | CallHostOpen _ c _ | CallRomGrants c _ | CallRomProgress c _ | CallRomCompleted c _
  | CallRomFailed c _ | CallRomCancelled c _ => Some c
  | CallScheduledRelease _ _ _ => None
  end.

(** A call on the room [code] in the name of [c]. *)
Definition own_call (code : InviteCode) (c : ConnectionId) (call : Call) : Prop :=
  match call with
  | CallRoom code' call => code' = code ∧ caller call = Some c
  | CallDisconnect code' c' => code' = code ∧ c' = c
  | _ => False
  end.

(** One step of the registry as a socket sees it. *)
Definition socket_step (deps : RegistryDeps) (env : Env Registry) (code : InviteCode) (c : ConnectionId)
    (g g' : Registry) : Prop :=
  (∃ wall_ms now call, own_call code c call ∧ g' = serve deps wall_ms now call g)
  ∨ ∃ n, g' = others env n g.

(** The body of a call in the name of [c]. *)
Definition own_body {E A} (deps : RegistryDeps) (c : ConnectionId) (m : M Cell E A) : Prop :=
  ∃ wall_ms now call, caller call = Some c ∧ ∀ cell, (m cell).2 = room_effect deps wall_ms now call cell.

Ltac name_call :=
  lazymatch goal with
  | |- own_body _ _ (set_compatibility_op ?w ?n ?c ?x) => exists w, n, (CallCompatibility c x)
  | |- own_body _ _ (set_link_cable_compatibility_op ?w ?n ?c ?x) => exists w, n, (CallLinkCompatibility c x)
  | |- own_body _ _ (mark_ready_op _ ?w ?n ?c ?x) => exists w, n, (CallMarkReady c x)
  | |- own_body _ _ (record_clock_sync_sample _ ?w ?n ?c ?x) => exists w, n, (CallClockSample c x)
  | |- own_body _ _ (mark_deterministic_ready_op _ ?w ?n ?c ?x) => exists w, n, (CallDeterministicReady c x)
  | |- own_body _ _ (relay_snapshot_chunk _ ?w ?n ?c ?x) => exists w, n, (CallSnapshotChunk c x)
  | |- own_body _ _ (relay_snapshot_complete _ ?w ?n ?c ?x) => exists w, n, (CallSnapshotComplete c x)
  | |- own_body _ _ (grant_snapshot_file_relay_upload ?w ?n ?c ?x ?y) => exists w, n, (CallFileRelayGrant c x y)
  | |- own_body _ _ (relay_snapshot_file_upload_complete ?w ?n ?c ?x ?y) =>
      exists w, n, (CallFileRelayUploaded c x y)
  | |- own_body _ _ (grant_rom_relay_upload ?w ?n ?c ?x) => exists w, n, (CallRomGrants c x)
  | |- own_body _ _ (relay_rom_relay_progress ?w ?n ?c ?x) => exists w, n, (CallRomProgress c x)
  | |- own_body _ _ (relay_rom_relay_completed ?w ?n ?c ?x) => exists w, n, (CallRomCompleted c x)
  | |- own_body _ _ (relay_rom_relay_failed ?w ?n ?c ?x) => exists w, n, (CallRomFailed c x)
  | |- own_body _ _ (relay_rom_relay_cancelled ?w ?n ?c ?x) => exists w, n, (CallRomCancelled c x)
  | |- own_body _ _ (relay_input_frame ?c ?x) => exists 0, 0, (CallInputFrame c x)
  | |- own_body _ _ (relay_input_frame_batch ?c ?x) => exists 0, 0, (CallInputBatch c x)
  | |- own_body _ _ (relay_fast_input_batch ?c ?x) => exists 0, 0, (CallFastBatch c x)
  | |- own_body _ _ (relay_strict_input_batch ?w ?n ?c ?x) => exists w, n, (CallStrictInput c x)
  | |- own_body _ _ (relay_host_frame_open _ ?w ?n ?n' ?c ?x) => exists w, n, (CallHostOpen n' c x)
  | |- own_body _ _ (relay_link_cable_packet ?w ?n ?c ?x) => exists w, n, (CallLinkPacket c x)
  | |- own_body _ _ (record_heartbeat_op ?w ?n ?c ?x ?y ?z) => exists w, n, (CallHeartbeat c x y z)
  | |- own_body _ _ (request_session_pause ?w ?n ?c ?x ?y ?z) => exists w, n, (CallPause c x y z)
  | |- own_body _ _ (mark_session_pause_reached _ ?w ?n ?c ?x ?y) => exists w, n, (CallPauseReached c x y)
  | |- own_body _ _ (request_session_resume _ ?w ?n ?c ?x ?y) => exists w, n, (CallResume c x y)
  | |- own_body _ _ (player_exited_body _ ?w ?n ?c ?x) => exists w, n, (CallPlayerExited c x)
  | |- own_body _ _ (record_state_hash ?w ?n ?c ?x) => exists w, n, (CallStateHash c x)
  | |- own_body _ _ (pin_state_recovery ?w ?n ?c ?x ?y ?z) => exists w, n, (CallPinRecovery c x y z)
  | |- own_body _ _ (refresh_voice_token_body ?n ?c ?x) => exists 0, n, (CallRefreshVoice c x)
  | |- own_body _ _ (record_transport_close_body ?w ?n ?c ?x ?y) => exists w, n, (CallTransportClose c x y)
  | |- own_body _ _ (arm_runner_handoff_body _ ?w ?n ?c) => exists w, n, (CallArmHandoff c)
  | |- own_body _ _ (cancel_runner_handoff_body ?c) => exists 0, 0, (CallCancelHandoff c)
  | |- own_body _ _ (connect_input_socket_body _ ?w ?n ?x ?y ?z ?t ?c) =>
      exists w, n, (CallConnectInput x y z t c)
  | |- own_body _ _ (disconnect_input_socket_body _ ?w ?n ?c) => exists w, n, (CallDisconnectInput c)
  | |- own_body _ _ (reconnect_player_body _ ?w ?n ?x ?y ?z ?t ?u ?c ?v) =>
      exists w, n, (CallReconnect x y z t u c v)
  | |- own_body _ _ (connect_host_body _ ?w ?n ?x ?y ?z ?c ?v) => exists w, n, (CallConnectHost x y z c v)
  | |- own_body _ _ (connect_guest_body _ ?w ?n ?x ?y ?z ?c ?v) => exists w, n, (CallConnectGuest x y z c v)
  end; split; [reflexivity|intros ?; reflexivity].

#[export] Hint Extern 0 (own_body _ _ _) => name_call : relay.

(** ** An invariant that own calls and the other tasks keep *)

Section confined.
Context (services : Services) (env : Env Registry) (code : InviteCode) (c : ConnectionId).
Context (I : Registry → Prop).
Let deps := service_deps services.
Context (Hothers : ∀ n g, I g → I (others env n g)).
Context (Hown : ∀ wall_ms now call g, own_call code c call → I g → I (serve deps wall_ms now call g)).

Lemma own_with_room {E A} (missing : E) (m : M Cell E A) g :
  own_body deps c m → I g → I (with_room missing code m g).2.
Proof.
  intros (w & n & call & Hc & Hm) Hg. rewrite with_room_effect.
  replace (with_room tt code (λ c, (Ok tt, effect m c)) g)
    with (with_room tt code (λ c, (Ok (E := unit) tt, room_effect deps w n call c)) g).
  - by apply (Hown w n (CallRoom code call)).
  - unfold with_room, effect. destruct (invite_codes g !! _); [|done]. by rewrite Hm.
Qed.

Lemma call_room_confined {F E A} (missing : E) (body : N → Instant → M Cell E A) :
  (∀ w n, own_body deps c (body w n)) → keeps (holds (F := F) I) (call_room env missing code body).
Proof. intros Hb. apply access_holds; [done|]. intros n g. by apply own_with_room. Qed.

Lemma call_room_expect_confined {F E A} (missing : E) (body : nat → M Cell (fault E) A) :
  (∀ n, own_body deps c (body n)) → keeps (holds (F := F) I) (call_room_expect env missing code body).
Proof.
  intros Hb. unfold call_room_expect. apply keeps_bind.
  - apply access_holds; [done|]. intros n g. by apply own_with_room.
  - intros [a|[|e]]; by apply keeps_pure.
Qed.

Lemma disconnect_confined {F} : keeps (holds (F := F) I) (call_disconnect services env code c).
Proof. apply access_holds; [done|]. intros n g. by apply (Hown _ _ (CallDisconnect code c)). Qed.

Lemma record_transport_close_confined {F} kind reason :
  keeps (holds (F := F) I) (record_transport_close env kind code c reason).
Proof.
  unfold record_transport_close. apply keeps_bind; [|intros; by apply keeps_pure].
  apply call_room_confined. intros. auto with relay nocore.
Qed.

Lemma consult_confined {F A} (f : nat → Registry → A) : keeps (holds (F := F) I) (consult env f).
Proof. by apply consult_holds. Qed.

#[local] Hint Resolve call_room_confined call_room_expect_confined disconnect_confined
  record_transport_close_confined consult_confined : relay.

(** *** The control socket *)

Lemma apply_call_confined {A} (body : N → Instant → M Cell RoomError A) :
  (∀ w n, own_body deps c (body w n)) → keeps (holds I) (apply_call env code body).
Proof. intros Hb. unfold apply_call, apply_room_result, send_room_error, send_server_message. keeps_go. Qed.

Lemma check_epochs_confined re se : keeps (holds I) (check_epochs env code re se).
Proof.
  unfold check_epochs, validate_epochs, apply_room_result, send_room_error, send_server_message. keeps_go.
Qed.

Lemma handle_rom_relay_request_confined :
  keeps (holds I) (handle_rom_relay_request services env code c).
Proof. unfold handle_rom_relay_request. keeps_go. Qed.

Lemma handle_snapshot_file_relay_request_confined manifest :
  keeps (holds I) (handle_snapshot_file_relay_request services env code c manifest).
Proof. unfold handle_snapshot_file_relay_request. keeps_go. Qed.

Lemma handle_refresh_voice_token_confined :
  keeps (holds I) (handle_refresh_voice_token services env code c).
Proof.
  unfold handle_refresh_voice_token, refresh_voice_token, send_room_error, send_server_message. keeps_go.
Qed.

#[local] Hint Resolve apply_call_confined check_epochs_confined handle_rom_relay_request_confined
  handle_snapshot_file_relay_request_confined handle_refresh_voice_token_confined : relay.

Lemma handle_client_message_confined message :
  keeps (holds I) (handle_client_message services env code c message).
Proof.
  unfold handle_client_message. unfold_arms.
  unfold apply_room_result, blocked_unless_ok, send_room_error, send_server_message, server_time_ms.
  destruct message; keeps_go.
Qed.

#[local] Hint Resolve handle_client_message_confined : relay.

Lemma handle_incoming_confined incoming :
  keeps (holds I) (handle_incoming services env code c incoming).
Proof.
  unfold handle_incoming, handle_client_text, send_static_error, send_server_message. keeps_go.
Qed.

Lemma handle_room_event_confined event : keeps (holds I) (handle_room_event env c event).
Proof. unfold handle_room_event, send_static_error, send_server_message. keeps_go. Qed.

#[local] Hint Resolve handle_incoming_confined handle_room_event_confined : relay.

Lemma session_loop_confined wakeups : keeps (holds I) (session_loop services env code c wakeups).
Proof. induction wakeups as [|[incoming|event] wakeups IH]; cbn [session_loop]; keeps_go. Qed.

#[local] Hint Resolve session_loop_confined : relay.

Lemma send_upgrade_error_confined error : keeps (holds I) (send_upgrade_error env error).
Proof. unfold send_upgrade_error, send_room_error, send_server_message. keeps_go. Qed.

#[local] Hint Resolve send_upgrade_error_confined : relay.

Lemma joined_session_confined request join wakeups :
  join_invite_code request = code → keeps (holds I) (joined_session services env c request join wakeups).
Proof. intros Hcode. unfold joined_session, send_server_message. rewrite Hcode. keeps_go. Qed.

Lemma join_by_intent_confined request :
  join_invite_code request = code → keeps (holds I) (join_by_intent services env c request).
Proof.
  intros Hcode. unfold join_by_intent. rewrite Hcode. apply access_holds; [done|]. intros n g Hg.
  destruct (join_intent request) as [[] ? ?|? ? ?]; (apply own_with_room; [auto with relay nocore|done]).
Qed.

#[local] Hint Resolve joined_session_confined join_by_intent_confined : relay.

Lemma control_session_confined request wakeups :
  join_invite_code request = code →
  keeps (holds I) (handle_websocket_session services env c request wakeups).
Proof. intros Hcode. unfold handle_websocket_session, subscribe. keeps_go. Qed.

(** *** The input socket *)

Lemma reject_v5_message_confined reason : keeps (holds I) (reject_v5_message env code c reason).
Proof. unfold reject_v5_message. keeps_go. Qed.

Lemma close_input_socket_confined reason message :
  keeps (holds I) (close_input_socket env code c reason message).
Proof. unfold close_input_socket, send_text. keeps_go. Qed.

Lemma sent_binary_confined payload : keeps (holds I) (sent_binary env payload).
Proof. unfold sent_binary, send_binary_message. keeps_go. Qed.

#[local] Hint Resolve reject_v5_message_confined close_input_socket_confined sent_binary_confined : relay.

Lemma handle_strict_input_confined payload : keeps (holds I) (handle_strict_input env code c payload).
Proof. unfold handle_strict_input. keeps_go. Qed.

Lemma handle_host_open_confined payload : keeps (holds I) (handle_host_open services env code c payload).
Proof. unfold handle_host_open. keeps_go. Qed.

Lemma relay_input_result_confined result : keeps (holds I) (relay_input_result env code c result).
Proof. unfold relay_input_result. keeps_go. Qed.

#[local] Hint Resolve handle_strict_input_confined handle_host_open_confined
  relay_input_result_confined : relay.

Lemma handle_input_incoming_confined version at_ incoming limiter :
  keeps (holds I) (handle_input_incoming services env code c version at_ incoming limiter).
Proof.
  unfold handle_input_incoming, handle_v5_binary_message, handle_fast_input, handle_legacy_input. keeps_go.
Qed.

Lemma handle_input_event_confined version event :
  keeps (holds I) (handle_input_event env c version event).
Proof. unfold handle_input_event, send_encoded. keeps_go. Qed.

#[local] Hint Resolve handle_input_incoming_confined handle_input_event_confined : relay.

Lemma input_session_loop_confined version wakeups limiter :
  keeps (holds I) (input_session_loop services env code c version wakeups limiter).
Proof.
  revert limiter. induction wakeups as [|[at_ incoming|event] wakeups IH]; intros limiter;
    cbn [input_session_loop]; keeps_go.
Qed.

#[local] Hint Resolve input_session_loop_confined : relay.

Lemma input_session_confined request opened_at wakeups :
  input_invite_code request = code →
  keeps (holds I) (handle_websocket_input_session services env c request opened_at wakeups).
Proof.
  intros Hcode. unfold handle_websocket_input_session, subscribe, send_upgrade_text, detach_input, send_text.
  rewrite Hcode. keeps_go.
Qed.
End confined.
