(* ===== verification/SocketPanics.v ===== *)
(** * No message makes a socket task panic

  [calm m]: the task [m] does not panic, in any environment and any state. The decoders
  index their input only where it is long enough, and the [expect]s of the registry hold, so
  that every handler is calm. *)

From Stdlib Require Import Strings.Byte.
From S2P Require Import Prelude Ids Wire StrictInput StrictInputCodec Text Compatibility Descriptor Protocol.
From S2P Require Import Invite Slots LegacyCodec RoomTransactions Room RoomEvents StoredRoom Registry RegistryRelay.
From S2P Require Import RegistryGuarantees Metrics FileRelay Messages Socket ControlSocket InputLimiter InputSocket.
Open Scope N_scope.

Definition calm {S F A} (m : SocketM S F A) : Prop := ∀ w, (m w).1 ≠ Err TaskPanicked.

Section calm.
Context {S F : Type} (env : Env S).

Lemma calm_bind {A B} (m : SocketM S F A) (k : A → SocketM S F B) :
  calm m → (∀ a, calm (k a)) → calm (m ≫= k).
Proof.
  intros Hm Hk w. specialize (Hm w). unfold mbind, M_bind.
  destruct (m w) as [[a|e] w']; [apply Hk|]. cbn in *. congruence.
Qed.

Lemma calm_ret {A} (a : A) : calm (mret (M := SocketM S F) a).
Proof. done. Qed.
Lemma calm_gets {A} (f : World S F → A) : calm (gets (E := Stop) f).
Proof. done. Qed.
Lemma calm_access {A} (op : nat → S → A * S) : calm (F := F) (access env op).
Proof. intros w. unfold access. by destruct (op _ _). Qed.
Lemma calm_consult {A} (f : nat → S → A) : calm (F := F) (consult env f).
Proof. apply calm_access. Qed.
Lemma calm_send (frame : F) : calm (send env frame).
Proof. intros w. unfold send. by destruct (delivers env _). Qed.
Lemma calm_count f : calm (count (S := S) (F := F) f).
Proof. done. Qed.
Lemma calm_succeeded (m : SocketM S F unit) : calm m → calm (succeeded m).
Proof. intros Hm w. specialize (Hm w). unfold succeeded. by destruct (m w) as [[[]|[]] w']. Qed.
End calm.

#[export] Hint Resolve calm_gets calm_access calm_consult calm_send calm_count calm_succeeded : relay.

Lemma calm_call_room {F E A} env (missing : E) code (body : N → Instant → M Cell E A) :
  calm (F := F) (call_room env missing code body).
Proof. apply calm_access. Qed.

Lemma calm_call_room_expect {F E A} env (missing : E) code (body : nat → M Cell (fault E) A) :
  (∀ n, never_panics (body n)) → calm (F := F) (call_room_expect env missing code body).
Proof.
  intros Hb w. unfold call_room_expect, mbind, M_bind, access, with_room.
  destruct (invite_codes _ !! _) as [s|]; [|done].
  match goal with |- context [body ?n ?cell] => specialize (Hb n cell); destruct (body n cell) as [[a|[]] c'] end;
    done.
Qed.

Lemma calm_transport_close {F} env kind code c reason :
  calm (F := F) (record_transport_close env kind code c reason).
Proof. unfold record_transport_close. apply calm_bind; [apply calm_access|done]. Qed.

Lemma calm_disconnect {F} services env code c : calm (F := F) (call_disconnect services env code c).
Proof. apply calm_access. Qed.

#[export] Hint Resolve calm_call_room calm_call_room_expect calm_transport_close calm_disconnect : relay.
#[export] Hint Resolve host_open_no_panic rom_grants_no_panic rom_completed_no_panic : relay.

(** Takes a handler apart: what is left are its calls. *)
Ltac calm_step :=
  lazymatch goal with
  | |- calm (mbind _ _) => apply calm_bind; [|intros ?]
  | |- calm (mret _) => apply calm_ret
  | |- calm (match ?x with _ => _ end) => destruct x eqn:?
  | |- calm _ => solve [auto with relay nocore]
  end.
Ltac calm_go := repeat (calm_step; cbv beta zeta).

(** ** The control socket *)

Lemma calm_send_server_message env message : calm (send_server_message env message).
Proof. apply calm_send. Qed.
Lemma calm_send_room_error env error : calm (send_room_error env error).
Proof. apply calm_send. Qed.
Lemma calm_send_static_error env code message : calm (send_static_error env code message).
Proof. apply calm_send. Qed.

#[export] Hint Resolve calm_send_server_message calm_send_room_error calm_send_static_error : relay.

Lemma calm_apply_call {A} env code (body : N → Instant → M Cell RoomError A) : calm (apply_call env code body).
Proof. unfold apply_call, apply_room_result. calm_go. Qed.
Lemma calm_check_epochs env code re se : calm (check_epochs env code re se).
Proof. unfold check_epochs, validate_epochs, apply_room_result. calm_go. Qed.
Lemma calm_rom_relay_request services env code c : calm (handle_rom_relay_request services env code c).
Proof. unfold handle_rom_relay_request. calm_go. Qed.
Lemma calm_snapshot_relay_request services env code c manifest :
  calm (handle_snapshot_file_relay_request services env code c manifest).
Proof. unfold handle_snapshot_file_relay_request. calm_go. Qed.
Lemma calm_refresh_voice_token services env code c : calm (handle_refresh_voice_token services env code c).
Proof. unfold handle_refresh_voice_token, refresh_voice_token. calm_go. Qed.

#[export] Hint Resolve calm_apply_call calm_check_epochs calm_rom_relay_request calm_snapshot_relay_request
  calm_refresh_voice_token : relay.

Lemma calm_client_message services env code c message : calm (handle_client_message services env code c message).
Proof.
  unfold handle_client_message. unfold_arms. unfold apply_room_result, blocked_unless_ok, server_time_ms.
  destruct message; calm_go.
Qed.

#[export] Hint Resolve calm_client_message : relay.

Lemma calm_incoming services env code c incoming : calm (handle_incoming services env code c incoming).
Proof. unfold handle_incoming, handle_client_text. calm_go. Qed.
Lemma calm_room_event env c event : calm (handle_room_event env c event).
Proof. unfold handle_room_event. calm_go. Qed.

#[export] Hint Resolve calm_incoming calm_room_event : relay.

Lemma calm_session_loop services env code c wakeups : calm (session_loop services env code c wakeups).
Proof. induction wakeups as [|[incoming|event] wakeups IH]; cbn [session_loop]; calm_go. Qed.

#[export] Hint Resolve calm_session_loop : relay.

Lemma calm_control_session services env c request wakeups :
  calm (handle_websocket_session services env c request wakeups).
Proof.
  unfold handle_websocket_session, joined_session, subscribe, join_by_intent, send_upgrade_error. calm_go.
Qed.

(** ** The input socket *)

Lemma calm_sent_binary env payload : calm (sent_binary env payload).
Proof. apply calm_succeeded, calm_send. Qed.
Lemma calm_close_input_socket env code c reason message : calm (close_input_socket env code c reason message).
Proof. unfold close_input_socket, send_text. calm_go. Qed.
Lemma calm_reject env code c reason : calm (reject_v5_message env code c reason).
Proof. unfold reject_v5_message. calm_go. Qed.

#[export] Hint Resolve calm_sent_binary calm_close_input_socket calm_reject : relay.

Lemma calm_strict_input env code c payload : calm (handle_strict_input env code c payload).
Proof. unfold handle_strict_input. pose proof (batch_no_panic payload). calm_go. congruence. Qed.
Lemma calm_host_open services env code c payload : calm (handle_host_open services env code c payload).
Proof. unfold handle_host_open. pose proof (open_no_panic payload). calm_go. congruence. Qed.
Lemma calm_relay_input_result env code c result : calm (relay_input_result env code c result).
Proof. unfold relay_input_result. calm_go. Qed.

#[export] Hint Resolve calm_strict_input calm_host_open calm_relay_input_result : relay.

Lemma calm_legacy_input env code c payload : calm (handle_legacy_input env code c payload).
Proof. unfold handle_legacy_input. pose proof (decode_input_batch_no_panic payload). calm_go. congruence. Qed.
Lemma calm_fast_input env code c payload : calm (handle_fast_input env code c payload).
Proof.
  unfold handle_fast_input. destruct (decode_fast_total payload) as (r & -> & Hr). calm_go. congruence.
Qed.

#[export] Hint Resolve calm_legacy_input calm_fast_input : relay.

Lemma calm_input_incoming services env code c version at_ incoming limiter :
  calm (handle_input_incoming services env code c version at_ incoming limiter).
Proof. unfold handle_input_incoming, handle_v5_binary_message. calm_go. Qed.
Lemma calm_input_event env c version event : calm (handle_input_event env c version event).
Proof. unfold handle_input_event, send_encoded. calm_go. Qed.

#[export] Hint Resolve calm_input_incoming calm_input_event : relay.

Lemma calm_input_loop services env code c version wakeups limiter :
  calm (input_session_loop services env code c version wakeups limiter).
Proof.
  revert limiter. induction wakeups as [|[at_ incoming|event] wakeups IH]; intros limiter;
    cbn [input_session_loop]; calm_go.
Qed.

#[export] Hint Resolve calm_input_loop : relay.

Lemma calm_input_session services env c request opened_at wakeups :
  calm (handle_websocket_input_session services env c request opened_at wakeups).
Proof.
  unfold handle_websocket_input_session, subscribe, send_upgrade_text, detach_input, send_text. calm_go.
Qed.
