(* ===== verification/SocketGuarantees.v ===== *)
(** * Theorems about the sockets

  What a client can do through its control and input sockets, and what the sockets deliver.
  The handlers are those of ControlSocket and InputSocket, in any environment: any
  interleaving with other tasks, any clock readings, any lost write. *)

From Stdlib Require Import Strings.Byte.
From S2P Require Import Prelude Ids Wire StrictInput StrictInputCodec Text Compatibility Descriptor Protocol.
From S2P Require Import Invite Slots LegacyCodec RelayBuffer RoomTransactions Room StartSync Connection InputRelay HostFrame LinkOps.
From S2P Require Import System Scenario RoomEvents StoredRoom Registry RegistryRelay RegistryRefinement RegistryGuarantees.
From S2P Require Import Metrics FileRelay Messages Socket ControlSocket InputLimiter InputSocket.
From S2P Require Import SocketConfinement SocketPanics.
Open Scope N_scope.

(** ** A running example: the sample session, no other task, every write delivered *)

Definition quiet_env (now : Instant) : Env Registry :=
  mkEnv Registry (λ _ g, g) (λ _, 0) (λ _, now) (λ _, now) (λ _, ""%string) (λ _, ""%string) (λ _, 0) (λ _, true).

Definition sample_services : Services :=
  mkServices sample_deps DisabledFileRelayBroker (mkFileRelayPolicy false false 0 [] false)
    (λ _ _ _, None) (λ _, ""%string) (λ _, None).

Definition world_of {F} (g : Registry) : World Registry F := mkWorld g 0 0 [] InMemoryMetrics_new.

#[global] Strategy opaque [sample_registry].

(** ** Epochs of a message *)

(** The same message with other epochs. *)
Definition with_epochs (re se : N) (message : Client.ClientMessage) : Client.ClientMessage :=
  match message with
  | Client.Ping => Client.Ping
  | Client.ClockSyncPing ping => Client.ClockSyncPing ping
  | Client.ClockSyncSample _ _ x => Client.ClockSyncSample re se x
  | Client.SetCompatibilityFingerprint _ _ x => Client.SetCompatibilityFingerprint re se x
  | Client.SetLinkCableCompatibility _ _ x => Client.SetLinkCableCompatibility re se x
  | Client.Ready _ _ x => Client.Ready re se x
  | Client.DeterministicReady _ _ x y => Client.DeterministicReady re se x y
  | Client.SnapshotChunk _ _ x => Client.SnapshotChunk re se x
  | Client.SnapshotComplete _ _ x => Client.SnapshotComplete re se x
  | Client.SnapshotFileRelayRequested _ _ x => Client.SnapshotFileRelayRequested re se x
  | Client.SnapshotFileRelayUploadComplete _ _ x y => Client.SnapshotFileRelayUploadComplete re se x y
  | Client.RomRelayRequest _ _ => Client.RomRelayRequest re se
  | Client.RomRelayProgress _ _ x => Client.RomRelayProgress re se x
  | Client.RomRelayCompleted _ _ x => Client.RomRelayCompleted re se x
  | Client.RomRelayFailed _ _ x => Client.RomRelayFailed re se x
  | Client.RomRelayCancelled _ _ x => Client.RomRelayCancelled re se x
  | Client.InputFrame _ _ x => Client.InputFrame re se x
  | Client.LinkCablePacket _ _ x => Client.LinkCablePacket re se x
  | Client.Heartbeat _ _ x y z t => Client.Heartbeat re se x y z t
  | Client.RequestSessionPause _ _ x y z => Client.RequestSessionPause re se x y z
  | Client.SessionPauseReached _ _ x y => Client.SessionPauseReached re se x y
  | Client.RequestSessionResume _ _ x y z => Client.RequestSessionResume re se x y z
  | Client.PlayerExited _ _ x => Client.PlayerExited re se x
  | Client.RefreshVoiceToken _ _ => Client.RefreshVoiceToken re se
  | Client.StateHash _ _ x => Client.StateHash re se x
  | Client.StateRecoveryPinned _ _ x => Client.StateRecoveryPinned re se x
  end.

Section stale.
Context (services : Services) (env : Env Registry) (Hdelivers : ∀ n, delivers env n = true).
Context (code : InviteCode) (c : ConnectionId).

Lemma in_step_apply {A B} (result : result RoomError A) (result' : Prelude.result RoomError B) :
  in_step (apply_room_result env result) (apply_room_result env result').
Proof.
  intros w w' [Hs Ht]. unfold apply_room_result, send_room_error, send_server_message, send.
  by destruct result, result'; rewrite ?Hdelivers.
Qed.

Lemma in_step_check re se re' se' : in_step (check_epochs env code re se) (check_epochs env code re' se').
Proof.
  pose (view := consult (F := Server.ServerMessage) env (λ n, room_view (now_at env n) code)).
  refine (in_step_bind view view
    (λ room, apply_room_result env (room ≫= epochs_match re se))
    (λ room, apply_room_result env (room ≫= epochs_match re' se')) _ _).
  - apply in_step_access.
  - intros room. apply in_step_apply.
Qed.

Ltac in_step_go := repeat lazymatch goal with
  | |- in_step (check_epochs _ _ _ _) _ => apply in_step_check
  | |- in_step (apply_room_result _ _) _ => apply in_step_apply
  | |- in_step _ _ => in_step_rule
  end.

Lemma handle_in_step re se message :
  (∀ re se pin, message ≠ Client.StateRecoveryPinned re se pin) →
  in_step (handle_client_message services env code c (with_epochs re se message))
    (handle_client_message services env code c message).
Proof.
  intros Hpin. destruct message; cbn [with_epochs]; unfold handle_client_message; try by edestruct Hpin.
  all: unfold_arms.
  all: unfold apply_call, handle_rom_relay_request, handle_snapshot_file_relay_request,
    handle_refresh_voice_token, refresh_voice_token, server_time_ms, call_room, call_room_expect, consult, blocked_unless_ok,
    send_room_error, send_server_message.
  all: in_step_go.
Qed.
End stale.

(** ** The wake-up task *)

(** When the room's scheduled start is due, if it has one. *)
Definition start_time (code : InviteCode) (g : Registry) : option N :=
  s ← invite_codes g !! normalized code;
  start ← scheduled_start (stored_room s);
  Some (start_server_time_ms start).

Section wakeup.
Context (services : Services) (env : Env Registry) (code : InviteCode) (task : WakeupTask).
Let deps := service_deps services.

(** A round that retries found the start still ahead, and changed nothing. *)
Lemma wakeup_round_retry w r w' :
  wakeup_round services env code task w = (Ok (Some r), w') →
  let g := others env (tick w) (shared w) in
  let now := server_time_ms_at deps (now_at env (tick w)) in
  ∃ t, start_time code g = Some t ∧ now < t ∧ r = t - now ∧ shared w' = g ∧ tick w' = Datatypes.S (tick w).
Proof.
  unfold wakeup_round, mbind at 1, M_bind at 1, call_room, access, with_room, start_time. cbv zeta.
  set (g := others env (tick w) (shared w)).
  destruct (invite_codes g !! normalized code) as [s|] eqn:Hs; [|done].
  unfold release_scheduled_v5_host_frame, mbind at 1, M_bind at 1, get.
  cbn [cell_room]. destruct (_ || _); [done|]. unfold mbind at 1, M_bind at 1, lift_result.
  destruct (scheduled_start (stored_room s)) as [start|] eqn:Hst; cbn [ok_or]; [|done].
  fold deps. destruct (N.ltb_spec (server_time_ms_at deps (now_at env (tick w))) (start_server_time_ms start)).
  - intros [= <- <-]. cbn. rewrite Hst. eexists. split; [done|]. split; [done|]. split; [lia|]. split; [|done].
    rewrite insert_id by done. by destruct g.
  - unfold mbind, M_bind. destruct (emit_due_v5_server_frame _ _) as [[] s']; done.
Qed.

Lemma wakeup_round_ok w : ∃ o w', wakeup_round services env code task w = (Ok o, w').
Proof.
  unfold wakeup_round, mbind at 1, M_bind at 1. destruct (call_room _ _ _ _ w) as [[o|e] w'] eqn:E.
  - destruct o as [[]|]; by eexists _, _.
  - unfold call_room, access in E. by destruct (with_room _ _ _ _).
Qed.

(** The milliseconds that pass while the task sleeps. *)
Lemma server_time_after now now' ms :
  time_origin deps ≤ now → now + from_millis ms ≤ now' →
  server_time_ms_at deps now + ms ≤ u64_max →
  server_time_ms_at deps now + ms ≤ server_time_ms_at deps now'.
Proof.
  intros Ho Hs. unfold server_time_ms_at, duration_since, saturating_sub, as_millis, from_millis in *.
  assert ((now - time_origin deps) / 1000000 + ms ≤ (now' - time_origin deps) / 1000000).
  { rewrite <-N.div_add by lia. apply N.Div0.div_le_mono. lia. }
  repeat case_match; rewrite ?N.leb_le, ?N.leb_gt in *; lia.
Qed.
End wakeup.

(** ** What a player's batch becomes at the other socket *)

(** The events of the input lane that a call added. *)
Definition new_input_events (s s' : StoredRoom) : list RoomInputEvent :=
  drop (length (input_events s)) (input_events s').

(** The frames that a connected socket writes for a list of events. *)
Fixpoint deliver_input (env : Env Registry) (c : ConnectionId) (version : N) (events : list RoomInputEvent)
    : InputM bool :=
  match events with
  | [] => mret true
  | event :: events =>
      go_on ← handle_input_event env c version (Ok event);
      if (go_on : bool) then deliver_input env c version events else mret false
  end.

(** The part of a batch that the room had not seen is still a batch of the wire. *)
Lemma rest_of_batch_wf batch k first :
  StrictInputBatch_wf batch → (k < length (batch_payloads batch))%nat → is_u64 first →
  StrictInputBatch_wf (mkStrictInputBatch (batch_room_epoch batch) (batch_session_epoch batch)
                         (batch_player_index batch) first (drop k (batch_payloads batch))).
Proof.
  intros (? & ? & ? & ? & Hn & Hf) Hk Hu. split_and!; cbn; try done.
  - rewrite length_drop. lia.
  - rewrite length_drop. lia.
  - by apply Forall_drop.
Qed.

Lemma new_input_events_same s s' : input_events s' = input_events s → new_input_events s s' = [].
Proof. intros H. unfold new_input_events. by rewrite H, drop_all. Qed.

Lemma recorded_input_events {E} wall now kind detail cell :
  let cell' := (emit_recorded (E := E) (record_debug_event wall now kind detail) cell).2 in
  input_events (cell_room cell') = input_events (cell_room cell) ∧
  stored_room (cell_room cell') = stored_room (cell_room cell).
Proof. done. Qed.

Lemma synchronize_input_events s :
  input_events (synchronize_input_runtime_epoch s) = input_events s ∧
  stored_room (synchronize_input_runtime_epoch s) = stored_room s.
Proof. unfold synchronize_input_runtime_epoch. by destruct (_ && _). Qed.

Section strict_relay.
Context (wall : N) (now : Instant) (c : ConnectionId) (batch : StrictInputBatch) (cell : Cell).
Let r := stored_room (cell_room cell).
Let p := batch_player_index batch.

(** Either the room moved no cursor and forwarded nothing, or it forwarded the frames from
    the expected one on. *)
Definition relayed (cell' : Cell) : Prop :=
  stored_room (cell_room cell') = r ∧ new_input_events (cell_room cell) (cell_room cell') = [] ∨
  ∃ k, (k < length (batch_payloads batch))%nat ∧ expected_frame p r = batch_start_frame batch + N.of_nat k ∧
    expected_frame p r < u64_max ∧
    batch_room_epoch batch = room_epoch r ∧ batch_session_epoch batch = session_epoch r ∧
    new_input_events (cell_room cell) (cell_room cell')
    = [InputEventStrict c (mkStrictInputBatch (batch_room_epoch batch) (batch_session_epoch batch) p
                             (expected_frame p r) (drop k (batch_payloads batch)))].

Lemma relay_strict_spec :
  batch_payloads batch ≠ [] → relayed (relay_strict_input_batch wall now c batch cell).2.
Proof.
  intros Hne. pose proof (accept_strict_input_batch_spec c batch r Hne) as Hspec. unfold wp in Hspec.
  unfold relay_strict_input_batch, mbind at 1, M_bind at 1, attempt, on_netplay_room. fold r.
  destruct (accept_strict_input_batch c batch r) as [[o|e] r'] eqn:Ha; unfold mbind at 1, M_bind at 1, get.
  - destruct Hspec as [_ Hout]. unfold strict_outcome in Hout.
    destruct (outcome_accepted_batch o) as [b|] eqn:Hb.
    + right. destruct Hout as (-> & Hend & Hexp & _ & _ & Hre & Hse & -> & -> & _).
      assert (length (batch_payloads batch) ≠ 0%nat) by (by destruct (batch_payloads batch)).
      exists (N.to_nat (expected_frame p r - batch_start_frame batch)).
      unfold publish_strict. rewrite Hb. rewrite Hre, Hse. split_and!; [unfold p; lia|unfold p; lia|unfold p; lia|done|done|].
      unfold mbind, M_bind, on_stored_room, modify, new_input_events. cbn.
      unfold emit_strict_input_batch, send_input. cbn.
      rewrite (proj1 (synchronize_input_events _)). cbn. by rewrite drop_app_length.
    + left. destruct Hout as (-> & [(Hresp & _)|(received & reason & Hresp & _)]); rewrite Hresp.
      * unfold publish_strict. rewrite Hb. cbn. split; [done|]. by apply new_input_events_same.
      * destruct (transition_in_progress _); [|unfold publish_strict; rewrite Hb]; (split; [done|]);
          by apply new_input_events_same.
  - left. rewrite Hspec. destruct (is_transition_error e); (split; [done|]); by apply new_input_events_same.
Qed.
End strict_relay.

Lemma deliver_one env c version event w :
  (∀ n, delivers env n = true) →
  deliver_input env c version [event] w
  = (let '(o, w') := handle_input_event env c version (Ok event) w in (o, w')).
Proof.
  intros H. cbn [deliver_input]. unfold mbind, M_bind.
  destruct (handle_input_event _ _ _ _ _) as [[[]|] w']; done.
Qed.

Lemma sent_binary_delivered env payload w :
  (∀ n, delivers env n = true) →
  ∃ w', sent_binary env payload w = (Ok true, w') ∧ sent w' = sent w ++ [BinaryFrame payload].
Proof.
  intros H. unfold sent_binary, succeeded, send_binary_message, send. rewrite H. by eexists.
Qed.

(** ** Who is handed a transfer token *)

(** The file-relay token that a message carries. *)
Definition token_of (message : Server.ServerMessage) : option string :=
  match message with
  | Server.RomRelayGrantUpload _ _ grant | Server.RomRelayGrantDownload _ _ grant => Some (rgrant_token grant)
  | Server.SnapshotFileRelayUploadGranted _ _ grant | Server.SnapshotFileRelayDownloadReady _ _ grant =>
      Some (grant_token grant)
  | _ => None
  end.

(** The tokens that the control socket of [c] is sent for the events between two states of
    its room. *)
Definition tokens_for (c : ConnectionId) (s s' : StoredRoom) : list string :=
  omap (λ event, room_event_message c event ≫= token_of) (drop (length (events s)) (events s')).

Lemma grant_rom_upload_tokens wall now c grants cell cell' :
  grant_rom_relay_upload wall now c grants cell = (Ok tt, cell') →
  ∃ slot host,
    find_slot (has_role Host) (stored_room (cell_room cell)) = Some slot ∧
    slot_connection_id slot = Some host ∧
    ∀ c', tokens_for c' (cell_room cell) (cell_room cell')
          = if host ==? c' then [rgrant_token (rpair_upload grants)] else [].
Proof.
  unfold grant_rom_relay_upload, mbind at 1, M_bind at 1, failing, on_netplay_room.
  unfold accept_rom_relay_grants, mbind at 1, M_bind at 1, get, mbind at 1, M_bind at 1, lift_result.
  destruct (prepare_rom_relay_transfer c _) as [intent|] eqn:Hp; [|done]. intros H.
  assert (∃ slot, find_slot (has_role Host) (stored_room (cell_room cell)) = Some slot ∧
    slot_connection_id slot = Some (rintent_sender_connection intent)) as (slot & Hslot & Hc).
  { revert Hp. unfold prepare_rom_relay_transfer, mbind, result_bind.
    destruct (player_index_for_connection _ _); cbn [ok_or]; [|done].
    destruct (bool_decide _); [done|]. destruct (is_some _); [done|].
    destruct (rom_relay _); cbn [ok_or]; [|done]. destruct (negb _); [done|].
    destruct (rom_identity _); cbn [ok_or]; [|done].
    destruct (find_slot (has_role Host) _) as [sender|]; cbn [ok_or]; [|done].
    destruct (find_slot (has_index _) _) as [receiver|]; cbn [ok_or]; [|done]. destruct (_ || _); [done|].
    destruct (slot_connection_id sender) eqn:?; cbn [ok_or]; [|done].
    destruct (slot_connection_id receiver); cbn [ok_or]; [|done]. intros [= <-]. by eexists. }
  exists slot, (rintent_sender_connection intent). split_and!; [done..|]. intros c'.
  revert H. unfold on_stored_room_expect, emit_rom_relay_upload_granted, mbind, M_bind, get, expect, lift_result.
  cbn. intros [= <-]. unfold tokens_for. cbn. rewrite drop_app_length. cbn.
  by destruct (bool_decide _).
Qed.

Lemma rom_completed_tokens wall now c completion cell cell' :
  relay_rom_relay_completed wall now c completion cell = (Ok tt, cell') → completion_role completion = Upload →
  ∃ transfer, rom_relay_transfer (stored_room (cell_room cell)) = Some transfer ∧
    ∀ c', tokens_for c' (cell_room cell) (cell_room cell')
          = if rom_receiver_connection transfer ==? c' then [rgrant_token (rom_download_grant transfer)] else [].
Proof.
  unfold relay_rom_relay_completed, mbind at 1, M_bind at 1, failing, on_netplay_room, accept_rom_relay_completion.
  destruct (rom_relay_transfer _) as [transfer|] eqn:Ht; [|done].
  destruct (accept_completion _ _ _) as [[peer|] transfer'] eqn:Ha; [|done]. intros H Hrole. rewrite Hrole in H.
  exists transfer. split; [done|]. intros c'.
  assert (rom_receiver_connection transfer' = rom_receiver_connection transfer ∧
          rom_download_grant transfer' = rom_download_grant transfer) as [<- <-].
  { revert Ha. unfold accept_completion, mbind, M_bind, get, ensure. rewrite Hrole.
    destruct (bool_decide _); [|done]. destruct (bool_decide _); [|done]. destruct (bool_decide _); [|done].
    by intros [= _ <-]. }
  revert H. unfold on_stored_room_expect, emit_rom_relay_download_granted, mbind, M_bind, get, expect, lift_result.
  cbn. intros [= <-]. unfold tokens_for. cbn. rewrite <-app_assoc, drop_app_length. cbn.
  destruct (bool_decide (c = c')); cbn; by destruct (bool_decide _).
Qed.

Module Sockets.

(** C15: a socket acts only for itself. Whatever a client sends on its control socket or on its
    input socket, and however the task interleaves with others, the registry changes only by
    calls on the room the socket joined, in the name of its own connection, and by the steps of
    the other tasks. *)
Theorem sessions_act_only_as_themselves services env c :
  (∀ request wakeups w,
     rtc (socket_step (service_deps services) env (join_invite_code request) c)
       (shared w) (shared (handle_websocket_session services env c request wakeups w).2)) ∧
  (∀ request opened_at wakeups w,
     rtc (socket_step (service_deps services) env (input_invite_code request) c)
       (shared w) (shared (handle_websocket_input_session services env c request opened_at wakeups w).2)).
Proof.
  split.
  - intros request wakeups w.
    apply (control_session_confined services env (join_invite_code request) c
             (rtc (socket_step _ env _ c) (shared w))); [..|done|by apply rtc_refl].
    + intros n g Hg. eapply rtc_r; [done|]. right. by exists n.
    + intros wall now call g Hc Hg. eapply rtc_r; [done|]. left. by exists wall, now, call.
  - intros request opened_at wakeups w.
    apply (input_session_confined services env (input_invite_code request) c
             (rtc (socket_step _ env _ c) (shared w))); [..|done|by apply rtc_refl].
    + intros n g Hg. eapply rtc_r; [done|]. right. by exists n.
    + intros wall now call g Hc Hg. eapply rtc_r; [done|]. left. by exists wall, now, call.
Qed.


(** C29: the epochs of a message do not protect the room. For every message except the pin of a
    repair, the handler leaves the shared state as it would for the same message with any other
    epochs: a message that is answered with a stale-epoch error has been applied all the same. *)
Theorem stale_epochs_are_applied services env code c message re se w :
  (∀ n, delivers env n = true) →
  (∀ re se pin, message ≠ Client.StateRecoveryPinned re se pin) →
  shared (handle_client_message services env code c (with_epochs re se message) w).2
  = shared (handle_client_message services env code c message w).2.
Proof.
  intros Hd Hpin. by apply (handle_in_step services env Hd code c re se message Hpin).
Qed.

(** A pause request for epochs that the room never had: the client is told that they are
    stale, and the room is paused. *)
Lemma stale_epochs_are_applied_witness :
  let env := quiet_env (from_millis 5000) in
  let pause := Client.RequestSessionPause 77 78 "p" Menu 2 in
  let w := handle_client_message sample_services env sample_code host pause (world_of sample_registry) in
  w.1 = Ok tt ∧ sent w.2 = [room_error_message StaleRoomEpoch] ∧
  is_some (pause_state (stored_room (stored_at sample_code (shared w.2)))) = true ∧
  shared w.2 = shared (handle_client_message sample_services env sample_code host
                         (with_epochs 1 2 pause) (world_of sample_registry)).2.
Proof.
  cbv zeta. split; [vm_compute; reflexivity|]. split; [vm_compute; reflexivity|].
  split; [vm_compute; reflexivity|].
  symmetry. apply (stale_epochs_are_applied sample_services (quiet_env (from_millis 5000)) sample_code host
    (Client.RequestSessionPause 77 78 "p" Menu 2) 1 2 (world_of sample_registry)); [done|].
  intros ? ? ? H. discriminate H.
Defined.

(** Behind the sockets the registry keeps its guarantees. When the other tasks change it
    only by its operations, a session leaves it reachable, so that every theorem about
    reachable registries holds at every moment of every session; and when no other task runs,
    the rooms under every other invite code are exactly as before. *)
Theorem sessions_preserve_registry services env c request wakeups w :
  let w' := (handle_websocket_session services env c request wakeups w).2 in
  ((∀ n g, reachable (service_deps services) g → reachable (service_deps services) (others env n g)) →
   reachable (service_deps services) (shared w) → reachable (service_deps services) (shared w')) ∧
  ((∀ n g, others env n g = g) → ∀ k, k ≠ normalized (join_invite_code request) →
   invite_codes (shared w') !! k = invite_codes (shared w) !! k).
Proof.
  cbv zeta. split.
  - intros Ho Hw. apply (control_session_confined services env (join_invite_code request) c
      (reachable (service_deps services))); [done| |done|done]. intros. by constructor.
  - intros Ho k Hk. apply (control_session_confined services env (join_invite_code request) c
      (λ g, invite_codes g !! k = invite_codes (shared w) !! k)); [| |done|done].
    + intros n g Hg. by rewrite Ho.
    + intros wall now call g Hc <-. apply (serve_lookup_ne _ _ _ _ _ (normalized (join_invite_code request))); [|done].
      destruct call; cbn in *; naive_solver.
Qed.

Lemma sessions_preserve_registry_witness :
  let env := quiet_env (from_millis 20000) in
  let request := mkWebSocketJoinRequest other_code (InitialJoin JoinAsGuest (Sample.license "guest") false)
                   true true true true true in
  let w := handle_websocket_session sample_services env guest request [FromPeer None] (world_of sample_registry) in
  w.1 = Ok true ∧ length (sent w.2) = 1%nat ∧ reachable sample_deps (shared w.2) ∧
  invite_codes (shared w.2) !! normalized sample_code = invite_codes sample_registry !! normalized sample_code.
Proof.
  cbv zeta. split; [vm_compute; reflexivity|]. split; [vm_compute; reflexivity|].
  pose proof (sessions_preserve_registry sample_services (quiet_env (from_millis 20000)) guest
    (mkWebSocketJoinRequest other_code (InitialJoin JoinAsGuest (Sample.license "guest") false)
       true true true true true) [FromPeer None] (world_of sample_registry)) as [Hr Hk].
  split; [apply Hr; [intros n g H; exact H|exact sample_reachable]|].
  apply Hk; [reflexivity|]. vm_compute. discriminate.
Defined.


(** The sample session with its first frame held: the host opened frame 0 at 1,030 ms. *)
Definition held_registry : Registry := serve_all (take 20 sample_calls) Registry_new.

Definition sleeping_env : Env Registry :=
  mkEnv Registry (λ _ g, g) (λ _, 0) (λ n, from_millis (1030 + 4000 * N.of_nat n)) (λ _, 0)
    (λ _, ""%string) (λ _, ""%string) (λ _, 0) (λ _, true).

Lemma held_start : start_time sample_code held_registry = Some 4020.
Proof. vm_compute. reflexivity. Qed.

#[local] Strategy opaque [held_registry].


(** C16: a player's input arrives as it was sent. When the relay takes a v5 message of one player,
    the other player's input socket stays open and is written one binary message, which decodes
    to exactly the frames the room had not seen, from the frame the room expects; or nothing, and
    then the room has moved no cursor. The sender's own socket is written nothing. *)
Theorem strict_input_reaches_peer payload batch wall now c cell env c' version w :
  decode_strict_input_batch payload = Ok batch →
  c' ≠ c → 5 ≤ version → (∀ n, delivers env n = true) →
  let r := stored_room (cell_room cell) in
  let cell' := (relay_strict_input_batch wall now c batch cell).2 in
  let added := new_input_events (cell_room cell) (cell_room cell') in
  (deliver_input env c version added w).1 = Ok true ∧ sent (deliver_input env c version added w).2 = sent w ∧
  (deliver_input env c' version added w).1 = Ok true ∧
  (sent (deliver_input env c' version added w).2 = sent w ∧ stored_room (cell_room cell') = r ∨
   ∃ p k, sent (deliver_input env c' version added w).2 = sent w ++ [BinaryFrame p] ∧
     decode_strict_input_batch p
     = Ok (mkStrictInputBatch (room_epoch r) (session_epoch r) (batch_player_index batch)
             (expected_frame (batch_player_index batch) r) (drop k (batch_payloads batch))) ∧
     expected_frame (batch_player_index batch) r = batch_start_frame batch + N.of_nat k).
Proof.
  intros Hdec Hne Hv Hd. cbv zeta. destruct (batch_canonical _ _ Hdec) as [Hwf _].
  assert (batch_payloads batch ≠ []) as Hp.
  { destruct Hwf as (_ & _ & _ & _ & Hn & _). intros H. rewrite H in Hn. cbn in Hn. lia. }
  destruct (relay_strict_spec wall now c batch cell Hp) as [[Hr ->]|(k & Hk & Hexp & Hlt & Hre & Hse & ->)].
  - cbn. split_and!; try done. by left.
  - assert ((version <? 5) = false) as Hv5 by (apply N.ltb_ge; lia).
    destruct (batch_roundtrip _ (rest_of_batch_wf batch k _ Hwf Hk (N.lt_le_incl _ _ Hlt))) as (q & Henc & Hq).
    destruct (sent_binary_delivered env q w Hd) as (w' & Hw' & Hsent).
    rewrite !deliver_one by done. cbn [handle_input_event]. rewrite Hv5, Henc. cbn [send_encoded].
    rewrite (bool_decide_true (c = c)), (bool_decide_false (c = c')) by congruence. cbn [orb].
    rewrite Hw'. cbn. split_and!; try done. right. exists q, k. by rewrite Hq, Hre, Hse.
Qed.

Lemma strict_input_reaches_peer_witness :
  let batch := mkStrictInputBatch 2 2 PlayerIndex_TWO 0 (repeat (repeat x01 10) 3) in
  let cell := mkCell (stored_at sample_code sample_registry) (feed sample_registry) in
  let cell' := (relay_strict_input_batch 0 (from_millis 10040) guest_input batch cell).2 in
  let added := new_input_events (cell_room cell) (cell_room cell') in
  (deliver_input (quiet_env 0) host_input 5 added (world_of sample_registry)).1 = Ok true.
Proof.
  apply (strict_input_reaches_peer
    (match encode_strict_input_batch (mkStrictInputBatch 2 2 PlayerIndex_TWO 0 (repeat (repeat x01 10) 3)) with
     | Ok p => p | Err _ => [] end)
    (mkStrictInputBatch 2 2 PlayerIndex_TWO 0 (repeat (repeat x01 10) 3)) 0 (from_millis 10040) guest_input
    (mkCell (stored_at sample_code sample_registry) (feed sample_registry))
    (quiet_env 0) host_input 5 (world_of sample_registry)).
  - vm_compute. reflexivity.
  - discriminate.
  - lia.
  - reflexivity.
Defined.

(** C18: a transfer token is handed to one socket only. When a ROM transfer is granted, the upload
    token of the broker goes to the control socket of the host that holds the room's host slot at
    that moment and to no other; when the upload is reported complete, the download token goes to
    the control socket of the receiver and to no other. *)
Theorem rom_tokens_are_private services env code c w :
  (∀ w', handle_rom_relay_request services env code c w = (Ok (Ok tt), w') →
   ∃ n request response s s' slot host,
     create_transfer (file_relay services) n request = Ok response ∧
     invite_codes (others env n (others env (tick w) (shared w))) !! normalized code = Some s ∧
     invite_codes (shared w') !! normalized code = Some s' ∧
     find_slot (has_role Host) (stored_room s) = Some slot ∧ slot_connection_id slot = Some host ∧
     ∀ c', tokens_for c' s s' = if host ==? c' then [fr_upload_token response] else []) ∧
  (∀ wall now completion cell cell',
   relay_rom_relay_completed wall now c completion cell = (Ok tt, cell') →
   completion_role completion = Upload →
   ∃ transfer, rom_relay_transfer (stored_room (cell_room cell)) = Some transfer ∧
     ∀ c', tokens_for c' (cell_room cell) (cell_room cell')
           = if rom_receiver_connection transfer ==? c'
             then [rgrant_token (rom_download_grant transfer)] else []).
Proof.
  split; [|intros wall now completion cell cell'; apply rom_completed_tokens].
  intros w'. unfold handle_rom_relay_request. do 2 (destruct (negb _); [done|]).
  destruct (public_base_url _) as [url|]; [|done].
  unfold mbind at 1, M_bind at 1, consult, access. destruct (prepare_rom_relay code c _) as [intent|]; [|done].
  unfold mbind at 1, M_bind at 1, gets. cbn [tick].
  destruct (create_transfer _ _ _) as [response|] eqn:Hresp; [|done].
  unfold call_room_expect, mbind at 1, M_bind at 1, access. cbn [tick shared]. unfold with_room.
  destruct (invite_codes _ !! normalized code) as [s|] eqn:Hs; [|done].
  destruct (grant_rom_relay_upload _ _ _ _ _) as [[[]|[|e]] cell'] eqn:Hg; [|done..].
  intros [= <-]. apply grant_rom_upload_tokens in Hg as (slot & host & Hslot & Hhost & Htok).
  eexists _, _, response, s, (cell_room cell'), slot, host.
  split; [exact Hresp|]. split; [exact Hs|]. split; [cbn; apply lookup_insert_eq|]. done.
Qed.

(** A broker that answers, a room that allows the transfer, and both players present. *)
Definition rom_policy : FileRelayPolicy := mkFileRelayPolicy false true 4096 ["snes"%string] false.
Definition rom_broker : FileRelayBroker :=
  mkFileRelayBroker true (Some "https://relay"%string)
    (λ _ _, Ok (mkCreateFileRelayTransferResponse "tx" 1024 1 "up" "down" "2026-01-01T00:00:00Z")).
Definition rom_services : Services :=
  mkServices sample_deps rom_broker rom_policy (λ _ _ _, None) (λ _, "room"%string) (λ _, None).
Definition rom_session : NetplaySessionDescriptor :=
  let s := Sample.controller_session in
  let s := mkNetplaySessionDescriptor (Some AndroidClient) None (room_mode s) (mode s) (game s) (core s)
             (controller s) None None (rom_identity s) MissingPeerOnly None in
  s <| rom_relay := direct_rom_relay_capability rom_policy rom_broker s |>.
Definition rom_registry : Registry :=
  serve_all
    [(0, CallCreate (mkRoomId 7) sample_code "a" "b" None (Sample.license "host") host rom_session 5);
     (0, CallRoom sample_code (CallConnectHost "c" "d" (Sample.license "host") host capabilities));
     (0, CallRoom sample_code (CallConnectGuest "e" "f" (Sample.license "guest") guest capabilities))]
    Registry_new.

Lemma rom_request_granted :
  (handle_rom_relay_request rom_services (quiet_env 0) sample_code guest (world_of rom_registry)).1 = Ok (Ok tt).
Proof. vm_compute. reflexivity. Qed.

#[local] Strategy opaque [rom_registry].

Lemma rom_tokens_are_private_witness :
  ∃ w' s s' slot host,
    handle_rom_relay_request rom_services (quiet_env 0) sample_code guest (world_of rom_registry)
    = (Ok (Ok tt), w') ∧
    invite_codes rom_registry !! normalized sample_code = Some s ∧
    find_slot (has_role Host) (stored_room s) = Some slot ∧ slot_connection_id slot = Some host ∧
    ∀ c', tokens_for c' s s' = if host ==? c' then ["up"%string] else [].
Proof.
  pose proof rom_request_granted as H.
  destruct (handle_rom_relay_request rom_services (quiet_env 0) sample_code guest (world_of rom_registry))
    as [o w'] eqn:E. cbn in H. subst o.
  destruct (proj1 (rom_tokens_are_private rom_services (quiet_env 0) sample_code guest (world_of rom_registry)) w' E)
    as (n & request & response & s & s' & slot & host & [= <-] & Hs & _ & Hslot & Hhost & Htok).
  exists w', s, s', slot, host. split_and!; assumption || reflexivity.
Defined.
End Sockets.
