(* ===== verification/LobbySocket.v ===== *)
(** * The lobby sockets

  Models [src/src/protocol/lobby_messages.rs], the session of
  [src/src/transport/websocket_lobby_session.rs] with its ROM and startup-state relay
  handlers, [websocket_lobby_outbound.rs], [websocket_lobby_file_relay_grants.rs] and the
  public directory of [websocket_public_lobbies_session.rs]. The task's clock readings are
  milliseconds since the epoch here: [wall_at] stamps the debug event of an access, [now_at]
  and [now'_at] are its operation's. *)

From Stdlib Require Import Strings.Byte.
From S2P Require Import Prelude Ids Wire Text Descriptor Invite Protocol Slots SnapshotTransfer.
From S2P Require Import RoomTransactions StartSync LinkOps Registry Lobby LobbyEvents LobbyRegistry.
From S2P Require Import Metrics FileRelay Socket ControlSocket.
Open Scope N_scope.

(** ** lobby_messages.rs *)

Module LobbyClient.
Inductive LobbyClientMessage :=
| Ping
| SelectGame (lobby_epoch : N) (game : LobbyGameCandidate)
| SetGameReadiness (lobby_epoch proposal_id : N) (status : LobbyGameReadinessStatus) (detail : option string)
| LaunchGame (lobby_epoch proposal_id : N)
| RequestRomTransfer (lobby_epoch proposal_id receiver_player_index : N)
| RequestStartupStateTransfer (lobby_epoch proposal_id receiver_player_index : N)
    (state : LobbyStartupStateTransferMetadata)
| PublishGameRoom (lobby_epoch proposal_id : N) (room_invite_code : string)
| GameplayStarted (lobby_epoch proposal_id : N)
| ReturnToLobby (lobby_epoch proposal_id : N) (return_requested_by_player_index : option N)
    (reason : option LobbyReturnReason)
| Chat (lobby_epoch : N) (body : string)
| RefreshVoiceToken (lobby_epoch : N)
| RemovePlayer (lobby_epoch player_index : N)
| ReportActivity (lobby_epoch : N) (kind : LobbyActivityKind)
| Leave (lobby_epoch : N) (reason : option string).
End LobbyClient.

Module LobbyServer.
Inductive LobbyServerMessage :=
| Pong
| LobbyJoined (event_seq lobby_epoch your_player_index : N) (resume_token : string) (lobby : LobbyView)
    (voice : option PlayerVoiceJoinGrant)
| LobbyStateChanged (event_seq lobby_epoch : N) (lobby : LobbyView)
| LobbyReturned (event_seq lobby_epoch : N) (returned : LobbyReturnedView) (lobby : LobbyView)
| ChatMessage (message : LobbyChatMessageView)
| RomTransferUploadGranted (lobby_epoch : N) (grant : LobbyFileRelayGrant)
| RomTransferDownloadReady (lobby_epoch : N) (grant : LobbyFileRelayGrant)
| StartupStateTransferUploadGranted (lobby_epoch : N) (grant : LobbyFileRelayGrant)
| StartupStateTransferDownloadReady (lobby_epoch : N) (grant : LobbyFileRelayGrant)
| VoiceTokenRefreshed (event_seq lobby_epoch : N) (voice : PlayerVoiceJoinGrant)
| PlayerRemoved (event_seq lobby_epoch player_index : N) (reason : LobbyPlayerRemovalReason)
    (lobby : LobbyView)
| LobbyClosed (event_seq lobby_epoch : N) (reason : string) (lobby : LobbyView)
| Error (code message : string).
End LobbyServer.

(** ** websocket_lobby_outbound.rs *)

Definition lobby_static_error (code message : string) : LobbyServer.LobbyServerMessage :=
  LobbyServer.Error code message.

Definition lobby_error_message (error : LobbyError) : LobbyServer.LobbyServerMessage :=
  match error with
  | LobbyNotFound => lobby_static_error "lobbyNotFound" "Lobby was not found."
  | LobbyFull => lobby_static_error "lobbyFull" "Lobby is full."
  | LobbyClosed => lobby_static_error "lobbyClosed" "Lobby is closed."
  | StaleLobbyEpoch => lobby_static_error "staleLobbyEpoch" "Lobby state changed; refresh and retry."
  | LobbyResumeTokenInvalid =>
      lobby_static_error "lobbyResumeTokenInvalid" "Lobby reconnect token is invalid."
  | PlayerSlotUnavailable =>
      lobby_static_error "lobbyPlayerSlotUnavailable" "Lobby player slot is unavailable."
  | LobbyUnknownConnection =>
      lobby_static_error "unknownLobbyConnection" "Connection is not assigned to this lobby."
  | LobbyHostOnly => lobby_static_error "lobbyHostOnly" "Only Player 1 can perform this action."
  | PlayerRemovalHostOnly => lobby_static_error "hostOnly" "Only the lobby host can remove a player."
  | LobbyPlayerNotFound =>
      lobby_static_error "lobbyPlayerNotFound" "The selected lobby player is no longer present."
  | CannotRemoveLobbyHost =>
      lobby_static_error "cannotRemoveLobbyHost" "The lobby host cannot be removed."
  | LobbyPlayerRemovalUnavailable =>
      lobby_static_error "lobbyPlayerRemovalUnavailable"
        "Players cannot be removed while a game launch is active."
  | StaleGameProposal =>
      lobby_static_error "staleLobbyGameProposal" "Selected game changed; refresh and retry."
  | PlayersNotReady => lobby_static_error "lobbyPlayersNotReady" "Players are not ready yet."
  | GameLaunchNotReady =>
      lobby_static_error "lobbyGameLaunchNotReady" "Gameplay launch is not ready yet."
  | LobbyRomRelayUnavailable =>
      lobby_static_error "lobbyRomRelayUnavailable" "Temporary session access is not available."
  | LobbyRomRelayUnsupported =>
      lobby_static_error "lobbyRomRelayUnsupported"
        "Temporary session access is not supported by every player."
  | LobbyRomRelayTooLarge =>
      lobby_static_error "lobbyRomRelayTooLarge" "This game is too large for temporary session access."
  | StartupStateRelayUnavailable =>
      lobby_static_error "lobbyStartupStateRelayUnavailable" "Startup state transfer is not available."
  | StartupStateRelayUnsupported =>
      lobby_static_error "lobbyStartupStateRelayUnsupported"
        "Startup state transfer is not supported by every player."
  | StartupStateRelayTooLarge =>
      lobby_static_error "lobbyStartupStateRelayTooLarge"
        "This startup state is too large for temporary session access."
  | LobbyVoiceUnavailable => lobby_static_error "lobbyVoiceUnavailable" "Voice chat is unavailable."
  | LobbyInvalidPayload => lobby_static_error "invalidLobbyPayload" "Lobby payload is invalid."
  end.

(** ** websocket_lobby_file_relay_grants.rs *)

Record LobbyFileRelayGrantPairRequest := mkLobbyFileRelayGrantPairRequest {
  pair_response : CreateFileRelayTransferResponse;
  pair_relay_url : string;
  pair_material_kind : LobbyFileRelayMaterialKind;
  pair_proposal_id : N;
  pair_sender_player_index : PlayerIndex;
  pair_receiver_player_index : PlayerIndex;
  pair_sha256 : string;
  pair_size_bytes : N;
  pair_startup_state : option LobbyStartupStateTransferMetadata }.

Definition lobby_file_relay_grants (q : LobbyFileRelayGrantPairRequest) : LobbyFileRelayGrantPair :=
  let response := pair_response q in
  let grant token role :=
    mkLobbyFileRelayGrant (fr_transfer_id response) (pair_relay_url q) token role (pair_material_kind q)
      (pair_proposal_id q) (zero_based (pair_sender_player_index q)) (zero_based (pair_receiver_player_index q))
      (pair_sha256 q) (pair_size_bytes q) (fr_chunk_size_bytes response) (fr_chunk_count response)
      (fr_expires_at response) (pair_startup_state q) in
  mkLobbyFileRelayGrantPair (grant (fr_upload_token response) LobbyUpload)
    (grant (fr_download_token response) LobbyDownload).

(** ** The relay requests *)

Definition lobby_rom_relay_request (uuid : RoomId → string) (intent : LobbyRomRelayTransferIntent)
    : CreateFileRelayTransferRequest :=
  mkCreateFileRelayTransferRequest (uuid (lintent_lobby_id intent))
    (player_id (lintent_sender_player_index intent)) (player_id (lintent_receiver_player_index intent))
    RomTransfer (lintent_sha256 intent) (lintent_size_bytes intent) (Some ROM_FILE_RELAY_TTL_SECONDS)
    None None (Some (game_system_id (lintent_game intent))) (Some (game_core_id (lintent_game intent)))
    (Some (lintent_sha256 intent)) None None (Some (game_title (lintent_game intent))) true.

Definition STARTUP_STATE_FILE_RELAY_TTL_SECONDS : N := 600.

Definition create_startup_state_relay_request (uuid : RoomId → string)
    (intent : LobbyStartupStateRelayTransferIntent) : CreateFileRelayTransferRequest :=
  let state := sintent_state intent in
  let game := sintent_game intent in
  mkCreateFileRelayTransferRequest (uuid (sintent_lobby_id intent))
    (player_id (sintent_sender_player_index intent)) (player_id (sintent_receiver_player_index intent))
    SaveStateTransfer (state_sha256 state) (state_size_bytes state)
    (Some STARTUP_STATE_FILE_RELAY_TTL_SECONDS) None None (Some (game_system_id game))
    (Some (game_core_id game)) (game_content_sha256 game) None (Some "state"%string)
    (match state_label state with Some label => Some label | None => game_start_state_label game end) true.

Definition rom_relay_broker_failure_reason (error : FileRelayBrokerError) : string :=
  match error with
  | BrokerDisabled => "disabled"
  | BrokerInvalidUrl => "invalid-url"
  | BrokerRequestFailed => "request-failed"
  | BrokerRequestTimedOut => "request-timeout"
  | BrokerUnexpectedStatus status => ("status-" ++ decimal status)%string
  | BrokerInvalidResponse => "invalid-response"
  end.

Definition rom_relay_request_failure_detail (error : LobbyError) : string :=
  match error with
  | LobbyHostOnly => "temporary ROM relay rejected reason=host-only"
  | LobbyInvalidPayload => "temporary ROM relay rejected reason=invalid-payload"
  | PlayerSlotUnavailable => "temporary ROM relay rejected reason=player-slot-unavailable"
  | LobbyRomRelayTooLarge => "temporary ROM relay rejected reason=too-large"
  | LobbyRomRelayUnavailable => "temporary ROM relay unavailable reason=unavailable"
  | LobbyRomRelayUnsupported => "temporary ROM relay rejected reason=unsupported"
  | StaleGameProposal => "temporary ROM relay rejected reason=stale-game"
  | StaleLobbyEpoch => "temporary ROM relay rejected reason=stale-lobby"
  | LobbyUnknownConnection => "temporary ROM relay rejected reason=unknown-connection"
  | _ => "temporary ROM relay rejected reason=lobby-error"
  end.

Definition startup_state_relay_request_failure_detail (error : LobbyError) : string :=
  match error with
  | LobbyHostOnly => "startup state relay rejected reason=host-only"
  | LobbyInvalidPayload => "startup state relay rejected reason=invalid-payload"
  | PlayerSlotUnavailable => "startup state relay rejected reason=player-slot-unavailable"
  | StartupStateRelayTooLarge => "startup state relay rejected reason=too-large"
  | StartupStateRelayUnavailable => "startup state relay unavailable reason=unavailable"
  | StartupStateRelayUnsupported => "startup state relay rejected reason=unsupported"
  | StaleGameProposal => "startup state relay rejected reason=stale-game"
  | StaleLobbyEpoch => "startup state relay rejected reason=stale-lobby"
  | LobbyUnknownConnection => "startup state relay rejected reason=unknown-connection"
  | _ => "startup state relay rejected reason=lobby-error"
  end.

(** [p1->p2 bytes=.. reason=..]. *)
Definition broker_failed_detail (prefix : string) (sender receiver : PlayerIndex) (size_bytes : N)
    (error : FileRelayBrokerError) : string :=
  (transfer_detail prefix sender receiver size_bytes ++ " reason=" ++ rom_relay_broker_failure_reason error)%string.

(** ** What the lobby sockets need of [AppServices] *)

Record LobbyServices := mkLobbyServices {
  lobby_deps : LobbyDeps;
  lobby_file_relay : FileRelayBroker;
  lobby_file_relay_policy : FileRelayPolicy;
  lobby_issue_token : nat → string → IssueVoiceTokenBrokerRequest → option VoiceBrokerGrant;
  lobby_uuid_string : RoomId → string;
  lobby_from_json : bytes → option LobbyClient.LobbyClientMessage }.

Record WebSocketLobbyJoinRequest := mkWebSocketLobbyJoinRequest {
  ljoin_invite_code : InviteCode;
  ljoin_display_name : option string;
  ljoin_capabilities : LobbyClientCapabilities;
  ljoin_reconnect_player_index : option PlayerIndex;
  ljoin_reconnect_lobby_epoch : option N;
  ljoin_resume_token : option string;
  ljoin_license : VerifiedLicense }.

Definition LobbySocketM : Type → Type := SocketM LobbyRegistry LobbyServer.LobbyServerMessage.

(** A client that does not know of running games sees a launch that is ready. *)
Definition lobby_view_for_client (lobby : LobbyView) (capabilities : LobbyClientCapabilities) : LobbyView :=
  if negb (client_supports_lobby_gameplay_started capabilities) then
    let launch := (λ l,
      let l := if launch_status l ==? LaunchPlaying then l <| launch_status := LaunchReady |> else l in
      l <| launch_gameplay_started_at_ms := None |> <| launch_started_player_indexes := [] |>)
      <$> lv_pending_launch lobby in
    mkLobbyView (lv_lobby_id lobby) (lv_event_seq lobby) (lv_lobby_epoch lobby) (lv_invite_code lobby)
      (lv_created_at_ms lobby) (lv_updated_at_ms lobby) (lv_last_meaningful_activity_at_ms lobby)
      (lv_status lobby) (lv_visibility lobby) (lv_capabilities lobby) (lv_players lobby)
      (lv_selected_game lobby) (lv_game_readiness lobby) launch (lv_voice lobby)
  else lobby.

Section lobby_session.
Context (services : LobbyServices) (env : Env LobbyRegistry).
Let deps := lobby_deps services.

(** A method of the lobby registry. *)
Definition call_lobby {A} (code : InviteCode) (body : nat → N → N → LobbyCellM A)
    : LobbySocketM (result LobbyError A) :=
  access env (λ n, with_lobby code (body n (wall_at env n) (now_at env n))).

Definition send_lobby_server_message (message : LobbyServer.LobbyServerMessage) : LobbySocketM unit :=
  send env message.
Definition send_lobby_static_error (code message : string) : LobbySocketM unit :=
  send_lobby_server_message (lobby_static_error code message).
Definition send_lobby_error (error : LobbyError) : LobbySocketM unit :=
  send_lobby_server_message (lobby_error_message error).
Definition send_lobby_upgrade_error (error : LobbyError) : LobbySocketM unit :=
  _ ← succeeded (send_lobby_error error); mret tt.

Definition apply_lobby_result {A} (result : result LobbyError A) : LobbySocketM unit :=
  match result with
  | Ok _ => mret tt
  | Err error => send_lobby_error error
  end.

Definition validate_lobby_epoch (code : InviteCode) (epoch : N) : LobbySocketM (result LobbyError unit) :=
  lobby ← consult env (λ _, lobby_view_of code);
  mret (lobby ≫= λ lobby, if lv_lobby_epoch lobby !=? epoch then Err StaleLobbyEpoch else Ok tt).

(** [apply_lobby_result(sender, validate_lobby_epoch(..).await).await?]. *)
Definition check_lobby_epoch (code : InviteCode) (epoch : N) : LobbySocketM unit :=
  result ← validate_lobby_epoch code epoch; apply_lobby_result result.

Definition apply_lobby_call {A} (code : InviteCode) (body : nat → N → N → LobbyCellM A) : LobbySocketM unit :=
  result ← call_lobby code body; apply_lobby_result result.

(** ** The relay handlers *)

(** [let _ = lobbies.record_lobby_diagnostic(..)], then the error. *)
Definition fail_relay {A} (code : InviteCode) (kind detail : string) (error : LobbyError)
    : LobbySocketM (result LobbyError A) :=
  _ ← call_lobby code (λ _ wall _, record_lobby_diagnostic_body wall kind detail);
  mret (Err error).

(** The skeleton of both handlers: the policy, the intent, the broker, the grants. [prepare] and
    [grant] are the two calls on the registry. *)
Definition relay_request {Intent : Type} (code : InviteCode) (kind prefix : string) (unavailable : LobbyError)
    (allowed : bool) (prepare : nat → N → N → LobbyCellM Intent)
    (request : Intent → CreateFileRelayTransferRequest)
    (broker_failed : Intent → FileRelayBrokerError → string)
    (grant : Intent → CreateFileRelayTransferResponse → string → N → LobbyCellM unit)
    (failure_detail : LobbyError → string) : LobbySocketM (result LobbyError unit) :=
  if negb allowed then fail_relay code kind (prefix ++ " unavailable reason=disabled")%string unavailable
  else match public_base_url (lobby_file_relay services) with
       | None => fail_relay code kind (prefix ++ " unavailable reason=missing-public-url")%string unavailable
       | Some relay_url =>
           intent ← call_lobby code prepare;
           match intent with
           | Err error => fail_relay code kind (failure_detail error) error
           | Ok intent =>
               n ← gets tick;
               match create_transfer (lobby_file_relay services) n (request intent) with
               | Err error => fail_relay code kind (broker_failed intent error) unavailable
               | Ok response =>
                   granted ← call_lobby code (λ _ wall _, grant intent response relay_url wall);
                   match granted with
                   | Ok _ => mret (Ok tt)
                   | Err error => fail_relay code kind (failure_detail error) error
                   end
               end
           end
       end.

Definition handle_lobby_rom_relay_request (code : InviteCode) (c : ConnectionId) (proposal_id : N)
    (receiver : PlayerIndex) : LobbySocketM (result LobbyError unit) :=
  relay_request code "lobbyRomRelayFailed" "temporary ROM relay" LobbyRomRelayUnavailable
    (can_relay_temporary_roms (lobby_file_relay_policy services) (lobby_file_relay services))
    (λ _ wall now, prepare_lobby_rom_relay_transfer_body wall now c proposal_id receiver
                     (temporary_rom_max_bytes (lobby_file_relay_policy services)))
    (lobby_rom_relay_request (lobby_uuid_string services))
    (λ intent, broker_failed_detail "temporary ROM relay broker failed" (lintent_sender_player_index intent)
                 (lintent_receiver_player_index intent) (lintent_size_bytes intent))
    (λ intent response relay_url wall, grant_lobby_rom_relay_transfer_body wall intent
       (lobby_file_relay_grants (mkLobbyFileRelayGrantPairRequest response relay_url MaterialGame
          (lintent_proposal_id intent) (lintent_sender_player_index intent)
          (lintent_receiver_player_index intent) (lintent_sha256 intent) (lintent_size_bytes intent) None)))
    rom_relay_request_failure_detail.

Definition handle_lobby_startup_state_relay_request (code : InviteCode) (c : ConnectionId) (proposal_id : N)
    (receiver : PlayerIndex) (state : LobbyStartupStateTransferMetadata)
    : LobbySocketM (result LobbyError unit) :=
  relay_request code "lobbyStartupStateRelayFailed" "startup state relay" StartupStateRelayUnavailable
    (can_relay_save_states (lobby_file_relay_policy services) (lobby_file_relay services))
    (λ _ wall now, prepare_lobby_startup_state_relay_transfer_body wall now c proposal_id receiver state
                     MAX_SNAPSHOT_BYTES)
    (create_startup_state_relay_request (lobby_uuid_string services))
    (λ intent, broker_failed_detail "startup state relay broker failed" (sintent_sender_player_index intent)
                 (sintent_receiver_player_index intent) (state_size_bytes (sintent_state intent)))
    (λ intent response relay_url wall, grant_lobby_startup_state_relay_transfer_body wall intent
       (lobby_file_relay_grants (mkLobbyFileRelayGrantPairRequest response relay_url MaterialStartupState
          (sintent_proposal_id intent) (sintent_sender_player_index intent)
          (sintent_receiver_player_index intent) (state_sha256 (sintent_state intent))
          (state_size_bytes (sintent_state intent)) (Some (sintent_state intent)))))
    startup_state_relay_request_failure_detail.

(** [refresh_lobby_voice_token]: request, broker, update, and the record of the refresh. *)
Definition refresh_lobby_voice_token (code : InviteCode) (c : ConnectionId)
    : LobbySocketM (result LobbyError LobbyVoiceTokenRefresh) :=
  request ← consult env (λ _, refresh_lobby_voice_token_request deps code c);
  match request with
  | Err error => mret (Err error)
  | Ok request =>
      n ← gets tick;
      match lobby_issue_token services n (refresh_voice_room_id request)
              (mkIssueVoiceTokenBrokerRequest (display_number (refresh_player_index request))
                 (refresh_participant_identity request) (Some (refresh_display_name request))) with
      | None => mret (Err LobbyVoiceUnavailable)
      | Some grant =>
          refresh ← call_lobby code (λ _ _ _, refresh_lobby_voice_token_body c grant);
          match refresh with
          | Err error => mret (Err error)
          | Ok refresh =>
              access env (λ n g, (tt, record_voice_refresh (wall_at env n) code g)) ;;
              mret (Ok refresh)
          end
      end
  end.

(** ** websocket_lobby_session.rs *)

Definition invalid_player_index : LobbySocketM unit :=
  send_lobby_static_error "invalidLobbyPlayerIndex" "Lobby player slot is invalid.".

(** The arms of [handle_lobby_message], one definition each. *)

Definition on_select_game (code : InviteCode) (c : ConnectionId) (epoch : N)
    (game : LobbyGameCandidate) : LobbySocketM unit :=
  check_lobby_epoch code epoch ;;
  apply_lobby_call code (λ n wall now, select_lobby_game_body wall now (uuid_at env n) c game).

Definition on_set_game_readiness (code : InviteCode) (c : ConnectionId) (epoch proposal_id : N)
    (status : LobbyGameReadinessStatus) (detail : option string) : LobbySocketM unit :=
  check_lobby_epoch code epoch ;;
  apply_lobby_call code (λ _ wall now, set_lobby_game_readiness_body wall now c proposal_id status detail).

Definition on_launch_game (code : InviteCode) (c : ConnectionId) (epoch proposal_id : N) : LobbySocketM unit :=
  check_lobby_epoch code epoch ;;
  apply_lobby_call code (λ _ wall now, request_lobby_game_launch_body wall now c proposal_id).

Definition on_request_rom_transfer (code : InviteCode) (c : ConnectionId)
    (epoch proposal_id receiver : N) : LobbySocketM unit :=
  check_lobby_epoch code epoch ;;
  match PlayerIndex_new receiver MAX_LOBBY_PLAYERS with
  | None => invalid_player_index
  | Some receiver =>
      result ← handle_lobby_rom_relay_request code c proposal_id receiver;
      apply_lobby_result result
  end.

Definition on_request_startup_state_transfer (code : InviteCode) (c : ConnectionId)
    (epoch proposal_id receiver : N) (state : LobbyStartupStateTransferMetadata) : LobbySocketM unit :=
  check_lobby_epoch code epoch ;;
  match PlayerIndex_new receiver MAX_LOBBY_PLAYERS with
  | None => invalid_player_index
  | Some receiver =>
      result ← handle_lobby_startup_state_relay_request code c proposal_id receiver state;
      apply_lobby_result result
  end.

Definition on_publish_game_room (code : InviteCode) (c : ConnectionId) (epoch proposal_id : N)
    (room_invite_code : string) : LobbySocketM unit :=
  check_lobby_epoch code epoch ;;
  match InviteCode_parse (string_bytes room_invite_code) with
  | Err _ => send_lobby_static_error "invalidRoomInviteCode" "Gameplay invite code is invalid."
  | Ok room_invite =>
      apply_lobby_call code (λ _ wall now, publish_lobby_game_room_body wall now c proposal_id room_invite)
  end.

Definition on_gameplay_started (code : InviteCode) (c : ConnectionId)
    (epoch proposal_id : N) : LobbySocketM unit :=
  apply_lobby_call code (λ _ wall now, mark_lobby_gameplay_started_body deps wall now c epoch proposal_id).

Definition on_return_to_lobby (code : InviteCode) (c : ConnectionId) (epoch proposal_id : N)
    (requested_by : option N) (reason : option LobbyReturnReason) : LobbySocketM unit :=
  match requested_by with
  | Some player_index =>
      match PlayerIndex_new player_index MAX_LOBBY_PLAYERS with
      | None => send_lobby_error LobbyInvalidPayload
      | Some player_index =>
          apply_lobby_call code (λ _ wall now,
            return_lobby_from_game_body wall now c epoch proposal_id (Some player_index) reason)
      end
  | None =>
      apply_lobby_call code (λ _ wall now, return_lobby_from_game_body wall now c epoch proposal_id None reason)
  end.

Definition on_chat (code : InviteCode) (c : ConnectionId) (body : string) : LobbySocketM unit :=
  apply_lobby_call code (λ n wall now, send_lobby_chat_body wall now (uuid_at env n) (now'_at env n) c body).

Definition on_refresh_lobby_voice_token (code : InviteCode) (c : ConnectionId) (epoch : N) : LobbySocketM unit :=
  check_lobby_epoch code epoch ;;
  refresh ← refresh_lobby_voice_token code c;
  match refresh with
  | Ok refresh =>
      send_lobby_server_message (LobbyServer.VoiceTokenRefreshed (refreshed_event_seq refresh)
                                   (refreshed_lobby_epoch refresh) (refreshed_voice refresh))
  | Err error => send_lobby_error error
  end.

Definition on_remove_player (code : InviteCode) (c : ConnectionId) (epoch player_index : N) : LobbySocketM unit :=
  match PlayerIndex_new player_index MAX_LOBBY_PLAYERS with
  | None => invalid_player_index
  | Some player_index =>
      result ← access env (λ n, remove_lobby_player deps (wall_at env n) (now_at env n) code c epoch player_index);
      apply_lobby_result result
  end.

Definition on_report_activity (code : InviteCode) (c : ConnectionId) (epoch : N)
    (kind : LobbyActivityKind) : LobbySocketM unit :=
  check_lobby_epoch code epoch ;;
  apply_lobby_call code (λ _ wall now, record_lobby_activity_body wall now c kind).

Definition on_leave (code : InviteCode) (c : ConnectionId) (epoch : N) : LobbySocketM unit :=
  check_lobby_epoch code epoch ;;
  apply_lobby_call code (λ _ wall now, leave_lobby_body deps wall now c).

Definition handle_lobby_message (code : InviteCode) (c : ConnectionId)
    (message : LobbyClient.LobbyClientMessage) : LobbySocketM unit :=
  match message with
  | LobbyClient.Ping => send_lobby_server_message LobbyServer.Pong
  | LobbyClient.SelectGame epoch game => on_select_game code c epoch game
  | LobbyClient.SetGameReadiness epoch proposal_id status detail =>
      on_set_game_readiness code c epoch proposal_id status detail
  | LobbyClient.LaunchGame epoch proposal_id => on_launch_game code c epoch proposal_id
  | LobbyClient.RequestRomTransfer epoch proposal_id receiver =>
      on_request_rom_transfer code c epoch proposal_id receiver
  | LobbyClient.RequestStartupStateTransfer epoch proposal_id receiver state =>
      on_request_startup_state_transfer code c epoch proposal_id receiver state
  | LobbyClient.PublishGameRoom epoch proposal_id room_invite_code =>
      on_publish_game_room code c epoch proposal_id room_invite_code
  | LobbyClient.GameplayStarted epoch proposal_id => on_gameplay_started code c epoch proposal_id
  | LobbyClient.ReturnToLobby epoch proposal_id requested_by reason =>
      on_return_to_lobby code c epoch proposal_id requested_by reason
  | LobbyClient.Chat _ body => on_chat code c body
  | LobbyClient.RefreshVoiceToken epoch => on_refresh_lobby_voice_token code c epoch
  | LobbyClient.RemovePlayer epoch player_index => on_remove_player code c epoch player_index
  | LobbyClient.ReportActivity epoch kind => on_report_activity code c epoch kind
  | LobbyClient.Leave epoch _ => on_leave code c epoch
  end.

Definition handle_lobby_text (code : InviteCode) (c : ConnectionId) (payload : bytes) : LobbySocketM bool :=
  if MAX_WEBSOCKET_MESSAGE_BYTES <? N.of_nat (length payload)
  then succeeded (send_lobby_static_error "messageTooLarge" "Message is too large.")
  else match lobby_from_json services payload with
       | Some message => succeeded (handle_lobby_message code c message)
       | None => succeeded (send_lobby_static_error "invalidMessage" "Message JSON is invalid.")
       end.

Definition handle_lobby_incoming (code : InviteCode) (c : ConnectionId) (incoming : Received)
    : LobbySocketM bool :=
  match incoming with
  | Some (Ok (InText payload)) => handle_lobby_text code c payload
  | Some (Ok (InClose _)) | None | Some (Err _) => mret false
  | Some (Ok InPing) | Some (Ok InPong) => mret true
  | Some (Ok (InBinary _)) =>
      succeeded (send_lobby_static_error "unsupportedMessage" "Binary messages are not supported.")
  end.

(** What [handle_lobby_event] does with an event: the message it sends, and whether the session
    goes on after it ([Last]: the result of the send is dropped and the session ends). *)
Inductive EventReply :=
| Skip
| Reply (message : LobbyServer.LobbyServerMessage)
| Last (message : LobbyServer.LobbyServerMessage).

Definition lobby_event_reply (c : ConnectionId) (capabilities : LobbyClientCapabilities) (event : LobbyEvent)
    : EventReply :=
  let private (addressee : ConnectionId) m := if addressee !=? c then Skip else Reply m in
  match event with
  | LobbyStateChanged lobby =>
      let lobby := lobby_view_for_client lobby capabilities in
      Reply (LobbyServer.LobbyStateChanged (lv_event_seq lobby) (lv_lobby_epoch lobby) lobby)
  | LobbyReturned lobby returned =>
      let lobby := lobby_view_for_client lobby capabilities in
      Reply (if client_supports_lobby_returned_event capabilities
             then LobbyServer.LobbyReturned (lv_event_seq lobby) (lv_lobby_epoch lobby) returned lobby
             else LobbyServer.LobbyStateChanged (lv_event_seq lobby) (lv_lobby_epoch lobby) lobby)
  | ChatMessage message => Reply (LobbyServer.ChatMessage message)
  | LobbyClosedEvent lobby reason =>
      let lobby := lobby_view_for_client lobby capabilities in
      Last (LobbyServer.LobbyClosed (lv_event_seq lobby) (lv_lobby_epoch lobby) reason lobby)
  | PlayerRemoved target player_index reason lobby =>
      if target !=? c then Skip
      else if client_supports_lobby_player_removed_event capabilities then
        let lobby := lobby_view_for_client lobby capabilities in
        Last (LobbyServer.PlayerRemoved (lv_event_seq lobby) (lv_lobby_epoch lobby) player_index reason lobby)
      else Last (lobby_static_error "removedFromLobby" "The host removed you from the lobby.")
  | RomTransferUploadGranted source epoch grant =>
      private source (LobbyServer.RomTransferUploadGranted epoch grant)
  | RomTransferDownloadReady receiver epoch grant =>
      private receiver (LobbyServer.RomTransferDownloadReady epoch grant)
  | StartupStateTransferUploadGranted source epoch grant =>
      private source (LobbyServer.StartupStateTransferUploadGranted epoch grant)
  | StartupStateTransferDownloadReady receiver epoch grant =>
      private receiver (LobbyServer.StartupStateTransferDownloadReady epoch grant)
  end.

Definition handle_lobby_event (c : ConnectionId) (capabilities : LobbyClientCapabilities)
    (event : result RecvError LobbyEvent) : LobbySocketM bool :=
  match event with
  | Ok event =>
      match lobby_event_reply c capabilities event with
      | Skip => mret true
      | Reply message => succeeded (send_lobby_server_message message)
      | Last message => _ ← succeeded (send_lobby_server_message message); mret false
      end
  | Err (Lagged _) => succeeded (send_lobby_static_error "eventLagged" "Lobby event stream lagged.")
  | Err ChannelClosed => mret false
  end.

Inductive LobbyWakeup :=
| LobbyFromPeer (incoming : Received)
| LobbyFromLobby (event : result RecvError LobbyEvent).

Fixpoint lobby_session_loop (code : InviteCode) (c : ConnectionId) (capabilities : LobbyClientCapabilities)
    (wakeups : list LobbyWakeup) : LobbySocketM bool :=
  match wakeups with
  | [] => mret false
  | wakeup :: wakeups =>
      go_on ← match wakeup with
              | LobbyFromPeer incoming => handle_lobby_incoming code c incoming
              | LobbyFromLobby event => handle_lobby_event c capabilities event
              end;
      if (go_on : bool) then lobby_session_loop code c capabilities wakeups else mret true
  end.

(** [let _ = lobbies.disconnect_lobby(..)]. *)
Definition detach_lobby (code : InviteCode) (c : ConnectionId) : LobbySocketM unit :=
  _ ← call_lobby code (λ _ wall now, disconnect_lobby_body wall now c); mret tt.

Definition join_lobby_request (c : ConnectionId) (request : WebSocketLobbyJoinRequest)
    : LobbySocketM (result LobbyError LobbyJoin) :=
  let code := ljoin_invite_code request in
  let params := mkJoinLobbyParams (ljoin_display_name request) (ljoin_capabilities request) in
  match ljoin_reconnect_player_index request, ljoin_reconnect_lobby_epoch request, ljoin_resume_token request with
  | Some player_index, Some lobby_epoch, Some resume_token =>
      call_lobby code (λ _ wall now, reconnect_lobby_player_body deps wall now (ljoin_license request) params
                                       player_index lobby_epoch resume_token c)
  | _, _, _ =>
      call_lobby code (λ n wall now, connect_lobby_body deps wall now c (token_at env n) (ljoin_license request) params)
  end.

Definition handle_websocket_lobby_session (c : ConnectionId) (request : WebSocketLobbyJoinRequest)
    (wakeups : list LobbyWakeup) : LobbySocketM bool :=
  let code := ljoin_invite_code request in
  let capabilities := ljoin_capabilities request in
  events ← consult env (λ _, read_lobby code (λ _, Ok tt));
  match events with
  | Err error => send_lobby_upgrade_error error ;; mret true
  | Ok _ =>
      join ← join_lobby_request c request;
      match join with
      | Err error => send_lobby_upgrade_error error ;; mret true
      | Ok join =>
          let lobby := lobby_join_lobby join in
          greeted ← succeeded (send_lobby_server_message
            (LobbyServer.LobbyJoined (lv_event_seq lobby) (lv_lobby_epoch lobby)
               (zero_based (lobby_join_player_index join)) (lobby_join_resume_token join)
               (lobby_view_for_client lobby capabilities) (lobby_join_voice join)));
          if negb greeted then detach_lobby code c ;; mret true
          else
            ended ← lobby_session_loop code c capabilities wakeups;
            if (ended : bool) then detach_lobby code c ;; mret true else mret false
      end
  end.
End lobby_session.

(** Opens the arms of [handle_lobby_message]. *)
Ltac unfold_lobby_arms :=
  unfold on_select_game, on_set_game_readiness, on_launch_game, on_request_rom_transfer,
    on_request_startup_state_transfer, on_publish_game_room, on_gameplay_started,
    on_return_to_lobby, on_chat, on_refresh_lobby_voice_token, on_remove_player, on_report_activity,
    on_leave.

(** ** websocket_public_lobbies_session.rs *)

Section directory.
Context (env : Env LobbyRegistry).

Abbreviation DirectoryM := (SocketM LobbyRegistry (list PublicLobbySummary)).

Definition send_public_lobbies_snapshot : DirectoryM unit :=
  lobbies ← consult env (λ _, public_lobbies);
  send env lobbies.

Definition handle_public_lobbies_incoming (incoming : Received) : bool :=
  match incoming with
  | Some (Ok (InClose _)) | None | Some (Err _) => false
  | Some (Ok InPing) | Some (Ok InPong) => true
  | Some (Ok (InText _)) | Some (Ok (InBinary _)) => true
  end.

Inductive DirectoryWakeup :=
| DirectoryFromPeer (incoming : Received)
| DirectoryChanged (event : result RecvError unit).

Fixpoint directory_loop (wakeups : list DirectoryWakeup) : DirectoryM bool :=
  match wakeups with
  | [] => mret false
  | DirectoryFromPeer incoming :: wakeups =>
      if handle_public_lobbies_incoming incoming then directory_loop wakeups else mret true
  | DirectoryChanged (Ok _) :: wakeups | DirectoryChanged (Err (Lagged _)) :: wakeups =>
      ok ← succeeded send_public_lobbies_snapshot;
      if (ok : bool) then directory_loop wakeups else mret true
  | DirectoryChanged (Err ChannelClosed) :: _ => mret true
  end.

Definition handle_public_lobbies_websocket_session (wakeups : list DirectoryWakeup) : DirectoryM bool :=
  ok ← succeeded send_public_lobbies_snapshot;
  if (ok : bool) then directory_loop wakeups else mret true.
End directory.
