(* ===== verification/LobbySocketGuarantees.v ===== *)
(** * Theorems about the lobby sockets

  What a client can do through its lobby socket, what the socket delivers of the events of its
  lobby, and what the sockets of the public directory show. As for the other sockets, the
  theorems hold in any environment. *)

From Stdlib Require Import Strings.Byte.
From S2P Require Import Prelude Ids Wire Text Descriptor Invite Protocol Slots SnapshotTransfer.
From S2P Require Import RoomTransactions StartSync LinkOps Registry.
From S2P Require Import Lobby LobbyEvents LobbyRegistry LobbyInvariant LobbyCalls LobbyGuarantees.
From S2P Require Import Metrics FileRelay Socket ControlSocket LobbySocket.
Open Scope N_scope.

(** ** What a lobby socket can do to the registry *)

(** The connection in whose name an action is taken. *)
Definition actor (a : LobbyAction) : option ConnectionId :=
  match a with
  | DoJoin c _ _ _ | DoConnect c _ _ _ | DoReconnect _ _ _ _ _ c | DoDisconnect c | DoLeave c
  | DoRemove c _ _ | DoSelect _ c _ | DoReadiness c _ _ _ | DoLaunch c _ | DoPrepareRom c _ _ _
  | DoPrepareState c _ _ _ _ | DoPublish c _ _ | DoStarted c _ _ | DoReturn c _ _ _ _ | DoChat _ _ c _
  | DoRefreshVoice c _ | DoActivity c _ => Some c
  | DoGrantRom intent _ => Some (lintent_sender_connection_id intent)
  | DoGrantState intent _ => Some (sintent_sender_connection_id intent)
  | DoRecordRefresh | DoDiagnostic _ _ => None
  end.

(** An action in the name of [c], or one that only records a debug event. *)
Definition own_action (c : ConnectionId) (a : LobbyAction) : Prop :=
  match actor a with Some c' => c' = c | None => True end.

(** One step of the registry as a lobby socket sees it. *)
Definition lobby_socket_step (deps : LobbyDeps) (env : Env LobbyRegistry) (code : InviteCode) (c : ConnectionId)
    (g g' : LobbyRegistry) : Prop :=
  (∃ wall now a, own_action c a ∧ g' = lobby_serve deps wall now (OpAct code a) g)
  ∨ ∃ n, g' = others env n g.

(** The body of such an action. *)
Definition own_lobby_body {A} (deps : LobbyDeps) (c : ConnectionId) (m : LobbyCellM A) : Prop :=
  ∃ wall now a, own_action c a ∧ ∀ code, lobby_call deps wall now code a = settle code m.

Lemma settle_state {A} code (m : LobbyCellM A) g : (settle code m g).2 = (with_lobby code m g).2.
Proof.
  unfold settle, with_lobby. destruct (lobbies g !! normalized code); [|done].
  unfold mbind, M_bind. by destruct (m _) as [[] ?].
Qed.

(** A call that succeeds ran its body on the stored lobby. *)
Lemma call_lobby_ok {A} env code (body : nat → N → N → LobbyCellM A) w a w' :
  call_lobby env code body w = (Ok (Ok a), w') →
  ∃ n wall now cell cell', body n wall now cell = (Ok a, cell').
Proof.
  unfold call_lobby, access, with_lobby. destruct (lobbies _ !! _) as [s|]; [|done].
  destruct (body _ _ _ _) as [[i|] cell'] eqn:E; intros [= H _]; simplify_eq. eauto 10.
Qed.

Ltac name_action :=
  lazymatch goal with
  | |- own_lobby_body _ _ (connect_lobby_body _ ?w ?n ?c ?x ?y ?z) => exists w, n, (DoConnect c x y z)
  | |- own_lobby_body _ _ (reconnect_lobby_player_body _ ?w ?n ?x ?y ?z ?t ?u ?c) =>
      exists w, n, (DoReconnect x y z t u c)
  | |- own_lobby_body _ _ (disconnect_lobby_body ?w ?n ?c) => exists w, n, (DoDisconnect c)
  | |- own_lobby_body _ _ (leave_lobby_body _ ?w ?n ?c) => exists w, n, (DoLeave c)
  | |- own_lobby_body _ _ (select_lobby_game_body ?w ?n ?x ?c ?y) => exists w, n, (DoSelect x c y)
  | |- own_lobby_body _ _ (set_lobby_game_readiness_body ?w ?n ?c ?x ?y ?z) => exists w, n, (DoReadiness c x y z)
  | |- own_lobby_body _ _ (request_lobby_game_launch_body ?w ?n ?c ?x) => exists w, n, (DoLaunch c x)
  | |- own_lobby_body _ _ (prepare_lobby_rom_relay_transfer_body ?w ?n ?c ?x ?y ?z) =>
      exists w, n, (DoPrepareRom c x y z)
  | |- own_lobby_body _ _ (prepare_lobby_startup_state_relay_transfer_body ?w ?n ?c ?x ?y ?z ?t) =>
      exists w, n, (DoPrepareState c x y z t)
  | |- own_lobby_body _ _ (publish_lobby_game_room_body ?w ?n ?c ?x ?y) => exists w, n, (DoPublish c x y)
  | |- own_lobby_body _ _ (mark_lobby_gameplay_started_body _ ?w ?n ?c ?x ?y) => exists w, n, (DoStarted c x y)
  | |- own_lobby_body _ _ (return_lobby_from_game_body ?w ?n ?c ?x ?y ?z ?t) => exists w, n, (DoReturn c x y z t)
  | |- own_lobby_body _ _ (send_lobby_chat_body ?w ?n ?x ?y ?c ?z) => exists w, n, (DoChat x y c z)
  | |- own_lobby_body _ _ (refresh_lobby_voice_token_body ?c ?x) => exists 0, 0, (DoRefreshVoice c x)
  | |- own_lobby_body _ _ (record_lobby_activity_body ?w ?n ?c ?x) => exists w, n, (DoActivity c x)
  | |- own_lobby_body _ _ (record_lobby_diagnostic_body ?w ?x ?y) => exists w, 0, (DoDiagnostic x y)
  end; split; [reflexivity || exact I|intros ?; reflexivity].

#[export] Hint Extern 0 (own_lobby_body _ _ _) => name_action : relay.

(** The socket that prepares a transfer is its sender, and the receiver is as requested. *)
Lemma prepared_rom_parties wall now c id receiver max cell intent cell' :
  prepare_lobby_rom_relay_transfer_body wall now c id receiver max cell = (Ok intent, cell') →
  lintent_sender_connection_id intent = c ∧ lintent_receiver_player_index intent = receiver.
Proof.
  unfold prepare_lobby_rom_relay_transfer_body. rewrite run_get, run_lift.
  destruct (prepare_rom_relay_transfer _ _ _ _ _) as [i|] eqn:E; [|done]. intros H.
  assert (i = intent) as <-.
  { revert H. unfold mbind, M_bind. destruct (on_lobby _ _) as [[] ?]; [|done]. by intros [= <-]. }
  revert E. unfold prepare_rom_relay_transfer, mbind, result_bind.
  destruct (transfer_participants _ _ _ _ _) as [[[? ?] ?]|]; [|done].
  do 2 (destruct (ok_or _ _); [|done]). do 2 (case_match; [done|]). by intros [= <-].
Qed.

Lemma prepared_state_parties wall now c id receiver state max cell intent cell' :
  prepare_lobby_startup_state_relay_transfer_body wall now c id receiver state max cell = (Ok intent, cell') →
  sintent_sender_connection_id intent = c ∧ sintent_receiver_player_index intent = receiver.
Proof.
  unfold prepare_lobby_startup_state_relay_transfer_body. rewrite run_get, run_lift.
  destruct (prepare_startup_state_relay_transfer _ _ _ _ _ _) as [i|] eqn:E; [|done]. intros H.
  assert (i = intent) as <-.
  { revert H. unfold mbind, M_bind. destruct (on_lobby _ _) as [[] ?]; [|done]. by intros [= <-]. }
  revert E. unfold prepare_startup_state_relay_transfer, mbind, result_bind.
  destruct (transfer_participants _ _ _ _ _) as [[[? ?] ?]|]; [|done].
  destruct (ok_or _ _); [|done]. do 2 (case_match; [done|]). by intros [= <-].
Qed.

(** ** An invariant that own actions and the other tasks keep *)

Section confined.
Context (services : LobbyServices) (env : Env LobbyRegistry) (code : InviteCode) (c : ConnectionId).
Context (I : LobbyRegistry → Prop).
Let deps := lobby_deps services.
Context (Hothers : ∀ n g, I g → I (others env n g)).
Context (Hown : ∀ wall now a g, own_action c a → I g → I (lobby_act deps wall now code a g)).

Lemma own_with_lobby {A} (m : LobbyCellM A) g : own_lobby_body deps c m → I g → I (with_lobby code m g).2.
Proof.
  intros (w & n & a & Ha & Hm) Hg. rewrite <-settle_state, <-Hm. by apply (Hown w n a).
Qed.

Lemma call_lobby_confined {A} (body : nat → N → N → LobbyCellM A) :
  (∀ n w t, own_lobby_body deps c (body n w t)) → keeps (holds I) (call_lobby env code body).
Proof. intros Hb. apply access_holds; [done|]. intros n g. by apply own_with_lobby. Qed.

(** A method that takes the registry itself. *)
Lemma access_act_confined {A} (op : nat → LobbyRegistry → A * LobbyRegistry) :
  (∀ n, ∃ wall now a, own_action c a ∧ ∀ g, (op n g).2 = lobby_act deps wall now code a g) →
  keeps (holds I) (access (F := LobbyServer.LobbyServerMessage) env op).
Proof.
  intros Hop. apply access_holds; [done|]. intros n g Hg. destruct (Hop n) as (w & t & a & Ha & ->).
  by apply Hown.
Qed.

Lemma consult_lobby_confined {F A} (f : nat → LobbyRegistry → A) : keeps (holds (F := F) I) (consult env f).
Proof. by apply consult_holds. Qed.

#[local] Hint Resolve call_lobby_confined consult_lobby_confined : relay.

Lemma fail_relay_confined {A} kind detail error : keeps (holds I) (fail_relay (A := A) env code kind detail error).
Proof. unfold fail_relay. keeps_go. Qed.

Lemma check_lobby_epoch_confined epoch : keeps (holds I) (check_lobby_epoch env code epoch).
Proof.
  unfold check_lobby_epoch, validate_lobby_epoch, apply_lobby_result, send_lobby_error, send_lobby_server_message.
  keeps_go.
Qed.

Lemma apply_lobby_result_confined {A} (r : result LobbyError A) : keeps (holds I) (apply_lobby_result env r).
Proof. unfold apply_lobby_result, send_lobby_error, send_lobby_server_message. keeps_go. Qed.

#[local] Hint Resolve fail_relay_confined check_lobby_epoch_confined apply_lobby_result_confined : relay.

Lemma apply_lobby_call_confined {A} (body : nat → N → N → LobbyCellM A) :
  (∀ n w t, own_lobby_body deps c (body n w t)) → keeps (holds I) (apply_lobby_call env code body).
Proof. intros Hb. unfold apply_lobby_call. keeps_go. Qed.

(** The intent that [prepare] returned is what the grants are issued for. *)
Lemma relay_request_confined {Intent} kind prefix unavailable allowed (prepare : nat → N → N → LobbyCellM Intent)
    request broker_failed grant failure_detail :
  (∀ n w t, own_lobby_body deps c (prepare n w t)) →
  (∀ n w t cell intent cell', prepare n w t cell = (Ok intent, cell') →
     ∀ response url wall, own_lobby_body deps c (grant intent response url wall)) →
  keeps (holds I) (relay_request services env code kind prefix unavailable allowed prepare request
                     broker_failed grant failure_detail).
Proof.
  intros Hp Hg. unfold relay_request. destruct (negb allowed); [auto with relay nocore|].
  destruct (public_base_url _) as [url|]; [|auto with relay nocore].
  intros w Hw. pose proof (call_lobby_confined prepare Hp w Hw) as Hw1.
  unfold mbind at 1, M_bind at 1. destruct (call_lobby env code prepare w) as [[[intent|e]|stop] w1] eqn:E;
    [| |exact Hw1].
  2: { apply keeps_elim; [auto with relay nocore|exact Hw1]. }
  apply call_lobby_ok in E as (n & wall & now & cell & cell' & E).
  specialize (Hg _ _ _ _ _ _ E). apply keeps_elim; [|exact Hw1]. keeps_go.
Qed.

#[local] Hint Resolve apply_lobby_call_confined : relay.

Lemma handle_lobby_rom_relay_request_confined id receiver :
  keeps (holds I) (handle_lobby_rom_relay_request services env code c id receiver).
Proof.
  apply relay_request_confined; [auto with relay nocore|].
  intros n w t cell intent cell' H response url wall.
  exists wall, 0, (DoGrantRom intent (lobby_file_relay_grants (mkLobbyFileRelayGrantPairRequest response url MaterialGame
          (lintent_proposal_id intent) (lintent_sender_player_index intent)
          (lintent_receiver_player_index intent) (lintent_sha256 intent) (lintent_size_bytes intent) None))).
  split; [exact (proj1 (prepared_rom_parties _ _ _ _ _ _ _ _ _ H))|done].
Qed.

Lemma handle_lobby_startup_state_relay_request_confined id receiver state :
  keeps (holds I) (handle_lobby_startup_state_relay_request services env code c id receiver state).
Proof.
  apply relay_request_confined; [auto with relay nocore|].
  intros n w t cell intent cell' H response url wall.
  exists wall, 0, (DoGrantState intent (lobby_file_relay_grants (mkLobbyFileRelayGrantPairRequest response url
          MaterialStartupState (sintent_proposal_id intent) (sintent_sender_player_index intent)
          (sintent_receiver_player_index intent) (state_sha256 (sintent_state intent))
          (state_size_bytes (sintent_state intent)) (Some (sintent_state intent))))).
  split; [exact (proj1 (prepared_state_parties _ _ _ _ _ _ _ _ _ _ H))|done].
Qed.

Lemma refresh_lobby_voice_token_confined : keeps (holds I) (refresh_lobby_voice_token services env code c).
Proof.
  unfold refresh_lobby_voice_token. keeps_go. apply access_act_confined. intros n.
  exists (wall_at env n), 0, DoRecordRefresh. by split.
Qed.

Lemma remove_lobby_player_confined epoch p :
  keeps (holds I) (access (F := LobbyServer.LobbyServerMessage) env (λ n, remove_lobby_player deps (wall_at env n) (now_at env n) code c epoch p)).
Proof.
  apply access_act_confined. intros n. exists (wall_at env n), (now_at env n), (DoRemove c epoch p).
  split; [done|]. intros g. unfold lobby_act. cbn. unfold mbind, M_bind.
  by destruct (remove_lobby_player _ _ _ _ _ _ _ _) as [[] ?].
Qed.

#[local] Hint Resolve handle_lobby_rom_relay_request_confined handle_lobby_startup_state_relay_request_confined
  refresh_lobby_voice_token_confined remove_lobby_player_confined : relay.

Lemma handle_lobby_message_confined message : keeps (holds I) (handle_lobby_message services env code c message).
Proof.
  unfold handle_lobby_message. unfold_lobby_arms.
  unfold invalid_player_index, send_lobby_static_error, send_lobby_error, send_lobby_server_message.
  destruct message; keeps_go.
Qed.

#[local] Hint Resolve handle_lobby_message_confined : relay.

Lemma handle_lobby_incoming_confined incoming : keeps (holds I) (handle_lobby_incoming services env code c incoming).
Proof.
  unfold handle_lobby_incoming, handle_lobby_text, send_lobby_static_error, send_lobby_server_message. keeps_go.
Qed.

Lemma handle_lobby_event_confined capabilities event : keeps (holds I) (handle_lobby_event env c capabilities event).
Proof. unfold handle_lobby_event, send_lobby_static_error, send_lobby_server_message. keeps_go. Qed.

#[local] Hint Resolve handle_lobby_incoming_confined handle_lobby_event_confined : relay.

Lemma lobby_session_loop_confined capabilities wakeups :
  keeps (holds I) (lobby_session_loop services env code c capabilities wakeups).
Proof. induction wakeups as [|[incoming|event] wakeups IH]; cbn [lobby_session_loop]; keeps_go. Qed.

#[local] Hint Resolve lobby_session_loop_confined : relay.

Lemma detach_lobby_confined : keeps (holds I) (detach_lobby env code c).
Proof. unfold detach_lobby. keeps_go. Qed.

Lemma join_lobby_request_confined request :
  ljoin_invite_code request = code → keeps (holds I) (join_lobby_request services env c request).
Proof. intros Hcode. unfold join_lobby_request. rewrite Hcode. keeps_go. Qed.

#[local] Hint Resolve detach_lobby_confined join_lobby_request_confined : relay.

Lemma lobby_session_confined request wakeups :
  ljoin_invite_code request = code →
  keeps (holds I) (handle_websocket_lobby_session services env c request wakeups).
Proof.
  intros Hcode. unfold handle_websocket_lobby_session, send_lobby_upgrade_error, send_lobby_error,
    send_lobby_server_message. rewrite Hcode. keeps_go.
Qed.
End confined.

(** ** Epochs of a message *)

(** The messages whose epoch the session checks itself, with another epoch. *)
Definition with_lobby_epoch (epoch : N) (message : LobbyClient.LobbyClientMessage)
    : LobbyClient.LobbyClientMessage :=
  match message with
  | LobbyClient.SelectGame _ game => LobbyClient.SelectGame epoch game
  | LobbyClient.SetGameReadiness _ id status detail => LobbyClient.SetGameReadiness epoch id status detail
  | LobbyClient.LaunchGame _ id => LobbyClient.LaunchGame epoch id
  | LobbyClient.RequestRomTransfer _ id receiver => LobbyClient.RequestRomTransfer epoch id receiver
  | LobbyClient.RequestStartupStateTransfer _ id receiver state =>
      LobbyClient.RequestStartupStateTransfer epoch id receiver state
  | LobbyClient.PublishGameRoom _ id code => LobbyClient.PublishGameRoom epoch id code
  | LobbyClient.Chat _ body => LobbyClient.Chat epoch body
  | LobbyClient.RefreshVoiceToken _ => LobbyClient.RefreshVoiceToken epoch
  | LobbyClient.ReportActivity _ kind => LobbyClient.ReportActivity epoch kind
  | LobbyClient.Leave _ reason => LobbyClient.Leave epoch reason
  | LobbyClient.Ping | LobbyClient.GameplayStarted _ _ | LobbyClient.ReturnToLobby _ _ _ _
  | LobbyClient.RemovePlayer _ _ => message
  end.

Section stale.
Context (services : LobbyServices) (env : Env LobbyRegistry) (Hdelivers : ∀ n, delivers env n = true).
Context (code : InviteCode) (c : ConnectionId).

Lemma in_step_apply_lobby {A B} (result : result LobbyError A) (result' : Prelude.result LobbyError B) :
  in_step (apply_lobby_result env result) (apply_lobby_result env result').
Proof.
  intros w w' [Hs Ht]. unfold apply_lobby_result, send_lobby_error, send_lobby_server_message, send.
  by destruct result, result'; rewrite ?Hdelivers.
Qed.

Lemma in_step_check_lobby e e' : in_step (check_lobby_epoch env code e) (check_lobby_epoch env code e').
Proof.
  pose (view := consult (F := LobbyServer.LobbyServerMessage) env (λ _, lobby_view_of code)).
  refine (in_step_bind view view
    (λ lobby, apply_lobby_result env (lobby ≫= λ lobby, if lv_lobby_epoch lobby !=? e then Err StaleLobbyEpoch else Ok tt))
    (λ lobby, apply_lobby_result env (lobby ≫= λ lobby, if lv_lobby_epoch lobby !=? e' then Err StaleLobbyEpoch else Ok tt))
    _ _).
  - apply in_step_access.
  - intros lobby. apply in_step_apply_lobby.
Qed.

Lemma lobby_message_in_step epoch message :
  in_step (handle_lobby_message services env code c (with_lobby_epoch epoch message))
    (handle_lobby_message services env code c message).
Proof.
  destruct message; cbn [with_lobby_epoch]; unfold handle_lobby_message; unfold_lobby_arms.
  all: unfold apply_lobby_call,
    handle_lobby_rom_relay_request, handle_lobby_startup_state_relay_request, relay_request, fail_relay,
    refresh_lobby_voice_token, call_lobby, consult, invalid_player_index, send_lobby_static_error, send_lobby_error,
    send_lobby_server_message.
  all: repeat lazymatch goal with
    | |- in_step (check_lobby_epoch _ _ _) _ => apply in_step_check_lobby
    | |- in_step (apply_lobby_result _ _) _ => apply in_step_apply_lobby
    | |- in_step _ _ => in_step_rule
    end.
Qed.
End stale.

(** ** Transfer tokens *)

Definition lobby_token_of (message : LobbyServer.LobbyServerMessage) : option string :=
  match message with
  | LobbyServer.RomTransferUploadGranted _ grant | LobbyServer.RomTransferDownloadReady _ grant
  | LobbyServer.StartupStateTransferUploadGranted _ grant
  | LobbyServer.StartupStateTransferDownloadReady _ grant => Some (lgrant_token grant)
  | _ => None
  end.

Definition reply_message (r : EventReply) : option LobbyServer.LobbyServerMessage :=
  match r with Skip => None | Reply message | Last message => Some message end.

(** The events that a lobby sent between two of its states. *)
Definition new_lobby_events (s s' : StoredLobby) : list LobbyEvent := drop (length (lobby_sent s)) (lobby_sent s').

(** The tokens that the socket of [c] is sent for them. *)
Definition lobby_tokens_for (c : ConnectionId) (capabilities : LobbyClientCapabilities) (s s' : StoredLobby)
    : list string :=
  omap (λ event, reply_message (lobby_event_reply c capabilities event) ≫= lobby_token_of) (new_lobby_events s s').

(** The socket that holds a seat. *)
Definition holder (p : PlayerIndex) (l : Lobby) : option ConnectionId := slot p l ≫= slot_connection_id.

(** [c] holds a seat of the lobby and gets the upload token, the socket that holds the seat
    [receiver] gets the download token, and no other socket gets a token. *)
Definition handed_over (upload download : string) (c : ConnectionId) (receiver : PlayerIndex) (s s' : StoredLobby)
    : Prop :=
  ∃ sender c2, holder sender (stored_lobby s) = Some c ∧ holder receiver (stored_lobby s) = Some c2 ∧
    ∀ c' capabilities, lobby_tokens_for c' capabilities s s'
      = (if c ==? c' then [upload] else []) ++ (if c2 ==? c' then [download] else []).

Lemma transfer_current_holders id sender receiver c1 c2 l :
  transfer_current id sender receiver c1 c2 l = Ok tt → holder sender l = Some c1 ∧ holder receiver l = Some c2.
Proof.
  unfold transfer_current, holder, mbind, result_bind, option_bind.
  destruct (require_selected_proposal _ _); [|done].
  destruct (slot sender l), (slot receiver l); cbn; [|done..].
  destruct (_ || _) eqn:E; [done|]. intros _. guards. done.
Qed.

Lemma two_tokens (e1 e2 : LobbyEvent) c1 c2 t1 t2 s s' c' capabilities :
  lobby_sent s' = lobby_sent s ++ [e1; e2] →
  reply_message (lobby_event_reply c' capabilities e1) ≫= lobby_token_of = (if c1 ==? c' then Some t1 else None) →
  reply_message (lobby_event_reply c' capabilities e2) ≫= lobby_token_of = (if c2 ==? c' then Some t2 else None) →
  lobby_tokens_for c' capabilities s s'
  = (if c1 ==? c' then [t1] else []) ++ (if c2 ==? c' then [t2] else []).
Proof.
  intros Hs H1 H2. unfold lobby_tokens_for, new_lobby_events. rewrite Hs, drop_app_length. cbn [omap list_omap].
  rewrite H1, H2. by destruct (c1 ==? c'), (c2 ==? c').
Qed.

Lemma grant_rom_tokens wall intent grants cell cell' :
  grant_lobby_rom_relay_transfer_body wall intent grants cell = (Ok tt, cell') →
  handed_over (lgrant_token (lpair_upload grants)) (lgrant_token (lpair_download grants))
    (lintent_sender_connection_id intent) (lintent_receiver_player_index intent) (cell_lobby cell) (cell_lobby cell').
Proof.
  unfold grant_lobby_rom_relay_transfer_body. rewrite run_get, run_lift.
  destruct (require_rom_relay_transfer_current _ _) as [[]|] eqn:E; [|done]. intros [= <-].
  apply transfer_current_holders in E as [H1 H2]. eexists _, _. split_and!; [exact H1|exact H2|].
  intros c' capabilities. eapply two_tokens; [cbn; by rewrite <-app_assoc|..]; cbn; by destruct (bool_decide _).
Qed.

Lemma grant_state_tokens wall intent grants cell cell' :
  grant_lobby_startup_state_relay_transfer_body wall intent grants cell = (Ok tt, cell') →
  handed_over (lgrant_token (lpair_upload grants)) (lgrant_token (lpair_download grants))
    (sintent_sender_connection_id intent) (sintent_receiver_player_index intent) (cell_lobby cell) (cell_lobby cell').
Proof.
  unfold grant_lobby_startup_state_relay_transfer_body. rewrite run_get, run_lift.
  destruct (require_startup_state_relay_transfer_current _ _) as [[]|] eqn:E; [|done]. intros [= <-].
  apply transfer_current_holders in E as [H1 H2]. eexists _, _. split_and!; [exact H1|exact H2|].
  intros c' capabilities. eapply two_tokens; [cbn; by rewrite <-app_assoc|..]; cbn; by destruct (bool_decide _).
Qed.

Lemma fail_relay_fails env code kind detail error {A} (a : A) w w' :
  fail_relay env code kind detail error w = (Ok (Ok a), w') → False.
Proof.
  unfold fail_relay, mbind, M_bind, call_lobby, access.
  by destruct (with_lobby _ _ _) as [[] ?].
Qed.

(** A relay request that succeeds prepared an intent, had the broker create the transfer, and
    granted it. *)
Lemma relay_request_granted services env code kind prefix unavailable allowed {Intent}
    (prepare : nat → N → N → LobbyCellM Intent) request broker_failed grant failure_detail w w' :
  relay_request services env code kind prefix unavailable allowed prepare request broker_failed grant
    failure_detail w = (Ok (Ok tt), w') →
  ∃ intent w1 response url cell cell',
    call_lobby env code prepare w = (Ok (Ok intent), w1) ∧
    create_transfer (lobby_file_relay services) (tick w1) (request intent) = Ok response ∧
    lobbies (others env (tick w1) (shared w1)) !! normalized code = Some (cell_lobby cell) ∧
    grant intent response url (wall_at env (tick w1)) cell = (Ok tt, cell') ∧
    lobbies (shared w') !! normalized code = Some (cell_lobby cell').
Proof.
  unfold relay_request. destruct (negb allowed); [by intros []%fail_relay_fails|].
  destruct (public_base_url _) as [url|]; [|by intros []%fail_relay_fails].
  unfold mbind at 1, M_bind at 1.
  destruct (call_lobby env code prepare w) as [[[intent|e]|stop] w1] eqn:E; [|by intros []%fail_relay_fails|done].
  unfold mbind at 1, M_bind at 1, gets.
  destruct (create_transfer _ _ _) as [response|] eqn:Hr; [|by intros []%fail_relay_fails].
  unfold mbind at 1, M_bind at 1, call_lobby at 1, access, with_lobby.
  destruct (lobbies (others env (tick w1) (shared w1)) !! normalized code) as [s|] eqn:Hs;
    [|by intros []%fail_relay_fails].
  destruct (grant _ _ _ _ _) as [[[]|e] cell'] eqn:Hg; [|by intros []%fail_relay_fails]. intros [= <-].
  eexists intent, w1, response, url, (mkLobbyCell s _), cell'. split_and!; try done. cbn. apply lookup_insert_eq.
Qed.

(** ** Removal *)

Section removal.
Context (services : LobbyServices) (env : Env LobbyRegistry) (Hdelivers : ∀ n, delivers env n = true).

(** What a session that is woken by these events has written, and whether it has ended. *)
Lemma lobby_loop_events code c capabilities events w :
  (∀ e m, e ∈ events → lobby_event_reply c capabilities e ≠ Last m) →
  ∃ w', lobby_session_loop services env code c capabilities ((LobbyFromLobby ∘ Ok) <$> events) w = (Ok false, w') ∧
    sent w' = sent w ++ omap (λ e, reply_message (lobby_event_reply c capabilities e)) events.
Proof.
  revert w. induction events as [|e events IH]; intros w He; cbn.
  { exists w. by rewrite app_nil_r. }
  unfold mbind at 1, M_bind at 1. cbn [compose handle_lobby_event].
  pose proof (He e) as Hl. destruct (lobby_event_reply c capabilities e) as [|m|m] eqn:Er; cbn.
  - apply IH. intros e' m Hin. apply He. by right.
  - unfold succeeded, send_lobby_server_message, send. rewrite Hdelivers.
    destruct (IH (mkWorld (shared w) (tick w) (Datatypes.S (writes w)) (sent w ++ [m]) (metrics w)))
      as (w' & Hw & Hsent). { intros e' m' Hin. apply He. by right. }
    rewrite Hw. exists w'. split; [done|]. rewrite Hsent. cbn. by rewrite <-app_assoc.
  - by destruct (Hl m); [left|].
Qed.

Lemma lobby_loop_last code c capabilities e m events w :
  lobby_event_reply c capabilities e = Last m →
  ∃ w', lobby_session_loop services env code c capabilities ((LobbyFromLobby ∘ Ok) <$> e :: events) w = (Ok true, w') ∧
    sent w' = sent w ++ [m].
Proof.
  intros He. cbn. unfold mbind at 1, M_bind at 1. cbn [compose handle_lobby_event]. rewrite He.
  unfold mbind, M_bind, succeeded, send_lobby_server_message, send. rewrite Hdelivers. by eexists.
Qed.
End removal.

Lemma remove_player_result c epoch p now l :
  wp (remove_player c epoch p now) (λ removal l',
    removal_player_index removal = p ∧ removal_connection_id removal = holder p l ∧ is_Some (slot p l) ∧
    lobby_players l' = lobby_players (vacate p l)) (λ _ _, True) l.
Proof.
  unfold remove_player. wp_go; try done. unfold holder.
  match goal with H : slot p l = Some _ |- _ => rewrite H end. split_and!; done.
Qed.

(** A removal that succeeds empties the seat, tells the socket that held it, then everybody. *)
Lemma removal_events deps wall now code c epoch p g v g' :
  remove_lobby_player deps wall now code c epoch p g = (Ok v, g') →
  ∃ s s', lobbies g !! normalized code = Some s ∧ lobbies g' !! normalized code = Some s' ∧
    lobby_players (stored_lobby s') = lobby_players (vacate p (stored_lobby s)) ∧ is_Some (slot p (stored_lobby s)) ∧
    new_lobby_events s s'
    = match holder p (stored_lobby s) with Some t => [PlayerRemoved t (zero_based p) RemovedByHost v] | None => [] end
      ++ [LobbyStateChanged v].
Proof.
  unfold remove_lobby_player. destruct (negb _); [done|]. unfold with_lobby.
  destruct (lobbies g !! normalized code) as [s|] eqn:Hs; [|done].
  unfold remove_lobby_player_body, mbind at 1, M_bind at 1, on_lobby. cbn [cell_lobby].
  pose proof (remove_player_result c epoch p now (stored_lobby s)) as Hw. unfold wp in Hw.
  destruct (remove_player _ _ _ _ _) as [[removal|e] l]; [|done]. destruct Hw as (-> & -> & Hslot & Hps).
  destruct (holder p (stored_lobby s)) as [t|] eqn:Hh; intros [= <- <-]; exists s; eexists;
    (split; [done|]; split; [cbn; apply lookup_insert_eq|]; split; [exact Hps|]; split; [exact Hslot|]);
    rewrite Hh; unfold new_lobby_events; cbn; rewrite <-?app_assoc, drop_app_length; reflexivity.
Qed.

(** ** The public directory *)

(** The registry at the [k]-th access from the access [n] on, when the accesses only read. *)
Fixpoint after_others (env : Env LobbyRegistry) (n k : nat) (g : LobbyRegistry) : LobbyRegistry :=
  match k with
  | O => g
  | Datatypes.S k => after_others env (Datatypes.S n) k (others env n g)
  end.

(** The notifications that the session gets to see: those before the peer ends it. *)
Fixpoint notified (wakeups : list DirectoryWakeup) : nat :=
  match wakeups with
  | DirectoryFromPeer incoming :: wakeups => if handle_public_lobbies_incoming incoming then notified wakeups else 0
  | DirectoryChanged (Ok _) :: wakeups | DirectoryChanged (Err (Lagged _)) :: wakeups =>
      Datatypes.S (notified wakeups)
  | DirectoryChanged (Err ChannelClosed) :: _ | [] => 0
  end.

Section directory.
Context (env : Env LobbyRegistry) (Hdelivers : ∀ n, delivers env n = true).

Lemma snapshot_sent w :
  let g := others env (tick w) (shared w) in
  succeeded (send_public_lobbies_snapshot env) w
  = (Ok true, mkWorld g (Datatypes.S (tick w)) (Datatypes.S (writes w)) (sent w ++ [public_lobbies g]) (metrics w)).
Proof.
  unfold succeeded, send_public_lobbies_snapshot, consult, access, mbind, M_bind, send. cbn. by rewrite Hdelivers.
Qed.

(** What a session has written after [k] snapshots, and that it has changed nothing. *)
Definition pushed (k : nat) (w w' : World LobbyRegistry (list PublicLobbySummary)) : Prop :=
  sent w' = sent w ++ ((λ i, public_lobbies (after_others env (tick w) (S i) (shared w))) <$> seq 0 k) ∧
  shared w' = after_others env (tick w) k (shared w).

Lemma pushed_next k w w' :
  let g := others env (tick w) (shared w) in
  pushed k (mkWorld g (Datatypes.S (tick w)) (Datatypes.S (writes w)) (sent w ++ [public_lobbies g]) (metrics w)) w' →
  pushed (S k) w w'.
Proof.
  intros g [Hs Hg]. split; [|exact Hg]. rewrite Hs. cbn. by rewrite <-app_assoc, <-seq_shift, <-list_fmap_compose.
Qed.

Lemma directory_loop_pushed wakeups w : pushed (notified wakeups) w (directory_loop env wakeups w).2.
Proof.
  assert (∀ w, pushed 0 w w) as H0. { intros w'. split; [by rewrite app_nil_r|done]. }
  revert w. induction wakeups as [|[incoming|[[]|[n|]]] wakeups IH]; intros w; cbn [directory_loop notified].
  - apply H0.
  - destruct (handle_public_lobbies_incoming incoming); [apply IH|apply H0].
  - apply pushed_next. unfold mbind at 1, M_bind at 1. rewrite snapshot_sent. apply IH.
  - apply pushed_next. unfold mbind at 1, M_bind at 1. rewrite snapshot_sent. apply IH.
  - apply H0.
Qed.
End directory.

(** ** A running example *)

Definition quiet_lobby_env : Env LobbyRegistry :=
  mkEnv LobbyRegistry (λ _ g, g) (λ _, 20) (λ _, 20) (λ _, 20) (λ _, "token-c"%string) (λ _, ""%string) (λ _, 77)
    (λ _, true).

Definition lobby_relay_broker : FileRelayBroker :=
  mkFileRelayBroker true (Some "https://relay"%string)
    (λ _ _, Ok (mkCreateFileRelayTransferResponse "tx" 1024 1 "up" "down" "2026-01-01T00:00:00Z")).

Definition sample_lobby_services : LobbyServices :=
  mkLobbyServices LobbyGuarantees.lobby_deps lobby_relay_broker
    (mkFileRelayPolicy true true 4096 ["gb"%string] false) (λ _ _ _, None) (λ _, "lobby"%string) (λ _, None).

Definition lobby_world {F} (g : LobbyRegistry) : World LobbyRegistry F := mkWorld g 0 0 [] InMemoryMetrics_new.

(** The ready lobby with a game that can be transferred. *)
Definition hex_digest : string :=
  "0123456789abcdef0123456789abcdef0123456789abcdef0123456789abcdef"%string.
Definition relayable : LobbyGameCandidate :=
  mkLobbyGameCandidate "Tetris" "gb" "gambatte" (Some hex_digest) (Some 1024) None.
Definition all_features : LobbyClientCapabilities := mkLobbyClientCapabilities true true true true true true true.
Definition relay_registry : LobbyRegistry :=
  lobby_run LobbyGuarantees.lobby_deps
    [at_ms 0 create_public;
     at_ms 1 (OpAct lobby_code (DoConnect host_socket "token-a" (player "host") (mkJoinLobbyParams None all_features)));
     at_ms 2 (OpAct lobby_code (DoConnect guest_socket "token-b" (player "guest") (mkJoinLobbyParams None all_features)));
     at_ms 3 (OpAct lobby_code (DoSelect 42 host_socket relayable))] LobbyRegistry_new.

Lemma relay_request_succeeds :
  (handle_lobby_rom_relay_request sample_lobby_services quiet_lobby_env lobby_code host_socket 42 PlayerIndex_TWO
     (lobby_world relay_registry)).1 = Ok (Ok tt).
Proof. vm_compute. reflexivity. Qed.

Lemma removal_succeeds :
  ∃ v, (remove_lobby_player LobbyGuarantees.lobby_deps 20 20 lobby_code host_socket 6 PlayerIndex_TWO
          ready_registry).1 = Ok v.
Proof. eexists. vm_compute. reflexivity. Qed.

#[local] Strategy opaque [ready_registry relay_registry waiting_registry].

Module LobbySockets.

(** C19: a lobby socket acts only for itself. Whatever a client sends on its lobby socket and
    however the task interleaves with others, the lobbies change only by actions on the lobby
    the socket joined, in the name of its own connection (or that only record a debug event),
    and by the steps of the other tasks; so when those are operations of the registry, every
    theorem about reachable registries of lobbies holds during and after the session. *)
Theorem lobby_sessions_act_only_as_themselves services env c request wakeups w :
  let deps := lobby_deps services in
  let w' := (handle_websocket_lobby_session services env c request wakeups w).2 in
  rtc (lobby_socket_step deps env (ljoin_invite_code request) c) (shared w) (shared w') ∧
  ((∀ n g, lobbies_reachable deps g → lobbies_reachable deps (others env n g)) →
   lobbies_reachable deps (shared w) → lobbies_reachable deps (shared w')).
Proof.
  cbv zeta. split.
  - apply (lobby_session_confined services env (ljoin_invite_code request) c
      (rtc (lobby_socket_step (lobby_deps services) env (ljoin_invite_code request) c) (shared w)));
      [| |done|apply rtc_refl]; intros; (eapply rtc_r; [done|]); unfold lobby_socket_step; [eauto|].
    left. eexists _, _, _. by split.
  - intros Ho Hw. apply (lobby_session_confined services env (ljoin_invite_code request) c
      (lobbies_reachable (lobby_deps services))); [done| |done|done].
    intros wall now a g _ Hg. exact (lobbies_next _ wall now (OpAct _ a) g Hg).
Qed.

Lemma lobby_sessions_act_only_as_themselves_witness :
  let request := mkWebSocketLobbyJoinRequest lobby_code None all_features None None None (player "third") in
  let w := handle_websocket_lobby_session sample_lobby_services quiet_lobby_env (mkConnectionId 13) request
             [LobbyFromPeer (Some (Ok (InBinary []))); LobbyFromPeer None] (lobby_world ready_registry) in
  w.1 = Ok true ∧ length (sent w.2) = 2%nat ∧ lobbies_reachable LobbyGuarantees.lobby_deps (shared w.2).
Proof.
  cbv zeta. split; [vm_compute; reflexivity|]. split; [vm_compute; reflexivity|].
  destruct (lobby_sessions_act_only_as_themselves sample_lobby_services quiet_lobby_env (mkConnectionId 13)
    (mkWebSocketLobbyJoinRequest lobby_code None all_features None None None (player "third"))
    [LobbyFromPeer (Some (Ok (InBinary []))); LobbyFromPeer None] (lobby_world ready_registry)) as [_ H].
  apply H; [intros n g Hg; exact Hg|exact ready_reachable].
Defined.

(** C20: the tokens of a transfer go to its two players. When a lobby grants a ROM transfer or a
    startup-state transfer, the upload token that the broker issued is sent to the socket that
    asked for the transfer, which holds a seat of the lobby at that moment, the download token
    to the socket that holds the receiver's seat, and no other socket is sent a token. *)
Theorem transfer_tokens_are_private services env code c id receiver state w w' :
  handle_lobby_rom_relay_request services env code c id receiver w = (Ok (Ok tt), w') ∨
  handle_lobby_startup_state_relay_request services env code c id receiver state w = (Ok (Ok tt), w') →
  ∃ n g request response s s',
    create_transfer (lobby_file_relay services) n request = Ok response ∧
    lobbies (others env n g) !! normalized code = Some s ∧ lobbies (shared w') !! normalized code = Some s' ∧
    handed_over (fr_upload_token response) (fr_download_token response) c receiver s s'.
Proof.
  intros [(intent & w1 & response & url & cell & cell' & Hp & Hr & Hs & Hg & Hs')%relay_request_granted
         |(intent & w1 & response & url & cell & cell' & Hp & Hr & Hs & Hg & Hs')%relay_request_granted].
  - apply grant_rom_tokens in Hg. apply call_lobby_ok in Hp as (? & ? & ? & ? & ? & [<- <-]%prepared_rom_parties).
    eexists (tick w1), (shared w1), _, response, _, _. split_and!; done.
  - apply grant_state_tokens in Hg. apply call_lobby_ok in Hp as (? & ? & ? & ? & ? & [<- <-]%prepared_state_parties).
    eexists (tick w1), (shared w1), _, response, _, _. split_and!; done.
Qed.

Lemma transfer_tokens_are_private_witness :
  ∃ s s', lobbies relay_registry !! normalized lobby_code = Some (lobby_at relay_registry) ∧
    handed_over "up" "down" host_socket PlayerIndex_TWO s s'.
Proof.
  pose proof relay_request_succeeds as H.
  destruct (handle_lobby_rom_relay_request sample_lobby_services quiet_lobby_env lobby_code host_socket 42
    PlayerIndex_TWO (lobby_world relay_registry)) as [o w'] eqn:E. cbn in H. subst o.
  destruct (transfer_tokens_are_private sample_lobby_services quiet_lobby_env lobby_code host_socket 42
    PlayerIndex_TWO (mkLobbyStartupStateTransferMetadata hex_digest 1 None RestoreImmediate None) (lobby_world relay_registry) w'
    (or_introl E)) as (n & g & request & response & s & s' & [= <-] & _ & _ & Hh).
  exists s, s'. split; [vm_compute; reflexivity|exact Hh].
Defined.

(** A removed player is told and disconnected. When the host removes the player of a seat, the
    seat is emptied and the others are kept; the session of the socket that held it writes the notice of the removal and
    ends, without seeing the lobby without it; every other session writes the new state of the
    lobby and goes on. *)
Theorem removal_ends_session services env code c epoch p wall now g v g' :
  (∀ n, delivers env n = true) →
  remove_lobby_player (lobby_deps services) wall now code c epoch p g = (Ok v, g') →
  ∃ s s', lobbies g !! normalized code = Some s ∧ lobbies g' !! normalized code = Some s' ∧
    (lobby_ok (stored_lobby s) → lobby_players (stored_lobby s')
       = <[N.to_nat (zero_based p) := LobbyPlayerSlot_empty p]> (lobby_players (stored_lobby s))) ∧
    ∀ c' capabilities w, ∃ w',
      lobby_session_loop services env code c' capabilities ((LobbyFromLobby ∘ Ok) <$> new_lobby_events s s') w
      = (Ok (holder p (stored_lobby s) ==? Some c'), w') ∧
      sent w' = sent w ++ [if holder p (stored_lobby s) ==? Some c' then
        if client_supports_lobby_player_removed_event capabilities
        then let lobby := lobby_view_for_client v capabilities in
             LobbyServer.PlayerRemoved (lv_event_seq lobby) (lv_lobby_epoch lobby) (zero_based p) RemovedByHost lobby
        else lobby_static_error "removedFromLobby" "The host removed you from the lobby."
      else let lobby := lobby_view_for_client v capabilities in
           LobbyServer.LobbyStateChanged (lv_event_seq lobby) (lv_lobby_epoch lobby) lobby].
Proof.
  intros Hd (s & s' & Hs & Hs' & Hps & [x Hslot] & Hev)%removal_events. exists s, s'. split_and!; [done..| |].
  - intros Hl. rewrite Hps. eapply vacate_spec; [by apply lobby_roster|done].
  - intros c' capabilities w. rewrite Hev. case_bool_decide as Ht.
    + rewrite Ht. cbn [app]. eapply lobby_loop_last; [done|]. cbn. rewrite bool_decide_true by done. cbn.
      by destruct (client_supports_lobby_player_removed_event _).
    + edestruct (lobby_loop_events services env Hd code c' capabilities
        (match holder p (stored_lobby s) with Some t => [PlayerRemoved t (zero_based p) RemovedByHost v] | None => [] end
         ++ [LobbyStateChanged v]) w) as (w' & Hw & Hsent).
      * intros e m He. destruct (holder p (stored_lobby s)) as [t|]; cbn in He; rewrite ?elem_of_cons in He.
        -- destruct He as [-> | [-> |[]%elem_of_nil]]; cbn; [|done].
           rewrite bool_decide_false by naive_solver. done.
        -- destruct He as [-> |[]%elem_of_nil]. done.
      * exists w'. split; [exact Hw|]. rewrite Hsent. destruct (holder p (stored_lobby s)) as [t|]; [|done].
        cbn. rewrite bool_decide_false by naive_solver. done.
Qed.

Lemma removal_ends_session_witness :
  ∃ s s', lobbies ready_registry !! normalized lobby_code = Some s ∧
    ∃ w', lobby_session_loop sample_lobby_services quiet_lobby_env lobby_code guest_socket all_features
            ((LobbyFromLobby ∘ Ok) <$> new_lobby_events s s') (lobby_world ready_registry)
          = (Ok (holder PlayerIndex_TWO (stored_lobby s) ==? Some guest_socket), w').
Proof.
  pose proof removal_succeeds as [v Hv].
  destruct (remove_lobby_player LobbyGuarantees.lobby_deps 20 20 lobby_code host_socket 6 PlayerIndex_TWO
    ready_registry) as [o g'] eqn:E. cbn in Hv. subst o.
  destruct (removal_ends_session sample_lobby_services quiet_lobby_env lobby_code host_socket 6 PlayerIndex_TWO 20 20
    ready_registry v g' (λ _, eq_refl) E) as (s & s' & Hs & _ & _ & H).
  exists s, s'. split; [exact Hs|].
  destruct (H guest_socket all_features (lobby_world ready_registry)) as (w' & Hw & _). exists w'. exact Hw.
Defined.

(** A lobby epoch that the session checks has no effect on what is done. With every write
    delivered, a message leaves the lobbies in the same state whatever epoch it carries, except
    for the three kinds whose epoch the lobby itself checks: the client is told that the epoch
    is stale, and the message is applied. *)
Theorem stale_lobby_epochs_are_applied services env code c message epoch w :
  (∀ n, delivers env n = true) →
  shared (handle_lobby_message services env code c (with_lobby_epoch epoch message) w).2
  = shared (handle_lobby_message services env code c message w).2.
Proof. intros Hd. by apply (lobby_message_in_step services env Hd code c epoch message). Qed.

(** The host launches a game with an epoch that the lobby has left behind: the client is told
    that the epoch is stale, and the game is launched. *)
Lemma stale_lobby_epochs_are_applied_witness :
  let launch := LobbyClient.LaunchGame 0 41 in
  let w := handle_lobby_message sample_lobby_services quiet_lobby_env lobby_code host_socket launch
             (lobby_world ready_registry) in
  w.1 = Ok tt ∧ sent w.2 = [lobby_error_message StaleLobbyEpoch] ∧
  lobby_status (stored_lobby (lobby_at (shared w.2))) = InGame ∧
  shared w.2 = shared (handle_lobby_message sample_lobby_services quiet_lobby_env lobby_code host_socket
                         (with_lobby_epoch 6 launch) (lobby_world ready_registry)).2.
Proof.
  cbv zeta. do 3 (split; [vm_compute; reflexivity|]). symmetry.
  apply (stale_lobby_epochs_are_applied sample_lobby_services quiet_lobby_env lobby_code host_socket
    (LobbyClient.LaunchGame 0 41) 6 (lobby_world ready_registry)). reflexivity.
Defined.

(** The public directory is pushed as it is. A session of the directory writes the listing when
    it opens and once per notification that reaches it, each time the listing of the registry at
    that moment, and never changes a lobby. *)
Theorem directory_is_current env wakeups w :
  (∀ n, delivers env n = true) →
  pushed env (S (notified wakeups)) w (handle_public_lobbies_websocket_session env wakeups w).2.
Proof.
  intros Hd. unfold handle_public_lobbies_websocket_session. apply pushed_next.
  unfold mbind at 1, M_bind at 1. rewrite snapshot_sent by done. by apply directory_loop_pushed.
Qed.

Lemma directory_is_current_witness :
  sent (handle_public_lobbies_websocket_session quiet_lobby_env
          [DirectoryChanged (Ok tt); DirectoryFromPeer (Some (Ok InPing)); DirectoryChanged (Err (Lagged 3));
           DirectoryFromPeer None; DirectoryChanged (Ok tt)] (lobby_world waiting_registry)).2
  = [public_lobbies waiting_registry; public_lobbies waiting_registry; public_lobbies waiting_registry].
Proof.
  apply (directory_is_current quiet_lobby_env
          [DirectoryChanged (Ok tt); DirectoryFromPeer (Some (Ok InPing)); DirectoryChanged (Err (Lagged 3));
           DirectoryFromPeer None; DirectoryChanged (Ok tt)] (lobby_world waiting_registry)).
  reflexivity.
Defined.
End LobbySockets.
