(* ===== verification/Parse.v ===== *)
(** * Numbers and lists in text

  [str::parse] for the integer types the configuration, the authority's answers and the queries
  use, and the splitting of comma-separated values. An integer is an optional sign and at least
  one decimal digit; a value out of range is refused. *)

From Stdlib Require Import Ascii.
From S2P Require Import Prelude Text Descriptor Protocol StartSync.
Open Scope N_scope.


(** The loop of [from_str_radix(_, 10)], with [checked_mul] and [checked_add]. *)
Fixpoint digits_value (max acc : N) (l : list N) : option N :=
  match l with
  | [] => Some acc
  | b :: l =>
      if is_ascii_digit b
      then let v := acc * 10 + (b - 48) in if v <=? max then digits_value max v l else None
      else None
  end.

(** [parse::<u16>()] and the like. *)
Definition parse_unsigned (max : N) (s : string) : option N :=
  match string_bytes s with
  | [] | [43] => None
  | 43 :: l => digits_value max 0 l
  | l => digits_value max 0 l
  end.

(** [parse::<i64>()]. *)
Definition parse_i64 (s : string) : option Z :=
  match string_bytes s with
  | [] | [43] | [45] => None
  | 43 :: l => Z.of_N <$> digits_value (2 ^ 63 - 1) 0 l
  | 45 :: l => Z.opp ∘ Z.of_N <$> digits_value (2 ^ 63) 0 l
  | l => Z.of_N <$> digits_value (2 ^ 63 - 1) 0 l
  end.

(** [value.split(',')], on bytes. *)
Fixpoint split_at_byte (sep : N) (l : list N) : list (list N) :=
  match l with
  | [] => [[]]
  | b :: l =>
      if b =? sep then [] :: split_at_byte sep l
      else match split_at_byte sep l with
           | [] => [[b]]
           | part :: parts => (b :: part) :: parts
           end
  end.
Definition split_commas (s : string) : list string := string_of_bytes <$> split_at_byte 44 (string_bytes s).

(** ** Lemmas *)

Lemma bytes_of_string_of_bytes l : Forall (λ b, b < 256) l → string_bytes (string_of_bytes l) = l.
Proof.
  intros Hl. unfold string_bytes, string_of_bytes. rewrite String.list_ascii_of_string_of_list_ascii.
  rewrite <-list_fmap_compose. rewrite <-(list_fmap_id l) at 2. apply Forall_fmap_ext_1.
  eapply Forall_impl; [exact Hl|]. intros b Hb. apply N_ascii_embedding. done.
Qed.

Lemma digits_value_app max acc l1 l2 v :
  digits_value max acc l1 = Some v → digits_value max acc (l1 ++ l2) = digits_value max v l2.
Proof.
  revert acc. induction l1 as [|b l1 IH]; intros acc; cbn; [by intros [= <-]|].
  destruct (is_ascii_digit b); [|done]. destruct (_ <=? max); [apply IH|done].
Qed.

Lemma digits_value_bound max acc l v : acc <= max → digits_value max acc l = Some v → v <= max.
Proof.
  revert acc. induction l as [|b l IH]; intros acc Ha; cbn; [by intros [= <-]|].
  destruct (is_ascii_digit b); [|done]. destruct (N.leb_spec (acc * 10 + (b - 48)) max); [by apply IH|done].
Qed.

Lemma is_digit_mod n : is_ascii_digit (48 + n mod 10) = true.
Proof.
  pose proof (N.mod_lt n 10 ltac:(done)) as H. unfold is_ascii_digit, in_range.
  generalize dependent (n mod 10). intros m Hm. apply andb_true_iff. split; apply N.leb_le; lia.
Qed.

(** What [decimal] prints is read back. *)
Lemma decimal_digits_value max fuel n :
  n <= max → n < 10 ^ N.of_nat fuel → digits_value max 0 (decimal_digits fuel n) = Some n.
Proof.
  revert n. induction fuel as [|fuel IH]; intros n Hm Hf.
  { change (10 ^ N.of_nat 0) with 1 in Hf. by assert (n = 0) as -> by lia. }
  rewrite Nat2N.inj_succ, N.pow_succ_r' in Hf. cbn [decimal_digits].
  pose proof (N.div_mod n 10 ltac:(done)) as Hn. pose proof (N.mod_lt n 10 ltac:(done)) as Hlt.
  pose proof (is_digit_mod n) as Hd.
  revert Hn Hlt Hd. generalize (n / 10) (n mod 10). intros q m Hn Hlt Hd.
  assert (∀ p, p * 10 + m <= max → digits_value max p [48 + m] = Some (p * 10 + m)) as Hlast.
  { intros p Hp. cbn [digits_value]. rewrite Hd. replace (48 + m - 48) with m by lia.
    by rewrite (proj2 (N.leb_le _ _)). }
  destruct (N.ltb_spec n 10).
  - rewrite app_nil_l, Hlast by lia. f_equal. lia.
  - rewrite (digits_value_app _ _ _ _ q) by (apply IH; lia). rewrite Hlast by lia. f_equal. lia.
Qed.

Lemma decimal_digits_ascii fuel n : Forall (λ b, is_ascii_digit b = true) (decimal_digits fuel n).
Proof.
  revert n. induction fuel as [|fuel IH]; intros n; [constructor|]. cbn. apply Forall_app. split.
  - destruct (n <? 10); [constructor|apply IH].
  - repeat constructor. apply is_digit_mod.
Qed.

Lemma decimal_digits_cons fuel n : ∃ b l, decimal_digits (S fuel) n = b :: l ∧ is_ascii_digit b = true.
Proof.
  pose proof (decimal_digits_ascii (S fuel) n) as H. cbn [decimal_digits] in *.
  destruct (if n <? 10 then _ else _) as [|b l] eqn:E; cbn in *; apply Forall_cons in H as [Hb _]; eauto.
Qed.

Lemma digit_lt_256 b : is_ascii_digit b = true → b < 256.
Proof. unfold is_ascii_digit, in_range. intros [_ H%N.leb_le]%andb_true_iff. lia. Qed.

Lemma parse_unsigned_decimal max n : n <= max → max <= u64_max → parse_unsigned max (decimal n) = Some n.
Proof.
  intros Hn Hm. assert (n < 10 ^ N.of_nat 20) as Hlt by (unfold u64_max in Hm; cbn; lia).
  pose proof (decimal_digits_value max 20 n Hn Hlt) as Hv.
  unfold parse_unsigned, decimal. rewrite bytes_of_string_of_bytes.
  2: { eapply Forall_impl; [apply decimal_digits_ascii|]. apply digit_lt_256. }
  destruct (decimal_digits_cons 19 n) as (b & l & E & Hb). rewrite E in *.
  assert (b ≠ 43) as Hne by (intros ->; done).
  destruct (decide (b = 43)); [done|]. by repeat (case_match; try lia).
Qed.

Lemma parse_unsigned_bound max s n : parse_unsigned max s = Some n → n <= max.
Proof.
  unfold parse_unsigned. intros H. repeat (case_match; try done); by eapply digits_value_bound in H; [|lia].
Qed.

Lemma string_bytes_inj s t : string_bytes s = string_bytes t → s = t.
Proof.
  unfold string_bytes. intros H%(f_equal (fmap ascii_of_N)). rewrite <-!list_fmap_compose in H.
  rewrite (list_fmap_ext (ascii_of_N ∘ N_of_ascii) id), (list_fmap_ext (ascii_of_N ∘ N_of_ascii) id), !list_fmap_id in H
    by (intros; apply ascii_N_embedding).
  rewrite <-(String.string_of_list_ascii_of_string s), <-(String.string_of_list_ascii_of_string t). by rewrite H.
Qed.
