(* ===== verification/Auth.v ===== *)
(** * Client authorization

  Models [src/src/auth/]: the client kinds, the proof a request carries
  ([protected_client_auth_proof.rs]), the reading of the authority's answer
  ([authority_response.rs]) and the exchange with the authority
  ([http_license_authority.rs]). A JSON answer is a [Value], as serde_json decodes it; the HTTP
  exchange, the clock and the RFC 3339 parser of chrono are arguments. *)

From stdpp Require Import sorting.
From S2P Require Import Prelude Text Descriptor Protocol StartSync Parse.
Open Scope N_scope.

(** ** errors.rs *)

Inductive AuthError :=
| MissingToken
| MissingInstallationId
| UnsupportedClientKind
| Unauthorized
| EntitlementRequired
| InvalidAuthorityResponse
| InvalidAuthorityUrl
| AuthorityRequestFailed.

#[export] Instance AuthError_eq_dec : EqDecision AuthError.
Proof. solve_decision. Defined.

(** ** client_kind.rs *)

#[export] Instance ClientKind_eq_dec : EqDecision ClientKind.
Proof. solve_decision. Defined.

Definition ClientKind_as_str (k : ClientKind) : string :=
  match k with Desktop => "desktop" | Android => "android" | Ios => "ios" end.

Definition required_entitlement (k : ClientKind) : string :=
  match k with Desktop => "premiumOrTrial" | Android | Ios => "eligibleClient" end.

Definition ClientKind_parse (value : string) : result AuthError ClientKind :=
  let value := to_ascii_lowercase (trim_str value) in
  if value ==? "desktop"%string then Ok Desktop
  else if value ==? "android"%string then Ok Android
  else if value ==? "ios"%string then Ok Ios
  else Err UnsupportedClientKind.

(** ** verified_license.rs *)

Definition with_entitlement (kind : ClientKind) (installation subject tier : string) (features : list string)
    (has_premium trial_active : bool) : VerifiedLicense :=
  mkVerifiedLicense kind installation subject tier features has_premium trial_active.

Definition allows_feature_or_active_access (feature : string) (l : VerifiedLicense) : bool :=
  has_premium l || trial_active l || existsb (λ candidate, candidate ==? feature) (features l).

(** ** protected_client_auth_proof.rs *)

Record ProtectedAccessToken := mkProtectedAccessToken { expose_secret : string }.
Record ProtectedInstallationId := mkProtectedInstallationId { installation_as_str : string }.

Definition ProtectedAccessToken_new (value : string) : result AuthError ProtectedAccessToken :=
  let value := trim_str value in
  if value ==? ""%string then Err MissingToken else Ok (mkProtectedAccessToken value).

Definition ProtectedInstallationId_new (value : string) : result AuthError ProtectedInstallationId :=
  let value := trim_str value in
  if value ==? ""%string then Err MissingInstallationId else Ok (mkProtectedInstallationId value).

Record ProtectedRequestProof := mkProtectedRequestProof {
  proof_method : string;
  proof_path_and_query : string;
  proof_body_sha256_hex : string;
  proof_nonce : option string;
  proof_signature : option string;
  proof_timestamp : option string;
  proof_app_attest_key_id : option string;
  proof_app_attest_assertion : option string }.

Record ProtectedClientAuthProof := mkProtectedClientAuthProof {
  auth_client_kind : ClientKind;
  auth_access_token : ProtectedAccessToken;
  auth_installation_id : ProtectedInstallationId;
  auth_request : ProtectedRequestProof }.

(** ** JSON values

  [serde_json::Value]. An integer lies between [i64::MIN] and [u64::MAX]; the values of floats
  are never looked at. An object lists its fields in the order of iteration. *)

Set Warnings "-register-all".
Inductive Value :=
| JNull
| JBool (b : bool)
| JInt (z : Z)
| JFloat
| JString (s : string)
| JArray (values : list Value)
| JObject (fields : list (string * Value)).

Definition JMap : Type := list (string * Value).

Definition map_get (key : string) (m : JMap) : option Value := snd <$> List.find (λ field, fst field ==? key) m.

Definition as_object (v : Value) : option JMap := match v with JObject m => Some m | _ => None end.
Definition as_array (v : Value) : option (list Value) := match v with JArray l => Some l | _ => None end.
Definition as_str (v : Value) : option string := match v with JString s => Some s | _ => None end.
Definition as_bool (v : Value) : option bool := match v with JBool b => Some b | _ => None end.
Definition as_i64 (v : Value) : option Z :=
  match v with JInt z => if ((-2 ^ 63 <=? z) && (z <? 2 ^ 63))%Z then Some z else None | _ => None end.
Definition as_u64 (v : Value) : option N :=
  match v with JInt z => if ((0 <=? z) && (z <? 2 ^ 64))%Z then Some (Z.to_N z) else None | _ => None end.

(** ** authority_response.rs *)

Definition RECORD_KEYS : list string :=
  ["account"; "billing"; "customer"; "entitlement"; "license"; "purchase"; "stripe"]%string.

Definition collect_records (value : Value) : list JMap :=
  match as_object value with
  | Some root => root :: omap (λ key, map_get key root ≫= as_object) RECORD_KEYS
  | None => []
  end.

(** [records.iter().flat_map(|record| keys.iter().filter_map(|key| record.get(key)))]. *)
Definition fields_of (records : list JMap) (keys : list string) : list Value :=
  concat ((λ record, omap (λ key, map_get key record) keys) <$> records).

Definition read_bool (records : list JMap) (keys : list string) : option bool :=
  head (omap as_bool (fields_of records keys)).

(** [as_str().map(str::trim).filter(|value| !value.is_empty())]. *)
Definition as_text (v : Value) : option string :=
  s ← as_str v; let s := trim_str s in if s ==? ""%string then None else Some s.

Definition read_string (records : list JMap) (keys : list string) : option string :=
  head (omap as_text (fields_of records keys)).

Definition read_client_kind (records : list JMap) : result AuthError (option ClientKind) :=
  match read_string records ["clientKind"; "client_kind"]%string with
  | Some value => match ClientKind_parse value with
                  | Ok kind => Ok (Some kind)
                  | Err _ => Err InvalidAuthorityResponse
                  end
  | None => Ok None
  end.

(** The features of one record, as a list of names or as a map of flags. *)
Definition record_features (record : JMap) : list string :=
  match map_get "features" record with
  | Some (JArray values) =>
      omap (λ v, s ← as_str v; if trim_str s ==? ""%string then None else Some (trim_str s)) values
  | Some (JObject flags) => omap (λ '(feature, enabled), if as_bool enabled ==? Some true then Some feature else None) flags
  | _ => []
  end.

(** [Ord] of [str]: bytes, lexicographically. *)
Definition str_le (a b : string) : Prop := String.leb a b = true.
#[export] Instance str_le_dec : RelDecision str_le.
Proof. intros a b. unfold str_le. apply _. Defined.

(** [Vec::dedup]: consecutive repetitions are dropped. *)
Fixpoint dedup (l : list string) : list string :=
  match l with
  | x :: (y :: _) as l' => if x ==? y then dedup l' else x :: dedup l'
  | l => l
  end.

Definition collect_features (records : list JMap) : list string :=
  dedup (merge_sort str_le (concat (record_features <$> records))).

(** [i64] arithmetic in a release build. *)
Definition wrap_i64 (z : Z) : Z := ((z + 2 ^ 63) mod 2 ^ 64 - 2 ^ 63)%Z.

Definition normalize_timestamp_ms (timestamp : Z) : Z :=
  if (timestamp <? 10000000000)%Z then wrap_i64 (timestamp * 1000) else timestamp.

Section answer.
Context (parse_rfc3339_ms : string → option Z) (current_epoch_ms : Z).

Definition parse_date_ms (value : string) : option Z :=
  let trimmed := trim_str value in
  match parse_i64 trimmed with
  | Some timestamp => Some (normalize_timestamp_ms timestamp)
  | None => parse_rfc3339_ms trimmed
  end.

(** Whether a field holds a date that has not passed. *)
Definition in_future (v : Value) : bool :=
  match v with
  | JInt _ => is_some_and (as_i64 v) (λ t, (current_epoch_ms <? normalize_timestamp_ms t)%Z)
  | JString s => is_some_and (parse_date_ms s) (λ t, (current_epoch_ms <? t)%Z)
  | _ => false
  end.

Definition read_future_date (records : list JMap) (keys : list string) : bool :=
  existsb in_future (fields_of records keys).

Definition TIER_KEYS : list string := ["tier"; "accessStatus"; "status"; "entitlement"]%string.
Definition SUBJECT_KEYS : list string :=
  ["subjectId"; "subject_id"; "licenseId"; "license_id"; "accountId"; "account_id"; "installationId";
   "installation_id"]%string.

Definition is_paid_tier (tier : string) : bool :=
  existsb (λ t, to_ascii_lowercase tier ==? t) ["lifetime"; "paid"; "premium"; "pro"]%string.

Definition read_tier (records : list JMap) : string := unwrap_or (read_string records TIER_KEYS) "unknown"%string.

(** The identity that an answer describes. *)
Definition described_license (records : list JMap) (expected : ClientKind) (installation : string)
    : VerifiedLicense :=
  let tier := read_tier records in
  with_entitlement expected installation (unwrap_or (read_string records SUBJECT_KEYS) installation) tier
    (collect_features records)
    (unwrap_or (read_bool records ["hasPremium"; "isPremium"; "premiumActive"]%string) false || is_paid_tier tier)
    (unwrap_or (read_bool records ["isTrialActive"; "trialActive"]%string) false
     || eq_ignore_ascii_case tier "trial"
     || read_future_date records ["trialEndsAt"; "trialExpiresAt"]%string).

Definition parse_verified_license (value : Value) (expected : ClientKind) (installation feature : string)
    : result AuthError VerifiedLicense :=
  let records := collect_records value in
  if bool_decide (records = []) then Err InvalidAuthorityResponse
  else if read_bool records ["valid"; "authorized"; "allowed"]%string ==? Some false then Err Unauthorized
  else
    kind ← read_client_kind records;
    if is_some_and kind (λ kind, kind !=? expected) then Err InvalidAuthorityResponse
    else
      let verified := described_license records expected installation in
      if (read_bool records ["authorized"; "allowed"]%string ==? Some true)
         || allows_feature_or_active_access feature verified
      then Ok verified else Err EntitlementRequired.

(** ** http_license_authority.rs *)

Record VerifyProtectedRequest := mkVerifyProtectedRequest {
  vp_body_sha256_hex : string;
  vp_method : string;
  vp_nonce : option string;
  vp_path_and_query : string;
  vp_signature : option string;
  vp_timestamp : option string;
  vp_app_attest_key_id : option string;
  vp_app_attest_assertion : option string }.

Record VerifyClientAccessRequest := mkVerifyClientAccessRequest {
  vc_access_token : string;
  vc_client_kind : string;
  vc_feature : string;
  vc_installation_id : string;
  vc_protected_request : VerifyProtectedRequest;
  vc_required_entitlement : string }.

(** What [client.post(..).send()] and [response.json()] give: no response, or a status and the
    body if it is JSON. *)
Inductive AuthorityAnswer :=
| NoAnswer
| Answered (status : N) (body : option Value).

Definition authority_request (auth : ProtectedClientAuthProof) (feature : string) : VerifyClientAccessRequest :=
  let q := auth_request auth in
  mkVerifyClientAccessRequest (expose_secret (auth_access_token auth)) (ClientKind_as_str (auth_client_kind auth))
    feature (installation_as_str (auth_installation_id auth))
    (mkVerifyProtectedRequest (proof_body_sha256_hex q) (proof_method q) (proof_nonce q) (proof_path_and_query q)
       (proof_signature q) (proof_timestamp q) (proof_app_attest_key_id q) (proof_app_attest_assertion q))
    (required_entitlement (auth_client_kind auth)).

Definition is_success (status : N) : bool := (200 <=? status) && (status <=? 299).

(** [verify_client_access] of [HttpLicenseAuthority]; [post] is the exchange. *)
Definition verify_client_access (post : VerifyClientAccessRequest → AuthorityAnswer)
    (auth : ProtectedClientAuthProof) (feature : string) : result AuthError VerifiedLicense :=
  match post (authority_request auth feature) with
  | NoAnswer => Err AuthorityRequestFailed
  | Answered status body =>
      if status =? 401 then Err Unauthorized
      else if (status =? 402) || (status =? 403) then Err EntitlementRequired
      else if negb (is_success status) then Err AuthorityRequestFailed
      else match body with
           | None => Err InvalidAuthorityResponse
           | Some value => parse_verified_license value (auth_client_kind auth)
                             (installation_as_str (auth_installation_id auth)) feature
           end
  end.
End answer.

(** ** What an answer grants *)

Lemma elem_of_dedup x l : x ∈ dedup l ↔ x ∈ l.
Proof.
  induction l as [|y [|z l] IH]; [done|done|]. cbn [dedup]. case_bool_decide as Hyz.
  - subst. rewrite IH. set_solver.
  - rewrite elem_of_cons, IH. set_solver.
Qed.

Lemma elem_of_collect_features f records :
  f ∈ collect_features records ↔ ∃ r, r ∈ records ∧ f ∈ record_features r.
Proof.
  unfold collect_features. rewrite elem_of_dedup, merge_sort_Permutation, list_elem_of_In, in_concat.
  setoid_rewrite <-list_elem_of_In. set_solver.
Qed.

Section grants.
Context (parse_rfc3339_ms : string → option Z) (current_epoch_ms : Z).

(** What entitles a client to a feature: an explicit authorization, a premium or trial flag, a
    tier that is paid or a trial, a trial that has not ended, or the feature itself. *)
Inductive entitled (records : list JMap) (feature : string) : Prop :=
| by_authorization : read_bool records ["authorized"; "allowed"]%string = Some true → entitled records feature
| by_premium : read_bool records ["hasPremium"; "isPremium"; "premiumActive"]%string = Some true →
               entitled records feature
| by_paid_tier : is_paid_tier (read_tier records) = true → entitled records feature
| by_trial : read_bool records ["isTrialActive"; "trialActive"]%string = Some true → entitled records feature
| by_trial_tier : eq_ignore_ascii_case (read_tier records) "trial" = true → entitled records feature
| by_trial_date v : v ∈ fields_of records ["trialEndsAt"; "trialExpiresAt"]%string →
                    in_future parse_rfc3339_ms current_epoch_ms v = true → entitled records feature
| by_feature r : r ∈ records → feature ∈ record_features r → entitled records feature.

(** The answers that grant access: an object, no verdict against the client before one for it,
    no other client kind, and an entitlement. *)
Definition grants (value : Value) (expected : ClientKind) (feature : string) : Prop :=
  let records := collect_records value in
  is_Some (as_object value) ∧
  read_bool records ["valid"; "authorized"; "allowed"]%string ≠ Some false ∧
  (read_client_kind records = Ok None ∨ read_client_kind records = Ok (Some expected)) ∧
  entitled records feature.

Lemma unwrap_or_false (o : option bool) : unwrap_or o false = true ↔ o = Some true.
Proof. destruct o as [[]|]; cbn; naive_solver. Qed.

Lemma entitled_iff records expected installation feature :
  (read_bool records ["authorized"; "allowed"]%string ==? Some true)
  || allows_feature_or_active_access feature
       (described_license parse_rfc3339_ms current_epoch_ms records expected installation) = true
  ↔ entitled records feature.
Proof.
  unfold allows_feature_or_active_access, described_license, with_entitlement.
  cbn [has_premium trial_active features].
  rewrite !orb_true_iff, bool_decide_eq_true, !unwrap_or_false, existsb_exists.
  unfold read_future_date. rewrite existsb_exists. split.
  - intros [H|[[[H|H]|[[H|H]|(v & Hv & Hf)]]|(f & Hf & Heq)]].
    + by apply by_authorization.
    + by apply by_premium.
    + by apply by_paid_tier.
    + by apply by_trial.
    + by apply by_trial_tier.
    + eapply by_trial_date; [|exact Hf]. by apply list_elem_of_In.
    + guards. subst f. apply list_elem_of_In, elem_of_collect_features in Hf as (r & ? & ?). by eapply by_feature.
  - destruct 1 as [H|H|H|H|H|v Hv Hf|r Hr Hf]; [by left|right..].
    1-4: naive_solver.
    + left. right. right. exists v. by rewrite <-list_elem_of_In.
    + right. exists feature. rewrite bool_decide_eq_true, <-list_elem_of_In, elem_of_collect_features. eauto.
Qed.

Lemma parse_verified_license_spec value expected installation feature l :
  parse_verified_license parse_rfc3339_ms current_epoch_ms value expected installation feature = Ok l ↔
  grants value expected feature ∧
  l = described_license parse_rfc3339_ms current_epoch_ms (collect_records value) expected installation.
Proof.
  unfold parse_verified_license, grants. rewrite <-(entitled_iff _ expected installation).
  assert (is_Some (as_object value) ↔ collect_records value ≠ []) as ->.
  { unfold collect_records. destruct (as_object value); naive_solver. }
  set (records := collect_records value).
  destruct (bool_decide_reflect (records = [])) as [|Hne]; [naive_solver|].
  destruct (bool_decide_reflect (read_bool records ["valid"; "authorized"; "allowed"]%string = Some false));
    [naive_solver|].
  destruct (read_client_kind records) as [[kind|]|e]; cbn; [|destruct (_ || _)..]; try naive_solver.
  destruct (bool_decide_reflect (kind = expected)); cbn; [destruct (_ || _)|]; naive_solver.
Qed.
End grants.

Module Authority.

End Authority.

(** ** What the model shows about the code *)

(** An answer that says [authorized: false] is not a refusal when it also says [valid: true]. *)
Lemma explicit_refusal_is_shadowed :
  let answer := JObject [("valid", JBool true); ("authorized", JBool false); ("tier", JString "premium")]%string in
  is_ok (parse_verified_license (λ _, None) 0 answer Desktop "install" "netplay") = true.
Proof. vm_compute. reflexivity. Qed.

(** A trial that ended long before the epoch counts as active: the multiplication wraps. *)
Lemma ancient_trial_is_active :
  let answer := JObject [("trialEndsAt", JInt (-9223372036854776))]%string in
  parse_verified_license (λ _, None) 1700000000000 answer Desktop "install" "netplay"
  = Ok (mkVerifiedLicense Desktop "install" "install" "unknown" [] false true).
Proof. vm_compute. reflexivity. Qed.
