(* ===== verification/Rollout.v ===== *)
(** * Protocol rollout policy

  Models [src/src/protocol/protocol_rollout.rs]: the versions that each kind of client must
  support, and the switch that withholds protocol v5. *)

From S2P Require Import Prelude Text Descriptor.
Open Scope N_scope.

Record NetplayProtocolRolloutPolicy := mkNetplayProtocolRolloutPolicy {
  v5_enabled : bool;
  minimum_android : N;
  minimum_ios : N;
  minimum_desktop : N }.

Definition enabled_maximum (v5 : bool) : N :=
  if v5 then NETPLAY_PROTOCOL_VERSION else LEGACY_NETPLAY_PROTOCOL_VERSION.

(** The loop over the three minimums stops at the first that is out of range. *)
Definition NetplayProtocolRolloutPolicy_new (v5 : bool) (android ios desktop : N)
    : result ProtocolVersionError NetplayProtocolRolloutPolicy :=
  let fits minimum :=
    (MIN_SUPPORTED_NETPLAY_PROTOCOL_VERSION <=? minimum) && (minimum <=? enabled_maximum v5) in
  match List.find (λ minimum, negb (fits minimum)) [android; ios; desktop] with
  | Some minimum => Err (mkProtocolVersionError minimum)
  | None => Ok (mkNetplayProtocolRolloutPolicy v5 android ios desktop)
  end.

Definition NetplayProtocolRolloutPolicy_default : NetplayProtocolRolloutPolicy :=
  mkNetplayProtocolRolloutPolicy true MIN_SUPPORTED_NETPLAY_PROTOCOL_VERSION
    MIN_SUPPORTED_NETPLAY_PROTOCOL_VERSION MIN_SUPPORTED_NETPLAY_PROTOCOL_VERSION.

Definition minimum_for (kind : NetplayClientKind) (p : NetplayProtocolRolloutPolicy) : N :=
  match kind with
  | AndroidClient => minimum_android p
  | IosClient => minimum_ios p
  | DesktopClient => minimum_desktop p
  end.

Definition maximum (p : NetplayProtocolRolloutPolicy) : N :=
  if v5_enabled p then NETPLAY_PROTOCOL_VERSION else LEGACY_NETPLAY_PROTOCOL_VERSION.

Definition negotiate (kind : NetplayClientKind) (client_minimum client_maximum : N)
    (p : NetplayProtocolRolloutPolicy) : result ProtocolVersionError N :=
  if client_maximum <? client_minimum then Err (mkProtocolVersionError client_maximum)
  else
    let minimum := N.max client_minimum (minimum_for kind p) in
    let maximum := N.min client_maximum (maximum p) in
    if maximum <? minimum then Err (mkProtocolVersionError client_maximum) else Ok maximum.

Definition validate_exact (kind : NetplayClientKind) (version : N) (p : NetplayProtocolRolloutPolicy)
    : result ProtocolVersionError unit :=
  if (minimum_for kind p <=? version) && (version <=? maximum p) then Ok tt
  else Err (mkProtocolVersionError version).

(** ** What a policy admits *)

(** The policies that [new] builds. *)
Definition policy_ok (p : NetplayProtocolRolloutPolicy) : Prop :=
  ∀ kind, MIN_SUPPORTED_NETPLAY_PROTOCOL_VERSION <= minimum_for kind p <= maximum p.

Lemma policy_new_ok v5 android ios desktop p :
  NetplayProtocolRolloutPolicy_new v5 android ios desktop = Ok p →
  policy_ok p ∧ p = mkNetplayProtocolRolloutPolicy v5 android ios desktop.
Proof.
  unfold NetplayProtocolRolloutPolicy_new, maximum. cbn [List.find].
  destruct (_ && (android <=? _)) eqn:Ha; [|done]. destruct (_ && (ios <=? _)) eqn:Hi; [|done].
  destruct (_ && (desktop <=? _)) eqn:Hd; [|done]. intros [= <-]. split; [|done].
  apply andb_true_iff in Ha as [?%N.leb_le ?%N.leb_le], Hi as [?%N.leb_le ?%N.leb_le],
    Hd as [?%N.leb_le ?%N.leb_le].
  by intros [].
Qed.

Lemma validate_exact_iff kind version p :
  is_ok (validate_exact kind version p) = true ↔ minimum_for kind p <= version <= maximum p.
Proof.
  unfold validate_exact. destruct (_ && _) eqn:E; cbn.
  - apply andb_true_iff in E as [?%N.leb_le ?%N.leb_le]. done.
  - apply andb_false_iff in E as [?%N.leb_gt|?%N.leb_gt]; split; (done || lia).
Qed.

Module Rollout.

(** Negotiation picks the best admissible version. Under a policy that the server accepts, the
    version chosen for a client is the newest one that the client offers and that the policy
    admits for its platform, and it is one this build implements; the negotiation fails
    exactly when no offered version is admitted. *)
Theorem negotiation_is_optimal v5 android ios desktop p kind lo hi :
  NetplayProtocolRolloutPolicy_new v5 android ios desktop = Ok p →
  match negotiate kind lo hi p with
  | Ok v => lo <= v <= hi ∧ is_ok (validate_exact kind v p) = true
            ∧ is_ok (validate_client_protocol_version v) = true
            ∧ ∀ w, lo <= w <= hi → is_ok (validate_exact kind w p) = true → w <= v
  | Err _ => ∀ w, lo <= w <= hi → is_ok (validate_exact kind w p) = false
  end.
Proof.
  intros [Hp _]%policy_new_ok. specialize (Hp kind). unfold negotiate.
  assert (maximum p <= NETPLAY_PROTOCOL_VERSION) as Hmax by (unfold maximum; by destruct (v5_enabled p)).
  assert (∀ w, is_ok (validate_exact kind w p) = false ↔ ~ minimum_for kind p <= w <= maximum p) as Hno.
  { intros w. rewrite <-validate_exact_iff. by destruct (is_ok _). }
  destruct (N.ltb_spec hi lo); [intros w ?; lia|].
  destruct (N.ltb_spec (N.min hi (maximum p)) (N.max lo (minimum_for kind p))).
  - intros w Hw. apply Hno. lia.
  - split_and!; [lia|lia|apply validate_exact_iff; lia| |intros w Hw ?%validate_exact_iff; lia].
    unfold validate_client_protocol_version.
    rewrite (proj2 (N.leb_le _ _)), (proj2 (N.leb_le _ _)) by lia. done.
Qed.

Lemma negotiation_is_optimal_witness :
  negotiate AndroidClient 4 9 (mkNetplayProtocolRolloutPolicy true 5 4 4) = Ok 5
  ∧ is_ok (validate_exact AndroidClient 5 (mkNetplayProtocolRolloutPolicy true 5 4 4)) = true.
Proof.
  split; [reflexivity|].
  exact (proj1 (proj2 (negotiation_is_optimal true 5 4 4 (mkNetplayProtocolRolloutPolicy true 5 4 4) AndroidClient 4 9
    eq_refl))).
Defined.
End Rollout.
