(* ===== verification/Http.v ===== *)
(** * Requests, their identity and their errors

  Models [src/src/http/client_auth_headers.rs], [client_identity.rs], [admin_auth.rs] and
  [errors.rs]. A header map is the list of its fields, names in lower case; the parser and the
  text form of IP addresses are arguments, as is SHA-256. *)

From Stdlib Require Import Ascii Strings.Byte.
From S2P Require Import Prelude Ids Wire Text Descriptor Protocol Invite StartSync SnapshotTransfer RateLimit.
From S2P Require Import Lobby Parse Auth.
Open Scope N_scope.

(** ** Headers *)

Definition HeaderMap : Type := list (string * string).

Definition header_get (name : string) (headers : HeaderMap) : option string :=
  snd <$> List.find (λ field, fst field ==? name) headers.

(** [HeaderValue::to_str]: visible ASCII, space and tab. *)
Definition to_str (value : string) : option string :=
  if forallb (λ b, in_range 32 126 b || (b =? 9)) (string_bytes value) then Some value else None.

(** [headers.get(name).and_then(|value| value.to_str().ok())]. *)
Definition header_text (headers : HeaderMap) (name : string) : option string := header_get name headers ≫= to_str.

(** [.map(str::trim).filter(|value| !value.is_empty())]. *)
Definition non_blank (value : string) : option string :=
  let value := trim_str value in if value ==? ""%string then None else Some value.

Definition or_else {A} (o o' : option A) : option A := match o with Some a => Some a | None => o' end.

(** ** errors.rs *)

Inductive HttpError :=
| HttpAuth (e : AuthError)
| HttpRoom (e : RoomError)
| HttpLobby (e : LobbyError)
| HttpRateLimited (e : RateLimitExceeded)
| HttpInvalidRequest (code message : string)
| AdminDisabled
| AdminUnauthorized.

Definition from_protocol_version_error (_ : ProtocolVersionError) : HttpError :=
  HttpInvalidRequest "unsupportedProtocolVersion" "This netplay protocol version is not supported.".
Definition from_session_descriptor_error (_ : SessionDescriptorError) : HttpError :=
  HttpInvalidRequest "invalidSessionDescriptor" "Netplay session details are invalid.".

Record ErrorResponse := mkErrorResponse {
  response_status : N;
  response_code : string;
  response_message : string;
  response_retry_after : option N }.

Definition auth_error_response (e : AuthError) : N * string * string :=
  match e with
  | MissingToken | MissingInstallationId => (401, "missingClientAuth", "Missing client authorization proof.")
  | UnsupportedClientKind =>
      (400, "unsupportedClientKind", "This ShadowBoy client platform is not supported for netplay.")
  | Unauthorized => (403, "notAuthorized", "This license is not authorized for netplay.")
  | EntitlementRequired => (402, "entitlementRequired", "This client is not eligible for netplay.")
  | _ => (502, "licenseAuthorityUnavailable", "License verification is unavailable.")
  end%string.

Definition room_error_response (e : RoomError) : N * string * string :=
  match e with
  | InvalidInviteCode => (400, "invalidInviteCode", "Invite code is invalid.")
  | NotFound => (404, "roomNotFound", "Room was not found.")
  | RoomFull => (409, "roomFull", "Room is full.")
  | Ids.RoomClosed => (410, "roomClosed", "Room is closed.")
  | StaleRoomEpoch => (409, "staleRoomEpoch", "Room state changed; refresh and retry.")
  | StaleSessionEpoch => (409, "staleSessionEpoch", "Netplay session changed; refresh and retry.")
  | ResumeTokenInvalid => (401, "resumeTokenInvalid", "Reconnect token is invalid.")
  | RecoveryExpired => (410, "recoveryExpired", "Reconnect recovery window expired.")
  | _ => (409, "roomStateConflict", "Room state does not allow this operation.")
  end%string.

Definition lobby_error_response (e : LobbyError) : N * string * string :=
  match e with
  | LobbyNotFound => (404, "lobbyNotFound", "Lobby was not found.")
  | LobbyFull => (409, "lobbyFull", "Lobby is full.")
  | LobbyClosed => (410, "lobbyClosed", "Lobby is closed.")
  | StaleLobbyEpoch => (409, "staleLobbyEpoch", "Lobby state changed; refresh and retry.")
  | LobbyResumeTokenInvalid => (401, "lobbyResumeTokenInvalid", "Lobby reconnect token is invalid.")
  | PlayerSlotUnavailable => (409, "lobbyPlayerSlotUnavailable", "Lobby player slot is not available.")
  | LobbyUnknownConnection => (409, "unknownLobbyConnection", "Connection is not assigned to this lobby.")
  | LobbyHostOnly => (403, "lobbyHostOnly", "Only Player 1 can perform this action.")
  | PlayerRemovalHostOnly => (403, "hostOnly", "Only the lobby host can remove a player.")
  | LobbyPlayerNotFound => (409, "lobbyPlayerNotFound", "The selected lobby player is no longer present.")
  | CannotRemoveLobbyHost => (409, "cannotRemoveLobbyHost", "The lobby host cannot be removed.")
  | LobbyPlayerRemovalUnavailable =>
      (409, "lobbyPlayerRemovalUnavailable", "Players cannot be removed while a game launch is active.")
  | StaleGameProposal => (409, "staleLobbyGameProposal", "Selected game changed; refresh and retry.")
  | PlayersNotReady => (409, "lobbyPlayersNotReady", "Players are not ready yet.")
  | GameLaunchNotReady => (409, "lobbyGameLaunchNotReady", "Gameplay launch is not ready yet.")
  | LobbyRomRelayUnavailable => (409, "lobbyRomRelayUnavailable", "Temporary session access is not available.")
  | LobbyRomRelayUnsupported =>
      (409, "lobbyRomRelayUnsupported", "Temporary session access is not supported by every player.")
  | LobbyRomRelayTooLarge =>
      (413, "lobbyRomRelayTooLarge", "This game is too large for temporary session access.")
  | StartupStateRelayUnavailable =>
      (409, "lobbyStartupStateRelayUnavailable", "Startup state transfer is not available.")
  | StartupStateRelayUnsupported =>
      (409, "lobbyStartupStateRelayUnsupported", "Startup state transfer is not supported by every player.")
  | StartupStateRelayTooLarge =>
      (413, "lobbyStartupStateRelayTooLarge", "This startup state is too large for temporary session access.")
  | LobbyVoiceUnavailable => (409, "lobbyVoiceUnavailable", "Voice chat is unavailable.")
  | LobbyInvalidPayload => (400, "invalidLobbyPayload", "Lobby payload is invalid.")
  end%string.

(** [Duration::as_secs]. *)
Definition as_secs (d : Duration) : N := d / 1000000000.

Definition into_response (e : HttpError) : ErrorResponse :=
  let respond '(status, code, message) := mkErrorResponse status code message None in
  match e with
  | HttpAuth e => respond (auth_error_response e)
  | HttpRoom e => respond (room_error_response e)
  | HttpLobby e => respond (lobby_error_response e)
  | HttpRateLimited e =>
      mkErrorResponse 429 "rateLimited" "Too many requests. Please wait and try again."
        (Some (N.max (as_secs (retry_after e)) 1))
  | HttpInvalidRequest code message => mkErrorResponse 400 code message None
  | AdminDisabled => mkErrorResponse 404 "notFound" "The requested endpoint is not available." None
  | AdminUnauthorized => mkErrorResponse 401 "adminUnauthorized" "Admin authorization is required." None
  end.

(** ** client_auth_headers.rs *)

Definition optional_header (headers : HeaderMap) (name : string) : option string :=
  header_text headers name ≫= non_blank.

Definition client_kind_of (headers : HeaderMap) : result HttpError ClientKind :=
  match or_else (optional_header headers "x-client-kind") (optional_header headers "x-shadowboy-client-kind") with
  | Some value => map_err (ClientKind_parse value) HttpAuth
  | None => Ok Desktop
  end.

Definition required_installation_id (headers : HeaderMap) : result HttpError string :=
  ok_or (or_else (optional_header headers "x-install-id") (optional_header headers "x-installation-id"))
    (HttpAuth MissingInstallationId).

Section proof.
Context (sha256 : bytes → bytes).

Definition client_auth_proof (headers : HeaderMap) (method path_and_query : string) (body : bytes)
    : result HttpError ProtectedClientAuthProof :=
  header ← ok_or (header_get "authorization" headers) (HttpAuth MissingToken);
  value ← ok_or (to_str header) (HttpAuth MissingToken);
  token ← ok_or (strip_prefix "Bearer " value) (HttpAuth MissingToken);
  client_kind ← client_kind_of headers;
  access_token ← map_err (ProtectedAccessToken_new token) HttpAuth;
  installation_id ← required_installation_id headers;
  installation_id ← map_err (ProtectedInstallationId_new installation_id) HttpAuth;
  Ok (mkProtectedClientAuthProof client_kind access_token installation_id
        (mkProtectedRequestProof method path_and_query (hex_string (sha256 body))
           (optional_header headers "x-req-nonce") (optional_header headers "x-req-sig")
           (optional_header headers "x-req-ts") (optional_header headers "x-app-attest-key-id")
           (optional_header headers "x-app-attest-assertion"))).
End proof.

(** ** client_identity.rs *)

Section identity.
Context {IpAddr : Type} (parse_ip : string → option IpAddr) (show_ip : IpAddr → string).

Definition parsed_header_ip (headers : HeaderMap) (name : string) : option IpAddr :=
  value ← header_text headers name; parse_ip (trim_str value).

(** [value.split(',').rev().map(str::trim).find_map(..)]. *)
Definition forwarded_for_last_valid_ip (headers : HeaderMap) : option IpAddr :=
  value ← header_text headers "x-forwarded-for";
  head (omap (parse_ip ∘ trim_str) (rev (split_commas value))).

Definition trusted_proxy_ip (headers : HeaderMap) : option IpAddr :=
  or_else (parsed_header_ip headers "cf-connecting-ip")
    (or_else (parsed_header_ip headers "x-real-ip") (forwarded_for_last_valid_ip headers)).

Definition ip_key (ip : IpAddr) : string := ("ip:" ++ show_ip ip)%string.

Definition request_rate_limit_key (headers : HeaderMap) (trust_proxy_headers : bool) : string :=
  match (if trust_proxy_headers then trusted_proxy_ip headers else None) with
  | Some ip => ip_key ip
  | None =>
      match (or_else (header_get "x-install-id" headers) (header_get "x-installation-id" headers) ≫= to_str)
              ≫= non_blank with
      | Some value => ("install:" ++ value)%string
      | None => "anonymous"
      end
  end.

Definition capability_request_rate_limit_key (headers : HeaderMap) (trust_proxy_headers : bool)
    (peer_ip : option IpAddr) : string :=
  match (if trust_proxy_headers then trusted_proxy_ip headers else None) with
  | Some ip => ip_key ip
  | None => match peer_ip with Some ip => ip_key ip | None => "anonymous" end
  end.
End identity.

(** ** admin_auth.rs *)

Record AdminAuthorizer := mkAdminAuthorizer { admin_token : option string }.

(** The bitwise comparison looks at every byte. *)
Definition constant_time_eq (left right : list N) : bool :=
  if negb (length left =? length right)%nat then false
  else foldl (λ diff '(l, r), N.lor diff (N.lxor l r)) 0 (zip left right) =? 0.

Definition admin_verify (a : AdminAuthorizer) (headers : HeaderMap) : result HttpError unit :=
  expected ← ok_or (admin_token a) AdminDisabled;
  match header_text headers "authorization" ≫= strip_prefix "Bearer " with
  | Some actual => if constant_time_eq (string_bytes (trim_str actual)) (string_bytes expected)
                   then Ok tt else Err AdminUnauthorized
  | None => Err AdminUnauthorized
  end.

(** ** Lemmas *)

Lemma fold_diff_zero (l : list (N * N)) d :
  foldl (λ diff '(l, r), N.lor diff (N.lxor l r)) d l = 0 ↔ d = 0 ∧ Forall (λ p, p.1 = p.2) l.
Proof.
  revert d. induction l as [|[x y] l IH]; intros d; cbn; [naive_solver|].
  rewrite IH, N.lor_eq_0_iff, N.lxor_eq_0_iff, Forall_cons. naive_solver.
Qed.

Lemma zip_all_eq (l r : list N) : length l = length r → Forall (λ p, p.1 = p.2) (zip l r) ↔ l = r.
Proof.
  revert r. induction l as [|x l IH]; intros [|y r] H; try done; cbn in *.
  rewrite Forall_cons, IH by lia. cbn. naive_solver.
Qed.

Lemma constant_time_eq_spec l r : constant_time_eq l r = true ↔ l = r.
Proof.
  unfold constant_time_eq. destruct (Nat.eqb_spec (length l) (length r)) as [H|H]; cbn.
  - rewrite N.eqb_eq, fold_diff_zero, zip_all_eq by done. naive_solver.
  - naive_solver.
Qed.

Module Requests.

(** The operator's routes are open to the operator alone. A request is let through exactly when
    an operator token is configured and the request carries it as its bearer token, up to
    surrounding white space; the comparison that looks at every byte is equality. *)
Theorem admin_access_is_exact a headers :
  admin_verify a headers = Ok tt ↔
  ∃ token value, admin_token a = Some token ∧
    header_text headers "authorization" ≫= strip_prefix "Bearer " = Some value ∧ trim_str value = token.
Proof.
  unfold admin_verify, mbind, result_bind, ok_or. destruct (admin_token a) as [token|]; [|naive_solver].
  change (@option_bind) with (@mbind option _). destruct (_ ≫= strip_prefix _) as [value|] eqn:E; [|naive_solver].
  destruct (constant_time_eq _ _) eqn:Ec.
  - apply constant_time_eq_spec, string_bytes_inj in Ec. naive_solver.
  - split; [done|]. intros (t & v & [= <-] & [= <-] & Ht).
    assert (constant_time_eq (string_bytes (trim_str value)) (string_bytes token) = true) as H
      by (apply constant_time_eq_spec; by rewrite Ht). congruence.
Qed.
End Requests.
