(* ===== verification/Config.v ===== *)
(** * Configuration

  Models [src/src/config.rs], [src/src/file_relay/config.rs] and
  [src/src/observability/postgres_dsn.rs]: the reading of the process environment. [env::var] is
  the function [var], which is [None] for a variable that is absent or not Unicode; the parsers
  of socket addresses and URLs are arguments. *)

From S2P Require Import Prelude Ids Text Descriptor Protocol StartSync Lobby RateLimit Parse Rollout.
Open Scope N_scope.

Inductive ConfigError :=
| MissingEnv (name : string)
| EmptyEnv (name : string)
| InvalidBindAddr
| InvalidBool (name : string)
| InvalidUnsigned (name : string)
| InvalidProtocolRollout
| InvalidLogFormat (name : string)
| InvalidPostgresDsn.

#[export] Instance ConfigError_eq_dec : EqDecision ConfigError.
Proof. solve_decision. Defined.

(** ** postgres_dsn.rs *)

(** What the code reads of a [url::Url]. *)
Record Url := mkUrl { url_scheme : string; url_path : string; url_query_pairs : list (string * string) }.

Inductive PostgresTlsMode := TlsRequire | TlsPrefer | TlsDisable | TlsVerify.
Inductive PostgresDsnError := DsnInvalid | DsnUnsupportedScheme | DsnMissingDatabase | DsnInvalidSslMode.

Record PostgresDsn := mkPostgresDsn { dsn_value : string; dsn_database : string; dsn_tls_mode : PostgresTlsMode }.

Definition postgres_tls_mode (url : Url) : result PostgresDsnError PostgresTlsMode :=
  match List.find (λ pair, fst pair ==? "sslmode"%string) (url_query_pairs url) with
  | None => Ok TlsPrefer
  | Some (_, value) =>
      if value ==? "require"%string then Ok TlsRequire
      else if value ==? "prefer"%string then Ok TlsPrefer
      else if value ==? "disable"%string then Ok TlsDisable
      else if (value ==? "verify-ca"%string) || (value ==? "verify-full"%string) then Ok TlsVerify
      else Err DsnInvalidSslMode
  end.

(** [trim_start_matches('/')]. *)
Fixpoint trim_start_slashes (l : list N) : list N :=
  match l with
  | 47 :: l => trim_start_slashes l
  | l => l
  end.

(** [trim_end_matches('/')]. *)
Definition trim_end_slashes (s : string) : string :=
  string_of_bytes (rev (trim_start_slashes (rev (string_bytes s)))).

Definition PostgresDsn_parse (url_parse : string → option Url) (value : string) : result PostgresDsnError PostgresDsn :=
  let value := trim_str value in
  url ← ok_or (url_parse value) DsnInvalid;
  if negb ((url_scheme url ==? "postgres"%string) || (url_scheme url ==? "postgresql"%string))
  then Err DsnUnsupportedScheme
  else
    let database := trim_str (string_of_bytes (trim_start_slashes (string_bytes (url_path url)))) in
    if database ==? ""%string then Err DsnMissingDatabase
    else tls_mode ← postgres_tls_mode url; Ok (mkPostgresDsn value database tls_mode).

(** ** The typed configuration *)

Inductive LogFormat := LogCompact | LogJson.

Record HttpBrokerConfig := mkHttpBrokerConfig {
  broker_base_url : string;
  broker_bearer_token : string;
  broker_request_timeout : Duration }.

Inductive BrokerConfig := BrokerOff | BrokerHttp (config : HttpBrokerConfig).

Record PostgresTableNames := mkPostgresTableNames {
  table_events : string;
  table_lobby_events : string;
  table_performance_samples : string }.

Inductive TelemetrySinkConfig :=
| TelemetryDisabled
| TelemetryPostgres (dsn : PostgresDsn) (tables : PostgresTableNames).

Record TelemetryConfig := mkTelemetryConfig {
  telemetry_sink : TelemetrySinkConfig;
  queue_capacity : N;
  batch_size : N;
  flush_interval : Duration }.

Record FileRelayConfig := mkFileRelayConfig {
  relay_broker : BrokerConfig;
  relay_temporary_roms_enabled : bool;
  relay_direct_roms_enabled : bool;
  relay_temporary_rom_max_bytes : N;
  relay_direct_rom_allowed_systems : list string;
  relay_save_states_enabled : bool }.

Definition broker_enabled_config (c : FileRelayConfig) : bool :=
  match relay_broker c with BrokerHttp _ => true | BrokerOff => false end.

Record ServerConfig {SocketAddr : Type} := mkServerConfig {
  bind_addr : SocketAddr;
  authorize_url : string;
  license_internal_secret : string;
  config_admin_token : option string;
  config_trust_proxy_headers : bool;
  rate_limits : RateLimitPolicy;
  config_protocol_rollout : NetplayProtocolRolloutPolicy;
  recovery : RoomRecoveryConfig;
  lobby_idle : Duration;
  log_format : LogFormat;
  telemetry : TelemetryConfig;
  voice : BrokerConfig;
  file_relay_config : FileRelayConfig }.
Arguments ServerConfig : clear implicits.

Section env.
Context (var : string → option string).

(** ** One variable *)

Definition required_env (name : string) : result ConfigError string :=
  match var name with
  | None => Err (MissingEnv name)
  | Some value => if is_blank value then Err (EmptyEnv name) else Ok value
  end.

Definition optional_env (name : string) : result ConfigError (option string) :=
  match var name with
  | Some value => if is_blank value then Err (EmptyEnv name) else Ok (Some (trim_str value))
  | None => Ok None
  end.

(** The shape of the typed readers: [parse] on the trimmed text, or the default. *)
Definition optional_parsed_env {A} (name : string) (default_ : A) (parse : string → option A) (invalid : ConfigError)
    : result ConfigError A :=
  match var name with
  | Some value => if is_blank value then Err (EmptyEnv name) else ok_or (parse (trim_str value)) invalid
  | None => Ok default_
  end.

Definition parse_bool (value : string) : option bool :=
  let value := to_ascii_lowercase value in
  if existsb (λ v, value ==? v) ["1"; "true"; "yes"; "on"]%string then Some true
  else if existsb (λ v, value ==? v) ["0"; "false"; "no"; "off"]%string then Some false
  else None.

Definition optional_bool_env (name : string) (default_ : bool) : result ConfigError bool :=
  optional_parsed_env name default_ parse_bool (InvalidBool name).
Definition optional_u32_env (name : string) (default_ : N) : result ConfigError N :=
  optional_parsed_env name default_ (parse_unsigned u32_max) (InvalidUnsigned name).
Definition optional_u16_env (name : string) (default_ : N) : result ConfigError N :=
  optional_parsed_env name default_ (parse_unsigned u16_max) (InvalidUnsigned name).
Definition optional_u64_env (name : string) (default_ : N) : result ConfigError N :=
  optional_parsed_env name default_ (parse_unsigned u64_max) (InvalidUnsigned name).
Definition optional_duration_seconds_env (name : string) (default_seconds : N) : result ConfigError Duration :=
  optional_parsed_env name (from_secs default_seconds) (λ s, from_secs <$> parse_unsigned u64_max s)
    (InvalidUnsigned name).
Definition optional_duration_millis_env (name : string) (default_millis : N) : result ConfigError Duration :=
  optional_parsed_env name (from_millis default_millis) (λ s, from_millis <$> parse_unsigned u64_max s)
    (InvalidUnsigned name).

Definition parse_log_format (value : string) : option LogFormat :=
  let value := to_ascii_lowercase value in
  if value ==? "compact"%string then Some LogCompact
  else if value ==? "json"%string then Some LogJson else None.
Definition optional_log_format_env (name : string) (default_ : LogFormat) : result ConfigError LogFormat :=
  optional_parsed_env name default_ parse_log_format (InvalidLogFormat name).

(** Here the parts are trimmed, not the value. *)
Definition optional_csv_env (name : string) (default_ : list string) : result ConfigError (list string) :=
  match var name with
  | Some value =>
      if is_blank value then Err (EmptyEnv name)
      else
        let values := List.filter (λ part, part !=? ""%string)
                        ((λ part, to_ascii_lowercase (trim_str part)) <$> split_commas value) in
        if values ==? [] then Err (EmptyEnv name) else Ok values
  | None => Ok default_
  end.

Fixpoint first_fallback (primary : string) (fallbacks : list string) : result ConfigError string :=
  match fallbacks with
  | [] => Err (MissingEnv primary)
  | name :: fallbacks =>
      value ← optional_env name;
      match value with Some value => Ok value | None => first_fallback primary fallbacks end
  end.

Definition required_env_with_fallbacks (primary : string) (fallbacks : list string) : result ConfigError string :=
  match var primary with
  | Some value => if is_blank value then Err (EmptyEnv primary) else Ok value
  | None => first_fallback primary fallbacks
  end.

(** ** The sections *)

(** The [match] on both variables, which [VoiceConfig] and [FileRelayConfig] repeat. *)
Definition broker_of (url_name token_name : string) (url token : option string) (timeout : Duration)
    : result ConfigError BrokerConfig :=
  match url, token with
  | None, None => Ok BrokerOff
  | Some base_url, Some bearer_token => Ok (BrokerHttp (mkHttpBrokerConfig base_url bearer_token timeout))
  | Some _, None => Err (MissingEnv token_name)
  | None, Some _ => Err (MissingEnv url_name)
  end.

Definition VoiceConfig_from_env : result ConfigError BrokerConfig :=
  url ← optional_env "SB_NETPLAY_VOICE_BROKER_URL";
  token ← optional_env "SB_NETPLAY_VOICE_BROKER_TOKEN";
  timeout ← optional_duration_millis_env "SB_NETPLAY_VOICE_BROKER_TIMEOUT_MS" 2500;
  broker_of "SB_NETPLAY_VOICE_BROKER_URL" "SB_NETPLAY_VOICE_BROKER_TOKEN" url token timeout.

Definition DEFAULT_DIRECT_ROM_SYSTEMS : list string :=
  ["gb"; "gbc"; "gameboy"; "gameboy-color"; "gba"; "nes"; "snes"; "genesis"; "sms"; "master-system";
   "game-gear"]%string.

Definition FileRelayConfig_from_env : result ConfigError FileRelayConfig :=
  url ← optional_env "SB_NETPLAY_FILE_RELAY_URL";
  token ← optional_env "SB_NETPLAY_FILE_RELAY_TOKEN";
  timeout ← optional_duration_millis_env "SB_NETPLAY_FILE_RELAY_TIMEOUT_MS" 2500;
  temporary ← optional_bool_env "SB_NETPLAY_ROM_RELAY_ENABLED" false;
  direct ← optional_bool_env "SB_NETPLAY_DIRECT_ROM_RELAY_ENABLED" false;
  max_bytes ← optional_u64_env "SB_NETPLAY_ROM_RELAY_MAX_BYTES" 104857600;
  systems ← optional_csv_env "SB_NETPLAY_DIRECT_ROM_RELAY_ALLOWED_SYSTEMS" DEFAULT_DIRECT_ROM_SYSTEMS;
  save_states ← optional_bool_env "SB_NETPLAY_FILE_RELAY_SAVE_STATES_ENABLED" true;
  broker ← broker_of "SB_NETPLAY_FILE_RELAY_URL" "SB_NETPLAY_FILE_RELAY_TOKEN" url token timeout;
  Ok (mkFileRelayConfig broker temporary direct max_bytes systems save_states).

Definition postgres_table_names_from_env : result ConfigError PostgresTableNames :=
  legacy ← optional_env "SB_NETPLAY_POSTGRES_TABLE";
  events ← optional_env "SB_NETPLAY_POSTGRES_EVENTS_TABLE";
  lobby_events ← optional_env "SB_NETPLAY_POSTGRES_LOBBY_EVENTS_TABLE";
  samples ← optional_env "SB_NETPLAY_POSTGRES_PERFORMANCE_TABLE";
  Ok (mkPostgresTableNames
        (unwrap_or (match events with Some e => Some e | None => legacy end) "netplay_room_events"%string)
        (unwrap_or lobby_events "netplay_lobby_events"%string)
        (unwrap_or samples "netplay_performance_samples"%string)).

Section server.
Context {SocketAddr : Type} (addr_parse : string → option SocketAddr) (url_parse : string → option Url).

Definition TelemetryConfig_from_env : result ConfigError TelemetryConfig :=
  queue_capacity ← optional_u32_env "SB_NETPLAY_TELEMETRY_QUEUE_CAPACITY" 20000;
  batch_size ← optional_u32_env "SB_NETPLAY_TELEMETRY_BATCH_SIZE" 250;
  flush_interval ← optional_duration_millis_env "SB_NETPLAY_TELEMETRY_FLUSH_MS" 1000;
  url ← optional_env "SB_NETPLAY_POSTGRES_URL";
  sink ← match url with
         | Some url =>
             dsn ← map_err (PostgresDsn_parse url_parse url) (λ _, InvalidPostgresDsn);
             tables ← postgres_table_names_from_env;
             Ok (TelemetryPostgres dsn tables)
         | None => Ok TelemetryDisabled
         end;
  Ok (mkTelemetryConfig sink (N.max queue_capacity 1) (N.max batch_size 1) flush_interval).

Definition rate_limits_from_env : result ConfigError RateLimitPolicy :=
  create_room ← optional_u32_env "SB_NETPLAY_RATE_CREATE_ROOM_PER_MINUTE" 12;
  websocket_join ← optional_u32_env "SB_NETPLAY_RATE_WS_JOIN_PER_MINUTE" 30;
  room_status ← optional_u32_env "SB_NETPLAY_RATE_ROOM_STATUS_PER_MINUTE" 120;
  Ok (mkRateLimitPolicy create_room websocket_join room_status).

Definition rollout_from_env : result ConfigError NetplayProtocolRolloutPolicy :=
  v5 ← optional_bool_env "SB_NETPLAY_V5_ENABLED" true;
  android ← optional_u16_env "SB_NETPLAY_MIN_PROTOCOL_ANDROID" 4;
  ios ← optional_u16_env "SB_NETPLAY_MIN_PROTOCOL_IOS" 4;
  desktop ← optional_u16_env "SB_NETPLAY_MIN_PROTOCOL_DESKTOP" 4;
  map_err (NetplayProtocolRolloutPolicy_new v5 android ios desktop) (λ _, InvalidProtocolRollout).

Definition recovery_from_env : result ConfigError RoomRecoveryConfig :=
  runner_handoff ← optional_duration_seconds_env "SB_NETPLAY_RUNNER_HANDOFF_GRACE_SECONDS" 60;
  reconnect ← optional_duration_seconds_env "SB_NETPLAY_RECONNECT_GRACE_SECONDS" 90;
  stale ← optional_duration_seconds_env "SB_NETPLAY_HEARTBEAT_STALE_SECONDS" 15;
  disconnect ← optional_duration_seconds_env "SB_NETPLAY_HEARTBEAT_DISCONNECT_SECONDS" 30;
  idle ← optional_duration_seconds_env "SB_NETPLAY_ROOM_IDLE_SECONDS" 300;
  Ok (mkRoomRecoveryConfig runner_handoff reconnect stale disconnect idle).

Definition ServerConfig_from_env : result ConfigError (ServerConfig SocketAddr) :=
  bind_addr ← ok_or (addr_parse (unwrap_or (var "SB_NETPLAY_BIND_ADDR") "127.0.0.1:8077"%string)) InvalidBindAddr;
  authorize_url ← required_env_with_fallbacks "SB_NETPLAY_AUTHORIZE_URL"
                    ["SB_NETPLAY_DESKTOP_AUTHORIZE_URL"; "SB_NETPLAY_LICENSE_VERIFY_URL"]%string;
  secret ← required_env "SB_NETPLAY_LICENSE_INTERNAL_SECRET";
  admin ← optional_env "SB_NETPLAY_ADMIN_TOKEN";
  trust ← optional_bool_env "SB_NETPLAY_TRUST_PROXY_HEADERS" false;
  limits ← rate_limits_from_env;
  rollout ← rollout_from_env;
  recovery ← recovery_from_env;
  lobby_idle ← optional_duration_seconds_env "SB_NETPLAY_LOBBY_IDLE_SECONDS" 3600;
  format ← optional_log_format_env "SB_NETPLAY_LOG_FORMAT" LogCompact;
  telemetry ← TelemetryConfig_from_env;
  voice ← VoiceConfig_from_env;
  file_relay ← FileRelayConfig_from_env;
  Ok (mkServerConfig SocketAddr bind_addr authorize_url secret admin trust limits rollout recovery lobby_idle
        format telemetry voice file_relay).
End server.
End env.

(** ** What a loaded configuration guarantees *)

(** Splits a reading that succeeded into the readings it consists of. *)
Ltac readings := repeat match goal with
  | H : _ ≫= _ = Ok _ |- _ => apply bind_Ok in H; destruct H as (? & ? & ?)
  | H : Ok _ = Ok _ |- _ => injection H as H; subst
  end.

Section guarantees.
Context (var : string → option string).

(** [value] is the trimmed, non-blank text of the variable [name]. *)
Definition configured (name value : string) : Prop :=
  ∃ text, var name = Some text ∧ is_blank text = false ∧ value = trim_str text.

Lemma optional_env_ok name value :
  optional_env var name = Ok value →
  match value with Some value => configured name value | None => var name = None end.
Proof.
  unfold optional_env, configured. destruct (var name) as [text|]; [|intros [= <-]; done].
  destruct (is_blank text) eqn:E; intros [= <-]. by exists text.
Qed.

Lemma required_env_ok name value :
  required_env var name = Ok value → var name = Some value ∧ is_blank value = false.
Proof.
  unfold required_env. destruct (var name) as [text|]; [|done].
  destruct (is_blank text) eqn:E; intros [= <-]; done.
Qed.

Lemma first_fallback_ok primary fallbacks value :
  first_fallback var primary fallbacks = Ok value → ∃ name, name ∈ fallbacks ∧ configured name value.
Proof.
  induction fallbacks as [|name fallbacks IH]; cbn [first_fallback]; [done|]. intros H. readings.
  destruct x as [v|].
  - injection H0 as ->. exists name. split; [apply elem_of_cons; by left|]. exact (optional_env_ok _ _ H).
  - destruct (IH H0) as (n & ? & ?). exists n. split; [apply elem_of_cons; by right|done].
Qed.

Lemma required_env_with_fallbacks_ok primary fallbacks value :
  required_env_with_fallbacks var primary fallbacks = Ok value →
  (var primary = Some value ∧ is_blank value = false)
  ∨ var primary = None ∧ ∃ name, name ∈ fallbacks ∧ configured name value.
Proof.
  unfold required_env_with_fallbacks. destruct (var primary) as [text|] eqn:E.
  - destruct (is_blank text) eqn:Eb; intros [= <-]. by left.
  - intros H%first_fallback_ok. by right.
Qed.

(** A broker is either absent, with neither variable set, or has both. *)
Definition broker_sound (url_name token_name : string) (broker : BrokerConfig) : Prop :=
  match broker with
  | BrokerOff => var url_name = None ∧ var token_name = None
  | BrokerHttp h => configured url_name (broker_base_url h) ∧ configured token_name (broker_bearer_token h)
  end.

Lemma broker_of_ok url_name token_name url token timeout broker :
  optional_env var url_name = Ok url → optional_env var token_name = Ok token →
  broker_of url_name token_name url token timeout = Ok broker → broker_sound url_name token_name broker.
Proof.
  intros Hu%optional_env_ok Ht%optional_env_ok. unfold broker_of.
  destruct url, token; intros [= <-]; done.
Qed.

Lemma voice_ok broker :
  VoiceConfig_from_env var = Ok broker →
  broker_sound "SB_NETPLAY_VOICE_BROKER_URL" "SB_NETPLAY_VOICE_BROKER_TOKEN" broker.
Proof. unfold VoiceConfig_from_env. intros H. readings. by eapply broker_of_ok. Qed.

Lemma file_relay_ok c :
  FileRelayConfig_from_env var = Ok c →
  broker_sound "SB_NETPLAY_FILE_RELAY_URL" "SB_NETPLAY_FILE_RELAY_TOKEN" (relay_broker c).
Proof. unfold FileRelayConfig_from_env. intros H. readings. by eapply broker_of_ok. Qed.

Lemma optional_parsed_env_ok {A} name (d : A) parse invalid a :
  optional_parsed_env var name d parse invalid = Ok a →
  (var name = None ∧ a = d) ∨ ∃ text, var name = Some text ∧ is_blank text = false ∧ parse (trim_str text) = Some a.
Proof.
  unfold optional_parsed_env, ok_or. destruct (var name) as [text|].
  - destruct (is_blank text) eqn:E; [done|]. destruct (parse _) eqn:Ep; intros [= <-]. right. by exists text.
  - intros [= <-]. by left.
Qed.

Lemma telemetry_ok url_parse c :
  TelemetryConfig_from_env var url_parse = Ok c →
  1 <= queue_capacity c ∧ 1 <= batch_size c ∧
  (telemetry_sink c = TelemetryDisabled ↔ var "SB_NETPLAY_POSTGRES_URL" = None).
Proof.
  unfold TelemetryConfig_from_env. intros H. readings.
  cbn [queue_capacity batch_size telemetry_sink]. split_and!; [lia|lia|].
  pose proof (optional_env_ok _ _ H2) as Hurl. destruct x2 as [url|]; readings.
  - destruct Hurl as (text & -> & _). done.
  - done.
Qed.

Lemma rollout_ok p : rollout_from_env var = Ok p → policy_ok p.
Proof.
  unfold rollout_from_env. intros H. readings. unfold map_err in *.
  destruct (NetplayProtocolRolloutPolicy_new _ _ _ _) eqn:E; [|done]. readings.
  exact (proj1 (policy_new_ok _ _ _ _ _ E)).
Qed.
End guarantees.

Module Startup.


(** An environment with the required variables, the fallback of the authority's address and a
    voice broker. *)
Definition sample_env (name : string) : option string :=
  (list_to_map [("SB_NETPLAY_LICENSE_VERIFY_URL", " https://license.example "); ("SB_NETPLAY_LICENSE_INTERNAL_SECRET", "s");
    ("SB_NETPLAY_VOICE_BROKER_URL", "https://voice"); ("SB_NETPLAY_VOICE_BROKER_TOKEN", "t");
    ("SB_NETPLAY_TELEMETRY_BATCH_SIZE", "0"); ("SB_NETPLAY_V5_ENABLED", "off")]%string : gmap string string) !! name.

End Startup.

(** One broker variable without the other is refused, not read as a disabled broker. *)
Example half_configured_voice_is_refused :
  VoiceConfig_from_env (λ name, if name ==? "SB_NETPLAY_VOICE_BROKER_URL"%string then Some "https://voice"%string else None)
  = Err (MissingEnv "SB_NETPLAY_VOICE_BROKER_TOKEN").
Proof. reflexivity. Qed.

(** A flush interval of zero is accepted; [tokio::time::interval] panics on a zero period. *)
Example zero_flush_interval_is_accepted :
  flush_interval <$> (match TelemetryConfig_from_env (λ name, if name ==? "SB_NETPLAY_TELEMETRY_FLUSH_MS"%string
                        then Some "0"%string else None) (λ _, None) with Ok c => Some c | Err _ => None end) = Some 0.
Proof. reflexivity. Qed.
