(* ===== verification/TelemetryRows.v ===== *)
(** * Telemetry records and their rows

  Models [src/src/observability/telemetry_event.rs], [postgres_schema.rs] and the encoding of
  rows in [postgres_telemetry_writer.rs]: what the relay reports about rooms and lobbies, the
  tables it is stored in, and the parameters of the statements that store it. *)

From Stdlib Require Import Ascii.
From S2P Require Import Prelude Ids Text Descriptor Protocol Invite StartSync RoomEvents StoredRoom LobbyEvents Parse Config.
Open Scope N_scope.

(** ** telemetry_event.rs *)

Record NetplayTelemetryEvent := mkNetplayTelemetryEvent {
  tev_timestamp_ms : N;
  tev_room_id : RoomId;
  tev_invite_code : string;
  tev_event_seq : N;
  tev_room_epoch : N;
  tev_session_epoch : N;
  tev_protocol_version : N;
  tev_kind : string;
  tev_detail : string }.

Record NetplayLobbyTelemetryEvent := mkNetplayLobbyTelemetryEvent {
  tlev_timestamp_ms : N;
  tlev_lobby_id : RoomId;
  tlev_invite_code : string;
  tlev_event_seq : N;
  tlev_lobby_epoch : N;
  tlev_kind : string;
  tlev_detail : string }.

Record NetplayPerformanceSample := mkNetplayPerformanceSample {
  perf_timestamp_ms : N;
  perf_room_id : RoomId;
  perf_invite_code : string;
  perf_event_seq : N;
  perf_room_epoch : N;
  perf_session_epoch : N;
  perf_protocol_version : N;
  perf_player_index : N;
  perf_runtime_state : string;
  perf_local_frame : option N;
  perf_canonical_frame : N;
  perf_released_frame : option N;
  perf_next_release_frame : N;
  perf_accepted_input_frame : option N;
  perf_frame_delta : option Z;
  perf_round_trip_ms : option N;
  perf_jitter_ms : option N;
  perf_prediction_frames : option N;
  perf_stall_count : option N;
  perf_catch_up_frames : option N;
  perf_late_input_frames : option N;
  perf_audio_underruns : option N;
  perf_input_resend_frames : option N;
  perf_input_nacks : option N;
  perf_replayed_frames : option N;
  perf_suppressed_audio_frames : option N;
  perf_suppressed_video_frames : option N;
  perf_audio_queue_depth_frames : option N;
  perf_audio_catch_up_events : option N;
  perf_audio_trimmed_frames : option N;
  perf_audio_rebuffer_events : option N;
  perf_audio_max_consecutive_missing_frames : option N;
  perf_audio_queue_min_frames : option N;
  perf_audio_queue_max_frames : option N }.

Inductive NetplayTelemetryRecord :=
| TelRoomEvent (event : NetplayTelemetryEvent)
| TelLobbyEvent (event : NetplayLobbyTelemetryEvent)
| TelPerformanceSample (sample : NetplayPerformanceSample).

(** [u64::try_from(timestamp_ms).unwrap_or(u64::MAX)], from the [u128] of [Duration::as_millis]. *)
Definition timestamp_u64 (ms : N) : N := N.min ms u64_max.

Definition telemetry_of_room_event (event : RoomDebugEvent) : NetplayTelemetryEvent :=
  mkNetplayTelemetryEvent (timestamp_u64 (debug_timestamp_ms event)) (debug_room_id event)
    (string_of_bytes (debug_invite_code event)) (debug_event_seq event) (debug_room_epoch event)
    (debug_session_epoch event) (debug_protocol_version event) (debug_kind event) (debug_detail event).

Definition telemetry_of_lobby_event (event : LobbyDebugEvent) : NetplayLobbyTelemetryEvent :=
  mkNetplayLobbyTelemetryEvent (timestamp_u64 (ldebug_timestamp_ms event)) (ldebug_lobby_id event)
    (string_of_bytes (ldebug_invite_code event)) (ldebug_event_seq event) (ldebug_lobby_epoch event)
    (ldebug_kind event) (ldebug_detail event).

(** The string that serde's [rename_all = camelCase] gives a variant. *)
Definition client_runtime_state_name (s : ClientRuntimeState) : string :=
  match s with
  | Client_Connected => "connected"
  | Client_CheckingCompatibility => "checkingCompatibility"
  | Client_Syncing => "syncing"
  | Client_Ready => "ready"
  | Client_DeterministicReady => "deterministicReady"
  | Client_Playing => "playing"
  | Client_Pausing => "pausing"
  | Client_Paused => "paused"
  | Client_Reconnecting => "reconnecting"
  | Client_Disconnected => "disconnected"
  end.

Definition telemetry_of_sample (s : RoomPerformanceSample) : NetplayPerformanceSample :=
  let network := unwrap_or (sample_network s) ClientNetworkQualityReport_default in
  mkNetplayPerformanceSample (timestamp_u64 (sample_timestamp_ms s)) (sample_room_id s)
    (string_of_bytes (sample_invite_code s)) (sample_event_seq s) (sample_room_epoch s) (sample_session_epoch s)
    (sample_protocol_version s) (sample_player_index s) (client_runtime_state_name (sample_runtime_state s))
    (sample_local_frame s) (sample_canonical_frame s) (sample_released_frame s) (sample_next_release_frame s)
    (sample_accepted_input_frame s) (sample_frame_delta s)
    (round_trip_ms network) (jitter_ms network) (prediction_frames network) (stall_count network)
    (catch_up_frames network) (late_input_frames network) (audio_underruns network)
    (input_resend_frames network) (input_nacks network) (replayed_frames network)
    (suppressed_audio_frames network) (suppressed_video_frames network) (audio_queue_depth_frames network)
    (audio_catch_up_events network) (audio_trimmed_frames network) (audio_rebuffer_events network)
    (audio_max_consecutive_missing_frames network) (audio_queue_min_frames network)
    (audio_queue_max_frames network).

(** ** postgres_schema.rs *)

Record PostgresTelemetryBatch := mkPostgresTelemetryBatch {
  batch_events : list NetplayTelemetryEvent;
  batch_lobby_events : list NetplayLobbyTelemetryEvent;
  batch_performance_samples : list NetplayPerformanceSample }.

#[export] Instance eta_PostgresTelemetryBatch : Eta PostgresTelemetryBatch := λ b,
  mkPostgresTelemetryBatch (batch_events b) (batch_lobby_events b) (batch_performance_samples b).
#[export] Instance set_batch_events : Setter batch_events.
Proof. derive_setter. Defined.
#[export] Instance set_batch_lobby_events : Setter batch_lobby_events.
Proof. derive_setter. Defined.
#[export] Instance set_batch_performance_samples : Setter batch_performance_samples.
Proof. derive_setter. Defined.

Definition split_batch (batch : list NetplayTelemetryRecord) : PostgresTelemetryBatch :=
  foldl (λ grouped record,
           match record with
           | TelRoomEvent event => grouped <| batch_events ::= (.++ [event]) |>
           | TelLobbyEvent event => grouped <| batch_lobby_events ::= (.++ [event]) |>
           | TelPerformanceSample sample => grouped <| batch_performance_samples ::= (.++ [sample]) |>
           end) (mkPostgresTelemetryBatch [] [] []) batch.

Inductive SqlType := BIGINT | INTEGER | SMALLINT | TEXT | UUID.

Definition sql_type_name (t : SqlType) : string :=
  match t with BIGINT => "BIGINT" | INTEGER => "INTEGER" | SMALLINT => "SMALLINT" | TEXT => "TEXT" | UUID => "UUID" end.

Record Column := mkColumn { column_name : string; column_type : SqlType; column_not_null : bool }.

(** The columns that the text of each [CREATE TABLE] statement lists. *)
Definition events_columns : list Column :=
  [mkColumn "timestamp_ms" BIGINT true; mkColumn "room_id" UUID true; mkColumn "invite_code" TEXT true;
   mkColumn "event_seq" BIGINT true; mkColumn "room_epoch" BIGINT true; mkColumn "session_epoch" BIGINT true;
   mkColumn "protocol_version" SMALLINT true; mkColumn "kind" TEXT true; mkColumn "detail" TEXT true].

Definition lobby_events_columns : list Column :=
  [mkColumn "timestamp_ms" BIGINT true; mkColumn "lobby_id" UUID true; mkColumn "invite_code" TEXT true;
   mkColumn "event_seq" BIGINT true; mkColumn "lobby_epoch" BIGINT true; mkColumn "kind" TEXT true;
   mkColumn "detail" TEXT true].

Definition performance_samples_columns : list Column :=
  [mkColumn "timestamp_ms" BIGINT true; mkColumn "room_id" UUID true; mkColumn "invite_code" TEXT true;
   mkColumn "event_seq" BIGINT true; mkColumn "room_epoch" BIGINT true; mkColumn "session_epoch" BIGINT true;
   mkColumn "protocol_version" SMALLINT true; mkColumn "player_index" SMALLINT true;
   mkColumn "runtime_state" TEXT true; mkColumn "local_frame" BIGINT false; mkColumn "canonical_frame" BIGINT true;
   mkColumn "released_frame" BIGINT false; mkColumn "next_release_frame" BIGINT true;
   mkColumn "accepted_input_frame" BIGINT false; mkColumn "frame_delta" BIGINT false;
   mkColumn "round_trip_ms" INTEGER false; mkColumn "jitter_ms" INTEGER false;
   mkColumn "prediction_frames" INTEGER false; mkColumn "stall_count" INTEGER false;
   mkColumn "catch_up_frames" INTEGER false; mkColumn "late_input_frames" INTEGER false;
   mkColumn "audio_underruns" INTEGER false; mkColumn "input_resend_frames" INTEGER false;
   mkColumn "input_nacks" INTEGER false; mkColumn "replayed_frames" INTEGER false;
   mkColumn "suppressed_audio_frames" INTEGER false; mkColumn "suppressed_video_frames" INTEGER false;
   mkColumn "audio_queue_depth_frames" INTEGER false; mkColumn "audio_catch_up_events" INTEGER false;
   mkColumn "audio_trimmed_frames" INTEGER false; mkColumn "audio_rebuffer_events" INTEGER false;
   mkColumn "audio_max_consecutive_missing_frames" INTEGER false;
   mkColumn "audio_queue_min_frames" INTEGER false; mkColumn "audio_queue_max_frames" INTEGER false].

(** [String::join]. *)
Definition join (sep : string) (l : list string) : string := String.concat sep l.

(** A double quote, and the identifier quoted with each of its quotes doubled. *)
Definition dquote : string := String (ascii_of_N 34) EmptyString.
Definition quote_identifier (value : string) : string :=
  let doubled := string_of_bytes (concat ((λ b, if b =? 34 then [34; 34] else [b]) <$> string_bytes value)) in
  (dquote ++ doubled ++ dquote)%string.

Definition render_column (c : Column) : string :=
  (column_name c ++ " " ++ sql_type_name (column_type c) ++ (if column_not_null c then " NOT NULL" else ""))%string.

Definition create_table_query (columns : list Column) (table : string) : string :=
  ("CREATE TABLE IF NOT EXISTS " ++ quote_identifier table ++ " (" ++ join ", " (render_column <$> columns) ++ ")")%string.
Definition create_events_table_query : string → string := create_table_query events_columns.
Definition create_lobby_events_table_query : string → string := create_table_query lobby_events_columns.
Definition create_performance_samples_table_query : string → string := create_table_query performance_samples_columns.

Definition add_column_query (table column data_type : string) : string :=
  ("ALTER TABLE " ++ quote_identifier table ++ " ADD COLUMN IF NOT EXISTS " ++ quote_identifier column ++ " " ++ data_type)%string.
Definition add_columns (table : string) (columns : list Column) : list string :=
  (λ c, add_column_query table (column_name c) (sql_type_name (column_type c))) <$> columns.

Definition create_index_query (suffix table columns : string) : string :=
  ("CREATE INDEX IF NOT EXISTS " ++ quote_identifier (table ++ suffix) ++ " ON " ++ quote_identifier table ++ " (" ++ columns ++ ")")%string.
Definition create_events_session_index_query (table : string) : string :=
  create_index_query "_session_idx" table "room_id, session_epoch, timestamp_ms, event_seq".
Definition create_lobby_events_index_query (table : string) : string :=
  create_index_query "_lobby_idx" table "lobby_id, lobby_epoch, timestamp_ms, event_seq".
Definition create_samples_session_index_query (table : string) : string :=
  create_index_query "_session_idx" table "room_id, session_epoch, timestamp_ms, player_index".

(** The statements add the columns in the order in which the tables declare them. *)
Definition create_table_queries (tables : PostgresTableNames) : list string :=
  [create_events_table_query (table_events tables); create_lobby_events_table_query (table_lobby_events tables);
   create_performance_samples_table_query (table_performance_samples tables)]
  ++ add_columns (table_events tables) events_columns
  ++ add_columns (table_lobby_events tables) lobby_events_columns
  ++ add_columns (table_performance_samples tables) performance_samples_columns
  ++ [create_events_session_index_query (table_events tables);
      create_lobby_events_index_query (table_lobby_events tables);
      create_samples_session_index_query (table_performance_samples tables)].

(** ** Rows *)

Inductive SqlValue := SqlInt (z : Z) | SqlText (s : string) | SqlUuid (id : RoomId) | SqlNull.

Inductive PostgresTelemetryError :=
| TelConnect
| TelPostgres
| IntegerOverflow (field : string) (value : N)
| SampleCounterOverflow.

Definition u64_to_i64 (value : N) (field : string) : result PostgresTelemetryError SqlValue :=
  if (Z.of_N value <=? i64_max)%Z then Ok (SqlInt (Z.of_N value)) else Err (IntegerOverflow field value).

(** [Option<T>] as a parameter: [None] is [NULL]. *)
Definition optional_value {A} (encode : A → result PostgresTelemetryError SqlValue) (value : option A)
    : result PostgresTelemetryError SqlValue :=
  match value with Some a => encode a | None => Ok SqlNull end.

Definition optional_u64_to_i64 (value : option N) (field : string) : result PostgresTelemetryError SqlValue :=
  optional_value (λ v, u64_to_i64 v field) value.

(** [i16::try_from(_)?] and [value.map(i32::try_from).transpose()?]. *)
Definition i16_of (value : N) : result PostgresTelemetryError SqlValue :=
  if value <=? 32767 then Ok (SqlInt (Z.of_N value)) else Err SampleCounterOverflow.
Definition counter_i32 (value : option N) : result PostgresTelemetryError SqlValue :=
  optional_value (λ v, if v <=? 2147483647 then Ok (SqlInt (Z.of_N v)) else Err SampleCounterOverflow) value.

Definition event_values (e : NetplayTelemetryEvent) : result PostgresTelemetryError (list SqlValue) :=
  timestamp_ms ← u64_to_i64 (tev_timestamp_ms e) "timestamp_ms";
  event_seq ← u64_to_i64 (tev_event_seq e) "event_seq";
  room_epoch ← u64_to_i64 (tev_room_epoch e) "room_epoch";
  session_epoch ← u64_to_i64 (tev_session_epoch e) "session_epoch";
  protocol_version ← i16_of (tev_protocol_version e);
  Ok [timestamp_ms; SqlUuid (tev_room_id e); SqlText (tev_invite_code e); event_seq; room_epoch; session_epoch;
      protocol_version; SqlText (tev_kind e); SqlText (tev_detail e)].

Definition lobby_event_values (e : NetplayLobbyTelemetryEvent) : result PostgresTelemetryError (list SqlValue) :=
  timestamp_ms ← u64_to_i64 (tlev_timestamp_ms e) "timestamp_ms";
  event_seq ← u64_to_i64 (tlev_event_seq e) "event_seq";
  lobby_epoch ← u64_to_i64 (tlev_lobby_epoch e) "lobby_epoch";
  Ok [timestamp_ms; SqlUuid (tlev_lobby_id e); SqlText (tlev_invite_code e); event_seq; lobby_epoch;
      SqlText (tlev_kind e); SqlText (tlev_detail e)].

Definition sample_values (s : NetplayPerformanceSample) : result PostgresTelemetryError (list SqlValue) :=
  timestamp_ms ← u64_to_i64 (perf_timestamp_ms s) "timestamp_ms";
  event_seq ← u64_to_i64 (perf_event_seq s) "event_seq";
  room_epoch ← u64_to_i64 (perf_room_epoch s) "room_epoch";
  session_epoch ← u64_to_i64 (perf_session_epoch s) "session_epoch";
  protocol_version ← i16_of (perf_protocol_version s);
  local_frame ← optional_u64_to_i64 (perf_local_frame s) "local_frame";
  canonical_frame ← u64_to_i64 (perf_canonical_frame s) "canonical_frame";
  released_frame ← optional_u64_to_i64 (perf_released_frame s) "released_frame";
  next_release_frame ← u64_to_i64 (perf_next_release_frame s) "next_release_frame";
  accepted_input_frame ← optional_u64_to_i64 (perf_accepted_input_frame s) "accepted_input_frame";
  round_trip_ms ← counter_i32 (perf_round_trip_ms s);
  jitter_ms ← counter_i32 (perf_jitter_ms s);
  prediction_frames ← counter_i32 (perf_prediction_frames s);
  stall_count ← counter_i32 (perf_stall_count s);
  catch_up_frames ← counter_i32 (perf_catch_up_frames s);
  late_input_frames ← counter_i32 (perf_late_input_frames s);
  audio_underruns ← counter_i32 (perf_audio_underruns s);
  input_resend_frames ← counter_i32 (perf_input_resend_frames s);
  input_nacks ← counter_i32 (perf_input_nacks s);
  replayed_frames ← counter_i32 (perf_replayed_frames s);
  suppressed_audio_frames ← counter_i32 (perf_suppressed_audio_frames s);
  suppressed_video_frames ← counter_i32 (perf_suppressed_video_frames s);
  audio_queue_depth_frames ← counter_i32 (perf_audio_queue_depth_frames s);
  audio_catch_up_events ← counter_i32 (perf_audio_catch_up_events s);
  audio_trimmed_frames ← counter_i32 (perf_audio_trimmed_frames s);
  audio_rebuffer_events ← counter_i32 (perf_audio_rebuffer_events s);
  audio_max_consecutive_missing_frames ← counter_i32 (perf_audio_max_consecutive_missing_frames s);
  audio_queue_min_frames ← counter_i32 (perf_audio_queue_min_frames s);
  audio_queue_max_frames ← counter_i32 (perf_audio_queue_max_frames s);
  Ok [timestamp_ms; SqlUuid (perf_room_id s); SqlText (perf_invite_code s); event_seq; room_epoch; session_epoch;
      protocol_version; SqlInt (Z.of_N (perf_player_index s)); SqlText (perf_runtime_state s); local_frame;
      canonical_frame; released_frame; next_release_frame; accepted_input_frame;
      match perf_frame_delta s with Some d => SqlInt d | None => SqlNull end;
      round_trip_ms; jitter_ms; prediction_frames; stall_count; catch_up_frames; late_input_frames;
      audio_underruns; input_resend_frames; input_nacks; replayed_frames; suppressed_audio_frames;
      suppressed_video_frames; audio_queue_depth_frames; audio_catch_up_events; audio_trimmed_frames;
      audio_rebuffer_events; audio_max_consecutive_missing_frames; audio_queue_min_frames;
      audio_queue_max_frames].

(** ** Statements *)

Definition INSERT_EVENT_SQL : string :=
  "INSERT INTO {table} (timestamp_ms, room_id, invite_code, event_seq, room_epoch, session_epoch, protocol_version, kind, detail) VALUES ($1, $2, $3, $4, $5, $6, $7, $8, $9)".

Definition INSERT_SAMPLE_SQL : string :=
  "INSERT INTO {table} (timestamp_ms, room_id, invite_code, event_seq, room_epoch, session_epoch, protocol_version, player_index, runtime_state, local_frame, canonical_frame, released_frame, next_release_frame, accepted_input_frame, frame_delta, round_trip_ms, jitter_ms, prediction_frames, stall_count, catch_up_frames, late_input_frames, audio_underruns, input_resend_frames, input_nacks, replayed_frames, suppressed_audio_frames, suppressed_video_frames, audio_queue_depth_frames, audio_catch_up_events, audio_trimmed_frames, audio_rebuffer_events, audio_max_consecutive_missing_frames, audio_queue_min_frames, audio_queue_max_frames) VALUES ($1, $2, $3, $4, $5, $6, $7, $8, $9, $10, $11, $12, $13, $14, $15, $16, $17, $18, $19, $20, $21, $22, $23, $24, $25, $26, $27, $28, $29, $30, $31, $32, $33, $34)".

Definition INSERT_LOBBY_EVENT_SQL : string :=
  "INSERT INTO {table} (timestamp_ms, lobby_id, invite_code, event_seq, lobby_epoch, kind, detail) VALUES ($1, $2, $3, $4, $5, $6, $7)".

(** [str::replace] with a pattern that is not empty: every round consumes a byte. *)
Fixpoint replace_rounds (fuel : nat) (pattern replacement : string) (l : list N) : list N :=
  match fuel, l with
  | S fuel, b :: l' =>
      if bool_decide (take (String.length pattern) l = string_bytes pattern)
      then string_bytes replacement ++ replace_rounds fuel pattern replacement (drop (String.length pattern) l)
      else b :: replace_rounds fuel pattern replacement l'
  | _, l => l
  end.
Definition str_replace (pattern replacement s : string) : string :=
  string_of_bytes (replace_rounds (String.length s) pattern replacement (string_bytes s)).

Definition insert_sql (template table : string) : string := str_replace "{table}" (quote_identifier table) template.

(** ** Rows and tables agree *)

(** What a column of a declared type holds. *)
Definition value_fits (c : Column) (v : SqlValue) : Prop :=
  match v, column_type c with
  | SqlInt z, BIGINT => (- 2 ^ 63 <= z < 2 ^ 63)%Z
  | SqlInt z, INTEGER => (- 2 ^ 31 <= z < 2 ^ 31)%Z
  | SqlInt z, SMALLINT => (- 2 ^ 15 <= z < 2 ^ 15)%Z
  | SqlText _, TEXT => True
  | SqlUuid _, UUID => True
  | SqlNull, _ => column_not_null c = false
  | _, _ => False
  end.

(** The fields of a sample that reach the row unchecked have the widths of their Rust types. *)
Definition sample_typed (s : NetplayPerformanceSample) : Prop :=
  perf_player_index s < 256 ∧ ∀ d, perf_frame_delta s = Some d → (- 2 ^ 63 <= d < 2 ^ 63)%Z.

(** The columns an insert statement names, and its numbered parameters. *)
Definition insert_template (columns : list Column) : string :=
  ("INSERT INTO {table} (" ++ join ", " (column_name <$> columns) ++ ") VALUES ("
   ++ join ", " ((λ i, "$" ++ decimal (N.of_nat i)) <$> seq 1 (length columns)) ++ ")")%string.

Lemma u64_to_i64_fits name value field v : u64_to_i64 value field = Ok v → value_fits (mkColumn name BIGINT true) v.
Proof.
  unfold u64_to_i64, i64_max. destruct (Z.leb_spec (Z.of_N value) 9223372036854775807); intros [= <-]. cbn. lia.
Qed.
Lemma optional_u64_to_i64_fits name value field v :
  optional_u64_to_i64 value field = Ok v → value_fits (mkColumn name BIGINT false) v.
Proof.
  unfold optional_u64_to_i64, optional_value. destruct value; [|by intros [= <-]].
  unfold u64_to_i64, i64_max. destruct (Z.leb_spec (Z.of_N n) 9223372036854775807); intros [= <-]. cbn. lia.
Qed.
Lemma i16_of_fits name value v : i16_of value = Ok v → value_fits (mkColumn name SMALLINT true) v.
Proof. unfold i16_of. destruct (N.leb_spec value 32767); intros [= <-]. cbn. lia. Qed.
Lemma counter_i32_fits name value v : counter_i32 value = Ok v → value_fits (mkColumn name INTEGER false) v.
Proof.
  unfold counter_i32, optional_value. destruct value; [|by intros [= <-]].
  destruct (N.leb_spec n 2147483647); intros [= <-]. cbn. lia.
Qed.
Create HintDb fits.
#[export] Hint Resolve u64_to_i64_fits optional_u64_to_i64_fits i16_of_fits counter_i32_fits : fits.

Module Rows.


Definition sample_record : NetplayTelemetryEvent :=
  mkNetplayTelemetryEvent 1700000000000 (mkRoomId 7) "AB23-CD" 2 3 4 5 "sessionStarted" "session started".

End Rows.
