(* ===== verification/Telemetry.v ===== *)
(** * Durable telemetry

  Models [src/src/observability/telemetry.rs], [postgres_connection.rs] and the writer of
  [postgres_telemetry_writer.rs]. Rooms and lobbies put records into a bounded queue without
  waiting; a background task moves them into batches and writes the batches to PostgreSQL.
  The database is a parameter: a state of its own and the answers it gives to attempts to
  connect, to prepare a statement and to execute one. *)

From S2P Require Import Prelude Ids Text Protocol StartSync RoomEvents StoredRoom LobbyEvents Parse Config Metrics TelemetryRows.
Open Scope N_scope.

(** ** Connections *)

Inductive Transport := Plaintext | TlsUnverified | TlsVerified.

(** A row that the database accepted: the statement and its parameters. *)
Record StoredRow := mkStoredRow { row_sql : string; row_values : list SqlValue }.

(** The database client: [tokio_postgres::connect], [Client::prepare] and [Client::execute]. *)
Record Database := mkDatabase {
  db_state : Type;
  db_client : Type;
  db_connect : Transport → string → db_state → option db_client * db_state;
  db_prepare : db_client → string → db_state → bool * db_state;
  db_execute : db_client → string → list SqlValue → db_state → bool * db_state }.

Section database.
Context (db : Database).

(** The writer with what it has stored: [written] lists the rows that were executed. *)
Record PostgresTelemetryWriter := mkPostgresTelemetryWriter {
  writer_dsn : PostgresDsn;
  writer_tables : PostgresTableNames;
  writer_connection : option (db_client db);
  writer_db : db_state db;
  written : list StoredRow }.

#[export] Instance eta_PostgresTelemetryWriter : Eta PostgresTelemetryWriter := λ w,
  mkPostgresTelemetryWriter (writer_dsn w) (writer_tables w) (writer_connection w) (writer_db w) (written w).
#[export] Instance set_writer_connection : Setter writer_connection.
Proof. derive_setter. Defined.
#[export] Instance set_writer_db : Setter writer_db.
Proof. derive_setter. Defined.
#[export] Instance set_written : Setter written.
Proof. derive_setter. Defined.

Definition PostgresTelemetryWriter_new (dsn : PostgresDsn) (tables : PostgresTableNames) (state : db_state db)
    : PostgresTelemetryWriter := mkPostgresTelemetryWriter dsn tables None state [].

Local Abbreviation WriterM := (M PostgresTelemetryWriter PostgresTelemetryError).

Definition open_connection (transport : Transport) : WriterM (db_client db) := λ w,
  let '(client, state) := db_connect db transport (dsn_value (writer_dsn w)) (writer_db w) in
  (ok_or client TelConnect, w <| writer_db := state |>).

(** Only [sslmode=prefer] falls back to an unencrypted connection. *)
Definition connect_postgres : WriterM (db_client db) :=
  w ← get;
  match dsn_tls_mode (writer_dsn w) with
  | TlsRequire => open_connection TlsUnverified
  | TlsVerify => open_connection TlsVerified
  | TlsDisable => open_connection Plaintext
  | TlsPrefer =>
      outcome ← attempt (open_connection TlsUnverified);
      match outcome with Ok client => mret client | Err _ => open_connection Plaintext end
  end.

(** ** Writing a batch *)

Definition prepare (client : db_client db) (sql : string) : WriterM unit := λ w,
  let '(ok, state) := db_prepare db client sql (writer_db w) in
  (if ok then Ok tt else Err TelPostgres, w <| writer_db := state |>).

Definition execute (client : db_client db) (sql : string) (values : list SqlValue) : WriterM unit := λ w,
  let '(ok, state) := db_execute db client sql values (writer_db w) in
  if ok then (Ok tt, w <| writer_db := state |> <| written ::= (.++ [mkStoredRow sql values]) |>)
  else (Err TelPostgres, w <| writer_db := state |>).

(** The loop of the three [write_..] functions: a record is encoded when its turn comes. *)
Fixpoint execute_all {A} (client : db_client db) (sql : string) (encode : A → result PostgresTelemetryError (list SqlValue))
    (records : list A) : WriterM unit :=
  match records with
  | [] => mret tt
  | record :: records =>
      values ← lift_result (encode record);
      execute client sql values;;
      execute_all client sql encode records
  end.

Definition write_events (client : db_client db) (table : string) (events : list NetplayTelemetryEvent) : WriterM unit :=
  let sql := insert_sql INSERT_EVENT_SQL table in
  prepare client sql;; execute_all client sql event_values events.

Definition write_lobby_events (client : db_client db) (table : string) (events : list NetplayLobbyTelemetryEvent)
    : WriterM unit :=
  let sql := insert_sql INSERT_LOBBY_EVENT_SQL table in
  prepare client sql;; execute_all client sql lobby_event_values events.

Definition write_performance_samples (client : db_client db) (table : string) (samples : list NetplayPerformanceSample)
    : WriterM unit :=
  let sql := insert_sql INSERT_SAMPLE_SQL table in
  prepare client sql;; execute_all client sql sample_values samples.

Definition unless_empty {A} (l : list A) (m : WriterM unit) : WriterM unit :=
  match l with [] => mret tt | _ => m end.

(** [write_batch] has set the connection, so that the [expect] of the source holds; it is the
    argument here. *)
Definition write_connected (client : db_client db) (batch : list NetplayTelemetryRecord) : WriterM unit :=
  let grouped := split_batch batch in
  w ← get;
  let tables := writer_tables w in
  unless_empty (batch_events grouped) (write_events client (table_events tables) (batch_events grouped));;
  unless_empty (batch_lobby_events grouped)
    (write_lobby_events client (table_lobby_events tables) (batch_lobby_events grouped));;
  unless_empty (batch_performance_samples grouped)
    (write_performance_samples client (table_performance_samples tables) (batch_performance_samples grouped)).

Definition ensure_connection : WriterM (db_client db) :=
  w ← get;
  match writer_connection w with
  | Some client => mret client
  | None => client ← connect_postgres; modify (λ w, w <| writer_connection := Some client |>);; mret client
  end.

Definition write_batch (batch : list NetplayTelemetryRecord) : WriterM unit :=
  client ← ensure_connection;
  outcome ← attempt (write_connected client batch);
  match outcome with
  | Ok _ => mret tt
  | Err error => modify (λ w, w <| writer_connection := None |>);; throw error
  end.

(** ** The queue and the drain task *)

(** The drain either waits in [select!] or awaits the database with the batch in hand. *)
Inductive DrainPhase := Selecting | Writing.

Record Telemetry := mkTelemetry {
  tel_capacity : nat;
  tel_batch_size : nat;
  tel_queue : list NetplayTelemetryRecord;
  tel_batch : list NetplayTelemetryRecord;
  tel_phase : DrainPhase;
  tel_writer : PostgresTelemetryWriter;
  tel_metrics : InMemoryMetrics }.

#[export] Instance eta_Telemetry : Eta Telemetry := λ t,
  mkTelemetry (tel_capacity t) (tel_batch_size t) (tel_queue t) (tel_batch t) (tel_phase t) (tel_writer t) (tel_metrics t).
#[export] Instance set_tel_queue : Setter tel_queue.
Proof. derive_setter. Defined.
#[export] Instance set_tel_batch : Setter tel_batch.
Proof. derive_setter. Defined.
#[export] Instance set_tel_phase : Setter tel_phase.
Proof. derive_setter. Defined.
#[export] Instance set_tel_writer : Setter tel_writer.
Proof. derive_setter. Defined.
#[export] Instance set_tel_metrics : Setter tel_metrics.
Proof. derive_setter. Defined.

(** [spawn_telemetry_sink] for a configured sink. *)
Definition spawn_telemetry (config : TelemetryConfig) (metrics : InMemoryMetrics) (state : db_state db)
    : option Telemetry :=
  match telemetry_sink config with
  | TelemetryDisabled => None
  | TelemetryPostgres dsn tables =>
      Some (mkTelemetry (N.to_nat (queue_capacity config)) (N.to_nat (batch_size config)) [] [] Selecting
              (PostgresTelemetryWriter_new dsn tables state) metrics)
  end.

(** [try_send] on the bounded channel. The drain keeps the receiver, so that the channel is
    never closed. *)
Definition try_record (record : NetplayTelemetryRecord) (t : Telemetry) : Telemetry :=
  if (length (tel_queue t) <? tel_capacity t)%nat then t <| tel_queue ::= (.++ [record]) |>
  else t <| tel_metrics ::= record_telemetry_dropped 1 |>.

Definition sink_record (event : RoomDebugEvent) : Telemetry → Telemetry :=
  try_record (TelRoomEvent (telemetry_of_room_event event)).
Definition sink_record_performance_sample (sample : RoomPerformanceSample) : Telemetry → Telemetry :=
  try_record (TelPerformanceSample (telemetry_of_sample sample)).
Definition sink_record_lobby_event (event : LobbyDebugEvent) : Telemetry → Telemetry :=
  try_record (TelLobbyEvent (telemetry_of_lobby_event event)).

(** [flush_batch] up to its [await]: an empty batch returns at once. *)
Definition begin_flush (t : Telemetry) : Telemetry :=
  match tel_batch t with [] => t | _ => t <| tel_phase := Writing |> end.

(** [flush_batch] from the answer of the writer. *)
Definition finish_flush (t : Telemetry) : Telemetry :=
  let '(outcome, writer) := write_batch (tel_batch t) (tel_writer t) in
  let t := t <| tel_writer := writer |> in
  let t := match outcome with
           | Ok _ => t
           | Err _ => t <| tel_metrics ::= record_telemetry_write_failed (N.of_nat (length (tel_batch t))) |>
           end in
  t <| tel_batch := [] |> <| tel_phase := Selecting |>.

(** The branches of [select!] in the order of the source, and the rest of the server. While
    the ticker exists its branch is enabled, so that [else => break] is never taken. *)
Inductive TelemetryStep :=
| StepRecord (record : NetplayTelemetryRecord)
| StepReceive
| StepTick
| StepWritten.

Definition telemetry_step (step : TelemetryStep) (t : Telemetry) : option Telemetry :=
  match step, tel_phase t with
  | StepRecord record, _ => Some (try_record record t)
  | StepReceive, Selecting =>
      match tel_queue t with
      | [] => None
      | event :: queue =>
          let t := t <| tel_queue := queue |> <| tel_batch ::= (.++ [event]) |> in
          Some (if (tel_batch_size t <=? length (tel_batch t))%nat then begin_flush t else t)
      end
  | StepTick, Selecting => Some (begin_flush t)
  | StepWritten, Writing => Some (finish_flush t)
  | _, _ => None
  end.

Fixpoint telemetry_run (steps : list TelemetryStep) (t : Telemetry) : option Telemetry :=
  match steps with
  | [] => Some t
  | step :: steps => t' ← telemetry_step step t; telemetry_run steps t'
  end.

(** ** What reaches the database *)

(** The rows of a batch, in the order in which the writer takes them. *)
Definition planned_rows (tables : PostgresTableNames) (batch : list NetplayTelemetryRecord)
    : list (result PostgresTelemetryError StoredRow) :=
  let rows {A} template table (encode : A → result PostgresTelemetryError (list SqlValue)) (records : list A) :=
    (λ record, values ← encode record; Ok (mkStoredRow (insert_sql template table) values)) <$> records in
  rows INSERT_EVENT_SQL (table_events tables) event_values
    (omap (λ r, match r with TelRoomEvent e => Some e | _ => None end) batch)
  ++ rows INSERT_LOBBY_EVENT_SQL (table_lobby_events tables) lobby_event_values
       (omap (λ r, match r with TelLobbyEvent e => Some e | _ => None end) batch)
  ++ rows INSERT_SAMPLE_SQL (table_performance_samples tables) sample_values
       (omap (λ r, match r with TelPerformanceSample s => Some s | _ => None end) batch).

(** From [w] to [w'] the rows [l] were stored, and nothing else of the writer's setup changed. *)
Definition stored (l : list StoredRow) (w w' : PostgresTelemetryWriter) : Prop :=
  written w' = written w ++ l ∧ writer_tables w' = writer_tables w ∧ writer_connection w' = writer_connection w.

Definition stored_all (plan : list (result PostgresTelemetryError StoredRow)) (w w' : PostgresTelemetryWriter) : Prop :=
  ∃ l, stored l w w' ∧ Ok <$> l = plan.
Definition stored_some (plan : list (result PostgresTelemetryError StoredRow)) (w w' : PostgresTelemetryWriter) : Prop :=
  ∃ l, stored l w w' ∧ (Ok <$> l) `prefix_of` plan.

Definition same_setup (w w' : PostgresTelemetryWriter) : Prop :=
  written w' = written w ∧ writer_tables w' = writer_tables w ∧ writer_connection w' = writer_connection w.

Lemma stored_nothing plan w w' : same_setup w w' → stored_some plan w w'.
Proof. intros (? & ? & ?). exists []. split; [split_and!; [by rewrite app_nil_r|done..]|apply prefix_nil]. Qed.
Lemma stored_all_nil w w' : same_setup w w' → stored_all [] w w'.
Proof. intros (? & ? & ?). exists []. split; [split_and!; [by rewrite app_nil_r|done..]|done]. Qed.
Lemma stored_trans l1 l2 w w1 w2 : stored l1 w w1 → stored l2 w1 w2 → stored (l1 ++ l2) w w2.
Proof. intros (E1 & T1 & C1) (E2 & T2 & C2). split_and!; [by rewrite E2, E1, app_assoc|congruence..]. Qed.
Lemma stored_all_app p1 p2 w w1 w2 : stored_all p1 w w1 → stored_all p2 w1 w2 → stored_all (p1 ++ p2) w w2.
Proof.
  intros (l1 & H1 & <-) (l2 & H2 & <-). exists (l1 ++ l2). split; [by eapply stored_trans|apply fmap_app].
Qed.
Lemma stored_some_app p1 p2 w w1 w2 : stored_all p1 w w1 → stored_some p2 w1 w2 → stored_some (p1 ++ p2) w w2.
Proof.
  intros (l1 & H1 & <-) (l2 & H2 & H). exists (l1 ++ l2). split; [by eapply stored_trans|].
  rewrite fmap_app. by apply prefix_app.
Qed.
Lemma stored_some_weaken p1 p2 w w' : stored_some p1 w w' → stored_some (p1 ++ p2) w w'.
Proof. intros (l & H & Hp). exists l. split; [done|]. by apply prefix_app_r. Qed.

(** A computation that stores [plan]: all of it when it succeeds, a prefix when it fails. *)
Definition writes (m : WriterM unit) (plan : list (result PostgresTelemetryError StoredRow)) : Prop :=
  ∀ w, wp m (λ _, stored_all plan w) (λ _, stored_some plan w) w.

Lemma writes_ret : writes (mret tt) [].
Proof. intros w. by apply stored_all_nil. Qed.

Lemma writes_bind m1 m2 p1 p2 : writes m1 p1 → writes m2 p2 → writes (m1;; m2) (p1 ++ p2).
Proof.
  intros H1 H2 w. apply wp_bind. eapply wp_mono; [apply H1| |].
  - intros [] w1 Hw1. eapply wp_mono; [apply H2| |]; intros ? w2 Hw2; [by eapply stored_all_app|by eapply stored_some_app].
  - intros e w1 Hw1. by apply stored_some_weaken.
Qed.

Lemma writes_prepare client sql : writes (prepare client sql) [].
Proof.
  intros w. unfold wp, prepare. destruct (db_prepare _ _ _ _) as [[] state]; [by apply stored_all_nil|by apply stored_nothing].
Qed.

Lemma writes_execute_all {A} client sql encode (records : list A) :
  writes (execute_all client sql encode records)
    ((λ record, values ← encode record; Ok (mkStoredRow sql values)) <$> records).
Proof.
  induction records as [|record records IH]; [apply writes_ret|]. intros w. cbn [execute_all fmap list_fmap].
  apply wp_bind. apply wp_lift_result. split; intros x Hx; rewrite Hx; [|by apply stored_nothing].
  apply (writes_bind (execute client sql x) _ [Ok (mkStoredRow sql x)] _); [|exact IH]. clear w. intros w. unfold wp, execute. destruct (db_execute _ _ _ _ _) as [[] state].
  - exists [mkStoredRow sql x]. done.
  - by apply stored_nothing.
Qed.

Lemma writes_table {A} client sql encode (records : list A) :
  writes (unless_empty records (prepare client sql;; execute_all client sql encode records))
    ((λ record, values ← encode record; Ok (mkStoredRow sql values)) <$> records).
Proof.
  destruct records as [|record records]; [apply writes_ret|]. cbn [unless_empty].
  exact (writes_bind _ _ [] _ (writes_prepare client sql) (writes_execute_all client sql encode (record :: records))).
Qed.

Lemma split_batch_spec batch :
  split_batch batch = mkPostgresTelemetryBatch
    (omap (λ r, match r with TelRoomEvent e => Some e | _ => None end) batch)
    (omap (λ r, match r with TelLobbyEvent e => Some e | _ => None end) batch)
    (omap (λ r, match r with TelPerformanceSample s => Some s | _ => None end) batch).
Proof.
  unfold split_batch. induction batch as [|r batch IH] using rev_ind; [done|].
  rewrite foldl_app, IH, !omap_app. destruct r; cbn; rewrite ?app_nil_r; done.
Qed.

Lemma writes_connected client batch w :
  wp (write_connected client batch) (λ _, stored_all (planned_rows (writer_tables w) batch) w)
    (λ _, stored_some (planned_rows (writer_tables w) batch) w) w.
Proof.
  unfold write_connected. apply wp_bind, wp_get. rewrite split_batch_spec. cbn [batch_events batch_lobby_events batch_performance_samples].
  apply (writes_bind _ _ _ _ (writes_table client _ event_values _)
           (writes_bind _ _ _ _ (writes_table client _ lobby_event_values _) (writes_table client _ sample_values _))).
Qed.

Lemma connect_keeps w :
  wp connect_postgres (λ _ w', written w' = written w ∧ writer_tables w' = writer_tables w ∧ writer_connection w' = writer_connection w)
    (λ _ w', written w' = written w ∧ writer_tables w' = writer_tables w ∧ writer_connection w' = writer_connection w) w.
Proof.
  unfold connect_postgres. apply wp_bind, wp_get.
  unfold wp, mbind, M_bind, mret, M_ret, attempt, open_connection, ok_or.
  repeat (case_match; simplify_eq/=; try done).
Qed.

Lemma ensure_connection_keeps w :
  wp ensure_connection
    (λ client w', written w' = written w ∧ writer_tables w' = writer_tables w ∧ writer_connection w' = Some client)
    (λ _ w', written w' = written w ∧ writer_tables w' = writer_tables w ∧ writer_connection w' = None) w.
Proof.
  unfold ensure_connection. apply wp_bind, wp_get. destruct (writer_connection w) as [client|] eqn:E.
  { by apply wp_ret. }
  apply wp_bind. eapply wp_mono; [apply connect_keeps| |].
  - intros client w' (H1 & H2 & H3). apply wp_bind, wp_modify, wp_ret. done.
  - intros e w' (H1 & H2 & H3). rewrite E in H3. done.
Qed.

(** A batch against any database: success stores all of it and keeps the connection; failure
    stores a prefix and drops the connection. *)
Lemma write_batch_spec batch w :
  let plan := planned_rows (writer_tables w) batch in
  wp (write_batch batch)
    (λ _ w', ∃ l, written w' = written w ++ l ∧ writer_tables w' = writer_tables w ∧ Ok <$> l = plan ∧ writer_connection w' ≠ None)
    (λ _ w', ∃ l, written w' = written w ++ l ∧ writer_tables w' = writer_tables w ∧ (Ok <$> l) `prefix_of` plan
                  ∧ writer_connection w' = None) w.
Proof.
  cbv zeta. unfold write_batch. apply wp_bind. eapply wp_mono; [apply ensure_connection_keeps| |].
  - intros client w1 (H1 & H2 & H3). apply wp_bind, wp_attempt.
    eapply wp_mono; [apply writes_connected| |]; rewrite H2.
    + intros [] w2 (l & (E & T & C) & Hl). apply wp_ret. exists l. rewrite E, H1, T, C, H3. split_and!; [reflexivity|exact H2|exact Hl|discriminate].
    + intros e w2 (l & (E & T & C) & Hl). apply wp_bind, wp_modify, wp_throw. exists l.
      change (written (w2 <| writer_connection := None |>)) with (written w2).
      rewrite E, H1. split_and!; [reflexivity|by rewrite <-H2|exact Hl|reflexivity].
  - intros e w1 (H1 & H2 & H3). exists []. rewrite app_nil_r. split_and!; [done..|apply prefix_nil|done].
Qed.

(** ** The accounts of the queue *)

#[local] Opaque planned_rows.

(** A batch that was handed to the writer, whether it succeeded, and the rows it left. *)
Record Settled := mkSettled {
  settled_batch : list NetplayTelemetryRecord;
  settled_ok : bool;
  settled_rows : list StoredRow }.

Definition settled_sound (tables : PostgresTableNames) (size : nat) (b : Settled) : Prop :=
  (1 <= length (settled_batch b) <= size)%nat
  ∧ if settled_ok b then Ok <$> settled_rows b = planned_rows tables (settled_batch b)
    else (Ok <$> settled_rows b) `prefix_of` planned_rows tables (settled_batch b).

Definition failed_records (history : list Settled) : nat :=
  sum_list_with (λ b, if settled_ok b then 0%nat else length (settled_batch b)) history.

(** Every record that was offered is accounted for: it was rejected and counted as dropped, or
    it was accepted and, in the order of acceptance, is in a batch that was written, in the
    current batch or still queued. *)
Definition accounted (offered : list NetplayTelemetryRecord) (t : Telemetry) : Prop :=
  ∃ accepted history,
    accepted `sublist_of` offered
    ∧ accepted = concat (settled_batch <$> history) ++ tel_batch t ++ tel_queue t
    ∧ Forall (settled_sound (writer_tables (tel_writer t)) (tel_batch_size t)) history
    ∧ written (tel_writer t) = concat (settled_rows <$> history)
    ∧ telemetry_dropped_total (tel_metrics t) = N.of_nat (length offered - length accepted) mod 2 ^ 64
    ∧ telemetry_write_failed_total (tel_metrics t) = N.of_nat (failed_records history) mod 2 ^ 64
    ∧ (length (tel_queue t) <= tel_capacity t)%nat.

Definition batch_bounded (t : Telemetry) : Prop :=
  match tel_phase t with
  | Selecting => (length (tel_batch t) < tel_batch_size t)%nat
  | Writing => (1 <= length (tel_batch t) <= tel_batch_size t)%nat
  end.

Definition offered_of (steps : list TelemetryStep) : list NetplayTelemetryRecord :=
  omap (λ step, match step with StepRecord record => Some record | _ => None end) steps.

Lemma fetch_add_count (n m : nat) : fetch_add (N.of_nat m) (N.of_nat n mod 2 ^ 64) = N.of_nat (n + m) mod 2 ^ 64.
Proof. unfold fetch_add. rewrite N.Div0.add_mod_idemp_l. f_equal. lia. Qed.

Lemma accounted_record offered record t :
  accounted offered t → accounted (offered ++ [record]) (try_record record t).
Proof.
  intros (accepted & history & Hs & -> & Hh & Hw & Hd & Hf & Hq). unfold try_record.
  pose proof (sublist_length _ _ Hs) as Hlen.
  destruct (Nat.ltb_spec (length (tel_queue t)) (tel_capacity t)).
  - exists (concat (settled_batch <$> history) ++ tel_batch t ++ tel_queue t ++ [record]), history.
    cbn. split_and!; try done.
    + rewrite !app_assoc. apply sublist_app; [by rewrite <-!app_assoc|done].
    + rewrite Hd. do 2 f_equal. rewrite !length_app in *. cbn. lia.
    + rewrite length_app. cbn. lia.
  - exists (concat (settled_batch <$> history) ++ tel_batch t ++ tel_queue t), history.
    cbn. split_and!; try done.
    + by apply sublist_inserts_r.
    + rewrite Hd. rewrite (fetch_add_count _ 1). do 2 f_equal. rewrite (length_app offered). cbn. lia.
Qed.

Lemma accounted_begin_flush offered t : accounted offered t → accounted offered (begin_flush t).
Proof. unfold begin_flush. by destruct (tel_batch t) eqn:E. Qed.

Lemma begin_flush_bounded t :
  tel_phase t = Selecting → (length (tel_batch t) <= tel_batch_size t)%nat → (0 < tel_batch_size t)%nat →
  batch_bounded (begin_flush t).
Proof.
  unfold begin_flush, batch_bounded. intros Hp Hl Hs. destruct (tel_batch t) as [|r l] eqn:E.
  - rewrite Hp, E. exact Hs.
  - cbn [tel_phase tel_batch tel_batch_size]. cbn. rewrite E. cbn in *. lia.
Qed.

Lemma failed_records_snoc history b :
  failed_records (history ++ [b]) = (failed_records history + (if settled_ok b then 0 else length (settled_batch b)))%nat.
Proof. unfold failed_records. rewrite sum_list_with_app. cbn. lia. Qed.

Lemma accounted_finish_flush offered t :
  (1 <= length (tel_batch t) <= tel_batch_size t)%nat → accounted offered t → accounted offered (finish_flush t).
Proof.
  intros Hb (accepted & history & Hs & -> & Hh & Hw & Hd & Hf & Hq). unfold finish_flush.
  pose proof (write_batch_spec (tel_batch t) (tel_writer t)) as Hspec. cbv zeta in Hspec. unfold wp in Hspec.
  set (plan := planned_rows _ _) in Hspec.
  destruct (write_batch (tel_batch t) (tel_writer t)) as [[[]|e] w'] eqn:E.
  all: destruct Hspec as (l & Hl & Ht & Hplan & _).
  all: eexists _, (history ++ [mkSettled (tel_batch t) _ l]); split; [exact Hs|].
  all: rewrite failed_records_snoc, !fmap_app, !concat_app; cbn; rewrite !app_nil_r, Hl, Hw, Ht.
  1: instantiate (1 := true); rewrite Nat.add_0_r.
  2: instantiate (1 := false); rewrite Hf, fetch_add_count.
  all: rewrite <-app_assoc; split_and!; try done.
  all: apply Forall_app; split; [exact Hh|constructor; [|constructor]]; split; [exact Hb|exact Hplan].
Qed.

Lemma accounted_step offered step t t' :
  (0 < tel_batch_size t)%nat → accounted offered t → batch_bounded t → telemetry_step step t = Some t' →
  accounted (offered ++ offered_of [step]) t' ∧ batch_bounded t' ∧ tel_batch_size t' = tel_batch_size t.
Proof.
  intros Hs Ha Hb. destruct step as [record| | |]; cbn [offered_of omap list_omap telemetry_step]; rewrite ?app_nil_r.
  - intros [= <-]. split_and!; [by apply accounted_record| |]; unfold try_record; by destruct (_ <? _)%nat.
  - destruct (tel_phase t) eqn:Hp; [|done]. unfold batch_bounded in Hb. rewrite Hp in Hb.
    destruct (tel_queue t) as [|event queue] eqn:Hq; [done|]. cbv zeta.
    set (t1 := t <| tel_queue := queue |> <| tel_batch ::= (.++ [event]) |>).
    assert (accounted offered t1) as Ha1.
    { destruct Ha as (accepted & history & ? & -> & ? & ? & ? & ? & Hc). rewrite Hq in *.
      exists (concat (settled_batch <$> history) ++ tel_batch t1 ++ tel_queue t1), history.
      cbn in *. rewrite <-(app_assoc (tel_batch t)). split_and!; try done. lia. }
    assert (length (tel_batch t1) = S (length (tel_batch t))) as Hl by (cbn; rewrite length_app; cbn; lia).
    assert (tel_batch_size t1 = tel_batch_size t) as Hbs by done.
    destruct (Nat.leb_spec (tel_batch_size t1) (length (tel_batch t1))); intros Ht; apply (inj Some) in Ht as <-.
    + split_and!; [by apply accounted_begin_flush| |].
      * apply begin_flush_bounded; [exact Hp|lia|exact Hs].
      * unfold begin_flush. by destruct (tel_batch t1).
    + split_and!; [done| |done]. unfold batch_bounded. change (tel_phase t1) with (tel_phase t). rewrite Hp. lia.
  - destruct (tel_phase t) eqn:Hp; [|done]. unfold batch_bounded in Hb. rewrite Hp in Hb. intros [= <-].
    split_and!; [by apply accounted_begin_flush|apply begin_flush_bounded; [done|lia|done]|].
    unfold begin_flush. by destruct (tel_batch t).
  - destruct (tel_phase t) eqn:Hp; [done|]. unfold batch_bounded in Hb. rewrite Hp in Hb. intros [= <-].
    split; [by apply accounted_finish_flush|]. unfold finish_flush.
    destruct (write_batch _ _) as [[] ?]; unfold batch_bounded; cbn; done.
Qed.

Lemma accounted_run offered steps t t' :
  (0 < tel_batch_size t)%nat → accounted offered t → batch_bounded t → telemetry_run steps t = Some t' →
  accounted (offered ++ offered_of steps) t' ∧ batch_bounded t'.
Proof.
  revert offered t. induction steps as [|step steps IH]; intros offered t Hs Ha Hb; cbn [telemetry_run].
  - intros [= <-]. cbn. by rewrite app_nil_r.
  - destruct (telemetry_step step t) as [t1|] eqn:E; [|done]. intros H.
    destruct (accounted_step _ _ _ _ Hs Ha Hb E) as (Ha1 & Hb1 & Hs1).
    assert (offered_of (step :: steps) = offered_of [step] ++ offered_of steps) as -> by (destruct step; done).
    rewrite app_assoc. apply (IH _ t1); [by rewrite Hs1|done..].
Qed.

Lemma accounted_spawn config state t :
  1 <= batch_size config → spawn_telemetry config InMemoryMetrics_new state = Some t →
  accounted [] t ∧ batch_bounded t ∧ (0 < tel_batch_size t)%nat.
Proof.
  unfold spawn_telemetry. intros Hb. destruct (telemetry_sink config) as [|dsn tables]; intros [= <-].
  split_and!; [exists [], []; cbn; split_and!; (done || lia)|unfold batch_bounded; cbn; lia|cbn; lia].
Qed.

End database.

#[local] Opaque planned_rows insert_sql.

Module Durable.

(** The database sees a batch in order, and no part of it twice. Whatever the database answers, a
    successful write has stored one row for every record of the batch, the room events
    first, then the lobby events, then the samples, each kind in the order of the queue; a
    failed write has stored a prefix of those rows and has given up the connection, so that the
    next write opens a new one. *)
Theorem batch_stored_in_order (db : Database) batch (w : PostgresTelemetryWriter db) :
  let plan := planned_rows (writer_tables db w) batch in
  match write_batch db batch w with
  | (Ok _, w') => ∃ rows, written db w' = written db w ++ rows ∧ Ok <$> rows = plan ∧ writer_connection db w' ≠ None
  | (Err _, w') => ∃ rows, written db w' = written db w ++ rows ∧ (Ok <$> rows) `prefix_of` plan
                           ∧ writer_connection db w' = None
  end.
Proof.
  intros plan. pose proof (write_batch_spec db batch w) as H. unfold wp in H. fold plan in H. cbv zeta in H.
  destruct (write_batch db batch w) as [[[]|e] w']; destruct H as (l & ? & _ & ? & ?); exists l; split_and!; assumption.
Qed.

(** C37: telemetry is lost only where it is counted. From the start of the process, after
    any interleaving of reports, receptions, ticks and completed writes, the records that were
    accepted are, in order, those of the batches that were written, then the current batch, then the
    queue; every other record is counted as dropped, and every record of a batch whose write
    failed is counted as failed. The queue never exceeds its capacity nor a batch its size,
    and the database holds exactly what those writes stored. *)
Theorem telemetry_is_accounted (db : Database) config state steps (t0 t : Telemetry db) :
  1 <= batch_size config → spawn_telemetry db config InMemoryMetrics_new state = Some t0 →
  telemetry_run db steps t0 = Some t →
  accounted db (offered_of steps) t ∧ batch_bounded db t.
Proof.
  intros Hb H0 Hrun. destruct (accounted_spawn _ _ _ _ Hb H0) as (Ha & Hbb & Hs).
  exact (accounted_run db [] steps t0 t Hs Ha Hbb Hrun).
Qed.

(** A database that answers every call, and one that refuses every row. *)
Definition sound_database : Database :=
  mkDatabase unit unit (λ _ _ s, (Some tt, s)) (λ _ _ s, (true, s)) (λ _ _ _ s, (true, s)).

Definition sample_config : TelemetryConfig :=
  mkTelemetryConfig (TelemetryPostgres (mkPostgresDsn "postgres://host/db" "db" TlsPrefer)
                       (mkPostgresTableNames "events" "lobbies" "samples")) 2 2 1000000000.

Definition sample_steps : list TelemetryStep :=
  let record := StepRecord (TelRoomEvent Rows.sample_record) in
  [record; record; record; StepReceive; record; StepTick; StepWritten].

Lemma telemetry_is_accounted_witness :
  ∃ t0 t, spawn_telemetry sound_database sample_config InMemoryMetrics_new tt = Some t0
          ∧ telemetry_run sound_database sample_steps t0 = Some t
          ∧ accounted sound_database (offered_of sample_steps) t ∧ batch_bounded sound_database t.
Proof.
  destruct (spawn_telemetry sound_database sample_config InMemoryMetrics_new tt) as [t0|] eqn:E0; [|discriminate E0].
  destruct (telemetry_run sound_database sample_steps t0) as [t|] eqn:E;
    [|injection E0 as <-; vm_compute in E; discriminate E].
  exists t0, t. split; [reflexivity|]. split; [exact E|].
  apply (telemetry_is_accounted sound_database sample_config tt sample_steps t0 t); [done|exact E0|exact E].
Defined.
End Durable.

#[local] Transparent planned_rows.

(** One sample whose counter does not fit an [i32] fails the write of its batch, whatever the
    database does: the samples behind it, of any room, are not stored. *)
Definition poisoned_sample (s : NetplayPerformanceSample) : Prop := is_ok (sample_values s) = false.

Lemma poisoned_batch_fails (db : Database) before after sample (w : PostgresTelemetryWriter db) :
  poisoned_sample sample → is_ok (write_batch db (before ++ TelPerformanceSample sample :: after) w).1 = false.
Proof.
  intros Hs. pose proof (write_batch_spec db (before ++ TelPerformanceSample sample :: after) w) as H.
  unfold wp in H. destruct (write_batch db _ w) as [[u|e] w']; [exfalso|done].
  destruct H as (rows & _ & _ & Hplan & _). unfold poisoned_sample in Hs.
  destruct (sample_values sample) as [v|e] eqn:E; [done|].
  assert (Err e ∈ (Ok <$> rows : list (result PostgresTelemetryError StoredRow))) as Hin.
  { rewrite Hplan. unfold planned_rows. apply elem_of_app. right. apply elem_of_app. right.
    apply list_elem_of_fmap. exists sample. rewrite E. split; [done|].
    apply list_elem_of_omap. exists (TelPerformanceSample sample). split; [|done].
    apply elem_of_app. right. apply elem_of_cons. by left. }
  apply list_elem_of_fmap in Hin as (? & ? & _). done.
Qed.
