(* ===== verification/AnalyticsRows.v ===== *)
(** * Analytics queries

  Models [src/src/analytics/query.rs], [file_relay_query.rs] and [file_relay_schema.rs]: the SQL text that
  the operator's tool sends and the decoding of the rows it gets back. A simple query returns
  every cell as text, or nothing for [NULL]. *)

From Stdlib Require Import Ascii.
From S2P Require Import Prelude Ids Text Descriptor Protocol StartSync StoredRoom Parse Config TelemetryRows.
Open Scope N_scope.

Inductive AnalyticsDbError :=
| MalformedRow (field : string)
| MalformedNumber (field value : string).

(** A row of [SimpleQueryRow]. *)
Definition Row : Type := list (option string).

Definition required_cell (row : Row) (index : nat) (field : string) : result AnalyticsDbError string :=
  ok_or (mjoin (row !! index)) (MalformedRow field).

(** [value.parse()], with the parser of the type. *)
Definition parse_required {A} (parse : string → option A) (value field : string) : result AnalyticsDbError A :=
  ok_or (parse value) (MalformedNumber field value).
Definition parse_optional {A} (parse : string → option A) (value field : string) : result AnalyticsDbError (option A) :=
  if value ==? ""%string then Ok None else a ← parse_required parse value field; Ok (Some a).

Definition parse_u64 : string → string → result AnalyticsDbError N := parse_required (parse_unsigned u64_max).
Definition parse_u8 : string → string → result AnalyticsDbError N := parse_required (parse_unsigned 255).
Definition parse_optional_u64 : string → string → result AnalyticsDbError (option N) := parse_optional (parse_unsigned u64_max).
Definition parse_optional_u32 : string → string → result AnalyticsDbError (option N) := parse_optional (parse_unsigned u32_max).
Definition parse_optional_u16 : string → string → result AnalyticsDbError (option N) := parse_optional (parse_unsigned u16_max).
Definition parse_optional_i64 : string → string → result AnalyticsDbError (option Z) := parse_optional parse_i64.

(** [parse(required_cell(&row, index, field)?, field)?]. *)
Definition cell {A} (parse : string → string → result AnalyticsDbError A) (row : Row) (index : nat) (field : string)
    : result AnalyticsDbError A :=
  text ← required_cell row index field; parse text field.

(** ** Rows *)

Record SessionKey := mkSessionKey {
  skey_room_id : string;
  skey_session_epoch : N;
  skey_invite_code : string;
  skey_started_ms : N;
  skey_ended_ms : N }.

Record EventRow := mkEventRow {
  erow_timestamp_ms : N;
  erow_room_id : string;
  erow_invite_code : string;
  erow_event_seq : N;
  erow_room_epoch : N;
  erow_session_epoch : N;
  erow_protocol_version : option N;
  erow_kind : string;
  erow_detail : string }.

Record LobbyEventRow := mkLobbyEventRow {
  lrow_timestamp_ms : N;
  lrow_lobby_id : string;
  lrow_invite_code : string;
  lrow_event_seq : N;
  lrow_lobby_epoch : N;
  lrow_kind : string;
  lrow_detail : string }.

Record SampleRow := mkSampleRow {
  srow_timestamp_ms : N;
  srow_room_id : string;
  srow_invite_code : string;
  srow_event_seq : N;
  srow_room_epoch : N;
  srow_session_epoch : N;
  srow_protocol_version : option N;
  srow_player_index : N;
  srow_runtime_state : string;
  srow_local_frame : option N;
  srow_canonical_frame : N;
  srow_released_frame : option N;
  srow_next_release_frame : option N;
  srow_accepted_input_frame : option N;
  srow_frame_delta : option Z;
  srow_round_trip_ms : option N;
  srow_jitter_ms : option N;
  srow_prediction_frames : option N;
  srow_stall_count : option N;
  srow_catch_up_frames : option N;
  srow_late_input_frames : option N;
  srow_audio_underruns : option N;
  srow_input_resend_frames : option N;
  srow_input_nacks : option N;
  srow_replayed_frames : option N;
  srow_suppressed_audio_frames : option N;
  srow_suppressed_video_frames : option N;
  srow_audio_queue_depth_frames : option N;
  srow_audio_catch_up_events : option N;
  srow_audio_trimmed_frames : option N;
  srow_audio_rebuffer_events : option N;
  srow_audio_max_consecutive_missing_frames : option N;
  srow_audio_queue_min_frames : option N;
  srow_audio_queue_max_frames : option N }.

Definition session_row (row : Row) : result AnalyticsDbError SessionKey :=
  room_id ← required_cell row 0 "room_id";
  session_epoch ← cell parse_u64 row 1 "session_epoch";
  invite_code ← required_cell row 2 "invite_code";
  started_ms ← cell parse_u64 row 3 "started_ms";
  ended_ms ← cell parse_u64 row 4 "ended_ms";
  Ok (mkSessionKey room_id session_epoch invite_code started_ms ended_ms).

Definition event_row (row : Row) : result AnalyticsDbError EventRow :=
  timestamp_ms ← cell parse_u64 row 0 "timestamp_ms";
  room_id ← required_cell row 1 "room_id";
  invite_code ← required_cell row 2 "invite_code";
  event_seq ← cell parse_u64 row 3 "event_seq";
  room_epoch ← cell parse_u64 row 4 "room_epoch";
  session_epoch ← cell parse_u64 row 5 "session_epoch";
  protocol_version ← cell parse_optional_u16 row 6 "protocol_version";
  kind ← required_cell row 7 "kind";
  detail ← required_cell row 8 "detail";
  Ok (mkEventRow timestamp_ms room_id invite_code event_seq room_epoch session_epoch protocol_version kind detail).

Definition lobby_event_row (row : Row) : result AnalyticsDbError LobbyEventRow :=
  timestamp_ms ← cell parse_u64 row 0 "timestamp_ms";
  lobby_id ← required_cell row 1 "lobby_id";
  invite_code ← required_cell row 2 "invite_code";
  event_seq ← cell parse_u64 row 3 "event_seq";
  lobby_epoch ← cell parse_u64 row 4 "lobby_epoch";
  kind ← required_cell row 5 "kind";
  detail ← required_cell row 6 "detail";
  Ok (mkLobbyEventRow timestamp_ms lobby_id invite_code event_seq lobby_epoch kind detail).

Definition sample_row (row : Row) : result AnalyticsDbError SampleRow :=
  timestamp_ms ← cell parse_u64 row 0 "timestamp_ms";
  room_id ← required_cell row 1 "room_id";
  invite_code ← required_cell row 2 "invite_code";
  event_seq ← cell parse_u64 row 3 "event_seq";
  room_epoch ← cell parse_u64 row 4 "room_epoch";
  session_epoch ← cell parse_u64 row 5 "session_epoch";
  protocol_version ← cell parse_optional_u16 row 6 "protocol_version";
  player_index ← cell parse_u8 row 7 "player_index";
  runtime_state ← required_cell row 8 "runtime_state";
  local_frame ← cell parse_optional_u64 row 9 "local_frame";
  canonical_frame ← cell parse_u64 row 10 "canonical_frame";
  released_frame ← cell parse_optional_u64 row 11 "released_frame";
  next_release_frame ← cell parse_optional_u64 row 12 "next_release_frame";
  accepted_input_frame ← cell parse_optional_u64 row 13 "accepted_input_frame";
  frame_delta ← cell parse_optional_i64 row 14 "frame_delta";
  round_trip_ms ← cell parse_optional_u32 row 15 "round_trip_ms";
  jitter_ms ← cell parse_optional_u32 row 16 "jitter_ms";
  prediction_frames ← cell parse_optional_u32 row 17 "prediction_frames";
  stall_count ← cell parse_optional_u32 row 18 "stall_count";
  catch_up_frames ← cell parse_optional_u32 row 19 "catch_up_frames";
  late_input_frames ← cell parse_optional_u32 row 20 "late_input_frames";
  audio_underruns ← cell parse_optional_u32 row 21 "audio_underruns";
  input_resend_frames ← cell parse_optional_u32 row 22 "input_resend_frames";
  input_nacks ← cell parse_optional_u32 row 23 "input_nacks";
  replayed_frames ← cell parse_optional_u32 row 24 "replayed_frames";
  suppressed_audio_frames ← cell parse_optional_u32 row 25 "suppressed_audio_frames";
  suppressed_video_frames ← cell parse_optional_u32 row 26 "suppressed_video_frames";
  audio_queue_depth_frames ← cell parse_optional_u32 row 27 "audio_queue_depth_frames";
  audio_catch_up_events ← cell parse_optional_u32 row 28 "audio_catch_up_events";
  audio_trimmed_frames ← cell parse_optional_u32 row 29 "audio_trimmed_frames";
  audio_rebuffer_events ← cell parse_optional_u32 row 30 "audio_rebuffer_events";
  audio_max_consecutive_missing_frames ← cell parse_optional_u32 row 31 "audio_max_consecutive_missing_frames";
  audio_queue_min_frames ← cell parse_optional_u32 row 32 "audio_queue_min_frames";
  audio_queue_max_frames ← cell parse_optional_u32 row 33 "audio_queue_max_frames";
  Ok (mkSampleRow timestamp_ms room_id invite_code event_seq room_epoch session_epoch protocol_version player_index
        runtime_state local_frame canonical_frame released_frame next_release_frame accepted_input_frame frame_delta
        round_trip_ms jitter_ms prediction_frames stall_count catch_up_frames late_input_frames audio_underruns
        input_resend_frames input_nacks replayed_frames suppressed_audio_frames suppressed_video_frames
        audio_queue_depth_frames audio_catch_up_events audio_trimmed_frames audio_rebuffer_events
        audio_max_consecutive_missing_frames audio_queue_min_frames audio_queue_max_frames).

(** [simple_rows(messages).into_iter().map(decode).collect()]: the rows among the messages, and the
    first failure. *)
Inductive SimpleQueryMessage := QueryRow (row : Row) | QueryOther.
Definition simple_rows (messages : list SimpleQueryMessage) : list Row :=
  omap (λ m, match m with QueryRow row => Some row | QueryOther => None end) messages.
Fixpoint collect {A B E} (f : A → result E B) (l : list A) : result E (list B) :=
  match l with
  | [] => Ok []
  | a :: l => b ← f a; bs ← collect f l; Ok (b :: bs)
  end.

(** ** Query text *)

(** A column of a [SELECT]: as it is, cast to text, or cast with an empty text for [NULL]. *)
Inductive SelectItem := Plain (column : string) | Cast (column : string) | Coalesce (column : string).

Definition render_item (item : SelectItem) : string :=
  match item with
  | Plain c => c
  | Cast c => c ++ "::text"
  | Coalesce c => "COALESCE(" ++ c ++ "::text, '')"
  end%string.

Definition event_items : list SelectItem :=
  [Cast "timestamp_ms"; Cast "room_id"; Plain "invite_code"; Cast "event_seq"; Cast "room_epoch"; Cast "session_epoch";
   Coalesce "protocol_version"; Plain "kind"; Plain "detail"].
Definition lobby_event_items : list SelectItem :=
  [Cast "timestamp_ms"; Cast "lobby_id"; Plain "invite_code"; Cast "event_seq"; Cast "lobby_epoch"; Plain "kind"; Plain "detail"].
Definition sample_items : list SelectItem :=
  [Cast "timestamp_ms"; Cast "room_id"; Plain "invite_code"; Cast "event_seq"; Cast "room_epoch"; Cast "session_epoch";
   Coalesce "protocol_version"; Cast "player_index"; Plain "runtime_state"; Coalesce "local_frame";
   Cast "canonical_frame"; Coalesce "released_frame"; Coalesce "next_release_frame"; Coalesce "accepted_input_frame";
   Coalesce "frame_delta";
   Coalesce "round_trip_ms"; Coalesce "jitter_ms"; Coalesce "prediction_frames"; Coalesce "stall_count";
   Coalesce "catch_up_frames"; Coalesce "late_input_frames"; Coalesce "audio_underruns";
   Coalesce "input_resend_frames"; Coalesce "input_nacks"; Coalesce "replayed_frames";
   Coalesce "suppressed_audio_frames"; Coalesce "suppressed_video_frames"; Coalesce "audio_queue_depth_frames";
   Coalesce "audio_catch_up_events"; Coalesce "audio_trimmed_frames"; Coalesce "audio_rebuffer_events";
   Coalesce "audio_max_consecutive_missing_frames"; Coalesce "audio_queue_min_frames";
   Coalesce "audio_queue_max_frames"].

(** Each quote is doubled. *)
Definition escape_sql (value : string) : string :=
  string_of_bytes (concat ((λ b, if b =? 39 then [39; 39] else [b]) <$> string_bytes value)).

Definition session_filter (sessions : list SessionKey) : string :=
  let values := join ", " ((λ s, "('" ++ escape_sql (skey_room_id s) ++ "'::uuid, " ++ decimal (skey_session_epoch s) ++ ")")%string <$> sessions) in
  ("(room_id, session_epoch) IN (" ++ values ++ ")")%string.

Definition events_query (tables : PostgresTableNames) (sessions : list SessionKey) : string :=
  ("SELECT " ++ join ", " (render_item <$> event_items) ++ " FROM " ++ quote_identifier (table_events tables)
   ++ " WHERE " ++ session_filter sessions ++ " ORDER BY timestamp_ms ASC, event_seq ASC")%string.

Definition samples_query (tables : PostgresTableNames) (sessions : list SessionKey) : string :=
  ("SELECT " ++ join ", " (render_item <$> sample_items) ++ " FROM " ++ quote_identifier (table_performance_samples tables)
   ++ " WHERE " ++ session_filter sessions ++ " ORDER BY timestamp_ms ASC, player_index ASC")%string.

Definition sessions_query (tables : PostgresTableNames) (where_clause : string) (limit : N) : string :=
  ("SELECT room_id::text, session_epoch::text, (array_agg(invite_code ORDER BY timestamp_ms DESC))[1], min(timestamp_ms)::text, max(timestamp_ms)::text FROM (SELECT room_id, invite_code, session_epoch, timestamp_ms FROM "
   ++ quote_identifier (table_events tables) ++ " UNION ALL SELECT room_id, invite_code, session_epoch, timestamp_ms FROM "
   ++ quote_identifier (table_performance_samples tables) ++ ") sessions " ++ where_clause
   ++ " GROUP BY room_id, session_epoch ORDER BY max(timestamp_ms) DESC LIMIT " ++ decimal (clamp limit 1 500))%string.

Definition lobby_events_query (tables : PostgresTableNames) (where_clause : string) (limit : N) : string :=
  ("SELECT " ++ join ", " (render_item <$> lobby_event_items) ++ " FROM " ++ quote_identifier (table_lobby_events tables) ++ " "
   ++ where_clause ++ " ORDER BY timestamp_ms DESC, event_seq DESC LIMIT " ++ decimal (clamp limit 1 500))%string.

Definition room_where (room_id : string) : string := ("WHERE room_id = '" ++ escape_sql room_id ++ "'")%string.
Definition invite_where (invite_code : string) : string := ("WHERE invite_code = '" ++ escape_sql invite_code ++ "'")%string.
Definition delete_probe_query (table : string) : string :=
  ("DELETE FROM " ++ quote_identifier table ++ " WHERE invite_code = 'PROB-E1'")%string.
Definition delete_probe_queries (tables : PostgresTableNames) : list string :=
  delete_probe_query <$> [table_events tables; table_lobby_events tables; table_performance_samples tables].

Section client.
(** [Client::simple_query]; [None] is its error, which the callers return. *)
Context (simple_query : string → option (list SimpleQueryMessage)).

Inductive QueryError := QueryFailed | QueryMalformed (e : AnalyticsDbError).

Definition query_rows {A} (decode : Row → result AnalyticsDbError A) (query : string) : result QueryError (list A) :=
  messages ← ok_or (simple_query query) QueryFailed;
  map_err (collect decode (simple_rows messages)) QueryMalformed.

Definition recent_sessions (tables : PostgresTableNames) (limit : N) : result QueryError (list SessionKey) :=
  query_rows session_row (sessions_query tables "" limit).
Definition sessions_for_room (tables : PostgresTableNames) (room_id : string) (limit : N) : result QueryError (list SessionKey) :=
  query_rows session_row (sessions_query tables (room_where room_id) limit).
Definition events_for_sessions (tables : PostgresTableNames) (sessions : list SessionKey) : result QueryError (list EventRow) :=
  match sessions with [] => Ok [] | _ => query_rows event_row (events_query tables sessions) end.
Definition samples_for_sessions (tables : PostgresTableNames) (sessions : list SessionKey) : result QueryError (list SampleRow) :=
  match sessions with [] => Ok [] | _ => query_rows sample_row (samples_query tables sessions) end.
Definition recent_lobby_events (tables : PostgresTableNames) (limit : N) : result QueryError (list LobbyEventRow) :=
  query_rows lobby_event_row (lobby_events_query tables "" limit).
Definition lobby_events_for_invite (tables : PostgresTableNames) (invite_code : string) (limit : N)
    : result QueryError (list LobbyEventRow) :=
  query_rows lobby_event_row (lobby_events_query tables (invite_where invite_code) limit).
End client.

(** ** file_relay_query.rs and file_relay_schema.rs *)

Record FileRelayEventRow := mkFileRelayEventRow {
  frow_timestamp_ms : N;
  frow_transfer_id : string;
  frow_room_id : string;
  frow_kind : string;
  frow_phase : string;
  frow_status : string;
  frow_size_bytes : N;
  frow_uploaded_bytes : N;
  frow_downloaded_bytes : N;
  frow_chunk_index : option N;
  frow_chunk_count : N;
  frow_detail : string }.

Definition file_relay_event_row (row : Row) : result AnalyticsDbError FileRelayEventRow :=
  timestamp_ms ← cell parse_u64 row 0 "timestamp_ms";
  transfer_id ← required_cell row 1 "transfer_id";
  room_id ← required_cell row 2 "room_id";
  kind ← required_cell row 3 "kind";
  phase ← required_cell row 4 "phase";
  status ← required_cell row 5 "status";
  size_bytes ← cell parse_u64 row 6 "size_bytes";
  uploaded_bytes ← cell parse_u64 row 7 "uploaded_bytes";
  downloaded_bytes ← cell parse_u64 row 8 "downloaded_bytes";
  chunk_index ← cell parse_optional_u64 row 9 "chunk_index";
  chunk_count ← cell parse_u64 row 10 "chunk_count";
  detail ← required_cell row 11 "detail";
  Ok (mkFileRelayEventRow timestamp_ms transfer_id room_id kind phase status size_bytes uploaded_bytes downloaded_bytes
        chunk_index chunk_count detail).

Record FileRelayEventFilter := mkFileRelayEventFilter {
  filter_room_id : option string;
  filter_transfer_id : option string }.

Definition where_clause (f : FileRelayEventFilter) : string :=
  let clause column value := (column ++ " = '" ++ escape_sql value ++ "'")%string in
  let clauses := match filter_room_id f with Some v => [clause "room_id"%string v] | None => [] end
                 ++ match filter_transfer_id f with Some v => [clause "transfer_id"%string v] | None => [] end in
  match clauses with [] => ""%string | _ => ("WHERE " ++ join " AND " clauses)%string end.

Definition file_relay_items : list SelectItem :=
  [Cast "timestamp_ms"; Plain "transfer_id"; Plain "room_id"; Plain "kind"; Plain "phase"; Plain "status"; Cast "size_bytes";
   Cast "uploaded_bytes"; Cast "downloaded_bytes"; Coalesce "chunk_index"; Cast "chunk_count"; Plain "detail"].

Definition recent_file_relay_events (simple_query : string → option (list SimpleQueryMessage)) (table : string)
    (f : FileRelayEventFilter) (limit : N) : result QueryError (list FileRelayEventRow) :=
  query_rows simple_query file_relay_event_row
    ("SELECT " ++ join ", " (render_item <$> file_relay_items) ++ " FROM " ++ quote_identifier table ++ " " ++ where_clause f
     ++ " ORDER BY timestamp_ms DESC LIMIT " ++ decimal (clamp limit 1 1000))%string.

Definition transfer_events_columns : list Column :=
  [mkColumn "timestamp_ms" BIGINT true; mkColumn "transfer_id" TEXT true; mkColumn "room_id" TEXT true;
   mkColumn "sender_player_id" TEXT true; mkColumn "receiver_player_id" TEXT true; mkColumn "kind" TEXT true;
   mkColumn "phase" TEXT true; mkColumn "status" TEXT true; mkColumn "size_bytes" BIGINT true;
   mkColumn "uploaded_bytes" BIGINT true; mkColumn "downloaded_bytes" BIGINT true; mkColumn "chunk_index" BIGINT false;
   mkColumn "chunk_count" BIGINT true; mkColumn "detail" TEXT true].

Definition create_transfer_events_table_query : string → string := create_table_query transfer_events_columns.
Definition create_time_index_query (table : string) : string := create_index_query "_time_idx" table "timestamp_ms DESC".
Definition create_transfer_index_query (table : string) : string :=
  create_index_query "_transfer_idx" table "transfer_id, timestamp_ms".
Definition create_room_index_query (table : string) : string := create_index_query "_room_idx" table "room_id, timestamp_ms".

Definition file_relay_table_queries (table : string) : list string :=
  [create_transfer_events_table_query table] ++ add_columns table transfer_events_columns
  ++ [create_time_index_query table; create_transfer_index_query table; create_room_index_query table].

(** ** Reading back what was stored *)

Section select.
Context (uuid_string : RoomId → string).

(** The text of a stored value: [NULL] has none, a number is in decimal. *)
Definition value_text (v : SqlValue) : option string :=
  match v with
  | SqlInt z => Some (decimal_Z z)
  | SqlText s => Some s
  | SqlUuid id => Some (uuid_string id)
  | SqlNull => None
  end.

(** What PostgreSQL returns for an item of a row with these columns. *)
Definition select_item (columns : list Column) (values : list SqlValue) (item : SelectItem) : option string :=
  let find c := snd <$> List.find (λ p, column_name (fst p) ==? c) (zip columns values) in
  match item with
  | Plain c | Cast c => find c ≫= value_text
  | Coalesce c => text ← value_text <$> find c; Some (unwrap_or text ""%string)
  end.
Definition select_row (columns : list Column) (values : list SqlValue) (items : list SelectItem) : Row :=
  select_item columns values <$> items.
End select.


Definition coalesced (uuid_string : RoomId → string) (v : SqlValue) : option string :=
  Some (unwrap_or (value_text uuid_string v) ""%string).

Lemma select_event_row u v0 v1 v2 v3 v4 v5 v6 v7 v8 :
  select_row u events_columns [v0; v1; v2; v3; v4; v5; v6; v7; v8] event_items =
  [value_text u v0; value_text u v1; value_text u v2; value_text u v3; value_text u v4; value_text u v5; coalesced u v6;
   value_text u v7; value_text u v8].
Proof. reflexivity. Qed.

Lemma select_lobby_event_row u v0 v1 v2 v3 v4 v5 v6 :
  select_row u lobby_events_columns [v0; v1; v2; v3; v4; v5; v6] lobby_event_items =
  value_text u <$> [v0; v1; v2; v3; v4; v5; v6].
Proof. reflexivity. Qed.

Lemma select_sample_row u v0 v1 v2 v3 v4 v5 v6 v7 v8 v9 v10 v11 v12 v13 v14 v15 v16 v17 v18 v19 v20 v21 v22 v23
    v24 v25 v26 v27 v28 v29 v30 v31 v32 v33 :
  select_row u performance_samples_columns [v0; v1; v2; v3; v4; v5; v6; v7; v8; v9; v10; v11; v12; v13; v14;
    v15; v16; v17; v18; v19; v20; v21; v22; v23; v24; v25; v26; v27; v28; v29; v30; v31; v32; v33] sample_items
    =
  [value_text u v0; value_text u v1; value_text u v2; value_text u v3; value_text u v4; value_text u v5;
   coalesced u v6; value_text u v7; value_text u v8; coalesced u v9; value_text u v10; coalesced u v11;
   coalesced u v12; coalesced u v13; coalesced u v14; coalesced u v15; coalesced u v16; coalesced u v17;
   coalesced u v18; coalesced u v19; coalesced u v20; coalesced u v21; coalesced u v22; coalesced u v23;
   coalesced u v24; coalesced u v25; coalesced u v26; coalesced u v27; coalesced u v28; coalesced u v29;
   coalesced u v30; coalesced u v31; coalesced u v32; coalesced u v33].
Proof. reflexivity. Qed.

Lemma decimal_Z_of_N n : decimal_Z (Z.of_N n) = decimal n.
Proof. by destruct n. Qed.

Lemma decimal_not_empty n : decimal n ≠ ""%string.
Proof.
  intros H. assert (0 < String.length (decimal n))%nat as Hl; [|rewrite H in Hl; cbn in Hl; lia].
  unfold decimal, string_of_bytes. destruct (decimal_digits_cons 19 n) as (b & l & -> & _). cbn. lia.
Qed.

Lemma decimal_bytes n : string_bytes (decimal n) = decimal_digits 20 n.
Proof.
  unfold decimal. apply bytes_of_string_of_bytes. eapply Forall_impl; [apply decimal_digits_ascii|]. apply digit_lt_256.
Qed.

Lemma decimal_Z_not_empty z : decimal_Z z ≠ ""%string.
Proof. destruct z; [apply decimal_not_empty..|]. cbn. discriminate. Qed.

Lemma parse_i64_decimal z : (- 2 ^ 63 <= z < 2 ^ 63)%Z → parse_i64 (decimal_Z z) = Some z.
Proof.
  intros Hz. assert (∀ n, n <= 2 ^ 63 → n < 10 ^ N.of_nat 20) as Hfuel by (intros; cbn in *; lia).
  assert (∀ n, n <= 2 ^ 63 - 1 → parse_i64 (decimal n) = Some (Z.of_N n)) as Hpos.
  { intros n Hn. unfold parse_i64. rewrite decimal_bytes.
    pose proof (decimal_digits_value (2 ^ 63 - 1) 20 n Hn (Hfuel n ltac:(lia))) as Hv.
    destruct (decimal_digits_cons 19 n) as (b & l & E & Hb). rewrite E in *.
    assert (b ≠ 43 ∧ b ≠ 45) as [? ?] by (split; intros ->; done).
    repeat (case_match; try lia); by rewrite Hv. }
  destruct z as [|p|p]; [exact (Hpos 0 ltac:(lia))|exact (Hpos (Npos p) ltac:(lia))|].
  assert (string_bytes (decimal_Z (Zneg p)) = 45 :: decimal_digits 20 (Npos p)) as Hb
    by (rewrite <-decimal_bytes; reflexivity).
  pose proof (decimal_digits_value (2 ^ 63) 20 (Npos p) ltac:(lia) (Hfuel (Npos p) ltac:(lia))) as Hv.
  unfold parse_i64. rewrite Hb. destruct (decimal_digits_cons 19 (Npos p)) as (b & l & E & _). rewrite E in *.
  by rewrite Hv.
Qed.

Section read_back.
Context (u : RoomId → string) (row : Row) (i : nat) (field : string).

Lemma cell_u64_ok n name v :
  row !! i = Some (value_text u v) → u64_to_i64 n name = Ok v → cell parse_u64 row i field = Ok n.
Proof.
  unfold u64_to_i64. intros Hr. destruct (Z.leb_spec (Z.of_N n) i64_max) as [Hn|]; intros [= <-].
  unfold cell, required_cell. rewrite Hr. cbn [mjoin option_join value_text ok_or mbind result_bind].
  rewrite decimal_Z_of_N. unfold parse_u64, parse_required. rewrite parse_unsigned_decimal; [done| |done].
  unfold i64_max, u64_max in *. lia.
Qed.

Lemma parse_optional_decimal max n : n <= max → max <= u64_max → parse_optional (parse_unsigned max) (decimal n) field = Ok (Some n).
Proof.
  intros Hn Hm. unfold parse_optional. rewrite bool_decide_false by apply decimal_not_empty.
  unfold parse_required. by rewrite parse_unsigned_decimal.
Qed.

Lemma cell_text s : row !! i = Some (Some s) → required_cell row i field = Ok s.
Proof. unfold required_cell. by intros ->. Qed.

Lemma cell_coalesced {A} (parse : string → string → result AnalyticsDbError A) v :
  row !! i = Some (coalesced u v) → cell parse row i field = parse (unwrap_or (value_text u v) ""%string) field.
Proof. unfold cell, required_cell. by intros ->. Qed.

Lemma cell_optional_u64_ok o name v :
  row !! i = Some (coalesced u v) → optional_u64_to_i64 o name = Ok v → cell parse_optional_u64 row i field = Ok o.
Proof.
  intros Hr Ho. rewrite (cell_coalesced _ _ Hr). destruct o as [n|]; [|by injection Ho as <-].
  cbn in Ho. unfold u64_to_i64 in Ho. destruct (Z.leb_spec (Z.of_N n) i64_max); [|done]. injection Ho as <-.
  cbn [value_text unwrap_or default]. rewrite decimal_Z_of_N. apply parse_optional_decimal; [|done].
  unfold i64_max, u64_max in *. lia.
Qed.

(** A value that the database holds as a required column but the reader takes as optional. *)
Lemma cell_required_u64_ok n name v :
  row !! i = Some (coalesced u v) → u64_to_i64 n name = Ok v → cell parse_optional_u64 row i field = Ok (Some n).
Proof. intros Hr Hn. by apply (cell_optional_u64_ok (Some n) name v). Qed.

Lemma cell_version_ok n v :
  row !! i = Some (coalesced u v) → i16_of n = Ok v → cell parse_optional_u16 row i field = Ok (Some n).
Proof.
  intros Hr Hn. rewrite (cell_coalesced _ _ Hr). unfold i16_of in Hn. destruct (N.leb_spec n 32767); [|done].
  injection Hn as <-. cbn [value_text unwrap_or default]. rewrite decimal_Z_of_N.
  apply parse_optional_decimal; [unfold u16_max; lia|done].
Qed.

Lemma cell_counter_ok o v :
  row !! i = Some (coalesced u v) → counter_i32 o = Ok v → cell parse_optional_u32 row i field = Ok o.
Proof.
  intros Hr Ho. rewrite (cell_coalesced _ _ Hr). destruct o as [n|]; [|by injection Ho as <-].
  cbn in Ho. destruct (N.leb_spec n 2147483647); [|done]. injection Ho as <-.
  cbn [value_text unwrap_or default]. rewrite decimal_Z_of_N. apply parse_optional_decimal; [unfold u32_max; lia|done].
Qed.

Lemma cell_u8_ok n : row !! i = Some (value_text u (SqlInt (Z.of_N n))) → n < 256 → cell parse_u8 row i field = Ok n.
Proof.
  intros Hr Hn. unfold cell, required_cell. rewrite Hr. cbn [mjoin option_join value_text ok_or mbind result_bind].
  rewrite decimal_Z_of_N. unfold parse_u8, parse_required. rewrite parse_unsigned_decimal; [done|lia|done].
Qed.

Lemma cell_delta_ok o :
  row !! i = Some (coalesced u (match o with Some d => SqlInt d | None => SqlNull end)) →
  (∀ d, o = Some d → (- 2 ^ 63 <= d < 2 ^ 63)%Z) → cell parse_optional_i64 row i field = Ok o.
Proof.
  intros Hr Hd. rewrite (cell_coalesced _ _ Hr). destruct o as [d|]; [|done].
  cbn [value_text unwrap_or default from_option id]. unfold parse_optional_i64, parse_optional.
  rewrite bool_decide_false by apply decimal_Z_not_empty.
  unfold parse_required.
  by rewrite (parse_i64_decimal d (Hd d eq_refl)).
Qed.
End read_back.

(** Reads the cells of a row one after the other. *)
Ltac read_cells := repeat first
  [ erewrite cell_u64_ok by (reflexivity || eassumption)
  | erewrite cell_optional_u64_ok by (reflexivity || eassumption)
  | erewrite cell_required_u64_ok by (reflexivity || eassumption)
  | erewrite cell_version_ok by (reflexivity || eassumption)
  | erewrite cell_counter_ok by (reflexivity || eassumption)
  | erewrite cell_u8_ok by (reflexivity || eassumption)
  | erewrite cell_delta_ok by (reflexivity || eassumption)
  | erewrite cell_text by reflexivity
  | progress cbn [mbind result_bind] ].

Module ReadBack.


End ReadBack.

(** ** Quoting *)

(** PostgreSQL reads a quoted text up to the first quote that is not doubled. *)
Fixpoint scan_quoted (quote : N) (l : list N) : option (list N * list N) :=
  match l with
  | [] => None
  | b :: l =>
      if b =? quote
      then match l with
           | b' :: l' => if b' =? quote then prod_map (quote ::.) id <$> scan_quoted quote l' else Some ([], l)
           | [] => Some ([], [])
           end
      else prod_map (b ::.) id <$> scan_quoted quote l
  end.

Definition doubled (quote : N) (l : list N) : list N := concat ((λ b, if b =? quote then [quote; quote] else [b]) <$> l).

Lemma scan_doubled quote l rest :
  head rest ≠ Some quote → scan_quoted quote (doubled quote l ++ quote :: rest) = Some (l, rest).
Proof.
  intros Hr. induction l as [|b l IH]; cbn.
  - rewrite N.eqb_refl. destruct rest as [|b' rest]; [done|]. destruct (N.eqb_spec b' quote) as [->|]; done.
  - destruct (N.eqb_spec b quote) as [->|Hb]; cbn.
    + rewrite !N.eqb_refl. unfold doubled in IH. by rewrite IH.
    + rewrite (proj2 (N.eqb_neq b quote) Hb). unfold doubled in IH. by rewrite IH.
Qed.

Lemma string_bytes_app s t : string_bytes (s ++ t)%string = string_bytes s ++ string_bytes t.
Proof.
  induction s as [|c s IH]; [done|].
  change (N_of_ascii c :: string_bytes (s ++ t)%string = (N_of_ascii c :: string_bytes s) ++ string_bytes t). by rewrite IH.
Qed.

Lemma string_bytes_small s : Forall (λ b, b < 256) (string_bytes s).
Proof.
  unfold string_bytes. apply Forall_fmap, Forall_forall. intros c _. cbn. pose proof (N_ascii_bounded c). done.
Qed.

Lemma doubled_small quote l : quote < 256 → Forall (λ b, b < 256) l → Forall (λ b, b < 256) (doubled quote l).
Proof.
  intros Hq. induction 1 as [|b l Hb Hl IH]; [constructor|]. cbn. apply Forall_app. split; [|exact IH].
  destruct (b =? quote); repeat constructor; done.
Qed.

Lemma escape_sql_bytes value : string_bytes (escape_sql value) = doubled 39 (string_bytes value).
Proof. apply bytes_of_string_of_bytes, doubled_small; [done|apply string_bytes_small]. Qed.

Lemma quote_identifier_bytes value :
  string_bytes (quote_identifier value) = 34 :: doubled 34 (string_bytes value) ++ [34].
Proof.
  unfold quote_identifier. rewrite !string_bytes_app. cbn [app]. f_equal. f_equal.
  apply bytes_of_string_of_bytes, doubled_small; [done|apply string_bytes_small].
Qed.

Module Quoting.

(** No name and no argument can change the meaning of a query. Wherever the tool places an
    argument between quotes, and wherever a table's name is quoted, PostgreSQL reads back exactly
    that text and goes on with the rest of the query. *)
Theorem sql_text_is_confined value rest :
  (head (string_bytes rest) ≠ Some 39 →
   scan_quoted 39 (string_bytes (escape_sql value ++ "'" ++ rest)%string) = Some (string_bytes value, string_bytes rest))
  ∧ (head (string_bytes rest) ≠ Some 34 →
     ∃ quoted, string_bytes (quote_identifier value ++ rest)%string = 34 :: quoted
               ∧ scan_quoted 34 quoted = Some (string_bytes value, string_bytes rest)).
Proof.
  rewrite !string_bytes_app, escape_sql_bytes, quote_identifier_bytes. split; intros Hr.
  - by apply scan_doubled.
  - exists (doubled 34 (string_bytes value) ++ 34 :: string_bytes rest).
    split; [|by apply scan_doubled]. cbn [app]. by rewrite <-app_assoc.
Qed.

Lemma sql_text_is_confined_witness :
  scan_quoted 39 (string_bytes (escape_sql "x' OR 'a'='a" ++ "'" ++ " LIMIT 5")%string)
  = Some (string_bytes "x' OR 'a'='a", string_bytes " LIMIT 5").
Proof. apply (proj1 (sql_text_is_confined "x' OR 'a'='a" " LIMIT 5")). discriminate. Defined.
End Quoting.
