(* ===== verification/AnalyticsReport.v ===== *)
(** * Analytics reports

  Models [src/src/analytics/report.rs] and [file_relay_report.rs]: the summaries that the operator's tool
  computes from the rows it read. Averages are IEEE 754 doubles. The counters are 64-bit sums
  of at most 32-bit values, one per row, and do not reach their limit. *)

From stdpp Require Import sorting.
From Stdlib Require Import SpecFloat.
From S2P Require Import Prelude Ids Text Descriptor Protocol StartSync Parse InputLimiter AnalyticsRows.
Open Scope N_scope.

Record SessionReport := mkSessionReport {
  rep_room_id : string;
  rep_invite_code : string;
  rep_session_epoch : N;
  rep_protocol_version : option N;
  rep_duration_ms : N;
  rep_event_count : N;
  rep_sample_count : N;
  rep_state_hash_matches : N;
  rep_frame_skew_events : N;
  rep_mismatch_diagnostics : N;
  rep_resyncs : N;
  rep_pauses : N;
  rep_reconnect_events : N;
  rep_player_exits : N;
  rep_avg_rtt_ms : option f64;
  rep_avg_jitter_ms : option f64;
  rep_max_abs_frame_delta : option N;
  rep_total_stalls : N;
  rep_total_catch_up_frames : N;
  rep_total_late_input_frames : N;
  rep_total_audio_underruns : N;
  rep_total_input_resend_frames : N;
  rep_total_input_nacks : N;
  rep_total_replayed_frames : N;
  rep_total_suppressed_audio_frames : N;
  rep_total_suppressed_video_frames : N;
  rep_max_audio_queue_depth_frames : option N;
  rep_total_audio_catch_up_events : N;
  rep_total_audio_trimmed_frames : N;
  rep_total_audio_rebuffer_events : N;
  rep_max_audio_consecutive_missing_frames : option N;
  rep_min_audio_queue_frames : option N;
  rep_max_audio_queue_frames : option N }.

#[export] Instance eta_SessionReport : Eta SessionReport := λ r, mkSessionReport (rep_room_id r)
    (rep_invite_code r) (rep_session_epoch r) (rep_protocol_version r) (rep_duration_ms r) (rep_event_count r)
    (rep_sample_count r) (rep_state_hash_matches r) (rep_frame_skew_events r) (rep_mismatch_diagnostics r)
    (rep_resyncs r) (rep_pauses r) (rep_reconnect_events r) (rep_player_exits r) (rep_avg_rtt_ms r)
    (rep_avg_jitter_ms r) (rep_max_abs_frame_delta r) (rep_total_stalls r) (rep_total_catch_up_frames r)
    (rep_total_late_input_frames r) (rep_total_audio_underruns r) (rep_total_input_resend_frames r)
    (rep_total_input_nacks r) (rep_total_replayed_frames r) (rep_total_suppressed_audio_frames r)
    (rep_total_suppressed_video_frames r) (rep_max_audio_queue_depth_frames r) (rep_total_audio_catch_up_events
    r) (rep_total_audio_trimmed_frames r) (rep_total_audio_rebuffer_events r)
    (rep_max_audio_consecutive_missing_frames r) (rep_min_audio_queue_frames r) (rep_max_audio_queue_frames r).
#[export] Instance set_rep_protocol_version : Setter rep_protocol_version.
Proof. derive_setter. Defined.
#[export] Instance set_rep_event_count : Setter rep_event_count.
Proof. derive_setter. Defined.
#[export] Instance set_rep_sample_count : Setter rep_sample_count.
Proof. derive_setter. Defined.
#[export] Instance set_rep_state_hash_matches : Setter rep_state_hash_matches.
Proof. derive_setter. Defined.
#[export] Instance set_rep_frame_skew_events : Setter rep_frame_skew_events.
Proof. derive_setter. Defined.
#[export] Instance set_rep_mismatch_diagnostics : Setter rep_mismatch_diagnostics.
Proof. derive_setter. Defined.
#[export] Instance set_rep_resyncs : Setter rep_resyncs.
Proof. derive_setter. Defined.
#[export] Instance set_rep_pauses : Setter rep_pauses.
Proof. derive_setter. Defined.
#[export] Instance set_rep_reconnect_events : Setter rep_reconnect_events.
Proof. derive_setter. Defined.
#[export] Instance set_rep_player_exits : Setter rep_player_exits.
Proof. derive_setter. Defined.
#[export] Instance set_rep_avg_rtt_ms : Setter rep_avg_rtt_ms.
Proof. derive_setter. Defined.
#[export] Instance set_rep_avg_jitter_ms : Setter rep_avg_jitter_ms.
Proof. derive_setter. Defined.
#[export] Instance set_rep_max_abs_frame_delta : Setter rep_max_abs_frame_delta.
Proof. derive_setter. Defined.
#[export] Instance set_rep_total_stalls : Setter rep_total_stalls.
Proof. derive_setter. Defined.
#[export] Instance set_rep_total_catch_up_frames : Setter rep_total_catch_up_frames.
Proof. derive_setter. Defined.
#[export] Instance set_rep_total_late_input_frames : Setter rep_total_late_input_frames.
Proof. derive_setter. Defined.
#[export] Instance set_rep_total_audio_underruns : Setter rep_total_audio_underruns.
Proof. derive_setter. Defined.
#[export] Instance set_rep_total_input_resend_frames : Setter rep_total_input_resend_frames.
Proof. derive_setter. Defined.
#[export] Instance set_rep_total_input_nacks : Setter rep_total_input_nacks.
Proof. derive_setter. Defined.
#[export] Instance set_rep_total_replayed_frames : Setter rep_total_replayed_frames.
Proof. derive_setter. Defined.
#[export] Instance set_rep_total_suppressed_audio_frames : Setter rep_total_suppressed_audio_frames.
Proof. derive_setter. Defined.
#[export] Instance set_rep_total_suppressed_video_frames : Setter rep_total_suppressed_video_frames.
Proof. derive_setter. Defined.
#[export] Instance set_rep_max_audio_queue_depth_frames : Setter rep_max_audio_queue_depth_frames.
Proof. derive_setter. Defined.
#[export] Instance set_rep_total_audio_catch_up_events : Setter rep_total_audio_catch_up_events.
Proof. derive_setter. Defined.
#[export] Instance set_rep_total_audio_trimmed_frames : Setter rep_total_audio_trimmed_frames.
Proof. derive_setter. Defined.
#[export] Instance set_rep_total_audio_rebuffer_events : Setter rep_total_audio_rebuffer_events.
Proof. derive_setter. Defined.
#[export] Instance set_rep_max_audio_consecutive_missing_frames : Setter rep_max_audio_consecutive_missing_frames.
Proof. derive_setter. Defined.
#[export] Instance set_rep_min_audio_queue_frames : Setter rep_min_audio_queue_frames.
Proof. derive_setter. Defined.
#[export] Instance set_rep_max_audio_queue_frames : Setter rep_max_audio_queue_frames.
Proof. derive_setter. Defined.

(** [SessionReport::default()] with the fields of the session. *)
Definition empty_report (s : SessionKey) : SessionReport := mkSessionReport (skey_room_id s) (skey_invite_code
    s) (skey_session_epoch s) None (skey_ended_ms s - skey_started_ms s) 0 0 0 0 0 0 0 0 0 None None None 0 0 0
    0 0 0 0 0 0 None 0 0 0 None None None.

Definition session_key (room_id : string) (session_epoch : N) : string :=
  (room_id ++ ":" ++ decimal session_epoch)%string.

(** [str::starts_with]. *)
Definition starts_with (prefix s : string) : bool := is_some (strip_prefix prefix s).

Definition or_version (o o' : option N) : option N := match o with Some v => Some v | None => o' end.

Definition add_event (e : EventRow) (r : SessionReport) : SessionReport :=
  let r := r <| rep_event_count ::= N.succ |> <| rep_protocol_version ::= λ v, or_version v (erow_protocol_version e) |> in
  let kind := erow_kind e in
  if kind ==? "stateHashMatched"%string then r <| rep_state_hash_matches ::= N.succ |>
  else if kind ==? "stateHashFrameSkewDiagnostic"%string then r <| rep_frame_skew_events ::= N.succ |>
  else if kind ==? "stateHashMismatchDiagnostic"%string then r <| rep_mismatch_diagnostics ::= N.succ |>
  else if (kind ==? "stateHashResyncRequired"%string) || (kind ==? "stateRecoveryCommitted"%string)
  then r <| rep_resyncs ::= N.succ |>
  else if kind ==? "playerExited"%string then r <| rep_player_exits ::= N.succ |>
  else if (kind ==? "recoveryStarted"%string) || (kind ==? "playerReconnected"%string)
          || (kind ==? "recoveryResyncRequired"%string)
  then r <| rep_reconnect_events ::= N.succ |>
  else if starts_with "pause" kind || starts_with "resume" kind then r <| rep_pauses ::= N.succ |>
  else r.

(** [Some(current.unwrap_or(0).max(value))] for a value that is present, and the minimum. *)
Definition fold_max (value current : option N) : option N :=
  match value with Some v => Some (N.max (unwrap_or current 0) v) | None => current end.
Definition fold_min (value current : option N) : option N :=
  match value with
  | Some v => Some (match current with Some c => N.min c v | None => v end)
  | None => current
  end.

Definition add_count (value : option N) (total : N) : N := total + unwrap_or value 0.

Definition add_sample (s : SampleRow) (r : SessionReport) : SessionReport :=
  r <| rep_sample_count ::= N.succ |>
    <| rep_protocol_version ::= λ v, or_version v (srow_protocol_version s) |>
    <| rep_total_stalls ::= add_count (srow_stall_count s) |>
    <| rep_total_catch_up_frames ::= add_count (srow_catch_up_frames s) |>
    <| rep_total_late_input_frames ::= add_count (srow_late_input_frames s) |>
    <| rep_total_audio_underruns ::= add_count (srow_audio_underruns s) |>
    <| rep_total_input_resend_frames ::= add_count (srow_input_resend_frames s) |>
    <| rep_total_input_nacks ::= add_count (srow_input_nacks s) |>
    <| rep_total_replayed_frames ::= add_count (srow_replayed_frames s) |>
    <| rep_total_suppressed_audio_frames ::= add_count (srow_suppressed_audio_frames s) |>
    <| rep_total_suppressed_video_frames ::= add_count (srow_suppressed_video_frames s) |>
    <| rep_max_audio_queue_depth_frames ::= fold_max (srow_audio_queue_depth_frames s) |>
    <| rep_total_audio_catch_up_events ::= add_count (srow_audio_catch_up_events s) |>
    <| rep_total_audio_trimmed_frames ::= add_count (srow_audio_trimmed_frames s) |>
    <| rep_total_audio_rebuffer_events ::= add_count (srow_audio_rebuffer_events s) |>
    <| rep_max_audio_consecutive_missing_frames ::= fold_max (srow_audio_max_consecutive_missing_frames s) |>
    <| rep_min_audio_queue_frames ::= fold_min (srow_audio_queue_min_frames s) |>
    <| rep_max_audio_queue_frames ::= fold_max (srow_audio_queue_max_frames s) |>
    <| rep_max_abs_frame_delta ::= fold_max (Z.abs_N <$> srow_frame_delta s) |>.

Record NumericAccumulator := mkNumericAccumulator { acc_total : N; acc_count : N }.
Record SessionAccumulator := mkSessionAccumulator { acc_rtt : NumericAccumulator; acc_jitter : NumericAccumulator }.
Definition SessionAccumulator_default : SessionAccumulator :=
  mkSessionAccumulator (mkNumericAccumulator 0 0) (mkNumericAccumulator 0 0).

Definition add_optional (value : option N) (a : NumericAccumulator) : NumericAccumulator :=
  match value with
  | Some v => mkNumericAccumulator (acc_total a + v) (acc_count a + 1)
  | None => a
  end.
Definition accumulator_average (a : NumericAccumulator) : option f64 :=
  if 0 <? acc_count a then Some (f64_div (f64_of_N (acc_total a)) (f64_of_N (acc_count a))) else None.

Definition accumulate (s : SampleRow) (a : SessionAccumulator) : SessionAccumulator :=
  mkSessionAccumulator (add_optional (srow_round_trip_ms s) (acc_rtt a)) (add_optional (srow_jitter_ms s) (acc_jitter a)).

Definition set_averages (a : SessionAccumulator) (r : SessionReport) : SessionReport :=
  r <| rep_avg_rtt_ms := accumulator_average (acc_rtt a) |> <| rep_avg_jitter_ms := accumulator_average (acc_jitter a) |>.

Definition key_of_session (s : SessionKey) : string := session_key (skey_room_id s) (skey_session_epoch s).
Definition key_of_event (e : EventRow) : string := session_key (erow_room_id e) (erow_session_epoch e).
Definition key_of_sample (s : SampleRow) : string := session_key (srow_room_id s) (srow_session_epoch s).

(** The body of the loop over the samples: [entry(key).or_default()] after the report is found. *)
Definition add_sample_to (state : gmap string SessionReport * gmap string SessionAccumulator) (s : SampleRow)
    : gmap string SessionReport * gmap string SessionAccumulator :=
  let '(reports, accumulators) := state in
  let key := key_of_sample s in
  match reports !! key with
  | None => (reports, accumulators)
  | Some report =>
      (<[key := add_sample s report]> reports,
       <[key := accumulate s (unwrap_or (accumulators !! key) SessionAccumulator_default)]> accumulators)
  end.

(** [filter_map] with [reports.remove]. *)
Fixpoint take_reports (sessions : list SessionKey) (reports : gmap string SessionReport) : list SessionReport :=
  match sessions with
  | [] => []
  | s :: sessions =>
      match reports !! key_of_session s with
      | Some report => report :: take_reports sessions (delete (key_of_session s) reports)
      | None => take_reports sessions reports
      end
  end.

Definition build_session_reports (sessions : list SessionKey) (events : list EventRow) (samples : list SampleRow)
    : list SessionReport :=
  let reports := foldl (λ reports s, <[key_of_session s := empty_report s]> reports) ∅ sessions in
  let reports := foldl (λ reports e, alter (add_event e) (key_of_event e) reports) reports events in
  let '(reports, accumulators) := foldl add_sample_to (reports, ∅) samples in
  let reports := map_fold (λ key a reports, alter (set_averages a) key reports) reports accumulators in
  take_reports sessions reports.

(** ** The fleet *)

(** The arithmetic mean, summed in order. *)
Definition average (values : list f64) : option f64 :=
  match values with
  | [] => None
  | _ => Some (f64_div (foldl f64_add (f64_of_N 0) values) (f64_of_N (N.of_nat (length values))))
  end.

(** The order of [f64::total_cmp]: by sign, then by exponent and mantissa. *)
Definition total_key (x : f64) : Z :=
  let magnitude :=
    match x with
    | S754_zero _ => 0
    | S754_finite _ m e => (e + 1074) * 2 ^ 53 + Z.pos m
    | S754_infinity _ => 2 ^ 64
    | S754_nan => 2 ^ 65
    end%Z in
  match x with
  | S754_zero true | S754_finite true _ _ | S754_infinity true => (- 1 - magnitude)%Z
  | _ => magnitude
  end.
Definition total_le (x y : f64) : Prop := (total_key x <= total_key y)%Z.
#[export] Instance total_le_dec x y : Decision (total_le x y).
Proof. unfold total_le. apply _. Defined.

(** [x.round() as usize] for a positive [x]: half away from zero. *)
Definition round_to_N (x : f64) : N :=
  match x with
  | S754_finite false m e =>
      if (0 <=? e)%Z then Z.to_N (Z.pos m * 2 ^ e)
      else Z.to_N ((Z.pos m + 2 ^ (- e - 1)) / 2 ^ (- e))
  | _ => 0
  end.

(** The double nearest to 0.95. *)
Definition F64_095 : f64 := S754_finite false 8556839292003942 (-53).

Definition percentile (values : list f64) (p : f64) : option f64 :=
  match values with
  | [] => None
  | _ =>
      let values := merge_sort total_le values in
      values !! N.to_nat (round_to_N (f64_mul (f64_of_N (N.of_nat (length values) - 1)) p))
  end.

Record FleetReport := mkFleetReport {
  fleet_session_count : N;
  fleet_protocol_v4_sessions : N;
  fleet_protocol_v5_sessions : N;
  fleet_unknown_protocol_sessions : N;
  fleet_avg_session_duration_ms : f64;
  fleet_sessions_with_resync : N;
  fleet_sessions_with_reconnect : N;
  fleet_avg_session_rtt_ms : option f64;
  fleet_p95_session_rtt_ms : option f64;
  fleet_avg_session_jitter_ms : option f64;
  fleet_max_frame_delta_seen : option N;
  fleet_total_resyncs : N;
  fleet_total_state_hash_matches : N;
  fleet_total_mismatch_diagnostics : N;
  fleet_total_frame_skew_events : N;
  fleet_total_stalls : N;
  fleet_total_catch_up_frames : N;
  fleet_total_late_input_frames : N;
  fleet_total_audio_underruns : N;
  fleet_total_input_resend_frames : N;
  fleet_total_input_nacks : N;
  fleet_total_replayed_frames : N;
  fleet_total_suppressed_audio_frames : N;
  fleet_total_suppressed_video_frames : N;
  fleet_max_audio_queue_depth_frames : option N;
  fleet_total_audio_catch_up_events : N;
  fleet_total_audio_trimmed_frames : N;
  fleet_total_audio_rebuffer_events : N;
  fleet_max_audio_consecutive_missing_frames : option N;
  fleet_min_audio_queue_frames : option N;
  fleet_max_audio_queue_frames : option N }.

(** [Iterator::max] and [Iterator::min]. *)
Definition max_of (l : list N) : option N := match l with [] => None | n :: l => Some (foldl N.max n l) end.
Definition min_of (l : list N) : option N := match l with [] => None | n :: l => Some (foldl N.min n l) end.
Definition sum_of (l : list N) : N := foldl N.add 0 l.
Definition count_if {A} (p : A → bool) (l : list A) : N := N.of_nat (length (List.filter p l)).

Definition FleetReport_default : FleetReport := mkFleetReport 0 0 0 0 (f64_of_N 0) 0 0 None None None None 0 0 0
    0 0 0 0 0 0 0 0 0 0 None 0 0 0 None None None.

Definition build_fleet_report (sessions : list SessionReport) : FleetReport :=
  match sessions with
  | [] => FleetReport_default
  | _ =>
      let avg_rtts := omap rep_avg_rtt_ms sessions in
      mkFleetReport
        (N.of_nat (length sessions))
        (count_if (λ r, rep_protocol_version r ==? Some 4) sessions)
        (count_if (λ r, rep_protocol_version r ==? Some 5) sessions)
        (count_if (λ r, is_none (rep_protocol_version r)) sessions)
        (unwrap_or (average ((λ r, f64_of_N (rep_duration_ms r)) <$> sessions)) (f64_of_N 0))
        (count_if (λ r, 0 <? rep_resyncs r) sessions)
        (count_if (λ r, 0 <? rep_reconnect_events r) sessions)
        (average avg_rtts)
        (percentile avg_rtts F64_095)
        (average (omap rep_avg_jitter_ms sessions))
        (max_of (omap rep_max_abs_frame_delta sessions))
        (sum_of (rep_resyncs <$> sessions))
        (sum_of (rep_state_hash_matches <$> sessions))
        (sum_of (rep_mismatch_diagnostics <$> sessions))
        (sum_of (rep_frame_skew_events <$> sessions))
        (sum_of (rep_total_stalls <$> sessions))
        (sum_of (rep_total_catch_up_frames <$> sessions))
        (sum_of (rep_total_late_input_frames <$> sessions))
        (sum_of (rep_total_audio_underruns <$> sessions))
        (sum_of (rep_total_input_resend_frames <$> sessions))
        (sum_of (rep_total_input_nacks <$> sessions))
        (sum_of (rep_total_replayed_frames <$> sessions))
        (sum_of (rep_total_suppressed_audio_frames <$> sessions))
        (sum_of (rep_total_suppressed_video_frames <$> sessions))
        (max_of (omap rep_max_audio_queue_depth_frames sessions))
        (sum_of (rep_total_audio_catch_up_events <$> sessions))
        (sum_of (rep_total_audio_trimmed_frames <$> sessions))
        (sum_of (rep_total_audio_rebuffer_events <$> sessions))
        (max_of (omap rep_max_audio_consecutive_missing_frames sessions))
        (min_of (omap rep_min_audio_queue_frames sessions))
        (max_of (omap rep_max_audio_queue_frames sessions))
  end.

(** ** file_relay_report.rs *)

Record FileRelayReport := mkFileRelayReport {
  frep_event_count : N;
  frep_transfer_count : N;
  frep_room_count : N;
  frep_rom_transfers : N;
  frep_save_state_transfers : N;
  frep_failed_events : N;
  frep_cancelled_events : N;
  frep_expired_events : N;
  frep_completed_transfers : N;
  frep_total_size_bytes : N }.

(** The sets and maps that the loop fills; [entry(..).or_insert(..)] keeps the first size. *)
Definition file_relay_statuses (events : list FileRelayEventRow) : gmap string string :=
  foldl (λ m e, <[frow_transfer_id e := frow_status e]> m) ∅ events.
Definition file_relay_sizes (events : list FileRelayEventRow) : gmap string N :=
  foldl (λ m e, match m !! frow_transfer_id e with Some _ => m | None => <[frow_transfer_id e := frow_size_bytes e]> m end)
    ∅ events.

Definition build_file_relay_report (events : list FileRelayEventRow) : FileRelayReport :=
  let transfer_ids := foldl (λ ids e, ids ∪ {[frow_transfer_id e]}) (∅ : gset string) events in
  let room_ids := foldl (λ ids e, ids ∪ {[frow_room_id e]}) (∅ : gset string) events in
  mkFileRelayReport (N.of_nat (length events)) (N.of_nat (size transfer_ids)) (N.of_nat (size room_ids))
    (count_if (λ e, (frow_kind e ==? "rom"%string) && (frow_phase e ==? "created"%string)) events)
    (count_if (λ e, (frow_kind e ==? "save-state"%string) && (frow_phase e ==? "created"%string)) events)
    (count_if (λ e, frow_status e ==? "failed"%string) events)
    (count_if (λ e, frow_status e ==? "cancelled"%string) events)
    (count_if (λ e, frow_status e ==? "expired"%string) events)
    (count_if (λ status, status ==? "complete"%string) (snd <$> map_to_list (file_relay_statuses events)))
    (sum_of (snd <$> map_to_list (file_relay_sizes events))).

(** ** What a report counts *)

(** The rows of one session. *)
Definition of_session {A} (room_id : A → string) (session_epoch : A → N) (s : SessionKey) (row : A) : bool :=
  (room_id row ==? skey_room_id s) && (session_epoch row =? skey_session_epoch s).
Definition events_of (s : SessionKey) : list EventRow → list EventRow :=
  List.filter (of_session erow_room_id erow_session_epoch s).
Definition samples_of (s : SessionKey) : list SampleRow → list SampleRow :=
  List.filter (of_session srow_room_id srow_session_epoch s).

Definition count_kinds (kinds : list string) (events : list EventRow) : N :=
  count_if (λ e, existsb (λ kind, erow_kind e ==? kind) kinds) events.

Definition mean_of (values : list N) : option f64 :=
  match values with
  | [] => None
  | _ => Some (f64_div (f64_of_N (sum_of values)) (f64_of_N (N.of_nat (length values))))
  end.

(** The report of a session, from its own rows alone: every field by its meaning. *)
Definition session_summary (s : SessionKey) (events : list EventRow) (samples : list SampleRow) : SessionReport :=
  mkSessionReport (skey_room_id s) (skey_invite_code s) (skey_session_epoch s)
    (head (omap erow_protocol_version events ++ omap srow_protocol_version samples))
    (skey_ended_ms s - skey_started_ms s)
    (N.of_nat (length events)) (N.of_nat (length samples))
    (count_kinds ["stateHashMatched"] events)
    (count_kinds ["stateHashFrameSkewDiagnostic"] events)
    (count_kinds ["stateHashMismatchDiagnostic"] events)
    (count_kinds ["stateHashResyncRequired"; "stateRecoveryCommitted"] events)
    (count_if (λ e, starts_with "pause" (erow_kind e) || starts_with "resume" (erow_kind e)) events)
    (count_kinds ["recoveryStarted"; "playerReconnected"; "recoveryResyncRequired"] events)
    (count_kinds ["playerExited"] events)
    (mean_of (omap srow_round_trip_ms samples)) (mean_of (omap srow_jitter_ms samples))
    (max_of (omap (λ row, Z.abs_N <$> srow_frame_delta row) samples))
    (sum_of (omap srow_stall_count samples))
    (sum_of (omap srow_catch_up_frames samples))
    (sum_of (omap srow_late_input_frames samples))
    (sum_of (omap srow_audio_underruns samples))
    (sum_of (omap srow_input_resend_frames samples))
    (sum_of (omap srow_input_nacks samples))
    (sum_of (omap srow_replayed_frames samples))
    (sum_of (omap srow_suppressed_audio_frames samples))
    (sum_of (omap srow_suppressed_video_frames samples))
    (max_of (omap srow_audio_queue_depth_frames samples))
    (sum_of (omap srow_audio_catch_up_events samples))
    (sum_of (omap srow_audio_trimmed_frames samples))
    (sum_of (omap srow_audio_rebuffer_events samples))
    (max_of (omap srow_audio_max_consecutive_missing_frames samples))
    (min_of (omap srow_audio_queue_min_frames samples)) (max_of (omap srow_audio_queue_max_frames samples)).

(** *** Closed forms of the folds *)

Lemma count_if_snoc {A} (p : A → bool) l a : count_if p (l ++ [a]) = if p a then N.succ (count_if p l) else count_if p l.
Proof. unfold count_if. rewrite List.filter_app, length_app. cbn. destruct (p a); cbn; lia. Qed.

Lemma sum_of_snoc l n : sum_of (l ++ [n]) = sum_of l + n.
Proof. unfold sum_of. by rewrite foldl_app. Qed.

Lemma max_of_snoc l n : max_of (l ++ [n]) = Some (N.max (unwrap_or (max_of l) 0) n).
Proof. destruct l as [|m l]; cbn; [by rewrite N.max_0_l|]. by rewrite foldl_app. Qed.

Lemma min_of_snoc l n : min_of (l ++ [n]) = Some (match min_of l with Some c => N.min c n | None => n end).
Proof. destruct l as [|m l]; cbn; [done|]. by rewrite foldl_app. Qed.

Section snoc.
Context {A : Type} (f : A → option N) (l : list A) (a : A).
Lemma sum_step : sum_of (omap f (l ++ [a])) = add_count (f a) (sum_of (omap f l)).
Proof. rewrite omap_app. cbn. unfold add_count. destruct (f a); cbn; rewrite ?app_nil_r, ?sum_of_snoc; [done|by rewrite N.add_0_r]. Qed.
Lemma max_step : max_of (omap f (l ++ [a])) = fold_max (f a) (max_of (omap f l)).
Proof. rewrite omap_app. cbn. destruct (f a); cbn; by rewrite ?app_nil_r, ?max_of_snoc. Qed.
Lemma min_step : min_of (omap f (l ++ [a])) = fold_min (f a) (min_of (omap f l)).
Proof. rewrite omap_app. cbn. destruct (f a); cbn; by rewrite ?app_nil_r, ?min_of_snoc. Qed.
Lemma head_step (l0 : list N) :
  head (l0 ++ omap f (l ++ [a])) = or_version (head (l0 ++ omap f l)) (f a).
Proof.
  rewrite omap_app, app_assoc. cbn. destruct (l0 ++ omap f l) as [|v l']; [|done]. by destruct (f a).
Qed.
End snoc.

Lemma length_snoc_N {A} (l : list A) a : N.of_nat (length (l ++ [a])) = N.succ (N.of_nat (length l)).
Proof. rewrite length_app. cbn. lia. Qed.

(** The report before the averages are set. *)
Definition without_averages (r : SessionReport) : SessionReport := r <| rep_avg_rtt_ms := None |> <| rep_avg_jitter_ms := None |>.

Lemma add_event_fold s events :
  foldl (flip add_event) (empty_report s) events = session_summary s events [].
Proof.
  induction events as [|e events IH] using rev_ind; [done|]. rewrite foldl_app. cbn [foldl flip]. rewrite IH.
  unfold session_summary, count_kinds. rewrite !count_if_snoc, length_snoc_N. cbn [omap list_omap].
  rewrite !app_nil_r.
  assert (head (omap erow_protocol_version (events ++ [e])) =
          or_version (head (omap erow_protocol_version events)) (erow_protocol_version e)) as ->
    by (exact (head_step erow_protocol_version events e [])).
  unfold add_event. cbn [existsb orb]. rewrite !orb_false_r.
  repeat match goal with
  | |- context [bool_decide (erow_kind e = ?k)] =>
      destruct (bool_decide_reflect (erow_kind e = k)) as [->|?]; cbn [orb]; [reflexivity|]
  end.
  by destruct (starts_with "pause" (erow_kind e)), (starts_with "resume" (erow_kind e)).
Qed.

Lemma add_sample_fold s events samples :
  foldl (flip add_sample) (session_summary s events []) samples = without_averages (session_summary s events samples).
Proof.
  induction samples as [|row samples IH] using rev_ind; [done|]. rewrite foldl_app. cbn [foldl flip]. rewrite IH.
  unfold session_summary. rewrite !sum_step, !max_step, !min_step, head_step, length_snoc_N. reflexivity.
Qed.

Lemma accumulate_fold samples :
  foldl (flip accumulate) SessionAccumulator_default samples =
  mkSessionAccumulator
    (mkNumericAccumulator (sum_of (omap srow_round_trip_ms samples)) (N.of_nat (length (omap srow_round_trip_ms samples))))
    (mkNumericAccumulator (sum_of (omap srow_jitter_ms samples)) (N.of_nat (length (omap srow_jitter_ms samples)))).
Proof.
  induction samples as [|row samples IH] using rev_ind; [done|]. rewrite foldl_app. cbn [foldl flip]. rewrite IH.
  unfold accumulate, add_optional. cbn [acc_rtt acc_jitter acc_total acc_count]. rewrite !sum_step, !omap_app. cbn.
  unfold add_count. rewrite !length_app.
  destruct (srow_round_trip_ms row), (srow_jitter_ms row); cbn; f_equal; f_equal; lia.
Qed.

Lemma accumulator_average_mean values :
  accumulator_average (mkNumericAccumulator (sum_of values) (N.of_nat (length values))) = mean_of values.
Proof. by destruct values. Qed.

(** *** The keys of sessions *)

Lemma suffix_after_colon (l1 l2 d1 d2 : list N) :
  58 ∉ d1 → 58 ∉ d2 → l1 ++ 58 :: d1 = l2 ++ 58 :: d2 → l1 = l2 ∧ d1 = d2.
Proof.
  intros H1 H2. revert l2. induction l1 as [|b l1 IH]; intros [|b' l2]; cbn; intros E; injection E as E; subst.
  - done.
  - destruct H1. apply elem_of_app. right. apply elem_of_cons. by left.
  - destruct H2. apply elem_of_app. right. apply elem_of_cons. by left.
  - match goal with H : l1 ++ _ = _ |- _ => by destruct (IH l2 H) as [-> ->] end.
Qed.

Lemma no_colon n : 58 ∉ decimal_digits 20 n.
Proof. intros H. pose proof (proj1 (Forall_forall _ _) (decimal_digits_ascii 20 n) 58 H). done. Qed.

Lemma session_key_inj r1 e1 r2 e2 :
  e1 <= u64_max → e2 <= u64_max → session_key r1 e1 = session_key r2 e2 → r1 = r2 ∧ e1 = e2.
Proof.
  intros H1 H2 E. apply (f_equal string_bytes) in E. unfold session_key in E. rewrite !string_bytes_app, !decimal_bytes in E.
  apply suffix_after_colon in E as [Er Ee]; [|apply no_colon..]. split; [by apply string_bytes_inj|].
  assert (∀ n, n <= u64_max → n < 10 ^ N.of_nat 20) as Hf by (intros; unfold u64_max in *; cbn; lia).
  pose proof (decimal_digits_value u64_max 20 e1 H1 (Hf _ H1)) as V1.
  pose proof (decimal_digits_value u64_max 20 e2 H2 (Hf _ H2)) as V2. congruence.
Qed.

(** Epochs are [u64] values. *)
Definition epochs_typed (sessions : list SessionKey) (events : list EventRow) (samples : list SampleRow) : Prop :=
  Forall (λ s, skey_session_epoch s <= u64_max) sessions ∧ Forall (λ e, erow_session_epoch e <= u64_max) events
  ∧ Forall (λ s, srow_session_epoch s <= u64_max) samples.

Lemma filter_key_of_session {A} (room_id : A → string) (epoch : A → N) s rows :
  skey_session_epoch s <= u64_max → Forall (λ r, epoch r <= u64_max) rows →
  List.filter (λ r, session_key (room_id r) (epoch r) ==? key_of_session s) rows
  = List.filter (of_session room_id epoch s) rows.
Proof.
  intros Hs. induction 1 as [|r rows Hr Hrows IH]; [done|]. cbn [List.filter]. rewrite IH.
  replace (session_key (room_id r) (epoch r) ==? key_of_session s) with (of_session room_id epoch s r); [done|].
  unfold of_session. destruct (bool_decide_reflect (session_key (room_id r) (epoch r) = key_of_session s)) as [E|E].
  - apply session_key_inj in E as [-> ->]; [|done..]. by rewrite bool_decide_true, N.eqb_refl by done.
  - destruct (bool_decide_reflect (room_id r = skey_room_id s)) as [Er|]; [|done].
    destruct (N.eqb_spec (epoch r) (skey_session_epoch s)) as [Ee|]; [|done].
    destruct E. unfold key_of_session. by rewrite Er, Ee.
Qed.

(** *** The loops over maps *)

Lemma fold_alter_lookup {R V} (f : R → V → V) (key : R → string) (rows : list R) (m : gmap string V) k :
  foldl (λ m r, alter (f r) (key r) m) m rows !! k
  = (λ v, foldl (flip f) v (List.filter (λ r, key r ==? k) rows)) <$> m !! k.
Proof.
  revert m. induction rows as [|r rows IH]; intros m; cbn; [by rewrite option_fmap_id|].
  rewrite IH. destruct (bool_decide_reflect (key r = k)) as [<-|Hne].
  - rewrite lookup_alter_eq. by destruct (m !! key r).
  - by rewrite lookup_alter_ne.
Qed.

Lemma fold_sample_lookup samples reports accs k :
  let rows := List.filter (λ r, key_of_sample r ==? k) samples in
  let '(reports', accs') := foldl add_sample_to (reports, accs) samples in
  reports' !! k = (λ v, foldl (flip add_sample) v rows) <$> reports !! k
  ∧ accs' !! k = match reports !! k, rows with
                 | Some _, _ :: _ => Some (foldl (flip accumulate) (unwrap_or (accs !! k) SessionAccumulator_default) rows)
                 | _, _ => accs !! k
                 end.
Proof.
  revert reports accs. induction samples as [|row samples IH]; intros reports accs; cbn [foldl List.filter].
  { split; [by destruct (reports !! k)|by destruct (reports !! k)]. }
  unfold add_sample_to at 2. destruct (reports !! key_of_sample row) as [report|] eqn:E.
  - specialize (IH (<[key_of_sample row := add_sample row report]> reports)
      (<[key_of_sample row := accumulate row (unwrap_or (accs !! key_of_sample row) SessionAccumulator_default)]> accs)).
    destruct (foldl add_sample_to _ samples) as [reports' accs']. destruct IH as [-> ->].
    destruct (bool_decide_reflect (key_of_sample row = k)) as [<-|Hne].
    + rewrite !lookup_insert_eq, E. split; [done|]. by destruct (List.filter _ samples).
    + by rewrite !lookup_insert_ne by done.
  - specialize (IH reports accs). destruct (foldl add_sample_to _ samples) as [reports' accs']. destruct IH as [-> ->].
    destruct (bool_decide_reflect (key_of_sample row = k)) as [<-|Hne]; [by rewrite E|done].
Qed.

Lemma fold_averages_lookup {V W} (f : W → V → V) (m : gmap string V) (accs : gmap string W) k :
  map_fold (λ key a m, alter (f a) key m) m accs !! k
  = match accs !! k with Some a => f a <$> m !! k | None => m !! k end.
Proof.
  revert k. apply (map_fold_weak_ind (λ r accs, ∀ k, r !! k = match accs !! k with Some a => f a <$> m !! k | None => m !! k end));
    [intros k; by rewrite lookup_empty|].
  intros key a accs' r Hnone IH k. destruct (decide (k = key)) as [->|Hne].
  - rewrite lookup_alter_eq, lookup_insert_eq, IH, Hnone. done.
  - rewrite lookup_alter_ne, lookup_insert_ne by done. apply IH.
Qed.

Lemma fold_insert_lookup {A V} (key : A → string) (f : A → V) (l : list A) (m : gmap string V) a :
  NoDup (key <$> l) → a ∈ l → foldl (λ m a, <[key a := f a]> m) m l !! key a = Some (f a).
Proof.
  revert m. induction l as [|b l IH]; intros m Hnd Hin; [by apply elem_of_nil in Hin|].
  rewrite fmap_cons in Hnd. apply NoDup_cons in Hnd as [Hb Hnd]. cbn [foldl].
  apply elem_of_cons in Hin as [->|Hin]; [|by apply IH].
  enough (∀ l (m : gmap string V), key b ∉ key <$> l → foldl (λ m a, <[key a := f a]> m) m l !! key b = m !! key b) as Hkeep
    by (rewrite Hkeep by done; apply lookup_insert_eq).
  clear. induction l as [|c l IH]; intros m Hn; [done|]. cbn in *. apply not_elem_of_cons in Hn as [Hc Hl].
  rewrite IH by done. by rewrite lookup_insert_ne by done.
Qed.

Lemma take_reports_all sessions reports (g : SessionKey → SessionReport) :
  NoDup (key_of_session <$> sessions) → (∀ s, s ∈ sessions → reports !! key_of_session s = Some (g s)) →
  take_reports sessions reports = g <$> sessions.
Proof.
  revert reports. induction sessions as [|s sessions IH]; intros reports Hnd Hg; [done|].
  rewrite fmap_cons in Hnd. apply NoDup_cons in Hnd as [Hs Hnd]. cbn [take_reports].
  rewrite Hg by (apply elem_of_cons; by left). cbn. f_equal. apply IH; [done|].
  intros s' Hs'. rewrite lookup_delete_ne; [apply Hg, elem_of_cons; by right|].
  intros E. apply Hs. rewrite E. by apply list_elem_of_fmap_2.
Qed.

Lemma sessions_no_dup sessions :
  Forall (λ s, skey_session_epoch s <= u64_max) sessions →
  NoDup ((λ s, (skey_room_id s, skey_session_epoch s)) <$> sessions) → NoDup (key_of_session <$> sessions).
Proof.
  induction 1 as [|s sessions Hs Hall IH]; [constructor|]. rewrite !fmap_cons, !NoDup_cons. intros [Hn Hnd]. split; [|by apply IH].
  intros (s' & E & Hin)%list_elem_of_fmap. apply Hn. unfold key_of_session in E.
  pose proof (proj1 (Forall_forall _ _) Hall s' Hin) as Hs'. cbn in Hs'.
  apply session_key_inj in E as [-> ->]; [|done..]. apply list_elem_of_fmap. by exists s'.
Qed.

Module Reports.

(** C38: a session's report counts that session's rows, all of them and no others. When the
    sessions are distinct, the tool's report is, in the order of the sessions, the summary of
    each one from its own events and samples: every counter is the number of its kind of event or the
    sum over the samples that carry a value, every extreme is over those samples, the averages are
    over the values that were present, and the protocol is the first one recorded. The textual key
    that indexes the tables never confuses two sessions. *)
Theorem reports_are_exact sessions events samples :
  NoDup ((λ s, (skey_room_id s, skey_session_epoch s)) <$> sessions) → epochs_typed sessions events samples →
  build_session_reports sessions events samples =
  (λ s, session_summary s (events_of s events) (samples_of s samples)) <$> sessions.
Proof.
  intros Hnd (Hs & He & Hsm). pose proof (sessions_no_dup _ Hs Hnd) as Hkeys. unfold build_session_reports.
  set (r0 := foldl (λ reports s, <[key_of_session s := empty_report s]> reports) ∅ sessions).
  set (r1 := foldl (λ reports e, alter (add_event e) (key_of_event e) reports) r0 events).
  destruct (foldl add_sample_to (r1, ∅) samples) as [r2 accs] eqn:E2.
  apply take_reports_all; [done|]. intros s Hin.
  pose proof (fold_sample_lookup samples r1 ∅ (key_of_session s)) as H2. cbv zeta in H2. rewrite E2 in H2.
  destruct H2 as [H2 Ha]. unfold r1 in H2, Ha. rewrite fold_alter_lookup in H2, Ha. unfold r0 in H2, Ha.
  rewrite fold_insert_lookup in H2, Ha by done. cbn [fmap option_fmap option_map] in H2, Ha.
  pose proof (proj1 (Forall_forall _ _) Hs s Hin) as Hse.
  unfold key_of_event, key_of_sample in H2, Ha. rewrite (filter_key_of_session erow_room_id erow_session_epoch) in H2 by done.
  rewrite (filter_key_of_session srow_room_id srow_session_epoch) in H2, Ha by done.
  fold (events_of s events) (samples_of s samples) in H2, Ha.
  rewrite add_event_fold, add_sample_fold in H2. rewrite fold_averages_lookup, Ha, H2, lookup_empty.
  destruct (samples_of s samples) as [|row rows] eqn:Er; [done|].
  cbn [unwrap_or default from_option]. rewrite accumulate_fold. cbn [fmap option_fmap option_map]. f_equal.
  unfold set_averages. cbn [acc_rtt acc_jitter]. by rewrite !accumulator_average_mean.
Qed.

Definition sample_session : SessionKey := mkSessionKey "room" 2 "AB23-CD" 100 350.
Definition sample_events : list EventRow :=
  [mkEventRow 120 "room" "AB23-CD" 1 1 2 (Some 5) "stateHashMatched" ""; mkEventRow 130 "room" "AB23-CD" 2 1 2 None "pauseRequested" "";
   mkEventRow 140 "other" "EF45-GH" 1 1 2 (Some 4) "stateHashMatched" ""].

Lemma reports_are_exact_witness :
  build_session_reports [sample_session] sample_events [] = [session_summary sample_session (events_of sample_session sample_events) []]
  ∧ rep_event_count (session_summary sample_session (events_of sample_session sample_events) []) = 2
  ∧ rep_pauses (session_summary sample_session (events_of sample_session sample_events) []) = 1.
Proof.
  split; [|split; reflexivity]. apply (reports_are_exact [sample_session] sample_events []).
  - repeat constructor. apply not_elem_of_nil.
  - split_and!; repeat constructor; vm_compute; discriminate.
Defined.
End Reports.

(** The rows of a transfer arrive newest first ([ORDER BY timestamp_ms DESC]), and the loop keeps
    the last status it sees: the oldest. *)
Definition transfer_rows : list FileRelayEventRow :=
  let row time phase status := mkFileRelayEventRow time "tx_1" "room-1" "rom" phase status 10 10 10 None 1 "" in
  [row 20 "downloadChunkServed" "complete"; row 10 "created" "created"]%string.

Example completion_is_forgotten :
  frep_completed_transfers (build_file_relay_report transfer_rows) = 0
  ∧ frep_completed_transfers (build_file_relay_report (rev transfer_rows)) = 1.
Proof. split; reflexivity. Qed.

(** In general the status that is kept is the one of the last row in the list. *)
Lemma kept_status_is_the_last events e :
  file_relay_statuses (events ++ [e]) !! frow_transfer_id e = Some (frow_status e).
Proof. unfold file_relay_statuses. rewrite foldl_app. cbn. apply lookup_insert_eq. Qed.

