(* ===== verification/AnalyticsTool.v ===== *)
(** * The operator's tool

  Models [src/src/analytics/config.rs], [live.rs] and the commands of [cli.rs]: how the tool finds its
  database and its relay, which request of the relay a command stands for, and which rows
  it reads. [env::var], the parsers of URLs and the database are arguments; printing is not modelled. *)

From Stdlib Require Import Ascii.
From S2P Require Import Prelude Ids Text Descriptor Protocol Invite StartSync Lobby Parse Config TelemetryRows AnalyticsRows AnalyticsReport.
Open Scope N_scope.

(** ** config.rs *)

Record AnalyticsConfig := mkAnalyticsConfig {
  analytics_dsn : PostgresDsn;
  analytics_tables : PostgresTableNames;
  file_relay_transfer_events_table : string }.

Inductive AnalyticsConfigError := MissingDsn | InvalidDsn.

(** [env::var(name).ok().filter(|value| !value.trim().is_empty())]. *)
Definition tool_env (var : string → option string) (name : string) : option string :=
  match var name with Some value => if is_blank value then None else Some value | None => None end.

Definition or_env (o o' : option string) : option string := match o with Some v => Some v | None => o' end.

Definition AnalyticsConfig_from_env (var : string → option string) (url_parse : string → option Url)
    : result AnalyticsConfigError AnalyticsConfig :=
  url ← ok_or (var "SB_NETPLAY_POSTGRES_URL"%string) MissingDsn;
  dsn ← map_err (PostgresDsn_parse url_parse url) (λ _, InvalidDsn);
  let legacy := tool_env var "SB_NETPLAY_POSTGRES_TABLE" in
  let tables := mkPostgresTableNames
    (unwrap_or (or_env (tool_env var "SB_NETPLAY_POSTGRES_EVENTS_TABLE") legacy) "netplay_room_events"%string)
    (unwrap_or (tool_env var "SB_NETPLAY_POSTGRES_LOBBY_EVENTS_TABLE") "netplay_lobby_events"%string)
    (unwrap_or (tool_env var "SB_NETPLAY_POSTGRES_PERFORMANCE_TABLE") "netplay_performance_samples"%string) in
  let relay := unwrap_or (or_env (tool_env var "SB_FILE_RELAY_POSTGRES_TRANSFER_EVENTS_TABLE")
                            (tool_env var "SB_NETPLAY_POSTGRES_FILE_RELAY_TABLE")) "file_relay_transfer_events"%string in
  Ok (mkAnalyticsConfig dsn tables relay).

(** ** live.rs *)

Definition DEFAULT_RELAY_BASE_URL : string := "https://netplay.shadowboy.app".

Record LiveDiagnosticsConfig := mkLiveDiagnosticsConfig { live_admin_token : string; relay_base_url : string }.

(** [None] is [LiveDiagnosticsConfigError::MissingToken]. *)
Definition LiveDiagnosticsConfig_from_env (var : string → option string) : option LiveDiagnosticsConfig :=
  token ← tool_env var "SB_NETPLAY_ADMIN_TOKEN";
  let base := unwrap_or (or_env (tool_env var "SB_NETPLAY_LIVE_URL") (tool_env var "SERVICE_URL_NETPLAY"))
                DEFAULT_RELAY_BASE_URL in
  Some (mkLiveDiagnosticsConfig token (trim_end_slashes base)).

Definition bounded_limit (limit : N) : N := clamp limit 1 500.

(** [value.trim().replace(' ', "").to_ascii_uppercase()]. *)
Definition encode_path (value : string) : string :=
  string_of_bytes (byte_to_upper <$> List.filter (λ b, negb (b =? 32)) (string_bytes (trim_str value))).

Inductive LiveQuery :=
| LiveMetrics
| LiveRooms
| LiveLobbies
| LiveRoom (invite_code : string)
| LiveLobby (invite_code : string)
| LiveRecentEvents (limit : N)
| LiveRecentLobbyEvents (limit : N)
| LiveRoomEvents (invite_code : string) (limit : N)
| LiveLobbyEvents (invite_code : string) (limit : N).

(** The path and query that [get_json] appends to the base URL. *)
Definition live_path (q : LiveQuery) : string :=
  match q with
  | LiveMetrics => "/internal/metrics"
  | LiveRooms => "/internal/rooms"
  | LiveLobbies => "/internal/lobbies"
  | LiveRoom code => "/internal/rooms/" ++ encode_path code
  | LiveLobby code => "/internal/lobbies/" ++ encode_path code
  | LiveRecentEvents limit => "/internal/recent-events?limit=" ++ decimal (bounded_limit limit)
  | LiveRecentLobbyEvents limit => "/internal/recent-lobby-events?limit=" ++ decimal (bounded_limit limit)
  | LiveRoomEvents code limit => "/internal/rooms/" ++ encode_path code ++ "/events?limit=" ++ decimal (bounded_limit limit)
  | LiveLobbyEvents code limit => "/internal/lobbies/" ++ encode_path code ++ "/events?limit=" ++ decimal (bounded_limit limit)
  end%string.

Definition live_url (config : LiveDiagnosticsConfig) (q : LiveQuery) : string := (relay_base_url config ++ live_path q)%string.

(** ** cli.rs *)

(** [args.windows(2).find(|window| window[0] == name)]. *)
Fixpoint option_string (args : list string) (name : string) : option string :=
  match args with
  | first :: (second :: _) as args => if first ==? name then Some second else option_string args name
  | _ => None
  end.
Definition option_usize (args : list string) (name : string) : option N := option_string args name ≫= parse_unsigned u64_max.

Inductive CliError := OptionRequired (name : string) | CliQuery (e : QueryError) | CliDatabase.
Definition required_option (args : list string) (name : string) : result CliError string :=
  ok_or (option_string args name) (OptionRequired name).

(** [run_live]: the request a command stands for; [None] prints the help. *)
Definition run_live (args : list string) : result CliError (option LiveQuery) :=
  match args !! 1%nat with
  | Some command =>
      if command ==? "metrics"%string then Ok (Some LiveMetrics)
      else if command ==? "rooms"%string then Ok (Some LiveRooms)
      else if command ==? "lobbies"%string then Ok (Some LiveLobbies)
      else if command ==? "room"%string then code ← required_option args "--invite"; Ok (Some (LiveRoom code))
      else if command ==? "lobby"%string then code ← required_option args "--invite"; Ok (Some (LiveLobby code))
      else if command ==? "events"%string then
        let limit := unwrap_or (option_usize args "--limit") 100 in
        Ok (Some (match option_string args "--invite" with
                  | Some code => LiveRoomEvents code limit
                  | None => LiveRecentEvents limit
                  end))
      else if command ==? "lobby-events"%string then
        let limit := unwrap_or (option_usize args "--limit") 100 in
        Ok (Some (match option_string args "--invite" with
                  | Some code => LiveLobbyEvents code limit
                  | None => LiveRecentLobbyEvents limit
                  end))
      else Ok None
  | None => Ok None
  end.

Section database.
Context (simple_query : string → option (list SimpleQueryMessage)) (tables : PostgresTableNames) (relay_table : string).

Definition queried {A} (r : result QueryError A) : result CliError A := map_err r CliQuery.

(** The ["report"] command up to its printing. *)
Definition run_report (args : list string) : result CliError (FleetReport * list SessionReport) :=
  sessions ← queried (recent_sessions simple_query tables (unwrap_or (option_usize args "--limit") 25));
  events ← queried (events_for_sessions simple_query tables sessions);
  samples ← queried (samples_for_sessions simple_query tables sessions);
  let reports := build_session_reports sessions events samples in
  Ok (build_fleet_report reports, reports).

(** The sessions that [run_raw] prints. *)
Definition raw_sessions (args : list string) : result CliError (list SessionKey) :=
  match args !! 1%nat with
  | Some command =>
      if command ==? "recent"%string then
        queried (recent_sessions simple_query tables (unwrap_or (option_usize args "--limit") 5))
      else if command ==? "session"%string then
        match option_string args "--room" with
        | None => Err (OptionRequired "--room")
        | Some room_id =>
            match option_usize args "--epoch" with
            | Some epoch => Ok [mkSessionKey room_id epoch "" 0 0]
            | None => queried (sessions_for_room simple_query tables room_id (unwrap_or (option_usize args "--limit") 25))
            end
        end
      else Ok []
  | None => Ok []
  end.

Definition run_lobby_events (args : list string) : result CliError (list LobbyEventRow) :=
  let limit := unwrap_or (option_usize args "--limit") 100 in
  queried (match option_string args "--invite" with
           | Some code => lobby_events_for_invite simple_query tables code limit
           | None => recent_lobby_events simple_query tables limit
           end).

Definition run_file_relay (args : list string) : result CliError (list FileRelayEventRow) :=
  let limit := unwrap_or (option_usize args "--limit") 100 in
  queried (recent_file_relay_events simple_query relay_table
             (mkFileRelayEventFilter (option_string args "--room") (option_string args "--transfer")) limit).
End database.

(** The records that ["probe"] writes. *)
Definition probe_batch (now : N) (room_id lobby_id : RoomId) : list NetplayTelemetryRecord :=
  [TelRoomEvent (mkNetplayTelemetryEvent now room_id "PROB-E1" 1 1 now NETPLAY_PROTOCOL_VERSION "telemetryProbe"
     "operator telemetry write probe");
   TelLobbyEvent (mkNetplayLobbyTelemetryEvent now lobby_id "PROB-E1" 1 1 "telemetryProbe" "operator lobby telemetry write probe");
   TelPerformanceSample (mkNetplayPerformanceSample now room_id "PROB-E1" 2 1 now NETPLAY_PROTOCOL_VERSION 0 "playing" (Some 60) 60
     (Some 60) 61 (Some 60) (Some 0%Z) (Some 1) (Some 0) (Some 0) (Some 0) (Some 0) (Some 0) (Some 0) (Some 0) (Some 0) (Some 0)
     (Some 0) (Some 0) (Some 0) (Some 0) (Some 0) (Some 0) (Some 0) (Some 0) (Some 0))].

(** ** Lemmas *)

(** The probe can always be encoded while the clock fits a signed column. *)
Lemma probe_is_encodable now room_id lobby_id :
  (Z.of_N now <= i64_max)%Z →
  Forall (λ record, match record with
                    | TelRoomEvent e => is_ok (event_values e) = true
                    | TelLobbyEvent e => is_ok (lobby_event_values e) = true
                    | TelPerformanceSample s => is_ok (sample_values s) = true
                    end) (probe_batch now room_id lobby_id).
Proof.
  intros H. assert (∀ field, u64_to_i64 now field = Ok (SqlInt (Z.of_N now))) as Hn.
  { intros field. unfold u64_to_i64. by rewrite (proj2 (Z.leb_le _ _) H). }
  repeat constructor; unfold event_values, lobby_event_values, sample_values; cbn [tev_timestamp_ms tev_session_epoch
    tlev_timestamp_ms perf_timestamp_ms perf_session_epoch]; rewrite ?Hn; reflexivity.
Qed.

(** A code in the form the relay prints goes into the path unchanged. *)
Example printed_code_is_kept : live_path (LiveRoom "AB23-CD") = "/internal/rooms/AB23-CD"%string.
Proof. vm_compute. reflexivity. Qed.
