(* ===== verification/Routes.v ===== *)
(** * HTTP routes

  Models the handlers of [src/src/http/routes.rs] and [src/src/http/lobby_routes.rs] and the composition of
  the process in [src/src/main.rs]. A handler is a computation over the state of the process, [App]: both
  registries, the limiter and the metrics. Between two accesses of a handler other tasks run,
  as [others] of the [Env] of [Socket] says; an access is atomic. Query strings and JSON bodies
  are decoded by axum and serde, which are arguments; the license authority's service is the
  function [authority], which may answer every request differently. A WebSocket upgrade returns the request
  that the socket's task ([ControlSocket], [InputSocket], [LobbySocket]) is started with. *)

From S2P Require Import Prelude Ids Wire Text Descriptor Protocol Invite StartSync SnapshotTransfer RoomTransactions.
From S2P Require Import RoomEvents StoredRoom Registry RateLimit Lobby LobbyEvents LobbyRegistry.
From S2P Require Import Metrics FileRelay Socket ControlSocket InputSocket LobbySocket Parse Auth Rollout Http Config.
Open Scope N_scope.

(** ** State and services *)

Record App := mkApp {
  app_rooms : Registry;
  app_lobbies : LobbyRegistry;
  app_limiter : InMemoryRateLimiter;
  app_metrics : InMemoryMetrics }.

#[export] Instance eta_App : Eta App := λ a, mkApp (app_rooms a) (app_lobbies a) (app_limiter a) (app_metrics a).
#[export] Instance set_app_rooms : Setter app_rooms.
Proof. derive_setter. Defined.
#[export] Instance set_app_lobbies : Setter app_lobbies.
Proof. derive_setter. Defined.
#[export] Instance set_app_limiter : Setter app_limiter.
Proof. derive_setter. Defined.
#[export] Instance set_app_metrics : Setter app_metrics.
Proof. derive_setter. Defined.

#[export] Instance set_host_client_kind : Setter host_client_kind.
Proof. derive_setter. Defined.

Definition NETPLAY_FEATURE : string := "netplay".

(** ** Request bodies and queries *)

Record CreateRoomRequest := mkCreateRoomRequest {
  desktop_protocol_version : N;
  minimum_protocol_version : option N;
  create_session : NetplaySessionDescriptor }.

Record WebSocketRoomQuery := mkWebSocketRoomQuery {
  query_invite_code : string;
  query_role : WebSocketJoinRole;
  query_protocol_version : option N;
  query_player_index : option N;
  query_room_epoch : option N;
  query_resume_token : option string;
  query_runner_handoff : bool;
  query_supports_state_file_relay : option bool;
  query_supports_rom_file_relay : option bool;
  query_supports_scheduled_start : option bool;
  query_supports_clock_sync : option bool;
  query_supports_fast_input_relay : option bool }.

Record WebSocketInputRoomQuery := mkWebSocketInputRoomQuery {
  iquery_invite_code : string;
  iquery_protocol_version : option N;
  iquery_player_index : N;
  iquery_room_epoch : N;
  iquery_session_epoch : N;
  iquery_input_socket_token : string }.

Record CreateLobbyRequest := mkCreateLobbyRequest { clr_protocol_version : N; clr_params : CreateLobbyParams }.
Record JoinLobbyRequest := mkJoinLobbyRequest { jlr_protocol_version : N; jlr_params : JoinLobbyParams }.

Record WebSocketLobbyQuery := mkWebSocketLobbyQuery {
  lquery_invite_code : string;
  lquery_protocol_version : option N;
  lquery_display_name : option string;
  lquery_supports_temporary_session_rom_relay : option bool;
  lquery_supports_lobby_voice : option bool;
  lquery_supports_multi_game_lobby : option bool;
  lquery_supports_lobby_returned_event : option bool;
  lquery_supports_lobby_gameplay_started : option bool;
  lquery_supports_lobby_player_removed_event : option bool;
  lquery_player_index : option N;
  lquery_lobby_epoch : option N;
  lquery_resume_token : option string }.

Record EventLogQuery := mkEventLogQuery { elog_limit : option N }.
Definition event_log_limit (q : EventLogQuery) : N := clamp (unwrap_or (elog_limit q) 100) 1 500.

Record ReconnectQuery := mkReconnectQuery {
  reconnect_player_index : PlayerIndex;
  reconnect_room_epoch : N;
  reconnect_resume_token : string }.

(** The body that both [reconnect_query] functions share: all three parts or none. *)
Definition reconnect_parts (capacity : N) (invalid_index incomplete : HttpError) (player_index epoch : option N)
    (resume_token : option string) : result HttpError (option ReconnectQuery) :=
  match player_index, epoch, resume_token with
  | None, None, None => Ok None
  | Some player_index, Some epoch, Some resume_token =>
      player_index ← ok_or (PlayerIndex_new player_index capacity) invalid_index;
      Ok (Some (mkReconnectQuery player_index epoch resume_token))
  | _, _, _ => Err incomplete
  end.

Definition reconnect_query (q : WebSocketRoomQuery) : result HttpError (option ReconnectQuery) :=
  reconnect_parts MVP_ROOM_CAPACITY (HttpInvalidRequest "invalidPlayerIndex" "Reconnect playerIndex is invalid.")
    (HttpInvalidRequest "invalidReconnectRequest" "Reconnect requires playerIndex, roomEpoch, and resumeToken.")
    (query_player_index q) (query_room_epoch q) (query_resume_token q).

Definition lobby_reconnect_query (q : WebSocketLobbyQuery) : result HttpError (option ReconnectQuery) :=
  reconnect_parts MAX_LOBBY_PLAYERS (HttpInvalidRequest "invalidPlayerIndex" "Lobby reconnect playerIndex is invalid.")
    (HttpInvalidRequest "invalidLobbyReconnectRequest" "Lobby reconnect requires playerIndex, lobbyEpoch, and resumeToken.")
    (lquery_player_index q) (lquery_lobby_epoch q) (lquery_resume_token q).

Definition netplay_client_kind (kind : ClientKind) : NetplayClientKind :=
  match kind with Desktop => DesktopClient | Android => AndroidClient | Ios => IosClient end.

Definition query_lobby_capabilities (q : WebSocketLobbyQuery) (kind : ClientKind) : LobbyClientCapabilities :=
  let rich := kind ==? Desktop in
  mkLobbyClientCapabilities true (unwrap_or (lquery_supports_temporary_session_rom_relay q) rich)
    (unwrap_or (lquery_supports_lobby_voice q) rich) (unwrap_or (lquery_supports_multi_game_lobby q) rich)
    (unwrap_or (lquery_supports_lobby_returned_event q) false)
    (unwrap_or (lquery_supports_lobby_gameplay_started q) false)
    (unwrap_or (lquery_supports_lobby_player_removed_event q) false).

Record LobbySessionResponse := mkLobbySessionResponse {
  lsr_lobby : LobbyView;
  lsr_player_index : N;
  lsr_resume_token : string;
  lsr_voice : option PlayerVoiceJoinGrant }.
Definition LobbySessionResponse_from (join : LobbyJoin) : LobbySessionResponse :=
  mkLobbySessionResponse (lobby_join_lobby join) (zero_based (lobby_join_player_index join))
    (lobby_join_resume_token join) (lobby_join_voice join).

(** A request as axum hands it over; [path_and_query] is what the client signed. *)
Record HttpRequest {IpAddr : Type} := mkHttpRequest {
  http_headers : HeaderMap;
  http_path_and_query : string;
  http_body : bytes;
  http_peer : option IpAddr }.
Arguments HttpRequest : clear implicits.
Arguments mkHttpRequest {IpAddr}.

Record RouteServices := mkRouteServices {
  rooms_deps : RegistryDeps;
  lobbies_deps : LobbyDeps;
  route_file_relay : FileRelayBroker;
  route_file_relay_policy : FileRelayPolicy;
  protocol_rollout : NetplayProtocolRolloutPolicy;
  admin_authorizer : AdminAuthorizer;
  trust_proxy_headers : bool;
  body_sha256 : bytes → bytes;
  rfc3339_ms : string → option Z;
  authority : nat → VerifyClientAccessRequest → AuthorityAnswer;
  decode_create_room : bytes → option CreateRoomRequest;
  decode_create_lobby : bytes → option CreateLobbyRequest;
  decode_join_lobby : bytes → option JoinLobbyRequest;
  invite_bytes : nat → list N;
  room_voice_answer : nat → option CreateVoiceRoomBrokerResponse;
  lobby_voice_answer : nat → CreateVoiceRoomBrokerRequest → BrokerAnswer }.

(** ** The handlers *)

Section routes.
Context {IpAddr : Type} (parse_ip : string → option IpAddr) (show_ip : IpAddr → string).
Context (services : RouteServices) (env : Env App).

(** The state of the process, and the trace of the request: for every access, the state that it
    saw and the state that it left. *)
Record RouteState := mkRouteState { route_app : App; route_trace : list (App * App) }.
Definition route_tick (s : RouteState) : nat := length (route_trace s).

Definition RouteM : Type → Type := M RouteState HttpError.

Definition app_access {A} (op : nat → App → A * App) : RouteM A := λ s,
  let n := route_tick s in
  let seen := others env n (route_app s) in
  let '(a, app) := op n seen in (Ok a, mkRouteState app (route_trace s ++ [(seen, app)])).

(** A call whose error is returned with [?]. *)
Definition app_call {A} (op : nat → App → result HttpError A * App) : RouteM A :=
  outcome ← app_access op; lift_result outcome.
Definition app_read {A} (f : nat → App → result HttpError A) : RouteM A := app_call (λ n app, (f n app, app)).
Definition app_count (f : InMemoryMetrics → InMemoryMetrics) : RouteM unit :=
  app_access (λ _ app, (tt, app <| app_metrics ::= f |>)).

Definition with_limit (action : RateLimitAction) (key : string) : RouteM unit :=
  outcome ← app_access (λ n app,
    let '(outcome, limiter) := check_at action key (now_at env n) (app_limiter app) in
    (outcome, app <| app_limiter := limiter |>));
  match outcome with
  | Ok _ => mret tt
  | Err error => app_count record_rate_limited ;; throw (HttpRateLimited error)
  end.

Definition enforce_rate_limit (action : RateLimitAction) (headers : HeaderMap) : RouteM unit :=
  with_limit action (request_rate_limit_key parse_ip show_ip headers (trust_proxy_headers services)).

Definition enforce_capability_rate_limit (headers : HeaderMap) (peer_ip : option IpAddr) : RouteM unit :=
  with_limit WebSocketJoin
    (capability_request_rate_limit_key parse_ip show_ip headers (trust_proxy_headers services) peer_ip).

(** The authority's answer to the [n]-th access, and the counter for a refusal. *)
Definition authority_verdict (n : nat) (auth : ProtectedClientAuthProof) : result AuthError VerifiedLicense :=
  verify_client_access (rfc3339_ms services) (Z.of_N (wall_at env n)) (authority services n) auth NETPLAY_FEATURE.

Definition verify_client (auth : ProtectedClientAuthProof) : RouteM VerifiedLicense :=
  outcome ← app_access (λ n app, (authority_verdict n auth, app));
  match outcome with
  | Ok license => mret license
  | Err error => app_count record_auth_rejected ;; throw (HttpAuth error)
  end.

(** The proof over the method, the signed path and the body, and its verification. *)
Definition authenticate (q : HttpRequest IpAddr) (method : string) (body : bytes) : RouteM VerifiedLicense :=
  auth ← lift_result (client_auth_proof (body_sha256 services) (http_headers q) method (http_path_and_query q) body);
  verify_client auth.

Definition parse_code (value : string) : RouteM InviteCode :=
  lift_result (map_err (InviteCode_parse (string_bytes value)) HttpRoom).

Definition check_version (r : result ProtocolVersionError unit) : RouteM unit :=
  lift_result (map_err r from_protocol_version_error).

Definition view_room (code : InviteCode) : RouteM RoomView :=
  app_read (λ n app, map_err (room_view (now_at env n) code (app_rooms app)) HttpRoom).
Definition view_lobby (code : InviteCode) : RouteM LobbyView :=
  app_read (λ _ app, map_err (lobby_view_of code (app_lobbies app)) HttpLobby).

(** *** routes.rs *)

Definition parse_create_room_request (body : bytes) : RouteM CreateRoomRequest :=
  lift_result (ok_or (decode_create_room services body)
    (HttpInvalidRequest "invalidCreateRoomRequest" "Create-room request JSON is invalid.")).

(** What the server makes of the session that a verified host of this kind asks for. *)
Definition prepared_session (kind : NetplayClientKind) (session : NetplaySessionDescriptor)
    : result HttpError NetplaySessionDescriptor :=
  let session := session <| host_client_kind := Some kind |> <| rom_relay := None |> in
  _ ← map_err (session_validate session) from_session_descriptor_error;
  Ok (session <| rom_relay := direct_rom_relay_capability (route_file_relay_policy services)
                               (route_file_relay services) session |>).

Definition store_room (license : VerifiedLicense) (session : NetplaySessionDescriptor) (version : N) (n : nat) (app : App)
    : RoomView * App :=
  let '(view, rooms) := Registry.create_room (rooms_deps services) (now_at env n) (mkRoomId (uuid_at env n))
    (InviteCode_generate (invite_bytes services n)) (token_at env n) (token'_at env n) (room_voice_answer services n)
    license (mkConnectionId (uuid_at env (S n))) session version (app_rooms app) in
  (view, app <| app_rooms := rooms |>).

Definition create_room (q : HttpRequest IpAddr) : RouteM RoomView :=
  enforce_rate_limit CreateRoom (http_headers q) ;;
  license ← authenticate q "POST" (http_body q);
  request ← parse_create_room_request (http_body q);
  let kind := netplay_client_kind (client_kind license) in
  version ← lift_result (map_err (negotiate kind
              (unwrap_or (minimum_protocol_version request) (desktop_protocol_version request))
              (desktop_protocol_version request) (protocol_rollout services)) from_protocol_version_error);
  session ← lift_result (prepared_session kind (create_session request));
  room ← app_access (store_room license session version);
  app_count record_room_created ;;
  mret room.

Definition room_status (q : HttpRequest IpAddr) (invite_code : string) : RouteM RoomView :=
  enforce_rate_limit RoomStatus (http_headers q) ;;
  code ← parse_code invite_code;
  view_room code.

Definition validate_exact_room_protocol (code : InviteCode) (version : N) : RouteM unit :=
  room ← view_room code;
  lift_result (map_err (validate_room_protocol_version version (npv_room_protocol_version (rv_protocol room)))
    (λ _, HttpInvalidRequest "roomProtocolVersionMismatch" "Update ShadowBoy to join this netplay room.")).

Definition require_version (version : option N) (message : string) : RouteM N :=
  version ← lift_result (ok_or version (HttpInvalidRequest "missingProtocolVersion" message));
  check_version (validate_client_protocol_version version) ;;
  mret version.

Definition websocket_room (q : HttpRequest IpAddr) (query : WebSocketRoomQuery) : RouteM WebSocketJoinRequest :=
  enforce_capability_rate_limit (http_headers q) (http_peer q) ;;
  version ← require_version (query_protocol_version query) "Desktop netplay protocol version is required.";
  code ← parse_code (query_invite_code query);
  reconnect ← lift_result (reconnect_query query);
  ensure (negb (is_some reconnect && query_runner_handoff query))
    (HttpInvalidRequest "invalidRunnerHandoffRequest" "runnerHandoff is valid only for an initial room join.") ;;
  validate_exact_room_protocol code version ;;
  intent ← match reconnect with
           | Some r => mret (ResumeJoin (reconnect_player_index r) (reconnect_room_epoch r) (reconnect_resume_token r))
           | None =>
               license ← authenticate q "GET" [];
               check_version (validate_exact (netplay_client_kind (client_kind license)) version (protocol_rollout services)) ;;
               mret (InitialJoin (query_role query) license (query_runner_handoff query))
           end;
  mret (mkWebSocketJoinRequest code intent (unwrap_or (query_supports_state_file_relay query) false)
          (unwrap_or (query_supports_rom_file_relay query) false) (unwrap_or (query_supports_scheduled_start query) false)
          (unwrap_or (query_supports_clock_sync query) false) (unwrap_or (query_supports_fast_input_relay query) false)).

Definition websocket_input_room (q : HttpRequest IpAddr) (query : WebSocketInputRoomQuery)
    : RouteM WebSocketInputJoinRequest :=
  enforce_capability_rate_limit (http_headers q) (http_peer q) ;;
  version ← require_version (iquery_protocol_version query) "Netplay protocol version is required.";
  code ← parse_code (iquery_invite_code query);
  validate_exact_room_protocol code version ;;
  player_index ← lift_result (ok_or (PlayerIndex_new (iquery_player_index query) MVP_ROOM_CAPACITY)
    (HttpInvalidRequest "invalidPlayerIndex" "Input socket playerIndex is invalid."));
  mret (mkWebSocketInputJoinRequest code version player_index (iquery_room_epoch query) (iquery_session_epoch query)
          (iquery_input_socket_token query)).

Definition authorize_admin (q : HttpRequest IpAddr) : RouteM unit :=
  lift_result (admin_verify (admin_authorizer services) (http_headers q)).

Definition internal_metrics (q : HttpRequest IpAddr) : RouteM MetricsSnapshot :=
  authorize_admin q ;; app_read (λ _ app, Ok (metrics_snapshot (app_metrics app))).
Definition internal_rooms (q : HttpRequest IpAddr) : RouteM RoomRegistrySnapshot :=
  authorize_admin q ;; app_read (λ n app, Ok (snapshot (now_at env n) (app_rooms app))).
Definition internal_room (q : HttpRequest IpAddr) (invite_code : string) : RouteM RoomView :=
  authorize_admin q ;; code ← parse_code invite_code; view_room code.
Definition internal_room_events (q : HttpRequest IpAddr) (invite_code : string) (query : EventLogQuery)
    : RouteM (list RoomDebugEvent) :=
  authorize_admin q ;;
  code ← parse_code invite_code;
  app_read (λ _ app, map_err (room_events code (N.to_nat (event_log_limit query)) (app_rooms app)) HttpRoom).
Definition internal_recent_events (q : HttpRequest IpAddr) (query : EventLogQuery) : RouteM (list RoomDebugEvent) :=
  authorize_admin q ;;
  app_read (λ _ app, Ok (recent_events_tail (N.to_nat (event_log_limit query)) (app_rooms app))).
Definition internal_lobbies (q : HttpRequest IpAddr) : RouteM (list LobbyView) :=
  authorize_admin q ;; app_read (λ _ app, Ok (lobby_snapshot (app_lobbies app))).
Definition internal_lobby (q : HttpRequest IpAddr) (invite_code : string) : RouteM LobbyView :=
  authorize_admin q ;; code ← parse_code invite_code; view_lobby code.
Definition internal_lobby_events (q : HttpRequest IpAddr) (invite_code : string) (query : EventLogQuery)
    : RouteM (list LobbyDebugEvent) :=
  authorize_admin q ;;
  code ← parse_code invite_code;
  app_read (λ _ app, map_err (lobby_events code (N.to_nat (event_log_limit query)) (app_lobbies app)) HttpLobby).
Definition internal_recent_lobby_events (q : HttpRequest IpAddr) (query : EventLogQuery) : RouteM (list LobbyDebugEvent) :=
  authorize_admin q ;;
  app_read (λ _ app, Ok (lobby_recent_tail (N.to_nat (event_log_limit query)) (app_lobbies app))).

(** *** lobby_routes.rs *)

Definition parse_create_lobby_request (body : bytes) : RouteM CreateLobbyRequest :=
  lift_result (ok_or (decode_create_lobby services body)
    (HttpInvalidRequest "invalidCreateLobbyRequest" "Create-lobby request JSON is invalid.")).
Definition parse_join_lobby_request (body : bytes) : RouteM JoinLobbyRequest :=
  lift_result (ok_or (decode_join_lobby services body)
    (HttpInvalidRequest "invalidJoinLobbyRequest" "Join-lobby request JSON is invalid.")).

Definition check_lobby_version (license : VerifiedLicense) (version : N) : RouteM unit :=
  check_version (validate_client_protocol_version version) ;;
  check_version (validate_exact (netplay_client_kind (client_kind license)) version (protocol_rollout services)).

Definition store_lobby (license : VerifiedLicense) (params : CreateLobbyParams) (n : nat) (app : App) : LobbyJoin * App :=
  let '(join, lobbies) := LobbyRegistry.create_lobby (lobbies_deps services) (wall_at env n) (now_at env n)
    (mkRoomId (uuid_at env n)) (InviteCode_generate (invite_bytes services n)) (token_at env n)
    (mkConnectionId (uuid_at env (S n))) (uuid_at env (S (S n))) (lobby_voice_answer services n) license params
    (app_lobbies app) in
  (join, app <| app_lobbies := lobbies |>).

Definition create_lobby (q : HttpRequest IpAddr) : RouteM LobbySessionResponse :=
  enforce_rate_limit CreateRoom (http_headers q) ;;
  license ← authenticate q "POST" (http_body q);
  request ← parse_create_lobby_request (http_body q);
  check_lobby_version license (clr_protocol_version request) ;;
  join ← app_access (store_lobby license (clr_params request));
  mret (LobbySessionResponse_from join).

Definition seat_player (code : InviteCode) (license : VerifiedLicense) (params : JoinLobbyParams) (n : nat) (app : App)
    : result HttpError LobbyJoin * App :=
  let '(outcome, lobbies) := with_lobby code
    (join_lobby_body (lobbies_deps services) (wall_at env n) (now_at env n) (mkConnectionId (uuid_at env n))
       (token_at env n) license params) (app_lobbies app) in
  (map_err outcome HttpLobby, app <| app_lobbies := lobbies |>).

Definition join_lobby (q : HttpRequest IpAddr) (invite_code : string) : RouteM LobbySessionResponse :=
  enforce_rate_limit WebSocketJoin (http_headers q) ;;
  license ← authenticate q "POST" (http_body q);
  request ← parse_join_lobby_request (http_body q);
  check_lobby_version license (jlr_protocol_version request) ;;
  code ← parse_code invite_code;
  join ← app_call (seat_player code license (jlr_params request));
  mret (LobbySessionResponse_from join).

Definition lobby_status (q : HttpRequest IpAddr) (invite_code : string) : RouteM LobbyView :=
  enforce_rate_limit RoomStatus (http_headers q) ;;
  code ← parse_code invite_code;
  view_lobby code.

Definition public_lobbies (q : HttpRequest IpAddr) : RouteM (list PublicLobbySummary) :=
  enforce_rate_limit RoomStatus (http_headers q) ;;
  _ ← authenticate q "GET" [];
  app_read (λ _ app, Ok (LobbyRegistry.public_lobbies (app_lobbies app))).

Definition websocket_public_lobbies (q : HttpRequest IpAddr) : RouteM unit :=
  enforce_rate_limit WebSocketJoin (http_headers q) ;;
  _ ← authenticate q "GET" [];
  mret tt.

Definition websocket_lobby (q : HttpRequest IpAddr) (query : WebSocketLobbyQuery) : RouteM WebSocketLobbyJoinRequest :=
  enforce_rate_limit WebSocketJoin (http_headers q) ;;
  license ← authenticate q "GET" [];
  version ← lift_result (ok_or (lquery_protocol_version query)
    (HttpInvalidRequest "missingProtocolVersion" "Netplay protocol version is required."));
  check_lobby_version license version ;;
  code ← parse_code (lquery_invite_code query);
  reconnect ← lift_result (lobby_reconnect_query query);
  mret (mkWebSocketLobbyJoinRequest code (lquery_display_name query) (query_lobby_capabilities query (client_kind license))
          (reconnect_player_index <$> reconnect) (reconnect_room_epoch <$> reconnect) (reconnect_resume_token <$> reconnect)
          license).

(** *** The router *)

Inductive Route :=
| RHealth
| RCreateRoom
| RRoomStatus (invite_code : string)
| RCreateLobby
| RPublicLobbies
| RWebSocketPublicLobbies
| RJoinLobby (invite_code : string)
| RLobbyStatus (invite_code : string)
| RWebSocketLobby (query : WebSocketLobbyQuery)
| RWebSocketRoom (query : WebSocketRoomQuery)
| RWebSocketInputRoom (query : WebSocketInputRoomQuery)
| RInternalMetrics
| RInternalRooms
| RInternalRoom (invite_code : string)
| RInternalRoomEvents (invite_code : string) (query : EventLogQuery)
| RInternalRecentEvents (query : EventLogQuery)
| RInternalLobbies
| RInternalLobby (invite_code : string)
| RInternalLobbyEvents (invite_code : string) (query : EventLogQuery)
| RInternalRecentLobbyEvents (query : EventLogQuery).

Inductive Reply :=
| ReplyHealth (minimum maximum : N)
| ReplyRoom (room : RoomView)
| ReplyLobbySession (session : LobbySessionResponse)
| ReplyLobby (lobby : LobbyView)
| ReplyPublicLobbies (lobbies : list PublicLobbySummary)
| ReplyMetrics (metrics : MetricsSnapshot)
| ReplyRooms (snapshot : RoomRegistrySnapshot)
| ReplyLobbies (lobbies : list LobbyView)
| ReplyEvents (events : list RoomDebugEvent)
| ReplyLobbyEvents (events : list LobbyDebugEvent)
| UpgradeRoom (request : WebSocketJoinRequest)
| UpgradeInput (request : WebSocketInputJoinRequest)
| UpgradeLobby (request : WebSocketLobbyJoinRequest)
| UpgradePublicLobbies.

Definition reply {A} (f : A → Reply) (m : RouteM A) : RouteM Reply := a ← m; mret (f a).

Definition serve (route : Route) (q : HttpRequest IpAddr) : RouteM Reply :=
  match route with
  | RHealth => mret (ReplyHealth MIN_SUPPORTED_NETPLAY_PROTOCOL_VERSION NETPLAY_PROTOCOL_VERSION)
  | RCreateRoom => reply ReplyRoom (create_room q)
  | RRoomStatus code => reply ReplyRoom (room_status q code)
  | RCreateLobby => reply ReplyLobbySession (create_lobby q)
  | RPublicLobbies => reply ReplyPublicLobbies (public_lobbies q)
  | RWebSocketPublicLobbies => reply (λ _, UpgradePublicLobbies) (websocket_public_lobbies q)
  | RJoinLobby code => reply ReplyLobbySession (join_lobby q code)
  | RLobbyStatus code => reply ReplyLobby (lobby_status q code)
  | RWebSocketLobby query => reply UpgradeLobby (websocket_lobby q query)
  | RWebSocketRoom query => reply UpgradeRoom (websocket_room q query)
  | RWebSocketInputRoom query => reply UpgradeInput (websocket_input_room q query)
  | RInternalMetrics => reply ReplyMetrics (internal_metrics q)
  | RInternalRooms => reply ReplyRooms (internal_rooms q)
  | RInternalRoom code => reply ReplyRoom (internal_room q code)
  | RInternalRoomEvents code query => reply ReplyEvents (internal_room_events q code query)
  | RInternalRecentEvents query => reply ReplyEvents (internal_recent_events q query)
  | RInternalLobbies => reply ReplyLobbies (internal_lobbies q)
  | RInternalLobby code => reply ReplyLobby (internal_lobby q code)
  | RInternalLobbyEvents code query => reply ReplyLobbyEvents (internal_lobby_events q code query)
  | RInternalRecentLobbyEvents query => reply ReplyLobbyEvents (internal_recent_lobby_events q query)
  end.
End routes.

(** ** main.rs *)

(** The services that [main] builds from the configuration. The room registry is built by
    [with_dependencies_and_event_sink], which has no voice broker. *)
Definition main_rooms_deps {SocketAddr} (sha256 : bytes → bytes) (origin : Instant) (config : ServerConfig SocketAddr)
    : RegistryDeps := mkRegistryDeps sha256 origin (recovery config) false.

Definition main_file_relay_policy {SocketAddr} (config : ServerConfig SocketAddr) : FileRelayPolicy :=
  let c := file_relay_config config in
  mkFileRelayPolicy (relay_temporary_roms_enabled c) (relay_direct_roms_enabled c) (relay_temporary_rom_max_bytes c)
    (relay_direct_rom_allowed_systems c) (relay_save_states_enabled c).

Definition voice_enabled (broker : BrokerConfig) : bool :=
  match broker with BrokerHttp _ => true | BrokerOff => false end.

Definition main_lobbies_deps {SocketAddr} (sha256 : bytes → bytes) (uuid : N → string) (config : ServerConfig SocketAddr)
    : LobbyDeps :=
  mkLobbyDeps sha256
    (current MAX_LOBBY_PLAYERS
       (broker_enabled_config (file_relay_config config) && relay_temporary_roms_enabled (file_relay_config config))
       (voice_enabled (voice config)))
    (voice_enabled (voice config)) uuid.

Definition main_app {SocketAddr} (config : ServerConfig SocketAddr) : App :=
  mkApp Registry_new LobbyRegistry_new (InMemoryRateLimiter_new (rate_limits config)) InMemoryMetrics_new.
