(* ===== verification/RouteGuarantees.v ===== *)
(** * What the routes guarantee

  Theorems about the handlers of [Routes], for every interleaving with the other tasks of the
  process and every behaviour of the license authority. *)

From S2P Require Import Prelude Ids Wire Text Descriptor Protocol Invite Slots Room StartSync SnapshotTransfer.
From S2P Require Import RoomTransactions RoomEvents StoredRoom Registry RateLimit Lobby LobbyEvents LobbyRegistry LobbyGuarantees.
From S2P Require Import Metrics FileRelay Socket ControlSocket InputSocket LobbySocket Parse Auth Rollout Http Config Routes.
Open Scope N_scope.

(** ** Reasoning about accesses *)

Section rules.
Context (env : Env App).

Lemma wp_app_access {A} (op : nat → App → A * App) Q (R : HttpError → RouteState → Prop) s :
  wp (app_access env op) Q R s ↔
  let seen := others env (route_tick s) (route_app s) in
  let outcome := op (route_tick s) seen in
  Q outcome.1 (mkRouteState outcome.2 (route_trace s ++ [(seen, outcome.2)])).
Proof. unfold wp, app_access. by destruct (op _ _). Qed.

(** A fact about both registries that the other tasks preserve. *)
Context (I : Registry → LobbyRegistry → Prop).
Definition registries (s : RouteState) : Prop := I (app_rooms (route_app s)) (app_lobbies (route_app s)).
Context (Hothers : ∀ n app, I (app_rooms app) (app_lobbies app) →
  I (app_rooms (others env n app)) (app_lobbies (others env n app))).

(** An access that leaves both registries alone. *)
Lemma keeps_access {A} (op : nat → App → A * App) :
  (∀ n app, app_rooms (op n app).2 = app_rooms app ∧ app_lobbies (op n app).2 = app_lobbies app) →
  keeps registries (app_access env op).
Proof.
  intros Hop s Hs. unfold app_access, registries.
  specialize (Hothers (route_tick s) (route_app s) Hs). destruct (Hop (route_tick s) (others env (route_tick s) (route_app s))) as [H1 H2].
  destruct (op _ _) as [a app]. cbn in *. by rewrite H1, H2.
Qed.

Lemma keeps_read {A} (f : nat → App → result HttpError A) : keeps registries (app_read env f).
Proof. apply keeps_bind; [by apply keeps_access|]. intros ?. by apply keeps_pure. Qed.
Lemma keeps_count f : keeps registries (app_count env f).
Proof. by apply keeps_access. Qed.
Lemma keeps_lift {A} (r : result HttpError A) : keeps registries (lift_result r).
Proof. by apply keeps_pure. Qed.

Lemma keeps_limit action key : keeps registries (with_limit env action key).
Proof.
  apply keeps_bind.
  - apply keeps_access. intros n app. by destruct (check_at _ _ _ _).
  - intros [|]; [by apply keeps_pure|]. apply keeps_bind; [apply keeps_count|]. intros ?. by apply keeps_pure.
Qed.

Lemma keeps_verify services auth : keeps registries (verify_client services env auth).
Proof.
  apply keeps_bind; [by apply keeps_access|]. intros [|]; [by apply keeps_pure|].
  apply keeps_bind; [apply keeps_count|]. intros ?. by apply keeps_pure.
Qed.

(** [guarded m]: a failure of [m] has left both registries alone. *)
Definition guarded {A} (m : RouteM A) : Prop := ∀ s, registries s → wp m (λ _ _, True) (λ _, registries) s.

Lemma guarded_keeps {A} (m : RouteM A) : keeps registries m → guarded m.
Proof. intros Hm s Hs. eapply wp_mono; [by apply wp_keeps|done|done]. Qed.
Lemma guarded_bind {A B} (m : RouteM A) (k : A → RouteM B) :
  keeps registries m → (∀ a, guarded (k a)) → guarded (m ≫= k).
Proof.
  intros Hm Hk s Hs. apply wp_bind. eapply wp_mono; [by apply wp_keeps|intros a s' Hs'; by apply Hk|done].
Qed.
(** The last steps of a handler that stores something cannot fail. *)
Lemma guarded_total {A B} (op : nat → App → A * App) (k : A → RouteM B) :
  (∀ a s, wp (k a) (λ _ _, True) (λ _ _, False) s) → guarded (app_access env op ≫= k).
Proof.
  intros Hk s Hs. apply wp_bind, wp_app_access. eapply wp_mono; [apply Hk|done|done].
Qed.
End rules.

Create HintDb routes.
#[export] Hint Resolve keeps_read keeps_count keeps_lift keeps_limit keeps_verify : routes.

Section serve.
Context {IpAddr : Type} (parse_ip : string → option IpAddr) (show_ip : IpAddr → string).
Context (services : RouteServices) (env : Env App).

(** The routes that store something when they succeed. *)
Definition stores (route : Route) : bool :=
  match route with RCreateRoom | RCreateLobby | RJoinLobby _ => true | _ => false end.

Definition operator_only (route : Route) : bool :=
  match route with
  | RInternalMetrics | RInternalRooms | RInternalRoom _ | RInternalRoomEvents _ _ | RInternalRecentEvents _
  | RInternalLobbies | RInternalLobby _ | RInternalLobbyEvents _ _ | RInternalRecentLobbyEvents _ => true
  | _ => false
  end.

Section invariant.
Context (I : Registry → LobbyRegistry → Prop).
Context (Hothers : ∀ n app, I (app_rooms app) (app_lobbies app) →
  I (app_rooms (others env n app)) (app_lobbies (others env n app))).

Ltac keeps_route := repeat first
  [ solve [eauto with routes]
  | apply keeps_bind; [|intros ?]
  | match goal with |- keeps _ (match ?x with _ => _ end) => destruct x end
  | solve [apply keeps_pure; intros ?; reflexivity] ].

Lemma serve_keeps route q : stores route = false → keeps (registries I) (serve parse_ip show_ip services env route q).
Proof.
  intros Hroute. destruct route; cbn [stores] in Hroute; try discriminate; cbn [serve]; unfold reply,
    room_status, Routes.public_lobbies, websocket_public_lobbies, lobby_status, websocket_lobby, websocket_room, websocket_input_room,
    internal_metrics, internal_rooms, internal_room, internal_room_events, internal_recent_events, internal_lobbies,
    internal_lobby, internal_lobby_events, internal_recent_lobby_events, authorize_admin, enforce_rate_limit,
    enforce_capability_rate_limit, authenticate, parse_code, view_room, view_lobby, check_lobby_version, check_version,
    require_version, validate_exact_room_protocol; keeps_route.
Qed.

Lemma create_room_guarded q : guarded I (Routes.create_room parse_ip show_ip services env q).
Proof.
  unfold Routes.create_room, enforce_rate_limit, authenticate, parse_create_room_request.
  do 5 (apply guarded_bind; [keeps_route|intros ?]). apply guarded_total. intros ? ?. by wp_go.
Qed.

Lemma create_lobby_guarded q : guarded I (Routes.create_lobby parse_ip show_ip services env q).
Proof.
  unfold Routes.create_lobby, enforce_rate_limit, authenticate, parse_create_lobby_request, check_lobby_version, check_version.
  do 4 (apply guarded_bind; [keeps_route|intros ?]). apply guarded_total. intros ? ?. by wp_go.
Qed.

Lemma clean_join deps wall_ms now_ms c token player params code :
  clean (with_lobby code (join_lobby_body deps wall_ms now_ms c token player params)).
Proof.
  intros g e g' H. apply (clean_lobby_call deps wall_ms now_ms code (LobbyCalls.DoJoin c token player params) g e g').
  cbn [LobbyCalls.lobby_call]. unfold LobbyCalls.settle, with_lobby in *.
  destruct (lobbies g !! normalized code) as [s|]; [|by simplify_eq].
  unfold mbind at 1, M_bind. by destruct (join_lobby_body _ _ _ _ _ _ _ _) as [[] ?]; simplify_eq.
Qed.

Lemma join_lobby_guarded q code : guarded I (Routes.join_lobby parse_ip show_ip services env q code).
Proof.
  unfold Routes.join_lobby, enforce_rate_limit, authenticate, parse_join_lobby_request, check_lobby_version, check_version, parse_code.
  do 4 (apply guarded_bind; [keeps_route|intros ?]). apply guarded_bind; [keeps_route|intros c].
  intros s Hs. unfold app_call. apply wp_bind, wp_bind, wp_app_access.
  specialize (Hothers (route_tick s) (route_app s) Hs). unfold seat_player.
  destruct (with_lobby _ _ _) as [[join|e] lobbies] eqn:E; cbn; [done|].
  apply clean_join in E. subst. exact Hothers.
Qed.

Lemma serve_guarded route q : guarded I (serve parse_ip show_ip services env route q).
Proof.
  assert (∀ A (f : A → Reply) m, guarded I m → guarded I (reply f m)) as Hreply.
  { intros A f m Hm s Hs. apply wp_bind. eapply wp_mono; [by apply Hm|done|done]. }
  destruct (stores route) eqn:Hroute; [|by apply guarded_keeps, serve_keeps].
  destruct route; try discriminate; cbn [serve]; apply Hreply;
    [apply create_room_guarded|apply create_lobby_guarded|apply join_lobby_guarded].
Qed.
End invariant.
End serve.

(** ** What a success says about the request *)

Section successes.
Context {IpAddr : Type} (parse_ip : string → option IpAddr) (show_ip : IpAddr → string).
Context (services : RouteServices) (env : Env App).

(** The request went on from [s] to [s']. *)
Definition later (s s' : RouteState) : Prop := route_trace s `prefix_of` route_trace s'.

Lemma later_refl s : later s s.
Proof. unfold later. reflexivity. Qed.
Lemma later_trans s1 s2 s3 : later s1 s2 → later s2 s3 → later s1 s3.
Proof. unfold later. apply transitivity. Qed.
Lemma later_access s app x : later s (mkRouteState app (route_trace s ++ [x])).
Proof. apply prefix_app_r. reflexivity. Qed.
Hint Resolve later_refl later_trans later_access : routes.

(** The authority vouched for the client, at some point of the request, on the proof over
    this very method, path and body. *)
Definition vouched (q : HttpRequest IpAddr) (method : string) (body : bytes) (license : VerifiedLicense) (s : RouteState)
    : Prop :=
  ∃ auth n, client_auth_proof (body_sha256 services) (http_headers q) method (http_path_and_query q) body = Ok auth
            ∧ (n < route_tick s)%nat ∧ authority_verdict services env n auth = Ok license.

Lemma vouched_later q method body license s s' :
  later s s' → vouched q method body license s → vouched q method body license s'.
Proof.
  intros Hl (auth & n & ? & Hn & ?). exists auth, n. split_and!; [done| |done].
  pose proof (prefix_length _ _ Hl). unfold route_tick in *. lia.
Qed.

Lemma wp_limit action key (Q : unit → RouteState → Prop) s :
  (∀ s', later s s' → Q tt s') → wp (with_limit env action key) Q (λ _ _, True) s.
Proof.
  intros HQ. unfold with_limit. apply wp_bind, wp_app_access. cbv zeta.
  destruct (check_at _ _ _ _) as [[[]|e] l]; cbn.
  - apply HQ, later_access.
  - apply wp_bind, wp_app_access. done.
Qed.

Lemma wp_authenticate q method body (Q : VerifiedLicense → RouteState → Prop) s :
  (∀ license s', later s s' → vouched q method body license s' → Q license s') →
  wp (authenticate services env q method body) Q (λ _ _, True) s.
Proof.
  intros HQ. unfold authenticate, verify_client. apply wp_bind, wp_lift_result. split; [|done]. intros auth Hauth.
  apply wp_bind, wp_app_access. cbn. destruct (authority_verdict services env (route_tick s) auth) as [license|e] eqn:E.
  - apply wp_ret, HQ; [apply later_access|]. exists auth, (route_tick s). split_and!; [done| |done].
    unfold route_tick. cbn. rewrite length_app. cbn. lia.
  - apply wp_bind, wp_app_access. done.
Qed.

Lemma map_err_ok {A E F} (r : result E A) (f : E → F) a : map_err r f = Ok a → r = Ok a.
Proof. by destruct r; cbn; intros; simplify_eq. Qed.

(** The room that a creation stored: in the state [after], under a code of its own, for
    this host and this session; nothing else of [before] changed. *)
Definition room_stored (license : VerifiedLicense) (session : NetplaySessionDescriptor) (version : N)
    (before after : App) : Prop :=
  ∃ code stored, invite_codes (app_rooms after) = <[normalized code := stored]> (invite_codes (app_rooms before))
    ∧ Room.session (stored_room stored) = session
    ∧ Room.protocol_version (stored_room stored) = version
    ∧ (∃ host rest, Room.players (stored_room stored) = host :: rest ∧ Slots.slot_subject_key host = Some (identity_key license))
    ∧ Room.status (stored_room stored) = WaitingForGuest
    ∧ app_lobbies after = app_lobbies before.

Lemma store_room_spec license session version n app :
  room_stored license session version app (store_room services env license session version n app).2.
Proof.
  unfold store_room, Registry.create_room. exists (InviteCode_generate (invite_bytes services n)). eexists.
  split; [reflexivity|].
  destruct (create_voice_state_for_room _ _ _); cbn; split_and!; try done; by eexists _, _.
Qed.

(** What the server makes of a session: the host's kind is the verified one, and the relay
    capability is the server's own, whatever the client sent. *)
Definition session_of_request (kind : NetplayClientKind) (asked prepared : NetplaySessionDescriptor) : Prop :=
  let sanitized := asked <| host_client_kind := Some kind |> <| rom_relay := None |> in
  session_validate sanitized = Ok tt ∧
  prepared = sanitized <| rom_relay := direct_rom_relay_capability (route_file_relay_policy services)
                                         (route_file_relay services) sanitized |>.

Lemma prepared_session_spec kind asked prepared :
  prepared_session services kind asked = Ok prepared → session_of_request kind asked prepared.
Proof.
  unfold prepared_session, session_of_request. cbv zeta.
  set (sanitized := asked <| host_client_kind := Some kind |> <| rom_relay := None |>).
  intros H. apply bind_Ok in H as ([] & Hv%map_err_ok & H). by injection H as <-.
Qed.

(** The room of this request was stored by the access number [n] of it. *)
Definition creation (q : HttpRequest IpAddr) (s : RouteState) : Prop :=
  ∃ license request version session n before after,
    vouched q "POST" (http_body q) license s
    ∧ decode_create_room services (http_body q) = Some request
    ∧ negotiate (netplay_client_kind (client_kind license))
        (unwrap_or (minimum_protocol_version request) (desktop_protocol_version request))
        (desktop_protocol_version request) (protocol_rollout services) = Ok version
    ∧ session_of_request (netplay_client_kind (client_kind license)) (create_session request) session
    ∧ route_trace s !! n = Some (before, after)
    ∧ room_stored license session version before after.

Lemma trace_last (l : list (App * App)) x rest : ((l ++ [x]) ++ rest) !! length l = Some x.
Proof. rewrite <-app_assoc, lookup_app_r by lia. by rewrite Nat.sub_diag. Qed.

Lemma wp_create_room q s :
  wp (Routes.create_room parse_ip show_ip services env q) (λ _ s', creation q s') (λ _ _, True) s.
Proof.
  unfold Routes.create_room, enforce_rate_limit, parse_create_room_request.
  apply wp_bind, wp_limit. intros s1 H1. apply wp_bind, wp_authenticate. intros license s2 H2 Hv.
  apply wp_bind, wp_lift_ok_or. destruct (decode_create_room services (http_body q)) as [request|] eqn:Hd; [|done].
  apply wp_bind, wp_lift_result. split; [|done]. intros version Hn%map_err_ok.
  apply wp_bind, wp_lift_result. split; [|done]. intros session Hs%prepared_session_spec.
  apply wp_bind, wp_app_access. apply wp_bind, wp_app_access. apply wp_ret. cbv zeta.
  eexists license, request, version, session, (route_tick s2), _, _.
  split_and!; [|done..|cbn; by apply trace_last|apply store_room_spec].
  eapply vouched_later; [|exact Hv]. eapply later_trans; [|apply later_access]. apply later_access.
Qed.

(** *** Upgrades *)

(** A room with this code, in a state that the request saw, speaks this protocol. *)
Definition room_speaks (code : InviteCode) (version : N) (s : RouteState) : Prop :=
  ∃ n before after view, route_trace s !! n = Some (before, after)
    ∧ room_view (now_at env n) code (app_rooms before) = Ok view
    ∧ npv_room_protocol_version (rv_protocol view) = version.

Lemma room_speaks_later code version s s' : later s s' → room_speaks code version s → room_speaks code version s'.
Proof.
  intros Hl (n & before & after & view & Hn & ?). exists n, before, after, view. split; [|done].
  by eapply prefix_lookup_Some.
Qed.

Lemma validate_room_version_eq version room_version :
  validate_room_protocol_version version room_version = Ok tt → room_version = version.
Proof.
  unfold validate_room_protocol_version. destruct (validate_client_protocol_version version); cbn; [|done].
  by destruct (N.eqb_spec version room_version).
Qed.

Lemma wp_exact_protocol code version (Q : unit → RouteState → Prop) s :
  (∀ s', later s s' → room_speaks code version s' → Q tt s') →
  wp (validate_exact_room_protocol env code version) Q (λ _ _, True) s.
Proof.
  intros HQ. unfold validate_exact_room_protocol, view_room, app_read, app_call.
  apply wp_bind, wp_bind, wp_app_access, wp_lift_result. split; [|done]. cbv zeta. intros view Hview%map_err_ok.
  apply wp_lift_result. split; [|done]. intros [] H%map_err_ok%validate_room_version_eq.
  apply HQ; [apply later_access|]. eexists (route_tick s), _, _, view. cbn. split_and!; [|exact Hview|exact H].
  pose proof (trace_last (route_trace s)) as Ht. specialize (Ht (others env (route_tick s) (route_app s), others env (route_tick s) (route_app s)) []).
  by rewrite app_nil_r in Ht.
Qed.

Lemma wp_require_version version message (Q : N → RouteState → Prop) s :
  (∀ v, version = Some v → is_ok (validate_client_protocol_version v) = true → Q v s) →
  wp (require_version version message) Q (λ _ _, True) s.
Proof.
  intros HQ. unfold require_version, check_version. apply wp_bind, wp_lift_ok_or. destruct version as [v|]; [|done].
  apply wp_bind, wp_lift_result. split; [|done]. intros [] H%map_err_ok. apply wp_ret, HQ; [done|by rewrite H].
Qed.

Lemma wp_parse_code value (Q : InviteCode → RouteState → Prop) s :
  (∀ code, InviteCode_parse (string_bytes value) = Ok code → Q code s) → wp (parse_code value) Q (λ _ _, True) s.
Proof. intros HQ. apply wp_lift_result. split; [|done]. intros code H%map_err_ok. by apply HQ. Qed.

Lemma reconnect_parts_ok capacity e1 e2 player_index epoch token r :
  reconnect_parts capacity e1 e2 player_index epoch token = Ok r →
  match r with
  | None => player_index = None ∧ epoch = None ∧ token = None
  | Some r => player_index = Some (zero_based (reconnect_player_index r)) ∧ zero_based (reconnect_player_index r) < capacity
              ∧ epoch = Some (reconnect_room_epoch r) ∧ token = Some (reconnect_resume_token r)
  end.
Proof.
  unfold reconnect_parts. destruct player_index as [i|], epoch as [e|], token as [t|]; try done; [|by intros [= <-]].
  destruct (PlayerIndex_new i capacity) as [p|] eqn:E; cbn; [|done]. intros [= <-].
  apply PlayerIndex_new_Some in E as [-> ?]. done.
Qed.

(** The capability that opens a room's control socket. *)
Definition room_capability (q : HttpRequest IpAddr) (query : WebSocketRoomQuery) (version : N)
    (intent : WebSocketRoomJoinIntent) (s : RouteState) : Prop :=
  match intent with
  | InitialJoin role license handoff =>
      role = query_role query ∧ handoff = query_runner_handoff query ∧ query_resume_token query = None
      ∧ vouched q "GET" [] license s
      ∧ minimum_for (netplay_client_kind (client_kind license)) (protocol_rollout services) <= version
        <= maximum (protocol_rollout services)
  | ResumeJoin p epoch token =>
      query_player_index query = Some (zero_based p) ∧ zero_based p < MVP_ROOM_CAPACITY
      ∧ query_room_epoch query = Some epoch ∧ query_resume_token query = Some token ∧ query_runner_handoff query = false
  end.

Definition admitted_socket (q : HttpRequest IpAddr) (query : WebSocketRoomQuery) (request : WebSocketJoinRequest)
    (s : RouteState) : Prop :=
  ∃ version, query_protocol_version query = Some version
    ∧ is_ok (validate_client_protocol_version version) = true
    ∧ InviteCode_parse (string_bytes (query_invite_code query)) = Ok (join_invite_code request)
    ∧ room_speaks (join_invite_code request) version s
    ∧ room_capability q query version (join_intent request) s.

Lemma wp_websocket_room q query s :
  wp (websocket_room parse_ip show_ip services env q query) (admitted_socket q query) (λ _ _, True) s.
Proof.
  unfold websocket_room, enforce_capability_rate_limit. apply wp_bind, wp_limit. intros s1 H1.
  apply wp_bind, wp_require_version. intros version Hv Hok. apply wp_bind, wp_parse_code. intros code Hc.
  apply wp_bind, wp_lift_result. split; [|done]. intros reconnect Hr%reconnect_parts_ok.
  apply wp_bind, wp_ensure. split; [|done]. intros Hh. apply wp_bind, wp_exact_protocol. intros s2 H2 Hp.
  destruct reconnect as [r|]; apply wp_bind.
  - apply wp_ret, wp_ret. exists version. cbn in *. apply negb_true_iff in Hh. naive_solver.
  - apply wp_bind, wp_authenticate. intros license s3 H3 Hl. unfold check_version. apply wp_bind, wp_lift_result. split; [|done].
    intros [] Hx%map_err_ok. apply wp_ret, wp_ret. exists version. apply (room_speaks_later _ _ _ _ H3) in Hp.
    assert (is_ok (validate_exact (netplay_client_kind (client_kind license)) version (protocol_rollout services)) = true)
      as Hb%validate_exact_iff by by rewrite Hx. cbn in *. naive_solver.
Qed.
End successes.

(** ** The operator's routes *)

Lemma log_tail_length limit log : (length (log_tail limit log) <= limit)%nat.
Proof. unfold log_tail. rewrite length_drop. lia. Qed.
Lemma lobby_log_tail_length limit log : (length (lobby_log_tail limit log) <= limit)%nat.
Proof. unfold lobby_log_tail. rewrite length_drop. lia. Qed.

Lemma event_log_limit_bounds q : 1 <= event_log_limit q <= 500.
Proof. unfold event_log_limit, clamp. lia. Qed.

(** The number of log entries in a reply. *)
Definition reply_events (r : Reply) : nat :=
  match r with ReplyEvents events => length events | ReplyLobbyEvents events => length events | _ => 0 end.

Section operators.
Context {IpAddr : Type} (parse_ip : string → option IpAddr) (show_ip : IpAddr → string).
Context (services : RouteServices) (env : Env App).

Lemma wp_read {A} (f : nat → App → result HttpError A) (Q : A → RouteState → Prop) s :
  (∀ n app a s', f n app = Ok a → Q a s') → wp (app_read env f) Q (λ _ _, True) s.
Proof.
  intros HQ. unfold app_read, app_call. apply wp_bind, wp_app_access, wp_lift_result. split; [|done].
  intros a Ha. by eapply HQ.
Qed.

Lemma wp_admin (q : HttpRequest IpAddr) (Q : unit → RouteState → Prop) s :
  (admin_verify (admin_authorizer services) (http_headers q) = Ok tt → Q tt s) →
  wp (authorize_admin services q) Q (λ _ _, True) s.
Proof. intros HQ. apply wp_lift_result. split; [|done]. intros [] H. by apply HQ. Qed.

Lemma wp_operator route (q : HttpRequest IpAddr) s :
  operator_only route = true →
  wp (serve parse_ip show_ip services env route q)
    (λ r _, admin_verify (admin_authorizer services) (http_headers q) = Ok tt ∧ (reply_events r <= 500)%nat)
    (λ _ _, True) s.
Proof.
  intros Hroute. destruct route; try discriminate; cbn [serve]; unfold reply,
    internal_metrics, internal_rooms, internal_room, internal_room_events, internal_recent_events, internal_lobbies,
    internal_lobby, internal_lobby_events, internal_recent_lobby_events.
  all: apply wp_bind, wp_bind, wp_admin; intros Ha.
  all: try (apply wp_bind, wp_parse_code; intros c Hc).
  all: apply wp_read; intros n app a s' Hr; apply wp_ret; split; [exact Ha|]; cbn [reply_events]; try lia.
  all: pose proof (event_log_limit_bounds query); try apply map_err_ok in Hr.
  - unfold room_events, read_room in Hr. destruct (_ !! _); [|done]. injection Hr as <-.
    etrans; [apply log_tail_length|lia].
  - injection Hr as <-. etrans; [apply log_tail_length|lia].
  - unfold lobby_events, read_lobby in Hr. destruct (_ !! _); [|done]. injection Hr as <-.
    etrans; [apply lobby_log_tail_length|lia].
  - injection Hr as <-. etrans; [apply lobby_log_tail_length|lia].
Qed.
End operators.

Module Gateway.

(** ** A process to run requests on *)

(** The authority vouches for everybody; the only body that decodes is the empty one. *)
Definition sample_services : RouteServices :=
  mkRouteServices (mkRegistryDeps (λ b, b) 0 (mkRoomRecoveryConfig 60 90 15 30 300) false) LobbyGuarantees.lobby_deps
    DisabledFileRelayBroker (mkFileRelayPolicy false false 0 [] false) NetplayProtocolRolloutPolicy_default
    (mkAdminAuthorizer (Some "operator"%string)) false (λ b, b) (λ _, None)
    (λ _ _, Answered 200 (Some (JObject [("authorized"%string, JBool true)])))
    (λ _, Some (mkCreateRoomRequest 5 None Sample.controller_session)) (λ _, None) (λ _, None)
    (λ _, [0; 1; 2; 3; 4; 5]) (λ _, None) (λ _ _, BrokerFailure).

Definition sample_environment : Env App :=
  mkEnv _ (λ _ app, app) (λ _, 1700000000000) (λ n, N.of_nat n) (λ n, N.of_nat n) (λ _, "resume"%string) (λ _, "input"%string)
    (λ n, N.of_nat n) (λ _, true).

Definition sample_app : App := mkApp Registry_new LobbyRegistry_new (InMemoryRateLimiter_new RateLimitPolicy_default) InMemoryMetrics_new.
Definition fresh (app : App) : RouteState := mkRouteState app [].

Definition sample_request : HttpRequest string :=
  mkHttpRequest [("authorization", "Bearer token"); ("x-install-id", "install")]%string "/v1/rooms" [] (Some "peer"%string).
Definition anonymous_request : HttpRequest string := mkHttpRequest [] "/v1/rooms" [] (Some "peer"%string).

Definition run (route : Route) (q : HttpRequest string) (app : App) : result HttpError Reply * RouteState :=
  serve (λ s, Some s) (λ s, s) sample_services sample_environment route q (fresh app).

(** ** The claims *)

(** C24: a refused request changes nothing. Whatever the other tasks do in between, a request that
    fails, for whatever reason and on whatever route, has changed neither registry, and a request
    on a route that only reads or upgrades has not either when it succeeds: every fact about the
    rooms and the lobbies that the other tasks preserve still holds. *)
Theorem refused_request_changes_nothing {IpAddr} parse_ip (show_ip : IpAddr → string) services env
    (I : Registry → LobbyRegistry → Prop) route q s outcome s' :
  (∀ n app, I (app_rooms app) (app_lobbies app) → I (app_rooms (others env n app)) (app_lobbies (others env n app))) →
  I (app_rooms (route_app s)) (app_lobbies (route_app s)) →
  serve parse_ip show_ip services env route q s = (outcome, s') →
  (stores route = true → is_ok outcome = false) →
  I (app_rooms (route_app s')) (app_lobbies (route_app s')).
Proof.
  intros Ho HI Hs Hout. destruct outcome as [r|e].
  - destruct (stores route) eqn:Hroute; [by specialize (Hout eq_refl)|].
    pose proof (serve_keeps parse_ip show_ip services env I Ho route q Hroute s HI) as H. by rewrite Hs in H.
  - pose proof (serve_guarded parse_ip show_ip services env I Ho route q s HI) as H. unfold wp in H. by rewrite Hs in H.
Qed.

Lemma refused_request_changes_nothing_witness :
  (run RCreateRoom anonymous_request sample_app).1 = Err (HttpAuth MissingToken)
  ∧ app_rooms (route_app (run RCreateRoom anonymous_request sample_app).2) = Registry_new.
Proof.
  assert ((run RCreateRoom anonymous_request sample_app).1 = Err (HttpAuth MissingToken)) as Hrun by (vm_compute; reflexivity).
  split; [exact Hrun|].
  apply (refused_request_changes_nothing (λ s, Some s) (λ s, s) sample_services sample_environment
    (λ rooms _, rooms = Registry_new) RCreateRoom anonymous_request (fresh sample_app)
    (run RCreateRoom anonymous_request sample_app).1 (run RCreateRoom anonymous_request sample_app).2).
  - by intros n app.
  - reflexivity.
  - unfold run. by destruct (serve _ _ _ _ _ _ _).
  - intros _. rewrite Hrun. reflexivity.
Defined.



(** C23: a control socket opens on a capability only. When the route that opens a room's control
    socket succeeds, the request named a protocol version that this build speaks, and a room with the
    invite code spoke exactly that version in a state that the request saw. Then either the license authority
    vouched for the client on this very request, and the version is one that the policy admits for
    the verified platform; or the request carries a seat of the room, an epoch and a resume
    token, all three, and asks for no hand-over. *)
Theorem control_socket_needs_capability {IpAddr} parse_ip (show_ip : IpAddr → string) services env app
    (q : HttpRequest IpAddr) query request s' :
  websocket_room parse_ip show_ip services env q query (fresh app) = (Ok request, s') →
  admitted_socket services env q query request s'.
Proof. apply (wp_ok _ _ _ _ _ _ (wp_websocket_room parse_ip show_ip services env q query (fresh app))). Qed.

(** The process after a room was created, and a guest that joins it. *)
Definition hosted_app : App := route_app (run RCreateRoom sample_request sample_app).2.
Definition guest_query : WebSocketRoomQuery :=
  mkWebSocketRoomQuery "2345-67" JoinAsGuest (Some 5) None None None false None None None None None.

Lemma control_socket_needs_capability_witness :
  let outcome := websocket_room (λ s, Some s) (λ s, s) sample_services sample_environment sample_request guest_query (fresh hosted_app) in
  is_ok outcome.1 = true ∧
  match outcome.1 with Ok request => admitted_socket sample_services sample_environment sample_request guest_query request outcome.2
  | Err _ => False end.
Proof.
  set (outcome := websocket_room _ _ _ _ _ _ _). cbv zeta.
  assert (is_ok outcome.1 = true) as Hok by (vm_compute; reflexivity). split; [exact Hok|].
  destruct outcome as [[request|e] s'] eqn:E; [|discriminate Hok].
  apply (control_socket_needs_capability (λ s, Some s) (λ s, s) sample_services sample_environment hosted_app sample_request
    guest_query request s' E).
Defined.


Definition operator_request : HttpRequest string :=
  mkHttpRequest [("authorization", "Bearer operator")]%string "/internal/recent-events" [] None.

End Gateway.

(** ** What the model shows about the code *)

(** The key of the public limiter is the installation that the client claims: with a limit of one
    status request per minute, a client that makes up a new installation each time is never
    limited, and one that does not is. *)
Definition strict_app : App :=
  mkApp Registry_new LobbyRegistry_new (InMemoryRateLimiter_new (mkRateLimitPolicy 1 1 1)) InMemoryMetrics_new.
Definition claiming (install : string) : HttpRequest string :=
  mkHttpRequest [("x-install-id"%string, install)] "/v1/rooms/AB23-CD/status" [] (Some "peer"%string).
Definition probe (install : string) (app : App) : result HttpError Reply * RouteState :=
  Gateway.run (RRoomStatus "AB23-CD") (claiming install) app.

Example claimed_installations_evade_the_limiter :
  let '(first, s1) := probe "one" strict_app in
  let '(second, s2) := probe "two" (route_app s1) in
  let '(again, _) := probe "two" (route_app s2) in
  first = Err (HttpRoom NotFound) ∧ second = Err (HttpRoom NotFound)
  ∧ again = Err (HttpRateLimited (mkRateLimitExceeded RoomStatus RATE_LIMIT_WINDOW)).
Proof. vm_compute. done. Qed.

(** The capability routes are not affected: without trusted proxies, what a client claims does not
    change its bucket. *)
Lemma capability_bucket_is_the_peer {IpAddr} parse_ip (show_ip : IpAddr → string) services env headers headers' peer :
  trust_proxy_headers services = false →
  enforce_capability_rate_limit parse_ip show_ip services env headers peer
  = enforce_capability_rate_limit parse_ip show_ip services env headers' peer.
Proof. intros Ht. unfold enforce_capability_rate_limit, capability_request_rate_limit_key. by rewrite Ht. Qed.

(** A voice broker that is configured serves lobbies but never rooms. *)
Lemma rooms_have_no_voice {SocketAddr} sha256 origin uuid (config : ServerConfig SocketAddr) h :
  voice config = BrokerHttp h →
  broker_enabled (main_rooms_deps sha256 origin config) = false
  ∧ lobby_broker_enabled (main_lobbies_deps sha256 uuid config) = true.
Proof. intros Hv. unfold main_lobbies_deps, main_rooms_deps. cbn. by rewrite Hv. Qed.
