(* ===== verification/RelayTime.v ===== *)
(** * Expiry times of the file relay

  Models the decoding of [expiresAt] in [src/src/file_relay/types.rs]: an answer of the file relay
  carries either a text or, from older versions of that service, an array of nine numbers
  that is printed as an RFC 3339 timestamp. The reader [read_rfc3339] is the reference that the
  printed form is compared with. *)

From Stdlib Require Import Ascii.
From S2P Require Import Prelude Text Descriptor Protocol StartSync Parse Auth.
Open Scope N_scope.

(** ** file_relay/types.rs *)

Definition try_i32 (z : Z) : option Z := if ((-2 ^ 31 <=? z) && (z <? 2 ^ 31))%Z then Some z else None.
Definition try_u32 (n : N) : option N := if n <? 2 ^ 32 then Some n else None.

(** [parts[index]] is called only with the nine parts there. *)
Definition array_i32 (parts : list Value) (index : nat) (field : string) : result string Z :=
  ok_or ((parts !! index ≫= as_i64) ≫= try_i32) ("legacy expiresAt " ++ field ++ " must be an integer")%string.
Definition array_u32 (parts : list Value) (index : nat) (field : string) : result string N :=
  ok_or ((parts !! index ≫= as_u64) ≫= try_u32)
    ("legacy expiresAt " ++ field ++ " must be an unsigned integer")%string.

Definition is_leap_year (year : Z) : bool :=
  ((Z.rem year 4 =? 0) && negb (Z.rem year 100 =? 0) || (Z.rem year 400 =? 0))%Z.
Definition days_in_year (year : Z) : N := if is_leap_year year then 366 else 365.

Definition month_lengths (year : Z) : list N :=
  [31; if is_leap_year year then 29 else 28; 31; 30; 31; 30; 31; 31; 30; 31; 30; 31].

Fixpoint find_month (index remaining : N) (lengths : list N) : option (N * N) :=
  match lengths with
  | [] => None
  | days :: lengths =>
      if remaining <=? days then Some (index + 1, remaining)
      else find_month (index + 1) (remaining - days) lengths
  end.

Definition ordinal_out_of_range : string := "legacy expiresAt ordinal day is out of range".
Definition month_day_from_ordinal (year : Z) (ordinal : N) : result string (N * N) :=
  ok_or (find_month 0 ordinal (month_lengths year)) ordinal_out_of_range.

(** [i32::abs], which wraps around in a release build. *)
Definition i32_abs (z : Z) : Z := if (z =? -2 ^ 31)%Z then z else Z.abs z.

(** [{:0w}] of an unsigned number, and of a signed one, where the sign is part of the width. *)
Definition zero_pad (w : nat) (digits : list N) : list N := replicate (w - length digits) 48 ++ digits.
Definition padded (w : nat) (n : N) : list N := zero_pad w (decimal_digits 20 n).
Definition padded_signed (w : nat) (z : Z) : list N :=
  if (z <? 0)%Z then 45 :: zero_pad (w - 1) (decimal_digits 20 (Z.to_N (- z))) else padded w (Z.to_N z).

(** [trim_end_matches('0')]. *)
Fixpoint trim_start_zeros (l : list N) : list N :=
  match l with
  | 48 :: l => trim_start_zeros l
  | _ => l
  end.
Definition trim_end_zeros (l : list N) : list N := rev (trim_start_zeros (rev l)).

Definition fraction_text (nanosecond : N) : list N :=
  if nanosecond =? 0 then [] else trim_end_zeros (46 :: padded 9 nanosecond).

Definition offset_text (offset_hour offset_minute : Z) : list N :=
  if ((offset_hour =? 0) && (offset_minute =? 0))%Z then [90]
  else
    let sign := if ((offset_hour <? 0) || (offset_minute <? 0))%Z then 45 else 43 in
    sign :: padded_signed 2 (i32_abs offset_hour) ++ 58 :: padded_signed 2 (i32_abs offset_minute).

Definition time_text (year : Z) (month day hour minute second : N) (rest : list N) : list N :=
  padded_signed 4 year ++ 45 :: padded 2 month ++ 45 :: padded 2 day
  ++ 84 :: padded 2 hour ++ 58 :: padded 2 minute ++ 58 :: padded 2 second ++ rest.

Definition deserialize_legacy_time_array (parts : list Value) : result string string :=
  if negb (length parts =? 9)%nat then Err "legacy expiresAt array must contain 9 values"%string
  else
    year ← array_i32 parts 0 "year";
    ordinal ← array_u32 parts 1 "ordinal day";
    hour ← array_u32 parts 2 "hour";
    minute ← array_u32 parts 3 "minute";
    second ← array_u32 parts 4 "second";
    nanosecond ← array_u32 parts 5 "nanosecond";
    offset_hour ← array_i32 parts 6 "offset hour";
    offset_minute ← array_i32 parts 7 "offset minute";
    offset_second ← array_i32 parts 8 "offset second";
    if (ordinal =? 0) || (days_in_year year <? ordinal) then Err ordinal_out_of_range
    else if (23 <? hour) || (59 <? minute) || (60 <? second) || (999999999 <? nanosecond)
    then Err "legacy expiresAt time is out of range"%string
    else if ((23 <? i32_abs offset_hour) || (59 <? i32_abs offset_minute) || negb (offset_second =? 0))%Z
    then Err "legacy expiresAt offset is out of range"%string
    else
      '(month, day) ← month_day_from_ordinal year ordinal;
      Ok (string_of_bytes (time_text year month day hour minute second
            (fraction_text nanosecond ++ offset_text offset_hour offset_minute))).

Definition deserialize_relay_expires_at (value : Value) : result string string :=
  match value with
  | JString value =>
      if (length (trim (chars value)) =? 0)%nat then Err "expiresAt must be a non-empty RFC3339 string"%string
      else Ok value
  | JArray parts => deserialize_legacy_time_array parts
  | _ => Err "expiresAt must be a non-empty RFC3339 string"%string
  end.

(** ** A reader of RFC 3339 timestamps *)

Record Timestamp := mkTimestamp {
  ts_year : N;
  ts_month : N;
  ts_day : N;
  ts_hour : N;
  ts_minute : N;
  ts_second : N;
  ts_nanosecond : N;
  ts_offset_minutes : Z }.

Definition read_digits (k : nat) (l : list N) : option (N * list N) :=
  if (length l <? k)%nat then None
  else v ← digits_value u64_max 0 (take k l); Some (v, drop k l).
Definition read_byte (b : N) (l : list N) : option (list N) :=
  match l with b' :: l => if b' =? b then Some l else None | [] => None end.

Fixpoint span_digits (l : list N) : list N * list N :=
  match l with
  | b :: l' => if is_ascii_digit b then let '(ds, rest) := span_digits l' in (b :: ds, rest) else ([], l)
  | [] => ([], [])
  end.

(** An optional fraction of at most nine digits, in nanoseconds. *)
Definition read_fraction (l : list N) : option (N * list N) :=
  match l with
  | 46 :: l =>
      let '(ds, rest) := span_digits l in
      if (length ds =? 0)%nat || (9 <? length ds)%nat then None
      else v ← digits_value u64_max 0 (ds ++ replicate (9 - length ds) 48); Some (v, rest)
  | _ => Some (0, l)
  end.

Definition read_offset (l : list N) : option Z :=
  match l with
  | [90] => Some 0%Z
  | sign :: l =>
      '(hours, l) ← read_digits 2 l; l ← read_byte 58 l; '(minutes, l) ← read_digits 2 l;
      if negb (length l =? 0)%nat || (23 <? hours) || (59 <? minutes) then None
      else if sign =? 43 then Some (Z.of_N (hours * 60 + minutes))
      else if sign =? 45 then Some (- Z.of_N (hours * 60 + minutes))%Z
      else None
  | [] => None
  end.

Definition date_is_valid (year month day : N) : bool :=
  match month_lengths (Z.of_N year) !! N.to_nat (month - 1) with
  | Some days => (1 <=? month) && (1 <=? day) && (day <=? days)
  | None => false
  end.

Definition read_rfc3339 (l : list N) : option Timestamp :=
  '(year, l) ← read_digits 4 l; l ← read_byte 45 l;
  '(month, l) ← read_digits 2 l; l ← read_byte 45 l;
  '(day, l) ← read_digits 2 l; l ← read_byte 84 l;
  '(hour, l) ← read_digits 2 l; l ← read_byte 58 l;
  '(minute, l) ← read_digits 2 l; l ← read_byte 58 l;
  '(second, l) ← read_digits 2 l;
  '(nanosecond, l) ← read_fraction l;
  offset ← read_offset l;
  if date_is_valid year month day && (hour <=? 23) && (minute <=? 59) && (second <=? 60)
  then Some (mkTimestamp year month day hour minute second nanosecond offset) else None.

(** The day of the year of a date. *)
Definition day_of_year (t : Timestamp) : N :=
  foldr N.add (ts_day t) (take (N.to_nat (ts_month t - 1)) (month_lengths (Z.of_N (ts_year t)))).

Example expiry_of_the_older_service :
  deserialize_relay_expires_at (JArray (JInt <$> [2026; 150; 21; 8; 16; 783642669; 0; 0; 0]%Z))
  = Ok "2026-05-30T21:08:16.783642669Z"%string.
Proof. vm_compute. reflexivity. Qed.

(** ** Lemmas *)

Lemma decimal_digits_length fuel n k :
  (0 < k)%nat → n < 10 ^ N.of_nat k → (length (decimal_digits fuel n) <= k)%nat.
Proof.
  revert n k. induction fuel as [|fuel IH]; intros n k Hk Hn; [cbn; lia|].
  cbn [decimal_digits]. rewrite length_app. destruct (N.ltb_spec n 10) as [|Hge]; cbn [length]; [lia|].
  destruct k as [|[|k]]; [lia|cbn in Hn; lia|].
  enough (length (decimal_digits fuel (n / 10)) <= S k)%nat by lia. apply IH; [lia|].
  apply N.Div0.div_lt_upper_bound. by rewrite Nat2N.inj_succ, N.pow_succ_r' in Hn.
Qed.

Lemma padded_length k n : (0 < k)%nat → n < 10 ^ N.of_nat k → length (padded k n) = k.
Proof.
  intros Hk Hn. unfold padded, zero_pad. rewrite length_app, length_replicate.
  pose proof (decimal_digits_length 20 n k Hk Hn). lia.
Qed.

Lemma padded_ascii k n : Forall (λ b, is_ascii_digit b = true) (padded k n).
Proof. apply Forall_app. split; [by apply Forall_replicate|apply decimal_digits_ascii]. Qed.

Lemma digits_value_zeros max j l : digits_value max 0 (replicate j 48 ++ l) = digits_value max 0 l.
Proof. induction j as [|j IH]; [done|]. cbn. by destruct max. Qed.

Lemma padded_value k n : n <= u64_max → digits_value u64_max 0 (padded k n) = Some n.
Proof.
  intros Hn. unfold padded, zero_pad. rewrite digits_value_zeros. apply decimal_digits_value; [done|].
  unfold u64_max in Hn. cbn. lia.
Qed.

Lemma read_digits_padded k n rest :
  (0 < k)%nat → n < 10 ^ N.of_nat k → n <= u64_max → read_digits k (padded k n ++ rest) = Some (n, rest).
Proof.
  intros Hk Hn Hm. pose proof (padded_length k n Hk Hn) as Hlen. unfold read_digits. rewrite length_app, Hlen.
  destruct (Nat.ltb_spec (k + length rest) k); [lia|].
  rewrite take_app_length', drop_app_length' by done. by rewrite padded_value.
Qed.

Lemma trim_start_zeros_app l b : b ≠ 48 → trim_start_zeros (l ++ [b]) = trim_start_zeros l ++ [b].
Proof.
  intros Hb. induction l as [|a l IH].
  - cbn. by repeat case_match.
  - destruct (decide (a = 48)) as [->|Ha]; [done|].
    assert (∀ l', trim_start_zeros (a :: l') = a :: l') as Hstop by (intros l'; cbn; by repeat case_match).
    by rewrite Hstop, <-app_comm_cons, Hstop.
Qed.

Lemma trim_end_zeros_cons b l : b ≠ 48 → trim_end_zeros (b :: l) = b :: trim_end_zeros l.
Proof. intros Hb. unfold trim_end_zeros. cbn [rev]. by rewrite trim_start_zeros_app, rev_app_distr. Qed.

Lemma trim_start_zeros_restore l : ∃ j, l = replicate j 48 ++ trim_start_zeros l.
Proof.
  induction l as [|b l [j IH]]; [by exists 0%nat|]. destruct (decide (b = 48)) as [->|Hb].
  - exists (S j). cbn. by rewrite <-IH.
  - exists 0%nat. cbn. by repeat case_match.
Qed.

Lemma trim_end_zeros_restore l : ∃ j, l = trim_end_zeros l ++ replicate j 48.
Proof.
  destruct (trim_start_zeros_restore (rev l)) as [j Hj]. exists j. unfold trim_end_zeros.
  rewrite <-(rev_involutive l) at 1. rewrite Hj at 1. rewrite rev_app_distr. f_equal.
  generalize j. clear. intros j. induction j as [|j IH]; [done|].
  cbn. by rewrite IH, <-replicate_cons_app.
Qed.

Lemma span_digits_app ds rest :
  Forall (λ b, is_ascii_digit b = true) ds →
  (∀ b l, rest = b :: l → is_ascii_digit b = false) → span_digits (ds ++ rest) = (ds, rest).
Proof.
  intros Hds Hrest. induction Hds as [|b ds Hb _ IH].
  - destruct rest as [|b rest]; [done|]. cbn. by rewrite (Hrest b rest).
  - cbn. by rewrite Hb, IH.
Qed.

(** The fraction is read back, before a text that starts neither with a digit nor with a point. *)
Lemma read_fraction_text n rest :
  n < 10 ^ 9 → (∀ b l, rest = b :: l → is_ascii_digit b = false ∧ b ≠ 46) →
  read_fraction (fraction_text n ++ rest) = Some (n, rest).
Proof.
  intros Hn Hrest. unfold fraction_text. destruct (N.eqb_spec n 0) as [->|Hne].
  { destruct rest as [|b rest]; [done|]. destruct (Hrest b rest eq_refl) as [_ Hb]. cbn. by repeat case_match. }
  rewrite trim_end_zeros_cons by done. cbn [app read_fraction].
  destruct (trim_end_zeros_restore (padded 9 n)) as [j Hj].
  pose proof (padded_ascii 9 n) as Ha. pose proof (padded_length 9 n ltac:(lia) Hn) as Hl.
  pose proof (padded_value 9 n ltac:(unfold u64_max; lia)) as Hv.
  rewrite Hj in Ha, Hl, Hv. apply Forall_app in Ha as [Ha _]. rewrite length_app, length_replicate in Hl.
  rewrite span_digits_app; [|done|by intros b l ->; apply (Hrest b l)].
  revert Ha Hl Hv. generalize (trim_end_zeros (padded 9 n)). intros ds _ Hl Hv.
  replace (9 - length ds)%nat with j by lia. rewrite Hv.
  destruct ds as [|b ds]; [|destruct (Nat.ltb_spec 9 (length (b :: ds))); [lia|done]].
  exfalso. apply Hne. rewrite app_nil_l, <-(app_nil_r (replicate j 48)), digits_value_zeros in Hv. cbn in Hv. congruence.
Qed.

(** Offsets whose two parts do not disagree in sign are read back. *)
Lemma read_offset_text oh om :
  (-23 <= oh <= 23)%Z → (-59 <= om <= 59)%Z → (0 <= oh * om)%Z →
  read_offset (offset_text oh om) = Some (oh * 60 + om)%Z.
Proof.
  intros Hoh Hom Hsign. unfold offset_text. destruct (_ && _)%Z eqn:E0.
  { apply andb_true_iff in E0 as [->%Z.eqb_eq ->%Z.eqb_eq]. done. }
  assert (∀ z, (-59 <= z <= 59)%Z → padded_signed 2 (i32_abs z) = padded 2 (Z.abs_N z)) as Habs.
  { intros z Hz. unfold i32_abs, padded_signed. destruct (Z.eqb_spec z (-2 ^ 31)); [lia|].
    destruct (Z.ltb_spec (Z.abs z) 0); [lia|]. f_equal. lia. }
  rewrite !Habs by lia. clear Habs.
  assert (Z.abs_N oh <= 23 ∧ Z.abs_N om <= 59) as [Hh Hm] by lia.
  set (rest := 58 :: padded 2 (Z.abs_N om)).
  assert (read_digits 2 (padded 2 (Z.abs_N oh) ++ rest) = Some (Z.abs_N oh, rest)) as H1
    by (apply read_digits_padded; unfold u64_max; cbn; lia).
  assert (read_digits 2 (padded 2 (Z.abs_N om)) = Some (Z.abs_N om, [])) as H2
    by (rewrite <-(app_nil_r (padded _ _)); apply read_digits_padded; unfold u64_max; cbn; lia).
  assert (∀ sign, sign = 43 ∨ sign = 45 → read_offset (sign :: padded 2 (Z.abs_N oh) ++ rest)
    = Some (if (sign =? 43)%N then Z.of_N (Z.abs_N oh * 60 + Z.abs_N om)
            else (- Z.of_N (Z.abs_N oh * 60 + Z.abs_N om))%Z)) as Hread.
  { intros sign Hs. unfold read_offset. destruct Hs as [-> | ->]; cbn [N.eqb Pos.eqb].
    all: rewrite H1; cbn [mbind option_bind]; unfold rest; cbn [read_byte N.eqb Pos.eqb mbind option_bind].
    all: rewrite H2; cbn [mbind option_bind length Nat.eqb negb orb].
    all: by rewrite (proj2 (N.ltb_ge _ _) Hh), (proj2 (N.ltb_ge _ _) Hm). }
  destruct (_ || _)%Z eqn:Es; rewrite Hread by auto; cbn [N.eqb Pos.eqb]; f_equal.
  - apply orb_true_iff in Es as [?%Z.ltb_lt|?%Z.ltb_lt]; nia.
  - apply orb_false_iff in Es as [?%Z.ltb_ge ?%Z.ltb_ge]. lia.
Qed.

(** *** The calendar *)

Lemma find_month_sound index o lengths m d :
  find_month index o lengths = Some (m, d) →
  ∃ k days, m = index + N.of_nat k + 1 ∧ lengths !! k = Some days ∧ d <= days
    ∧ foldr N.add d (take k lengths) = o ∧ (1 <= o → 1 <= d).
Proof.
  revert index o. induction lengths as [|days lengths IH]; intros index o; cbn; [done|].
  destruct (N.leb_spec o days) as [Hle|Hgt].
  - intros [= <- <-]. exists 0%nat, days. split_and!; cbn; [lia|done|done|done|done].
  - intros (k & days' & -> & Hk & Hd & Hsum & Hpos)%IH. exists (S k), days'. cbn. split_and!; [lia|done|done|lia|].
    intros _. apply Hpos. lia.
Qed.

Lemma find_month_total index o lengths :
  lengths ≠ [] → o <= foldr N.add 0 lengths → is_Some (find_month index o lengths).
Proof.
  revert index o. induction lengths as [|days lengths IH]; intros index o Hne Ho; [done|]. cbn in *.
  destruct (N.leb_spec o days); [by eexists|]. apply IH; [|lia]. intros ->. cbn in Ho. lia.
Qed.

Lemma month_lengths_sum year : foldr N.add 0 (month_lengths year) = days_in_year year.
Proof. unfold month_lengths, days_in_year. by destruct (is_leap_year year). Qed.

Lemma month_lengths_bound year k days : month_lengths year !! k = Some days → (k < 12)%nat ∧ days <= 31.
Proof.
  intros Hk. split; [by apply lookup_lt_Some in Hk|]. apply list_elem_of_lookup_2 in Hk.
  unfold month_lengths in Hk. destruct (is_leap_year year); rewrite !elem_of_cons in Hk.
  all: repeat destruct Hk as [->|Hk]; try lia; by apply not_elem_of_nil in Hk.
Qed.

Lemma month_day_total year o :
  1 <= o <= days_in_year year →
  ∃ m d, month_day_from_ordinal year o = Ok (m, d) ∧ 1 <= m <= 12 ∧ 1 <= d <= 31
    ∧ foldr N.add d (take (N.to_nat (m - 1)) (month_lengths year)) = o
    ∧ ∃ days, month_lengths year !! N.to_nat (m - 1) = Some days ∧ d <= days.
Proof.
  intros [Ho1 Ho]. destruct (find_month_total 0 o (month_lengths year)) as [[m d] Hf]; [done|by rewrite month_lengths_sum|].
  exists m, d. unfold month_day_from_ordinal. rewrite Hf. split; [done|].
  apply find_month_sound in Hf as (k & days & -> & Hk & Hd & Hsum & Hpos).
  replace (N.to_nat (0 + N.of_nat k + 1 - 1)) with k by lia.
  pose proof (month_lengths_bound _ _ _ Hk) as [? ?]. specialize (Hpos Ho1). split_and!; try lia. by exists days.
Qed.

(** *** The text *)

Lemma padded_bytes k n : Forall (λ b, b < 256) (padded k n).
Proof. eapply Forall_impl; [apply padded_ascii|apply digit_lt_256]. Qed.
Lemma padded_signed_bytes k z : Forall (λ b, b < 256) (padded_signed k z).
Proof.
  unfold padded_signed. destruct (z <? 0)%Z; [|apply padded_bytes].
  constructor; [done|]. apply Forall_app. split; [by apply Forall_replicate|].
  eapply Forall_impl; [apply decimal_digits_ascii|apply digit_lt_256].
Qed.
Lemma fraction_bytes n : Forall (λ b, b < 256) (fraction_text n).
Proof.
  unfold fraction_text. destruct (n =? 0); [done|]. rewrite trim_end_zeros_cons by done. constructor; [done|].
  destruct (trim_end_zeros_restore (padded 9 n)) as [j Hj]. pose proof (padded_bytes 9 n) as H.
  rewrite Hj in H. by apply Forall_app in H as [H _].
Qed.
Lemma offset_bytes oh om : Forall (λ b, b < 256) (offset_text oh om).
Proof.
  unfold offset_text. destruct (_ && _); [by repeat constructor|]. constructor; [by destruct (_ || _)|].
  apply Forall_app. split; [apply padded_signed_bytes|]. constructor; [done|apply padded_signed_bytes].
Qed.
Lemma time_text_bytes y m d h mi s rest : Forall (λ b, b < 256) rest → Forall (λ b, b < 256) (time_text y m d h mi s rest).
Proof.
  intros Hrest. unfold time_text.
  repeat first [done | apply padded_signed_bytes | apply padded_bytes | apply Forall_cons; split | apply Forall_app; split].
Qed.

Lemma offset_text_starts oh om b l : offset_text oh om = b :: l → is_ascii_digit b = false ∧ b ≠ 46.
Proof.
  unfold offset_text. destruct (_ && _)%Z; [by intros [= <- _]|]. destruct (_ || _)%Z; by intros [= <- _].
Qed.

Lemma read_time_text y m d h mi s rest ns offset :
  (0 <= y <= 9999)%Z → m <= 99 → d <= 99 → h <= 23 → mi <= 59 → s <= 60 → date_is_valid (Z.to_N y) m d = true →
  (∃ l, read_fraction rest = Some (ns, l) ∧ read_offset l = Some offset) →
  read_rfc3339 (time_text y m d h mi s rest) = Some (mkTimestamp (Z.to_N y) m d h mi s ns offset).
Proof.
  intros Hy Hm Hd Hh Hmi Hs Hvalid (l & Hfraction & Hoffset). unfold read_rfc3339, time_text.
  unfold padded_signed. destruct (Z.ltb_spec y 0); [lia|].
  rewrite read_digits_padded by (unfold u64_max; cbn; lia). cbn [mbind option_bind read_byte N.eqb Pos.eqb].
  do 4 (rewrite read_digits_padded by (unfold u64_max; cbn; lia); cbn [mbind option_bind read_byte N.eqb Pos.eqb]).
  rewrite read_digits_padded by (unfold u64_max; cbn; lia). cbn [mbind option_bind].
  rewrite Hfraction. cbn [mbind option_bind]. rewrite Hoffset. cbn [mbind option_bind].
  by rewrite Hvalid, !(proj2 (N.leb_le _ _)).
Qed.

Lemma array_i32_at parts i field z :
  array_i32 parts i field = Ok z ↔ parts !! i = Some (JInt z) ∧ (-2 ^ 31 <= z < 2 ^ 31)%Z.
Proof.
  unfold array_i32. split.
  - destruct (parts !! i) as [v|]; cbn; [|done]. destruct v as [| |z'| | | |]; cbn; try done.
    destruct (_ && _)%Z; cbn; [|done]. unfold try_i32. destruct (_ && _)%Z eqn:E; cbn; [|done].
    intros [= <-]. apply andb_true_iff in E as [?%Z.leb_le ?%Z.ltb_lt]. done.
  - intros [-> Hz]. cbn. rewrite (proj2 (Z.leb_le _ _)), (proj2 (Z.ltb_lt _ _)) by lia. cbn. unfold try_i32.
    by rewrite (proj2 (Z.leb_le _ _)), (proj2 (Z.ltb_lt _ _)) by lia.
Qed.

Lemma array_u32_at parts i field n :
  array_u32 parts i field = Ok n ↔ parts !! i = Some (JInt (Z.of_N n)) ∧ n < 2 ^ 32.
Proof.
  unfold array_u32. split.
  - destruct (parts !! i) as [v|]; cbn; [|done]. destruct v as [| |z| | | |]; cbn; try done.
    destruct (_ && _)%Z eqn:E0; cbn; [|done]. unfold try_u32. destruct (_ <? _) eqn:E; cbn; [|done].
    intros [= <-]. apply andb_true_iff in E0 as [?%Z.leb_le ?%Z.ltb_lt]. apply N.ltb_lt in E. split; [do 2 f_equal; lia|done].
  - intros [-> Hn]. cbn. rewrite (proj2 (Z.leb_le _ _)), (proj2 (Z.ltb_lt _ _)) by lia. cbn. unfold try_u32.
    by rewrite N2Z.id, (proj2 (N.ltb_lt _ _)).
Qed.

(** The array that the older service sends for a time. *)
Definition time_array (year : Z) (ordinal hour minute second nanosecond : N) (offset_hour offset_minute : Z) : list Value :=
  JInt <$> [year; Z.of_N ordinal; Z.of_N hour; Z.of_N minute; Z.of_N second; Z.of_N nanosecond; offset_hour; offset_minute; 0%Z].

Lemma time_array_decodes y o h mi s ns oh om m d :
  (-2 ^ 31 <= y < 2 ^ 31)%Z → 1 <= o <= days_in_year y → h <= 23 → mi <= 59 → s <= 60 → ns <= 999999999 →
  (-23 <= oh <= 23)%Z → (-59 <= om <= 59)%Z → month_day_from_ordinal y o = Ok (m, d) →
  deserialize_legacy_time_array (time_array y o h mi s ns oh om)
  = Ok (string_of_bytes (time_text y m d h mi s (fraction_text ns ++ offset_text oh om))).
Proof.
  intros Hy Ho Hh Hmi Hs Hns Hoh Hom Hmd. set (parts := time_array y o h mi s ns oh om).
  assert (days_in_year y <= 366) by (unfold days_in_year; destruct (is_leap_year y); lia).
  unfold deserialize_legacy_time_array. change (negb (length parts =? 9)%nat) with false. cbv iota.
  rewrite (proj2 (array_i32_at parts 0 _ y)), (proj2 (array_u32_at parts 1 _ o)), (proj2 (array_u32_at parts 2 _ h)),
    (proj2 (array_u32_at parts 3 _ mi)), (proj2 (array_u32_at parts 4 _ s)), (proj2 (array_u32_at parts 5 _ ns)),
    (proj2 (array_i32_at parts 6 _ oh)), (proj2 (array_i32_at parts 7 _ om)), (proj2 (array_i32_at parts 8 _ 0%Z))
    by (split; [reflexivity|lia]).
  assert (∀ z, (-59 <= z <= 59)%Z → i32_abs z = Z.abs z) as Habs by (intros z Hz; unfold i32_abs; by destruct (Z.eqb_spec z (-2 ^ 31)); [lia|]).
  cbn [mbind result_bind]. rewrite !Habs by lia.
  rewrite (proj2 (N.eqb_neq o 0)), !(proj2 (N.ltb_ge _ _)), !(proj2 (Z.ltb_ge _ _)) by lia. cbn [orb negb Z.eqb].
  rewrite Hmd. done.
Qed.

Module Expiry.

(** The expiry of the older service is printed faithfully. An array that stands for a time, with a
    year of four digits and an offset whose two parts do not disagree in sign, is accepted, and
    reading the printed text as an RFC 3339 timestamp gives a valid date with the same year, day of
    the year, time of day to the nanosecond and offset. *)
Theorem legacy_expiry_reads_back y o h mi s ns oh om :
  (0 <= y <= 9999)%Z → 1 <= o <= days_in_year y → h <= 23 → mi <= 59 → s <= 60 → ns <= 999999999 →
  (-23 <= oh <= 23)%Z → (-59 <= om <= 59)%Z → (0 <= oh * om)%Z →
  ∃ text t, deserialize_relay_expires_at (JArray (time_array y o h mi s ns oh om)) = Ok text
    ∧ read_rfc3339 (string_bytes text) = Some t
    ∧ Z.of_N (ts_year t) = y ∧ day_of_year t = o ∧ ts_hour t = h ∧ ts_minute t = mi ∧ ts_second t = s
    ∧ ts_nanosecond t = ns ∧ ts_offset_minutes t = (oh * 60 + om)%Z.
Proof.
  intros Hy Ho Hh Hmi Hs Hns Hoh Hom Hsign.
  destruct (month_day_total y o Ho) as (m & d & Hmd & Hm & Hd & Hsum & days & Hdays & Hle).
  exists (string_of_bytes (time_text y m d h mi s (fraction_text ns ++ offset_text oh om))),
    (mkTimestamp (Z.to_N y) m d h mi s ns (oh * 60 + om)). split_and!; cbn; try done; try lia.
  - apply time_array_decodes; done || lia.
  - rewrite bytes_of_string_of_bytes by (apply time_text_bytes, Forall_app; auto using fraction_bytes, offset_bytes).
    apply read_time_text; try lia.
    + unfold date_is_valid. rewrite Z2N.id, Hdays by lia. rewrite !andb_true_iff, !N.leb_le. lia.
    + exists (offset_text oh om). split; [apply read_fraction_text; [lia|apply offset_text_starts]|by apply read_offset_text].
  - unfold day_of_year. cbn. by rewrite Z2N.id by lia.
Qed.

(** Only times are accepted. An array that is printed has nine integers with the day within its year
    and the time within its day; an offset part is within its bounds or the least 32-bit integer,
    whose absolute value wraps around and passes the check. *)
Theorem legacy_expiry_is_a_time parts text :
  deserialize_relay_expires_at (JArray parts) = Ok text →
  ∃ y o h mi s ns oh om, parts = time_array y o h mi s ns oh om
    ∧ 1 <= o <= days_in_year y ∧ h <= 23 ∧ mi <= 59 ∧ s <= 60 ∧ ns <= 999999999
    ∧ (oh = -2 ^ 31 ∨ -23 <= oh <= 23)%Z ∧ (om = -2 ^ 31 ∨ -59 <= om <= 59)%Z.
Proof.
  cbn [deserialize_relay_expires_at]. unfold deserialize_legacy_time_array.
  destruct (Nat.eqb_spec (length parts) 9) as [Hlen|]; [|done]. cbn [negb]. intros H.
  apply bind_Ok in H as (y & [Hy _]%array_i32_at & H).
  apply bind_Ok in H as (o & [Ho _]%array_u32_at & H).
  apply bind_Ok in H as (h & [Hh _]%array_u32_at & H).
  apply bind_Ok in H as (mi & [Hmi _]%array_u32_at & H).
  apply bind_Ok in H as (s & [Hs _]%array_u32_at & H).
  apply bind_Ok in H as (ns & [Hns _]%array_u32_at & H).
  apply bind_Ok in H as (oh & [Hoh _]%array_i32_at & H).
  apply bind_Ok in H as (om & [Hom _]%array_i32_at & H).
  apply bind_Ok in H as (os & [Hos _]%array_i32_at & H).
  destruct (_ || _) eqn:E1 in H; [done|]. destruct (_ || _) eqn:E2 in H; [done|]. destruct (_ || _) eqn:E3 in H; [done|].
  rewrite orb_false_iff, N.ltb_ge, N.eqb_neq in E1. rewrite !orb_false_iff, !N.ltb_ge in E2.
  rewrite !orb_false_iff, !Z.ltb_ge, negb_false_iff, Z.eqb_eq in E3. destruct E3 as [[Hoh' Hom'] ->]. exists y, o, h, mi, s, ns, oh, om. split.
  - do 9 (destruct parts as [|? parts]; [done|]). destruct parts; [|done]. cbn in *. by simplify_eq.
  - unfold i32_abs in *. destruct (Z.eqb_spec oh (-2 ^ 31)), (Z.eqb_spec om (-2 ^ 31)); lia.
Qed.

Example least_offset_passes :
  deserialize_relay_expires_at (JArray (time_array 2026 150 0 0 0 0 (-2147483648) 0))
  = Ok "2026-05-30T00:00:00--2147483648:00"%string.
Proof. vm_compute. reflexivity. Qed.
End Expiry.
