(* ===== verification/Brokers.v ===== *)
(** * The brokers

  Models [src/src/voice/broker.rs], [src/src/voice/http_broker.rs] and
  [src/src/file_relay/http_broker.rs]: the clients of the trusted voice and file-relay services,
  and [create_lobby_voice_room] of [src/src/lobbies/lobby_registry_voice_ops.rs], which asks the
  voice service a second time when it refuses a full lobby. The trait [VoiceBroker] is a
  class with its two implementations as instances; what the lobbies rely on is the class
  [VoiceBrokerLaws], and the lobby's theorem is proved against it. The [url] library, the
  HTTP client and serde's decoders are parameters; a computation carries the list of the
  requests sent so far. *)

From S2P Require Import Prelude Ids Wire Text Descriptor Protocol Slots RoomTransactions StartSync Registry FileRelay ControlSocket.
From S2P Require Import Lobby LobbyRegistry Parse Auth Rollout Config.
Open Scope N_scope.

(** ** Libraries *)

(** The part of the [url] crate that is used: [url_push u segments] is [path_segments_mut], with
    [pop_if_empty] before the segments are pushed. *)
Record UrlLib := mkUrlLib {
  url : Type;
  url_parse : string → option url;
  url_path : url → string;
  url_set_path : string → url → url;
  url_join : url → string → option url;
  url_push : url → list string → option url;
  url_as_str : url → string }.

Inductive HttpMethod := MethodPost | MethodDelete.
Inductive BrokerBody :=
| BodyCreateRoom (request : CreateVoiceRoomBrokerRequest)
| BodyIssueToken (request : IssueVoiceTokenBrokerRequest)
| BodyReason (reason : string)
| BodyCreateTransfer (request : CreateFileRelayTransferRequest).

Record HttpCall {U : Type} := mkHttpCall {
  call_method : HttpMethod;
  call_url : U;
  call_bearer : string;
  call_body : BrokerBody }.
Arguments HttpCall : clear implicits.
Arguments mkHttpCall {U}.

Inductive HttpAnswer := AnswerTimedOut | AnswerFailed | Responded (status : N) (body : bytes).

(** ** voice/broker.rs *)

Inductive VoiceBrokerError :=
| VoiceDisabled
| VoiceInvalidUrl
| VoiceRequestFailed
| VoiceUnexpectedStatus (status : N)
| VoiceInvalidResponse.

Section brokers.
Context (lib : UrlLib) (answer : nat → HttpCall (url lib) → HttpAnswer).
Context (decode_room : bytes → option CreateVoiceRoomBrokerResponse) (decode_grant : bytes → option VoiceBrokerGrant).
Context (decode_transfer : bytes → option CreateFileRelayTransferResponse).

Definition HttpM (A : Type) : Type := M (list (HttpCall (url lib))) VoiceBrokerError A.

Class VoiceBroker (B : Type) := {
  voice_is_enabled : B → bool;
  voice_create_room : B → CreateVoiceRoomBrokerRequest → HttpM CreateVoiceRoomBrokerResponse;
  voice_issue_token : B → string → IssueVoiceTokenBrokerRequest → HttpM VoiceBrokerGrant;
  voice_close_room : B → string → string → HttpM unit;
  voice_remove_participant : B → string → string → string → HttpM unit }.

Inductive DisabledVoiceBroker := disabled_voice_broker.

Definition disabled_voice_operations : VoiceBroker DisabledVoiceBroker := {|
  voice_is_enabled _ := false;
  voice_create_room _ _ := throw VoiceDisabled;
  voice_issue_token _ _ _ := throw VoiceDisabled;
  voice_close_room _ _ _ := mret tt;
  voice_remove_participant _ _ _ _ := mret tt |}.
#[export] Instance VoiceBroker_disabled : VoiceBroker DisabledVoiceBroker := disabled_voice_operations.

(** ** voice/http_broker.rs *)

Record HttpVoiceBroker := mkHttpVoiceBroker { voice_base_url : url lib; voice_bearer_token : string }.

Definition ends_with_slash (value : string) : bool :=
  match last (string_bytes value) with Some b => b =? 47 | None => false end.

(** The code of both clients is the same. *)
Definition parse_base_url {E} (invalid : E) (value : string) : result E (url lib) :=
  u ← ok_or (url_parse lib value) invalid;
  Ok (if ends_with_slash (url_path lib u) then u else url_set_path lib (url_path lib u ++ "/") u).

(** [client_builds] says whether [reqwest] could build its client. *)
Definition HttpVoiceBroker_new (client_builds : bool) (base_url bearer_token : string)
    : result VoiceBrokerError HttpVoiceBroker :=
  if negb client_builds then Err VoiceRequestFailed
  else base_url ← parse_base_url VoiceInvalidUrl base_url; Ok (mkHttpVoiceBroker base_url bearer_token).

Definition endpoint (b : HttpVoiceBroker) (path : string) : result VoiceBrokerError (url lib) :=
  ok_or (url_join lib (voice_base_url b) path) VoiceInvalidUrl.

Definition participant_endpoint (b : HttpVoiceBroker) (voice_room_id participant_identity : string)
    : result VoiceBrokerError (url lib) :=
  u ← endpoint b "v1/voice/rooms/";
  ok_or (url_push lib u [voice_room_id; "participants"%string; participant_identity]) VoiceInvalidUrl.

(** [.bearer_auth(..).json(..).send()] and the check of the status, which all four methods share. *)
Definition exchange (b : HttpVoiceBroker) (method : HttpMethod) (u : url lib) (body : BrokerBody) : HttpM bytes := λ calls,
  let call := mkHttpCall method u (voice_bearer_token b) body in
  (match answer (length calls) call with
   | AnswerTimedOut | AnswerFailed => Err VoiceRequestFailed
   | Responded status body => if is_success status then Ok body else Err (VoiceUnexpectedStatus status)
   end, calls ++ [call]).

Definition http_create_room (b : HttpVoiceBroker) (request : CreateVoiceRoomBrokerRequest)
    : HttpM CreateVoiceRoomBrokerResponse :=
  u ← lift_result (endpoint b "v1/voice/rooms");
  body ← exchange b MethodPost u (BodyCreateRoom request);
  lift_result (ok_or (decode_room body) VoiceInvalidResponse).

Definition http_issue_token (b : HttpVoiceBroker) (voice_room_id : string) (request : IssueVoiceTokenBrokerRequest)
    : HttpM VoiceBrokerGrant :=
  u ← lift_result (endpoint b ("v1/voice/rooms/" ++ voice_room_id ++ "/tokens"));
  body ← exchange b MethodPost u (BodyIssueToken request);
  lift_result (ok_or (decode_grant body) VoiceInvalidResponse).

Definition http_close_room (b : HttpVoiceBroker) (voice_room_id reason : string) : HttpM unit :=
  u ← lift_result (endpoint b ("v1/voice/rooms/" ++ voice_room_id));
  _ ← exchange b MethodDelete u (BodyReason reason);
  mret tt.

Definition http_remove_participant (b : HttpVoiceBroker) (voice_room_id participant_identity reason : string) : HttpM unit :=
  u ← lift_result (participant_endpoint b voice_room_id participant_identity);
  _ ← exchange b MethodDelete u (BodyReason reason);
  mret tt.

Definition http_voice_operations : VoiceBroker HttpVoiceBroker := {|
  voice_is_enabled _ := true;
  voice_create_room := http_create_room;
  voice_issue_token := http_issue_token;
  voice_close_room := http_close_room;
  voice_remove_participant := http_remove_participant |}.
#[export] Instance VoiceBroker_http : VoiceBroker HttpVoiceBroker := http_voice_operations.

(** ** file_relay/http_broker.rs *)

Definition HttpFileRelayBroker_new (client_builds : bool) (base_url bearer_token : string)
    : result FileRelayBrokerError FileRelayBroker :=
  if negb client_builds then Err BrokerRequestFailed
  else
    base_url ← parse_base_url BrokerInvalidUrl base_url;
    Ok (mkFileRelayBroker true (Some (trim_end_slashes (url_as_str lib base_url))) (λ n request,
      u ← ok_or (url_join lib base_url "v1/transfers") BrokerInvalidUrl;
      match answer n (mkHttpCall MethodPost u bearer_token (BodyCreateTransfer request)) with
      | AnswerTimedOut => Err BrokerRequestTimedOut
      | AnswerFailed => Err BrokerRequestFailed
      | Responded status body =>
          if negb (is_success status) then Err (BrokerUnexpectedStatus status)
          else ok_or (decode_transfer body) BrokerInvalidResponse
      end)).
End brokers.

Arguments voice_is_enabled {lib B _}.
Arguments voice_create_room {lib B _}.
Arguments voice_issue_token {lib B _}.
Arguments voice_close_room {lib B _}.
Arguments voice_remove_participant {lib B _}.

(** ** What the clients of a broker rely on *)

(** [discreet token n m]: [m] sends at most [n] requests, each with this service token. *)
Definition discreet {lib A} (token : option string) (n : nat) (m : HttpM lib A) : Prop := ∀ calls,
  ∃ sent, (m calls).2 = calls ++ sent ∧ (length sent <= n)%nat ∧ Forall (λ call, Some (call_bearer call) = token) sent.

(** A broker has a service token exactly when it is enabled; it sends at most one request per
    operation, with that token; and without being enabled it hands out no grants. *)
Class VoiceBrokerLaws (lib : UrlLib) (B : Type) `{VoiceBroker lib B} := {
  voice_service_token : B → option string;
  voice_token_enabled b : voice_is_enabled b = is_some (voice_service_token b);
  voice_create_room_discreet b request : discreet (voice_service_token b) 1 (voice_create_room b request);
  voice_issue_token_discreet b id request : discreet (voice_service_token b) 1 (voice_issue_token b id request);
  voice_close_room_discreet b id reason : discreet (voice_service_token b) 1 (voice_close_room b id reason);
  voice_remove_participant_discreet b id who reason :
    discreet (voice_service_token b) 1 (voice_remove_participant b id who reason);
  voice_disabled_refuses b : voice_is_enabled b = false →
    (∀ request calls, (voice_create_room b request calls).1 = Err VoiceDisabled)
    ∧ (∀ id request calls, (voice_issue_token b id request calls).1 = Err VoiceDisabled) }.

Section discreet.
Context {lib : UrlLib}.

Lemma discreet_pure {A} token n (m : HttpM lib A) : (∀ calls, (m calls).2 = calls) → discreet token n m.
Proof. intros Hm calls. exists []. rewrite app_nil_r. split; [apply Hm|]. split; [cbn; lia|constructor]. Qed.

Lemma discreet_bind {A C} token n k (m : HttpM lib A) (f : A → HttpM lib C) :
  discreet token n m → (∀ a, discreet token k (f a)) → discreet token (n + k) (m ≫= f).
Proof.
  intros Hm Hf calls. destruct (Hm calls) as (sent & Hs & Hn & Ht). unfold mbind, M_bind.
  destruct (m calls) as [[a|e] calls1]; cbn in Hs; subst.
  - destruct (Hf a (calls ++ sent)) as (sent' & Hs' & Hn' & Ht'). exists (sent ++ sent').
    rewrite Hs', app_assoc, length_app. split_and!; [done|lia|by apply Forall_app].
  - exists sent. split_and!; [done|lia|done].
Qed.

Lemma discreet_weaken {A} token n k (m : HttpM lib A) : (n <= k)%nat → discreet token n m → discreet token k m.
Proof. intros Hle Hm calls. destruct (Hm calls) as (sent & ? & ? & ?). exists sent. split_and!; [done|lia|done]. Qed.

Lemma discreet_attempt {A} token n (m : HttpM lib A) : discreet token n m → discreet token n (attempt m).
Proof. intros Hm calls. unfold attempt. specialize (Hm calls). by destruct (m calls) as [[] ?]. Qed.
End discreet.

#[export] Instance VoiceBrokerLaws_disabled lib : VoiceBrokerLaws lib DisabledVoiceBroker.
Proof.
  refine {| voice_service_token := λ _, None |}; try (intros; by apply discreet_pure); [done|]. by intros ? _.
Defined.

Lemma exchange_discreet lib answer b method u body :
  discreet (Some (voice_bearer_token lib b)) 1 (exchange lib answer b method u body).
Proof. intros calls. eexists [_]. split; [reflexivity|]. split; [done|]. by constructor. Qed.

Lemma http_discreet {lib A} answer b (r : result VoiceBrokerError (url lib)) method body (k : bytes → HttpM lib A) :
  (∀ payload calls, (k payload calls).2 = calls) →
  discreet (Some (voice_bearer_token lib b)) 1
    (u ← lift_result r; payload ← exchange lib answer b method u body; k payload).
Proof.
  intros Hk. apply (discreet_bind _ 0 1); [by apply discreet_pure|intros u].
  apply (discreet_bind _ 1 0); [apply exchange_discreet|intros payload]. by apply discreet_pure.
Qed.

#[export] Instance VoiceBrokerLaws_http lib answer decode_room decode_grant :
  @VoiceBrokerLaws lib (HttpVoiceBroker lib) (VoiceBroker_http lib answer decode_room decode_grant).
Proof.
  refine {| voice_service_token := λ b, Some (voice_bearer_token lib b) |}; try (intros; by apply http_discreet); done.
Defined.

(** ** The client in the lobby registry *)

Section client.
Context {lib : UrlLib} {B : Type} `{VoiceBroker lib B}.

(** [create_lobby_voice_room] with its broker: a service that refuses four participants is asked
    for two. *)
Definition ask_for_lobby_room (b : B) (uuid : N → string) (mode : NetplayVoiceMode) (l : Lobby)
    : HttpM lib CreateVoiceRoomBrokerResponse :=
  outcome ← attempt (voice_create_room b (create_lobby_voice_request uuid mode MAX_LOBBY_PLAYERS l));
  match outcome with
  | Ok response => mret response
  | Err (VoiceUnexpectedStatus status) =>
      if (status =? 400) && (LEGACY_LOBBY_VOICE_MAX_PARTICIPANTS <? MAX_LOBBY_PLAYERS)
      then voice_create_room b (create_lobby_voice_request uuid mode LEGACY_LOBBY_VOICE_MAX_PARTICIPANTS l)
      else throw (VoiceUnexpectedStatus status)
  | Err error => throw error
  end.

(** What the registry sees of the broker's outcome. *)
Definition broker_answer (r : result VoiceBrokerError CreateVoiceRoomBrokerResponse) : BrokerAnswer :=
  match r with
  | Ok response => BrokerRoom response
  | Err (VoiceUnexpectedStatus status) => BrokerStatus status
  | Err _ => BrokerFailure
  end.

(** The broker as the registry sees it from here on: the full request is the next one, a
    smaller one comes after it. *)
Definition observed (b : B) (uuid : N → string) (mode : NetplayVoiceMode) (l : Lobby) (calls : list (HttpCall (url lib)))
    (request : CreateVoiceRoomBrokerRequest) : BrokerAnswer :=
  if voice_request_max_participants request =? MAX_LOBBY_PLAYERS then broker_answer (voice_create_room b request calls).1
  else broker_answer (voice_create_room b request
         (voice_create_room b (create_lobby_voice_request uuid mode MAX_LOBBY_PLAYERS l) calls).2).1.
End client.

Module Voice.

(** A lobby's voice room costs at most two requests, under the server's own token. Whatever broker
    is configured and whatever the voice service answers, asking for a lobby's room sends at
    most two requests, every one of them with the broker's service token, and none when voice is
    disabled; and its outcome is the one the lobby registry computes from the answers to the
    full and to the reduced request. *)
Theorem lobby_voice_requests {lib B} `{VoiceBrokerLaws lib B} (b : B) uuid mode l calls :
  (∃ sent, (ask_for_lobby_room b uuid mode l calls).2 = calls ++ sent ∧ (length sent <= 2)%nat
     ∧ Forall (λ call, Some (call_bearer call) = voice_service_token b) sent
     ∧ (voice_is_enabled b = false → sent = []))
  ∧ create_lobby_voice_room (observed b uuid mode l calls) uuid mode l =
      match (ask_for_lobby_room b uuid mode l calls).1 with Ok response => Some response | Err _ => None end.
Proof.
  split.
  - assert (discreet (voice_service_token b) 2 (ask_for_lobby_room b uuid mode l)) as Hd.
    { unfold ask_for_lobby_room. apply (discreet_bind _ 1 1); [apply discreet_attempt, voice_create_room_discreet|].
      intros [response|[]]; try by apply discreet_pure.
      destruct (_ && _); [apply voice_create_room_discreet|by apply discreet_pure]. }
    destruct (Hd calls) as (sent & Hs & Hn & Ht). exists sent. split_and!; [done..|]. intros Hoff.
    destruct sent as [|call sent]; [done|]. inversion Ht as [|? ? Hcall]; subst.
    rewrite voice_token_enabled, <-Hcall in Hoff. done.
  - unfold create_lobby_voice_room, ask_for_lobby_room, observed, mbind, M_bind, attempt.
    cbn [voice_request_max_participants create_lobby_voice_request N.eqb MAX_LOBBY_PLAYERS LEGACY_LOBBY_VOICE_MAX_PARTICIPANTS].
    destruct (voice_create_room b (create_lobby_voice_request uuid mode MAX_LOBBY_PLAYERS l) calls) as [[response|[]] calls1];
      try reflexivity. cbn [broker_answer fst snd N.eqb Pos.eqb]. destruct (_ && _); [|reflexivity].
    by destruct (voice_create_room _ _ calls1) as [[|[]] ?].
Qed.
End Voice.

(** ** An older voice service, which knows two participants *)

Definition plain_urls : UrlLib :=
  mkUrlLib string Some (λ u, u) (λ path _, path) (λ u path, Some (u ++ path)%string)
    (λ u segments, Some (foldl (λ u segment, u ++ "/" ++ segment)%string u segments)) (λ u, u).
Definition two_at_most (n : nat) (call : HttpCall string) : HttpAnswer :=
  match call_body call with
  | BodyCreateRoom request => Responded (if voice_request_max_participants request <=? 2 then 200 else 400) []
  | _ => AnswerFailed
  end.
Definition empty_room : CreateVoiceRoomBrokerResponse :=
  mkCreateVoiceRoomBrokerResponse (mkVoiceBrokerRoomView "room" "lk" "wss://voice" "" "" 1 PushToTalk 2) [].

Example legacy_service_is_asked_twice l :
  let broker := mkHttpVoiceBroker plain_urls "https://voice/" "token" in
  let '(outcome, calls) := @ask_for_lobby_room plain_urls _
    (VoiceBroker_http plain_urls two_at_most (λ _, Some empty_room) (λ _, None)) broker (λ _, "id"%string) PushToTalk l [] in
  outcome = Ok empty_room
  ∧ (λ c, (call_url c, call_bearer c)) <$> calls = [("https://voice/v1/voice/rooms", "token"); ("https://voice/v1/voice/rooms", "token")]%string.
Proof. split; reflexivity. Qed.
