(* ===== verification/Background.v ===== *)
(** * Background tasks

  Models [src/src/rooms/room_expiration_task.rs], [src/src/rooms/room_frame_clock_task.rs] and
  [src/src/lobbies/lobby_expiration_task.rs]: three endless loops that wait for the next tick of
  a timer and call one operation of a registry. A task is a computation over the shared
  registry like the socket tasks, and [rounds] is how many ticks of the loop are followed. *)

From S2P Require Import Prelude Ids Protocol Invite Slots Room StartSync RoomEvents StoredRoom Registry RegistryRefinement RegistryGuarantees.
From S2P Require Import Lobby LobbyEvents LobbyRegistry Metrics Socket.
Open Scope N_scope.

Definition ROOM_EXPIRATION_SWEEP_INTERVAL : Duration := from_secs 60.
Definition ROOM_FRAME_CLOCK_INTERVAL : Duration := 16666667.
Definition LOBBY_EXPIRATION_SWEEP_INTERVAL : Duration := from_secs 60.

(** When the [n]-th tick of [tokio::time::interval] is due: the first one at once, and late ticks
    are caught up. *)
Definition tick_due (started : Instant) (period : Duration) (n : nat) : Instant := started + N.of_nat n * period.

(** The loop around the body of a task; the counts that its rounds returned. *)
Fixpoint every_tick {S F} (rounds : nat) (body : SocketM S F nat) : SocketM S F (list nat) :=
  match rounds with
  | O => mret []
  | Datatypes.S rounds =>
      count ← body;
      counts ← every_tick rounds body;
      mret (count :: counts)
  end.

Section room_tasks.
Context (deps : RegistryDeps) (env : Env Registry).

(** The task writes to no socket. *)
Definition room_expiration_round : SocketM Registry Empty_set nat :=
  access env (λ n, sweep_expired_rooms deps (wall_at env n) (now_at env n) ROOM_JOIN_TIMEOUT).
Definition spawn_room_expiration_task (rounds : nat) : SocketM Registry Empty_set (list nat) :=
  every_tick rounds room_expiration_round.

Definition room_frame_clock_round : SocketM Registry Empty_set nat :=
  access env (λ n, release_next_controller_frames deps (now_at env n)).
Definition spawn_room_frame_clock_task (rounds : nat) : SocketM Registry Empty_set (list nat) :=
  every_tick rounds room_frame_clock_round.
End room_tasks.

Section lobby_tasks.
Context (deps : LobbyDeps) (env : Env LobbyRegistry) (idle_timeout : Duration).

Definition lobby_expiration_round : SocketM LobbyRegistry Empty_set nat :=
  access env (λ n, expire_idle_lobbies deps (wall_at env n) (now_at env n) idle_timeout).
Definition spawn_lobby_expiration_task (rounds : nat) : SocketM LobbyRegistry Empty_set (list nat) :=
  every_tick rounds lobby_expiration_round.
End lobby_tasks.

(** ** Lemmas *)

Lemma keeps_every_tick {S F} (P : World S F → Prop) rounds (body : SocketM S F nat) :
  keeps P body → keeps P (every_tick rounds body).
Proof.
  intros Hbody. induction rounds as [|rounds IH]; cbn [every_tick]; [by apply keeps_pure|].
  apply keeps_bind; [done|intros ?]. apply keeps_bind; [done|intros ?]. by apply keeps_pure.
Qed.

Lemma every_tick_last {S F} rounds (body : SocketM S F nat) w counts w' :
  every_tick (Datatypes.S rounds) body w = (Ok counts, w') →
  ∃ counts0 count w0, every_tick rounds body w = (Ok counts0, w0) ∧ body w0 = (Ok count, w').
Proof.
  revert w counts. induction rounds as [|rounds IH]; intros w counts H.
  - cbn [every_tick] in H. unfold mbind, M_bind in H. destruct (body w) as [[count|e] w1] eqn:E; [|done].
    injection H as _ <-. by exists [], count, w.
  - remember (Datatypes.S rounds) as m. cbn [every_tick] in H. unfold mbind at 1, M_bind at 1 in H.
    destruct (body w) as [[count|e] w1] eqn:E; [|done]. unfold mbind, M_bind in H.
    destruct (every_tick m body w1) as [[counts1|e] w2] eqn:E2; [|done]. cbn in H. injection H as _ <-.
    destruct (IH w1 counts1) as (counts0 & count' & w0 & H0 & H1); [done|].
    exists (count :: counts0), count', w0. subst m. cbn [every_tick]. unfold mbind, M_bind. by rewrite E, H0.
Qed.

Section expiration.
Context (deps : RegistryDeps) (env : Env Registry).

Lemma room_expiration_tick rounds w counts w' :
  spawn_room_expiration_task deps env rounds w = (Ok counts, w') → tick w' = (tick w + rounds)%nat.
Proof.
  revert w counts. unfold spawn_room_expiration_task. induction rounds as [|rounds IH]; intros w counts H.
  - cbn in H. injection H as _ <-. lia.
  - cbn [every_tick] in H. unfold mbind at 1, M_bind at 1 in H.
    destruct (room_expiration_round deps env w) as [[count|e] w1] eqn:E; [|done]. unfold mbind, M_bind in H.
    destruct (every_tick rounds _ w1) as [[counts1|e] w2] eqn:E2; [|done]. cbn in H. injection H as _ <-.
    rewrite (IH _ _ E2). unfold room_expiration_round, access in E. destruct (sweep_expired_rooms _ _ _ _ _).
    injection E as _ <-. cbn. lia.
Qed.

(** No expired room survives a round. *)
Lemma room_expiration_round_collects w count w' k s :
  room_expiration_round deps env w = (Ok count, w') → invite_codes (shared w') !! k = Some s →
  is_expired deps (now_at env (tick w)) ROOM_JOIN_TIMEOUT s = false.
Proof.
  unfold room_expiration_round, access. intros H Hs.
  pose proof (Registry_.sweep_removes_expired deps (wall_at env (tick w)) (now_at env (tick w)) ROOM_JOIN_TIMEOUT
    (others env (tick w) (shared w))) as Hsweep.
  destruct (sweep_expired_rooms _ _ _ _ _) as [n g]. injection H as <- <-. cbn [shared] in Hs.
  apply Hsweep in Hs. naive_solver.
Qed.
End expiration.

(** A room that nobody joins, a host with long heartbeats, and a timer that is never late. *)
Definition patient_deps : RegistryDeps :=
  mkRegistryDeps (λ b, b) 0
    (mkRoomRecoveryConfig (from_secs 60) (from_secs 90) (from_secs 3600) (from_secs 7200) (from_secs 7200)) false.
Definition timer_env : Env Registry :=
  mkEnv Registry (λ _ g, g) (λ _, 0) (λ n, tick_due 0 ROOM_EXPIRATION_SWEEP_INTERVAL n) (λ _, 0) (λ _, ""%string) (λ _, ""%string)
    (λ _, 0) (λ _, true).
Definition lonely_registry : Registry := serve_all [(0, create_call sample_code)] Registry_new.

Module Timers.

(** A room that nobody joins is collected. When no tick of the expiration task comes before it is
    due, a room that still waits for its guest after the task's [n]-th round was created less
    than the join timeout before that round was due: whatever the other tasks do, a room
    older than that is gone. *)
Theorem waiting_rooms_are_collected deps env started n w counts w' k s :
  (∀ i, (i <= n)%nat → tick_due started ROOM_EXPIRATION_SWEEP_INTERVAL i <= now_at env (tick w + i)) →
  spawn_room_expiration_task deps env (Datatypes.S n) w = (Ok counts, w') →
  invite_codes (shared w') !! k = Some s → status (stored_room s) = WaitingForGuest →
  tick_due started ROOM_EXPIRATION_SWEEP_INTERVAL n < created_at s + ROOM_JOIN_TIMEOUT.
Proof.
  intros Hdue Hrun Hs Hstatus. apply every_tick_last in Hrun as (counts0 & count & w0 & H0 & H1).
  apply (room_expiration_round_collects deps env w0 count w' k s) in H1; [|done].
  apply room_expiration_tick in H0. specialize (Hdue n ltac:(lia)). rewrite H0 in H1.
  unfold is_expired in H1. rewrite !orb_false_iff in H1. destruct H1 as [[H1 _] _].
  unfold is_expired_waiting in H1. rewrite Hstatus in H1. cbn in H1. apply N.leb_gt in H1.
  unfold duration_since in H1. lia.
Qed.

Lemma waiting_rooms_are_collected_witness :
  let run rounds := spawn_room_expiration_task patient_deps timer_env rounds (mkWorld lonely_registry 0 0 [] InMemoryMetrics_new) in
  size (invite_codes (shared (run 10%nat).2)) = 1%nat ∧ size (invite_codes (shared (run 11%nat).2)) = 0%nat
  ∧ tick_due 0 ROOM_EXPIRATION_SWEEP_INTERVAL 9 < created_at (stored_at sample_code lonely_registry) + ROOM_JOIN_TIMEOUT.
Proof.
  cbv zeta. split; [vm_compute; reflexivity|]. split; [vm_compute; reflexivity|].
  apply (waiting_rooms_are_collected patient_deps timer_env 0 9 (mkWorld lonely_registry 0 0 [] InMemoryMetrics_new)
    (repeat 0%nat 10) (spawn_room_expiration_task patient_deps timer_env 10 (mkWorld lonely_registry 0 0 [] InMemoryMetrics_new)).2
    (normalized sample_code)); [intros i _; cbn; lia|vm_compute; reflexivity..].
Defined.
End Timers.
