(* ===== verification/Process.v ===== *)
(** * The process

  Every task of the server at once: the HTTP handlers, the control, input and lobby sockets, the
  directory of public lobbies, the wake-up of a held first frame and the three background
  tasks. The tasks share the two registries. Each one is proved here to cooperate: when everything
  the other tasks do is a sequence of operations of the registries, so is everything that
  this task does. What the theorems about registries say of reachable states therefore holds at
  every moment of the process that [main] starts. *)

From S2P Require Import Prelude Ids Wire Invite Descriptor Protocol Slots Room StartSync System SlotInvariant FrameInvariant.
From S2P Require Import RoomEvents StoredRoom Registry RegistryRelay RegistryRefinement RegistryGuarantees.
From S2P Require Import Lobby LobbyInvariant LobbyEvents LobbyRegistry LobbyCalls LobbyGuarantees RateLimit Metrics FileRelay.
From S2P Require Import Socket Messages ControlSocket InputSocket SocketConfinement LobbySocket LobbySocketGuarantees.
From S2P Require Import Parse Auth Rollout Http Config Routes RouteGuarantees Background.
Open Scope N_scope.

(** ** What may happen to the shared state *)

Definition rooms_evolve (deps : RegistryDeps) : relation Registry :=
  rtc (λ g g', ∃ wall_ms now call, g' = RegistryRefinement.serve deps wall_ms now call g).
Definition lobbies_evolve (deps : LobbyDeps) : relation LobbyRegistry :=
  rtc (λ g g', ∃ wall_ms now_ms op, g' = lobby_serve deps wall_ms now_ms op g).
Definition app_evolves (deps : RegistryDeps) (lobby_deps : LobbyDeps) (app app' : App) : Prop :=
  rooms_evolve deps (app_rooms app) (app_rooms app') ∧ lobbies_evolve lobby_deps (app_lobbies app) (app_lobbies app').

(** A task that does [R] to the shared state as long as the others do. *)
Definition cooperates {S F A} (R : relation S) (task : Env S → SocketM S F A) : Prop :=
  ∀ env w, (∀ n s, R s (others env n s)) → R (shared w) (shared (task env w).2).

Lemma rooms_step deps g0 wall_ms now call g :
  rooms_evolve deps g0 g → rooms_evolve deps g0 (RegistryRefinement.serve deps wall_ms now call g).
Proof. intros Hg. eapply rtc_r; [exact Hg|]. by exists wall_ms, now, call. Qed.
Lemma lobbies_step deps g0 wall_ms now_ms op g :
  lobbies_evolve deps g0 g → lobbies_evolve deps g0 (lobby_serve deps wall_ms now_ms op g).
Proof. intros Hg. eapply rtc_r; [exact Hg|]. by exists wall_ms, now_ms, op. Qed.

Lemma rooms_evolve_reachable deps g g' : reachable deps g → rooms_evolve deps g g' → reachable deps g'.
Proof. intros Hg. induction 1 as [|g g1 g2 (wall & now & call & ->) _ IH]; [done|]. apply IH. by constructor. Qed.
Lemma lobbies_evolve_reachable deps g g' : lobbies_reachable deps g → lobbies_evolve deps g g' → lobbies_reachable deps g'.
Proof. intros Hg. induction 1 as [|g g1 g2 (wall & now & op & ->) _ IH]; [done|]. apply IH. by constructor. Qed.

(** A computation cooperates when it keeps everything reachable from where it started. *)
Lemma cooperates_keeps {S F A} (R : relation S) (task : Env S → SocketM S F A) :
  PreOrder R →
  (∀ env s0, (∀ n s, R s0 s → R s0 (others env n s)) → keeps (holds (R s0)) (task env)) → cooperates R task.
Proof.
  intros HR Htask env w Ho. apply (Htask env (shared w)); [|unfold holds; reflexivity].
  intros n s Hs. transitivity s; [done|apply Ho].
Qed.

#[export] Instance rooms_evolve_preorder deps : PreOrder (rooms_evolve deps).
Proof. unfold rooms_evolve. apply _. Qed.
#[export] Instance lobbies_evolve_preorder deps : PreOrder (lobbies_evolve deps).
Proof. unfold lobbies_evolve. apply _. Qed.

(** ** Tasks on the rooms *)

Section rooms.
Context (services : Services).
Abbreviation evolves := (rooms_evolve (service_deps services)).

Lemma control_cooperates c request wakeups :
  cooperates evolves (λ env, handle_websocket_session services env c request wakeups).
Proof.
  apply cooperates_keeps; [apply _|]. intros env g0 Ho.
  apply (control_session_confined services env (join_invite_code request) c); [done| |done].
  intros. by apply rooms_step.
Qed.

Lemma input_cooperates c request opened_at wakeups :
  cooperates evolves (λ env, handle_websocket_input_session services env c request opened_at wakeups).
Proof.
  apply cooperates_keeps; [apply _|]. intros env g0 Ho.
  apply (input_session_confined services env (input_invite_code request) c); [done| |done].
  intros. by apply rooms_step.
Qed.

Lemma wakeup_cooperates code fuel task :
  cooperates evolves (λ env, schedule_first_frame_release services env code fuel task).
Proof.
  apply cooperates_keeps; [apply _|]. intros env g0 Ho.
  assert (keeps (holds (evolves g0)) (wakeup_round services env code task)) as Hround.
  { unfold wakeup_round. apply keeps_bind.
    - apply access_holds; [done|]. intros n g Hg. rewrite with_room_effect.
      by apply (rooms_step _ _ 0 (now_at env n) (CallRoom code
        (CallScheduledRelease (wake_room_epoch task) (wake_session_epoch task) (wake_frame task)))).
    - intros [[]|]; repeat first [apply keeps_bind; [apply count_holds|intros ?] | by apply keeps_pure]. }
  unfold schedule_first_frame_release. generalize (N.max (wake_delay_ms task) 1).
  induction fuel as [|fuel IH]; intros remaining; cbn [wakeup_loop]; [by apply keeps_pure|].
  apply keeps_bind; [done|intros [r|]; [|by apply keeps_pure]].
  apply keeps_bind; [apply IH|intros [? ?]; by apply keeps_pure].
Qed.

Lemma expiration_cooperates rounds :
  cooperates evolves (λ env, spawn_room_expiration_task (service_deps services) env rounds).
Proof.
  apply cooperates_keeps; [apply _|]. intros env g0 Ho. apply keeps_every_tick, access_holds; [done|].
  intros n g Hg. by apply (rooms_step _ _ (wall_at env n) (now_at env n) (CallSweep ROOM_JOIN_TIMEOUT)).
Qed.

Lemma frame_clock_cooperates rounds :
  cooperates evolves (λ env, spawn_room_frame_clock_task (service_deps services) env rounds).
Proof.
  apply cooperates_keeps; [apply _|]. intros env g0 Ho. apply keeps_every_tick, access_holds; [done|].
  intros n g Hg. by apply (rooms_step _ _ 0 (now_at env n) CallReleaseFrames).
Qed.
End rooms.

(** ** Tasks on the lobbies *)

Section lobbies.
Context (services : LobbyServices).
Abbreviation evolves := (lobbies_evolve (lobby_deps services)).

Lemma lobby_cooperates c request wakeups :
  cooperates evolves (λ env, handle_websocket_lobby_session services env c request wakeups).
Proof.
  apply cooperates_keeps; [apply _|]. intros env g0 Ho.
  apply (lobby_session_confined services env (ljoin_invite_code request) c); [done| |done].
  intros wall now a g _ Hg. by apply (lobbies_step _ _ wall now (OpAct (ljoin_invite_code request) a)).
Qed.

Lemma directory_cooperates wakeups : cooperates evolves (λ env, handle_public_lobbies_websocket_session env wakeups).
Proof.
  apply cooperates_keeps; [apply _|]. intros env g0 Ho. unfold handle_public_lobbies_websocket_session.
  assert (keeps (holds (evolves g0)) (succeeded (send_public_lobbies_snapshot env))) as Hsend.
  { apply succeeded_holds. unfold send_public_lobbies_snapshot. apply keeps_bind; [by apply consult_holds|].
    intros ?. apply send_holds. }
  apply keeps_bind; [done|intros [|]; [|by apply keeps_pure]].
  induction wakeups as [|[incoming|[[]|[n|]]] wakeups IH]; cbn [directory_loop]; try by apply keeps_pure.
  - destruct (handle_public_lobbies_incoming incoming); [done|by apply keeps_pure].
  - apply keeps_bind; [done|intros [|]; [done|by apply keeps_pure]].
  - apply keeps_bind; [done|intros [|]; [done|by apply keeps_pure]].
Qed.

Lemma lobby_expiration_cooperates idle_timeout rounds :
  cooperates evolves (λ env, spawn_lobby_expiration_task (lobby_deps services) env idle_timeout rounds).
Proof.
  apply cooperates_keeps; [apply _|]. intros env g0 Ho. apply keeps_every_tick, access_holds; [done|].
  intros n g Hg. by apply (lobbies_step _ _ (wall_at env n) (now_at env n) (OpExpire idle_timeout)).
Qed.
End lobbies.

(** ** Requests *)

Section requests.
Context {IpAddr : Type} (parse_ip : string → option IpAddr) (show_ip : IpAddr → string).
Context (services : RouteServices) (env : Env App) (app0 : App).
Abbreviation evolves := (app_evolves (rooms_deps services) (lobbies_deps services)).
Context (Hothers : ∀ n app, evolves app (others env n app)).

Definition since (g : Registry) (l : LobbyRegistry) : Prop :=
  rooms_evolve (rooms_deps services) (app_rooms app0) g ∧ lobbies_evolve (lobbies_deps services) (app_lobbies app0) l.

Lemma since_others n app : since (app_rooms app) (app_lobbies app) →
  since (app_rooms (others env n app)) (app_lobbies (others env n app)).
Proof.
  intros [Hr Hl]. destruct (Hothers n app) as [Hr' Hl'].
  split; [transitivity (app_rooms app)|transitivity (app_lobbies app)]; done.
Qed.

Lemma keeps_store {A} (op : nat → App → A * App) :
  (∀ n app, since (app_rooms app) (app_lobbies app) → since (app_rooms (op n app).2) (app_lobbies (op n app).2)) →
  keeps (registries since) (app_access env op).
Proof.
  intros Hop s Hs. unfold app_access, registries. pose proof (Hop (route_tick s) _ (since_others (route_tick s) _ Hs)) as H.
  destruct (op _ _) as [a app]. exact H.
Qed.

#[local] Hint Resolve since_others : routes.
Ltac keeps_request := repeat first
  [ solve [eauto with routes]
  | apply keeps_bind; [|intros ?]
  | match goal with |- keeps _ (match ?x with _ => _ end) => destruct x end
  | solve [apply keeps_pure; intros ?; reflexivity] ].

Lemma store_room_evolves license session version : keeps (registries since) (app_access env (store_room services env license session version)).
Proof.
  apply keeps_store. intros n app [Hr Hl]. unfold store_room. split; [|by destruct (Registry.create_room _ _ _ _ _ _ _ _ _ _ _ _)].
  pose proof (rooms_step (rooms_deps services) (app_rooms app0) 0 (now_at env n)
    (CallCreate (mkRoomId (uuid_at env n)) (InviteCode_generate (invite_bytes services n)) (token_at env n) (token'_at env n)
       (room_voice_answer services n) license (mkConnectionId (uuid_at env (S n))) session version) _ Hr) as H.
  cbn [RegistryRefinement.serve] in H. by destruct (Registry.create_room _ _ _ _ _ _ _ _ _ _ _ _).
Qed.

Lemma create_room_evolves q : keeps (registries since) (Routes.create_room parse_ip show_ip services env q).
Proof.
  unfold Routes.create_room, enforce_rate_limit, authenticate, parse_create_room_request. pose proof store_room_evolves.
  keeps_request.
Qed.

Lemma store_lobby_evolves license params : keeps (registries since) (app_access env (store_lobby services env license params)).
Proof.
  apply keeps_store. intros n app [Hr Hl]. unfold store_lobby.
  pose proof (lobbies_step (lobbies_deps services) (app_lobbies app0) (wall_at env n) (now_at env n)
    (OpCreate (mkRoomId (uuid_at env n)) (InviteCode_generate (invite_bytes services n)) (token_at env n)
       (mkConnectionId (uuid_at env (S n))) (uuid_at env (S (S n))) (lobby_voice_answer services n) license params) _ Hl) as H.
  cbn [lobby_serve] in H. by destruct (LobbyRegistry.create_lobby _ _ _ _ _ _ _ _ _ _ _ _).
Qed.

Lemma seat_player_evolves code license params :
  keeps (registries since) (app_access env (seat_player services env code license params)).
Proof.
  apply keeps_store. intros n app [Hr Hl]. unfold seat_player.
  pose proof (lobbies_step (lobbies_deps services) (app_lobbies app0) (wall_at env n) (now_at env n)
    (OpAct code (DoJoin (mkConnectionId (uuid_at env n)) (token_at env n) license params)) _ Hl) as H.
  cbn [lobby_serve] in H. unfold lobby_act in H. cbn [lobby_call] in H. rewrite settle_state in H.
  by destruct (with_lobby _ _ _).
Qed.

Lemma create_lobby_evolves q : keeps (registries since) (Routes.create_lobby parse_ip show_ip services env q).
Proof.
  unfold Routes.create_lobby, enforce_rate_limit, authenticate, parse_create_lobby_request, check_lobby_version, check_version.
  pose proof store_lobby_evolves. keeps_request.
Qed.

Lemma join_lobby_evolves q code : keeps (registries since) (Routes.join_lobby parse_ip show_ip services env q code).
Proof.
  unfold Routes.join_lobby, enforce_rate_limit, authenticate, parse_join_lobby_request, check_lobby_version, check_version,
    parse_code, app_call. pose proof seat_player_evolves. keeps_request.
Qed.

Lemma request_evolves route q : keeps (registries since) (serve parse_ip show_ip services env route q).
Proof.
  destruct (stores route) eqn:Hroute; [|apply serve_keeps; [apply since_others|done]].
  destruct route; try discriminate; cbn [serve]; unfold reply; (apply keeps_bind; [|intros ?; by apply keeps_pure]);
    auto using create_room_evolves, create_lobby_evolves, join_lobby_evolves.
Qed.
End requests.

(** ** The whole *)

Module Whole.

(** C21: the process is made of the operations of its registries. Every task of the server
    cooperates: an HTTP request on any route, a control socket, an input socket, the wake-up of
    a held first frame, a lobby socket, a directory socket and the three background
    tasks, interleaved in any way with others that change the registries only through their
    operations, change them only so. Hence in every state that the process comes to from
    the one that [main] builds, every room is what a run of the room's state machine made of a
    fresh room, with its slots well owned, and every lobby is well formed. *)
Theorem process_cooperates {SocketAddr IpAddr} (config : ServerConfig SocketAddr) parse_ip (show_ip : IpAddr → string)
    (services : RouteServices) (control : Services) (lobby : LobbyServices) :
  service_deps control = rooms_deps services → lobby_deps lobby = lobbies_deps services →
  let rooms := rooms_evolve (rooms_deps services) in
  let lobbies_ := lobbies_evolve (lobbies_deps services) in
  let process := app_evolves (rooms_deps services) (lobbies_deps services) in
  (∀ env route q s, (∀ n app, process app (others env n app)) →
     process (route_app s) (route_app (serve parse_ip show_ip services env route q s).2))
  ∧ (∀ c request wakeups, cooperates rooms (λ env, handle_websocket_session control env c request wakeups))
  ∧ (∀ c request at_ wakeups, cooperates rooms (λ env, handle_websocket_input_session control env c request at_ wakeups))
  ∧ (∀ code fuel task, cooperates rooms (λ env, schedule_first_frame_release control env code fuel task))
  ∧ (∀ rounds, cooperates rooms (λ env, spawn_room_expiration_task (rooms_deps services) env rounds))
  ∧ (∀ rounds, cooperates rooms (λ env, spawn_room_frame_clock_task (rooms_deps services) env rounds))
  ∧ (∀ c request wakeups, cooperates lobbies_ (λ env, handle_websocket_lobby_session lobby env c request wakeups))
  ∧ (∀ wakeups, cooperates lobbies_ (λ env, handle_public_lobbies_websocket_session env wakeups))
  ∧ (∀ idle rounds, cooperates lobbies_ (λ env, spawn_lobby_expiration_task (lobbies_deps services) env idle rounds))
  ∧ ∀ app, process (main_app config) app →
      map_Forall (λ k s, slots_ok (stored_room s) ∧ refines_room (rooms_deps services) k s) (invite_codes (app_rooms app))
      ∧ map_Forall (λ _ s, lobby_ok (stored_lobby s)) (lobbies (app_lobbies app)).
Proof.
  intros Hrooms Hlobbies. cbv zeta. rewrite <-Hrooms, <-Hlobbies. split_and!.
  - intros env route q s Ho. rewrite Hrooms, Hlobbies in *.
    apply (request_evolves parse_ip show_ip services env (route_app s) Ho route q s). split; reflexivity.
  - apply control_cooperates.
  - apply input_cooperates.
  - apply wakeup_cooperates.
  - apply expiration_cooperates.
  - apply frame_clock_cooperates.
  - apply lobby_cooperates.
  - apply directory_cooperates.
  - apply lobby_expiration_cooperates.
  - intros app [Hr Hl]. split.
    + intros k s Hs. assert (reachable (service_deps control) (app_rooms app)) as Hg
        by (eapply rooms_evolve_reachable; [constructor|exact Hr]).
      destruct (reachable_ok _ _ Hg k s Hs) as [Href _]. split; [|done]. destruct Href as (r0 & Hf & actions & Hrun).
      replace (stored_room s) with (run (digest_of (service_deps control)) actions r0).2 by (by rewrite Hrun).
      apply run_slots. destruct Hf as (? & ? & ? & ? & ? & ? & ? & ? & ? & _ & ->). apply slots_ok_new.
    + intros k s Hs. eapply lobbies_ok; [|exact Hs]. eapply lobbies_evolve_reachable; [constructor|exact Hl].
Qed.

Lemma process_cooperates_witness :
  ∃ config, ServerConfig_from_env Startup.sample_env (λ s, Some s) (λ _, None) = Ok config ∧
    let app := route_app (serve (λ s, Some s) (λ s, s) Gateway.sample_services Gateway.sample_environment RCreateRoom
                            Gateway.sample_request (Gateway.fresh (main_app config))).2 in
    size (invite_codes (app_rooms app)) = 1%nat ∧
    map_Forall (λ k s, slots_ok (stored_room s) ∧ refines_room (rooms_deps Gateway.sample_services) k s)
      (invite_codes (app_rooms app)).
Proof.
  destruct (ServerConfig_from_env Startup.sample_env (λ s, Some s) (λ _, None)) as [config|e] eqn:E;
    [|vm_compute in E; discriminate E].
  exists config. split; [reflexivity|]. cbv zeta. split; [vm_compute in E; injection E as <-; vm_compute; reflexivity|].
  destruct (process_cooperates config (λ s : string, Some s) (λ s, s) Gateway.sample_services
    (mkServices (rooms_deps Gateway.sample_services) DisabledFileRelayBroker (mkFileRelayPolicy false false 0 [] false)
       (λ _ _ _, None) (λ _, ""%string) (λ _, None))
    sample_lobby_services eq_refl eq_refl) as (Hserve & _ & _ & _ & _ & _ & _ & _ & _ & Hsound).
  apply (Hsound _ (Hserve Gateway.sample_environment RCreateRoom Gateway.sample_request (Gateway.fresh (main_app config))
    (λ n app, conj (reflexivity _) (reflexivity _)))).
Defined.
End Whole.
