(* ===== verification/RegistryTrait.v ===== *)
(** * The room registry as its clients see it

  The routes and the sockets hold an [Arc<dyn RoomRegistry>]: they know the registry only
  through that trait ([src/rooms/room_registry_trait.rs]). Here the trait is a signature of
  methods with their error and answer types, an implementation is an instance of the class
  [RoomRegistry] that performs them, and [RoomRegistryLaws] is what an implementation promises:
  no method panics, an invariant holds after every method, and a method changes no room but
  the one whose invite code it names. [Client] is a program over the signature.
  [client_confined] is proved against the interface; the in-memory registry of
  [room_registry_trait_impl.rs], one definition per method, discharges the laws. *)

From S2P Require Import Prelude Ids Wire StrictInput Text Compatibility Descriptor Protocol Invite Slots.
From S2P Require Import LegacyCodec RelayBuffer PauseState SnapshotTransfer LinkState RoomTransactions AdaptiveDelay Room.
From S2P Require Import StartSync Connection PauseOps InputRelay HostFrame StateHash SnapshotOps LinkOps.
From S2P Require Import System SlotInvariant FrameInvariant ReleaseLog Scenario RoomEvents StoredRoom Registry RegistryRelay.
From S2P Require Import RegistryRefinement RegistryGuarantees Messages.
Open Scope N_scope.

(** ** The trait: each method with its arguments, its error and its answer *)

(** Creating a room, joining it, its sockets and its event channels. A receiver is the number of
    events already sent when it was made. *)
Inductive RoomLifecycleE : Type → Type → Type :=
| ServerTimeMs : RoomLifecycleE Empty_set N
| CreateRoom (host : VerifiedLicense) (c : ConnectionId) (session : NetplaySessionDescriptor)
    : RoomLifecycleE RoomError RoomView
| CreateRoomWithProtocol (host : VerifiedLicense) (c : ConnectionId)
    (session : NetplaySessionDescriptor) (version : N) : RoomLifecycleE RoomError RoomView
| JoinGuest (code : InviteCode) (guest : VerifiedLicense) (c : ConnectionId)
    : RoomLifecycleE RoomError PlayerIndex
| ConnectHost (code : InviteCode) (host : VerifiedLicense) (c : ConnectionId)
    (capabilities : ClientTransportCapabilities) : RoomLifecycleE RoomError RoomJoin
| ConnectGuest (code : InviteCode) (guest : VerifiedLicense) (c : ConnectionId)
    (capabilities : ClientTransportCapabilities) : RoomLifecycleE RoomError RoomJoin
| ReconnectPlayer (code : InviteCode) (p : PlayerIndex) (room_epoch : N) (resume_token : string)
    (c : ConnectionId) (capabilities : ClientTransportCapabilities) : RoomLifecycleE RoomError RoomJoin
| ArmRunnerHandoff (code : InviteCode) (c : ConnectionId) : RoomLifecycleE RoomError unit
| CancelRunnerHandoff (code : InviteCode) (c : ConnectionId) : RoomLifecycleE RoomError unit
| Disconnect (code : InviteCode) (c : ConnectionId) : RoomLifecycleE RoomError RoomView
| RecordTransportClose (code : InviteCode) (c : ConnectionId) (socket_kind : string) (reason : string)
    : RoomLifecycleE RoomError unit
| PlayerExited (code : InviteCode) (c : ConnectionId) (reason : string)
    : RoomLifecycleE RoomError RoomView
| RefreshVoiceToken (code : InviteCode) (c : ConnectionId) : RoomLifecycleE RoomError
    (PlayerVoiceJoinGrant * RoomView)
| ConnectInputSocket (code : InviteCode) (p : PlayerIndex) (room_epoch : N) (session_epoch : N)
    (input_token : string) (c : ConnectionId) : RoomLifecycleE RoomError RoomView
| DisconnectInputSocket (code : InviteCode) (c : ConnectionId) : RoomLifecycleE RoomError RoomView
| Subscribe (code : InviteCode) : RoomLifecycleE RoomError nat
| SubscribeInput (code : InviteCode) : RoomLifecycleE RoomError nat.

(** What precedes the game: compatibility, readiness, snapshots and ROM transfers. *)
Inductive RoomPreparationE : Type → Type → Type :=
| SetCompatibility (code : InviteCode) (c : ConnectionId) (fingerprint : CompatibilityFingerprint)
    : RoomPreparationE RoomError RoomView
| MarkReady (code : InviteCode) (c : ConnectionId) (network : option ClientNetworkQualityReport)
    : RoomPreparationE RoomError RoomView
| RecordClockSyncSample (code : InviteCode) (c : ConnectionId) (sample : ClockSyncSample)
    : RoomPreparationE RoomError RoomView
| MarkDeterministicReady (code : InviteCode) (c : ConnectionId) (report : DeterministicReadyReport)
    (network : option ClientNetworkQualityReport) : RoomPreparationE RoomError RoomView
| SetLinkCableCompatibility (code : InviteCode) (c : ConnectionId)
    (compatibility : LinkCableCompatibility) : RoomPreparationE RoomError RoomView
| RelaySnapshotChunk (code : InviteCode) (c : ConnectionId) (chunk : SnapshotChunk)
    : RoomPreparationE RoomError unit
| RelaySnapshotComplete (code : InviteCode) (c : ConnectionId) (manifest : SnapshotManifest)
    : RoomPreparationE RoomError unit
| PrepareSnapshotFileRelay (code : InviteCode) (c : ConnectionId) (manifest : SnapshotManifest)
    : RoomPreparationE RoomError SnapshotFileRelayTransferIntent
| GrantSnapshotFileRelayUpload (code : InviteCode) (c : ConnectionId) (manifest : SnapshotManifest)
    (grants : SnapshotFileRelayGrantPair) : RoomPreparationE RoomError unit
| RelaySnapshotFileUploadComplete (code : InviteCode) (c : ConnectionId) (transfer_id : string)
    (manifest : SnapshotManifest) : RoomPreparationE RoomError unit
| PrepareRomRelay (code : InviteCode) (c : ConnectionId)
    : RoomPreparationE RomRelayBlockReason RomRelayTransferIntent
| GrantRomRelayUpload (code : InviteCode) (c : ConnectionId) (grants : RomRelayGrantPair)
    : RoomPreparationE RomRelayBlockReason unit
| RelayRomRelayProgress (code : InviteCode) (c : ConnectionId) (progress : RomRelayProgress)
    : RoomPreparationE RomRelayBlockReason unit
| RelayRomRelayCompleted (code : InviteCode) (c : ConnectionId) (completion : RomRelayCompletion)
    : RoomPreparationE RomRelayBlockReason unit
| RelayRomRelayFailed (code : InviteCode) (c : ConnectionId) (failure : RomRelayFailure)
    : RoomPreparationE RomRelayBlockReason unit
| RelayRomRelayCancelled (code : InviteCode) (c : ConnectionId) (cancelled : RomRelayCancelled)
    : RoomPreparationE RomRelayBlockReason unit.

(** The running game, and the queries. *)
Inductive RoomGameplayE : Type → Type → Type :=
| RelayInputFrame (code : InviteCode) (c : ConnectionId) (input : InputFrame)
    : RoomGameplayE RoomError unit
| RelayInputFrameBatch (code : InviteCode) (c : ConnectionId) (batch : InputFrameBatch)
    : RoomGameplayE RoomError unit
| RelayFastInputBatch (code : InviteCode) (c : ConnectionId) (batch : FastInputBatch)
    : RoomGameplayE RoomError unit
| RelayStrictInputBatch (code : InviteCode) (c : ConnectionId) (batch : StrictInputBatch)
    : RoomGameplayE RoomError StrictInputRelayOutcome
| RelayHostFrameOpen (code : InviteCode) (c : ConnectionId) (open : HostFrameOpen)
    : RoomGameplayE RoomError HostFrameRelayOutcome
| ReleaseScheduledV5HostFrame (code : InviteCode) (room_epoch : N) (session_epoch : N) (frame : N)
    : RoomGameplayE RoomError ScheduledHostFrameReleaseOutcome
| RelayLinkCablePacket (code : InviteCode) (c : ConnectionId) (packet : LinkCablePacket)
    : RoomGameplayE RoomError unit
| RecordStateHash (code : InviteCode) (c : ConnectionId) (report : StateHashReport)
    : RoomGameplayE RoomError unit
| PinStateRecovery (code : InviteCode) (c : ConnectionId) (room_epoch : N) (session_epoch : N)
    (pin : StateRecoveryPin) : RoomGameplayE RoomError unit
| RecordHeartbeat (code : InviteCode) (c : ConnectionId) (latest_event_seq : N)
    (local_frame : option N) (runtime_state : ClientRuntimeState)
    (network : option ClientNetworkQualityReport) : RoomGameplayE RoomError RoomView
| RequestSessionPause (code : InviteCode) (c : ConnectionId) (request_id : string)
    (reason : SessionPauseReason) (local_frame : N) : RoomGameplayE RoomError RoomView
| MarkSessionPauseReached (code : InviteCode) (c : ConnectionId) (sequence : N) (paused_at_frame : N)
    : RoomGameplayE RoomError RoomView
| RequestSessionResume (code : InviteCode) (c : ConnectionId) (request_id : string)
    (reason : SessionPauseReason) (sequence : N) : RoomGameplayE RoomError RoomView
| QueryRoomView (code : InviteCode) : RoomGameplayE RoomError RoomView
| QueryRoomEvents (code : InviteCode) (limit : nat) : RoomGameplayE RoomError (list RoomDebugEvent)
| QueryRecentEvents (limit : nat) : RoomGameplayE Empty_set (list RoomDebugEvent)
| QuerySnapshot : RoomGameplayE Empty_set RoomRegistrySnapshot.

Inductive RoomRegistryE (E A : Type) : Type :=
| lifecycle (m : RoomLifecycleE E A)
| preparation (m : RoomPreparationE E A)
| gameplay (m : RoomGameplayE E A).
Arguments lifecycle {E A} m.
Arguments preparation {E A} m.
Arguments gameplay {E A} m.

(** What a method reads of its surroundings: the clocks (an opened frame reads the monotonic
    one twice), the identifiers and tokens it draws, the answers of the voice broker. *)
Record Surroundings := mkSurroundings {
  wall : N;
  at_ : Instant;
  at_' : Instant;
  drawn_id : RoomId;
  drawn_code : InviteCode;
  token : string;
  token' : string;
  voice_room : option CreateVoiceRoomBrokerResponse;
  voice_token : RoomVoiceTokenRefreshRequest → option VoiceBrokerGrant }.

(** ** The in-memory registry, one definition per method *)

Section in_memory.
Context (deps : RegistryDeps) (world : Surroundings).

(** A method that only reads, under the read lock. *)
Definition reading {E A} (f : Registry → result E A) : M Registry (fault E) A := λ g,
  (map_err (f g) Error, g).

Definition answer {E A} (a : A) : M Registry (fault E) A := mret a.

(** [create_room_impl]: it draws the identifier, the invite code and both tokens. *)
Definition create_room_impl (host : VerifiedLicense) (c : ConnectionId) (session : NetplaySessionDescriptor)
    (version : N) : M Registry (fault RoomError) RoomView := λ g,
  let '(room, g') := Registry.create_room deps (at_ world) (drawn_id world) (drawn_code world) (token world)
                       (token' world) (voice_room world) host c session version g in
  (Ok room, g').

(** [refresh_voice_token_impl], when nothing else runs while the broker answers. *)
Definition refresh_voice_token_impl (code : InviteCode) (c : ConnectionId)
    : M Registry RoomError (PlayerVoiceJoinGrant * RoomView) := λ g,
  match refresh_voice_token_request deps code c g with
  | Err error => (Err error, g)
  | Ok request =>
      match voice_token world request with
      | None => (Err VoiceUnavailable, g)
      | Some grant => with_room NotFound code (refresh_voice_token_body (at_ world) c grant) g
      end
  end.

Definition server_time_ms : M Registry (fault Empty_set) N :=
  answer (server_time_ms_at deps (at_ world)).
Definition create_room (host : VerifiedLicense) (c : ConnectionId) (session : NetplaySessionDescriptor)
    : M Registry (fault RoomError) RoomView :=
  create_room_impl host c session LEGACY_NETPLAY_PROTOCOL_VERSION.
Definition create_room_with_protocol (host : VerifiedLicense) (c : ConnectionId)
    (session : NetplaySessionDescriptor) (version : N) : M Registry (fault RoomError) RoomView :=
  create_room_impl host c session version.
Definition join_guest (code : InviteCode) (guest : VerifiedLicense) (c : ConnectionId)
    : M Registry (fault RoomError) PlayerIndex :=
  failing (with_room NotFound code
    (join_guest_body deps (wall world) (at_ world) (token world) (token' world) guest c)).
Definition connect_host (code : InviteCode) (host : VerifiedLicense) (c : ConnectionId)
    (capabilities : ClientTransportCapabilities) : M Registry (fault RoomError) RoomJoin :=
  failing (with_room NotFound code
    (connect_host_body deps (wall world) (at_ world) (token world) (token' world) host c capabilities)).
Definition connect_guest (code : InviteCode) (guest : VerifiedLicense) (c : ConnectionId)
    (capabilities : ClientTransportCapabilities) : M Registry (fault RoomError) RoomJoin :=
  failing (with_room NotFound code
    (connect_guest_body deps (wall world) (at_ world) (token world)
      (token' world) guest c capabilities)).
Definition reconnect_player (code : InviteCode) (p : PlayerIndex) (room_epoch : N)
    (resume_token : string) (c : ConnectionId) (capabilities : ClientTransportCapabilities)
    : M Registry (fault RoomError) RoomJoin :=
  failing (with_room NotFound code
    (reconnect_player_body deps (wall world) (at_ world) (token world)
      (token' world) p room_epoch resume_token c capabilities)).
Definition arm_runner_handoff (code : InviteCode) (c : ConnectionId)
    : M Registry (fault RoomError) unit :=
  failing (with_room NotFound code (arm_runner_handoff_body deps (wall world) (at_ world) c)).
Definition cancel_runner_handoff (code : InviteCode) (c : ConnectionId)
    : M Registry (fault RoomError) unit :=
  failing (with_room NotFound code (cancel_runner_handoff_body c)).
Definition disconnect (code : InviteCode) (c : ConnectionId) : M Registry (fault RoomError) RoomView :=
  failing (Registry.disconnect deps (wall world) (at_ world) code c).
Definition record_transport_close (code : InviteCode) (c : ConnectionId) (socket_kind : string)
    (reason : string) : M Registry (fault RoomError) unit :=
  failing (with_room NotFound code
    (record_transport_close_body (wall world) (at_ world) c socket_kind reason)).
Definition player_exited (code : InviteCode) (c : ConnectionId) (reason : string)
    : M Registry (fault RoomError) RoomView :=
  failing (with_room NotFound code (player_exited_body deps (wall world) (at_ world) c reason)).
Definition refresh_voice_token (code : InviteCode) (c : ConnectionId)
    : M Registry (fault RoomError) (PlayerVoiceJoinGrant * RoomView) :=
  failing (refresh_voice_token_impl code c).
Definition connect_input_socket (code : InviteCode) (p : PlayerIndex) (room_epoch : N)
    (session_epoch : N) (input_token : string) (c : ConnectionId)
    : M Registry (fault RoomError) RoomView :=
  failing (with_room NotFound code
    (connect_input_socket_body deps (wall world) (at_ world) p room_epoch session_epoch input_token c)).
Definition disconnect_input_socket (code : InviteCode) (c : ConnectionId)
    : M Registry (fault RoomError) RoomView :=
  failing (with_room NotFound code (disconnect_input_socket_body deps (wall world) (at_ world) c)).
Definition subscribe (code : InviteCode) : M Registry (fault RoomError) nat :=
  reading (read_room NotFound code (λ s, Ok (length (events s)))).
Definition subscribe_input (code : InviteCode) : M Registry (fault RoomError) nat :=
  reading (read_room NotFound code (λ s, Ok (length (input_events s)))).
Definition set_compatibility (code : InviteCode) (c : ConnectionId)
    (fingerprint : CompatibilityFingerprint) : M Registry (fault RoomError) RoomView :=
  failing (with_room NotFound code (set_compatibility_op (wall world) (at_ world) c fingerprint)).
Definition mark_ready (code : InviteCode) (c : ConnectionId)
    (network : option ClientNetworkQualityReport) : M Registry (fault RoomError) RoomView :=
  failing (with_room NotFound code (mark_ready_op deps (wall world) (at_ world) c network)).
Definition record_clock_sync_sample (code : InviteCode) (c : ConnectionId) (sample : ClockSyncSample)
    : M Registry (fault RoomError) RoomView :=
  failing (with_room NotFound code
    (RegistryRelay.record_clock_sync_sample deps (wall world) (at_ world) c sample)).
(** The room ignores the report. *)
Definition mark_deterministic_ready (code : InviteCode) (c : ConnectionId)
    (report : DeterministicReadyReport) (network : option ClientNetworkQualityReport)
    : M Registry (fault RoomError) RoomView :=
  failing (with_room NotFound code
    (mark_deterministic_ready_op deps (wall world) (at_ world) c network)).
Definition set_link_cable_compatibility (code : InviteCode) (c : ConnectionId)
    (compatibility : LinkCableCompatibility) : M Registry (fault RoomError) RoomView :=
  failing (with_room NotFound code
    (set_link_cable_compatibility_op (wall world) (at_ world) c compatibility)).
Definition relay_snapshot_chunk (code : InviteCode) (c : ConnectionId) (chunk : SnapshotChunk)
    : M Registry (fault RoomError) unit :=
  failing (with_room NotFound code
    (RegistryRelay.relay_snapshot_chunk deps (wall world) (at_ world) c chunk)).
Definition relay_snapshot_complete (code : InviteCode) (c : ConnectionId) (manifest : SnapshotManifest)
    : M Registry (fault RoomError) unit :=
  failing (with_room NotFound code
    (RegistryRelay.relay_snapshot_complete deps (wall world) (at_ world) c manifest)).
Definition prepare_snapshot_file_relay (code : InviteCode) (c : ConnectionId)
    (manifest : SnapshotManifest) : M Registry (fault RoomError) SnapshotFileRelayTransferIntent :=
  reading (RegistryRelay.prepare_snapshot_file_relay code c manifest).
Definition grant_snapshot_file_relay_upload (code : InviteCode) (c : ConnectionId)
    (manifest : SnapshotManifest) (grants : SnapshotFileRelayGrantPair)
    : M Registry (fault RoomError) unit :=
  failing (with_room NotFound code
    (RegistryRelay.grant_snapshot_file_relay_upload (wall world) (at_ world) c manifest grants)).
Definition relay_snapshot_file_upload_complete (code : InviteCode) (c : ConnectionId)
    (transfer_id : string) (manifest : SnapshotManifest) : M Registry (fault RoomError) unit :=
  failing (with_room NotFound code
    (RegistryRelay.relay_snapshot_file_upload_complete (wall world)
      (at_ world) c transfer_id manifest)).
Definition prepare_rom_relay (code : InviteCode) (c : ConnectionId)
    : M Registry (fault RomRelayBlockReason) RomRelayTransferIntent :=
  reading (RegistryRelay.prepare_rom_relay code c).
Definition grant_rom_relay_upload (code : InviteCode) (c : ConnectionId) (grants : RomRelayGrantPair)
    : M Registry (fault RomRelayBlockReason) unit :=
  with_room (Error BlockMissingIdentity) code
    (RegistryRelay.grant_rom_relay_upload (wall world) (at_ world) c grants).
Definition relay_rom_relay_progress (code : InviteCode) (c : ConnectionId)
    (progress : RomRelayProgress) : M Registry (fault RomRelayBlockReason) unit :=
  failing (with_room BlockMissingIdentity code
    (RegistryRelay.relay_rom_relay_progress (wall world) (at_ world) c progress)).
Definition relay_rom_relay_completed (code : InviteCode) (c : ConnectionId)
    (completion : RomRelayCompletion) : M Registry (fault RomRelayBlockReason) unit :=
  with_room (Error BlockMissingIdentity) code
    (RegistryRelay.relay_rom_relay_completed (wall world) (at_ world) c completion).
Definition relay_rom_relay_failed (code : InviteCode) (c : ConnectionId) (failure : RomRelayFailure)
    : M Registry (fault RomRelayBlockReason) unit :=
  failing (with_room BlockMissingIdentity code
    (RegistryRelay.relay_rom_relay_failed (wall world) (at_ world) c failure)).
Definition relay_rom_relay_cancelled (code : InviteCode) (c : ConnectionId)
    (cancelled : RomRelayCancelled) : M Registry (fault RomRelayBlockReason) unit :=
  failing (with_room BlockMissingIdentity code
    (RegistryRelay.relay_rom_relay_cancelled (wall world) (at_ world) c cancelled)).
Definition relay_input_frame (code : InviteCode) (c : ConnectionId) (input : InputFrame)
    : M Registry (fault RoomError) unit :=
  failing (with_room NotFound code (RegistryRelay.relay_input_frame c input)).
Definition relay_input_frame_batch (code : InviteCode) (c : ConnectionId) (batch : InputFrameBatch)
    : M Registry (fault RoomError) unit :=
  failing (with_room NotFound code (RegistryRelay.relay_input_frame_batch c batch)).
Definition relay_fast_input_batch (code : InviteCode) (c : ConnectionId) (batch : FastInputBatch)
    : M Registry (fault RoomError) unit :=
  failing (with_room NotFound code (RegistryRelay.relay_fast_input_batch c batch)).
Definition relay_strict_input_batch (code : InviteCode) (c : ConnectionId) (batch : StrictInputBatch)
    : M Registry (fault RoomError) StrictInputRelayOutcome :=
  failing (with_room NotFound code
    (RegistryRelay.relay_strict_input_batch (wall world) (at_ world) c batch)).
Definition relay_host_frame_open (code : InviteCode) (c : ConnectionId) (open : HostFrameOpen)
    : M Registry (fault RoomError) HostFrameRelayOutcome :=
  with_room (Error NotFound) code
    (RegistryRelay.relay_host_frame_open deps (wall world) (at_ world) (at_' world) c open).
Definition release_scheduled_v5_host_frame (code : InviteCode) (room_epoch : N) (session_epoch : N)
    (frame : N) : M Registry (fault RoomError) ScheduledHostFrameReleaseOutcome :=
  failing (with_room NotFound code
    (RegistryRelay.release_scheduled_v5_host_frame deps (at_ world) room_epoch session_epoch frame)).
Definition relay_link_cable_packet (code : InviteCode) (c : ConnectionId) (packet : LinkCablePacket)
    : M Registry (fault RoomError) unit :=
  failing (with_room NotFound code
    (RegistryRelay.relay_link_cable_packet (wall world) (at_ world) c packet)).
Definition record_state_hash (code : InviteCode) (c : ConnectionId) (report : StateHashReport)
    : M Registry (fault RoomError) unit :=
  failing (with_room NotFound code (RegistryRelay.record_state_hash (wall world) (at_ world) c report)).
Definition pin_state_recovery (code : InviteCode) (c : ConnectionId) (room_epoch : N)
    (session_epoch : N) (pin : StateRecoveryPin) : M Registry (fault RoomError) unit :=
  failing (with_room NotFound code
    (RegistryRelay.pin_state_recovery (wall world) (at_ world) c room_epoch session_epoch pin)).
(** The implementation ignores the sequence number of the latest event. *)
Definition record_heartbeat (code : InviteCode) (c : ConnectionId) (latest_event_seq : N)
    (local_frame : option N) (runtime_state : ClientRuntimeState)
    (network : option ClientNetworkQualityReport) : M Registry (fault RoomError) RoomView :=
  failing (with_room NotFound code
    (record_heartbeat_op (wall world) (at_ world) c local_frame network runtime_state)).
Definition request_session_pause (code : InviteCode) (c : ConnectionId) (request_id : string)
    (reason : SessionPauseReason) (local_frame : N) : M Registry (fault RoomError) RoomView :=
  failing (with_room NotFound code
    (RegistryRelay.request_session_pause (wall world) (at_ world) c request_id reason local_frame)).
Definition mark_session_pause_reached (code : InviteCode) (c : ConnectionId) (sequence : N)
    (paused_at_frame : N) : M Registry (fault RoomError) RoomView :=
  failing (with_room NotFound code
    (RegistryRelay.mark_session_pause_reached deps (wall world)
      (at_ world) c sequence paused_at_frame)).
(** The room ignores the reason. *)
Definition request_session_resume (code : InviteCode) (c : ConnectionId) (request_id : string)
    (reason : SessionPauseReason) (sequence : N) : M Registry (fault RoomError) RoomView :=
  failing (with_room NotFound code
    (RegistryRelay.request_session_resume deps (wall world) (at_ world) c request_id sequence)).
Definition room_view (code : InviteCode) : M Registry (fault RoomError) RoomView :=
  reading (Registry.room_view (at_ world) code).
Definition room_events (code : InviteCode) (limit : nat)
    : M Registry (fault RoomError) (list RoomDebugEvent) :=
  reading (Registry.room_events code limit).
Definition recent_events (limit : nat) : M Registry (fault Empty_set) (list RoomDebugEvent) :=
  (λ g, (Ok (recent_events_tail limit g), g)).
Definition snapshot : M Registry (fault Empty_set) RoomRegistrySnapshot :=
  (λ g, (Ok (Registry.snapshot (at_ world) g), g)).

Definition perform_lifecycle {E A} (m : RoomLifecycleE E A) : M Registry (fault E) A :=
  match m with
  | ServerTimeMs => server_time_ms
  | CreateRoom host c session => create_room host c session
  | CreateRoomWithProtocol host c session version => create_room_with_protocol host c session version
  | JoinGuest code guest c => join_guest code guest c
  | ConnectHost code host c capabilities => connect_host code host c capabilities
  | ConnectGuest code guest c capabilities => connect_guest code guest c capabilities
  | ReconnectPlayer code p room_epoch resume_token c capabilities => reconnect_player code p room_epoch resume_token c capabilities
  | ArmRunnerHandoff code c => arm_runner_handoff code c
  | CancelRunnerHandoff code c => cancel_runner_handoff code c
  | Disconnect code c => disconnect code c
  | RecordTransportClose code c socket_kind reason => record_transport_close code c socket_kind reason
  | PlayerExited code c reason => player_exited code c reason
  | RefreshVoiceToken code c => refresh_voice_token code c
  | ConnectInputSocket code p room_epoch session_epoch input_token c => connect_input_socket code p room_epoch session_epoch input_token c
  | DisconnectInputSocket code c => disconnect_input_socket code c
  | Subscribe code => subscribe code
  | SubscribeInput code => subscribe_input code
  end.

Definition perform_preparation {E A} (m : RoomPreparationE E A) : M Registry (fault E) A :=
  match m with
  | SetCompatibility code c fingerprint => set_compatibility code c fingerprint
  | MarkReady code c network => mark_ready code c network
  | RecordClockSyncSample code c sample => record_clock_sync_sample code c sample
  | MarkDeterministicReady code c report network => mark_deterministic_ready code c report network
  | SetLinkCableCompatibility code c compatibility => set_link_cable_compatibility code c compatibility
  | RelaySnapshotChunk code c chunk => relay_snapshot_chunk code c chunk
  | RelaySnapshotComplete code c manifest => relay_snapshot_complete code c manifest
  | PrepareSnapshotFileRelay code c manifest => prepare_snapshot_file_relay code c manifest
  | GrantSnapshotFileRelayUpload code c manifest grants => grant_snapshot_file_relay_upload code c manifest grants
  | RelaySnapshotFileUploadComplete code c transfer_id manifest => relay_snapshot_file_upload_complete code c transfer_id manifest
  | PrepareRomRelay code c => prepare_rom_relay code c
  | GrantRomRelayUpload code c grants => grant_rom_relay_upload code c grants
  | RelayRomRelayProgress code c progress => relay_rom_relay_progress code c progress
  | RelayRomRelayCompleted code c completion => relay_rom_relay_completed code c completion
  | RelayRomRelayFailed code c failure => relay_rom_relay_failed code c failure
  | RelayRomRelayCancelled code c cancelled => relay_rom_relay_cancelled code c cancelled
  end.

Definition perform_gameplay {E A} (m : RoomGameplayE E A) : M Registry (fault E) A :=
  match m with
  | RelayInputFrame code c input => relay_input_frame code c input
  | RelayInputFrameBatch code c batch => relay_input_frame_batch code c batch
  | RelayFastInputBatch code c batch => relay_fast_input_batch code c batch
  | RelayStrictInputBatch code c batch => relay_strict_input_batch code c batch
  | RelayHostFrameOpen code c open => relay_host_frame_open code c open
  | ReleaseScheduledV5HostFrame code room_epoch session_epoch frame => release_scheduled_v5_host_frame code room_epoch session_epoch frame
  | RelayLinkCablePacket code c packet => relay_link_cable_packet code c packet
  | RecordStateHash code c report => record_state_hash code c report
  | PinStateRecovery code c room_epoch session_epoch pin => pin_state_recovery code c room_epoch session_epoch pin
  | RecordHeartbeat code c latest_event_seq local_frame runtime_state network => record_heartbeat code c latest_event_seq local_frame runtime_state network
  | RequestSessionPause code c request_id reason local_frame => request_session_pause code c request_id reason local_frame
  | MarkSessionPauseReached code c sequence paused_at_frame => mark_session_pause_reached code c sequence paused_at_frame
  | RequestSessionResume code c request_id reason sequence => request_session_resume code c request_id reason sequence
  | QueryRoomView code => room_view code
  | QueryRoomEvents code limit => room_events code limit
  | QueryRecentEvents limit => recent_events limit
  | QuerySnapshot => snapshot
  end.

Definition perform_in_memory {E A} (m : RoomRegistryE E A) : M Registry (fault E) A :=
  match m with
  | lifecycle m => perform_lifecycle m
  | preparation m => perform_preparation m
  | gameplay m => perform_gameplay m
  end.
End in_memory.

(** ** The invite code a method is about *)

Definition lifecycle_code (world : Surroundings) {E A} (m : RoomLifecycleE E A) : option InviteCode :=
  match m with
  | CreateRoom _ _ _ | CreateRoomWithProtocol _ _ _ _ => Some (drawn_code world)
  | JoinGuest code _ _
  | ConnectHost code _ _ _
  | ConnectGuest code _ _ _
  | ReconnectPlayer code _ _ _ _ _
  | ArmRunnerHandoff code _
  | CancelRunnerHandoff code _
  | Disconnect code _
  | RecordTransportClose code _ _ _
  | PlayerExited code _ _
  | RefreshVoiceToken code _
  | ConnectInputSocket code _ _ _ _ _
  | DisconnectInputSocket code _
  | Subscribe code
  | SubscribeInput code => Some code
  | _ => None
  end.

Definition preparation_code {E A} (m : RoomPreparationE E A) : option InviteCode :=
  match m with
  | SetCompatibility code _ _
  | MarkReady code _ _
  | RecordClockSyncSample code _ _
  | MarkDeterministicReady code _ _ _
  | SetLinkCableCompatibility code _ _
  | RelaySnapshotChunk code _ _
  | RelaySnapshotComplete code _ _
  | PrepareSnapshotFileRelay code _ _
  | GrantSnapshotFileRelayUpload code _ _ _
  | RelaySnapshotFileUploadComplete code _ _ _
  | PrepareRomRelay code _
  | GrantRomRelayUpload code _ _
  | RelayRomRelayProgress code _ _
  | RelayRomRelayCompleted code _ _
  | RelayRomRelayFailed code _ _
  | RelayRomRelayCancelled code _ _ => Some code
  end.

Definition gameplay_code {E A} (m : RoomGameplayE E A) : option InviteCode :=
  match m with
  | RelayInputFrame code _ _
  | RelayInputFrameBatch code _ _
  | RelayFastInputBatch code _ _
  | RelayStrictInputBatch code _ _
  | RelayHostFrameOpen code _ _
  | ReleaseScheduledV5HostFrame code _ _ _
  | RelayLinkCablePacket code _ _
  | RecordStateHash code _ _
  | PinStateRecovery code _ _ _ _
  | RecordHeartbeat code _ _ _ _ _
  | RequestSessionPause code _ _ _ _
  | MarkSessionPauseReached code _ _ _
  | RequestSessionResume code _ _ _ _
  | QueryRoomView code
  | QueryRoomEvents code _ => Some code
  | _ => None
  end.

Definition method_code (world : Surroundings) {E A} (m : RoomRegistryE E A) : option InviteCode :=
  match m with
  | lifecycle m => lifecycle_code world m
  | preparation m => preparation_code m
  | gameplay m => gameplay_code m
  end.

(** ** The call of the registry's refinement that a method is *)

Section served.
Context (deps : RegistryDeps) (world : Surroundings).

Definition served_refresh (code : InviteCode) (c : ConnectionId) (g : Registry) : option Call :=
  match refresh_voice_token_request deps code c g with
  | Err _ => None
  | Ok request => CallRoom code ∘ CallRefreshVoice c <$> voice_token world request
  end.

Definition served_lifecycle {E A} (m : RoomLifecycleE E A) (g : Registry) : option Call :=
  match m with
  | CreateRoom host c session => 
      Some (CallCreate (drawn_id world) (drawn_code world) (token world) (token' world) (voice_room world) host c session LEGACY_NETPLAY_PROTOCOL_VERSION)
  | CreateRoomWithProtocol host c session version => 
      Some (CallCreate (drawn_id world) (drawn_code world) (token world) (token' world) (voice_room world) host c session version)
  | JoinGuest code guest c => Some (CallRoom code (CallJoinGuest (token world) (token' world) guest c))
  | ConnectHost code host c capabilities =>
      Some (CallRoom code (CallConnectHost (token world) (token' world) host c capabilities))
  | ConnectGuest code guest c capabilities =>
      Some (CallRoom code (CallConnectGuest (token world) (token' world) guest c capabilities))
  | ReconnectPlayer code p room_epoch resume_token c capabilities =>
      Some (CallRoom code (CallReconnect (token world) (token' world) p room_epoch resume_token c capabilities))
  | ArmRunnerHandoff code c => Some (CallRoom code (CallArmHandoff c))
  | CancelRunnerHandoff code c => Some (CallRoom code (CallCancelHandoff c))
  | Disconnect code c => Some (CallDisconnect code c)
  | RecordTransportClose code c socket_kind reason =>
      Some (CallRoom code (CallTransportClose c socket_kind reason))
  | PlayerExited code c reason => Some (CallRoom code (CallPlayerExited c reason))
  | RefreshVoiceToken code c => served_refresh code c g
  | ConnectInputSocket code p room_epoch session_epoch input_token c =>
      Some (CallRoom code (CallConnectInput p room_epoch session_epoch input_token c))
  | DisconnectInputSocket code c => Some (CallRoom code (CallDisconnectInput c))
  | _ => None
  end.

Definition served_preparation {E A} (m : RoomPreparationE E A) : option Call :=
  match m with
  | SetCompatibility code c fingerprint => Some (CallRoom code (CallCompatibility c fingerprint))
  | MarkReady code c network => Some (CallRoom code (CallMarkReady c network))
  | RecordClockSyncSample code c sample => Some (CallRoom code (CallClockSample c sample))
  | MarkDeterministicReady code c _ network => Some (CallRoom code (CallDeterministicReady c network))
  | SetLinkCableCompatibility code c compatibility =>
      Some (CallRoom code (CallLinkCompatibility c compatibility))
  | RelaySnapshotChunk code c chunk => Some (CallRoom code (CallSnapshotChunk c chunk))
  | RelaySnapshotComplete code c manifest => Some (CallRoom code (CallSnapshotComplete c manifest))
  | GrantSnapshotFileRelayUpload code c manifest grants =>
      Some (CallRoom code (CallFileRelayGrant c manifest grants))
  | RelaySnapshotFileUploadComplete code c transfer_id manifest =>
      Some (CallRoom code (CallFileRelayUploaded c transfer_id manifest))
  | GrantRomRelayUpload code c grants => Some (CallRoom code (CallRomGrants c grants))
  | RelayRomRelayProgress code c progress => Some (CallRoom code (CallRomProgress c progress))
  | RelayRomRelayCompleted code c completion => Some (CallRoom code (CallRomCompleted c completion))
  | RelayRomRelayFailed code c failure => Some (CallRoom code (CallRomFailed c failure))
  | RelayRomRelayCancelled code c cancelled => Some (CallRoom code (CallRomCancelled c cancelled))
  | _ => None
  end.

Definition served_gameplay {E A} (m : RoomGameplayE E A) : option Call :=
  match m with
  | RelayInputFrame code c input => Some (CallRoom code (CallInputFrame c input))
  | RelayInputFrameBatch code c batch => Some (CallRoom code (CallInputBatch c batch))
  | RelayFastInputBatch code c batch => Some (CallRoom code (CallFastBatch c batch))
  | RelayStrictInputBatch code c batch => Some (CallRoom code (CallStrictInput c batch))
  | RelayHostFrameOpen code c open => Some (CallRoom code (CallHostOpen (at_' world) c open))
  | ReleaseScheduledV5HostFrame code room_epoch session_epoch frame =>
      Some (CallRoom code (CallScheduledRelease room_epoch session_epoch frame))
  | RelayLinkCablePacket code c packet => Some (CallRoom code (CallLinkPacket c packet))
  | RecordStateHash code c report => Some (CallRoom code (CallStateHash c report))
  | PinStateRecovery code c room_epoch session_epoch pin =>
      Some (CallRoom code (CallPinRecovery c room_epoch session_epoch pin))
  | RecordHeartbeat code c _ local_frame runtime_state network =>
      Some (CallRoom code (CallHeartbeat c local_frame network runtime_state))
  | RequestSessionPause code c request_id reason local_frame =>
      Some (CallRoom code (CallPause c request_id reason local_frame))
  | MarkSessionPauseReached code c sequence paused_at_frame =>
      Some (CallRoom code (CallPauseReached c sequence paused_at_frame))
  | RequestSessionResume code c request_id _ sequence =>
      Some (CallRoom code (CallResume c request_id sequence))
  | _ => None
  end.

Definition served_as {E A} (m : RoomRegistryE E A) (g : Registry) : option Call :=
  match m with
  | lifecycle m => served_lifecycle m g
  | preparation m => served_preparation m
  | gameplay m => served_gameplay m
  end.
End served.

(** ** The interface *)

(** A room that a run of its own actions makes of a room created for the code. *)
Definition accountable (sha256 : bytes → bytes) (k : list N) (r : NetplayRoom) : Prop :=
  slots_ok r ∧ ∃ r0 actions, fresh_room k r0 ∧ (run sha256 actions r0).2 = r.

(** The trait: a registry is created empty, performs the methods, and holds at most one room
    under a code. [digest] is the hash it uses. *)
Class RoomRegistry (R : Type) := {
  empty_registry : R;
  digest_used : bytes → bytes;
  room_at : list N → R → option NetplayRoom;
  perform : Surroundings → ∀ {E A}, RoomRegistryE E A → M R (fault E) A }.

(** What an implementation promises its clients. *)
Class RoomRegistryLaws (R : Type) `{RoomRegistry R} := {
  promised : R → Prop;
  promised_empty : promised empty_registry;
  promised_rooms g k r : promised g → room_at k g = Some r → accountable digest_used k r;
  perform_promised world {E A} (m : RoomRegistryE E A) g : promised g → promised (perform world m g).2;
  perform_total world {E A} (m : RoomRegistryE E A) g : (perform world m g).1 ≠ Err Panic;
  perform_local world {E A} (m : RoomRegistryE E A) g k :
    normalized <$> method_code world m ≠ Some k → room_at k (perform world m g).2 = room_at k g }.

(** ** Clients *)

(** A program over the trait: it calls a method and goes on with the outcome. *)
Inductive Client (A : Type) : Type :=
| Done (a : A)
| Ask {E B : Type} (m : RoomRegistryE E B) (next : result E B → Client A).
Arguments Done {A} a.
Arguments Ask {A E B} m next.

Section clients.
Context {R : Type} {trait : RoomRegistry R} {laws : RoomRegistryLaws R} (worlds : nat → Surroundings) (others : nat → R → R).

(** The client's [n]th method finds what the other tasks made of the registry. *)
Fixpoint execute {A : Type} (n : nat) (p : Client A) (g : R) : option A * R :=
  match p with
  | Done a => (Some a, g)
  | Ask m next =>
      match perform (worlds n) m (others n g) with
      | (Ok b, g') => execute (S n) (next (Ok b)) g'
      | (Err (Error e), g') => execute (S n) (next (Err e)) g'
      | (Err Panic, g') => (None, g')
      end
  end.

(** Every method the client may call names one of the codes, or none. *)
Fixpoint within {A : Type} (codes : gset (list N)) (n : nat) (p : Client A) : Prop :=
  match p with
  | Done _ => True
  | Ask m next =>
      (∀ code, method_code (worlds n) m = Some code → normalized code ∈ codes)
      ∧ ∀ o, within codes (S n) (next o)
  end.

(** What the other tasks may do: keep the registry's promise. *)
Hypothesis Hothers : ∀ n g, promised g → promised (others n g).

Lemma client_promised {A} (p : Client A) n g :
  promised g → is_Some (execute n p g).1 ∧ promised (execute n p g).2.
Proof.
  revert n g. induction p as [a|E B m next IH]; intros n g Hg; [by split; [eexists|]|].
  cbn. pose proof (perform_promised (worlds n) m _ (Hothers n g Hg)) as Hp.
  pose proof (perform_total (worlds n) m (others n g)) as Ht.
  destruct (perform _ _ _) as [[b|[|e]] g']; cbn in *; [by apply IH|done|by apply IH].
Qed.

Lemma client_local {A} codes (p : Client A) n g k :
  k ∉ codes → within codes n p → (∀ i g, room_at k (others i g) = room_at k g) →
  room_at k (execute n p g).2 = room_at k g.
Proof.
  intros Hk Hw Ho. revert n g Hw. induction p as [a|E B m next IH]; intros n g Hw; [done|].
  destruct Hw as [Hc Hn]. cbn.
  assert (room_at k (perform (worlds n) m (others n g)).2 = room_at k g) as Hl.
  { rewrite perform_local, Ho; [done|]. destruct (method_code _ m) as [code|] eqn:Hm; [|done].
    cbn. intros [= <-]. by apply Hk, Hc. }
  destruct (perform _ _ _) as [[b|[|e]] g']; cbn in *; [by rewrite IH|done|by rewrite IH].
Qed.
End clients.

(** ** The in-memory registry keeps the promise *)

Lemma failing_state {S E A} (m : M S E A) s : (failing m s).2 = (m s).2.
Proof. unfold failing. by destruct (m s). Qed.

Lemma failing_no_panic {S E A} (m : M S E A) s : (failing m s).1 ≠ Err Panic.
Proof. unfold failing. by destruct (m s) as [[] ?]. Qed.

Lemma reading_no_panic {E A} (f : Registry → result E A) g : (reading f g).1 ≠ Err Panic.
Proof. cbn. by destruct (f g). Qed.

Lemma with_room_no_panic {E A} (missing : E) code (m : M Cell (fault E) A) g :
  never_panics m → (with_room (Error missing) code m g).1 ≠ Err Panic.
Proof.
  intros Hm. unfold with_room. destruct (invite_codes g !! _) as [s|]; [|done].
  specialize (Hm (mkCell s (feed g))). by destruct (m _).
Qed.

Section laws.
Context (deps : RegistryDeps) (world : Surroundings).

Lemma refresh_served code c g :
  (refresh_voice_token_impl deps world code c g).2
  = match served_refresh deps world code c g with
    | Some call => serve deps (wall world) (at_ world) call g
    | None => g
    end.
Proof.
  unfold refresh_voice_token_impl, served_refresh.
  destruct (refresh_voice_token_request _ _ _ _) as [request|]; [|done].
  destruct (voice_token _ _) as [grant|]; [|done]. apply (with_room_effect NotFound).
Qed.

(** Each method does to the registry what its call does. *)
Lemma perform_served {E A} (m : RoomRegistryE E A) g :
  (perform_in_memory deps world m g).2
  = match served_as deps world m g with
    | Some call => serve deps (wall world) (at_ world) call g
    | None => g
    end.
Proof.
  destruct m as [m|m|m]; destruct m; try reflexivity;
    cbn [perform_in_memory perform_lifecycle perform_preparation perform_gameplay
         served_as served_lifecycle served_preparation served_gameplay].
  all: try (unfold refresh_voice_token; rewrite failing_state; apply refresh_served).
  all: try exact (with_room_effect _ _ _ _).
  all: etrans; [apply failing_state|]; first [reflexivity | apply with_room_effect].
Qed.

Lemma served_code {E A} (m : RoomRegistryE E A) g call :
  served_as deps world m g = Some call →
  ∃ code, method_code world m = Some code ∧ call_code call = Some (normalized code).
Proof.
  destruct m as [m|m|m]; destruct m; cbn; try done; try (intros [= <-]; by eexists).
  unfold served_refresh. destruct (refresh_voice_token_request _ _ _ _) as [request|]; [|done].
  destruct (voice_token _ _); cbn; [|done]. intros [= <-]. by eexists.
Qed.

Lemma perform_in_memory_total {E A} (m : RoomRegistryE E A) g : (perform_in_memory deps world m g).1 ≠ Err Panic.
Proof.
  destruct m as [m|m|m]; destruct m; try done; try apply failing_no_panic; try apply reading_no_panic;
    apply with_room_no_panic; auto using host_open_no_panic, rom_grants_no_panic, rom_completed_no_panic.
Qed.
End laws.

(** [impl RoomRegistry for InMemoryRoomRegistry]. *)
Definition InMemoryRoomRegistry (deps : RegistryDeps) : RoomRegistry Registry := {|
  empty_registry := Registry_new;
  digest_used := digest_of deps;
  room_at k g := stored_room <$> invite_codes g !! k;
  perform world E A m := perform_in_memory deps world m |}.

Lemma accountable_rooms deps g k s :
  reachable deps g → invite_codes g !! k = Some s → accountable (digest_of deps) k (stored_room s).
Proof.
  intros Hg Hs. destruct (proj1 (reachable_ok deps g Hg k s Hs)) as (r0 & Hf & actions & Hr).
  replace (stored_room s) with (run (digest_of deps) actions r0).2 by (by rewrite Hr). split; [|by eauto].
  apply run_slots. destruct Hf as (? & ? & ? & ? & ? & ? & ? & ? & ? & _ & ->). apply slots_ok_new.
Qed.

#[export, refine] Instance in_memory_laws (deps : RegistryDeps)
    : @RoomRegistryLaws Registry (InMemoryRoomRegistry deps) := {|
  promised := reachable deps |}.
Proof.
  - constructor.
  - intros g k r Hg (s & Hs & ->)%fmap_Some. by apply accountable_rooms with g.
  - intros world E A m g Hg. cbn. rewrite perform_served. destruct (served_as _ _ _ _); [by constructor|done].
  - intros world E A m g. apply perform_in_memory_total.
  - intros world E A m g k Hk. cbn. rewrite perform_served.
    destruct (served_as _ _ m g) as [call|] eqn:Hc; [|done]. f_equal.
    destruct (served_code _ _ _ _ _ Hc) as (code & Hm & Hcall). rewrite Hm in Hk. cbn in Hk.
    apply (serve_lookup_ne _ _ _ _ _ _ _ Hcall). congruence.
Defined.

Module Clients.

(** C4: a program that knows the registry only through the [RoomRegistry] trait is confined to
    the rooms whose invite codes it names. Whatever methods it calls, in whatever order and
    whatever it makes of their answers, and whatever the other tasks do to the registry
    between its calls, it runs to its end and no method panics; afterwards every room is still
    what a run of its own actions makes of a room created for its code, with its slots well
    owned; and a room under another code, which the other tasks left alone, is unchanged. *)
Theorem trait_clients_are_confined deps {A} (p : Client A) worlds others codes g :
  reachable deps g →
  (∀ n g, reachable deps g → reachable deps (others n g)) →
  within worlds codes 0 p →
  let '(o, g') := execute (trait := InMemoryRoomRegistry deps) worlds others 0 p g in
  is_Some o ∧
  (∀ k s, invite_codes g' !! k = Some s → accountable (digest_of deps) k (stored_room s)) ∧
  (∀ k, k ∉ codes →
     (∀ n g, stored_room <$> invite_codes (others n g) !! k = stored_room <$> invite_codes g !! k) →
     stored_room <$> invite_codes g' !! k = stored_room <$> invite_codes g !! k).
Proof.
  intros Hg Ho Hw.
  pose proof (client_promised (laws := in_memory_laws deps) worlds others Ho p 0 g Hg) as [Hs Hp].
  pose proof (λ k Hk, client_local (laws := in_memory_laws deps) worlds others codes p 0 g k Hk Hw) as Hl.
  destruct (execute _ _ _ _ _) as [o g'] eqn:He. cbn [fst snd] in *.
  split; [done|]. split; [|exact Hl]. intros k s. by apply accountable_rooms.
Qed.

(** A client that creates a room, joins it as its host and asks for its view, between the
    frames of a session in another room. *)
Definition sample_world : Surroundings :=
  mkSurroundings 0 (from_millis 9000) (from_millis 9000) (mkRoomId 8) (mkInviteCode (string_bytes "MN23CD"))
    "t" "u" None (λ _, None).

Definition sample_client : Client (option nat) :=
  Ask (lifecycle (CreateRoomWithProtocol (Sample.license "host") host Sample.controller_session 5)) (λ _,
  Ask (lifecycle (ConnectHost (drawn_code sample_world) (Sample.license "host") host capabilities)) (λ joined,
  Ask (gameplay (QueryRoomEvents (drawn_code sample_world) 10)) (λ events,
  Done (match joined, events with Ok _, Ok events => Some (length events) | _, _ => None end)))).

Example sample_client_runs :
  (execute (trait := InMemoryRoomRegistry sample_deps) (λ _, sample_world) (λ _ g, g) 0 sample_client sample_registry).1
  = Some (Some 1%nat).
Proof. vm_compute. reflexivity. Qed.

Lemma trait_clients_are_confined_witness :
  let g' := (execute (trait := InMemoryRoomRegistry sample_deps) (λ _, sample_world) (λ _ g, g) 0 sample_client
               sample_registry).2 in
  stored_room <$> invite_codes g' !! normalized sample_code
  = stored_room <$> invite_codes sample_registry !! normalized sample_code.
Proof.
  pose proof (trait_clients_are_confined sample_deps sample_client (λ _, sample_world) (λ _ g, g)
    {[normalized (drawn_code sample_world)]} sample_registry sample_reachable (λ _ _ H, H)) as H.
  assert (within (λ _, sample_world) {[normalized (drawn_code sample_world)]} 0 sample_client) as Hw.
  { cbn. repeat split; intros code [= <-]; by apply elem_of_singleton. }
  specialize (H Hw). destruct (execute _ _ _ _ _) as [o g']. destruct H as (_ & _ & H).
  apply H; [|done]. rewrite elem_of_singleton. vm_compute. discriminate.
Defined.

End Clients.
