(* ===== verification/Json.v ===== *)
(** * JSON documents

  The messages of the sockets and the bodies of HTTP requests and replies are JSON. Their Rust
  types derive [Serialize] and [Deserialize]; what the derived code does is fixed by the types
  and their [#[serde(..)]] attributes, in the way that serde documents. This file has one
  combinator per case of that documentation, so that the files after it can list the fields of
  each type with their names and attributes:

  - a struct is written as an object with its fields in order ([object], [field]), a field with
    [skip_serializing_if] only when it is there ([field_opt], [field_vec]);
  - a struct is read from an object, whatever the order of its fields, or from an array of its
    fields in order ([Reader]); unknown fields are ignored, a field that occurs twice is
    refused; a missing [Option] is [None] ([read_option]) and a missing field with
    [default] its default ([read_default]);
  - an enum without data is a string ([enum_codec]); an enum with [tag = "type"] is an object
    with that field first ([tagged], [read_tagged]).

  A document is a [Value]; its object may hold a name twice, as a text may. [from_str], which
  turns text into documents, and the [uuid] crate are parameters. *)

From Stdlib Require Import Strings.Byte.
From S2P Require Import Prelude Wire Text Descriptor Protocol StartSync Parse Auth.
Open Scope N_scope.

(** ** Codecs *)

Record Codec (A : Type) := mkCodec { enc : A → Value; dec : Value → option A }.
Arguments mkCodec {A}.
Arguments enc {A}.
Arguments dec {A}.

(** What the relay uses of the [uuid] crate and of serde: the text of a UUID and its parser, and
    which values are taken for the body of a variant without data when an object names
    it, as in [{"ready": null}]. *)
Class SerdeLib := mkSerdeLib {
  uuid_show : N → string;
  uuid_parse : string → option N;
  unit_body : Value → bool }.

(** Different UUIDs have different texts, and a UUID that was read is read again from its text. *)
Class SerdeLaws `{SerdeLib} : Prop := {
  uuid_show_inj :: Inj (=) (=) uuid_show;
  uuid_show_parse s n : uuid_parse s = Some n → uuid_parse (uuid_show n) = Some n }.

Definition uint (bits : N) : Codec N := mkCodec (λ n, JInt (Z.of_N n))
  (λ v, match v with
        | JInt z => if ((0 <=? z) && (z <? 2 ^ Z.of_N bits))%Z then Some (Z.to_N z) else None
        | _ => None
        end).
Definition u8 : Codec N := uint 8.
Definition u16 : Codec N := uint 16.
Definition u32 : Codec N := uint 32.
Definition u64 : Codec N := uint 64.
Definition u128 : Codec N := uint 128.
Definition i64 : Codec Z := mkCodec JInt as_i64.
Definition boolean : Codec bool := mkCodec JBool as_bool.
Definition text : Codec string := mkCodec JString as_str.

(** A [String] that the model keeps as the list of its bytes. *)
Definition ascii : Codec (list N) :=
  mkCodec (λ l, JString (string_of_bytes l)) (λ v, string_bytes <$> as_str v).

Definition octet : Codec byte := mkCodec (λ b, JInt (Z.of_N (Byte.to_N b))) (λ v, dec u8 v ≫= Byte.of_N).

Definition uuid `{SerdeLib} : Codec N := mkCodec (λ n, JString (uuid_show n)) (λ v, as_str v ≫= uuid_parse).

(** A newtype with [#[serde(transparent)]]. *)
Definition newtype {A B} (wrap : A → B) (unwrap : B → A) (c : Codec A) : Codec B :=
  mkCodec (λ b, enc c (unwrap b)) (λ v, wrap <$> dec c v).

Definition optional {A} (c : Codec A) : Codec (option A) :=
  mkCodec (λ o, match o with Some a => enc c a | None => JNull end)
    (λ v, match v with JNull => Some None | _ => Some <$> dec c v end).

Definition vec {A} (c : Codec A) : Codec (list A) :=
  mkCodec (λ l, JArray (enc c <$> l)) (λ v, match v with JArray l => mapM (dec c) l | _ => None end).

(** ** Enums without data *)

Definition name_of {A} `{EqDecision A} (names : list (string * A)) (a : A) : string :=
  default ""%string (fst <$> List.find (λ p, bool_decide (p.2 = a)) names).
Definition named {A} (names : list (string * A)) (s : string) : option A :=
  snd <$> List.find (λ p, String.eqb p.1 s) names.

Definition enum_codec {A} `{EqDecision A} `{SerdeLib} (names : list (string * A)) : Codec A :=
  mkCodec (λ a, JString (name_of names a))
    (λ v, match v with
          | JString s => named names s
          | JObject [(s, body)] => if unit_body body then named names s else None
          | _ => None
          end).

(** ** Writing structs *)

(** The fields of a struct in order; one that is skipped has no value. *)
Definition Fields : Type := list (string * option Value).

Definition written (fs : Fields) : JMap := omap (λ f, (λ v, (f.1, v)) <$> f.2) fs.
Definition object (fs : Fields) : Value := JObject (written fs).

Definition field {A} (name : string) (c : Codec A) (a : A) : string * option Value := (name, Some (enc c a)).
Definition field_opt {A} (name : string) (c : Codec A) (o : option A) : string * option Value := (name, enc c <$> o).
Definition field_vec {A} (name : string) (c : Codec A) (l : list A) : string * option Value :=
  (name, match l with [] => None | _ => Some (enc (vec c) l) end).

(** A variant of an enum with [tag = "type"]. *)
Definition tagged (tag : string) (fs : Fields) : Value := object (("type"%string, Some (JString tag)) :: fs).

(** A field that is skipped when it has its default. *)
Definition field_unless {A} `{EqDecision A} (d : A) (name : string) (c : Codec A) (a : A) : string * option Value :=
  (name, if decide (a = d) then None else Some (enc c a)).

(** Types that are only written. *)
Definition writer {A} (f : A → Value) : Codec A := mkCodec f (λ _, None).
Definition struct_writer {A} (fs : A → Fields) : Codec A := writer (λ a, object (fs a)).
Definition enum_writer {A} `{EqDecision A} (names : list (string * A)) : Codec A := writer (λ a, JString (name_of names a)).

(** ** Reading structs *)

Inductive Source := ByName (fields : JMap) | InOrder (values : list Value).

Definition Reader (A : Type) : Type := Source → option (A * Source).
#[export] Instance reader_ret : MRet Reader := λ A a src, Some (a, src).
#[export] Instance reader_bind : MBind Reader := λ A B k m src,
  match m src with Some (a, src') => k a src' | None => None end.

(** The values that an object has under a name. *)
Definition values_of (name : string) (fields : JMap) : list Value :=
  omap (λ f, if String.eqb f.1 name then Some f.2 else None) fields.

Definition read_or {A} (name : string) (c : Codec A) (missing_name missing_place : option A) : Reader A := λ src,
  match src with
  | ByName fields =>
      match values_of name fields with
      | [] => (λ a, (a, src)) <$> missing_name
      | [v] => (λ a, (a, src)) <$> dec c v
      | _ => None
      end
  | InOrder [] => (λ a, (a, src)) <$> missing_place
  | InOrder (v :: vs) => (λ a, (a, InOrder vs)) <$> dec c v
  end.

Definition read {A} (name : string) (c : Codec A) : Reader A := read_or name c None None.
Definition read_default {A} (name : string) (c : Codec A) (d : A) : Reader A := read_or name c (Some d) (Some d).
Definition read_option {A} (name : string) (c : Codec A) : Reader (option A) :=
  read_or name (optional c) (Some None) None.

(** An array holds exactly the fields. *)
Definition finish {A} (r : Reader A) (src : Source) : option A :=
  match r src with
  | Some (a, InOrder (_ :: _)) => None
  | Some (a, _) => Some a
  | None => None
  end.

Definition source_of (v : Value) : option Source :=
  match v with JObject fields => Some (ByName fields) | JArray values => Some (InOrder values) | _ => None end.
Definition read_struct {A} (r : Reader A) (v : Value) : option A := source_of v ≫= finish r.

Definition struct_codec {A} (fs : A → Fields) (r : Reader A) : Codec A :=
  mkCodec (λ a, object (fs a)) (read_struct r).

(** A type that is only read. *)
Definition struct_reader {A} (r : Reader A) : Codec A := mkCodec (λ _, JNull) (read_struct r).

(** The tag and the rest of a document for an enum with [tag = "type"]. *)
Definition tag_of (v : Value) : option (string * Source) :=
  match v with
  | JObject fields =>
      match values_of "type" fields with
      | [JString tag] => Some (tag, ByName (filter (λ f, f.1 ≠ "type"%string) fields))
      | _ => None
      end
  | JArray (JString tag :: values) => Some (tag, InOrder values)
  | _ => None
  end.

Definition read_tagged {A} (variants : list (string * Reader A)) (v : Value) : option A :=
  '(tag, src) ← tag_of v; r ← named variants tag; finish r src.

(** ** What is read is read back

  [came_from c a]: some document is read as [a]. A value that came from a document and is written
  again is read as the same value: this is what a relay needs of the payloads it passes on,
  and it holds without any bound on the value, because reading has checked the bounds. *)

Definition came_from {A} (c : Codec A) (a : A) : Prop := ∃ v, dec c v = Some a.
Class Relayed {A} (c : Codec A) : Prop := relayed a : came_from c a → dec c (enc c a) = Some a.
Class NonNull {A} (c : Codec A) : Prop := nonnull a : enc c a ≠ JNull.

#[export] Instance uint_relayed bits : Relayed (uint bits).
Proof.
  intros n [[] H]; try done. cbn in *. destruct (_ && _)%Z eqn:E; [|done]. injection H as <-.
  apply andb_true_iff in E as [H1%Z.leb_le H2%Z.ltb_lt]. rewrite Z2N.id by done.
  by rewrite (proj2 (Z.leb_le _ _)), (proj2 (Z.ltb_lt _ _)).
Qed.
#[export] Instance u8_relayed : Relayed u8 := uint_relayed 8.
#[export] Instance u16_relayed : Relayed u16 := uint_relayed 16.
#[export] Instance u32_relayed : Relayed u32 := uint_relayed 32.
#[export] Instance u64_relayed : Relayed u64 := uint_relayed 64.
#[export] Instance i64_relayed : Relayed i64.
Proof. intros z [[] H]; try done. cbn in *. destruct (_ && _)%Z eqn:E; [|done]. injection H as <-. by rewrite E. Qed.
#[export] Instance octet_relayed : Relayed octet. Proof. by intros [] _. Qed.
#[export] Instance boolean_relayed : Relayed boolean. Proof. by intros b _. Qed.
#[export] Instance text_relayed : Relayed text. Proof. by intros b _. Qed.
#[export] Instance uuid_relayed `{SerdeLaws} : Relayed uuid.
Proof. intros n [[] Hv]; try done. cbn in *. by eapply uuid_show_parse. Qed.
#[export] Instance newtype_relayed {A B} wrap unwrap (c : Codec A) `{!Cancel (=) unwrap wrap} `{!Relayed c} :
  Relayed (newtype (B := B) wrap unwrap c).
Proof.
  intros b [v H]. cbn in *. apply fmap_Some in H as (a & Ha & ->). rewrite (cancel unwrap wrap a).
  rewrite relayed; [done|]. by exists v.
Qed.
#[export] Instance optional_relayed {A} (c : Codec A) `{!Relayed c} `{!NonNull c} : Relayed (optional c).
Proof.
  intros [a|] H; [|done]. cbn in *. pose proof (nonnull (c := c) a) as Hnn.
  assert (dec c (enc c a) = Some a) as Hd.
  { apply relayed. destruct H as [v Hv]. exists v. cbn in Hv. by destruct v; simplify_option_eq. }
  rewrite Hd. by destruct (enc c a).
Qed.
#[export] Instance vec_relayed {A} (c : Codec A) `{!Relayed c} : Relayed (vec c).
Proof.
  intros l [[] H]; try done. cbn in *. apply mapM_Some in H. apply mapM_Some.
  induction H as [|v a vs l Hv _ IH]; cbn; constructor; [|done]. apply relayed. by exists v.
Qed.

#[export] Instance uint_nonnull bits : NonNull (uint bits). Proof. done. Qed.
#[export] Instance u8_nonnull : NonNull u8. Proof. done. Qed.
#[export] Instance u16_nonnull : NonNull u16. Proof. done. Qed.
#[export] Instance u32_nonnull : NonNull u32. Proof. done. Qed.
#[export] Instance u64_nonnull : NonNull u64. Proof. done. Qed.
#[export] Instance u128_nonnull : NonNull u128. Proof. done. Qed.
#[export] Instance i64_nonnull : NonNull i64. Proof. done. Qed.
#[export] Instance octet_nonnull : NonNull octet. Proof. done. Qed.
#[export] Instance boolean_nonnull : NonNull boolean. Proof. done. Qed.
#[export] Instance text_nonnull : NonNull text. Proof. done. Qed.
#[export] Instance ascii_nonnull : NonNull ascii. Proof. done. Qed.
#[export] Instance uuid_nonnull `{SerdeLib} : NonNull uuid. Proof. done. Qed.

(** *** Enums *)

Lemma named_elem {A} (names : list (string * A)) s a : named names s = Some a → (s, a) ∈ names.
Proof.
  unfold named. intros (p & H & ->)%fmap_Some. apply List.find_some in H as [Hin Heq].
  apply String.eqb_eq in Heq as <-. destruct p. by apply list_elem_of_In.
Qed.

Lemma named_unique {A} (names : list (string * A)) s a : NoDup names.*1 → (s, a) ∈ names → named names s = Some a.
Proof.
  unfold named. induction names as [|[s' a'] names IH]; cbn; [by intros _ ?%elem_of_nil|].
  intros [Hnin Hnd]%NoDup_cons. rewrite elem_of_cons. intros [[= -> ->]|Hin]; [by rewrite String.eqb_refl|].
  destruct (String.eqb_spec s' s) as [->|]; [|by apply IH]. destruct Hnin. by apply (list_elem_of_fmap_2 fst) in Hin.
Qed.

Lemma name_of_elem {A} `{EqDecision A} (names : list (string * A)) s a : (s, a) ∈ names → (name_of names a, a) ∈ names.
Proof.
  unfold name_of. intros Hin. destruct (List.find _ names) as [[s' a']|] eqn:E; cbn.
  - apply List.find_some in E as [Hin' Heq]. apply bool_decide_eq_true in Heq as <-. by apply list_elem_of_In.
  - eapply List.find_none in E; [|by apply list_elem_of_In]. by apply bool_decide_eq_false in E.
Qed.

Lemma enum_relayed {A} `{EqDecision A} `{SerdeLib} (names : list (string * A)) :
  NoDup names.*1 → Relayed (enum_codec names).
Proof.
  intros Hnd a [v Hv]. cbn in *.
  assert (∃ s, named names s = Some a) as (s & Hs) by (repeat (case_match; try done); by eexists).
  apply named_unique; [done|]. by eapply name_of_elem, named_elem.
Qed.

(** *** Structs *)

Definition keys_distinct (fs : Fields) : bool := bool_decide (NoDup fs.*1).
Definition assoc (name : string) (fs : Fields) : option (option Value) :=
  snd <$> List.find (λ f, String.eqb f.1 name) fs.

Lemma values_of_written_fresh name fs : name ∉ fs.*1 → values_of name (written fs) = [].
Proof.
  induction fs as [|[k [v|]] fs IH]; [done|..]; cbn; rewrite not_elem_of_cons; intros [Hne Hnin]; [|by apply IH].
  destruct (String.eqb_spec k name); [done|by apply IH].
Qed.

(** Reading a field of an object that was just written. *)
Lemma values_of_written name fs o :
  NoDup fs.*1 → assoc name fs = Some o → values_of name (written fs) = match o with Some v => [v] | None => [] end.
Proof.
  unfold assoc. induction fs as [|[k o'] fs IH]; cbn; [done|]. intros [Hnin Hnd]%NoDup_cons.
  destruct (String.eqb_spec k name) as [->|Hne].
  - intros [= ->]. destruct o as [v|]; cbn; [rewrite String.eqb_refl|]; f_equal; by apply values_of_written_fresh.
  - intros Ho. destruct o' as [v|]; cbn; [|by apply IH]. destruct (String.eqb_spec k name); [done|by apply IH].
Qed.

Lemma read_or_inv {A B} name (c : Codec A) m1 m2 (k : A → Reader B) src b src' :
  (∀ d, m1 = Some d ∨ m2 = Some d → came_from c d) → (read_or name c m1 m2 ≫= k) src = Some (b, src') →
  ∃ a src1, came_from c a ∧ k a src1 = Some (b, src').
Proof.
  intros Hd H. unfold mbind, reader_bind in H. destruct (read_or _ _ _ _ _) as [[a src1]|] eqn:E; [|done].
  exists a, src1. split; [|done]. unfold read_or in E.
  repeat (case_match; try done); apply fmap_Some in E as (a' & Ha & [= -> _]); solve [by eexists|apply Hd; by eauto].
Qed.
Lemma read_inv {A B} name (c : Codec A) (k : A → Reader B) src b src' :
  (read name c ≫= k) src = Some (b, src') → ∃ a src1, came_from c a ∧ k a src1 = Some (b, src').
Proof. apply read_or_inv. naive_solver. Qed.
Lemma read_default_inv {A B} name (c : Codec A) d (k : A → Reader B) src b src' :
  came_from c d → (read_default name c d ≫= k) src = Some (b, src') →
  ∃ a src1, came_from c a ∧ k a src1 = Some (b, src').
Proof. intros Hd. apply read_or_inv. naive_solver. Qed.
Lemma came_from_none {A} (c : Codec A) : came_from (optional c) None. Proof. by exists JNull. Qed.
Lemma came_from_nil {A} (c : Codec A) : came_from (vec c) []. Proof. by exists (JArray []). Qed.
Lemma read_option_inv {A B} name (c : Codec A) (k : option A → Reader B) src b src' :
  (read_option name c ≫= k) src = Some (b, src') → ∃ a src1, came_from (optional c) a ∧ k a src1 = Some (b, src').
Proof. apply read_or_inv. intros d [[= <-]|[=]]. apply came_from_none. Qed.

Section written.
Context (fs : Fields) (Hkeys : keys_distinct fs = true).

Lemma read_or_written {A B} name (c : Codec A) m1 m2 (k : A → Reader B) a :
  assoc name fs = Some (Some (enc c a)) → Relayed c → came_from c a →
  (read_or name c m1 m2 ≫= k) (ByName (written fs)) = k a (ByName (written fs)).
Proof.
  intros Ha Hc Hfrom. unfold mbind, reader_bind, read_or.
  rewrite (values_of_written _ _ _ (proj1 (bool_decide_eq_true _) Hkeys) Ha), relayed by done. done.
Qed.

Lemma read_or_skipped {A B} name (c : Codec A) m2 (k : option A → Reader B) o :
  assoc name fs = Some (enc c <$> o) → Relayed c → NonNull c → came_from (optional c) o →
  (read_or name (optional c) (Some None) m2 ≫= k) (ByName (written fs)) = k o (ByName (written fs)).
Proof.
  intros Ha Hc Hnn Hfrom. unfold mbind, reader_bind, read_or.
  rewrite (values_of_written _ _ _ (proj1 (bool_decide_eq_true _) Hkeys) Ha). destruct o as [a|]; [|done].
  cbn [fmap option_fmap option_map]. pose proof (optional_relayed c (Some a) Hfrom) as H. cbn [optional enc] in H.
  by rewrite H.
Qed.

Lemma read_default_empty {A B} name (c : Codec A) (k : list A → Reader B) l :
  assoc name fs = Some (match l with [] => None | _ => Some (enc (vec c) l) end) → Relayed c → came_from (vec c) l →
  (read_default name (vec c) [] ≫= k) (ByName (written fs)) = k l (ByName (written fs)).
Proof.
  intros Ha Hc Hfrom. destruct l as [|a l]; [|by apply read_or_written; [exact Ha|apply _|]].
  unfold mbind, reader_bind, read_default, read_or.
  by rewrite (values_of_written _ _ _ (proj1 (bool_decide_eq_true _) Hkeys) Ha).
Qed.

Lemma read_default_elided {A B} `{EqDecision A} d name (c : Codec A) (k : A → Reader B) a :
  assoc name fs = Some (if decide (a = d) then None else Some (enc c a)) → Relayed c → came_from c a →
  (read_default name c d ≫= k) (ByName (written fs)) = k a (ByName (written fs)).
Proof.
  intros Ha Hc Hfrom. case_decide as Hd; [|by apply read_or_written]. subst.
  unfold mbind, reader_bind, read_default, read_or.
  by rewrite (values_of_written _ _ _ (proj1 (bool_decide_eq_true _) Hkeys) Ha).
Qed.
End written.

Lemma finish_some {A} (r : Reader A) src a : finish r src = Some a → ∃ src', r src = Some (a, src').
Proof. unfold finish. destruct (r src) as [[a' [|[]]]|]; naive_solver. Qed.

Lemma struct_relayed {A} (fs : A → Fields) (r : Reader A) :
  (∀ src a src', r src = Some (a, src') → r (ByName (written (fs a))) = Some (a, ByName (written (fs a)))) →
  Relayed (struct_codec fs r).
Proof.
  intros Hr a [v Hv]. cbn in *. unfold read_struct in *. destruct (source_of v) as [src|]; [|done]. cbn in Hv.
  apply finish_some in Hv as [src' Hv]. apply Hr in Hv. cbn. unfold finish. by rewrite Hv.
Qed.

(** The tag of a variant that was written, and its fields. *)
Lemma tag_of_tagged tag fs : "type"%string ∉ fs.*1 → tag_of (tagged tag fs) = Some (tag, ByName (written fs)).
Proof.
  intros Hfs. unfold tag_of, tagged, object.
  change (written (("type"%string, Some (JString tag)) :: fs)) with (("type"%string, JString tag) :: written fs).
  change (values_of "type" (("type"%string, JString tag) :: written fs)) with (JString tag :: values_of "type" (written fs)).
  rewrite values_of_written_fresh by done. do 3 f_equal. rewrite filter_cons_False by (cbn; tauto). clear tag.
  induction fs as [|[k [v|]] fs IH]; [done|..]; cbn in Hfs; apply not_elem_of_cons in Hfs as [Hne Hfs]; [|by apply IH].
  change (written ((k, Some v) :: fs)) with ((k, v) :: written fs).
  rewrite filter_cons_True by (cbn; congruence). f_equal. by apply IH.
Qed.

Lemma read_tagged_inv {A} (variants : list (string * Reader A)) v a :
  read_tagged variants v = Some a → ∃ tag r src src', (tag, r) ∈ variants ∧ r src = Some (a, src').
Proof.
  unfold read_tagged. destruct (tag_of v) as [[tag src]|]; [|done]. cbn. destruct (named variants tag) as [r|] eqn:E; [|done].
  cbn. intros [src' H]%finish_some. exists tag, r, src, src'. split; [by apply named_elem|done].
Qed.

(** Proves [Relayed (struct_codec fs r)]: takes the reading apart into the readings of the fields, and
    puts the reading of the written object together from them. *)
Ltac came_from_default :=
  solve [ apply came_from_none | apply came_from_nil
        | lazymatch goal with |- came_from ?c ?d => exists (enc c d); vm_compute; reflexivity end ].
Ltac take_apart H := repeat lazymatch type of H with
  | (read _ _ ≫= _) _ = _ => apply read_inv in H as (? & ? & ? & H)
  | (read_option _ _ ≫= _) _ = _ => apply read_option_inv in H as (? & ? & ? & H)
  | (read_default _ _ _ ≫= _) _ = _ => apply read_default_inv in H as (? & ? & ? & H); [|came_from_default]
  end.
Ltac put_together :=
  first [ eapply read_or_written; [vm_compute; reflexivity|reflexivity|apply _|eassumption]
        | eapply read_or_skipped; [vm_compute; reflexivity|reflexivity|apply _|apply _|eassumption]
        | eapply read_default_empty; [vm_compute; reflexivity|reflexivity|apply _|eassumption]
        | eapply read_default_elided; [vm_compute; reflexivity|reflexivity|apply _|eassumption] ].
Ltac relay_struct :=
  let src := fresh "src" in let a := fresh "a" in let src' := fresh "src'" in let H := fresh "H" in
  apply struct_relayed; intros src a src' H;
  lazymatch type of H with ?r _ = _ => lazymatch r with ?h _ => unfold h in * | ?h => unfold h in * end end;
  take_apart H; injection H as <- _;
  repeat (etransitivity; [put_together|]); reflexivity.

(** ** Different values are written differently *)

Lemma object_fields fs gs : fs.*1 = gs.*1 → NoDup fs.*1 → object fs = object gs → fs = gs.
Proof.
  unfold object. intros Hk Hnd [= Hw]. revert gs Hk Hw. induction fs as [|[k o] fs IH]; intros [|[k' o'] gs]; try done.
  intros Hk. rewrite fmap_cons in Hnd. rewrite !fmap_cons in Hk. cbn [fst] in *. injection Hk as <- Hk.
  apply NoDup_cons in Hnd as [Hnin Hnd].
  assert (∀ v (hs : Fields) rest, hs.*1 = fs.*1 → (k, v) :: rest ≠ written hs) as Hfresh.
  { intros v hs rest Hhs Heq. destruct Hnin. rewrite <-Hhs.
    assert ((k, v) ∈ written hs) as Hin by (rewrite <-Heq; apply list_elem_of_here).
    apply list_elem_of_omap in Hin as ([k1 o1] & Hin & Hv). destruct o1; cbn in Hv; simplify_eq.
    by apply (list_elem_of_fmap_2 fst) in Hin. }
  destruct o as [v|], o' as [v'|]; cbn; intros Hw.
  - injection Hw as -> Hw. f_equal. by apply IH.
  - by destruct (Hfresh v gs (written fs)).
  - by destruct (Hfresh v' fs (written gs)).
  - f_equal. by apply IH.
Qed.

#[export] Instance uint_inj bits : Inj (=) (=) (enc (uint bits)). Proof. intros a b [= H]. lia. Qed.
#[export] Instance u8_inj : Inj (=) (=) (enc u8) := uint_inj 8.
#[export] Instance u16_inj : Inj (=) (=) (enc u16) := uint_inj 16.
#[export] Instance u32_inj : Inj (=) (=) (enc u32) := uint_inj 32.
#[export] Instance u64_inj : Inj (=) (=) (enc u64) := uint_inj 64.
#[export] Instance u128_inj : Inj (=) (=) (enc u128) := uint_inj 128.
#[export] Instance i64_inj : Inj (=) (=) (enc i64). Proof. by intros a b [= H]. Qed.
#[export] Instance octet_inj : Inj (=) (=) (enc octet).
Proof. intros a b [= H]. apply (inj Some). rewrite <-!Byte.of_to_N. f_equal. lia. Qed.
#[export] Instance boolean_inj : Inj (=) (=) (enc boolean). Proof. by intros a b [= H]. Qed.
#[export] Instance text_inj : Inj (=) (=) (enc text). Proof. by intros a b [= H]. Qed.
#[export] Instance uuid_inj `{SerdeLaws} : Inj (=) (=) (enc uuid). Proof. intros a b [= Hs]. by apply (inj uuid_show). Qed.
#[export] Instance newtype_inj {A B} wrap unwrap (c : Codec A) `{!Inj (=) (=) unwrap} `{!Inj (=) (=) (enc c)} :
  Inj (=) (=) (enc (newtype (B := B) wrap unwrap c)).
Proof. intros a b H. by apply (inj unwrap), (inj (enc c)). Qed.
#[export] Instance optional_inj {A} (c : Codec A) `{!Inj (=) (=) (enc c)} `{!NonNull c} : Inj (=) (=) (enc (optional c)).
Proof.
  intros [a|] [b|] H; cbn in H; [f_equal; by apply (inj (enc c))|by destruct (nonnull (c := c) a)|by destruct (nonnull (c := c) b)|done].
Qed.
#[export] Instance vec_inj {A} (c : Codec A) `{!Inj (=) (=) (enc c)} : Inj (=) (=) (enc (vec c)).
Proof. intros a b [= H]. by apply (inj (fmap (enc c))) in H. Qed.

Lemma name_of_inj {A} `{EqDecision A} (names : list (string * A)) a b :
  NoDup names.*1 → (∀ a, a ∈ names.*2) → name_of names a = name_of names b → a = b.
Proof.
  intros Hnd Hall Hn.
  assert (∀ a, named names (name_of names a) = Some a) as Hname.
  { intros x. apply named_unique; [done|]. specialize (Hall x). apply list_elem_of_fmap_1 in Hall as ([s x'] & -> & Hin).
    by eapply name_of_elem. }
  apply (inj Some). by rewrite <-!Hname, Hn.
Qed.
Lemma enum_inj {A} `{EqDecision A} `{SerdeLib} (names : list (string * A)) :
  NoDup names.*1 → (∀ a, a ∈ names.*2) → Inj (=) (=) (enc (enum_codec names)).
Proof. intros Hnd Hall a b [= Hn]. by eapply name_of_inj. Qed.

Lemma enum_writer_inj {A} `{EqDecision A} (names : list (string * A)) :
  NoDup names.*1 → (∀ a, a ∈ names.*2) → Inj (=) (=) (enc (enum_writer names)).
Proof. intros Hnd Hall a b [= Hn]. by eapply name_of_inj. Qed.

Lemma fields_same (f g : string * option Value) (fs gs : Fields) : f :: fs = g :: gs → f = g ∧ fs = gs.
Proof. by intros [= -> ->]. Qed.
Lemma field_same {A} name (c : Codec A) a b `{!Inj (=) (=) (enc c)} : field name c a = field name c b → a = b.
Proof. intros [= H]. by apply (inj (enc c)). Qed.
Lemma field_opt_same {A} name (c : Codec A) a b `{!Inj (=) (=) (enc c)} : field_opt name c a = field_opt name c b → a = b.
Proof. intros [= H]. by apply (inj (fmap (enc c))). Qed.
Lemma field_vec_same {A} name (c : Codec A) a b `{!Inj (=) (=) (enc c)} : field_vec name c a = field_vec name c b → a = b.
Proof. intros [= H]. destruct a, b; try done. apply (inj Some) in H. by apply (inj (enc (vec c))). Qed.
Lemma field_unless_same {A} `{EqDecision A} d name (c : Codec A) a b `{!Inj (=) (=) (enc c)} :
  field_unless d name c a = field_unless d name c b → a = b.
Proof. unfold field_unless. intros [= H]. do 2 case_decide; simplify_eq; [done|]. by apply (inj (enc c)). Qed.

(** Proves that values with the same fields are the same. *)
Ltac same_fields H := repeat (apply fields_same in H; let E := fresh "E" in destruct H as [E H];
  try (first [apply field_same in E | apply field_opt_same in E | apply field_vec_same in E | apply field_unless_same in E];
       [|apply _])).

Lemma struct_inj {A} (fs : A → Fields) (c : Codec A) :
  (∀ a, enc c a = object (fs a)) → (∀ a b, (fs a).*1 = (fs b).*1) → (∀ a, keys_distinct (fs a) = true) →
  (∀ a b, fs a = fs b → a = b) → Inj (=) (=) (enc c).
Proof.
  intros Hc Hk Hd Hf a b. rewrite !Hc. intros Ho. apply Hf, object_fields; [apply Hk| |done].
  by eapply bool_decide_eq_true, Hd.
Qed.
Ltac same_struct fs :=
  apply (struct_inj fs); [intros; reflexivity|intros; reflexivity|intros; vm_compute; reflexivity|];
  let a := fresh "a" in let b := fresh "b" in let H := fresh "H" in
  intros a b H; lazymatch fs with ?h _ => unfold h in H | ?h => unfold h in H end; same_fields H; destruct a, b; cbn in *; by subst.

(** The same for enums: their names are distinct and cover every value. *)
Ltac relay_enum := apply enum_relayed; apply (bool_decide_unpack _); vm_compute; exact I.
Ltac same_enum :=
  first [apply enum_inj | apply enum_writer_inj];
  [apply (bool_decide_unpack _); vm_compute; exact I
  |intros []; apply (bool_decide_unpack _); vm_compute; exact I].
