(* ===== verification/JsonPayloads.v ===== *)
(** * The JSON of payloads and requests

  One codec per type of [src/src/protocol/] and [src/src/lobbies/] that travels in JSON in both directions, with the names and
  attributes of its fields, and the laws of each: what was read is read back when it is written
  again, and different values are written differently. *)

From S2P Require Import Prelude Ids Wire Text Compatibility Descriptor Protocol StartSync FileRelay Messages Parse Auth Json.
Open Scope N_scope.

#[export] Instance RomRelayFailReason_eq_dec : EqDecision RomRelayFailReason. Proof. solve_decision. Defined.
#[export] Instance ClientRuntimeState_eq_dec : EqDecision ClientRuntimeState. Proof. solve_decision. Defined.
#[export] Instance LinkCableTransport_eq_dec : EqDecision LinkCableTransport. Proof. solve_decision. Defined.
#[export] Instance RomRelayCapabilityReason_eq_dec : EqDecision RomRelayCapabilityReason. Proof. solve_decision. Defined.
#[export] Instance StateRecoveryPhase_eq_dec : EqDecision StateRecoveryPhase. Proof. solve_decision. Defined.
#[export] Instance SnapshotFileRelayGrantRole_eq_dec : EqDecision SnapshotFileRelayGrantRole. Proof. solve_decision. Defined.
#[export] Instance RomRelayBlockReason_eq_dec : EqDecision RomRelayBlockReason. Proof. solve_decision. Defined.

Section payloads.
Context `{SerdeLib}.

(** [ClockSyncPing] of [src/protocol/clock_sync.rs]. *)
Definition ClockSyncPing_fields (x : Messages.ClockSyncPing) : Fields :=
  [field "sampleId" text (ping_sample_id x);
   field "clientSendTimeMs" u64 (ping_client_send_time_ms x)].
Definition read_ClockSyncPing : Reader Messages.ClockSyncPing :=
  sample_id ← read "sampleId" text;
  client_send_time_ms ← read "clientSendTimeMs" u64;
  mret (mkClockSyncPing sample_id client_send_time_ms).
Definition ClockSyncPing_json : Codec Messages.ClockSyncPing := struct_codec ClockSyncPing_fields read_ClockSyncPing.

(** [ClockSyncSample] of [src/protocol/clock_sync.rs]. *)
Definition ClockSyncSample_fields (x : Protocol.ClockSyncSample) : Fields :=
  [field "requestId" text (sample_request_id x);
   field "sampleIndex" u8 (sample_index x);
   field "serverSendTimeMs" u64 (sample_server_send_time_ms x);
   field "clientReceiveTimeMs" u64 (client_receive_time_ms x);
   field "clientSendTimeMs" u64 (client_send_time_ms x)].
Definition read_ClockSyncSample : Reader Protocol.ClockSyncSample :=
  request_id ← read "requestId" text;
  sample_index ← read "sampleIndex" u8;
  server_send_time_ms ← read "serverSendTimeMs" u64;
  client_receive_time_ms ← read "clientReceiveTimeMs" u64;
  client_send_time_ms ← read "clientSendTimeMs" u64;
  mret (mkClockSyncSample request_id sample_index server_send_time_ms client_receive_time_ms client_send_time_ms).
Definition ClockSyncSample_json : Codec Protocol.ClockSyncSample := struct_codec ClockSyncSample_fields read_ClockSyncSample.

(** [StateDigestMode] of [src/protocol/compatibility_v5.rs]. *)
Definition StateDigestMode_names : list (string * StateDigestMode) :=
  [("authoritative", Authoritative); ("diagnostic", Diagnostic); ("disabled", DigestDisabled)]%string.
Definition StateDigestMode_json : Codec StateDigestMode := enum_codec StateDigestMode_names.

(** [DeterminismProfileV5] of [src/protocol/compatibility_v5.rs]. *)
Definition DeterminismProfileV5_fields (x : DeterminismProfileV5) : Fields :=
  [field "netplayCoreCompatibilityId" text (netplay_core_compatibility_id x);
   field "localArtifactId" text (local_artifact_id x);
   field "platformClass" text (platform_class x);
   field "coreOptionsDigest" text (core_options_digest x);
   field "controllerProfileIds" (vec text) (controller_profile_ids x);
   field "inputCodecId" text (input_codec_id x);
   field "inputPayloadSize" u16 (input_payload_size x);
   field "predictorId" text (predictor_id x);
   field "nominalFrameRateNumerator" u64 (nominal_frame_rate_numerator x);
   field "nominalFrameRateDenominator" u64 (nominal_frame_rate_denominator x);
   field "romSizeBytes" u64 (rom_size_bytes x);
   field "contentTransformationDigest" (optional text) (content_transformation_digest x);
   field "startupStatePolicyId" text (startup_state_policy_id x);
   field "replayOutputSuppressed" boolean (replay_output_suppressed x);
   field "digestMode" StateDigestMode_json (digest_mode x);
   field "digestAlgorithmId" (optional text) (digest_algorithm_id x)].
Definition read_DeterminismProfileV5 : Reader DeterminismProfileV5 :=
  netplay_core_compatibility_id ← read "netplayCoreCompatibilityId" text;
  local_artifact_id ← read "localArtifactId" text;
  platform_class ← read "platformClass" text;
  core_options_digest ← read "coreOptionsDigest" text;
  controller_profile_ids ← read "controllerProfileIds" (vec text);
  input_codec_id ← read "inputCodecId" text;
  input_payload_size ← read "inputPayloadSize" u16;
  predictor_id ← read "predictorId" text;
  nominal_frame_rate_numerator ← read "nominalFrameRateNumerator" u64;
  nominal_frame_rate_denominator ← read "nominalFrameRateDenominator" u64;
  rom_size_bytes ← read "romSizeBytes" u64;
  content_transformation_digest ← read_option "contentTransformationDigest" text;
  startup_state_policy_id ← read "startupStatePolicyId" text;
  replay_output_suppressed ← read "replayOutputSuppressed" boolean;
  digest_mode ← read "digestMode" StateDigestMode_json;
  digest_algorithm_id ← read_option "digestAlgorithmId" text;
  mret (mkDeterminismProfileV5 netplay_core_compatibility_id local_artifact_id platform_class core_options_digest controller_profile_ids input_codec_id input_payload_size predictor_id nominal_frame_rate_numerator nominal_frame_rate_denominator rom_size_bytes content_transformation_digest startup_state_policy_id replay_output_suppressed digest_mode digest_algorithm_id).
Definition DeterminismProfileV5_json : Codec DeterminismProfileV5 := struct_codec DeterminismProfileV5_fields read_DeterminismProfileV5.

(** [CompatibilityFingerprint] of [src/protocol/compatibility.rs]. *)
Definition CompatibilityFingerprint_fields (x : CompatibilityFingerprint) : Fields :=
  [field "desktopVersion" text (fp_desktop_version x);
   field "protocolVersion" u16 (fp_protocol_version x);
   field "systemId" text (fp_system_id x);
   field "coreId" text (fp_core_id x);
   field "coreBuild" text (fp_core_build x);
   field "stateFormat" (optional text) (fp_state_format x);
   field "contentHash" text (fp_content_hash x);
   field "settingsHash" text (fp_settings_hash x);
   field "cheatsHash" text (fp_cheats_hash x);
   field "systemDataHash" (optional text) (fp_system_data_hash x);
   field "saveDataMode" text (fp_save_data_mode x);
   field "determinismV5" (optional DeterminismProfileV5_json) (fp_determinism_v5 x)].
Definition read_CompatibilityFingerprint : Reader CompatibilityFingerprint :=
  desktop_version ← read "desktopVersion" text;
  protocol_version ← read "protocolVersion" u16;
  system_id ← read "systemId" text;
  core_id ← read "coreId" text;
  core_build ← read "coreBuild" text;
  state_format ← read_default "stateFormat" (optional text) None;
  content_hash ← read "contentHash" text;
  settings_hash ← read "settingsHash" text;
  cheats_hash ← read "cheatsHash" text;
  system_data_hash ← read_option "systemDataHash" text;
  save_data_mode ← read "saveDataMode" text;
  determinism_v5 ← read_default "determinismV5" (optional DeterminismProfileV5_json) None;
  mret (mkCompatibilityFingerprint desktop_version protocol_version system_id core_id core_build state_format content_hash settings_hash cheats_hash system_data_hash save_data_mode determinism_v5).
Definition CompatibilityFingerprint_json : Codec CompatibilityFingerprint := struct_codec CompatibilityFingerprint_fields read_CompatibilityFingerprint.

(** [LinkCableCompatibility] of [src/protocol/link_cable_compatibility.rs]. *)
Definition LinkCableCompatibility_fields (x : LinkCableCompatibility) : Fields :=
  [field "protocolVersion" u16 (lc_protocol_version x);
   field "systemFamily" text (lc_system_family x);
   field "linkProtocol" text (lc_link_protocol x);
   field "runtimeProfile" text (lc_runtime_profile x);
   field "systemDataHash" (optional text) (lc_system_data_hash x)].
Definition read_LinkCableCompatibility : Reader LinkCableCompatibility :=
  protocol_version ← read "protocolVersion" u16;
  system_family ← read "systemFamily" text;
  link_protocol ← read "linkProtocol" text;
  runtime_profile ← read "runtimeProfile" text;
  system_data_hash ← read_option "systemDataHash" text;
  mret (mkLinkCableCompatibility protocol_version system_family link_protocol runtime_profile system_data_hash).
Definition LinkCableCompatibility_json : Codec LinkCableCompatibility := struct_codec LinkCableCompatibility_fields read_LinkCableCompatibility.

(** [ClientNetworkQualityReport] of [src/protocol/client_network_quality.rs]. *)
Definition ClientNetworkQualityReport_fields (x : ClientNetworkQualityReport) : Fields :=
  [field "roundTripMs" (optional u32) (round_trip_ms x);
   field "jitterMs" (optional u32) (jitter_ms x);
   field "predictionFrames" (optional u32) (prediction_frames x);
   field "stallCount" (optional u32) (stall_count x);
   field "catchUpFrames" (optional u32) (catch_up_frames x);
   field "lateInputFrames" (optional u32) (late_input_frames x);
   field "audioUnderruns" (optional u32) (audio_underruns x);
   field "inputResendFrames" (optional u32) (input_resend_frames x);
   field "inputNacks" (optional u32) (input_nacks x);
   field "replayedFrames" (optional u32) (replayed_frames x);
   field "suppressedAudioFrames" (optional u32) (suppressed_audio_frames x);
   field "suppressedVideoFrames" (optional u32) (suppressed_video_frames x);
   field "audioQueueDepthFrames" (optional u32) (audio_queue_depth_frames x);
   field "audioCatchUpEvents" (optional u32) (audio_catch_up_events x);
   field "audioTrimmedFrames" (optional u32) (audio_trimmed_frames x);
   field "audioRebufferEvents" (optional u32) (audio_rebuffer_events x);
   field "audioMaxConsecutiveMissingFrames" (optional u32) (audio_max_consecutive_missing_frames x);
   field "audioQueueMinFrames" (optional u32) (audio_queue_min_frames x);
   field "audioQueueMaxFrames" (optional u32) (audio_queue_max_frames x);
   field "clockUncertaintyMs" (optional u32) (clock_uncertainty_ms x)].
Definition read_ClientNetworkQualityReport : Reader ClientNetworkQualityReport :=
  round_trip_ms ← read_default "roundTripMs" (optional u32) None;
  jitter_ms ← read_default "jitterMs" (optional u32) None;
  prediction_frames ← read_default "predictionFrames" (optional u32) None;
  stall_count ← read_default "stallCount" (optional u32) None;
  catch_up_frames ← read_default "catchUpFrames" (optional u32) None;
  late_input_frames ← read_default "lateInputFrames" (optional u32) None;
  audio_underruns ← read_default "audioUnderruns" (optional u32) None;
  input_resend_frames ← read_default "inputResendFrames" (optional u32) None;
  input_nacks ← read_default "inputNacks" (optional u32) None;
  replayed_frames ← read_default "replayedFrames" (optional u32) None;
  suppressed_audio_frames ← read_default "suppressedAudioFrames" (optional u32) None;
  suppressed_video_frames ← read_default "suppressedVideoFrames" (optional u32) None;
  audio_queue_depth_frames ← read_default "audioQueueDepthFrames" (optional u32) None;
  audio_catch_up_events ← read_default "audioCatchUpEvents" (optional u32) None;
  audio_trimmed_frames ← read_default "audioTrimmedFrames" (optional u32) None;
  audio_rebuffer_events ← read_default "audioRebufferEvents" (optional u32) None;
  audio_max_consecutive_missing_frames ← read_default "audioMaxConsecutiveMissingFrames" (optional u32) None;
  audio_queue_min_frames ← read_default "audioQueueMinFrames" (optional u32) None;
  audio_queue_max_frames ← read_default "audioQueueMaxFrames" (optional u32) None;
  clock_uncertainty_ms ← read_default "clockUncertaintyMs" (optional u32) None;
  mret (mkClientNetworkQualityReport round_trip_ms jitter_ms prediction_frames stall_count catch_up_frames late_input_frames audio_underruns input_resend_frames input_nacks replayed_frames suppressed_audio_frames suppressed_video_frames audio_queue_depth_frames audio_catch_up_events audio_trimmed_frames audio_rebuffer_events audio_max_consecutive_missing_frames audio_queue_min_frames audio_queue_max_frames clock_uncertainty_ms).
Definition ClientNetworkQualityReport_json : Codec ClientNetworkQualityReport := struct_codec ClientNetworkQualityReport_fields read_ClientNetworkQualityReport.

(** [ClockSyncEstimate] of [src/protocol/clock_sync.rs]. *)
Definition ClockSyncEstimate_fields (x : ClockSyncEstimate) : Fields :=
  [field "sampleId" text (estimate_sample_id x);
   field "roundTripMs" u64 (estimate_round_trip_ms x);
   field "serverTimeOffsetMs" i64 (estimate_server_time_offset_ms x);
   field "uncertaintyMs" u64 (estimate_uncertainty_ms x)].
Definition read_ClockSyncEstimate : Reader ClockSyncEstimate :=
  sample_id ← read "sampleId" text;
  round_trip_ms ← read "roundTripMs" u64;
  server_time_offset_ms ← read "serverTimeOffsetMs" i64;
  uncertainty_ms ← read "uncertaintyMs" u64;
  mret (mkClockSyncEstimate sample_id round_trip_ms server_time_offset_ms uncertainty_ms).
Definition ClockSyncEstimate_json : Codec ClockSyncEstimate := struct_codec ClockSyncEstimate_fields read_ClockSyncEstimate.

(** [DeterministicReadyReport] of [src/protocol/scheduled_start.rs]. *)
Definition DeterministicReadyReport_fields (x : DeterministicReadyReport) : Fields :=
  [field "localReadyTimeMs" u64 (ready_local_ready_time_ms x);
   field "warmupFrameCount" u64 (ready_warmup_frame_count x);
   field "loadedStateFrame" (optional u64) (ready_loaded_state_frame x);
   field "clock" (optional ClockSyncEstimate_json) (ready_clock x)].
Definition read_DeterministicReadyReport : Reader DeterministicReadyReport :=
  local_ready_time_ms ← read "localReadyTimeMs" u64;
  warmup_frame_count ← read "warmupFrameCount" u64;
  loaded_state_frame ← read_default "loadedStateFrame" (optional u64) None;
  clock ← read_default "clock" (optional ClockSyncEstimate_json) None;
  mret (mkDeterministicReadyReport local_ready_time_ms warmup_frame_count loaded_state_frame clock).
Definition DeterministicReadyReport_json : Codec DeterministicReadyReport := struct_codec DeterministicReadyReport_fields read_DeterministicReadyReport.

(** [SnapshotChunk] of [src/protocol/snapshot.rs]. *)
Definition SnapshotChunk_fields (x : Protocol.SnapshotChunk) : Fields :=
  [field "snapshotId" text (chunk_snapshot_id x);
   field "repairFrame" u64 (chunk_repair_frame x);
   field "index" u32 (chunk_index x);
   field "bytes" (vec octet) (chunk_bytes x)].
Definition read_SnapshotChunk : Reader Protocol.SnapshotChunk :=
  snapshot_id ← read "snapshotId" text;
  repair_frame ← read "repairFrame" u64;
  index ← read "index" u32;
  bytes ← read "bytes" (vec octet);
  mret (mkSnapshotChunk snapshot_id repair_frame index bytes).
Definition SnapshotChunk_json : Codec Protocol.SnapshotChunk := struct_codec SnapshotChunk_fields read_SnapshotChunk.

(** [SnapshotManifest] of [src/protocol/snapshot.rs]. *)
Definition SnapshotManifest_fields (x : SnapshotManifest) : Fields :=
  [field "snapshotId" text (manifest_snapshot_id x);
   field "repairFrame" u64 (manifest_repair_frame x);
   field "totalBytes" u64 (manifest_total_bytes x);
   field "sha256" text (manifest_sha256 x)].
Definition read_SnapshotManifest : Reader SnapshotManifest :=
  snapshot_id ← read "snapshotId" text;
  repair_frame ← read "repairFrame" u64;
  total_bytes ← read "totalBytes" u64;
  sha256 ← read "sha256" text;
  mret (mkSnapshotManifest snapshot_id repair_frame total_bytes sha256).
Definition SnapshotManifest_json : Codec SnapshotManifest := struct_codec SnapshotManifest_fields read_SnapshotManifest.

(** [RomRelayGrantRole] of [src/protocol/rom_relay.rs]. *)
Definition RomRelayGrantRole_names : list (string * RomRelayGrantRole) :=
  [("upload", Upload); ("download", Download)]%string.
Definition RomRelayGrantRole_json : Codec RomRelayGrantRole := enum_codec RomRelayGrantRole_names.

(** [RomRelayProgress] of [src/protocol/rom_relay.rs]. *)
Definition RomRelayProgress_fields (x : Protocol.RomRelayProgress) : Fields :=
  [field "transferId" text (progress_transfer_id x);
   field "role" RomRelayGrantRole_json (progress_role x);
   field "bytesComplete" u64 (progress_bytes_complete x);
   field "sizeBytes" u64 (progress_size_bytes x)].
Definition read_RomRelayProgress : Reader Protocol.RomRelayProgress :=
  transfer_id ← read "transferId" text;
  role ← read "role" RomRelayGrantRole_json;
  bytes_complete ← read "bytesComplete" u64;
  size_bytes ← read "sizeBytes" u64;
  mret (mkRomRelayProgress transfer_id role bytes_complete size_bytes).
Definition RomRelayProgress_json : Codec Protocol.RomRelayProgress := struct_codec RomRelayProgress_fields read_RomRelayProgress.

(** [RomRelayCompletion] of [src/protocol/rom_relay.rs]. *)
Definition RomRelayCompletion_fields (x : RomRelayCompletion) : Fields :=
  [field "transferId" text (completion_transfer_id x);
   field "role" RomRelayGrantRole_json (completion_role x);
   field "contentHash" text (completion_content_hash x)].
Definition read_RomRelayCompletion : Reader RomRelayCompletion :=
  transfer_id ← read "transferId" text;
  role ← read "role" RomRelayGrantRole_json;
  content_hash ← read "contentHash" text;
  mret (mkRomRelayCompletion transfer_id role content_hash).
Definition RomRelayCompletion_json : Codec RomRelayCompletion := struct_codec RomRelayCompletion_fields read_RomRelayCompletion.

(** [RomRelayFailReason] of [src/protocol/rom_relay.rs]. *)
Definition RomRelayFailReason_names : list (string * RomRelayFailReason) :=
  [("brokerUnavailable", FailBrokerUnavailable); ("hashMismatch", FailHashMismatch); ("transferFailed", FailTransferFailed); ("staleEpoch", FailStaleEpoch); ("invalidPayload", FailInvalidPayload)]%string.
Definition RomRelayFailReason_json : Codec RomRelayFailReason := enum_codec RomRelayFailReason_names.

(** [RomRelayFailure] of [src/protocol/rom_relay.rs]. *)
Definition RomRelayFailure_fields (x : RomRelayFailure) : Fields :=
  [field_opt "transferId" text (failure_transfer_id x);
   field "reason" RomRelayFailReason_json (failure_reason x)].
Definition read_RomRelayFailure : Reader RomRelayFailure :=
  transfer_id ← read_default "transferId" (optional text) None;
  reason ← read "reason" RomRelayFailReason_json;
  mret (mkRomRelayFailure transfer_id reason).
Definition RomRelayFailure_json : Codec RomRelayFailure := struct_codec RomRelayFailure_fields read_RomRelayFailure.

(** [RomRelayCancelled] of [src/protocol/rom_relay.rs]. *)
Definition RomRelayCancelled_fields (x : Protocol.RomRelayCancelled) : Fields :=
  [field_opt "transferId" text (cancelled_transfer_id x)].
Definition read_RomRelayCancelled : Reader Protocol.RomRelayCancelled :=
  transfer_id ← read_default "transferId" (optional text) None;
  mret (mkRomRelayCancelled transfer_id).
Definition RomRelayCancelled_json : Codec Protocol.RomRelayCancelled := struct_codec RomRelayCancelled_fields read_RomRelayCancelled.

(** [PlayerIndex] of [src/rooms/ids.rs]. *)
Definition PlayerIndex_json : Codec PlayerIndex := newtype mkPlayerIndex zero_based u8.

(** [InputFrame] of [src/protocol/input_frame.rs]. *)
Definition InputFrame_fields (x : Protocol.InputFrame) : Fields :=
  [field "playerIndex" PlayerIndex_json (frame_player_index x);
   field "frame" u64 (frame_frame x);
   field "payload" (vec octet) (frame_payload x)].
Definition read_InputFrame : Reader Protocol.InputFrame :=
  player_index ← read "playerIndex" PlayerIndex_json;
  frame ← read "frame" u64;
  payload ← read "payload" (vec octet);
  mret (mkInputFrame player_index frame payload).
Definition InputFrame_json : Codec Protocol.InputFrame := struct_codec InputFrame_fields read_InputFrame.

(** [LinkCablePacket] of [src/protocol/link_cable_packet.rs]. *)
Definition LinkCablePacket_fields (x : Protocol.LinkCablePacket) : Fields :=
  [field "playerIndex" PlayerIndex_json (packet_player_index x);
   field "sequence" u64 (packet_sequence x);
   field "emulatedTime" u64 (packet_emulated_time x);
   field "payload" (vec octet) (packet_payload x)].
Definition read_LinkCablePacket : Reader Protocol.LinkCablePacket :=
  player_index ← read "playerIndex" PlayerIndex_json;
  sequence ← read "sequence" u64;
  emulated_time ← read "emulatedTime" u64;
  payload ← read "payload" (vec octet);
  mret (mkLinkCablePacket player_index sequence emulated_time payload).
Definition LinkCablePacket_json : Codec Protocol.LinkCablePacket := struct_codec LinkCablePacket_fields read_LinkCablePacket.

(** [ClientRuntimeState] of [src/protocol/client_runtime_state.rs]. *)
Definition ClientRuntimeState_names : list (string * ClientRuntimeState) :=
  [("connected", Client_Connected); ("checkingCompatibility", Client_CheckingCompatibility); ("syncing", Client_Syncing); ("ready", Client_Ready); ("deterministicReady", Client_DeterministicReady); ("playing", Client_Playing); ("pausing", Client_Pausing); ("paused", Client_Paused); ("reconnecting", Client_Reconnecting); ("disconnected", Client_Disconnected)]%string.
Definition ClientRuntimeState_json : Codec ClientRuntimeState := enum_codec ClientRuntimeState_names.

(** [SessionPauseReason] of [src/protocol/session_pause.rs]. *)
Definition SessionPauseReason_names : list (string * SessionPauseReason) :=
  [("menu", Menu); ("backgrounded", Backgrounded); ("system", System); ("connectionLost", ConnectionLost)]%string.
Definition SessionPauseReason_json : Codec SessionPauseReason := enum_codec SessionPauseReason_names.

(** [StateHashReport] of [src/protocol/state_hash.rs]. *)
Definition StateHashReport_fields (x : StateHashReport) : Fields :=
  [field "frame" u64 (report_frame x);
   field "sha256" text (report_sha256 x)].
Definition read_StateHashReport : Reader StateHashReport :=
  frame ← read "frame" u64;
  sha256 ← read "sha256" text;
  mret (mkStateHashReport frame sha256).
Definition StateHashReport_json : Codec StateHashReport := struct_codec StateHashReport_fields read_StateHashReport.

(** [StateRecoveryPin] of [src/protocol/state_recovery.rs]. *)
Definition StateRecoveryPin_fields (x : StateRecoveryPin) : Fields :=
  [field "recoveryId" u64 (pin_recovery_id x);
   field "manifest" SnapshotManifest_json (pin_manifest x)].
Definition read_StateRecoveryPin : Reader StateRecoveryPin :=
  recovery_id ← read "recoveryId" u64;
  manifest ← read "manifest" SnapshotManifest_json;
  mret (mkStateRecoveryPin recovery_id manifest).
Definition StateRecoveryPin_json : Codec StateRecoveryPin := struct_codec StateRecoveryPin_fields read_StateRecoveryPin.

(** [NetplayVoiceMode] of [src/protocol/voice_descriptor.rs]. *)
Definition NetplayVoiceMode_names : list (string * NetplayVoiceMode) :=
  [("voiceActivation", VoiceActivation); ("pushToTalk", PushToTalk); ("mutedOnJoin", MutedOnJoin)]%string.
Definition NetplayVoiceMode_json : Codec NetplayVoiceMode := enum_codec NetplayVoiceMode_names.

(** [RoomId] of [src/rooms/ids.rs]. *)
Definition RoomId_json : Codec RoomId := newtype mkRoomId room_id_uuid uuid.

(** [NetplayClientKind] of [src/protocol/client_kind.rs]. *)
Definition NetplayClientKind_names : list (string * NetplayClientKind) :=
  [("desktop", DesktopClient); ("android", AndroidClient); ("ios", IosClient)]%string.
Definition NetplayClientKind_json : Codec NetplayClientKind := enum_codec NetplayClientKind_names.

(** [NetplayRoomMode] of [src/protocol/rom_relay.rs]. *)
Definition NetplayRoomMode_names : list (string * NetplayRoomMode) :=
  [("directInvite", DirectInvite)]%string.
Definition NetplayRoomMode_json : Codec NetplayRoomMode := enum_codec NetplayRoomMode_names.

(** [NetplaySessionMode] of [src/protocol/session_mode.rs]. *)
Definition NetplaySessionMode_names : list (string * NetplaySessionMode) :=
  [("controllerNetplay", ControllerNetplay); ("linkCable", LinkCable)]%string.
Definition NetplaySessionMode_json : Codec NetplaySessionMode := enum_codec NetplaySessionMode_names.

(** [NetplayGameDescriptor] of [src/protocol/session_descriptor.rs]. *)
Definition NetplayGameDescriptor_fields (x : NetplayGameDescriptor) : Fields :=
  [field "systemId" text (game_system_id x);
   field "title" text (game_title x);
   field "romSha256" text (game_rom_sha256 x);
   field "contentKey" text (game_content_key x);
   field "region" (optional text) (game_region x);
   field "revision" (optional text) (game_revision x);
   field "discId" (optional text) (game_disc_id x)].
Definition read_NetplayGameDescriptor : Reader NetplayGameDescriptor :=
  system_id ← read "systemId" text;
  title ← read "title" text;
  rom_sha256 ← read "romSha256" text;
  content_key ← read "contentKey" text;
  region ← read_default "region" (optional text) None;
  revision ← read_default "revision" (optional text) None;
  disc_id ← read_default "discId" (optional text) None;
  mret (mkNetplayGameDescriptor system_id title rom_sha256 content_key region revision disc_id).
Definition NetplayGameDescriptor_json : Codec NetplayGameDescriptor := struct_codec NetplayGameDescriptor_fields read_NetplayGameDescriptor.

(** [NetplayCoreDescriptor] of [src/protocol/session_descriptor.rs]. *)
Definition NetplayCoreDescriptor_fields (x : NetplayCoreDescriptor) : Fields :=
  [field "coreId" text (core_core_id x);
   field "coreName" (optional text) (core_core_name x);
   field "coreVersion" (optional text) (core_core_version x);
   field "coreOptionsSha256" (optional text) (core_core_options_sha256 x);
   field "stateFormat" (optional text) (core_state_format x)].
Definition read_NetplayCoreDescriptor : Reader NetplayCoreDescriptor :=
  core_id ← read "coreId" text;
  core_name ← read_default "coreName" (optional text) None;
  core_version ← read_default "coreVersion" (optional text) None;
  core_options_sha256 ← read_default "coreOptionsSha256" (optional text) None;
  state_format ← read_default "stateFormat" (optional text) None;
  mret (mkNetplayCoreDescriptor core_id core_name core_version core_options_sha256 state_format).
Definition NetplayCoreDescriptor_json : Codec NetplayCoreDescriptor := struct_codec NetplayCoreDescriptor_fields read_NetplayCoreDescriptor.

(** [ControllerNetplayDescriptor] of [src/protocol/session_descriptor.rs]. *)
Definition ControllerNetplayDescriptor_fields (x : ControllerNetplayDescriptor) : Fields :=
  [field "inputDelayFrames" u8 (input_delay_frames x)].
Definition read_ControllerNetplayDescriptor : Reader ControllerNetplayDescriptor :=
  input_delay_frames ← read_default "inputDelayFrames" u8 DEFAULT_CONTROLLER_INPUT_DELAY_FRAMES;
  mret (mkControllerNetplayDescriptor input_delay_frames).
Definition ControllerNetplayDescriptor_json : Codec ControllerNetplayDescriptor := struct_codec ControllerNetplayDescriptor_fields read_ControllerNetplayDescriptor.

(** [LinkCableTransport] of [src/protocol/link_cable_descriptor.rs]. *)
Definition LinkCableTransport_names : list (string * LinkCableTransport) :=
  [("relay", Relay_)]%string.
Definition LinkCableTransport_json : Codec LinkCableTransport := enum_codec LinkCableTransport_names.

(** [LinkCableDescriptor] of [src/protocol/link_cable_descriptor.rs]. *)
Definition LinkCableDescriptor_fields (x : LinkCableDescriptor) : Fields :=
  [field "systemFamily" text (link_system_family x);
   field "linkProtocol" text (link_protocol x);
   field "runtimeProfile" text (link_runtime_profile x);
   field "maxPlayers" u8 (link_max_players x);
   field "transport" LinkCableTransport_json (link_transport x)].
Definition read_LinkCableDescriptor : Reader LinkCableDescriptor :=
  system_family ← read "systemFamily" text;
  link_protocol ← read "linkProtocol" text;
  runtime_profile ← read "runtimeProfile" text;
  max_players ← read "maxPlayers" u8;
  transport_ ← read_default "transport" LinkCableTransport_json Relay_;
  mret (mkLinkCableDescriptor system_family link_protocol runtime_profile max_players transport_).
Definition LinkCableDescriptor_json : Codec LinkCableDescriptor := struct_codec LinkCableDescriptor_fields read_LinkCableDescriptor.

(** [NetplayVoiceDescriptor] of [src/protocol/voice_descriptor.rs]. *)
Definition NetplayVoiceDescriptor_fields (x : NetplayVoiceDescriptor) : Fields :=
  [field "enabled" boolean (voice_enabled x);
   field "mode" NetplayVoiceMode_json (voice_mode x)].
Definition read_NetplayVoiceDescriptor : Reader NetplayVoiceDescriptor :=
  enabled ← read_default "enabled" boolean false;
  mode ← read_default "mode" NetplayVoiceMode_json VoiceActivation;
  mret (mkNetplayVoiceDescriptor enabled mode).
Definition NetplayVoiceDescriptor_json : Codec NetplayVoiceDescriptor := struct_codec NetplayVoiceDescriptor_fields read_NetplayVoiceDescriptor.

(** [RomIdentity] of [src/protocol/rom_relay.rs]. *)
Definition RomIdentity_fields (x : RomIdentity) : Fields :=
  [field "system" text (rom_system x);
   field "coreId" text (rom_core_id x);
   field "contentHash" text (rom_content_hash x);
   field "sizeBytes" u64 (rom_size_bytes_ x);
   field_opt "fileName" text (rom_file_name x);
   field_opt "extension" text (rom_extension x);
   field "displayName" text (rom_display_name x)].
Definition read_RomIdentity : Reader RomIdentity :=
  system ← read "system" text;
  core_id ← read "coreId" text;
  content_hash ← read "contentHash" text;
  size_bytes ← read "sizeBytes" u64;
  file_name ← read_default "fileName" (optional text) None;
  extension ← read_default "extension" (optional text) None;
  display_name ← read "displayName" text;
  mret (mkRomIdentity system core_id content_hash size_bytes file_name extension display_name).
Definition RomIdentity_json : Codec RomIdentity := struct_codec RomIdentity_fields read_RomIdentity.

(** [RomRelayIntent] of [src/protocol/rom_relay.rs]. *)
Definition RomRelayIntent_names : list (string * RomRelayIntent) :=
  [("exactMatchOnly", ExactMatchOnly); ("missingPeerOnly", MissingPeerOnly)]%string.
Definition RomRelayIntent_json : Codec RomRelayIntent := enum_codec RomRelayIntent_names.

(** [RomRelayCapabilityReason] of [src/protocol/rom_relay.rs]. *)
Definition RomRelayCapabilityReason_names : list (string * RomRelayCapabilityReason) :=
  [("disabled", CapDisabled); ("brokerUnavailable", CapBrokerUnavailable); ("unsupportedRoom", CapUnsupportedRoom); ("missingIdentity", CapMissingIdentity); ("tooLarge", CapTooLarge); ("unsupportedSystem", CapUnsupportedSystem)]%string.
Definition RomRelayCapabilityReason_json : Codec RomRelayCapabilityReason := enum_codec RomRelayCapabilityReason_names.

(** [RomRelayCapability] of [src/protocol/rom_relay.rs]. *)
Definition RomRelayCapability_fields (x : RomRelayCapability) : Fields :=
  [field "supported" boolean (cap_supported x);
   field "available" boolean (cap_available x);
   field "temporaryAccessOnly" boolean (cap_temporary_access_only x);
   field "maxBytes" u64 (cap_max_bytes x);
   field "allowedSystems" (vec text) (cap_allowed_systems x);
   field "reason" (optional RomRelayCapabilityReason_json) (cap_reason x)].
Definition read_RomRelayCapability : Reader RomRelayCapability :=
  supported ← read "supported" boolean;
  available ← read "available" boolean;
  temporary_access_only ← read "temporaryAccessOnly" boolean;
  max_bytes ← read "maxBytes" u64;
  allowed_systems ← read "allowedSystems" (vec text);
  reason ← read_option "reason" RomRelayCapabilityReason_json;
  mret (mkRomRelayCapability supported available temporary_access_only max_bytes allowed_systems reason).
Definition RomRelayCapability_json : Codec RomRelayCapability := struct_codec RomRelayCapability_fields read_RomRelayCapability.

(** [NetplaySessionDescriptor] of [src/protocol/session_descriptor.rs]. *)
Definition NetplaySessionDescriptor_fields (x : NetplaySessionDescriptor) : Fields :=
  [field "hostClientKind" (optional NetplayClientKind_json) (host_client_kind x);
   field "hostAppVersion" (optional text) (host_app_version x);
   field "roomMode" NetplayRoomMode_json (room_mode x);
   field "mode" NetplaySessionMode_json (mode x);
   field "game" NetplayGameDescriptor_json (game x);
   field "core" NetplayCoreDescriptor_json (core x);
   field "controller" ControllerNetplayDescriptor_json (controller x);
   field "link" (optional LinkCableDescriptor_json) (link x);
   field "voice" (optional NetplayVoiceDescriptor_json) (voice_descriptor x);
   field "romIdentity" (optional RomIdentity_json) (rom_identity x);
   field "romRelayIntent" RomRelayIntent_json (rom_relay_intent x);
   field "romRelay" (optional RomRelayCapability_json) (rom_relay x)].
Definition read_NetplaySessionDescriptor : Reader NetplaySessionDescriptor :=
  host_client_kind ← read_default "hostClientKind" (optional NetplayClientKind_json) None;
  host_app_version ← read_default "hostAppVersion" (optional text) None;
  room_mode ← read_default "roomMode" NetplayRoomMode_json DirectInvite;
  mode ← read_default "mode" NetplaySessionMode_json ControllerNetplay;
  game ← read "game" NetplayGameDescriptor_json;
  core ← read "core" NetplayCoreDescriptor_json;
  controller ← read_default "controller" ControllerNetplayDescriptor_json (mkControllerNetplayDescriptor DEFAULT_CONTROLLER_INPUT_DELAY_FRAMES);
  link ← read_default "link" (optional LinkCableDescriptor_json) None;
  voice ← read_default "voice" (optional NetplayVoiceDescriptor_json) None;
  rom_identity ← read_default "romIdentity" (optional RomIdentity_json) None;
  rom_relay_intent ← read_default "romRelayIntent" RomRelayIntent_json ExactMatchOnly;
  rom_relay ← read_default "romRelay" (optional RomRelayCapability_json) None;
  mret (mkNetplaySessionDescriptor host_client_kind host_app_version room_mode mode game core controller link voice rom_identity rom_relay_intent rom_relay).
Definition NetplaySessionDescriptor_json : Codec NetplaySessionDescriptor := struct_codec NetplaySessionDescriptor_fields read_NetplaySessionDescriptor.

(** [StateRecoveryPhase] of [src/protocol/state_recovery.rs]. *)
Definition StateRecoveryPhase_names : list (string * StateRecoveryPhase) :=
  [("preparing", Preparing); ("committed", Committed)]%string.
Definition StateRecoveryPhase_json : Codec StateRecoveryPhase := enum_codec StateRecoveryPhase_names.

(** [ClockSyncSampleRequest] of [src/protocol/clock_sync.rs]. *)
Definition ClockSyncSampleRequest_fields (x : ClockSyncSampleRequest) : Fields :=
  [field "requestId" text (request_id x);
   field "requestedSampleCount" u8 (requested_sample_count x);
   field "serverSendTimeMs" u64 (request_server_send_time_ms x)].
Definition read_ClockSyncSampleRequest : Reader ClockSyncSampleRequest :=
  request_id ← read "requestId" text;
  requested_sample_count ← read "requestedSampleCount" u8;
  server_send_time_ms ← read "serverSendTimeMs" u64;
  mret (mkClockSyncSampleRequest request_id requested_sample_count server_send_time_ms).
Definition ClockSyncSampleRequest_json : Codec ClockSyncSampleRequest := struct_codec ClockSyncSampleRequest_fields read_ClockSyncSampleRequest.

(** [ClockSyncPong] of [src/protocol/clock_sync.rs]. *)
Definition ClockSyncPong_fields (x : Messages.ClockSyncPong) : Fields :=
  [field "sampleId" text (pong_sample_id x);
   field "clientSendTimeMs" u64 (pong_client_send_time_ms x);
   field "serverReceiveTimeMs" u64 (pong_server_receive_time_ms x);
   field "serverSendTimeMs" u64 (pong_server_send_time_ms x)].
Definition read_ClockSyncPong : Reader Messages.ClockSyncPong :=
  sample_id ← read "sampleId" text;
  client_send_time_ms ← read "clientSendTimeMs" u64;
  server_receive_time_ms ← read "serverReceiveTimeMs" u64;
  server_send_time_ms ← read "serverSendTimeMs" u64;
  mret (mkClockSyncPong sample_id client_send_time_ms server_receive_time_ms server_send_time_ms).
Definition ClockSyncPong_json : Codec Messages.ClockSyncPong := struct_codec ClockSyncPong_fields read_ClockSyncPong.

(** [ScheduledSessionStart] of [src/protocol/scheduled_start.rs]. *)
Definition ScheduledSessionStart_fields (x : ScheduledSessionStart) : Fields :=
  [field "roomEpoch" u64 (start_room_epoch x);
   field "sessionEpoch" u64 (start_session_epoch x);
   field "startFrame" u64 (start_start_frame x);
   field "serverTimeMs" u64 (start_server_time_ms x);
   field "createdAtServerTimeMs" u64 (created_at_server_time_ms x);
   field "minimumStartDelayMs" u64 (minimum_start_delay_ms x);
   field "clockUncertaintyBudgetMs" u64 (clock_uncertainty_budget_ms x)].
Definition read_ScheduledSessionStart : Reader ScheduledSessionStart :=
  room_epoch ← read "roomEpoch" u64;
  session_epoch ← read "sessionEpoch" u64;
  start_frame ← read "startFrame" u64;
  server_time_ms ← read "serverTimeMs" u64;
  created_at_server_time_ms ← read "createdAtServerTimeMs" u64;
  minimum_start_delay_ms ← read "minimumStartDelayMs" u64;
  clock_uncertainty_budget_ms ← read "clockUncertaintyBudgetMs" u64;
  mret (mkScheduledSessionStart room_epoch session_epoch start_frame server_time_ms created_at_server_time_ms minimum_start_delay_ms clock_uncertainty_budget_ms).
Definition ScheduledSessionStart_json : Codec ScheduledSessionStart := struct_codec ScheduledSessionStart_fields read_ScheduledSessionStart.

(** [SnapshotFileRelayGrantRole] of [src/protocol/snapshot_file_relay.rs]. *)
Definition SnapshotFileRelayGrantRole_names : list (string * SnapshotFileRelayGrantRole) :=
  [("upload", SnapshotUpload); ("download", SnapshotDownload)]%string.
Definition SnapshotFileRelayGrantRole_json : Codec SnapshotFileRelayGrantRole := enum_codec SnapshotFileRelayGrantRole_names.

(** [SnapshotFileRelayGrant] of [src/protocol/snapshot_file_relay.rs]. *)
Definition SnapshotFileRelayGrant_fields (x : SnapshotFileRelayGrant) : Fields :=
  [field "transferId" text (grant_transfer_id x);
   field "relayUrl" text (grant_relay_url x);
   field "token" text (grant_token x);
   field "role" SnapshotFileRelayGrantRole_json (grant_role x);
   field "chunkSizeBytes" u64 (grant_chunk_size_bytes x);
   field "chunkCount" u64 (grant_chunk_count x);
   field "expiresAt" text (grant_expires_at x);
   field "manifest" SnapshotManifest_json (grant_manifest x)].
Definition read_SnapshotFileRelayGrant : Reader SnapshotFileRelayGrant :=
  transfer_id ← read "transferId" text;
  relay_url ← read "relayUrl" text;
  token ← read "token" text;
  role ← read "role" SnapshotFileRelayGrantRole_json;
  chunk_size_bytes ← read "chunkSizeBytes" u64;
  chunk_count ← read "chunkCount" u64;
  expires_at ← read "expiresAt" text;
  manifest ← read "manifest" SnapshotManifest_json;
  mret (mkSnapshotFileRelayGrant transfer_id relay_url token role chunk_size_bytes chunk_count expires_at manifest).
Definition SnapshotFileRelayGrant_json : Codec SnapshotFileRelayGrant := struct_codec SnapshotFileRelayGrant_fields read_SnapshotFileRelayGrant.

(** [RomRelayGrant] of [src/protocol/rom_relay.rs]. *)
Definition RomRelayGrant_fields (x : RomRelayGrant) : Fields :=
  [field "transferId" text (rgrant_transfer_id x);
   field "relayUrl" text (rgrant_relay_url x);
   field "token" text (rgrant_token x);
   field "role" RomRelayGrantRole_json (rgrant_role x);
   field "rom" RomIdentity_json (rgrant_rom x);
   field "senderPlayerIndex" u8 (rgrant_sender_player_index x);
   field "receiverPlayerIndex" u8 (rgrant_receiver_player_index x);
   field "chunkSizeBytes" u64 (rgrant_chunk_size_bytes x);
   field "chunkCount" u64 (rgrant_chunk_count x);
   field "expiresAt" text (rgrant_expires_at x)].
Definition read_RomRelayGrant : Reader RomRelayGrant :=
  transfer_id ← read "transferId" text;
  relay_url ← read "relayUrl" text;
  token ← read "token" text;
  role ← read "role" RomRelayGrantRole_json;
  rom ← read "rom" RomIdentity_json;
  sender_player_index ← read "senderPlayerIndex" u8;
  receiver_player_index ← read "receiverPlayerIndex" u8;
  chunk_size_bytes ← read "chunkSizeBytes" u64;
  chunk_count ← read "chunkCount" u64;
  expires_at ← read "expiresAt" text;
  mret (mkRomRelayGrant transfer_id relay_url token role rom sender_player_index receiver_player_index chunk_size_bytes chunk_count expires_at).
Definition RomRelayGrant_json : Codec RomRelayGrant := struct_codec RomRelayGrant_fields read_RomRelayGrant.

(** [RomRelayBlockReason] of [src/protocol/rom_relay.rs]. *)
Definition RomRelayBlockReason_names : list (string * RomRelayBlockReason) :=
  [("disabled", BlockDisabled); ("brokerUnavailable", BlockBrokerUnavailable); ("wrongPlayer", BlockWrongPlayer); ("clientUnsupported", BlockClientUnsupported); ("unsupportedSystem", BlockUnsupportedSystem); ("tooLarge", BlockTooLarge); ("missingIdentity", BlockMissingIdentity); ("transferActive", BlockTransferActive)]%string.
Definition RomRelayBlockReason_json : Codec RomRelayBlockReason := enum_codec RomRelayBlockReason_names.

(** [RomRelayBlocked] of [src/protocol/rom_relay.rs]. *)
Definition RomRelayBlocked_fields (x : Messages.RomRelayBlocked) : Fields :=
  [field "reason" RomRelayBlockReason_json (blocked_reason x)].
Definition read_RomRelayBlocked : Reader Messages.RomRelayBlocked :=
  reason ← read "reason" RomRelayBlockReason_json;
  mret (mkRomRelayBlocked reason).
Definition RomRelayBlocked_json : Codec Messages.RomRelayBlocked := struct_codec RomRelayBlocked_fields read_RomRelayBlocked.

End payloads.

(** ** Laws *)

Section laws.
Context `{SerdeLaws}.

#[export] Instance ClockSyncPing_relayed : Relayed ClockSyncPing_json. Proof. relay_struct. Qed.
#[export] Instance ClockSyncPing_nonnull : NonNull ClockSyncPing_json. Proof. done. Qed.
#[export] Instance ClockSyncPing_inj : Inj (=) (=) (enc ClockSyncPing_json). Proof. same_struct ClockSyncPing_fields. Qed.
#[export] Instance ClockSyncSample_relayed : Relayed ClockSyncSample_json. Proof. relay_struct. Qed.
#[export] Instance ClockSyncSample_nonnull : NonNull ClockSyncSample_json. Proof. done. Qed.
#[export] Instance ClockSyncSample_inj : Inj (=) (=) (enc ClockSyncSample_json). Proof. same_struct ClockSyncSample_fields. Qed.
#[export] Instance StateDigestMode_relayed : Relayed StateDigestMode_json. Proof. relay_enum. Qed.
#[export] Instance StateDigestMode_nonnull : NonNull StateDigestMode_json. Proof. done. Qed.
#[export] Instance StateDigestMode_inj : Inj (=) (=) (enc StateDigestMode_json). Proof. same_enum. Qed.
#[export] Instance DeterminismProfileV5_relayed : Relayed DeterminismProfileV5_json. Proof. relay_struct. Qed.
#[export] Instance DeterminismProfileV5_nonnull : NonNull DeterminismProfileV5_json. Proof. done. Qed.
#[export] Instance DeterminismProfileV5_inj : Inj (=) (=) (enc DeterminismProfileV5_json). Proof. same_struct DeterminismProfileV5_fields. Qed.
#[export] Instance CompatibilityFingerprint_relayed : Relayed CompatibilityFingerprint_json. Proof. relay_struct. Qed.
#[export] Instance CompatibilityFingerprint_nonnull : NonNull CompatibilityFingerprint_json. Proof. done. Qed.
#[export] Instance CompatibilityFingerprint_inj : Inj (=) (=) (enc CompatibilityFingerprint_json). Proof. same_struct CompatibilityFingerprint_fields. Qed.
#[export] Instance LinkCableCompatibility_relayed : Relayed LinkCableCompatibility_json. Proof. relay_struct. Qed.
#[export] Instance LinkCableCompatibility_nonnull : NonNull LinkCableCompatibility_json. Proof. done. Qed.
#[export] Instance LinkCableCompatibility_inj : Inj (=) (=) (enc LinkCableCompatibility_json). Proof. same_struct LinkCableCompatibility_fields. Qed.
#[export] Instance ClientNetworkQualityReport_relayed : Relayed ClientNetworkQualityReport_json. Proof. relay_struct. Qed.
#[export] Instance ClientNetworkQualityReport_nonnull : NonNull ClientNetworkQualityReport_json. Proof. done. Qed.
#[export] Instance ClientNetworkQualityReport_inj : Inj (=) (=) (enc ClientNetworkQualityReport_json). Proof. same_struct ClientNetworkQualityReport_fields. Qed.
#[export] Instance ClockSyncEstimate_relayed : Relayed ClockSyncEstimate_json. Proof. relay_struct. Qed.
#[export] Instance ClockSyncEstimate_nonnull : NonNull ClockSyncEstimate_json. Proof. done. Qed.
#[export] Instance ClockSyncEstimate_inj : Inj (=) (=) (enc ClockSyncEstimate_json). Proof. same_struct ClockSyncEstimate_fields. Qed.
#[export] Instance DeterministicReadyReport_relayed : Relayed DeterministicReadyReport_json. Proof. relay_struct. Qed.
#[export] Instance DeterministicReadyReport_nonnull : NonNull DeterministicReadyReport_json. Proof. done. Qed.
#[export] Instance DeterministicReadyReport_inj : Inj (=) (=) (enc DeterministicReadyReport_json). Proof. same_struct DeterministicReadyReport_fields. Qed.
#[export] Instance SnapshotChunk_relayed : Relayed SnapshotChunk_json. Proof. relay_struct. Qed.
#[export] Instance SnapshotChunk_nonnull : NonNull SnapshotChunk_json. Proof. done. Qed.
#[export] Instance SnapshotChunk_inj : Inj (=) (=) (enc SnapshotChunk_json). Proof. same_struct SnapshotChunk_fields. Qed.
#[export] Instance SnapshotManifest_relayed : Relayed SnapshotManifest_json. Proof. relay_struct. Qed.
#[export] Instance SnapshotManifest_nonnull : NonNull SnapshotManifest_json. Proof. done. Qed.
#[export] Instance SnapshotManifest_inj : Inj (=) (=) (enc SnapshotManifest_json). Proof. same_struct SnapshotManifest_fields. Qed.
#[export] Instance RomRelayGrantRole_relayed : Relayed RomRelayGrantRole_json. Proof. relay_enum. Qed.
#[export] Instance RomRelayGrantRole_nonnull : NonNull RomRelayGrantRole_json. Proof. done. Qed.
#[export] Instance RomRelayGrantRole_inj : Inj (=) (=) (enc RomRelayGrantRole_json). Proof. same_enum. Qed.
#[export] Instance RomRelayProgress_relayed : Relayed RomRelayProgress_json. Proof. relay_struct. Qed.
#[export] Instance RomRelayProgress_nonnull : NonNull RomRelayProgress_json. Proof. done. Qed.
#[export] Instance RomRelayProgress_inj : Inj (=) (=) (enc RomRelayProgress_json). Proof. same_struct RomRelayProgress_fields. Qed.
#[export] Instance RomRelayCompletion_relayed : Relayed RomRelayCompletion_json. Proof. relay_struct. Qed.
#[export] Instance RomRelayCompletion_nonnull : NonNull RomRelayCompletion_json. Proof. done. Qed.
#[export] Instance RomRelayCompletion_inj : Inj (=) (=) (enc RomRelayCompletion_json). Proof. same_struct RomRelayCompletion_fields. Qed.
#[export] Instance RomRelayFailReason_relayed : Relayed RomRelayFailReason_json. Proof. relay_enum. Qed.
#[export] Instance RomRelayFailReason_nonnull : NonNull RomRelayFailReason_json. Proof. done. Qed.
#[export] Instance RomRelayFailReason_inj : Inj (=) (=) (enc RomRelayFailReason_json). Proof. same_enum. Qed.
#[export] Instance RomRelayFailure_relayed : Relayed RomRelayFailure_json. Proof. relay_struct. Qed.
#[export] Instance RomRelayFailure_nonnull : NonNull RomRelayFailure_json. Proof. done. Qed.
#[export] Instance RomRelayFailure_inj : Inj (=) (=) (enc RomRelayFailure_json). Proof. same_struct RomRelayFailure_fields. Qed.
#[export] Instance RomRelayCancelled_relayed : Relayed RomRelayCancelled_json. Proof. relay_struct. Qed.
#[export] Instance RomRelayCancelled_nonnull : NonNull RomRelayCancelled_json. Proof. done. Qed.
#[export] Instance RomRelayCancelled_inj : Inj (=) (=) (enc RomRelayCancelled_json). Proof. same_struct RomRelayCancelled_fields. Qed.
#[export] Instance PlayerIndex_relayed : Relayed PlayerIndex_json. Proof. apply newtype_relayed; [by intros []|apply _]. Qed.
#[export] Instance PlayerIndex_nonnull : NonNull PlayerIndex_json. Proof. done. Qed.
#[export] Instance PlayerIndex_inj : Inj (=) (=) (enc PlayerIndex_json).
Proof. apply newtype_inj; [intros [] []; cbn; congruence|apply _]. Qed.
#[export] Instance InputFrame_relayed : Relayed InputFrame_json. Proof. relay_struct. Qed.
#[export] Instance InputFrame_nonnull : NonNull InputFrame_json. Proof. done. Qed.
#[export] Instance InputFrame_inj : Inj (=) (=) (enc InputFrame_json). Proof. same_struct InputFrame_fields. Qed.
#[export] Instance LinkCablePacket_relayed : Relayed LinkCablePacket_json. Proof. relay_struct. Qed.
#[export] Instance LinkCablePacket_nonnull : NonNull LinkCablePacket_json. Proof. done. Qed.
#[export] Instance LinkCablePacket_inj : Inj (=) (=) (enc LinkCablePacket_json). Proof. same_struct LinkCablePacket_fields. Qed.
#[export] Instance ClientRuntimeState_relayed : Relayed ClientRuntimeState_json. Proof. relay_enum. Qed.
#[export] Instance ClientRuntimeState_nonnull : NonNull ClientRuntimeState_json. Proof. done. Qed.
#[export] Instance ClientRuntimeState_inj : Inj (=) (=) (enc ClientRuntimeState_json). Proof. same_enum. Qed.
#[export] Instance SessionPauseReason_relayed : Relayed SessionPauseReason_json. Proof. relay_enum. Qed.
#[export] Instance SessionPauseReason_nonnull : NonNull SessionPauseReason_json. Proof. done. Qed.
#[export] Instance SessionPauseReason_inj : Inj (=) (=) (enc SessionPauseReason_json). Proof. same_enum. Qed.
#[export] Instance StateHashReport_relayed : Relayed StateHashReport_json. Proof. relay_struct. Qed.
#[export] Instance StateHashReport_nonnull : NonNull StateHashReport_json. Proof. done. Qed.
#[export] Instance StateHashReport_inj : Inj (=) (=) (enc StateHashReport_json). Proof. same_struct StateHashReport_fields. Qed.
#[export] Instance StateRecoveryPin_relayed : Relayed StateRecoveryPin_json. Proof. relay_struct. Qed.
#[export] Instance StateRecoveryPin_nonnull : NonNull StateRecoveryPin_json. Proof. done. Qed.
#[export] Instance StateRecoveryPin_inj : Inj (=) (=) (enc StateRecoveryPin_json). Proof. same_struct StateRecoveryPin_fields. Qed.
#[export] Instance NetplayVoiceMode_relayed : Relayed NetplayVoiceMode_json. Proof. relay_enum. Qed.
#[export] Instance NetplayVoiceMode_nonnull : NonNull NetplayVoiceMode_json. Proof. done. Qed.
#[export] Instance NetplayVoiceMode_inj : Inj (=) (=) (enc NetplayVoiceMode_json). Proof. same_enum. Qed.
#[export] Instance RoomId_relayed : Relayed RoomId_json. Proof. apply newtype_relayed; [by intros []|apply _]. Qed.
#[export] Instance RoomId_nonnull : NonNull RoomId_json. Proof. done. Qed.
#[export] Instance RoomId_inj : Inj (=) (=) (enc RoomId_json).
Proof. apply newtype_inj; [intros [] []; cbn; congruence|apply _]. Qed.
#[export] Instance NetplayClientKind_relayed : Relayed NetplayClientKind_json. Proof. relay_enum. Qed.
#[export] Instance NetplayClientKind_nonnull : NonNull NetplayClientKind_json. Proof. done. Qed.
#[export] Instance NetplayClientKind_inj : Inj (=) (=) (enc NetplayClientKind_json). Proof. same_enum. Qed.
#[export] Instance NetplayRoomMode_relayed : Relayed NetplayRoomMode_json. Proof. relay_enum. Qed.
#[export] Instance NetplayRoomMode_nonnull : NonNull NetplayRoomMode_json. Proof. done. Qed.
#[export] Instance NetplayRoomMode_inj : Inj (=) (=) (enc NetplayRoomMode_json). Proof. same_enum. Qed.
#[export] Instance NetplaySessionMode_relayed : Relayed NetplaySessionMode_json. Proof. relay_enum. Qed.
#[export] Instance NetplaySessionMode_nonnull : NonNull NetplaySessionMode_json. Proof. done. Qed.
#[export] Instance NetplaySessionMode_inj : Inj (=) (=) (enc NetplaySessionMode_json). Proof. same_enum. Qed.
#[export] Instance NetplayGameDescriptor_relayed : Relayed NetplayGameDescriptor_json. Proof. relay_struct. Qed.
#[export] Instance NetplayGameDescriptor_nonnull : NonNull NetplayGameDescriptor_json. Proof. done. Qed.
#[export] Instance NetplayGameDescriptor_inj : Inj (=) (=) (enc NetplayGameDescriptor_json). Proof. same_struct NetplayGameDescriptor_fields. Qed.
#[export] Instance NetplayCoreDescriptor_relayed : Relayed NetplayCoreDescriptor_json. Proof. relay_struct. Qed.
#[export] Instance NetplayCoreDescriptor_nonnull : NonNull NetplayCoreDescriptor_json. Proof. done. Qed.
#[export] Instance NetplayCoreDescriptor_inj : Inj (=) (=) (enc NetplayCoreDescriptor_json). Proof. same_struct NetplayCoreDescriptor_fields. Qed.
#[export] Instance ControllerNetplayDescriptor_relayed : Relayed ControllerNetplayDescriptor_json. Proof. relay_struct. Qed.
#[export] Instance ControllerNetplayDescriptor_nonnull : NonNull ControllerNetplayDescriptor_json. Proof. done. Qed.
#[export] Instance ControllerNetplayDescriptor_inj : Inj (=) (=) (enc ControllerNetplayDescriptor_json). Proof. same_struct ControllerNetplayDescriptor_fields. Qed.
#[export] Instance LinkCableTransport_relayed : Relayed LinkCableTransport_json. Proof. relay_enum. Qed.
#[export] Instance LinkCableTransport_nonnull : NonNull LinkCableTransport_json. Proof. done. Qed.
#[export] Instance LinkCableTransport_inj : Inj (=) (=) (enc LinkCableTransport_json). Proof. same_enum. Qed.
#[export] Instance LinkCableDescriptor_relayed : Relayed LinkCableDescriptor_json. Proof. relay_struct. Qed.
#[export] Instance LinkCableDescriptor_nonnull : NonNull LinkCableDescriptor_json. Proof. done. Qed.
#[export] Instance LinkCableDescriptor_inj : Inj (=) (=) (enc LinkCableDescriptor_json). Proof. same_struct LinkCableDescriptor_fields. Qed.
#[export] Instance NetplayVoiceDescriptor_relayed : Relayed NetplayVoiceDescriptor_json. Proof. relay_struct. Qed.
#[export] Instance NetplayVoiceDescriptor_nonnull : NonNull NetplayVoiceDescriptor_json. Proof. done. Qed.
#[export] Instance NetplayVoiceDescriptor_inj : Inj (=) (=) (enc NetplayVoiceDescriptor_json). Proof. same_struct NetplayVoiceDescriptor_fields. Qed.
#[export] Instance RomIdentity_relayed : Relayed RomIdentity_json. Proof. relay_struct. Qed.
#[export] Instance RomIdentity_nonnull : NonNull RomIdentity_json. Proof. done. Qed.
#[export] Instance RomIdentity_inj : Inj (=) (=) (enc RomIdentity_json). Proof. same_struct RomIdentity_fields. Qed.
#[export] Instance RomRelayIntent_relayed : Relayed RomRelayIntent_json. Proof. relay_enum. Qed.
#[export] Instance RomRelayIntent_nonnull : NonNull RomRelayIntent_json. Proof. done. Qed.
#[export] Instance RomRelayIntent_inj : Inj (=) (=) (enc RomRelayIntent_json). Proof. same_enum. Qed.
#[export] Instance RomRelayCapabilityReason_relayed : Relayed RomRelayCapabilityReason_json. Proof. relay_enum. Qed.
#[export] Instance RomRelayCapabilityReason_nonnull : NonNull RomRelayCapabilityReason_json. Proof. done. Qed.
#[export] Instance RomRelayCapabilityReason_inj : Inj (=) (=) (enc RomRelayCapabilityReason_json). Proof. same_enum. Qed.
#[export] Instance RomRelayCapability_relayed : Relayed RomRelayCapability_json. Proof. relay_struct. Qed.
#[export] Instance RomRelayCapability_nonnull : NonNull RomRelayCapability_json. Proof. done. Qed.
#[export] Instance RomRelayCapability_inj : Inj (=) (=) (enc RomRelayCapability_json). Proof. same_struct RomRelayCapability_fields. Qed.
#[export] Instance NetplaySessionDescriptor_relayed : Relayed NetplaySessionDescriptor_json. Proof. relay_struct. Qed.
#[export] Instance NetplaySessionDescriptor_nonnull : NonNull NetplaySessionDescriptor_json. Proof. done. Qed.
#[export] Instance NetplaySessionDescriptor_inj : Inj (=) (=) (enc NetplaySessionDescriptor_json). Proof. same_struct NetplaySessionDescriptor_fields. Qed.
#[export] Instance StateRecoveryPhase_relayed : Relayed StateRecoveryPhase_json. Proof. relay_enum. Qed.
#[export] Instance StateRecoveryPhase_nonnull : NonNull StateRecoveryPhase_json. Proof. done. Qed.
#[export] Instance StateRecoveryPhase_inj : Inj (=) (=) (enc StateRecoveryPhase_json). Proof. same_enum. Qed.
#[export] Instance ClockSyncSampleRequest_relayed : Relayed ClockSyncSampleRequest_json. Proof. relay_struct. Qed.
#[export] Instance ClockSyncSampleRequest_nonnull : NonNull ClockSyncSampleRequest_json. Proof. done. Qed.
#[export] Instance ClockSyncSampleRequest_inj : Inj (=) (=) (enc ClockSyncSampleRequest_json). Proof. same_struct ClockSyncSampleRequest_fields. Qed.
#[export] Instance ClockSyncPong_relayed : Relayed ClockSyncPong_json. Proof. relay_struct. Qed.
#[export] Instance ClockSyncPong_nonnull : NonNull ClockSyncPong_json. Proof. done. Qed.
#[export] Instance ClockSyncPong_inj : Inj (=) (=) (enc ClockSyncPong_json). Proof. same_struct ClockSyncPong_fields. Qed.
#[export] Instance ScheduledSessionStart_relayed : Relayed ScheduledSessionStart_json. Proof. relay_struct. Qed.
#[export] Instance ScheduledSessionStart_nonnull : NonNull ScheduledSessionStart_json. Proof. done. Qed.
#[export] Instance ScheduledSessionStart_inj : Inj (=) (=) (enc ScheduledSessionStart_json). Proof. same_struct ScheduledSessionStart_fields. Qed.
#[export] Instance SnapshotFileRelayGrantRole_relayed : Relayed SnapshotFileRelayGrantRole_json. Proof. relay_enum. Qed.
#[export] Instance SnapshotFileRelayGrantRole_nonnull : NonNull SnapshotFileRelayGrantRole_json. Proof. done. Qed.
#[export] Instance SnapshotFileRelayGrantRole_inj : Inj (=) (=) (enc SnapshotFileRelayGrantRole_json). Proof. same_enum. Qed.
#[export] Instance SnapshotFileRelayGrant_relayed : Relayed SnapshotFileRelayGrant_json. Proof. relay_struct. Qed.
#[export] Instance SnapshotFileRelayGrant_nonnull : NonNull SnapshotFileRelayGrant_json. Proof. done. Qed.
#[export] Instance SnapshotFileRelayGrant_inj : Inj (=) (=) (enc SnapshotFileRelayGrant_json). Proof. same_struct SnapshotFileRelayGrant_fields. Qed.
#[export] Instance RomRelayGrant_relayed : Relayed RomRelayGrant_json. Proof. relay_struct. Qed.
#[export] Instance RomRelayGrant_nonnull : NonNull RomRelayGrant_json. Proof. done. Qed.
#[export] Instance RomRelayGrant_inj : Inj (=) (=) (enc RomRelayGrant_json). Proof. same_struct RomRelayGrant_fields. Qed.
#[export] Instance RomRelayBlockReason_relayed : Relayed RomRelayBlockReason_json. Proof. relay_enum. Qed.
#[export] Instance RomRelayBlockReason_nonnull : NonNull RomRelayBlockReason_json. Proof. done. Qed.
#[export] Instance RomRelayBlockReason_inj : Inj (=) (=) (enc RomRelayBlockReason_json). Proof. same_enum. Qed.
#[export] Instance RomRelayBlocked_relayed : Relayed RomRelayBlocked_json. Proof. relay_struct. Qed.
#[export] Instance RomRelayBlocked_nonnull : NonNull RomRelayBlocked_json. Proof. done. Qed.
#[export] Instance RomRelayBlocked_inj : Inj (=) (=) (enc RomRelayBlocked_json). Proof. same_struct RomRelayBlocked_fields. Qed.
End laws.

(** ** Lobby payloads, requests and broker answers

  The types of [src/src/lobbies/] and [src/src/protocol/lobby_file_relay.rs] that travel in both directions, the
  bodies of the HTTP requests, and the answers of the file relay and of the voice service. *)

From S2P Require Import Registry Lobby LobbyEvents LobbyRegistry LobbySocket Routes RelayTime.

#[export] Instance LobbyReturnReason_eq_dec : EqDecision LobbyReturnReason. Proof. solve_decision. Defined.
#[export] Instance LobbyActivityKind_eq_dec : EqDecision LobbyActivityKind. Proof. solve_decision. Defined.
#[export] Instance LobbyFileRelayGrantRole_eq_dec : EqDecision LobbyFileRelayGrantRole. Proof. solve_decision. Defined.
#[export] Instance LobbyFileRelayMaterialKind_eq_dec : EqDecision LobbyFileRelayMaterialKind. Proof. solve_decision. Defined.

Section requests.
Context `{SerdeLib}.

(** [LobbyGameCandidate] of [src/lobbies/lobby_game.rs]. *)
Definition LobbyGameCandidate_fields (x : LobbyGameCandidate) : Fields :=
  [field "title" text (game_title x);
   field "systemId" text (game_system_id x);
   field "coreId" text (game_core_id x);
   field "contentSha256" (optional text) (game_content_sha256 x);
   field "romSizeBytes" (optional u64) (game_rom_size_bytes x);
   field "startStateLabel" (optional text) (game_start_state_label x)].
Definition read_LobbyGameCandidate : Reader LobbyGameCandidate :=
  title ← read "title" text;
  system_id ← read "systemId" text;
  core_id ← read "coreId" text;
  content_sha256 ← read_default "contentSha256" (optional text) None;
  rom_size_bytes ← read_default "romSizeBytes" (optional u64) None;
  start_state_label ← read_default "startStateLabel" (optional text) None;
  mret (mkLobbyGameCandidate title system_id core_id content_sha256 rom_size_bytes start_state_label).
Definition LobbyGameCandidate_json : Codec LobbyGameCandidate := struct_codec LobbyGameCandidate_fields read_LobbyGameCandidate.

(** [LobbyGameReadinessStatus] of [src/lobbies/lobby_launch.rs]. *)
Definition LobbyGameReadinessStatus_names : list (string * LobbyGameReadinessStatus) :=
  [("unknown", ReadinessUnknown); ("ready", ReadinessReady); ("notReady", ReadinessNotReady); ("missingRom", ReadinessMissingRom); ("missingStartupState", ReadinessMissingStartupState); ("unsupported", ReadinessUnsupported)]%string.
Definition LobbyGameReadinessStatus_json : Codec LobbyGameReadinessStatus := enum_codec LobbyGameReadinessStatus_names.

(** [LobbyStartupStateRestorePolicy] of [src/protocol/lobby_file_relay.rs]. *)
Definition LobbyStartupStateRestorePolicy_json : Codec LobbyStartupStateRestorePolicy := mkCodec
  (λ p, match p with
        | RestoreImmediate => tagged "immediate" []
        | RestoreAfterFrames frames => tagged "afterFrames" [field "frames" u32 frames]
        end)
  (read_tagged
     [("immediate"%string, mret RestoreImmediate);
      ("afterFrames"%string, frames ← read "frames" u32; mret (RestoreAfterFrames frames))]).

(** [LobbyStartupStateTransferMetadata] of [src/protocol/lobby_file_relay.rs]. *)
Definition LobbyStartupStateTransferMetadata_fields (x : LobbyStartupStateTransferMetadata) : Fields :=
  [field "sha256" text (state_sha256 x);
   field "sizeBytes" u64 (state_size_bytes x);
   field "label" (optional text) (state_label x);
   field "restorePolicy" LobbyStartupStateRestorePolicy_json (state_restore_policy x);
   field "stateFormat" (optional text) (state_format_ x)].
Definition read_LobbyStartupStateTransferMetadata : Reader LobbyStartupStateTransferMetadata :=
  sha256 ← read "sha256" text;
  size_bytes ← read "sizeBytes" u64;
  label ← read_default "label" (optional text) None;
  restore_policy ← read "restorePolicy" LobbyStartupStateRestorePolicy_json;
  state_format ← read_default "stateFormat" (optional text) None;
  mret (mkLobbyStartupStateTransferMetadata sha256 size_bytes label restore_policy state_format).
Definition LobbyStartupStateTransferMetadata_json : Codec LobbyStartupStateTransferMetadata := struct_codec LobbyStartupStateTransferMetadata_fields read_LobbyStartupStateTransferMetadata.

(** [LobbyReturnReason] of [src/lobbies/lobby_return.rs]. *)
Definition LobbyReturnReason_names : list (string * LobbyReturnReason) :=
  [("playerRequestedReturn", PlayerRequestedReturn); ("runnerClosed", RunnerClosed); ("remoteDisconnected", RemoteDisconnected); ("roomClosed", RoomClosed); ("launchFailed", LaunchFailed); ("netplayError", NetplayError); ("emulatorError", EmulatorError); ("runnerCrashed", RunnerCrashed)]%string.
Definition LobbyReturnReason_json : Codec LobbyReturnReason := enum_codec LobbyReturnReason_names.

(** [LobbyActivityKind] of [src/lobbies/lobby_activity.rs]. *)
Definition LobbyActivityKind_names : list (string * LobbyActivityKind) :=
  [("gameplayActive", GameplayActive); ("romRelay", RomRelayActivity); ("voiceSpeaking", VoiceSpeaking)]%string.
Definition LobbyActivityKind_json : Codec LobbyActivityKind := enum_codec LobbyActivityKind_names.

(** [LobbyVisibility] of [src/lobbies/lobby.rs]. *)
Definition LobbyVisibility_names : list (string * LobbyVisibility) :=
  [("private", VisibilityPrivate); ("public", VisibilityPublic)]%string.
Definition LobbyVisibility_json : Codec LobbyVisibility := enum_codec LobbyVisibility_names.

(** [LobbyClientCapabilities] of [src/lobbies/lobby_capabilities.rs]. *)
Definition LobbyClientCapabilities_fields (x : LobbyClientCapabilities) : Fields :=
  [field "supportsLobby" boolean (client_supports_lobby x);
   field "supportsTemporarySessionRomRelay" boolean (client_supports_temporary_session_rom_relay x);
   field "supportsLobbyVoice" boolean (client_supports_lobby_voice x);
   field "supportsMultiGameLobby" boolean (client_supports_multi_game_lobby x);
   field "supportsLobbyReturnedEvent" boolean (client_supports_lobby_returned_event x);
   field "supportsLobbyGameplayStarted" boolean (client_supports_lobby_gameplay_started x);
   field "supportsLobbyPlayerRemovedEvent" boolean (client_supports_lobby_player_removed_event x)].
Definition read_LobbyClientCapabilities : Reader LobbyClientCapabilities :=
  supports_lobby ← read_default "supportsLobby" boolean false;
  supports_temporary_session_rom_relay ← read_default "supportsTemporarySessionRomRelay" boolean false;
  supports_lobby_voice ← read_default "supportsLobbyVoice" boolean false;
  supports_multi_game_lobby ← read_default "supportsMultiGameLobby" boolean false;
  supports_lobby_returned_event ← read_default "supportsLobbyReturnedEvent" boolean false;
  supports_lobby_gameplay_started ← read_default "supportsLobbyGameplayStarted" boolean false;
  supports_lobby_player_removed_event ← read_default "supportsLobbyPlayerRemovedEvent" boolean false;
  mret (mkLobbyClientCapabilities supports_lobby supports_temporary_session_rom_relay supports_lobby_voice supports_multi_game_lobby supports_lobby_returned_event supports_lobby_gameplay_started supports_lobby_player_removed_event).
Definition LobbyClientCapabilities_json : Codec LobbyClientCapabilities := struct_codec LobbyClientCapabilities_fields read_LobbyClientCapabilities.

(** [LobbyFileRelayGrantRole] of [src/protocol/lobby_file_relay.rs]. *)
Definition LobbyFileRelayGrantRole_names : list (string * LobbyFileRelayGrantRole) :=
  [("upload", LobbyUpload); ("download", LobbyDownload)]%string.
Definition LobbyFileRelayGrantRole_json : Codec LobbyFileRelayGrantRole := enum_codec LobbyFileRelayGrantRole_names.

(** [LobbyFileRelayMaterialKind] of [src/protocol/lobby_file_relay.rs]. *)
Definition LobbyFileRelayMaterialKind_names : list (string * LobbyFileRelayMaterialKind) :=
  [("game", MaterialGame); ("startupState", MaterialStartupState)]%string.
Definition LobbyFileRelayMaterialKind_json : Codec LobbyFileRelayMaterialKind := enum_codec LobbyFileRelayMaterialKind_names.

(** [LobbyFileRelayGrant] of [src/protocol/lobby_file_relay.rs]. *)
Definition LobbyFileRelayGrant_fields (x : LobbyFileRelayGrant) : Fields :=
  [field "transferId" text (lgrant_transfer_id x);
   field "relayUrl" text (lgrant_relay_url x);
   field "token" text (lgrant_token x);
   field "role" LobbyFileRelayGrantRole_json (lgrant_role x);
   field_unless MaterialGame "materialKind" LobbyFileRelayMaterialKind_json (lgrant_material_kind x);
   field "proposalId" uuid (lgrant_proposal_id x);
   field "senderPlayerIndex" u8 (lgrant_sender_player_index x);
   field "receiverPlayerIndex" u8 (lgrant_receiver_player_index x);
   field "sha256" text (lgrant_sha256 x);
   field "sizeBytes" u64 (lgrant_size_bytes x);
   field "chunkSizeBytes" u64 (lgrant_chunk_size_bytes x);
   field "chunkCount" u64 (lgrant_chunk_count x);
   field "expiresAt" text (lgrant_expires_at x);
   field_opt "startupState" LobbyStartupStateTransferMetadata_json (lgrant_startup_state x)].
Definition read_LobbyFileRelayGrant : Reader LobbyFileRelayGrant :=
  transfer_id ← read "transferId" text;
  relay_url ← read "relayUrl" text;
  token ← read "token" text;
  role ← read "role" LobbyFileRelayGrantRole_json;
  material_kind ← read_default "materialKind" LobbyFileRelayMaterialKind_json MaterialGame;
  proposal_id ← read "proposalId" uuid;
  sender_player_index ← read "senderPlayerIndex" u8;
  receiver_player_index ← read "receiverPlayerIndex" u8;
  sha256 ← read "sha256" text;
  size_bytes ← read "sizeBytes" u64;
  chunk_size_bytes ← read "chunkSizeBytes" u64;
  chunk_count ← read "chunkCount" u64;
  expires_at ← read "expiresAt" text;
  startup_state ← read_default "startupState" (optional LobbyStartupStateTransferMetadata_json) None;
  mret (mkLobbyFileRelayGrant transfer_id relay_url token role material_kind proposal_id sender_player_index receiver_player_index sha256 size_bytes chunk_size_bytes chunk_count expires_at startup_state).
Definition LobbyFileRelayGrant_json : Codec LobbyFileRelayGrant := struct_codec LobbyFileRelayGrant_fields read_LobbyFileRelayGrant.

(** [CreateRoomRequest] of [src/http/routes.rs]. *)
Definition read_CreateRoomRequest : Reader CreateRoomRequest :=
  desktop_protocol_version ← read "desktopProtocolVersion" u16;
  minimum_protocol_version ← read_default "minimumProtocolVersion" (optional u16) None;
  session ← read "session" NetplaySessionDescriptor_json;
  mret (mkCreateRoomRequest desktop_protocol_version minimum_protocol_version session).
Definition CreateRoomRequest_json : Codec CreateRoomRequest := struct_reader read_CreateRoomRequest.

(** [CreateLobbyParams] of [src/lobbies/mod.rs]. *)
Definition CreateLobbyParams_fields (x : CreateLobbyParams) : Fields :=
  [field "displayName" (optional text) (create_display_name x);
   field "capabilities" LobbyClientCapabilities_json (create_capabilities x);
   field "initialGame" (optional LobbyGameCandidate_json) (params_initial_game x);
   field "voice" (optional NetplayVoiceDescriptor_json) (create_voice x);
   field "visibility" LobbyVisibility_json (params_visibility x)].
Definition read_CreateLobbyParams : Reader CreateLobbyParams :=
  display_name ← read_default "displayName" (optional text) None;
  capabilities ← read_default "capabilities" LobbyClientCapabilities_json desktop_default;
  initial_game ← read_default "initialGame" (optional LobbyGameCandidate_json) None;
  voice ← read_default "voice" (optional NetplayVoiceDescriptor_json) None;
  visibility ← read_default "visibility" LobbyVisibility_json VisibilityPrivate;
  mret (mkCreateLobbyParams display_name capabilities initial_game voice visibility).
Definition CreateLobbyParams_json : Codec CreateLobbyParams := struct_codec CreateLobbyParams_fields read_CreateLobbyParams.

(** [JoinLobbyParams] of [src/lobbies/mod.rs]. *)
Definition JoinLobbyParams_fields (x : JoinLobbyParams) : Fields :=
  [field "displayName" (optional text) (join_display_name x);
   field "capabilities" LobbyClientCapabilities_json (join_capabilities x)].
Definition read_JoinLobbyParams : Reader JoinLobbyParams :=
  display_name ← read_default "displayName" (optional text) None;
  capabilities ← read_default "capabilities" LobbyClientCapabilities_json desktop_default;
  mret (mkJoinLobbyParams display_name capabilities).
Definition JoinLobbyParams_json : Codec JoinLobbyParams := struct_codec JoinLobbyParams_fields read_JoinLobbyParams.

(** [FileRelayTransferKind] of [src/file_relay/types.rs]. *)
Definition FileRelayTransferKind_names : list (string * FileRelayTransferKind) :=
  [("rom", RomTransfer); ("save-state", SaveStateTransfer)]%string.
Definition FileRelayTransferKind_json : Codec FileRelayTransferKind := enum_codec FileRelayTransferKind_names.

(** The field [expires_at] has a decoder of its own. *)
Definition expires_at : Codec string :=
  mkCodec JString (λ v, match deserialize_relay_expires_at v with Ok s => Some s | Err _ => None end).

(** [CreateFileRelayTransferResponse] of [src/file_relay/types.rs]. *)
Definition read_CreateFileRelayTransferResponse : Reader CreateFileRelayTransferResponse :=
  transfer_id ← read "transferId" text;
  chunk_size_bytes ← read "chunkSizeBytes" u64;
  chunk_count ← read "chunkCount" u64;
  upload_token ← read "uploadToken" text;
  download_token ← read "downloadToken" text;
  expires_at ← read "expiresAt" expires_at;
  mret (mkCreateFileRelayTransferResponse transfer_id chunk_size_bytes chunk_count upload_token download_token expires_at).
Definition CreateFileRelayTransferResponse_json : Codec CreateFileRelayTransferResponse := struct_reader read_CreateFileRelayTransferResponse.

(** [VoiceBrokerRoomView] of [src/voice/types.rs]. *)
Definition read_VoiceBrokerRoomView : Reader VoiceBrokerRoomView :=
  voice_room_id ← read "voiceRoomId" text;
  livekit_room_name ← read "livekitRoomName" text;
  server_url ← read "serverUrl" text;
  netplay_room_id ← read "netplayRoomId" text;
  netplay_invite_code ← read "netplayInviteCode" text;
  room_epoch ← read "roomEpoch" u64;
  mode ← read "mode" NetplayVoiceMode_json;
  max_participants ← read "maxParticipants" u8;
  mret (mkVoiceBrokerRoomView voice_room_id livekit_room_name server_url netplay_room_id netplay_invite_code room_epoch mode max_participants).
Definition VoiceBrokerRoomView_json : Codec VoiceBrokerRoomView := struct_reader read_VoiceBrokerRoomView.

(** [VoiceBrokerGrant] of [src/voice/types.rs]. *)
Definition read_VoiceBrokerGrant : Reader VoiceBrokerGrant :=
  player_index ← read "playerIndex" u8;
  participant_identity ← read "participantIdentity" text;
  token ← read "token" text;
  expires_at ← read "expiresAt" text;
  mret (mkVoiceBrokerGrant player_index participant_identity token expires_at).
Definition VoiceBrokerGrant_json : Codec VoiceBrokerGrant := struct_reader read_VoiceBrokerGrant.

(** [CreateVoiceRoomBrokerResponse] of [src/voice/types.rs]. *)
Definition read_CreateVoiceRoomBrokerResponse : Reader CreateVoiceRoomBrokerResponse :=
  room ← read "room" VoiceBrokerRoomView_json;
  grants ← read "grants" (vec VoiceBrokerGrant_json);
  mret (mkCreateVoiceRoomBrokerResponse room grants).
Definition CreateVoiceRoomBrokerResponse_json : Codec CreateVoiceRoomBrokerResponse := struct_reader read_CreateVoiceRoomBrokerResponse.

(** [CreateLobbyRequest] and [JoinLobbyRequest] of [src/http/lobby_routes.rs]. A struct with [flatten] is
    read from objects only. *)
Definition read_flattened {A} (r : Reader A) (v : Value) : option A :=
  match v with JObject fields => finish r (ByName fields) | _ => None end.
Definition CreateLobbyRequest_from_json : Value → option CreateLobbyRequest := read_flattened (
  protocol_version ← read "protocolVersion" u16;
  params ← read_CreateLobbyParams;
  mret (mkCreateLobbyRequest protocol_version params)).
Definition JoinLobbyRequest_from_json : Value → option JoinLobbyRequest := read_flattened (
  protocol_version ← read "protocolVersion" u16;
  params ← read_JoinLobbyParams;
  mret (mkJoinLobbyRequest protocol_version params)).
End requests.

(** ** Laws *)

Section laws.
Context `{SerdeLaws}.

#[export] Instance LobbyGameCandidate_relayed : Relayed LobbyGameCandidate_json. Proof. relay_struct. Qed.
#[export] Instance LobbyGameCandidate_nonnull : NonNull LobbyGameCandidate_json. Proof. done. Qed.
#[export] Instance LobbyGameCandidate_inj : Inj (=) (=) (enc LobbyGameCandidate_json). Proof. same_struct LobbyGameCandidate_fields. Qed.
#[export] Instance LobbyGameReadinessStatus_relayed : Relayed LobbyGameReadinessStatus_json. Proof. relay_enum. Qed.
#[export] Instance LobbyGameReadinessStatus_nonnull : NonNull LobbyGameReadinessStatus_json. Proof. done. Qed.
#[export] Instance LobbyGameReadinessStatus_inj : Inj (=) (=) (enc LobbyGameReadinessStatus_json). Proof. same_enum. Qed.
#[export] Instance LobbyStartupStateRestorePolicy_relayed : Relayed LobbyStartupStateRestorePolicy_json.
Proof.
  intros [|frames] [v Hv]; [reflexivity|]. cbn [dec LobbyStartupStateRestorePolicy_json] in *.
  assert (came_from u32 frames) as Hf.
  { apply read_tagged_inv in Hv as (tag & r & src & src' & Hin & Hr). rewrite !elem_of_cons in Hin.
    destruct Hin as [[= _ ->]|[[= _ ->]|[]%elem_of_nil]]; [done|]. by apply read_inv in Hr as (? & ? & ? & [= -> _]). }
  unfold read_tagged.
  change (enc _ _) with (tagged "afterFrames" [field "frames" u32 frames]). rewrite tag_of_tagged by (cbn; by rewrite list_elem_of_singleton).
  change (finish (x ← read "frames" u32; mret (RestoreAfterFrames x)) (ByName (written [field "frames" u32 frames]))
    = Some (RestoreAfterFrames frames)).
  unfold finish, read. by rewrite (read_or_written [field "frames" u32 frames] eq_refl "frames" u32 None None _ frames eq_refl _ Hf).
Qed.
#[export] Instance LobbyStartupStateRestorePolicy_nonnull : NonNull LobbyStartupStateRestorePolicy_json. Proof. by intros []. Qed.
#[export] Instance LobbyStartupStateRestorePolicy_inj : Inj (=) (=) (enc LobbyStartupStateRestorePolicy_json).
Proof. intros [|a] [|b] E; try done. injection E as E. f_equal. lia. Qed.
#[export] Instance LobbyStartupStateTransferMetadata_relayed : Relayed LobbyStartupStateTransferMetadata_json. Proof. relay_struct. Qed.
#[export] Instance LobbyStartupStateTransferMetadata_nonnull : NonNull LobbyStartupStateTransferMetadata_json. Proof. done. Qed.
#[export] Instance LobbyStartupStateTransferMetadata_inj : Inj (=) (=) (enc LobbyStartupStateTransferMetadata_json). Proof. same_struct LobbyStartupStateTransferMetadata_fields. Qed.
#[export] Instance LobbyReturnReason_relayed : Relayed LobbyReturnReason_json. Proof. relay_enum. Qed.
#[export] Instance LobbyReturnReason_nonnull : NonNull LobbyReturnReason_json. Proof. done. Qed.
#[export] Instance LobbyReturnReason_inj : Inj (=) (=) (enc LobbyReturnReason_json). Proof. same_enum. Qed.
#[export] Instance LobbyActivityKind_relayed : Relayed LobbyActivityKind_json. Proof. relay_enum. Qed.
#[export] Instance LobbyActivityKind_nonnull : NonNull LobbyActivityKind_json. Proof. done. Qed.
#[export] Instance LobbyActivityKind_inj : Inj (=) (=) (enc LobbyActivityKind_json). Proof. same_enum. Qed.
#[export] Instance LobbyVisibility_relayed : Relayed LobbyVisibility_json. Proof. relay_enum. Qed.
#[export] Instance LobbyVisibility_nonnull : NonNull LobbyVisibility_json. Proof. done. Qed.
#[export] Instance LobbyVisibility_inj : Inj (=) (=) (enc LobbyVisibility_json). Proof. same_enum. Qed.
#[export] Instance LobbyClientCapabilities_relayed : Relayed LobbyClientCapabilities_json. Proof. relay_struct. Qed.
#[export] Instance LobbyClientCapabilities_nonnull : NonNull LobbyClientCapabilities_json. Proof. done. Qed.
#[export] Instance LobbyClientCapabilities_inj : Inj (=) (=) (enc LobbyClientCapabilities_json). Proof. same_struct LobbyClientCapabilities_fields. Qed.
#[export] Instance LobbyFileRelayGrantRole_relayed : Relayed LobbyFileRelayGrantRole_json. Proof. relay_enum. Qed.
#[export] Instance LobbyFileRelayGrantRole_nonnull : NonNull LobbyFileRelayGrantRole_json. Proof. done. Qed.
#[export] Instance LobbyFileRelayGrantRole_inj : Inj (=) (=) (enc LobbyFileRelayGrantRole_json). Proof. same_enum. Qed.
#[export] Instance LobbyFileRelayMaterialKind_relayed : Relayed LobbyFileRelayMaterialKind_json. Proof. relay_enum. Qed.
#[export] Instance LobbyFileRelayMaterialKind_nonnull : NonNull LobbyFileRelayMaterialKind_json. Proof. done. Qed.
#[export] Instance LobbyFileRelayMaterialKind_inj : Inj (=) (=) (enc LobbyFileRelayMaterialKind_json). Proof. same_enum. Qed.
#[export] Instance LobbyFileRelayGrant_relayed : Relayed LobbyFileRelayGrant_json. Proof. relay_struct. Qed.
#[export] Instance LobbyFileRelayGrant_nonnull : NonNull LobbyFileRelayGrant_json. Proof. done. Qed.
#[export] Instance LobbyFileRelayGrant_inj : Inj (=) (=) (enc LobbyFileRelayGrant_json). Proof. same_struct LobbyFileRelayGrant_fields. Qed.
#[export] Instance CreateLobbyParams_relayed : Relayed CreateLobbyParams_json. Proof. relay_struct. Qed.
#[export] Instance CreateLobbyParams_nonnull : NonNull CreateLobbyParams_json. Proof. done. Qed.
#[export] Instance CreateLobbyParams_inj : Inj (=) (=) (enc CreateLobbyParams_json). Proof. same_struct CreateLobbyParams_fields. Qed.
#[export] Instance JoinLobbyParams_relayed : Relayed JoinLobbyParams_json. Proof. relay_struct. Qed.
#[export] Instance JoinLobbyParams_nonnull : NonNull JoinLobbyParams_json. Proof. done. Qed.
#[export] Instance JoinLobbyParams_inj : Inj (=) (=) (enc JoinLobbyParams_json). Proof. same_struct JoinLobbyParams_fields. Qed.
#[export] Instance FileRelayTransferKind_relayed : Relayed FileRelayTransferKind_json. Proof. relay_enum. Qed.
#[export] Instance FileRelayTransferKind_nonnull : NonNull FileRelayTransferKind_json. Proof. done. Qed.
#[export] Instance FileRelayTransferKind_inj : Inj (=) (=) (enc FileRelayTransferKind_json). Proof. same_enum. Qed.
End laws.
