(* ===== verification/JsonViews.v ===== *)
(** * The JSON of views

  The types that the relay only writes: the views of rooms and lobbies with their parts, the requests
  to the brokers and the replies to HTTP requests. Different values are written differently. *)

From S2P Require Import Prelude Ids Wire Text Compatibility Descriptor Protocol Slots RoomTransactions Room StartSync.
From S2P Require Import HostFrame RoomEvents Registry Lobby LobbyEvents LobbyRegistry Metrics FileRelay ControlSocket.
From S2P Require Import LobbySocket Parse Auth Rollout Http Config Routes Json JsonPayloads.
Open Scope N_scope.

#[export] Instance RoomVoiceStatus_eq_dec : EqDecision RoomVoiceStatus. Proof. solve_decision. Defined.
#[export] Instance InputDelayChangeReason_eq_dec : EqDecision InputDelayChangeReason. Proof. solve_decision. Defined.
#[export] Instance LobbyPlayerRemovalReason_eq_dec : EqDecision LobbyPlayerRemovalReason. Proof. solve_decision. Defined.

Section views.
Context `{SerdeLib}.

(** [PlayerVoiceJoinGrant] of [src/rooms/room_voice.rs]. *)
Definition PlayerVoiceJoinGrant_fields (x : PlayerVoiceJoinGrant) : Fields :=
  [field "provider" text (vg_provider x);
   field "voiceRoomId" text (vg_voice_room_id x);
   field "livekitRoomName" text (vg_livekit_room_name x);
   field "serverUrl" text (vg_server_url x);
   field "participantIdentity" text (vg_participant_identity x);
   field "token" text (vg_token x);
   field "expiresAt" text (vg_expires_at x);
   field "mode" NetplayVoiceMode_json (vg_mode x)].
Definition PlayerVoiceJoinGrant_json : Codec PlayerVoiceJoinGrant := struct_writer PlayerVoiceJoinGrant_fields.

(** [NetplayProtocolView] of [src/protocol/netplay_protocol.rs]. *)
Definition NetplayProtocolView_fields (x : NetplayProtocolView) : Fields :=
  [field "protocolVersion" u16 (npv_protocol_version x);
   field "minSupportedProtocolVersion" u16 (npv_min_supported_protocol_version x);
   field "maxSupportedProtocolVersion" u16 (npv_max_supported_protocol_version x);
   field "roomProtocolVersion" u16 (npv_room_protocol_version x)].
Definition NetplayProtocolView_json : Codec NetplayProtocolView := struct_writer NetplayProtocolView_fields.

(** [RoomVoiceStatus] of [src/rooms/room_voice.rs]. *)
Definition RoomVoiceStatus_names : list (string * RoomVoiceStatus) :=
  [("available", VoiceAvailable); ("unavailable", VoiceUnavailable_)]%string.
Definition RoomVoiceStatus_json : Codec RoomVoiceStatus := enum_writer RoomVoiceStatus_names.

(** [RoomVoiceView] of [src/rooms/room_voice.rs]. *)
Definition RoomVoiceView_fields (x : RoomVoiceView) : Fields :=
  [field "status" RoomVoiceStatus_json (vv_status x);
   field "provider" (optional text) (vv_provider x);
   field "voiceRoomId" (optional text) (vv_voice_room_id x);
   field "livekitRoomName" (optional text) (vv_livekit_room_name x);
   field "serverUrl" (optional text) (vv_server_url x);
   field "mode" NetplayVoiceMode_json (vv_mode x);
   field "maxParticipants" u8 (vv_max_participants x);
   field "statusDetail" (optional text) (vv_status_detail x)].
Definition RoomVoiceView_json : Codec RoomVoiceView := struct_writer RoomVoiceView_fields.

(** [SessionPauseState] of [src/protocol/session_pause.rs]. *)
Definition SessionPauseState_names : list (string * SessionPauseState) :=
  [("pausing", PauseStatePausing); ("paused", PauseStatePaused)]%string.
Definition SessionPauseState_json : Codec SessionPauseState := enum_writer SessionPauseState_names.

(** [SessionPauseHolder] of [src/protocol/session_pause.rs]. *)
Definition SessionPauseHolder_fields (x : SessionPauseHolder) : Fields :=
  [field "playerIndex" PlayerIndex_json (holder_player_index x);
   field "reason" SessionPauseReason_json (holder_reason x)].
Definition SessionPauseHolder_json : Codec SessionPauseHolder := struct_writer SessionPauseHolder_fields.

(** [SessionPauseView] of [src/protocol/session_pause.rs]. *)
Definition SessionPauseView_fields (x : SessionPauseView) : Fields :=
  [field "sequence" u64 (pause_view_sequence x);
   field "state" SessionPauseState_json (pause_view_state x);
   field "reason" SessionPauseReason_json (pause_view_reason x);
   field "requestedByPlayerIndex" PlayerIndex_json (pause_view_requested_by x);
   field "pauseAtFrame" u64 (pause_view_pause_at_frame x);
   field "pausedAtFrame" (optional u64) (pause_view_paused_at_frame x);
   field "acknowledgedPlayerIndexes" (vec PlayerIndex_json) (pause_view_acknowledged x);
   field "holders" (vec SessionPauseHolder_json) (pause_view_holders x)].
Definition SessionPauseView_json : Codec SessionPauseView := struct_writer SessionPauseView_fields.

(** [PlayerStateHashView] of [src/protocol/state_hash.rs]. *)
Definition PlayerStateHashView_fields (x : PlayerStateHashView) : Fields :=
  [field "playerIndex" PlayerIndex_json (hash_player_index x);
   field "sha256" text (hash_sha256 x)].
Definition PlayerStateHashView_json : Codec PlayerStateHashView := struct_writer PlayerStateHashView_fields.

(** [NearbyStateHashMatchView] of [src/protocol/state_hash.rs]. *)
Definition NearbyStateHashMatchView_fields (x : NearbyStateHashMatchView) : Fields :=
  [field "sourcePlayerIndex" PlayerIndex_json (source_player_index x);
   field "sourceFrame" u64 (source_frame x);
   field "matchedPlayerIndex" PlayerIndex_json (matched_player_index x);
   field "matchedFrame" u64 (matched_frame x);
   field "frameOffset" i64 (frame_offset x)].
Definition NearbyStateHashMatchView_json : Codec NearbyStateHashMatchView := struct_writer NearbyStateHashMatchView_fields.

(** [StateHashMismatchView] of [src/protocol/state_hash.rs]. *)
Definition StateHashMismatchView_fields (x : StateHashMismatchView) : Fields :=
  [field "frame" u64 (mismatch_frame x);
   field "repairFrame" u64 (mismatch_repair_frame x);
   field "hashes" (vec PlayerStateHashView_json) (mismatch_hashes x);
   field "nearbyMatches" (vec NearbyStateHashMatchView_json) (mismatch_nearby_matches x)].
Definition StateHashMismatchView_json : Codec StateHashMismatchView := struct_writer StateHashMismatchView_fields.

(** [StateRecoveryView] of [src/protocol/state_recovery.rs]. *)
Definition StateRecoveryView_fields (x : StateRecoveryView) : Fields :=
  [field "recoveryId" u64 (recovery_view_id x);
   field "phase" StateRecoveryPhase_json (recovery_view_phase x);
   field "repairFrame" u64 (recovery_view_repair_frame x);
   field "mismatch" StateHashMismatchView_json (recovery_view_mismatch x);
   field_opt "pinnedSnapshot" SnapshotManifest_json (recovery_view_pinned_snapshot x)].
Definition StateRecoveryView_json : Codec StateRecoveryView := struct_writer StateRecoveryView_fields.

(** [PlayerFrameCursorView] of [src/rooms/room_view.rs]. *)
Definition PlayerFrameCursorView_fields (x : PlayerFrameCursorView) : Fields :=
  [field "playerIndex" u8 (pcv_player_index x);
   field "frame" (optional u64) (pcv_frame x)].
Definition PlayerFrameCursorView_json : Codec PlayerFrameCursorView := struct_writer PlayerFrameCursorView_fields.

(** [InputDelayChangeReason] of [src/protocol/input_delay_change.rs]. *)
Definition InputDelayChangeReason_names : list (string * InputDelayChangeReason) :=
  [("initialLatency", InitialLatency); ("networkPressure", NetworkPressure); ("stableConnection", StableConnection)]%string.
Definition InputDelayChangeReason_json : Codec InputDelayChangeReason := enum_writer InputDelayChangeReason_names.

(** [InputDelayChange] of [src/protocol/input_delay_change.rs]. *)
Definition InputDelayChange_fields (x : InputDelayChange) : Fields :=
  [field "effectiveFrame" u64 (effective_frame x);
   field "inputDelayFrames" u8 (change_input_delay_frames x);
   field "previousInputDelayFrames" u8 (previous_input_delay_frames x);
   field "reason" InputDelayChangeReason_json (change_reason x)].
Definition InputDelayChange_json : Codec InputDelayChange := struct_writer InputDelayChange_fields.

(** [RoomFrameClockView] of [src/rooms/room_view.rs]. *)
Definition RoomFrameClockView_fields (x : RoomFrameClockView) : Fields :=
  [field "canonicalFrame" u64 (fcv_canonical_frame x);
   field "releasedFrame" (optional u64) (fcv_released_frame x);
   field "nextReleaseFrame" u64 (fcv_next_release_frame x);
   field "acceptedInputs" (vec PlayerFrameCursorView_json) (fcv_accepted_inputs x);
   field "pendingInputDelayChange" (optional InputDelayChange_json) (fcv_pending_input_delay_change x)].
Definition RoomFrameClockView_json : Codec RoomFrameClockView := struct_writer RoomFrameClockView_fields.

(** [RoomStatus] of [src/rooms/room_status.rs]. *)
Definition RoomStatus_names : list (string * RoomStatus) :=
  [("waitingForGuest", WaitingForGuest); ("checkingCompatibility", CheckingCompatibility); ("syncingState", SyncingState); ("ready", Ready); ("startScheduled", StartScheduled); ("playing", Playing); ("paused", Paused); ("repairingState", RepairingState); ("recovering", Recovering); ("closed", Closed)]%string.
Definition RoomStatus_json : Codec RoomStatus := enum_writer RoomStatus_names.

(** [PlayerRole] of [src/rooms/player_slot.rs]. *)
Definition PlayerRole_names : list (string * PlayerRole) :=
  [("host", Host); ("guest", Guest)]%string.
Definition PlayerRole_json : Codec PlayerRole := enum_writer PlayerRole_names.

(** [PlayerStatus] of [src/rooms/player_slot.rs]. *)
Definition PlayerStatus_names : list (string * PlayerStatus) :=
  [("empty", Player_Empty); ("connected", Player_Connected); ("checkingCompatibility", Player_CheckingCompatibility); ("compatibilityFailed", Player_CompatibilityFailed); ("syncingState", Player_SyncingState); ("ready", Player_Ready); ("playing", Player_Playing); ("paused", Player_Paused); ("reconnecting", Player_Reconnecting); ("recoveryExpired", Player_RecoveryExpired); ("disconnected", Player_Disconnected)]%string.
Definition PlayerStatus_json : Codec PlayerStatus := enum_writer PlayerStatus_names.

(** [PlayerRuntimeState] of [src/rooms/player_slot.rs]. *)
Definition PlayerRuntimeState_names : list (string * PlayerRuntimeState) :=
  [("empty", Runtime_Empty); ("connected", Runtime_Connected); ("checkingCompatibility", Runtime_CheckingCompatibility); ("syncing", Runtime_Syncing); ("ready", Runtime_Ready); ("deterministicReady", Runtime_DeterministicReady); ("playing", Runtime_Playing); ("pausing", Runtime_Pausing); ("paused", Runtime_Paused); ("reconnecting", Runtime_Reconnecting); ("stale", Runtime_Stale); ("disconnected", Runtime_Disconnected); ("recoveryExpired", Runtime_RecoveryExpired)]%string.
Definition PlayerRuntimeState_json : Codec PlayerRuntimeState := enum_writer PlayerRuntimeState_names.

(** [PlayerSlotView] of [src/rooms/room_view.rs]. *)
Definition PlayerSlotView_fields (x : PlayerSlotView) : Fields :=
  [field "playerIndex" u8 (psv_player_index x);
   field "displayNumber" u8 (psv_display_number x);
   field "role" PlayerRole_json (psv_role x);
   field "status" PlayerStatus_json (psv_status x);
   field "runtimeState" PlayerRuntimeState_json (psv_runtime_state x);
   field "occupied" boolean (psv_occupied x);
   field "controlConnected" boolean (psv_control_connected x);
   field "inputConnected" boolean (psv_input_connected x);
   field "supportsStateFileRelay" boolean (psv_supports_state_file_relay x);
   field "supportsRomFileRelay" boolean (psv_supports_rom_file_relay x);
   field "supportsScheduledStart" boolean (psv_supports_scheduled_start x);
   field "supportsClockSync" boolean (psv_supports_clock_sync x);
   field "supportsFastInputRelay" boolean (psv_supports_fast_input_relay x);
   field "lastSeenAgeMs" (optional u128) (psv_last_seen_age_ms x);
   field "reconnectGraceRemainingMs" (optional u128) (psv_reconnect_grace_remaining_ms x)].
Definition PlayerSlotView_json : Codec PlayerSlotView := struct_writer PlayerSlotView_fields.

(** [RoomView] of [src/rooms/room_view.rs]. *)
Definition RoomView_fields (x : RoomView) : Fields :=
  [field "roomId" RoomId_json (rv_room_id x);
   field "eventSeq" u64 (rv_event_seq x);
   field "roomEpoch" u64 (rv_room_epoch x);
   field "sessionEpoch" u64 (rv_session_epoch x);
   field "inviteCode" ascii (rv_invite_code x);
   field "protocol" NetplayProtocolView_json (rv_protocol x);
   field "session" NetplaySessionDescriptor_json (rv_session x);
   field "voice" (optional RoomVoiceView_json) (rv_voice x);
   field "romRelay" (optional RomRelayCapability_json) (rv_rom_relay x);
   field "maxPlayers" u8 (rv_max_players x);
   field "pause" (optional SessionPauseView_json) (rv_pause x);
   field_opt "stateRecovery" StateRecoveryView_json (rv_state_recovery x);
   field "frameClock" RoomFrameClockView_json (rv_frame_clock x);
   field "status" RoomStatus_json (rv_status x);
   field "players" (vec PlayerSlotView_json) (rv_players x)].
Definition RoomView_json : Codec RoomView := struct_writer RoomView_fields.

(** [LobbyStatus] of [src/lobbies/lobby.rs]. *)
Definition LobbyStatus_names : list (string * LobbyStatus) :=
  [("open", LobbyOpen); ("gameSelected", GameSelected); ("inGame", InGame); ("closed", LobbyStatusClosed)]%string.
Definition LobbyStatus_json : Codec LobbyStatus := enum_writer LobbyStatus_names.

(** [LobbyServerCapabilities] of [src/lobbies/lobby_capabilities.rs]. *)
Definition LobbyServerCapabilities_fields (x : LobbyServerCapabilities) : Fields :=
  [field "supportsLobby" boolean (server_supports_lobby x);
   field "supportsTemporarySessionRomRelay" boolean (server_supports_temporary_session_rom_relay x);
   field "supportsLobbyVoice" boolean (server_supports_lobby_voice x);
   field "supportsMultiGameLobby" boolean (server_supports_multi_game_lobby x);
   field "supportsLobbyReturnedEvent" boolean (server_supports_lobby_returned_event x);
   field "supportsLobbyGameplayStarted" boolean (server_supports_lobby_gameplay_started x);
   field "supportsLobbyPlayerRemoval" boolean (server_supports_lobby_player_removal x);
   field "maxPlayers" u8 (server_max_players x)].
Definition LobbyServerCapabilities_json : Codec LobbyServerCapabilities := struct_writer LobbyServerCapabilities_fields.

(** [LobbyPlayerRole] of [src/lobbies/lobby_player.rs]. *)
Definition LobbyPlayerRole_names : list (string * LobbyPlayerRole) :=
  [("host", LobbyHost); ("guest", LobbyGuest)]%string.
Definition LobbyPlayerRole_json : Codec LobbyPlayerRole := enum_writer LobbyPlayerRole_names.

(** [LobbyPlayerStatus] of [src/lobbies/lobby_player.rs]. *)
Definition LobbyPlayerStatus_names : list (string * LobbyPlayerStatus) :=
  [("empty", SlotEmpty); ("connected", SlotConnected); ("reconnecting", SlotReconnecting); ("disconnected", SlotDisconnected)]%string.
Definition LobbyPlayerStatus_json : Codec LobbyPlayerStatus := enum_writer LobbyPlayerStatus_names.

(** [ClientKind] of [src/auth/client_kind.rs]. *)
Definition ClientKind_names : list (string * ClientKind) :=
  [("desktop", Desktop); ("android", Android); ("ios", Ios)]%string.
Definition ClientKind_json : Codec ClientKind := enum_writer ClientKind_names.

(** [LobbyPlayerSlotView] of [src/lobbies/lobby_player.rs]. *)
Definition LobbyPlayerSlotView_fields (x : LobbyPlayerSlotView) : Fields :=
  [field "playerIndex" u8 (sv_player_index x);
   field "displayNumber" u8 (sv_display_number x);
   field "role" LobbyPlayerRole_json (sv_role x);
   field "color" text (sv_color x);
   field "status" LobbyPlayerStatus_json (sv_status x);
   field "occupied" boolean (sv_occupied x);
   field "connected" boolean (sv_connected x);
   field_opt "clientKind" ClientKind_json (sv_client_kind x);
   field_opt "displayName" text (sv_display_name x);
   field "capabilities" LobbyClientCapabilities_json (sv_capabilities x);
   field_opt "lastSeenAtMs" u128 (sv_last_seen_at_ms x)].
Definition LobbyPlayerSlotView_json : Codec LobbyPlayerSlotView := struct_writer LobbyPlayerSlotView_fields.

(** [LobbyGameSelectionView] of [src/lobbies/lobby_game.rs]. *)
Definition LobbyGameSelectionView_fields (x : LobbyGameSelectionView) : Fields :=
  [field "proposalId" uuid (selection_proposal_id x);
   field "selectedByPlayerIndex" u8 (selected_by_player_index x);
   field "selectedAtMs" u128 (selected_at_ms x);
   field "game" LobbyGameCandidate_json (selection_game x)].
Definition LobbyGameSelectionView_json : Codec LobbyGameSelectionView := struct_writer LobbyGameSelectionView_fields.

(** [LobbyGameReadinessView] of [src/lobbies/lobby_launch.rs]. *)
Definition LobbyGameReadinessView_fields (x : LobbyGameReadinessView) : Fields :=
  [field "playerIndex" u8 (readiness_player_index x);
   field "proposalId" uuid (readiness_proposal_id x);
   field "status" LobbyGameReadinessStatus_json (readiness_status x);
   field_opt "detail" text (readiness_detail x);
   field "updatedAtMs" u128 (readiness_updated_at_ms x)].
Definition LobbyGameReadinessView_json : Codec LobbyGameReadinessView := struct_writer LobbyGameReadinessView_fields.

(** [LobbyGameLaunchStatus] of [src/lobbies/lobby_launch.rs]. *)
Definition LobbyGameLaunchStatus_names : list (string * LobbyGameLaunchStatus) :=
  [("preparing", LaunchPreparing); ("ready", LaunchReady); ("playing", LaunchPlaying)]%string.
Definition LobbyGameLaunchStatus_json : Codec LobbyGameLaunchStatus := enum_writer LobbyGameLaunchStatus_names.

(** [LobbyGameLaunchView] of [src/lobbies/lobby_launch.rs]. *)
Definition LobbyGameLaunchView_fields (x : LobbyGameLaunchView) : Fields :=
  [field "proposalId" uuid (launch_proposal_id x);
   field "requestedByPlayerIndex" u8 (launch_requested_by x);
   field "requestedAtMs" u128 (launch_requested_at_ms x);
   field "status" LobbyGameLaunchStatus_json (launch_status x);
   field_opt "roomInviteCode" ascii (launch_room_invite_code x);
   field_opt "roomPublishedAtMs" u128 (launch_room_published_at_ms x);
   field_opt "gameplayStartedAtMs" u128 (launch_gameplay_started_at_ms x);
   field_vec "startedPlayerIndexes" u8 (launch_started_player_indexes x)].
Definition LobbyGameLaunchView_json : Codec LobbyGameLaunchView := struct_writer LobbyGameLaunchView_fields.

(** [LobbyView] of [src/lobbies/lobby_view.rs]. *)
Definition LobbyView_fields (x : LobbyView) : Fields :=
  [field "lobbyId" RoomId_json (lv_lobby_id x);
   field "eventSeq" u64 (lv_event_seq x);
   field "lobbyEpoch" u64 (lv_lobby_epoch x);
   field "inviteCode" ascii (lv_invite_code x);
   field "createdAtMs" u128 (lv_created_at_ms x);
   field "updatedAtMs" u128 (lv_updated_at_ms x);
   field "lastMeaningfulActivityAtMs" u128 (lv_last_meaningful_activity_at_ms x);
   field "status" LobbyStatus_json (lv_status x);
   field "visibility" LobbyVisibility_json (lv_visibility x);
   field "capabilities" LobbyServerCapabilities_json (lv_capabilities x);
   field "players" (vec LobbyPlayerSlotView_json) (lv_players x);
   field_opt "selectedGame" LobbyGameSelectionView_json (lv_selected_game x);
   field_vec "gameReadiness" LobbyGameReadinessView_json (lv_game_readiness x);
   field_opt "pendingLaunch" LobbyGameLaunchView_json (lv_pending_launch x);
   field_opt "voice" RoomVoiceView_json (lv_voice x)].
Definition LobbyView_json : Codec LobbyView := struct_writer LobbyView_fields.

(** [LobbyReturnedView] of [src/lobbies/lobby_return.rs]. *)
Definition LobbyReturnedView_fields (x : LobbyReturnedView) : Fields :=
  [field "proposalId" uuid (returned_proposal_id x);
   field_opt "returnRequestedByPlayerIndex" u8 (returned_requested_by x);
   field_opt "reason" LobbyReturnReason_json (returned_reason x);
   field "returnedAtMs" u128 (returned_at_ms x)].
Definition LobbyReturnedView_json : Codec LobbyReturnedView := struct_writer LobbyReturnedView_fields.

(** [LobbyChatMessageView] of [src/lobbies/lobby_chat.rs]. *)
Definition LobbyChatMessageView_fields (x : LobbyChatMessageView) : Fields :=
  [field "messageId" uuid (chat_message_id x);
   field "playerIndex" u8 (chat_player_index x);
   field "sentAtMs" u128 (chat_sent_at_ms x);
   field "body" text (chat_body x)].
Definition LobbyChatMessageView_json : Codec LobbyChatMessageView := struct_writer LobbyChatMessageView_fields.

(** [LobbyPlayerRemovalReason] of [src/lobbies/lobby_player_removal.rs]. *)
Definition LobbyPlayerRemovalReason_names : list (string * LobbyPlayerRemovalReason) :=
  [("removedByHost", RemovedByHost)]%string.
Definition LobbyPlayerRemovalReason_json : Codec LobbyPlayerRemovalReason := enum_writer LobbyPlayerRemovalReason_names.

(** [CreateFileRelayTransferRequest] of [src/file_relay/types.rs]. *)
Definition CreateFileRelayTransferRequest_fields (x : CreateFileRelayTransferRequest) : Fields :=
  [field "roomId" text (ft_room_id x);
   field "senderPlayerId" text (ft_sender_player_id x);
   field "receiverPlayerId" text (ft_receiver_player_id x);
   field "kind" FileRelayTransferKind_json (ft_kind x);
   field "sha256" text (ft_sha256 x);
   field "sizeBytes" u64 (ft_size_bytes x);
   field "expiresInSeconds" (optional u64) (ft_expires_in_seconds x);
   field_opt "roomEpoch" u64 (ft_room_epoch x);
   field_opt "sessionEpoch" u64 (ft_session_epoch x);
   field_opt "system" text (ft_system x);
   field_opt "coreId" text (ft_core_id x);
   field_opt "contentHash" text (ft_content_hash x);
   field_opt "fileName" text (ft_file_name x);
   field_opt "extension" text (ft_extension x);
   field_opt "displayName" text (ft_display_name x);
   field "singleUse" boolean (ft_single_use x)].
Definition CreateFileRelayTransferRequest_json : Codec CreateFileRelayTransferRequest := struct_writer CreateFileRelayTransferRequest_fields.

(** [VoiceBrokerParticipant] of [src/voice/types.rs]. *)
Definition VoiceBrokerParticipant_fields (x : VoiceBrokerParticipant) : Fields :=
  [field "playerIndex" u8 (participant_player_index x);
   field "participantIdentity" text (participant_identity_ x);
   field "displayName" text (participant_display_name x)].
Definition VoiceBrokerParticipant_json : Codec VoiceBrokerParticipant := struct_writer VoiceBrokerParticipant_fields.

(** [CreateVoiceRoomBrokerRequest] of [src/voice/types.rs]. *)
Definition CreateVoiceRoomBrokerRequest_fields (x : CreateVoiceRoomBrokerRequest) : Fields :=
  [field "netplayRoomId" text (voice_netplay_room_id x);
   field "netplayInviteCode" ascii (voice_netplay_invite_code x);
   field "roomEpoch" u64 (voice_room_epoch x);
   field "mode" NetplayVoiceMode_json (voice_request_mode x);
   field "maxParticipants" u8 (voice_request_max_participants x);
   field "participants" (vec VoiceBrokerParticipant_json) (voice_request_participants x)].
Definition CreateVoiceRoomBrokerRequest_json : Codec CreateVoiceRoomBrokerRequest := struct_writer CreateVoiceRoomBrokerRequest_fields.

(** [IssueVoiceTokenBrokerRequest] of [src/voice/types.rs]. *)
Definition IssueVoiceTokenBrokerRequest_fields (x : IssueVoiceTokenBrokerRequest) : Fields :=
  [field "playerIndex" u8 (issue_player_index x);
   field "participantIdentity" text (issue_participant_identity x);
   field "displayName" (optional text) (issue_display_name x)].
Definition IssueVoiceTokenBrokerRequest_json : Codec IssueVoiceTokenBrokerRequest := struct_writer IssueVoiceTokenBrokerRequest_fields.

End views.

(** ** Laws *)

Section laws.
Context `{SerdeLaws}.

#[export] Instance PlayerVoiceJoinGrant_nonnull : NonNull PlayerVoiceJoinGrant_json. Proof. done. Qed.
#[export] Instance PlayerVoiceJoinGrant_inj : Inj (=) (=) (enc PlayerVoiceJoinGrant_json). Proof. same_struct PlayerVoiceJoinGrant_fields. Qed.
#[export] Instance NetplayProtocolView_nonnull : NonNull NetplayProtocolView_json. Proof. done. Qed.
#[export] Instance NetplayProtocolView_inj : Inj (=) (=) (enc NetplayProtocolView_json). Proof. same_struct NetplayProtocolView_fields. Qed.
#[export] Instance RoomVoiceStatus_nonnull : NonNull RoomVoiceStatus_json. Proof. done. Qed.
#[export] Instance RoomVoiceStatus_inj : Inj (=) (=) (enc RoomVoiceStatus_json). Proof. same_enum. Qed.
#[export] Instance RoomVoiceView_nonnull : NonNull RoomVoiceView_json. Proof. done. Qed.
#[export] Instance RoomVoiceView_inj : Inj (=) (=) (enc RoomVoiceView_json). Proof. same_struct RoomVoiceView_fields. Qed.
#[export] Instance SessionPauseState_nonnull : NonNull SessionPauseState_json. Proof. done. Qed.
#[export] Instance SessionPauseState_inj : Inj (=) (=) (enc SessionPauseState_json). Proof. same_enum. Qed.
#[export] Instance SessionPauseHolder_nonnull : NonNull SessionPauseHolder_json. Proof. done. Qed.
#[export] Instance SessionPauseHolder_inj : Inj (=) (=) (enc SessionPauseHolder_json). Proof. same_struct SessionPauseHolder_fields. Qed.
#[export] Instance SessionPauseView_nonnull : NonNull SessionPauseView_json. Proof. done. Qed.
#[export] Instance SessionPauseView_inj : Inj (=) (=) (enc SessionPauseView_json). Proof. same_struct SessionPauseView_fields. Qed.
#[export] Instance PlayerStateHashView_nonnull : NonNull PlayerStateHashView_json. Proof. done. Qed.
#[export] Instance PlayerStateHashView_inj : Inj (=) (=) (enc PlayerStateHashView_json). Proof. same_struct PlayerStateHashView_fields. Qed.
#[export] Instance NearbyStateHashMatchView_nonnull : NonNull NearbyStateHashMatchView_json. Proof. done. Qed.
#[export] Instance NearbyStateHashMatchView_inj : Inj (=) (=) (enc NearbyStateHashMatchView_json). Proof. same_struct NearbyStateHashMatchView_fields. Qed.
#[export] Instance StateHashMismatchView_nonnull : NonNull StateHashMismatchView_json. Proof. done. Qed.
#[export] Instance StateHashMismatchView_inj : Inj (=) (=) (enc StateHashMismatchView_json). Proof. same_struct StateHashMismatchView_fields. Qed.
#[export] Instance StateRecoveryView_nonnull : NonNull StateRecoveryView_json. Proof. done. Qed.
#[export] Instance StateRecoveryView_inj : Inj (=) (=) (enc StateRecoveryView_json). Proof. same_struct StateRecoveryView_fields. Qed.
#[export] Instance PlayerFrameCursorView_nonnull : NonNull PlayerFrameCursorView_json. Proof. done. Qed.
#[export] Instance PlayerFrameCursorView_inj : Inj (=) (=) (enc PlayerFrameCursorView_json). Proof. same_struct PlayerFrameCursorView_fields. Qed.
#[export] Instance InputDelayChangeReason_nonnull : NonNull InputDelayChangeReason_json. Proof. done. Qed.
#[export] Instance InputDelayChangeReason_inj : Inj (=) (=) (enc InputDelayChangeReason_json). Proof. same_enum. Qed.
#[export] Instance InputDelayChange_nonnull : NonNull InputDelayChange_json. Proof. done. Qed.
#[export] Instance InputDelayChange_inj : Inj (=) (=) (enc InputDelayChange_json). Proof. same_struct InputDelayChange_fields. Qed.
#[export] Instance RoomFrameClockView_nonnull : NonNull RoomFrameClockView_json. Proof. done. Qed.
#[export] Instance RoomFrameClockView_inj : Inj (=) (=) (enc RoomFrameClockView_json). Proof. same_struct RoomFrameClockView_fields. Qed.
#[export] Instance RoomStatus_nonnull : NonNull RoomStatus_json. Proof. done. Qed.
#[export] Instance RoomStatus_inj : Inj (=) (=) (enc RoomStatus_json). Proof. same_enum. Qed.
#[export] Instance PlayerRole_nonnull : NonNull PlayerRole_json. Proof. done. Qed.
#[export] Instance PlayerRole_inj : Inj (=) (=) (enc PlayerRole_json). Proof. same_enum. Qed.
#[export] Instance PlayerStatus_nonnull : NonNull PlayerStatus_json. Proof. done. Qed.
#[export] Instance PlayerStatus_inj : Inj (=) (=) (enc PlayerStatus_json). Proof. same_enum. Qed.
#[export] Instance PlayerRuntimeState_nonnull : NonNull PlayerRuntimeState_json. Proof. done. Qed.
#[export] Instance PlayerRuntimeState_inj : Inj (=) (=) (enc PlayerRuntimeState_json). Proof. same_enum. Qed.
#[export] Instance PlayerSlotView_nonnull : NonNull PlayerSlotView_json. Proof. done. Qed.
#[export] Instance PlayerSlotView_inj : Inj (=) (=) (enc PlayerSlotView_json). Proof. same_struct PlayerSlotView_fields. Qed.
#[export] Instance RoomView_nonnull : NonNull RoomView_json. Proof. done. Qed.
#[export] Instance LobbyStatus_nonnull : NonNull LobbyStatus_json. Proof. done. Qed.
#[export] Instance LobbyStatus_inj : Inj (=) (=) (enc LobbyStatus_json). Proof. same_enum. Qed.
#[export] Instance LobbyServerCapabilities_nonnull : NonNull LobbyServerCapabilities_json. Proof. done. Qed.
#[export] Instance LobbyServerCapabilities_inj : Inj (=) (=) (enc LobbyServerCapabilities_json). Proof. same_struct LobbyServerCapabilities_fields. Qed.
#[export] Instance LobbyPlayerRole_nonnull : NonNull LobbyPlayerRole_json. Proof. done. Qed.
#[export] Instance LobbyPlayerRole_inj : Inj (=) (=) (enc LobbyPlayerRole_json). Proof. same_enum. Qed.
#[export] Instance LobbyPlayerStatus_nonnull : NonNull LobbyPlayerStatus_json. Proof. done. Qed.
#[export] Instance LobbyPlayerStatus_inj : Inj (=) (=) (enc LobbyPlayerStatus_json). Proof. same_enum. Qed.
#[export] Instance ClientKind_nonnull : NonNull ClientKind_json. Proof. done. Qed.
#[export] Instance ClientKind_inj : Inj (=) (=) (enc ClientKind_json). Proof. same_enum. Qed.
#[export] Instance LobbyPlayerSlotView_nonnull : NonNull LobbyPlayerSlotView_json. Proof. done. Qed.
#[export] Instance LobbyPlayerSlotView_inj : Inj (=) (=) (enc LobbyPlayerSlotView_json). Proof. same_struct LobbyPlayerSlotView_fields. Qed.
#[export] Instance LobbyGameSelectionView_nonnull : NonNull LobbyGameSelectionView_json. Proof. done. Qed.
#[export] Instance LobbyGameSelectionView_inj : Inj (=) (=) (enc LobbyGameSelectionView_json). Proof. same_struct LobbyGameSelectionView_fields. Qed.
#[export] Instance LobbyGameReadinessView_nonnull : NonNull LobbyGameReadinessView_json. Proof. done. Qed.
#[export] Instance LobbyGameReadinessView_inj : Inj (=) (=) (enc LobbyGameReadinessView_json). Proof. same_struct LobbyGameReadinessView_fields. Qed.
#[export] Instance LobbyGameLaunchStatus_nonnull : NonNull LobbyGameLaunchStatus_json. Proof. done. Qed.
#[export] Instance LobbyGameLaunchStatus_inj : Inj (=) (=) (enc LobbyGameLaunchStatus_json). Proof. same_enum. Qed.
#[export] Instance LobbyGameLaunchView_nonnull : NonNull LobbyGameLaunchView_json. Proof. done. Qed.
#[export] Instance LobbyView_nonnull : NonNull LobbyView_json. Proof. done. Qed.
#[export] Instance LobbyReturnedView_nonnull : NonNull LobbyReturnedView_json. Proof. done. Qed.
#[export] Instance LobbyReturnedView_inj : Inj (=) (=) (enc LobbyReturnedView_json). Proof. same_struct LobbyReturnedView_fields. Qed.
#[export] Instance LobbyChatMessageView_nonnull : NonNull LobbyChatMessageView_json. Proof. done. Qed.
#[export] Instance LobbyChatMessageView_inj : Inj (=) (=) (enc LobbyChatMessageView_json). Proof. same_struct LobbyChatMessageView_fields. Qed.
#[export] Instance LobbyPlayerRemovalReason_nonnull : NonNull LobbyPlayerRemovalReason_json. Proof. done. Qed.
#[export] Instance LobbyPlayerRemovalReason_inj : Inj (=) (=) (enc LobbyPlayerRemovalReason_json). Proof. same_enum. Qed.
#[export] Instance CreateFileRelayTransferRequest_nonnull : NonNull CreateFileRelayTransferRequest_json. Proof. done. Qed.
#[export] Instance CreateFileRelayTransferRequest_inj : Inj (=) (=) (enc CreateFileRelayTransferRequest_json). Proof. same_struct CreateFileRelayTransferRequest_fields. Qed.
#[export] Instance VoiceBrokerParticipant_nonnull : NonNull VoiceBrokerParticipant_json. Proof. done. Qed.
#[export] Instance VoiceBrokerParticipant_inj : Inj (=) (=) (enc VoiceBrokerParticipant_json). Proof. same_struct VoiceBrokerParticipant_fields. Qed.
#[export] Instance CreateVoiceRoomBrokerRequest_nonnull : NonNull CreateVoiceRoomBrokerRequest_json. Proof. done. Qed.
#[export] Instance IssueVoiceTokenBrokerRequest_nonnull : NonNull IssueVoiceTokenBrokerRequest_json. Proof. done. Qed.
#[export] Instance IssueVoiceTokenBrokerRequest_inj : Inj (=) (=) (enc IssueVoiceTokenBrokerRequest_json). Proof. same_struct IssueVoiceTokenBrokerRequest_fields. Qed.
End laws.

(** ** HTTP replies

  The body of every reply of the router: the bodies of the room, lobby and operator routes and the
  body of an error, with the status. [respond] turns the outcome of a request into what the client
  is sent; a reply that upgrades the connection has no body. *)

#[export] Instance PublicLobbyStatus_eq_dec : EqDecision PublicLobbyStatus. Proof. solve_decision. Defined.

Section replies.
Context `{SerdeLib}.

(** [PublicLobbyStatus] of [src/lobbies/lobby_view.rs]. *)
Definition PublicLobbyStatus_names : list (string * PublicLobbyStatus) :=
  [("open", PublicOpen); ("gameSelected", PublicGameSelected)]%string.
Definition PublicLobbyStatus_json : Codec PublicLobbyStatus := enum_writer PublicLobbyStatus_names.

(** [PublicLobbyGameSummary] of [src/lobbies/lobby_view.rs]. *)
Definition PublicLobbyGameSummary_fields (x : PublicLobbyGameSummary) : Fields :=
  [field "title" text (public_title x);
   field "systemId" text (public_system_id x);
   field "coreId" text (public_core_id x);
   field_opt "startStateLabel" text (public_start_state_label x)].
Definition PublicLobbyGameSummary_json : Codec PublicLobbyGameSummary := struct_writer PublicLobbyGameSummary_fields.

(** [PublicLobbySummary] of [src/lobbies/lobby_view.rs]. *)
Definition PublicLobbySummary_fields (x : PublicLobbySummary) : Fields :=
  [field "lobbyId" RoomId_json (pub_lobby_id x);
   field "inviteCode" ascii (pub_invite_code x);
   field "visibility" LobbyVisibility_json (pub_visibility x);
   field "status" PublicLobbyStatus_json (pub_status x);
   field "hostedBy" text (pub_hosted_by x);
   field "playerCount" u8 (pub_player_count x);
   field "maxPlayers" u8 (pub_max_players x);
   field "openSlots" u8 (pub_open_slots x);
   field "createdAtMs" u128 (pub_created_at_ms x);
   field "updatedAtMs" u128 (pub_updated_at_ms x);
   field_opt "selectedGame" PublicLobbyGameSummary_json (pub_selected_game x)].
Definition PublicLobbySummary_json : Codec PublicLobbySummary := struct_writer PublicLobbySummary_fields.

(** [RoomDebugEvent] of [src/rooms/room_debug_event.rs]. *)
Definition RoomDebugEvent_fields (x : RoomDebugEvent) : Fields :=
  [field "timestampMs" u128 (debug_timestamp_ms x);
   field "roomId" RoomId_json (debug_room_id x);
   field "inviteCode" ascii (debug_invite_code x);
   field "eventSeq" u64 (debug_event_seq x);
   field "roomEpoch" u64 (debug_room_epoch x);
   field "sessionEpoch" u64 (debug_session_epoch x);
   field "protocolVersion" u16 (debug_protocol_version x);
   field "kind" text (debug_kind x);
   field "detail" text (debug_detail x)].
Definition RoomDebugEvent_json : Codec RoomDebugEvent := struct_writer RoomDebugEvent_fields.

(** [LobbyDebugEvent] of [src/lobbies/lobby_debug_event.rs]. *)
Definition LobbyDebugEvent_fields (x : LobbyDebugEvent) : Fields :=
  [field "timestampMs" u128 (ldebug_timestamp_ms x);
   field "lobbyId" RoomId_json (ldebug_lobby_id x);
   field "inviteCode" ascii (ldebug_invite_code x);
   field "eventSeq" u64 (ldebug_event_seq x);
   field "lobbyEpoch" u64 (ldebug_lobby_epoch x);
   field "kind" text (ldebug_kind x);
   field "detail" text (ldebug_detail x)].
Definition LobbyDebugEvent_json : Codec LobbyDebugEvent := struct_writer LobbyDebugEvent_fields.

(** [MetricsSnapshot] of [src/observability/metrics.rs]. *)
Definition MetricsSnapshot_fields (x : MetricsSnapshot) : Fields :=
  [field "roomsCreatedTotal" u64 (snapshot_rooms_created_total x);
   field "websocketJoinsTotal" u64 (snapshot_websocket_joins_total x);
   field "playerReconnectsTotal" u64 (snapshot_player_reconnects_total x);
   field "sessionsStartedTotal" u64 (snapshot_sessions_started_total x);
   field "pauseRequestsTotal" u64 (snapshot_pause_requests_total x);
   field "resumeRequestsTotal" u64 (snapshot_resume_requests_total x);
   field "heartbeatsTotal" u64 (snapshot_heartbeats_total x);
   field "protocolErrorsTotal" u64 (snapshot_protocol_errors_total x);
   field "v5InputBatchesTotal" u64 (snapshot_v5_input_batches_total x);
   field "v5InputFramesTotal" u64 (snapshot_v5_input_frames_total x);
   field "v5InputFramesAcceptedTotal" u64 (snapshot_v5_input_frames_accepted_total x);
   field "v5InputFramesDuplicateTotal" u64 (snapshot_v5_input_frames_duplicate_total x);
   field "v5InputNacksTotal" u64 (snapshot_v5_input_nacks_total x);
   field "v5HostFrameOpensTotal" u64 (snapshot_v5_host_frame_opens_total x);
   field "v5HostFrameOpenDuplicatesTotal" u64 (snapshot_v5_host_frame_open_duplicates_total x);
   field "v5FrameReleasesTotal" u64 (snapshot_v5_frame_releases_total x);
   field "v5ScheduledWakeRetriesTotal" u64 (snapshot_v5_scheduled_wake_retries_total x);
   field "inputEventLaggedTotal" u64 (snapshot_input_event_lagged_total x);
   field "v5InputRateLimitedTotal" u64 (snapshot_v5_input_rate_limited_total x);
   field "rateLimitedTotal" u64 (snapshot_rate_limited_total x);
   field "authRejectedTotal" u64 (snapshot_auth_rejected_total x);
   field "telemetryDroppedTotal" u64 (snapshot_telemetry_dropped_total x);
   field "telemetryWriteFailedTotal" u64 (snapshot_telemetry_write_failed_total x)].
Definition MetricsSnapshot_json : Codec MetricsSnapshot := struct_writer MetricsSnapshot_fields.

(** [LobbySessionResponse] of [src/http/lobby_routes.rs]. *)
Definition LobbySessionResponse_fields (x : LobbySessionResponse) : Fields :=
  [field "lobby" LobbyView_json (lsr_lobby x);
   field "playerIndex" u8 (lsr_player_index x);
   field "resumeToken" text (lsr_resume_token x);
   field_opt "voice" PlayerVoiceJoinGrant_json (lsr_voice x)].
Definition LobbySessionResponse_json : Codec LobbySessionResponse := struct_writer LobbySessionResponse_fields.

(** [RoomRegistrySnapshot] of [src/rooms/room_registry_snapshot.rs]. *)
Definition RoomRegistrySnapshot_json : Codec RoomRegistrySnapshot := struct_writer (λ x,
  [field "activeRoomCount" u64 (N.of_nat (active_room_count x));
   field "rooms" (vec RoomView_json) (snapshot_rooms x)]).

(** [LobbyRegistrySnapshot] of [src/lobbies/lobby_debug_event.rs]. *)
Definition LobbyRegistrySnapshot_json : Codec (list LobbyView) := struct_writer (λ lobbies,
  [field "activeLobbyCount" u64 (N.of_nat (length lobbies));
   field "lobbies" (vec LobbyView_json) lobbies]).

(** The bodies with one field: [CreateRoomResponse] and [RoomStatusResponse], [LobbyStatusResponse],
    [PublicLobbyListResponse], [EventLogResponse], [LobbyEventLogResponse]. *)
Definition RoomStatusResponse_json : Codec RoomView := struct_writer (λ room, [field "room" RoomView_json room]).
Definition LobbyStatusResponse_json : Codec LobbyView := struct_writer (λ lobby, [field "lobby" LobbyView_json lobby]).
Definition PublicLobbyListResponse_json : Codec (list PublicLobbySummary) :=
  struct_writer (λ lobbies, [field "lobbies" (vec PublicLobbySummary_json) lobbies]).
Definition EventLogResponse_json : Codec (list RoomDebugEvent) :=
  struct_writer (λ events, [field "events" (vec RoomDebugEvent_json) events]).
Definition LobbyEventLogResponse_json : Codec (list LobbyDebugEvent) :=
  struct_writer (λ events, [field "events" (vec LobbyDebugEvent_json) events]).

(** What the build embeds in the executable. *)
Record BuildInfo := mkBuildInfo { build_sha : string; image_identity : string; package_version : string }.

(** [HealthResponse] of [src/http/routes.rs], as [health] fills it in. *)
Definition HealthResponse_fields (build : BuildInfo) (minimum maximum : N) : Fields :=
  [field "status" text "ok"%string;
   field "buildSha" text (build_sha build);
   field "imageIdentity" text (image_identity build);
   field "version" text (package_version build);
   field "minSupportedProtocolVersion" u16 minimum;
   field "maxSupportedProtocolVersion" u16 maximum].

(** [ErrorBody] of [src/http/errors.rs]. *)
Definition ErrorBody_fields (x : ErrorResponse) : Fields :=
  [field "code" text (response_code x);
   field "message" text (response_message x);
   field_opt "retryAfterSeconds" u64 (response_retry_after x)].
Definition ErrorBody_json : Codec ErrorResponse := struct_writer ErrorBody_fields.

Definition reply_document (build : BuildInfo) (r : Reply) : option Value :=
  match r with
  | ReplyHealth minimum maximum => Some (object (HealthResponse_fields build minimum maximum))
  | ReplyRoom room => Some (enc RoomStatusResponse_json room)
  | ReplyLobbySession session => Some (enc LobbySessionResponse_json session)
  | ReplyLobby lobby => Some (enc LobbyStatusResponse_json lobby)
  | ReplyPublicLobbies lobbies => Some (enc PublicLobbyListResponse_json lobbies)
  | ReplyMetrics metrics => Some (enc MetricsSnapshot_json metrics)
  | ReplyRooms snapshot => Some (enc RoomRegistrySnapshot_json snapshot)
  | ReplyLobbies lobbies => Some (enc LobbyRegistrySnapshot_json lobbies)
  | ReplyEvents events => Some (enc EventLogResponse_json events)
  | ReplyLobbyEvents events => Some (enc LobbyEventLogResponse_json events)
  | UpgradeRoom _ | UpgradeInput _ | UpgradeLobby _ | UpgradePublicLobbies => None
  end.

(** The status and the body of a reply: 200, 101 for an upgrade, or what the error says. *)
Definition respond (build : BuildInfo) (outcome : result HttpError Reply) : N * option Value :=
  match outcome with
  | Ok r => match reply_document build r with Some body => (200, Some body) | None => (101, None) end
  | Err e => let x := into_response e in (response_status x, Some (enc ErrorBody_json x))
  end.
End replies.

Section laws.
Context `{SerdeLaws}.

(** Different values are written differently. *)
#[export] Instance PublicLobbyStatus_nonnull : NonNull PublicLobbyStatus_json. Proof. done. Qed.
#[export] Instance PublicLobbyStatus_inj : Inj (=) (=) (enc PublicLobbyStatus_json). Proof. same_enum. Qed.
#[export] Instance PublicLobbyGameSummary_nonnull : NonNull PublicLobbyGameSummary_json. Proof. done. Qed.
#[export] Instance PublicLobbyGameSummary_inj : Inj (=) (=) (enc PublicLobbyGameSummary_json). Proof. same_struct PublicLobbyGameSummary_fields. Qed.
#[export] Instance PublicLobbySummary_nonnull : NonNull PublicLobbySummary_json. Proof. done. Qed.
#[export] Instance RoomDebugEvent_nonnull : NonNull RoomDebugEvent_json. Proof. done. Qed.
#[export] Instance LobbyDebugEvent_nonnull : NonNull LobbyDebugEvent_json. Proof. done. Qed.
#[export] Instance MetricsSnapshot_nonnull : NonNull MetricsSnapshot_json. Proof. done. Qed.
#[export] Instance MetricsSnapshot_inj : Inj (=) (=) (enc MetricsSnapshot_json). Proof. same_struct MetricsSnapshot_fields. Qed.
#[export] Instance LobbySessionResponse_nonnull : NonNull LobbySessionResponse_json. Proof. done. Qed.

End laws.

(** Every error has a client or server error status. *)
Lemma error_status e : 400 ≤ response_status (into_response e) < 600.
Proof. destruct e as [[]|[]|[]| | | |]; cbn; lia. Qed.

(** A client tells the outcome by the status: a document of success comes with 200, no document with
    101, and the code and message of an error with neither. *)
Theorem outcome_is_told_by_status `{SerdeLib} build outcome :
  let '(status, body) := respond build outcome in
  match outcome with
  | Ok r => (status = 200 ∧ is_Some (reply_document build r) ∧ body = reply_document build r)
            ∨ (status = 101 ∧ reply_document build r = None ∧ body = None)
  | Err e => 400 ≤ status < 600 ∧ ∃ rest,
      body = Some (object ([field "code" text (response_code (into_response e));
                            field "message" text (response_message (into_response e))] ++ rest))
  end.
Proof.
  unfold respond. destruct outcome as [r|e].
  - destruct (reply_document build r) as [body|] eqn:E; [left|right]; rewrite ?E; eauto.
  - split; [apply error_status|]. by eexists [_].
Qed.
