(* ===== verification/JsonMessages.v ===== *)
(** * The JSON of messages

  [ClientMessage] and [LobbyClientMessage], which the relay reads, and [ServerMessage] and
  [LobbyServerMessage], which it writes: one definition per variant, with the name in its tag and the
  names and attributes of its fields. *)

From S2P Require Import Prelude Ids Wire Text Compatibility Descriptor Protocol Slots RoomTransactions Room StartSync HostFrame RoomEvents Registry.
From S2P Require Import Lobby LobbyEvents LobbyRegistry FileRelay Messages LobbySocket Parse Auth Json JsonPayloads JsonViews.
Open Scope N_scope.

Section messages.
Context `{SerdeLib}.

(** ** client_message.rs *)

Definition read_client_ping : Reader Client.ClientMessage := mret Client.Ping.

Definition read_client_clock_sync_ping : Reader Client.ClientMessage :=
  ping ← read "ping" ClockSyncPing_json;
  mret (Client.ClockSyncPing ping).

Definition read_client_clock_sync_sample : Reader Client.ClientMessage :=
  room_epoch ← read "roomEpoch" u64;
  session_epoch ← read "sessionEpoch" u64;
  sample ← read "sample" ClockSyncSample_json;
  mret (Client.ClockSyncSample room_epoch session_epoch sample).

Definition read_client_set_compatibility_fingerprint : Reader Client.ClientMessage :=
  room_epoch ← read "roomEpoch" u64;
  session_epoch ← read "sessionEpoch" u64;
  fingerprint ← read "fingerprint" CompatibilityFingerprint_json;
  mret (Client.SetCompatibilityFingerprint room_epoch session_epoch fingerprint).

Definition read_client_set_link_cable_compatibility : Reader Client.ClientMessage :=
  room_epoch ← read "roomEpoch" u64;
  session_epoch ← read "sessionEpoch" u64;
  compatibility ← read "compatibility" LinkCableCompatibility_json;
  mret (Client.SetLinkCableCompatibility room_epoch session_epoch compatibility).

Definition read_client_ready : Reader Client.ClientMessage :=
  room_epoch ← read "roomEpoch" u64;
  session_epoch ← read "sessionEpoch" u64;
  network ← read_default "network" (optional ClientNetworkQualityReport_json) None;
  mret (Client.Ready room_epoch session_epoch network).

Definition read_client_deterministic_ready : Reader Client.ClientMessage :=
  room_epoch ← read "roomEpoch" u64;
  session_epoch ← read "sessionEpoch" u64;
  report ← read "report" DeterministicReadyReport_json;
  network ← read_default "network" (optional ClientNetworkQualityReport_json) None;
  mret (Client.DeterministicReady room_epoch session_epoch report network).

Definition read_client_snapshot_chunk : Reader Client.ClientMessage :=
  room_epoch ← read "roomEpoch" u64;
  session_epoch ← read "sessionEpoch" u64;
  chunk ← read "chunk" SnapshotChunk_json;
  mret (Client.SnapshotChunk room_epoch session_epoch chunk).

Definition read_client_snapshot_complete : Reader Client.ClientMessage :=
  room_epoch ← read "roomEpoch" u64;
  session_epoch ← read "sessionEpoch" u64;
  manifest ← read "manifest" SnapshotManifest_json;
  mret (Client.SnapshotComplete room_epoch session_epoch manifest).

Definition read_client_snapshot_file_relay_requested : Reader Client.ClientMessage :=
  room_epoch ← read "roomEpoch" u64;
  session_epoch ← read "sessionEpoch" u64;
  manifest ← read "manifest" SnapshotManifest_json;
  mret (Client.SnapshotFileRelayRequested room_epoch session_epoch manifest).

Definition read_client_snapshot_file_relay_upload_complete : Reader Client.ClientMessage :=
  room_epoch ← read "roomEpoch" u64;
  session_epoch ← read "sessionEpoch" u64;
  transfer_id ← read "transferId" text;
  manifest ← read "manifest" SnapshotManifest_json;
  mret (Client.SnapshotFileRelayUploadComplete room_epoch session_epoch transfer_id manifest).

Definition read_client_rom_relay_request : Reader Client.ClientMessage :=
  room_epoch ← read "roomEpoch" u64;
  session_epoch ← read "sessionEpoch" u64;
  mret (Client.RomRelayRequest room_epoch session_epoch).

Definition read_client_rom_relay_progress : Reader Client.ClientMessage :=
  room_epoch ← read "roomEpoch" u64;
  session_epoch ← read "sessionEpoch" u64;
  progress ← read "progress" RomRelayProgress_json;
  mret (Client.RomRelayProgress room_epoch session_epoch progress).

Definition read_client_rom_relay_completed : Reader Client.ClientMessage :=
  room_epoch ← read "roomEpoch" u64;
  session_epoch ← read "sessionEpoch" u64;
  completion ← read "completion" RomRelayCompletion_json;
  mret (Client.RomRelayCompleted room_epoch session_epoch completion).

Definition read_client_rom_relay_failed : Reader Client.ClientMessage :=
  room_epoch ← read "roomEpoch" u64;
  session_epoch ← read "sessionEpoch" u64;
  failure ← read "failure" RomRelayFailure_json;
  mret (Client.RomRelayFailed room_epoch session_epoch failure).

Definition read_client_rom_relay_cancelled : Reader Client.ClientMessage :=
  room_epoch ← read "roomEpoch" u64;
  session_epoch ← read "sessionEpoch" u64;
  cancelled ← read "cancelled" RomRelayCancelled_json;
  mret (Client.RomRelayCancelled room_epoch session_epoch cancelled).

Definition read_client_input_frame : Reader Client.ClientMessage :=
  room_epoch ← read "roomEpoch" u64;
  session_epoch ← read "sessionEpoch" u64;
  input ← read "input" InputFrame_json;
  mret (Client.InputFrame room_epoch session_epoch input).

Definition read_client_link_cable_packet : Reader Client.ClientMessage :=
  room_epoch ← read "roomEpoch" u64;
  session_epoch ← read "sessionEpoch" u64;
  packet ← read "packet" LinkCablePacket_json;
  mret (Client.LinkCablePacket room_epoch session_epoch packet).

Definition read_client_heartbeat : Reader Client.ClientMessage :=
  room_epoch ← read "roomEpoch" u64;
  session_epoch ← read "sessionEpoch" u64;
  latest_event_seq ← read "latestEventSeq" u64;
  local_frame ← read_option "localFrame" u64;
  runtime_state ← read "runtimeState" ClientRuntimeState_json;
  network ← read_default "network" (optional ClientNetworkQualityReport_json) None;
  mret (Client.Heartbeat room_epoch session_epoch latest_event_seq local_frame runtime_state network).

Definition read_client_request_session_pause : Reader Client.ClientMessage :=
  room_epoch ← read "roomEpoch" u64;
  session_epoch ← read "sessionEpoch" u64;
  request_id ← read "requestId" text;
  reason ← read "reason" SessionPauseReason_json;
  local_frame ← read "localFrame" u64;
  mret (Client.RequestSessionPause room_epoch session_epoch request_id reason local_frame).

Definition read_client_session_pause_reached : Reader Client.ClientMessage :=
  room_epoch ← read "roomEpoch" u64;
  session_epoch ← read "sessionEpoch" u64;
  sequence ← read "sequence" u64;
  paused_at_frame ← read "pausedAtFrame" u64;
  mret (Client.SessionPauseReached room_epoch session_epoch sequence paused_at_frame).

Definition read_client_request_session_resume : Reader Client.ClientMessage :=
  room_epoch ← read "roomEpoch" u64;
  session_epoch ← read "sessionEpoch" u64;
  request_id ← read "requestId" text;
  sequence ← read "sequence" u64;
  reason ← read "reason" SessionPauseReason_json;
  mret (Client.RequestSessionResume room_epoch session_epoch request_id sequence reason).

Definition read_client_player_exited : Reader Client.ClientMessage :=
  room_epoch ← read "roomEpoch" u64;
  session_epoch ← read "sessionEpoch" u64;
  reason ← read "reason" text;
  mret (Client.PlayerExited room_epoch session_epoch reason).

Definition read_client_refresh_voice_token : Reader Client.ClientMessage :=
  room_epoch ← read "roomEpoch" u64;
  session_epoch ← read "sessionEpoch" u64;
  mret (Client.RefreshVoiceToken room_epoch session_epoch).

Definition read_client_state_hash : Reader Client.ClientMessage :=
  room_epoch ← read "roomEpoch" u64;
  session_epoch ← read "sessionEpoch" u64;
  report ← read "report" StateHashReport_json;
  mret (Client.StateHash room_epoch session_epoch report).

Definition read_client_state_recovery_pinned : Reader Client.ClientMessage :=
  room_epoch ← read "roomEpoch" u64;
  session_epoch ← read "sessionEpoch" u64;
  pin ← read "pin" StateRecoveryPin_json;
  mret (Client.StateRecoveryPinned room_epoch session_epoch pin).

Definition client_variants : list (string * Reader Client.ClientMessage) :=
  [("ping", read_client_ping);
   ("clockSyncPing", read_client_clock_sync_ping);
   ("clockSyncSample", read_client_clock_sync_sample);
   ("setCompatibilityFingerprint", read_client_set_compatibility_fingerprint);
   ("setLinkCableCompatibility", read_client_set_link_cable_compatibility);
   ("ready", read_client_ready);
   ("deterministicReady", read_client_deterministic_ready);
   ("snapshotChunk", read_client_snapshot_chunk);
   ("snapshotComplete", read_client_snapshot_complete);
   ("snapshotFileRelayRequested", read_client_snapshot_file_relay_requested);
   ("snapshotFileRelayUploadComplete", read_client_snapshot_file_relay_upload_complete);
   ("romRelay.request", read_client_rom_relay_request);
   ("romRelay.progress", read_client_rom_relay_progress);
   ("romRelay.completed", read_client_rom_relay_completed);
   ("romRelay.failed", read_client_rom_relay_failed);
   ("romRelay.cancelled", read_client_rom_relay_cancelled);
   ("inputFrame", read_client_input_frame);
   ("linkCablePacket", read_client_link_cable_packet);
   ("heartbeat", read_client_heartbeat);
   ("requestSessionPause", read_client_request_session_pause);
   ("sessionPauseReached", read_client_session_pause_reached);
   ("requestSessionResume", read_client_request_session_resume);
   ("playerExited", read_client_player_exited);
   ("refreshVoiceToken", read_client_refresh_voice_token);
   ("stateHash", read_client_state_hash);
   ("stateRecoveryPinned", read_client_state_recovery_pinned)]%string.
Definition decode_client_message : Value → option Client.ClientMessage := read_tagged client_variants.

(** ** server_message.rs *)

Definition server_room_joined (event_seq room_epoch session_epoch your_player_index : N)
    (resume_token input_socket_token : string) (voice : option PlayerVoiceJoinGrant) (room : RoomView) : string * Fields :=
  ("roomJoined"%string,
   [field "eventSeq" u64 event_seq;
    field "roomEpoch" u64 room_epoch;
    field "sessionEpoch" u64 session_epoch;
    field "yourPlayerIndex" u8 your_player_index;
    field "resumeToken" text resume_token;
    field "inputSocketToken" text input_socket_token;
    field "voice" (optional PlayerVoiceJoinGrant_json) voice;
    field "room" RoomView_json room]).

Definition server_room_state_changed (event_seq room_epoch session_epoch : N)
    (room : RoomView) : string * Fields :=
  ("roomStateChanged"%string,
   [field "eventSeq" u64 event_seq;
    field "roomEpoch" u64 room_epoch;
    field "sessionEpoch" u64 session_epoch;
    field "room" RoomView_json room]).

Definition server_pong : string * Fields := ("pong"%string, []).

Definition server_clock_sync_sample_requested (room_epoch session_epoch : N)
    (request : ClockSyncSampleRequest) : string * Fields :=
  ("clockSyncSampleRequested"%string,
   [field "roomEpoch" u64 room_epoch;
    field "sessionEpoch" u64 session_epoch;
    field "request" ClockSyncSampleRequest_json request]).

Definition server_clock_sync_pong (pong : Messages.ClockSyncPong) : string * Fields :=
  ("clockSyncPong"%string,
   [field "pong" ClockSyncPong_json pong]).

Definition server_start_session (event_seq room_epoch session_epoch start_frame : N)
    (scheduled_start : option ScheduledSessionStart) (room : RoomView) : string * Fields :=
  ("startSession"%string,
   [field "eventSeq" u64 event_seq;
    field "roomEpoch" u64 room_epoch;
    field "sessionEpoch" u64 session_epoch;
    field "startFrame" u64 start_frame;
    field_opt "scheduledStart" ScheduledSessionStart_json scheduled_start;
    field "room" RoomView_json room]).

Definition server_input_frame (room_epoch session_epoch : N) (input : Protocol.InputFrame) : string * Fields :=
  ("inputFrame"%string,
   [field "roomEpoch" u64 room_epoch;
    field "sessionEpoch" u64 session_epoch;
    field "input" InputFrame_json input]).

Definition server_link_cable_packet (packet : Protocol.LinkCablePacket) : string * Fields :=
  ("linkCablePacket"%string,
   [field "packet" LinkCablePacket_json packet]).

Definition server_snapshot_chunk (room_epoch session_epoch : N)
    (chunk : Protocol.SnapshotChunk) : string * Fields :=
  ("snapshotChunk"%string,
   [field "roomEpoch" u64 room_epoch;
    field "sessionEpoch" u64 session_epoch;
    field "chunk" SnapshotChunk_json chunk]).

Definition server_snapshot_complete (room_epoch session_epoch : N)
    (manifest : SnapshotManifest) : string * Fields :=
  ("snapshotComplete"%string,
   [field "roomEpoch" u64 room_epoch;
    field "sessionEpoch" u64 session_epoch;
    field "manifest" SnapshotManifest_json manifest]).

Definition server_snapshot_file_relay_upload_granted (room_epoch session_epoch : N)
    (grant : SnapshotFileRelayGrant) : string * Fields :=
  ("snapshotFileRelayUploadGranted"%string,
   [field "roomEpoch" u64 room_epoch;
    field "sessionEpoch" u64 session_epoch;
    field "grant" SnapshotFileRelayGrant_json grant]).

Definition server_snapshot_file_relay_download_ready (room_epoch session_epoch : N)
    (grant : SnapshotFileRelayGrant) : string * Fields :=
  ("snapshotFileRelayDownloadReady"%string,
   [field "roomEpoch" u64 room_epoch;
    field "sessionEpoch" u64 session_epoch;
    field "grant" SnapshotFileRelayGrant_json grant]).

Definition server_rom_relay_grant_upload (room_epoch session_epoch : N)
    (grant : RomRelayGrant) : string * Fields :=
  ("romRelay.grantUpload"%string,
   [field "roomEpoch" u64 room_epoch;
    field "sessionEpoch" u64 session_epoch;
    field "grant" RomRelayGrant_json grant]).

Definition server_rom_relay_grant_download (room_epoch session_epoch : N)
    (grant : RomRelayGrant) : string * Fields :=
  ("romRelay.grantDownload"%string,
   [field "roomEpoch" u64 room_epoch;
    field "sessionEpoch" u64 session_epoch;
    field "grant" RomRelayGrant_json grant]).

Definition server_rom_relay_progress (room_epoch session_epoch : N)
    (progress : Protocol.RomRelayProgress) : string * Fields :=
  ("romRelay.progress"%string,
   [field "roomEpoch" u64 room_epoch;
    field "sessionEpoch" u64 session_epoch;
    field "progress" RomRelayProgress_json progress]).

Definition server_rom_relay_completed (room_epoch session_epoch : N)
    (completion : RomRelayCompletion) : string * Fields :=
  ("romRelay.completed"%string,
   [field "roomEpoch" u64 room_epoch;
    field "sessionEpoch" u64 session_epoch;
    field "completion" RomRelayCompletion_json completion]).

Definition server_rom_relay_failed (room_epoch session_epoch : N)
    (failure : RomRelayFailure) : string * Fields :=
  ("romRelay.failed"%string,
   [field "roomEpoch" u64 room_epoch;
    field "sessionEpoch" u64 session_epoch;
    field "failure" RomRelayFailure_json failure]).

Definition server_rom_relay_blocked (room_epoch session_epoch : N)
    (blocked : Messages.RomRelayBlocked) : string * Fields :=
  ("romRelay.blocked"%string,
   [field "roomEpoch" u64 room_epoch;
    field "sessionEpoch" u64 session_epoch;
    field "blocked" RomRelayBlocked_json blocked]).

Definition server_rom_relay_cancelled (room_epoch session_epoch : N)
    (cancelled : Protocol.RomRelayCancelled) : string * Fields :=
  ("romRelay.cancelled"%string,
   [field "roomEpoch" u64 room_epoch;
    field "sessionEpoch" u64 session_epoch;
    field "cancelled" RomRelayCancelled_json cancelled]).

Definition server_session_pause_scheduled (event_seq room_epoch session_epoch : N)
    (pause : SessionPauseView) (room : RoomView) : string * Fields :=
  ("sessionPauseScheduled"%string,
   [field "eventSeq" u64 event_seq;
    field "roomEpoch" u64 room_epoch;
    field "sessionEpoch" u64 session_epoch;
    field "pause" SessionPauseView_json pause;
    field "room" RoomView_json room]).

Definition server_session_pause_updated (event_seq room_epoch session_epoch : N)
    (pause : SessionPauseView) (room : RoomView) : string * Fields :=
  ("sessionPauseUpdated"%string,
   [field "eventSeq" u64 event_seq;
    field "roomEpoch" u64 room_epoch;
    field "sessionEpoch" u64 session_epoch;
    field "pause" SessionPauseView_json pause;
    field "room" RoomView_json room]).

Definition server_session_resume_scheduled
    (event_seq room_epoch session_epoch sequence resume_at_frame : N) (scheduled_start : option ScheduledSessionStart) (room : RoomView) : string * Fields :=
  ("sessionResumeScheduled"%string,
   [field "eventSeq" u64 event_seq;
    field "roomEpoch" u64 room_epoch;
    field "sessionEpoch" u64 session_epoch;
    field "sequence" u64 sequence;
    field "resumeAtFrame" u64 resume_at_frame;
    field_opt "scheduledStart" ScheduledSessionStart_json scheduled_start;
    field "room" RoomView_json room]).

Definition server_compatibility_requested (event_seq room_epoch session_epoch : N)
    (room : RoomView) : string * Fields :=
  ("compatibilityRequested"%string,
   [field "eventSeq" u64 event_seq;
    field "roomEpoch" u64 room_epoch;
    field "sessionEpoch" u64 session_epoch;
    field "room" RoomView_json room]).

Definition server_recovery_started (event_seq room_epoch session_epoch : N)
    (room : RoomView) : string * Fields :=
  ("recoveryStarted"%string,
   [field "eventSeq" u64 event_seq;
    field "roomEpoch" u64 room_epoch;
    field "sessionEpoch" u64 session_epoch;
    field "room" RoomView_json room]).

Definition server_player_reconnected (event_seq room_epoch session_epoch player_index : N)
    (room : RoomView) : string * Fields :=
  ("playerReconnected"%string,
   [field "eventSeq" u64 event_seq;
    field "roomEpoch" u64 room_epoch;
    field "sessionEpoch" u64 session_epoch;
    field "playerIndex" u8 player_index;
    field "room" RoomView_json room]).

Definition server_player_exited (event_seq room_epoch session_epoch player_index : N) (reason : string)
    (room : RoomView) : string * Fields :=
  ("playerExited"%string,
   [field "eventSeq" u64 event_seq;
    field "roomEpoch" u64 room_epoch;
    field "sessionEpoch" u64 session_epoch;
    field "playerIndex" u8 player_index;
    field "reason" text reason;
    field "room" RoomView_json room]).

Definition server_voice_token_refreshed (event_seq room_epoch session_epoch : N)
    (voice : PlayerVoiceJoinGrant) : string * Fields :=
  ("voiceTokenRefreshed"%string,
   [field "eventSeq" u64 event_seq;
    field "roomEpoch" u64 room_epoch;
    field "sessionEpoch" u64 session_epoch;
    field "voice" PlayerVoiceJoinGrant_json voice]).

Definition server_recovery_resync_required (event_seq room_epoch session_epoch : N)
    (room : RoomView) : string * Fields :=
  ("recoveryResyncRequired"%string,
   [field "eventSeq" u64 event_seq;
    field "roomEpoch" u64 room_epoch;
    field "sessionEpoch" u64 session_epoch;
    field "room" RoomView_json room]).

Definition server_state_hash_mismatch (event_seq room_epoch session_epoch : N)
    (mismatch : StateHashMismatchView) (room : RoomView) : string * Fields :=
  ("stateHashMismatch"%string,
   [field "eventSeq" u64 event_seq;
    field "roomEpoch" u64 room_epoch;
    field "sessionEpoch" u64 session_epoch;
    field "mismatch" StateHashMismatchView_json mismatch;
    field "room" RoomView_json room]).

Definition server_state_recovery_prepare (event_seq room_epoch session_epoch : N)
    (recovery : StateRecoveryView) (room : RoomView) : string * Fields :=
  ("stateRecoveryPrepare"%string,
   [field "eventSeq" u64 event_seq;
    field "roomEpoch" u64 room_epoch;
    field "sessionEpoch" u64 session_epoch;
    field "recovery" StateRecoveryView_json recovery;
    field "room" RoomView_json room]).

Definition server_state_recovery_committed (event_seq room_epoch session_epoch : N)
    (recovery : StateRecoveryView) (room : RoomView) : string * Fields :=
  ("stateRecoveryCommitted"%string,
   [field "eventSeq" u64 event_seq;
    field "roomEpoch" u64 room_epoch;
    field "sessionEpoch" u64 session_epoch;
    field "recovery" StateRecoveryView_json recovery;
    field "room" RoomView_json room]).

Definition server_state_recovery_failed (event_seq room_epoch session_epoch : N)
    (recovery : StateRecoveryView) (reason : string) (room : RoomView) : string * Fields :=
  ("stateRecoveryFailed"%string,
   [field "eventSeq" u64 event_seq;
    field "roomEpoch" u64 room_epoch;
    field "sessionEpoch" u64 session_epoch;
    field "recovery" StateRecoveryView_json recovery;
    field "reason" text reason;
    field "room" RoomView_json room]).

Definition server_input_delay_changed (event_seq room_epoch session_epoch : N)
    (change : InputDelayChange) (room : RoomView) : string * Fields :=
  ("inputDelayChanged"%string,
   [field "eventSeq" u64 event_seq;
    field "roomEpoch" u64 room_epoch;
    field "sessionEpoch" u64 session_epoch;
    field "change" InputDelayChange_json change;
    field "room" RoomView_json room]).

Definition server_heartbeat_ack (event_seq room_epoch session_epoch : N) : string * Fields :=
  ("heartbeatAck"%string,
   [field "eventSeq" u64 event_seq;
    field "roomEpoch" u64 room_epoch;
    field "sessionEpoch" u64 session_epoch]).

Definition server_error (code message : string) : string * Fields :=
  ("error"%string,
   [field "code" text code;
    field "message" text message]).

Definition server_variant (message : Server.ServerMessage) : string * Fields :=
  match message with
  | Server.RoomJoined event_seq room_epoch session_epoch your_player_index resume_token input_socket_token voice room =>
      server_room_joined event_seq room_epoch session_epoch your_player_index resume_token input_socket_token voice room
  | Server.RoomStateChanged event_seq room_epoch session_epoch room =>
      server_room_state_changed event_seq room_epoch session_epoch room
  | Server.Pong => server_pong
  | Server.ClockSyncSampleRequested room_epoch session_epoch request =>
      server_clock_sync_sample_requested room_epoch session_epoch request
  | Server.ClockSyncPong pong => server_clock_sync_pong pong
  | Server.StartSession event_seq room_epoch session_epoch start_frame scheduled_start room =>
      server_start_session event_seq room_epoch session_epoch start_frame scheduled_start room
  | Server.InputFrame room_epoch session_epoch input => server_input_frame room_epoch session_epoch input
  | Server.LinkCablePacket packet => server_link_cable_packet packet
  | Server.SnapshotChunk room_epoch session_epoch chunk => server_snapshot_chunk room_epoch session_epoch chunk
  | Server.SnapshotComplete room_epoch session_epoch manifest =>
      server_snapshot_complete room_epoch session_epoch manifest
  | Server.SnapshotFileRelayUploadGranted room_epoch session_epoch grant =>
      server_snapshot_file_relay_upload_granted room_epoch session_epoch grant
  | Server.SnapshotFileRelayDownloadReady room_epoch session_epoch grant =>
      server_snapshot_file_relay_download_ready room_epoch session_epoch grant
  | Server.RomRelayGrantUpload room_epoch session_epoch grant =>
      server_rom_relay_grant_upload room_epoch session_epoch grant
  | Server.RomRelayGrantDownload room_epoch session_epoch grant =>
      server_rom_relay_grant_download room_epoch session_epoch grant
  | Server.RomRelayProgress room_epoch session_epoch progress =>
      server_rom_relay_progress room_epoch session_epoch progress
  | Server.RomRelayCompleted room_epoch session_epoch completion =>
      server_rom_relay_completed room_epoch session_epoch completion
  | Server.RomRelayFailed room_epoch session_epoch failure =>
      server_rom_relay_failed room_epoch session_epoch failure
  | Server.RomRelayBlocked room_epoch session_epoch blocked =>
      server_rom_relay_blocked room_epoch session_epoch blocked
  | Server.RomRelayCancelled room_epoch session_epoch cancelled =>
      server_rom_relay_cancelled room_epoch session_epoch cancelled
  | Server.SessionPauseScheduled event_seq room_epoch session_epoch pause room =>
      server_session_pause_scheduled event_seq room_epoch session_epoch pause room
  | Server.SessionPauseUpdated event_seq room_epoch session_epoch pause room =>
      server_session_pause_updated event_seq room_epoch session_epoch pause room
  | Server.SessionResumeScheduled event_seq room_epoch session_epoch sequence resume_at_frame scheduled_start room =>
      server_session_resume_scheduled event_seq room_epoch session_epoch sequence resume_at_frame scheduled_start room
  | Server.CompatibilityRequested event_seq room_epoch session_epoch room =>
      server_compatibility_requested event_seq room_epoch session_epoch room
  | Server.RecoveryStarted event_seq room_epoch session_epoch room =>
      server_recovery_started event_seq room_epoch session_epoch room
  | Server.PlayerReconnected event_seq room_epoch session_epoch player_index room =>
      server_player_reconnected event_seq room_epoch session_epoch player_index room
  | Server.PlayerExited event_seq room_epoch session_epoch player_index reason room =>
      server_player_exited event_seq room_epoch session_epoch player_index reason room
  | Server.VoiceTokenRefreshed event_seq room_epoch session_epoch voice =>
      server_voice_token_refreshed event_seq room_epoch session_epoch voice
  | Server.RecoveryResyncRequired event_seq room_epoch session_epoch room =>
      server_recovery_resync_required event_seq room_epoch session_epoch room
  | Server.StateHashMismatch event_seq room_epoch session_epoch mismatch room =>
      server_state_hash_mismatch event_seq room_epoch session_epoch mismatch room
  | Server.StateRecoveryPrepare event_seq room_epoch session_epoch recovery room =>
      server_state_recovery_prepare event_seq room_epoch session_epoch recovery room
  | Server.StateRecoveryCommitted event_seq room_epoch session_epoch recovery room =>
      server_state_recovery_committed event_seq room_epoch session_epoch recovery room
  | Server.StateRecoveryFailed event_seq room_epoch session_epoch recovery reason room =>
      server_state_recovery_failed event_seq room_epoch session_epoch recovery reason room
  | Server.InputDelayChanged event_seq room_epoch session_epoch change room =>
      server_input_delay_changed event_seq room_epoch session_epoch change room
  | Server.HeartbeatAck event_seq room_epoch session_epoch =>
      server_heartbeat_ack event_seq room_epoch session_epoch
  | Server.Error code message => server_error code message
  end.
Definition encode_server_message (message : Server.ServerMessage) : Value := tagged (server_variant message).1 (server_variant message).2.

(** ** lobby_messages.rs *)

Definition read_lobby_ping : Reader LobbyClient.LobbyClientMessage := mret LobbyClient.Ping.

Definition read_lobby_select_game : Reader LobbyClient.LobbyClientMessage :=
  lobby_epoch ← read "lobbyEpoch" u64;
  game ← read "game" LobbyGameCandidate_json;
  mret (LobbyClient.SelectGame lobby_epoch game).

Definition read_lobby_set_game_readiness : Reader LobbyClient.LobbyClientMessage :=
  lobby_epoch ← read "lobbyEpoch" u64;
  proposal_id ← read "proposalId" uuid;
  status ← read "status" LobbyGameReadinessStatus_json;
  detail ← read_option "detail" text;
  mret (LobbyClient.SetGameReadiness lobby_epoch proposal_id status detail).

Definition read_lobby_launch_game : Reader LobbyClient.LobbyClientMessage :=
  lobby_epoch ← read "lobbyEpoch" u64;
  proposal_id ← read "proposalId" uuid;
  mret (LobbyClient.LaunchGame lobby_epoch proposal_id).

Definition read_lobby_request_rom_transfer : Reader LobbyClient.LobbyClientMessage :=
  lobby_epoch ← read "lobbyEpoch" u64;
  proposal_id ← read "proposalId" uuid;
  receiver_player_index ← read "receiverPlayerIndex" u8;
  mret (LobbyClient.RequestRomTransfer lobby_epoch proposal_id receiver_player_index).

Definition read_lobby_request_startup_state_transfer : Reader LobbyClient.LobbyClientMessage :=
  lobby_epoch ← read "lobbyEpoch" u64;
  proposal_id ← read "proposalId" uuid;
  receiver_player_index ← read "receiverPlayerIndex" u8;
  state ← read "state" LobbyStartupStateTransferMetadata_json;
  mret (LobbyClient.RequestStartupStateTransfer lobby_epoch proposal_id receiver_player_index state).

Definition read_lobby_publish_game_room : Reader LobbyClient.LobbyClientMessage :=
  lobby_epoch ← read "lobbyEpoch" u64;
  proposal_id ← read "proposalId" uuid;
  room_invite_code ← read "roomInviteCode" text;
  mret (LobbyClient.PublishGameRoom lobby_epoch proposal_id room_invite_code).

Definition read_lobby_gameplay_started : Reader LobbyClient.LobbyClientMessage :=
  lobby_epoch ← read "lobbyEpoch" u64;
  proposal_id ← read "proposalId" uuid;
  mret (LobbyClient.GameplayStarted lobby_epoch proposal_id).

Definition read_lobby_return_to_lobby : Reader LobbyClient.LobbyClientMessage :=
  lobby_epoch ← read "lobbyEpoch" u64;
  proposal_id ← read "proposalId" uuid;
  return_requested_by_player_index ← read_default "returnRequestedByPlayerIndex" (optional u8) None;
  reason ← read_default "reason" (optional LobbyReturnReason_json) None;
  mret (LobbyClient.ReturnToLobby lobby_epoch proposal_id return_requested_by_player_index reason).

Definition read_lobby_chat : Reader LobbyClient.LobbyClientMessage :=
  lobby_epoch ← read "lobbyEpoch" u64;
  body ← read "body" text;
  mret (LobbyClient.Chat lobby_epoch body).

Definition read_lobby_refresh_voice_token : Reader LobbyClient.LobbyClientMessage :=
  lobby_epoch ← read "lobbyEpoch" u64;
  mret (LobbyClient.RefreshVoiceToken lobby_epoch).

Definition read_lobby_remove_player : Reader LobbyClient.LobbyClientMessage :=
  lobby_epoch ← read "lobbyEpoch" u64;
  player_index ← read "playerIndex" u8;
  mret (LobbyClient.RemovePlayer lobby_epoch player_index).

Definition read_lobby_report_activity : Reader LobbyClient.LobbyClientMessage :=
  lobby_epoch ← read "lobbyEpoch" u64;
  kind ← read "kind" LobbyActivityKind_json;
  mret (LobbyClient.ReportActivity lobby_epoch kind).

Definition read_lobby_leave : Reader LobbyClient.LobbyClientMessage :=
  lobby_epoch ← read "lobbyEpoch" u64;
  reason ← read_option "reason" text;
  mret (LobbyClient.Leave lobby_epoch reason).

Definition lobby_client_variants : list (string * Reader LobbyClient.LobbyClientMessage) :=
  [("ping", read_lobby_ping);
   ("selectGame", read_lobby_select_game);
   ("setGameReadiness", read_lobby_set_game_readiness);
   ("launchGame", read_lobby_launch_game);
   ("requestRomTransfer", read_lobby_request_rom_transfer);
   ("requestStartupStateTransfer", read_lobby_request_startup_state_transfer);
   ("publishGameRoom", read_lobby_publish_game_room);
   ("gameplayStarted", read_lobby_gameplay_started);
   ("returnToLobby", read_lobby_return_to_lobby);
   ("chat", read_lobby_chat);
   ("refreshVoiceToken", read_lobby_refresh_voice_token);
   ("removePlayer", read_lobby_remove_player);
   ("reportActivity", read_lobby_report_activity);
   ("leave", read_lobby_leave)]%string.
Definition decode_lobby_message : Value → option LobbyClient.LobbyClientMessage := read_tagged lobby_client_variants.

Definition lobby_server_pong : string * Fields := ("pong"%string, []).

Definition lobby_server_lobby_joined (event_seq lobby_epoch your_player_index : N)
    (resume_token : string) (lobby : LobbyView) (voice : option PlayerVoiceJoinGrant) : string * Fields :=
  ("lobbyJoined"%string,
   [field "eventSeq" u64 event_seq;
    field "lobbyEpoch" u64 lobby_epoch;
    field "yourPlayerIndex" u8 your_player_index;
    field "resumeToken" text resume_token;
    field "lobby" LobbyView_json lobby;
    field_opt "voice" PlayerVoiceJoinGrant_json voice]).

Definition lobby_server_lobby_state_changed (event_seq lobby_epoch : N) (lobby : LobbyView) : string * Fields :=
  ("lobbyStateChanged"%string,
   [field "eventSeq" u64 event_seq;
    field "lobbyEpoch" u64 lobby_epoch;
    field "lobby" LobbyView_json lobby]).

Definition lobby_server_lobby_returned (event_seq lobby_epoch : N) (returned : LobbyReturnedView)
    (lobby : LobbyView) : string * Fields :=
  ("lobbyReturned"%string,
   [field "eventSeq" u64 event_seq;
    field "lobbyEpoch" u64 lobby_epoch;
    field "returned" LobbyReturnedView_json returned;
    field "lobby" LobbyView_json lobby]).

Definition lobby_server_chat_message (message : LobbyChatMessageView) : string * Fields :=
  ("chatMessage"%string,
   [field "message" LobbyChatMessageView_json message]).

Definition lobby_server_rom_transfer_upload_granted (lobby_epoch : N)
    (grant : LobbyFileRelayGrant) : string * Fields :=
  ("romTransferUploadGranted"%string,
   [field "lobbyEpoch" u64 lobby_epoch;
    field "grant" LobbyFileRelayGrant_json grant]).

Definition lobby_server_rom_transfer_download_ready (lobby_epoch : N)
    (grant : LobbyFileRelayGrant) : string * Fields :=
  ("romTransferDownloadReady"%string,
   [field "lobbyEpoch" u64 lobby_epoch;
    field "grant" LobbyFileRelayGrant_json grant]).

Definition lobby_server_startup_state_transfer_upload_granted (lobby_epoch : N)
    (grant : LobbyFileRelayGrant) : string * Fields :=
  ("startupStateTransferUploadGranted"%string,
   [field "lobbyEpoch" u64 lobby_epoch;
    field "grant" LobbyFileRelayGrant_json grant]).

Definition lobby_server_startup_state_transfer_download_ready (lobby_epoch : N)
    (grant : LobbyFileRelayGrant) : string * Fields :=
  ("startupStateTransferDownloadReady"%string,
   [field "lobbyEpoch" u64 lobby_epoch;
    field "grant" LobbyFileRelayGrant_json grant]).

Definition lobby_server_voice_token_refreshed (event_seq lobby_epoch : N)
    (voice : PlayerVoiceJoinGrant) : string * Fields :=
  ("voiceTokenRefreshed"%string,
   [field "eventSeq" u64 event_seq;
    field "lobbyEpoch" u64 lobby_epoch;
    field "voice" PlayerVoiceJoinGrant_json voice]).

Definition lobby_server_player_removed (event_seq lobby_epoch player_index : N)
    (reason : LobbyPlayerRemovalReason) (lobby : LobbyView) : string * Fields :=
  ("playerRemoved"%string,
   [field "eventSeq" u64 event_seq;
    field "lobbyEpoch" u64 lobby_epoch;
    field "playerIndex" u8 player_index;
    field "reason" LobbyPlayerRemovalReason_json reason;
    field "lobby" LobbyView_json lobby]).

Definition lobby_server_lobby_closed (event_seq lobby_epoch : N) (reason : string)
    (lobby : LobbyView) : string * Fields :=
  ("lobbyClosed"%string,
   [field "eventSeq" u64 event_seq;
    field "lobbyEpoch" u64 lobby_epoch;
    field "reason" text reason;
    field "lobby" LobbyView_json lobby]).

Definition lobby_server_error (code message : string) : string * Fields :=
  ("error"%string,
   [field "code" text code;
    field "message" text message]).

Definition lobby_server_variant (message : LobbyServer.LobbyServerMessage) : string * Fields :=
  match message with
  | LobbyServer.Pong => lobby_server_pong
  | LobbyServer.LobbyJoined event_seq lobby_epoch your_player_index resume_token lobby voice =>
      lobby_server_lobby_joined event_seq lobby_epoch your_player_index resume_token lobby voice
  | LobbyServer.LobbyStateChanged event_seq lobby_epoch lobby =>
      lobby_server_lobby_state_changed event_seq lobby_epoch lobby
  | LobbyServer.LobbyReturned event_seq lobby_epoch returned lobby =>
      lobby_server_lobby_returned event_seq lobby_epoch returned lobby
  | LobbyServer.ChatMessage message => lobby_server_chat_message message
  | LobbyServer.RomTransferUploadGranted lobby_epoch grant =>
      lobby_server_rom_transfer_upload_granted lobby_epoch grant
  | LobbyServer.RomTransferDownloadReady lobby_epoch grant =>
      lobby_server_rom_transfer_download_ready lobby_epoch grant
  | LobbyServer.StartupStateTransferUploadGranted lobby_epoch grant =>
      lobby_server_startup_state_transfer_upload_granted lobby_epoch grant
  | LobbyServer.StartupStateTransferDownloadReady lobby_epoch grant =>
      lobby_server_startup_state_transfer_download_ready lobby_epoch grant
  | LobbyServer.VoiceTokenRefreshed event_seq lobby_epoch voice =>
      lobby_server_voice_token_refreshed event_seq lobby_epoch voice
  | LobbyServer.PlayerRemoved event_seq lobby_epoch player_index reason lobby =>
      lobby_server_player_removed event_seq lobby_epoch player_index reason lobby
  | LobbyServer.LobbyClosed event_seq lobby_epoch reason lobby =>
      lobby_server_lobby_closed event_seq lobby_epoch reason lobby
  | LobbyServer.Error code message => lobby_server_error code message
  end.
Definition encode_lobby_message (message : LobbyServer.LobbyServerMessage) : Value := tagged (lobby_server_variant message).1 (lobby_server_variant message).2.

End messages.
