(* ===== verification/JsonGuarantees.v ===== *)
(** * What the JSON layer guarantees

  The theorems about messages as documents: which client messages can arrive at all, that a payload
  passed on between players reads the same at the other end, that numbers fit their width and that
  no two server messages look the same. The [.._document] functions are the reference: what a
  client writes for a message, with every field in place. *)

From Stdlib Require Import Strings.Byte.
From S2P Require Import Prelude Ids Wire Text Compatibility Descriptor Protocol Slots RoomTransactions Room StartSync InputRelay HostFrame SnapshotOps LinkOps System FrameInvariant.
From S2P Require Import RoomEvents StoredRoom Registry RegistryRelay RegistryGuarantees.
From S2P Require Import Lobby LobbyEvents LobbyRegistry FileRelay Messages LobbySocket Parse Auth Json JsonPayloads JsonViews JsonMessages.
Open Scope N_scope.

Section reference.
Context `{SerdeLib}.

(** Every part of a message is one that some document is read as: numbers are within their width,
    identifiers are UUIDs. *)
Definition client_parts (message : Client.ClientMessage) : Prop :=
  match message with
  | Client.Ping => True
  | Client.ClockSyncPing ping => came_from ClockSyncPing_json ping
  | Client.ClockSyncSample room_epoch session_epoch sample =>
      came_from u64 room_epoch ∧ came_from u64 session_epoch ∧ came_from ClockSyncSample_json sample
  | Client.SetCompatibilityFingerprint room_epoch session_epoch fingerprint =>
      came_from u64 room_epoch ∧ came_from u64 session_epoch ∧ came_from CompatibilityFingerprint_json fingerprint
  | Client.SetLinkCableCompatibility room_epoch session_epoch compatibility =>
      came_from u64 room_epoch ∧ came_from u64 session_epoch ∧ came_from LinkCableCompatibility_json compatibility
  | Client.Ready room_epoch session_epoch network =>
      came_from u64 room_epoch ∧ came_from u64 session_epoch ∧
      came_from (optional ClientNetworkQualityReport_json) network
  | Client.DeterministicReady room_epoch session_epoch report network =>
      came_from u64 room_epoch ∧ came_from u64 session_epoch ∧ came_from DeterministicReadyReport_json report ∧
      came_from (optional ClientNetworkQualityReport_json) network
  | Client.SnapshotChunk room_epoch session_epoch chunk =>
      came_from u64 room_epoch ∧ came_from u64 session_epoch ∧ came_from SnapshotChunk_json chunk
  | Client.SnapshotComplete room_epoch session_epoch manifest =>
      came_from u64 room_epoch ∧ came_from u64 session_epoch ∧ came_from SnapshotManifest_json manifest
  | Client.SnapshotFileRelayRequested room_epoch session_epoch manifest =>
      came_from u64 room_epoch ∧ came_from u64 session_epoch ∧ came_from SnapshotManifest_json manifest
  | Client.SnapshotFileRelayUploadComplete room_epoch session_epoch transfer_id manifest =>
      came_from u64 room_epoch ∧ came_from u64 session_epoch ∧ came_from text transfer_id ∧
      came_from SnapshotManifest_json manifest
  | Client.RomRelayRequest room_epoch session_epoch =>
      came_from u64 room_epoch ∧ came_from u64 session_epoch
  | Client.RomRelayProgress room_epoch session_epoch progress =>
      came_from u64 room_epoch ∧ came_from u64 session_epoch ∧ came_from RomRelayProgress_json progress
  | Client.RomRelayCompleted room_epoch session_epoch completion =>
      came_from u64 room_epoch ∧ came_from u64 session_epoch ∧ came_from RomRelayCompletion_json completion
  | Client.RomRelayFailed room_epoch session_epoch failure =>
      came_from u64 room_epoch ∧ came_from u64 session_epoch ∧ came_from RomRelayFailure_json failure
  | Client.RomRelayCancelled room_epoch session_epoch cancelled =>
      came_from u64 room_epoch ∧ came_from u64 session_epoch ∧ came_from RomRelayCancelled_json cancelled
  | Client.InputFrame room_epoch session_epoch input =>
      came_from u64 room_epoch ∧ came_from u64 session_epoch ∧ came_from InputFrame_json input
  | Client.LinkCablePacket room_epoch session_epoch packet =>
      came_from u64 room_epoch ∧ came_from u64 session_epoch ∧ came_from LinkCablePacket_json packet
  | Client.Heartbeat room_epoch session_epoch latest_event_seq local_frame runtime_state network =>
      came_from u64 room_epoch ∧ came_from u64 session_epoch ∧ came_from u64 latest_event_seq ∧
      came_from (optional u64) local_frame ∧ came_from ClientRuntimeState_json runtime_state ∧
      came_from (optional ClientNetworkQualityReport_json) network
  | Client.RequestSessionPause room_epoch session_epoch request_id reason local_frame =>
      came_from u64 room_epoch ∧ came_from u64 session_epoch ∧ came_from text request_id ∧
      came_from SessionPauseReason_json reason ∧ came_from u64 local_frame
  | Client.SessionPauseReached room_epoch session_epoch sequence paused_at_frame =>
      came_from u64 room_epoch ∧ came_from u64 session_epoch ∧ came_from u64 sequence ∧ came_from u64 paused_at_frame
  | Client.RequestSessionResume room_epoch session_epoch request_id sequence reason =>
      came_from u64 room_epoch ∧ came_from u64 session_epoch ∧ came_from text request_id ∧
      came_from u64 sequence ∧ came_from SessionPauseReason_json reason
  | Client.PlayerExited room_epoch session_epoch reason =>
      came_from u64 room_epoch ∧ came_from u64 session_epoch ∧ came_from text reason
  | Client.RefreshVoiceToken room_epoch session_epoch =>
      came_from u64 room_epoch ∧ came_from u64 session_epoch
  | Client.StateHash room_epoch session_epoch report =>
      came_from u64 room_epoch ∧ came_from u64 session_epoch ∧ came_from StateHashReport_json report
  | Client.StateRecoveryPinned room_epoch session_epoch pin =>
      came_from u64 room_epoch ∧ came_from u64 session_epoch ∧ came_from StateRecoveryPin_json pin
  end.

Definition lobby_client_parts (message : LobbyClient.LobbyClientMessage) : Prop :=
  match message with
  | LobbyClient.Ping => True
  | LobbyClient.SelectGame lobby_epoch game =>
      came_from u64 lobby_epoch ∧ came_from LobbyGameCandidate_json game
  | LobbyClient.SetGameReadiness lobby_epoch proposal_id status detail =>
      came_from u64 lobby_epoch ∧ came_from uuid proposal_id ∧ came_from LobbyGameReadinessStatus_json status ∧
      came_from (optional text) detail
  | LobbyClient.LaunchGame lobby_epoch proposal_id =>
      came_from u64 lobby_epoch ∧ came_from uuid proposal_id
  | LobbyClient.RequestRomTransfer lobby_epoch proposal_id receiver_player_index =>
      came_from u64 lobby_epoch ∧ came_from uuid proposal_id ∧ came_from u8 receiver_player_index
  | LobbyClient.RequestStartupStateTransfer lobby_epoch proposal_id receiver_player_index state =>
      came_from u64 lobby_epoch ∧ came_from uuid proposal_id ∧ came_from u8 receiver_player_index ∧
      came_from LobbyStartupStateTransferMetadata_json state
  | LobbyClient.PublishGameRoom lobby_epoch proposal_id room_invite_code =>
      came_from u64 lobby_epoch ∧ came_from uuid proposal_id ∧ came_from text room_invite_code
  | LobbyClient.GameplayStarted lobby_epoch proposal_id =>
      came_from u64 lobby_epoch ∧ came_from uuid proposal_id
  | LobbyClient.ReturnToLobby lobby_epoch proposal_id return_requested_by_player_index reason =>
      came_from u64 lobby_epoch ∧ came_from uuid proposal_id ∧
      came_from (optional u8) return_requested_by_player_index ∧ came_from (optional LobbyReturnReason_json) reason
  | LobbyClient.Chat lobby_epoch body =>
      came_from u64 lobby_epoch ∧ came_from text body
  | LobbyClient.RefreshVoiceToken lobby_epoch => came_from u64 lobby_epoch
  | LobbyClient.RemovePlayer lobby_epoch player_index =>
      came_from u64 lobby_epoch ∧ came_from u8 player_index
  | LobbyClient.ReportActivity lobby_epoch kind =>
      came_from u64 lobby_epoch ∧ came_from LobbyActivityKind_json kind
  | LobbyClient.Leave lobby_epoch reason =>
      came_from u64 lobby_epoch ∧ came_from (optional text) reason
  end.

(** What a client writes for a message. *)
Definition client_document (message : Client.ClientMessage) : Value :=
  match message with
  | Client.Ping => tagged "ping" []
  | Client.ClockSyncPing ping =>
      tagged "clockSyncPing" [field "ping" ClockSyncPing_json ping]
  | Client.ClockSyncSample room_epoch session_epoch sample =>
      tagged "clockSyncSample" [field "roomEpoch" u64 room_epoch;
        field "sessionEpoch" u64 session_epoch;
        field "sample" ClockSyncSample_json sample]
  | Client.SetCompatibilityFingerprint room_epoch session_epoch fingerprint =>
      tagged "setCompatibilityFingerprint" [field "roomEpoch" u64 room_epoch;
        field "sessionEpoch" u64 session_epoch;
        field "fingerprint" CompatibilityFingerprint_json fingerprint]
  | Client.SetLinkCableCompatibility room_epoch session_epoch compatibility =>
      tagged "setLinkCableCompatibility" [field "roomEpoch" u64 room_epoch;
        field "sessionEpoch" u64 session_epoch;
        field "compatibility" LinkCableCompatibility_json compatibility]
  | Client.Ready room_epoch session_epoch network =>
      tagged "ready" [field "roomEpoch" u64 room_epoch;
        field "sessionEpoch" u64 session_epoch;
        field "network" (optional ClientNetworkQualityReport_json) network]
  | Client.DeterministicReady room_epoch session_epoch report network =>
      tagged "deterministicReady" [field "roomEpoch" u64 room_epoch;
        field "sessionEpoch" u64 session_epoch;
        field "report" DeterministicReadyReport_json report;
        field "network" (optional ClientNetworkQualityReport_json) network]
  | Client.SnapshotChunk room_epoch session_epoch chunk =>
      tagged "snapshotChunk" [field "roomEpoch" u64 room_epoch;
        field "sessionEpoch" u64 session_epoch;
        field "chunk" SnapshotChunk_json chunk]
  | Client.SnapshotComplete room_epoch session_epoch manifest =>
      tagged "snapshotComplete" [field "roomEpoch" u64 room_epoch;
        field "sessionEpoch" u64 session_epoch;
        field "manifest" SnapshotManifest_json manifest]
  | Client.SnapshotFileRelayRequested room_epoch session_epoch manifest =>
      tagged "snapshotFileRelayRequested" [field "roomEpoch" u64 room_epoch;
        field "sessionEpoch" u64 session_epoch;
        field "manifest" SnapshotManifest_json manifest]
  | Client.SnapshotFileRelayUploadComplete room_epoch session_epoch transfer_id manifest =>
      tagged "snapshotFileRelayUploadComplete" [field "roomEpoch" u64 room_epoch;
        field "sessionEpoch" u64 session_epoch;
        field "transferId" text transfer_id;
        field "manifest" SnapshotManifest_json manifest]
  | Client.RomRelayRequest room_epoch session_epoch =>
      tagged "romRelay.request" [field "roomEpoch" u64 room_epoch;
        field "sessionEpoch" u64 session_epoch]
  | Client.RomRelayProgress room_epoch session_epoch progress =>
      tagged "romRelay.progress" [field "roomEpoch" u64 room_epoch;
        field "sessionEpoch" u64 session_epoch;
        field "progress" RomRelayProgress_json progress]
  | Client.RomRelayCompleted room_epoch session_epoch completion =>
      tagged "romRelay.completed" [field "roomEpoch" u64 room_epoch;
        field "sessionEpoch" u64 session_epoch;
        field "completion" RomRelayCompletion_json completion]
  | Client.RomRelayFailed room_epoch session_epoch failure =>
      tagged "romRelay.failed" [field "roomEpoch" u64 room_epoch;
        field "sessionEpoch" u64 session_epoch;
        field "failure" RomRelayFailure_json failure]
  | Client.RomRelayCancelled room_epoch session_epoch cancelled =>
      tagged "romRelay.cancelled" [field "roomEpoch" u64 room_epoch;
        field "sessionEpoch" u64 session_epoch;
        field "cancelled" RomRelayCancelled_json cancelled]
  | Client.InputFrame room_epoch session_epoch input =>
      tagged "inputFrame" [field "roomEpoch" u64 room_epoch;
        field "sessionEpoch" u64 session_epoch;
        field "input" InputFrame_json input]
  | Client.LinkCablePacket room_epoch session_epoch packet =>
      tagged "linkCablePacket" [field "roomEpoch" u64 room_epoch;
        field "sessionEpoch" u64 session_epoch;
        field "packet" LinkCablePacket_json packet]
  | Client.Heartbeat room_epoch session_epoch latest_event_seq local_frame runtime_state network =>
      tagged "heartbeat" [field "roomEpoch" u64 room_epoch;
        field "sessionEpoch" u64 session_epoch;
        field "latestEventSeq" u64 latest_event_seq;
        field "localFrame" (optional u64) local_frame;
        field "runtimeState" ClientRuntimeState_json runtime_state;
        field "network" (optional ClientNetworkQualityReport_json) network]
  | Client.RequestSessionPause room_epoch session_epoch request_id reason local_frame =>
      tagged "requestSessionPause" [field "roomEpoch" u64 room_epoch;
        field "sessionEpoch" u64 session_epoch;
        field "requestId" text request_id;
        field "reason" SessionPauseReason_json reason;
        field "localFrame" u64 local_frame]
  | Client.SessionPauseReached room_epoch session_epoch sequence paused_at_frame =>
      tagged "sessionPauseReached" [field "roomEpoch" u64 room_epoch;
        field "sessionEpoch" u64 session_epoch;
        field "sequence" u64 sequence;
        field "pausedAtFrame" u64 paused_at_frame]
  | Client.RequestSessionResume room_epoch session_epoch request_id sequence reason =>
      tagged "requestSessionResume" [field "roomEpoch" u64 room_epoch;
        field "sessionEpoch" u64 session_epoch;
        field "requestId" text request_id;
        field "sequence" u64 sequence;
        field "reason" SessionPauseReason_json reason]
  | Client.PlayerExited room_epoch session_epoch reason =>
      tagged "playerExited" [field "roomEpoch" u64 room_epoch;
        field "sessionEpoch" u64 session_epoch;
        field "reason" text reason]
  | Client.RefreshVoiceToken room_epoch session_epoch =>
      tagged "refreshVoiceToken" [field "roomEpoch" u64 room_epoch;
        field "sessionEpoch" u64 session_epoch]
  | Client.StateHash room_epoch session_epoch report =>
      tagged "stateHash" [field "roomEpoch" u64 room_epoch;
        field "sessionEpoch" u64 session_epoch;
        field "report" StateHashReport_json report]
  | Client.StateRecoveryPinned room_epoch session_epoch pin =>
      tagged "stateRecoveryPinned" [field "roomEpoch" u64 room_epoch;
        field "sessionEpoch" u64 session_epoch;
        field "pin" StateRecoveryPin_json pin]
  end.

Definition lobby_client_document (message : LobbyClient.LobbyClientMessage) : Value :=
  match message with
  | LobbyClient.Ping => tagged "ping" []
  | LobbyClient.SelectGame lobby_epoch game =>
      tagged "selectGame" [field "lobbyEpoch" u64 lobby_epoch;
        field "game" LobbyGameCandidate_json game]
  | LobbyClient.SetGameReadiness lobby_epoch proposal_id status detail =>
      tagged "setGameReadiness" [field "lobbyEpoch" u64 lobby_epoch;
        field "proposalId" uuid proposal_id;
        field "status" LobbyGameReadinessStatus_json status;
        field "detail" (optional text) detail]
  | LobbyClient.LaunchGame lobby_epoch proposal_id =>
      tagged "launchGame" [field "lobbyEpoch" u64 lobby_epoch;
        field "proposalId" uuid proposal_id]
  | LobbyClient.RequestRomTransfer lobby_epoch proposal_id receiver_player_index =>
      tagged "requestRomTransfer" [field "lobbyEpoch" u64 lobby_epoch;
        field "proposalId" uuid proposal_id;
        field "receiverPlayerIndex" u8 receiver_player_index]
  | LobbyClient.RequestStartupStateTransfer lobby_epoch proposal_id receiver_player_index state =>
      tagged "requestStartupStateTransfer" [field "lobbyEpoch" u64 lobby_epoch;
        field "proposalId" uuid proposal_id;
        field "receiverPlayerIndex" u8 receiver_player_index;
        field "state" LobbyStartupStateTransferMetadata_json state]
  | LobbyClient.PublishGameRoom lobby_epoch proposal_id room_invite_code =>
      tagged "publishGameRoom" [field "lobbyEpoch" u64 lobby_epoch;
        field "proposalId" uuid proposal_id;
        field "roomInviteCode" text room_invite_code]
  | LobbyClient.GameplayStarted lobby_epoch proposal_id =>
      tagged "gameplayStarted" [field "lobbyEpoch" u64 lobby_epoch;
        field "proposalId" uuid proposal_id]
  | LobbyClient.ReturnToLobby lobby_epoch proposal_id return_requested_by_player_index reason =>
      tagged "returnToLobby" [field "lobbyEpoch" u64 lobby_epoch;
        field "proposalId" uuid proposal_id;
        field "returnRequestedByPlayerIndex" (optional u8) return_requested_by_player_index;
        field "reason" (optional LobbyReturnReason_json) reason]
  | LobbyClient.Chat lobby_epoch body =>
      tagged "chat" [field "lobbyEpoch" u64 lobby_epoch;
        field "body" text body]
  | LobbyClient.RefreshVoiceToken lobby_epoch =>
      tagged "refreshVoiceToken" [field "lobbyEpoch" u64 lobby_epoch]
  | LobbyClient.RemovePlayer lobby_epoch player_index =>
      tagged "removePlayer" [field "lobbyEpoch" u64 lobby_epoch;
        field "playerIndex" u8 player_index]
  | LobbyClient.ReportActivity lobby_epoch kind =>
      tagged "reportActivity" [field "lobbyEpoch" u64 lobby_epoch;
        field "kind" LobbyActivityKind_json kind]
  | LobbyClient.Leave lobby_epoch reason =>
      tagged "leave" [field "lobbyEpoch" u64 lobby_epoch;
        field "reason" (optional text) reason]
  end.
End reference.

(** ** Lemmas *)

Lemma read_tagged_written {A} (variants : list (string * Reader A)) tag r fs a :
  named variants tag = Some r → bool_decide ("type"%string ∉ fs.*1) = true →
  r (ByName (written fs)) = Some (a, ByName (written fs)) → read_tagged variants (tagged tag fs) = Some a.
Proof.
  intros Hr Hfs Ha. unfold read_tagged. rewrite tag_of_tagged by (by apply bool_decide_eq_true in Hfs). cbn.
  rewrite Hr. cbn. unfold finish. by rewrite Ha.
Qed.

Ltac find_variant := unfold named, client_variants, lobby_client_variants;
  cbn [List.find fst snd String.eqb Ascii.eqb Bool.eqb fmap option_fmap option_map]; reflexivity.
Ltac read_variant := eapply read_tagged_written; [find_variant|vm_compute; reflexivity|];
  match goal with |- ?r _ = _ => lazymatch r with ?h _ => unfold h | ?h => unfold h end end;
  repeat (etransitivity; [put_together|]); reflexivity.
Ltac each_variant H := repeat (apply elem_of_cons in H as [H|H];
  [injection H as -> ->|]); [..|by apply elem_of_nil in H].

Section laws.
Context `{SerdeLaws}.

Lemma decoded_parts doc m : decode_client_message doc = Some m → client_parts m.
Proof.
  intros (tag & r & src & src' & Hin & Hr)%read_tagged_inv. unfold client_variants in Hin. each_variant Hin.
  all: match type of Hr with ?r _ = _ => lazymatch r with ?h _ => unfold h in Hr | ?h => unfold h in Hr end end.
  all: take_apart Hr; injection Hr as <- _; cbn; split_and?; done.
Qed.

Lemma document_decodes m : client_parts m → decode_client_message (client_document m) = Some m.
Proof. destruct m; cbn [client_parts client_document]; intros Hp; destruct_and?; read_variant. Qed.

Lemma decoded_lobby_parts doc m : decode_lobby_message doc = Some m → lobby_client_parts m.
Proof.
  intros (tag & r & src & src' & Hin & Hr)%read_tagged_inv. unfold lobby_client_variants in Hin. each_variant Hin.
  all: match type of Hr with ?r _ = _ => lazymatch r with ?h _ => unfold h in Hr | ?h => unfold h in Hr end end.
  all: take_apart Hr; injection Hr as <- _; cbn; split_and?; done.
Qed.

Lemma lobby_document_decodes m : lobby_client_parts m → decode_lobby_message (lobby_client_document m) = Some m.
Proof. destruct m; cbn [lobby_client_parts lobby_client_document]; intros Hp; destruct_and?; read_variant. Qed.
End laws.

(** *** Server messages *)

(** Invite codes are bytes. *)
Definition plain (l : list N) : Prop := Forall (λ b, b < 256) l.
Definition room_plain (v : RoomView) : Prop := plain (rv_invite_code v).
Definition launch_plain (v : LobbyGameLaunchView) : Prop := ∀ l, launch_room_invite_code v = Some l → plain l.
Definition lobby_plain (v : LobbyView) : Prop :=
  plain (lv_invite_code v) ∧ ∀ launch, lv_pending_launch v = Some launch → launch_plain launch.
Definition server_plain (message : Server.ServerMessage) : Prop :=
  match message with
  | Server.RoomJoined _ _ _ _ _ _ _ v
  | Server.RoomStateChanged _ _ _ v
  | Server.StartSession _ _ _ _ _ v
  | Server.SessionPauseScheduled _ _ _ _ v
  | Server.SessionPauseUpdated _ _ _ _ v
  | Server.SessionResumeScheduled _ _ _ _ _ _ v
  | Server.CompatibilityRequested _ _ _ v
  | Server.RecoveryStarted _ _ _ v
  | Server.PlayerReconnected _ _ _ _ v
  | Server.PlayerExited _ _ _ _ _ v
  | Server.RecoveryResyncRequired _ _ _ v
  | Server.StateHashMismatch _ _ _ _ v
  | Server.StateRecoveryPrepare _ _ _ _ v
  | Server.StateRecoveryCommitted _ _ _ _ v
  | Server.StateRecoveryFailed _ _ _ _ _ v
  | Server.InputDelayChanged _ _ _ _ v
      => room_plain v
  | _ => True
  end.
Definition lobby_server_plain (message : LobbyServer.LobbyServerMessage) : Prop :=
  match message with
  | LobbyServer.LobbyJoined _ _ _ _ v _
  | LobbyServer.LobbyStateChanged _ _ v
  | LobbyServer.LobbyReturned _ _ _ v
  | LobbyServer.PlayerRemoved _ _ _ _ v
  | LobbyServer.LobbyClosed _ _ _ v
      => lobby_plain v
  | _ => True
  end.

Lemma ascii_same a b : plain a → plain b → enc ascii a = enc ascii b → a = b.
Proof. intros Ha Hb [= E]. by rewrite <-(bytes_of_string_of_bytes a), <-(bytes_of_string_of_bytes b), E. Qed.

Lemma struct_same {A} (fs : A → Fields) a b :
  (fs a).*1 = (fs b).*1 → keys_distinct (fs a) = true → object (fs a) = object (fs b) → fs a = fs b.
Proof. intros Hk Hd. apply object_fields; [done|]. by apply bool_decide_eq_true in Hd. Qed.

Lemma field_opt_same_on {A} (P : A → Prop) name (c : Codec A) a b :
  (∀ x y, P x → P y → enc c x = enc c y → x = y) → (∀ x, a = Some x → P x) → (∀ x, b = Some x → P x) →
  field_opt name c a = field_opt name c b → a = b.
Proof. intros Hc Ha Hb [= E]. destruct a as [x|], b as [y|]; try done. injection E as E. f_equal. by apply Hc; auto. Qed.

Lemma field_written {A} name (c : Codec A) a b : field name c a = field name c b → enc c a = enc c b.
Proof. by intros [= E]. Qed.

Section distinct.
Context `{SerdeLaws}.

Lemma RoomView_same a b : room_plain a → room_plain b → enc RoomView_json a = enc RoomView_json b → a = b.
Proof.
  intros Ha Hb E. apply (struct_same RoomView_fields) in E; [|reflexivity|vm_compute; reflexivity].
  unfold RoomView_fields in E. same_fields E. match goal with E : field _ ascii _ = _ |- _ => apply field_written, ascii_same in E; [|done..] end.
  destruct a, b; cbn in *; by subst.
Qed.

Lemma LobbyGameLaunchView_same a b :
  launch_plain a → launch_plain b → enc LobbyGameLaunchView_json a = enc LobbyGameLaunchView_json b → a = b.
Proof.
  intros Ha Hb E. apply (struct_same LobbyGameLaunchView_fields) in E; [|reflexivity|vm_compute; reflexivity].
  unfold LobbyGameLaunchView_fields in E. same_fields E.
  match goal with E : field_opt _ ascii _ = _ |- _ => apply (field_opt_same_on plain) in E; [|apply ascii_same|done|done] end.
  destruct a, b; cbn in *; by subst.
Qed.

Lemma LobbyView_same a b : lobby_plain a → lobby_plain b → enc LobbyView_json a = enc LobbyView_json b → a = b.
Proof.
  intros [Ha Ha'] [Hb Hb'] E. apply (struct_same LobbyView_fields) in E; [|reflexivity|vm_compute; reflexivity].
  unfold LobbyView_fields in E. same_fields E.
  match goal with E : field_opt _ LobbyGameLaunchView_json _ = _ |- _ =>
    apply (field_opt_same_on launch_plain) in E; [|apply LobbyGameLaunchView_same|done|done] end.
  match goal with E : field _ ascii _ = _ |- _ => apply field_written, ascii_same in E; [|done..] end.
  destruct a, b; cbn in *; by subst.
Qed.

(** A tagged document shows its tag and its fields. *)
Lemma tagged_same t t' fs fs' : tagged t fs = tagged t' fs' → t = t' ∧ object fs = object fs'.
Proof.
  intros E. change (JObject (("type"%string, JString t) :: written fs) = JObject (("type"%string, JString t') :: written fs')) in E.
  injection E as <- E. split; [done|]. unfold object. by rewrite E.
Qed.

Ltac same_message E :=
  apply object_fields in E; [|reflexivity|apply (bool_decide_unpack _); vm_compute; exact I];
  lazymatch type of E with ?x = ?y =>
    let x' := eval hnf in x in let y' := eval hnf in y in change (x' = y') in E end;
  same_fields E;
  repeat match goal with
    | F : field _ RoomView_json ?v = field _ RoomView_json ?v' |- _ =>
        assert (v = v') by (apply RoomView_same; [done..|by apply field_written in F]); clear F
    | F : field _ LobbyView_json ?v = field _ LobbyView_json ?v' |- _ =>
        assert (v = v') by (apply LobbyView_same; [done..|by apply field_written in F]); clear F
    end; by subst.

Lemma server_messages_differ a b :
  server_plain a → server_plain b → encode_server_message a = encode_server_message b → a = b.
Proof.
  unfold encode_server_message. intros Ha Hb [Et E]%tagged_same.
  destruct a, b; cbn [server_variant fst] in Et; try discriminate Et; clear Et; try done; cbn in Ha, Hb; cbn [server_variant snd] in E.
  all: same_message E.
Qed.

Lemma lobby_messages_differ a b :
  lobby_server_plain a → lobby_server_plain b → encode_lobby_message a = encode_lobby_message b → a = b.
Proof.
  unfold encode_lobby_message. intros Ha Hb [Et E]%tagged_same.
  destruct a, b; cbn [lobby_server_variant fst] in Et; try discriminate Et; clear Et; try done; cbn in Ha, Hb;
    cbn [lobby_server_variant snd] in E.
  all: same_message E.
Qed.
End distinct.

(** *** Payloads between players *)

(** What a client reads of one field of a message. *)
Definition peer_reads {A} (name : string) (c : Codec A) (doc : Value) : option A :=
  '(_, src) ← tag_of doc; fst <$> read name c src.

Lemma peer_reads_tagged {A} name (c : Codec A) a tag fs `{!Relayed c} :
  bool_decide ("type"%string ∉ fs.*1) = true → keys_distinct fs = true → assoc name fs = Some (Some (enc c a)) →
  came_from c a → peer_reads name c (tagged tag fs) = Some a.
Proof.
  intros Hfs Hk Ha Hfrom. unfold peer_reads. rewrite tag_of_tagged by (by apply bool_decide_eq_true in Hfs).
  cbn [mbind option_bind]. pose proof (read_or_written fs Hk name c None None (mret (M := Reader)) a Ha _ Hfrom) as Hr. unfold read.
  unfold mbind, reader_bind, mret, reader_ret in Hr. destruct (read_or _ _ _ _ _) as [[a' src]|]; [|done].
  by injection Hr as -> _.
Qed.

(** Exactly one event is sent; the sender's own socket says nothing of it, and every other socket of
    the room sends a document from which the payload is read. *)
Definition delivers `{SerdeLib} {A} (name : string) (c : Codec A) (payload : A) (sender : ConnectionId) (s s' : StoredRoom) : Prop :=
  ∃ event, events s' = events s ++ [event] ∧ room_event_message sender event = None
    ∧ ∀ receiver, receiver ≠ sender → ∃ m, room_event_message receiver event = Some m
        ∧ peer_reads name c (encode_server_message m) = Some payload.
Definition arrives `{SerdeLib} {A} (name : string) (c : Codec A) (payload : A) (sender : ConnectionId) (before after : Cell) : Prop :=
  delivers name c payload sender (cell_room before) (cell_room after).

Lemma said_true {E} `{EqDecision E} (o : result E bool) : (o ==? Ok true) = match o with Ok a => id a | Err _ => false end.
Proof. destruct o as [[]|]; by case_bool_decide. Qed.

Section arrival.
Context `{SerdeLaws}.

Lemma emit_arrives {A E} name (c : Codec A) payload sender (f : StoredRoom → StoredRoom) cell o cell' :
  (∀ s, delivers name c payload sender s (f s)) →
  emit_recorded (E := E) f cell = (o, cell') → arrives name c payload sender cell cell'.
Proof.
  intros Hf [= _ <-]. destruct (Hf (cell_room cell)) as (event & Hev & Hrest). by exists event.
Qed.

Lemma arrives_after {A} name (c : Codec A) payload sender cell cell1 cell' :
  events (cell_room cell1) = events (cell_room cell) →
  arrives name c payload sender cell1 cell' → arrives name c payload sender cell cell'.
Proof. intros He (event & Hev & Hrest). exists event. by rewrite <-He. Qed.

(** A call that asks the room and then sends one event, if the room says so. *)
Lemma asked_arrives {E A B} name (c : Codec A) payload sender (m : M NetplayRoom E B) (says : B → bool) f cell :
  (∀ s, delivers name c payload sender s (f s)) →
  let o := (m (stored_room (cell_room cell))).1 in
  let after := (a ← on_netplay_room m; if negb (says a) then mret tt else emit_recorded f) cell in
  if match o with Ok a => says a | Err _ => false end then arrives name c payload sender cell after.2
  else events (cell_room after.2) = events (cell_room cell).
Proof.
  intros Hf. cbv zeta. unfold mbind, M_bind, on_netplay_room. destruct (m _) as [[a|e] r]; cbn [fst]; [|done].
  destruct (says a); [|done]. eapply arrives_after; [|by eapply emit_arrives; [exact Hf|apply surjective_pairing]]. done.
Qed.

End arrival.

Lemma emit_events wall_ms now kind detail event s :
  ∃ room, events (emit wall_ms now kind detail event s) = events s ++ [event room].
Proof. by eexists. Qed.

(** An event for everybody but its source. *)
Lemma delivers_emit `{SerdeLib} {A} name (c : Codec A) payload sender wall_ms now kind detail event s :
  (∀ room, room_event_message sender (event room) = None
     ∧ ∀ receiver, receiver ≠ sender → ∃ m, room_event_message receiver (event room) = Some m
         ∧ peer_reads name c (encode_server_message m) = Some payload) →
  delivers name c payload sender s (emit wall_ms now kind detail event s).
Proof.
  intros He. destruct (emit_events wall_ms now kind detail event s) as [room Hroom]. by exists (event room).
Qed.

Ltac delivered := intros s; apply delivers_emit; intros room; split;
  [cbn [room_event_message]; by rewrite bool_decide_eq_true_2
  |intros receiver Hne; eexists; split;
   [cbn [room_event_message]; rewrite bool_decide_eq_false_2 by congruence; reflexivity
   |apply peer_reads_tagged; [apply _|vm_compute; reflexivity|vm_compute; reflexivity|reflexivity|done]]].

(** *** Numbers *)

Lemma came_from_u64 n : came_from u64 n → n ≤ u64_max.
Proof.
  intros [[] Hv]; try done. cbn in Hv. destruct (_ && _)%Z eqn:E; [|done]. injection Hv as <-.
  apply andb_true_iff in E as [_ E%Z.ltb_lt]. unfold u64_max. lia.
Qed.

Lemma came_from_struct {A} (fs : A → Fields) (r : Reader A) a :
  came_from (struct_codec fs r) a → ∃ src src', r src = Some (a, src').
Proof.
  intros [v Hv]. cbn in Hv. unfold read_struct in Hv. destruct (source_of v) as [src|]; [|done].
  apply finish_some in Hv as [src' Hr]. by exists src, src'.
Qed.

(** The steps of a room that a message of a control socket with frame numbers leads to. *)
Definition message_action (c : ConnectionId) (now : Instant) (message : Client.ClientMessage) : option Action :=
  match message with
  | Client.InputFrame _ _ input => Some (LegacyInputIn c [cursor_from_input input] InputFrameLimits_default)
  | Client.StateHash _ _ report => Some (StateHashIn c report now)
  | _ => None
  end.

(** The epochs that a message carries. *)
Definition message_epochs (message : Client.ClientMessage) : list N :=
  match message with
  | Client.Ping | Client.ClockSyncPing _ => []
  | Client.ClockSyncSample re se _ | Client.SetCompatibilityFingerprint re se _
  | Client.SetLinkCableCompatibility re se _ | Client.Ready re se _ | Client.DeterministicReady re se _ _
  | Client.SnapshotChunk re se _ | Client.SnapshotComplete re se _ | Client.SnapshotFileRelayRequested re se _
  | Client.SnapshotFileRelayUploadComplete re se _ _ | Client.RomRelayRequest re se | Client.RomRelayProgress re se _
  | Client.RomRelayCompleted re se _ | Client.RomRelayFailed re se _ | Client.RomRelayCancelled re se _
  | Client.InputFrame re se _ | Client.LinkCablePacket re se _ | Client.Heartbeat re se _ _ _ _
  | Client.RequestSessionPause re se _ _ _ | Client.SessionPauseReached re se _ _
  | Client.RequestSessionResume re se _ _ _ | Client.PlayerExited re se _ | Client.RefreshVoiceToken re se
  | Client.StateHash re se _ | Client.StateRecoveryPinned re se _ => [re; se]
  end.

(** A library for examples: a UUID is written as that many strokes. *)
Definition strokes : SerdeLib :=
  mkSerdeLib (λ n, string_of_bytes (replicate (N.to_nat n) 124)) (λ s, Some (N.of_nat (length (string_bytes s))))
    (λ v, match v with JNull => true | _ => false end).

Lemma strokes_bytes n : string_bytes (@uuid_show strokes n) = replicate (N.to_nat n) 124.
Proof. cbn. apply bytes_of_string_of_bytes, Forall_replicate. done. Qed.

#[export] Instance strokes_laws : @SerdeLaws strokes.
Proof.
  split.
  - intros a b E. apply (f_equal (length ∘ string_bytes)) in E. cbn [compose] in E. unfold compose in E.
    rewrite !strokes_bytes, !length_replicate in E. lia.
  - intros s n _. cbn [uuid_parse strokes]. rewrite strokes_bytes, length_replicate. f_equal. lia.
Qed.

Module Documents.



(** C11: payloads pass the relay unchanged. A link-cable packet, a chunk or the manifest of a snapshot
    and the progress of a ROM transfer that a control socket read from a document, and that the
    room accepted, are sent in one event. The sender's socket stays silent about it; the
    socket of every other player writes a document in which that player reads the very same
    payload. What the room refuses, and a chunk or manifest that it has already seen, sends
    nothing. *)
Theorem payloads_pass_unchanged `{SerdeLaws} deps wall_ms now sender cell doc re se :
  let room := stored_room (cell_room cell) in
  let passed {A B} name (c : Codec A) payload (accepted : bool) (after : B * Cell) :=
    if accepted then arrives name c payload sender cell after.2 else events (cell_room after.2) = events (cell_room cell) in
  (∀ packet, decode_client_message doc = Some (Client.LinkCablePacket re se packet) →
     passed "packet" LinkCablePacket_json packet
       (is_ok (accept_link_cable_packet sender packet LinkCablePacketLimits_default room).1)
       (relay_link_cable_packet wall_ms now sender packet cell))
  ∧ (∀ chunk, decode_client_message doc = Some (Client.SnapshotChunk re se chunk) →
     passed "chunk" SnapshotChunk_json chunk
       ((accept_snapshot_chunk (digest_of deps) sender chunk SnapshotLimits_default room).1 ==? Ok true)
       (relay_snapshot_chunk deps wall_ms now sender chunk cell))
  ∧ (∀ manifest, decode_client_message doc = Some (Client.SnapshotComplete re se manifest) →
     passed "manifest" SnapshotManifest_json manifest
       ((accept_snapshot_complete (digest_of deps) sender manifest SnapshotLimits_default room).1 ==? Ok true)
       (relay_snapshot_complete deps wall_ms now sender manifest cell))
  ∧ ∀ progress, decode_client_message doc = Some (Client.RomRelayProgress re se progress) →
     passed "progress" RomRelayProgress_json progress (is_ok (accept_rom_relay_progress sender progress room))
       (relay_rom_relay_progress wall_ms now sender progress cell).
Proof.
  cbv zeta. split_and!; intros x (_ & _ & Hx)%decoded_parts; cbn in Hx.
  - pose proof (asked_arrives "packet" LinkCablePacket_json x sender
      (accept_link_cable_packet sender x LinkCablePacketLimits_default) (λ _, true)
      (emit_link_cable_packet wall_ms now sender x) cell ltac:(delivered)) as Ha. exact Ha.
  - pose proof (asked_arrives "chunk" SnapshotChunk_json x sender
      (accept_snapshot_chunk (digest_of deps) sender x SnapshotLimits_default) id
      (emit_snapshot_chunk wall_ms now sender x) cell ltac:(delivered)) as Ha. by rewrite said_true.
  - pose proof (asked_arrives "manifest" SnapshotManifest_json x sender
      (accept_snapshot_complete (digest_of deps) sender x SnapshotLimits_default) id
      (emit_snapshot_complete wall_ms now sender x) cell ltac:(delivered)) as Ha. by rewrite said_true.
  - unfold relay_rom_relay_progress, mbind, M_bind, lift_result, get. cbv beta iota.
    destruct (accept_rom_relay_progress _ _ _) as [[]|e]; [|done]. cbn [is_ok].
    eapply emit_arrives; [|apply surjective_pairing]. delivered.
Qed.
(** A chunk that the host of a synchronising room sends. *)
Definition chunk_document : Value :=
  JObject [("type", JString "snapshotChunk"); ("roomEpoch", JInt 0); ("sessionEpoch", JInt 0);
           ("chunk", JObject [("bytes", JArray [JInt 1]); ("snapshotId", JString "s-1"); ("repairFrame", JInt 0);
                              ("index", JInt 0)])]%string.
Definition syncing_cell : Cell :=
  mkCell (StoredRoom_new ((Sample.playing 5) <| status := SyncingState |>) 0) (mkFeed RoomDebugEventLog_default [] [] []).

Lemma payloads_pass_unchanged_witness :
  let chunk := mkSnapshotChunk "s-1" 0 0 [x01] in
  @decode_client_message strokes chunk_document = Some (Client.SnapshotChunk 0 0 chunk)
  ∧ @arrives strokes _ "chunk" SnapshotChunk_json chunk (Sample.conn 1) syncing_cell
      (relay_snapshot_chunk sample_deps 0 0 (Sample.conn 1) chunk syncing_cell).2.
Proof.
  cbv zeta. split; [vm_compute; reflexivity|].
  destruct (@payloads_pass_unchanged strokes strokes_laws sample_deps 0 0 (Sample.conn 1) syncing_cell chunk_document 0 0)
    as (_ & Hchunk & _).
  refine (Hchunk (mkSnapshotChunk "s-1" 0 0 [x01]) _). vm_compute. reflexivity.
Defined.



(** C26: no two server messages look the same. On the control socket and on the lobby socket, messages
    that are written as the same document are the same message: the tag tells the variants apart
    and no field is lost, including those that are left out when they are empty. *)
Theorem server_messages_are_distinct `{SerdeLaws} :
  (∀ a b, server_plain a → server_plain b → encode_server_message a = encode_server_message b → a = b)
  ∧ ∀ a b, lobby_server_plain a → lobby_server_plain b → encode_lobby_message a = encode_lobby_message b → a = b.
Proof. split; [apply server_messages_differ|apply lobby_messages_differ]. Qed.

Lemma server_messages_are_distinct_witness :
  let chunk := mkSnapshotChunk "s-1" 0 0 [x01] in
  let read_back := default (mkSnapshotChunk "s-2" 0 0 []) (dec SnapshotChunk_json (@enc _ SnapshotChunk_json chunk)) in
  Server.SnapshotChunk 0 0 chunk = Server.SnapshotChunk 0 0 read_back
  ∧ @encode_server_message strokes (Server.SnapshotChunk 0 0 chunk)
    ≠ @encode_server_message strokes (Server.SnapshotChunk 0 0 (mkSnapshotChunk "s-1" 0 0 [x02])).
Proof.
  split.
  - apply (proj1 (@server_messages_are_distinct strokes strokes_laws)); [exact I|exact I|vm_compute; reflexivity].
  - intros E. apply (proj1 (@server_messages_are_distinct strokes strokes_laws)) in E; [discriminate E|exact I|exact I].
Defined.
End Documents.
